(* ===== verification/_CoqProject ===== *)
-Q . S2P
Prelude.v
Bitops.v
ListHead.v
TaskStruct.v
Sched.v
SchedInv.v
SchedSpec.v
SchedBoot.v
SchedApi.v
SchedThms.v
Mutex.v
MutexThms.v
MmTypes.v
KernelLocks.v
Pages.v
PagesInv.v
PagesThms.v
PagesRun.v
Mem.v
CString.v
S3c2440.v
Printk.v
PrintkThms.v
Mmu.v
MmuThms.v
MmBoot.v
MmBootThms.v
Tq2440.v
Slab.v
SlabThms.v
SlabAlloc.v
Pid.v
Interrupt.v
Regs.v
Syscall.v
SysWrite.v
Ramdisk.v
Genramdisk.v
Elf.v
ElfThms.v
TaskMem.v
TaskMemInv.v
TaskMemThms.v
TaskLoad.v
TaskCopy.v
TaskArgs.v
KernelCalm.v
TaskBuild.v
Task.v
Signal.v
TaskRelease.v
TaskThms.v
Exec.v
Kthread.v
ForkUser.v
ForkThms.v
ExecThms.v
SignalThms.v
TaskKill.v
TaskKillThms.v
Trap.v
TrapThms.v
Arm.v
Entry.v
EntryThms.v
Boot.v
SlabFirst.v
StartLocks.v
StartSched.v
Start.v
StartMem.v
StartThms.v
