(* ===== verification/Prelude.v ===== *)
(** * mirros: verification development

    mirros is a small kernel for ARM920T boards (the tq2440): a priority scheduler
    with mutexes, a zoned page allocator with a slab allocator on top, the MMU
    tables, a formatter that prints to the serial port, interrupts, system calls,
    signals, a ram disk and a loader of ELF programs.  This library translates the C
    code under [src/] and proves what makes it correct.

    ** How the code is translated

    C integers are the [Z] they denote, with the conversion to their width ([u8],
    [u16], [u32], [s32]) after every operation that can leave it.  Lists threaded
    through structures are nodes of one heap ([ListHead]); memory whose bytes matter
    (strings, translation tables, program images) is a partial map from addresses to
    bytes ([Mem]); device registers are a log of accesses whose reads are a
    parameter.  A state-changing C function is a function from a state to an
    [option]: [None] is behaviour C leaves undefined (a null or unmapped access, an
    index outside an array) or, in a loop, fuel that ran out.  A loop takes as fuel a
    bound the source implies (the length of the list or the array, the width of the
    integer), and the theorems prove that the loop returns.  A function that gives
    the processor away returns a [Switched] value at the switch; what follows the
    switch is a separate [_resume] definition, run when the task is resumed.

    ** The parts and their files

    - [Prelude]: integers, notations, array access, loops; [Bitops]
      ([include/os/bitops.h], [kernel/bitops.c], [bound.h]): bit maps, alignment;
      [ListHead] ([include/os/list.h]): the intrusive lists and their refinement to
      sequences.
    - [TaskStruct], [Sched] ([kernel/sched.c], [include/os/task.h], the context
      switch of [arm920t_s.S]): tasks, queues, state machine, choice of a task, tick,
      suspension.  [SchedInv] relates the queues to sequences of tasks, [SchedSpec]
      is the abstract scheduler and its simulation, [SchedBoot] the state after
      initialisation, [SchedApi] runs of calls, [SchedThms] the properties.
    - [Mutex], [MutexThms] ([kernel/mutex.c]): mutexes on the scheduler; the
      invariant that relates counts, holders and wait queues.
    - [MmTypes], [Pages], [PagesInv], [PagesThms] ([mm/mm.c], second half): the page
      map, pages, zones; allocation, release, reference counts.  The allocators see
      mutexes through the class [LockCalls], which gives the calls, and [LockOps], which
      adds the mutexes that are free and that locking and unlocking one succeeds;
      [KernelLocks] makes the calls those of [Mutex] and proves the law in a running
      kernel, [KernelCalm] when nobody waits, [StartLocks] before the first task.
      [PagesRun] follows runs of allocations of single pages.
    - [MmBoot], [MmBootThms] ([mm/mm.c], first half), [Tq2440]
      ([machine/tq2440_init.c]): memory regions, zones, kernel mapping, and the whole
      of [mm_init] on the board.
    - [Slab], [SlabThms], [SlabAlloc], [SlabFirst] ([mm/slab.c]): slices of pages; the
      common path of [kmalloc] and its very first call.
    - [Mmu], [MmuThms] ([kernel/mmu.c], [arm920t.h]): descriptors and tables, read by
      [mmu_walk], the walk of the architecture.
    - [Mem], [CString] ([kernel/string.c], [memcpy] of [machine/lib.S]), [S3c2440]
      ([machine/s3c2440_c.c]), [Printk], [PrintkThms] ([kernel/printk.c]): strings,
      drivers, formatter.  The kernel runs with alignment checks and [memcpy] moves
      words, so the readers of the ram disk and of programs have word alignment
      ([copies]) among their hypotheses.
    - [Pid] ([sched.c], pid map), [Interrupt] ([kernel/interrupt.c], [arm920t_c.c],
      the timer of [s3c2440_c.c]), [Regs] (register frames of [arm920t_c.c] and the
      context switch), [Syscall] ([kernel/syscall.c], [syscall_entry.S]), [SysWrite]
      ([arch/arm/machine/syscall.c]): the identifiers of tasks, the table of handlers
      and its dispatch, the first frame of a task, the call table, a program's output.
    - [Ramdisk] ([kernel/ramdisk.c]), [Genramdisk] ([tools/genramdisk]), [Elf] and
      [ElfThms] ([kernel/elf.c]): files in the ram disk, the host tool that writes
      the image, the sections of a program.
    - [TaskMem], [TaskMemInv], [TaskMemThms], [TaskLoad], [TaskCopy], [TaskArgs]
      ([kernel/task.c]): the address space of a task (page tables, pages, kernel
      stack), the tables loaded at a switch and what the architecture walk finds
      through them, the loading of a program, the copy on fork, the argument page.
    - [TaskBuild], [Task], [Signal] ([kernel/task.c], [kernel/signal.c],
      [init/init_task.c], [arch/arm/machine/syscall.c]): creation, fork, exec and death of
      a task and the signals, on one state of the whole kernel.  [TaskRelease] shows
      that a task's pages all come back, [TaskThms] and [Kthread] that a new kernel
      thread starts, [ForkUser] and [ForkThms] that a fork gives a child with a copy of
      the memory that continues behind the call, [Exec] and [ExecThms] that a new task
      which executes a file starts its program (from the part of [do_exec] behind the
      reading of the ELF headers, which is [ElfThms]), [SignalThms] that a task which
      exits never gets the processor back, [TaskKill] and [TaskKillThms] that a killed
      task is gone, from the queue of the mutex it waits for as well; the theorems
      leave out a task that is killed while it holds a mutex.
    - [Trap], [TrapThms] ([arm920t_c.c]): the vectors and the stacks of the exception
      modes.
    - [Start] ([init/main.c]) runs the initialisers of all components in the order of
      [main] on one machine.  [StartLocks], [StartSched], [StartMem] are the locks, the
      scheduler and the memory of a kernel without tasks; [StartThms] follows [main] from
      the zeroed data of the image to the first kernel thread.
    - [Arm], [Entry], [EntryThms] ([machine/entry.S], the context switch of
      [arm920t_s.S]): a machine with banked registers, the routines between a task and the
      kernel as lists of instructions, and that a task leaves the kernel as it entered it.
      All of them share the frame of [Regs].  [Boot] ([machine/boot.S]) goes from the load
      address to [main].

    ** Parameters

    The values a device register returns, the address where an I/O region is
    mapped, and the interrupt mask a switched-in task restores come from outside
    the code and are arguments.  The class [LockOps] is the only interface assumed
    of another component, and it is proved three times.

    ** Not modelled

    The vectors for aborts, undefined instructions and fast interrupts; the coprocessor
    writes of [boot.S] and the memory controller set-up of [s3c2440_s.S]; the condition
    flags in [Arm], where a comparison and the conditional call behind it are one step;
    the maintenance of caches and translation buffers, which the tables of the model do
    without; [raise] and the abort handlers, which only print and stop; interrupts
    between [enable_irqs] and the endless loop of [main]; user programs, which run on
    registers the kernel does not see; the
    vendored C library headers under [tools/diet-libc]; build scripts and the
    simulator's configuration.  Log messages other than through [Printk] have no
    effect on the state and are left out of the functions that emit them.

    ** Deviations

    Where the code does not do what it means to, a theorem shows it on the
    definitions: see the last section of each file of theorems.  The properties
    beside them say under which conditions the code does what it should: calls of the
    scheduler in the states the kernel makes them in, a search for pages that does not
    leave the zone, copies [memcpy] can do, sections whose last chunk stays in its page. *)

From Stdlib Require Export ZArith Lia Bool.
From stdpp Require Export base tactics option list gmap.

#[global] Open Scope Z_scope.

(** ** Machine integers

    The kernel is compiled for a 32-bit ARM: [int], [long], [unsigned long] and
    pointers are 32 bits wide and [char] is unsigned.  A C integer is the [Z]
    it denotes and every operation that can leave the range of its type is
    followed by the conversion to that type. *)

Definition wrap (w x : Z) : Z := x mod 2 ^ w.
Definition u8 (x : Z) : Z := wrap 8 x.
Definition u16 (x : Z) : Z := wrap 16 x.
Definition u32 (x : Z) : Z := wrap 32 x.
Definition s32 (x : Z) : Z := (x + 2 ^ 31) mod 2 ^ 32 - 2 ^ 31.

Declare Scope c_scope.
Delimit Scope c_scope with C.
Notation "a +u b" := (u32 (a + b)) (at level 50, left associativity) : c_scope.
Notation "a -u b" := (u32 (a - b)) (at level 50, left associativity) : c_scope.
Notation "a *u b" := (u32 (a * b)) (at level 40, left associativity) : c_scope.
Notation "a <<u b" := (u32 (Z.shiftl a b)) (at level 45, left associativity) : c_scope.
Notation "a >>u b" := (Z.shiftr a b) (at level 45, left associativity) : c_scope.
Notation "a &u b" := (Z.land a b) (at level 46, left associativity) : c_scope.
Notation "a |u b" := (Z.lor a b) (at level 47, left associativity) : c_scope.
Notation "~u a" := (u32 (Z.lnot a)) (at level 35, right associativity) : c_scope.
#[global] Open Scope c_scope.

(** A truth value used as an [int]. *)
Definition truth (z : Z) : bool := negb (Z.eqb z 0).
Definition c_bool (b : bool) : Z := if b then 1 else 0.

Definition is_u32 (x : Z) : Prop := 0 <= x < 2 ^ 32.
Definition is_s32 (x : Z) : Prop := - 2 ^ 31 <= x < 2 ^ 31.

Create HintDb cint.
Create Rewrite HintDb cint.

Lemma u32_range (x : Z) : 0 <= u32 x < 2 ^ 32.
Proof. apply Z.mod_pos_bound; lia. Qed.

Lemma u32_small (x : Z) : 0 <= x < 2 ^ 32 -> u32 x = x.
Proof. intros H; apply Z.mod_small; exact H. Qed.

Lemma u8_small (x : Z) : 0 <= x < 2 ^ 8 -> u8 x = x.
Proof. intros H; apply Z.mod_small; exact H. Qed.

Lemma u8_range (x : Z) : 0 <= u8 x < 2 ^ 8.
Proof. apply Z.mod_pos_bound; lia. Qed.

Lemma u16_small (x : Z) : 0 <= x < 2 ^ 16 -> u16 x = x.
Proof. intros H; apply Z.mod_small; exact H. Qed.

Lemma u32_u32 (x : Z) : u32 (u32 x) = u32 x.
Proof. apply u32_small, u32_range. Qed.

Lemma u32_add_l (x y : Z) : u32 (u32 x + y) = u32 (x + y).
Proof. unfold u32, wrap. apply Zplus_mod_idemp_l. Qed.

Lemma u32_add_r (x y : Z) : u32 (x + u32 y) = u32 (x + y).
Proof. unfold u32, wrap. apply Zplus_mod_idemp_r. Qed.

Lemma u32_sub_l (x y : Z) : u32 (u32 x - y) = u32 (x - y).
Proof. unfold u32, wrap. apply Zminus_mod_idemp_l. Qed.

Lemma u32_sub_r (x y : Z) : u32 (x - u32 y) = u32 (x - y).
Proof. unfold u32, wrap. apply Zminus_mod_idemp_r. Qed.

Lemma s32_small (x : Z) : - 2 ^ 31 <= x < 2 ^ 31 -> s32 x = x.
Proof. intros H; unfold s32. rewrite Z.mod_small by lia. lia. Qed.

Lemma s32_range (x : Z) : - 2 ^ 31 <= s32 x < 2 ^ 31.
Proof. unfold s32. pose proof (Z.mod_pos_bound (x + 2 ^ 31) (2 ^ 32)). lia. Qed.

Lemma u32_s32 (x : Z) : u32 (s32 x) = u32 x.
Proof.
  unfold s32, u32, wrap. rewrite Zminus_mod_idemp_l. f_equal. lia.
Qed.

Lemma s32_u32 (x : Z) : s32 (u32 x) = s32 x.
Proof. unfold s32, u32, wrap. by rewrite Zplus_mod_idemp_l. Qed.

Lemma truth_c_bool (b : bool) : truth (c_bool b) = b.
Proof. by destruct b. Qed.

#[export] Hint Rewrite u32_u32 u32_add_l u32_add_r u32_sub_l u32_sub_r
  u32_s32 s32_u32 truth_c_bool : cint.
#[export] Hint Resolve u32_range s32_range u8_range : cint.
#[export] Hint Unfold is_u32 is_s32 : cint.

(** [cwrap] removes the wrap-around where the operand is in range. *)
Ltac cwrap :=
  repeat first
    [ rewrite u32_small by lia | rewrite s32_small by lia
    | rewrite u16_small by lia | rewrite u8_small by lia
    | progress autorewrite with cint ].

(** [ubounds] adds the range of every wrapped subterm to the context. *)
Ltac ubounds :=
  repeat match goal with
  | |- context [u32 ?x] =>
      lazymatch goal with
      | _ : 0 <= u32 x < _ |- _ => fail
      | _ => pose proof (u32_range x)
      end
  | _ : context [u32 ?x] |- _ =>
      lazymatch goal with
      | _ : 0 <= u32 x < _ |- _ => fail
      | _ => pose proof (u32_range x)
      end
  end.

(** ** Options as possibly undefined computations

    [None] is undefined behaviour of the C abstract machine (an access through
    a null pointer, an array index out of range) or exhausted fuel; stdpp's
    monadic notation sequences such computations. *)

Lemma bind_some {A B : Type} (f : A -> option B) (o : option A) (b : B) :
  (o ≫= f) = Some b <-> exists a, o = Some a /\ f a = Some b.
Proof. apply bind_Some. Qed.

(** Keeps long chains of binds folded, where [cbn] would not. *)
Lemma bind_Some_eq {A B : Type} (x : A) (f : A -> option B) : (Some x ≫= f) = f x.
Proof. done. Qed.

Ltac inv_bind H :=
  let a := fresh "v" in let E := fresh "E" in
  apply bind_some in H; destruct H as (a & E & H).

(** ** Arrays indexed by C integers *)

Definition aget {A : Type} (l : list A) (i : Z) : option A :=
  if Z.leb 0 i then l !! Z.to_nat i else None.

Definition aset {A : Type} (l : list A) (i : Z) (x : A) : option (list A) :=
  if Z.leb 0 i && Z.ltb i (Z.of_nat (length l)) then Some (<[Z.to_nat i := x]> l)
  else None.

Definition aupd {A : Type} (l : list A) (i : Z) (f : A -> A) : option (list A) :=
  x ← aget l i; aset l i (f x).

Section arrays.
Context {A : Type}.
Implicit Types (l : list A) (i j : Z) (x y : A).

Lemma aget_Some l i x :
  aget l i = Some x <-> 0 <= i /\ l !! Z.to_nat i = Some x.
Proof.
  unfold aget. destruct (Z.leb_spec 0 i).
  - split; [done|]. by intros [_ ?].
  - split; [done|]. intros [? _]. lia.
Qed.

Lemma aget_lt l i x : aget l i = Some x -> 0 <= i < Z.of_nat (length l).
Proof. intros [H1 H2]%aget_Some. apply lookup_lt_Some in H2. lia. Qed.

Lemma aget_is_Some l i : 0 <= i < Z.of_nat (length l) -> exists x, aget l i = Some x.
Proof.
  intros H. destruct (lookup_lt_is_Some_2 l (Z.to_nat i)) as [x Hx]; [lia|].
  exists x. apply aget_Some. split; [lia|done].
Qed.

Lemma aget_None l i : ~ (0 <= i < Z.of_nat (length l)) -> aget l i = None.
Proof.
  intros H. destruct (aget l i) eqn:E; [|done]. apply aget_lt in E. lia.
Qed.

Lemma aset_Some l i x :
  0 <= i < Z.of_nat (length l) -> aset l i x = Some (<[Z.to_nat i := x]> l).
Proof.
  intros H. unfold aset.
  destruct (Z.leb_spec 0 i), (Z.ltb_spec i (Z.of_nat (length l))); simpl; (done || lia).
Qed.

Lemma aset_inv l i x l' :
  aset l i x = Some l' ->
  0 <= i < Z.of_nat (length l) /\ l' = <[Z.to_nat i := x]> l.
Proof.
  unfold aset.
  destruct (Z.leb_spec 0 i), (Z.ltb_spec i (Z.of_nat (length l))); simpl; try done.
  intros [= <-]. split; [lia|done].
Qed.

Lemma aset_length l i x l' : aset l i x = Some l' -> length l' = length l.
Proof. intros [_ ->]%aset_inv. apply length_insert. Qed.

Lemma aget_aset_eq l i x l' : aset l i x = Some l' -> aget l' i = Some x.
Proof.
  intros [H ->]%aset_inv. apply aget_Some. split; [lia|].
  apply list_lookup_insert_eq. lia.
Qed.

Lemma aget_aset_ne l i j x l' :
  aset l i x = Some l' -> i <> j -> aget l' j = aget l j.
Proof.
  intros [H ->]%aset_inv Hne. unfold aget. destruct (Z.leb_spec 0 j); [|done].
  apply list_lookup_insert_ne. lia.
Qed.

Lemma aupd_inv l i f l' :
  aupd l i f = Some l' -> exists x, aget l i = Some x /\ aset l i (f x) = Some l'.
Proof. unfold aupd. intros (x & ? & ?)%bind_some. by exists x. Qed.

Lemma aupd_Some l i f x :
  aget l i = Some x -> aupd l i f = Some (<[Z.to_nat i := f x]> l).
Proof.
  intros H. unfold aupd. rewrite H. simpl. apply aset_Some. by apply aget_lt in H.
Qed.
End arrays.

#[export] Hint Resolve aget_lt aset_length aget_aset_eq : cint.

(** ** Removing an element from a sequence *)

Section without.
Context {A : Type} `{EqDecision A}.
Implicit Types (l : list A) (x y : A).

Definition without x l : list A := filter (fun y => y <> x) l.

Lemma elem_of_without x y l : y ∈ without x l <-> y ∈ l /\ y <> x.
Proof. unfold without. rewrite list_elem_of_filter. tauto. Qed.

Lemma without_app x l1 l2 : without x (l1 ++ l2) = without x l1 ++ without x l2.
Proof. apply filter_app. Qed.

Lemma without_notin x l : x ∉ l -> without x l = l.
Proof.
  unfold without. induction l as [|y l IH]; intros Hx; [done|].
  apply not_elem_of_cons in Hx as [? ?]. rewrite filter_cons_True by congruence.
  by rewrite IH.
Qed.

Lemma without_middle x l1 l2 : NoDup (l1 ++ x :: l2) -> without x (l1 ++ x :: l2) = l1 ++ l2.
Proof.
  intros (_ & Hd & Hn)%NoDup_app. apply NoDup_cons in Hn as [Hx _].
  rewrite without_app. unfold without at 2. rewrite filter_cons_False by tauto.
  rewrite without_notin; [|intros Hin; apply (Hd x Hin), elem_of_cons; by left].
  f_equal. by apply without_notin.
Qed.

Lemma NoDup_without x l : NoDup l -> NoDup (without x l).
Proof. apply NoDup_filter. Qed.

Lemma length_without x l : NoDup l -> x ∈ l -> S (length (without x l)) = length l.
Proof.
  intros Hn Hx. apply list_elem_of_split in Hx as (l1 & l2 & ->).
  rewrite without_middle by done. rewrite !length_app. simpl. lia.
Qed.
End without.

(** ** Counted loops

    [for_range n i body s] is [for (k = i; k < i + n; k++) s = body k s]. *)

Fixpoint for_range {S : Type} (n : nat) (i : Z) (body : Z -> S -> option S) (s : S)
  : option S :=
  match n with
  | O => Some s
  | Datatypes.S n' => s' ← body i s; for_range n' (i + 1) body s'
  end.

Section for_range.
Context {S : Type}.

Lemma for_range_inv (P : Z -> S -> Prop) n i body s :
  P i s ->
  (forall j t, i <= j < i + Z.of_nat n -> P j t ->
     exists t', body j t = Some t' /\ P (j + 1) t') ->
  exists s', for_range n i body s = Some s' /\ P (i + Z.of_nat n) s'.
Proof.
  revert i s. induction n as [|n IH]; intros i s H0 Hs; simpl.
  { exists s. split; [done|]. by rewrite Z.add_0_r. }
  destruct (Hs i s) as (t & Ht & Pt); [lia|done|]. rewrite Ht. simpl.
  destruct (IH (i + 1) t) as (s' & Hs' & Ps'); [done| |].
  { intros j u Hj. apply Hs. lia. }
  exists s'. split; [done|].
  by replace (i + Z.of_nat (Datatypes.S n)) with (i + 1 + Z.of_nat n) by lia.
Qed.

Lemma for_range_app n m i body (s : S) :
  for_range (n + m) i body s =
  s' ← for_range n i body s; for_range m (i + Z.of_nat n) body s'.
Proof.
  revert i s. induction n as [|n IH]; intros i s; simpl.
  { by rewrite Z.add_0_r. }
  destruct (body i s) as [t|]; simpl; [|done]. rewrite IH.
  by replace (i + 1 + Z.of_nat n) with (i + Z.of_nat (Datatypes.S n)) by lia.
Qed.

(** Partial-correctness rule: what holds of a run that did return. *)
Lemma for_range_run (P : Z -> S -> Prop) n i body s s' :
  for_range n i body s = Some s' -> P i s ->
  (forall j t t', i <= j < i + Z.of_nat n -> P j t -> body j t = Some t' -> P (j + 1) t') ->
  P (i + Z.of_nat n) s'.
Proof.
  revert i s. induction n as [|n IH]; intros i s Hr H0 Hs; simpl in *.
  { injection Hr as <-. by rewrite Z.add_0_r. }
  inv_bind Hr.
  replace (i + Z.of_nat (Datatypes.S n)) with (i + 1 + Z.of_nat n) by lia.
  apply (IH (i + 1) v); [done|apply (Hs i s); (done || lia)|].
  intros j t t' Hj. apply Hs. lia.
Qed.
End for_range.

(** ** Error numbers of [include/os/errno.h] *)
Definition ENOENT : Z := 2.
Definition EIO : Z := 5.
Definition ENOMEM : Z := 12.
Definition EFAULT : Z := 14.
Definition EINVAL : Z := 22.
