(* ===== verification/Bitops.v ===== *)
(** * Bit maps and alignment

    Models [include/os/bound.h] (the alignment macros), [include/os/bitops.h]
    and [kernel/bitops.c] (bit maps stored as arrays of 32-bit words).  The
    abstract view of a bit map is [bit_at]: the truth value of bit [n]; the
    lemmas [set_bit_some], [clear_bit_some] and [read_bit_some] say that the
    word operations implement it. *)

From S2P Require Import Prelude.

(** ** [include/os/bound.h] *)

Definition PAGE_SIZE : Z := 4096.
Definition PAGE_SHIFT : Z := 12.
Definition SIZE_1K : Z := 1024.
Definition SIZE_1M : Z := 1024 * 1024.
Definition SIZE_1G : Z := 1024 * 1024 * 1024.

Definition baligin (num size : Z) : Z := (num +u size -u 1) &u ~u (size - 1).
Definition daligin (num size : Z) : Z := ((num +u size -u 1) / size) *u size.
Definition min_aligin (num size : Z) : Z := num &u ~u (size - 1).
Definition is_aligin (base bound : Z) : bool := Z.eqb (base &u u32 (bound - 1)) 0.
Definition page_nr (size : Z) : Z := baligin size PAGE_SIZE >>u PAGE_SHIFT.

(** Clearing the low [k] bits of a 32-bit word. *)
Lemma land_lnot_mask (x k : Z) :
  0 <= k < 32 -> 0 <= x < 2 ^ 32 ->
  Z.land x (u32 (Z.lnot (2 ^ k - 1))) = 2 ^ k * (x / 2 ^ k).
Proof.
  intros Hk Hx. unfold u32, wrap. rewrite <- Z.land_ones by lia.
  rewrite Z.land_assoc.
  assert (E : Z.land x (Z.lnot (2 ^ k - 1)) = 2 ^ k * (x / 2 ^ k)).
  { replace (2 ^ k - 1) with (Z.ones k) by (rewrite Z.ones_equiv; lia).
    rewrite <- Z.ldiff_land, Z.ldiff_ones_r by lia.
    rewrite Z.shiftl_mul_pow2, Z.shiftr_div_pow2 by lia. lia. }
  rewrite E, Z.land_ones by lia. apply Z.mod_small.
  assert (0 < 2 ^ k) by (apply Z.pow_pos_nonneg; lia).
  pose proof (Z.mul_div_le x (2 ^ k)). pose proof (Z.div_pos x (2 ^ k)). nia.
Qed.

Lemma land_mask (x k : Z) :
  0 <= k < 32 -> Z.land x (u32 (2 ^ k - 1)) = x mod 2 ^ k.
Proof.
  intros Hk. assert (2 ^ k < 2 ^ 32) by (apply Z.pow_lt_mono_r; lia).
  assert (0 < 2 ^ k) by (apply Z.pow_pos_nonneg; lia).
  rewrite u32_small by lia.
  replace (2 ^ k - 1) with (Z.ones k) by (rewrite Z.ones_equiv; lia).
  apply Z.land_ones. lia.
Qed.

Lemma baligin_eq (num k : Z) :
  0 <= k < 32 -> 0 <= num -> num + 2 ^ k - 1 < 2 ^ 32 ->
  baligin num (2 ^ k) = 2 ^ k * ((num + 2 ^ k - 1) / 2 ^ k).
Proof.
  intros Hk Hn Hs. assert (0 < 2 ^ k) by (apply Z.pow_pos_nonneg; lia).
  unfold baligin. rewrite u32_sub_l, u32_small by lia.
  apply land_lnot_mask; lia.
Qed.

Lemma min_aligin_eq (num k : Z) :
  0 <= k < 32 -> 0 <= num < 2 ^ 32 ->
  min_aligin num (2 ^ k) = 2 ^ k * (num / 2 ^ k).
Proof. apply land_lnot_mask. Qed.

Lemma is_aligin_eq (base k : Z) :
  0 <= k < 32 -> is_aligin base (2 ^ k) = Z.eqb (base mod 2 ^ k) 0.
Proof. intros Hk. unfold is_aligin. by rewrite land_mask. Qed.

(** The alignment used by the page code: [k = 12]. *)
Lemma page_nr_eq (size : Z) :
  0 <= size -> size + 4095 < 2 ^ 32 -> page_nr size = (size + 4095) / 4096.
Proof.
  intros H1 H2. unfold page_nr, PAGE_SIZE, PAGE_SHIFT.
  change 4096 with (2 ^ 12) at 1. rewrite baligin_eq by lia.
  rewrite Z.shiftr_div_pow2 by lia. rewrite Z.mul_comm, Z.div_mul by lia.
  f_equal; lia.
Qed.

(** ** [include/os/bitops.h], [kernel/bitops.c] *)

Inductive bit_ops : Set := BITS_CLEAR | BITS_SET | BITS_READ.

#[global] Instance bit_ops_eq_dec : EqDecision bit_ops.
Proof. solve_decision. Defined.

(** A bit map is an array of [u32]; a [u32 *] is [None] when null. *)
Abbreviation bitmap := (list Z).

Definition bits_to_long (n : Z) : Z := ((n &u 0xffffffc0) / (4 * 8)) +u 1.

Definition get_bit_pos (n : Z) : Z * Z :=
  (s32 (u32 n / (4 * 8)), s32 (u32 n mod (4 * 8))).

Definition op_bits (bit_map : option bitmap) (n : Z) (ops : bit_ops)
  : option (option bitmap * Z) :=
  match bit_map with
  | None => Some (None, - EINVAL)
  | Some bm =>
      let '(x, y) := get_bit_pos n in
      w ← aget bm x;
      match ops with
      | BITS_CLEAR => bm' ← aset bm x (w &u ~u (1 <<u y)); Some (Some bm', 0)
      | BITS_SET => bm' ← aset bm x (w |u (1 <<u y)); Some (Some bm', 0)
      | BITS_READ => Some (Some bm, (w &u (1 <<u y)) >>u y)
      end
  end.

Definition clear_bit (bit_map : option bitmap) (n : Z) : option (option bitmap) :=
  fst <$> op_bits bit_map n BITS_CLEAR.

Definition set_bit (bit_map : option bitmap) (n : Z) : option (option bitmap) :=
  fst <$> op_bits bit_map n BITS_SET.

Definition read_bit (bit_map : option bitmap) (n : Z) : option Z :=
  snd <$> op_bits bit_map n BITS_READ.

Definition init_bitmap (bm : option bitmap) (n : Z) : option (option bitmap) :=
  for_range (Z.to_nat n) 0 (fun i b => clear_bit b i) bm.

(** ** The abstract view *)

Definition bit_at (bm : bitmap) (n : Z) : bool :=
  match aget bm (n / 32) with Some w => Z.testbit w (n mod 32) | None => false end.

Lemma bit_at_zeros n i : bit_at (replicate n 0) i = false.
Proof.
  unfold bit_at. destruct (aget (replicate n 0) (i / 32)) as [w|] eqn:E; [|done].
  apply aget_Some in E as [_ E]. apply lookup_replicate in E as [-> _]. apply Z.bits_0.
Qed.

(** [bm_ok bm n]: every word is a [u32] and bits [0 .. n-1] are stored. *)
Definition bm_ok (bm : bitmap) (n : Z) : Prop :=
  Forall is_u32 bm /\ n <= 32 * Z.of_nat (length bm) <= 2 ^ 31.

Lemma get_bit_pos_eq (n : Z) :
  0 <= n < 2 ^ 32 -> get_bit_pos n = (n / 32, n mod 32).
Proof.
  intros Hn. unfold get_bit_pos. change (4 * 8) with 32. rewrite u32_small by lia.
  assert (0 <= n / 32 < 2 ^ 27) by (split; [apply Z.div_pos|apply Z.div_lt_upper_bound]; lia).
  pose proof (Z.mod_pos_bound n 32). by rewrite !s32_small by lia.
Qed.

Lemma shift_one (y : Z) : 0 <= y < 32 -> 1 <<u y = 2 ^ y.
Proof.
  intros Hy. rewrite Z.shiftl_1_l. apply u32_small.
  split; [apply Z.pow_nonneg; lia|apply Z.pow_lt_mono_r; lia].
Qed.

Lemma testbit_pow2 (y i : Z) : 0 <= y -> Z.testbit (2 ^ y) i = Z.eqb i y.
Proof.
  intros Hy. rewrite Z.eqb_sym. destruct (Z.eqb_spec y i) as [->|Hne].
  - by apply Z.pow2_bits_true.
  - by apply Z.pow2_bits_false.
Qed.

Lemma testbit_lnot_pow2 (y i : Z) :
  0 <= y < 32 -> 0 <= i < 32 ->
  Z.testbit (u32 (Z.lnot (2 ^ y))) i = negb (Z.eqb i y).
Proof.
  intros Hy Hi. unfold u32, wrap. rewrite Z.mod_pow2_bits_low by lia.
  rewrite Z.lnot_spec by lia. by rewrite testbit_pow2 by lia.
Qed.

Lemma is_u32_land (a b : Z) : is_u32 a -> is_u32 b -> is_u32 (Z.land a b).
Proof.
  intros Ha Hb. unfold is_u32 in *. split; [apply Z.land_nonneg; lia|].
  rewrite <- (Z.mod_small a (2 ^ 32)), <- Z.land_ones by lia.
  rewrite <- Z.land_assoc, (Z.land_comm _ b), Z.land_assoc, Z.land_ones by lia.
  apply Z.mod_pos_bound. lia.
Qed.

Lemma is_u32_lor (a b : Z) : is_u32 a -> is_u32 b -> is_u32 (Z.lor a b).
Proof.
  intros Ha Hb. unfold is_u32 in *. split; [apply Z.lor_nonneg; lia|].
  replace (Z.lor a b) with ((Z.lor a b) mod 2 ^ 32); [apply Z.mod_pos_bound; lia|].
  rewrite <- Z.land_ones, Z.land_lor_distr_l, !Z.land_ones by lia.
  by rewrite !Z.mod_small by lia.
Qed.

Lemma is_u32_shift_one (y : Z) : 0 <= y < 32 -> is_u32 (2 ^ y).
Proof.
  intros Hy. split; [apply Z.pow_nonneg; lia|apply Z.pow_lt_mono_r; lia].
Qed.

(** Splitting the position of a bit. *)
Lemma bit_pos_inj (n m : Z) : n / 32 = m / 32 -> n mod 32 = m mod 32 -> n = m.
Proof.
  intros H1 H2. rewrite (Z.div_mod n 32), (Z.div_mod m 32) by lia. lia.
Qed.

Lemma bit_pos_bounds (n : Z) (k : nat) :
  0 <= n < 32 * Z.of_nat k -> 0 <= n / 32 < Z.of_nat k /\ 0 <= n mod 32 < 32.
Proof.
  intros H. pose proof (Z.mod_pos_bound n 32).
  split; [|lia]. split; [apply Z.div_pos; lia|apply Z.div_lt_upper_bound; lia].
Qed.

(** Replacing the word that holds bit [n]. *)
Lemma bit_at_replace (bm bm' : bitmap) (n m w' : Z) :
  0 <= n -> aset bm (n / 32) w' = Some bm' ->
  bit_at bm' m = if Z.eqb (m / 32) (n / 32) then Z.testbit w' (m mod 32) else bit_at bm m.
Proof.
  intros Hn Ha. unfold bit_at. destruct (Z.eqb_spec (m / 32) (n / 32)) as [->|Hne].
  - by rewrite (aget_aset_eq _ _ _ _ Ha).
  - by rewrite (aget_aset_ne _ _ _ _ _ Ha) by congruence.
Qed.

Section word_ops.
Context (bm : bitmap) (n : Z).
Hypothesis Hok : bm_ok bm (n + 1).
Hypothesis Hn : 0 <= n.

Lemma op_bits_word : exists w, aget bm (n / 32) = Some w /\ is_u32 w.
Proof.
  destruct Hok as [Hw [Hl _]].
  destruct (bit_pos_bounds n (length bm)) as [Hx _]; [lia|].
  destruct (aget_is_Some bm (n / 32) Hx) as [w E]. exists w. split; [done|].
  apply aget_Some in E as [_ E]. by apply (Forall_lookup_1 _ _ _ _ Hw E).
Qed.

Lemma op_bits_replace (f : Z -> Z) (g : bool -> bool) :
  (forall w, is_u32 w -> is_u32 (f w)) ->
  (forall w i, is_u32 w -> 0 <= i < 32 ->
     Z.testbit (f w) i = if Z.eqb i (n mod 32) then g (Z.testbit w i) else Z.testbit w i) ->
  exists bm', (w ← aget bm (n / 32); aset bm (n / 32) (f w)) = Some bm' /\
    length bm' = length bm /\ Forall is_u32 bm' /\
    forall m, bit_at bm' m = if Z.eqb m n then g (bit_at bm m) else bit_at bm m.
Proof.
  intros Hf Hg. destruct op_bits_word as (w & Ew & Hw). rewrite Ew. simpl.
  pose proof (aget_lt _ _ _ Ew) as Hx. rewrite (aset_Some _ _ (f w) Hx).
  eexists. split; [done|]. split; [apply length_insert|]. split.
  { apply Forall_insert; [apply Hok|by apply Hf]. }
  intros m. erewrite (bit_at_replace bm _ n m (f w)) by (done || by apply aset_Some).
  destruct (Z.eqb_spec (m / 32) (n / 32)) as [Eq|Ne].
  - pose proof (Z.mod_pos_bound m 32). rewrite Hg by (done || lia).
    assert (Hb : Z.testbit w (m mod 32) = bit_at bm m) by (unfold bit_at; by rewrite Eq, Ew).
    rewrite Hb. destruct (Z.eqb_spec (m mod 32) (n mod 32)) as [Em|Em].
    + by rewrite (bit_pos_inj _ _ Eq Em), Z.eqb_refl.
    + destruct (Z.eqb_spec m n); [congruence|done].
  - destruct (Z.eqb_spec m n); [congruence|done].
Qed.

Lemma get_bit_pos_in : get_bit_pos n = (n / 32, n mod 32).
Proof. apply get_bit_pos_eq. destruct Hok. lia. Qed.

Lemma set_bit_some : exists bm',
  set_bit (Some bm) n = Some (Some bm') /\ length bm' = length bm /\ Forall is_u32 bm' /\
  forall m, bit_at bm' m = if Z.eqb m n then true else bit_at bm m.
Proof.
  pose proof (Z.mod_pos_bound n 32) as Hm.
  destruct (op_bits_replace (fun w => w |u (1 <<u (n mod 32))) (fun _ => true))
    as (bm' & E & H).
  - intros w Hw. rewrite shift_one by lia. apply is_u32_lor; [done|].
    apply is_u32_shift_one; lia.
  - intros w i Hw Hi. rewrite shift_one, Z.lor_spec, testbit_pow2 by lia.
    destruct (Z.eqb i (n mod 32)); [apply orb_true_r|apply orb_false_r].
  - exists bm'. split; [|done]. unfold set_bit, op_bits. rewrite get_bit_pos_in.
    inv_bind E. rewrite E0. simpl. by rewrite E.
Qed.

Lemma clear_bit_some : exists bm',
  clear_bit (Some bm) n = Some (Some bm') /\ length bm' = length bm /\ Forall is_u32 bm' /\
  forall m, bit_at bm' m = if Z.eqb m n then false else bit_at bm m.
Proof.
  pose proof (Z.mod_pos_bound n 32) as Hm.
  destruct (op_bits_replace (fun w => w &u ~u (1 <<u (n mod 32))) (fun _ => false))
    as (bm' & E & H).
  - intros w Hw. apply is_u32_land; [done|]. apply u32_range.
  - intros w i Hw Hi. rewrite shift_one, Z.land_spec, testbit_lnot_pow2 by lia.
    destruct (Z.eqb i (n mod 32)); [apply andb_false_r|apply andb_true_r].
  - exists bm'. split; [|done]. unfold clear_bit, op_bits. rewrite get_bit_pos_in.
    inv_bind E. rewrite E0. simpl. by rewrite E.
Qed.

Lemma read_bit_some : read_bit (Some bm) n = Some (c_bool (bit_at bm n)).
Proof.
  unfold read_bit, op_bits. rewrite get_bit_pos_in.
  destruct op_bits_word as (w & E & Hw). unfold bit_at. rewrite E. simpl.
  pose proof (Z.mod_pos_bound n 32). rewrite shift_one by lia.
  f_equal. apply Z.bits_inj'. intros i Hi.
  rewrite Z.shiftr_spec, Z.land_spec, testbit_pow2 by lia.
  destruct (Z.eqb_spec (i + n mod 32) (n mod 32)) as [Ei|Ei].
  - replace i with 0 by lia. rewrite andb_true_r, Z.add_0_l.
    by destruct (Z.testbit w (n mod 32)).
  - rewrite andb_false_r. destruct (Z.testbit w (n mod 32)); simpl.
    + rewrite <- (Z.pow_0_r 2), testbit_pow2 by lia.
      destruct (Z.eqb_spec i 0); [lia|done].
    + by rewrite Z.bits_0.
Qed.
End word_ops.

Lemma init_bitmap_some (bm : bitmap) (n : Z) :
  bm_ok bm n -> 0 <= n ->
  exists bm', init_bitmap (Some bm) n = Some (Some bm') /\ length bm' = length bm /\
    Forall is_u32 bm' /\ forall m, bit_at bm' m = if (0 <=? m) && (m <? n) then false else bit_at bm m.
Proof.
  intros [Hw Hl] Hn. unfold init_bitmap.
  destruct (for_range_inv (fun i (s : option bitmap) => exists bm', s = Some bm' /\
      length bm' = length bm /\ Forall is_u32 bm' /\
      forall m, bit_at bm' m = if (0 <=? m) && (m <? i) then false else bit_at bm m)
    (Z.to_nat n) 0 (fun i b => clear_bit b i) (Some bm)) as (s' & E & bm' & -> & H).
  - exists bm. do 3 (split; [done|]). intros m. destruct (Z.leb_spec 0 m); [|done].
    destruct (Z.ltb_spec m 0); [lia|done].
  - intros j t Hj (b & -> & Hlen & Hb & Ha).
    destruct (clear_bit_some b j) as (b' & Ec & Hl' & Hb' & Ha'); [split; [done|lia]|lia|].
    exists (Some b'). split; [done|]. exists b'. split; [done|]. split; [lia|].
    split; [done|]. intros m. rewrite Ha', Ha.
    destruct (Z.eqb_spec m j), (Z.leb_spec 0 m), (Z.ltb_spec m j), (Z.ltb_spec m (j + 1));
      simpl; (done || lia).
  - exists bm'. rewrite E. replace (0 + Z.of_nat (Z.to_nat n)) with n in H by lia.
    by destruct H as (? & ? & ?).
Qed.

(** ** Properties *)

(** The abstract effect of a bit operation on the set of bits. *)
Definition abs_bit_op (f : Z -> bool) (n : Z) (ops : bit_ops) : (Z -> bool) * Z :=
  match ops with
  | BITS_CLEAR => (fun m => if Z.eqb m n then false else f m, 0)
  | BITS_SET => (fun m => if Z.eqb m n then true else f m, 0)
  | BITS_READ => (f, c_bool (f n))
  end.

(** C10. On a bit map that stores bit [n], [op_bits] is defined, keeps the
    map well formed, and its effect on the bits and its result are those of the
    abstract operation on the set of bits. *)
Theorem op_bits_refines (bm : bitmap) (n : Z) (ops : bit_ops)
    (Hok : bm_ok bm (n + 1)) (Hn : 0 <= n) :
  exists bm' r, op_bits (Some bm) n ops = Some (Some bm', r) /\
    length bm' = length bm /\ Forall is_u32 bm' /\
    r = snd (abs_bit_op (bit_at bm) n ops) /\
    forall m, bit_at bm' m = fst (abs_bit_op (bit_at bm) n ops) m.
Proof.
  destruct ops; cbn [abs_bit_op fst snd].
  - destruct (clear_bit_some bm n Hok Hn) as (bm' & E & ? & ? & ?).
    unfold clear_bit in E. apply fmap_Some in E as ([q r] & E & Eq). simpl in Eq. subst q.
    exists bm', 0. rewrite E. split_and!; try done.
    unfold op_bits in E. rewrite (get_bit_pos_in bm n Hok Hn) in E.
    inv_bind E. inv_bind E. by injection E as <- <-.
  - destruct (set_bit_some bm n Hok Hn) as (bm' & E & ? & ? & ?).
    unfold set_bit in E. apply fmap_Some in E as ([q r] & E & Eq). simpl in Eq. subst q.
    exists bm', 0. rewrite E. split_and!; try done.
    unfold op_bits in E. rewrite (get_bit_pos_in bm n Hok Hn) in E.
    inv_bind E. inv_bind E. by injection E as <- <-.
  - pose proof (read_bit_some bm n Hok Hn) as E. unfold read_bit in E.
    apply fmap_Some in E as ([q r] & E & Eq). simpl in Eq. subst r.
    exists bm, (c_bool (bit_at bm n)). rewrite E. split_and!; try done.
    + unfold op_bits in E. rewrite (get_bit_pos_in bm n Hok Hn) in E.
      inv_bind E. by injection E as <- _.
    + by destruct Hok.
Qed.

Lemma op_bits_refines_witness :
  exists bm' r, op_bits (Some [0; 5]) 34 BITS_READ = Some (Some bm', r) /\
    length bm' = length [0; 5] /\ Forall is_u32 bm' /\
    r = snd (abs_bit_op (bit_at [0; 5]) 34 BITS_READ) /\
    forall m, bit_at bm' m = fst (abs_bit_op (bit_at [0; 5]) 34 BITS_READ) m.
Proof.
  apply (op_bits_refines [0; 5] 34 BITS_READ).
  - split; [repeat constructor; lia|simpl; lia].
  - lia.
Defined.

Lemma bits_to_long_eq (n : Z) : 0 <= n < 2 ^ 31 -> bits_to_long n = 2 * (n / 64) + 1.
Proof.
  intros Hn. unfold bits_to_long. change (4 * 8) with 32.
  assert (Em : Z.land n 0xffffffc0 = 64 * (n / 64)).
  { exact (land_lnot_mask n 6 ltac:(lia) ltac:(lia)). }
  rewrite Em. replace (64 * (n / 64)) with (2 * (n / 64) * 32) by lia.
  rewrite Z.div_mul by lia.
  apply u32_small. pose proof (Z.div_pos n 64).
  assert (n / 64 < 2 ^ 25) by (apply Z.div_lt_upper_bound; lia). lia.
Qed.

(** [bits_to_long n], the number of words [DECLARE_BITMAP] and the page map
    reserve for [n] bits, is enough to store [n] bits exactly when
    [n mod 64 <= 32]: the mask drops six bits of [n] where a word has five. *)
Theorem bits_to_long_capacity (n : Z) (Hn : 0 <= n < 2 ^ 31) :
  n <= 32 * bits_to_long n <-> n mod 64 <= 32.
Proof.
  rewrite bits_to_long_eq by done. pose proof (Z.div_mod n 64). pose proof (Z.mod_pos_bound n 64). lia.
Qed.

Lemma bits_to_long_capacity_witness : 40 <= 32 * bits_to_long 40 <-> 40 mod 64 <= 32.
Proof. apply (bits_to_long_capacity 40). lia. Defined.

(** C11. [baligin num size], for a power of two [size] and no overflow of
    [num + size - 1], is the least multiple of [size] that is not below [num]. *)
Theorem baligin_least (num k : Z)
    (Hk : 0 <= k < 32) (Hn : 0 <= num) (Hs : num + 2 ^ k - 1 < 2 ^ 32) :
  num <= baligin num (2 ^ k) /\ baligin num (2 ^ k) mod 2 ^ k = 0 /\
  forall m, num <= m -> m mod 2 ^ k = 0 -> baligin num (2 ^ k) <= m.
Proof.
  assert (Hp : 0 < 2 ^ k) by (apply Z.pow_pos_nonneg; lia).
  rewrite baligin_eq by lia. set (s := 2 ^ k) in *.
  pose proof (Z.div_mod (num + s - 1) s) as Hd.
  pose proof (Z.mod_pos_bound (num + s - 1) s) as Hb.
  split; [lia|]. split; [rewrite Z.mul_comm; apply Z.mod_mul; lia|].
  intros m Hm Hm0. apply Z.mod_divide in Hm0 as [q ->]; [|lia].
  assert ((num + s - 1) / s < q + 1); [|nia].
  apply Z.div_lt_upper_bound; nia.
Qed.

Lemma baligin_least_witness :
  5 <= baligin 5 (2 ^ 2) /\ baligin 5 (2 ^ 2) mod 2 ^ 2 = 0 /\
  forall m, 5 <= m -> m mod 2 ^ 2 = 0 -> baligin 5 (2 ^ 2) <= m.
Proof. apply (baligin_least 5 2); lia. Defined.
