(* ===== verification/ListHead.v ===== *)
(** * Intrusive doubly linked lists

    Models [include/os/list.h].  A [struct list_head] is a node of a heap keyed
    by node names (the type [K]: the client names every [list_head] it owns, an
    array entry, a structure member, a list anchor), and the operations are the
    source's sequences of pointer assignments.  [is_list h hd l] relates a heap
    to the abstract sequence [l] anchored at [hd]; the [_spec] lemmas are the
    refinement of each operation to the operation on sequences, with the frame
    (every node outside the list is untouched). *)

From S2P Require Import Prelude.

Record list_head (K : Type) : Type := ListHead { next : K; pre : K }.
Arguments ListHead {K} _ _.
Arguments next {K} _.
Arguments pre {K} _.

#[global] Instance list_head_eq_dec {K : Type} `{EqDecision K} : EqDecision (list_head K).
Proof. solve_decision. Defined.

Abbreviation lheap K := (gmap K (list_head K)).

Section list_head.
Context {K : Type} `{Countable K}.
Implicit Types (h : lheap K) (l : list K) (k x y hd new : K).

(** [p->next], [p->pre] as values and as places. *)
Definition list_next h k : option K := next <$> h !! k.
Definition list_prve h k : option K := pre <$> h !! k.

Definition set_next k v h : option (lheap K) :=
  c ← h !! k; Some (<[k := ListHead v (pre c)]> h).

Definition set_pre k v h : option (lheap K) :=
  c ← h !! k; Some (<[k := ListHead (next c) v]> h).

Definition init_list list h : lheap K := <[list := ListHead list list]> h.

Definition list_add head new h : option (lheap K) :=
  n ← list_next h head;
  h1 ← set_pre n new h;
  n1 ← list_next h1 head;
  h2 ← set_next new n1 h1;
  h3 ← set_pre new head h2;
  set_next head new h3.

Definition list_add_tail head new h : option (lheap K) :=
  p ← list_prve h head;
  h1 ← set_next p new h;
  h2 ← set_next new head h1;
  p2 ← list_prve h2 head;
  h3 ← set_pre new p2 h2;
  set_pre head new h3.

Definition list_del list h : option (lheap K) :=
  n ← list_next h list;
  p ← list_prve h list;
  h1 ← set_pre n p h;
  p1 ← list_prve h1 list;
  n1 ← list_next h1 list;
  set_next p1 n1 h1.

Definition list_del_tail head h : option (lheap K) :=
  p ← list_prve h head;
  pp ← list_prve h p;
  h1 ← set_next pp head h;
  p1 ← list_prve h1 head;
  pp1 ← list_prve h1 p1;
  set_pre head pp1 h1.

Definition is_list_empty h head : option bool :=
  n ← list_next h head; Some (bool_decide (n = head)).

Definition is_list_last h head list : option bool :=
  n ← list_next h list; Some (bool_decide (n = head)).

(** [list_for_each]: the body runs before [list = list->next] is evaluated,
    in the state the body leaves. *)
Fixpoint list_for_each {S : Type} (fuel : nat) (heap_of : S -> lheap K)
    (body : K -> S -> option S) (head cur : K) (s : S) : option S :=
  match fuel with
  | O => None
  | Datatypes.S fuel' =>
      if bool_decide (cur = head) then Some s
      else
        s' ← body cur s;
        nx ← list_next (heap_of s') cur;
        list_for_each fuel' heap_of body head nx s'
  end.
End list_head.

(** Membership goals: the pointer equations are irrelevant to them. *)
Ltac msolve :=
  repeat match goal with H : forall _ : _, _ |- _ => clear H end; set_solver.

(** ** Lists in the heap *)

Section spec.
Context {K : Type} `{Countable K}.
Implicit Types (h : lheap K) (l : list K) (k x y hd new : K).

Definition link h x y : Prop := list_next h x = Some y /\ list_prve h y = Some x.

Fixpoint chain h x l y : Prop :=
  match l with
  | [] => link h x y
  | z :: l' => link h x z /\ chain h z l' y
  end.

Definition is_list h hd l : Prop := NoDup (hd :: l) /\ chain h hd l hd.

Lemma list_next_dom h k : is_Some (list_next h k) <-> is_Some (h !! k).
Proof. unfold list_next. by rewrite fmap_is_Some. Qed.

Lemma heap_ext h h' k :
  list_next h' k = list_next h k -> list_prve h' k = list_prve h k -> h' !! k = h !! k.
Proof.
  unfold list_next, list_prve. destruct (h !! k) as [[n p]|], (h' !! k) as [[n' p']|];
    simpl; congruence.
Qed.

Lemma set_next_some h k v :
  is_Some (h !! k) -> exists h', set_next k v h = Some h' /\
    (forall j, list_next h' j = if decide (j = k) then Some v else list_next h j) /\
    (forall j, list_prve h' j = list_prve h j) /\ dom h' = dom h.
Proof.
  intros [c E]. unfold set_next, list_next, list_prve. rewrite E. simpl.
  eexists. split; [done|]. split_and!.
  - intros j. destruct (decide (j = k)) as [->|Hne]; by simplify_map_eq.
  - intros j. destruct (decide (j = k)) as [->|Hne]; by simplify_map_eq.
  - apply dom_insert_lookup_L. by exists c.
Qed.

Lemma set_pre_some h k v :
  is_Some (h !! k) -> exists h', set_pre k v h = Some h' /\
    (forall j, list_prve h' j = if decide (j = k) then Some v else list_prve h j) /\
    (forall j, list_next h' j = list_next h j) /\ dom h' = dom h.
Proof.
  intros [c E]. unfold set_pre, list_next, list_prve. rewrite E. simpl.
  eexists. split; [done|]. split_and!.
  - intros j. destruct (decide (j = k)) as [->|Hne]; by simplify_map_eq.
  - intros j. destruct (decide (j = k)) as [->|Hne]; by simplify_map_eq.
  - apply dom_insert_lookup_L. by exists c.
Qed.

Lemma chain_ext h h' x l y :
  (forall z, z ∈ x :: l -> list_next h' z = list_next h z) ->
  (forall z, z ∈ l ++ [y] -> list_prve h' z = list_prve h z) ->
  chain h x l y -> chain h' x l y.
Proof.
  revert x. induction l as [|z l IH]; intros x Hn Hp Hc; simpl in *.
  - destruct Hc as [H1 H2]. split.
    + rewrite Hn by msolve. done.
    + rewrite Hp by msolve. done.
  - destruct Hc as [[H1 H2] Hc]. split; [split|].
    + rewrite Hn by msolve. done.
    + rewrite Hp by msolve. done.
    + apply IH; [|..|done]; intros ? ?; [apply Hn|apply Hp]; clear Hn Hp; msolve.
Qed.

Lemma chain_app h x l1 z l2 y :
  chain h x (l1 ++ z :: l2) y <-> chain h x l1 z /\ chain h z l2 y.
Proof.
  revert x. induction l1 as [|w l1 IH]; intros x; simpl; [done|].
  rewrite IH. tauto.
Qed.

(** Every node of a chain but its ends is allocated, and so are the ends. *)
Lemma chain_alloc h x l y z :
  chain h x l y -> z ∈ x :: l ++ [y] -> is_Some (h !! z).
Proof.
  assert (Hl : forall a b, link h a b -> is_Some (h !! a) /\ is_Some (h !! b)).
  { intros a b [Hn Hp]. unfold list_next, list_prve in *.
    destruct (h !! a), (h !! b); done. }
  revert x. induction l as [|w l IH]; intros x Hc Hz; simpl in *.
  - apply Hl in Hc as [? ?]. msolve.
  - destruct Hc as [[Ha Hb]%Hl Hc]. apply elem_of_cons in Hz as [->|Hz]; [done|].
    by apply (IH w).
Qed.

Lemma is_list_alloc h hd l z : is_list h hd l -> z ∈ hd :: l -> is_Some (h !! z).
Proof. intros [_ Hc] Hz. apply (chain_alloc _ _ _ _ _ Hc). msolve. Qed.

Lemma last_shift x w l : List.last (w :: l) x = List.last l w.
Proof.
  destruct l as [|v l]; [done|]. simpl. revert v.
  induction l as [|a l IH]; intros v; [done|]. apply IH.
Qed.

Lemma last_in x l : List.last l x ∈ x :: l.
Proof.
  revert x. induction l as [|w l IH]; intros x; [msolve|].
  rewrite last_shift. specialize (IH w). set_solver.
Qed.

(** The last node before [y]. *)
Lemma chain_last h x l y :
  chain h x l y -> list_prve h y = Some (List.last l x).
Proof.
  revert x. induction l as [|w l IH]; intros x Hc; [by destruct Hc|].
  destruct Hc as [_ Hc]. rewrite last_shift. by apply IH.
Qed.

Lemma chain_first h x l y :
  chain h x l y -> list_next h x = Some (List.hd y l).
Proof. destruct l; [by intros [? _]|by intros [[? _] _]]. Qed.

(** Splicing a new node between the last node of [l1] and the first of [l2]. *)
Lemma chain_insert h h' x l1 l2 y new :
  chain h x (l1 ++ l2) y ->
  NoDup (x :: l1 ++ l2) -> y ∉ l1 ++ l2 -> new ∉ x :: y :: l1 ++ l2 ->
  (forall j, list_next h' j =
     if decide (j = List.last l1 x) then Some new
     else if decide (j = new) then Some (List.hd y l2) else list_next h j) ->
  (forall j, list_prve h' j =
     if decide (j = List.hd y l2) then Some new
     else if decide (j = new) then Some (List.last l1 x) else list_prve h j) ->
  chain h' x (l1 ++ new :: l2) y.
Proof.
  revert x. induction l1 as [|w l1 IH]; intros x Hc Hnd Hy Hnew Hnx Hpx;
    simpl in Hc, Hnd, Hy, Hnew |- *.
  - simpl in Hnx, Hpx. assert (Hl : link h' x new).
    { split; [rewrite Hnx|rewrite Hpx]; repeat case_decide; subst; try done.
      destruct l2; simpl in *; msolve. }
    split; [done|]. destruct l2 as [|z l2]; simpl in *.
    + split; [rewrite Hnx|rewrite Hpx]; repeat case_decide; subst; try done; msolve.
    + destruct Hc as [_ Hc]. apply NoDup_cons in Hnd as [Hx Hnd].
      apply NoDup_cons in Hnd as [Hz Hnd].
      split; [split|].
      * rewrite Hnx. repeat case_decide; subst; try done; msolve.
      * rewrite Hpx. by case_decide.
      * apply (chain_ext h); [| |done]; intros k Hk;
          [rewrite Hnx|rewrite Hpx]; repeat case_decide; subst; try done; msolve.
  - destruct Hc as [[H1 H2] Hc]. apply NoDup_cons in Hnd as [Hx Hnd].
    assert (Hla : List.last l1 w ∈ w :: l1) by apply last_in.
    assert (El : List.last (w :: l1) x = List.last l1 w) by apply last_shift.
    assert (Hh : List.hd y l2 ∈ y :: l2) by (destruct l2; msolve).
    rewrite El in Hnx, Hpx. split; [split|].
    + rewrite Hnx. repeat case_decide; subst; try done; msolve.
    + rewrite Hpx. repeat case_decide; subst; try done.
      * exfalso. apply NoDup_cons in Hnd as [Hw _]. msolve.
      * msolve.
    + apply IH; try done; msolve.
Qed.

(** Unlinking: joining the last node of [l1] to the first of [l2]. *)
Lemma chain_join h h' x l1 z l2 y :
  chain h x l1 z -> chain h z l2 y ->
  NoDup (x :: l1 ++ l2) -> y ∉ l1 ++ l2 ->
  (forall j, list_next h' j =
     if decide (j = List.last l1 x) then Some (List.hd y l2) else list_next h j) ->
  (forall j, list_prve h' j =
     if decide (j = List.hd y l2) then Some (List.last l1 x) else list_prve h j) ->
  chain h' x (l1 ++ l2) y.
Proof.
  revert x. induction l1 as [|w l1 IH]; intros x Hc1 Hc2 Hnd Hy Hnx Hpx;
    simpl in Hc1, Hc2, Hnd, Hy |- *.
  - simpl in Hnx, Hpx. destruct l2 as [|w l2]; simpl in *.
    + split; [rewrite Hnx|rewrite Hpx]; by case_decide.
    + destruct Hc2 as [_ Hc]. apply NoDup_cons in Hnd as [Hx Hnd].
      apply NoDup_cons in Hnd as [Hz Hnd].
      split; [split; [rewrite Hnx|rewrite Hpx]; by case_decide|].
      apply (chain_ext h); [| |done]; intros k Hk;
        [rewrite Hnx|rewrite Hpx]; case_decide; subst; try done; msolve.
  - destruct Hc1 as [[H1 H2] Hc]. apply NoDup_cons in Hnd as [Hx Hnd].
    assert (Hla : List.last l1 w ∈ w :: l1) by apply last_in.
    assert (El : List.last (w :: l1) x = List.last l1 w) by apply last_shift.
    assert (Hh : List.hd y l2 ∈ y :: l2) by (destruct l2; msolve).
    rewrite El in Hnx, Hpx. split; [split|].
    + rewrite Hnx. case_decide; subst; try done; msolve.
    + rewrite Hpx. case_decide; subst; try done.
      exfalso. apply NoDup_cons in Hnd as [Hw _]. msolve.
    + apply IH; try done; msolve.
Qed.

(** *** Effect of each operation on the pointers *)

(** Sequencing of the pointer assignments of one operation. *)
Ltac step_ptr :=
  match goal with
  | |- context [set_next ?k ?v ?h] =>
      let h' := fresh "h" in let E := fresh "E" in
      destruct (set_next_some h k v) as (h' & E & ? & ? & ?);
      [| rewrite E; simpl]
  | |- context [set_pre ?k ?v ?h] =>
      let h' := fresh "h" in let E := fresh "E" in
      destruct (set_pre_some h k v) as (h' & E & ? & ? & ?);
      [| rewrite E; simpl]
  end.

(** Presence in the heap, carried along equal domains. *)
Ltac in_heap :=
  rewrite <- elem_of_dom in *;
  repeat match goal with E : dom ?a = dom ?b |- context [dom ?a] => rewrite E end; done.

Lemma list_add_effect h hd new n :
  list_next h hd = Some n -> hd <> new -> n <> new ->
  is_Some (h !! new) -> is_Some (h !! n) ->
  exists h', list_add hd new h = Some h' /\ dom h' = dom h /\
    (forall j, list_next h' j = if decide (j = hd) then Some new
       else if decide (j = new) then Some n else list_next h j) /\
    (forall j, list_prve h' j = if decide (j = n) then Some new
       else if decide (j = new) then Some hd else list_prve h j).
Proof.
  intros Hn Hne1 Hne2 Hnew Hin.
  assert (Hhd : is_Some (h !! hd)) by (apply list_next_dom; by exists n).
  unfold list_add. rewrite Hn. simpl.
  step_ptr; [done|]. assert (E1 : list_next h0 hd = Some n) by congruence.
  rewrite E1. simpl.
  step_ptr; [in_heap|]. step_ptr; [in_heap|]. step_ptr; [in_heap|].
  eexists. split; [done|]. split; [congruence|].
  split; intros j;
    repeat match goal with Hx : forall k, _ h3 k = _ |- _ => rewrite (Hx j); clear Hx
      | Hx : forall k, _ h2 k = _ |- _ => rewrite (Hx j); clear Hx
      | Hx : forall k, _ h1 k = _ |- _ => rewrite (Hx j); clear Hx
      | Hx : forall k, _ h0 k = _ |- _ => rewrite (Hx j); clear Hx end;
    repeat case_decide; congruence.
Qed.

Lemma list_add_tail_effect h hd new p :
  list_prve h hd = Some p -> hd <> new -> p <> new ->
  is_Some (h !! new) -> is_Some (h !! p) ->
  exists h', list_add_tail hd new h = Some h' /\ dom h' = dom h /\
    (forall j, list_next h' j = if decide (j = p) then Some new
       else if decide (j = new) then Some hd else list_next h j) /\
    (forall j, list_prve h' j = if decide (j = hd) then Some new
       else if decide (j = new) then Some p else list_prve h j).
Proof.
  intros Hp Hne1 Hne2 Hnew Hin.
  assert (Hhd : is_Some (h !! hd)).
  { unfold list_prve in Hp. destruct (h !! hd); [by eexists|done]. }
  unfold list_add_tail. rewrite Hp. simpl.
  step_ptr; [done|]. step_ptr; [in_heap|].
  assert (E1 : list_prve h1 hd = Some p) by congruence.
  rewrite E1. simpl. step_ptr; [in_heap|]. step_ptr; [in_heap|].
  eexists. split; [done|]. split; [congruence|].
  split; intros j;
    repeat match goal with Hx : forall k, _ h3 k = _ |- _ => rewrite (Hx j); clear Hx
      | Hx : forall k, _ h2 k = _ |- _ => rewrite (Hx j); clear Hx
      | Hx : forall k, _ h1 k = _ |- _ => rewrite (Hx j); clear Hx
      | Hx : forall k, _ h0 k = _ |- _ => rewrite (Hx j); clear Hx end;
    repeat case_decide; congruence.
Qed.

Lemma list_del_effect h x n p :
  list_next h x = Some n -> list_prve h x = Some p -> n <> x -> p <> x ->
  is_Some (h !! n) -> is_Some (h !! p) ->
  exists h', list_del x h = Some h' /\ dom h' = dom h /\
    (forall j, list_next h' j = if decide (j = p) then Some n else list_next h j) /\
    (forall j, list_prve h' j = if decide (j = n) then Some p else list_prve h j).
Proof.
  intros Hn Hp Hne1 Hne2 Hin1 Hin2. unfold list_del. rewrite Hn, Hp. simpl.
  step_ptr; [done|].
  assert (E1 : list_prve h0 x = Some p).
  { rewrite H0. case_decide; congruence. }
  assert (E2 : list_next h0 x = Some n) by congruence.
  rewrite E1, E2. simpl. step_ptr; [in_heap|].
  eexists. split; [done|]. split; [congruence|].
  split; intros j;
    repeat match goal with
      | Hx : forall k, _ h1 k = _ |- _ => rewrite (Hx j); clear Hx
      | Hx : forall k, _ h0 k = _ |- _ => rewrite (Hx j); clear Hx end;
    repeat case_decide; congruence.
Qed.

(** A node whose pointers are not written keeps its contents. *)
Lemma frame_of h h' k :
  list_next h' k = list_next h k /\ list_prve h' k = list_prve h k -> h' !! k = h !! k.
Proof. intros [? ?]. by apply heap_ext. Qed.

(** *** Refinement of each operation to sequences *)

Lemma is_list_first h hd l : is_list h hd l -> list_next h hd = Some (List.hd hd l).
Proof. intros [_ Hc]. by apply chain_first in Hc. Qed.

Lemma is_list_last_node h hd l : is_list h hd l -> list_prve h hd = Some (List.last l hd).
Proof. intros [_ Hc]. by apply chain_last in Hc. Qed.

Lemma hd_in x l : List.hd x l ∈ x :: l.
Proof. destruct l; msolve. Qed.

Lemma init_list_spec h hd : is_list (init_list hd h) hd [].
Proof.
  split; [apply NoDup_singleton|]. unfold chain, init_list, link, list_next, list_prve.
  by rewrite lookup_insert_eq.
Qed.

Lemma is_list_frame h h' hd l :
  (forall k, k ∈ hd :: l -> h' !! k = h !! k) -> is_list h hd l -> is_list h' hd l.
Proof.
  intros Hf [Hnd Hc]. split; [done|].
  apply (chain_ext h); [| |done]; intros z Hz; unfold list_next, list_prve;
    rewrite Hf; [done|done|done|]. msolve.
Qed.

Lemma list_add_spec h hd l new :
  is_list h hd l -> new ∉ hd :: l -> is_Some (h !! new) ->
  exists h', list_add hd new h = Some h' /\ is_list h' hd (new :: l) /\
    dom h' = dom h /\ forall k, k ∉ new :: hd :: l -> h' !! k = h !! k.
Proof.
  intros Hl Hnew Hin. pose proof (is_list_first _ _ _ Hl) as Hf.
  pose proof (hd_in hd l) as Hh. pose proof Hl as [Hnd Hc].
  destruct (list_add_effect h hd new (List.hd hd l)) as (h' & E & Hd & Hn & Hp);
    [done|msolve|msolve|done|by apply (is_list_alloc _ hd l)|].
  exists h'. split; [done|]. split; [split|split; [done|]].
  - apply NoDup_cons in Hnd as [? ?]. apply NoDup_cons; split; [msolve|].
    apply NoDup_cons; split; [msolve|done].
  - apply (chain_insert h h' hd [] l hd new); simpl; try done; [|msolve].
    by apply NoDup_cons in Hnd as [? ?].
  - intros k Hk. apply frame_of. split; [rewrite Hn|rewrite Hp];
      repeat case_decide; subst; try done; msolve.
Qed.

Lemma list_add_tail_spec h hd l new :
  is_list h hd l -> new ∉ hd :: l -> is_Some (h !! new) ->
  exists h', list_add_tail hd new h = Some h' /\ is_list h' hd (l ++ [new]) /\
    dom h' = dom h /\ forall k, k ∉ new :: hd :: l -> h' !! k = h !! k.
Proof.
  intros Hl Hnew Hin. pose proof (is_list_last_node _ _ _ Hl) as Hf.
  pose proof (last_in hd l) as Hh. pose proof Hl as [Hnd Hc].
  destruct (list_add_tail_effect h hd new (List.last l hd)) as (h' & E & Hd & Hn & Hp);
    [done|msolve|msolve|done|by apply (is_list_alloc _ hd l)|].
  exists h'. split; [done|]. split; [split|split; [done|]].
  - apply NoDup_cons in Hnd as [? ?]. apply NoDup_cons; split; [msolve|].
    apply NoDup_app; split; [done|]. split; [msolve|apply NoDup_singleton].
  - apply (chain_insert h h' hd l [] hd new); rewrite ?app_nil_r; try done; [|msolve].
    by apply NoDup_cons in Hnd as [? ?].
  - intros k Hk. apply frame_of. split; [rewrite Hn|rewrite Hp];
      repeat case_decide; subst; try done; msolve.
Qed.

Lemma list_del_spec h hd l1 x l2 :
  is_list h hd (l1 ++ x :: l2) ->
  exists h', list_del x h = Some h' /\ is_list h' hd (l1 ++ l2) /\
    dom h' = dom h /\ forall k, k ∉ hd :: l1 ++ l2 -> h' !! k = h !! k.
Proof.
  intros Hl. pose proof Hl as [Hnd Hc]. apply chain_app in Hc as [Hc1 Hc2].
  pose proof (chain_last _ _ _ _ Hc1) as Hp. pose proof (chain_first _ _ _ _ Hc2) as Hn.
  pose proof (last_in hd l1) as Hla. pose proof (hd_in hd l2) as Hhe.
  assert (Hx : x ∉ hd :: l1 ++ l2).
  { apply NoDup_cons in Hnd as [? (? & H' & [? ?]%NoDup_cons)%NoDup_app].
    specialize (H' x). set_solver. }
  assert (Hnd' : NoDup (hd :: l1 ++ l2)).
  { apply NoDup_cons in Hnd as [? (? & H' & [? ?]%NoDup_cons)%NoDup_app].
    apply NoDup_cons; split; [msolve|]. apply NoDup_app; split_and!; [done| |done].
    intros z Hz. specialize (H' z Hz). set_solver. }
  destruct (list_del_effect h x (List.hd hd l2) (List.last l1 hd))
    as (h' & E & Hd & Hn' & Hp'); [done|done|msolve|msolve| | |].
  1,2: apply (is_list_alloc _ _ _ _ Hl); msolve.
  exists h'. split; [done|]. split; [split; [done|]|split; [done|]].
  - apply (chain_join h h' hd l1 x l2 hd); try done. by apply NoDup_cons in Hnd' as [? _].
  - intros k Hk. apply frame_of. split; [rewrite Hn'|rewrite Hp'];
      repeat case_decide; subst; try done; msolve.
Qed.

Lemma is_list_empty_spec h hd l :
  is_list h hd l -> is_list_empty h hd = Some (bool_decide (l = [])).
Proof.
  intros Hl. unfold is_list_empty. rewrite (is_list_first _ _ _ Hl). simpl. f_equal.
  destruct Hl as [Hnd _]. apply NoDup_cons in Hnd as [Hh _].
  destruct l as [|z l]; simpl; repeat case_bool_decide; subst; try done. msolve.
Qed.

(** *** The traversal macro *)

Lemma list_for_each_inv {S : Type} (heap_of : S -> lheap K) body
    (P : list K -> list K -> S -> Prop) hd l fuel (s : S) :
  hd ∉ l -> (length l < fuel)%nat -> P [] l s ->
  (forall done x todo t, P done (x :: todo) t ->
     exists t', body x t = Some t' /\
       list_next (heap_of t') x = Some (List.hd hd todo) /\ P (done ++ [x]) todo t') ->
  exists s', list_for_each fuel heap_of body hd (List.hd hd l) s = Some s' /\ P l [] s'.
Proof.
  intros Hhd Hlen H0 Hstep.
  enough (G : forall todo pre fuel s, hd ∉ todo -> (length todo < fuel)%nat -> P pre todo s ->
    exists s', list_for_each fuel heap_of body hd (List.hd hd todo) s = Some s' /\
      P (pre ++ todo) [] s').
  { destruct (G l [] fuel s Hhd Hlen H0) as (s' & ? & ?). by exists s'. }
  clear Hhd Hlen H0. intros todo.
  induction todo as [|x todo IH]; intros pre fl t Hhd Hlen Hp; destruct fl; simpl in *; try lia.
  - rewrite bool_decide_true by done. exists t. by rewrite app_nil_r.
  - rewrite bool_decide_false by msolve.
    destruct (Hstep _ _ _ _ Hp) as (t' & E & En & Hp'). rewrite E. simpl. rewrite En. simpl.
    destruct (IH (pre ++ [x]) fl t') as (s' & Es & Hs'); [set_solver|lia|done|].
    exists s'. split; [done|]. by rewrite <- app_assoc in Hs'.
Qed.

(** The size of the heap bounds the length of a list, so it is enough fuel for a
    traversal. *)
Lemma is_list_size h hd l : is_list h hd l -> (length l < S (size h))%nat.
Proof.
  intros Hi. apply le_n_S. rewrite <- size_dom.
  transitivity (size (list_to_set l : gset K)).
  - rewrite size_list_to_set; [done|]. destruct Hi as [Hnd _]. by apply NoDup_cons in Hnd as [_ ?].
  - apply subseteq_size. intros n Hn. apply elem_of_dom.
    apply (is_list_alloc _ _ _ _ Hi). set_solver.
Qed.

Lemma is_list_next h hd l1 x l2 :
  is_list h hd (l1 ++ x :: l2) -> list_next h x = Some (List.hd hd l2).
Proof.
  intros [_ Hc]. apply chain_app in Hc as [_ Hc]. by apply chain_first in Hc.
Qed.

Lemma is_list_nodup h hd l : is_list h hd l -> NoDup l /\ hd ∉ l.
Proof. intros [Hnd _]. by apply NoDup_cons in Hnd as [? ?]. Qed.

(** Deleting a node from one list and adding it in front of another. *)
Lemma list_move_spec h hd1 l1 x l2 hd2 fl :
  is_list h hd1 (l1 ++ x :: l2) -> is_list h hd2 fl ->
  (forall n, n ∈ hd1 :: l1 ++ x :: l2 -> n ∉ hd2 :: fl) ->
  exists h1 h2, list_del x h = Some h1 /\ list_add hd2 x h1 = Some h2 /\
    is_list h1 hd2 fl /\ is_list h2 hd1 (l1 ++ l2) /\ is_list h2 hd2 (x :: fl) /\
    (forall n, n ∉ hd1 :: l1 ++ x :: l2 -> n ∉ hd2 :: fl -> h2 !! n = h !! n).
Proof.
  intros H1 H2 Hd. pose proof (is_list_alloc _ _ _ x H1 ltac:(set_solver)) as Hx.
  destruct (list_del_spec _ _ _ _ _ H1) as (ha & Ea & Ha & Hdom & Hfa).
  assert (Hx2 : x ∉ hd2 :: fl) by (apply Hd; set_solver).
  assert (H2a : is_list ha hd2 fl).
  { apply (is_list_frame h); [|done]. intros n Hn. apply Hfa. intros Hin.
    apply (Hd n); [set_solver|done]. }
  destruct (list_add_spec _ _ _ x H2a Hx2) as (hb & Eb & Hb & _ & Hfb).
  { apply elem_of_dom. rewrite Hdom. by apply elem_of_dom. }
  assert (Hnx : x ∉ hd1 :: l1 ++ l2).
  { destruct H1 as [Hnd _]. apply NoDup_cons in Hnd as [Hn1 Hnd].
    apply NoDup_app in Hnd as (_ & Hn2 & Hn3). apply NoDup_cons in Hn3 as [Hn3 _].
    intros [->|[Hin|Hin]%elem_of_app]%elem_of_cons; [set_solver| |done].
    apply (Hn2 x Hin). set_solver. }
  exists ha, hb. split; [done|]. split; [done|]. split; [done|]. split; [|split; [done|]].
  - apply (is_list_frame ha); [|done]. intros n Hn. apply Hfb. intros Hin.
    apply elem_of_cons in Hin as [->|Hin]; [done|]. apply (Hd n); [set_solver|done].
  - intros n Hn1 Hn2. rewrite Hfb by set_solver. apply Hfa. set_solver.
Qed.

(** *** Scripts of operations on one list *)

Inductive list_op : Type := OpAdd (x : K) | OpAddTail (x : K) | OpDel (x : K).

Definition op_node (op : list_op) : K :=
  match op with OpAdd x | OpAddTail x | OpDel x => x end.

Definition op_run hd (op : list_op) h : option (lheap K) :=
  match op with
  | OpAdd x => list_add hd x h
  | OpAddTail x => list_add_tail hd x h
  | OpDel x => list_del x h
  end.

(** The operation on the abstract sequence; a node may be added only when it
    is absent and removed only when it is present. *)
Definition op_abs (op : list_op) l : option (list K) :=
  match op with
  | OpAdd x => if bool_decide (x ∈ l) then None else Some (x :: l)
  | OpAddTail x => if bool_decide (x ∈ l) then None else Some (l ++ [x])
  | OpDel x => if bool_decide (x ∈ l) then Some (without x l) else None
  end.

Fixpoint ops_run hd (ops : list list_op) h : option (lheap K) :=
  match ops with
  | [] => Some h
  | op :: ops' => h' ← op_run hd op h; ops_run hd ops' h'
  end.

Fixpoint ops_abs (ops : list list_op) l : option (list K) :=
  match ops with
  | [] => Some l
  | op :: ops' => l' ← op_abs op l; ops_abs ops' l'
  end.

Lemma op_run_spec h hd l op l' :
  is_list h hd l -> op_node op <> hd -> is_Some (h !! op_node op) -> op_abs op l = Some l' ->
  exists h', op_run hd op h = Some h' /\ is_list h' hd l' /\ dom h' = dom h /\
    forall k, k ∉ op_node op :: hd :: l -> h' !! k = h !! k.
Proof.
  intros Hl Hne Hin Ha. destruct op as [x|x|x]; simpl in *; case_bool_decide as Hx;
    try done; injection Ha as <-.
  - apply list_add_spec; [done|set_solver|done].
  - apply list_add_tail_spec; [done|set_solver|done].
  - apply list_elem_of_split in Hx as (l1 & l2 & ->).
    destruct (list_del_spec h hd l1 x l2 Hl) as (h' & E & Hl' & Hd & Hf).
    exists h'. split; [done|]. rewrite without_middle by apply (is_list_nodup _ _ _ Hl).
    split_and!; try done. intros k Hk. apply Hf. set_solver.
Qed.

(** C9. Any script of [list_add], [list_add_tail] and [list_del] on one list
    that is legal for the abstract sequence runs without a fault on the heap
    and ends in a list that represents the abstract result. *)
Theorem list_ops_refine h hd l ops l'
    (Hl : is_list h hd l)
    (Hops : Forall (fun op => op_node op <> hd /\ op_node op ∈ dom h) ops)
    (Ha : ops_abs ops l = Some l') :
  exists h', ops_run hd ops h = Some h' /\ is_list h' hd l' /\ dom h' = dom h.
Proof.
  revert h l Hl Hops Ha. induction ops as [|op ops IH]; intros h l Hl Hops Ha; simpl in *.
  { injection Ha as <-. by exists h. }
  inv_bind Ha. apply Forall_cons in Hops as [[Hne Hin] Hops].
  destruct (op_run_spec h hd l op v) as (h1 & E1 & Hl1 & Hd1 & _);
    [done|done|by apply elem_of_dom|done|].
  rewrite E1. simpl. destruct (IH h1 v Hl1) as (h' & E' & Hl' & Hd'); [by rewrite Hd1|done|].
  exists h'. split_and!; [done|done|congruence].
Qed.
End spec.

(** A heap with an anchor 0 and three nodes. *)
Definition demo_heap : lheap Z :=
  list_to_map ((fun k => (k, ListHead k k)) <$> [0; 1; 2; 3]).

Lemma list_ops_refine_witness :
  exists h', ops_run 0 [OpAdd 1; OpAddTail 2; OpAdd 3; OpDel 1] demo_heap = Some h' /\
    is_list h' 0 [3; 2] /\ dom h' = dom demo_heap.
Proof.
  apply (list_ops_refine demo_heap 0 [] [OpAdd 1; OpAddTail 2; OpAdd 3; OpDel 1] [3; 2]).
  - split; [apply NoDup_singleton|split; reflexivity].
  - assert (E : dom demo_heap = {[0; 1; 2; 3]} :> gset Z) by (vm_compute; reflexivity).
    rewrite E. repeat (constructor; [simpl; set_solver|]). constructor.
  - vm_compute. reflexivity.
Defined.
