(* ===== verification/TaskStruct.v ===== *)
(** * Task structures and list nodes

    Models [include/os/task.h] and the names of every [struct list_head] of the
    kernel.  A task, a mutex and a slab header are named by their address (a
    [Z], 0 is the null pointer); a [list_head] member of such an object is a
    constructor of [node] applied to that address, and [container_of] is the
    inverse, which is undefined on a node that is not of the expected member. *)

From S2P Require Import Prelude ListHead.

(** ** [include/os/task.h] *)

Inductive state_t : Set :=
  | PROCESS_STATE_PREPARE
  | PROCESS_STATE_RUNNING
  | PROCESS_STATE_SLEEP
  | PROCESS_STATE_IDLE
  | PROCESS_STATE_STOP
  | PROCESS_STATE_UNKNOWN.

#[global] Instance state_t_eq_dec : EqDecision state_t.
Proof. solve_decision. Defined.

(** The value of the enumeration constant. *)
Definition state_code (st : state_t) : Z :=
  match st with
  | PROCESS_STATE_PREPARE => 0
  | PROCESS_STATE_RUNNING => 1
  | PROCESS_STATE_SLEEP => 2
  | PROCESS_STATE_IDLE => 3
  | PROCESS_STATE_STOP => 4
  | PROCESS_STATE_UNKNOWN => 5
  end.

Lemma state_code_inj st st' : state_code st = state_code st' -> st = st'.
Proof. destruct st, st'; simpl; (done || lia). Qed.

Definition PROCESS_NAME_SIZE : Z := 16.
Definition PROCESS_TYPE_KERNEL : Z := 0x1.
Definition PROCESS_TYPE_USER : Z := 0x2.
Definition PROCESS_FLAG_FORK : Z := 0x10.

(** ** Every [struct list_head] *)

Inductive node : Set :=
  | OsSchedTable (i : Z)      (* os_sched_table[i].list *)
  | TaskSystem                (* task_system.list *)
  | TaskIdle                  (* task_idle.list *)
  | TaskSleep                 (* task_sleep.list *)
  | PrioRunning (t : Z)       (* &task->prio_running *)
  | TSystem (t : Z)           (* &task->system *)
  | TSleep (t : Z)            (* &task->sleep *)
  | TIdle (t : Z)             (* &task->idle *)
  | TWait (t : Z)             (* &task->wait *)
  | TMutexGet (t : Z)         (* &task->mutex_get *)
  | TChild (t : Z)            (* &task->child *)
  | TP (t : Z)                (* &task->p *)
  | StackList (t : Z)         (* &task->mm_struct.stack_list *)
  | ElfList (t : Z)           (* &task->mm_struct.elf_list *)
  | ElfStackList (t : Z)      (* &task->mm_struct.elf_stack_list *)
  | ElfImageList (t : Z)      (* &task->mm_struct.elf_image_list *)
  | MutexWait (m : Z)         (* &mutex->wait *)
  | MutexTask (m : Z)         (* &mutex->task *)
  | PagePlist (i : Z)         (* &_page_table[i].plist *)
  | SlabList (i : Z)          (* &pslab->list[i] *)
  | SlabTableList             (* &pslab->table.table_list *)
  | SlabFreeHeader            (* &pslab->table.free_header *)
  | SlabHeaderPlist (a : Z).  (* &header->plist *)

#[global] Instance node_eq_dec : EqDecision node.
Proof. solve_decision. Defined.

Definition node_code (n : node) : Z * Z :=
  match n with
  | OsSchedTable i => (0, i) | TaskSystem => (1, 0) | TaskIdle => (2, 0) | TaskSleep => (3, 0)
  | PrioRunning t => (4, t) | TSystem t => (5, t) | TSleep t => (6, t) | TIdle t => (7, t)
  | TWait t => (8, t) | TMutexGet t => (9, t) | TChild t => (10, t) | TP t => (11, t)
  | StackList t => (12, t) | ElfList t => (13, t) | ElfStackList t => (14, t)
  | ElfImageList t => (15, t) | MutexWait m => (16, m) | MutexTask m => (17, m)
  | PagePlist i => (18, i) | SlabList i => (19, i) | SlabTableList => (20, 0)
  | SlabFreeHeader => (21, 0) | SlabHeaderPlist a => (22, a)
  end.

#[global] Instance node_code_inj : Inj (=) (=) node_code.
Proof. intros a b. destruct a, b; simpl; congruence. Qed.

#[global] Instance node_countable : Countable node :=
  inj_countable node_code (fun c =>
    match c with
    | (0, i) => Some (OsSchedTable i) | (1, _) => Some TaskSystem | (2, _) => Some TaskIdle
    | (3, _) => Some TaskSleep | (4, t) => Some (PrioRunning t) | (5, t) => Some (TSystem t)
    | (6, t) => Some (TSleep t) | (7, t) => Some (TIdle t) | (8, t) => Some (TWait t)
    | (9, t) => Some (TMutexGet t) | (10, t) => Some (TChild t) | (11, t) => Some (TP t)
    | (12, t) => Some (StackList t) | (13, t) => Some (ElfList t)
    | (14, t) => Some (ElfStackList t) | (15, t) => Some (ElfImageList t)
    | (16, m) => Some (MutexWait m) | (17, m) => Some (MutexTask m)
    | (18, i) => Some (PagePlist i) | (19, i) => Some (SlabList i)
    | (20, _) => Some SlabTableList | (21, _) => Some SlabFreeHeader
    | (22, a) => Some (SlabHeaderPlist a) | _ => None
    end) (ltac:(by intros [])).

(** [container_of (p, struct task_struct, member)] for the members used. *)
Definition prio_running_entry (n : node) : option Z :=
  match n with PrioRunning t => Some t | _ => None end.
Definition sleep_entry (n : node) : option Z :=
  match n with TSleep t => Some t | _ => None end.
Definition idle_entry (n : node) : option Z :=
  match n with TIdle t => Some t | _ => None end.
Definition wait_entry (n : node) : option Z :=
  match n with TWait t => Some t | _ => None end.
Definition p_entry (n : node) : option Z :=
  match n with TP t => Some t | _ => None end.
Definition mutex_task_entry (n : node) : option Z :=
  match n with MutexTask m => Some m | _ => None end.
Definition plist_entry (n : node) : option Z :=
  match n with PagePlist i => Some i | _ => None end.

(** ** [struct mm_struct], [struct task_struct]

    The [list_head] members are nodes of the heap and have no field here. *)

Record mm_struct_t : Type := Mk_mm_struct {
  elf_size : Z;
  stack_size : Z;
  stack_curr : option node;
  elf_curr : option node
}.

Record task_struct : Type := Mk_task {
  stack_base : Z;
  stack_origin : Z;
  name : list Z;
  flag : Z;
  pid : Z;
  uid : Z;
  state : state_t;
  exit_state : state_t;
  signal : Z;
  exit_code : Z;
  mm_struct : mm_struct_t;
  parent : Z;
  run_time : Z;
  wait_time : Z;
  time_out : Z;
  run_count : Z;
  prio : Z;
  pre_prio : Z;
  message : Z
}.

(** Assignments to one member. *)
Definition with_elf_size (v : Z) (x : mm_struct_t) : mm_struct_t :=
  Mk_mm_struct v x.(stack_size) x.(stack_curr) x.(elf_curr).
Definition with_stack_size (v : Z) (x : mm_struct_t) : mm_struct_t :=
  Mk_mm_struct x.(elf_size) v x.(stack_curr) x.(elf_curr).
Definition with_stack_curr (v : option node) (x : mm_struct_t) : mm_struct_t :=
  Mk_mm_struct x.(elf_size) x.(stack_size) v x.(elf_curr).
Definition with_elf_curr (v : option node) (x : mm_struct_t) : mm_struct_t :=
  Mk_mm_struct x.(elf_size) x.(stack_size) x.(stack_curr) v.
Definition with_stack_base (v : Z) (x : task_struct) : task_struct :=
  Mk_task v x.(stack_origin) x.(name) x.(flag) x.(pid) x.(uid) x.(state) x.(exit_state)
    x.(signal) x.(exit_code) x.(mm_struct) x.(parent) x.(run_time) x.(wait_time)
    x.(time_out) x.(run_count) x.(prio) x.(pre_prio) x.(message).
Definition with_stack_origin (v : Z) (x : task_struct) : task_struct :=
  Mk_task x.(stack_base) v x.(name) x.(flag) x.(pid) x.(uid) x.(state) x.(exit_state)
    x.(signal) x.(exit_code) x.(mm_struct) x.(parent) x.(run_time) x.(wait_time)
    x.(time_out) x.(run_count) x.(prio) x.(pre_prio) x.(message).
Definition with_name (v : list Z) (x : task_struct) : task_struct :=
  Mk_task x.(stack_base) x.(stack_origin) v x.(flag) x.(pid) x.(uid) x.(state)
    x.(exit_state) x.(signal) x.(exit_code) x.(mm_struct) x.(parent) x.(run_time)
    x.(wait_time) x.(time_out) x.(run_count) x.(prio) x.(pre_prio) x.(message).
Definition with_flag (v : Z) (x : task_struct) : task_struct :=
  Mk_task x.(stack_base) x.(stack_origin) x.(name) v x.(pid) x.(uid) x.(state)
    x.(exit_state) x.(signal) x.(exit_code) x.(mm_struct) x.(parent) x.(run_time)
    x.(wait_time) x.(time_out) x.(run_count) x.(prio) x.(pre_prio) x.(message).
Definition with_pid (v : Z) (x : task_struct) : task_struct :=
  Mk_task x.(stack_base) x.(stack_origin) x.(name) x.(flag) v x.(uid) x.(state)
    x.(exit_state) x.(signal) x.(exit_code) x.(mm_struct) x.(parent) x.(run_time)
    x.(wait_time) x.(time_out) x.(run_count) x.(prio) x.(pre_prio) x.(message).
Definition with_uid (v : Z) (x : task_struct) : task_struct :=
  Mk_task x.(stack_base) x.(stack_origin) x.(name) x.(flag) x.(pid) v x.(state)
    x.(exit_state) x.(signal) x.(exit_code) x.(mm_struct) x.(parent) x.(run_time)
    x.(wait_time) x.(time_out) x.(run_count) x.(prio) x.(pre_prio) x.(message).
Definition with_state (v : state_t) (x : task_struct) : task_struct :=
  Mk_task x.(stack_base) x.(stack_origin) x.(name) x.(flag) x.(pid) x.(uid) v
    x.(exit_state) x.(signal) x.(exit_code) x.(mm_struct) x.(parent) x.(run_time)
    x.(wait_time) x.(time_out) x.(run_count) x.(prio) x.(pre_prio) x.(message).
Definition with_exit_state (v : state_t) (x : task_struct) : task_struct :=
  Mk_task x.(stack_base) x.(stack_origin) x.(name) x.(flag) x.(pid) x.(uid) x.(state) v
    x.(signal) x.(exit_code) x.(mm_struct) x.(parent) x.(run_time) x.(wait_time)
    x.(time_out) x.(run_count) x.(prio) x.(pre_prio) x.(message).
Definition with_mm_struct (v : mm_struct_t) (x : task_struct) : task_struct :=
  Mk_task x.(stack_base) x.(stack_origin) x.(name) x.(flag) x.(pid) x.(uid) x.(state)
    x.(exit_state) x.(signal) x.(exit_code) v x.(parent) x.(run_time) x.(wait_time)
    x.(time_out) x.(run_count) x.(prio) x.(pre_prio) x.(message).
Definition with_parent (v : Z) (x : task_struct) : task_struct :=
  Mk_task x.(stack_base) x.(stack_origin) x.(name) x.(flag) x.(pid) x.(uid) x.(state)
    x.(exit_state) x.(signal) x.(exit_code) x.(mm_struct) v x.(run_time)
    x.(wait_time) x.(time_out) x.(run_count) x.(prio) x.(pre_prio) x.(message).
Definition with_run_time (v : Z) (x : task_struct) : task_struct :=
  Mk_task x.(stack_base) x.(stack_origin) x.(name) x.(flag) x.(pid) x.(uid) x.(state)
    x.(exit_state) x.(signal) x.(exit_code) x.(mm_struct) x.(parent) v x.(wait_time)
    x.(time_out) x.(run_count) x.(prio) x.(pre_prio) x.(message).
Definition with_wait_time (v : Z) (x : task_struct) : task_struct :=
  Mk_task x.(stack_base) x.(stack_origin) x.(name) x.(flag) x.(pid) x.(uid) x.(state)
    x.(exit_state) x.(signal) x.(exit_code) x.(mm_struct) x.(parent) x.(run_time) v
    x.(time_out) x.(run_count) x.(prio) x.(pre_prio) x.(message).
Definition with_time_out (v : Z) (x : task_struct) : task_struct :=
  Mk_task x.(stack_base) x.(stack_origin) x.(name) x.(flag) x.(pid) x.(uid) x.(state)
    x.(exit_state) x.(signal) x.(exit_code) x.(mm_struct) x.(parent) x.(run_time)
    x.(wait_time) v x.(run_count) x.(prio) x.(pre_prio) x.(message).
Definition with_run_count (v : Z) (x : task_struct) : task_struct :=
  Mk_task x.(stack_base) x.(stack_origin) x.(name) x.(flag) x.(pid) x.(uid) x.(state)
    x.(exit_state) x.(signal) x.(exit_code) x.(mm_struct) x.(parent) x.(run_time)
    x.(wait_time) x.(time_out) v x.(prio) x.(pre_prio) x.(message).
Definition with_prio (v : Z) (x : task_struct) : task_struct :=
  Mk_task x.(stack_base) x.(stack_origin) x.(name) x.(flag) x.(pid) x.(uid) x.(state)
    x.(exit_state) x.(signal) x.(exit_code) x.(mm_struct) x.(parent) x.(run_time)
    x.(wait_time) x.(time_out) x.(run_count) v x.(pre_prio) x.(message).
Definition with_pre_prio (v : Z) (x : task_struct) : task_struct :=
  Mk_task x.(stack_base) x.(stack_origin) x.(name) x.(flag) x.(pid) x.(uid) x.(state)
    x.(exit_state) x.(signal) x.(exit_code) x.(mm_struct) x.(parent) x.(run_time)
    x.(wait_time) x.(time_out) x.(run_count) x.(prio) v x.(message).
