(* ===== verification/Sched.v ===== *)
(** * The scheduler

    Models [kernel/sched.c] (task queues, the state machine of a task, the
    choice of the next task, the timer tick, suspending and waking) with the
    interrupt mask of [kernel/interrupt.c].  The queues are the intrusive lists
    of the heap; [prio_count] is the [count] member of [os_sched_table].

    [sched] stops at the context switch: the code after [arch_switch_task_sw]
    runs when the calling task is chosen again and is [sched_resume]. *)

From S2P Require Import Prelude ListHead TaskStruct.

Definition MAX_PRIO : Z := 64.
Definition PROCESS_DEFAULT_PRIO : Z := 20.
Definition KERNEL_THREAD_PRIO : Z := 5.

(** ** The state *)

Record sched_state : Type := Mk_sched {
  heap : lheap node;
  tasks : gmap Z task_struct;
  prio_count : list Z;
  system_count : Z;
  idle_count : Z;
  sleep_count : Z;
  current : Z;
  idle : Z;
  next_run : Z;
  schedule_running : Z;
  in_interrupt : Z;
  cpsr_c : Z;
  mutex_count : gmap Z Z
}.

(** Assignments to one variable. *)
Definition with_heap (v : lheap node) (x : sched_state) : sched_state :=
  Mk_sched v x.(tasks) x.(prio_count) x.(system_count) x.(idle_count) x.(sleep_count)
    x.(current) x.(idle) x.(next_run) x.(schedule_running) x.(in_interrupt)
    x.(cpsr_c) x.(mutex_count).
Definition with_tasks (v : gmap Z task_struct) (x : sched_state) : sched_state :=
  Mk_sched x.(heap) v x.(prio_count) x.(system_count) x.(idle_count) x.(sleep_count)
    x.(current) x.(idle) x.(next_run) x.(schedule_running) x.(in_interrupt)
    x.(cpsr_c) x.(mutex_count).
Definition with_prio_count (v : list Z) (x : sched_state) : sched_state :=
  Mk_sched x.(heap) x.(tasks) v x.(system_count) x.(idle_count) x.(sleep_count) x.(current)
    x.(idle) x.(next_run) x.(schedule_running) x.(in_interrupt) x.(cpsr_c)
    x.(mutex_count).
Definition with_system_count (v : Z) (x : sched_state) : sched_state :=
  Mk_sched x.(heap) x.(tasks) x.(prio_count) v x.(idle_count) x.(sleep_count) x.(current)
    x.(idle) x.(next_run) x.(schedule_running) x.(in_interrupt) x.(cpsr_c)
    x.(mutex_count).
Definition with_idle_count (v : Z) (x : sched_state) : sched_state :=
  Mk_sched x.(heap) x.(tasks) x.(prio_count) x.(system_count) v x.(sleep_count) x.(current)
    x.(idle) x.(next_run) x.(schedule_running) x.(in_interrupt) x.(cpsr_c)
    x.(mutex_count).
Definition with_sleep_count (v : Z) (x : sched_state) : sched_state :=
  Mk_sched x.(heap) x.(tasks) x.(prio_count) x.(system_count) x.(idle_count) v x.(current)
    x.(idle) x.(next_run) x.(schedule_running) x.(in_interrupt) x.(cpsr_c)
    x.(mutex_count).
Definition with_current (v : Z) (x : sched_state) : sched_state :=
  Mk_sched x.(heap) x.(tasks) x.(prio_count) x.(system_count) x.(idle_count) x.(sleep_count)
    v x.(idle) x.(next_run) x.(schedule_running) x.(in_interrupt) x.(cpsr_c)
    x.(mutex_count).
Definition with_idle (v : Z) (x : sched_state) : sched_state :=
  Mk_sched x.(heap) x.(tasks) x.(prio_count) x.(system_count) x.(idle_count) x.(sleep_count)
    x.(current) v x.(next_run) x.(schedule_running) x.(in_interrupt) x.(cpsr_c)
    x.(mutex_count).
Definition with_next_run (v : Z) (x : sched_state) : sched_state :=
  Mk_sched x.(heap) x.(tasks) x.(prio_count) x.(system_count) x.(idle_count) x.(sleep_count)
    x.(current) x.(idle) v x.(schedule_running) x.(in_interrupt) x.(cpsr_c)
    x.(mutex_count).
Definition with_schedule_running (v : Z) (x : sched_state) : sched_state :=
  Mk_sched x.(heap) x.(tasks) x.(prio_count) x.(system_count) x.(idle_count) x.(sleep_count)
    x.(current) x.(idle) x.(next_run) v x.(in_interrupt) x.(cpsr_c) x.(mutex_count).
Definition with_in_interrupt (v : Z) (x : sched_state) : sched_state :=
  Mk_sched x.(heap) x.(tasks) x.(prio_count) x.(system_count) x.(idle_count) x.(sleep_count)
    x.(current) x.(idle) x.(next_run) x.(schedule_running) v x.(cpsr_c)
    x.(mutex_count).
Definition with_cpsr_c (v : Z) (x : sched_state) : sched_state :=
  Mk_sched x.(heap) x.(tasks) x.(prio_count) x.(system_count) x.(idle_count) x.(sleep_count)
    x.(current) x.(idle) x.(next_run) x.(schedule_running) x.(in_interrupt) v
    x.(mutex_count).
Definition with_mutex_count (v : gmap Z Z) (x : sched_state) : sched_state :=
  Mk_sched x.(heap) x.(tasks) x.(prio_count) x.(system_count) x.(idle_count) x.(sleep_count)
    x.(current) x.(idle) x.(next_run) x.(schedule_running) x.(in_interrupt)
    x.(cpsr_c) v.


Definition get_task (t : Z) (s : sched_state) : option task_struct := s.(tasks) !! t.

Definition upd_task (t : Z) (f : task_struct -> task_struct) (s : sched_state)
  : option sched_state :=
  tk ← get_task t s; Some (with_tasks (<[t := f tk]> s.(tasks)) s).

(** ** Interrupt mask: [enter_critical], [exit_critical] *)

Definition enter_critical (s : sched_state) : Z * sched_state :=
  (s.(cpsr_c), with_cpsr_c (s.(cpsr_c) |u 0xc0) s).

Definition exit_critical (val : Z) (s : sched_state) : sched_state := with_cpsr_c val s.

(** ** Task queues *)

(** The lists declared by [DECLARE_SCHED_LIST]. *)
Inductive sched_list : Set := L_system | L_idle | L_sleep.

#[global] Instance sched_list_eq_dec : EqDecision sched_list.
Proof. solve_decision. Defined.

Definition sl_head (n : sched_list) : node :=
  match n with L_system => TaskSystem | L_idle => TaskIdle | L_sleep => TaskSleep end.

Definition sl_node (n : sched_list) (t : Z) : node :=
  match n with L_system => TSystem t | L_idle => TIdle t | L_sleep => TSleep t end.

Definition sl_count (n : sched_list) (s : sched_state) : Z :=
  match n with
  | L_system => s.(system_count) | L_idle => s.(idle_count) | L_sleep => s.(sleep_count)
  end.

Definition with_sl_count (n : sched_list) (v : Z) (s : sched_state) : sched_state :=
  match n with
  | L_system => with_system_count v s
  | L_idle => with_idle_count v s
  | L_sleep => with_sleep_count v s
  end.

Definition init_sched_list (n : sched_list) (s : sched_state) : sched_state :=
  with_sl_count n 0 (with_heap (init_list (sl_head n) s.(heap)) s).

Definition sched_list_add_task (n : sched_list) (t : Z) (s : sched_state)
  : option sched_state :=
  h ← list_add (sl_head n) (sl_node n t) s.(heap);
  Some (with_sl_count n (sl_count n s +u 1) (with_heap h s)).

Definition sched_list_add_task_tail (n : sched_list) (t : Z) (s : sched_state)
  : option sched_state :=
  h ← list_add_tail (sl_head n) (sl_node n t) s.(heap);
  Some (with_sl_count n (sl_count n s +u 1) (with_heap h s)).

Definition sched_list_del_task (n : sched_list) (t : Z) (s : sched_state)
  : option sched_state :=
  h ← list_del (sl_node n t) s.(heap);
  Some (with_sl_count n (sl_count n s -u 1) (with_heap h s)).

Definition prio_list_add_task (t : Z) (s : sched_state) : option sched_state :=
  tk ← get_task t s;
  h ← list_add (OsSchedTable tk.(prio)) (PrioRunning t) s.(heap);
  c ← aupd s.(prio_count) tk.(prio) (fun c => c +u 1);
  Some (with_prio_count c (with_heap h s)).

Definition prio_list_add_task_tail (t : Z) (s : sched_state) : option sched_state :=
  tk ← get_task t s;
  h ← list_add_tail (OsSchedTable tk.(prio)) (PrioRunning t) s.(heap);
  c ← aupd s.(prio_count) tk.(prio) (fun c => c +u 1);
  Some (with_prio_count c (with_heap h s)).

Definition prio_list_del_task (t : Z) (s : sched_state) : option sched_state :=
  tk ← get_task t s;
  h ← list_del (PrioRunning t) s.(heap);
  c ← aupd s.(prio_count) tk.(prio) (fun c => c -u 1);
  Some (with_prio_count c (with_heap h s)).

(** ** The state machine of a task *)

Inductive state_change_t : Set :=
  | STATE_NONE_TO_PREPARE
  | STATE_NONE_TO_SLEEP
  | STATE_PREPARE_TO_RUNNING
  | STATE_PREPARE_TO_SLEEP
  | STATE_PREPARE_TO_IDLE
  | STATE_RUNNING_TO_SLEEP
  | STATE_RUNNING_TO_PREPARE
  | STATE_RUNNING_TO_IDLE
  | STATE_SLEEP_TO_PREPARE
  | STATE_SLEEP_TO_IDLE
  | STATE_SLEEP_TO_RUNNING
  | STATE_PREPARE_TO_UNKNOWN
  | STATE_NONE_TO_NONE.

#[global] Instance state_change_t_eq_dec : EqDecision state_change_t.
Proof. solve_decision. Defined.

(** The values of the enumeration constants, and back. *)
Definition change_code (c : state_change_t) : Z :=
  match c with
  | STATE_NONE_TO_PREPARE => 0
  | STATE_NONE_TO_SLEEP => 1
  | STATE_PREPARE_TO_RUNNING => 2
  | STATE_PREPARE_TO_SLEEP => 3
  | STATE_PREPARE_TO_IDLE => 4
  | STATE_RUNNING_TO_SLEEP => 5
  | STATE_RUNNING_TO_PREPARE => 6
  | STATE_RUNNING_TO_IDLE => 7
  | STATE_SLEEP_TO_PREPARE => 8
  | STATE_SLEEP_TO_IDLE => 9
  | STATE_SLEEP_TO_RUNNING => 10
  | STATE_PREPARE_TO_UNKNOWN => 11
  | STATE_NONE_TO_NONE => 12
  end.

Definition state_changes : list state_change_t :=
  [ STATE_NONE_TO_PREPARE; STATE_NONE_TO_SLEEP; STATE_PREPARE_TO_RUNNING;
    STATE_PREPARE_TO_SLEEP; STATE_PREPARE_TO_IDLE; STATE_RUNNING_TO_SLEEP;
    STATE_RUNNING_TO_PREPARE; STATE_RUNNING_TO_IDLE; STATE_SLEEP_TO_PREPARE;
    STATE_SLEEP_TO_IDLE; STATE_SLEEP_TO_RUNNING; STATE_PREPARE_TO_UNKNOWN;
    STATE_NONE_TO_NONE ].

Definition change_of_code (c : Z) : state_change_t :=
  default STATE_NONE_TO_NONE (aget state_changes c).

Lemma change_of_code_code c : change_of_code (change_code c) = c.
Proof. by destruct c. Qed.

Definition CHANGE_TABLE_SIZE : Z := 14 * 3.

Definition change_row (old new : state_t) (c : state_change_t) : list Z :=
  [state_code old; state_code new; change_code c].

(** Twelve rows are written; C initialises the other six elements with 0. *)
Definition change_table : list Z :=
  change_row PROCESS_STATE_UNKNOWN PROCESS_STATE_PREPARE STATE_NONE_TO_PREPARE ++
  change_row PROCESS_STATE_UNKNOWN PROCESS_STATE_SLEEP STATE_NONE_TO_SLEEP ++
  change_row PROCESS_STATE_PREPARE PROCESS_STATE_RUNNING STATE_PREPARE_TO_RUNNING ++
  change_row PROCESS_STATE_PREPARE PROCESS_STATE_SLEEP STATE_PREPARE_TO_SLEEP ++
  change_row PROCESS_STATE_PREPARE PROCESS_STATE_IDLE STATE_PREPARE_TO_IDLE ++
  change_row PROCESS_STATE_RUNNING PROCESS_STATE_SLEEP STATE_RUNNING_TO_SLEEP ++
  change_row PROCESS_STATE_RUNNING PROCESS_STATE_PREPARE STATE_RUNNING_TO_PREPARE ++
  change_row PROCESS_STATE_RUNNING PROCESS_STATE_IDLE STATE_RUNNING_TO_IDLE ++
  change_row PROCESS_STATE_SLEEP PROCESS_STATE_PREPARE STATE_SLEEP_TO_PREPARE ++
  change_row PROCESS_STATE_SLEEP PROCESS_STATE_IDLE STATE_SLEEP_TO_IDLE ++
  change_row PROCESS_STATE_SLEEP PROCESS_STATE_RUNNING STATE_SLEEP_TO_RUNNING ++
  change_row PROCESS_STATE_PREPARE PROCESS_STATE_UNKNOWN STATE_PREPARE_TO_UNKNOWN ++
  replicate 6 0.

Fixpoint get_state_change_loop (fuel : nat) (i old new : Z) : option state_change_t :=
  match fuel with
  | O => None
  | S fuel' =>
      if Z.ltb i CHANGE_TABLE_SIZE then
        a ← aget change_table i;
        b ← aget change_table (i + 1);
        if Z.eqb old a && Z.eqb new b then
          c ← aget change_table (i + 2); Some (change_of_code c)
        else get_state_change_loop fuel' (i + 3) old new
      else Some STATE_NONE_TO_NONE
  end.

Definition get_state_change (old new : state_t) : option state_change_t :=
  get_state_change_loop 15 0 (state_code old) (state_code new).

Definition get_task_state (t : Z) (s : sched_state) : option state_t :=
  state <$> get_task t s.

Definition apply_state_change (change : state_change_t) (t : Z) (s : sched_state)
  : option sched_state :=
  match change with
  | STATE_NONE_TO_PREPARE =>
      s1 ← sched_list_add_task_tail L_system t s; prio_list_add_task_tail t s1
  | STATE_NONE_TO_SLEEP =>
      s1 ← sched_list_add_task_tail L_system t s; sched_list_add_task L_sleep t s1
  | STATE_PREPARE_TO_RUNNING => prio_list_del_task t s
  | STATE_PREPARE_TO_IDLE =>
      s1 ← prio_list_del_task t s; sched_list_add_task_tail L_idle t s1
  | STATE_PREPARE_TO_SLEEP =>
      s1 ← prio_list_del_task t s; sched_list_add_task_tail L_sleep t s1
  | STATE_RUNNING_TO_SLEEP => sched_list_add_task_tail L_sleep t s
  | STATE_RUNNING_TO_PREPARE => prio_list_add_task_tail t s
  | STATE_RUNNING_TO_IDLE => sched_list_add_task_tail L_idle t s
  | STATE_SLEEP_TO_PREPARE =>
      s1 ← sched_list_del_task L_sleep t s; prio_list_add_task_tail t s1
  | STATE_SLEEP_TO_IDLE =>
      s1 ← sched_list_del_task L_sleep t s; sched_list_add_task_tail L_idle t s1
  | STATE_SLEEP_TO_RUNNING => sched_list_del_task L_sleep t s
  | STATE_PREPARE_TO_UNKNOWN => prio_list_del_task t s
  | STATE_NONE_TO_NONE => Some s
  end.

Definition set_task_state (t : Z) (new : state_t) (s : sched_state) : option sched_state :=
  old ← get_task_state t s;
  change ← get_state_change old new;
  if decide (change = STATE_NONE_TO_NONE) then Some s
  else
    let '(flags, s0) := enter_critical s in
    s1 ← upd_task t (with_state new) s0;
    s2 ← apply_state_change change t s1;
    Some (exit_critical flags s2).

Definition sched_table_empty (i : Z) (s : sched_state) : option bool :=
  c ← aget s.(prio_count) i; Some (negb (truth c)).

Definition get_task_run_time (t : Z) (s : sched_state) : option sched_state :=
  upd_task t (with_run_time 1) s.

(** ** [init_sched_struct]: scheduling members of a new task *)

Definition init_sched_prio (tk : task_struct) (s : sched_state) : option Z :=
  if truth (tk.(flag) &u PROCESS_TYPE_KERNEL) && Z.ltb 0 tk.(pid) then Some KERNEL_THREAD_PRIO
  else if truth (tk.(flag) &u PROCESS_TYPE_USER) && Z.eqb tk.(pid) 1 then
    Some PROCESS_DEFAULT_PRIO
  else if truth (tk.(flag) &u PROCESS_TYPE_USER) && Z.ltb 1 tk.(pid) then
    pt ← get_task tk.(parent) s; Some pt.(prio)
  else Some (KERNEL_THREAD_PRIO - 1).

Definition init_sched_struct (t : Z) (s : sched_state) : option sched_state :=
  tk ← get_task t s;
  p ← init_sched_prio tk s;
  s1 ← upd_task t (fun k => with_pre_prio p (with_prio p k)) s;
  s2 ← get_task_run_time t s1;
  s3 ← upd_task t (fun k =>
         with_exit_state PROCESS_STATE_UNKNOWN (with_state PROCESS_STATE_UNKNOWN
           (with_run_count 0 (with_time_out 0 (with_wait_time (-1) k))))) s2;
  let h := init_list (PrioRunning t) s3.(heap) in
  let h := init_list (TSystem t) h in
  let h := init_list (TSleep t) h in
  let h := init_list (TIdle t) h in
  let h := init_list (TMutexGet t) h in
  let h := init_list (TWait t) h in
  Some (with_heap h s3).

(** ** Changing a priority *)

Definition set_task_prio (t : Z) (p : Z) (s : sched_state) : option (Z * sched_state) :=
  st ← get_task_state t s;
  if Z.leb MAX_PRIO p then Some (- EINVAL, s)
  else
    let new_prio k := with_prio p (with_pre_prio k.(prio) k) in
    match st with
    | PROCESS_STATE_RUNNING | PROCESS_STATE_SLEEP =>
        s1 ← upd_task t new_prio s; Some (0, s1)
    | PROCESS_STATE_PREPARE =>
        s1 ← set_task_state t PROCESS_STATE_UNKNOWN s;
        s2 ← upd_task t new_prio s1;
        s3 ← set_task_state t PROCESS_STATE_PREPARE s2;
        Some (0, s3)
    | _ => Some (0, s)
    end.

(** ** Choosing and switching to the next task *)

(** The loop of [find_next_run_task]: the least [i < MAX_PRIO - 1] with a
    non-zero count, or [MAX_PRIO - 1]. *)
Fixpoint find_prio (fuel : nat) (i : Z) (counts : list Z) : option Z :=
  match fuel with
  | O => None
  | S fuel' =>
      if Z.ltb i (MAX_PRIO - 1) then
        c ← aget counts i;
        if truth c then Some i else find_prio fuel' (i + 1) counts
      else Some i
  end.

Definition find_next_run_task (s : sched_state) : option Z :=
  i ← find_prio 64 0 s.(prio_count);
  if Z.eqb (MAX_PRIO - 1) i then Some s.(current)
  else
    n ← list_next s.(heap) (OsSchedTable i);
    prio_running_entry n.

Definition prepare_to_switch (next : Z) (s : sched_state) : option sched_state :=
  st ← get_task_state s.(current) s;
  s1 ←
    (if Z.eqb s.(current) next then Some s
     else
       s1 ← (if decide (st = PROCESS_STATE_RUNNING)
             then set_task_state s.(current) PROCESS_STATE_PREPARE s else Some s);
       nk ← get_task next s1;
       s2 ← (if Z.eqb nk.(wait_time) 0 then upd_task next (with_time_out 1) s1 else Some s1);
       s3 ← upd_task next (with_wait_time (-1)) s2;
       set_task_state next PROCESS_STATE_RUNNING s3);
  s4 ← upd_task next (fun k => with_run_count (k.(run_count) +u 1) k) s1;
  get_task_run_time next s4.

(** [arch_switch_task_sw] saves the stack pointer in [current], which must be a
    task, and makes [next_run] current. *)
Definition arch_switch_task_sw (s : sched_state) : option sched_state :=
  _ ← get_task s.(current) s;
  _ ← get_task s.(next_run) s;
  Some (with_current s.(next_run) s).

(** [sched] up to the context switch: [None] when it returned early, else the
    [flags] the calling task restores when it runs again. *)
Definition sched (s : sched_state) : option (option Z * sched_state) :=
  if truth s.(in_interrupt) then Some (None, s)
  else if negb (truth s.(schedule_running)) then Some (None, s)
  else
    let '(flags, s0) := enter_critical s in
    n ← find_next_run_task s0;
    let s1 := with_next_run n s0 in
    s2 ← prepare_to_switch n s1;
    s3 ← arch_switch_task_sw s2;
    Some (Some flags, s3).

Definition sched_resume (o : option Z) (s : sched_state) : sched_state :=
  match o with None => s | Some flags => exit_critical flags s end.

(** ** The timer tick *)

Definition tick_body (n : node) (s : sched_state) : option sched_state :=
  t ← sleep_entry n;
  tk ← get_task t s;
  s1 ← (if Z.ltb 0 tk.(wait_time) then upd_task t (with_wait_time (tk.(wait_time) - 1)) s
        else Some s);
  tk1 ← get_task t s1;
  if Z.eqb tk1.(wait_time) 0 then set_task_state t PROCESS_STATE_PREPARE s1 else Some s1.

(** A traversal visits each list node at most once, so the size of the heap
    bounds the number of iterations. *)
Definition sched_list_for_each (l : sched_list) (body : node -> sched_state -> option sched_state)
    (s : sched_state) : option sched_state :=
  n ← list_next s.(heap) (sl_head l);
  list_for_each (S (size s.(heap))) heap body (sl_head l) n s.

Definition os_tick_handler (s : sched_state) : option sched_state :=
  s1 ← sched_list_for_each L_sleep tick_body s;
  s2 ← upd_task s1.(current) (fun k => with_run_time (s32 (k.(run_time) - 1)) k) s1;
  ck ← get_task s2.(current) s2;
  if Z.eqb ck.(run_time) 0 then
    n ← find_next_run_task s2;
    prepare_to_switch n (with_next_run n s2)
  else Some s2.

(** ** Suspending and waking *)

(** [suspend_task_timeout] up to the context switch inside [sched]; the result
    is [inl err] for an error return, [inr o] with the outcome of [sched]. *)
Definition suspend_task_timeout (t timeout : Z) (s : sched_state)
  : option ((Z + option Z) * sched_state) :=
  if Z.eqb t 0 || Z.eqb timeout 0 then Some (inl (- EINVAL), s)
  else
    let '(flags, s0) := enter_critical s in
    st ← get_task_state t s0;
    if decide (st = PROCESS_STATE_IDLE) then Some (inl (- EINVAL), exit_critical flags s0)
    else
      s1 ← upd_task t (fun k => with_time_out 0 (with_wait_time timeout k)) s0;
      s2 ← set_task_state t PROCESS_STATE_SLEEP s1;
      '(o, s3) ← sched (exit_critical flags s2);
      Some (inr o, s3).

(** The rest of [suspend_task_timeout], when the task runs again. *)
Definition suspend_resume (t : Z) (o : option Z) (s : sched_state) : option (Z * sched_state) :=
  let s1 := sched_resume o s in
  tk ← get_task t s1; Some (tk.(time_out), s1).

Definition wakeup_task (t : Z) (s : sched_state) : option (Z * sched_state) :=
  st ← get_task_state t s;
  if decide (st = PROCESS_STATE_SLEEP) then
    s1 ← get_task_run_time t s;
    s2 ← set_task_state t PROCESS_STATE_PREPARE s1;
    Some (0, s2)
  else Some (- EINVAL, s).

(** ** Boot: [sched_init] around the pid allocator, [build_idle_task] *)

Definition sched_init_lists (s : sched_state) : option sched_state :=
  s1 ← for_range (Z.to_nat MAX_PRIO) 0 (fun i s =>
         c ← aset s.(prio_count) i 0;
         Some (with_prio_count c (with_heap (init_list (OsSchedTable i) s.(heap)) s))) s;
  Some (init_sched_list L_system (init_sched_list L_idle (init_sched_list L_sleep s1))).

Definition sched_start (s : sched_state) : option sched_state :=
  Some (with_schedule_running 1 (with_next_run 0 (with_current 0 s))).

Definition sched_init_queues (s : sched_state) : option sched_state :=
  s1 ← sched_init_lists s; sched_start s1.

(** The end of [build_idle_task]: the boot flow becomes the idle task. *)
Definition build_idle_current (t : Z) (s : sched_state) : option sched_state :=
  s1 ← upd_task t (with_state PROCESS_STATE_RUNNING) s;
  Some (with_next_run t (with_current t (with_idle t s1))).

(** [os_exit_irq]: the interrupt return path switches to [next_run]. *)
Definition os_exit_irq (s : sched_state) : option sched_state :=
  if Z.eqb s.(current) s.(next_run) then Some s else arch_switch_task_sw s.
