(* ===== verification/SchedInv.v ===== *)
(** * The scheduler: invariant and refinement

    The abstract state of the scheduler is a view: the sequence of tasks of each
    queue.  [wf s v] says that the heap lists and counters of [s] implement the
    view [v] and that every task is in exactly the queue its state (and
    priority) calls for.  The theorems say that the operations of [Sched]
    implement the transitions on views and keep [wf]. *)

From S2P Require Import Prelude ListHead TaskStruct Sched.

(** ** Queues and views *)

Inductive qid : Set := Q_ready (i : Z) | Q_list (l : sched_list).

#[global] Instance qid_eq_dec : EqDecision qid.
Proof. solve_decision. Defined.

Definition q_valid (q : qid) : Prop :=
  match q with Q_ready i => 0 <= i < MAX_PRIO | Q_list _ => True end.

Definition q_head (q : qid) : node :=
  match q with Q_ready i => OsSchedTable i | Q_list l => sl_head l end.

Definition q_node (q : qid) (t : Z) : node :=
  match q with Q_ready _ => PrioRunning t | Q_list l => sl_node l t end.

Definition q_count (q : qid) (s : sched_state) : option Z :=
  match q with Q_ready i => aget s.(prio_count) i | Q_list l => Some (sl_count l s) end.

Abbreviation view := (qid -> list Z).

Definition vset (q : qid) (l : list Z) (v : view) : view :=
  fun q' => if decide (q' = q) then l else v q'.

Lemma vset_eq q l v : vset q l v q = l.
Proof. unfold vset. by rewrite decide_True. Qed.

Lemma vset_ne q q' l v : q' <> q -> vset q l v q' = v q'.
Proof. intros H. unfold vset. by rewrite decide_False. Qed.

Lemma q_head_inj q q' : q_head q = q_head q' -> q = q'.
Proof. destruct q as [?|[]], q' as [?|[]]; simpl; congruence. Qed.

Lemma q_head_node q q' t : q_head q <> q_node q' t.
Proof. destruct q as [?|[]], q' as [?|[]]; simpl; congruence. Qed.

Lemma q_node_inj q q' t t' :
  q_node q t = q_node q' t' -> t = t' /\ q_node q t' = q_node q' t'.
Proof. destruct q as [?|[]], q' as [?|[]]; simpl; intros E; inversion E; subst; done. Qed.

#[global] Instance q_node_Inj q : Inj (=) (=) (q_node q).
Proof. intros t t' E. by apply q_node_inj in E as [? _]. Qed.

(** Nodes the scheduler's queues are made of. *)
Definition queue_node (n : node) : bool :=
  match n with
  | OsSchedTable _ | TaskSystem | TaskIdle | TaskSleep
  | PrioRunning _ | TSystem _ | TSleep _ | TIdle _ => true
  | _ => false
  end.

Lemma q_head_queue q : queue_node (q_head q) = true.
Proof. by destruct q as [?|[]]. Qed.

Lemma q_node_queue q t : queue_node (q_node q t) = true.
Proof. by destruct q as [?|[]]. Qed.

(** ** Structural part: the lists and their counters *)

Record lists_ok (s : sched_state) (v : view) : Prop := {
  lo_list : forall q, q_valid q -> is_list s.(heap) (q_head q) (q_node q <$> v q);
  lo_count : forall q, q_valid q -> q_count q s = Some (u32 (Z.of_nat (length (v q))));
  lo_len : length s.(prio_count) = 64%nat;
  lo_disj : forall q q' t, q_valid q -> q_valid q' -> q_node q t = q_node q' t ->
    t ∈ v q -> t ∈ v q' -> q = q'
}.

(** What the queue operations leave alone. *)
Record same_env (s s' : sched_state) : Prop := {
  se_tasks : s'.(tasks) = s.(tasks);
  se_current : s'.(current) = s.(current);
  se_idle : s'.(idle) = s.(idle);
  se_next_run : s'.(next_run) = s.(next_run);
  se_running : s'.(schedule_running) = s.(schedule_running);
  se_in_interrupt : s'.(in_interrupt) = s.(in_interrupt);
  se_cpsr : s'.(cpsr_c) = s.(cpsr_c);
  se_mutex : s'.(mutex_count) = s.(mutex_count);
  se_dom : dom s'.(heap) = dom s.(heap);
  se_heap : forall k, queue_node k = false -> s'.(heap) !! k = s.(heap) !! k
}.

#[global] Instance same_env_preorder : PreOrder same_env.
Proof.
  split; [intros s; by constructor|]. intros a b c H1 H2.
  constructor; [(etrans; [apply H2|apply H1])..|].
  intros k Hk. etrans; [by apply H2|by apply H1].
Qed.

Definition with_q_count (q : qid) (d : Z) (s : sched_state) : option sched_state :=
  match q with
  | Q_ready i => c ← aupd s.(prio_count) i (fun c => u32 (c + d)); Some (with_prio_count c s)
  | Q_list l => Some (with_sl_count l (u32 (sl_count l s + d)) s)
  end.

Lemma with_q_count_ok q d (s : sched_state) n :
  q_valid q -> length s.(prio_count) = 64%nat -> q_count q s = Some n ->
  exists s', with_q_count q d s = Some s' /\ s'.(heap) = s.(heap) /\ same_env s s' /\
    length s'.(prio_count) = 64%nat /\ q_count q s' = Some (u32 (n + d)) /\
    forall q', q' <> q -> q_count q' s' = q_count q' s.
Proof.
  intros Hv Hlen Hc. destruct q as [i|l]; simpl in *.
  - rewrite (aupd_Some _ _ _ _ Hc). simpl. eexists. split; [done|].
    assert (Ha := aset_Some s.(prio_count) i (u32 (n + d)) (aget_lt _ _ _ Hc)).
    simpl. split; [done|]. split; [by constructor|]. split; [by rewrite length_insert|].
    split; [by apply (aget_aset_eq _ _ _ _ Ha)|].
    intros [j|l'] Hne; simpl; [|by destruct l'].
    apply (aget_aset_ne _ _ _ _ _ Ha). congruence.
  - eexists. split; [done|]. injection Hc as <-.
    split; [by destruct l|]. split; [destruct l; by constructor|].
    split; [by destruct l|]. split; [by destruct l|].
    intros [j|l'] Hne; destruct l; simpl; try done; destruct l'; simpl; congruence.
Qed.

(** ** Insertion and removal *)

Section queue_ops.
Context (s : sched_state) (v : view) (q : qid).
Hypothesis Hok : lists_ok s v.
Hypothesis Hq : q_valid q.

Definition q_insert (op : node -> node -> lheap node -> option (lheap node)) (t : Z)
  : option sched_state :=
  h ← op (q_head q) (q_node q t) s.(heap); with_q_count q 1 (with_heap h s).

Definition q_remove (t : Z) : option sched_state :=
  h ← list_del (q_node q t) s.(heap); with_q_count q (-1) (with_heap h s).

(** Every other queue is framed by an operation on [q] and [t]. *)
Lemma frame_other h' (l : list Z) q' :
  (forall k, k ∉ q_head q :: (q_node q <$> l) -> h' !! k = s.(heap) !! k) ->
  (forall t q', q_valid q' -> q' <> q -> q_node q t = q_node q' t -> t ∈ l -> t ∉ v q') ->
  q_valid q' -> q' <> q -> is_list h' (q_head q') (q_node q' <$> v q').
Proof.
  intros Hf Hd Hq' Hne. apply (is_list_frame s.(heap)); [|by apply lo_list].
  intros k Hk. apply Hf. rewrite not_elem_of_cons, elem_of_cons in *.
  destruct Hk as [->|(t & -> & Ht)%list_elem_of_fmap].
  - split; [intros E; by apply q_head_inj in E|].
    rewrite list_elem_of_fmap. intros (t & E & _). by apply q_head_node in E.
  - split; [intros E; by apply eq_sym, q_head_node in E|].
    rewrite list_elem_of_fmap. intros (t' & E & Ht').
    apply q_node_inj in E as [-> E]. by apply (Hd t' q').
Qed.

(** Common part of the preservation proofs: the heap and counter change. *)
Lemma lists_ok_update h' d (l : list Z) touched :
  is_list h' (q_head q) (q_node q <$> l) -> dom h' = dom s.(heap) ->
  (forall k, k ∉ q_head q :: (q_node q <$> touched) -> h' !! k = s.(heap) !! k) ->
  (forall t q', q_valid q' -> q' <> q -> q_node q t = q_node q' t ->
     t ∈ touched -> t ∉ v q') ->
  (forall t, t ∈ l -> t ∈ touched) ->
  u32 (u32 (Z.of_nat (length (v q))) + d) = u32 (Z.of_nat (length l)) ->
  exists s', with_q_count q d (with_heap h' s) = Some s' /\
    lists_ok s' (vset q l v) /\ same_env s s' /\
    forall k, k ∉ q_head q :: (q_node q <$> touched) -> s'.(heap) !! k = s.(heap) !! k.
Proof.
  intros Hl Hdom Hf Hd Hlt Hc.
  destruct (with_q_count_ok q d (with_heap h' s) (u32 (Z.of_nat (length (v q)))) Hq)
    as (s' & E & Eh & Henv & Hlen & Hcnt & Hoth); [apply (lo_len _ _ Hok)| |].
  { rewrite <- (lo_count _ _ Hok q Hq). by destruct q as [?|[]]. }
  exists s'. split; [done|]. split; [|split].
  - constructor.
    + intros q' Hq'. rewrite Eh. simpl. destruct (decide (q' = q)) as [->|Hne].
      * by rewrite vset_eq.
      * rewrite vset_ne by done. by apply (frame_other h' touched).
    + intros q' Hq'. destruct (decide (q' = q)) as [->|Hne].
      * rewrite vset_eq, Hcnt. by rewrite Hc.
      * rewrite vset_ne, Hoth by done. rewrite <- (lo_count _ _ Hok q' Hq').
        by destruct q' as [?|[]].
    + done.
    + intros q1 q2 t Hq1 Hq2 En H1 H2.
      destruct (decide (q1 = q)) as [->|Hn1], (decide (q2 = q)) as [->|Hn2]; [done| | |].
      * rewrite vset_eq in H1. rewrite vset_ne in H2 by done. exfalso.
        apply (Hd t q2); auto.
      * rewrite vset_eq in H2. rewrite vset_ne in H1 by done. exfalso.
        apply (Hd t q1); auto.
      * rewrite vset_ne in H1, H2 by done. by apply (lo_disj _ _ Hok q1 q2 t).
  - destruct Henv. constructor; try done; simpl in *; [congruence|].
    intros k Hk. rewrite Eh. apply Hf. rewrite not_elem_of_cons, list_elem_of_fmap. split.
    + intros ->. by rewrite q_head_queue in Hk.
    + intros (t & -> & _). by rewrite q_node_queue in Hk.
  - intros k Hk. rewrite Eh. by apply Hf.
Qed.
End queue_ops.

Section queue_specs.
Context (s : sched_state) (v : view) (q : qid) (t : Z).
Hypothesis Hok : lists_ok s v.
Hypothesis Hq : q_valid q.

(** [t] is in no queue that shares its list node with [q]. *)
Definition q_fresh : Prop := forall q', q_valid q' -> q_node q t = q_node q' t -> t ∉ v q'.

Lemma q_fresh_notin : q_fresh -> q_node q t ∉ q_head q :: (q_node q <$> v q).
Proof.
  intros Hf. rewrite not_elem_of_cons, list_elem_of_fmap. split.
  - intros E. by apply eq_sym, q_head_node in E.
  - intros (t' & E & Ht'). apply (inj (q_node q)) in E as <-. by apply (Hf q).
Qed.

Lemma touched_disjoint (l : list Z) :
  (forall t', t' ∈ l -> t' ∈ v q \/ (t' = t /\ q_fresh)) ->
  forall t' q', q_valid q' -> q' <> q -> q_node q t' = q_node q' t' -> t' ∈ l -> t' ∉ v q'.
Proof.
  intros Hl t' q' Hq' Hne En [Hin|[-> Hf]]%Hl Hin'.
  - apply Hne. symmetry. by apply (lo_disj _ _ Hok q q' t').
  - by apply (Hf q').
Qed.

Lemma q_insert_tail_ok :
  q_fresh -> is_Some (s.(heap) !! q_node q t) ->
  exists s', q_insert s q list_add_tail t = Some s' /\
    lists_ok s' (vset q (v q ++ [t]) v) /\ same_env s s' /\
    forall k, k ∉ q_head q :: (q_node q <$> t :: v q) -> s'.(heap) !! k = s.(heap) !! k.
Proof.
  intros Hf Ha. unfold q_insert.
  destruct (list_add_tail_spec _ _ _ _ (lo_list _ _ Hok q Hq) (q_fresh_notin Hf) Ha)
    as (h' & E & Hl & Hd & Hfr). rewrite E. simpl.
  apply (lists_ok_update s v q Hok Hq h' 1 (v q ++ [t]) (t :: v q)); try done.
  - by rewrite fmap_app.
  - intros k Hk. apply Hfr. simpl in Hk. set_solver.
  - apply touched_disjoint. set_solver.
  - set_solver.
  - rewrite u32_add_l, length_app. simpl. f_equal. lia.
Qed.

Lemma q_insert_head_ok :
  q_fresh -> is_Some (s.(heap) !! q_node q t) ->
  exists s', q_insert s q list_add t = Some s' /\
    lists_ok s' (vset q (t :: v q) v) /\ same_env s s' /\
    forall k, k ∉ q_head q :: (q_node q <$> t :: v q) -> s'.(heap) !! k = s.(heap) !! k.
Proof.
  intros Hf Ha. unfold q_insert.
  destruct (list_add_spec _ _ _ _ (lo_list _ _ Hok q Hq) (q_fresh_notin Hf) Ha)
    as (h' & E & Hl & Hd & Hfr). rewrite E. simpl.
  apply (lists_ok_update s v q Hok Hq h' 1 (t :: v q) (t :: v q)); try done.
  - intros k Hk. apply Hfr. simpl in Hk. set_solver.
  - apply touched_disjoint. set_solver.
  - rewrite u32_add_l. simpl length. f_equal. lia.
Qed.

Lemma q_remove_ok :
  t ∈ v q ->
  exists s', q_remove s q t = Some s' /\
    lists_ok s' (vset q (without t (v q)) v) /\ same_env s s' /\
    forall k, k ∉ q_head q :: (q_node q <$> without t (v q)) ->
      s'.(heap) !! k = s.(heap) !! k.
Proof.
  intros Ht. unfold q_remove. pose proof (lo_list _ _ Hok q Hq) as Hl.
  assert (Hnd : NoDup (v q)).
  { apply (NoDup_fmap_1 (q_node q)). by apply is_list_nodup in Hl as [? _]. }
  apply list_elem_of_split in Ht as (l1 & l2 & Ev). rewrite Ev in *.
  rewrite fmap_app in Hl. simpl in Hl.
  destruct (list_del_spec _ _ _ _ _ Hl) as (h' & E & Hl' & Hd & Hfr).
  rewrite E. simpl. rewrite without_middle by done.
  apply (lists_ok_update s v q Hok Hq h' (-1) (l1 ++ l2) (l1 ++ l2)); try done.
  - by rewrite fmap_app.
  - intros k Hk. apply Hfr. by rewrite fmap_app in Hk.
  - apply touched_disjoint. rewrite Ev. set_solver.
  - rewrite Ev, u32_add_l, !length_app. simpl. f_equal. lia.
Qed.
End queue_specs.

(** The macros of the source are these operations. *)
Lemma sched_list_add_task_tail_q l t s :
  sched_list_add_task_tail l t s = q_insert s (Q_list l) list_add_tail t.
Proof. by destruct l. Qed.

Lemma sched_list_add_task_q l t s :
  sched_list_add_task l t s = q_insert s (Q_list l) list_add t.
Proof. by destruct l. Qed.

Lemma sched_list_del_task_q l t s :
  sched_list_del_task l t s = q_remove s (Q_list l) t.
Proof. by destruct l. Qed.

Lemma prio_list_add_task_tail_q t tk s :
  get_task t s = Some tk ->
  prio_list_add_task_tail t s = q_insert s (Q_ready tk.(prio)) list_add_tail t.
Proof. intros E. unfold prio_list_add_task_tail. by rewrite E. Qed.

Lemma prio_list_del_task_q t tk s :
  get_task t s = Some tk ->
  prio_list_del_task t s = q_remove s (Q_ready tk.(prio)) t.
Proof. intros E. unfold prio_list_del_task. by rewrite E. Qed.

(** ** Membership part: every task is where its state says *)

(** The queue a task in this state and priority belongs to. *)
Definition home (tk : task_struct) : option qid :=
  match tk.(state) with
  | PROCESS_STATE_PREPARE => Some (Q_ready tk.(prio))
  | PROCESS_STATE_SLEEP => Some (Q_list L_sleep)
  | PROCESS_STATE_IDLE => Some (Q_list L_idle)
  | _ => None
  end.

Abbreviation Q_system := (Q_list L_system).

Record wf (s : sched_state) (v : view) : Prop := {
  wf_lists : lists_ok s v;
  wf_home : forall t tk q, s.(tasks) !! t = Some tk -> q_valid q -> q <> Q_system ->
    (t ∈ v q <-> home tk = Some q);
  wf_prio : forall t tk, s.(tasks) !! t = Some tk -> 0 <= tk.(prio) < MAX_PRIO;
  wf_dom : forall t q, q_valid q -> t ∈ v q -> is_Some (s.(tasks) !! t);
  wf_unknown : forall t tk, s.(tasks) !! t = Some tk ->
    tk.(state) = PROCESS_STATE_UNKNOWN -> t ∉ v Q_system;
  wf_alloc : forall t q, is_Some (s.(tasks) !! t) -> is_Some (s.(heap) !! q_node q t);
  wf_addr : forall t, is_Some (s.(tasks) !! t) -> 0 < t < 2 ^ 32
}.

Lemma home_valid tk q : 0 <= tk.(prio) < MAX_PRIO -> home tk = Some q ->
  q_valid q /\ q <> Q_system.
Proof. unfold home. destruct tk.(state); intros Hp [= <-]; simpl; done. Qed.

(** ** What each change does to the view *)

Definition legal (old new : state_t) : bool :=
  match old, new with
  | PROCESS_STATE_UNKNOWN, PROCESS_STATE_PREPARE | PROCESS_STATE_UNKNOWN, PROCESS_STATE_SLEEP
  | PROCESS_STATE_PREPARE, PROCESS_STATE_RUNNING | PROCESS_STATE_PREPARE, PROCESS_STATE_SLEEP
  | PROCESS_STATE_PREPARE, PROCESS_STATE_IDLE | PROCESS_STATE_RUNNING, PROCESS_STATE_SLEEP
  | PROCESS_STATE_RUNNING, PROCESS_STATE_PREPARE | PROCESS_STATE_RUNNING, PROCESS_STATE_IDLE
  | PROCESS_STATE_SLEEP, PROCESS_STATE_PREPARE | PROCESS_STATE_SLEEP, PROCESS_STATE_IDLE
  | PROCESS_STATE_SLEEP, PROCESS_STATE_RUNNING => true
  | _, _ => false
  end.

(** The two entries of the table outside the life cycle: [PREPARE] to
    [UNKNOWN], used by [set_task_prio], and [PREPARE] to [PREPARE], read from the
    zero-initialised tail. *)
Definition irregular (old new : state_t) : bool :=
  match old, new with
  | PROCESS_STATE_PREPARE, PROCESS_STATE_UNKNOWN
  | PROCESS_STATE_PREPARE, PROCESS_STATE_PREPARE => true
  | _, _ => false
  end.

Definition leave (t : Z) (tk : task_struct) (v : view) : view :=
  match home tk with Some q => vset q (without t (v q)) v | None => v end.

Definition register (t : Z) (old : state_t) (v : view) : view :=
  if decide (old = PROCESS_STATE_UNKNOWN) then vset Q_system (v Q_system ++ [t]) v else v.

Definition enter (t : Z) (old : state_t) (tk' : task_struct) (v : view) : view :=
  match home tk' with
  | Some q =>
      vset q (if decide (old = PROCESS_STATE_UNKNOWN /\ tk'.(state) = PROCESS_STATE_SLEEP)
              then t :: v q else v q ++ [t]) v
  | None => v
  end.

Definition abs_set_state (t : Z) (tk : task_struct) (new : state_t) (v : view) : view :=
  enter t tk.(state) (with_state new tk) (register t tk.(state) (leave t tk v)).

(** The same steps on the concrete state. *)
Definition run_leave (t : Z) (tk : task_struct) (s : sched_state) : option sched_state :=
  match home tk with Some q => q_remove s q t | None => Some s end.

Definition run_register (t : Z) (old : state_t) (s : sched_state) : option sched_state :=
  if decide (old = PROCESS_STATE_UNKNOWN) then q_insert s Q_system list_add_tail t else Some s.

Definition run_enter (t : Z) (old : state_t) (tk' : task_struct) (s : sched_state)
  : option sched_state :=
  match home tk' with
  | Some q =>
      q_insert s q (if decide (old = PROCESS_STATE_UNKNOWN /\ tk'.(state) = PROCESS_STATE_SLEEP)
                    then list_add else list_add_tail) t
  | None => Some s
  end.

Lemma get_state_change_legal old new :
  exists c, get_state_change old new = Some c /\
    (c = STATE_NONE_TO_NONE <-> legal old new = false /\ irregular old new = false).
Proof.
  destruct old, new; (eexists; split; [vm_compute; reflexivity|]); simpl;
    split; intros; try done; by destruct_and?.
Qed.

Lemma with_q_count_tasks q d s s' : with_q_count q d s = Some s' -> s'.(tasks) = s.(tasks).
Proof.
  destruct q as [i|l]; simpl; [intros E; inv_bind E; by injection E as <-|].
  intros [= <-]. by destruct l.
Qed.

Lemma q_insert_tasks s q op t s' : q_insert s q op t = Some s' -> s'.(tasks) = s.(tasks).
Proof. unfold q_insert. intros E. inv_bind E. by apply with_q_count_tasks in E. Qed.

Lemma q_remove_tasks s q t s' : q_remove s q t = Some s' -> s'.(tasks) = s.(tasks).
Proof. unfold q_remove. intros E. inv_bind E. by apply with_q_count_tasks in E. Qed.

Lemma bind_cong {A B} (o : option A) (f g : A -> option B) :
  (forall a, o = Some a -> f a = g a) -> (o ≫= f) = (o ≫= g).
Proof. intros H. destruct o; simpl; [by apply H|done]. Qed.

(** The source's [switch] is leave, register, enter. *)
Lemma apply_state_change_plan t tk new c s :
  get_task t s = Some (with_state new tk) ->
  get_state_change tk.(state) new = Some c -> legal tk.(state) new = true ->
  apply_state_change c t s =
    s1 ← run_leave t tk s; s2 ← run_register t tk.(state) s1;
    run_enter t tk.(state) (with_state new tk) s2.
Proof.
  intros Ht Hc Hl. unfold run_leave, run_register, run_enter, home. simpl.
  destruct tk.(state), new; try done; vm_compute in Hc; injection Hc as <-; simpl;
    repeat case_decide; try done; try (by destruct_and?);
    rewrite ?sched_list_add_task_tail_q, ?sched_list_add_task_q, ?sched_list_del_task_q;
    rewrite ?(prio_list_del_task_q _ _ _ Ht), ?(prio_list_add_task_tail_q _ _ _ Ht); simpl;
    try done.
  all: try (match goal with |- ?x = _ => destruct x; reflexivity end).
  all: apply bind_cong; intros a Ha;
    rewrite ?sched_list_add_task_tail_q, ?sched_list_add_task_q; try done;
    (apply q_insert_tasks in Ha || apply q_remove_tasks in Ha);
    unfold get_task in Ht; rewrite <- Ha in Ht;
    by rewrite (prio_list_add_task_tail_q _ _ _ Ht).
Qed.

Lemma lists_ok_ext s s' v :
  s'.(heap) = s.(heap) -> s'.(prio_count) = s.(prio_count) ->
  (forall l, sl_count l s' = sl_count l s) -> lists_ok s v -> lists_ok s' v.
Proof.
  intros Eh Ec El [H1 H2 H3 H4]. constructor.
  - by rewrite Eh.
  - intros q Hq. rewrite <- (H2 q Hq). destruct q as [i|l]; simpl; congruence.
  - congruence.
  - done.
Qed.

Lemma lists_ok_tasks s v ts : lists_ok (with_tasks ts s) v <-> lists_ok s v.
Proof. split; apply lists_ok_ext; (done || by intros []). Qed.

Lemma lists_ok_cpsr s v c : lists_ok (with_cpsr_c c s) v <-> lists_ok s v.
Proof. split; apply lists_ok_ext; (done || by intros []). Qed.

Section transition.
Context (t : Z) (tk : task_struct) (new : state_t).
Implicit Types (s : sched_state) (v : view) (q : qid).

(** The node [k] is not used by the queue of [o]. *)
Definition off_queue (o : option qid) (k : node) : Prop :=
  forall q, o = Some q -> k <> q_head q /\ forall t', k <> q_node q t'.

Lemma off_queue_notin q k (l : list Z) :
  off_queue (Some q) k -> k ∉ q_head q :: (q_node q <$> l).
Proof.
  intros Hk. destruct (Hk q eq_refl) as [H1 H2].
  rewrite not_elem_of_cons, list_elem_of_fmap. split; [done|].
  intros (t' & -> & _). by apply (H2 t').
Qed.

Lemma q_node_system q : q <> Q_system -> q_node q t <> q_node Q_system t.
Proof. destruct q as [?|[]]; simpl; congruence. Qed.

Lemma run_leave_ok s v :
  lists_ok s v -> (forall q, home tk = Some q -> q_valid q /\ t ∈ v q) ->
  exists s', run_leave t tk s = Some s' /\ lists_ok s' (leave t tk v) /\ same_env s s' /\
    forall q, home tk = Some q -> s'.(heap) !! q_node q t = s.(heap) !! q_node q t.
Proof.
  intros Hok Hh. unfold run_leave, leave. destruct (home tk) as [q|].
  - destruct (Hh q eq_refl) as [Hq Ht].
    destruct (q_remove_ok s v q t Hok Hq Ht) as (s' & E & Hok' & He & Hf).
    exists s'. split_and!; try done. intros ? [= <-]. apply Hf.
    rewrite not_elem_of_cons, list_elem_of_fmap. split.
    + intros E'. by apply eq_sym, q_head_node in E'.
    + intros (t' & <-%(inj (q_node q)) & Ht'). by apply elem_of_without in Ht' as [_ ?].
  - by exists s.
Qed.

Lemma run_register_ok s v old :
  lists_ok s v -> (old = PROCESS_STATE_UNKNOWN -> t ∉ v Q_system) ->
  is_Some (s.(heap) !! TSystem t) ->
  exists s', run_register t old s = Some s' /\ lists_ok s' (register t old v) /\
    same_env s s' /\ (old <> PROCESS_STATE_UNKNOWN -> s' = s).
Proof.
  intros Hok Hu Ha. unfold run_register, register. case_decide as Ho; [|by exists s].
  destruct (q_insert_tail_ok s v Q_system t Hok) as (s' & ? & ? & ? & _); [done| |done|].
  - intros [i|[]] _ En; simpl in *; try done. by apply Hu.
  - by exists s'.
Qed.

Lemma run_enter_ok s v old tk' :
  lists_ok s v -> (forall q, home tk' = Some q -> q_valid q /\ q <> Q_system) ->
  (forall q, q_valid q -> q <> Q_system -> t ∉ v q) ->
  (forall q, is_Some (s.(heap) !! q_node q t)) ->
  exists s', run_enter t old tk' s = Some s' /\ lists_ok s' (enter t old tk' v) /\
    same_env s s' /\ forall k, off_queue (home tk') k -> s'.(heap) !! k = s.(heap) !! k.
Proof.
  intros Hok Hh Hf Ha. unfold run_enter, enter. destruct (home tk') as [q|]; [|by exists s].
  destruct (Hh q eq_refl) as [Hq Hns].
  assert (Hfr : q_fresh v q t).
  { intros q' Hq' En. apply Hf; [done|]. intros ->. by apply (q_node_system q). }
  case_decide;
    [destruct (q_insert_head_ok s v q t Hok Hq Hfr (Ha q)) as (s' & ? & ? & ? & Hk)
    |destruct (q_insert_tail_ok s v q t Hok Hq Hfr (Ha q)) as (s' & ? & ? & ? & Hk)];
    exists s'; (split; [done|]); (split; [done|]); (split; [done|]);
    intros k Hoff; apply Hk; by apply off_queue_notin.
Qed.

(** Membership after each step. *)
Lemma leave_other v t' q : t' <> t -> t' ∈ leave t tk v q <-> t' ∈ v q.
Proof.
  intros Hne. unfold leave. destruct (home tk) as [q0|]; [|done].
  unfold vset. case_decide; [subst|done]. rewrite elem_of_without. tauto.
Qed.

Lemma register_other v old t' q : t' <> t -> t' ∈ register t old v q <-> t' ∈ v q.
Proof.
  intros Hne. unfold register, vset. repeat case_decide; subst; try done. set_solver.
Qed.

Lemma enter_other v old tk' t' q : t' <> t -> t' ∈ enter t old tk' v q <-> t' ∈ v q.
Proof.
  intros Hne. unfold enter. destruct (home tk') as [q0|]; [|done].
  unfold vset. repeat case_decide; subst; try done; set_solver.
Qed.

Lemma abs_set_state_other v t' q :
  t' <> t -> t' ∈ abs_set_state t tk new v q <-> t' ∈ v q.
Proof.
  intros Hne. unfold abs_set_state.
  by rewrite enter_other, register_other, leave_other by done.
Qed.

Lemma leave_self v q :
  q_valid q -> q <> Q_system -> (t ∈ v q <-> home tk = Some q) -> t ∉ leave t tk v q.
Proof.
  intros Hq Hns Hh. unfold leave. destruct (home tk) as [q0|].
  - unfold vset. case_decide; [rewrite elem_of_without; tauto|].
    intros Hin%Hh. congruence.
  - intros Hin%Hh. done.
Qed.

Lemma register_ne v old q : q <> Q_system -> register t old v q = v q.
Proof. intros. unfold register. case_decide; [by rewrite vset_ne|done]. Qed.

Lemma enter_self v old tk' q :
  t ∉ v q -> t ∈ enter t old tk' v q <-> home tk' = Some q.
Proof.
  intros Hn. unfold enter. destruct (home tk') as [q0|]; [|done]. unfold vset.
  case_decide as E1; [subst|].
  - split; [done|]. intros _. case_decide; set_solver.
  - split; [done|]. congruence.
Qed.
End transition.

Lemma legal_not_unknown old new : legal old new = true -> new <> PROCESS_STATE_UNKNOWN.
Proof. by destruct old, new. Qed.

(** The membership part of [wf] after a legal change. *)
Lemma wf_after s s' v t tk new :
  wf s v -> s.(tasks) !! t = Some tk -> legal tk.(state) new = true ->
  lists_ok s' (abs_set_state t tk new v) ->
  s'.(tasks) = <[t := with_state new tk]> s.(tasks) -> dom s'.(heap) = dom s.(heap) ->
  wf s' (abs_set_state t tk new v).
Proof.
  intros Hwf Ht Hl Hok Ets Hd. destruct Hwf as [_ Hh Hp Hdom Hu Ha Hadr].
  assert (Hself : forall q, q_valid q -> q <> Q_system ->
    t ∈ abs_set_state t tk new v q <-> home (with_state new tk) = Some q).
  { intros q Hq Hns. unfold abs_set_state. apply enter_self.
    rewrite register_ne by done. apply leave_self; [done|done|]. by apply Hh. }
  constructor; [done|..].
  - intros t' tk' q Ht' Hq Hns. rewrite Ets in Ht'.
    destruct (decide (t' = t)) as [->|Hne]; simplify_map_eq; [by apply Hself|].
    rewrite abs_set_state_other by done. by apply Hh.
  - intros t' tk' Ht'. rewrite Ets in Ht'.
    destruct (decide (t' = t)) as [->|Hne]; simplify_map_eq; [|by eapply Hp].
    by apply (Hp t tk).
  - intros t' q Hq Hin. rewrite Ets. destruct (decide (t' = t)) as [->|Hne].
    + rewrite lookup_insert_eq. by eexists.
    + rewrite lookup_insert_ne by done. rewrite abs_set_state_other in Hin by done.
      by apply (Hdom t' q).
  - intros t' tk' Ht' Hun. rewrite Ets in Ht'.
    destruct (decide (t' = t)) as [->|Hne]; simplify_map_eq.
    + by apply legal_not_unknown in Hl.
    + rewrite abs_set_state_other by done. by apply (Hu t' tk').
  - intros t' q Hin. rewrite <- elem_of_dom, Hd, elem_of_dom. apply Ha.
    rewrite Ets in Hin. destruct (decide (t' = t)) as [->|Hne]; [by eexists|].
    by rewrite lookup_insert_ne in Hin.
  - intros t' Hin. apply Hadr. rewrite Ets in Hin.
    destruct (decide (t' = t)) as [->|Hne]; [by eexists|].
    by rewrite lookup_insert_ne in Hin.
Qed.

Lemma set_task_state_ok s v t tk new :
  wf s v -> s.(tasks) !! t = Some tk -> legal tk.(state) new = true ->
  exists s', set_task_state t new s = Some s' /\ wf s' (abs_set_state t tk new v) /\
    same_env (with_tasks (<[t := with_state new tk]> s.(tasks)) s) s' /\
    (forall q, home tk = Some q -> off_queue (home (with_state new tk)) (q_node q t) ->
       s'.(heap) !! q_node q t = s.(heap) !! q_node q t).
Proof.
  intros Hwf Ht Hl. pose proof Hwf as [Hok Hh Hp Hdom Hu Ha _].
  destruct (get_state_change_legal tk.(state) new) as (c & Ec & Hc).
  unfold set_task_state, get_task_state, get_task. rewrite Ht. simpl. rewrite Ec. simpl.
  rewrite decide_False by (intros E; apply Hc in E as [E _]; congruence).
  unfold upd_task, get_task. simpl. rewrite Ht. simpl.
  set (s1 := with_tasks _ _).
  assert (Ht1 : get_task t s1 = Some (with_state new tk)) by apply lookup_insert_eq.
  rewrite (apply_state_change_plan t tk new c s1 Ht1 Ec Hl).
  assert (Hal : forall q, is_Some (s.(heap) !! q_node q t)) by (intros q; apply Ha; by exists tk).
  destruct (run_leave_ok t tk s1 v) as (s2 & E2 & Hok2 & He2 & Hk2).
  { by apply lists_ok_tasks, lists_ok_cpsr. }
  { intros q Hq. destruct (home_valid tk q) as [? ?]; [by apply (Hp t)|done|].
    split; [done|]. by apply (Hh t tk q). }
  rewrite E2. simpl.
  assert (Hal2 : forall q, is_Some (s2.(heap) !! q_node q t)).
  { intros q. rewrite <- elem_of_dom, (se_dom _ _ He2), elem_of_dom. apply Hal. }
  destruct (run_register_ok t s2 (leave t tk v) tk.(state) Hok2) as (s3 & E3 & Hok3 & He3 & Hk3).
  { intros Eu. assert (El : leave t tk v = v) by (unfold leave, home; by rewrite Eu).
    rewrite El. by apply (Hu t tk). }
  { apply (Hal2 Q_system). }
  rewrite E3. simpl.
  destruct (run_enter_ok t s3 _ tk.(state) (with_state new tk) Hok3) as (s4 & E4 & Hok4 & He4 & Hk4).
  { intros q Hq. apply (home_valid (with_state new tk)); [exact (Hp t tk Ht)|done]. }
  { intros q Hq Hns. rewrite register_ne by done. apply leave_self; [done|done|]. by apply Hh. }
  { intros q. rewrite <- elem_of_dom, (se_dom _ _ He3), elem_of_dom. apply Hal2. }
  rewrite E4. simpl. eexists. split; [done|].
  assert (He : same_env s1 s4) by (etrans; [exact He2|etrans; [exact He3|exact He4]]).
  split; [|split].
  - apply (wf_after s _ v); try done.
    + by apply lists_ok_cpsr.
    + simpl. by rewrite (se_tasks _ _ He).
    + simpl. by rewrite (se_dom _ _ He).
  - destruct He. constructor; try done.
  - intros q Hq Hoff. simpl. rewrite Hk4 by done.
    rewrite Hk3 by (intros Eu; unfold home in Hq; by rewrite Eu in Hq). by rewrite Hk2.
Qed.

Lemma set_task_state_ignored s t tk new :
  s.(tasks) !! t = Some tk -> legal tk.(state) new = false ->
  irregular tk.(state) new = false -> set_task_state t new s = Some s.
Proof.
  intros Ht Hl Hi. destruct (get_state_change_legal tk.(state) new) as (c & Ec & Hc).
  unfold set_task_state, get_task_state, get_task. rewrite Ht. simpl. rewrite Ec. simpl.
  by rewrite decide_True by (by apply Hc).
Qed.
