(* ===== verification/SchedSpec.v ===== *)
(** * The scheduler: abstract machine and simulation

    An abstract scheduler state [astate] is the table of tasks with a view (the
    sequence of every queue).  Each operation of [Sched] simulates an operation
    on [astate]; the theorems of [SchedApi] are read off the simulations. *)

From S2P Require Import Prelude ListHead TaskStruct Sched SchedInv.

Record astate : Type := Abs { a_tasks : gmap Z task_struct; a_view : view }.

Definition refines (s : sched_state) (a : astate) : Prop :=
  wf s a.(a_view) /\ s.(tasks) = a.(a_tasks).

(** Everything but the tasks and the queues is unchanged. *)
Definition env (s s' : sched_state) : Prop := same_env (with_tasks s'.(tasks) s) s'.

#[global] Instance env_preorder : PreOrder env.
Proof.
  split; [by constructor|]. intros a b c H1 H2. destruct H1, H2.
  constructor; simpl in *; try (etrans; eassumption); try done.
  intros k Hk. etrans; [by apply se_heap0|by apply se_heap].
Qed.

Lemma env_intro T s s' : same_env (with_tasks T s) s' -> env s s'.
Proof. intros []. by constructor. Qed.

(** ** Basic facts *)

Lemma bounded_length (l : list Z) (b : Z) :
  0 < b -> NoDup l -> (forall x, x ∈ l -> 0 < x < b) -> Z.of_nat (length l) < b.
Proof.
  intros Hb Hnd Hx. assert (Hs : l ⊆+ seqZ 1 (b - 1)).
  { apply NoDup_submseteq; [done|]. intros x Hin%Hx. apply elem_of_seqZ. lia. }
  apply submseteq_length in Hs. rewrite length_seqZ in Hs. lia.
Qed.

Section facts.
Context (s : sched_state) (v : view).
Hypothesis Hwf : wf s v.

Lemma wf_nodup q : q_valid q -> NoDup (v q).
Proof.
  intros Hq. apply (NoDup_fmap_1 (q_node q)).
  by apply (is_list_nodup _ _ _ (lo_list _ _ (wf_lists _ _ Hwf) q Hq)).
Qed.

Lemma wf_len q : q_valid q -> Z.of_nat (length (v q)) < 2 ^ 32.
Proof.
  intros Hq. apply bounded_length; [lia|by apply wf_nodup|].
  intros x Hx. apply (wf_addr _ _ Hwf). by apply (wf_dom _ _ Hwf x q).
Qed.

Lemma wf_count q : q_valid q -> q_count q s = Some (Z.of_nat (length (v q))).
Proof.
  intros Hq. rewrite (lo_count _ _ (wf_lists _ _ Hwf) q Hq). f_equal. apply u32_small.
  pose proof (wf_len q Hq). lia.
Qed.

Lemma wf_head q t l : q_valid q -> v q = t :: l ->
  list_next s.(heap) (q_head q) = Some (q_node q t).
Proof.
  intros Hq E. pose proof (is_list_first _ _ _ (lo_list _ _ (wf_lists _ _ Hwf) q Hq)) as H.
  by rewrite E in H.
Qed.

(** The state of a queued task. *)
Lemma wf_queued q t : q_valid q -> q <> Q_system -> t ∈ v q ->
  exists tk, s.(tasks) !! t = Some tk /\ home tk = Some q.
Proof.
  intros Hq Hns Ht. destruct (wf_dom _ _ Hwf t q Hq Ht) as [tk E].
  exists tk. split; [done|]. by apply (wf_home _ _ Hwf t).
Qed.

Lemma wf_ext v' : (forall q, v' q = v q) -> wf s v'.
Proof.
  intros E. destruct Hwf as [[H1 H2 H3 H4] Hh Hp Hd Hu Ha Hadr].
  constructor; try done; [constructor|..]; try done; intros *; rewrite ?E; eauto.
Qed.
End facts.

Lemma refines_ext s a a' :
  refines s a -> a'.(a_tasks) = a.(a_tasks) -> (forall q, a'.(a_view) q = a.(a_view) q) ->
  refines s a'.
Proof.
  intros [Hwf Ht] Et Ev. split; [by apply (wf_ext s a.(a_view))|congruence].
Qed.

(** ** Assignments that keep the state and the priority of a task *)

Definition keeps (f : task_struct -> task_struct) : Prop :=
  forall tk, (f tk).(state) = tk.(state) /\ (f tk).(prio) = tk.(prio).

Definition a_upd (t : Z) (f : task_struct -> task_struct) (a : astate) : astate :=
  Abs (alter f t a.(a_tasks)) a.(a_view).

(** More generally, an assignment to the task [t] that leaves it in its queue. *)
Definition mild (f : task_struct -> task_struct) (tk : task_struct) : Prop :=
  home (f tk) = home tk /\ 0 <= (f tk).(prio) < MAX_PRIO /\
  ((f tk).(state) = PROCESS_STATE_UNKNOWN -> tk.(state) = PROCESS_STATE_UNKNOWN).

Lemma keeps_mild f tk : keeps f -> 0 <= tk.(prio) < MAX_PRIO -> mild f tk.
Proof.
  intros K Hp. destruct (K tk) as [E1 E2]. unfold mild, home. rewrite E1, E2. done.
Qed.

Lemma wf_alter s v t f tk :
  wf s v -> s.(tasks) !! t = Some tk -> mild f tk ->
  wf (with_tasks (alter f t s.(tasks)) s) v.
Proof.
  intros [Hok Hh Hp Hd Hu Ha Hadr] Et (M1 & M2 & M3).
  assert (Hs : forall x, is_Some (alter f t s.(tasks) !! x) <-> is_Some (s.(tasks) !! x)).
  { intros x. rewrite <- !elem_of_dom. by rewrite dom_alter. }
  assert (Hl : forall x k, alter f t s.(tasks) !! x = Some k ->
    exists k0, s.(tasks) !! x = Some k0 /\ home k = home k0 /\ 0 <= k.(prio) < MAX_PRIO /\
      (k.(state) = PROCESS_STATE_UNKNOWN -> k0.(state) = PROCESS_STATE_UNKNOWN)).
  { intros x k H. destruct (decide (x = t)) as [->|Hne].
    - rewrite lookup_alter_eq, Et in H. injection H as <-. by exists tk.
    - rewrite lookup_alter_ne in H by done. exists k. split; [done|]. split; [done|].
      split; [by apply (Hp x)|done]. }
  constructor; simpl.
  - by apply lists_ok_tasks.
  - intros x k q Hx Hq Hns. destruct (Hl _ _ Hx) as (k0 & H0 & E1 & _).
    rewrite E1. by apply Hh.
  - intros x k Hx. by destruct (Hl _ _ Hx) as (k0 & H0 & _ & E2 & _).
  - intros x q Hq Hx. apply Hs. by apply (Hd x q).
  - intros x k Hx Hun. destruct (Hl _ _ Hx) as (k0 & H0 & _ & _ & E3).
    apply (Hu x k0); auto.
  - intros x q Hx. by apply Ha, Hs.
  - intros x Hx. by apply Hadr, Hs.
Qed.

Lemma upd_task_mild_sim s a t f tk :
  refines s a -> a.(a_tasks) !! t = Some tk -> mild f tk ->
  exists s', upd_task t f s = Some s' /\ refines s' (a_upd t f a) /\ env s s' /\
    s'.(heap) = s.(heap).
Proof.
  intros [Hwf Ht] E M. unfold upd_task, get_task. rewrite Ht, E. simpl.
  eexists. split; [done|].
  assert (Ei : <[t := f tk]> a.(a_tasks) = alter f t s.(tasks)).
  { apply map_eq. intros i. rewrite Ht. destruct (decide (i = t)) as [->|Hne].
    - by rewrite lookup_insert_eq, lookup_alter_eq, E.
    - by rewrite lookup_insert_ne, lookup_alter_ne. }
  rewrite Ei. split; [split; simpl; [|by rewrite Ht]|].
  { apply (wf_alter _ _ _ _ tk); [done|by rewrite Ht|done]. }
  split; [by constructor|done].
Qed.

Lemma upd_task_sim s a t f :
  refines s a -> keeps f -> is_Some (a.(a_tasks) !! t) ->
  exists s', upd_task t f s = Some s' /\ refines s' (a_upd t f a) /\ env s s' /\
    s'.(heap) = s.(heap).
Proof.
  intros Hr K [tk E]. apply (upd_task_mild_sim s a t f tk); [done|done|].
  apply keeps_mild; [done|]. destruct Hr as [Hwf Ht]. rewrite <- Ht in E.
  by apply (wf_prio _ _ Hwf t).
Qed.

Lemma upd_tasks_dom t f a x :
  is_Some ((a_upd t f a).(a_tasks) !! x) <-> is_Some (a.(a_tasks) !! x).
Proof. simpl. by rewrite <- !elem_of_dom, dom_alter. Qed.

(** ** Changing the state of a task *)

Definition a_set_state (t : Z) (new : state_t) (a : astate) : astate :=
  match a.(a_tasks) !! t with
  | Some tk =>
      if legal tk.(state) new
      then Abs (<[t := with_state new tk]> a.(a_tasks)) (abs_set_state t tk new a.(a_view))
      else a
  | None => a
  end.

Lemma set_task_state_sim s a t tk new :
  refines s a -> a.(a_tasks) !! t = Some tk -> irregular tk.(state) new = false ->
  exists s', set_task_state t new s = Some s' /\ refines s' (a_set_state t new a) /\
    env s s' /\
    (forall q, home tk = Some q -> off_queue (home (with_state new tk)) (q_node q t) ->
       s'.(heap) !! q_node q t = s.(heap) !! q_node q t).
Proof.
  intros [Hwf Ht] E Hi. unfold a_set_state. rewrite E. rewrite <- Ht in E.
  destruct (legal tk.(state) new) eqn:El.
  - destruct (set_task_state_ok s _ t tk new Hwf E El) as (s' & Es & Hwf' & He & Hk).
    exists s'. split; [done|]. split; [split; [done|]|split; [by eapply env_intro|done]].
    simpl. rewrite (se_tasks _ _ He), <- Ht. done.
  - rewrite (set_task_state_ignored s t tk new E El Hi). by exists s.
Qed.

Lemma set_state_dom t new a x :
  is_Some ((a_set_state t new a).(a_tasks) !! x) <-> is_Some (a.(a_tasks) !! x).
Proof.
  unfold a_set_state. destruct (a.(a_tasks) !! t) as [tk|] eqn:E; [|done].
  destruct (legal tk.(state) new); [|done]. simpl.
  destruct (decide (x = t)) as [->|Hne].
  - rewrite lookup_insert_eq, E. split; by eexists.
  - by rewrite lookup_insert_ne.
Qed.

(** States no operation asks for outside the life cycle of a task. *)
Lemma irregular_target old new :
  new <> PROCESS_STATE_UNKNOWN -> (new = PROCESS_STATE_PREPARE -> old <> PROCESS_STATE_PREPARE) ->
  irregular old new = false.
Proof. destruct old, new; naive_solver. Qed.

(** ** The next task *)

(** The tasks [find_next_run_task] looks at, in order of priority. *)
Definition ready_order (v : view) : list Z :=
  mjoin ((fun i => v (Q_ready i)) <$> seqZ 0 (MAX_PRIO - 1)).

Definition next_task (v : view) (cur : Z) : Z := default cur (head (ready_order v)).

Lemma find_prio_sim s v n i :
  wf s v -> 0 <= i < MAX_PRIO -> i + Z.of_nat n = MAX_PRIO ->
  exists j, find_prio n i s.(prio_count) = Some j /\ i <= j < MAX_PRIO /\
    (j < MAX_PRIO - 1 -> v (Q_ready j) <> []) /\
    forall k, i <= k < j -> v (Q_ready k) = [].
Proof.
  intros Hwf. revert i. unfold MAX_PRIO. induction n as [|n IH]; intros i H0 Hn; [lia|].
  cbn [find_prio]. change (MAX_PRIO - 1) with 63. change (64 - 1) with 63 in *.
  destruct (Z.ltb_spec i 63) as [Hlt|Hge].
  - assert (Hv : q_valid (Q_ready i)) by (simpl; unfold MAX_PRIO; lia).
    pose proof (wf_count s v Hwf (Q_ready i) Hv) as Hc. simpl in Hc. rewrite Hc. simpl.
    destruct (v (Q_ready i)) as [|t l] eqn:El; simpl.
    + destruct (IH (i + 1)) as (j & E & Hj & Hne & Hk); [lia|lia|].
      exists j. split; [done|]. split; [lia|]. split; [done|]. intros k Hki.
      destruct (decide (k = i)) as [->|]; [done|]. apply Hk. lia.
    + exists i. split; [done|]. split; [lia|]. split; [by rewrite El|]. lia.
  - exists i. split; [done|]. split; [lia|]. split; [lia|]. lia.
Qed.

Lemma ready_order_split v j :
  0 <= j <= MAX_PRIO - 1 -> (forall k, 0 <= k < j -> v (Q_ready k) = []) ->
  ready_order v = mjoin ((fun i => v (Q_ready i)) <$> seqZ j (MAX_PRIO - 1 - j)).
Proof.
  intros Hj He. unfold ready_order.
  replace (MAX_PRIO - 1) with (j + (MAX_PRIO - 1 - j)) at 1 by lia.
  rewrite seqZ_app by lia. rewrite Z.add_0_l, fmap_app, join_app.
  rewrite (join_nil_2 (_ <$> seqZ 0 j)); [done|].
  apply Forall_fmap, Forall_forall. intros k Hk%elem_of_seqZ. apply He. lia.
Qed.

Lemma find_next_run_task_sim s a :
  refines s a -> find_next_run_task s = Some (next_task a.(a_view) s.(current)).
Proof.
  intros [Hwf Ht]. set (v := a_view a) in *. unfold find_next_run_task.
  destruct (find_prio_sim s v 64 0 Hwf) as (j & E & Hj & Hne & Hk); [by unfold MAX_PRIO|done|].
  rewrite E. unfold next_task. rewrite (ready_order_split v j) by (done || lia).
  cbn [mbind option_bind]. destruct (Z.eqb_spec (MAX_PRIO - 1) j) as [Ej|Ej].
  - rewrite <- Ej. done.
  - rewrite seqZ_cons by lia. simpl. specialize (Hne ltac:(lia)).
    destruct (v (Q_ready j)) as [|t l] eqn:El; [done|]. simpl.
    pose proof (wf_head s v Hwf (Q_ready j) t l Hj El) as Hn. simpl in Hn. by rewrite Hn.
Qed.

Lemma elem_of_ready_order v t :
  t ∈ ready_order v <-> exists i, 0 <= i < MAX_PRIO - 1 /\ t ∈ v (Q_ready i).
Proof.
  unfold ready_order. rewrite list_elem_of_join. split.
  - intros (l & Ht & (i & -> & Hi%elem_of_seqZ)%list_elem_of_fmap). exists i. split; [lia|done].
  - intros (i & Hi & Ht). exists (v (Q_ready i)). split; [done|].
    apply list_elem_of_fmap. exists i. split; [done|]. apply elem_of_seqZ. lia.
Qed.

(** The chosen task is the current one or a task that is prepared to run. *)
Lemma next_task_ready s a :
  refines s a -> next_task a.(a_view) s.(current) = s.(current) \/
  exists tk, a.(a_tasks) !! next_task a.(a_view) s.(current) = Some tk /\
    tk.(state) = PROCESS_STATE_PREPARE.
Proof.
  intros [Hwf Ht]. unfold next_task. destruct (head (ready_order (a_view a))) as [t|] eqn:E;
    [right|by left]. simpl.
  assert (Hin : t ∈ ready_order (a_view a)).
  { destruct (ready_order (a_view a)); [done|]. injection E as ->. set_solver. }
  apply elem_of_ready_order in Hin as (i & Hi & Hin).
  destruct (wf_queued s _ Hwf (Q_ready i) t) as (tk & Etk & Hh); [simpl; lia|done|done|].
  exists tk. rewrite <- Ht. split; [done|]. unfold home in Hh. by destruct (tk.(state)).
Qed.

(** ** Switching *)

Lemma a_upd_upd t f g a :
  a_upd t f (a_upd t g a) = Abs (alter (fun k => f (g k)) t a.(a_tasks)) a.(a_view).
Proof. unfold a_upd. simpl. f_equal. by rewrite alter_alter_eq. Qed.

Lemma set_state_other t new a x :
  x <> t -> (a_set_state t new a).(a_tasks) !! x = a.(a_tasks) !! x.
Proof.
  intros Hne. unfold a_set_state. destruct (a.(a_tasks) !! t) as [tk|]; [|done].
  destruct (legal tk.(state) new); [|done]. simpl. by rewrite lookup_insert_ne.
Qed.

(** The first half of [prepare_to_switch]. *)
Lemma yield_current_sim s a ck :
  refines s a -> a.(a_tasks) !! s.(current) = Some ck ->
  exists s1, (if decide (ck.(state) = PROCESS_STATE_RUNNING)
              then set_task_state s.(current) PROCESS_STATE_PREPARE s else Some s) = Some s1 /\
    refines s1 (if decide (state <$> a.(a_tasks) !! s.(current) = Some PROCESS_STATE_RUNNING)
                then a_set_state s.(current) PROCESS_STATE_PREPARE a else a) /\ env s s1.
Proof.
  intros Hr E. rewrite E. simpl. destruct (decide (ck.(state) = PROCESS_STATE_RUNNING)) as [Es|Es].
  - rewrite decide_True by congruence.
    destruct (set_task_state_sim s a _ ck PROCESS_STATE_PREPARE Hr E) as (s1 & ? & ? & ? & _).
    { by rewrite Es. } by exists s1.
  - rewrite decide_False by congruence. by exists s.
Qed.

Ltac keep := by intros ?; split.

(** Its last statements. *)
Definition started (k : task_struct) : task_struct :=
  with_run_time 1 (with_run_count (k.(run_count) +u 1) k).

Lemma start_next_sim s a next :
  refines s a -> is_Some (a.(a_tasks) !! next) ->
  exists s', (s4 ← upd_task next (fun k => with_run_count (k.(run_count) +u 1) k) s;
              get_task_run_time next s4) = Some s' /\
    refines s' (a_upd next started a) /\ env s s'.
Proof.
  intros H1 Hn1. unfold get_task_run_time.
  destruct (upd_task_sim s a next (fun k => with_run_count (k.(run_count) +u 1) k) H1)
    as (s2 & E2 & H2 & He2 & _); [keep|done|]. rewrite E2. simpl.
  destruct (upd_task_sim s2 _ next (with_run_time 1) H2) as (s3 & E3 & H3 & He3 & _);
    [keep|by apply upd_tasks_dom|]. exists s3. split; [done|].
  split; [by rewrite a_upd_upd in H3|]. by etrans.
Qed.

(** The wait time and the time-out flag of the next task. *)
Definition awaited (k : task_struct) : task_struct :=
  with_wait_time (-1) (if Z.eqb k.(wait_time) 0 then with_time_out 1 k else k).

Lemma await_next_sim s a next nk :
  refines s a -> a.(a_tasks) !! next = Some nk ->
  exists s2 s3,
    (if Z.eqb nk.(wait_time) 0 then upd_task next (with_time_out 1) s else Some s) = Some s2 /\
    upd_task next (with_wait_time (-1)) s2 = Some s3 /\
    refines s3 (a_upd next awaited a) /\ env s s3.
Proof.
  intros H1 En. destruct (Z.eqb nk.(wait_time) 0) eqn:Ew.
  - destruct (upd_task_sim s a next (with_time_out 1) H1) as (s2 & E2 & H2 & He2 & _);
      [keep|by exists nk|].
    destruct (upd_task_sim s2 _ next (with_wait_time (-1)) H2) as (s3 & E3 & H3 & He3 & _);
      [keep|apply upd_tasks_dom; by exists nk|].
    exists s2, s3. split; [done|]. split; [done|]. split; [|by etrans].
    eapply refines_ext; [exact H3| |done]. rewrite a_upd_upd. simpl.
    apply alter_ext. intros k Hk. rewrite En in Hk. injection Hk as <-.
    unfold awaited. by rewrite Ew.
  - destruct (upd_task_sim s a next (with_wait_time (-1)) H1)
      as (s3 & E3 & H3 & He3 & _); [keep|by exists nk|].
    exists s, s3. split; [done|]. split; [done|]. split; [|done].
    eapply refines_ext; [exact H3| |done]. simpl.
    apply alter_ext. intros k Hk. rewrite En in Hk. injection Hk as <-.
    unfold awaited. by rewrite Ew.
Qed.

Definition a_switch (cur next : Z) (a : astate) : astate :=
  let a1 :=
    if decide (cur = next) then a
    else
      let a1 :=
        if decide (state <$> a.(a_tasks) !! cur = Some PROCESS_STATE_RUNNING)
        then a_set_state cur PROCESS_STATE_PREPARE a else a in
      a_set_state next PROCESS_STATE_RUNNING (a_upd next awaited a1) in
  a_upd next started a1.

Lemma prepare_to_switch_sim s a next :
  refines s a -> is_Some (a.(a_tasks) !! s.(current)) -> is_Some (a.(a_tasks) !! next) ->
  exists s', prepare_to_switch next s = Some s' /\
    refines s' (a_switch s.(current) next a) /\ env s s'.
Proof.
  intros Hr [ck Ec] [nk En]. unfold prepare_to_switch, get_task_state, get_task.
  pose proof Hr as [_ Ht]. rewrite Ht, Ec. simpl. unfold a_switch.
  destruct (Z.eqb_spec s.(current) next) as [<-|Hne].
  { rewrite decide_True by done. simpl. apply start_next_sim; [done|by exists ck]. }
  rewrite (decide_False (P := s.(current) = next)) by done.
  destruct (yield_current_sim s a ck Hr Ec) as (s1 & E1 & H1 & He1). rewrite E1. simpl.
  set (a1 := if decide _ then a_set_state _ _ _ else a) in *.
  assert (En1 : a1.(a_tasks) !! next = Some nk).
  { unfold a1. destruct (decide (state <$> _ = _)); [|done]. by rewrite set_state_other. }
  pose proof H1 as [_ Ht1]. rewrite Ht1, En1. simpl.
  destruct (await_next_sim s1 a1 next nk H1 En1) as (s2 & s3 & E2 & E3 & H3 & He3).
  rewrite E2. simpl. rewrite E3. simpl.
  assert (En3 : (a_upd next awaited a1).(a_tasks) !! next = Some (awaited nk)).
  { simpl. by rewrite lookup_alter_eq, En1. }
  destruct (set_task_state_sim s3 _ next _ PROCESS_STATE_RUNNING H3 En3)
    as (s4 & E4 & H4 & He4 & _); [by apply irregular_target|]. rewrite E4. simpl.
  destruct (start_next_sim s4 _ next H4) as (s5 & E5 & H5 & He5).
  { apply set_state_dom. by eexists. }
  exists s5. split; [done|]. split; [done|].
  etrans; [exact He1|]. etrans; [exact He3|]. by etrans.
Qed.

(** ** [sched] *)

(** The invariant does not depend on the control variables. *)
Lemma refines_ctl s s' a :
  s'.(heap) = s.(heap) -> s'.(prio_count) = s.(prio_count) ->
  (forall l, sl_count l s' = sl_count l s) -> s'.(tasks) = s.(tasks) ->
  refines s a -> refines s' a.
Proof.
  intros Eh Ec El Et [[Hok Hh Hp Hd Hu Ha Hadr] Ht]. split; [|congruence].
  constructor; rewrite ?Et, ?Eh; try done. by apply (lists_ok_ext s s').
Qed.

Ltac ctl H := eapply refines_ctl; [..|exact H]; (done || by intros []).

Lemma a_switch_dom cur next a x :
  is_Some ((a_switch cur next a).(a_tasks) !! x) <-> is_Some (a.(a_tasks) !! x).
Proof.
  unfold a_switch. rewrite upd_tasks_dom. repeat case_decide; try done;
    rewrite set_state_dom, upd_tasks_dom, ?set_state_dom; done.
Qed.

Lemma next_task_dom s a :
  refines s a -> is_Some (a.(a_tasks) !! s.(current)) ->
  is_Some (a.(a_tasks) !! next_task a.(a_view) s.(current)).
Proof.
  intros Hr Hc. destruct (next_task_ready s a Hr) as [->|(tk & E & _)]; [done|by exists tk].
Qed.

Lemma sched_sim s a :
  refines s a -> is_Some (a.(a_tasks) !! s.(current)) ->
  s.(in_interrupt) = 0 -> s.(schedule_running) <> 0 ->
  let n := next_task a.(a_view) s.(current) in
  exists s', sched s = Some (Some s.(cpsr_c), s') /\
    refines s' (a_switch s.(current) n a) /\ s'.(current) = n /\ s'.(next_run) = n /\
    s'.(cpsr_c) = s.(cpsr_c) |u 0xc0 /\ s'.(schedule_running) = s.(schedule_running) /\
    s'.(in_interrupt) = 0 /\ dom s'.(heap) = dom s.(heap) /\
    s'.(mutex_count) = s.(mutex_count) /\
    (forall k, queue_node k = false -> s'.(heap) !! k = s.(heap) !! k).
Proof.
  intros Hr Hc Hi Hrun n. unfold sched. rewrite Hi. simpl.
  assert (Ht : truth s.(schedule_running) = true).
  { unfold truth. by destruct (Z.eqb_spec s.(schedule_running) 0). }
  rewrite Ht. cbn [negb].
  assert (H0 : refines (with_cpsr_c (s.(cpsr_c) |u 0xc0) s) a) by ctl Hr.
  unfold enter_critical. rewrite (find_next_run_task_sim _ a H0). simpl. fold n.
  assert (H1 : refines (with_next_run n (with_cpsr_c (s.(cpsr_c) |u 0xc0) s)) a) by ctl Hr.
  destruct (prepare_to_switch_sim _ a n H1 Hc) as (s2 & E2 & H2 & He).
  { by apply next_task_dom. }
  rewrite E2. simpl. unfold arch_switch_task_sw, get_task.
  destruct He as [_ E21 _ E23 E24 E25 E26 E27 E28 E29]. simpl in *. pose proof H2 as [_ Ht2].
  assert (Hd : forall x, is_Some (a.(a_tasks) !! x) -> exists tk, s2.(tasks) !! x = Some tk).
  { intros x Hx. rewrite Ht2. by apply a_switch_dom. }
  destruct (Hd _ Hc) as [k1 K1]. rewrite E21, K1. simpl.
  destruct (Hd n) as [k2 K2]; [by apply next_task_dom|]. rewrite E23, K2. simpl.
  eexists. split; [done|]. split; [ctl H2|]. simpl. do 7 (split; [congruence|]). exact E29.
Qed.

(** ** The tick *)

Definition countdown (k : task_struct) : Z :=
  if Z.ltb 0 k.(wait_time) then k.(wait_time) - 1 else k.(wait_time).

(** The effect of a tick on a sleeping task. *)
Definition ticked (k : task_struct) : task_struct :=
  let k1 := with_wait_time (countdown k) k in
  if Z.eqb (countdown k) 0 then with_state PROCESS_STATE_PREPARE k1 else k1.

(** Its wait time is over at this tick. *)
Definition expires (ts : gmap Z task_struct) (t : Z) : bool :=
  match ts !! t with
  | Some k => Z.eqb k.(wait_time) 0 || Z.eqb k.(wait_time) 1
  | None => false
  end.

Definition has_prio (ts : gmap Z task_struct) (i t : Z) : bool :=
  match ts !! t with Some k => Z.eqb k.(prio) i | None => false end.

Definition tick_tasks (l : list Z) (ts : gmap Z task_struct) : gmap Z task_struct :=
  foldl (fun m t => alter ticked t m) ts l.

(** The queues after the tick has treated [d] and not yet [todo]. *)
Definition tick_view (ts : gmap Z task_struct) (d todo : list Z) (v : view) : view :=
  fun q => match q with
  | Q_list L_sleep => filter (fun t => expires ts t = false) d ++ todo
  | Q_ready i => v q ++ filter (fun t => expires ts t = true /\ has_prio ts i t = true) d
  | _ => v q
  end.

Definition a_tick_sleep (a : astate) : astate :=
  let l := a.(a_view) (Q_list L_sleep) in
  Abs (tick_tasks l a.(a_tasks)) (tick_view a.(a_tasks) l [] a.(a_view)).

Lemma tick_tasks_notin l ts t : t ∉ l -> tick_tasks l ts !! t = ts !! t.
Proof.
  revert ts. induction l as [|x l IH]; intros ts Ht; [done|].
  apply not_elem_of_cons in Ht as [Hne Ht]. cbn. fold (tick_tasks l (alter ticked x ts)).
  rewrite IH by done.
  by apply lookup_alter_ne.
Qed.

Lemma tick_tasks_in l ts t : NoDup l -> t ∈ l -> tick_tasks l ts !! t = ticked <$> ts !! t.
Proof.
  revert ts. induction l as [|x l IH]; intros ts Hnd Ht; [by inversion Ht|].
  apply NoDup_cons in Hnd as [Hx Hnd]. cbn. fold (tick_tasks l (alter ticked x ts)). apply elem_of_cons in Ht as [->|Ht].
  - rewrite (tick_tasks_notin l _ x Hx). by rewrite lookup_alter_eq.
  - rewrite IH by done. rewrite lookup_alter_ne; [done|]. by intros ->.
Qed.

Section tick.
Context (s0 : sched_state) (a0 : astate).
Hypothesis Hr0 : refines s0 a0.
Abbreviation ts := (a_tasks a0).
Abbreviation v := (a_view a0).

(** One iteration on the abstract state. *)
Lemma tick_view_step d x todo k :
  ts !! x = Some k -> home k = Some (Q_list L_sleep) ->
  NoDup (d ++ x :: todo) ->
  forall q,
    tick_view ts (d ++ [x]) todo v q =
    if expires ts x
    then abs_set_state x (with_wait_time 0 k) PROCESS_STATE_PREPARE (tick_view ts d (x :: todo) v) q
    else tick_view ts d (x :: todo) v q.
Proof.
  intros Hk Hh Hnd q.
  assert (Hs : k.(state) = PROCESS_STATE_SLEEP).
  { unfold home in Hh. by destruct (k.(state)). }
  destruct (expires ts x) eqn:Ex.
  - unfold abs_set_state, leave, register, enter, home. simpl. rewrite Hs. simpl.
    destruct q as [i|[]]; unfold vset; simpl; rewrite ?filter_app.
    + assert (Hp : has_prio ts i x = Z.eqb k.(prio) i) by (unfold has_prio; by rewrite Hk).
      rewrite filter_cons, filter_nil, Hp, Ex.
      destruct (decide (Q_ready i = Q_ready k.(prio))) as [[= ->]|Hne].
      * rewrite Z.eqb_refl, decide_True by done. by rewrite app_assoc.
      * rewrite decide_False; [by rewrite app_nil_r|].
        intros [_ E%Z.eqb_eq]. congruence.
    + done.
    + done.
    + rewrite filter_cons_False, filter_nil by congruence. rewrite app_nil_r.
      rewrite without_middle; [done|].
      apply NoDup_app in Hnd as (Hd & Hdx & Hx). apply NoDup_app.
      split; [by apply NoDup_filter|]. split; [|done].
      intros y [_ Hy]%list_elem_of_filter. by apply Hdx.
  - destruct q as [i|[]]; simpl; rewrite ?filter_app; try done.
    + rewrite filter_cons_False, filter_nil; [by rewrite app_nil_r|]. intros [? _]. congruence.
    + rewrite filter_cons_True, filter_nil by done. by rewrite <- app_assoc.
Qed.
(** The loop variable is still linked after the body has moved its task. *)
Lemma tick_next st d x todo :
  refines st (Abs (tick_tasks d ts) (tick_view ts d (x :: todo) v)) ->
  list_next st.(heap) (TSleep x) = Some (List.hd TaskSleep (TSleep <$> todo)).
Proof.
  intros [Hwf _]. pose proof (lo_list _ _ (wf_lists _ _ Hwf) (Q_list L_sleep) I) as Hl.
  simpl in Hl. rewrite fmap_app in Hl. simpl in Hl. by apply is_list_next in Hl.
Qed.

(** The countdown. *)
Lemma tick_count_sim st a t k :
  refines st a -> a.(a_tasks) !! t = Some k ->
  exists s1, (if Z.ltb 0 k.(wait_time) then upd_task t (with_wait_time (k.(wait_time) - 1)) st
              else Some st) = Some s1 /\
    refines s1 (a_upd t (with_wait_time (countdown k)) a) /\ env st s1 /\ s1.(heap) = st.(heap).
Proof.
  intros Hr E. unfold countdown. destruct (Z.ltb 0 k.(wait_time)).
  - apply upd_task_sim; [done|keep|by exists k].
  - exists st. split; [done|]. split; [|done]. eapply refines_ext; [exact Hr| |done]. simpl.
    apply alter_id. intros k' Hk'. rewrite E in Hk'. injection Hk' as <-. by destruct k.
Qed.

Lemma expires_count t k :
  ts !! t = Some k ->
  expires ts t = Z.eqb (countdown k) 0.
Proof.
  intros E. unfold expires, countdown. rewrite E.
  destruct (Z.ltb_spec 0 k.(wait_time)), (Z.eqb_spec k.(wait_time) 0),
    (Z.eqb_spec k.(wait_time) 1), (Z.eqb_spec (k.(wait_time) - 1) 0); simpl; try lia; done.
Qed.

Lemma tick_body_sim st d t todo :
  v (Q_list L_sleep) = d ++ t :: todo ->
  refines st (Abs (tick_tasks d ts) (tick_view ts d (t :: todo) v)) ->
  exists st', tick_body (TSleep t) st = Some st' /\
    refines st' (Abs (tick_tasks (d ++ [t]) ts) (tick_view ts (d ++ [t]) todo v)) /\
    env st st' /\ st'.(heap) !! TSleep t = st.(heap) !! TSleep t.
Proof.
  intros Ev Hr. destruct Hr0 as [Hwf0 Ht0].
  assert (Hnd := wf_nodup _ _ Hwf0 (Q_list L_sleep) I). rewrite Ev in Hnd.
  destruct (wf_queued _ _ Hwf0 (Q_list L_sleep) t) as (k & Hk & Hh);
    [done|done|rewrite Ev; set_solver|]. rewrite Ht0 in Hk.
  assert (Hd : t ∉ d).
  { apply NoDup_app in Hnd as (_ & Hdx & _). intros Hin. apply (Hdx t Hin). set_solver. }
  assert (Hk' : tick_tasks d ts !! t = Some k) by (by rewrite tick_tasks_notin).
  assert (Hs : k.(state) = PROCESS_STATE_SLEEP) by (unfold home in Hh; by destruct (k.(state))).
  destruct (tick_count_sim st _ t k Hr Hk') as (s1 & E1 & H1 & He1 & Eh1).
  unfold tick_body, get_task. simpl. pose proof Hr as [_ Ht]. rewrite Ht. simpl. rewrite Hk'.
  simpl. rewrite E1. simpl. pose proof H1 as [_ Ht1]. rewrite Ht1. simpl.
  rewrite lookup_alter_eq, Hk'. simpl. rewrite <- (expires_count t k Hk).
  assert (Ets : tick_tasks (d ++ [t]) ts = alter ticked t (tick_tasks d ts)).
  { unfold tick_tasks. by rewrite foldl_snoc. }
  pose proof (tick_view_step d t todo k Hk Hh Hnd) as Hv.
  destruct (expires ts t) eqn:Ex; rewrite (expires_count t k Hk) in Ex.
  - apply Z.eqb_eq in Ex.
    destruct (set_task_state_sim s1 _ t (with_wait_time (countdown k) k) PROCESS_STATE_PREPARE H1)
      as (s2 & E2 & H2 & He2 & Hk2).
    { simpl. by rewrite lookup_alter_eq, Hk'. } { simpl. by rewrite Hs. }
    exists s2. split; [done|]. split; [|split; [by etrans|]].
    + unfold a_set_state in H2. simpl in H2. rewrite lookup_alter_eq, Hk' in H2. simpl in H2.
      rewrite Hs in H2. eapply refines_ext; [exact H2| |].
      * simpl. rewrite Ets. apply map_eq. intros i. destruct (decide (i = t)) as [->|Hne].
        -- rewrite lookup_insert_eq, lookup_alter_eq, Hk'. simpl. unfold ticked.
           by rewrite Ex.
        -- by rewrite lookup_insert_ne, !lookup_alter_ne.
      * intros q. simpl. rewrite Hv. by rewrite Ex.
    + rewrite <- Eh1. apply (Hk2 (Q_list L_sleep)).
      * unfold home. simpl. by rewrite Hs.
      * intros q. unfold home. simpl. intros [= <-]. done.
  - exists s1. split; [done|]. split; [|split; [done|by rewrite Eh1]].
    eapply refines_ext; [exact H1| |].
    + simpl. rewrite Ets. apply alter_ext. intros k' E. rewrite Hk' in E. injection E as <-.
      unfold ticked. by rewrite Ex.
    + intros q. simpl. by rewrite Hv.
Qed.

Lemma tick_loop_sim :
  exists s', sched_list_for_each L_sleep tick_body s0 = Some s' /\
    refines s' (a_tick_sleep a0) /\ env s0 s'.
Proof.
  pose proof Hr0 as [Hwf0 Ht0]. set (l := v (Q_list L_sleep)).
  assert (Hl : is_list s0.(heap) TaskSleep (TSleep <$> l))
    by exact (lo_list _ _ (wf_lists _ _ Hwf0) (Q_list L_sleep) I).
  unfold sched_list_for_each. simpl. rewrite (is_list_first _ _ _ Hl). simpl.
  destruct (list_for_each_inv heap tick_body (fun dn tn st => exists d todo,
    dn = TSleep <$> d /\ tn = TSleep <$> todo /\ d ++ todo = l /\
    refines st (Abs (tick_tasks d ts) (tick_view ts d todo v)) /\ env s0 st)
    TaskSleep (TSleep <$> l) (S (size s0.(heap))) s0) as (s' & E & d & todo & E1 & E2 & E3 & H & He).
  - by apply (is_list_nodup _ _ _ Hl).
  - by apply (is_list_size _ _ _ Hl).
  - exists [], l. split; [done|]. split; [done|]. split; [done|]. split; [|done].
    eapply refines_ext; [exact Hr0|done|]. intros [i|[]]; simpl; try done.
    by rewrite app_nil_r.
  - intros dn x tn st (d & todo & -> & E2 & E3 & H & He).
    destruct todo as [|t todo]; [done|]. injection E2 as -> ->.
    destruct (tick_body_sim st d t todo (eq_sym E3) H) as (st' & Eb & H' & He' & Eh).
    exists st'. split; [done|]. split.
    + etrans; [|exact (tick_next st d t todo H)]. unfold list_next. by rewrite Eh.
    + exists (d ++ [t]), todo. split; [by rewrite fmap_app|]. split; [done|].
      split; [by rewrite <- app_assoc|]. split; [done|]. by etrans.
  - exists s'. split; [exact E|]. split; [|done].
    apply eq_sym, fmap_nil_inv in E2 as ->. rewrite app_nil_r in E3. by subst d.
Qed.
End tick.

Definition slice (k : task_struct) : task_struct := with_run_time (s32 (k.(run_time) - 1)) k.

(** The slice of the current task is over. *)
Definition slice_over (cur : Z) (a : astate) : bool :=
  match a.(a_tasks) !! cur with Some k => Z.eqb k.(run_time) 0 | None => false end.

Definition a_tick (cur : Z) (a : astate) : astate :=
  let a1 := a_upd cur slice (a_tick_sleep a) in
  if slice_over cur a1 then a_switch cur (next_task a1.(a_view) cur) a1 else a1.

Lemma tick_tasks_dom l ts x : is_Some (tick_tasks l ts !! x) <-> is_Some (ts !! x).
Proof.
  revert ts. induction l as [|y l IH]; intros ts; [done|]. cbn.
  fold (tick_tasks l (alter ticked y ts)). rewrite IH. by rewrite <- !elem_of_dom, dom_alter.
Qed.

Lemma os_tick_handler_sim s a :
  refines s a -> is_Some (a.(a_tasks) !! s.(current)) ->
  let a1 := a_upd s.(current) slice (a_tick_sleep a) in
  exists s', os_tick_handler s = Some s' /\ refines s' (a_tick s.(current) a) /\
    env (with_next_run (if slice_over s.(current) a1 then next_task a1.(a_view) s.(current)
                        else s.(next_run)) s) s' /\
    (is_Some (a.(a_tasks) !! s.(next_run)) ->
       is_Some ((a_tick s.(current) a).(a_tasks) !! s'.(next_run))).
Proof.
  intros Hr Hc a1. unfold os_tick_handler.
  destruct (tick_loop_sim s a Hr) as (s1 & E1 & H1 & He1). rewrite E1. cbn [mbind option_bind].
  rewrite (se_current _ _ He1). change (current (with_tasks _ s)) with s.(current).
  assert (Hc1 : is_Some ((a_tick_sleep a).(a_tasks) !! s.(current)))
    by (simpl; by apply tick_tasks_dom).
  destruct (upd_task_sim s1 _ s.(current) slice H1) as (s2 & E2 & H2 & He2 & _);
    [keep|done|]. change (upd_task s.(current) _ s1) with (upd_task s.(current) slice s1). rewrite E2.
  cbn [mbind option_bind]. fold a1 in H2.
  assert (He : env s s2) by (by etrans).
  rewrite (se_current _ _ He). change (current (with_tasks _ s)) with s.(current).
  assert (Hc2 : is_Some (a1.(a_tasks) !! s.(current))) by (by apply upd_tasks_dom).
  unfold get_task, a_tick. fold a1. unfold slice_over. pose proof H2 as [_ Ht2].
  rewrite Ht2. destruct Hc2 as [ck Ec]. rewrite Ec. cbn [mbind option_bind].
  destruct (Z.eqb ck.(run_time) 0).
  - rewrite (find_next_run_task_sim s2 a1 H2), (se_current _ _ He). simpl.
    set (n := next_task _ _).
    assert (H3 : refines (with_next_run n s2) a1) by ctl H2.
    assert (Ecur : (with_next_run n s2).(current) = s.(current)) by exact (se_current _ _ He).
    assert (Hnd : is_Some (a1.(a_tasks) !! n)).
    { unfold n. rewrite <- Ecur. apply next_task_dom; [done|]. rewrite Ecur. by exists ck. }
    destruct (prepare_to_switch_sim _ a1 n H3) as (s3 & E3 & H3' & He3);
      [rewrite Ecur; by exists ck|done|].
    exists s3. split; [done|]. rewrite Ecur in H3'. split; [done|].
    split; [etrans; [|exact He3]; destruct He; by constructor|].
    intros _. apply a_switch_dom. by rewrite (se_next_run _ _ He3).
  - exists s2. split; [done|]. split; [done|]. split; [destruct He; by constructor|].
    intros Hn. rewrite (se_next_run _ _ He). simpl.
    apply (upd_tasks_dom s.(current) slice (a_tick_sleep a)). by apply tick_tasks_dom.
Qed.

(** ** Suspending and waking *)

Definition waiting (timeout : Z) (k : task_struct) : task_struct :=
  with_time_out 0 (with_wait_time timeout k).

Definition a_sleep (t timeout : Z) (a : astate) : astate :=
  a_set_state t PROCESS_STATE_SLEEP (a_upd t (waiting timeout) a).

Lemma a_sleep_dom t timeout a x :
  is_Some ((a_sleep t timeout a).(a_tasks) !! x) <-> is_Some (a.(a_tasks) !! x).
Proof. unfold a_sleep. by rewrite set_state_dom, upd_tasks_dom. Qed.

Lemma suspend_task_timeout_sim s a t tk timeout :
  refines s a -> is_Some (a.(a_tasks) !! s.(current)) -> a.(a_tasks) !! t = Some tk ->
  timeout <> 0 -> tk.(state) <> PROCESS_STATE_IDLE ->
  exists s1, refines s1 (a_sleep t timeout a) /\ env s s1 /\
    suspend_task_timeout t timeout s = '(o, s3) ← sched s1; Some (inr o, s3).
Proof.
  intros Hr Hc Ht Hto Hst. unfold suspend_task_timeout, get_task_state, get_task.
  pose proof Hr as [Hwf Ets].
  assert (Ht0 : t <> 0).
  { assert (0 < t < 2 ^ 32) by (apply (wf_addr _ _ Hwf); rewrite Ets; by exists tk). lia. }
  rewrite (proj2 (Z.eqb_neq t 0) Ht0), (proj2 (Z.eqb_neq timeout 0) Hto). simpl.
  rewrite Ets, Ht. simpl. rewrite decide_False by done.
  assert (H0 : refines (with_cpsr_c (s.(cpsr_c) |u 0xc0) s) a) by ctl Hr.
  destruct (upd_task_sim _ a t (waiting timeout) H0) as (s1 & E1 & H1 & He1 & _);
    [keep|by exists tk|]. 
  match goal with |- context [upd_task t ?f ?x] =>
    change (upd_task t f x) with (upd_task t (waiting timeout) x) end.
  rewrite E1. cbn [mbind option_bind].
  destruct (set_task_state_sim s1 _ t (waiting timeout tk) PROCESS_STATE_SLEEP H1)
    as (s2 & E2 & H2 & He2 & _); [simpl; by rewrite lookup_alter_eq, Ht|by apply irregular_target|].
  rewrite E2. cbn [mbind option_bind]. exists (exit_critical s.(cpsr_c) s2).
  split; [ctl H2|]. split; [|done].
  assert (He : env (with_cpsr_c (s.(cpsr_c) |u 0xc0) s) s2) by (by etrans).
  destruct He. by constructor.
Qed.

Definition a_wakeup (t : Z) (a : astate) : astate :=
  a_set_state t PROCESS_STATE_PREPARE (a_upd t (with_run_time 1) a).

Lemma wakeup_task_sim s a t tk :
  refines s a -> a.(a_tasks) !! t = Some tk ->
  exists r s', wakeup_task t s = Some (r, s') /\ env s s' /\
    if decide (tk.(state) = PROCESS_STATE_SLEEP)
    then r = 0 /\ refines s' (a_wakeup t a) else r = - EINVAL /\ s' = s.
Proof.
  intros Hr Ht. unfold wakeup_task, get_task_state, get_task.
  pose proof Hr as [Hwf Ets]. rewrite Ets, Ht. simpl. case_decide as Hs.
  - unfold get_task_run_time.
    destruct (upd_task_sim s a t (with_run_time 1) Hr) as (s1 & E1 & H1 & He1 & _);
      [keep|by exists tk|]. rewrite E1. simpl.
    destruct (set_task_state_sim s1 _ t (with_run_time 1 tk) PROCESS_STATE_PREPARE H1)
      as (s2 & E2 & H2 & He2 & _); [simpl; by rewrite lookup_alter_eq, Ht|simpl; by rewrite Hs|].
    rewrite E2. simpl. exists 0, s2. split; [done|]. split; [by etrans|done].
  - by exists (- EINVAL), s.
Qed.
