(* ===== verification/SchedBoot.v ===== *)
(** * The scheduler: boot and task creation

    [sched_init] establishes the invariant with empty queues, and
    [init_sched_struct] extends it with a new task. *)

From S2P Require Import Prelude ListHead TaskStruct Sched SchedInv SchedSpec.

(** ** [sched_init] *)

Definition linked_self (h : lheap node) (n : node) : Prop := h !! n = Some (ListHead n n).

Lemma linked_self_empty h n : linked_self h n -> is_list h n [].
Proof.
  intros E. unfold linked_self in E. split; [apply NoDup_singleton|].
  unfold chain, link, list_next, list_prve. by rewrite E.
Qed.

Lemma linked_self_init h n m : linked_self h n \/ n = m -> linked_self (init_list m h) n.
Proof.
  unfold linked_self, init_list. intros [H| ->]; [|apply lookup_insert_eq].
  destruct (decide (n = m)) as [->|Hne]; [apply lookup_insert_eq|by rewrite lookup_insert_ne].
Qed.

Definition empty_view : view := fun _ => [].

(** Only queues and their counts are initialised. *)
Lemma sched_init_lists_ok s :
  length s.(prio_count) = 64%nat -> s.(tasks) = ∅ ->
  exists s', sched_init_lists s = Some s' /\ refines s' (Abs ∅ empty_view) /\
    s'.(schedule_running) = s.(schedule_running) /\ s'.(in_interrupt) = s.(in_interrupt) /\
    s'.(current) = s.(current) /\ s'.(mutex_count) = s.(mutex_count) /\ s'.(tasks) = ∅ /\
    length s'.(prio_count) = 64%nat /\
    forall n, queue_node n = false -> s'.(heap) !! n = s.(heap) !! n.
Proof.
  intros Hlen Hts. unfold sched_init_lists.
  destruct (for_range_inv (fun i x =>
      length x.(prio_count) = 64%nat /\ x.(tasks) = ∅ /\
      (x.(in_interrupt) = s.(in_interrupt) /\ x.(schedule_running) = s.(schedule_running) /\
       x.(current) = s.(current) /\ x.(mutex_count) = s.(mutex_count)) /\
      (forall n, queue_node n = false -> x.(heap) !! n = s.(heap) !! n) /\
      forall j, 0 <= j < i -> linked_self x.(heap) (OsSchedTable j) /\
        aget x.(prio_count) j = Some 0) (Z.to_nat MAX_PRIO) 0
    (fun i s => c ← aset s.(prio_count) i 0;
       Some (with_prio_count c (with_heap (init_list (OsSchedTable i) s.(heap)) s))) s)
    as (s1 & E1 & Hl1 & Ht1 & (Hi1 & Hr1 & Hc1 & Hm1) & Hh1 & Hq1).
  - split; [done|]. split; [done|]. split; [done|]. split; [done|]. lia.
  - intros j x Hj (Hl & Ht & Hi & Hh & Hq). unfold MAX_PRIO in Hj.
    destruct (aset x.(prio_count) j 0) as [c|] eqn:Ec; [|rewrite aset_Some in Ec; [done|lia]].
    simpl. eexists. split; [done|]. simpl. split; [by rewrite (aset_length _ _ _ _ Ec)|].
    split; [done|]. split; [done|]. split.
    { intros n Hn. unfold init_list. rewrite lookup_insert_ne; [by apply Hh|]. by intros <-. }
    intros k Hk. destruct (decide (k = j)) as [->|Hne].
    + split; [apply linked_self_init; by right|by apply (aget_aset_eq _ _ _ _ Ec)].
    + destruct (Hq k) as [Hs Hc]; [lia|]. split; [apply linked_self_init; by left|].
      by rewrite (aget_aset_ne _ _ _ _ _ Ec) by done.
  - rewrite E1. cbn [mbind option_bind]. eexists. split; [done|].
    split; [|split_and!; try done]. 2: { intros n Hn. simpl. unfold init_list.
      rewrite !lookup_insert_ne by (by intros <-). by apply Hh1. }
    split; [|done]. constructor;
      try (intros *; simpl; rewrite Ht1, lookup_empty; (done || by intros [])).
    + constructor; simpl.
      * intros [i|[]] Hq; apply linked_self_empty; simpl; repeat
          first [by (apply linked_self_init; right) | apply linked_self_init; left].
        apply Hq1. exact Hq.
      * intros [i|[]] Hq; simpl; try done. apply Hq1. exact Hq.
      * done.
      * by intros q q' t _ _ _ ?%elem_of_nil.
    + intros t q _ ?%elem_of_nil. done.
Qed.

Lemma sched_init_queues_ok s :
  length s.(prio_count) = 64%nat -> s.(tasks) = ∅ ->
  exists s', sched_init_queues s = Some s' /\ refines s' (Abs ∅ empty_view) /\
    s'.(schedule_running) = 1 /\ s'.(in_interrupt) = s.(in_interrupt) /\ s'.(current) = 0.
Proof.
  intros Hlen Hts. destruct (sched_init_lists_ok s Hlen Hts) as (s1 & E & Hr & _ & Hi & _).
  unfold sched_init_queues, sched_start. rewrite E. eexists. split; [done|]. split; [|done].
  ctl Hr.
Qed.

(** ** [init_sched_struct] *)

(** The scheduling members of a new task of priority [p]. *)
Definition fresh_sched (p : Z) (k : task_struct) : task_struct :=
  with_exit_state PROCESS_STATE_UNKNOWN (with_state PROCESS_STATE_UNKNOWN
    (with_run_count 0 (with_time_out 0 (with_wait_time (-1) (with_run_time 1
      (with_pre_prio p (with_prio p k))))))).

Definition init_task_nodes (t : Z) (h : lheap node) : lheap node :=
  init_list (TWait t) (init_list (TMutexGet t) (init_list (TIdle t) (init_list (TSleep t)
    (init_list (TSystem t) (init_list (PrioRunning t) h))))).

Lemma init_sched_struct_eq t k p s :
  get_task t s = Some k -> init_sched_prio k s = Some p ->
  init_sched_struct t s =
    Some (with_heap (init_task_nodes t s.(heap)) (with_tasks (<[t := fresh_sched p k]> s.(tasks)) s)).
Proof.
  intros Ht Hp. unfold init_sched_struct, get_task_run_time, upd_task. rewrite Ht. simpl.
  rewrite Hp. simpl. unfold get_task. simpl.
  rewrite !lookup_insert_eq. simpl. rewrite ?lookup_insert_eq. simpl.
  by rewrite !insert_insert_eq.
Qed.

Lemma init_task_nodes_other t h n :
  n <> TWait t -> n <> TMutexGet t -> (forall q, n <> q_node q t) ->
  init_task_nodes t h !! n = h !! n.
Proof.
  intros H1 H2 H3. unfold init_task_nodes, init_list.
  pose proof (H3 (Q_ready 0)). pose proof (H3 (Q_list L_system)).
  pose proof (H3 (Q_list L_sleep)). pose proof (H3 (Q_list L_idle)). simpl in *.
  by rewrite !lookup_insert_ne by congruence.
Qed.

Lemma init_task_nodes_alloc t h n : is_Some (h !! n) -> is_Some (init_task_nodes t h !! n).
Proof.
  intros H. unfold init_task_nodes, init_list.
  repeat (apply lookup_insert_is_Some'; right). done.
Qed.

Lemma init_task_nodes_self t h q : is_Some (init_task_nodes t h !! q_node q t).
Proof.
  unfold init_task_nodes, init_list. destruct q as [i|[]]; simpl;
    repeat first [by (apply lookup_insert_is_Some'; left) | apply lookup_insert_is_Some'; right].
Qed.

Lemma new_task_sim s a t k p :
  refines s a -> a.(a_tasks) !! t = None -> 0 < t < 2 ^ 32 -> 0 <= p < MAX_PRIO ->
  refines (with_heap (init_task_nodes t s.(heap)) (with_tasks (<[t := fresh_sched p k]> s.(tasks)) s))
    (Abs (<[t := fresh_sched p k]> a.(a_tasks)) a.(a_view)).
Proof.
  intros [Hwf Ets] Hn Ht Hp. rewrite <- Ets in Hn. split; [|simpl; by rewrite Ets].
  assert (Hnin : forall q, q_valid q -> t ∉ a.(a_view) q).
  { intros q Hq Hin. destruct (wf_dom _ _ Hwf t q Hq Hin). congruence. }
  destruct Hwf as [[L1 L2 L3 L4] Hh Hpr Hd Hu Ha Hadr]. constructor; simpl.
  - constructor; simpl; try done.
    + intros q Hq. apply (is_list_frame s.(heap)); [|by apply L1].
      intros n Hin. apply init_task_nodes_other.
      * intros ->. apply elem_of_cons in Hin as [E|Hin]; [by destruct q as [?|[]]|].
        apply list_elem_of_fmap in Hin as (x & E & _). by destruct q as [?|[]].
      * intros ->. apply elem_of_cons in Hin as [E|Hin]; [by destruct q as [?|[]]|].
        apply list_elem_of_fmap in Hin as (x & E & _). by destruct q as [?|[]].
      * intros q' ->. apply elem_of_cons in Hin as [E|Hin]; [by apply eq_sym, q_head_node in E|].
        apply list_elem_of_fmap in Hin as (x & E & Hx). apply q_node_inj in E as [-> _].
        by apply (Hnin q).
  - intros x tk q. destruct (decide (x = t)) as [->|Hne].
    + rewrite lookup_insert_eq. intros [= <-] Hq Hns. split; [by intros ?%Hnin|done].
    + rewrite lookup_insert_ne by done. apply Hh.
  - intros x tk. destruct (decide (x = t)) as [->|Hne].
    + rewrite lookup_insert_eq. by intros [= <-].
    + rewrite lookup_insert_ne by done. apply Hpr.
  - intros x q Hq Hin. apply lookup_insert_is_Some'. right. by apply (Hd x q).
  - intros x tk. destruct (decide (x = t)) as [->|Hne]; [intros _ _; by apply Hnin|].
    rewrite lookup_insert_ne by done. apply Hu.
  - intros x q. destruct (decide (x = t)) as [->|Hne]; [intros _; apply init_task_nodes_self|].
    rewrite lookup_insert_ne by done. intros Hx. by apply init_task_nodes_alloc, Ha.
  - intros x. destruct (decide (x = t)) as [->|Hne]; [done|].
    rewrite lookup_insert_ne by done. apply Hadr.
Qed.
