(* ===== verification/SchedApi.v ===== *)
(** * The scheduler: theorems about its interface

    What each entry point of [kernel/sched.c] promises, and the safety of every
    sequence of calls: a step system over the calls the kernel makes, its
    invariant [good] and the absence of undefined behaviour in every reachable
    state. *)

From S2P Require Import Prelude ListHead TaskStruct Sched SchedInv SchedSpec SchedBoot.

(** ** The running task *)

Definition only_running (cur : Z) (a : astate) : Prop :=
  forall t tk, a.(a_tasks) !! t = Some tk -> tk.(state) = PROCESS_STATE_RUNNING -> t = cur.

Lemma only_running_upd cur t f a :
  (forall tk, a.(a_tasks) !! t = Some tk -> (f tk).(state) = PROCESS_STATE_RUNNING ->
     tk.(state) = PROCESS_STATE_RUNNING \/ t = cur) ->
  only_running cur a -> only_running cur (a_upd t f a).
Proof.
  intros Hf H x tk Hx Hs. simpl in Hx. destruct (decide (x = t)) as [->|Hne].
  - rewrite lookup_alter_eq in Hx. destruct (a.(a_tasks) !! t) as [k|] eqn:E; [|done].
    injection Hx as <-. destruct (Hf k eq_refl Hs) as [Hk|]; [by apply (H t k)|done].
  - rewrite lookup_alter_ne in Hx by done. by apply (H x tk).
Qed.

Lemma only_running_keeps cur t f a :
  keeps f -> only_running cur a -> only_running cur (a_upd t f a).
Proof. intros K. apply only_running_upd. intros tk _ E. left. by rewrite (proj1 (K tk)) in E. Qed.

Lemma only_running_set cur t new a :
  (new = PROCESS_STATE_RUNNING -> t = cur) ->
  only_running cur a -> only_running cur (a_set_state t new a).
Proof.
  intros Hn H. unfold a_set_state. destruct (a.(a_tasks) !! t) as [k|] eqn:E; [|done].
  destruct (legal k.(state) new); [|done]. intros x tk Hx Hs. simpl in Hx.
  destruct (decide (x = t)) as [->|Hne].
  - rewrite lookup_insert_eq in Hx. injection Hx as <-. by apply Hn.
  - rewrite lookup_insert_ne in Hx by done. by apply (H x tk).
Qed.

Lemma only_running_tick cur a : only_running cur a -> only_running cur (a_tick_sleep a).
Proof.
  intros H x tk Hx Hs. simpl in Hx.
  enough (G : forall l ts, (forall t k, ts !! t = Some k -> k.(state) = PROCESS_STATE_RUNNING -> t = cur) ->
    forall t k, tick_tasks l ts !! t = Some k -> k.(state) = PROCESS_STATE_RUNNING -> t = cur)
    by exact (G _ _ H x tk Hx Hs).
  clear. intros l. induction l as [|y l IH]; intros ts H t k; [apply H|]. cbn.
  fold (tick_tasks l (alter ticked y ts)). apply IH. clear t k. intros t k Ht Hs.
  destruct (decide (t = y)) as [->|Hne].
  - rewrite lookup_alter_eq in Ht. destruct (ts !! y) as [k0|] eqn:E; [|done].
    injection Ht as <-. unfold ticked in Hs. destruct (Z.eqb _ 0); [done|]. by apply (H y k0).
  - rewrite lookup_alter_ne in Ht by done. by apply (H t k).
Qed.

(** After a switch the next task is the only one that can be running. *)
Lemma only_running_switch cur next a :
  only_running cur a -> only_running next (a_switch cur next a).
Proof.
  intros H. unfold a_switch. apply only_running_keeps; [keep|].
  destruct (decide (cur = next)) as [->|Hne]; [done|].
  apply only_running_set; [done|]. apply only_running_keeps.
  { intros k. unfold awaited. by destruct (Z.eqb k.(wait_time) 0). }
  case_decide as Hr.
  - intros x tk Hx Hs. exfalso. unfold a_set_state in Hx.
    destruct (a.(a_tasks) !! cur) as [k|] eqn:E; [|done]. simpl in Hr. injection Hr as Hr.
    rewrite Hr in Hx. simpl in Hx. destruct (decide (x = cur)) as [->|Hxc].
    + rewrite lookup_insert_eq in Hx. injection Hx as <-. done.
    + rewrite lookup_insert_ne in Hx by done. by apply Hxc, (H x tk).
  - intros x tk Hx Hs. exfalso. pose proof (H x tk Hx Hs) as ->. rewrite Hx in Hr.
    simpl in Hr. congruence.
Qed.

(** ** The calls of the kernel as steps *)

Inductive sched_event : Type :=
  | EvSpawn (t : Z) (k : task_struct)   (* fork_new_task: init_sched_struct *)
  | EvReady (t : Z)                     (* do_fork, do_exec: set_task_state PREPARE *)
  | EvExit (t : Z)                      (* kill_task: set_task_state IDLE *)
  | EvSched                             (* sched, up to the context switch *)
  | EvResume (flags : Z)                (* the resumed task leaves its critical section *)
  | EvTick                              (* timer interrupt, with the switch on return *)
  | EvSuspend (t timeout : Z)
  | EvWakeup (t : Z)
  | EvPrio (t p : Z).

Definition sched_exec (e : sched_event) (s : sched_state) : option sched_state :=
  match e with
  | EvSpawn t k => init_sched_struct t (with_tasks (<[t := k]> s.(tasks)) s)
  | EvReady t => set_task_state t PROCESS_STATE_PREPARE s
  | EvExit t => set_task_state t PROCESS_STATE_IDLE s
  | EvSched => snd <$> sched s
  | EvResume flags => Some (exit_critical flags s)
  | EvTick =>
      s1 ← os_tick_handler (with_in_interrupt 1 s);
      os_exit_irq (with_in_interrupt 0 s1)
  | EvSuspend t timeout => snd <$> suspend_task_timeout t timeout s
  | EvWakeup t => snd <$> wakeup_task t s
  | EvPrio t p => snd <$> set_task_prio t p s
  end.

Definition not_prepared (o : option task_struct) : Prop :=
  match o with Some tk => tk.(state) <> PROCESS_STATE_PREPARE | None => False end.

#[global] Instance not_prepared_dec o : Decision (not_prepared o).
Proof. destruct o; apply _. Defined.

(** What the callers guarantee. *)
Definition enabled (e : sched_event) (s : sched_state) : Prop :=
  match e with
  | EvSpawn t k => s.(tasks) !! t = None /\ 0 < t < 2 ^ 32 /\ is_Some (init_sched_prio k s)
  | EvReady t => not_prepared (s.(tasks) !! t)
  | EvSched | EvResume _ | EvTick => True
  | EvExit t | EvSuspend t _ | EvWakeup t => is_Some (s.(tasks) !! t)
  | EvPrio t p => 0 <= p /\ not_prepared (s.(tasks) !! t)
  end.

#[global] Instance enabled_dec e s : Decision (enabled e s).
Proof. destruct e; cbn [enabled]; apply _. Defined.

Inductive run (s0 : sched_state) : list sched_event -> sched_state -> Prop :=
  | run_nil : run s0 [] s0
  | run_snoc tr s e s' :
      run s0 tr s -> enabled e s -> sched_exec e s = Some s' -> run s0 (tr ++ [e]) s'.

(** Boot: [sched_init], then [build_idle_task] for a structure at [t]. *)
Definition sched_boot (t : Z) (k : task_struct) (s : sched_state) : option sched_state :=
  s1 ← sched_init_queues s;
  s2 ← init_sched_struct t (with_tasks (<[t := k]> s1.(tasks)) s1);
  build_idle_current t s2.

Record good (s : sched_state) (a : astate) : Prop := {
  good_refines : refines s a;
  good_current : is_Some (a.(a_tasks) !! s.(current));
  good_next : s.(next_run) = s.(current);
  good_int : s.(in_interrupt) = 0;
  good_run : s.(schedule_running) = 1;
  good_only : only_running s.(current) a
}.

(** ** Every step keeps [good] *)

Section steps.
Context (s : sched_state) (a : astate).
Hypothesis Hg : good s a.

Lemma good_env s' a' :
  env s s' -> refines s' a' -> (forall x, is_Some (a.(a_tasks) !! x) -> is_Some (a'.(a_tasks) !! x)) ->
  only_running s.(current) a' -> good s' a'.
Proof.
  intros He Hr Hd Ho. destruct Hg as [_ Hc Hn Hi Hrn _].
  pose proof (se_current _ _ He) as Ec. simpl in Ec. constructor; rewrite ?Ec; try done.
  - by apply Hd.
  - by rewrite (se_next_run _ _ He).
  - by rewrite (se_in_interrupt _ _ He).
  - by rewrite (se_running _ _ He).
Qed.

Lemma step_set t tk new :
  a.(a_tasks) !! t = Some tk -> irregular tk.(state) new = false ->
  new <> PROCESS_STATE_RUNNING ->
  exists s', set_task_state t new s = Some s' /\ good s' (a_set_state t new a).
Proof.
  intros Ht Hi Hn.
  destruct (set_task_state_sim s a t tk new (good_refines _ _ Hg) Ht Hi) as (s' & E & H & He & _).
  exists s'. split; [done|]. apply good_env; try done.
  - intros x. by rewrite set_state_dom.
  - apply only_running_set; [done|]. apply Hg.
Qed.

Lemma step_sched : exists o s', sched s = Some (o, s') /\
  good s' (a_switch s.(current) (next_task a.(a_view) s.(current)) a).
Proof.
  destruct Hg as [Hr Hc Hn Hi Hrn Ho].
  destruct (sched_sim s a Hr Hc Hi) as (s' & E & H & E1 & E2 & E3 & E4 & E5 & _); [lia|].
  exists (Some s.(cpsr_c)), s'. split; [done|]. constructor; try done; try congruence.
  - rewrite E1. by apply a_switch_dom, next_task_dom.
  - rewrite E1. by apply only_running_switch.
Qed.

Lemma step_upd t f tk :
  a.(a_tasks) !! t = Some tk -> mild f tk -> (f tk).(state) = tk.(state) ->
  exists s', upd_task t f s = Some s' /\ good s' (a_upd t f a).
Proof.
  intros Ht Hm Hs.
  destruct (upd_task_mild_sim s a t f tk (good_refines _ _ Hg) Ht Hm) as (s' & E & H & He & _).
  exists s'. split; [done|]. apply good_env; try done.
  - intros x. by rewrite upd_tasks_dom.
  - apply only_running_upd; [|apply Hg]. intros k Hk. rewrite Ht in Hk. injection Hk as <-.
    rewrite Hs. by left.
Qed.
End steps.

Lemma step_suspend s a t timeout :
  good s a -> is_Some (a.(a_tasks) !! t) ->
  exists r s' a', suspend_task_timeout t timeout s = Some (r, s') /\ good s' a'.
Proof.
  intros Hg [tk Ht]. pose proof Hg as [Hr Hc _ _ _ Ho].
  destruct (decide (timeout = 0)) as [->|Hto].
  { exists (inl (- EINVAL)), s, a. split; [|done]. unfold suspend_task_timeout.
    by rewrite orb_true_r. }
  destruct (decide (tk.(state) = PROCESS_STATE_IDLE)) as [Hs|Hs].
  - pose proof Hr as [Hwf Ets]. unfold suspend_task_timeout, get_task_state, get_task.
    destruct (_ || _); [by eexists _, s, a|]. simpl. rewrite Ets, Ht. simpl.
    rewrite decide_True by done. eexists _, _, a. split; [done|].
    destruct Hg. constructor; try done. ctl Hr.
  - destruct (suspend_task_timeout_sim s a t tk timeout Hr Hc Ht Hto Hs) as (s1 & H1 & He1 & E).
    assert (Hg1 : good s1 (a_sleep t timeout a)).
    { apply (good_env s a Hg); try done.
      - intros x. by rewrite a_sleep_dom.
      - apply only_running_set; [done|]. apply only_running_keeps; [keep|done]. }
    destruct (step_sched s1 _ Hg1) as (o & s2 & E2 & Hg2). rewrite E, E2. simpl.
    by eexists _, s2, _.
Qed.

Lemma a_tick_dom cur a x :
  is_Some ((a_tick cur a).(a_tasks) !! x) <-> is_Some (a.(a_tasks) !! x).
Proof.
  unfold a_tick. destruct (slice_over _ _); rewrite ?a_switch_dom, upd_tasks_dom;
    apply tick_tasks_dom.
Qed.

(** The task the interrupt return path switches to is the running one. *)
Lemma only_running_a_tick s a (a1 := a_upd s.(current) slice (a_tick_sleep a)) :
  good s a ->
  only_running (if slice_over s.(current) a1 then next_task a1.(a_view) s.(current)
                else s.(next_run)) (a_tick s.(current) a).
Proof.
  intros [_ _ Hn _ _ Ho]. assert (Ho1 : only_running s.(current) a1).
  { apply only_running_keeps; [keep|]. by apply only_running_tick. }
  unfold a_tick. fold a1. destruct (slice_over s.(current) a1).
  - by apply only_running_switch.
  - by rewrite Hn.
Qed.

Lemma step_tick s a :
  good s a -> exists s', sched_exec EvTick s = Some s' /\ good s' (a_tick s.(current) a).
Proof.
  intros Hg. pose proof Hg as [Hr Hc Hn Hi Hrn Ho]. unfold sched_exec.
  assert (Hr1 : refines (with_in_interrupt 1 s) a) by ctl Hr.
  destruct (os_tick_handler_sim _ a Hr1 Hc) as (s1 & E & H & [_ E1 _ E2 E3 _ _ _ _ _] & Hnx).
  rewrite E. cbn [mbind option_bind]. pose proof (only_running_a_tick s a Hg) as Ho2.
  cbn [current with_in_interrupt with_next_run with_tasks next_run schedule_running] in *.
  rewrite <- E2 in Ho2. specialize (Hnx ltac:(by rewrite Hn)).
  apply a_tick_dom with (cur := s.(current)) in Hc.
  revert H Ho2 Hnx Hc. generalize (a_tick s.(current) a) as a2. intros a2 H Ho2 Hnx Hc.
  unfold os_exit_irq. simpl. destruct (Z.eqb_spec s1.(current) s1.(next_run)) as [Ecn|Ecn].
  - eexists. split; [done|]. constructor; simpl; try done; try congruence; [ctl H|].
    by rewrite Ecn.
  - unfold arch_switch_task_sw, get_task. simpl. pose proof H as [Hwf Ets].
    rewrite <- Ets, <- E1 in Hc. rewrite <- Ets in Hnx. destruct Hc as [k1 K1], Hnx as [k2 K2].
    rewrite K1. simpl. rewrite K2. simpl. eexists. split; [done|].
    constructor; simpl; try done; try congruence; [ctl H|]. rewrite <- Ets. by exists k2.
Qed.

(** ** The current task suspends itself *)

(** A sleeping task that is not chosen keeps sleeping through a switch. *)
Lemma a_switch_sleeping cur next a t k :
  a.(a_tasks) !! t = Some k -> k.(state) = PROCESS_STATE_SLEEP -> (t = next -> t = cur) ->
  exists k', (a_switch cur next a).(a_tasks) !! t = Some k' /\
    k'.(state) = PROCESS_STATE_SLEEP /\ k'.(wait_time) = k.(wait_time).
Proof.
  intros Ht Hs Hn. unfold a_switch. destruct (decide (cur = next)) as [->|Hne].
  - destruct (decide (t = next)) as [->|Htn]; simpl.
    + rewrite lookup_alter_eq, Ht. by eexists.
    + rewrite lookup_alter_ne by done. by exists k.
  - assert (Htn : t <> next) by (intros E; apply Hne; rewrite <- E; symmetry; by apply Hn).
    simpl. rewrite lookup_alter_ne, set_state_other by done. simpl.
    rewrite lookup_alter_ne by done. case_decide as Hrun; [|by exists k].
    destruct (decide (t = cur)) as [->|Htc].
    + rewrite Ht in Hrun. simpl in Hrun. congruence.
    + rewrite set_state_other by done. by exists k.
Qed.

Lemma a_switch_running cur next a nk :
  cur <> next -> a.(a_tasks) !! next = Some nk -> nk.(state) = PROCESS_STATE_PREPARE ->
  exists k', (a_switch cur next a).(a_tasks) !! next = Some k' /\ k'.(state) = PROCESS_STATE_RUNNING.
Proof.
  intros Hne En Hs. unfold a_switch. rewrite decide_False by done. cbv zeta.
  set (a1 := if decide _ then _ else _).
  assert (E1 : a1.(a_tasks) !! next = Some nk).
  { unfold a1. case_decide; [rewrite set_state_other by done|]; done. }
  assert (Hs1 : (awaited nk).(state) = PROCESS_STATE_PREPARE) by (unfold awaited; by destruct (Z.eqb _ 0)).
  assert (E2 : (a_upd next awaited a1).(a_tasks) !! next = Some (awaited nk))
    by (simpl; by rewrite lookup_alter_eq, E1).
  unfold a_set_state. rewrite E2, Hs1. simpl. rewrite lookup_alter_eq, lookup_insert_eq. by eexists.
Qed.

(** The head of the ready queues is a ready task. *)
Lemma ready_head s a n :
  refines s a -> hd_error (ready_order a.(a_view)) = Some n ->
  exists nk, a.(a_tasks) !! n = Some nk /\ nk.(state) = PROCESS_STATE_PREPARE.
Proof.
  intros [Hwf Ets] En.
  assert (Hin : n ∈ ready_order a.(a_view)) by (destruct (ready_order _); [done|injection En as ->; set_solver]).
  apply elem_of_ready_order in Hin as (i & Hi & Hin).
  destruct (wf_queued s _ Hwf (Q_ready i) n) as (nk & Enk & Hh); [simpl; lia|done|done|].
  exists nk. rewrite <- Ets. split; [done|]. unfold home in Hh. by destruct nk.(state).
Qed.

Lemma sleep_view t k v :
  k.(state) = PROCESS_STATE_RUNNING ->
  abs_set_state t k PROCESS_STATE_SLEEP v (Q_list L_sleep) = v (Q_list L_sleep) ++ [t] /\
  forall i, abs_set_state t k PROCESS_STATE_SLEEP v (Q_ready i) = v (Q_ready i).
Proof.
  intros Hs. unfold abs_set_state, enter, register, leave, home. simpl. rewrite Hs. simpl.
  by rewrite vset_eq.
Qed.

Lemma suspend_current s a tk timeout :
  good s a -> s.(tasks) !! s.(current) = Some tk -> tk.(state) = PROCESS_STATE_RUNNING ->
  timeout <> 0 ->
  exists o s' a' tk', suspend_task_timeout s.(current) timeout s = Some (inr o, s') /\ good s' a' /\
    s'.(current) = next_task a.(a_view) s.(current) /\
    s'.(tasks) !! s.(current) = Some tk' /\ tk'.(state) = PROCESS_STATE_SLEEP /\
    tk'.(wait_time) = timeout /\ s.(current) ∈ a'.(a_view) (Q_list L_sleep) /\
    s'.(mutex_count) = s.(mutex_count) /\
    (forall k, queue_node k = false -> s'.(heap) !! k = s.(heap) !! k) /\
    (forall x, is_Some (s'.(tasks) !! x) <-> is_Some (s.(tasks) !! x)) /\
    (forall n, hd_error (ready_order a.(a_view)) = Some n ->
       n <> s.(current) /\ s'.(current) = n /\
       exists nk, s'.(tasks) !! n = Some nk /\ nk.(state) = PROCESS_STATE_RUNNING).
Proof.
  intros Hg Ht Hs Hto.
  pose proof Hg as [Hr Hc Hn Hi Hrn Ho]. pose proof Hr as [Hwf Ets]. rewrite Ets in Ht.
  set (cur := s.(current)) in *.
  destruct (suspend_task_timeout_sim s a cur tk timeout Hr Hc Ht Hto) as (s1 & H1 & He1 & E);
    [congruence|].
  assert (Ecur : s1.(current) = cur) by exact (se_current _ _ He1).
  assert (Hg1 : good s1 (a_sleep cur timeout a)).
  { apply (good_env s a Hg); try done.
    - intros x. by rewrite a_sleep_dom.
    - apply only_running_set; [done|]. apply only_running_keeps; [keep|done]. }
  assert (Ea : a_sleep cur timeout a =
    Abs (<[cur := with_state PROCESS_STATE_SLEEP (waiting timeout tk)]> (alter (waiting timeout) cur a.(a_tasks)))
      (abs_set_state cur (waiting timeout tk) PROCESS_STATE_SLEEP a.(a_view))).
  { unfold a_sleep, a_set_state. simpl. rewrite lookup_alter_eq, Ht. simpl. by rewrite Hs. }
  destruct (sleep_view cur (waiting timeout tk) a.(a_view) Hs) as [Hvs Hvr].
  assert (En : next_task (a_sleep cur timeout a).(a_view) cur = next_task a.(a_view) cur).
  { unfold next_task, ready_order. rewrite Ea. simpl a_view. do 3 f_equal.
    apply list_fmap_ext. intros i x _. apply Hvr. }
  destruct (sched_sim s1 _ H1) as (s2 & E2 & H2 & E21 & _ & _ & _ & _ & _ & Em2 & Ef2).
  { rewrite Ecur. by apply a_sleep_dom. } { apply Hg1. } { rewrite (good_run _ _ Hg1). lia. }
  destruct (step_sched s1 _ Hg1) as (o & s3 & E3 & Hg2). rewrite E2 in E3. injection E3 as <- <-.
  rewrite Ecur in *.
  destruct (a_switch_sleeping cur (next_task (a_sleep cur timeout a).(a_view) cur)
    (a_sleep cur timeout a) cur (with_state PROCESS_STATE_SLEEP (waiting timeout tk)))
    as (k' & Ek & Hks & Hkw); [by rewrite Ea; apply lookup_insert_eq|done|done|].
  rewrite E, E2. cbn [mbind option_bind]. eexists _, s2, _, k'. split; [done|].
  split; [exact Hg2|]. split; [by rewrite E21|]. destruct H2 as [Hwf2 Ets2].
  rewrite Ets2. split; [done|]. split; [done|]. split; [done|].
  split; [apply (wf_home _ _ Hwf2 cur k'); [by rewrite Ets2|done|done|]; unfold home; by rewrite Hks|].
  split; [etrans; [exact Em2|exact (se_mutex _ _ He1)]|]. split.
  - intros n Hq. rewrite Ef2 by done. by apply (se_heap _ _ He1).
  - split; [intros x; rewrite Ets; by rewrite a_switch_dom, a_sleep_dom|]. intros n Hnx.
    assert (En' : next_task a.(a_view) cur = n) by (unfold next_task; by rewrite Hnx).
    destruct (ready_head s a n Hr Hnx) as (nk & Enk & Hns).
    assert (Hne : n <> cur) by (intros ->; congruence).
    split; [done|]. split; [by rewrite E21, En|]. rewrite En, En'.
    apply (a_switch_running cur n _ nk); [done| |done]. rewrite Ea. simpl.
    by rewrite lookup_insert_ne, lookup_alter_ne by done.
Qed.


Definition reprio (p : Z) (k : task_struct) : task_struct := with_prio p (with_pre_prio k.(prio) k).

Lemma step_prio s a t p tk :
  good s a -> a.(a_tasks) !! t = Some tk -> 0 <= p -> tk.(state) <> PROCESS_STATE_PREPARE ->
  exists r s' a', set_task_prio t p s = Some (r, s') /\ good s' a'.
Proof.
  intros Hg Ht Hp Hs. pose proof Hg as [[Hwf Ets] _ _ _ _ _].
  unfold set_task_prio, get_task_state, get_task. rewrite Ets, Ht. simpl.
  destruct (Z.leb_spec MAX_PRIO p); [by eexists _, s, a|].
  assert (Hu : tk.(state) = PROCESS_STATE_RUNNING \/ tk.(state) = PROCESS_STATE_SLEEP ->
    exists r s' a', (s1 ← upd_task t (reprio p) s; Some (0, s1)) = Some (r, s') /\ good s' a').
  { intros Hrs. destruct (step_upd s a Hg t (reprio p) tk Ht) as (s1 & E1 & Hg1).
    - split; [|split; [done|done]]. unfold home. simpl. by destruct Hrs as [->| ->].
    - done.
    - rewrite E1. by eexists _, s1, _. }
  destruct tk.(state) eqn:Est; try done; try (by eexists _, s, a); apply Hu; tauto.
Qed.

Lemma step_spawn s a t k :
  good s a -> enabled (EvSpawn t k) s ->
  exists s' a', sched_exec (EvSpawn t k) s = Some s' /\ good s' a'.
Proof.
  intros Hg (Hn & Ht & p & Hp). pose proof Hg as [Hr Hc Hnx Hi Hrn Ho]. pose proof Hr as [Hwf Ets].
  set (s0 := with_tasks (<[t := k]> s.(tasks)) s).
  assert (Hp0 : init_sched_prio k s0 = Some p /\ 0 <= p < MAX_PRIO).
  { revert Hp. unfold init_sched_prio, MAX_PRIO. repeat destruct (_ && _).
    all: try (intros [= <-]; split; [done|]; unfold KERNEL_THREAD_PRIO, PROCESS_DEFAULT_PRIO; lia).
    unfold get_task, s0. simpl. intros E. destruct (decide (k.(parent) = t)) as [Ep|Ep].
    - rewrite Ep, Hn in E. done.
    - rewrite lookup_insert_ne by done. inv_bind E. injection E as <-. rewrite E0. split; [done|].
      by apply (wf_prio _ _ Hwf k.(parent)). }
  destruct Hp0 as [Hp0 Hpb]. cbn [sched_exec]. fold s0.
  rewrite (init_sched_struct_eq t k p s0); [|apply lookup_insert_eq|done].
  eexists _, (Abs (<[t := fresh_sched p k]> a.(a_tasks)) a.(a_view)). split; [done|].
  constructor; simpl; try done.
  - unfold s0. simpl. rewrite insert_insert_eq.
    apply (new_task_sim s a t k p Hr); [by rewrite <- Ets|done|done].
  - apply lookup_insert_is_Some'. by right.
  - intros x tk Hx Hs. simpl in Hx. destruct (decide (x = t)) as [->|Hne].
    + rewrite lookup_insert_eq in Hx. by injection Hx as <-.
    + rewrite lookup_insert_ne in Hx by done. by apply (Ho x tk).
Qed.

Lemma sched_step_good s a e :
  good s a -> enabled e s -> exists s' a', sched_exec e s = Some s' /\ good s' a'.
Proof.
  intros Hg He. pose proof Hg as [[Hwf Ets] _ _ _ _ _]. destruct e; cbn [enabled] in He.
  - by apply (step_spawn s a).
  - unfold not_prepared in He. rewrite Ets in He.
    destruct (a.(a_tasks) !! t) as [tk|] eqn:Ht; [|done].
    destruct (step_set s a Hg t tk PROCESS_STATE_PREPARE Ht) as (s' & E & H);
      [by apply irregular_target|done|by eexists s', _].
  - destruct He as [tk Ht]. rewrite Ets in Ht.
    destruct (step_set s a Hg t tk PROCESS_STATE_IDLE Ht) as (s' & E & H);
      [by apply irregular_target|done|by eexists s', _].
  - destruct (step_sched s a Hg) as (o & s' & E & H). simpl. rewrite E. by eexists s', _.
  - eexists _, a. split; [done|]. destruct Hg. constructor; try done.
    by eapply refines_ctl; [..|eassumption].
  - destruct (step_tick s a Hg) as (s' & E & H). by eexists s', _.
  - rewrite Ets in He. destruct (step_suspend s a t timeout Hg He) as (r & s' & a' & E & H).
    simpl. rewrite E. by exists s', a'.
  - destruct He as [tk Ht]. rewrite Ets in Ht.
    destruct (wakeup_task_sim s a t tk (good_refines _ _ Hg) Ht) as (r & s' & E & Hen & H).
    simpl. rewrite E. simpl. case_decide.
    + destruct H as [_ H]. exists s', (a_wakeup t a). split; [done|].
      apply (good_env s a Hg); try done.
      * intros x. unfold a_wakeup. by rewrite set_state_dom, upd_tasks_dom.
      * apply only_running_set; [done|]. apply only_running_keeps; [keep|apply Hg].
    + destruct H as [_ ->]. by exists s, a.
  - destruct He as [Hp Hs]. unfold not_prepared in Hs. rewrite Ets in Hs.
    destruct (a.(a_tasks) !! t) as [tk|] eqn:Ht; [|done].
    destruct (step_prio s a t p tk Hg Ht Hp Hs) as (r & s' & a' & E & H).
    simpl. rewrite E. by exists s', a'.
Qed.

Lemma sched_boot_good s t k :
  length s.(prio_count) = 64%nat -> s.(tasks) = ∅ -> s.(in_interrupt) = 0 -> 0 < t < 2 ^ 32 ->
  is_Some (init_sched_prio k s) ->
  exists s' a, sched_boot t k s = Some s' /\ good s' a.
Proof.
  intros Hl Hts Hi Ht [p Hp]. unfold sched_boot.
  destruct (sched_init_queues_ok s Hl Hts) as (s1 & E1 & H1 & Hr1 & Hi1 & _). rewrite E1. simpl.
  pose proof H1 as [_ Ets1]. simpl in Ets1.
  set (s2 := with_tasks (<[t := k]> s1.(tasks)) s1).
  assert (Hp2 : init_sched_prio k s2 = Some p /\ 0 <= p < MAX_PRIO).
  { revert Hp. unfold init_sched_prio, MAX_PRIO, get_task. rewrite Hts. repeat destruct (_ && _).
    all: try (intros [= <-]; split; [done|]; unfold KERNEL_THREAD_PRIO, PROCESS_DEFAULT_PRIO; lia).
    done. }
  destruct Hp2 as [Hp2 Hpb].
  rewrite (init_sched_struct_eq t k p s2); [|apply lookup_insert_eq|done]. simpl.
  rewrite insert_insert_eq.
  pose proof (new_task_sim s1 _ t k p H1 (lookup_empty t) Ht Hpb) as H3.
  change (a_tasks (Abs ∅ empty_view)) with (∅ : gmap Z task_struct) in H3.
  change (a_view (Abs ∅ empty_view)) with empty_view in H3.
  set (s3 := with_heap _ _) in *. set (a3 := Abs (<[t := fresh_sched p k]> ∅) empty_view) in *.
  assert (Et : a3.(a_tasks) !! t = Some (fresh_sched p k)) by apply lookup_insert_eq.
  destruct (upd_task_mild_sim s3 a3 t (with_state PROCESS_STATE_RUNNING) (fresh_sched p k) H3 Et)
    as (s4 & E4 & H4 & He4 & _).
  { unfold mild, home. cbn. done. }
  unfold build_idle_current. change (with_heap _ _) with s3. rewrite E4. simpl.
  eexists _, _. split; [done|]. constructor; simpl.
  - ctl H4.
  - by apply upd_tasks_dom, lookup_insert_is_Some'; left.
  - done.
  - rewrite (se_in_interrupt _ _ He4). simpl. by rewrite Hi1.
  - by rewrite (se_running _ _ He4).
  - intros x tk Hx _. unfold a3, a_upd in Hx. simpl a_tasks in Hx.
    destruct (decide (x = t)) as [|Hne]; [done|].
    by rewrite lookup_alter_ne, lookup_insert_ne, lookup_empty in Hx by done.
Qed.

Lemma run_good s0 a0 tr s : good s0 a0 -> run s0 tr s -> exists a, good s a.
Proof.
  intros Hg. induction 1 as [|tr s e s' Hrun [a Ha] He E]; [by exists a0|].
  destruct (sched_step_good s a e Ha He) as (s2 & a2 & E2 & H2). exists a2. congruence.
Qed.

(** ** Executing a trace *)

Fixpoint play (tr : list sched_event) (s : sched_state) : option sched_state :=
  match tr with
  | [] => Some s
  | e :: tr' => if decide (enabled e s) then s' ← sched_exec e s; play tr' s' else None
  end.

Lemma play_run s0 tr0 s tr s' :
  run s0 tr0 s -> play tr s = Some s' -> run s0 (tr0 ++ tr) s'.
Proof.
  revert tr0 s. induction tr as [|e tr IH]; intros tr0 s Hrun Hp; simpl in Hp.
  - injection Hp as <-. by rewrite app_nil_r.
  - case_decide; [|done]. inv_bind Hp.
    rewrite cons_middle, app_assoc. apply (IH _ v); [|done]. by apply (run_snoc _ _ s).
Qed.

(** A small system: idle, two kernel threads, one of them about to sleep. *)
Definition task0 : task_struct :=
  Mk_task 0 0 [] PROCESS_TYPE_KERNEL 2 0 PROCESS_STATE_UNKNOWN PROCESS_STATE_UNKNOWN 0 0
    (Mk_mm_struct 0 0 None None) 0 0 0 0 0 0 0 0.

Definition sched_bss : sched_state :=
  Mk_sched ∅ ∅ (replicate 64 0) 0 0 0 0 0 0 0 0 0x13 ∅.

Definition idle_task0 : task_struct := with_pid (-1) task0.

Definition demo_boot : sched_state := default sched_bss (sched_boot 4096 idle_task0 sched_bss).

Definition demo_trace : list sched_event :=
  [EvSpawn 8192 task0; EvReady 8192; EvSpawn 12288 task0; EvReady 12288;
   EvPrio 4096 63; EvSched; EvResume 0x13; EvSuspend 8192 2; EvResume 0x13; EvTick].

Definition demo : sched_state := default sched_bss (play demo_trace demo_boot).

Lemma demo_boot_good : exists a, good demo_boot a.
Proof.
  destruct (sched_boot_good sched_bss 4096 idle_task0) as (s & a & E & H); [done..|by eexists|].
  exists a. unfold demo_boot. by rewrite E.
Qed.

Lemma demo_run : run demo_boot demo_trace demo.
Proof.
  apply (play_run demo_boot [] demo_boot demo_trace demo); [constructor|].
  assert (H : (if play demo_trace demo_boot is Some _ then true else false) = true)
    by (vm_compute; reflexivity).
  unfold demo. by destruct (play demo_trace demo_boot).
Qed.

Lemma demo_good : exists a, good demo a.
Proof. destruct demo_boot_good as [a Ha]. exact (run_good _ a _ _ Ha demo_run). Qed.

(** What the witnesses use: 8192 sleeps at priority 5 and is due at the next tick,
    12288 is running. *)
Definition demo_view_ok (s : sched_state) : bool :=
  match s.(tasks) !! 8192, s.(tasks) !! 12288 with
  | Some k, Some c =>
      bool_decide (k.(state) = PROCESS_STATE_SLEEP) && Z.eqb k.(prio) 5 && Z.eqb k.(wait_time) 1 &&
      bool_decide (c.(state) = PROCESS_STATE_RUNNING) && Z.eqb c.(run_time) 1 &&
      Z.eqb s.(current) 12288
  | _, _ => false
  end.

Lemma demo_facts : exists a k c, good demo a /\
  demo.(tasks) !! 8192 = Some k /\ k.(state) = PROCESS_STATE_SLEEP /\ k.(prio) = 5 /\
  k.(wait_time) = 1 /\ demo.(tasks) !! 12288 = Some c /\ c.(state) = PROCESS_STATE_RUNNING /\
  c.(run_time) = 1 /\ demo.(current) = 12288.
Proof.
  destruct demo_good as [a Ha].
  assert (H : demo_view_ok demo = true) by (vm_compute; reflexivity).
  revert Ha H. generalize demo as s. unfold demo_view_ok. intros s Ha H.
  destruct (s.(tasks) !! 8192) as [k|]; [|done]. destruct (s.(tasks) !! 12288) as [c|]; [|done].
  rewrite !andb_true_iff, !bool_decide_eq_true, !Z.eqb_eq in H. destruct_and!.
  by exists a, k, c.
Qed.

(** The same with 8192 woken up: it is ready and 12288 is running. *)
Definition demo_ready : sched_state := default sched_bss (play [EvWakeup 8192] demo).

Definition demo_ready_ok (s : sched_state) : bool :=
  match s.(tasks) !! 8192, s.(tasks) !! 12288 with
  | Some k, Some c =>
      bool_decide (k.(state) = PROCESS_STATE_PREPARE) && Z.eqb k.(prio) 5 &&
      bool_decide (c.(state) = PROCESS_STATE_RUNNING) && Z.eqb s.(current) 12288 &&
      bool_decide (take 6 s.(prio_count) = [0; 0; 0; 0; 0; 1])
  | _, _ => false
  end.

Lemma demo_ready_facts : exists a c, good demo_ready a /\
  demo_ready.(tasks) !! 12288 = Some c /\ c.(state) = PROCESS_STATE_RUNNING /\
  demo_ready.(current) = 12288 /\ a.(a_view) (Q_ready 5) = [8192] /\
  forall j, 0 <= j < 5 -> a.(a_view) (Q_ready j) = [].
Proof.
  assert (Hg : exists a, good demo_ready a).
  { destruct demo_good as [a Ha]. apply (run_good demo a [EvWakeup 8192]); [done|].
    apply (play_run demo [] demo [EvWakeup 8192] demo_ready); [constructor|].
    assert (H : (if play [EvWakeup 8192] demo is Some _ then true else false) = true)
      by (vm_compute; reflexivity).
    unfold demo_ready. revert H. by generalize (play [EvWakeup 8192] demo) as o; intros []. }
  assert (H : demo_ready_ok demo_ready = true) by (vm_compute; reflexivity).
  revert Hg H. generalize demo_ready as s. unfold demo_ready_ok. intros s [a Ha] H.
  destruct (s.(tasks) !! 8192) as [k|] eqn:Ek; [|done].
  destruct (s.(tasks) !! 12288) as [c|] eqn:Ec; [|done].
  rewrite !andb_true_iff, !bool_decide_eq_true, !Z.eqb_eq in H.
  destruct H as [[[[Hk Hp] Hcs] Hcur] Hcnt]. exists a, c.
  pose proof Ha as [[Hwf _] _ _ _ _ _].
  assert (Hl : forall j, 0 <= j < 6 ->
    q_count (Q_ready j) s = [0; 0; 0; 0; 0; 1] !! Z.to_nat j).
  { intros j Hj. rewrite <- Hcnt. simpl. unfold aget. rewrite (proj2 (Z.leb_le 0 j)) by lia.
    by rewrite lookup_take_lt by lia. }
  assert (Hv : forall j, 0 <= j < 6 -> q_valid (Q_ready j)) by (intros; simpl; unfold MAX_PRIO; lia).
  do 4 (split; [done|]). split.
  - pose proof (wf_count s _ Hwf (Q_ready 5) (Hv 5 ltac:(lia))) as Hc. rewrite (Hl 5) in Hc by lia.
    injection Hc as Hc. pose proof (proj2 (wf_home _ _ Hwf 8192 k (Q_ready 5) Ek (Hv 5 ltac:(lia)) ltac:(done))) as Hin.
    unfold home in Hin. rewrite Hk, Hp in Hin. specialize (Hin eq_refl).
    destruct (a.(a_view) (Q_ready 5)) as [|x [|? ?]]; simpl in *; try lia. set_solver.
  - intros j Hj. pose proof (wf_count s _ Hwf (Q_ready j) (Hv j ltac:(lia))) as Hc.
    rewrite (Hl j) in Hc by lia.
    destruct (a.(a_view) (Q_ready j)); [done|]. exfalso.
    assert (Ej : j = 0 \/ j = 1 \/ j = 2 \/ j = 3 \/ j = 4) by lia.
    destruct Ej as [->|[->|[->|[->| ->]]]]; injection Hc as Hc; lia.
Qed.

(** Start a witness about [demo] from these facts. *)
Ltac use_demo :=
  let F := fresh in pose proof demo_facts as F; revert F; generalize demo;
  let s := fresh "s" in intros s (a & k & c & Hg & Hk & Hks & Hkp & Hkw & Hc & Hcs & Hcr & Hcur).
