(* ===== verification/SchedThms.v ===== *)
(** * The scheduler: properties

    The contract of each entry point of [kernel/sched.c], stated on the invariant
    [wf] of [SchedInv] and the abstract operations of [SchedSpec]. *)

From S2P Require Import Prelude ListHead TaskStruct Sched SchedInv SchedSpec SchedBoot SchedApi.

(** C3. [set_task_state] implements the life cycle of a task: a change the table
    allows moves the task between the queues as [abs_set_state] says (out of the
    queue of the old state, to the tail of the queue of the new one), updates
    only that task and keeps the invariant; any other change is ignored. *)
Theorem set_task_state_refines (s : sched_state) (v : view) (t : Z) (tk : task_struct)
    (new : state_t)
    (Hwf : wf s v) (Ht : s.(tasks) !! t = Some tk) (Hi : irregular tk.(state) new = false) :
  exists s', set_task_state t new s = Some s' /\
    if legal tk.(state) new
    then wf s' (abs_set_state t tk new v) /\
         s'.(tasks) = <[t := with_state new tk]> s.(tasks) /\
         s'.(current) = s.(current) /\ s'.(cpsr_c) = s.(cpsr_c) /\
         (forall k, queue_node k = false -> s'.(heap) !! k = s.(heap) !! k)
    else s' = s.
Proof.
  destruct (legal tk.(state) new) eqn:El.
  - destruct (set_task_state_ok s v t tk new Hwf Ht El) as (s' & E & H & He & _).
    exists s'. split; [done|]. split; [done|]. by destruct He.
  - exists s. split; [|done]. by apply (set_task_state_ignored s t tk).
Qed.

Lemma set_task_state_refines_witness :
  exists s', set_task_state 8192 PROCESS_STATE_PREPARE demo = Some s' /\
    exists v, wf s' v /\ 8192 ∈ v (Q_ready 5).
Proof.
  use_demo. destruct Hg as [[Hwf Ets] _ _ _ _ _].
  destruct (set_task_state_refines s a.(a_view) 8192 k PROCESS_STATE_PREPARE Hwf Hk)
    as (s' & Es & H); [by rewrite Hks|]. rewrite Hks in H. destruct H as [H _].
  exists s'. split; [exact Es|]. eexists. split; [exact H|].
  unfold abs_set_state, enter, register, leave, home. simpl. rewrite Hks, Hkp. simpl.
  rewrite vset_eq. set_solver.
Defined.

(** [find_next_run_task] returns the first task of the first non-empty ready
    queue among priorities 0 to 62, and the current task when all of them are
    empty; a task of priority 63 is never chosen from its queue. *)
Theorem find_next_run_task_highest (s : sched_state) (v : view) (Hwf : wf s v) :
  exists t, find_next_run_task s = Some t /\
    ((exists i l, 0 <= i < MAX_PRIO - 1 /\ v (Q_ready i) = t :: l /\
        forall j, 0 <= j < i -> v (Q_ready j) = [])
     \/ ((forall i, 0 <= i < MAX_PRIO - 1 -> v (Q_ready i) = []) /\ t = s.(current))).
Proof.
  exists (next_task v s.(current)).
  split; [exact (find_next_run_task_sim s (Abs s.(tasks) v) (conj Hwf eq_refl))|].
  destruct (find_prio_sim s v 64 0 Hwf) as (j & E & Hj & Hne & Hk); [by unfold MAX_PRIO|done|].
  unfold next_task. rewrite (ready_order_split v j) by (done || lia).
  destruct (decide (j = MAX_PRIO - 1)) as [->|Hj'].
  - right. split; [|done]. intros i Hi. by apply Hk.
  - left. rewrite seqZ_cons by lia. simpl. specialize (Hne ltac:(lia)).
    destruct (v (Q_ready j)) as [|t l] eqn:El; [done|]. exists j, l. simpl.
    split; [lia|]. split; [done|]. intros i Hi. by apply Hk.
Qed.

Lemma find_next_run_task_highest_witness : exists t, find_next_run_task demo = Some t.
Proof.
  use_demo. destruct Hg as [[Hwf Ets] _ _ _ _ _].
  destruct (find_next_run_task_highest s a.(a_view) Hwf) as (t & E & _). by exists t.
Defined.

(** ** [sched] *)

(** A task in no queue, in a view where it was in the ready queue of [i]. *)
Lemma run_view t k v i :
  k.(state) = PROCESS_STATE_PREPARE ->
  abs_set_state t k PROCESS_STATE_RUNNING v (Q_ready i) =
  if decide (k.(prio) = i) then without t (v (Q_ready i)) else v (Q_ready i).
Proof.
  intros Hs. unfold abs_set_state, enter, register, leave, home. simpl. rewrite Hs. simpl.
  unfold vset. destruct (decide (k.(prio) = i)) as [->|Hne]; [by rewrite decide_True|].
  rewrite decide_False by congruence. done.
Qed.

Lemma yield_view t k v i :
  k.(state) = PROCESS_STATE_RUNNING ->
  abs_set_state t k PROCESS_STATE_PREPARE v (Q_ready i) =
  if decide (k.(prio) = i) then v (Q_ready i) ++ [t] else v (Q_ready i).
Proof.
  intros Hs. unfold abs_set_state, enter, register, leave, home. simpl. rewrite Hs. simpl.
  unfold vset. destruct (decide (k.(prio) = i)) as [->|Hne]; [by rewrite decide_True|].
  rewrite decide_False by congruence. done.
Qed.

(** The abstract switch from a running task to a prepared one. *)
Lemma a_switch_next cur next a ck nk :
  cur <> next -> a.(a_tasks) !! cur = Some ck -> a.(a_tasks) !! next = Some nk ->
  ck.(state) = PROCESS_STATE_RUNNING -> nk.(state) = PROCESS_STATE_PREPARE ->
  a_switch cur next a =
  Abs (<[next := started (with_state PROCESS_STATE_RUNNING (awaited nk))]>
        (<[cur := with_state PROCESS_STATE_PREPARE ck]> a.(a_tasks)))
      (abs_set_state next (awaited nk) PROCESS_STATE_RUNNING
        (abs_set_state cur ck PROCESS_STATE_PREPARE a.(a_view))).
Proof.
  intros Hne Hc Hn Hcs Hns. unfold a_switch. rewrite decide_False by done.
  rewrite Hc. simpl. rewrite decide_True by congruence.
  unfold a_set_state at 2. rewrite Hc, Hcs. simpl. unfold a_set_state, a_upd. simpl.
  rewrite lookup_alter_eq, lookup_insert_ne, Hn by done. cbn [fmap option_fmap option_map].
  assert (Ha : (awaited nk).(state) = PROCESS_STATE_PREPARE).
  { unfold awaited. by destruct (Z.eqb _ 0). }
  rewrite Ha. cbn [legal a_tasks a_view]. f_equal. apply map_eq. intros x.
  destruct (decide (x = next)) as [->|Hx].
  - by rewrite lookup_alter_eq, !lookup_insert_eq.
  - by rewrite lookup_alter_ne, !lookup_insert_ne, lookup_alter_ne by done.
Qed.

(** C6. A running task that calls [sched] while another task is ready gives way to
    the first task [next] of the highest ready priority: [next] becomes current
    and the only running task, with a fresh time slice and its wait cleared
    (recording the time-out if the wait was over); the caller goes to the tail of
    its own ready queue, [next] leaves the head of its queue, and every other
    ready queue is unchanged. *)
Theorem sched_switches (s : sched_state) (a : astate) (ck : task_struct) (next i : Z)
    (l : list Z)
    (Hg : good s a) (Hc : s.(tasks) !! s.(current) = Some ck)
    (Hcs : ck.(state) = PROCESS_STATE_RUNNING) (Hi : 0 <= i < MAX_PRIO - 1)
    (Hq : a.(a_view) (Q_ready i) = next :: l)
    (Hfirst : forall j, 0 <= j < i -> a.(a_view) (Q_ready j) = []) :
  exists s' a' nk, sched s = Some (Some s.(cpsr_c), s') /\ good s' a' /\
    s'.(current) = next /\
    s.(tasks) !! next = Some nk /\
    s'.(tasks) = <[next := started (with_state PROCESS_STATE_RUNNING (awaited nk))]>
                   (<[s.(current) := with_state PROCESS_STATE_PREPARE ck]> s.(tasks)) /\
    (forall j, 0 <= j < MAX_PRIO -> a'.(a_view) (Q_ready j) =
       (if decide (j = i) then l else a.(a_view) (Q_ready j)) ++
       (if decide (j = ck.(prio)) then [s.(current)] else [])).
Proof.
  pose proof Hg as [Hr Hcur Hn Hint Hrun Ho]. pose proof Hr as [Hwf Ets].
  assert (Enext : next_task a.(a_view) s.(current) = next).
  { unfold next_task. rewrite (ready_order_split _ i) by (done || lia).
    rewrite seqZ_cons by lia. simpl. by rewrite Hq. }
  assert (Hv : q_valid (Q_ready i)) by (simpl; lia).
  destruct (wf_queued s _ Hwf (Q_ready i) next) as (nk & Hnk & Hh);
    [done|done|rewrite Hq; set_solver|].
  assert (Hns : nk.(state) = PROCESS_STATE_PREPARE /\ nk.(prio) = i).
  { unfold home in Hh. destruct nk.(state); try done. by injection Hh as ->. }
  destruct Hns as [Hns Hnp].
  assert (Hne : s.(current) <> next) by congruence.
  destruct (sched_sim s a Hr Hcur Hint) as (s' & E & H & E1 & _); [lia|].
  destruct (step_sched s a Hg) as (o & s1 & E' & Hg'). rewrite E in E'. injection E' as <- <-.
  rewrite Enext in *. rewrite Ets in Hc, Hnk.
  rewrite (a_switch_next _ _ _ ck nk) in * by done.
  eexists s', _, nk. split; [exact E|]. split; [exact Hg'|]. split; [done|].
  split; [by rewrite Ets|]. split; [rewrite Ets; apply H|]. intros j Hj. simpl a_view.
  assert (Has : (awaited nk).(state) = PROCESS_STATE_PREPARE /\ (awaited nk).(prio) = i).
  { unfold awaited. by destruct (Z.eqb _ 0). }
  destruct Has as [Has Hap]. rewrite run_view, yield_view, Hap by done.
  assert (Hnd := wf_nodup s _ Hwf (Q_ready i) Hv). rewrite Hq in Hnd.
  apply NoDup_cons in Hnd as [Hnl _].
  destruct (decide (i = j)) as [->|Hij]; rewrite ?(decide_True (P := j = j)) by done.
  - rewrite Hq. destruct (decide (ck.(prio) = j)) as [Hp|Hp].
    + rewrite decide_True by done. simpl. unfold without. rewrite filter_cons_False by tauto.
      fold (without next (l ++ [s.(current)])). apply without_notin. set_solver.
    + rewrite decide_False by congruence. rewrite app_nil_r. unfold without.
      rewrite filter_cons_False by tauto. by apply without_notin.
  - rewrite (decide_False (P := j = i)) by congruence.
    destruct (decide (ck.(prio) = j)) as [Hp|Hp].
    + by rewrite decide_True by done.
    + rewrite decide_False by congruence. by rewrite app_nil_r.
Qed.

Lemma sched_switches_witness :
  exists s', sched demo_ready = Some (Some demo_ready.(cpsr_c), s') /\ s'.(current) = 8192.
Proof.
  pose proof demo_ready_facts as F. revert F. generalize demo_ready.
  intros s (a & c & Hg & Hc & Hcs & Hcur & Hq & Hf). rewrite <- Hcur in Hc.
  destruct (sched_switches s a c 8192 5 [] Hg Hc Hcs) as (s' & a' & nk & E & _ & E1 & _);
    [by unfold MAX_PRIO|done|done|].
  by exists s'.
Defined.

(** ** The tick *)

(** C5. A timer tick counts down every sleeping task; the tasks whose wait is over
    leave the sleep queue, in order, for the tails of the ready queues of their
    priorities, the others stay asleep in order, and the slice of the current task
    is charged; when it is used up the tick also switches to the next task.  The
    traversal moves tasks out of the list it walks and still visits every one. *)
Theorem os_tick_handler_refines (s : sched_state) (a : astate)
    (Hr : refines s a) (Hc : is_Some (a.(a_tasks) !! s.(current))) :
  exists s', os_tick_handler s = Some s' /\ refines s' (a_tick s.(current) a) /\
    s'.(current) = s.(current) /\ s'.(cpsr_c) = s.(cpsr_c) /\
    (slice_over s.(current) (a_upd s.(current) slice (a_tick_sleep a)) = false ->
      (a_tick s.(current) a).(a_view) (Q_list L_sleep) =
        filter (fun t => expires a.(a_tasks) t = false) (a.(a_view) (Q_list L_sleep)) /\
      forall i, (a_tick s.(current) a).(a_view) (Q_ready i) =
        a.(a_view) (Q_ready i) ++
        filter (fun t => expires a.(a_tasks) t = true /\ has_prio a.(a_tasks) i t = true)
          (a.(a_view) (Q_list L_sleep))).
Proof.
  destruct (os_tick_handler_sim s a Hr Hc) as (s' & E & H & He & _).
  exists s'. split; [done|]. split; [done|].
  split; [exact (se_current _ _ He)|]. split; [exact (se_cpsr _ _ He)|].
  intros Hs. unfold a_tick. rewrite Hs. simpl. by rewrite app_nil_r.
Qed.

Lemma os_tick_handler_refines_witness : exists s', os_tick_handler demo = Some s'.
Proof.
  use_demo. destruct Hg as [Hr Hcc _ _ _ _].
  destruct (os_tick_handler_refines s a Hr Hcc) as (s' & E & _). by exists s'.
Defined.

(** ** A sleeping task is woken after its time *)

(** The chosen task of a wakeful view is not a sleeping one. *)
Lemma next_task_awake s a t k :
  refines s a -> a.(a_tasks) !! t = Some k -> k.(state) = PROCESS_STATE_SLEEP ->
  t = next_task a.(a_view) s.(current) -> t = s.(current).
Proof.
  intros Hr Ht Hs E. destruct (next_task_ready s a Hr) as [En|(nk & En & Hns)]; [congruence|].
  rewrite <- E, Ht in En. congruence.
Qed.

(** A switch puts no task to sleep. *)
Lemma a_switch_awake cur next a t k :
  a.(a_tasks) !! t = Some k -> k.(state) <> PROCESS_STATE_SLEEP ->
  exists k', (a_switch cur next a).(a_tasks) !! t = Some k' /\ k'.(state) <> PROCESS_STATE_SLEEP.
Proof.
  set (awake := fun a : astate => exists k, a.(a_tasks) !! t = Some k /\
    k.(state) <> PROCESS_STATE_SLEEP).
  assert (Hu : forall x f b, keeps f -> awake b -> awake (a_upd x f b)).
  { intros x f b K (k0 & E & Hs). unfold awake. simpl. destruct (decide (t = x)) as [->|Hne].
    - rewrite lookup_alter_eq, E. simpl. eexists. split; [done|]. by rewrite (proj1 (K k0)).
    - rewrite lookup_alter_ne by done. by exists k0. }
  assert (Hset : forall x new b, new <> PROCESS_STATE_SLEEP -> awake b -> awake (a_set_state x new b)).
  { intros x new b Hn (k0 & E & Hs). unfold awake. destruct (decide (t = x)) as [->|Hne].
    - unfold a_set_state. rewrite E. destruct (legal k0.(state) new); [|by exists k0].
      simpl. rewrite lookup_insert_eq. by eexists.
    - rewrite set_state_other by done. by exists k0. }
  intros Ht Hs. change (awake (a_switch cur next a)). unfold a_switch.
  assert (H0 : awake a) by (by exists k). apply Hu; [keep|].
  destruct (decide (cur = next)); [done|]. apply Hset; [done|]. apply Hu.
  { intros x. unfold awaited. by destruct (Z.eqb x.(wait_time) 0). }
  case_decide; [by apply Hset|done].
Qed.

(** One tick seen by a sleeping task. *)
Lemma tick_sleeper s a t k :
  good s a -> a.(a_tasks) !! t = Some k -> k.(state) = PROCESS_STATE_SLEEP ->
  0 < k.(wait_time) ->
  exists k', (a_tick s.(current) a).(a_tasks) !! t = Some k' /\
    if decide (k.(wait_time) = 1) then k'.(state) <> PROCESS_STATE_SLEEP
    else k'.(state) = PROCESS_STATE_SLEEP /\ k'.(wait_time) = k.(wait_time) - 1.
Proof.
  intros Hg Ht Hs Hw. pose proof Hg as [Hr Hc _ _ _ _]. pose proof Hr as [Hwf Ets].
  destruct (tick_loop_sim s a Hr) as (s1 & _ & H1 & He1).
  destruct (upd_task_sim s1 _ s.(current) slice H1) as (s2 & _ & H2 & He2 & _);
    [keep|simpl; by apply tick_tasks_dom|].
  assert (Ecur : s2.(current) = s.(current)).
  { etrans; [exact (se_current _ _ He2)|exact (se_current _ _ He1)]. }
  set (a1 := a_upd s.(current) slice (a_tick_sleep a)) in *.
  assert (Hin : t ∈ a.(a_view) (Q_list L_sleep)).
  { apply (wf_home _ _ Hwf t k); [by rewrite Ets|done|done|]. unfold home. by rewrite Hs. }
  assert (Hk1 : exists k1, a1.(a_tasks) !! t = Some k1 /\ k1.(state) = (ticked k).(state) /\
    k1.(wait_time) = (ticked k).(wait_time)).
  { unfold a1. simpl. destruct (decide (t = s.(current))) as [->|Hne].
    - rewrite lookup_alter_eq, tick_tasks_in, Ht by (done || by apply (wf_nodup s)). by eexists.
    - rewrite lookup_alter_ne, tick_tasks_in, Ht by (done || by apply (wf_nodup s)). by eexists. }
  destruct Hk1 as (k1 & E1 & Es1 & Ew1).
  assert (Htk : (ticked k).(wait_time) = k.(wait_time) - 1 /\
    (ticked k).(state) = if decide (k.(wait_time) = 1) then PROCESS_STATE_PREPARE
                         else PROCESS_STATE_SLEEP).
  { unfold ticked, countdown. rewrite (proj2 (Z.ltb_lt _ _) Hw).
    destruct (Z.eqb_spec (k.(wait_time) - 1) 0); case_decide; simpl; try lia; done. }
  destruct Htk as [Htw Hts]. rewrite Hts in Es1. rewrite Htw in Ew1. unfold a_tick. fold a1.
  destruct (slice_over s.(current) a1).
  - case_decide as Hone.
    + destruct (a_switch_awake s.(current) (next_task a1.(a_view) s.(current)) a1 t k1 E1)
        as (k' & E' & Hs'); [by rewrite Es1|]. by exists k'.
    + destruct (a_switch_sleeping s.(current) (next_task a1.(a_view) s.(current)) a1 t k1 E1 Es1)
        as (k' & E' & Hs' & Hw'); [|exists k'; split; [done|]; split; [done|lia]].
      rewrite <- Ecur. by apply (next_task_awake s2 a1 t k1).
  - exists k1. split; [done|]. case_decide; [by rewrite Es1|done].
Qed.

(** C4. Timed sleep: a task asleep with [n] ticks to wait stays asleep for the
    first [n - 1] timer interrupts, its remaining time decreasing by one at each,
    and is awake (ready or already running) after the [n]-th; the kernel survives
    every one of them. *)
Theorem timed_sleep_wakes (n : nat) (s : sched_state) (a : astate) (t : Z) (k : task_struct)
    (Hg : good s a) (Ht : s.(tasks) !! t = Some k) (Hs : k.(state) = PROCESS_STATE_SLEEP)
    (Hw : k.(wait_time) = Z.of_nat (S n)) :
  (forall m, (m <= n)%nat -> exists sm km, play (replicate m EvTick) s = Some sm /\
     sm.(tasks) !! t = Some km /\ km.(state) = PROCESS_STATE_SLEEP /\
     km.(wait_time) = Z.of_nat (S n - m)) /\
  exists s' k', play (replicate (S n) EvTick) s = Some s' /\ s'.(tasks) !! t = Some k' /\
    k'.(state) <> PROCESS_STATE_SLEEP.
Proof.
  revert s a k Hg Ht Hs Hw. induction n as [|n IH]; intros s a k Hg Ht Hs Hw.
  all: pose proof (proj2 (good_refines _ _ Hg)) as Ets.
  all: destruct (step_tick s a Hg) as (s1 & E1 & Hg1); rewrite Ets in Ht.
  all: destruct (tick_sleeper s a t k Hg Ht Hs) as (k1 & Ek1 & H1); [lia|].
  all: rewrite <- (proj2 (good_refines _ _ Hg1)) in Ek1; rewrite <- Ets in Ht.
  - split.
    + intros m Hm. assert (m = 0%nat) as -> by lia. by exists s, k.
    + rewrite decide_True in H1 by lia. exists s1, k1.
      change (replicate 1 EvTick) with [EvTick]. cbn [play]. rewrite decide_True by done.
      rewrite E1. done.
  - rewrite decide_False in H1 by lia. destruct H1 as [Hs1 Hw1].
    destruct (IH s1 _ k1 Hg1 Ek1 Hs1) as [Hm (s' & k' & E' & Hk')]; [lia|].
    assert (Hplay : forall m, play (replicate (S m) EvTick) s = play (replicate m EvTick) s1).
    { intros m. cbn [replicate play]. rewrite decide_True by done. by rewrite E1. }
    split.
    + intros [|m] Hle; [by exists s, k|]. destruct (Hm m) as (sm & km & Em & Hkm); [lia|].
      exists sm, km. rewrite Hplay. by replace (S (S n) - S m)%nat with (S n - m)%nat by lia.
    + exists s', k'. by rewrite Hplay.
Qed.

Lemma timed_sleep_wakes_witness :
  exists s' k', play (replicate 1 EvTick) demo = Some s' /\ s'.(tasks) !! 8192 = Some k' /\
    k'.(state) <> PROCESS_STATE_SLEEP.
Proof.
  use_demo. destruct (timed_sleep_wakes 0 s a 8192 k Hg Hk Hks Hkw) as [_ H]. exact H.
Defined.

(** ** Suspending and waking *)

(** The running task that suspends itself for a non-zero time goes to the tail
    of the sleep queue with that wait time and its time-out flag cleared, and the
    processor is given to the highest-priority ready task; with no ready task
    below priority 63 the call returns to the sleeping caller.  A null task or a
    zero time is refused with [-EINVAL] and changes nothing. *)
Theorem suspend_task_timeout_sleeps (s : sched_state) (a : astate) (tk : task_struct)
    (timeout : Z) (Hg : good s a) (Ht : s.(tasks) !! s.(current) = Some tk)
    (Hs : tk.(state) = PROCESS_STATE_RUNNING) :
  suspend_task_timeout s.(current) 0 s = Some (inl (- EINVAL), s) /\
  suspend_task_timeout 0 timeout s = Some (inl (- EINVAL), s) /\
  (timeout <> 0 ->
   exists o s' a' tk', suspend_task_timeout s.(current) timeout s = Some (inr o, s') /\ good s' a' /\
     s'.(current) = next_task a.(a_view) s.(current) /\
     s'.(tasks) !! s.(current) = Some tk' /\ tk'.(state) = PROCESS_STATE_SLEEP /\
     tk'.(wait_time) = timeout /\ s.(current) ∈ a'.(a_view) (Q_list L_sleep)).
Proof.
  split; [unfold suspend_task_timeout; by rewrite orb_true_r|].
  split; [by unfold suspend_task_timeout|]. intros Hto.
  destruct (suspend_current s a tk timeout Hg Ht Hs Hto)
    as (o & s' & a' & tk' & E & H1 & H2 & H3 & H4 & H5 & H6 & _).
  exists o, s', a', tk'. by do 6 (split; [done|]).
Qed.

Lemma suspend_task_timeout_sleeps_witness :
  exists o s', suspend_task_timeout demo_ready.(current) 7 demo_ready = Some (inr o, s').
Proof.
  pose proof demo_ready_facts as F. revert F. generalize demo_ready.
  intros s (a & c & Hg & Hc & Hcs & Hcur & Hq & Hf). rewrite <- Hcur in Hc.
  destruct (suspend_task_timeout_sleeps s a c 7 Hg Hc Hcs) as (_ & _ & H).
  destruct (H ltac:(done)) as (o & s' & _ & _ & E & _). by exists o, s'.
Defined.

(** [wakeup_task] moves a sleeping task from the sleep queue to the tail of the
    ready queue of its priority with a fresh slice and returns 0; on a task that
    is not asleep it returns [-EINVAL] and changes nothing. *)
Theorem wakeup_task_spec (s : sched_state) (a : astate) (t : Z) (tk : task_struct)
    (Hr : refines s a) (Ht : s.(tasks) !! t = Some tk) :
  exists r s', wakeup_task t s = Some (r, s') /\
    if decide (tk.(state) = PROCESS_STATE_SLEEP)
    then r = 0 /\ exists a', refines s' a' /\
      a'.(a_tasks) = <[t := with_state PROCESS_STATE_PREPARE (with_run_time 1 tk)]> a.(a_tasks) /\
      a'.(a_view) (Q_list L_sleep) = without t (a.(a_view) (Q_list L_sleep)) /\
      a'.(a_view) (Q_ready tk.(prio)) = a.(a_view) (Q_ready tk.(prio)) ++ [t]
    else r = - EINVAL /\ s' = s.
Proof.
  rewrite (proj2 Hr) in Ht. destruct (wakeup_task_sim s a t tk Hr Ht) as (r & s' & E & _ & H).
  exists r, s'. split; [done|]. case_decide as Hs; [|done]. destruct H as [-> H].
  split; [done|]. eexists. split; [exact H|].
  unfold a_wakeup, a_set_state, a_upd. simpl. rewrite lookup_alter_eq, Ht. simpl.
  rewrite Hs. simpl. unfold abs_set_state, enter, register, leave, home. simpl. rewrite Hs. simpl.
  split; [|split].
  - apply map_eq. intros x. destruct (decide (x = t)) as [->|Hne].
    + by rewrite !lookup_insert_eq.
    + by rewrite !lookup_insert_ne, lookup_alter_ne.
  - by rewrite vset_ne, vset_eq by done.
  - by rewrite vset_eq, vset_ne by done.
Qed.

Lemma wakeup_task_spec_witness : exists s', wakeup_task 8192 demo = Some (0, s').
Proof.
  use_demo. destruct (wakeup_task_spec s a 8192 k (good_refines _ _ Hg) Hk) as (r & s' & E & H).
  rewrite decide_True in H by done. destruct H as [-> _]. by exists s'.
Defined.

(** ** Every sequence of calls *)

(** C1. Safety of the scheduler: after booting and any sequence of the calls the
    kernel makes (spawning, making ready, exiting, scheduling, timer interrupts,
    suspending, waking, changing a priority), each made in a state where it is
    [enabled], the queues and counters are consistent with the states of the tasks,
    no task but the current one is running, and no further enabled call can hit
    undefined behaviour.  A call is enabled when the task it names exists; a new task
    needs a fresh structure and a priority the code accepts, and a task is made ready
    with [set_task_state], or given another priority (not negative), only while it is
    not ready.  So the kernel does: [set_task_prio] is called on the running idle
    task ([main.c:62]), and a task is made ready there when it is new ([task.c:573],
    [task.c:810]).  On a task that is ready already the calls are excluded:
    [set_task_prio] would queue it twice, as [set_task_prio_registers_twice] shows. *)
Theorem sched_trace_safe (t : Z) (k : task_struct) (s0 s1 s : sched_state)
    (tr : list sched_event)
    (Hlen : length s0.(prio_count) = 64%nat) (Hts : s0.(tasks) = ∅)
    (Hint : s0.(in_interrupt) = 0) (Ht : 0 < t < 2 ^ 32) (Hk : is_Some (init_sched_prio k s0))
    (Hboot : sched_boot t k s0 = Some s1) (Hrun : run s1 tr s) :
  (exists v, wf s v) /\
  (forall x tk, s.(tasks) !! x = Some tk -> tk.(state) = PROCESS_STATE_RUNNING ->
     x = s.(current)) /\
  forall e, enabled e s -> exists s', sched_exec e s = Some s'.
Proof.
  destruct (sched_boot_good s0 t k Hlen Hts Hint Ht Hk) as (s1' & a1 & E & Hg1).
  rewrite Hboot in E. injection E as <-.
  destruct (run_good s1 a1 tr s Hg1 Hrun) as [a Hg]. pose proof Hg as [[Hwf Ets] _ _ _ _ Ho].
  split; [by exists a.(a_view)|]. split; [intros x tk Hx; rewrite Ets in Hx; by apply Ho|].
  intros e He. destruct (sched_step_good s a e Hg He) as (s' & _ & E & _). by exists s'.
Qed.

Lemma sched_trace_safe_witness : exists v, wf demo v.
Proof.
  assert (Hb : sched_boot 4096 idle_task0 sched_bss = Some demo_boot).
  { unfold demo_boot. assert (H : (if sched_boot 4096 idle_task0 sched_bss is Some _ then true else false) = true)
      by (vm_compute; reflexivity).
    revert H. by generalize (sched_boot 4096 idle_task0 sched_bss) as o; intros []. }
  refine (proj1 (sched_trace_safe 4096 idle_task0 sched_bss demo_boot demo demo_trace
    eq_refl eq_refl eq_refl _ _ Hb demo_run)); [lia|by eexists].
Defined.

(** ** Deviations *)

(** The transition table is declared with fourteen rows and initialised with
    twelve; the two zero rows read as a transition from [PREPARE] to [PREPARE]
    with the action of a new task.  On a well-formed state, setting a ready task
    to [PREPARE] again (and [set_task_prio] on a ready task, through [UNKNOWN])
    enters it a second time in the list of all tasks, whose counter then exceeds
    the number of registered tasks. *)
Theorem set_task_prio_registers_twice :
  get_state_change PROCESS_STATE_PREPARE PROCESS_STATE_PREPARE = Some STATE_NONE_TO_PREPARE /\
  (exists s s', play [EvSpawn 8192 task0; EvReady 8192] demo_boot = Some s /\
     s.(system_count) = 1 /\ set_task_prio 8192 7 s = Some (0, s') /\
     s'.(system_count) = 2 /\ list_next s'.(heap) (TSystem 8192) = Some TaskSystem /\
     list_prve s'.(heap) (TSystem 8192) = Some (TSystem 8192)).
Proof.
  split; [reflexivity|].
  assert (H : match play [EvSpawn 8192 task0; EvReady 8192] demo_boot with
    | Some s => match set_task_prio 8192 7 s with
      | Some (r, s') => bool_decide (s.(system_count) = 1 /\ r = 0 /\ s'.(system_count) = 2 /\
          list_next s'.(heap) (TSystem 8192) = Some TaskSystem /\
          list_prve s'.(heap) (TSystem 8192) = Some (TSystem 8192))
      | None => false end
    | None => false end = true) by (vm_compute; reflexivity).
  revert H. generalize (play [EvSpawn 8192 task0; EvReady 8192] demo_boot) as o.
  intros [s|] H; [|done]. destruct (set_task_prio 8192 7 s) as [[r s']|] eqn:E; [|done].
  apply bool_decide_eq_true in H as (H1 & -> & H2 & H3 & H4). by exists s, s'.
Qed.

(** The idle task waits in ready queue 63, which [find_next_run_task] does not
    look at: when the last other task suspends itself, with the idle task ready,
    it stays the current task in state [SLEEP] and keeps the processor. *)
Theorem suspend_last_task_keeps_cpu :
  exists s' k ik,
    demo.(tasks) !! 4096 = Some ik /\ ik.(state) = PROCESS_STATE_PREPARE /\ ik.(prio) = 63 /\
    sched_exec (EvSuspend 12288 5) demo = Some s' /\ demo.(current) = 12288 /\
    s'.(current) = 12288 /\ s'.(tasks) !! 12288 = Some k /\ k.(state) = PROCESS_STATE_SLEEP.
Proof.
  assert (H : match demo.(tasks) !! 4096, sched_exec (EvSuspend 12288 5) demo with
    | Some ik, Some s' => match s'.(tasks) !! 12288 with
      | Some k => bool_decide (ik.(state) = PROCESS_STATE_PREPARE /\ ik.(prio) = 63 /\
          demo.(current) = 12288 /\ s'.(current) = 12288 /\ k.(state) = PROCESS_STATE_SLEEP)
      | None => false end
    | _, _ => false end = true) by (vm_compute; reflexivity).
  revert H. generalize demo as s. intros s H.
  destruct (s.(tasks) !! 4096) as [ik|] eqn:E1; [|done].
  destruct (sched_exec (EvSuspend 12288 5) s) as [s'|] eqn:E2; [|done].
  destruct (s'.(tasks) !! 12288) as [k|] eqn:E3; [|done].
  apply bool_decide_eq_true in H as (H1 & H2 & H3 & H4 & H5). by exists s', k, ik.
Qed.
