(* ===== verification/Mutex.v ===== *)
(** * Mutexes

    Models [include/os/mutex.h] and [kernel/mutex.c].  The [count] members are
    the map [mutex_count] of the kernel state, the two [list_head] members are
    nodes of its heap.  [mutex_lock_timeout] can lose the processor inside its
    loop: [mutex_lock_timeout] runs up to the first context switch and
    [mutex_lock_resume] is the rest, entered when the caller runs again. *)

From S2P Require Import Prelude ListHead TaskStruct Sched SchedInv SchedSpec SchedBoot SchedApi.

(** ** Operations *)

Definition mutex_val (m : Z) (s : sched_state) : option Z := s.(mutex_count) !! m.

Definition set_mutex_val (m c : Z) (s : sched_state) : sched_state :=
  with_mutex_count (<[m := c]> s.(mutex_count)) s.

Definition init_mutex (m : Z) (s : sched_state) : sched_state :=
  with_heap (init_list (MutexTask m) (init_list (MutexWait m) s.(heap))) (set_mutex_val m 0 s).

(** How far a call gets: it returned this value, or the caller was suspended with
    this outcome of [suspend_task_timeout]. *)
Inductive lock_result : Type := Returned (r : Z) | Blocked (r : Z + option Z).

Definition lock_iter (m task ms : Z) (s : sched_state) : option (lock_result * sched_state) :=
  c ← mutex_val m s;
  if truth c then
    h ← list_add_tail (MutexWait m) (TWait task) s.(heap);
    '(r, s1) ← suspend_task_timeout task ms (with_heap h s);
    Some (Blocked r, s1)
  else
    let s1 := set_mutex_val m 1 s in
    s2 ← (if truth task then
            h ← list_add_tail (TMutexGet task) (MutexTask m) s1.(heap); Some (with_heap h s1)
          else Some s1);
    Some (Returned 0, s2).

Definition mutex_lock_timeout (m ms : Z) (s : sched_state)
  : option (lock_result * sched_state) :=
  let '(flags, s0) := enter_critical s in
  '(r, s1) ← lock_iter m s.(current) ms s0;
  match r with
  | Returned x => Some (Returned x, exit_critical flags s1)
  | Blocked _ => Some (r, s1)
  end.

(** The caller [task] resumes inside the loop: [suspend_task_timeout] returns,
    and the loop leaves on a time-out or tries again. *)
Definition mutex_lock_resume (m task ms flags : Z) (r : Z + option Z) (s : sched_state)
  : option (lock_result * sched_state) :=
  '(timeout, s1) ←
    match r with inl err => Some (err, s) | inr o => suspend_resume task o s end;
  if truth timeout then
    h ← list_del (TWait task) s1.(heap);
    Some (Returned 0, exit_critical flags (with_heap h s1))
  else
    '(r', s2) ← lock_iter m task ms s1;
    match r' with
    | Returned x => Some (Returned x, exit_critical flags s2)
    | Blocked _ => Some (r', s2)
    end.

Definition mutex_lock (m : Z) (s : sched_state) : option (lock_result * sched_state) :=
  mutex_lock_timeout m (-1) s.

Definition unlock_body (n : node) (s : sched_state) : option sched_state :=
  t ← wait_entry n;
  h ← list_del (TWait t) s.(heap);
  '(_, s1) ← wakeup_task t (with_heap h s);
  Some s1.

Definition mutex_unlock (m : Z) (s : sched_state) : option sched_state :=
  c ← mutex_val m s;
  if negb (truth c) then Some s
  else
    let '(flags, s0) := enter_critical s in
    let s1 := set_mutex_val m 0 s0 in
    n ← list_next s1.(heap) (MutexWait m);
    s2 ← list_for_each (S (size s1.(heap))) heap unlock_body (MutexWait m) n s1;
    e ← is_list_empty s2.(heap) (MutexTask m);
    s3 ← (if negb e then h ← list_del (MutexTask m) s2.(heap); Some (with_heap h s2)
          else Some s2);
    Some (exit_critical flags s3).

(** ** The abstract view

    [w m]: the tasks that wait for [m], in order; [h t]: the mutexes [t] holds, in
    the order it took them. *)

Abbreviation mview := (Z -> list Z).

Definition mset (x : Z) (l : list Z) (f : mview) : mview :=
  fun y => if decide (y = x) then l else f y.

Lemma mset_eq x l f : mset x l f x = l.
Proof. unfold mset. by rewrite decide_True. Qed.

Lemma mset_ne x y l f : y <> x -> mset x l f y = f y.
Proof. intros. unfold mset. by rewrite decide_False. Qed.

Record mwf (s : sched_state) (w h : mview) : Prop := {
  mw_wait : forall m, is_Some (s.(mutex_count) !! m) ->
    is_list s.(heap) (MutexWait m) (TWait <$> w m);
  mw_held : forall t, is_Some (s.(tasks) !! t) ->
    is_list s.(heap) (TMutexGet t) (MutexTask <$> h t);
  mw_free : forall m, s.(mutex_count) !! m = Some 0 -> forall t, m ∉ h t;
  mw_val : forall m c, s.(mutex_count) !! m = Some c -> c = 0 \/ c = 1;
  mw_owner : forall m t t', m ∈ h t -> m ∈ h t' -> t = t';
  mw_one : forall m m' t, t ∈ w m -> t ∈ w m' -> m = m';
  mw_dom : forall m t, m ∈ h t -> is_Some (s.(mutex_count) !! m) /\ is_Some (s.(tasks) !! t);
  mw_wdom : forall m t, t ∈ w m -> is_Some (s.(mutex_count) !! m) /\ is_Some (s.(tasks) !! t);
  mw_alloc_w : forall t, is_Some (s.(tasks) !! t) -> is_Some (s.(heap) !! TWait t);
  mw_alloc_m : forall m, is_Some (s.(mutex_count) !! m) -> is_Some (s.(heap) !! MutexTask m)
}.

Definition mutex_node (n : node) : bool :=
  match n with MutexWait _ | MutexTask _ | TWait _ | TMutexGet _ => true | _ => false end.

Lemma mutex_not_queue n : mutex_node n = true -> queue_node n = false.
Proof. by destruct n. Qed.

(** ** Framing *)

Lemma mutex_list_nodes hd (f : Z -> node) (l : list Z) k :
  mutex_node hd = true -> (forall x, mutex_node (f x) = true) ->
  k ∈ hd :: (f <$> l) -> mutex_node k = true.
Proof.
  intros H1 H2 [->|(x & -> & _)%list_elem_of_fmap]%elem_of_cons; [done|apply H2].
Qed.

(** The scheduler's operations do not touch the mutex lists. *)
Lemma mwf_frame s s' w h :
  mwf s w h -> (forall k, mutex_node k = true -> s'.(heap) !! k = s.(heap) !! k) ->
  s'.(mutex_count) = s.(mutex_count) ->
  (forall x, is_Some (s'.(tasks) !! x) <-> is_Some (s.(tasks) !! x)) ->
  mwf s' w h.
Proof.
  intros [H1 H2 H3 H4 H5 H6 H7 H8 H9 H10] Hk Hm Ht. constructor; rewrite ?Hm; try done.
  - intros m Hin. apply (is_list_frame s.(heap)); [|by apply H1].
    intros k Hin'. apply Hk. by apply (mutex_list_nodes (MutexWait m) TWait (w m)).
  - intros t Hin. apply (is_list_frame s.(heap)); [|by apply H2, Ht].
    intros k Hin'. apply Hk. by apply (mutex_list_nodes (TMutexGet t) MutexTask (h t)).
  - intros m t Hin. rewrite Ht. by apply H7.
  - intros m t Hin. rewrite Ht. by apply (H8 m t).
  - intros t Hin. rewrite Hk by done. by apply H9, Ht.
  - intros m Hin. rewrite Hk by done. by apply H10.
Qed.

Lemma mwf_env s s' w h :
  mwf s w h -> env s s' ->
  (forall x, is_Some (s'.(tasks) !! x) <-> is_Some (s.(tasks) !! x)) -> mwf s' w h.
Proof.
  intros Hm He Ht. apply (mwf_frame s); [done| |exact (se_mutex _ _ He)|done].
  intros k Hk. rewrite (se_heap _ _ He) by (by apply mutex_not_queue). done.
Qed.

(** Lists that are no queues do not matter to the scheduler. *)
Lemma refines_nodes s a h' :
  refines s a -> (forall k, queue_node k = true -> h' !! k = s.(heap) !! k) -> refines (with_heap h' s) a.
Proof.
  intros [[[L1 L2 L3 L4] Hh Hp Hd Hu Ha Hadr] Ets] Hk. split; [|done]. constructor; try done.
  - constructor; try done. simpl. intros q Hq. apply (is_list_frame s.(heap)); [|by apply L1].
    intros k Hin. apply Hk. apply elem_of_cons in Hin as [->|(x & -> & _)%list_elem_of_fmap].
    + apply q_head_queue.
    + apply q_node_queue.
  - simpl. intros t q Ht. rewrite Hk by apply q_node_queue. by apply Ha.
Qed.

Lemma refines_heap s a h' :
  refines s a -> dom h' = dom s.(heap) ->
  (forall k, queue_node k = true -> h' !! k = s.(heap) !! k) -> refines (with_heap h' s) a.
Proof. intros Hr _. by apply refines_nodes. Qed.

(** ** Unlocking *)

Definition wake (a : astate) (t : Z) : astate :=
  match a.(a_tasks) !! t with
  | Some k => if decide (k.(state) = PROCESS_STATE_SLEEP) then a_wakeup t a else a
  | None => a
  end.

Definition wake_all (l : list Z) (a : astate) : astate := foldl wake a l.

Lemma wake_dom a t x : is_Some ((wake a t).(a_tasks) !! x) <-> is_Some (a.(a_tasks) !! x).
Proof.
  unfold wake. destruct (a.(a_tasks) !! t) as [k|]; [|done]. case_decide; [|done].
  unfold a_wakeup. by rewrite set_state_dom, upd_tasks_dom.
Qed.

Lemma wake_all_dom l a x :
  is_Some ((wake_all l a).(a_tasks) !! x) <-> is_Some (a.(a_tasks) !! x).
Proof.
  unfold wake_all. revert a. induction l as [|t l IH]; intros a; [done|]. simpl.
  by rewrite IH, wake_dom.
Qed.

Lemma wake_sim s a t :
  refines s a -> is_Some (a.(a_tasks) !! t) ->
  exists r s', wakeup_task t s = Some (r, s') /\ refines s' (wake a t) /\ env s s'.
Proof.
  intros Hr [k Hk]. destruct (wakeup_task_sim s a t k Hr Hk) as (r & s' & E & He & H).
  exists r, s'. split; [done|]. split; [|done]. unfold wake. rewrite Hk.
  case_decide; [apply H|]. by destruct H as [_ ->].
Qed.

(** The nodes the unlocking loop may write. *)
Definition unlock_touches (m : Z) (l : list Z) (k : node) : Prop :=
  queue_node k = true \/ k ∈ MutexWait m :: (TWait <$> l).

Section unlock.
Context (m : Z) (l : list Z) (s0 : sched_state) (a0 : astate).
Hypothesis Hl : forall t, t ∈ l -> is_Some (a0.(a_tasks) !! t).

(** The state between two iterations: [d] is woken, [todo] still waits. *)
Definition unlock_inv (d todo : list Z) (s : sched_state) : Prop :=
  d ++ todo = l /\ refines s (wake_all d a0) /\
  is_list s.(heap) (MutexWait m) (TWait <$> todo) /\ s.(mutex_count) = s0.(mutex_count) /\
  s.(cpsr_c) = s0.(cpsr_c) /\ s.(current) = s0.(current) /\ s.(next_run) = s0.(next_run) /\
  s.(in_interrupt) = s0.(in_interrupt) /\ s.(schedule_running) = s0.(schedule_running) /\
  dom s.(heap) = dom s0.(heap) /\
  forall k, ~ unlock_touches m l k -> s.(heap) !! k = s0.(heap) !! k.

Lemma unlock_body_inv d t todo s :
  unlock_inv d (t :: todo) s ->
  exists s', unlock_body (TWait t) s = Some s' /\
    list_next s'.(heap) (TWait t) = Some (List.hd (MutexWait m) (TWait <$> todo)) /\
    unlock_inv (d ++ [t]) todo s'.
Proof.
  intros (El & Hr & Hi & Hm & Hc & Hcur & Hnr & Hin & Hsr & Hd & Hf).
  unfold unlock_body. simpl.
  destruct (list_del_spec s.(heap) (MutexWait m) [] (TWait t) _ Hi)
    as (h & E & Hl' & Hd' & Hfr). rewrite E. simpl.
  assert (Hr1 : refines (with_heap h s) (wake_all d a0)).
  { apply refines_heap; [done|done|]. intros k Hk. apply Hfr.
    intros [->|(x & -> & _)%list_elem_of_fmap]%elem_of_cons; done. }
  destruct (wake_sim _ _ t Hr1) as (r & s' & E' & Hr' & He).
  { apply wake_all_dom, Hl. rewrite <- El. set_solver. }
  rewrite E'. simpl. exists s'. split; [done|].
  assert (Hh : forall k, queue_node k = false -> s'.(heap) !! k = h !! k)
    by exact (se_heap _ _ He).
  split.
  - unfold list_next. rewrite Hh by done. rewrite (Hfr (TWait t)).
    + by apply (is_list_next _ _ []) in Hi.
    + apply is_list_nodup in Hi as [Hnd Hhd]. simpl in *. apply NoDup_cons in Hnd as [Hnt _].
      apply not_elem_of_cons. split; [done|exact Hnt].
  - split; [rewrite <- app_assoc; done|].
    split; [unfold wake_all in *; by rewrite foldl_snoc|]. split.
    { apply (is_list_frame h); [|done]. intros k Hk. apply Hh.
      apply elem_of_cons in Hk as [->|(x & -> & _)%list_elem_of_fmap]; done. }
    destruct He. simpl in *. do 6 (split; [congruence|]). split; [congruence|].
    intros k Hk. unfold unlock_touches in Hk.
    rewrite Hh by (destruct (queue_node k); tauto). rewrite Hfr; [by apply Hf|].
    intros Hin'. apply Hk. right. rewrite <- El. set_solver.
Qed.

Lemma unlock_loop_inv :
  unlock_inv [] l s0 ->
  exists n s', list_next s0.(heap) (MutexWait m) = Some n /\
    list_for_each (S (size s0.(heap))) heap unlock_body (MutexWait m) n s0 = Some s' /\
    unlock_inv l [] s'.
Proof.
  intros H0. pose proof H0 as (_ & _ & Hi & _).
  exists (List.hd (MutexWait m) (TWait <$> l)).
  destruct (list_for_each_inv heap unlock_body (fun dn tn st => exists d todo,
      dn = TWait <$> d /\ tn = TWait <$> todo /\ unlock_inv d todo st)
    (MutexWait m) (TWait <$> l) (S (size s0.(heap))) s0) as (s' & E & d & todo & E1 & E2 & H).
  - by apply (is_list_nodup _ _ _ Hi).
  - by apply (is_list_size _ _ _ Hi).
  - by exists [], l.
  - intros dn x tn st (d & todo & -> & E2 & H). destruct todo as [|t todo]; [done|].
    injection E2 as -> ->. destruct (unlock_body_inv d t todo st H) as (st' & Eb & En & H').
    exists st'. split; [done|]. split; [done|]. exists (d ++ [t]), todo.
    split; [by rewrite fmap_app|done].
  - exists s'. split; [by apply is_list_first|]. split; [done|].
    apply eq_sym, fmap_nil_inv in E2 as ->.
    pose proof H as (El & _). rewrite app_nil_r in El. by subst d.
Qed.
End unlock.

(** ** Specifications *)

Lemma only_running_wake_all cur l a : only_running cur a -> only_running cur (wake_all l a).
Proof.
  unfold wake_all. revert a. induction l as [|t l IH]; intros a Ho; [done|]. simpl. apply IH.
  unfold wake. destruct (a.(a_tasks) !! t) as [k|]; [|done]. case_decide; [|done].
  apply only_running_set; [done|]. by apply only_running_keeps; [keep|].
Qed.

(** Splitting an owner's list at the mutex. *)
Lemma held_split s w h m t :
  mwf s w h -> m ∈ h t -> exists l1 l2, h t = l1 ++ m :: l2 /\ without m (h t) = l1 ++ l2.
Proof.
  intros Hm Hin. destruct (mw_dom _ _ _ Hm m t Hin) as [_ Ht].
  destruct (list_elem_of_split _ _ Hin) as (l1 & l2 & E). exists l1, l2. split; [done|].
  rewrite E. apply without_middle. rewrite <- E.
  apply (NoDup_fmap_1 MutexTask). by apply (is_list_nodup _ _ _ (mw_held _ _ _ Hm t Ht)).
Qed.

(** The end of [mutex_unlock], after the loop: the mutex leaves its owner's list. *)
Lemma unlink_owner s w h m t l1 l2 :
  mwf s w h -> h t = l1 ++ m :: l2 -> is_Some (s.(tasks) !! t) ->
  forall s2, (forall k, ~ unlock_touches m (w m) k -> s2.(heap) !! k = s.(heap) !! k) ->
  exists e h', is_list_empty s2.(heap) (MutexTask m) = Some e /\
    (if negb e then h ← list_del (MutexTask m) s2.(heap); Some (with_heap h s2) else Some s2)
      = Some (with_heap h' s2) /\
    is_list h' (TMutexGet t) (MutexTask <$> l1 ++ l2) /\ dom h' = dom s2.(heap) /\
    forall k, k ∉ TMutexGet t :: (MutexTask <$> l1 ++ l2) -> h' !! k = s2.(heap) !! k.
Proof.
  intros Hm E Ht s2 Hf.
  assert (Hi : is_list s2.(heap) (TMutexGet t) ((MutexTask <$> l1) ++ MutexTask m :: (MutexTask <$> l2))).
  { pose proof (mw_held _ _ _ Hm t Ht) as Hi. rewrite E, fmap_app in Hi.
    apply (is_list_frame s.(heap)); [|done]. intros k Hk. apply Hf.
    intros [Hq|Hq]; rewrite <- fmap_cons, <- fmap_app in Hk;
      apply elem_of_cons in Hk as [->|(x & -> & _)%list_elem_of_fmap]; try done;
      apply elem_of_cons in Hq as [|(y & Ey & _)%list_elem_of_fmap]; done. }
  unfold is_list_empty. rewrite (is_list_next _ _ _ _ _ Hi). simpl.
  rewrite bool_decide_false.
  - destruct (list_del_spec _ _ _ _ _ Hi) as (h' & E' & Hl & Hd & Hfr). simpl.
    exists false, h'. simpl. rewrite E', fmap_app. done.
  - apply is_list_nodup in Hi as [Hnd _]. apply NoDup_app in Hnd as (_ & _ & Hnd).
    apply NoDup_cons in Hnd as [Hn _]. destruct l2 as [|x l2]; [done|]. simpl in *.
    intros [= ->]. set_solver.
Qed.

Lemma mset_sub x l f y z : (forall z, z ∈ l -> z ∈ f x) -> z ∈ mset x l f y -> z ∈ f y.
Proof.
  intros Hl Hz. unfold mset in Hz. destruct (decide (y = x)) as [->|]; [by apply Hl|done].
Qed.

Lemma mwf_unlock s s' w h m t :
  mwf s w h -> m ∈ h t -> NoDup (h t) ->
  is_list s'.(heap) (MutexWait m) [] ->
  is_list s'.(heap) (TMutexGet t) (MutexTask <$> without m (h t)) ->
  (forall k, k <> MutexWait m -> mutex_node k = true -> (forall x, k = TWait x -> x ∉ w m) ->
     k ∉ TMutexGet t :: (MutexTask <$> h t) -> s'.(heap) !! k = s.(heap) !! k) ->
  dom s'.(heap) = dom s.(heap) -> s'.(mutex_count) = <[m := 0]> s.(mutex_count) ->
  (forall x, is_Some (s'.(tasks) !! x) <-> is_Some (s.(tasks) !! x)) ->
  mwf s' (mset m [] w) (mset t (without m (h t)) h).
Proof.
  intros Hm Hin Hnd Hw Hh Hk Hd Hc Hts. pose proof Hm as [H1 H2 H3 H4 H5 H6 H7 H8 H9 H10].
  assert (Hsub : forall y z, z ∈ mset t (without m (h t)) h y -> z ∈ h y /\ z <> m).
  { intros y z. unfold mset. destruct (decide (y = t)) as [->|Hne].
    - rewrite elem_of_without. tauto.
    - intros Hz. split; [done|]. intros ->. by apply Hne, (H5 m). }
  assert (Hwsub : forall y z, z ∈ mset m [] w y -> z ∈ w y /\ y <> m).
  { intros y z. unfold mset. case_decide; [by intros ?%elem_of_nil|done]. }
  assert (Hmc : forall x, is_Some (s'.(mutex_count) !! x) <-> is_Some (s.(mutex_count) !! x)).
  { intros x. rewrite Hc. rewrite lookup_insert_is_Some'. split; [|tauto].
    intros [<-|]; [apply (H7 m t Hin)|done]. }
  assert (Hal : forall k, is_Some (s.(heap) !! k) -> is_Some (s'.(heap) !! k)).
  { intros k. by rewrite <- !elem_of_dom, Hd. }
  constructor.
  - intros m' Hm'. destruct (decide (m' = m)) as [->|Hne]; [by rewrite mset_eq|].
    rewrite mset_ne by done. apply (is_list_frame s.(heap)); [|by apply H1, Hmc].
    intros k [->|(x & -> & Hx)%list_elem_of_fmap]%elem_of_cons; apply Hk; try done; try congruence.
    + intros [?|(y & ? & _)%list_elem_of_fmap]%elem_of_cons; done.
    + intros y [= <-] Hy. by apply Hne, (H6 m' m x).
    + intros [?|(y & ? & _)%list_elem_of_fmap]%elem_of_cons; done.
  - intros t' Ht'. destruct (decide (t' = t)) as [->|Hne]; [by rewrite mset_eq|].
    rewrite mset_ne by done. apply (is_list_frame s.(heap)); [|by apply H2, Hts].
    intros k [->|(x & -> & Hx)%list_elem_of_fmap]%elem_of_cons; apply Hk; try done.
    + intros [[= ?]|(y & ? & _)%list_elem_of_fmap]%elem_of_cons; done.
    + intros [?|(y & [= <-] & Hy)%list_elem_of_fmap]%elem_of_cons; [done|].
      by apply Hne, (H5 x).
  - intros m' Hm' t' Hin'. apply Hsub in Hin' as [Hin' Hne].
    rewrite Hc, lookup_insert_ne in Hm' by done. by apply (H3 m' Hm' t').
  - intros m' c. rewrite Hc. destruct (decide (m' = m)) as [->|Hne].
    + rewrite lookup_insert_eq. intros [= <-]. by left.
    + rewrite lookup_insert_ne by done. apply H4.
  - intros m' t1 t2 [A1 _]%Hsub [A2 _]%Hsub. by apply (H5 m').
  - intros m1 m2 x [A1 _]%Hwsub [A2 _]%Hwsub. by apply (H6 m1 m2 x).
  - intros m' t' [A _]%Hsub. rewrite Hmc, Hts. by apply H7.
  - intros m' t' [A _]%Hwsub. rewrite Hmc, Hts. by apply (H8 m' t').
  - intros t' Ht'. by apply Hal, H9, Hts.
  - intros m' Hm'. by apply Hal, H10, Hmc.
Qed.

Lemma mutex_unlock_sim s a w h m t :
  good s a -> mwf s w h -> s.(mutex_count) !! m = Some 1 -> m ∈ h t ->
  exists s', mutex_unlock m s = Some s' /\ good s' (wake_all (w m) a) /\
    mwf s' (mset m [] w) (mset t (without m (h t)) h) /\
    s'.(mutex_count) = <[m := 0]> s.(mutex_count) /\ s'.(cpsr_c) = s.(cpsr_c) /\
    s'.(current) = s.(current).
Proof.
  intros Hg Hm Hc Hin. pose proof Hg as [Hr Hcur Hn Hi Hrn Ho]. pose proof Hr as [_ Ets].
  destruct (mw_dom _ _ _ Hm m t Hin) as [_ Ht].
  unfold mutex_unlock, mutex_val, enter_critical. rewrite Hc.
  cbn [mbind option_bind truth negb Z.eqb].
  set (s1 := set_mutex_val m 0 (with_cpsr_c (s.(cpsr_c) |u 0xc0) s)).
  assert (Hr1 : refines s1 a) by ctl Hr.
  destruct (unlock_loop_inv m (w m) s1 a) as (n & s2 & En & E2 & H2).
  { intros x Hx. rewrite <- Ets. by apply (mw_wdom _ _ _ Hm m). }
  { split; [done|]. split; [done|]. split; [by apply (mw_wait _ _ _ Hm); exists 1|]. done. }
  rewrite En. cbn [mbind option_bind]. rewrite E2. cbn [mbind option_bind].
  destruct H2 as (_ & Hr2 & Hw2 & Hm2 & Hc2 & Hcur2 & Hn2 & Hi2 & Hrn2 & Hd2 & Hf2).
  destruct (held_split s w h m t Hm Hin) as (l1 & l2 & Eh & Ew).
  destruct (unlink_owner s w h m t l1 l2 Hm Eh Ht s2 Hf2) as (e & h' & Ee & E' & Hl' & Hd' & Hf').
  rewrite Ee. cbn [mbind option_bind]. rewrite E'. cbn [mbind option_bind].
  eexists. split; [done|].
  assert (Hr3 : refines (with_heap h' s2) (wake_all (w m) a)).
  { apply refines_heap; [done|done|]. intros k Hk. apply Hf'.
    intros [->|(x & -> & _)%list_elem_of_fmap]%elem_of_cons; done. }
  simpl in *. split; [|split; [|done]].
  - constructor; simpl; try congruence.
    + ctl Hr3.
    + rewrite Hcur2. by apply wake_all_dom.
    + rewrite Hcur2. by apply only_running_wake_all.
  - assert (Hts : forall x, is_Some (s2.(tasks) !! x) <-> is_Some (s.(tasks) !! x)).
    { intros x. rewrite (proj2 Hr2), Ets. apply wake_all_dom. }
    rewrite <- Ew in *. apply (mwf_unlock s _ w h m t Hm Hin); simpl; try done.
    + apply (NoDup_fmap_1 MutexTask). by apply (is_list_nodup _ _ _ (mw_held _ _ _ Hm t Ht)).
    + apply (is_list_frame s2.(heap)); [|done]. intros k Hk. apply Hf'.
      apply elem_of_cons in Hk as [->|?%elem_of_nil]; [|done].
      intros [?|(y & ? & _)%list_elem_of_fmap]%elem_of_cons; done.
    + intros k H1 H2 H3 H4. rewrite Hf'; [apply Hf2|].
      * intros [Hq|[->|(x & -> & Hx)%list_elem_of_fmap]%elem_of_cons]; try done.
        -- apply mutex_not_queue in H2. congruence.
        -- by apply (H3 x).
      * intros Hk. apply H4. rewrite Ew in Hk. rewrite Eh.
        rewrite !fmap_app in *. set_solver.
    + congruence.
Qed.

(** ** Locking *)

Lemma mwf_lock s s' w h m t :
  mwf s w h -> s.(mutex_count) !! m = Some 0 -> is_Some (s.(tasks) !! t) ->
  is_list s'.(heap) (TMutexGet t) (MutexTask <$> h t ++ [m]) ->
  (forall k, k ∉ MutexTask m :: TMutexGet t :: (MutexTask <$> h t) -> s'.(heap) !! k = s.(heap) !! k) ->
  dom s'.(heap) = dom s.(heap) -> s'.(mutex_count) = <[m := 1]> s.(mutex_count) ->
  (forall x, is_Some (s'.(tasks) !! x) <-> is_Some (s.(tasks) !! x)) ->
  mwf s' w (mset t (h t ++ [m]) h).
Proof.
  intros Hm H0 Ht Hl Hk Hd Hc Hts. pose proof Hm as [H1 H2 H3 H4 H5 H6 H7 H8 H9 H10].
  assert (Hsub : forall y z, z ∈ mset t (h t ++ [m]) h y -> z ∈ h y \/ (z = m /\ y = t)).
  { intros y z. unfold mset. destruct (decide (y = t)) as [->|Hne]; [|by left].
    intros [?|?%list_elem_of_singleton]%elem_of_app; [by left|by right]. }
  assert (Hmc : forall x, is_Some (s'.(mutex_count) !! x) <-> is_Some (s.(mutex_count) !! x)).
  { intros x. rewrite Hc, lookup_insert_is_Some'. split; [|tauto].
    intros [<-|]; [by exists 0|done]. }
  assert (Hal : forall k, is_Some (s.(heap) !! k) -> is_Some (s'.(heap) !! k)).
  { intros k. by rewrite <- !elem_of_dom, Hd. }
  constructor.
  - intros m' Hm'. apply (is_list_frame s.(heap)); [|by apply H1, Hmc].
    intros k [->|(x & -> & Hx)%list_elem_of_fmap]%elem_of_cons; apply Hk; set_solver.
  - intros t' Ht'. destruct (decide (t' = t)) as [->|Hne]; [by rewrite mset_eq|].
    rewrite mset_ne by done. apply (is_list_frame s.(heap)); [|by apply H2, Hts].
    intros k [->|(x & -> & Hx)%list_elem_of_fmap]%elem_of_cons; apply Hk.
    + rewrite !elem_of_cons, list_elem_of_fmap. naive_solver.
    + assert (Hxm : x <> m) by (intros ->; by apply (H3 m H0 t')).
      assert (Hxt : x ∉ h t) by (intros Hx'; by apply Hne, (H5 x)).
      rewrite !elem_of_cons, list_elem_of_fmap. naive_solver.
  - intros m' Hm' t' [Hin'|[-> ->]]%Hsub.
    + rewrite Hc in Hm'. destruct (decide (m' = m)) as [->|Hne]; [by rewrite lookup_insert_eq in Hm'|].
      rewrite lookup_insert_ne in Hm' by done. by apply (H3 m' Hm' t').
    + rewrite Hc, lookup_insert_eq in Hm'. done.
  - intros m' c. rewrite Hc. destruct (decide (m' = m)) as [->|Hne].
    + rewrite lookup_insert_eq. intros [= <-]. by right.
    + rewrite lookup_insert_ne by done. apply H4.
  - intros m' t1 t2 [A1|[-> ->]]%Hsub [A2|[? ->]]%Hsub; [by apply (H5 m')|..|done]; subst.
    + by apply H3 in A1.
    + by apply H3 in A2.
  - done.
  - intros m' t' [A|[-> ->]]%Hsub; rewrite Hmc, Hts; [by apply H7|]. split; [by exists 0|done].
  - intros m' t' A. rewrite Hmc, Hts. by apply (H8 m' t').
  - intros t' Ht'. by apply Hal, H9, Hts.
  - intros m' Hm'. by apply Hal, H10, Hmc.
Qed.

Lemma mutex_lock_free_sim s a w h m ms :
  good s a -> mwf s w h -> s.(mutex_count) !! m = Some 0 ->
  exists s', mutex_lock_timeout m ms s = Some (Returned 0, s') /\ good s' a /\
    mwf s' w (mset s.(current) (h s.(current) ++ [m]) h) /\
    s'.(mutex_count) = <[m := 1]> s.(mutex_count) /\ s'.(cpsr_c) = s.(cpsr_c) /\
    s'.(current) = s.(current).
Proof.
  intros Hg Hm Hc. pose proof Hg as [Hr Hcur Hn Hi Hrn Ho]. pose proof Hr as [Hwf Ets].
  rewrite <- Ets in Hcur. pose proof (wf_addr _ _ Hwf _ Hcur) as Hadr.
  assert (Ht : truth s.(current) = true).
  { unfold truth. destruct (Z.eqb_spec s.(current) 0); [lia|done]. }
  unfold mutex_lock_timeout, lock_iter, enter_critical, mutex_val. simpl. rewrite Hc. simpl. rewrite Ht.
  assert (Hfresh : MutexTask m ∉ TMutexGet s.(current) :: (MutexTask <$> h s.(current))).
  { rewrite elem_of_cons, list_elem_of_fmap. intros [?|(x & [= <-] & Hx)]; [done|].
    by apply (mw_free _ _ _ Hm m Hc) in Hx. }
  destruct (list_add_tail_spec s.(heap) _ _ (MutexTask m) (mw_held _ _ _ Hm _ Hcur) Hfresh)
    as (h' & E & Hl & Hd & Hf); [apply (mw_alloc_m _ _ _ Hm); by exists 0|].
  rewrite E. simpl. eexists. split; [done|]. split; [|split; [|done]].
  - constructor; simpl; try done; [|by rewrite <- Ets].
    assert (Hr' : refines (with_heap h' s) a).
    { apply refines_heap; [done|done|]. intros k Hk. apply Hf.
      rewrite !elem_of_cons, list_elem_of_fmap. intros [->|[->|(x & -> & _)]]; done. }
    ctl Hr'.
  - apply (mwf_lock s); simpl; try done. by rewrite fmap_app.
Qed.

Lemma mwf_wait s s' w h m t :
  mwf s w h -> is_Some (s.(mutex_count) !! m) -> is_Some (s.(tasks) !! t) -> (forall m', t ∉ w m') ->
  is_list s'.(heap) (MutexWait m) (TWait <$> w m ++ [t]) ->
  (forall k, mutex_node k = true -> k ∉ TWait t :: MutexWait m :: (TWait <$> w m) ->
     s'.(heap) !! k = s.(heap) !! k) ->
  (forall k, mutex_node k = true -> is_Some (s.(heap) !! k) -> is_Some (s'.(heap) !! k)) ->
  s'.(mutex_count) = s.(mutex_count) ->
  (forall x, is_Some (s'.(tasks) !! x) <-> is_Some (s.(tasks) !! x)) ->
  mwf s' (mset m (w m ++ [t]) w) h.
Proof.
  intros Hm Hmm Ht Hnw Hl Hk Hal Hc Hts. pose proof Hm as [H1 H2 H3 H4 H5 H6 H7 H8 H9 H10].
  assert (Hsub : forall y z, z ∈ mset m (w m ++ [t]) w y -> z ∈ w y \/ (z = t /\ y = m)).
  { intros y z. unfold mset. destruct (decide (y = m)) as [->|Hne]; [|by left].
    intros [?|?%list_elem_of_singleton]%elem_of_app; [by left|by right]. }
  constructor; rewrite ?Hc; try done.
  - intros m' Hm'. destruct (decide (m' = m)) as [->|Hne]; [by rewrite mset_eq|].
    rewrite mset_ne by done. apply (is_list_frame s.(heap)); [|by apply H1].
    intros k [->|(x & -> & Hx)%list_elem_of_fmap]%elem_of_cons; apply Hk; try done.
    + rewrite !elem_of_cons, list_elem_of_fmap. naive_solver.
    + assert (Hxt : x <> t) by (intros ->; by apply (Hnw m')).
      assert (Hxm : x ∉ w m) by (intros Hx'; by apply Hne, (H6 m' m x)).
      rewrite !elem_of_cons, list_elem_of_fmap. naive_solver.
  - intros t' Ht'. apply (is_list_frame s.(heap)); [|by apply H2, Hts].
    intros k [->|(x & -> & Hx)%list_elem_of_fmap]%elem_of_cons; apply Hk; try done;
      rewrite !elem_of_cons, list_elem_of_fmap; naive_solver.
  - intros m1 m2 x [A1|[-> ->]]%Hsub [A2|[? ->]]%Hsub; [by apply (H6 m1 m2 x)|..|done]; subst.
    + by apply Hnw in A1.
    + by apply Hnw in A2.
  - intros m' t' A. rewrite Hts. by apply H7.
  - intros m' t' [A|[-> ->]]%Hsub; rewrite Hts; [by apply (H8 m' t')|done].
  - intros t' Ht'. apply Hal; [done|]. by apply H9, Hts.
  - intros m' Hm'. apply Hal; [done|]. by apply H10.
Qed.

Lemma mutex_lock_block_sim s a w h m ms tk :
  good s a -> mwf s w h -> s.(mutex_count) !! m = Some 1 -> ms <> 0 ->
  s.(tasks) !! s.(current) = Some tk -> tk.(state) = PROCESS_STATE_RUNNING ->
  (forall m', s.(current) ∉ w m') ->
  exists o s' a' tk', mutex_lock_timeout m ms s = Some (Blocked (inr o), s') /\ good s' a' /\
    mwf s' (mset m (w m ++ [s.(current)]) w) h /\ s'.(mutex_count) = s.(mutex_count) /\
    s'.(current) = next_task a.(a_view) s.(current) /\
    s'.(tasks) !! s.(current) = Some tk' /\ tk'.(state) = PROCESS_STATE_SLEEP /\
    tk'.(wait_time) = ms /\
    (forall n, hd_error (ready_order a.(a_view)) = Some n ->
       n <> s.(current) /\ s'.(current) = n /\
       exists nk, s'.(tasks) !! n = Some nk /\ nk.(state) = PROCESS_STATE_RUNNING).
Proof.
  intros Hg Hm Hc Hms Ht Hs Hnw. pose proof Hg as [Hr Hcur Hn Hi Hrn Ho]. pose proof Hr as [Hwf Ets].
  unfold mutex_lock_timeout, lock_iter, enter_critical, mutex_val. simpl. rewrite Hc. simpl.
  assert (Hfresh : TWait s.(current) ∉ MutexWait m :: (TWait <$> w m)).
  { rewrite elem_of_cons, list_elem_of_fmap. intros [?|(x & [= <-] & Hx)]; [done|].
    by apply Hnw in Hx. }
  destruct (list_add_tail_spec s.(heap) _ _ (TWait s.(current)) (mw_wait _ _ _ Hm m ltac:(by exists 1)) Hfresh)
    as (h' & E & Hl & Hd & Hf); [apply (mw_alloc_w _ _ _ Hm); by exists tk|].
  rewrite E. simpl. set (s1 := with_heap h' _).
  assert (Hr1 : refines s1 a).
  { assert (Hr' : refines (with_heap h' s) a).
    { apply refines_heap; [done|done|]. intros k Hk. apply Hf.
      rewrite !elem_of_cons, list_elem_of_fmap. intros [->|[->|(x & -> & _)]]; done. }
    ctl Hr'. }
  assert (Hg1 : good s1 a) by (by constructor).
  destruct (suspend_current s1 a tk ms Hg1 Ht Hs Hms)
    as (o & s' & a' & tk' & E1 & Hg' & Hc' & Ht' & Hs' & Hw' & _ & Hm' & Hf' & Hts' & Hnx).
  change (current s1) with s.(current) in *. rewrite E1. simpl.
  exists o, s', a', tk'. split; [done|]. split; [done|]. split; [|done].
  assert (Hq : forall k, mutex_node k = true -> s'.(heap) !! k = h' !! k).
  { intros k Hk. apply Hf'. by apply mutex_not_queue. }
  apply (mwf_wait s); try done; try (by exists 1); try (by exists tk).
  - apply (is_list_frame h'); [|by rewrite fmap_app]. intros k Hk. apply Hq.
    by apply (mutex_list_nodes (MutexWait m) TWait (w m ++ [s.(current)])).
  - intros k Hk Hnin. rewrite Hq by done. by apply Hf.
  - intros k Hk Hin. rewrite Hq by done. by rewrite <- elem_of_dom, Hd, elem_of_dom.
Qed.
