(* ===== verification/MutexThms.v ===== *)
(** * Mutexes: properties

    Mutual exclusion, the wait queue and the hand-over of [kernel/mutex.c], on the
    invariant [mwf] of [Mutex]. *)

From S2P Require Import Prelude ListHead TaskStruct Sched SchedInv SchedSpec SchedBoot SchedApi.
From S2P Require Import Mutex.

(** ** Creating mutexes *)

Lemma mwf_empty s :
  s.(mutex_count) = ∅ ->
  (forall t, is_Some (s.(tasks) !! t) ->
     linked_self s.(heap) (TMutexGet t) /\ is_Some (s.(heap) !! TWait t)) ->
  mwf s (fun _ => []) (fun _ => []).
Proof.
  intros Hc Ht.
  assert (Hn : forall m c, s.(mutex_count) !! m <> Some c) by (intros m c; by rewrite Hc, lookup_empty).
  constructor; try (by intros ? ? ?%elem_of_nil); try (by intros ? ? ? ?%elem_of_nil).
  - intros m [c E]. by apply Hn in E.
  - intros t Hin. apply linked_self_empty. by apply Ht.
  - intros m c E. by apply Hn in E.
  - intros t Hin. by apply Ht.
  - intros m [c E]. by apply Hn in E.
Qed.

Lemma mwf_init_mutex s w h m :
  mwf s w h -> s.(mutex_count) !! m = None -> w m = [] -> mwf (init_mutex m s) w h.
Proof.
  intros Hm Hn Hw. pose proof Hm as [H1 H2 H3 H4 H5 H6 H7 H8 H9 H10].
  assert (Hmc : forall x, is_Some (<[m := 0]> s.(mutex_count) !! x) -> x = m \/ is_Some (s.(mutex_count) !! x)).
  { intros x. rewrite lookup_insert_is_Some'. intros [->|]; [by left|by right]. }
  assert (Hk : forall k, k <> MutexTask m -> k <> MutexWait m ->
    (init_mutex m s).(heap) !! k = s.(heap) !! k).
  { intros k A B. simpl. unfold init_list. by rewrite !lookup_insert_ne. }
  constructor; simpl; try done.
  - intros x [->|Hx]%Hmc.
    + rewrite Hw. apply linked_self_empty, linked_self_init. left. apply linked_self_init. by right.
    + destruct (decide (x = m)) as [->|Hne]; [by rewrite Hn in Hx; destruct Hx|].
      apply (is_list_frame s.(heap)); [|by apply H1].
      intros k [->|(y & -> & _)%list_elem_of_fmap]%elem_of_cons; apply Hk; congruence.
  - intros t Ht. apply (is_list_frame s.(heap)); [|by apply H2].
    intros k [->|(y & -> & Hy)%list_elem_of_fmap]%elem_of_cons; apply Hk; try done.
    intros [= ->]. destruct (H7 m t Hy) as [[? ?] _]. congruence.
  - intros x Hx t Hin. destruct (H7 x t Hin) as [[? ?] _].
    destruct (decide (x = m)) as [->|Hne]; [congruence|].
    rewrite lookup_insert_ne in Hx by done. by apply (H3 x Hx t).
  - intros x c. destruct (decide (x = m)) as [->|Hne].
    + rewrite lookup_insert_eq. intros [= <-]. by left.
    + rewrite lookup_insert_ne by done. apply H4.
  - intros x t Hin. rewrite lookup_insert_is_Some'. destruct (H7 x t Hin). tauto.
  - intros x t Hin. rewrite lookup_insert_is_Some'. destruct (H8 x t Hin). tauto.
  - intros t Ht. unfold init_list. rewrite !lookup_insert_ne by done. by apply H9.
  - intros x Hx. unfold init_list. destruct (decide (x = m)) as [->|Hne].
    + rewrite lookup_insert_eq. by eexists.
    + rewrite !lookup_insert_ne by congruence. apply H10. by destruct (Hmc x Hx).
Qed.

Lemma good_init_mutex s a m : good s a -> good (init_mutex m s) a.
Proof.
  intros [Hr Hc Hn Hi Hrn Ho]. constructor; try done.
  destruct Hr as [[[L1 L2 L3 L4] Hh Hp Hd Hu Ha Hadr] Ets]. split; [|done].
  assert (Hk : forall k, queue_node k = true -> (init_mutex m s).(heap) !! k = s.(heap) !! k).
  { intros k Hk. simpl. unfold init_list. rewrite !lookup_insert_ne; [done|..]; intros E; by rewrite <- E in Hk. }
  constructor; try done.
  - constructor; try done. intros q Hq.
    apply (is_list_frame s.(heap)); [|by apply L1].
    intros k [->|(x & -> & _)%list_elem_of_fmap]%elem_of_cons; apply Hk;
      [apply q_head_queue|apply q_node_queue].
  - intros t q Ht. rewrite Hk by apply q_node_queue. by apply Ha.
Qed.

(** [demo_ready] with a free mutex at 100 and a locked one, taken during boot, at
    200. *)
Definition demo_mutex : sched_state :=
  set_mutex_val 200 1 (init_mutex 200 (init_mutex 100 demo_ready)).

Definition mutex_nodes_ok (s : sched_state) : bool :=
  bool_decide (s.(mutex_count) = ∅) &&
  forallb (fun p : Z * task_struct =>
    bool_decide (s.(heap) !! TMutexGet (fst p) = Some (ListHead (TMutexGet (fst p)) (TMutexGet (fst p)))) &&
    bool_decide (is_Some (s.(heap) !! TWait (fst p)))) (map_to_list s.(tasks)).

Lemma mutex_nodes_mwf s : mutex_nodes_ok s = true -> mwf s (fun _ => []) (fun _ => []).
Proof.
  unfold mutex_nodes_ok. rewrite andb_true_iff, bool_decide_eq_true, forallb_forall.
  intros [Hc Hf]. apply mwf_empty; [done|]. intros t [k Hk].
  specialize (Hf (t, k)). rewrite andb_true_iff, !bool_decide_eq_true in Hf.
  apply Hf. apply list_elem_of_In. by apply elem_of_map_to_list.
Qed.

Lemma demo_mutex_facts : exists a c, good demo_mutex a /\
  mwf demo_mutex (fun _ => []) (fun _ => []) /\
  demo_mutex.(mutex_count) !! 100 = Some 0 /\ demo_mutex.(mutex_count) !! 200 = Some 1 /\
  demo_mutex.(current) = 12288 /\ demo_mutex.(tasks) !! 12288 = Some c /\
  c.(state) = PROCESS_STATE_RUNNING.
Proof.
  pose proof demo_ready_facts as (a & c & Hg & Hc & Hcs & Hcur & _).
  assert (Hn : mutex_nodes_ok demo_ready = true) by (vm_compute; reflexivity).
  assert (He : bool_decide (demo_ready.(mutex_count) = ∅) = true) by (vm_compute; reflexivity).
  apply mutex_nodes_mwf in Hn. apply bool_decide_eq_true in He. unfold demo_mutex.
  revert Hg Hc Hcs Hcur Hn He. generalize demo_ready. intros s Hg Hc Hcs Hcur Hn He.
  exists a, c.
  assert (Hg1 : good (init_mutex 200 (init_mutex 100 s)) a) by (by do 2 apply good_init_mutex).
  assert (Hm1 : mwf (init_mutex 200 (init_mutex 100 s)) (fun _ => []) (fun _ => [])).
  { apply mwf_init_mutex; [apply mwf_init_mutex; [done|by rewrite He|done]| |done].
    simpl. by rewrite lookup_insert_ne, He. }
  split; [destruct Hg1 as [Hr ?????]; constructor; try done; ctl Hr|].
  split.
  { destruct Hm1 as [H1 H2 H3 H4 H5 H6 H7 H8 H9 H10].
    assert (Hi : forall x, is_Some (<[200 := 1]> (init_mutex 200 (init_mutex 100 s)).(mutex_count) !! x) <->
      is_Some ((init_mutex 200 (init_mutex 100 s)).(mutex_count) !! x)).
    { intros x. rewrite lookup_insert_is_Some'. simpl. rewrite !lookup_insert_is_Some'. tauto. }
    constructor; simpl in *; try done; try (by intros ? ? ?%elem_of_nil);
      try (by intros ? ? ? ?%elem_of_nil).
    - intros m Hm. by apply H1, Hi.
    - intros m c'. destruct (decide (m = 200)) as [->|Hne].
      + rewrite lookup_insert_eq. intros [= <-]. by right.
      + rewrite lookup_insert_ne by done. apply H4.
    - intros m Hm. by apply H10, Hi. }
  split; [simpl; by rewrite !lookup_insert_ne, lookup_insert_eq by done|].
  split; [simpl; by rewrite lookup_insert_eq|done].
Qed.

Ltac use_demo_mutex :=
  let F := fresh in pose proof demo_mutex_facts as F; revert F; generalize demo_mutex;
  let s := fresh "s" in intros s (a & c & Hg & Hm & H100 & H200 & Hcur & Hc & Hcs).

(** ** Properties *)

(** C12. [mutex_lock_timeout] on a free mutex takes it at once: the count becomes 1,
    the mutex joins the list of the mutexes its caller holds and of no other task,
    the scheduler and the interrupt mask are as before.  On a mutex that is held
    the running caller joins the tail of its wait queue and goes to sleep for the
    given time; the mutex stays with its holder.  If a task is ready at a priority
    below 63 the processor goes to the first one of the best priority, which is
    not the caller and now runs; if there is none, not even the ready idle task
    (at 63) is taken, and the sleeping caller stays the current task.
    The invariant (one holder per mutex, none while the count is 0, one wait queue
    per task) is kept in both cases. *)
Theorem mutex_lock_timeout_spec (s : sched_state) (a : astate) (w h : mview) (m ms : Z)
    (tk : task_struct)
    (Hg : good s a) (Hm : mwf s w h) (Hms : ms <> 0)
    (Ht : s.(tasks) !! s.(current) = Some tk) (Hs : tk.(state) = PROCESS_STATE_RUNNING)
    (Hnw : forall m', s.(current) ∉ w m') :
  (s.(mutex_count) !! m = Some 0 ->
   exists s', mutex_lock_timeout m ms s = Some (Returned 0, s') /\ good s' a /\
     mwf s' w (mset s.(current) (h s.(current) ++ [m]) h) /\
     s'.(mutex_count) = <[m := 1]> s.(mutex_count) /\ s'.(cpsr_c) = s.(cpsr_c)) /\
  (s.(mutex_count) !! m = Some 1 ->
   exists o s' a' tk', mutex_lock_timeout m ms s = Some (Blocked (inr o), s') /\ good s' a' /\
     mwf s' (mset m (w m ++ [s.(current)]) w) h /\ s'.(mutex_count) = s.(mutex_count) /\
     s'.(tasks) !! s.(current) = Some tk' /\ tk'.(state) = PROCESS_STATE_SLEEP /\
     tk'.(wait_time) = ms /\
     match hd_error (ready_order a.(a_view)) with
     | Some n => n <> s.(current) /\ s'.(current) = n /\
         exists nk, s'.(tasks) !! n = Some nk /\ nk.(state) = PROCESS_STATE_RUNNING
     | None => s'.(current) = s.(current)
     end).
Proof.
  split; intros Hc.
  - destruct (mutex_lock_free_sim s a w h m ms Hg Hm Hc) as (s' & E & H1 & H2 & H3 & H4 & _).
    by exists s'.
  - destruct (mutex_lock_block_sim s a w h m ms tk Hg Hm Hc Hms Ht Hs Hnw)
      as (o & s' & a' & tk' & E & H1 & H2 & H3 & H4 & H5 & H6 & H7 & Hnx).
    exists o, s', a', tk'. split_and!; try done.
    destruct (hd_error (ready_order a.(a_view))) as [n|] eqn:En; [by apply Hnx|].
    rewrite H4. unfold next_task. by rewrite En.
Qed.

Lemma mutex_lock_timeout_spec_witness :
  (exists s', mutex_lock_timeout 100 5 demo_mutex = Some (Returned 0, s')) /\
  (exists o s', mutex_lock_timeout 200 5 demo_mutex = Some (Blocked (inr o), s')).
Proof.
  use_demo_mutex. rewrite <- Hcur in Hc.
  destruct (mutex_lock_timeout_spec s a _ _ 100 5 c Hg Hm ltac:(done) Hc Hcs) as [H1 _];
    [by intros ? ?%elem_of_nil|].
  destruct (mutex_lock_timeout_spec s a _ _ 200 5 c Hg Hm ltac:(done) Hc Hcs) as [_ H2];
    [by intros ? ?%elem_of_nil|].
  destruct (H1 H100) as (s1 & E1 & _). destruct (H2 H200) as (o & s2 & _ & _ & E2 & _).
  split; [by exists s1|by exists o, s2].
Defined.

Lemma wake_awake a t x k :
  a.(a_tasks) !! x = Some k ->
  exists k', (wake a t).(a_tasks) !! x = Some k' /\
    (x = t \/ k.(state) <> PROCESS_STATE_SLEEP -> k'.(state) <> PROCESS_STATE_SLEEP).
Proof.
  intros Hx. unfold wake. destruct (a.(a_tasks) !! t) as [kt|] eqn:Et.
  - destruct (decide (kt.(state) = PROCESS_STATE_SLEEP)) as [Hs|Hs].
    + destruct (decide (x = t)) as [->|Hne].
      * unfold a_wakeup, a_set_state. simpl. rewrite lookup_alter_eq, Et. simpl. rewrite Hs. simpl.
        rewrite lookup_insert_eq. by eexists.
      * unfold a_wakeup. rewrite set_state_other by done. simpl. rewrite lookup_alter_ne by done.
        exists k. split; [done|]. by intros [?|?].
    + exists k. split; [done|]. intros [->|?]; [congruence|done].
  - exists k. split; [done|]. intros [->|?]; [congruence|done].
Qed.

Lemma wake_all_awake l a x k :
  a.(a_tasks) !! x = Some k ->
  exists k', (wake_all l a).(a_tasks) !! x = Some k' /\
    (x ∈ l \/ k.(state) <> PROCESS_STATE_SLEEP -> k'.(state) <> PROCESS_STATE_SLEEP).
Proof.
  unfold wake_all. revert a k. induction l as [|t l IH]; intros a k Hx; simpl.
  - exists k. split; [done|]. by intros [?%elem_of_nil|?].
  - destruct (wake_awake a t x k Hx) as (k1 & E1 & H1).
    destruct (IH _ _ E1) as (k2 & E2 & H2). exists k2. split; [done|].
    intros Hor. apply H2. rewrite elem_of_cons in Hor. tauto.
Qed.

(** C13. [mutex_unlock] by the holder frees the mutex, empties its wait queue and
    wakes every task that waited, in the order in which they came, although the
    loop unlinks the node it stands on; the mutex leaves the list of its holder,
    the invariant is kept and the interrupt mask is restored.  Unlocking a free
    mutex changes nothing. *)
Theorem mutex_unlock_wakes_all (s : sched_state) (a : astate) (w h : mview) (m t : Z)
    (Hg : good s a) (Hm : mwf s w h) :
  (s.(mutex_count) !! m = Some 0 -> mutex_unlock m s = Some s) /\
  (s.(mutex_count) !! m = Some 1 -> m ∈ h t ->
   exists s', mutex_unlock m s = Some s' /\ good s' (wake_all (w m) a) /\
     mwf s' (mset m [] w) (mset t (without m (h t)) h) /\
     s'.(mutex_count) = <[m := 0]> s.(mutex_count) /\ s'.(cpsr_c) = s.(cpsr_c) /\
     forall x, x ∈ w m -> exists k, s'.(tasks) !! x = Some k /\ k.(state) <> PROCESS_STATE_SLEEP).
Proof.
  split; [intros Hc; unfold mutex_unlock, mutex_val; by rewrite Hc|]. intros Hc Hin.
  destruct (mutex_unlock_sim s a w h m t Hg Hm Hc Hin) as (s' & E & H1 & H2 & H3 & H4 & _).
  exists s'. do 5 (split; [done|]). intros x Hx.
  destruct (mw_wdom _ _ _ Hm m x Hx) as [_ [k Hk]].
  rewrite (proj2 (good_refines _ _ Hg)) in Hk.
  destruct (wake_all_awake (w m) a x k Hk) as (k' & Ek & Hk').
  exists k'. rewrite (proj2 (good_refines _ _ H1)). split; [done|]. apply Hk'. by left.
Qed.

Lemma mutex_unlock_wakes_all_witness :
  exists s', mutex_lock_timeout 100 5 demo_mutex = Some (Returned 0, s') /\
    exists s'', mutex_unlock 100 s' = Some s'' /\ s''.(mutex_count) !! 100 = Some 0.
Proof.
  use_demo_mutex.
  destruct (mutex_lock_free_sim s a _ _ 100 5 Hg Hm H100) as (s' & E & Hg' & Hm' & Ec & _).
  exists s'. split; [done|].
  destruct (mutex_unlock_wakes_all s' a _ _ 100 s.(current) Hg' Hm') as [_ H].
  destruct H as (s2 & E2 & _ & _ & Ec2 & _).
  - by rewrite Ec, lookup_insert_eq.
  - rewrite mset_eq. set_solver.
  - exists s2. split; [done|]. by rewrite Ec2, lookup_insert_eq.
Defined.

(** A waiter whose wait timed out leaves the wait queue and its call returns 0,
    the value of a successful lock, although the mutex is still held by another
    task and the caller holds nothing new. *)
Theorem mutex_lock_timed_out_returns_0 (s : sched_state) (w h : mview) (m t ms flags f : Z)
    (tk : task_struct)
    (Hm : mwf s w h) (Hin : t ∈ w m) (Ht : s.(tasks) !! t = Some tk) (Hto : tk.(time_out) = 1) :
  exists s', mutex_lock_resume m t ms flags (inr (Some f)) s = Some (Returned 0, s') /\
    s'.(mutex_count) = s.(mutex_count) /\ s'.(tasks) = s.(tasks) /\ s'.(cpsr_c) = flags /\
    is_list s'.(heap) (MutexWait m) (TWait <$> without t (w m)) /\
    is_list s'.(heap) (TMutexGet t) (MutexTask <$> h t).
Proof.
  unfold mutex_lock_resume, suspend_resume, sched_resume, get_task. simpl. rewrite Ht. simpl.
  rewrite Hto. simpl. destruct (mw_wdom _ _ _ Hm m t Hin) as [Hmm Htt].
  pose proof (mw_wait _ _ _ Hm m Hmm) as Hl.
  destruct (list_elem_of_split _ _ Hin) as (l1 & l2 & El).
  assert (Hnd : NoDup (w m)).
  { apply (NoDup_fmap_1 TWait). by apply (is_list_nodup _ _ _ Hl). }
  assert (Hi : is_list s.(heap) (MutexWait m) ((TWait <$> l1) ++ TWait t :: (TWait <$> l2))).
  { by rewrite El, fmap_app in Hl. }
  destruct (list_del_spec _ _ _ _ _ Hi) as (h' & E & Hl' & Hd & Hf). rewrite E. simpl.
  eexists. do 4 (split; [done|]). split.
  - simpl. rewrite El, without_middle by (by rewrite <- El). by rewrite fmap_app.
  - simpl. apply (is_list_frame s.(heap)); [|by apply (mw_held _ _ _ Hm)].
    intros k Hk. apply Hf. rewrite <- fmap_app.
    intros [->|(x & -> & _)%list_elem_of_fmap]%elem_of_cons;
      apply elem_of_cons in Hk as [?|(y & ? & _)%list_elem_of_fmap]; done.
Qed.

Lemma mutex_lock_timed_out_witness :
  exists s1 s', mutex_lock_resume 200 12288 5 0x13 (inr (Some 0xd3)) s1 = Some (Returned 0, s') /\
    s1.(mutex_count) !! 200 = Some 1 /\ s'.(mutex_count) !! 200 = Some 1.
Proof.
  use_demo_mutex. rewrite <- Hcur in Hc.
  destruct (mutex_lock_block_sim s a _ _ 200 5 c Hg Hm H200 ltac:(done) Hc Hcs)
    as (o & s1 & a1 & k1 & E1 & Hg1 & Hm1 & Hc1 & _ & Hk1 & _);
    [by intros ? ?%elem_of_nil|].
  destruct (upd_task_sim s1 a1 s.(current) (with_time_out 1) (good_refines _ _ Hg1))
    as (s2 & E2 & Hr2 & He2 & _); [keep|rewrite <- (proj2 (good_refines _ _ Hg1)); by exists k1|].
  exists s2.
  assert (Hm2 : mwf s2 (mset 200 ([] ++ [s.(current)]) (fun _ => [])) (fun _ => [])).
  { apply (mwf_env s1); [done|done|]. intros x.
    rewrite (proj2 Hr2), upd_tasks_dom. by rewrite (proj2 (good_refines _ _ Hg1)). }
  rewrite Hcur in *.
  destruct (mutex_lock_timed_out_returns_0 s2 _ _ 200 12288 5 0x13 0xd3 (with_time_out 1 k1) Hm2)
    as (s' & E' & Em & _).
  - rewrite mset_eq. set_solver.
  - rewrite (proj2 Hr2). simpl. rewrite lookup_alter_eq.
    rewrite <- (proj2 (good_refines _ _ Hg1)). by rewrite Hk1.
  - done.
  - exists s'. split; [done|]. rewrite Em, (se_mutex _ _ He2). simpl. by rewrite Hc1.
Defined.
