(* ===== verification/MmTypes.v ===== *)
(** * Memory management: data

    Models the structures of [include/os/mm.h] and [mm/mm.c].  Every member of
    an unsigned type holds a value of its width; [pv_offset] is a signed word.
    The union of [free_base] and [extra_size] is one field, the [plist] member
    (a union of list heads) is a node of the page heap. *)

From S2P Require Import Prelude ListHead TaskStruct Bitops.

Definition NORMAL_MEM : Z := 0.
Definition DMA_MEM : Z := 1.
Definition RES_MEM : Z := 2.
Definition IO_MEM : Z := 3.
Definition MM_ZONE_MASK : Z := 0x3.
Definition UNKNOW_MEM : Z := 4.
Definition MM_ZONE_NORMAL : Z := NORMAL_MEM.
Definition MM_ZONE_DMA : Z := DMA_MEM.
Definition MM_ZONE_RES : Z := RES_MEM.
Definition MM_ZONE_UNKNOW : Z := 4.

Definition GFP_KERNEL : Z := 0x1.
Definition GFP_DMA : Z := 0x2.
Definition GFP_RES : Z := 0x4.
Definition GFP_ZONE_ID_MASK : Z := 0xf.
Definition F_GFP_PGT : Z := 0x10.
Definition F_GFP_PAGE_HEADER : Z := 0x20.
Definition F_GFP_SLAB : Z := 0x40.
Definition F_GFP_SLAB_HEADER : Z := 0x80.
Definition F_GFP_USER : Z := 0x100.
Definition GFP_USER : Z := Z.lor GFP_KERNEL F_GFP_USER.
Definition GFP_PGT : Z := Z.lor GFP_KERNEL F_GFP_PGT.
Definition GFP_SLAB : Z := Z.lor GFP_KERNEL F_GFP_SLAB.
Definition GFP_SLAB_HEADER : Z := Z.lor F_GFP_SLAB_HEADER GFP_KERNEL.

Definition ZONE_MAX_REGION : Z := 4.

Record mm_section : Type := Mk_section {
  phy_start : Z;
  vir_start : Z;
  sec_size : Z;
  pv_offset : Z;
  maped : Z
}.

Record mm_zone : Type := Mk_zone {
  memory_section : list mm_section;
  nr_section : Z;
  z_total_size : Z;
  z_free_size : Z;
  page_num : Z;
  z_free_pages : Z;
  bm_start : Z;
  bm_end : Z;
  bm_current : Z
}.

Record mm_bank : Type := Mk_bank {
  b_total_size : Z;
  total_page : Z;
  total_section : Z;
  zone : list mm_zone
}.

Record page : Type := Mk_page {
  phy_address : Z;
  pg_flag : Z;
  free_base : Z;
  pg_free_size : Z;
  pg_count : Z;
  pg_usage : Z
}.

(** Assignments to one member. *)
Definition with_phy_start (v : Z) (x : mm_section) : mm_section :=
  Mk_section v x.(vir_start) x.(sec_size) x.(pv_offset) x.(maped).
Definition with_vir_start (v : Z) (x : mm_section) : mm_section :=
  Mk_section x.(phy_start) v x.(sec_size) x.(pv_offset) x.(maped).
Definition with_sec_size (v : Z) (x : mm_section) : mm_section :=
  Mk_section x.(phy_start) x.(vir_start) v x.(pv_offset) x.(maped).
Definition with_pv_offset (v : Z) (x : mm_section) : mm_section :=
  Mk_section x.(phy_start) x.(vir_start) x.(sec_size) v x.(maped).
Definition with_maped (v : Z) (x : mm_section) : mm_section :=
  Mk_section x.(phy_start) x.(vir_start) x.(sec_size) x.(pv_offset) v.
Definition with_memory_section (v : list mm_section) (x : mm_zone) : mm_zone :=
  Mk_zone v x.(nr_section) x.(z_total_size) x.(z_free_size) x.(page_num) x.(z_free_pages)
    x.(bm_start) x.(bm_end) x.(bm_current).
Definition with_nr_section (v : Z) (x : mm_zone) : mm_zone :=
  Mk_zone x.(memory_section) v x.(z_total_size) x.(z_free_size) x.(page_num)
    x.(z_free_pages) x.(bm_start) x.(bm_end) x.(bm_current).
Definition with_z_total_size (v : Z) (x : mm_zone) : mm_zone :=
  Mk_zone x.(memory_section) x.(nr_section) v x.(z_free_size) x.(page_num) x.(z_free_pages)
    x.(bm_start) x.(bm_end) x.(bm_current).
Definition with_z_free_size (v : Z) (x : mm_zone) : mm_zone :=
  Mk_zone x.(memory_section) x.(nr_section) x.(z_total_size) v x.(page_num)
    x.(z_free_pages) x.(bm_start) x.(bm_end) x.(bm_current).
Definition with_page_num (v : Z) (x : mm_zone) : mm_zone :=
  Mk_zone x.(memory_section) x.(nr_section) x.(z_total_size) x.(z_free_size) v
    x.(z_free_pages) x.(bm_start) x.(bm_end) x.(bm_current).
Definition with_z_free_pages (v : Z) (x : mm_zone) : mm_zone :=
  Mk_zone x.(memory_section) x.(nr_section) x.(z_total_size) x.(z_free_size) x.(page_num) v
    x.(bm_start) x.(bm_end) x.(bm_current).
Definition with_bm_start (v : Z) (x : mm_zone) : mm_zone :=
  Mk_zone x.(memory_section) x.(nr_section) x.(z_total_size) x.(z_free_size) x.(page_num)
    x.(z_free_pages) v x.(bm_end) x.(bm_current).
Definition with_bm_end (v : Z) (x : mm_zone) : mm_zone :=
  Mk_zone x.(memory_section) x.(nr_section) x.(z_total_size) x.(z_free_size) x.(page_num)
    x.(z_free_pages) x.(bm_start) v x.(bm_current).
Definition with_bm_current (v : Z) (x : mm_zone) : mm_zone :=
  Mk_zone x.(memory_section) x.(nr_section) x.(z_total_size) x.(z_free_size) x.(page_num)
    x.(z_free_pages) x.(bm_start) x.(bm_end) v.
Definition with_b_total_size (v : Z) (x : mm_bank) : mm_bank :=
  Mk_bank v x.(total_page) x.(total_section) x.(zone).
Definition with_total_page (v : Z) (x : mm_bank) : mm_bank :=
  Mk_bank x.(b_total_size) v x.(total_section) x.(zone).
Definition with_total_section (v : Z) (x : mm_bank) : mm_bank :=
  Mk_bank x.(b_total_size) x.(total_page) v x.(zone).
Definition with_zone (v : list mm_zone) (x : mm_bank) : mm_bank :=
  Mk_bank x.(b_total_size) x.(total_page) x.(total_section) v.
Definition with_phy_address (v : Z) (x : page) : page :=
  Mk_page v x.(pg_flag) x.(free_base) x.(pg_free_size) x.(pg_count) x.(pg_usage).
Definition with_pg_flag (v : Z) (x : page) : page :=
  Mk_page x.(phy_address) v x.(free_base) x.(pg_free_size) x.(pg_count) x.(pg_usage).
Definition with_free_base (v : Z) (x : page) : page :=
  Mk_page x.(phy_address) x.(pg_flag) v x.(pg_free_size) x.(pg_count) x.(pg_usage).
Definition with_pg_free_size (v : Z) (x : page) : page :=
  Mk_page x.(phy_address) x.(pg_flag) x.(free_base) v x.(pg_count) x.(pg_usage).
Definition with_pg_count (v : Z) (x : page) : page :=
  Mk_page x.(phy_address) x.(pg_flag) x.(free_base) x.(pg_free_size) v x.(pg_usage).
Definition with_pg_usage (v : Z) (x : page) : page :=
  Mk_page x.(phy_address) x.(pg_flag) x.(free_base) x.(pg_free_size) x.(pg_count) v.

(** ** The state of the page allocator

    [_page_table] and [_page_map] are arrays; [locks] is the state of the mutexes,
    reached only through the interface [LockOps]. *)

Record mm_state (L : Type) : Type := Mk_mm {
  bank : mm_bank;
  page_table : list page;
  page_map : bitmap;
  plists : lheap node;
  locks : L
}.

Arguments Mk_mm {L} _ _ _ _ _.
Arguments bank {L} _.
Arguments page_table {L} _.
Arguments page_map {L} _.
Arguments plists {L} _.
Arguments locks {L} _.

Definition with_bank {L : Type} (v : mm_bank) (x : mm_state L) : mm_state L :=
  Mk_mm v x.(page_table) x.(page_map) x.(plists) x.(locks).
Definition with_page_table {L : Type} (v : list page) (x : mm_state L) : mm_state L :=
  Mk_mm x.(bank) v x.(page_map) x.(plists) x.(locks).
Definition with_page_map {L : Type} (v : bitmap) (x : mm_state L) : mm_state L :=
  Mk_mm x.(bank) x.(page_table) v x.(plists) x.(locks).
Definition with_plists {L : Type} (v : lheap node) (x : mm_state L) : mm_state L :=
  Mk_mm x.(bank) x.(page_table) x.(page_map) v x.(locks).
Definition with_locks {L : Type} (v : L) (x : mm_state L) : mm_state L :=
  Mk_mm x.(bank) x.(page_table) x.(page_map) x.(plists) v.

(** ** The interface to the mutexes

    The calls of the allocators, and what they rely on: locking a free mutex succeeds
    without blocking, and unlocking it afterwards leaves every mutex that was free
    free.  What it means to be free is up to the instance. *)

Class LockCalls (L : Type) : Type := {
  lk_lock : Z -> L -> option L;
  lk_unlock : Z -> L -> option L
}.

Class LockOps (L : Type) {LC : LockCalls L} : Type := {
  lk_free : L -> Z -> Prop;
  lk_ok : forall (l : L) (m : Z), lk_free l m ->
    exists l1 l2, lk_lock m l = Some l1 /\ lk_unlock m l1 = Some l2 /\
      forall m', lk_free l m' -> lk_free l2 m'
}.

(** A kernel that does no locking satisfies it too. *)
#[global] Instance no_calls : LockCalls unit := {
  lk_lock := fun _ l => Some l;
  lk_unlock := fun _ l => Some l
}.

#[global] Instance no_locks : LockOps unit := {
  lk_free := fun _ _ => True;
  lk_ok := fun l m H => ex_intro _ l (ex_intro _ l
    (conj eq_refl (conj eq_refl (fun _ H => H))))
}.

(** ** The interface to the slab allocator

    What its clients rely on: an allocation either fails with the null address or
    succeeds, and releasing null does nothing. *)

Class KmallocOps (A : Type) : Type := {
  ka_kmalloc : Z -> Z -> A -> option (Z * A);
  ka_kfree : Z -> A -> option A;
  ka_free_null : forall a, ka_kfree 0 a = Some a
}.

(** An allocator that hands out consecutive addresses and keeps everything. *)
Definition bump_alloc : KmallocOps Z := {|
  ka_kmalloc := fun size _ a => Some (a, a + size);
  ka_kfree := fun _ a => Some a;
  ka_free_null := fun a => eq_refl
|}.
