(* ===== verification/KernelLocks.v ===== *)
(** * The mutexes implement the lock interface of the allocators

    [LockOps] for the kernel state: on a running system, locking a free mutex
    with [mutex_lock] and releasing it with [mutex_unlock] satisfies the law the
    allocators rely on. *)

From S2P Require Import Prelude ListHead TaskStruct Sched SchedInv SchedSpec SchedBoot SchedApi.
From S2P Require Import Mutex Bitops MmTypes.

Definition lock_now (m : Z) (s : sched_state) : option sched_state :=
  match mutex_lock m s with Some (Returned _, s') => Some s' | _ => None end.

(** The mutex is free in a well-formed running system. *)
Definition mutex_free (s : sched_state) (m : Z) : Prop :=
  s.(mutex_count) !! m = Some 0 /\ exists a w h, good s a /\ mwf s w h.

Lemma kernel_lock_ok s m :
  mutex_free s m ->
  exists s1 s2, lock_now m s = Some s1 /\ mutex_unlock m s1 = Some s2 /\
    forall m', mutex_free s m' -> mutex_free s2 m'.
Proof.
  intros [Hc (a & w & h & Hg & Hm)].
  destruct (mutex_lock_free_sim s a w h m (-1) Hg Hm Hc) as (s1 & E1 & Hg1 & Hm1 & Ec1 & _).
  destruct (mutex_unlock_sim s1 a w _ m s.(current) Hg1 Hm1) as (s2 & E2 & Hg2 & Hm2 & Ec2 & _).
  { by rewrite Ec1, lookup_insert_eq. }
  { rewrite mset_eq. set_solver. }
  exists s1, s2. split; [unfold lock_now, mutex_lock; by rewrite E1|]. split; [done|].
  intros m' [Hc' _]. split; [|by eexists _, _, _].
  rewrite Ec2, Ec1. destruct (decide (m' = m)) as [->|Hne]; [by rewrite lookup_insert_eq|].
  by rewrite !lookup_insert_ne.
Qed.

#[global] Instance kernel_calls : LockCalls sched_state := {
  lk_lock := lock_now;
  lk_unlock := mutex_unlock
}.

#[global] Instance kernel_locks : LockOps sched_state := {
  lk_free := mutex_free;
  lk_ok := kernel_lock_ok
}.
