(* ===== verification/Pages.v ===== *)
(** * The page allocator

    Models the second half of [mm/mm.c]: address conversions, the page bit map and
    the allocation and release of pages.  A [struct page *] is the index of the
    page in [_page_table].  Null results are 0.  The zone mutexes are taken and
    released through [LockOps]. *)

From S2P Require Import Prelude ListHead TaskStruct Bitops MmTypes.

Section pages.
Context {L : Type} {LC : LockCalls L} {LO : LockOps L}.

(** [kernel_start], set by the boot code, and the addresses of the zone mutexes. *)
Variable kernel_start : Z.
Variable zone_mutex : Z -> Z.

Implicit Types (s : mm_state L) (va pa index i n flag : Z).

(** ** Accessors *)

Definition get_zone id s : option mm_zone := aget s.(bank).(zone) id.

Definition set_zone id (z : mm_zone) s : option (mm_state L) :=
  zs ← aset s.(bank).(zone) id z; Some (with_bank (with_zone zs s.(bank)) s).

Definition upd_zone id (f : mm_zone -> mm_zone) s : option (mm_state L) :=
  z ← get_zone id s; set_zone id (f z) s.

Definition get_page_struct i s : option page := aget s.(page_table) i.

Definition upd_page i (f : page -> page) s : option (mm_state L) :=
  t ← aupd s.(page_table) i f; Some (with_page_table t s).

Definition mutex_lock_zone id s : option (mm_state L) :=
  l ← lk_lock (zone_mutex id) s.(locks); Some (with_locks l s).

Definition mutex_unlock_zone id s : option (mm_state L) :=
  l ← lk_unlock (zone_mutex id) s.(locks); Some (with_locks l s).

Definition mm_free_page flag s : option Z :=
  let flag := flag &u MM_ZONE_MASK in
  for_range (Z.to_nat MM_ZONE_UNKNOW) 0 (fun i sum =>
    if Z.eqb (flag &u i) i then z ← get_zone i s; Some (sum +u z.(z_free_pages))
    else Some sum) 0.

(** ** Pages and addresses *)

Definition page_state n s : option Z := read_bit (Some s.(page_map)) n.

(** [get_page] is the identity on indices. *)
Definition get_page i : Z := i.

Definition va_to_page_id va : Z := s32 ((va -u kernel_start) >>u PAGE_SHIFT).
Definition va_to_page va : Z := get_page (va_to_page_id va).
Definition page_id_to_va index : Z := kernel_start +u u32 (index <<u PAGE_SHIFT).
Definition page_to_page_id (pg : Z) : Z := pg.
Definition page_to_va (pg : Z) : Z := page_id_to_va (page_to_page_id pg).
Definition page_to_pa (pg : Z) s : option Z := phy_address <$> get_page_struct pg s.

(** The double loop over zones and their sections of [va_get_pv_offset] and
    [pa_get_pv_offset]: the first section with [p]. *)
Fixpoint section_loop (fuel : nat) (p : mm_section -> bool) (z : mm_zone) (j : Z)
  : option (option mm_section) :=
  match fuel with
  | O => None
  | S fuel' =>
      if Z.ltb j z.(nr_section) then
        x ← aget z.(memory_section) j;
        if p x then Some (Some x) else section_loop fuel' p z (j + 1)
      else Some None
  end.

Fixpoint zone_loop (fuel : nat) (p : mm_section -> bool) (i : Z) s
  : option (option mm_section) :=
  match fuel with
  | O => None
  | S fuel' =>
      if Z.ltb i MM_ZONE_UNKNOW then
        z ← get_zone i s;
        r ← section_loop (S (Z.to_nat z.(nr_section))) p z 0;
        match r with Some x => Some (Some x) | None => zone_loop fuel' p (i + 1) s end
      else Some None
  end.

Definition in_va va (x : mm_section) : bool :=
  Z.leb x.(vir_start) va && Z.leb va (x.(vir_start) +u x.(sec_size)).

Definition in_pa pa (x : mm_section) : bool :=
  Z.leb x.(phy_start) pa && Z.leb pa (x.(phy_start) +u x.(sec_size)).

Definition va_get_pv_offset va s : option Z :=
  r ← zone_loop 5 (in_va va) 0 s;
  Some (match r with Some x => x.(pv_offset) | None => 0 end).

Definition pa_get_pv_offset pa s : option Z :=
  r ← zone_loop 5 (in_pa pa) 0 s;
  Some (match r with Some x => x.(pv_offset) | None => 0 end).

Definition pa_to_va pa s : option Z :=
  off ← pa_get_pv_offset pa s;
  Some (if truth off then pa +u off else 0).

Definition pa_to_page pa s : option Z := v ← pa_to_va pa s; Some (va_to_page v).

Definition va_to_pa va s : option Z := page_to_pa (va_to_page va) s.

(** ** Initialising and marking pages *)

Definition page_get (pg : Z) s : option (mm_state L) :=
  upd_page pg (fun k => with_pg_usage (u8 (k.(pg_usage) + 1)) k) s.

(** The body of the loop of [init_pages]; [flag] is changed by the first
    iteration and read by all later ones. *)
Definition init_page_body index (count : Z) i (st : Z * mm_state L)
  : option (Z * mm_state L) :=
  let '(flag, s) := st in
  let pg := get_page i in
  let va := page_to_va pg in
  off ← va_get_pv_offset va s;
  let s1 := with_plists (init_list (PagePlist pg) s.(plists)) s in
  let '(c, flag') :=
    if Z.eqb i index then (u8 count, flag |u F_GFP_PAGE_HEADER) else (u8 i, flag) in
  s2 ← upd_page pg (fun k =>
         with_pg_flag flag' (with_free_base va (with_pg_free_size (u16 PAGE_SIZE)
           (with_pg_count c (with_pg_usage 0 (with_phy_address (va -u off) k)))))) s1;
  s3 ← page_get pg s2;
  Some (flag', s3).

Definition init_pages index (count : Z) flag s : option (Z * mm_state L) :=
  '(_, s') ← for_range (Z.to_nat count) index (init_page_body index count) (flag, s);
  Some (get_page index, s').

Definition update_memory_bitmap index (count : Z) (update : bool) s : option (mm_state L) :=
  m ← for_range (Z.to_nat count) index
        (fun i m => if update then set_bit m i else clear_bit m i) (Some s.(page_map));
  m' ← m; Some (with_page_map m' s).

(** ** The search for free pages *)

Fixpoint fcp_loop (fuel : nat) (bm : bitmap) (z : mm_zone) (count i : Z) (again : bool) (sum : Z)
  : option Z :=
  match fuel with
  | O => None
  | S fuel' =>
      b ← read_bit (Some bm) i;
      let sum := if truth b then sum else sum + 1 in
      if negb (truth b) && Z.eqb sum count then Some (u32 (i - count + 1))
      else
        let '(again, sum, i) :=
          if Z.eqb (u32 i) z.(bm_end) then (true, 0, s32 (z.(bm_start) -u 1)) else (again, sum, i) in
        if again && Z.eqb (u32 i) z.(bm_current) then Some 0
        else fcp_loop fuel' bm z count (i + 1) again sum
  end.

(** One pass from [bm_current] to [bm_end] and one from [bm_start] to
    [bm_current]. *)
Definition find_continous_pages (z : mm_zone) (count : Z) s : option Z :=
  fcp_loop (Z.to_nat (z.(bm_end) - z.(bm_start) + 4)) s.(page_map) z count
    (s32 z.(bm_current)) false 0.

(** ** Allocation *)

Definition zone_id flag : Z := (flag &u GFP_ZONE_ID_MASK) >>u 1.

Definition do_get_free_pages (count flag : Z) s : option (Z * mm_state L) :=
  let id := zone_id flag in
  if Z.leb MM_ZONE_UNKNOW id then Some (0, s)
  else
    s1 ← mutex_lock_zone id s;
    z ← get_zone id s1;
    if Z.ltb z.(z_free_pages) (u32 count) then
      s2 ← mutex_unlock_zone id s1; Some (0, s2)
    else
      index ← find_continous_pages z count s1;
      if Z.eqb index 0 then s2 ← mutex_unlock_zone id s1; Some (0, s2)
      else
        s2 ← update_memory_bitmap index count true s1;
        s3 ← upd_zone id (fun z =>
               with_z_free_pages (z.(z_free_pages) -u count)
                 (with_z_free_size (z.(z_free_size) -u (count *u PAGE_SIZE))
                   (with_bm_current (index +u count) z))) s2;
        s4 ← mutex_unlock_zone id s3;
        '(pg, s5) ← init_pages index count flag s4;
        Some (page_to_va pg, s5).

Definition get_free_pages (count flag : Z) s : option (Z * mm_state L) :=
  if Z.leb count 0 then Some (0, s) else do_get_free_pages count flag s.

Definition get_free_page flag s : option (Z * mm_state L) := get_free_pages 1 flag s.

(** ** Release *)

Definition do_free_pages (pg id : Z) s : option (mm_state L) :=
  let index := page_to_page_id pg in
  s1 ← mutex_lock_zone id s;
  k ← get_page_struct pg s1;
  let count := k.(pg_count) in
  s2 ← update_memory_bitmap index count false s1;
  s3 ← upd_zone id (fun z =>
         with_z_free_pages (z.(z_free_pages) +u count)
           (with_z_free_size (z.(z_free_size) +u (count *u PAGE_SIZE)) z)) s2;
  s4 ← upd_zone id (fun z =>
         if Z.eqb z.(bm_current) (u32 (index + count)) then with_bm_current (u32 index) z else z) s3;
  mutex_unlock_zone id s4.

Definition free_pages (addr : Z) s : option (mm_state L) :=
  if negb (is_aligin addr PAGE_SIZE) then Some s
  else
    let pg := va_to_page addr in
    k ← get_page_struct pg s;
    if truth (k.(pg_flag) &u F_GFP_PAGE_HEADER) then
      let id := (k.(pg_flag) &u GFP_ZONE_ID_MASK) >>u 1 in
      _ ← get_zone id s;
      do_free_pages pg id s
    else Some s.

Definition page_put (pg : Z) s : option (mm_state L) :=
  s1 ← upd_page pg (fun k => with_pg_usage (u8 (k.(pg_usage) - 1)) k) s;
  k ← get_page_struct pg s1;
  if Z.eqb k.(pg_usage) 0 then free_pages (page_to_va pg) s1 else Some s1.

(** ** Aligned allocation *)

(** The loop over the megabytes [j < limit] of a section. *)
Fixpoint aligin_loop (fuel : nat) (offset limit j : Z) s : option (option Z) :=
  match fuel with
  | O => None
  | S fuel' =>
      if Z.ltb j limit then
        let id := s32 (va_to_page_id j + offset) in
        b ← page_state id s;
        if negb (truth b) then Some (Some id) else aligin_loop fuel' offset limit (j +u SIZE_1M) s
      else Some None
  end.

Fixpoint aligin_sections (fuel : nat) (offset : Z) (z : mm_zone) (i : Z) s : option (option Z) :=
  match fuel with
  | O => None
  | S fuel' =>
      if Z.ltb i z.(nr_section) then
        x ← aget z.(memory_section) i;
        r ← aligin_loop (S (Z.to_nat (x.(sec_size) / SIZE_1M + 1))) offset
              (x.(vir_start) +u x.(sec_size)) x.(vir_start) s;
        match r with Some id => Some (Some id) | None => aligin_sections fuel' offset z (i + 1) s end
      else Some None
  end.

Definition get_free_page_aligin (aligin flag : Z) s : option (Z * mm_state L) :=
  let offset := (aligin &u 0x000fffff) >>u PAGE_SHIFT in
  let zid := zone_id flag in
  if Z.leb MM_ZONE_UNKNOW zid then Some (0, s)
  else
    s1 ← mutex_lock_zone zid s;
    z ← get_zone zid s1;
    r ← aligin_sections (S (Z.to_nat z.(nr_section))) offset z 0 s1;
    let id := match r with Some id => id | None => 0 end in
    if truth id then
      s2 ← update_memory_bitmap id 1 true s1;
      s3 ← upd_zone zid (fun z =>
             with_z_free_pages (z.(z_free_pages) -u 1)
               (with_z_free_size (z.(z_free_size) -u PAGE_SIZE) z)) s2;
      s4 ← mutex_unlock_zone zid s3;
      '(pg, s5) ← init_pages id 1 flag s4;
      Some (page_to_va pg, s5)
    else
      s2 ← mutex_unlock_zone zid s1; Some (0, s2).
End pages.
