(* ===== verification/PagesInv.v ===== *)
(** * The page allocator: specifications

    The bit map is seen through [bit_at]: a page is free when its bit is 0.  The
    lemmas give the exact effect of the search, of marking a run of pages, of
    initialising their structures, and of allocation and release. *)

From S2P Require Import Prelude ListHead TaskStruct Bitops MmTypes Pages.

(** ** The bit map *)

Section bitmap.
Context {L : Type} {LC : LockCalls L} {LO : LockOps L}.
Implicit Types (s : mm_state L).

Definition in_run (index count n : Z) : bool := Z.leb index n && Z.ltb n (index + count).

Lemma update_memory_bitmap_ok s index count update :
  bm_ok s.(page_map) (index + count) -> 0 <= index -> 0 <= count ->
  exists m, update_memory_bitmap index count update s = Some (with_page_map m s) /\
    length m = length s.(page_map) /\ Forall is_u32 m /\
    forall n, bit_at m n = if in_run index count n then update else bit_at s.(page_map) n.
Proof.
  intros [Hw Hl] Hi Hc. unfold update_memory_bitmap.
  destruct (for_range_inv (fun i (o : option bitmap) => exists m, o = Some m /\
      length m = length s.(page_map) /\ Forall is_u32 m /\
      forall n, bit_at m n = if in_run index (i - index) n then update else bit_at s.(page_map) n)
    (Z.to_nat count) index (fun i m => if update then set_bit m i else clear_bit m i)
    (Some s.(page_map))) as (o & E & m & -> & Hlm & Hwm & Hb).
  - exists s.(page_map). do 3 (split; [done|]). intros n. unfold in_run.
    destruct (Z.leb_spec index n), (Z.ltb_spec n (index + (index - index))); simpl; (done || lia).
  - intros j o Hj (m & -> & Hlm & Hwm & Hb).
    assert (Hok : bm_ok m (j + 1)) by (split; [done|lia]).
    assert (H : exists m', (if update then set_bit (Some m) j else clear_bit (Some m) j) =
        Some (Some m') /\ length m' = length m /\ Forall is_u32 m' /\
      forall n, bit_at m' n = if Z.eqb n j then update else bit_at m n).
    { destruct update; [apply set_bit_some|apply clear_bit_some]; (done || lia). }
    destruct H as (m' & Em & Hl' & Hw' & Hb'). exists (Some m'). split; [done|].
    exists m'. split; [done|]. split; [lia|]. split; [done|]. intros n. rewrite Hb', Hb.
    unfold in_run. destruct (Z.eqb_spec n j), (Z.leb_spec index n),
      (Z.ltb_spec n (index + (j - index))), (Z.ltb_spec n (index + (j + 1 - index)));
      simpl; (done || lia).
  - exists m. rewrite E. simpl. split; [done|]. split; [done|]. split; [done|].
    replace (index + Z.of_nat (Z.to_nat count) - index) with count in Hb by lia. done.
Qed.
End bitmap.

(** ** The search *)

(** Reference: the position of the [k]-th free page among the [n] pages from [i]. *)
Fixpoint nth_free (bm : bitmap) (n : nat) (i k : Z) : option Z :=
  match n with
  | O => None
  | S n' =>
      if bit_at bm i then nth_free bm n' (i + 1) k
      else if Z.eqb k 1 then Some i else nth_free bm n' (i + 1) (k - 1)
  end.

Lemma nth_free_range bm n i k p :
  1 <= k -> nth_free bm n i k = Some p ->
  i + k - 1 <= p < i + Z.of_nat n /\ bit_at bm p = false.
Proof.
  revert i k. induction n as [|n IH]; intros i k Hk E; simpl in E; [done|].
  destruct (bit_at bm i) eqn:Eb; [apply IH in E as [? ?]; [split; [lia|done]|lia]|].
  destruct (Z.eqb_spec k 1) as [->|Hne].
  - injection E as <-. split; [lia|done].
  - apply IH in E as [? ?]; [split; [lia|done]|lia].
Qed.

(** A single page. *)
Lemma nth_free_first bm n i p :
  nth_free bm n i 1 = Some p -> forall j, i <= j < p -> bit_at bm j = true.
Proof.
  revert i. induction n as [|n IH]; intros i E j Hj; simpl in E; [done|].
  destruct (bit_at bm i) eqn:Eb.
  - destruct (decide (j = i)) as [->|Hne]; [done|]. apply (IH (i + 1)); [done|lia].
  - simpl in E. injection E as <-. lia.
Qed.

Lemma nth_free_none bm n i :
  nth_free bm n i 1 = None <-> forall j, i <= j < i + Z.of_nat n -> bit_at bm j = true.
Proof.
  revert i. induction n as [|n IH]; intros i; simpl; [split; [lia|done]|].
  destruct (bit_at bm i) eqn:Eb.
  - rewrite IH. split; intros H j Hj.
    + destruct (decide (j = i)) as [->|]; [done|]. apply H. lia.
    + apply H. lia.
  - simpl. split; [done|]. intros H. specialize (H i). rewrite Eb in H. lia.
Qed.

(** A run of free pages from the start of the scan. *)
Lemma nth_free_run bm n i k :
  1 <= k <= Z.of_nat n -> (forall j, i <= j < i + k -> bit_at bm j = false) ->
  nth_free bm n i k = Some (i + k - 1).
Proof.
  revert i k. induction n as [|n IH]; intros i k Hk Hf; simpl; [lia|].
  rewrite Hf by lia. destruct (Z.eqb_spec k 1) as [->|Hne]; [f_equal; lia|].
  rewrite IH; [f_equal; lia|lia|]. intros j Hj. apply Hf. lia.
Qed.

(** The clear bits of [lo .. lo+n-1]. *)
Fixpoint clear_bits (bm : bitmap) (lo : Z) (n : nat) : Z :=
  match n with O => 0 | S n' => (if bit_at bm lo then 0 else 1) + clear_bits bm (lo + 1) n' end.

Lemma clear_bits_range bm lo n : 0 <= clear_bits bm lo n <= Z.of_nat n.
Proof.
  revert lo. induction n as [|n IH]; intros lo; [done|]. cbn [clear_bits].
  pose proof (IH (lo + 1)). destruct (bit_at bm lo); lia.
Qed.

Lemma clear_bits_le bm lo n : clear_bits bm lo n <= clear_bits bm lo (S n).
Proof.
  revert lo. induction n as [|n IH]; intros lo; cbn [clear_bits]; [destruct (bit_at bm lo); lia|].
  pose proof (IH (lo + 1)) as H. cbn [clear_bits] in H. lia.
Qed.

Lemma clear_bits_found bm lo n :
  0 < clear_bits bm lo n -> exists i, lo <= i < lo + Z.of_nat n /\ bit_at bm i = false.
Proof.
  revert lo. induction n as [|n IH]; intros lo H; cbn [clear_bits] in H; [lia|].
  destruct (bit_at bm lo) eqn:E; [|by exists lo; split; [lia|]].
  destruct (IH (lo + 1) H) as (i & Hi & Eb). exists i. split; [lia|done].
Qed.

Lemma clear_bits_ext bm bm' lo n :
  (forall i, lo <= i < lo + Z.of_nat n -> bit_at bm' i = bit_at bm i) -> clear_bits bm' lo n = clear_bits bm lo n.
Proof.
  revert lo. induction n as [|n IH]; intros lo H; [done|]. cbn [clear_bits]. rewrite H by lia.
  rewrite IH; [done|]. intros i Hi. apply H. lia.
Qed.

Lemma clear_bits_flip bm bm' lo n i :
  lo <= i < lo + Z.of_nat n -> (forall j, j <> i -> bit_at bm' j = bit_at bm j) ->
  bit_at bm i = false -> bit_at bm' i = true -> clear_bits bm' lo n = clear_bits bm lo n - 1.
Proof.
  revert lo. induction n as [|n IH]; intros lo Hi Hj H0 H1; [lia|]. cbn [clear_bits].
  destruct (decide (lo = i)) as [->|Hne].
  - rewrite H0, H1, (clear_bits_ext bm bm'); [lia|]. intros j Hr. apply Hj. lia.
  - rewrite Hj by done. rewrite IH; [lia|lia|done|done|done].
Qed.

Lemma clear_bits_pos bm lo n i : lo <= i < lo + Z.of_nat n -> bit_at bm i = false -> 0 < clear_bits bm lo n.
Proof.
  revert lo. induction n as [|n IH]; intros lo Hi H0; [lia|]. cbn [clear_bits].
  pose proof (clear_bits_range bm (lo + 1) n). destruct (decide (lo = i)) as [->|Hne]; [rewrite H0; lia|].
  pose proof (IH (lo + 1) ltac:(lia) H0). destruct (bit_at bm lo); lia.
Qed.

(** A scan finds its [k]-th free page when there are as many. *)
Lemma nth_free_clear bm n i k :
  1 <= k -> (k <= clear_bits bm i n <-> is_Some (nth_free bm n i k)).
Proof.
  revert i k. induction n as [|n IH]; intros i k Hk; cbn [clear_bits nth_free].
  - split; [lia|by intros []].
  - destruct (bit_at bm i); [by rewrite <- IH|]. destruct (Z.eqb_spec k 1) as [->|Hne].
    + pose proof (clear_bits_range bm (i + 1) n). split; [by eexists|lia].
    + rewrite <- IH by lia. lia.
Qed.

Section search.
Context (bm : bitmap) (z : mm_zone) (count : Z).
Hypothesis Hb : 0 <= z.(bm_start) <= z.(bm_current) /\ z.(bm_current) <= z.(bm_end) /\
  z.(bm_end) + 1 < 2 ^ 31.
Hypothesis Hok : bm_ok bm (z.(bm_end) + 1).
Hypothesis Hcount : 1 <= count < 2 ^ 31.

Lemma bm_ok_le n m : bm_ok bm n -> m <= n -> bm_ok bm m.
Proof. intros [? ?] ?. split; [done|lia]. Qed.

Definition found (p : option Z) : option Z := (fun p => p - count + 1) <$> p.

(** The second pass: from [i] up to [bm_current]. *)
Lemma fcp_second n fuel i sum :
  z.(bm_current) < z.(bm_end) ->
  z.(bm_start) <= i <= z.(bm_current) -> i + Z.of_nat n = z.(bm_current) + 1 -> (n < fuel)%nat ->
  0 <= sum < count -> sum <= i ->
  fcp_loop fuel bm z count i true sum =
  Some (default 0 (found (nth_free bm n i (count - sum)))).
Proof.
  intros Hce. revert fuel i sum. induction n as [|n IH]; intros fuel i sum Hi Hn Hf Hs Hsi; [lia|].
  destruct fuel as [|fuel]; [lia|]. simpl.
  rewrite read_bit_some by (lia || by apply (bm_ok_le _ _ Hok); lia). simpl.
  rewrite truth_c_bool, (u32_small i) by lia.
  destruct (Z.eqb_spec i z.(bm_end)) as [|_]; [lia|].
  destruct (bit_at bm i) eqn:Eb; simpl; rewrite ?(u32_small i) by lia.
  - destruct (Z.eqb_spec i z.(bm_current)) as [->|Hne]; simpl.
    + assert (n = 0)%nat as -> by lia. done.
    + by apply IH; lia.
  - destruct (Z.eqb_spec (sum + 1) count) as [Es|Es].
    + replace (count - sum) with 1 by lia. simpl. rewrite u32_small by lia. done.
    + rewrite (proj2 (Z.eqb_neq (count - sum) 1)) by lia.
      destruct (Z.eqb_spec i z.(bm_current)) as [->|Hne]; simpl.
      * assert (n = 0)%nat as -> by lia. done.
      * replace (count - sum - 1) with (count - (sum + 1)) by lia. apply IH; lia.
Qed.

(** The first pass: from [i] up to [bm_end]. *)
Lemma fcp_first n fuel i sum :
  z.(bm_current) < z.(bm_end) ->
  z.(bm_current) <= i <= z.(bm_end) -> i + Z.of_nat n = z.(bm_end) + 1 ->
  (n + Z.to_nat (z.(bm_current) - z.(bm_start) + 1) < fuel)%nat ->
  0 <= sum < count -> sum <= i ->
  fcp_loop fuel bm z count i false sum =
  Some (match nth_free bm n i (count - sum) with
        | Some p => p - count + 1
        | None => default 0 (found (nth_free bm (Z.to_nat (z.(bm_current) - z.(bm_start) + 1))
                              z.(bm_start) count))
        end).
Proof.
  intros Hce. revert fuel i sum. induction n as [|n IH]; intros fuel i sum Hi Hn Hf Hs Hsi; [lia|].
  destruct fuel as [|fuel]; [lia|]. cbn [fcp_loop nth_free].
  rewrite read_bit_some by (lia || by apply (bm_ok_le _ _ Hok); lia).
  cbn [mbind option_bind]. rewrite truth_c_bool, (u32_small i) by lia.
  assert (Hstart : s32 (z.(bm_start) -u 1) + 1 = z.(bm_start)).
  { destruct (decide (z.(bm_start) = 0)) as [E0|Hne].
    - rewrite E0. reflexivity.
    - rewrite u32_small, s32_small by lia. lia. }
  assert (Hagain : Z.eqb (u32 (s32 (z.(bm_start) -u 1))) z.(bm_current) = false).
  { rewrite u32_s32, u32_u32. apply Z.eqb_neq.
    destruct (decide (z.(bm_start) = 0)) as [E0|Hne]; [|rewrite u32_small by lia; lia].
    rewrite E0. change (u32 (0 - 1)) with 4294967295. lia. }
  destruct (bit_at bm i) eqn:Eb; cbn [negb andb].
  - destruct (Z.eqb_spec i z.(bm_end)) as [->|Hne].
    + assert (n = 0)%nat as -> by lia. cbn [nth_free andb]. rewrite Hagain, Hstart.
      rewrite (fcp_second (Z.to_nat (z.(bm_current) - z.(bm_start) + 1))) by lia.
      by rewrite Z.sub_0_r.
    + by apply IH; lia.
  - destruct (Z.eqb_spec (sum + 1) count) as [Es|Es].
    + replace (count - sum) with 1 by lia. simpl. rewrite u32_small by lia. done.
    + rewrite (proj2 (Z.eqb_neq (count - sum) 1)) by lia.
      destruct (Z.eqb_spec i z.(bm_end)) as [->|Hne].
      * assert (n = 0)%nat as -> by lia. cbn [nth_free andb]. rewrite Hagain, Hstart.
        rewrite (fcp_second (Z.to_nat (z.(bm_current) - z.(bm_start) + 1))) by lia.
        by rewrite Z.sub_0_r.
      * cbn [andb]. replace (count - sum - 1) with (count - (sum + 1)) by lia. apply IH; lia.
Qed.

(** The search as two scans. *)
Definition search_result : Z :=
  match nth_free bm (Z.to_nat (z.(bm_end) - z.(bm_current) + 1)) z.(bm_current) count with
  | Some p => p - count + 1
  | None =>
      match nth_free bm (Z.to_nat (z.(bm_current) - z.(bm_start) + 1)) z.(bm_start) count with
      | Some p => p - count + 1
      | None => 0
      end
  end.

(** With [bm_current] at [bm_end] the exit test of the second pass is behind the jump
    back to the start: the pass repeats until it finds its pages. *)
Lemma fcp_repeat n fuel i sum p again :
  z.(bm_current) = z.(bm_end) -> z.(bm_start) <= i -> i + Z.of_nat n = z.(bm_end) + 1 -> (n <= fuel)%nat ->
  0 <= sum < count -> sum <= i -> nth_free bm n i (count - sum) = Some p ->
  fcp_loop fuel bm z count i again sum = Some (p - count + 1).
Proof.
  intros Hcur. revert fuel i sum. induction n as [|n IH]; intros fuel i sum Hi Hn Hf Hs Hsi Hp; [done|].
  destruct fuel as [|fuel]; [lia|]. cbn [fcp_loop nth_free] in *.
  rewrite read_bit_some by (lia || by apply (bm_ok_le _ _ Hok); lia).
  cbn [mbind option_bind]. rewrite truth_c_bool, (u32_small i) by lia.
  destruct (bit_at bm i) eqn:Eb; cbn [negb andb].
  - destruct (Z.eqb_spec i z.(bm_end)) as [->|Hne]; [by assert (n = 0)%nat as -> by lia|].
    rewrite (u32_small i), Hcur, (proj2 (Z.eqb_neq i z.(bm_end)) Hne), andb_false_r by lia. apply IH; (lia || done).
  - destruct (Z.eqb_spec (sum + 1) count) as [Es|Es].
    + rewrite (proj2 (Z.eqb_eq (count - sum) 1)) in Hp by lia. injection Hp as <-. f_equal. apply u32_small. lia.
    + rewrite (proj2 (Z.eqb_neq (count - sum) 1)) in Hp by lia.
      destruct (Z.eqb_spec i z.(bm_end)) as [->|Hne]; [by assert (n = 0)%nat as -> by lia|].
      rewrite (u32_small i), Hcur, (proj2 (Z.eqb_neq i z.(bm_end)) Hne), andb_false_r by lia.
      apply IH; try lia. by replace (count - (sum + 1)) with (count - sum - 1) by lia.
Qed.

(** The pages the search can count: those from [bm_start] to [bm_end], which is the
    first page behind the zone. *)
Definition pages_in_reach : Z := clear_bits bm z.(bm_start) (Z.to_nat (z.(bm_end) - z.(bm_start) + 1)).

Lemma find_continous_pages_ok {L : Type} (s : mm_state L) :
  z.(bm_current) < z.(bm_end) \/ count <= pages_in_reach ->
  s.(page_map) = bm -> find_continous_pages z count s = Some search_result.
Proof.
  intros Hor Es. unfold find_continous_pages, search_result. rewrite Es, s32_small by lia.
  destruct (decide (z.(bm_current) < z.(bm_end))) as [Hlt|Hge].
  - rewrite (fcp_first (Z.to_nat (z.(bm_end) - z.(bm_current) + 1))) by lia.
    rewrite Z.sub_0_r. unfold found.
    destruct (nth_free bm (Z.to_nat (z.(bm_end) - z.(bm_current) + 1)) z.(bm_current) count); [done|].
    by destruct (nth_free bm (Z.to_nat (z.(bm_current) - z.(bm_start) + 1)) z.(bm_start) count).
  - assert (Hcur : z.(bm_current) = z.(bm_end)) by lia. destruct Hor as [|Hreach]; [lia|].
    apply nth_free_clear in Hreach as [p Hp]; [|lia]. rewrite Hcur.
    replace (Z.to_nat (z.(bm_end) - z.(bm_end) + 1)) with 1%nat by lia.
    replace (z.(bm_end) - z.(bm_start) + 1) with (z.(bm_end) - z.(bm_start) + 1) in Hp by lia. rewrite Hp.
    destruct (nth_free bm 1 z.(bm_end) count) as [q|] eqn:E1.
    + apply (fcp_repeat 1); (lia || by rewrite ?Z.sub_0_r).
    + replace (Z.to_nat (z.(bm_end) - z.(bm_start) + 4)) with (S (Z.to_nat (z.(bm_end) - z.(bm_start) + 3))) by lia.
      cbn [fcp_loop]. rewrite read_bit_some by (lia || by apply (bm_ok_le _ _ Hok); lia).
      cbn [mbind option_bind]. rewrite truth_c_bool, (u32_small z.(bm_end)), Z.eqb_refl by lia.
      cbn [nth_free] in E1.
      assert (Hno : negb (bit_at bm z.(bm_end)) && Z.eqb (if bit_at bm z.(bm_end) then 0 else 0 + 1) count = false).
      { destruct (bit_at bm z.(bm_end)); [done|]. destruct (Z.eqb_spec count 1); [done|]. apply Z.eqb_neq. lia. }
      replace (if negb (bit_at bm z.(bm_end)) then 0 else 0 + 1) with (if negb (bit_at bm z.(bm_end)) then 0 else 0 + 1) by done.
      rewrite Hno. cbn [andb].
      assert (Hstart : s32 (z.(bm_start) -u 1) + 1 = z.(bm_start) /\ Z.eqb (u32 (s32 (z.(bm_start) -u 1))) z.(bm_current) = false).
      { rewrite u32_s32, u32_u32. destruct (decide (z.(bm_start) = 0)) as [E0|Hne].
        - rewrite E0. split; [reflexivity|]. apply Z.eqb_neq. change (u32 (0 - 1)) with 4294967295. lia.
        - rewrite u32_small, s32_small by lia. split; [lia|]. apply Z.eqb_neq. lia. }
      destruct Hstart as [Hs1 Hs2]. rewrite Hs2, Hs1.
      apply (fcp_repeat (Z.to_nat (z.(bm_end) - z.(bm_start) + 1))); (lia || by rewrite ?Z.sub_0_r).
Qed.

(** With fewer free pages in reach than it is asked for, that pass never ends. *)
Lemma fcp_never fuel i again sum :
  z.(bm_current) = z.(bm_end) -> pages_in_reach < count -> z.(bm_start) <= i <= z.(bm_end) ->
  sum + clear_bits bm i (Z.to_nat (z.(bm_end) - i + 1)) < count ->
  fcp_loop fuel bm z count i again sum = None.
Proof.
  intros Hcur Hreach. revert i again sum. induction fuel as [|fuel IH]; intros i again sum Hi Hsum; [done|].
  cbn [fcp_loop]. rewrite read_bit_some by (lia || by apply (bm_ok_le _ _ Hok); lia).
  cbn [mbind option_bind]. rewrite truth_c_bool, (u32_small i) by lia.
  replace (Z.to_nat (z.(bm_end) - i + 1)) with (S (Z.to_nat (z.(bm_end) - (i + 1) + 1))) in Hsum by lia.
  cbn [clear_bits] in Hsum. pose proof (clear_bits_range bm (i + 1) (Z.to_nat (z.(bm_end) - (i + 1) + 1))) as Hr.
  assert (Hgo : forall sum', sum' + clear_bits bm (i + 1) (Z.to_nat (z.(bm_end) - (i + 1) + 1)) < count ->
    (let '(again, sum, i) :=
       if Z.eqb i z.(bm_end) then (true, 0, s32 (z.(bm_start) -u 1)) else (again, sum', i) in
     if again && Z.eqb (u32 i) z.(bm_current) then Some 0 else fcp_loop fuel bm z count (i + 1) again sum) = None).
  { intros sum' Hs'. destruct (Z.eqb_spec i z.(bm_end)) as [->|Hne].
    - assert (Hstart : s32 (z.(bm_start) -u 1) + 1 = z.(bm_start) /\ Z.eqb (u32 (s32 (z.(bm_start) -u 1))) z.(bm_current) = false).
      { rewrite u32_s32, u32_u32. destruct (decide (z.(bm_start) = 0)) as [E0|Hne].
        - rewrite E0. split; [reflexivity|]. apply Z.eqb_neq. change (u32 (0 - 1)) with 4294967295. lia.
        - rewrite u32_small, s32_small by lia. split; [lia|]. apply Z.eqb_neq. lia. }
      destruct Hstart as [-> Hs2]. rewrite Hs2, andb_false_r. apply IH; [lia|]. exact Hreach.
    - rewrite (u32_small i), Hcur, (proj2 (Z.eqb_neq i z.(bm_end)) Hne), andb_false_r by lia. by apply IH; [lia|]. }
  destruct (bit_at bm i); cbn [negb andb]; [apply Hgo; lia|].
  rewrite (proj2 (Z.eqb_neq (sum + 1) count)) by lia. apply Hgo. lia.
Qed.

Lemma search_result_range :
  search_result <> 0 -> z.(bm_start) <= search_result /\ search_result + count <= z.(bm_end) + 1.
Proof.
  unfold search_result. intros H.
  destruct (nth_free bm (Z.to_nat (z.(bm_end) - z.(bm_current) + 1)) _ count) as [p|] eqn:E1.
  - apply nth_free_range in E1 as [? _]; lia.
  - destruct (nth_free bm (Z.to_nat (z.(bm_current) - z.(bm_start) + 1)) _ count) as [p|] eqn:E2;
      [|done]. apply nth_free_range in E2 as [? _]; lia.
Qed.
End search.

(** ** Page structures *)

Section alloc.
Context {L : Type} {LC : LockCalls L} {LO : LockOps L} (kernel_start : Z) (zone_mutex : Z -> Z).
Implicit Types (s : mm_state L) (z : mm_zone).

(** Every zone records its sections inside its array. *)
Definition sections_ok s : Prop :=
  length s.(bank).(zone) = 4%nat /\
  forall i z, get_zone i s = Some z ->
    0 <= z.(nr_section) <= Z.of_nat (length z.(memory_section)).

Lemma section_loop_total p z j :
  0 <= j -> 0 <= z.(nr_section) <= Z.of_nat (length z.(memory_section)) ->
  exists r, section_loop (S (Z.to_nat (z.(nr_section) - j))) p z j = Some r.
Proof.
  intros Hj Hz. remember (Z.to_nat (z.(nr_section) - j)) as n eqn:En. revert j Hj En.
  induction n as [|n IH]; intros j Hj En; cbn [section_loop].
  - rewrite (proj2 (Z.ltb_ge j z.(nr_section))) by lia. by eexists.
  - destruct (Z.ltb_spec j z.(nr_section)); [|by eexists].
    destruct (aget_is_Some z.(memory_section) j) as [x Ex]; [lia|]. rewrite Ex. simpl.
    destruct (p x); [by eexists|]. apply IH; lia.
Qed.

Lemma zone_loop_total p s n i :
  sections_ok s -> 0 <= i -> i + Z.of_nat n = 5 -> exists r, zone_loop n p i s = Some r \/ n = 0%nat.
Proof.
  intros [Hl Hs]. revert i. induction n as [|n IH]; intros i Hi Hn; [exists None; by right|].
  cbn [zone_loop]. unfold MM_ZONE_UNKNOW. destruct (Z.ltb_spec i 4); [|exists None; by left].
  destruct (aget_is_Some s.(bank).(zone) i) as [z Ez]; [lia|]. unfold get_zone. rewrite Ez. simpl.
  destruct (section_loop_total p z 0) as [r Er]; [lia|by apply (Hs i)|].
  rewrite Z.sub_0_r in Er. simpl in Er. rewrite Er. simpl.
  destruct r as [x|]; [exists (Some x); by left|].
  destruct (IH (i + 1)) as [r [Er'|E0]]; [lia|lia|exists r; by left|].
  subst n. lia.
Qed.

Lemma va_get_pv_offset_total va s :
  sections_ok s -> exists off, va_get_pv_offset va s = Some off.
Proof.
  intros Hs. unfold va_get_pv_offset.
  destruct (zone_loop_total (in_va va) s 5 0 Hs) as [r [Er|E0]]; [lia|done| |done].
  rewrite Er. by eexists.
Qed.

(** The structure of page [i] after [init_pages index count flag]. *)
Definition init_page (index count flag off i : Z) : page :=
  let va := page_to_va kernel_start i in
  Mk_page (va -u off) (flag |u F_GFP_PAGE_HEADER) va PAGE_SIZE
    (if Z.eqb i index then u8 count else u8 i) 1.

(** Only the recorded sections matter to the conversion. *)
Definition sections_of (z : mm_zone) : list mm_section * Z := (z.(memory_section), z.(nr_section)).

Definition same_sections s s' : Prop :=
  forall j, sections_of <$> get_zone j s' = sections_of <$> get_zone j s.

Lemma section_loop_ext p z z' f j :
  sections_of z' = sections_of z -> section_loop f p z' j = section_loop f p z j.
Proof.
  intros [= E1 E2]. revert j. induction f as [|f IH]; intros j; [done|]. cbn [section_loop].
  rewrite E1, E2. destruct (Z.ltb j (nr_section z)); [|done].
  destruct (aget (memory_section z) j) as [x|]; [|done]. cbn [mbind option_bind].
  destruct (p x); [done|apply IH].
Qed.

Lemma zone_loop_ext s s' n p i : same_sections s s' -> zone_loop n p i s' = zone_loop n p i s.
Proof.
  intros H. revert i. induction n as [|n IH]; intros i; [done|]. cbn [zone_loop].
  destruct (Z.ltb i MM_ZONE_UNKNOW); [|done]. specialize (H i).
  destruct (get_zone i s') as [z'|], (get_zone i s) as [z|]; try done. simpl in H.
  injection H as Hs Hn. assert (E : sections_of z' = sections_of z) by (unfold sections_of; congruence).
  cbn [mbind option_bind]. rewrite Hn, (section_loop_ext _ _ _ _ _ E).
  match goal with |- context [section_loop ?f p z 0] =>
    destruct (section_loop f p z 0) as [[x|]|]; cbn; [done|apply IH|done] end.
Qed.

Lemma va_offset_ext va s s' :
  same_sections s s' -> va_get_pv_offset va s' = va_get_pv_offset va s.
Proof. intros H. unfold va_get_pv_offset. by rewrite (zone_loop_ext s s'). Qed.

Lemma sections_ok_ext s s' :
  same_sections s s' -> length s'.(bank).(zone) = 4%nat -> sections_ok s -> sections_ok s'.
Proof.
  intros H Hl [_ Hs]. split; [done|]. intros i z Hz. specialize (H i). rewrite Hz in H.
  destruct (get_zone i s) as [z0|] eqn:E; [|done]. simpl in H. injection H as H1 H2.
  rewrite H1, H2. by apply (Hs i).
Qed.

(** The list nodes of the pages of a run are initialised, every other is kept. *)
Definition fresh_nodes (index count : Z) (h : lheap node) (n : node) : option (list_head node) :=
  match n with
  | PagePlist i => if in_run index count i then Some (ListHead n n) else h !! n
  | _ => h !! n
  end.

Lemma fresh_nodes_step index h h' j n :
  index <= j -> (forall m, h' !! m = fresh_nodes index (j - index) h m) ->
  init_list (PagePlist j) h' !! n = fresh_nodes index (j + 1 - index) h n.
Proof.
  intros Hj Hh. unfold init_list. destruct (decide (n = PagePlist j)) as [->|Hne].
  - rewrite lookup_insert_eq. unfold fresh_nodes, in_run.
    destruct (Z.leb_spec index j), (Z.ltb_spec j (index + (j + 1 - index))); simpl; (done || lia).
  - rewrite lookup_insert_ne by done. rewrite Hh. destruct n; try done.
    unfold fresh_nodes, in_run. assert (i <> j) by congruence.
    destruct (Z.leb_spec index i), (Z.ltb_spec i (index + (j - index))),
      (Z.ltb_spec i (index + (j + 1 - index))); simpl; (done || lia).
Qed.

Lemma init_pages_ok s index count flag :
  sections_ok s -> 0 <= index -> 1 <= count ->
  index + count <= Z.of_nat (length s.(page_table)) ->
  exists t pl, init_pages kernel_start index count flag s =
      Some (index, with_plists pl (with_page_table t s)) /\
    length t = length s.(page_table) /\
    (forall n, pl !! n = fresh_nodes index count s.(plists) n) /\
    forall i, aget t i =
      if in_run index count i
      then (fun off => init_page index count flag off i) <$>
             va_get_pv_offset (page_to_va kernel_start i) s
      else aget s.(page_table) i.
Proof.
  intros Hs Hi Hc Hlen. unfold init_pages.
  destruct (for_range_inv (fun j (st : Z * mm_state L) => exists t pl,
      snd st = with_plists pl (with_page_table t s) /\ length t = length s.(page_table) /\
      fst st = (if Z.eqb j index then flag else flag |u F_GFP_PAGE_HEADER) /\
      (forall n, pl !! n = fresh_nodes index (j - index) s.(plists) n) /\
      forall i, aget t i = if in_run index (j - index) i
        then (fun off => init_page index count flag off i) <$>
               va_get_pv_offset (page_to_va kernel_start i) s
        else aget s.(page_table) i)
    (Z.to_nat count) index (init_page_body kernel_start index count) (flag, s))
    as ([f s'] & E & t & pl & Es & Hl & _ & Hp & Ht).
  - exists s.(page_table), s.(plists). rewrite Z.eqb_refl. split; [by destruct s|].
    do 2 (split; [done|]). split.
    { intros n. unfold fresh_nodes, in_run. destruct n; try done.
      destruct (Z.leb_spec index i), (Z.ltb_spec i (index + (index - index))); simpl; (done || lia). }
    intros i. unfold in_run.
    destruct (Z.leb_spec index i), (Z.ltb_spec i (index + (index - index))); simpl; (done || lia).
  - intros j [f x] Hj (t & pl & Ex & Hl & Ef & Hp & Ht). cbn [fst snd] in *.
    unfold init_page_body, get_page.
    destruct (va_get_pv_offset_total (page_to_va kernel_start j) s Hs) as [off Eo].
    rewrite (va_offset_ext _ s x) by (intros jj; by rewrite Ex). rewrite Eo. cbn [mbind option_bind].
    assert (Ej : exists p, aget t j = Some p) by (apply aget_is_Some; lia). destruct Ej as [p Ep].
    set (c := if Z.eqb j index then (u8 count, f |u F_GFP_PAGE_HEADER) else (u8 j, f)).
    assert (Ec : c = (if Z.eqb j index then u8 count else u8 j, flag |u F_GFP_PAGE_HEADER)).
    { unfold c. rewrite Ef. by destruct (Z.eqb j index). }
    rewrite Ec. unfold upd_page at 1. simpl. rewrite Ex. simpl.
    rewrite (aupd_Some _ _ _ _ Ep). cbn [mbind option_bind].
    set (p1 := with_pg_flag _ _). set (t1 := <[_ := p1]> t).
    assert (Ht1 : aset t j p1 = Some t1) by (apply aset_Some; lia).
    unfold page_get, upd_page. simpl.
    rewrite (aupd_Some _ _ _ _ (aget_aset_eq _ _ _ _ Ht1)). cbn [mbind option_bind].
    eexists. split; [done|]. cbn [fst snd].
    set (p2 := with_pg_usage _ p1). set (t2 := <[_ := p2]> t1).
    assert (Ht2 : aset t1 j p2 = Some t2).
    { apply aset_Some. unfold t1. rewrite length_insert. lia. }
    exists t2, (init_list (PagePlist j) pl). split; [done|].
    split; [unfold t2, t1; by rewrite !length_insert|].
    split; [by rewrite (proj2 (Z.eqb_neq (j + 1) index)) by lia|].
    split; [intros n; apply fresh_nodes_step; [lia|done]|].
    intros i. destruct (decide (i = j)) as [->|Hne].
    + rewrite (aget_aset_eq _ _ _ _ Ht2). unfold in_run.
      destruct (Z.leb_spec index j), (Z.ltb_spec j (index + (j + 1 - index))); simpl; try lia.
      rewrite Eo. done.
    + rewrite (aget_aset_ne _ _ _ _ _ Ht2), (aget_aset_ne _ _ _ _ _ Ht1), Ht by done.
      unfold in_run. destruct (Z.leb_spec index i), (Z.ltb_spec i (index + (j - index))),
        (Z.ltb_spec i (index + (j + 1 - index))); simpl; (done || lia).
  - rewrite E. simpl in Es. subst s'. simpl. exists t, pl. split; [done|]. split; [done|].
    replace (index + Z.of_nat (Z.to_nat count) - index) with count in Ht, Hp by lia. done.
Qed.

(** ** Allocation and release *)

(** What the allocator needs of the zone [id] it works on. *)
Record zone_ready (id : Z) (z : mm_zone) s : Prop := {
  zr_zone : get_zone id s = Some z;
  zr_id : 0 <= id < MM_ZONE_UNKNOW;
  zr_bounds : 0 <= z.(bm_start) <= z.(bm_current) /\ z.(bm_current) < z.(bm_end) /\
    z.(bm_end) + 1 < 2 ^ 20;
  zr_map : bm_ok s.(page_map) (z.(bm_end) + 1);
  zr_table : z.(bm_end) + 1 <= Z.of_nat (length s.(page_table));
  zr_sections : sections_ok s;
  zr_lock : lk_free s.(locks) (zone_mutex id);
  zr_free : 0 <= z.(z_free_pages) < 2 ^ 20
}.

(** The same with the search position possibly at the end of the zone, where the
    search ends only if there are as many free pages as the zone counts. *)
Record zone_usable (id : Z) (z : mm_zone) s : Prop := {
  zu_zone : get_zone id s = Some z;
  zu_id : 0 <= id < MM_ZONE_UNKNOW;
  zu_bounds : 0 <= z.(bm_start) <= z.(bm_current) /\ z.(bm_current) <= z.(bm_end) /\
    z.(bm_end) + 1 < 2 ^ 20;
  zu_ends : z.(bm_current) < z.(bm_end) \/ z.(z_free_pages) <= pages_in_reach s.(page_map) z;
  zu_map : bm_ok s.(page_map) (z.(bm_end) + 1);
  zu_table : z.(bm_end) + 1 <= Z.of_nat (length s.(page_table));
  zu_sections : sections_ok s;
  zu_lock : lk_free s.(locks) (zone_mutex id);
  zu_free : 0 <= z.(z_free_pages) < 2 ^ 20
}.

Lemma zone_ready_usable id z s : zone_ready id z s -> zone_usable id z s.
Proof. intros []. constructor; try done; [lia|left; lia]. Qed.

(** The zone after [count] pages from [idx] are taken. *)
Definition taken (idx count : Z) (z : mm_zone) : mm_zone :=
  with_z_free_pages (z.(z_free_pages) -u count)
    (with_z_free_size (z.(z_free_size) -u (count *u PAGE_SIZE))
      (with_bm_current (idx +u count) z)).

Lemma set_zone_ok id z s :
  is_Some (get_zone id s) ->
  exists zs, set_zone id z s = Some (with_bank (with_zone zs s.(bank)) s) /\
    length zs = length s.(bank).(zone) /\
    forall j, aget zs j = if Z.eqb j id then Some z else aget s.(bank).(zone) j.
Proof.
  intros [z0 Hz]. unfold set_zone. pose proof (aget_lt _ _ _ Hz) as Hlt.
  pose proof (aset_Some s.(bank).(zone) id z Hlt) as E. rewrite E. simpl.
  eexists. split; [done|]. split; [apply length_insert|]. intros j.
  destruct (Z.eqb_spec j id) as [->|Hne]; [by apply (aget_aset_eq _ _ _ _ E)|].
  by apply (aget_aset_ne _ _ _ _ _ E).
Qed.

Lemma taken_sections s idx count id z zs :
  get_zone id s = Some z ->
  (forall j, aget zs j = if Z.eqb j id then Some (taken idx count z) else aget s.(bank).(zone) j) ->
  forall s', s'.(bank).(zone) = zs -> same_sections s s'.
Proof.
  intros Hz Hzs s' E j. unfold get_zone. rewrite E, Hzs.
  destruct (Z.eqb_spec j id) as [->|]; [|done]. unfold get_zone in Hz. by rewrite Hz.
Qed.

(** The state after the pages [idx .. idx+count-1] were taken from zone [id]. *)
Record pages_taken (id : Z) (z : mm_zone) (idx count flag : Z) s s' : Prop := {
  pt_zones : forall j, get_zone j s' = if Z.eqb j id then Some (taken idx count z) else get_zone j s;
  pt_nzones : length s'.(bank).(zone) = 4%nat;
  pt_maplen : length s'.(page_map) = length s.(page_map);
  pt_words : Forall is_u32 s'.(page_map);
  pt_bits : forall n, bit_at s'.(page_map) n =
    if in_run idx count n then true else bit_at s.(page_map) n;
  pt_tablen : length s'.(page_table) = length s.(page_table);
  pt_pages : forall i, aget s'.(page_table) i = if in_run idx count i
      then (fun off => init_page idx count flag off i) <$>
             va_get_pv_offset (page_to_va kernel_start i) s
      else aget s.(page_table) i;
  pt_plists : forall n, s'.(plists) !! n = fresh_nodes idx count s.(plists) n;
  pt_locks : forall m, lk_free s.(locks) m -> lk_free s'.(locks) m
}.

Lemma get_free_pages_ok s z count flag :
  zone_usable (zone_id flag) z s -> 1 <= count < 2 ^ 20 ->
  let idx := search_result s.(page_map) z count in
  if Z.ltb z.(z_free_pages) count || Z.eqb idx 0 then
    exists l, get_free_pages kernel_start zone_mutex count flag s = Some (0, with_locks l s) /\
      forall m, lk_free s.(locks) m -> lk_free l m
  else
    exists s', get_free_pages kernel_start zone_mutex count flag s =
        Some (page_id_to_va kernel_start idx, s') /\
      pages_taken (zone_id flag) z idx count flag s s'.
Proof.
  intros [Hz Hid Hb Hends Hm Ht Hs Hlk Hf] Hc idx. set (id := zone_id flag) in *.
  unfold get_free_pages. rewrite (proj2 (Z.leb_gt count 0)) by lia.
  unfold do_get_free_pages. fold id. rewrite (proj2 (Z.leb_gt MM_ZONE_UNKNOW id)) by lia.
  destruct (lk_ok s.(locks) (zone_mutex id) Hlk) as (l1 & l2 & E1 & E2 & Hl).
  unfold mutex_lock_zone. rewrite E1. cbn [mbind option_bind].
  set (s1 := with_locks l1 s). change (get_zone id s1) with (get_zone id s). rewrite Hz.
  cbn [mbind option_bind]. rewrite (u32_small count) by lia.
  destruct (Z.ltb_spec z.(z_free_pages) count) as [Hlt|Hge]; cbn [orb].
  { unfold mutex_unlock_zone. simpl. rewrite E2. by exists l2. }
  rewrite (find_continous_pages_ok s.(page_map) z count ltac:(lia) Hm ltac:(lia) s1 ltac:(lia) eq_refl).
  cbn [mbind option_bind]. fold idx. destruct (Z.eqb_spec idx 0) as [E0|Hne].
  { unfold mutex_unlock_zone. simpl. rewrite E2. by exists l2. }
  destruct (search_result_range s.(page_map) z count ltac:(lia) ltac:(lia) Hne) as [Hlo Hhi]. fold idx in Hlo, Hhi.
  assert (Hmi : bm_ok s1.(page_map) (idx + count)) by (apply (bm_ok_le _ (z.(bm_end) + 1)); [done|simpl; lia]).
  destruct (update_memory_bitmap_ok s1 idx count true Hmi ltac:(lia) ltac:(lia)) as (m & Em & Hlm & Hwm & Hbm).
  rewrite Em. cbn [mbind option_bind]. set (s2 := with_page_map m s1).
  destruct (set_zone_ok id (taken idx count z) s2) as (zs & Ez & Hlz & Hzs); [by exists z|].
  assert (Eu : upd_zone id (taken idx count) s2 = Some (with_bank (with_zone zs s2.(bank)) s2)).
  { unfold upd_zone. change (get_zone id s2) with (get_zone id s). by rewrite Hz. }
  change (upd_zone id _ s2) with (upd_zone id (taken idx count) s2). rewrite Eu.
  cbn [mbind option_bind]. unfold mutex_unlock_zone. cbn [with_bank locks s2 with_page_map s1 with_locks].
  rewrite E2. cbn [mbind option_bind]. set (s4 := with_locks l2 _).
  assert (Hss : same_sections s s4) by (by apply (taken_sections s idx count id z zs)).
  assert (Hl4 : length s4.(bank).(zone) = 4%nat) by (simpl; rewrite Hlz; apply Hs).
  destruct (init_pages_ok s4 idx count flag (sections_ok_ext s s4 Hss Hl4 Hs) ltac:(lia) ltac:(lia))
    as (t & pl & Et & Hlt & Hpl & Htb); [simpl; lia|]. rewrite Et. cbn [mbind option_bind].
  eexists. split; [done|]. constructor; try done.
  intros i. simpl. rewrite Htb. by rewrite (va_offset_ext _ s s4).
Qed.

(** The zone after [count] pages from [idx] are given back. *)
Definition given (idx count : Z) (z : mm_zone) : mm_zone :=
  let z1 := with_z_free_pages (z.(z_free_pages) +u count)
              (with_z_free_size (z.(z_free_size) +u (count *u PAGE_SIZE)) z) in
  if Z.eqb z.(bm_current) (u32 (idx + count)) then with_bm_current (u32 idx) z1 else z1.

Record pages_given (id : Z) (z : mm_zone) (idx count : Z) s s' : Prop := {
  pg_zones : forall j, get_zone j s' = if Z.eqb j id then Some (given idx count z) else get_zone j s;
  pg_nzones : length s'.(bank).(zone) = length s.(bank).(zone);
  pg_maplen : length s'.(page_map) = length s.(page_map);
  pg_words : Forall is_u32 s'.(page_map);
  pg_bits : forall n, bit_at s'.(page_map) n =
    if in_run idx count n then false else bit_at s.(page_map) n;
  pg_table : s'.(page_table) = s.(page_table);
  pg_plists : s'.(plists) = s.(plists);
  pg_locks : forall m, lk_free s.(locks) m -> lk_free s'.(locks) m
}.

Lemma page_id_roundtrip i :
  0 <= kernel_start < 2 ^ 32 -> 0 <= i < 2 ^ 20 ->
  va_to_page_id kernel_start (page_id_to_va kernel_start i) = i.
Proof.
  intros Hk Hi. unfold va_to_page_id, page_id_to_va, PAGE_SHIFT.
  rewrite u32_u32. rewrite Z.shiftl_mul_pow2 by lia.
  rewrite u32_add_r, u32_sub_l.
  replace (kernel_start + i * 2 ^ 12 - kernel_start) with (i * 2 ^ 12) by lia.
  rewrite u32_small by lia. rewrite Z.shiftr_div_pow2, Z.div_mul by lia. apply s32_small. lia.
Qed.

Lemma page_va_aligned i :
  0 <= kernel_start < 2 ^ 32 -> kernel_start mod 4096 = 0 ->
  is_aligin (page_id_to_va kernel_start i) PAGE_SIZE = true.
Proof.
  intros Hk Ha. unfold PAGE_SIZE. change 4096 with (2 ^ 12). rewrite is_aligin_eq by lia.
  apply Z.eqb_eq. unfold page_id_to_va, PAGE_SHIFT. rewrite u32_u32, u32_add_r.
  rewrite Z.shiftl_mul_pow2 by lia. unfold u32, wrap.
  rewrite Z.mod_mod_divide by (by exists (2 ^ 20)).
  rewrite Z.mod_add by lia. done.
Qed.

Lemma do_free_pages_ok s id z idx k :
  get_zone id s = Some z -> get_page_struct idx s = Some k -> 0 <= idx -> 0 <= k.(pg_count) ->
  bm_ok s.(page_map) (idx + k.(pg_count)) -> lk_free s.(locks) (zone_mutex id) ->
  exists s', do_free_pages zone_mutex idx id s = Some s' /\ pages_given id z idx k.(pg_count) s s'.
Proof.
  intros Hz Hk Hi Hc Hm Hlk. unfold do_free_pages, page_to_page_id.
  destruct (lk_ok s.(locks) (zone_mutex id) Hlk) as (l1 & l2 & E1 & E2 & Hl).
  unfold mutex_lock_zone. rewrite E1. cbn [mbind option_bind]. set (s1 := with_locks l1 s).
  change (get_page_struct idx s1) with (get_page_struct idx s). rewrite Hk. cbn [mbind option_bind].
  destruct (update_memory_bitmap_ok s1 idx k.(pg_count) false Hm Hi Hc) as (m & Em & Hlm & Hwm & Hbm).
  rewrite Em. cbn [mbind option_bind]. set (s2 := with_page_map m s1).
  set (f1 := fun z => with_z_free_pages _ _).
  destruct (set_zone_ok id (f1 z) s2) as (zs & Ez & Hlz & Hzs); [by exists z|].
  assert (Eu : upd_zone id f1 s2 = Some (with_bank (with_zone zs s2.(bank)) s2)).
  { unfold upd_zone. change (get_zone id s2) with (get_zone id s). by rewrite Hz. }
  rewrite Eu. cbn [mbind option_bind]. set (s3 := with_bank _ s2).
  assert (Hz3 : get_zone id s3 = Some (f1 z)).
  { unfold get_zone. simpl. by rewrite Hzs, Z.eqb_refl. }
  set (f2 := fun z => if Z.eqb z.(bm_current) _ then _ else z).
  destruct (set_zone_ok id (f2 (f1 z)) s3) as (zs' & Ez' & Hlz' & Hzs'); [by exists (f1 z)|].
  assert (Eu' : upd_zone id f2 s3 = Some (with_bank (with_zone zs' s3.(bank)) s3)).
  { unfold upd_zone. by rewrite Hz3. }
  rewrite Eu'. cbn [mbind option_bind]. unfold mutex_unlock_zone. simpl. rewrite E2. simpl.
  eexists. split; [done|]. constructor; try done; simpl.
  - intros j. unfold get_zone. simpl. rewrite Hzs'. destruct (Z.eqb_spec j id) as [->|Hne].
    + done.
    + simpl. rewrite Hzs. by rewrite (proj2 (Z.eqb_neq j id) Hne).
  - rewrite Hlz'. simpl. by rewrite Hlz.
Qed.

Lemma free_pages_ok s id z idx k :
  0 <= kernel_start < 2 ^ 32 -> kernel_start mod 4096 = 0 ->
  get_page_struct idx s = Some k -> 0 <= idx < 2 ^ 20 -> 0 <= k.(pg_count) ->
  truth (k.(pg_flag) &u F_GFP_PAGE_HEADER) = true -> zone_id k.(pg_flag) = id ->
  get_zone id s = Some z ->
  bm_ok s.(page_map) (idx + k.(pg_count)) -> lk_free s.(locks) (zone_mutex id) ->
  exists s', free_pages kernel_start zone_mutex (page_id_to_va kernel_start idx) s = Some s' /\
    pages_given id z idx k.(pg_count) s s'.
Proof.
  intros Hks Hal Hk Hi Hc Hf Hid Hz Hm Hlk. unfold free_pages.
  rewrite page_va_aligned by done. cbn [negb]. unfold va_to_page, get_page.
  rewrite page_id_roundtrip by done. rewrite Hk. cbn [mbind option_bind]. rewrite Hf.
  unfold zone_id in Hid. rewrite Hid, Hz. cbn [mbind option_bind].
  apply do_free_pages_ok; (done || lia).
Qed.
End alloc.
