(* ===== verification/PagesThms.v ===== *)
(** * The page allocator: properties *)

From S2P Require Import Prelude ListHead TaskStruct Sched SchedInv SchedSpec SchedBoot SchedApi.
From S2P Require Import Mutex MutexThms Bitops MmTypes KernelLocks Pages PagesInv.

(** ** A small machine

    Twelve pages from 0x80000000: a normal zone of eight (two used by the kernel),
    a DMA zone of four; the mutexes are those of [demo_mutex]. *)

Definition blank_page : page := Mk_page 0 0 0 0 0 0.

Definition demo_section (phy vir size : Z) : mm_section :=
  Mk_section phy vir size (s32 (vir - phy)) 1.

Definition no_section : mm_section := Mk_section 0 0 0 0 0.

Definition demo_bank : mm_bank :=
  Mk_bank 49152 12 2
    [ Mk_zone [demo_section 0x30000000 0x80000000 32768; no_section; no_section; no_section] 1
        32768 24576 8 6 0 8 2;
      Mk_zone [demo_section 0x30008000 0x80008000 16384; no_section; no_section; no_section] 1
        16384 16384 4 4 8 12 8;
      Mk_zone [no_section; no_section; no_section; no_section] 0 0 0 0 0 12 12 12;
      Mk_zone [no_section; no_section; no_section; no_section] 0 0 0 0 0 0 0 0 ].

Definition demo_mm {L : Type} (l : L) : mm_state L :=
  Mk_mm demo_bank (replicate 13 blank_page) [3; 0] ∅ l.

Definition demo_zone : mm_zone := default (Mk_zone [] 0 0 0 0 0 0 0 0) (aget demo_bank.(zone) 0).

Lemma demo_zone_ready {L : Type} {LC : LockCalls L} {LO : LockOps L} (l : L) (zm : Z -> Z) :
  lk_free l (zm 0) -> zone_ready zm 0 demo_zone (demo_mm l).
Proof.
  intros Hl. constructor; try done; simpl; try lia.
  - split; [|simpl; lia]. repeat constructor; lia.
  - split; [done|]. intros i z Hz. unfold get_zone in Hz. pose proof (aget_lt _ _ _ Hz) as Hlt.
    simpl in Hlt. assert (Ei : i = 0 \/ i = 1 \/ i = 2 \/ i = 3) by lia.
    destruct Ei as [->|[->|[->| ->]]]; injection Hz as <-; simpl; lia.
Qed.

Lemma demo_mutex_free : mutex_free demo_mutex 100.
Proof.
  use_demo_mutex. split; [done|]. by eexists _, _, _.
Qed.

(** ** The search *)

(** C14. The search of [find_continous_pages].  While [bm_current] is before [bm_end], or
    when the zone (with the page at [bm_end]) has the [count] free pages, it terminates
    and is two scans that count free pages: from [bm_current] to [bm_end], then from [bm_start] to
    [bm_current]; the result is the index of the last page counted minus
    [count - 1], or 0.  In the only other case, [bm_current] at [bm_end] and fewer than
    [count] free pages, the loop never ends.  For one page the result of the scans is the
    first free page in that order, and 0 (in a zone behind page 0) only when both
    ranges have no free page. *)
Theorem find_continous_pages_two_scans {L : Type} (s : mm_state L) (z : mm_zone) (count : Z)
    (Hb : 0 <= z.(bm_start) <= z.(bm_current) /\ z.(bm_current) <= z.(bm_end) /\
          z.(bm_end) + 1 < 2 ^ 31)
    (Hm : bm_ok s.(page_map) (z.(bm_end) + 1)) (Hc : 1 <= count < 2 ^ 31) :
  (z.(bm_current) < z.(bm_end) \/ count <= pages_in_reach s.(page_map) z ->
   find_continous_pages z count s = Some (search_result s.(page_map) z count)) /\
  (z.(bm_current) = z.(bm_end) -> pages_in_reach s.(page_map) z < count ->
   forall fuel, fcp_loop fuel s.(page_map) z count (s32 z.(bm_current)) false 0 = None) /\
  (count = 1 ->
   let p := search_result s.(page_map) z 1 in
   (p <> 0 -> z.(bm_start) <= p <= z.(bm_end) /\ bit_at s.(page_map) p = false /\
      (z.(bm_current) <= p -> forall j, z.(bm_current) <= j < p -> bit_at s.(page_map) j = true) /\
      (p < z.(bm_current) -> forall j, z.(bm_start) <= j < p \/ z.(bm_current) <= j <= z.(bm_end) ->
         bit_at s.(page_map) j = true)) /\
   (p = 0 -> 0 < z.(bm_start) -> forall j, z.(bm_start) <= j <= z.(bm_end) ->
      bit_at s.(page_map) j = true)).
Proof.
  split; [intros Hor; by apply (find_continous_pages_ok s.(page_map))|]. split.
  { intros Hcur Hreach fuel. rewrite Hcur, s32_small by lia.
    apply (fcp_never s.(page_map) z count); try done; [lia|].
    replace (Z.to_nat (z.(bm_end) - z.(bm_end) + 1)) with 1%nat by lia.
    destruct (decide (bit_at s.(page_map) z.(bm_end) = true)) as [E|E]; cbn [clear_bits].
    - rewrite E. lia.
    - apply not_true_is_false in E. rewrite E.
      assert (0 < pages_in_reach s.(page_map) z) by (apply (clear_bits_pos _ _ _ z.(bm_end)); [lia|done]). lia. }
  intros -> p.
  unfold p, search_result.
  destruct (nth_free _ (Z.to_nat (z.(bm_end) - z.(bm_current) + 1)) _ 1) as [q|] eqn:E1.
  - pose proof (nth_free_range _ _ _ 1 _ ltac:(lia) E1) as [Hq Hbit].
    replace (q - 1 + 1) with q by lia. split; [|intros; lia]. intros _.
    split; [lia|]. split; [done|]. split; [|lia]. intros _ j Hj. by apply (nth_free_first _ _ _ _ E1).
  - pose proof (proj1 (nth_free_none _ _ _) E1) as Hall1.
    destruct (nth_free _ (Z.to_nat (z.(bm_current) - z.(bm_start) + 1)) _ 1) as [q|] eqn:E2.
    + pose proof (nth_free_range _ _ _ 1 _ ltac:(lia) E2) as [Hq Hbit].
      replace (q - 1 + 1) with q by lia. split; [|intros; lia]. intros _.
      split; [lia|]. split; [done|]. split; [intros; lia|].
      intros _ j [Hj|Hj]; [by apply (nth_free_first _ _ _ _ E2)|apply Hall1; lia].
    + pose proof (proj1 (nth_free_none _ _ _) E2) as Hall2. split; [done|].
      intros _ _ j Hj. destruct (decide (j < z.(bm_current))); [apply Hall2; lia|apply Hall1; lia].
Qed.

Lemma find_continous_pages_two_scans_witness :
  find_continous_pages demo_zone 1 (demo_mm tt) = Some 2 /\
  find_continous_pages (with_bm_current 8 demo_zone) 3 (demo_mm tt) = Some 2 /\
  fcp_loop 1000 [3; 0] (with_bm_current 8 demo_zone) 8 (s32 8) false 0 = None.
Proof.
  assert (Hok : bm_ok [3; 0] 9) by (split; [repeat constructor; lia|simpl; lia]).
  pose proof (find_continous_pages_two_scans (demo_mm tt) demo_zone 1 ltac:(simpl; lia) Hok ltac:(lia)) as [H1 _].
  pose proof (find_continous_pages_two_scans (demo_mm tt) (with_bm_current 8 demo_zone) 3
    ltac:(simpl; lia) Hok ltac:(lia)) as [H2 _].
  pose proof (find_continous_pages_two_scans (demo_mm tt) (with_bm_current 8 demo_zone) 8
    ltac:(simpl; lia) Hok ltac:(lia)) as (_ & H3 & _).
  split; [rewrite H1 by (left; simpl; lia); vm_compute; reflexivity|].
  split; [rewrite H2 by (right; vm_compute; discriminate); vm_compute; reflexivity|].
  apply H3; vm_compute; reflexivity.
Defined.

(** ** Allocation *)

(** C15. [get_free_pages] on a zone in order: when the zone has too few free pages
    or the search fails it returns NULL and changes nothing; otherwise it returns
    the address of the first page found, marks exactly the run of [count] pages
    used, charges the zone and moves its search position past the run, initialises
    the structure of each page of the run (physical address, reference count 1)
    and touches no other page, no other zone and no mutex.  The mutexes are used
    through their interface only. *)
Theorem get_free_pages_takes {L : Type} {LC : LockCalls L} {LO : LockOps L} (kernel_start : Z) (zone_mutex : Z -> Z)
    (s : mm_state L) (z : mm_zone) (count flag : Z)
    (Hz : zone_ready zone_mutex (zone_id flag) z s) (Hc : 1 <= count < 2 ^ 20) :
  let idx := search_result s.(page_map) z count in
  if Z.ltb z.(z_free_pages) count || Z.eqb idx 0 then
    exists l, get_free_pages kernel_start zone_mutex count flag s = Some (0, with_locks l s) /\
      forall m, lk_free s.(locks) m -> lk_free l m
  else
    exists s', get_free_pages kernel_start zone_mutex count flag s =
        Some (page_id_to_va kernel_start idx, s') /\
      pages_taken kernel_start (zone_id flag) z idx count flag s s' /\
      forall n, idx <= n < idx + count ->
        bit_at s'.(page_map) n = true /\
        exists k, get_page_struct n s' = Some k /\ k.(pg_usage) = 1 /\
          k.(free_base) = page_id_to_va kernel_start n.
Proof.
  intros idx. pose proof (get_free_pages_ok kernel_start zone_mutex s z count flag (zone_ready_usable _ _ _ _ Hz) Hc) as H.
  cbv zeta in H. fold idx in H.
  destruct (Z.ltb z.(z_free_pages) count || Z.eqb idx 0) eqn:E; [done|].
  destruct H as (s' & Es & Ht). exists s'. split; [done|]. split; [done|]. intros n Hn.
  assert (Hr : in_run idx count n = true).
  { unfold in_run. destruct (Z.leb_spec idx n), (Z.ltb_spec n (idx + count)); simpl; (done || lia). }
  split; [by rewrite (pt_bits _ _ _ _ _ _ _ _ Ht), Hr|].
  unfold get_page_struct. rewrite (pt_pages _ _ _ _ _ _ _ _ Ht), Hr.
  destruct (va_get_pv_offset_total (page_to_va kernel_start n) s (zr_sections _ _ _ _ Hz)) as [off Eo].
  rewrite Eo. simpl. by eexists.
Qed.

Lemma get_free_pages_takes_witness :
  exists s', get_free_pages 0x80000000 (fun _ => 100) 3 GFP_KERNEL (demo_mm demo_mutex) =
    Some (0x80002000, s').
Proof.
  pose proof (get_free_pages_takes 0x80000000 (fun _ => 100) (demo_mm demo_mutex) demo_zone 3
    GFP_KERNEL (demo_zone_ready demo_mutex (fun _ => 100) demo_mutex_free) ltac:(lia)) as H.
  assert (E : search_result [3; 0] demo_zone 3 = 2) by (vm_compute; reflexivity).
  cbv zeta in H. change (page_map (demo_mm demo_mutex)) with [3; 0] in H. rewrite E in H.
  cbn [z_free_pages demo_zone default aget demo_bank zone Z.leb orb] in H.
  destruct H as (s' & Es & _). exists s'. exact Es.
Defined.

(** ** Allocation, then release *)

Lemma zone_id_header flag : 0 <= flag -> zone_id (flag |u F_GFP_PAGE_HEADER) = zone_id flag.
Proof.
  intros Hf. unfold zone_id, GFP_ZONE_ID_MASK, F_GFP_PAGE_HEADER. f_equal.
  rewrite Z.land_lor_distr_l. change (Z.land 32 15) with 0. by rewrite Z.lor_0_r.
Qed.

Lemma header_flag flag : truth ((flag |u F_GFP_PAGE_HEADER) &u F_GFP_PAGE_HEADER) = true.
Proof.
  unfold truth, F_GFP_PAGE_HEADER.
  destruct (Z.eqb_spec (Z.land (Z.lor flag 32) 32) 0) as [E|]; [|done].
  assert (H : Z.testbit (Z.land (Z.lor flag 32) 32) 5 = true)
    by (rewrite Z.land_spec, Z.lor_spec; change (Z.testbit 32 5) with true; by rewrite orb_true_r).
  by rewrite E, Z.bits_0 in H.
Qed.

Section roundtrip.
Context {L : Type} {LC : LockCalls L} {LO : LockOps L} (kernel_start : Z) (zone_mutex : Z -> Z).
Hypothesis Hks : 0 <= kernel_start < 2 ^ 32 /\ kernel_start mod 4096 = 0.

Lemma alloc_then_free (s : mm_state L) (z : mm_zone) (count flag : Z)
    (idx := search_result s.(page_map) z count) :
  zone_ready zone_mutex (zone_id flag) z s -> 1 <= count < 2 ^ 20 -> 0 <= flag ->
  count <= z.(z_free_pages) -> idx <> 0 ->
  exists s1 s2, get_free_pages kernel_start zone_mutex count flag s =
      Some (page_id_to_va kernel_start idx, s1) /\
    pages_taken kernel_start (zone_id flag) z idx count flag s s1 /\
    free_pages kernel_start zone_mutex (page_id_to_va kernel_start idx) s1 = Some s2 /\
    pages_given (zone_id flag) (taken idx count z) idx (u8 count) s1 s2.
Proof.
  intros Hz Hc Hf Hfree Hne. pose proof Hz as [H1 H2 H3 H4 H5 H6 H7 H8].
  pose proof (get_free_pages_ok kernel_start zone_mutex s z count flag (zone_ready_usable _ _ _ _ Hz) Hc) as H.
  cbv zeta in H. fold idx in H. rewrite (proj2 (Z.ltb_ge _ _) Hfree) in H.
  rewrite (proj2 (Z.eqb_neq _ _) Hne) in H. destruct H as (s1 & E1 & Ht).
  destruct (search_result_range s.(page_map) z count ltac:(lia) ltac:(lia) Hne) as [Hlo Hhi].
  fold idx in Hlo, Hhi.
  destruct (va_get_pv_offset_total (page_to_va kernel_start idx) s H6) as [off Eo].
  assert (Hp : get_page_struct idx s1 = Some (init_page kernel_start idx count flag off idx)).
  { unfold get_page_struct. rewrite (pt_pages _ _ _ _ _ _ _ _ Ht). unfold in_run.
    rewrite (proj2 (Z.leb_le idx idx)), (proj2 (Z.ltb_lt idx (idx + count))) by lia. simpl.
    by rewrite Eo. }
  assert (Hcnt : (init_page kernel_start idx count flag off idx).(pg_count) = u8 count).
  { unfold init_page. simpl. by rewrite Z.eqb_refl. }
  pose proof (u8_range count) as Hu8.
  assert (Hle : u8 count <= count) by (apply Z.mod_le; lia).
  destruct (free_pages_ok kernel_start zone_mutex s1 (zone_id flag) (taken idx count z) idx _
    (proj1 Hks) (proj2 Hks) Hp) as (s2 & E2 & Hg).
  - lia.
  - rewrite Hcnt. lia.
  - apply header_flag.
  - by apply zone_id_header.
  - by rewrite (pt_zones _ _ _ _ _ _ _ _ Ht), Z.eqb_refl.
  - rewrite Hcnt. destruct H4 as [_ Hml]. split; [apply Ht|].
    rewrite (pt_maplen _ _ _ _ _ _ _ _ Ht). lia.
  - by apply (pt_locks _ _ _ _ _ _ _ _ Ht).
  - rewrite Hcnt in Hg. by exists s1, s2.
Qed.

Lemma in_run_true idx count n : idx <= n < idx + count -> in_run idx count n = true.
Proof.
  intros. unfold in_run. destruct (Z.leb_spec idx n), (Z.ltb_spec n (idx + count)); (done || lia).
Qed.

Lemma in_run_false idx count n : ~ (idx <= n < idx + count) -> in_run idx count n = false.
Proof.
  intros. unfold in_run. destruct (Z.leb_spec idx n), (Z.ltb_spec n (idx + count)); (done || lia).
Qed.

Lemma given_taken idx count z :
  0 <= idx -> 0 <= count < 2 ^ 20 -> idx + count < 2 ^ 20 -> 0 <= z.(z_free_pages) < 2 ^ 20 ->
  is_u32 z.(z_free_size) -> given idx count (taken idx count z) = with_bm_current idx z.
Proof.
  intros Hi Hc Hs Hf Hfs.
  assert (Hsa : forall x c, 0 <= x < 2 ^ 32 -> (x -u c) +u c = x).
  { intros x c Hx. rewrite u32_add_l. replace (x - c + c) with x by lia. by apply u32_small. }
  unfold given, taken. simpl. rewrite Z.eqb_refl, !Hsa by (done || lia).
  rewrite u32_small by lia. by destruct z.
Qed.
End roundtrip.

(** Round trip: after a successful allocation of fewer than 256 pages that were
    all free, releasing the returned address restores the page map, the counters
    of the zone and every other zone; only the search position changed, to the
    start of the released run. *)
Theorem alloc_free_roundtrip {L : Type} {LC : LockCalls L} {LO : LockOps L} (kernel_start : Z) (zone_mutex : Z -> Z)
    (s : mm_state L) (z : mm_zone) (count flag : Z)
    (Hks : 0 <= kernel_start < 2 ^ 32 /\ kernel_start mod 4096 = 0)
    (Hz : zone_ready zone_mutex (zone_id flag) z s) (Hc : 1 <= count < 256) (Hf : 0 <= flag)
    (Hfree : count <= z.(z_free_pages)) (Hfs : is_u32 z.(z_free_size))
    (Hidx : search_result s.(page_map) z count <> 0)
    (Hrun : forall n, search_result s.(page_map) z count <= n <
              search_result s.(page_map) z count + count -> bit_at s.(page_map) n = false) :
  exists va s1 s2, get_free_pages kernel_start zone_mutex count flag s = Some (va, s1) /\
    free_pages kernel_start zone_mutex va s1 = Some s2 /\
    (forall n, bit_at s2.(page_map) n = bit_at s.(page_map) n) /\
    (forall j, get_zone j s2 =
       if Z.eqb j (zone_id flag)
       then Some (with_bm_current (search_result s.(page_map) z count) z) else get_zone j s).
Proof.
  set (idx := search_result s.(page_map) z count) in *.
  destruct (alloc_then_free kernel_start zone_mutex Hks s z count flag Hz ltac:(lia) Hf Hfree Hidx)
    as (s1 & s2 & E1 & Ht & E2 & Hg). fold idx in E1, E2, Ht, Hg.
  rewrite u8_small in Hg by lia. eexists _, s1, s2. split; [exact E1|]. split; [exact E2|].
  pose proof Hz as [H1 H2 H3 H4 H5 H6 H7 H8].
  destruct (search_result_range s.(page_map) z count ltac:(lia) ltac:(lia) Hidx) as [Hlo Hhi].
  fold idx in Hlo, Hhi. split.
  - intros n. rewrite (pg_bits _ _ _ _ _ _ Hg), (pt_bits _ _ _ _ _ _ _ _ Ht).
    destruct (in_run idx count n) eqn:E; [|done]. symmetry. apply Hrun. unfold in_run in E.
    destruct (Z.leb_spec idx n), (Z.ltb_spec n (idx + count)); simpl in E; (done || lia).
  - intros j. rewrite (pg_zones _ _ _ _ _ _ Hg), (pt_zones _ _ _ _ _ _ _ _ Ht).
    destruct (Z.eqb j (zone_id flag)); [|done]. f_equal. apply given_taken; (done || lia).
Qed.

Lemma alloc_free_roundtrip_witness :
  exists va s1 s2,
    get_free_pages 0x80000000 (fun _ => 100) 3 GFP_KERNEL (demo_mm demo_mutex) = Some (va, s1) /\
    free_pages 0x80000000 (fun _ => 100) va s1 = Some s2.
Proof.
  assert (E : search_result [3; 0] demo_zone 3 = 2) by (vm_compute; reflexivity).
  pose proof (demo_zone_ready demo_mutex (fun _ => 100) demo_mutex_free) as Hz.
  destruct (alloc_free_roundtrip 0x80000000 (fun _ => 100) (demo_mm demo_mutex) demo_zone 3 GFP_KERNEL
    ltac:(done) Hz ltac:(lia) ltac:(done)
    ltac:(simpl; lia) ltac:(unfold is_u32; simpl; lia)) as (va & s1 & s2 & E1 & E2 & _).
  - change (page_map (demo_mm demo_mutex)) with [3; 0]. rewrite E. lia.
  - change (page_map (demo_mm demo_mutex)) with [3; 0]. rewrite E. intros n Hn.
    assert (En : n = 2 \/ n = 3 \/ n = 4) by lia.
    destruct En as [->|[->| ->]]; reflexivity.
  - exists va, s1, s2. split; [exact E1|exact E2].
Defined.

(** ** Reference counts *)

(** [page_put] drops a reference: while others remain (the count stays between
    1 and 254) the page map and the zones do not change and [page_get] undoes it;
    the last reference releases the run the page heads, exactly as [free_pages] on
    its address does. *)
Theorem page_put_releases_last {L : Type} {LC : LockCalls L} {LO : LockOps L} (kernel_start : Z) (zone_mutex : Z -> Z)
    (s : mm_state L) (pg : Z) (k : page)
    (Hk : get_page_struct pg s = Some k) (Hu : 1 <= k.(pg_usage) <= 255) :
  exists s1, upd_page pg (with_pg_usage (k.(pg_usage) - 1)) s = Some s1 /\
    page_put kernel_start zone_mutex pg s =
      (if Z.eqb k.(pg_usage) 1 then free_pages kernel_start zone_mutex (page_to_va kernel_start pg) s1
       else Some s1) /\
    s1.(page_map) = s.(page_map) /\ s1.(bank) = s.(bank) /\ page_get pg s1 = Some s.
Proof.
  unfold get_page_struct in Hk. pose proof (aget_lt _ _ _ Hk) as Hlt.
  pose proof (aset_Some s.(page_table) pg (with_pg_usage (k.(pg_usage) - 1) k) Hlt) as Ea.
  set (t1 := <[Z.to_nat pg := _]> s.(page_table)) in *.
  assert (E1 : upd_page pg (with_pg_usage (k.(pg_usage) - 1)) s = Some (with_page_table t1 s)).
  { unfold upd_page. by rewrite (aupd_Some _ _ _ _ Hk). }
  exists (with_page_table t1 s). split; [done|]. split; [|split; [done|split; [done|]]].
  - unfold page_put. assert (E2 : upd_page pg (fun k => with_pg_usage (u8 (k.(pg_usage) - 1)) k) s =
      Some (with_page_table t1 s)).
    { unfold upd_page. rewrite (aupd_Some _ _ _ _ Hk). rewrite u8_small by lia. done. }
    rewrite E2. simpl. unfold get_page_struct. simpl. rewrite (aget_aset_eq _ _ _ _ Ea). simpl.
    destruct (Z.eqb_spec (k.(pg_usage) - 1) 0), (Z.eqb_spec k.(pg_usage) 1); (done || lia).
  - unfold page_get, upd_page. simpl. rewrite (aupd_Some _ _ _ _ (aget_aset_eq _ _ _ _ Ea)). simpl.
    replace (u8 (k.(pg_usage) - 1 + 1)) with k.(pg_usage) by (rewrite u8_small by lia; lia).
    unfold t1. rewrite list_insert_insert_eq, list_insert_id.
    + by destruct s.
    + apply aget_Some in Hk as [_ Hk]. rewrite Hk. by destruct k.
Qed.

Definition demo_shared : mm_state sched_state :=
  with_page_table (<[2%nat := with_pg_usage 2 blank_page]> (replicate 13 blank_page))
    (demo_mm demo_mutex).

Lemma page_put_releases_last_witness :
  exists s1, page_put 0x80000000 (fun _ => 100) 2 demo_shared = Some s1 /\
    page_get 2 s1 = Some demo_shared.
Proof.
  destruct (page_put_releases_last 0x80000000 (fun _ => 100) demo_shared 2 (with_pg_usage 2 blank_page)
    eq_refl ltac:(simpl; lia)) as (s1 & _ & E & _ & _ & E2).
  exists s1. split; [exact E|exact E2].
Defined.

(** ** Deviations *)

(** The page count is stored in 8 bits: releasing a run of [count >= 256] pages
    gives back only the first [count mod 256] of them; the others stay marked
    used for ever. *)
Theorem free_pages_truncates {L : Type} {LC : LockCalls L} {LO : LockOps L} (kernel_start : Z) (zone_mutex : Z -> Z)
    (s : mm_state L) (z : mm_zone) (count flag : Z)
    (Hks : 0 <= kernel_start < 2 ^ 32 /\ kernel_start mod 4096 = 0)
    (Hz : zone_ready zone_mutex (zone_id flag) z s) (Hc : 256 <= count < 2 ^ 20) (Hf : 0 <= flag)
    (Hfree : count <= z.(z_free_pages)) (Hidx : search_result s.(page_map) z count <> 0) :
  let idx := search_result s.(page_map) z count in
  exists s1 s2, get_free_pages kernel_start zone_mutex count flag s =
      Some (page_id_to_va kernel_start idx, s1) /\
    free_pages kernel_start zone_mutex (page_id_to_va kernel_start idx) s1 = Some s2 /\
    forall n, idx + count mod 256 <= n < idx + count -> bit_at s2.(page_map) n = true.
Proof.
  intros idx.
  destruct (alloc_then_free kernel_start zone_mutex Hks s z count flag Hz ltac:(lia) Hf Hfree Hidx)
    as (s1 & s2 & E1 & Ht & E2 & Hg). fold idx in E1, E2, Ht, Hg.
  exists s1, s2. split; [exact E1|]. split; [exact E2|]. intros n Hn.
  rewrite (pg_bits _ _ _ _ _ _ Hg), (pt_bits _ _ _ _ _ _ _ _ Ht).
  pose proof (Z.mod_pos_bound count 256). unfold u8, wrap. change (2 ^ 8) with 256.
  rewrite (in_run_false idx (count mod 256)) by lia. by rewrite in_run_true by lia.
Qed.

(** A zone of 320 pages. *)
Definition big_zone : mm_zone :=
  Mk_zone [demo_section 0x30000000 0x80000000 1310720; no_section; no_section; no_section] 1
    1310720 1302528 320 318 0 320 2.

Definition big_mm : mm_state unit :=
  Mk_mm (Mk_bank 1310720 320 1 [big_zone; Mk_zone [] 0 0 0 0 0 0 0 0; Mk_zone [] 0 0 0 0 0 0 0 0;
    Mk_zone [] 0 0 0 0 0 0 0 0]) (replicate 321 blank_page) (3 :: replicate 10 0) ∅ tt.

Lemma free_pages_truncates_witness :
  exists s1 s2, @get_free_pages unit _ 0x80000000 (fun _ => 0) 256 GFP_KERNEL big_mm =
      Some (page_id_to_va 0x80000000 2, s1) /\
    @free_pages unit _ 0x80000000 (fun _ => 0) (page_id_to_va 0x80000000 2) s1 = Some s2 /\
    forall n, 2 <= n < 258 -> bit_at s2.(page_map) n = true.
Proof.
  assert (Hz : @zone_ready unit _ _ (fun _ => 0) (zone_id GFP_KERNEL) big_zone big_mm).
  { constructor; try done; simpl; try lia.
    - split; [repeat constructor; lia|simpl; lia].
    - split; [done|]. intros i z Hz. unfold get_zone in Hz. pose proof (aget_lt _ _ _ Hz) as Hlt.
      simpl in Hlt. assert (Ei : i = 0 \/ i = 1 \/ i = 2 \/ i = 3) by lia.
      destruct Ei as [->|[->|[->| ->]]]; injection Hz as <-; simpl; lia. }
  assert (E : search_result big_mm.(page_map) big_zone 256 = 2) by (vm_compute; reflexivity).
  pose proof (@free_pages_truncates unit _ _ 0x80000000 (fun _ => 0) big_mm big_zone 256 GFP_KERNEL
    ltac:(done) Hz ltac:(lia) ltac:(done) ltac:(simpl; lia)) as H.
  rewrite E in H. destruct (H ltac:(lia)) as (s1 & s2 & E1 & E2 & Hb).
  exists s1, s2. split; [exact E1|]. split; [exact E2|]. intros n Hn. apply Hb.
  change (256 mod 256) with 0. lia.
Defined.

(** The search does not reset its count at a used page: on a zone where page 3
    is in use it hands out pages 3 and 4 for a request of two, so that page 3 is
    given to a second owner. *)
Theorem find_continous_pages_overlaps :
  exists s' s'' va,
    @update_memory_bitmap unit 3 1 true (demo_mm tt) = Some s' /\
    bit_at s'.(page_map) 3 = true /\
    @get_free_pages unit _ 0x80000000 (fun _ => 0) 2 GFP_KERNEL s' = Some (va, s'') /\
    va_to_page_id 0x80000000 va = 3.
Proof.
  destruct (@update_memory_bitmap unit 3 1 true (demo_mm tt)) as [s'|] eqn:E; [|by vm_compute in E].
  vm_compute in E. injection E as <-.
  eexists _, _, _. split; [reflexivity|]. split; [reflexivity|].
  split; [vm_compute; reflexivity|vm_compute; reflexivity].
Qed.

(** The search reads the bit of [bm_end], the first page of the next zone: when
    every page of the normal zone from [bm_current] is used, a request for a
    normal page is answered with the first page of the DMA zone, and the DMA zone
    still counts that page as free. *)
Theorem get_free_page_crosses_zones :
  exists s' s'' va z1,
    @update_memory_bitmap unit 2 6 true (demo_mm tt) = Some s' /\
    @get_free_page unit _ 0x80000000 (fun _ => 0) GFP_KERNEL s' = Some (va, s'') /\
    get_zone MM_ZONE_DMA s'' = Some z1 /\
    va_to_page_id 0x80000000 va = z1.(bm_start) /\ z1.(z_free_pages) = 4.
Proof.
  eexists _, _, _, _. split; [vm_compute; reflexivity|]. split; [vm_compute; reflexivity|].
  split; [vm_compute; reflexivity|]. split; vm_compute; reflexivity.
Qed.

(** When the search position is at the end of its zone and no page of the zone
    (and not the one after it) is free, the loop of [find_continous_pages] never
    ends: its exit test runs after the position was reset. *)
Theorem find_continous_pages_diverges (bm : bitmap) (z : mm_zone) (count : Z) (fuel : nat)
    (Hb : 0 <= z.(bm_start) < z.(bm_end) /\ z.(bm_end) + 1 < 2 ^ 31)
    (Hcur : z.(bm_current) = z.(bm_end)) (Hc : 1 <= count < 2 ^ 31) (Hm : bm_ok bm (z.(bm_end) + 1))
    (Hfull : forall n, z.(bm_start) <= n <= z.(bm_end) -> bit_at bm n = true) :
  fcp_loop fuel bm z count (s32 z.(bm_current)) false 0 = None.
Proof.
  rewrite Hcur, s32_small by lia. assert (Hz : forall lo n, z.(bm_start) <= lo -> lo + Z.of_nat n <= z.(bm_end) + 1 ->
    clear_bits bm lo n = 0).
  { intros lo n. revert lo. induction n as [|n IH]; intros lo Hlo Hn; [done|]. cbn [clear_bits].
    rewrite Hfull, IH by lia. done. }
  apply (fcp_never bm z count); try done; try lia; unfold pages_in_reach; rewrite Hz by lia; lia.
Qed.

Lemma find_continous_pages_diverges_witness :
  fcp_loop 100 [0xff] (Mk_zone [] 0 0 0 4 1 0 4 4) 1 (s32 4) false 0 = None.
Proof.
  apply (find_continous_pages_diverges [0xff] (Mk_zone [] 0 0 0 4 1 0 4 4) 1 100).
  - simpl. lia.
  - reflexivity.
  - lia.
  - split; [repeat constructor; unfold is_u32; lia|simpl; lia].
  - simpl. intros n Hn. assert (En : n = 0 \/ n = 1 \/ n = 2 \/ n = 3 \/ n = 4) by lia.
    destruct En as [->|[->|[->|[->| ->]]]]; reflexivity.
Defined.
