(* ===== verification/PagesRun.v ===== *)
(** * Sequences of page operations

    Any sequence of single-page allocations, refused ones too, and releases on one zone, as
    long as the search cannot take the page behind the zone for one of its own (what it
    does then is shown in [PagesThms]): the page map is the map at the start with the pages that are
    out, the free count is the number of clear bits, and no page is handed out twice. *)

From S2P Require Import Prelude ListHead TaskStruct Bitops MmTypes Pages PagesInv MutexThms.
From S2P Require Import KernelLocks PagesThms.

Section run.
Context {L : Type} {LC : LockCalls L} {LO : LockOps L} (kernel_start : Z) (zone_mutex : Z -> Z) (flag : Z).
Hypothesis Hks : 0 <= kernel_start < 2 ^ 32 /\ kernel_start mod 4096 = 0.
Hypothesis Hflag : 0 <= flag.

Implicit Types (s : mm_state L) (z : mm_zone) (live : gset Z).

Abbreviation zid := (zone_id flag).
Abbreviation addr := (page_id_to_va kernel_start).

(** The state when the pages [live] of the zone are out, which had the map [bm0] when
    none was. *)
Record pool (bm0 : bitmap) live z s : Prop := {
  po_zone : get_zone zid s = Some z;
  po_id : 0 <= zid < MM_ZONE_UNKNOW;
  po_bounds : 0 <= z.(bm_start) <= z.(bm_current) /\ z.(bm_current) <= z.(bm_end) /\ z.(bm_end) + 1 < 2 ^ 20;
  po_map : bm_ok s.(page_map) (z.(bm_end) + 1);
  po_table : z.(bm_end) + 1 <= Z.of_nat (length s.(page_table));
  po_sections : sections_ok s;
  po_lock : lk_free s.(locks) (zone_mutex zid);
  po_zero : bit_at bm0 0 = true;
  po_bits : forall n, bit_at s.(page_map) n = bit_at bm0 n || bool_decide (n ∈ live);
  po_free : z.(z_free_pages) = clear_bits s.(page_map) z.(bm_start) (Z.to_nat (z.(bm_end) - z.(bm_start)));
  po_small : z.(z_free_pages) < 2 ^ 20;
  po_live : forall i, i ∈ live -> z.(bm_start) <= i < z.(bm_end) /\ bit_at bm0 i = false /\
    exists p, get_page_struct i s = Some p /\ p.(pg_count) = 1 /\
      truth (p.(pg_flag) &u F_GFP_PAGE_HEADER) = true /\ zone_id p.(pg_flag) = zid
}.

(** The search stays in the zone: the page behind it is in use, or there is a free page
    between the search position and the end. *)
Definition stays_inside z s : Prop :=
  bit_at s.(page_map) z.(bm_end) = true \/
  exists i, z.(bm_current) <= i < z.(bm_end) /\ bit_at s.(page_map) i = false.

Definition page_inside s : Prop :=
  exists z, get_zone zid s = Some z /\ 0 < z.(z_free_pages) /\ stays_inside z s.

(** Runs of allocations, of allocations refused because no page is free, and of releases
    of pages that are out. *)
Inductive page_run (s0 : mm_state L) : gset Z -> mm_state L -> Prop :=
  | page_start : page_run s0 ∅ s0
  | page_take live s i s' :
      page_run s0 live s -> page_inside s ->
      get_free_page kernel_start zone_mutex flag s = Some (addr i, s') -> 0 <= i < 2 ^ 20 ->
      page_run s0 ({[i]} ∪ live) s'
  | page_none live s z va s' :
      page_run s0 live s -> get_zone zid s = Some z -> z.(z_free_pages) = 0 ->
      get_free_page kernel_start zone_mutex flag s = Some (va, s') ->
      page_run s0 live s'
  | page_free live s i s' :
      page_run s0 live s -> i ∈ live -> free_pages kernel_start zone_mutex (addr i) s = Some s' ->
      page_run s0 (live ∖ {[i]}) s'.

Lemma search_inside z s :
  0 <= z.(bm_start) <= z.(bm_current) -> z.(bm_current) <= z.(bm_end) -> stays_inside z s ->
  0 < clear_bits s.(page_map) z.(bm_start) (Z.to_nat (z.(bm_end) - z.(bm_start))) ->
  exists p, search_result s.(page_map) z 1 = p /\ z.(bm_start) <= p < z.(bm_end) /\ bit_at s.(page_map) p = false.
Proof.
  intros H0 H1 Hs (q & Hq & Eq)%clear_bits_found. unfold search_result.
  destruct (nth_free s.(page_map) (Z.to_nat (z.(bm_end) - z.(bm_current) + 1)) z.(bm_current) 1) as [p|] eqn:E.
  - exists p. split; [lia|]. pose proof (nth_free_range _ _ _ 1 _ ltac:(done) E) as [Hp Ep]. split; [|done].
    split; [lia|]. destruct Hs as [He|(i & Hi & Ei)].
    + destruct (decide (p = z.(bm_end))) as [->|]; [congruence|lia].
    + destruct (Z.le_gt_cases p i); [lia|]. pose proof (nth_free_first _ _ _ _ E i ltac:(lia)). congruence.
  - pose proof (proj1 (nth_free_none _ _ _) E) as Hfull.
    destruct (nth_free s.(page_map) (Z.to_nat (z.(bm_current) - z.(bm_start) + 1)) z.(bm_start) 1) as [p|] eqn:E2.
    + exists p. split; [lia|]. pose proof (nth_free_range _ _ _ 1 _ ltac:(done) E2) as [Hp Ep]. split; [|done].
      destruct (decide (p < z.(bm_current))); [lia|]. rewrite Hfull in Ep by lia. done.
    + pose proof (proj1 (nth_free_none _ _ _) E2 q) as Hq2.
      destruct (decide (q < z.(bm_current))); [rewrite Hq2 in Eq by lia|rewrite Hfull in Eq by lia]; done.
Qed.

(** Page addresses determine the pages. *)
Lemma addr_inj i j : 0 <= i < 2 ^ 20 -> 0 <= j < 2 ^ 20 -> addr i = addr j -> i = j.
Proof.
  intros Hi Hj E. rewrite <- (page_id_roundtrip kernel_start i), <- (page_id_roundtrip kernel_start j) by (lia || apply Hks).
  by rewrite E.
Qed.

Lemma pool_usable bm0 live z s : pool bm0 live z s -> zone_usable zone_mutex zid z s.
Proof.
  intros []. pose proof (clear_bits_range s.(page_map) z.(bm_start) (Z.to_nat (z.(bm_end) - z.(bm_start)))).
  constructor; try done; [|lia]. right. unfold pages_in_reach. rewrite po_free0.
  replace (Z.to_nat (z.(bm_end) - z.(bm_start) + 1)) with (S (Z.to_nat (z.(bm_end) - z.(bm_start)))) by lia.
  apply clear_bits_le.
Qed.

(** A step of allocation. *)
Lemma pool_take bm0 live z s :
  pool bm0 live z s -> page_inside s ->
  exists i s' z', get_free_page kernel_start zone_mutex flag s = Some (addr i, s') /\ 0 <= i < 2 ^ 20 /\
    z.(bm_start) <= i < z.(bm_end) /\ ~ (i ∈ live) /\ bit_at bm0 i = false /\ pool bm0 ({[i]} ∪ live) z' s'.
Proof.
  intros Hp (z' & Ez & Hpos & Hst). rewrite (po_zone _ _ _ _ Hp) in Ez. injection Ez as <-.
  pose proof Hp as [H1 H2 H3 H4 H5 H6 H7 H8 H9 H10 H11 H12].
  pose proof (pool_usable _ _ _ _ Hp) as Hz.
  destruct (search_inside z s ltac:(lia) ltac:(lia) Hst) as (p & Ep & Hpi & Hbp); [by rewrite <- H10|].
  assert (Hnot : bit_at bm0 p = false /\ ~ (p ∈ live)).
  { rewrite H9 in Hbp. apply orb_false_iff in Hbp as [? Hd]. by apply bool_decide_eq_false in Hd. }
  destruct Hnot as [Hp0 Hpl]. assert (Hpne : p <> 0) by (intros ->; congruence).
  pose proof (get_free_pages_ok kernel_start zone_mutex s z 1 flag Hz ltac:(lia)) as H. cbv zeta in H.
  rewrite Ep, (proj2 (Z.ltb_ge _ _)), (proj2 (Z.eqb_neq p 0)) in H by lia. destruct H as (s' & E & Ht).
  exists p, s', (taken p 1 z). split; [done|]. split; [lia|]. split; [lia|]. split; [done|]. split; [done|].
  destruct Ht as [T1 T2 T3 T4 T5 T6 T7 T8 T9].
  assert (Hone : forall n, in_run p 1 n = bool_decide (n = p)).
  { intros n. case_bool_decide; [subst; apply in_run_true; lia|apply in_run_false; lia]. }
  assert (Hother : forall n, n <> p -> bit_at s'.(page_map) n = bit_at s.(page_map) n).
  { intros n Hn. rewrite T5, Hone. by rewrite bool_decide_eq_false_2. }
  assert (Hset : bit_at s'.(page_map) p = true) by (rewrite T5, Hone; by rewrite bool_decide_eq_true_2).
  assert (Ecur : (taken p 1 z).(bm_current) = p + 1) by (simpl; rewrite u32_small; lia).
  assert (Efree : (taken p 1 z).(z_free_pages) = z.(z_free_pages) - 1) by (simpl; rewrite u32_small; lia).
  constructor; try done.
  - by rewrite T1, Z.eqb_refl.
  - rewrite Ecur. simpl. lia.
  - split; [done|]. rewrite T3. apply H4.
  - simpl. by rewrite T6.
  - split; [done|]. intros j zj Hj. rewrite T1 in Hj. destruct (Z.eqb_spec j zid) as [->|].
    + injection Hj as <-. apply (proj2 H6 zid z H1).
    + by apply (proj2 H6 j).
  - by apply T9.
  - intros n. destruct (decide (n = p)) as [->|Hn].
    + rewrite Hset, bool_decide_eq_true_2 by set_solver. by rewrite orb_true_r.
    + rewrite Hother, H9 by done. f_equal. apply bool_decide_ext. set_solver.
  - rewrite Efree, H10. symmetry. apply (clear_bits_flip s.(page_map) s'.(page_map) _ _ p); [cbn [taken bm_start bm_end with_bm_current with_z_free_pages with_z_free_size]; lia|done..].
  - lia.
  - intros j [->%elem_of_singleton|Hj]%elem_of_union.
    + split; [simpl; lia|]. split; [done|]. unfold get_page_struct. rewrite T7, Hone, bool_decide_eq_true_2 by done.
      destruct (va_get_pv_offset_total (page_to_va kernel_start p) s H6) as [off ->]. simpl. eexists. split; [done|].
      cbn [init_page pg_count pg_flag]. rewrite Z.eqb_refl. split; [done|]. split; [apply header_flag|by apply zone_id_header].
    + destruct (H12 j Hj) as (A & B & C). split; [done|]. split; [done|].
      unfold get_page_struct. rewrite T7, Hone, bool_decide_eq_false_2 by (intros ->; done). exact C.
Qed.

(** A refused allocation. *)
Lemma pool_none bm0 live z s va s' :
  pool bm0 live z s -> z.(z_free_pages) = 0 -> get_free_page kernel_start zone_mutex flag s = Some (va, s') ->
  va = 0 /\ pool bm0 live z s'.
Proof.
  intros Hp Hf E. pose proof (get_free_pages_ok kernel_start zone_mutex s z 1 flag (pool_usable _ _ _ _ Hp) ltac:(lia)) as H.
  cbv zeta in H. rewrite Hf in H. cbn [Z.ltb Z.compare orb] in H. destruct H as (l & El & Hl).
  unfold get_free_page in E. rewrite El in E. injection E as <- <-. split; [done|].
  destruct Hp. constructor; try done. by apply Hl.
Qed.

(** A step of release. *)
Lemma pool_free bm0 live z s i :
  pool bm0 live z s -> i ∈ live ->
  exists s' z', free_pages kernel_start zone_mutex (addr i) s = Some s' /\ pool bm0 (live ∖ {[i]}) z' s'.
Proof.
  intros Hp Hi. pose proof Hp as [H1 H2 H3 H4 H5 H6 H7 H8 H9 H10 H11 H12].
  destruct (H12 i Hi) as (Hir & Hi0 & p & Ep & Hc & Hf & Hid).
  destruct (free_pages_ok kernel_start zone_mutex s zid z i p (proj1 Hks) (proj2 Hks) Ep)
    as (s' & E & G); try done; try lia.
  { rewrite Hc. apply (bm_ok_le _ (z.(bm_end) + 1)); [done|lia]. }
  rewrite Hc in G. destruct G as [G1 G2 G3 G4 G5 G6 G7 G8].
  assert (Hone : forall n, in_run i 1 n = bool_decide (n = i)).
  { intros n. case_bool_decide; [subst; apply in_run_true; lia|apply in_run_false; lia]. }
  assert (Hother : forall n, n <> i -> bit_at s'.(page_map) n = bit_at s.(page_map) n).
  { intros n Hn. rewrite G5, Hone. by rewrite bool_decide_eq_false_2. }
  assert (Hclr : bit_at s'.(page_map) i = false) by (rewrite G5, Hone; by rewrite bool_decide_eq_true_2).
  assert (Hset : bit_at s.(page_map) i = true) by (rewrite H9, bool_decide_eq_true_2 by done; by rewrite orb_true_r).
  assert (Hge : forall m k, 0 <= clear_bits s.(page_map) k m <= Z.of_nat m).
  { induction m as [|m IHm]; intros k; [done|]. cbn [clear_bits]. pose proof (IHm (k + 1)). destruct (bit_at _ k); lia. }
  pose proof (Hge (Z.to_nat (z.(bm_end) - z.(bm_start))) z.(bm_start)) as Hcb.
  assert (Efree : (given i 1 z).(z_free_pages) = z.(z_free_pages) + 1).
  { unfold given. destruct (Z.eqb _ _); simpl; rewrite u32_small; lia. }
  assert (Eb : (given i 1 z).(bm_start) = z.(bm_start) /\ (given i 1 z).(bm_end) = z.(bm_end)).
  { unfold given. by destruct (Z.eqb _ _). }
  destruct Eb as [Es Ee].
  assert (Ecur : z.(bm_start) <= (given i 1 z).(bm_current) <= z.(bm_end)).
  { unfold given. destruct (Z.eqb _ _); simpl; [rewrite u32_small; lia|lia]. }
  pose proof (clear_bits_flip s'.(page_map) s.(page_map) z.(bm_start) (Z.to_nat (z.(bm_end) - z.(bm_start))) i
    ltac:(lia) ltac:(intros j Hj; by rewrite Hother) Hclr Hset) as Hcount.
  exists s', (given i 1 z). split; [done|]. constructor; try done; rewrite ?Es, ?Ee, ?Efree.
  - by rewrite G1, Z.eqb_refl.
  - lia.
  - split; [done|]. rewrite G3. apply H4.
  - by rewrite G6.
  - split; [rewrite G2; apply H6|]. intros j zj Hj. rewrite G1 in Hj. destruct (Z.eqb_spec j zid) as [->|].
    + injection Hj as <-. pose proof (proj2 H6 zid z H1). unfold given. by destruct (Z.eqb _ _).
    + by apply (proj2 H6 j).
  - by apply G8.
  - intros n. destruct (decide (n = i)) as [->|Hn].
    + rewrite Hclr, Hi0, bool_decide_eq_false_2 by set_solver. done.
    + rewrite Hother, H9 by done. f_equal. apply bool_decide_ext. set_solver.
  - lia.
  - rewrite H10 in *.
    assert (Hle : clear_bits s.(page_map) z.(bm_start) (Z.to_nat (z.(bm_end) - z.(bm_start))) + 1 <= z.(bm_end) - z.(bm_start)).
    { rewrite Hcount. clear -H3.
      assert (Hge' : forall m k, clear_bits s'.(page_map) k m <= Z.of_nat m).
      { induction m as [|m IHm]; intros k; [done|]. cbn [clear_bits]. pose proof (IHm (k + 1)). destruct (bit_at _ k); lia. }
      pose proof (Hge' (Z.to_nat (z.(bm_end) - z.(bm_start))) z.(bm_start)). lia. }
    lia.
  - intros j Hj. apply elem_of_difference in Hj as [Hj _]. unfold get_page_struct. rewrite G6. apply (H12 j Hj).
Qed.

Lemma page_run_pool s0 z0 : pool s0.(page_map) ∅ z0 s0 ->
  forall live s, page_run s0 live s -> exists z, pool s0.(page_map) live z s.
Proof.
  intros H0. induction 1 as [|live s i s' _ [z Hp] Ha E Hi|live s z' va s' _ [z Hp] Ez Hf E|live s i s' _ [z Hp] Hi E];
    [by exists z0| | |].
  - destruct (pool_take _ _ _ _ Hp Ha) as (i' & s'' & z' & E' & Hi' & _ & _ & _ & Hp').
    rewrite E in E'. injection E' as Ei ->. apply addr_inj in Ei; [|done|done]. subst i'. by exists z'.
  - rewrite (po_zone _ _ _ _ Hp) in Ez. injection Ez as <-. exists z. by apply (pool_none _ _ _ _ _ _ Hp Hf E).
  - destruct (pool_free _ _ _ _ i Hp Hi) as (s'' & z' & E' & Hp'). rewrite E in E'. injection E' as <-. by exists z'.
Qed.
End run.

(** C16. Starting from a zone whose free count is the number of its clear bits, after any
    sequence of single-page allocations and releases of pages that are out, where at each
    allocation no page is free, or the page behind the zone is in use, or a free page lies between the
    search position and the end of the zone: the page map is the initial one with the
    pages that are out, the free count is still the number of clear bits, every page that
    is out can be released, and an allocation under the same condition succeeds with a
    page of the zone that was free at the start and is not out, or returns NULL when no
    page is free. *)
Theorem pages_stay_apart {L : Type} {LC : LockCalls L} {LO : LockOps L} (kernel_start : Z) (zone_mutex : Z -> Z)
    (flag : Z) (s0 s : mm_state L) (z0 : mm_zone) (live : gset Z)
    (Hks : 0 <= kernel_start < 2 ^ 32 /\ kernel_start mod 4096 = 0) (Hflag : 0 <= flag)
    (Hz : zone_ready zone_mutex (zone_id flag) z0 s0) (Hzero : bit_at s0.(page_map) 0 = true)
    (Hcount : z0.(z_free_pages) = clear_bits s0.(page_map) z0.(bm_start) (Z.to_nat (z0.(bm_end) - z0.(bm_start))))
    (Hrun : page_run kernel_start zone_mutex flag s0 live s) :
  exists z, get_zone (zone_id flag) s = Some z /\
    (forall n, bit_at s.(page_map) n = bit_at s0.(page_map) n || bool_decide (n ∈ live)) /\
    z.(z_free_pages) = clear_bits s.(page_map) z.(bm_start) (Z.to_nat (z.(bm_end) - z.(bm_start))) /\
    (forall i, i ∈ live -> is_Some (free_pages kernel_start zone_mutex (page_id_to_va kernel_start i) s)) /\
    (0 < z.(z_free_pages) -> stays_inside z s ->
     exists i s', get_free_page kernel_start zone_mutex flag s =
       Some (page_id_to_va kernel_start i, s') /\ ~ (i ∈ live) /\ bit_at s0.(page_map) i = false /\
       z.(bm_start) <= i < z.(bm_end)) /\
    (z.(z_free_pages) = 0 -> exists l, get_free_page kernel_start zone_mutex flag s = Some (0, with_locks l s)).
Proof.
  assert (H0 : pool zone_mutex flag s0.(page_map) ∅ z0 s0).
  { destruct Hz. constructor; try done; try lia.
    intros n. rewrite bool_decide_eq_false_2 by set_solver. by rewrite orb_false_r. }
  destruct (page_run_pool _ _ _ Hks Hflag s0 z0 H0 live s Hrun) as [z Hp]. exists z.
  split; [apply Hp|]. split; [apply Hp|]. split; [apply Hp|]. split.
  - intros i Hi. destruct (pool_free _ _ _ Hks Hflag _ _ _ _ i Hp Hi) as (s' & _ & E & _). by rewrite E.
  - split.
    + intros Hpos Hst. destruct (pool_take _ _ _ Hks Hflag _ _ _ _ Hp) as (i & s' & z' & E & _ & Hr & Hn & Hb & _);
        [by exists z; split; [apply Hp|]|]. by exists i, s'.
    + intros Hf. pose proof (get_free_pages_ok kernel_start zone_mutex s z 1 flag (pool_usable _ _ _ _ _ _ Hp) ltac:(lia)) as H.
      cbv zeta in H. rewrite Hf in H. cbn [Z.ltb Z.compare orb] in H. destruct H as (l & El & _). by exists l.
Qed.

(** Two pages are taken and the first one is given back. *)
Definition taken_one : mm_state unit :=
  default (demo_mm tt) (snd <$> get_free_page 0x80000000 (fun _ => 100) GFP_KERNEL (demo_mm tt)).
Definition taken_two : mm_state unit :=
  default (demo_mm tt) (snd <$> get_free_page 0x80000000 (fun _ => 100) GFP_KERNEL taken_one).
Definition one_back : mm_state unit :=
  default (demo_mm tt) (free_pages 0x80000000 (fun _ => 100) (page_id_to_va 0x80000000 2) taken_two).

Lemma one_back_run :
  page_run 0x80000000 (fun _ => 100) GFP_KERNEL (demo_mm tt) (({[3]} ∪ ({[2]} ∪ ∅)) ∖ {[2]}) one_back.
Proof.
  apply (page_free _ _ _ _ _ taken_two); [|set_solver|vm_compute; reflexivity].
  apply (page_take _ _ _ _ _ taken_one);
    [|exists (taken 2 1 demo_zone); split; [done|split; [done|by right; exists 7]]|vm_compute; reflexivity|lia].
  apply (page_take _ _ _ _ _ (demo_mm tt));
    [apply page_start|exists demo_zone; split; [done|split; [done|by right; exists 7]]|vm_compute; reflexivity|lia].
Qed.

Lemma pages_stay_apart_witness :
  is_Some (free_pages 0x80000000 (fun _ => 100) (page_id_to_va 0x80000000 3) one_back) /\
  exists i s', get_free_page 0x80000000 (fun _ => 100) GFP_KERNEL one_back =
    Some (page_id_to_va 0x80000000 i, s') /\ i <> 3.
Proof.
  destruct (pages_stay_apart 0x80000000 (fun _ => 100) GFP_KERNEL (demo_mm tt) one_back demo_zone
    (({[3]} ∪ ({[2]} ∪ ∅)) ∖ {[2]}) ltac:(done) ltac:(done) (demo_zone_ready (LO := no_locks) tt (fun _ => 100) I) eq_refl eq_refl
    one_back_run) as (z & Ez & _ & _ & Hf & Ht & _).
  split; [apply Hf; set_solver|]. vm_compute in Ez. injection Ez as <-.
  destruct (Ht ltac:(done)) as (i & s' & E & Hi & _).
  { right. exists 7. split; [vm_compute; split; congruence|vm_compute; reflexivity]. }
  exists i, s'. split; [exact E|]. intros ->. apply Hi. set_solver.
Defined.
