(* ===== verification/Mem.v ===== *)
(** * Byte memory

    The memory the kernel addresses directly: a finite map from addresses to
    bytes (values 0 to 255).  An access to an address outside the map is
    undefined.  A word is stored least significant byte first. *)

From S2P Require Import Prelude.

Abbreviation mem := (gmap Z Z).

Definition load8 (a : Z) (m : mem) : option Z := m !! a.

Definition store8 (a v : Z) (m : mem) : option mem :=
  _ ← m !! a; Some (<[a := u8 v]> m).

Definition load32 (a : Z) (m : mem) : option Z :=
  b0 ← load8 a m; b1 ← load8 (a + 1) m; b2 ← load8 (a + 2) m; b3 ← load8 (a + 3) m;
  Some (b0 + 2 ^ 8 * b1 + 2 ^ 16 * b2 + 2 ^ 24 * b3).

Definition load16 (a : Z) (m : mem) : option Z :=
  b0 ← load8 a m; b1 ← load8 (a + 1) m; Some (b0 + 2 ^ 8 * b1).

Definition store32 (a v : Z) (m : mem) : option mem :=
  m1 ← store8 a v m; m2 ← store8 (a + 1) (v / 2 ^ 8) m1;
  m3 ← store8 (a + 2) (v / 2 ^ 16) m2; store8 (a + 3) (v / 2 ^ 24) m3.

(** ** Runs of bytes *)

Fixpoint write (a : Z) (l : list Z) (m : mem) : mem :=
  match l with [] => m | c :: l' => write (a + 1) l' (<[a := c]> m) end.

Definition bytes_at (m : mem) (a : Z) (l : list Z) : Prop :=
  forall i c, l !! i = Some c -> m !! (a + Z.of_nat i) = Some c.

(** The addresses [a .. a+n-1] are allocated. *)
Definition room (m : mem) (a n : Z) : Prop := forall i, 0 <= i < n -> is_Some (m !! (a + i)).

(** A null-terminated string. *)
Definition cstr (m : mem) (a : Z) (l : list Z) : Prop :=
  bytes_at m a (l ++ [0]) /\ Forall (fun c => 0 < c < 256) l.

Section mem.
Implicit Types (m : mem) (a v : Z) (l : list Z).

Lemma lookup_write_out a l m x :
  ~ (a <= x < a + Z.of_nat (length l)) -> write a l m !! x = m !! x.
Proof.
  revert a m. induction l as [|c l IH]; intros a m Hx; simpl in *; [done|].
  rewrite IH by lia. apply lookup_insert_ne. lia.
Qed.

Lemma lookup_write_in a l m i c :
  l !! i = Some c -> write a l m !! (a + Z.of_nat i) = Some c.
Proof.
  revert a m i. induction l as [|c' l IH]; intros a m [|i] Hi; simpl in *; try done.
  - injection Hi as ->. rewrite lookup_write_out by lia. rewrite Z.add_0_r.
    apply lookup_insert_eq.
  - replace (a + Z.of_nat (S i)) with (a + 1 + Z.of_nat i) by lia. by apply IH.
Qed.

Lemma write_comm a l b l' m :
  a + Z.of_nat (length l) <= b \/ b + Z.of_nat (length l') <= a ->
  write a l (write b l' m) = write b l' (write a l m).
Proof.
  assert (Hin : forall a l m x, a <= x < a + Z.of_nat (length l) ->
    exists c, forall m, write a l m !! x = Some c).
  { clear. intros a l m x Hx. destruct (lookup_lt_is_Some_2 l (Z.to_nat (x - a))) as [c Hc]; [lia|].
    exists c. intros m'. rewrite <- (lookup_write_in a l m' _ _ Hc). f_equal. lia. }
  intros Hd. apply map_eq. intros x.
  destruct (decide (a <= x < a + Z.of_nat (length l))) as [Ha|Ha].
  - destruct (Hin a l m x Ha) as [c Hc]. by rewrite Hc, lookup_write_out, Hc by lia.
  - rewrite (lookup_write_out a) by lia.
    destruct (decide (b <= x < b + Z.of_nat (length l'))) as [Hb|Hb].
    + destruct (Hin b l' m x Hb) as [c Hc]. by rewrite !Hc.
    + by rewrite !lookup_write_out by lia.
Qed.

Lemma write_bytes a l m : bytes_at (write a l m) a l.
Proof. intros i c. apply lookup_write_in. Qed.

Lemma write_app a l1 l2 m :
  write a (l1 ++ l2) m = write (a + Z.of_nat (length l1)) l2 (write a l1 m).
Proof.
  revert a m. induction l1 as [|c l1 IH]; intros a m; simpl; [by rewrite Z.add_0_r|].
  rewrite IH. f_equal. lia.
Qed.

Lemma write_alloc b l m x : is_Some (m !! x) -> is_Some (write b l m !! x).
Proof.
  revert b m. induction l as [|c l IH]; intros b m Hx; [done|]. simpl. apply IH.
  apply lookup_insert_is_Some'. by right.
Qed.

Lemma room_write a n b l m : room m a n -> room (write b l m) a n.
Proof.
  intros Hr i Hi. by apply write_alloc, Hr.
Qed.

Lemma room_write_self a l m : room (write a l m) a (Z.of_nat (length l)).
Proof.
  intros i Hi. destruct (lookup_lt_is_Some_2 l (Z.to_nat i)) as [c Hc]; [lia|]. exists c.
  rewrite <- (lookup_write_in a l m _ _ Hc). f_equal. lia.
Qed.

Lemma room_zeros a n : room (write a (replicate (Z.to_nat n) 0) ∅) a n.
Proof.
  intros i Hi. apply (room_write_self a (replicate (Z.to_nat n) 0)). rewrite length_replicate. lia.
Qed.

Lemma room_le m a n k n' : room m a n -> 0 <= k -> k + n' <= n -> room m (a + k) n'.
Proof.
  intros Hr Hk Hn i Hi. replace (a + k + i) with (a + (k + i)) by lia. apply Hr. lia.
Qed.

Lemma store8_ok a v m : is_Some (m !! a) -> store8 a v m = Some (write a [u8 v] m).
Proof. intros [b E]. unfold store8. by rewrite E. Qed.

Lemma bytes_at_app m a l1 l2 :
  bytes_at m a (l1 ++ l2) <-> bytes_at m a l1 /\ bytes_at m (a + Z.of_nat (length l1)) l2.
Proof.
  split.
  - intros H. split; intros i c Hi.
    + apply H. by apply lookup_app_l_Some.
    + replace (a + Z.of_nat (length l1) + Z.of_nat i) with (a + Z.of_nat (length l1 + i)) by lia.
      apply H. rewrite lookup_app_r by lia. by replace (length l1 + i - length l1)%nat with i by lia.
  - intros [H1 H2] i c Hi. apply lookup_app_Some in Hi as [Hi|[Hle Hi]]; [by apply H1|].
    replace (a + Z.of_nat i) with (a + Z.of_nat (length l1) + Z.of_nat (i - length l1)) by lia.
    by apply H2.
Qed.

Lemma bytes_at_frame m m' a l :
  bytes_at m a l -> (forall x, a <= x < a + Z.of_nat (length l) -> m' !! x = m !! x) ->
  bytes_at m' a l.
Proof.
  intros H Hf i c Hi. rewrite Hf; [by apply H|]. apply lookup_lt_Some in Hi. lia.
Qed.

Lemma bytes_at_size m a l : bytes_at m a l -> (length l <= size m)%nat.
Proof.
  intros H. rewrite <- size_dom.
  transitivity (size (list_to_set (seqZ a (Z.of_nat (length l))) : gset Z)).
  - rewrite size_list_to_set by apply NoDup_seqZ. rewrite length_seqZ. lia.
  - apply subseteq_size. intros x Hx. apply elem_of_list_to_set, elem_of_seqZ in Hx.
    apply elem_of_dom. destruct (lookup_lt_is_Some_2 l (Z.to_nat (x - a))) as [c Hc]; [lia|].
    exists c. rewrite <- (H _ _ Hc). f_equal. lia.
Qed.

(** ** Words *)

Lemma word_bytes v :
  0 <= v < 2 ^ 32 ->
  v = u8 v + 2 ^ 8 * u8 (v / 2 ^ 8) + 2 ^ 16 * u8 (v / 2 ^ 16) + 2 ^ 24 * u8 (v / 2 ^ 24).
Proof. intros Hv. unfold u8, wrap. change (2 ^ 8) with 256. change (2 ^ 16) with 65536.
  change (2 ^ 24) with 16777216. Z.to_euclidean_division_equations. lia. Qed.

Definition word_list v : list Z := [u8 v; u8 (v / 2 ^ 8); u8 (v / 2 ^ 16); u8 (v / 2 ^ 24)].

Lemma store32_ok a v m : room m a 4 -> store32 a v m = Some (write a (word_list v) m).
Proof.
  intros Hr. unfold store32.
  rewrite store8_ok by (rewrite <- (Z.add_0_r a); apply Hr; lia). cbn [mbind option_bind].
  rewrite store8_ok by (do 1 apply write_alloc; apply Hr; lia). cbn [mbind option_bind].
  rewrite store8_ok by (do 2 apply write_alloc; apply Hr; lia). cbn [mbind option_bind].
  rewrite store8_ok by (do 3 apply write_alloc; apply Hr; lia).
  unfold word_list. cbn [write].
  replace (a + 1 + 1) with (a + 2) by lia. by replace (a + 2 + 1) with (a + 3) by lia.
Qed.

Lemma load32_bytes a v m : 0 <= v < 2 ^ 32 -> bytes_at m a (word_list v) -> load32 a m = Some v.
Proof.
  intros Hv H. unfold load32, load8.
  pose proof (H 0%nat _ eq_refl) as H0. pose proof (H 1%nat _ eq_refl) as H1.
  pose proof (H 2%nat _ eq_refl) as H2. pose proof (H 3%nat _ eq_refl) as H3.
  change (Z.of_nat 0) with 0 in H0. rewrite Z.add_0_r in H0. change (Z.of_nat 1) with 1 in H1.
  change (Z.of_nat 2) with 2 in H2. change (Z.of_nat 3) with 3 in H3.
  rewrite H0, H1, H2, H3. cbn [mbind option_bind]. f_equal.
  symmetry. by apply word_bytes.
Qed.

Lemma load_store32_eq a v m :
  0 <= v < 2 ^ 32 -> room m a 4 -> exists m', store32 a v m = Some m' /\ load32 a m' = Some v.
Proof.
  intros Hv Hr. eexists. split; [by apply store32_ok|]. apply load32_bytes; [done|].
  apply write_bytes.
Qed.

Lemma load32_frame a m m' :
  (forall x, a <= x < a + 4 -> m' !! x = m !! x) -> load32 a m' = load32 a m.
Proof. intros H. unfold load32, load8. by rewrite !H by lia. Qed.

Lemma load32_write_out a b l m :
  b + Z.of_nat (length l) <= a \/ a + 4 <= b -> load32 a (write b l m) = load32 a m.
Proof. intros H. apply load32_frame. intros x Hx. apply lookup_write_out. lia. Qed.

(** ** Runs of words *)

Definition words_bytes (ws : list Z) : list Z := ws ≫= word_list.

Lemma length_words ws : length (words_bytes ws) = (4 * length ws)%nat.
Proof. induction ws as [|w ws IH]; [done|]. unfold words_bytes in *. cbn. rewrite IH. lia. Qed.

Lemma words_app ws1 ws2 : words_bytes (ws1 ++ ws2) = words_bytes ws1 ++ words_bytes ws2.
Proof. apply bind_app. Qed.

Lemma load32_word m a ws i w :
  bytes_at m a (words_bytes ws) -> ws !! i = Some w -> 0 <= w < 2 ^ 32 ->
  load32 (a + 4 * Z.of_nat i) m = Some w.
Proof.
  intros Hb Hi Hw. apply list_elem_of_split_length in Hi as (l1 & l2 & -> & ->).
  rewrite words_app in Hb. apply bytes_at_app in Hb as [_ Hb].
  rewrite length_words, Nat2Z.inj_mul in Hb. apply load32_bytes; [done|].
  unfold words_bytes in Hb. cbn [mbind list_bind] in Hb. by apply bytes_at_app in Hb as [? _].
Qed.
End mem.

