(* ===== verification/CString.v ===== *)
(** * Strings and numbers

    Models [kernel/string.c] over byte memory.  A [char *] is an address, 0 is
    NULL; a scan of memory reads a different byte at each step, so the size of the
    memory is enough fuel. *)

From S2P Require Import Prelude Mem.

(** ** Numbers *)

Definition absolute (num : Z) : Z := if Z.ltb 0 num then num else s32 (Z.lnot num + 1).

(** [hex]: the ASCII codes of "0123456789abcdef". *)
Definition hex : list Z :=
  [48; 49; 50; 51; 52; 53; 54; 55; 56; 57; 97; 98; 99; 100; 101; 102].

(** The digits, least significant first, in [tmp_buf], which holds 32. *)
Fixpoint nts_loop (fuel : nat) (num bdho : Z) (tmp : list Z) : option (Z * list Z) :=
  match fuel with
  | O => None
  | S fuel' =>
      c ← aget hex (num mod bdho);
      let num' := num / bdho in
      if Nat.ltb (length tmp) 32 then
        let tmp' := tmp ++ [c] in
        if Z.leb bdho num' then nts_loop fuel' num' bdho tmp' else Some (num', tmp')
      else None
  end.

Definition nts_digits (num bdho : Z) : option (list Z) :=
  '(num', tmp) ← nts_loop 32 num bdho [];
  if negb (Z.eqb num' 0) then
    c ← aget hex num';
    if Nat.ltb (length tmp) 32 then Some (tmp ++ [c]) else None
  else Some tmp.

(** The loop that copies [tmp_buf[len-1] .. tmp_buf[0]] to [buf]. *)
Fixpoint nts_copy (len : nat) (tmp : list Z) (buf : Z) (m : mem) : option mem :=
  match len with
  | O => Some m
  | S len' =>
      c ← tmp !! len'; m' ← store8 buf c m; nts_copy len' tmp (buf + 1) m'
  end.

Definition num_to_str (buf num bdho : Z) (m : mem) : option (Z * mem) :=
  tmp ← nts_digits num bdho;
  m' ← nts_copy (length tmp) tmp buf m;
  Some (Z.of_nat (length tmp), m').

Definition CH_MINUS : Z := 45.

Definition itoa (buf num : Z) (m : mem) : option (Z * mem) :=
  if Z.eqb buf 0 then Some (-1, m)
  else if Z.ltb num 0 then
    m1 ← store8 buf CH_MINUS m;
    '(len, m2) ← num_to_str (buf + 1) (u32 (absolute num)) 10 m1;
    Some (len + 1, m2)
  else num_to_str buf (u32 num) 10 m.

Definition uitoa (buf num : Z) (m : mem) : option (Z * mem) := num_to_str buf num 10 m.
Definition hextoa (buf num : Z) (m : mem) : option (Z * mem) := num_to_str buf num 16 m.
Definition octtoa (buf num : Z) (m : mem) : option (Z * mem) := num_to_str buf num 8 m.
Definition bintoa (buf num : Z) (m : mem) : option (Z * mem) := num_to_str buf num 2 m.

(** ** Strings *)

Fixpoint strlen_loop (fuel : nat) (buf len : Z) (m : mem) : option Z :=
  match fuel with
  | O => None
  | S fuel' =>
      c ← load8 buf m;
      if truth c then strlen_loop fuel' (buf + 1) (len + 1) m else Some len
  end.

Definition strlen (buf : Z) (m : mem) : option Z :=
  if Z.eqb buf 0 then Some (-1) else strlen_loop (S (size m)) buf 0 m.

Fixpoint strcpy_loop (fuel : nat) (des src : Z) (m : mem) : option mem :=
  match fuel with
  | O => None
  | S fuel' =>
      c ← load8 src m;
      m' ← store8 des c m;
      if truth c then strcpy_loop fuel' (des + 1) (src + 1) m' else Some m'
  end.

Definition strcpy (des src : Z) (m : mem) : option (Z * mem) :=
  if Z.eqb des 0 || Z.eqb src 0 then Some (0, m)
  else m' ← strcpy_loop (S (size m)) des src m; Some (des, m').

Definition strncpy (des src len : Z) (m : mem) : option (Z * mem) :=
  if Z.eqb des 0 || Z.eqb src 0 then Some (0, m)
  else
    m' ← for_range (Z.to_nat len) 0 (fun i m => c ← load8 (src + i) m; store8 (des + i) c m) m;
    Some (des, m').

Definition is_digit (ch : Z) : bool := Z.leb ch 57 && Z.leb 48 ch.

Definition sign (ret : Z) : Z := if Z.ltb ret 0 then -1 else if Z.ltb 0 ret then 1 else ret.

Fixpoint strcmp_loop (fuel : nat) (src dst : Z) (m : mem) : option Z :=
  match fuel with
  | O => None
  | S fuel' =>
      a ← load8 src m;
      b ← load8 dst m;
      if Z.eqb (a - b) 0 && truth b then strcmp_loop fuel' (src + 1) (dst + 1) m
      else Some (a - b)
  end.

Definition strcmp (src dst : Z) (m : mem) : option Z :=
  sign <$> strcmp_loop (S (size m)) src dst m.

Fixpoint strncmp_loop (n : nat) (src dst ret : Z) (m : mem) : option Z :=
  match n with
  | O => Some ret
  | S n' =>
      a ← load8 src m;
      b ← load8 dst m;
      if Z.eqb (a - b) 0 then strncmp_loop n' (src + 1) (dst + 1) (a - b) m else Some (a - b)
  end.

Definition strncmp (src dst n : Z) (m : mem) : option Z :=
  sign <$> strncmp_loop (Z.to_nat n) src dst 0 m.

Definition memset (base ch size : Z) (m : mem) : option mem :=
  for_range (Z.to_nat size) 0 (fun i m => store8 (base + i) ch m) m.

(** ** [memcpy] of [machine/lib.S]

    The C version in [string.c] is compiled out.  The functions follow the labels of the
    routine; it leaves the address behind the target in r0, which no caller uses. *)

(** [copy_left], and the loop at [copy_aligin]: byte by byte. *)
Definition copy_left (n target source : Z) (m : mem) : option mem :=
  for_range (Z.to_nat n) 0 (fun i m => c ← load8 (source + i) m; store8 (target + i) c m) m.

(** [ldmia] and [stmia] of four words: all are read before one is written.  The kernel
    runs with alignment checks, so that an address between words aborts. *)
Definition copy_four (target source : Z) (m : mem) : option mem :=
  if Z.eqb (target &u 3) 0 && Z.eqb (source &u 3) 0 then
    a ← load32 source m; b ← load32 (source + 4) m; c ← load32 (source + 8) m; d ← load32 (source + 12) m;
    m ← store32 target a m; m ← store32 (target + 4) b m; m ← store32 (target + 8) c m;
    store32 (target + 12) d m
  else None.

(** The loop at [copy_bigger_16], up to the jump to [copy_left]; the count is signed. *)
Fixpoint copy_bigger_16 (fuel : nat) (target source size : Z) (m : mem) : option (Z * Z * Z * mem) :=
  match fuel with
  | O => None
  | S fuel' =>
      if Z.ltb size 16 then Some (target, source, size, m)
      else m ← copy_four target source m; copy_bigger_16 fuel' (target + 16) (source + 16) (size - 16) m
  end.

(** [copy_aligin] copies as many bytes as the addresses are past a word, which need not
    take them to the next one; the count is not compared with [size].  In [copy_left]
    the count is only compared with zero. *)
Definition memcpy (target source size : Z) (m : mem) : option mem :=
  let skew := target &u 3 in
  if negb (Z.eqb skew (source &u 3)) then copy_left (u32 size) target source m
  else
    m ← copy_left skew target source m;
    let size := s32 (size - skew) in
    '(target, source, size, m) ← copy_bigger_16 (S (Z.to_nat size)) (target + skew) (source + skew) size m;
    copy_left (u32 size) target source m.

(** ** Specification of the conversions *)

(** The digits of [num] in base [b], most significant first. *)
Definition digit_char (d : Z) : Z := if Z.ltb d 10 then 48 + d else 87 + d.

Fixpoint digits_rev (fuel : nat) (num b : Z) : list Z :=
  match fuel with
  | O => []
  | S fuel' =>
      digit_char (num mod b) :: (if Z.ltb num b then [] else digits_rev fuel' (num / b) b)
  end.

(** The value of a digit string. *)
Definition char_digit (c : Z) : Z := if Z.ltb c 58 then c - 48 else c - 87.

Definition value (b : Z) (l : list Z) : Z := foldl (fun v c => b * v + char_digit c) 0 l.

Lemma char_digit_char d : 0 <= d < 16 -> char_digit (digit_char d) = d.
Proof.
  intros Hd. unfold char_digit, digit_char.
  destruct (Z.ltb_spec d 10) as [H1|H1];
    [destruct (Z.ltb_spec (48 + d) 58) as [H2|H2]|destruct (Z.ltb_spec (87 + d) 58) as [H2|H2]]; lia.
Qed.

Lemma hex_digit d : 0 <= d < 16 -> aget hex d = Some (digit_char d).
Proof.
  intros Hd.
  assert (E : d = 0 \/ d = 1 \/ d = 2 \/ d = 3 \/ d = 4 \/ d = 5 \/ d = 6 \/ d = 7 \/ d = 8 \/
    d = 9 \/ d = 10 \/ d = 11 \/ d = 12 \/ d = 13 \/ d = 14 \/ d = 15) by lia.
  repeat (destruct E as [->|E]; [reflexivity|]). by subst.
Qed.

Section conversions.
Context (b : Z).
Hypothesis Hb : 2 <= b <= 16.

Lemma foldl_value l v :
  foldl (fun v c => b * v + char_digit c) v l =
  b ^ Z.of_nat (length l) * v + foldl (fun v c => b * v + char_digit c) 0 l.
Proof.
  revert v. induction l as [|c l IH]; intros v;
    [cbn [foldl length Z.of_nat]; rewrite Z.pow_0_r; lia|].
  cbn [foldl length]. rewrite IH, (IH (b * 0 + char_digit c)).
  rewrite Nat2Z.inj_succ, Z.pow_succ_r by lia. ring.
Qed.

Lemma value_app l1 l2 : value b (l1 ++ l2) = b ^ Z.of_nat (length l2) * value b l1 + value b l2.
Proof. unfold value. rewrite foldl_app. apply foldl_value. Qed.

Lemma digits_rev_value fuel num :
  0 <= num < b ^ Z.of_nat fuel -> value b (rev (digits_rev fuel num b)) = num.
Proof.
  revert num. induction fuel as [|fuel IH]; intros num Hn;
    [cbn [Z.of_nat] in Hn; rewrite Z.pow_0_r in Hn; assert (num = 0) as -> by lia; done|].
  cbn [digits_rev]. pose proof (Z.mod_pos_bound num b) as Hm.
  pose proof (Z.div_mod num b) as Hdm.
  destruct (Z.ltb_spec num b) as [Hlt|Hge].
  - cbn. rewrite char_digit_char by lia. rewrite Z.mod_small by lia. lia.
  - cbn [rev]. rewrite value_app, IH.
    + cbn. rewrite char_digit_char by lia. lia.
    + split; [apply Z.div_pos; lia|]. apply Z.div_lt_upper_bound; [lia|].
      rewrite Nat2Z.inj_succ, Z.pow_succ_r in Hn by lia. lia.
Qed.

(** The loop computes the digits. *)
Lemma nts_loop_ok fuel num tmp :
  0 <= num < b ^ Z.of_nat fuel -> (length tmp + fuel <= 32)%nat -> (1 <= fuel)%nat ->
  exists num' tmp', nts_loop fuel num b tmp = Some (num', tmp') /\ 0 <= num' < b /\
    (length tmp' <= length tmp + fuel)%nat /\
    tmp' ++ (if Z.eqb num' 0 then [] else [digit_char num']) = tmp ++ digits_rev fuel num b /\
    (num' <> 0 -> (length tmp' < length tmp + fuel)%nat).
Proof.
  revert num tmp. induction fuel as [|fuel IH]; intros num tmp Hn Hl Hf; [lia|].
  cbn [nts_loop digits_rev]. pose proof (Z.mod_pos_bound num b) as Hm.
  rewrite hex_digit by lia. cbn [mbind option_bind].
  rewrite (proj2 (Nat.ltb_lt (length tmp) 32)) by lia.
  assert (Hd : 0 <= num / b) by (apply Z.div_pos; lia).
  assert (Hpow : num / b < b ^ Z.of_nat fuel).
  { apply Z.div_lt_upper_bound; [lia|]. rewrite Nat2Z.inj_succ, Z.pow_succ_r in Hn by lia. lia. }
  destruct (Z.leb_spec b (num / b)) as [Hge|Hlt].
  - destruct fuel as [|fuel]; [cbn [Z.of_nat] in Hpow; rewrite Z.pow_0_r in Hpow; lia|].
    destruct (IH (num / b) (tmp ++ [digit_char (num mod b)])) as (n' & t' & E & H1 & H2 & H3 & H4);
      [lia|rewrite length_app; simpl; lia|lia|].
    exists n', t'. split; [done|]. split; [done|]. rewrite length_app in *. simpl length in *.
    split; [lia|]. split; [|intros; specialize (H4 H); lia].
    assert (Hnb : b <= num) by (assert (b * (num / b) <= num) by (apply Z.mul_div_le; lia); nia).
    rewrite H3, (proj2 (Z.ltb_ge num b)) by lia. by rewrite <- app_assoc.
  - exists (num / b), (tmp ++ [digit_char (num mod b)]). split; [done|]. split; [lia|].
    rewrite length_app. simpl length. split; [lia|]. split.
    + rewrite <- app_assoc. f_equal. simpl. f_equal.
      destruct (Z.ltb_spec num b) as [Hs|Hs].
      * rewrite Z.div_small by lia. done.
      * assert (Hq : 0 < num / b) by (apply Z.div_str_pos; lia).
        rewrite (proj2 (Z.eqb_neq (num / b) 0)) by lia.
        destruct fuel as [|fuel]; [cbn [Z.of_nat] in Hpow; rewrite Z.pow_0_r in Hpow; lia|]. cbn [digits_rev].
        by rewrite (proj2 (Z.ltb_lt (num / b) b)), Z.mod_small by lia.
    + intros Hne. destruct fuel as [|fuel]; [cbn [Z.of_nat] in Hpow; rewrite Z.pow_0_r in Hpow; lia|lia].
Qed.

(** [nts_digits] yields the digits, least significant first. *)
Lemma nts_digits_ok num :
  0 <= num < 2 ^ 32 -> nts_digits num b = Some (digits_rev 32 num b).
Proof.
  intros Hn. unfold nts_digits.
  assert (Hp : 2 ^ 32 <= b ^ Z.of_nat 32).
  { apply Z.pow_le_mono_l. lia. }
  destruct (nts_loop_ok 32 num []) as (n' & t' & -> & H1 & H2 & H3 & H4); [lia|simpl; lia|lia|].
  cbn [mbind option_bind]. rewrite app_nil_l in H3. rewrite <- H3. simpl length in *.
  destruct (Z.eqb_spec n' 0) as [->|Hne]; cbn [negb]; [by rewrite app_nil_r|].
  rewrite hex_digit by lia. cbn [mbind option_bind].
  rewrite (proj2 (Nat.ltb_lt _ 32)); [done|]. apply H4. done.
Qed.

Lemma digits_rev_length fuel num : (length (digits_rev fuel num b) <= fuel)%nat.
Proof.
  revert num. induction fuel as [|fuel IH]; intros num; simpl; [lia|].
  destruct (Z.ltb num b); simpl; [lia|]. specialize (IH (num / b)). lia.
Qed.

Lemma digits_rev_byte fuel num : Forall (fun c => 48 <= c < 103) (digits_rev fuel num b).
Proof.
  revert num. induction fuel as [|fuel IH]; intros num; simpl; [done|].
  constructor.
  - pose proof (Z.mod_pos_bound num b). unfold digit_char.
    destruct (Z.ltb_spec (num mod b) 10); lia.
  - destruct (Z.ltb num b); [done|]. apply IH.
Qed.
End conversions.

Lemma u8_byte c : 0 <= c < 256 -> u8 c = c.
Proof. intros Hc. unfold u8, wrap. by rewrite Z.mod_small by (change (2 ^ 8) with 256; lia). Qed.

(** The copy loop writes the digits in reading order. *)
Lemma nts_copy_ok tmp rest buf m :
  room m buf (Z.of_nat (length tmp)) -> Forall (fun c => 0 <= c < 256) tmp ->
  nts_copy (length tmp) (tmp ++ rest) buf m = Some (write buf (rev tmp) m).
Proof.
  revert rest buf m. induction tmp as [|c tmp IH] using rev_ind; intros rest buf m Hr Hc; [done|].
  apply Forall_app in Hc as [Hc Hc1]. inversion Hc1 as [|? ? Hcb _]; subst.
  rewrite length_app in *. simpl length in *. rewrite Nat.add_1_r in *. cbn [nts_copy].
  rewrite <- app_assoc, lookup_app_r by lia. rewrite Nat.sub_diag. cbn [lookup list_lookup app mbind option_bind].
  rewrite store8_ok by (rewrite <- (Z.add_0_r buf); apply Hr; lia). cbn [mbind option_bind].
  rewrite u8_byte by done. rewrite IH; [|apply room_write, (room_le _ _ _ 1 _ Hr); lia|done].
  by rewrite rev_app_distr.
Qed.

(** Digits as text, most significant first. *)
Definition digits (num b : Z) : list Z := rev (digits_rev 32 num b).

Lemma digits_byte num b : 2 <= b <= 16 -> Forall (fun c => 0 < c < 256) (digits num b).
Proof.
  intros Hb. apply Forall_rev. eapply Forall_impl; [by apply digits_rev_byte|]. simpl. lia.
Qed.

Lemma num_to_str_ok buf num b m :
  2 <= b <= 16 -> 0 <= num < 2 ^ 32 -> room m buf (Z.of_nat (length (digits num b))) ->
  num_to_str buf num b m =
  Some (Z.of_nat (length (digits num b)), write buf (digits num b) m).
Proof.
  intros Hb Hn Hr. unfold num_to_str, digits in *. rewrite nts_digits_ok by done.
  cbn [mbind option_bind]. rewrite length_rev in *.
  pose proof (nts_copy_ok (digits_rev 32 num b) [] buf m Hr) as H. rewrite app_nil_r in H.
  rewrite H; [done|]. eapply Forall_impl; [by apply digits_rev_byte|]. simpl. lia.
Qed.

(** The text of a signed number. *)
Definition int_text (num : Z) : list Z :=
  if Z.ltb num 0 then CH_MINUS :: digits (- num) 10 else digits num 10.

Lemma absolute_neg num : - 2 ^ 31 <= num < 0 -> u32 (absolute num) = - num.
Proof.
  intros Hn. unfold absolute. rewrite (proj2 (Z.ltb_ge 0 num)) by lia.
  unfold Z.lnot. replace (Z.pred (- num) + 1) with (- num) by lia.
  unfold u32, s32, wrap. change (2 ^ 32) with 4294967296.
  change (2 ^ 31) with 2147483648 in *. Z.to_euclidean_division_equations. lia.
Qed.

Lemma itoa_ok buf num m :
  - 2 ^ 31 <= num < 2 ^ 31 -> buf <> 0 -> room m buf (Z.of_nat (length (int_text num))) ->
  itoa buf num m = Some (Z.of_nat (length (int_text num)), write buf (int_text num) m).
Proof.
  intros Hn Hb Hr. unfold itoa, int_text in *. rewrite (proj2 (Z.eqb_neq buf 0)) by done.
  destruct (Z.ltb_spec num 0) as [Hlt|Hge].
  - simpl length in *. rewrite store8_ok by (rewrite <- (Z.add_0_r buf); apply Hr; lia).
    cbn [mbind option_bind]. rewrite absolute_neg by lia.
    rewrite num_to_str_ok; [cbn [mbind option_bind write]; f_equal; f_equal; lia|lia|lia|].
    apply room_write, (room_le _ _ _ 1 _ Hr); lia.
  - unfold u32, wrap. rewrite Z.mod_small by lia. by rewrite num_to_str_ok by (done || lia).
Qed.


(** ** Specification of the string functions *)

Section strings.
Implicit Types (m : mem) (a : Z) (l : list Z).

Lemma cstr_head m a l : cstr m a l -> load8 a m = Some (default 0 (head l)).
Proof.
  intros [H _]. unfold load8. rewrite <- (Z.add_0_r a). change 0 with (Z.of_nat 0) at 1.
  apply H. by destruct l.
Qed.

Lemma cstr_tail m a c l : cstr m a (c :: l) -> cstr m (a + 1) l /\ 0 < c < 256.
Proof.
  intros [H Hf]. inversion Hf as [|? ? Hc Hl]; subst. split; [|done]. split; [|done].
  intros i x Hi. replace (a + 1 + Z.of_nat i) with (a + Z.of_nat (S i)) by lia. by apply H.
Qed.

Lemma cstr_size m a l : cstr m a l -> (S (length l) <= size m)%nat.
Proof. intros [H _]. apply bytes_at_size in H. rewrite length_app in H. simpl in H. lia. Qed.

Lemma strlen_loop_ok l fuel a len m :
  cstr m a l -> (length l < fuel)%nat -> strlen_loop fuel a len m = Some (len + Z.of_nat (length l)).
Proof.
  revert fuel a len. induction l as [|c l IH]; intros [|fuel] a len Hs Hf; cbn [strlen_loop length] in *; try lia;
    rewrite (cstr_head _ _ _ Hs); cbn [mbind option_bind head from_option id].
  - unfold truth. simpl. f_equal. lia.
  - apply cstr_tail in Hs as [Hs Hc].
    assert (truth c = true) as -> by (unfold truth; destruct (Z.eqb_spec c 0); [lia|done]).
    rewrite IH by (done || lia). f_equal. lia.
Qed.

Lemma strlen_ok a l m : cstr m a l -> a <> 0 -> strlen a m = Some (Z.of_nat (length l)).
Proof.
  intros Hs Ha. unfold strlen. rewrite (proj2 (Z.eqb_neq a 0)) by done.
  pose proof (cstr_size _ _ _ Hs). by rewrite (strlen_loop_ok l) by (done || lia).
Qed.

(** The source and the target of a copy do not overlap. *)
Definition disjoint (a n b k : Z) : Prop := a + n <= b \/ b + k <= a.

Lemma strcpy_loop_ok l fuel des src m :
  cstr m src l -> room m des (Z.of_nat (length l) + 1) -> (length l < fuel)%nat ->
  disjoint des (Z.of_nat (length l) + 1) src (Z.of_nat (length l) + 1) ->
  strcpy_loop fuel des src m = Some (write des (l ++ [0]) m).
Proof.
  revert fuel des src m. induction l as [|c l IH]; intros [|fuel] des src m Hs Hr Hf Hd;
    cbn [strcpy_loop length] in *; try lia; rewrite (cstr_head _ _ _ Hs); cbn [mbind option_bind head from_option id];
    rewrite store8_ok by (rewrite <- (Z.add_0_r des); apply Hr; lia); cbn [mbind option_bind].
  - done.
  - pose proof (cstr_tail _ _ _ _ Hs) as [Ht Hc].
    assert (truth c = true) as -> by (unfold truth; destruct (Z.eqb_spec c 0); [lia|done]).
    rewrite u8_byte by lia. rewrite IH; [done| | |lia|unfold disjoint in *; lia].
    + destruct Ht as [Hb Hl]. split; [|done]. eapply bytes_at_frame; [done|].
      intros x Hx. apply lookup_write_out. rewrite length_app in Hx. simpl in *.
      unfold disjoint in Hd. lia.
    + apply room_write, (room_le _ _ _ 1 _ Hr); lia.
Qed.

Lemma strcpy_ok l des src m :
  cstr m src l -> room m des (Z.of_nat (length l) + 1) -> des <> 0 -> src <> 0 ->
  disjoint des (Z.of_nat (length l) + 1) src (Z.of_nat (length l) + 1) ->
  strcpy des src m = Some (des, write des (l ++ [0]) m).
Proof.
  intros Hs Hr Hd Hsr Hdj. unfold strcpy. rewrite !(proj2 (Z.eqb_neq _ 0)) by done.
  pose proof (cstr_size _ _ _ Hs). by rewrite (strcpy_loop_ok l) by (done || lia).
Qed.

Lemma write_cstr a l m :
  Forall (fun c => 0 < c < 256) l -> cstr (write a (l ++ [0]) m) a l.
Proof. intros Hl. split; [apply write_bytes|done]. Qed.

(** The reference order: lexicographic on bytes, a proper prefix first. *)
Fixpoint lex_compare (l1 l2 : list Z) : comparison :=
  match l1, l2 with
  | [], [] => Eq
  | [], _ :: _ => Lt
  | _ :: _, [] => Gt
  | a :: l1', b :: l2' => match Z.compare a b with Eq => lex_compare l1' l2' | r => r end
  end.

Definition sign_of (c : comparison) : Z := match c with Eq => 0 | Lt => -1 | Gt => 1 end.

Lemma lex_compare_eq l1 l2 : lex_compare l1 l2 = Eq <-> l1 = l2.
Proof.
  revert l2. induction l1 as [|a l1 IH]; intros [|b l2]; simpl; try done.
  destruct (Z.compare_spec a b) as [->|H|H].
  - rewrite IH. split; congruence.
  - split; [done|]. intros [= -> _]. lia.
  - split; [done|]. intros [= -> _]. lia.
Qed.

Lemma sign_compare a b : sign (a - b) = sign_of (Z.compare a b).
Proof.
  unfold sign. destruct (Z.compare_spec a b) as [->|H|H]; simpl.
  - by rewrite Z.sub_diag.
  - by rewrite (proj2 (Z.ltb_lt (a - b) 0)) by lia.
  - rewrite (proj2 (Z.ltb_ge (a - b) 0)) by lia. by rewrite (proj2 (Z.ltb_lt 0 (a - b))) by lia.
Qed.

Lemma strcmp_loop_ok l1 l2 fuel src dst m :
  cstr m src l1 -> cstr m dst l2 -> (length l2 < fuel)%nat ->
  sign <$> strcmp_loop fuel src dst m = Some (sign_of (lex_compare l1 l2)).
Proof.
  revert l2 fuel src dst. induction l1 as [|a l1 IH]; intros l2 [|fuel] src dst H1 H2 Hf; try lia;
    cbn [strcmp_loop]; rewrite (cstr_head _ _ _ H1), (cstr_head _ _ _ H2);
    cbn [mbind option_bind]; destruct l2 as [|b l2]; cbn [head from_option id lex_compare].
  - done.
  - apply cstr_tail in H2 as [H2 Hb]. rewrite (proj2 (Z.eqb_neq (0 - b) 0)) by lia. cbn.
    rewrite sign_compare. by rewrite (proj2 (Z.compare_lt_iff 0 b)) by lia.
  - apply cstr_tail in H1 as [H1 Ha]. rewrite (proj2 (Z.eqb_neq (a - 0) 0)) by lia.
    cbn [andb fmap option_fmap option_map]. rewrite sign_compare.
    by rewrite (proj2 (Z.compare_gt_iff a 0)) by lia.
  - apply cstr_tail in H1 as [H1 Ha], H2 as [H2 Hb].
    assert (truth b = true) as -> by (unfold truth; destruct (Z.eqb_spec b 0); [lia|done]).
    destruct (Z.eqb_spec (a - b) 0) as [E|E]; cbn [andb].
    + assert (a = b) as -> by lia. rewrite Z.compare_refl. apply IH; [done|done|].
      simpl in Hf. lia.
    + cbn [fmap option_fmap option_map]. rewrite sign_compare.
      destruct (Z.compare_spec a b); [lia|done|done].
Qed.

Lemma strcmp_ok l1 l2 src dst m :
  cstr m src l1 -> cstr m dst l2 ->
  strcmp src dst m = Some (sign_of (lex_compare l1 l2)).
Proof.
  intros H1 H2. unfold strcmp. pose proof (cstr_size _ _ _ H2).
  by rewrite (strcmp_loop_ok l1 l2) by (done || lia).
Qed.

Lemma memset_loop_ok n base i ch m :
  room m (base + i) (Z.of_nat n) ->
  for_range n i (fun i m => store8 (base + i) ch m) m = Some (write (base + i) (replicate n (u8 ch)) m).
Proof.
  revert i m. induction n as [|n IH]; intros i m Hr; [done|]. cbn [for_range replicate write].
  rewrite store8_ok by (rewrite <- (Z.add_0_r (base + i)); apply Hr; lia). cbn [mbind option_bind].
  replace (base + i + 1) with (base + (i + 1)) by lia. apply IH.
  apply (room_write _ _ (base + i) [u8 ch]). replace (base + (i + 1)) with (base + i + 1) by lia. apply (room_le _ _ _ 1 _ Hr); lia.
Qed.

Lemma memset_ok base ch n m :
  room m base n -> memset base ch n m = Some (write base (replicate (Z.to_nat n) (u8 ch)) m).
Proof.
  intros Hr. unfold memset. pose proof (memset_loop_ok (Z.to_nat n) base 0 ch m) as H.
  rewrite Z.add_0_r in H. apply H. intros i Hi. apply Hr. lia.
Qed.

(** A copy of [n] bytes to a place disjoint from them. *)
Lemma copy_loop_ok l i des src m :
  bytes_at m (src + i) l -> Forall (fun c => 0 <= c < 256) l ->
  room m (des + i) (Z.of_nat (length l)) ->
  disjoint (des + i) (Z.of_nat (length l)) (src + i) (Z.of_nat (length l)) ->
  for_range (length l) i (fun i m => c ← load8 (src + i) m; store8 (des + i) c m) m =
  Some (write (des + i) l m).
Proof.
  revert i m. induction l as [|c l IH]; intros i m Hb Hf Hr Hd; [done|].
  cbn [for_range length write] in *. inversion Hf as [|? ? Hc Hl]; subst.
  assert (E : load8 (src + i) m = Some c).
  { unfold load8. rewrite <- (Z.add_0_r (src + i)). by apply (Hb 0%nat). }
  rewrite E. cbn [mbind option_bind].
  rewrite store8_ok by (rewrite <- (Z.add_0_r (des + i)); apply Hr; lia). cbn [mbind option_bind].
  rewrite u8_byte by lia. replace (des + i + 1) with (des + (i + 1)) by lia.
  unfold disjoint in *. apply IH; [|done| |lia].
  - intros j x Hj. change (<[des + i:=c]> m) with (write (des + i) [c] m).
    rewrite lookup_write_out.
    + replace (src + (i + 1) + Z.of_nat j) with (src + i + Z.of_nat (S j)) by lia. by apply Hb.
    + apply lookup_lt_Some in Hj. simpl. lia.
  - apply (room_write _ _ (des + i) [c]). replace (des + (i + 1)) with (des + i + 1) by lia.
    apply (room_le _ _ _ 1 _ Hr); lia.
Qed.

Lemma copy_left_ok l des src m :
  bytes_at m src l -> Forall (fun c => 0 <= c < 256) l -> room m des (Z.of_nat (length l)) ->
  disjoint des (Z.of_nat (length l)) src (Z.of_nat (length l)) ->
  copy_left (Z.of_nat (length l)) des src m = Some (write des l m).
Proof.
  intros Hb Hf Hr Hd. unfold copy_left. rewrite Nat2Z.id.
  pose proof (copy_loop_ok l 0 des src m) as H. rewrite !Z.add_0_r in H. by apply H.
Qed.

(** A word of four bytes is read and written as it is. *)
Lemma load32_four a0 a1 a2 a3 a m :
  bytes_at m a [a0; a1; a2; a3] -> Forall (fun c => 0 <= c < 256) [a0; a1; a2; a3] ->
  exists v, load32 a m = Some v /\ word_list v = [a0; a1; a2; a3].
Proof.
  intros Hb Hf. rewrite !Forall_cons in Hf. destruct Hf as (H0 & H1 & H2 & H3 & _).
  exists (a0 + 2 ^ 8 * a1 + 2 ^ 16 * a2 + 2 ^ 24 * a3).
  assert (Hw : word_list (a0 + 2 ^ 8 * a1 + 2 ^ 16 * a2 + 2 ^ 24 * a3) = [a0; a1; a2; a3]).
  { unfold word_list, u8, wrap. repeat f_equal; Z.to_euclidean_division_equations; lia. }
  split; [|done]. apply load32_bytes; [lia|]. by rewrite Hw.
Qed.

Lemma skew_mod a : a &u 3 = a mod 4.
Proof. change 3 with (Z.ones 2). by rewrite Z.land_ones. Qed.

Lemma copy_four_ok l des src m :
  length l = 16%nat -> bytes_at m src l -> Forall (fun c => 0 <= c < 256) l -> room m des 16 ->
  des mod 4 = 0 -> src mod 4 = 0 -> copy_four des src m = Some (write des l m).
Proof.
  intros Hl Hb Hf Hr Hd Hs. do 16 (destruct l as [|? l]; [done|]). destruct l; [|done].
  match goal with |- _ = Some (write _ ?l _) =>
    assert (E : l = take 4 l ++ (take 4 (drop 4 l) ++ (take 4 (drop 8 l) ++ drop 12 l))) by done; rewrite E in Hb, Hf |- *; clear E end.
  cbn [take drop] in *.
  apply bytes_at_app in Hb as [B1 Hb]. apply bytes_at_app in Hb as [B2 Hb]. apply bytes_at_app in Hb as [B3 B4].
  apply Forall_app in Hf as [F1 Hf]. apply Forall_app in Hf as [F2 Hf]. apply Forall_app in Hf as [F3 F4].
  change (Z.of_nat (length _)) with 4 in B2, B3, B4.
  replace (src + 4 + 4) with (src + 8) in B3, B4 by lia. replace (src + 8 + 4) with (src + 12) in B4 by lia.
  destruct (load32_four _ _ _ _ _ _ B1 F1) as (v1 & E1 & W1). destruct (load32_four _ _ _ _ _ _ B2 F2) as (v2 & E2 & W2).
  destruct (load32_four _ _ _ _ _ _ B3 F3) as (v3 & E3 & W3). destruct (load32_four _ _ _ _ _ _ B4 F4) as (v4 & E4 & W4).
  unfold copy_four. rewrite !skew_mod, Hd, Hs. cbn [Z.eqb andb]. rewrite E1, E2, E3, E4, !bind_Some_eq.
  assert (Hq : forall k, 0 <= k <= 12 -> room m (des + k) 4) by (intros k Hk; apply (room_le _ _ _ _ _ Hr); lia).
  rewrite store32_ok by (rewrite <- (Z.add_0_r des); apply Hq; lia). rewrite bind_Some_eq.
  rewrite store32_ok by (apply room_write, Hq; lia). rewrite bind_Some_eq.
  rewrite store32_ok by (do 2 apply room_write; apply Hq; lia). rewrite bind_Some_eq.
  rewrite store32_ok by (do 3 apply room_write; apply Hq; lia).
  rewrite W1, W2, W3, W4, !write_app. cbn [length]. change (Z.of_nat 4) with 4.
  by replace (des + 4 + 4) with (des + 8) by lia; replace (des + 8 + 4) with (des + 12) by lia.
Qed.

(** The blocks and the rest, between words. *)
Lemma copy_blocks_ok fuel l des src m :
  (length l < fuel)%nat -> Z.of_nat (length l) < 2 ^ 31 ->
  bytes_at m src l -> Forall (fun c => 0 <= c < 256) l -> room m des (Z.of_nat (length l)) ->
  disjoint des (Z.of_nat (length l)) src (Z.of_nat (length l)) ->
  (16 <= Z.of_nat (length l) -> des mod 4 = 0 /\ src mod 4 = 0) ->
  ('(target, source, size, m) ← copy_bigger_16 fuel des src (Z.of_nat (length l)) m;
   copy_left (u32 size) target source m) = Some (write des l m).
Proof.
  revert l des src m. induction fuel as [|fuel IH]; intros l des src m Hfu H31 Hb Hf Hr Hd Ha; [lia|].
  cbn [copy_bigger_16]. destruct (Z.ltb_spec (Z.of_nat (length l)) 16) as [Hlt|Hge].
  - rewrite bind_Some_eq. rewrite u32_small by lia. by apply copy_left_ok.
  - destruct (Ha Hge) as [Hd4 Hs4]. unfold disjoint in *.
    rewrite <- (take_drop 16 l) in Hb, Hf. apply bytes_at_app in Hb as [B1 B2]. apply Forall_app in Hf as [F1 F2].
    assert (L1 : length (take 16 l) = 16%nat) by (rewrite length_take; lia).
    assert (L2 : Z.of_nat (length (drop 16 l)) = Z.of_nat (length l) - 16) by (rewrite length_drop; lia).
    rewrite L1 in B2. change (Z.of_nat 16) with 16 in B2.
    rewrite (copy_four_ok (take 16 l)); [|done|done|done|intros i Hi; apply Hr; lia|done|done].
    rewrite bind_Some_eq. rewrite <- L2, IH.
    + replace (write des l m) with (write des (take 16 l ++ drop 16 l) m) by (by rewrite take_drop).
      by rewrite write_app, L1.
    + rewrite length_drop. lia.
    + lia.
    + eapply bytes_at_frame; [exact B2|]. intros x Hx. apply lookup_write_out. lia.
    + done.
    + apply room_write. intros i Hi. rewrite <- Z.add_assoc. apply Hr. lia.
    + lia.
    + intros _. split; Z.to_euclidean_division_equations; lia.
Qed.

(** When the routine copies [n] bytes as it should: the addresses are not equally far past
    a word, or at a word, or two past it and the two bytes are there, or all bytes are
    copied one by one. *)
Definition copies (des src n : Z) : Prop :=
  des mod 4 = src mod 4 -> des mod 4 = 0 \/ (des mod 4 <= n /\ (des mod 4 = 2 \/ n < 16 + des mod 4)).

Lemma copies_aligned des src n : des mod 4 = 0 -> copies des src n.
Proof. by left. Qed.

Lemma memcpy_ok l des src m :
  bytes_at m src l -> Forall (fun c => 0 <= c < 256) l -> room m des (Z.of_nat (length l)) ->
  disjoint des (Z.of_nat (length l)) src (Z.of_nat (length l)) ->
  copies des src (Z.of_nat (length l)) -> Z.of_nat (length l) < 2 ^ 31 ->
  memcpy des src (Z.of_nat (length l)) m = Some (write des l m).
Proof.
  intros Hb Hf Hr Hd Hc H31. unfold memcpy. rewrite !skew_mod. cbv zeta.
  destruct (Z.eqb_spec (des mod 4) (src mod 4)) as [Eq|Ne]; cbn [negb].
  2: { rewrite u32_small by lia. by apply copy_left_ok. }
  specialize (Hc Eq). pose proof (Z.mod_pos_bound des 4 ltac:(lia)) as Hm.
  assert (Hle : des mod 4 <= Z.of_nat (length l)) by lia.
  set (k := Z.to_nat (des mod 4)). unfold disjoint in *.
  rewrite <- (take_drop k l) in Hb, Hf. apply bytes_at_app in Hb as [B1 B2]. apply Forall_app in Hf as [F1 F2].
  assert (L1 : Z.of_nat (length (take k l)) = des mod 4) by (rewrite length_take; lia).
  assert (L2 : Z.of_nat (length (drop k l)) = Z.of_nat (length l) - des mod 4) by (rewrite length_drop; lia).
  rewrite <- L1 at 1. rewrite copy_left_ok; [|done|done|intros i Hi; apply Hr; lia|unfold disjoint; lia].
  rewrite bind_Some_eq, s32_small by lia. rewrite <- L2. rewrite Nat2Z.id.
  rewrite (copy_blocks_ok _ (drop k l)).
  - replace (write des l m) with (write des (take k l ++ drop k l) m) by (by rewrite take_drop).
    by rewrite write_app, L1.
  - lia.
  - lia.
  - rewrite L1 in B2. eapply bytes_at_frame; [exact B2|]. intros x Hx. apply lookup_write_out. lia.
  - done.
  - apply room_write. intros i Hi. rewrite <- Z.add_assoc. apply Hr. lia.
  - unfold disjoint. lia.
  - intros H16. destruct Hc as [H0|[_ [H2|Hlt]]]; [| |lia];
      split; Z.to_euclidean_division_equations; lia.
Qed.

(** Two buffers one byte past a word: the loop of four words aborts. *)
Lemma memcpy_odd_aborts des src n m :
  des mod 4 = src mod 4 -> des mod 4 = 1 \/ des mod 4 = 3 -> 16 + des mod 4 <= n < 2 ^ 31 -> memcpy des src n m = None.
Proof.
  intros Eq Hodd Hn. unfold memcpy. rewrite !skew_mod. cbv zeta. rewrite <- Eq, Z.eqb_refl. cbn [negb].
  destruct (copy_left (des mod 4) des src m) as [m1|]; [|done]. rewrite bind_Some_eq, s32_small by lia.
  cbn [copy_bigger_16]. rewrite (proj2 (Z.ltb_ge _ 16)) by lia. unfold copy_four. rewrite skew_mod.
  replace ((des + des mod 4) mod 4) with 2 by (Z.to_euclidean_division_equations; lia). done.
Qed.

(** Fewer bytes than the addresses are past a word: the count goes below zero and almost
    2^32 bytes are copied. *)
Lemma memcpy_short_overruns des src n m m1 :
  des mod 4 = src mod 4 -> 0 <= n < des mod 4 -> copy_left (des mod 4) des src m = Some m1 ->
  memcpy des src n m = copy_left (2 ^ 32 + n - des mod 4) (des + des mod 4) (src + des mod 4) m1.
Proof.
  intros Eq Hn E. unfold memcpy. rewrite !skew_mod. cbv zeta. rewrite <- Eq, Z.eqb_refl, E. cbn [negb].
  pose proof (Z.mod_pos_bound des 4 ltac:(lia)). rewrite bind_Some_eq, s32_small by lia.
  cbn [copy_bigger_16]. rewrite (proj2 (Z.ltb_lt _ 16)) by lia. rewrite bind_Some_eq. f_equal.
  unfold u32, wrap. rewrite <- (Z_mod_plus_full _ 1), Z.mod_small by lia. lia.
Qed.
End strings.
