(* ===== verification/S3c2440.v ===== *)
(** * The s3c2440 peripherals

    Models [arch/arm/machine/s3c2440_c.c], the register offsets of
    [s3c2440_reg.h] and the interrupt numbers of [s3c2440_irq.h].  A device
    register is observed only through the stores the code makes, recorded in
    order in [io], and the words it loads: what a load returns after a sequence
    of stores is the device's business and a parameter, [dev_read]. *)

From S2P Require Import Prelude Mem CString.

(** ** Registers and interrupt numbers *)

Definition TIMER_BASE : Z := 0x51000000.
Definition TCFG0 : Z := 0x00.
Definition TCFG1 : Z := 0x04.
Definition TCON : Z := 0x08.
Definition TCNTB4 : Z := 0x3c.
Definition IRQ_BASE : Z := 0x4a000000.
Definition SRCPND : Z := 0x0.
Definition INTMOD : Z := 0x04.
Definition INTMSK : Z := 0x08.
Definition INTPND : Z := 0x10.
Definition INTOFFSET : Z := 0x14.
Definition SUBSRCPND : Z := 0x18.
Definition INTSUBMSK : Z := 0x1c.
Definition CLK_BASE : Z := 0x4c000000.
Definition MPLLCON : Z := 0x04.
Definition UPLLCON : Z := 0x08.
Definition CLKDIVN : Z := 0x14.
Definition CAMDIVN : Z := 0x18.
Definition UART_BASE : Z := 0x50000000.
Definition ULCON0 : Z := 0x00.
Definition UCON0 : Z := 0x04.
Definition UFCON0 : Z := 0x08.
Definition UMCON0 : Z := 0x0c.
Definition UBRDIV0 : Z := 0x28.
Definition UBRDIV1 : Z := 0x4028.
Definition UTXH0 : Z := 0x20.

Definition CAM : Z := 6.
Definition WDT_AC97 : Z := 9.
Definition TIMER4 : Z := 14.
Definition UART2 : Z := 15.
Definition UART1 : Z := 23.
Definition UART0 : Z := 28.
Definition ADC : Z := 31.

Definition AC_97 : Z := 14.
Definition WDT : Z := 13.
Definition CAM_P : Z := 12.
Definition CAM_C : Z := 11.
Definition ADC_S : Z := 10.
Definition TC : Z := 9.
Definition ERR2 : Z := 8.
Definition TXD2 : Z := 7.
Definition RXD2 : Z := 6.
Definition ERR1 : Z := 5.
Definition TXD1 : Z := 4.
Definition RXD1 : Z := 3.
Definition ERR0 : Z := 2.
Definition TXD0 : Z := 1.
Definition RXD0 : Z := 0.

(** [bit(nr)]: [1 << nr] as an [int]. *)
Definition bit (nr : Z) : Z := s32 (Z.shiftl 1 nr).

(** ** State *)

Inductive io_write : Set :=
  | W8 (addr value : Z)
  | W16 (addr value : Z)
  | W32 (addr value : Z).

Record platform : Type := Mk_platform {
  irq_base : Z;
  timer_base : Z;
  clk_base : Z;
  uart_base : Z;
  HCLK : Z;
  FCLK : Z;
  PCLK : Z;
  UCLK : Z;
  io : list io_write
}.

Definition with_irq_base (v : Z) (x : platform) : platform :=
  Mk_platform v x.(timer_base) x.(clk_base) x.(uart_base) x.(HCLK) x.(FCLK) x.(PCLK) x.(UCLK)
    x.(io).
Definition with_timer_base (v : Z) (x : platform) : platform :=
  Mk_platform x.(irq_base) v x.(clk_base) x.(uart_base) x.(HCLK) x.(FCLK) x.(PCLK) x.(UCLK)
    x.(io).
Definition with_clk_base (v : Z) (x : platform) : platform :=
  Mk_platform x.(irq_base) x.(timer_base) v x.(uart_base) x.(HCLK) x.(FCLK) x.(PCLK) x.(UCLK)
    x.(io).
Definition with_uart_base (v : Z) (x : platform) : platform :=
  Mk_platform x.(irq_base) x.(timer_base) x.(clk_base) v x.(HCLK) x.(FCLK) x.(PCLK) x.(UCLK)
    x.(io).
Definition with_HCLK (v : Z) (x : platform) : platform :=
  Mk_platform x.(irq_base) x.(timer_base) x.(clk_base) x.(uart_base) v x.(FCLK) x.(PCLK)
    x.(UCLK) x.(io).
Definition with_FCLK (v : Z) (x : platform) : platform :=
  Mk_platform x.(irq_base) x.(timer_base) x.(clk_base) x.(uart_base) x.(HCLK) v x.(PCLK)
    x.(UCLK) x.(io).
Definition with_PCLK (v : Z) (x : platform) : platform :=
  Mk_platform x.(irq_base) x.(timer_base) x.(clk_base) x.(uart_base) x.(HCLK) x.(FCLK) v
    x.(UCLK) x.(io).
Definition with_UCLK (v : Z) (x : platform) : platform :=
  Mk_platform x.(irq_base) x.(timer_base) x.(clk_base) x.(uart_base) x.(HCLK) x.(FCLK) x.(PCLK)
    v x.(io).
Definition with_io (v : list io_write) (x : platform) : platform :=
  Mk_platform x.(irq_base) x.(timer_base) x.(clk_base) x.(uart_base) x.(HCLK) x.(FCLK) x.(PCLK)
    x.(UCLK) v.

Section s3c2440.
(** The word a load from a register yields after a sequence of stores. *)
Variable dev_read : list io_write -> Z -> Z.
(** [pa_to_va] of the memory manager, which [request_io_mem] returns. *)
Variable pa_to_va : Z -> Z.

Implicit Types (p : platform) (nr v a : Z).

Definition iowrite8 v a p : platform := with_io (p.(io) ++ [W8 a (u8 v)]) p.
Definition iowrite16 v a p : platform := with_io (p.(io) ++ [W16 a (u16 v)]) p.
Definition iowrite32 v a p : platform := with_io (p.(io) ++ [W32 a (u32 v)]) p.
Definition ioread32 a p : Z := u32 (dev_read p.(io) a).

Definition request_io_mem (addr : Z) : Z := pa_to_va addr.

(** ** Clocks *)

Definition platform_clk_init p : platform :=
  let fin := 12000000 in
  let tmp := ioread32 (p.(clk_base) + MPLLCON) p in
  let m := (tmp >>u 12) &u 0xff in
  let k := (tmp >>u 4) &u 0x3f in
  let s := tmp &u 0x03 in
  let fclk := (((m +u 8) *u (fin / 100)) *u 2) / ((k +u 2) *u Z.shiftl 1 s) *u 100 in
  let tmp := ioread32 (p.(clk_base) + CLKDIVN) p in
  let m := (tmp >>u 1) &u 0x03 in
  let k := tmp &u 0x01 in
  let tmp := ioread32 (p.(clk_base) + CAMDIVN) p in
  let s := tmp >>u 8 in
  let hclk :=
    if Z.eqb m 0 then fclk
    else if Z.eqb m 1 then fclk >>u 1
    else if Z.eqb m 2 then if truth (s &u 2) then fclk >>u 3 else fclk >>u 2
    else if truth (s &u 0x01) then fclk / 6 else fclk / 3 in
  let pclk := if truth k then hclk >>u 1 else hclk in
  let tmp := ioread32 (p.(clk_base) + UPLLCON) p in
  let m := (tmp >>u 12) &u 0xff in
  let k := (tmp >>u 4) &u 0x3f in
  let s := tmp &u 0x03 in
  let uclk := ((m +u 8) *u fin) / ((k +u 2) *u Z.shiftl 1 s) in
  with_UCLK uclk (with_PCLK pclk (with_HCLK hclk (with_FCLK fclk p))).

(** ** Interrupt controller *)

Definition platform_get_irq_id p : Z := s32 (ioread32 (p.(irq_base) + INTOFFSET) p).

Definition platform_irq_init p : Z * platform :=
  let p := with_irq_base (request_io_mem IRQ_BASE) p in
  if Z.eqb p.(irq_base) 0 then (- ENOMEM, p)
  else
    let p := iowrite32 0xffffffff (p.(irq_base) + INTMSK) p in
    let p := iowrite32 0xffffffff (p.(irq_base) + INTSUBMSK) p in
    (0, iowrite32 0 (p.(irq_base) + INTMOD) p).

(** The sub-sources of an interrupt, the cases of the two [switch]es below. *)
Definition sub_sources nr : list Z :=
  if Z.eqb nr WDT_AC97 then [AC_97; WDT]
  else if Z.eqb nr UART0 then [RXD0; TXD0; ERR0]
  else if Z.eqb nr UART1 then [RXD1; TXD1; ERR1]
  else if Z.eqb nr UART2 then [RXD2; TXD2; ERR2]
  else if Z.eqb nr ADC then [ADC_S; TC]
  else if Z.eqb nr CAM then [CAM_P; CAM_C]
  else [].

Definition platform_disable_irq nr p : platform :=
  let int_msk := ioread32 (p.(irq_base) + INTMSK) p in
  let int_submsk := ioread32 (p.(irq_base) + INTSUBMSK) p in
  let int_msk := u32 (Z.lor int_msk (bit nr)) in
  let int_submsk := u32 (Z.lor int_submsk (foldr Z.lor 0 (bit <$> sub_sources nr))) in
  let p := iowrite32 int_msk (p.(irq_base) + INTMSK) p in
  iowrite32 int_submsk (p.(irq_base) + INTSUBMSK) p.

Definition platform_enable_irq nr p : platform :=
  let int_msk := s32 (ioread32 (p.(irq_base) + INTMSK) p) in
  let int_submsk := s32 (ioread32 (p.(irq_base) + INTSUBMSK) p) in
  let int_msk := Z.land int_msk (Z.lnot (bit nr)) in
  let int_submsk :=
    Z.land int_submsk (foldr Z.land (-1) ((fun b => Z.lnot (bit b)) <$> sub_sources nr)) in
  let p := iowrite32 int_msk (p.(irq_base) + INTMSK) p in
  iowrite32 int_submsk (p.(irq_base) + INTSUBMSK) p.

Definition platform_irq_clean_pending p : platform :=
  let p := iowrite32 (ioread32 (p.(irq_base) + SUBSRCPND) p) (p.(irq_base) + SUBSRCPND) p in
  let p := iowrite32 (ioread32 (p.(irq_base) + SRCPND) p) (p.(irq_base) + SRCPND) p in
  iowrite32 (ioread32 (p.(irq_base) + INTPND) p) (p.(irq_base) + INTPND) p.

(** ** Serial port *)

(** [(int)(PCLK / 16. / 115200 + 0.5) - 1]: [PCLK / 1843200] rounded to the nearest
    integer, halves up.  The quotients nearest to a half are at least 1/1843200
    away from it or equal to it, so the rounding of the double arithmetic does
    not change the result. *)
Definition uart_divisor (pclk : Z) : Z := u32 ((2 * pclk + 1843200) / 3686400 - 1).

Definition platform_uart0_init p : Z * platform :=
  let val := uart_divisor p.(PCLK) in
  let p := iowrite32 0x1 (p.(uart_base) + UFCON0) p in
  let p := iowrite32 0x0 (p.(uart_base) + UMCON0) p in
  let p := iowrite32 0x03 (p.(uart_base) + ULCON0) p in
  let p := iowrite32 0x345 (p.(uart_base) + UCON0) p in
  let p := iowrite32 val (p.(uart_base) + UBRDIV1) p in
  (0, iowrite32 val (p.(uart_base) + UBRDIV0) p).

Definition CH_LF : Z := 10.
Definition CH_CR : Z := 13.

Definition platform_uart0_send_byte (ch : Z) p : platform :=
  let p := if Z.eqb ch CH_LF then iowrite8 CH_CR (p.(uart_base) + UTXH0) p else p in
  iowrite8 ch (p.(uart_base) + UTXH0) p.

Definition console_early_init p : Z * platform :=
  let p := with_uart_base UART_BASE (with_clk_base CLK_BASE p) in
  let p := platform_clk_init p in
  let '(_, p) := platform_uart0_init p in
  (0, p).

Definition console_late_init p : Z * platform :=
  (0, with_uart_base (request_io_mem UART_BASE) (with_clk_base (request_io_mem CLK_BASE) p)).

Fixpoint uart_puts_loop (fuel : nat) (buf : Z) (m : mem) p : option platform :=
  match fuel with
  | O => None
  | S fuel' =>
      c ← load8 buf m;
      if truth c then uart_puts_loop fuel' (buf + 1) m (platform_uart0_send_byte c p) else Some p
  end.

Definition uart_puts (buf : Z) (m : mem) p : option (Z * platform) :=
  size ← strlen buf m;
  p' ← uart_puts_loop (S (base.size m)) buf m p;
  Some (size, p').

Definition uart_put_char (buf size : Z) (m : mem) p : option (Z * platform) :=
  p' ← for_range (Z.to_nat size) 0
    (fun i p => c ← load8 (buf + i) m; Some (platform_uart0_send_byte c p)) p;
  Some (size, p').

(** ** Timer *)

(** The part of [timer_tick_init] before the handler is registered. *)
Definition timer_setup p : Z * platform :=
  let p := with_timer_base (request_io_mem TIMER_BASE) p in
  if Z.eqb p.(timer_base) 0 then (- ENOMEM, p)
  else
    let p := iowrite32 (Z.shiftl 249 8) (p.(timer_base) + TCFG0) p in
    let p := iowrite32 (Z.shiftl 0 16) (p.(timer_base) + TCFG1) p in
    let p := iowrite16 64536 (p.(timer_base) + TCNTB4) p in
    let p := iowrite32 (Z.shiftl 1 21) (p.(timer_base) + TCON) p in
    (0, iowrite32 (Z.lor (bit 20) (bit 22)) (p.(timer_base) + TCON) p).

(** ** Serial output *)

(** The bytes the transmit register receives for a text. *)
Definition crlf (l : list Z) : list Z := l ≫= fun c => if Z.eqb c CH_LF then [CH_CR; c] else [c].

Definition transmit (base : Z) (l : list Z) : list io_write := W8 (base + UTXH0) <$> crlf l.

Lemma with_io_io l l' p : with_io l (with_io l' p) = with_io l p.
Proof. done. Qed.

Lemma uart_send_ok c p :
  0 <= c < 256 ->
  platform_uart0_send_byte c p = with_io (p.(io) ++ transmit p.(uart_base) [c]) p.
Proof.
  intros Hc. unfold platform_uart0_send_byte, transmit, crlf, iowrite8.
  rewrite (u8_byte c) by done. change (u8 CH_CR) with CH_CR. cbn [mbind list_bind app].
  destruct (Z.eqb c CH_LF); cbn [app fmap list_fmap io uart_base with_io]; rewrite ?with_io_io;
    [by rewrite <- app_assoc|done].
Qed.

Lemma transmit_cons base c l : transmit base (c :: l) = transmit base [c] ++ transmit base l.
Proof.
  unfold transmit, crlf. rewrite <- fmap_app. cbn [mbind list_bind]. by rewrite app_nil_r.
Qed.

Lemma uart_puts_loop_ok l fuel buf m p :
  cstr m buf l -> (length l < fuel)%nat ->
  uart_puts_loop fuel buf m p = Some (with_io (p.(io) ++ transmit p.(uart_base) l) p).
Proof.
  revert fuel buf p. induction l as [|c l IH]; intros [|fuel] buf p Hs Hf;
    cbn [uart_puts_loop length] in *; try lia; rewrite (cstr_head _ _ _ Hs);
    cbn [mbind option_bind head from_option id].
  - unfold transmit. cbn. rewrite app_nil_r. by destruct p.
  - apply cstr_tail in Hs as [Hs Hc].
    assert (truth c = true) as -> by (unfold truth; destruct (Z.eqb_spec c 0); [lia|done]).
    rewrite uart_send_ok by lia. rewrite IH by (done || lia). cbn [io with_io uart_base].
    rewrite with_io_io, (transmit_cons _ c l), <- app_assoc. reflexivity.
Qed.

Lemma uart_puts_ok l buf m p :
  cstr m buf l -> buf <> 0 ->
  uart_puts buf m p =
  Some (Z.of_nat (length l), with_io (p.(io) ++ transmit p.(uart_base) l) p).
Proof.
  intros Hs Hb. unfold uart_puts. rewrite (strlen_ok _ l) by done. cbn [mbind option_bind].
  pose proof (cstr_size _ _ _ Hs). by rewrite (uart_puts_loop_ok l) by (done || lia).
Qed.

(** ** Interrupt masks *)

Lemma bit_testbit nr i : 0 <= nr < 32 -> 0 <= i < 32 -> Z.testbit (bit nr) i = Z.eqb i nr.
Proof.
  intros Hn Hi.
  assert (E : Z.testbit (u32 (bit nr)) i = Z.eqb i nr).
  { unfold bit. rewrite u32_s32. unfold u32, wrap. rewrite Z.mod_pow2_bits_low by lia.
    rewrite Z.shiftl_1_l, Z.pow2_bits_eqb by lia. apply Z.eqb_sym. }
  unfold u32, wrap in E. by rewrite Z.mod_pow2_bits_low in E by lia.
Qed.

Lemma sub_sources_range nr : Forall (fun b => 0 <= b < 32) (sub_sources nr).
Proof.
  unfold sub_sources.
  repeat match goal with |- context [if ?b then _ else _] => destruct b end;
    repeat constructor; vm_compute; done.
Qed.

Lemma lor_bits l i :
  Forall (fun b => 0 <= b < 32) l -> 0 <= i < 32 ->
  Z.testbit (foldr Z.lor 0 (bit <$> l)) i = bool_decide (i ∈ l).
Proof.
  intros Hl Hi. induction Hl as [|b l Hb _ IH]; cbn [fmap list_fmap foldr]; [by rewrite Z.bits_0|].
  rewrite Z.lor_spec, bit_testbit, IH by done. apply eq_bool_prop_intro.
  destruct (Z.eqb_spec i b); [subst|]; repeat case_bool_decide; simpl; set_solver.
Qed.

Lemma land_bits l i :
  Forall (fun b => 0 <= b < 32) l -> 0 <= i < 32 ->
  Z.testbit (foldr Z.land (-1) ((fun b => Z.lnot (bit b)) <$> l)) i = negb (bool_decide (i ∈ l)).
Proof.
  intros Hl Hi. induction Hl as [|b l Hb _ IH]; cbn [fmap list_fmap foldr].
  { rewrite Z.bits_m1 by lia. done. }
  rewrite Z.land_spec, Z.lnot_spec, bit_testbit, IH by (done || lia). apply eq_bool_prop_intro.
  destruct (Z.eqb_spec i b); [subst|]; repeat case_bool_decide; simpl; set_solver.
Qed.
End s3c2440.
