(* ===== verification/Printk.v ===== *)
(** * Formatted output

    Models [kernel/printk.c] and the [va_arg] macros of [include/os/varlist.h]: the
    argument list is an address, each argument takes one word.  [format] is the
    reference: the text a format and its arguments stand for. *)

From S2P Require Import Prelude Mem CString S3c2440.

(** ** The code *)

Definition PRINTF_DEC : Z := 0x0001.
Definition PRINTF_HEX : Z := 0x0002.
Definition PRINTF_OCT : Z := 0x0004.
Definition PRINTF_BIN : Z := 0x0008.
Definition PRINTF_MASK : Z := 0x0f.
Definition PRINTF_UNSIGNED : Z := 0x0010.
Definition PRINTF_SIGNED : Z := 0x0020.

Definition LOG_LEVEL : Z := 4.

Definition CH_PERCENT : Z := 37.
Definition CH_c : Z := 99.
Definition CH_d : Z := 100.
Definition CH_o : Z := 111.
Definition CH_s : Z := 115.
Definition CH_u : Z := 117.
Definition CH_x : Z := 120.

Definition numbric (buf num flag : Z) (m : mem) : option (Z * mem) :=
  let k := Z.land flag PRINTF_MASK in
  if Z.eqb k PRINTF_DEC then
    if truth (Z.land flag PRINTF_SIGNED) then itoa buf (s32 num) m else uitoa buf num m
  else if Z.eqb k PRINTF_HEX then hextoa buf num m
  else if Z.eqb k PRINTF_OCT then octtoa buf num m
  else if Z.eqb k PRINTF_BIN then bintoa buf num m
  else Some (0, m).

(** [va_arg(ap, type)] for a type of at most a word: the value and the new [ap]. *)
Definition va_arg (ap : Z) (m : mem) : option (Z * Z) :=
  w ← load32 ap m; Some (w, ap + 4).
Definition va_arg_char (ap : Z) (m : mem) : option (Z * Z) :=
  c ← load8 ap m; Some (c, ap + 4).

(** The tail of the loop body, for the conversions that leave the [switch]. *)
Definition vsp_number (str ap flag : Z) (m : mem) : option (Z * Z * mem) :=
  '(w, ap') ← va_arg ap m;
  let num := if truth (Z.land flag PRINTF_UNSIGNED) then w else u32 (s32 w) in
  '(len, m') ← numbric str num flag m;
  Some (str + len, ap', m').

(** The [switch] on the conversion character: [str], [arg] and memory after it. *)
Definition vsp_conv (k str ap flag : Z) (m : mem) : option (Z * Z * mem) :=
  if Z.eqb k CH_d then
    vsp_number str ap (Z.lor flag (Z.lor PRINTF_DEC PRINTF_SIGNED)) m
  else if Z.eqb k CH_x then
    vsp_number str ap (Z.lor flag (Z.lor PRINTF_HEX PRINTF_UNSIGNED)) m
  else if Z.eqb k CH_u then
    vsp_number str ap (Z.lor flag (Z.lor PRINTF_DEC PRINTF_UNSIGNED)) m
  else if Z.eqb k CH_s then
    '(tmp, ap') ← va_arg ap m;
    len ← strlen tmp m;
    '(_, m') ← strncpy str tmp len m;
    Some (str + len, ap', m')
  else if Z.eqb k CH_c then
    '(c, ap') ← va_arg_char ap m;
    m' ← store8 str c m;
    Some (str + 1, ap', m')
  else if Z.eqb k CH_o then
    vsp_number str ap (Z.lor flag (Z.lor PRINTF_DEC PRINTF_SIGNED)) m
  else if Z.eqb k CH_PERCENT then
    m' ← store8 str CH_PERCENT m;
    Some (str + 1, ap, m')
  else
    m' ← store8 str CH_PERCENT m;
    m'' ← store8 (str + 1) k m';
    Some (str + 2, ap, m'').

(** [flag] is 0 at the head of every iteration: it is set only on the way to
    [vsp_number], after which it is reset. *)
Fixpoint vsp_loop (fuel : nat) (str fmt ap : Z) (m : mem) : option (Z * mem) :=
  match fuel with
  | O => None
  | S fuel' =>
      c ← load8 fmt m;
      if negb (truth c) then Some (str, m)
      else if negb (Z.eqb c CH_PERCENT) then
        m' ← store8 str c m; vsp_loop fuel' (str + 1) (fmt + 1) ap m'
      else
        k ← load8 (fmt + 1) m;
        '(str', ap', m') ← vsp_conv k str ap 0 m;
        vsp_loop fuel' str' (fmt + 2) ap' m'
  end.

Definition vsprintf (buf fmt arg : Z) (m : mem) : option (Z * mem) :=
  if Z.eqb buf 0 then Some (-1, m)
  else
    '(str, m') ← vsp_loop (S (size m)) buf fmt arg m;
    m'' ← store8 str 0 m';
    Some (str - buf, m'').

(** [printf_buf] is the local buffer, [arg] the address [va_start] computes. *)
Definition printk (printf_buf fmt arg : Z) (m : mem) (p : platform)
  : option (Z * mem * platform) :=
  '(printed, m') ← vsprintf printf_buf fmt arg m;
  '(_, p') ← uart_puts printf_buf m' p;
  Some (printed, m', p').

Definition level_printk (printf_buf fmt arg : Z) (m : mem) (p : platform)
  : option (Z * mem * platform) :=
  ch ← load8 fmt m;
  if is_digit ch then
    if Z.ltb LOG_LEVEL (ch - 48) then Some (0, m, p)
    else printk printf_buf (fmt + 1) arg m p
  else printk printf_buf fmt arg m p.

(** ** The reference *)

Inductive arg : Type :=
  | AWord (w : Z)
  | AString (p : Z) (l : list Z).

Definition arg_word (a : arg) : Z := match a with AWord w => w | AString p _ => p end.

Definition convert (k : Z) (args : list arg) : option (list Z * list arg) :=
  if Z.eqb k CH_d || Z.eqb k CH_o then
    match args with a :: args' => Some (int_text (s32 (arg_word a)), args') | _ => None end
  else if Z.eqb k CH_x then
    match args with a :: args' => Some (digits (arg_word a) 16, args') | _ => None end
  else if Z.eqb k CH_u then
    match args with a :: args' => Some (digits (arg_word a) 10, args') | _ => None end
  else if Z.eqb k CH_s then
    match args with AString _ l :: args' => Some (l, args') | _ => None end
  else if Z.eqb k CH_c then
    match args with a :: args' => Some ([u8 (arg_word a)], args') | _ => None end
  else if Z.eqb k CH_PERCENT then Some ([CH_PERCENT], args)
  else Some ([CH_PERCENT; k], args).

Fixpoint format (f : list Z) (args : list arg) : option (list Z) :=
  match f with
  | [] => Some []
  | c :: f' =>
      if negb (Z.eqb c CH_PERCENT) then (c ::.) <$> format f' args
      else
        match f' with
        | [] => None
        | k :: f'' =>
            match convert k args with
            | Some (out, args') => (out ++.) <$> format f'' args'
            | None => None
            end
        end
  end.

(** Arguments in memory, none of which meets the buffer [lo .. lo+n-1]. *)
Definition arg_ok (m : mem) (lo n ap : Z) (a : arg) : Prop :=
  bytes_at m ap (word_list (arg_word a)) /\ 0 <= arg_word a < 2 ^ 32 /\ disjoint lo n ap 4 /\
  match a with
  | AString p l => p <> 0 /\ cstr m p l /\ disjoint lo n p (Z.of_nat (length l) + 1)
  | AWord _ => True
  end.

Fixpoint args_ok (m : mem) (lo n ap : Z) (args : list arg) : Prop :=
  match args with
  | [] => True
  | a :: args' => arg_ok m lo n ap a /\ args_ok m lo n (ap + 4) args'
  end.

Section vsprintf.
Implicit Types (m : mem) (lo n ap str : Z) (l : list Z) (args : list arg).

Definition within lo n str l : Prop := lo <= str /\ str + Z.of_nat (length l) <= lo + n.

Lemma cstr_write m a l lo n str out :
  cstr m a l -> disjoint lo n a (Z.of_nat (length l) + 1) -> within lo n str out ->
  cstr (write str out m) a l.
Proof.
  intros [H Hf] Hd [H1 H2]. split; [|done]. eapply bytes_at_frame; [done|].
  intros x Hx. apply lookup_write_out. rewrite length_app in Hx. simpl in Hx.
  unfold disjoint in Hd. lia.
Qed.

Lemma args_ok_write m lo n ap args str out :
  args_ok m lo n ap args -> within lo n str out -> args_ok (write str out m) lo n ap args.
Proof.
  revert ap. induction args as [|a args IH]; intros ap H Hw; [done|].
  destruct H as [(H1 & H2 & H3 & H4) H5]. split; [|by apply IH]. split; [|split; [done|]].
  { eapply bytes_at_frame; [done|]. intros x Hx. apply lookup_write_out.
    unfold within, disjoint in *. simpl in Hx. lia. }
  split; [done|]. destruct a as [w|p l]; [done|]. destruct H4 as (Hp & Hs & Hd).
  split; [done|]. split; [|done]. by eapply cstr_write.
Qed.

Lemma arg_load m lo n ap a :
  arg_ok m lo n ap a -> load32 ap m = Some (arg_word a) /\ load8 ap m = Some (u8 (arg_word a)).
Proof.
  intros (H1 & H2 & _). split; [by apply load32_bytes|].
  unfold load8. rewrite <- (Z.add_0_r ap). by apply (H1 0%nat).
Qed.

Lemma vsp_signed_ok m lo n str ap a :
  arg_ok m lo n ap a -> str <> 0 -> room m str (Z.of_nat (length (int_text (s32 (arg_word a))))) ->
  vsp_number str ap (Z.lor 0 (Z.lor PRINTF_DEC PRINTF_SIGNED)) m =
  Some (str + Z.of_nat (length (int_text (s32 (arg_word a)))), ap + 4,
        write str (int_text (s32 (arg_word a))) m).
Proof.
  intros Ha Hs Hr. destruct (arg_load _ _ _ _ _ Ha) as [E _]. unfold vsp_number, va_arg.
  rewrite E. cbn [mbind option_bind].
  change (truth (Z.land (Z.lor 0 (Z.lor PRINTF_DEC PRINTF_SIGNED)) PRINTF_UNSIGNED)) with false.
  unfold numbric.
  change (Z.eqb (Z.land (Z.lor 0 (Z.lor PRINTF_DEC PRINTF_SIGNED)) PRINTF_MASK) PRINTF_DEC) with true.
  change (truth (Z.land (Z.lor 0 (Z.lor PRINTF_DEC PRINTF_SIGNED)) PRINTF_SIGNED)) with true.
  cbv iota. rewrite u32_s32, s32_u32. rewrite itoa_ok; [done|apply s32_range|done|done].
Qed.

Lemma vsp_unsigned_ok m lo n str ap a b flag :
  arg_ok m lo n ap a ->
  (flag = Z.lor PRINTF_HEX PRINTF_UNSIGNED /\ b = 16 \/
   flag = Z.lor PRINTF_DEC PRINTF_UNSIGNED /\ b = 10) ->
  room m str (Z.of_nat (length (digits (arg_word a) b))) ->
  vsp_number str ap (Z.lor 0 flag) m =
  Some (str + Z.of_nat (length (digits (arg_word a) b)), ap + 4,
        write str (digits (arg_word a) b) m).
Proof.
  intros Ha Hb Hr. destruct (arg_load _ _ _ _ _ Ha) as [E _]. destruct Ha as (_ & Hw & _).
  unfold vsp_number, va_arg. rewrite E. cbn [mbind option_bind].
  destruct Hb as [[-> ->]|[-> ->]].
  - change (numbric str _ _ m) with (num_to_str str (arg_word a) 16 m).
    by rewrite num_to_str_ok.
  - change (numbric str _ _ m) with (num_to_str str (arg_word a) 10 m).
    by rewrite num_to_str_ok.
Qed.

Lemma vsp_conv_ok k args args' out m lo n str ap :
  args_ok m lo n ap args -> convert k args = Some (out, args') -> 0 <= k < 256 ->
  room m str (Z.of_nat (length out)) -> within lo n str out -> str <> 0 ->
  exists ap', vsp_conv k str ap 0 m = Some (str + Z.of_nat (length out), ap', write str out m) /\
    args_ok m lo n ap' args'.
Proof.
  intros Ha Hc Hk Hr Hw Hs. unfold convert in Hc. unfold vsp_conv.
  destruct (Z.eqb_spec k CH_d) as [->|Hd]; cbn [orb] in Hc.
  { destruct args as [|a args]; [done|]. injection Hc as <- <-. destruct Ha as [Ha Has].
    exists (ap + 4). split; [|done]. by eapply vsp_signed_ok. }
  destruct (Z.eqb_spec k CH_o) as [->|Ho].
  { destruct args as [|a args]; [done|]. injection Hc as <- <-. destruct Ha as [Ha Has].
    exists (ap + 4). split; [|done]. by eapply vsp_signed_ok. }
  destruct (Z.eqb_spec k CH_x) as [->|Hx].
  { destruct args as [|a args]; [done|]. injection Hc as <- <-. destruct Ha as [Ha Has].
    exists (ap + 4). split; [|done]. eapply vsp_unsigned_ok; [done|by left|done]. }
  destruct (Z.eqb_spec k CH_u) as [->|Hu].
  { destruct args as [|a args]; [done|]. injection Hc as <- <-. destruct Ha as [Ha Has].
    exists (ap + 4). split; [|done]. eapply vsp_unsigned_ok; [done|by right|done]. }
  destruct (Z.eqb_spec k CH_s) as [->|Hst].
  { destruct args as [|[w|p l] args]; [done|done|]. injection Hc as <- <-.
    destruct Ha as [Ha Has]. exists (ap + 4). split; [|done].
    destruct (arg_load _ _ _ _ _ Ha) as [E _]. destruct Ha as (_ & _ & _ & Hp & Hcs & Hdj).
    unfold va_arg. rewrite E. cbn [mbind option_bind arg_word].
    rewrite (strlen_ok _ l) by done. cbn [mbind option_bind]. unfold strncpy.
    rewrite !(proj2 (Z.eqb_neq _ 0)) by done. cbn [orb].
    pose proof (copy_loop_ok l 0 str p m) as Hcp. rewrite !Z.add_0_r in Hcp.
    rewrite Nat2Z.id, Hcp; [done| | |done|].
    - destruct Hcs as [Hb _]. by apply bytes_at_app in Hb as [Hb _].
    - destruct Hcs as [_ Hb]. eapply Forall_impl; [done|]. simpl. lia.
    - unfold disjoint, within in *. lia. }
  destruct (Z.eqb_spec k CH_c) as [->|Hch].
  { destruct args as [|a args]; [done|]. injection Hc as <- <-. destruct Ha as [Ha Has].
    exists (ap + 4). split; [|done]. destruct (arg_load _ _ _ _ _ Ha) as [_ E].
    unfold va_arg_char. rewrite E. cbn [mbind option_bind].
    rewrite store8_ok by (rewrite <- (Z.add_0_r str); apply Hr; simpl; lia).
    cbn [mbind option_bind]. rewrite u8_byte; [done|]. apply u8_range. }
  destruct (Z.eqb_spec k CH_PERCENT) as [->|Hp]; injection Hc as <- <-; exists ap; (split; [|done]).
  - by rewrite store8_ok by (rewrite <- (Z.add_0_r str); apply Hr; simpl; lia).
  - rewrite store8_ok by (rewrite <- (Z.add_0_r str); apply Hr; simpl; lia).
    cbn [mbind option_bind].
    rewrite store8_ok by (apply write_alloc; apply Hr; simpl; lia).
    cbn [mbind option_bind]. by rewrite (u8_byte k) by done.
Qed.

Lemma vsp_loop_ok fuel f args out m lo n str fmt ap :
  (length f < fuel)%nat -> cstr m fmt f -> args_ok m lo n ap args -> format f args = Some out ->
  disjoint lo n fmt (Z.of_nat (length f) + 1) ->
  room m str (Z.of_nat (length out)) -> within lo n str out -> 0 < str ->
  vsp_loop fuel str fmt ap m = Some (str + Z.of_nat (length out), write str out m).
Proof.
  revert f args out m str fmt ap.
  induction fuel as [|fuel IH]; intros f args out m str fmt ap Hf Hc Ha Ho Hd Hr Hw Hs; [lia|].
  cbn [vsp_loop]. rewrite (cstr_head _ _ _ Hc). destruct f as [|c f];
    cbn [head from_option id mbind option_bind].
  { simpl in Ho. injection Ho as <-. simpl. by rewrite Z.add_0_r. }
  pose proof (cstr_tail _ _ _ _ Hc) as [Hc1 Hcb].
  assert (truth c = true) as -> by (unfold truth; destruct (Z.eqb_spec c 0); [lia|done]).
  cbn [negb format] in *. simpl length in *.
  destruct (Z.eqb_spec c CH_PERCENT) as [->|Hne]; cbn [negb] in *.
  - destruct f as [|k f]; [done|].
    destruct (convert k args) as [[o1 args1]|] eqn:Ek; [|done].
    destruct (format f args1) as [o2|] eqn:Ef; [|done]. cbn in Ho. injection Ho as <-.
    pose proof (cstr_tail _ _ _ _ Hc1) as [Hc2 Hkb]. rewrite length_app in *.
    unfold within in Hw. rewrite length_app in Hw. simpl length in *.
    rewrite (cstr_head _ _ _ Hc1). cbn [head from_option id mbind option_bind].
    destruct (vsp_conv_ok k args args1 o1 m lo n str ap Ha Ek) as (ap1 & -> & Ha1);
      [lia| |unfold within; lia|lia|].
    { intros i Hi. apply Hr. lia. }
    cbn [mbind option_bind]. replace (fmt + 1 + 1) with (fmt + 2) in Hc2 by lia.
    assert (Hw1 : within lo n str o1) by (unfold within; lia).
    rewrite (IH f args1 o2); [|lia| | |done| | | |lia].
    + rewrite write_app. f_equal. f_equal. lia.
    + eapply cstr_write; [done| |done]. unfold disjoint in *. lia.
    + by eapply args_ok_write.
    + unfold disjoint in *. lia.
    + apply room_write, (room_le _ _ _ _ _ Hr); lia.
    + unfold within. lia.
  - destruct (format f args) as [o2|] eqn:Ef; [|done]. cbn in Ho. injection Ho as <-.
    simpl length in *. unfold within in Hw. simpl length in Hw.
    rewrite store8_ok by (rewrite <- (Z.add_0_r str); apply Hr; lia). cbn [mbind option_bind].
    rewrite u8_byte by lia.
    assert (Hw1 : within lo n str [c]) by (unfold within; simpl; lia).
    rewrite (IH f args o2); [|lia| | |done| | | |lia].
    + cbn [write]. f_equal. f_equal. lia.
    + eapply cstr_write; [done| |done]. unfold disjoint in *. lia.
    + by eapply args_ok_write.
    + unfold disjoint in *. lia.
    + apply room_write, (room_le _ _ _ 1 _ Hr); lia.
    + unfold within. lia.
Qed.

(** [vsprintf] in a buffer that is large enough. *)
Lemma vsprintf_ok buf fmt ap f args out m :
  cstr m fmt f -> format f args = Some out -> 0 < buf ->
  room m buf (Z.of_nat (length out) + 1) ->
  disjoint buf (Z.of_nat (length out) + 1) fmt (Z.of_nat (length f) + 1) ->
  args_ok m buf (Z.of_nat (length out) + 1) ap args ->
  vsprintf buf fmt ap m = Some (Z.of_nat (length out), write buf (out ++ [0]) m).
Proof.
  intros Hc Ho Hb Hr Hd Ha. unfold vsprintf. rewrite (proj2 (Z.eqb_neq buf 0)) by lia.
  pose proof (cstr_size _ _ _ Hc).
  rewrite (vsp_loop_ok _ f args out m buf (Z.of_nat (length out) + 1)); try done; [|lia| |].
  - cbn [mbind option_bind].
    rewrite store8_ok by (apply write_alloc, Hr; lia). cbn [mbind option_bind].
    rewrite write_app. f_equal. f_equal. lia.
  - intros i Hi. apply Hr. lia.
  - unfold within. lia.
Qed.
End vsprintf.
