(* ===== verification/PrintkThms.v ===== *)
(** * Properties of the string functions, the formatter and the console *)

From S2P Require Import Prelude Mem CString S3c2440 Printk.

(** ** Text up to the first null *)

Fixpoint until_nul (l : list Z) : list Z :=
  match l with
  | [] => []
  | c :: l' => if Z.eqb c 0 then [] else c :: until_nul l'
  end.

Lemma until_nul_split l : exists r, l ++ [0] = until_nul l ++ 0 :: r.
Proof.
  induction l as [|c l [r IH]]; simpl; [by exists []|].
  destruct (Z.eqb_spec c 0) as [->|Hc]; [by eexists|]. exists r. by rewrite IH.
Qed.

Lemma until_nul_bytes l :
  Forall (fun c => 0 <= c < 256) l -> Forall (fun c => 0 < c < 256) (until_nul l).
Proof.
  induction 1 as [|c l Hc _ IH]; simpl; [done|]. destruct (Z.eqb_spec c 0); [done|].
  constructor; [lia|done].
Qed.

Lemma write_until_nul buf out m :
  Forall (fun c => 0 <= c < 256) out -> cstr (write buf (out ++ [0]) m) buf (until_nul out).
Proof.
  intros Hb. split; [|by apply until_nul_bytes]. destruct (until_nul_split out) as [r E].
  pose proof (write_bytes buf (out ++ [0]) m) as H. rewrite E in H.
  change (0 :: r) with ([0] ++ r) in H. rewrite app_assoc in H.
  rewrite E. change (0 :: r) with ([0] ++ r). rewrite app_assoc.
  by apply bytes_at_app in H as [H _].
Qed.

(** ** The formatter yields bytes *)

Lemma int_text_bytes w : Forall (fun c => 0 <= c < 256) (int_text w).
Proof.
  assert (H : forall n, Forall (fun c => 0 <= c < 256) (digits n 10)).
  { intros n. eapply Forall_impl; [apply digits_byte; lia|]. simpl. lia. }
  unfold int_text. destruct (Z.ltb w 0); [|done]. constructor; [unfold CH_MINUS; lia|done].
Qed.

Lemma convert_bytes k args args' out m lo n ap :
  args_ok m lo n ap args -> 0 <= k < 256 -> convert k args = Some (out, args') ->
  Forall (fun c => 0 <= c < 256) out /\ exists ap', args_ok m lo n ap' args'.
Proof.
  intros Ha Hk Hc. unfold convert in Hc.
  assert (Hdg : forall w b, 2 <= b <= 16 -> Forall (fun c => 0 <= c < 256) (digits w b)).
  { intros w b Hb. eapply Forall_impl; [by apply digits_byte|]. simpl. lia. }
  destruct (Z.eqb k CH_d || Z.eqb k CH_o).
  { destruct args; [done|]. injection Hc as <- <-. destruct Ha as [_ Ha].
    split; [apply int_text_bytes|by eexists]. }
  destruct (Z.eqb k CH_x).
  { destruct args; [done|]. injection Hc as <- <-. destruct Ha as [_ Ha].
    split; [by apply Hdg|by eexists]. }
  destruct (Z.eqb k CH_u).
  { destruct args; [done|]. injection Hc as <- <-. destruct Ha as [_ Ha].
    split; [by apply Hdg|by eexists]. }
  destruct (Z.eqb k CH_s).
  { destruct args as [|[w|p l] args]; [done|done|]. injection Hc as <- <-.
    destruct Ha as [(_ & _ & _ & _ & [_ Hl] & _) Ha]. split; [|by eexists].
    eapply Forall_impl; [done|]. simpl. lia. }
  destruct (Z.eqb k CH_c).
  { destruct args as [|a args]; [done|]. injection Hc as <- <-. destruct Ha as [_ Ha].
    split; [|by eexists]. constructor; [apply u8_range|done]. }
  destruct (Z.eqb k CH_PERCENT); injection Hc as <- <-; (split; [|by eexists]);
    repeat constructor; unfold CH_PERCENT; lia.
Qed.

Lemma format_bytes fuel f args out m lo n ap :
  (length f < fuel)%nat -> Forall (fun c => 0 < c < 256) f -> args_ok m lo n ap args ->
  format f args = Some out -> Forall (fun c => 0 <= c < 256) out.
Proof.
  revert f args out ap. induction fuel as [|fuel IH]; intros f args out ap Hl Hf Ha Ho; [lia|].
  destruct f as [|c f]; cbn [format length] in *; [by injection Ho as <-|].
  inversion Hf as [|? ? Hc Hf']; subst.
  destruct (negb (Z.eqb c CH_PERCENT)).
  - destruct (format f args) as [o|] eqn:E; [|done]. injection Ho as <-.
    constructor; [lia|]. eapply IH; [|done|done|done]. lia.
  - destruct f as [|k f]; [done|]. inversion Hf' as [|? ? Hk Hf'']; subst.
    destruct (convert k args) as [[o1 a1]|] eqn:Ek; [|done].
    destruct (format f a1) as [o2|] eqn:E; [|done]. injection Ho as <-.
    destruct (convert_bytes k args a1 o1 m lo n ap) as [H1 [ap' H2]]; [done|lia|done|].
    apply Forall_app. split; [done|]. eapply IH; [|done|done|done]. simpl in Hl. lia.
Qed.

(** ** Numbers *)

Lemma digits_rev_lead b fuel num :
  2 <= b <= 16 -> 0 < num < b ^ Z.of_nat fuel -> last (digits_rev fuel num b) <> Some 48.
Proof.
  intros Hb. revert num. induction fuel as [|fuel IH]; intros num Hn;
    [cbn [Z.of_nat] in Hn; rewrite Z.pow_0_r in Hn; lia|].
  cbn [digits_rev]. destruct (Z.ltb_spec num b) as [Hlt|Hge].
  - rewrite Z.mod_small by lia. unfold digit_char. simpl.
    destruct (Z.ltb_spec num 10); intros [= E]; lia.
  - assert (Hq : 0 < num / b < b ^ Z.of_nat fuel).
    { split; [apply Z.div_str_pos; lia|]. apply Z.div_lt_upper_bound; [lia|].
      rewrite Nat2Z.inj_succ, Z.pow_succ_r in Hn by lia. lia. }
    specialize (IH _ Hq). destruct fuel as [|fuel]; [cbn [Z.of_nat] in Hq; rewrite Z.pow_0_r in Hq; lia|].
    rewrite last_cons. destruct (last (digits_rev (S fuel) (num / b) b)) eqn:E; [done|].
    apply last_None in E. done.
Qed.

Lemma digits_length num b : 2 <= b <= 16 -> 1 <= Z.of_nat (length (digits num b)) <= 32.
Proof.
  intros Hb. unfold digits. rewrite length_rev. pose proof (digits_rev_length b 32 num). split; [|lia].
  change 32%nat with (S 31). cbn [digits_rev length]. lia.
Qed.

(** C25. [num_to_str] prints every 32-bit number in the bases of [itoa], [hextoa],
    [octtoa] and [bintoa]: it returns the number of digits, at most 32, writes
    exactly them to the buffer, and they read back as the number. *)
Theorem num_to_str_prints buf num b m :
  2 <= b <= 16 -> 0 <= num < 2 ^ 32 -> room m buf 32 ->
  exists l, num_to_str buf num b m = Some (Z.of_nat (length l), write buf l m) /\
    value b l = num /\ 1 <= Z.of_nat (length l) <= 32 /\
    Forall (fun c => 0 < c < 256) l /\ (num <> 0 -> head l <> Some 48).
Proof.
  intros Hb Hn Hr. exists (digits num b). pose proof (digits_length num b Hb) as Hl.
  assert (Hp : 2 ^ 32 <= b ^ Z.of_nat 32) by (apply Z.pow_le_mono_l; lia).
  split; [apply num_to_str_ok; [done|done|]; intros i Hi; apply Hr; lia|].
  split; [apply digits_rev_value; lia|]. split; [done|].
  split; [by apply digits_byte|]. intros H0 Hh. unfold digits in Hh.
  apply (digits_rev_lead b 32 num Hb); [lia|].
  rewrite <- (rev_involutive (digits_rev 32 num b)).
  destruct (rev (digits_rev 32 num b)) as [|c l]; [done|]. injection Hh as ->.
  cbn [rev]. by rewrite last_snoc.
Qed.

Lemma num_to_str_prints_witness :
  exists l, num_to_str 100 48879 16 (write 100 (replicate 32 0) ∅) =
    Some (Z.of_nat (length l), write 100 l (write 100 (replicate 32 0) ∅)) /\ value 16 l = 48879 /\
    1 <= Z.of_nat (length l) <= 32 /\
    Forall (fun c => 0 < c < 256) l /\ (48879 <> 0 -> head l <> Some 48).
Proof.
  apply (num_to_str_prints 100 48879 16); [lia|lia|].
  apply (room_write_self 100 (replicate 32 0)).
Defined.

(** ** Strings *)

(** [strcmp] decides the lexicographic order of two strings, and in particular
    equality. *)
Theorem strcmp_compares l1 l2 src dst m :
  cstr m src l1 -> cstr m dst l2 ->
  exists r, strcmp src dst m = Some r /\ r = sign_of (lex_compare l1 l2) /\ (r = 0 <-> l1 = l2).
Proof.
  intros H1 H2. eexists. split; [by apply strcmp_ok|]. split; [done|].
  rewrite <- lex_compare_eq. by destruct (lex_compare l1 l2).
Qed.

Definition str_mem : mem := write 200 [105; 110; 105; 0] (write 100 [105; 110; 105; 116; 0] ∅).

Lemma str_mem_init : cstr str_mem 100 [105; 110; 105; 116].
Proof.
  split; [|repeat constructor; lia]. eapply bytes_at_frame; [apply write_bytes|].
  intros x Hx. apply lookup_write_out. simpl in *. lia.
Qed.

Lemma str_mem_ini : cstr str_mem 200 [105; 110; 105].
Proof. split; [apply write_bytes|repeat constructor; lia]. Qed.

Lemma strcmp_compares_witness :
  exists r, strcmp 100 200 str_mem = Some r /\
    r = sign_of (lex_compare [105; 110; 105; 116] [105; 110; 105]) /\
    (r = 0 <-> [105; 110; 105; 116] = [105; 110; 105]).
Proof. exact (strcmp_compares _ _ 100 200 str_mem str_mem_init str_mem_ini). Defined.

(** [strcpy] into a disjoint buffer that has room for the string and its
    terminator: the target holds the string, [strlen] measures it, [strcmp] finds it
    equal to the source, and no other byte of memory changes. *)
Theorem strcpy_copies l des src m :
  cstr m src l -> room m des (Z.of_nat (length l) + 1) -> des <> 0 -> src <> 0 ->
  disjoint des (Z.of_nat (length l) + 1) src (Z.of_nat (length l) + 1) ->
  exists m', strcpy des src m = Some (des, m') /\ cstr m' des l /\
    strlen des m' = Some (Z.of_nat (length l)) /\ strcmp des src m' = Some 0 /\
    forall x, ~ (des <= x < des + Z.of_nat (length l) + 1) -> m' !! x = m !! x.
Proof.
  intros Hs Hr Hd Hsr Hdj. exists (write des (l ++ [0]) m).
  assert (Hl : cstr (write des (l ++ [0]) m) des l) by (apply write_cstr, Hs).
  split; [by apply strcpy_ok|]. split; [done|]. split; [by apply strlen_ok|]. split.
  - rewrite (strcmp_ok l l); [by rewrite (proj2 (lex_compare_eq l l) eq_refl)|done|].
    eapply cstr_write; [done|done|]. unfold within. rewrite length_app. simpl. lia.
  - intros x Hx. apply lookup_write_out. rewrite length_app. simpl. lia.
Qed.

Lemma strcpy_copies_witness :
  exists m', strcpy 300 100 (write 300 (replicate 5 7) str_mem) = Some (300, m') /\
    cstr m' 300 [105; 110; 105; 116] /\ strlen 300 m' = Some 4 /\ strcmp 300 100 m' = Some 0 /\
    forall x, ~ (300 <= x < 300 + 4 + 1) -> m' !! x = write 300 (replicate 5 7) str_mem !! x.
Proof.
  apply (strcpy_copies [105; 110; 105; 116] 300 100 (write 300 (replicate 5 7) str_mem)).
  - eapply (cstr_write _ _ _ 300 5); [apply str_mem_init|unfold disjoint; simpl; lia|].
    unfold within. simpl. lia.
  - apply (room_write_self 300 (replicate 5 7)).
  - lia.
  - lia.
  - unfold disjoint. simpl. lia.
Defined.

(** ** The formatter *)

(** C23. For a format whose conversions have their arguments, in a buffer that has
    room for the text and overlaps none of its inputs, [vsprintf] returns the length
    of the reference text and leaves exactly that text, terminated, in the buffer. *)
Theorem vsprintf_formats buf fmt ap f args out m :
  cstr m fmt f -> format f args = Some out -> 0 < buf ->
  room m buf (Z.of_nat (length out) + 1) ->
  disjoint buf (Z.of_nat (length out) + 1) fmt (Z.of_nat (length f) + 1) ->
  args_ok m buf (Z.of_nat (length out) + 1) ap args ->
  vsprintf buf fmt ap m = Some (Z.of_nat (length out), write buf (out ++ [0]) m).
Proof. apply vsprintf_ok. Qed.

(** "2%s=%d 0x%x%%" and the arguments "ab", -5 and 255. *)
Definition demo_fmt : list Z := [50; 37; 115; 61; 37; 100; 10; 48; 120; 37; 120; 37; 37].
Definition demo_args : list arg := [AString 400 [97; 98]; AWord (2 ^ 32 - 5); AWord 255].
Definition demo_text : list Z := [97; 98; 61; 45; 53; 10; 48; 120; 102; 102; 37].
Definition demo_text_mem : mem :=
  write 400 [97; 98; 0] (write 308 (word_list 255) (write 304 (word_list (2 ^ 32 - 5))
    (write 300 (word_list 400) (write 100 (demo_fmt ++ [0]) (write 1000 (replicate 13 0) ∅))))).

Lemma bytes_at_write b l m a l' :
  disjoint b (Z.of_nat (length l)) a (Z.of_nat (length l')) -> bytes_at m a l' ->
  bytes_at (write b l m) a l'.
Proof.
  intros Hd H. eapply bytes_at_frame; [done|]. intros x Hx. apply lookup_write_out.
  unfold disjoint in Hd. lia.
Qed.

(** Reads a run of bytes back from nested [write]s. *)
Ltac in_writes :=
  first [ apply write_bytes
        | apply bytes_at_write; [unfold disjoint; simpl; lia|]; in_writes ].

Lemma demo_args_ok : args_ok demo_text_mem 1000 13 300 demo_args.
Proof.
  unfold demo_args. cbn [args_ok]. unfold arg_ok. cbn [arg_word].
  assert (Hw : forall w, bytes_at demo_text_mem 300 (word_list 400) /\
    bytes_at demo_text_mem 304 (word_list (2 ^ 32 - 5)) /\
    bytes_at demo_text_mem 308 (word_list 255) /\ (w = 0 -> cstr demo_text_mem 400 [97; 98])).
  { intros w. unfold demo_text_mem. split; [in_writes|]. split; [in_writes|]. split; [in_writes|].
    intros _. split; [in_writes|repeat constructor; lia]. }
  destruct (Hw 0) as (H1 & H2 & H3 & H4).
  split; [|split; [|split; [|done]]]; (split; [assumption|]); (split; [lia|]);
    (split; [unfold disjoint; lia|]); [|done|done].
  split; [lia|]. split; [by apply H4|]. unfold disjoint. simpl. lia.
Qed.

Lemma args_ok_shrink m lo n n' ap args :
  args_ok m lo n ap args -> n' <= n -> args_ok m lo n' ap args.
Proof.
  intros H Hn. revert ap H. induction args as [|a args IH]; intros ap H; [done|].
  destruct H as [(H1 & H2 & H3 & H4) H5]. split; [|by apply IH]. unfold arg_ok, disjoint in *.
  split; [done|]. split; [done|]. split; [lia|]. destruct a as [w|p l]; [done|].
  destruct H4 as (Hp & Hs & Hd). split; [done|]. split; [done|]. lia.
Qed.

Lemma demo_fmt_ok : cstr demo_text_mem 100 demo_fmt.
Proof. split; [unfold demo_text_mem; in_writes|repeat constructor; lia]. Qed.

Lemma demo_room : room demo_text_mem 1000 13.
Proof. do 5 apply room_write. apply (room_write_self 1000 (replicate 13 0)). Qed.

Lemma vsprintf_formats_witness :
  vsprintf 1000 100 300 demo_text_mem = Some (12, write 1000 (50 :: demo_text ++ [0]) demo_text_mem).
Proof.
  apply (vsprintf_formats 1000 100 300 demo_fmt demo_args (50 :: demo_text)).
  - exact demo_fmt_ok.
  - vm_compute. reflexivity.
  - lia.
  - exact demo_room.
  - unfold disjoint. simpl. lia.
  - exact demo_args_ok.
Defined.

(** ** The console *)

(** C24. [level_printk] on a message of level [d]: above [LOG_LEVEL] nothing is printed
    and 0 returned; otherwise the reference text of the rest of the format is
    formatted in the local buffer and its bytes, up to the first null and with a
    carriage return before each line feed, are what the serial port receives, in
    order. *)
Theorem level_printk_outputs buf fmt ap d f args out m p :
  cstr m fmt (48 + d :: f) -> 0 <= d <= 9 -> format f args = Some out -> 0 < buf ->
  room m buf (Z.of_nat (length out) + 1) ->
  disjoint buf (Z.of_nat (length out) + 1) (fmt + 1) (Z.of_nat (length f) + 1) ->
  args_ok m buf (Z.of_nat (length out) + 1) ap args ->
  level_printk buf fmt ap m p =
  Some (if Z.ltb LOG_LEVEL d then (0, m, p)
        else (Z.of_nat (length out), write buf (out ++ [0]) m,
              with_io (p.(io) ++ transmit p.(uart_base) (until_nul out)) p)).
Proof.
  intros Hc Hd Ho Hb Hr Hdj Ha. unfold level_printk. rewrite (cstr_head _ _ _ Hc).
  apply cstr_tail in Hc as [Hc _]. cbn [head from_option id mbind option_bind].
  assert (is_digit (48 + d) = true) as ->.
  { unfold is_digit. by rewrite (proj2 (Z.leb_le (48 + d) 57)), (proj2 (Z.leb_le 48 (48 + d))) by lia. }
  replace (48 + d - 48) with d by lia. destruct (Z.ltb LOG_LEVEL d); [done|].
  unfold printk. rewrite (vsprintf_ok buf (fmt + 1) ap f args out) by done.
  cbn [mbind option_bind]. rewrite (uart_puts_ok (until_nul out)); [done| |lia].
  apply write_until_nul. eapply (format_bytes (S (length f)) f); [lia|apply Hc|done|done].
Qed.

Lemma level_printk_outputs_witness :
  level_printk 1000 100 300 demo_text_mem (Mk_platform 0 0 0 0x50000000 0 0 0 0 []) =
  Some (11, write 1000 (demo_text ++ [0]) demo_text_mem,
        Mk_platform 0 0 0 0x50000000 0 0 0 0
          (W8 0x50000020 <$> [97; 98; 61; 45; 53; 13; 10; 48; 120; 102; 102; 37])).
Proof.
  apply (level_printk_outputs 1000 100 300 2 (tail demo_fmt) demo_args demo_text demo_text_mem
    (Mk_platform 0 0 0 0x50000000 0 0 0 0 [])).
  - exact demo_fmt_ok.
  - lia.
  - vm_compute. reflexivity.
  - lia.
  - intros i Hi. apply demo_room. simpl in Hi. lia.
  - unfold disjoint. simpl. lia.
  - apply (args_ok_shrink _ _ 13); [exact demo_args_ok|simpl; lia].
Defined.

(** ** Where the code departs from the usual meaning *)

(** [%o] takes the path of [%d]: octal conversions print in signed decimal. *)
Theorem vsprintf_octal_is_decimal str ap flag m :
  vsp_conv CH_o str ap flag m = vsp_conv CH_d str ap flag m.
Proof. done. Qed.

(** [%s] with a null argument moves the output pointer back by one byte, so the next
    character overwrites the previous one. *)
Theorem vsprintf_null_string_backs_up str ap flag m :
  load32 ap m = Some 0 -> vsp_conv CH_s str ap flag m = Some (str - 1, ap + 4, m).
Proof.
  intros E. unfold vsp_conv, va_arg. rewrite E. cbn [mbind option_bind].
  change (strlen 0 m) with (Some (-1)). cbn [mbind option_bind]. unfold strncpy.
  rewrite orb_true_r. done.
Qed.

(** [strncmp] does not stop at the end of the strings: equal strings whose tails
    differ compare as different. *)
Theorem strncmp_reads_past_end :
  let m := write 200 [97; 0; 99] (write 100 [97; 0; 98] ∅) in
  cstr m 100 [97] /\ cstr m 200 [97] /\ strncmp 100 200 3 m = Some (-1).
Proof.
  intros m. split; [|split; [|vm_compute; reflexivity]]; (split; [|repeat constructor; lia]).
  - intros [|[|i]] c Hc; try (injection Hc as <-; vm_compute; reflexivity). by destruct i.
  - intros [|[|i]] c Hc; try (injection Hc as <-; vm_compute; reflexivity). by destruct i.
Qed.
