(* ===== verification/Mmu.v ===== *)
(** * Translation tables

    Models [kernel/mmu.c] and the MMU part of [arch/arm/machine/arm920t_c.c] with
    the descriptor bits of [arm920t.h].  The tables are words of the byte memory.
    [mmu_walk] is the architecture's table walk (first level: section or coarse
    table; second level: small page), the reference the tables are built for.
    Flushing the translation cache has no effect on the tables. *)

From S2P Require Import Prelude Bitops Mem CString.

Definition KERNEL_BASE_ADDRESS : Z := 0x80000000.

(** ** Descriptors *)

Definition C2_BIT4 : Z := Z.shiftl 1 4.
Definition AP_SRW_UN : Z := 0x01.
Definition AP_SRW_URW : Z := 0x03.
Definition WB : Z := 0x03.
Definition NCNB : Z := 0x0.
Definition DOMAIN0 : Z := Z.shiftl 0 5.
Definition MST : Z := 0x02.
Definition MST_WB_AP_SRW_UN : Z :=
  MST |u Z.shiftl WB 2 |u Z.shiftl AP_SRW_UN 10 |u C2_BIT4.
Definition MST_NCNB_AP_SRW_UN : Z :=
  MST |u Z.shiftl NCNB 2 |u Z.shiftl AP_SRW_UN 10 |u C2_BIT4.
Definition CURDE_PAGE_TABLE : Z := 0x01 |u DOMAIN0.
Definition PGT_DES_4K : Z := 0x02.
Definition PGT_CB : Z := 2.
Definition PGT_AP0 : Z := 4.
Definition PGT_AP1 : Z := 6.
Definition PGT_AP2 : Z := 8.
Definition PGT_AP3 : Z := 10.
Definition PGT_DES_DEFAULT : Z :=
  PGT_DES_4K |u Z.shiftl AP_SRW_URW PGT_AP0 |u Z.shiftl AP_SRW_URW PGT_AP1
  |u Z.shiftl AP_SRW_URW PGT_AP2 |u Z.shiftl AP_SRW_URW PGT_AP3 |u Z.shiftl WB PGT_CB.

Definition TLB_ATTR_KERNEL_MEMORY : Z := 0x1.
Definition TLB_ATTR_DMA_MEMORY : Z := 0x2.
Definition TLB_ATTR_IO_MEMORY : Z := 0x4.
Definition TLB_ATTR_USER_MEMORY : Z := 0x8.
Definition TLB_ATTR_MEMORY_MASK : Z := 0xf.

Definition arch_get_tlb_base : Z := KERNEL_BASE_ADDRESS.

Definition arch_build_tlb_des (pa attr : Z) : Z :=
  if Z.eqb (attr &u 0x03) 0x01 then (pa &u 0xfffffc00) |u attr
  else (pa &u 0xfff00000) |u attr.

Definition arch_build_page_table_des (pa attr : Z) : Z := (pa &u 0xfffff000) |u attr.

Definition arch_get_tlb_attr (flag : Z) : Z :=
  let k := flag &u TLB_ATTR_MEMORY_MASK in
  if Z.eqb k TLB_ATTR_KERNEL_MEMORY then 0 |u MST_WB_AP_SRW_UN
  else if Z.eqb k TLB_ATTR_DMA_MEMORY || Z.eqb k TLB_ATTR_IO_MEMORY then 0 |u MST_NCNB_AP_SRW_UN
  else if Z.eqb k TLB_ATTR_USER_MEMORY then 0 |u CURDE_PAGE_TABLE
  else 0 |u MST_WB_AP_SRW_UN.

Definition arch_get_page_table_attr (flag : Z) : Z := PGT_DES_DEFAULT.

(** ** [kernel/mmu.c] *)

Definition get_tlb_base : Z := arch_get_tlb_base.
Definition build_tlb_des (pa attr : Z) : Z := arch_build_tlb_des pa attr.
Definition build_page_table_des (pa attr : Z) : Z := arch_build_page_table_des pa attr.
Definition get_tlb_attr (flag : Z) : Z := arch_get_tlb_attr flag.
Definition get_page_table_attr (flag : Z) : Z := arch_get_page_table_attr flag.

Definition clear_tlb_entry (va size : Z) (m : mem) : option mem :=
  let va := if Z.eqb va 0 then 1 else va in
  let i := (va -u 1) >>u 20 in
  '(_, m') ← for_range (Z.to_nat (size - i)) i (fun _ '(tlb_base, m) =>
     m' ← store32 tlb_base 0 m; Some (tlb_base + 4, m')) (get_tlb_base, m);
  Some m'.

(** The step of the physical address per entry. *)
Definition tlb_step (flag : Z) : Z :=
  if Z.eqb (flag &u TLB_ATTR_MEMORY_MASK) TLB_ATTR_USER_MEMORY then SIZE_1K else SIZE_1M.

Definition tlb_body (attr flag : Z) (_ : Z) (st : Z * Z * mem) : option (Z * Z * mem) :=
  let '(ps, tlb_base, m) := st in
  m' ← store32 tlb_base (build_tlb_des ps attr) m;
  Some (ps +u tlb_step flag, tlb_base + 4, m').

Definition build_tlb_table_entry (vstart pstart size flag : Z) (m : mem) : option (Z * mem) :=
  if is_aligin vstart SIZE_1M && is_aligin vstart SIZE_1M && is_aligin (u32 size) SIZE_1M then
    let offset := vstart >>u 20 in
    let attr := get_tlb_attr flag in
    '(_, _, m') ← for_range (Z.to_nat (size >>u 20)) 0 (tlb_body attr flag)
      (pstart, get_tlb_base + 4 * offset, m);
    Some (0, m')
  else Some (- EINVAL, m).

Definition pgt_body (attr : Z) (_ : Z) (st : Z * Z * mem) : option (Z * Z * mem) :=
  let '(pa, addr_base, m) := st in
  m' ← store32 addr_base (build_page_table_des pa attr) m;
  Some (pa +u PAGE_SIZE, addr_base + 4, m').

(** [pa] is [va_to_pa(vstart)], which the allocator answers. *)
Definition build_page_table_entry (base pa size flag : Z) (m : mem) : option (Z * mem) :=
  if negb (is_aligin (u32 size) PAGE_SIZE) || Z.ltb SIZE_1M size then Some (- EINVAL, m)
  else
    let attr := get_page_table_attr flag in
    '(_, _, m') ← for_range (Z.to_nat (size >>u PAGE_SHIFT)) 0 (pgt_body attr) (pa, base, m);
    Some (0, m').

(** ** The table walk of the architecture

    [kva] is where the kernel sees a physical address, through which it built the
    second-level tables. *)

Definition mmu_walk (kva : Z -> Z) (m : mem) (va : Z) : option Z :=
  d ← load32 (get_tlb_base + 4 * (va >>u 20)) m;
  if Z.eqb (d mod 4) 2 then Some (2 ^ 20 * (d / 2 ^ 20) + va mod 2 ^ 20)
  else if Z.eqb (d mod 4) 1 then
    d2 ← load32 (kva (2 ^ 10 * (d / 2 ^ 10)) + 4 * ((va / 2 ^ 12) mod 2 ^ 8)) m;
    if Z.eqb (d2 mod 4) 2 then Some (2 ^ 12 * (d2 / 2 ^ 12) + va mod 2 ^ 12) else None
  else None.

(** ** Lemmas *)

(** A word built from an address with its low bits cleared and attribute bits. *)
Lemma des_eq pa k attr mask :
  0 <= k < 32 -> 0 <= pa < 2 ^ 32 -> 0 <= attr < 2 ^ k -> mask = u32 (Z.lnot (2 ^ k - 1)) ->
  (pa &u mask) |u attr = 2 ^ k * (pa / 2 ^ k) + attr.
Proof.
  intros Hk Hp Ha ->. rewrite land_lnot_mask by done.
  assert (E : Z.land (2 ^ k * (pa / 2 ^ k)) attr = 0).
  { apply Z.bits_inj'. intros i Hi. rewrite Z.bits_0, Z.land_spec, (Z.mul_comm (2 ^ k)).
    destruct (Z.ltb_spec i k) as [Hlt|Hge].
    - by rewrite Z.mul_pow2_bits_low.
    - destruct (Z.eq_dec attr 0) as [->|Hne]; [by rewrite Z.bits_0, andb_false_r|].
      rewrite (Z.bits_above_log2 attr i), andb_false_r; [done|lia|]. apply Z.log2_lt_pow2; [lia|].
      assert (2 ^ k <= 2 ^ i) by (apply Z.pow_le_mono_r; lia). lia. }
  pose proof (Z.add_lor_land (2 ^ k * (pa / 2 ^ k)) attr). lia.
Qed.

Lemma des_range pa k attr :
  0 <= k < 32 -> 0 <= pa < 2 ^ 32 -> 0 <= attr < 2 ^ k -> 0 <= 2 ^ k * (pa / 2 ^ k) + attr < 2 ^ 32.
Proof.
  intros Hk Hp Ha. assert (Hd : pa / 2 ^ k < 2 ^ (32 - k)).
  { apply Z.div_lt_upper_bound; [lia|]. rewrite <- Z.pow_add_r by lia.
    replace (k + (32 - k)) with 32 by lia. lia. }
  assert (0 <= pa / 2 ^ k) by (apply Z.div_pos; lia).
  assert (Hpow : 2 ^ k * 2 ^ (32 - k) = 2 ^ 32).
  { rewrite <- Z.pow_add_r by lia. f_equal. lia. }
  nia.
Qed.

(** Writing consecutive words. *)
Definition words_at (m : mem) (a : Z) (n : Z) (f : Z -> Z) : Prop :=
  forall j, 0 <= j < n -> load32 (a + 4 * j) m = Some (f j).

Section tables.
Implicit Types (m : mem) (a n : Z).

(** A loop that stores [f i] at [a + 4 i] for [i < n]; the two table builders are
    instances. *)
Lemma table_loop_ok (body : Z -> Z * Z * mem -> option (Z * Z * mem)) (des : Z -> Z) p step n a m :
  (forall i ps tb m', body i (ps, tb, m') =
     (m'' ← store32 tb (des ps) m'; Some (ps +u step, tb + 4, m''))) ->
  (forall ps, 0 <= ps < 2 ^ 32 -> 0 <= des ps < 2 ^ 32) ->
  0 <= p < 2 ^ 32 -> 0 <= n -> room m a (4 * n) ->
  exists ps' tb' m', for_range (Z.to_nat n) 0 body (p, a, m) = Some (ps', tb', m') /\
    words_at m' a n (fun j => des (u32 (p + j * step))) /\
    (forall x, ~ (a <= x < a + 4 * n) -> m' !! x = m !! x) /\
    (forall b k, room m b k -> room m' b k).
Proof.
  intros Hbody Hdes Hp Hn Hr.
  set (P := fun i (st : Z * Z * mem) =>
    st.1.1 = u32 (p + i * step) /\ st.1.2 = a + 4 * i /\
    words_at st.2 a i (fun j => des (u32 (p + j * step))) /\
    (forall x, ~ (a <= x < a + 4 * i) -> st.2 !! x = m !! x) /\
    (forall b k, room m b k -> room st.2 b k)).
  destruct (for_range_inv P (Z.to_nat n) 0 body (p, a, m)) as ([[ps' tb'] m'] & E & HP).
  { split; [simpl; rewrite Z.mul_0_l, Z.add_0_r, u32_small; lia|]. split; [simpl; lia|].
    split; [intros j Hj; lia|]. split; [done|done]. }
  { intros j [[ps tb] m1] Hj (H1 & H2 & H3 & H4 & H5). simpl in H1, H2, H3, H4, H5. subst ps tb.
    rewrite Hbody. assert (Hr1 : room m1 (a + 4 * j) 4).
    { apply (room_le m1 a (4 * n)); [by apply H5|lia|lia]. }
    rewrite store32_ok by done. cbn [mbind option_bind]. eexists. split; [done|].
    assert (Hu : 0 <= des (u32 (p + j * step)) < 2 ^ 32) by apply Hdes, u32_range.
    split; [|split; [|split; [|split]]]; cbn [fst snd].
    - rewrite u32_add_l. f_equal. lia.
    - lia.
    - intros i Hi. destruct (Z.eq_dec i j) as [->|Hne].
      + apply load32_bytes; [done|]. apply write_bytes.
      + rewrite load32_write_out by (simpl; lia). apply H3. lia.
    - intros x Hx. rewrite lookup_write_out by (simpl; lia). apply H4. lia.
    - intros b k Hb. by apply room_write, H5. }
  exists ps', tb', m'. split; [done|]. rewrite Z.add_0_l, Z2Nat.id in HP by lia.
  destruct HP as (_ & _ & H3 & H4 & H5). done.
Qed.

Lemma tlb_attr_range flag : 0 <= get_tlb_attr flag < 2 ^ 20.
Proof.
  unfold get_tlb_attr, arch_get_tlb_attr.
  repeat match goal with |- context [if ?b then _ else _] => destruct b end; vm_compute; done.
Qed.

(** Section and coarse-table descriptors. *)
Lemma section_des_eq pa attr :
  0 <= pa < 2 ^ 32 -> 0 <= attr < 2 ^ 20 -> attr mod 4 = 2 ->
  build_tlb_des pa attr = 2 ^ 20 * (pa / 2 ^ 20) + attr.
Proof.
  intros Hp Ha H4. unfold build_tlb_des, arch_build_tlb_des.
  change 3 with (u32 (2 ^ 2 - 1)). rewrite land_mask by lia. change (2 ^ 2) with 4. rewrite H4.
  by apply (des_eq pa 20).
Qed.

Lemma coarse_des_eq pa attr :
  0 <= pa < 2 ^ 32 -> 0 <= attr < 2 ^ 10 -> attr mod 4 = 1 ->
  build_tlb_des pa attr = 2 ^ 10 * (pa / 2 ^ 10) + attr.
Proof.
  intros Hp Ha H4. unfold build_tlb_des, arch_build_tlb_des.
  change 3 with (u32 (2 ^ 2 - 1)). rewrite land_mask by lia. change (2 ^ 2) with 4. rewrite H4.
  by apply (des_eq pa 10).
Qed.

Lemma page_des_eq pa :
  0 <= pa < 2 ^ 32 ->
  build_page_table_des pa PGT_DES_DEFAULT = 2 ^ 12 * (pa / 2 ^ 12) + PGT_DES_DEFAULT.
Proof. intros Hp. apply (des_eq pa 12); [lia|done|vm_compute; done|done]. Qed.

(** The flags of [map_memory]. *)
Definition is_section_flag (flag : Z) : Prop :=
  flag = TLB_ATTR_KERNEL_MEMORY \/ flag = TLB_ATTR_DMA_MEMORY \/ flag = TLB_ATTR_IO_MEMORY.

Lemma section_flag_attr flag :
  is_section_flag flag -> get_tlb_attr flag mod 4 = 2 /\ tlb_step flag = 2 ^ 20.
Proof. intros [->|[->| ->]]; done. Qed.

(** [build_tlb_table_entry] for sections: [n] entries from [v / 1M]. *)
Lemma build_sections_ok v p n flag m :
  is_section_flag flag -> 0 <= v < 2 ^ 32 -> v mod 2 ^ 20 = 0 -> 0 <= p < 2 ^ 32 ->
  0 <= n < 2 ^ 11 -> room m (get_tlb_base + 4 * (v / 2 ^ 20)) (4 * n) ->
  exists m', build_tlb_table_entry v p (n * 2 ^ 20) flag m = Some (0, m') /\
    words_at m' (get_tlb_base + 4 * (v / 2 ^ 20)) n
      (fun j => 2 ^ 20 * (u32 (p + j * 2 ^ 20) / 2 ^ 20) + get_tlb_attr flag) /\
    (forall x, ~ (get_tlb_base + 4 * (v / 2 ^ 20) <= x < get_tlb_base + 4 * (v / 2 ^ 20) + 4 * n) ->
       m' !! x = m !! x) /\
    (forall b k, room m b k -> room m' b k).
Proof.
  intros Hf Hv Ha Hp Hn Hr. destruct (section_flag_attr _ Hf) as [H2 Hst].
  unfold build_tlb_table_entry. change SIZE_1M with (2 ^ 20). rewrite !is_aligin_eq, Ha by lia.
  rewrite (u32_small (n * 2 ^ 20)), Z.mod_mul by lia. cbn [andb Z.eqb].
  rewrite !Z.shiftr_div_pow2, Z.div_mul by lia.
  destruct (table_loop_ok (tlb_body (get_tlb_attr flag) flag)
    (fun ps => build_tlb_des ps (get_tlb_attr flag)) p (2 ^ 20) n
    (get_tlb_base + 4 * (v / 2 ^ 20)) m) as (ps' & tb' & m' & E & H3 & H4 & H5);
    [|intros ps Hps; rewrite section_des_eq by (done || apply tlb_attr_range);
      apply des_range; [lia|done|apply tlb_attr_range]|done|lia|done|].
  { intros i ps tb m'. unfold tlb_body. by rewrite Hst. }
  exists m'. rewrite E. split; [done|]. split; [|done]. intros j Hj. rewrite H3 by done.
  by rewrite section_des_eq by (done || apply tlb_attr_range || apply u32_range).
Qed.

(** The same for second-level tables: the descriptors of [n] tables, 1K apart. *)
Lemma build_coarse_ok v p n m :
  0 <= v < 2 ^ 32 -> v mod 2 ^ 20 = 0 -> 0 <= p < 2 ^ 32 ->
  0 <= n < 2 ^ 11 -> room m (get_tlb_base + 4 * (v / 2 ^ 20)) (4 * n) ->
  exists m', build_tlb_table_entry v p (n * 2 ^ 20) TLB_ATTR_USER_MEMORY m = Some (0, m') /\
    words_at m' (get_tlb_base + 4 * (v / 2 ^ 20)) n
      (fun j => 2 ^ 10 * (u32 (p + j * 2 ^ 10) / 2 ^ 10) + 1) /\
    (forall x, ~ (get_tlb_base + 4 * (v / 2 ^ 20) <= x < get_tlb_base + 4 * (v / 2 ^ 20) + 4 * n) ->
       m' !! x = m !! x) /\
    (forall b k, room m b k -> room m' b k).
Proof.
  intros Hv Ha Hp Hn Hr.
  unfold build_tlb_table_entry. change SIZE_1M with (2 ^ 20). rewrite !is_aligin_eq, Ha by lia.
  rewrite (u32_small (n * 2 ^ 20)), Z.mod_mul by lia. cbn [andb Z.eqb].
  rewrite !Z.shiftr_div_pow2, Z.div_mul by lia.
  change (get_tlb_attr TLB_ATTR_USER_MEMORY) with 1.
  destruct (table_loop_ok (tlb_body 1 TLB_ATTR_USER_MEMORY)
    (fun ps => build_tlb_des ps 1) p (2 ^ 10) n
    (get_tlb_base + 4 * (v / 2 ^ 20)) m) as (ps' & tb' & m' & E & H3 & H4 & H5);
    [done|intros ps Hps; rewrite coarse_des_eq by (done || lia); apply des_range; lia|
     done|lia|done|].
  exists m'. rewrite E. split; [done|]. split; [|done]. intros j Hj. rewrite H3 by done.
  by rewrite coarse_des_eq by (done || lia || apply u32_range).
Qed.

(** [build_page_table_entry] writes [n] small-page descriptors. *)
Lemma build_pages_ok base p n flag m :
  0 <= p < 2 ^ 32 -> 0 <= n <= 256 -> room m base (4 * n) ->
  exists m', build_page_table_entry base p (n * 2 ^ 12) flag m = Some (0, m') /\
    words_at m' base n (fun j => 2 ^ 12 * (u32 (p + j * 2 ^ 12) / 2 ^ 12) + PGT_DES_DEFAULT) /\
    (forall x, ~ (base <= x < base + 4 * n) -> m' !! x = m !! x) /\
    (forall b k, room m b k -> room m' b k).
Proof.
  intros Hp Hn Hr. unfold build_page_table_entry. change PAGE_SIZE with (2 ^ 12).
  rewrite is_aligin_eq, (u32_small (n * 2 ^ 12)), Z.mod_mul by lia.
  rewrite (proj2 (Z.ltb_ge SIZE_1M (n * 2 ^ 12))) by (unfold SIZE_1M; lia). cbn [negb orb Z.eqb].
  change PAGE_SHIFT with 12. rewrite Z.shiftr_div_pow2, Z.div_mul by lia.
  change (get_page_table_attr flag) with PGT_DES_DEFAULT.
  destruct (table_loop_ok (pgt_body PGT_DES_DEFAULT)
    (fun ps => build_page_table_des ps PGT_DES_DEFAULT) p (2 ^ 12) n base m)
    as (ps' & tb' & m' & E & H3 & H4 & H5);
    [done|intros ps Hps; rewrite page_des_eq by done; apply des_range; [lia|done|vm_compute; done]|
     done|lia|done|].
  exists m'. rewrite E. split; [done|]. split; [|done]. intros j Hj. rewrite H3 by done.
  by rewrite page_des_eq by apply u32_range.
Qed.

(** [clear_tlb_entry] zeroes entries from the start of the table. *)
Lemma clear_loop_ok (n : nat) (k : Z) m a :
  room m a (4 * Z.of_nat n) ->
  exists m', for_range n k (fun _ '(tlb_base, m) =>
      m' ← store32 tlb_base 0 m; Some (tlb_base + 4, m')) (a, m) = Some (a + 4 * Z.of_nat n, m') /\
    words_at m' a (Z.of_nat n) (fun _ => 0) /\
    (forall x, ~ (a <= x < a + 4 * Z.of_nat n) -> m' !! x = m !! x) /\
    (forall b q, room m b q -> room m' b q).
Proof.
  revert k a m. induction n as [|n IH]; intros k a m Hr; cbn [for_range].
  { exists m. split; [f_equal; f_equal; lia|]. split; [intros j Hj; lia|done]. }
  rewrite store32_ok by (intros i Hi; apply Hr; lia). cbn [mbind option_bind].
  destruct (IH (k + 1) (a + 4) (write a (word_list 0) m)) as (m' & E & Hw & Hf & Hk).
  { apply room_write, (room_le _ _ _ 4 _ Hr); lia. }
  exists m'. split; [rewrite E; f_equal; f_equal; lia|]. split.
  - intros j Hj. destruct (Z.eq_dec j 0) as [->|Hne].
    + rewrite Z.mul_0_r, Z.add_0_r. rewrite (load32_frame a (write a (word_list 0) m)).
      * apply load32_bytes; [lia|apply write_bytes].
      * intros x Hx. apply Hf. lia.
    + replace (a + 4 * j) with (a + 4 + 4 * (j - 1)) by lia. apply (Hw (j - 1)). lia.
  - split; [|intros b q Hb; by apply Hk, room_write].
    intros x Hx. rewrite Hf by lia. apply lookup_write_out. simpl. lia.
Qed.

Lemma clear_tlb_entry_ok va size m :
  room m get_tlb_base (4 * (size - (u32 ((if Z.eqb va 0 then 1 else va) - 1) >>u 20))) ->
  exists m', clear_tlb_entry va size m = Some m' /\
    words_at m' get_tlb_base (size - (u32 ((if Z.eqb va 0 then 1 else va) - 1) >>u 20))
      (fun _ => 0) /\
    (forall x, ~ (get_tlb_base <= x <
        get_tlb_base + 4 * (size - (u32 ((if Z.eqb va 0 then 1 else va) - 1) >>u 20))) ->
       m' !! x = m !! x) /\
    (forall b q, room m b q -> room m' b q).
Proof.
  unfold clear_tlb_entry. generalize (u32 ((if Z.eqb va 0 then 1 else va) - 1) >>u 20).
  intros i Hr. destruct (clear_loop_ok (Z.to_nat (size - i)) i m get_tlb_base) as (m' & E & Hw & Hf & Hk).
  { intros j Hj. apply Hr. lia. }
  exists m'. rewrite E. split; [done|]. split.
  - intros j Hj. apply Hw. lia.
  - split; [|done]. intros x Hx. apply Hf. lia.
Qed.
End tables.
