(* ===== verification/MmuThms.v ===== *)
(** * Properties of the translation tables *)

From S2P Require Import Prelude Bitops Mem CString Mmu.

Definition FIRST_LEVEL : Z := 4 * 4096.

Section walks.
Implicit Types (m : mem) (va v p n : Z).

(** The first-level entry of an address lies in the table. *)
Lemma index_range va : 0 <= va < 2 ^ 32 -> 0 <= va / 2 ^ 20 < 4096.
Proof.
  intros Hv. split; [apply Z.div_pos; lia|]. apply Z.div_lt_upper_bound; lia.
Qed.

Lemma section_split va v :
  v mod 2 ^ 20 = 0 -> v <= va ->
  va / 2 ^ 20 = v / 2 ^ 20 + (va - v) / 2 ^ 20 /\ va mod 2 ^ 20 = (va - v) mod 2 ^ 20.
Proof.
  intros Hv Hle. pose proof (Z.div_mod v (2 ^ 20)) as E.
  assert (Eva : va = (va - v) + v / 2 ^ 20 * 2 ^ 20) by lia. revert Eva.
  generalize (va - v), (v / 2 ^ 20). intros x q ->. rewrite Z.div_add, Z.mod_add by lia. lia.
Qed.

(** A walk through a section descriptor. *)
Lemma walk_section kva m va d :
  load32 (get_tlb_base + 4 * (va / 2 ^ 20)) m = Some d -> d mod 4 = 2 ->
  mmu_walk kva m va = Some (2 ^ 20 * (d / 2 ^ 20) + va mod 2 ^ 20).
Proof.
  intros E H. unfold mmu_walk. rewrite Z.shiftr_div_pow2, E by lia. cbn [mbind option_bind].
  by rewrite H.
Qed.

Lemma section_des_fields q attr :
  0 <= attr < 2 ^ 20 -> attr mod 4 = 2 ->
  (2 ^ 20 * q + attr) mod 4 = 2 /\ (2 ^ 20 * q + attr) / 2 ^ 20 = q.
Proof.
  intros Ha H. split.
  - replace (2 ^ 20 * q + attr) with (attr + (2 ^ 18 * q) * 4) by lia. by rewrite Z.mod_add.
  - rewrite Z.mul_comm, Z.div_add_l, Z.div_small by lia. lia.
Qed.

(** [va] translates to [pa] through a section descriptor. *)
Definition maps m va pa : Prop :=
  exists d, load32 (get_tlb_base + 4 * (va / 2 ^ 20)) m = Some d /\ d mod 4 = 2 /\
    pa = 2 ^ 20 * (d / 2 ^ 20) + va mod 2 ^ 20.

Lemma maps_walk kva m va pa : maps m va pa -> mmu_walk kva m va = Some pa.
Proof. intros (d & E & H & ->). by apply walk_section. Qed.

Definition same_entry m m' va : Prop :=
  load32 (get_tlb_base + 4 * (va / 2 ^ 20)) m' = load32 (get_tlb_base + 4 * (va / 2 ^ 20)) m.

Lemma maps_same m m' va pa : same_entry m m' va -> maps m va pa -> maps m' va pa.
Proof. intros E (d & Ed & H). exists d. unfold same_entry in E. by rewrite E. Qed.

(** Only the first-level table was written. *)
Definition tlb_frame m m' : Prop :=
  (forall b k, room m b k -> room m' b k) /\
  forall x, ~ (get_tlb_base <= x < get_tlb_base + FIRST_LEVEL) -> m' !! x = m !! x.

#[global] Instance tlb_frame_preorder : PreOrder tlb_frame.
Proof.
  split; [done|]. intros a b c [A1 A2] [B1 B2]. split; [intros; by apply B1, A1|].
  intros x Hx. by rewrite B2, A2.
Qed.

Lemma build_sections_map v p n flag m :
  is_section_flag flag -> 0 <= v -> v mod 2 ^ 20 = 0 -> v + n * 2 ^ 20 <= 2 ^ 32 ->
  0 <= p -> p mod 2 ^ 20 = 0 -> p + n * 2 ^ 20 <= 2 ^ 32 -> 0 < n < 2 ^ 11 ->
  room m get_tlb_base FIRST_LEVEL ->
  exists m', build_tlb_table_entry v p (n * 2 ^ 20) flag m = Some (0, m') /\
    (forall va, v <= va < v + n * 2 ^ 20 -> maps m' va (p + (va - v))) /\
    (forall va, 0 <= va < 2 ^ 32 -> ~ (v <= va < v + n * 2 ^ 20) -> same_entry m m' va) /\
    tlb_frame m m'.
Proof.
  intros Hf Hv Hva Hvn Hp Hpa Hpn Hn Hr.
  pose proof (Z.div_mod v (2 ^ 20)) as Ev. pose proof (Z.div_mod p (2 ^ 20)) as Ep.
  destruct (build_sections_ok v p n flag m) as (m' & E & Hw & Hfr & Hk); try done; try lia.
  { apply (room_le m get_tlb_base FIRST_LEVEL); [done|lia|unfold FIRST_LEVEL; lia]. }
  exists m'. split; [done|]. split; [|split; [|split; [done|]]].
  - intros va Hr1. destruct (section_split va v) as [E1 E2]; [done|lia|].
    assert (Hj : 0 <= (va - v) / 2 ^ 20 < n).
    { split; [apply Z.div_pos; lia|]. apply Z.div_lt_upper_bound; lia. }
    pose proof (Hw _ Hj) as Hl. pose proof (tlb_attr_range flag) as Hat.
    destruct (section_flag_attr _ Hf) as [H2 _].
    pose proof (Z.div_mod (va - v) (2 ^ 20)) as Ed.
    destruct (section_des_fields (u32 (p + (va - v) / 2 ^ 20 * 2 ^ 20) / 2 ^ 20)
      (get_tlb_attr flag) Hat H2) as [F1 F2].
    eexists. split; [rewrite <- Hl; f_equal; lia|]. split; [done|].
    rewrite F2, u32_small, Z.div_add, E2 by lia. lia.
  - intros va Hr1 Hout. apply load32_frame. intros x Hx. apply Hfr.
    pose proof (Z.div_mod va (2 ^ 20)) as Evv. pose proof (Z.mod_pos_bound va (2 ^ 20)).
    destruct (Z_lt_le_dec va v).
    + assert (va / 2 ^ 20 < v / 2 ^ 20) by (apply Z.div_lt_upper_bound; lia). lia.
    + assert (v / 2 ^ 20 + n <= va / 2 ^ 20) by (apply Z.div_le_lower_bound; lia). lia.
  - intros x Hx. apply Hfr. unfold FIRST_LEVEL in Hx. lia.
Qed.

(** C21. [build_tlb_table_entry] for kernel, DMA or I/O memory maps [n] megabytes: the
    architecture's walk translates every address of the virtual range to the
    corresponding physical one, and the first-level entry of every other address
    is left alone. *)
Theorem build_tlb_maps_sections kva v p n flag m :
  is_section_flag flag -> 0 <= v -> v mod 2 ^ 20 = 0 -> v + n * 2 ^ 20 <= 2 ^ 32 ->
  0 <= p -> p mod 2 ^ 20 = 0 -> p + n * 2 ^ 20 <= 2 ^ 32 -> 0 < n < 2 ^ 11 ->
  room m get_tlb_base FIRST_LEVEL ->
  exists m', build_tlb_table_entry v p (n * 2 ^ 20) flag m = Some (0, m') /\
    (forall va, v <= va < v + n * 2 ^ 20 -> mmu_walk kva m' va = Some (p + (va - v))) /\
    (forall va, 0 <= va < 2 ^ 32 -> ~ (v <= va < v + n * 2 ^ 20) ->
       load32 (get_tlb_base + 4 * (va / 2 ^ 20)) m' = load32 (get_tlb_base + 4 * (va / 2 ^ 20)) m).
Proof.
  intros Hf Hv Hva Hvn Hp Hpa Hpn Hn Hr.
  destruct (build_sections_map v p n flag m) as (m' & E & Hm & Hs & _); try done.
  exists m'. split; [done|]. split; [|done]. intros va Hva'. by apply maps_walk, Hm.
Qed.

(** A walk through a coarse table and a small-page descriptor. *)
Lemma coarse_des_fields q : (2 ^ 10 * q + 1) mod 4 = 1 /\ (2 ^ 10 * q + 1) / 2 ^ 10 = q.
Proof.
  split.
  - replace (2 ^ 10 * q + 1) with (1 + (2 ^ 8 * q) * 4) by lia. by rewrite Z.mod_add.
  - rewrite Z.mul_comm, Z.div_add_l by lia. change (1 / 2 ^ 10) with 0. lia.
Qed.

Lemma page_des_fields q :
  (2 ^ 12 * q + PGT_DES_DEFAULT) mod 4 = 2 /\ (2 ^ 12 * q + PGT_DES_DEFAULT) / 2 ^ 12 = q.
Proof.
  change PGT_DES_DEFAULT with 4094. split.
  - replace (2 ^ 12 * q + 4094) with (2 + (2 ^ 10 * q + 1023) * 4) by lia. by rewrite Z.mod_add.
  - rewrite Z.mul_comm, Z.div_add_l by lia. change (4094 / 2 ^ 12) with 0. lia.
Qed.

Lemma walk_page kva m va pt q :
  load32 (get_tlb_base + 4 * (va / 2 ^ 20)) m = Some (2 ^ 10 * (pt / 2 ^ 10) + 1) ->
  pt mod 2 ^ 10 = 0 ->
  load32 (kva pt + 4 * ((va / 2 ^ 12) mod 2 ^ 8)) m = Some (2 ^ 12 * q + PGT_DES_DEFAULT) ->
  mmu_walk kva m va = Some (2 ^ 12 * q + va mod 2 ^ 12).
Proof.
  intros L1 Hpt L2. pose proof (Z.div_mod pt (2 ^ 10)) as E.
  destruct (coarse_des_fields (pt / 2 ^ 10)) as [F1 F2]. destruct (page_des_fields q) as [F3 F4].
  unfold mmu_walk. rewrite Z.shiftr_div_pow2, L1 by lia. cbn [mbind option_bind].
  rewrite F1, F2. cbn [Z.eqb Pos.eqb]. replace (2 ^ 10 * (pt / 2 ^ 10)) with pt by lia.
  rewrite L2. cbn [mbind option_bind]. by rewrite F3, F4.
Qed.

Lemma page_split va v :
  v mod 2 ^ 20 = 0 -> v <= va < v + 2 ^ 20 ->
  va / 2 ^ 20 = v / 2 ^ 20 /\ (va / 2 ^ 12) mod 2 ^ 8 = (va - v) / 2 ^ 12 /\
  va mod 2 ^ 12 = (va - v) mod 2 ^ 12.
Proof.
  intros Hv Hr. pose proof (Z.div_mod v (2 ^ 20)) as Ev. split.
  { destruct (section_split va v) as [-> _]; [done|lia|]. rewrite (Z.div_small (va - v)); lia. }
  assert (Eva : va = (va - v) + (2 ^ 8 * (v / 2 ^ 20)) * 2 ^ 12) by lia.
  assert (Hj : 0 <= (va - v) / 2 ^ 12 < 2 ^ 8).
  { split; [apply Z.div_pos; lia|]. apply Z.div_lt_upper_bound; lia. }
  split; rewrite Eva at 1.
  - rewrite Z.div_add, Z.mul_comm, Z.mod_add by lia. by apply Z.mod_small.
  - by rewrite Z.mod_add by lia.
Qed.

(** Mapping user memory through a coarse table: after the first-level entry of a
    megabyte [v] is pointed at the second-level table [pt] and [n] of its pages are
    filled for the physical pages from [p], the walk translates every address of
    those pages. *)
Theorem user_pages_mapped kva v pt p n m :
  0 <= v -> v mod 2 ^ 20 = 0 -> v + 2 ^ 20 <= 2 ^ 32 ->
  0 <= pt < 2 ^ 32 -> pt mod 2 ^ 10 = 0 ->
  0 <= p -> p mod 2 ^ 12 = 0 -> p + n * 2 ^ 12 <= 2 ^ 32 -> 0 < n <= 256 ->
  room m get_tlb_base FIRST_LEVEL -> room m (kva pt) 1024 ->
  disjoint get_tlb_base FIRST_LEVEL (kva pt) 1024 ->
  exists m1 m2, build_tlb_table_entry v pt (2 ^ 20) TLB_ATTR_USER_MEMORY m = Some (0, m1) /\
    build_page_table_entry (kva pt) p (n * 2 ^ 12) 0 m1 = Some (0, m2) /\
    forall va, v <= va < v + n * 2 ^ 12 -> mmu_walk kva m2 va = Some (p + (va - v)).
Proof.
  intros Hv Hva Hv2 Hpt Hpta Hp Hpa Hpn Hn Hr Hrt Hd. unfold FIRST_LEVEL in *.
  pose proof (index_range v) as Hi.
  destruct (build_coarse_ok v pt 1 m) as (m1 & E1 & Hw1 & _ & Hk1); try done; try lia.
  { apply (room_le m get_tlb_base (4 * 4096)); [done|lia|lia]. }
  destruct (build_pages_ok (kva pt) p n 0 m1) as (m2 & E2 & Hw2 & Hf2 & _); try lia.
  { intros i Hi2. apply Hk1 with (b := kva pt) (k := 1024); [done|lia]. }
  exists m1, m2. rewrite Z.mul_1_l in E1. split; [done|]. split; [done|]. intros va Hr1.
  destruct (page_split va v) as (E20 & E8 & E12); [done|lia|].
  pose proof (Z.div_mod p (2 ^ 12)) as Ep. pose proof (Z.div_mod (va - v) (2 ^ 12)) as Ed.
  assert (Hj : 0 <= (va - v) / 2 ^ 12 < n).
  { split; [apply Z.div_pos; lia|]. apply Z.div_lt_upper_bound; lia. }
  rewrite (walk_page kva m2 va pt (p / 2 ^ 12 + (va - v) / 2 ^ 12)); [|  |done|].
  - rewrite E12. f_equal. lia.
  - rewrite E20, (load32_frame _ m1).
    + pose proof (Hw1 0 ltac:(lia)) as H0. rewrite Z.mul_0_r, Z.add_0_r in H0. rewrite H0.
      by rewrite Z.mul_0_l, Z.add_0_r, (u32_small pt) by lia.
    + intros x Hx. apply Hf2. unfold disjoint in Hd. lia.
  - rewrite E8, (Hw2 _ Hj). by rewrite u32_small, Z.div_add by lia.
Qed.
End walks.

(** ** Witnesses *)

Definition table_mem : mem := write get_tlb_base (replicate (Z.to_nat FIRST_LEVEL) 0) ∅.

Lemma table_room : room table_mem get_tlb_base FIRST_LEVEL.
Proof. apply room_zeros. Qed.

Lemma build_tlb_maps_sections_witness :
  exists m', build_tlb_table_entry 0x80000000 0x30000000 (64 * 2 ^ 20) TLB_ATTR_KERNEL_MEMORY table_mem
      = Some (0, m') /\
    (forall va, 0x80000000 <= va < 0x80000000 + 64 * 2 ^ 20 ->
       mmu_walk id m' va = Some (0x30000000 + (va - 0x80000000))) /\
    (forall va, 0 <= va < 2 ^ 32 -> ~ (0x80000000 <= va < 0x80000000 + 64 * 2 ^ 20) ->
       load32 (get_tlb_base + 4 * (va / 2 ^ 20)) m' =
       load32 (get_tlb_base + 4 * (va / 2 ^ 20)) table_mem).
Proof.
  apply (build_tlb_maps_sections id 0x80000000 0x30000000 64 TLB_ATTR_KERNEL_MEMORY table_mem);
    [by left|lia|reflexivity|lia|lia|reflexivity|lia|lia|exact table_room].
Defined.

Definition user_mem : mem := write 0x80010000 (replicate (Z.to_nat 1024) 0) table_mem.

Lemma user_pages_mapped_witness :
  exists m1 m2,
    build_tlb_table_entry 0x400000 0x30010000 (2 ^ 20) TLB_ATTR_USER_MEMORY user_mem = Some (0, m1) /\
    build_page_table_entry 0x80010000 0x30020000 (2 * 2 ^ 12) 0 m1 = Some (0, m2) /\
    forall va, 0x400000 <= va < 0x400000 + 2 * 2 ^ 12 ->
      mmu_walk (fun p => p + 0x50000000) m2 va = Some (0x30020000 + (va - 0x400000)).
Proof.
  apply (user_pages_mapped (fun p => p + 0x50000000) 0x400000 0x30010000 0x30020000 2 user_mem);
    try lia; try reflexivity.
  - apply room_write, table_room.
  - intros i Hi. apply (room_write_self 0x80010000 (replicate (Z.to_nat 1024) 0)).
    rewrite length_replicate. lia.
  - unfold disjoint, FIRST_LEVEL, get_tlb_base, arch_get_tlb_base, KERNEL_BASE_ADDRESS. lia.
Defined.

(** ** Clearing *)

Lemma clear_user_entries m :
  room m get_tlb_base FIRST_LEVEL ->
  exists m', clear_tlb_entry 0 2048 m = Some m' /\
    (forall va, 0 <= va < 2 ^ 31 -> load32 (get_tlb_base + 4 * (va / 2 ^ 20)) m' = Some 0) /\
    (forall va, 2 ^ 31 <= va < 2 ^ 32 -> same_entry m m' va) /\ tlb_frame m m'.
Proof.
  intros Hr. destruct (clear_tlb_entry_ok 0 2048 m) as (m' & E & Hw & Hf & Hk);
    change (2048 - (u32 ((if Z.eqb 0 0 then 1 else 0) - 1) >>u 20)) with 2048 in *.
  { intros i Hi. apply Hr. unfold FIRST_LEVEL. lia. }
  exists m'. split; [done|]. split.
  - intros va Hva. apply (Hw (va / 2 ^ 20)). split; [apply Z.div_pos; lia|].
    apply Z.div_lt_upper_bound; lia.
  - split; [|split; [done|intros x Hx; apply Hf; unfold FIRST_LEVEL in Hx; lia]].
    intros va Hva. apply load32_frame. intros x Hx. apply Hf.
    assert (2048 <= va / 2 ^ 20) by (apply Z.div_le_lower_bound; lia). lia.
Qed.

Lemma zero_entry_faults kva m va :
  0 <= va -> load32 (get_tlb_base + 4 * (va / 2 ^ 20)) m = Some 0 -> mmu_walk kva m va = None.
Proof. intros Hva E. unfold mmu_walk. by rewrite Z.shiftr_div_pow2, E by lia. Qed.

(** [clear_tlb_entry 0 2048], with which [mm_init] ends, makes every user address
    fault and leaves the entries of the kernel's half of the address space alone. *)
Theorem clear_user_tlb_faults kva m :
  room m get_tlb_base FIRST_LEVEL ->
  exists m', clear_tlb_entry 0 2048 m = Some m' /\
    (forall va, 0 <= va < 2 ^ 31 -> mmu_walk kva m' va = None) /\
    (forall va, 2 ^ 31 <= va < 2 ^ 32 ->
       load32 (get_tlb_base + 4 * (va / 2 ^ 20)) m' = load32 (get_tlb_base + 4 * (va / 2 ^ 20)) m).
Proof.
  intros Hr. destruct (clear_user_entries m Hr) as (m' & E & H1 & H2 & _). exists m'.
  split; [done|]. split; [|done]. intros va Hva. apply zero_entry_faults; [lia|by apply H1].
Qed.

Lemma clear_user_tlb_faults_witness :
  exists m', clear_tlb_entry 0 2048 table_mem = Some m' /\
    (forall va, 0 <= va < 2 ^ 31 -> mmu_walk id m' va = None) /\
    (forall va, 2 ^ 31 <= va < 2 ^ 32 ->
       load32 (get_tlb_base + 4 * (va / 2 ^ 20)) m' =
       load32 (get_tlb_base + 4 * (va / 2 ^ 20)) table_mem).
Proof. apply (clear_user_tlb_faults id table_mem), table_room. Defined.

(** ** Where the code departs from its intent *)

(** For any other address the entries cleared are those at the start of the table,
    not those of [va]. *)
Theorem clear_tlb_entry_ignores_va k m :
  1 <= k < 4095 -> room m get_tlb_base FIRST_LEVEL ->
  exists m', clear_tlb_entry (k * 2 ^ 20 + 1) (k + 1) m = Some m' /\
    load32 get_tlb_base m' = Some 0 /\
    load32 (get_tlb_base + 4 * k) m' = load32 (get_tlb_base + 4 * k) m.
Proof.
  intros Hk Hr.
  assert (Ei : u32 ((if Z.eqb (k * 2 ^ 20 + 1) 0 then 1 else k * 2 ^ 20 + 1) - 1) >>u 20 = k).
  { rewrite (proj2 (Z.eqb_neq (k * 2 ^ 20 + 1) 0)) by lia. rewrite u32_small by lia.
    rewrite Z.shiftr_div_pow2 by lia. replace (k * 2 ^ 20 + 1 - 1) with (k * 2 ^ 20) by lia.
    apply Z.div_mul. lia. }
  destruct (clear_tlb_entry_ok (k * 2 ^ 20 + 1) (k + 1) m) as (m' & E & Hw & Hf & _).
  { intros i Hi. apply Hr. unfold FIRST_LEVEL. rewrite Ei in Hi. lia. }
  rewrite Ei in Hw, Hf. exists m'. split; [done|]. split.
  - rewrite <- (Z.add_0_r get_tlb_base). change 0 with (4 * 0) at 1. apply (Hw 0). lia.
  - apply load32_frame. intros x Hx. apply Hf. lia.
Qed.

(** A physical start that is not aligned passes the check and is rounded down. *)
Theorem build_tlb_rounds_unaligned kva v q r m :
  0 <= v < 2 ^ 32 -> v mod 2 ^ 20 = 0 -> 0 <= q < 2 ^ 12 -> 0 < r < 2 ^ 20 ->
  room m get_tlb_base FIRST_LEVEL ->
  exists m', build_tlb_table_entry v (q * 2 ^ 20 + r) (2 ^ 20) TLB_ATTR_KERNEL_MEMORY m = Some (0, m') /\
    mmu_walk kva m' v = Some (q * 2 ^ 20).
Proof.
  intros Hv Hva Hq Hr0 Hr. pose proof (index_range v Hv) as Hi.
  destruct (build_sections_ok v (q * 2 ^ 20 + r) 1 TLB_ATTR_KERNEL_MEMORY m)
    as (m' & E & Hw & _); try done; try lia; [by left| |].
  { apply (room_le m get_tlb_base FIRST_LEVEL); [done|lia|unfold FIRST_LEVEL; lia]. }
  rewrite Z.mul_1_l in E. exists m'. split; [done|].
  pose proof (Hw 0 ltac:(lia)) as H0. rewrite Z.mul_0_r, Z.mul_0_l, !Z.add_0_r in H0.
  rewrite u32_small, Z.div_add_l, (Z.div_small r), Z.add_0_r in H0 by lia.
  destruct (section_des_fields q (get_tlb_attr TLB_ATTR_KERNEL_MEMORY)) as [F1 F2];
    [apply tlb_attr_range|done|].
  rewrite (walk_section _ _ _ _ H0 F1), F2, Hva. f_equal. lia.
Qed.
