(* ===== verification/MmBoot.v ===== *)
(** * Discovering and mapping memory at boot

    Models the first half of [mm/mm.c] (from [init_memory_section] to [mm_init]) and
    [arch/arm/machine/tq2440_init.c]: the regions a platform registers are sorted,
    inserted in their zones, given virtual addresses and mapped, and the page bit
    map is initialised.  [Pages] takes over from here. *)

From S2P Require Import Prelude ListHead TaskStruct Bitops Mem MmTypes Pages Mmu.

(** ** Data: [include/os/init.h], [include/os/mm.h] *)

Definition MEM_MAX_REGION : Z := 16.
Definition MM_SECTION_ALIGIN : Z := SIZE_1M.

Record memory_region : Type := Mk_region {
  r_start : Z;
  r_size : Z;
  r_attr : Z
}.

Record platform_info : Type := Mk_info {
  region : list memory_region;
  region_nr : Z
}.

Definition null_region : memory_region := Mk_region 0 0 0.

(** ** Registration of regions *)

Definition register_memory_region (start size attr : Z) (info : platform_info)
  : option platform_info :=
  let nr := info.(region_nr) in
  if Z.ltb nr MEM_MAX_REGION then
    let new_start := baligin start MM_SECTION_ALIGIN in
    let size := size -u (new_start -u start) in
    let size := min_aligin size MM_SECTION_ALIGIN in
    if is_aligin size MM_SECTION_ALIGIN then
      if Z.leb PAGE_SIZE size then
        r ← aset info.(region) nr (Mk_region new_start size attr);
        Some (Mk_info r (nr + 1))
      else Some info
    else Some info
  else Some info.

Definition init_platform_memory_region (info : platform_info) : platform_info :=
  Mk_info (replicate (Z.to_nat MEM_MAX_REGION) (Mk_region 0 0 UNKNOW_MEM)) 0.

Definition tq2440_parse_memory_region (info : platform_info) : option platform_info :=
  info ← register_memory_region 0x30000000 (64 * 1024 * 1024) NORMAL_MEM info;
  register_memory_region 0x48000000 (0x5b000020 - 0x48000000) IO_MEM info.

(** ** The memory bank *)

Definition init_memory_section : mm_section := Mk_section 0 0 0 0 0.

(** The sections are cleared and the counts of the zones reset; their sizes keep
    what the program image holds. *)
Definition init_zone (z : mm_zone) : mm_zone :=
  with_memory_section (replicate (Z.to_nat ZONE_MAX_REGION) init_memory_section)
    (with_nr_section 0 z).

Definition insert_region_to_zone (r : memory_region) (z : mm_zone) : option (Z * mm_zone) :=
  if Z.eqb z.(nr_section) ZONE_MAX_REGION then Some (0, z)
  else
    l ← aupd z.(memory_section) z.(nr_section)
          (fun x => with_sec_size r.(r_size) (with_phy_start r.(r_start) x));
    let total := z.(z_total_size) +u r.(r_size) in
    Some (r.(r_size),
      with_z_free_pages (total >>u PAGE_SHIFT) (with_page_num (total >>u PAGE_SHIFT)
        (with_z_free_size total (with_z_total_size total
          (with_nr_section (z.(nr_section) + 1) (with_memory_section l z)))))).

(** *** Sorting the regions *)

(** The inner loop: the index of the least start from [i] on. *)
Definition find_min (l : list memory_region) (nr i : Z) : option Z :=
  for_range (Z.to_nat (nr - (i + 1))) (i + 1) (fun j min =>
    a ← aget l min; b ← aget l j;
    Some (if Z.ltb b.(r_start) a.(r_start) then j else min)) i.

Definition sort_body (nr i : Z) (l : list memory_region) : option (list memory_region) :=
  min ← find_min l nr i;
  if negb (Z.eqb min i) then
    a ← aget l i; b ← aget l min;
    l1 ← aset l i b; aset l1 min a
  else Some l.

Definition sort_regions (l : list memory_region) (nr : Z) : option (list memory_region) :=
  for_range (Z.to_nat nr) 0 (sort_body nr) l.

(** *** Regions into zones *)

Definition insert_body (l : list memory_region) (i : Z) (b : mm_bank) : option mm_bank :=
  r ← aget l i;
  z ← aget b.(zone) r.(r_attr);
  '(size, z') ← insert_region_to_zone r z;
  zs ← aset b.(zone) r.(r_attr) z';
  let b := with_zone zs b in
  Some (if negb (Z.eqb r.(r_attr) IO_MEM) && negb (Z.eqb r.(r_attr) UNKNOW_MEM)
        then with_b_total_size (b.(b_total_size) +u size) b else b).

(** *** The DMA zone, when no region asked for one *)

Definition max_section (z : mm_zone) : option Z :=
  for_range (Z.to_nat z.(nr_section)) 0 (fun i k =>
    a ← aget z.(memory_section) i; b ← aget z.(memory_section) k;
    Some (if Z.ltb b.(sec_size) a.(sec_size) then i else k)) 0.

(** The section of a size closest to [size] from above, smaller than the largest:
    [tmp] and [j]. *)
Definition fit_section (z : mm_zone) (pr : mm_section) (size j : Z) : option (mm_section * Z) :=
  for_range (Z.to_nat z.(nr_section)) 0 (fun i '(tmp, j) =>
    x ← aget z.(memory_section) i;
    Some (if Z.ltb x.(sec_size) pr.(sec_size) && Z.leb size x.(sec_size) &&
             Z.ltb x.(sec_size) tmp.(sec_size)
          then (x, i) else (tmp, j))) (pr, j).

Definition shrink_zone (rsize : Z) (z : mm_zone) : mm_zone :=
  let pn := z.(page_num) -u (rsize >>u PAGE_SHIFT) in
  with_z_free_pages pn (with_page_num pn
    (with_z_free_size (z.(z_free_size) -u rsize) (with_z_total_size (z.(z_total_size) -u rsize) z))).

(** The region taken from the normal zone and the zone without it; [j] is left over
    from the sort. *)
Definition carve_dma (z : mm_zone) (j : Z) : option (memory_region * mm_zone) :=
  let size := baligin (z.(z_total_size) >>u 4) 0x100000 in
  k ← max_section z;
  pr ← aget z.(memory_section) k;
  '(tmp, j) ← (if Z.ltb 1 z.(nr_section) then fit_section z pr size j else Some (pr, j));
  if Z.ltb 1 z.(nr_section) && negb (Z.eqb tmp.(sec_size) pr.(sec_size)) &&
     Z.leb (tmp.(sec_size) -u size) (z.(z_total_size) >>u 5)
  then
    l ← aupd z.(memory_section) j (fun x => with_pv_offset 0 (with_phy_start 0 (with_sec_size 0 x)));
    Some (Mk_region tmp.(phy_start) tmp.(sec_size) DMA_MEM,
          with_nr_section (z.(nr_section) - 1) (with_memory_section l z))
  else
    l ← aupd z.(memory_section) k (fun x => with_sec_size (x.(sec_size) -u size) x);
    Some (Mk_region ((pr.(phy_start) +u pr.(sec_size)) -u size) size DMA_MEM,
          with_memory_section l z).

Definition ensure_dma (j : Z) (b : mm_bank) : option mm_bank :=
  d ← aget b.(zone) MM_ZONE_DMA;
  if Z.eqb d.(nr_section) 0 then
    z ← aget b.(zone) MM_ZONE_NORMAL;
    '(rtmp, z1) ← carve_dma z j;
    zs ← aset b.(zone) MM_ZONE_NORMAL (shrink_zone rtmp.(r_size) z1);
    d ← aget zs MM_ZONE_DMA;
    '(_, d1) ← insert_region_to_zone rtmp d;
    zs1 ← aset zs MM_ZONE_DMA d1;
    Some (with_zone zs1 b)
  else Some b.

Definition handle_platform_memory_region (info : platform_info) (b : mm_bank)
  : option (platform_info * mm_bank) :=
  l ← sort_regions info.(region) info.(region_nr);
  b1 ← for_range (Z.to_nat info.(region_nr)) 0 (insert_body l) b;
  b2 ← ensure_dma info.(region_nr) b1;
  Some (Mk_info l info.(region_nr), b2).

(** ** Virtual addresses *)

Definition map_section_to_virtual (map_base : Z) (x : mm_section) : mm_section :=
  with_maped 1 (with_pv_offset (s32 (map_base - x.(phy_start))) (with_vir_start map_base x)).

Definition map_zone_body (i : Z) (st : Z * list mm_section) : option (Z * list mm_section) :=
  let '(new_base, l) := st in
  x ← aget l i;
  if Z.ltb 0 x.(sec_size) && negb (truth x.(maped)) then
    l1 ← aset l i (map_section_to_virtual new_base x);
    Some (new_base +u x.(sec_size), l1)
  else Some (new_base, l).

Definition map_zone_to_virtual (map_base : Z) (z : mm_zone) : option (Z * mm_zone) :=
  '(new_base, l) ← for_range (Z.to_nat z.(nr_section)) 0 map_zone_body
    (map_base, z.(memory_section));
  Some (new_base -u map_base, with_memory_section l z).

(** The search for the section the kernel was loaded in. *)
Definition map_kernel_section (kernel_start kernel_phy_start : Z) (z : mm_zone)
  : option (Z * mm_zone) :=
  '(base, l, _) ← for_range (Z.to_nat z.(nr_section)) 0 (fun i '(base, l, found) =>
      if found : bool then Some (base, l, true)
      else
        x ← aget l i;
        if Z.eqb x.(phy_start) kernel_phy_start then
          l1 ← aset l i (map_section_to_virtual base x);
          Some (base +u x.(sec_size), l1, true)
        else Some (base, l, false)) (kernel_start, z.(memory_section), false);
  Some (base, with_memory_section l z).

Definition map_zone_memory (kernel_start kernel_phy_start : Z) (b : mm_bank)
  : option (Z * mm_bank) :=
  z ← aget b.(zone) MM_ZONE_NORMAL;
  '(base, z1) ← map_kernel_section kernel_start kernel_phy_start z;
  zs ← aset b.(zone) MM_ZONE_NORMAL z1;
  '(base', zs') ← for_range (Z.to_nat MM_ZONE_UNKNOW) 0 (fun i '(base, zs) =>
      z ← aget zs i;
      '(size, z') ← map_zone_to_virtual base z;
      zs' ← aset zs i z';
      Some (base +u size, zs')) (base, zs);
  Some (base', with_zone zs' b).

(** The flag of each zone. *)
Definition zone_tlb_flag (i : Z) : Z :=
  if Z.eqb i MM_ZONE_NORMAL then 0 |u TLB_ATTR_KERNEL_MEMORY
  else if Z.eqb i MM_ZONE_DMA then 0 |u TLB_ATTR_DMA_MEMORY
  else if Z.eqb i IO_MEM then 0 |u TLB_ATTR_IO_MEMORY
  else 0 |u TLB_ATTR_KERNEL_MEMORY.

Definition map_memory_section (kernel_start already_map flag : Z) (x : mm_section) (m : mem)
  : option mem :=
  '(_, m1) ← (if Z.eqb x.(vir_start) kernel_start then
      build_tlb_table_entry (x.(vir_start) -u already_map) (x.(phy_start) -u already_map)
        (s32 (x.(sec_size) - already_map)) flag m
    else Some (0, m));
  '(_, m2) ← build_tlb_table_entry x.(vir_start) x.(phy_start) (s32 x.(sec_size)) flag m1;
  Some m2.

Definition map_memory (kernel_start bss_end : Z) (b : mm_bank) (m : mem) : option mem :=
  let already_map := baligin (bss_end -u kernel_start) 0x100000 in
  for_range (Z.to_nat MM_ZONE_UNKNOW) 0 (fun i m =>
    z ← aget b.(zone) i;
    for_range (Z.to_nat z.(nr_section)) 0 (fun j m =>
      x ← aget z.(memory_section) j;
      map_memory_section kernel_start already_map (zone_tlb_flag i) x m) m) m.

(** ** The page table *)

Definition SIZEOF_PAGE : Z := 24.

Definition kernel_page (kernel_start off : Z) (i : Z) (k : page) : page :=
  with_pg_usage 1 (with_pg_count 0 (with_free_base 0 (with_pg_free_size 0
    (with_phy_address ((kernel_start +u u32 (i * PAGE_SIZE)) -u off) k)))).

Section boot.
Context {L : Type}.
(** [init_mutex] and the addresses of the zone mutexes. *)
Variable init_lock : Z -> L -> L.
Variable zone_mutex : Z -> Z.
Implicit Types (s : mm_state L).

Definition init_memory_bank s : mm_state L :=
  let b := s.(bank) in
  with_locks (foldl (fun l i => init_lock (zone_mutex i) l) s.(locks) (seqZ 0 MM_ZONE_UNKNOW))
    (with_bank (with_zone (init_zone <$> b.(zone)) (with_total_page 0 (with_b_total_size 0 b))) s).

(** The addresses of [_page_table], [_page_map] and of the end of both. *)
Definition page_table_layout (kernel_end total : Z) : Z * Z * Z :=
  let table := baligin kernel_end 4 in
  let map := baligin (table +u u32 (SIZEOF_PAGE * total)) 4 in
  (table, map, map +u u32 (4 * bits_to_long total)).

(** The offset of the section at [kernel_start]; without one it is never set. *)
Definition kernel_pv_offset (kernel_start : Z) (z : mm_zone) : option Z :=
  r ← section_loop (S (Z.to_nat z.(nr_section)))
        (fun x => Z.eqb kernel_start x.(vir_start)) z 0;
  pv_offset <$> r.

Definition init_kernel_page (kernel_start off : Z) (i : Z) s : option (mm_state L) :=
  m ← set_bit (Some s.(page_map)) i;
  m' ← m;
  let s1 := with_plists (init_list (PagePlist i) s.(plists)) (with_page_map m' s) in
  upd_page i (kernel_page kernel_start off i) s1.

Definition set_bounds (lo cur hi : Z) (z : mm_zone) : mm_zone :=
  with_bm_end hi (with_bm_current cur (with_bm_start lo z)).

Definition init_page_table_map (kernel_start kernel_end : Z) s : option (mm_state L) :=
  let total := s.(bank).(total_page) in
  let tmp := (page_table_layout kernel_end total).2 in
  let s := with_page_map (replicate (Z.to_nat (bits_to_long total)) 0) s in
  let bytes := baligin (tmp -u kernel_start) PAGE_SIZE in
  let size := bytes >>u PAGE_SHIFT in
  s ← upd_zone MM_ZONE_NORMAL (fun z =>
        with_z_free_pages (z.(z_free_pages) -u size)
          (with_z_free_size (z.(z_free_size) -u bytes) z)) s;
  z ← get_zone MM_ZONE_NORMAL s;
  off ← kernel_pv_offset kernel_start z;
  s ← for_range (Z.to_nat size) 0 (init_kernel_page kernel_start off) s;
  s ← upd_zone MM_ZONE_NORMAL (set_bounds 0 size z.(page_num)) s;
  d ← get_zone MM_ZONE_DMA s;
  let i := z.(page_num) in
  s ← upd_zone MM_ZONE_DMA (set_bounds i i (i +u d.(page_num))) s;
  let i := i +u d.(page_num) in
  r ← get_zone MM_ZONE_RES s;
  upd_zone MM_ZONE_RES (set_bounds i i (i +u r.(page_num))) s.

Definition clear_user_tlb (m : mem) : option mem := clear_tlb_entry 0x0 2048 m.

(** [parse] is the platform's [parse_memory_region]. *)
Definition mm_init (parse : platform_info -> option platform_info)
    (kernel_start kernel_phy_start bss_end : Z) (info : platform_info) (s : mm_state L) (m : mem)
  : option (platform_info * mm_state L * mem) :=
  info ← parse (init_platform_memory_region info);
  let s := init_memory_bank s in
  '(info, b) ← handle_platform_memory_region info s.(bank);
  let b := with_total_page (b.(b_total_size) >>u PAGE_SHIFT)
             (with_total_section info.(region_nr) b) in
  '(_, b) ← map_zone_memory kernel_start kernel_phy_start b;
  m ← map_memory kernel_start bss_end b m;
  s ← init_page_table_map kernel_start bss_end (with_bank b s);
  m ← clear_user_tlb m;
  Some (info, s, m).
End boot.
