(* ===== verification/MmBootThms.v ===== *)
(** * Properties of the boot-time memory code *)

From S2P Require Import Prelude ListHead TaskStruct Bitops Mem CString MmTypes Pages PagesInv Mmu.
From S2P Require Import MmuThms MmBoot.

(** ** Registration of regions *)

Definition region_ok (r : memory_region) (start size : Z) : Prop :=
  start <= r.(r_start) /\ r.(r_start) mod 2 ^ 20 = 0 /\
  r.(r_size) mod 2 ^ 20 = 0 /\ 0 < r.(r_size) /\ r.(r_start) + r.(r_size) <= start + size /\
  r.(r_start) < start + 2 ^ 20 /\ start + size < r.(r_start) + r.(r_size) + 2 ^ 20.

(** A region of at least a megabyte is recorded as the largest range of whole
    megabytes inside it (or not at all if there is none), appended to the regions of the platform;
    the seventeenth region is dropped. *)
Theorem register_memory_region_aligned start size attr info :
  0 <= start -> 2 ^ 20 <= size -> start + size + 2 ^ 20 <= 2 ^ 32 ->
  length info.(region) = 16%nat -> 0 <= info.(region_nr) ->
  exists info', register_memory_region start size attr info = Some info' /\
    (info' = info \/
     exists r, info'.(region_nr) = info.(region_nr) + 1 /\ region_ok r start size /\
       r.(r_attr) = attr /\ info'.(region) = <[Z.to_nat info.(region_nr) := r]> info.(region)) /\
    (info.(region_nr) < 16 -> 2 ^ 21 <= size -> info' <> info).
Proof.
  intros Hs Hz Hb Hl Hn. unfold register_memory_region.
  change MEM_MAX_REGION with 16. destruct (Z.ltb_spec info.(region_nr) 16) as [Hlt|Hge].
  2:{ exists info. split; [done|]. split; [by left|]. lia. }
  change MM_SECTION_ALIGIN with (2 ^ 20). rewrite baligin_eq by lia.
  set (q := (start + 2 ^ 20 - 1) / 2 ^ 20).
  assert (Hq : 2 ^ 20 * q - 2 ^ 20 < start <= 2 ^ 20 * q).
  { unfold q. pose proof (Z.div_mod (start + 2 ^ 20 - 1) (2 ^ 20)).
    pose proof (Z.mod_pos_bound (start + 2 ^ 20 - 1) (2 ^ 20)). lia. }
  rewrite u32_sub_r, u32_small by lia.
  set (sz := size - (2 ^ 20 * q - start)). rewrite min_aligin_eq by (unfold sz; lia).
  set (k := sz / 2 ^ 20).
  assert (Hk : 2 ^ 20 * k <= sz < 2 ^ 20 * k + 2 ^ 20).
  { unfold k. pose proof (Z.div_mod sz (2 ^ 20)). pose proof (Z.mod_pos_bound sz (2 ^ 20)). lia. }
  rewrite is_aligin_eq, (Z.mul_comm (2 ^ 20) k), Z.mod_mul by lia. cbn [Z.eqb].
  unfold PAGE_SIZE. destruct (Z.leb_spec 4096 (k * 2 ^ 20)) as [Hp|Hp].
  - rewrite aset_Some by lia. cbn [mbind option_bind]. eexists. split; [done|]. split.
    + right. exists (Mk_region (2 ^ 20 * q) (k * 2 ^ 20) attr). split; [done|].
      split; [|by split]. unfold region_ok. cbn [r_start r_size].
      rewrite (Z.mul_comm (2 ^ 20) q), !Z.mod_mul by lia. unfold sz in *. lia.
    + intros _ _ E. apply (f_equal region_nr) in E. cbn in E. lia.
  - exists info. split; [done|]. split; [by left|]. unfold sz in *. lia.
Qed.

Definition no_info : platform_info := Mk_info (replicate 16 (Mk_region 0 0 UNKNOW_MEM)) 0.

Lemma register_memory_region_aligned_witness :
  exists info', register_memory_region 0x30000400 0x400000 0 no_info = Some info' /\
    (info' = no_info \/
     exists r, info'.(region_nr) = 0 + 1 /\ region_ok r 0x30000400 0x400000 /\
       r.(r_attr) = 0 /\ info'.(region) = <[Z.to_nat 0 := r]> no_info.(region)) /\
    (0 < 16 -> 2 ^ 21 <= 0x400000 -> info' <> no_info).
Proof. apply (register_memory_region_aligned 0x30000400 0x400000 0 no_info); simpl; lia. Defined.

(** A region smaller than the distance to the next megabyte wraps around: it is
    recorded with a size near 4G. *)
Theorem register_small_region_wraps :
  exists r, region <$> register_memory_region 0x30000400 0x100 0 no_info =
      Some (r :: replicate 15 (Mk_region 0 0 UNKNOW_MEM)) /\
    r = Mk_region 0x30100000 0xfff00000 0.
Proof. eexists. split; [|reflexivity]. vm_compute. reflexivity. Qed.

(** ** Sorting *)

Section sort.
Implicit Types (l : list memory_region) (i j nr : Z).

Definition key l i : Z := match aget l i with Some r => r.(r_start) | None => 0 end.

Lemma find_min_ok l nr i :
  0 <= i < nr -> nr <= Z.of_nat (length l) ->
  exists k, find_min l nr i = Some k /\ i <= k < nr /\ forall j, i <= j < nr -> key l k <= key l j.
Proof.
  intros Hi Hn. unfold find_min.
  destruct (for_range_inv (fun b k => i <= k < b /\ forall j, i <= j < b -> key l k <= key l j)
    (Z.to_nat (nr - (i + 1))) (i + 1) (fun j min =>
    a ← aget l min; b ← aget l j;
    Some (if Z.ltb b.(r_start) a.(r_start) then j else min)) i) as (k & E & Hk & Hmin).
  - split; [lia|]. intros j Hj. assert (j = i) as -> by lia. lia.
  - intros j k Hj [Hk Hmin]. destruct (aget_is_Some l k) as [a Ea]; [lia|].
    destruct (aget_is_Some l j) as [b Eb]; [lia|]. rewrite Ea, Eb. cbn [mbind option_bind].
    eexists. split; [done|].
    assert (Ka : key l k = a.(r_start)) by (unfold key; by rewrite Ea).
    assert (Kb : key l j = b.(r_start)) by (unfold key; by rewrite Eb).
    destruct (Z.ltb_spec b.(r_start) a.(r_start)) as [Hlt|Hge]; (split; [lia|]); intros x Hx;
      (destruct (Z.eq_dec x j) as [->|Hne]; [lia|]); specialize (Hmin x); lia.
  - exists k. rewrite E. replace (i + 1 + Z.of_nat (Z.to_nat (nr - (i + 1)))) with nr in * by lia.
    done.
Qed.

(** Exchanging two elements is a permutation. *)
Lemma insert_perm {A : Type} (l : list A) (k : nat) (a b : A) :
  l !! k = Some b -> b :: <[k := a]> l ≡ₚ a :: l.
Proof.
  revert k. induction l as [|c l IH]; intros [|k] E; simpl in *; try done.
  - injection E as ->. apply perm_swap.
  - rewrite perm_swap, IH by done. apply perm_swap.
Qed.

Lemma exchange_perm {A : Type} (l : list A) (i k : nat) (a b : A) :
  (i < k)%nat -> l !! i = Some a -> l !! k = Some b -> <[k := a]> (<[i := b]> l) ≡ₚ l.
Proof.
  revert i k. induction l as [|c l IH]; intros [|i] [|k] Hi Ea Eb; simpl in *; try done; try lia.
  - injection Ea as ->. by apply insert_perm.
  - constructor. apply IH; [lia|done|done].
Qed.

Lemma sort_body_ok l nr i :
  0 <= i < nr -> nr <= Z.of_nat (length l) ->
  exists l' k, sort_body nr i l = Some l' /\ l' ≡ₚ l /\ length l' = length l /\
    i <= k < nr /\ (forall j, i <= j < nr -> key l k <= key l j) /\
    forall j, aget l' j = if Z.eqb j i then aget l k else if Z.eqb j k then aget l i else aget l j.
Proof.
  intros Hi Hn. destruct (find_min_ok l nr i Hi Hn) as (k & E & Hk & Hmin).
  unfold sort_body. rewrite E. cbn [mbind option_bind].
  destruct (aget_is_Some l i) as [a Ea]; [lia|]. destruct (aget_is_Some l k) as [b Eb]; [lia|].
  destruct (Z.eqb_spec k i) as [->|Hne]; cbn [negb].
  { exists l, i. split; [done|]. split; [done|]. split; [done|]. split; [lia|]. split; [done|].
    intros j. by destruct (Z.eqb_spec j i) as [->|]. }
  rewrite Ea, Eb. cbn [mbind option_bind].
  destruct (aset l i b) as [l1|] eqn:E1; [|by rewrite aset_Some in E1 by lia].
  pose proof (aset_length _ _ _ _ E1) as Hl1. cbn [mbind option_bind].
  destruct (aset l1 k a) as [l2|] eqn:E2; [|by rewrite aset_Some in E2 by lia].
  pose proof (aset_length _ _ _ _ E2) as Hl2.
  exists l2, k. split; [done|]. split.
  { apply aset_inv in E1 as [_ ->], E2 as [_ ->].
    apply aget_Some in Ea as [_ Ea], Eb as [_ Eb]. apply exchange_perm; [lia|done|done]. }
  split; [lia|]. split; [lia|]. split; [done|]. intros j.
  destruct (Z.eqb_spec j i) as [->|Hji]; [|destruct (Z.eqb_spec j k) as [->|Hjk]].
  - rewrite (aget_aset_ne _ _ _ _ _ E2) by lia. by rewrite (aget_aset_eq _ _ _ _ E1).
  - by rewrite (aget_aset_eq _ _ _ _ E2).
  - rewrite (aget_aset_ne _ _ _ _ _ E2) by lia. by rewrite (aget_aset_ne _ _ _ _ _ E1) by lia.
Qed.

Definition sorted_upto l nr i : Prop := forall x y, 0 <= x < i -> x <= y < nr -> key l x <= key l y.

Lemma sort_regions_ok l nr :
  0 <= nr <= Z.of_nat (length l) ->
  exists l', sort_regions l nr = Some l' /\ l' ≡ₚ l /\ sorted_upto l' nr nr /\
    forall j, nr <= j -> aget l' j = aget l j.
Proof.
  intros Hn.
  destruct (for_range_inv (fun i l' => l' ≡ₚ l /\ length l' = length l /\ sorted_upto l' nr i /\
    forall j, nr <= j -> aget l' j = aget l j) (Z.to_nat nr) 0 (sort_body nr) l)
    as (l' & E & Hp & Hl & Hs & Ho).
  - split; [done|]. split; [done|]. split; [|done]. intros x y Hx. lia.
  - intros i l1 Hi (Hp & Hl & Hs & Ho).
    destruct (sort_body_ok l1 nr i) as (l2 & k & E & Hp2 & Hl2 & Hk & Hmin & Hg); [lia|lia|].
    exists l2. split; [done|]. split; [by rewrite Hp2|]. split; [lia|].
    assert (Hkey : forall j, key l2 j =
      if Z.eqb j i then key l1 k else if Z.eqb j k then key l1 i else key l1 j).
    { intros j. unfold key at 1. rewrite Hg. by destruct (Z.eqb j i), (Z.eqb j k). }
    split.
    + intros x y Hx Hy. rewrite !Hkey.
      destruct (Z.eqb_spec x i) as [->|Hxi].
      * destruct (Z.eqb_spec y i); [lia|]. destruct (Z.eqb_spec y k); [apply Hmin; lia|].
        apply Hmin. lia.
      * destruct (Z.eqb_spec x k); [lia|]. destruct (Z.eqb_spec y i); [apply Hs; lia|].
        destruct (Z.eqb_spec y k); apply Hs; lia.
    + intros j Hj. rewrite Hg. destruct (Z.eqb_spec j i); [lia|]. destruct (Z.eqb_spec j k); [lia|].
      by apply Ho.
  - exists l'. rewrite Z.add_0_l, Z2Nat.id in Hs by lia. done.
Qed.
End sort.

(** The selection sort of [handle_platform_memory_region] terminates and permutes
    the regions so that the registered ones are in order of their start, leaving the
    unused entries where they are. *)
Theorem sort_regions_sorts l nr :
  0 <= nr <= Z.of_nat (length l) ->
  exists l', sort_regions l nr = Some l' /\ l' ≡ₚ l /\
    (forall x y a b, 0 <= x <= y -> y < nr -> aget l' x = Some a -> aget l' y = Some b ->
       a.(r_start) <= b.(r_start)) /\
    forall j, nr <= j -> aget l' j = aget l j.
Proof.
  intros Hn. destruct (sort_regions_ok l nr Hn) as (l' & E & Hp & Hs & Ho). exists l'.
  split; [done|]. split; [done|]. split; [|done]. intros x y a b Hx Hy Ea Eb.
  specialize (Hs x y). unfold key in Hs. rewrite Ea, Eb in Hs. apply Hs; lia.
Qed.

Lemma sort_regions_sorts_witness :
  let l := [Mk_region 0x48000000 1 3; Mk_region 0x30000000 2 0; Mk_region 0x40000000 3 0; null_region] in
  exists l', sort_regions l 3 = Some l' /\ l' ≡ₚ l /\
    (forall x y a b, 0 <= x <= y -> y < 3 -> aget l' x = Some a -> aget l' y = Some b ->
       a.(r_start) <= b.(r_start)) /\
    forall j, 3 <= j -> aget l' j = aget l j.
Proof. intros l. apply (sort_regions_sorts l 3). simpl. lia. Defined.

(** ** The page table *)

Section page_map.
Context {L : Type}.
Implicit Types (s : mm_state L) (z : mm_zone).

(** The pages the kernel image, [_page_table] and [_page_map] occupy. *)
Definition kernel_pages (kernel_start kernel_end total : Z) : Z :=
  baligin ((page_table_layout kernel_end total).2 -u kernel_start) PAGE_SIZE >>u PAGE_SHIFT.

Record pages_marked (ks off n : Z) s s' : Prop := {
  pm_bank : s'.(bank) = s.(bank);
  pm_locks : s'.(locks) = s.(locks);
  pm_maplen : length s'.(page_map) = length s.(page_map);
  pm_words : Forall is_u32 s'.(page_map);
  pm_bits : forall i, bit_at s'.(page_map) i = in_run 0 n i || bit_at s.(page_map) i;
  pm_tablen : length s'.(page_table) = length s.(page_table);
  pm_pages : forall i, aget s'.(page_table) i =
    if in_run 0 n i then kernel_page ks off i <$> aget s.(page_table) i else aget s.(page_table) i
}.

Lemma in_run_succ n i : 0 <= n -> in_run 0 (n + 1) i = Z.eqb i n || in_run 0 n i.
Proof.
  intros Hn. unfold in_run.
  destruct (Z.eqb_spec i n), (Z.leb_spec 0 i), (Z.ltb_spec i (0 + (n + 1))),
    (Z.ltb_spec i (0 + n)); simpl; try lia; done.
Qed.

Lemma init_kernel_page_ok ks off n s s1 :
  bm_ok s.(page_map) (n + 1) -> 0 <= n < Z.of_nat (length s.(page_table)) ->
  pages_marked ks off n s s1 ->
  exists s2, init_kernel_page ks off n s1 = Some s2 /\ pages_marked ks off (n + 1) s s2.
Proof.
  intros [Hw Hb] Hn [Hbank Hlocks Hml Hwd Hbits Htl Hpg]. unfold init_kernel_page.
  destruct (set_bit_some s1.(page_map) n) as (bm & E & Hl & Hf & Hbit);
    [split; [done|rewrite Hml; lia]|lia|].
  rewrite E. cbn [mbind option_bind].
  destruct (aget_is_Some s1.(page_table) n) as [k Ek]; [lia|].
  unfold upd_page. cbn [page_table with_plists with_page_map].
  rewrite (aupd_Some _ _ _ _ Ek). cbn [mbind option_bind]. eexists. split; [done|].
  constructor; cbn [bank locks page_map page_table with_page_table with_plists with_page_map].
  - done.
  - done.
  - lia.
  - done.
  - intros i. rewrite Hbit, Hbits, in_run_succ by lia. by destruct (Z.eqb i n).
  - by rewrite length_insert.
  - intros i. rewrite in_run_succ by lia.
    assert (Ea : aset s1.(page_table) n (kernel_page ks off n k) =
      Some (<[Z.to_nat n := kernel_page ks off n k]> s1.(page_table))) by (apply aset_Some; lia).
    destruct (Z.eqb_spec i n) as [->|Hne]; cbn [orb].
    + rewrite (aget_aset_eq _ _ _ _ Ea). rewrite Hpg in Ek. unfold in_run in Ek.
      rewrite (proj2 (Z.ltb_ge n (0 + n))), andb_false_r in Ek by lia. by rewrite Ek.
    + rewrite (aget_aset_ne _ _ _ _ _ Ea) by lia. apply Hpg.
Qed.

Lemma mark_pages_ok ks off n s :
  bm_ok s.(page_map) n -> 0 <= n <= Z.of_nat (length s.(page_table)) ->
  exists s', for_range (Z.to_nat n) 0 (init_kernel_page ks off) s = Some s' /\
    pages_marked ks off n s s'.
Proof.
  intros Hb Hn.
  destruct (for_range_inv (fun i s' => pages_marked ks off i s s') (Z.to_nat n) 0
    (init_kernel_page ks off) s) as (s' & E & H).
  - assert (Hr : forall i, in_run 0 0 i = false).
    { intros i. unfold in_run. destruct (Z.leb_spec 0 i), (Z.ltb_spec i (0 + 0)); done || lia. }
    constructor; try done.
    + apply Hb.
    + intros i. by rewrite Hr.
    + intros i. by rewrite Hr.
  - intros j s1 Hj Hm. apply init_kernel_page_ok; [|lia|done].
    eapply bm_ok_le; [done|lia].
  - exists s'. split; [done|]. by rewrite Z.add_0_l, Z2Nat.id in H by lia.
Qed.

Lemma baligin_up x k :
  0 <= k < 32 -> 0 <= x -> x + 2 ^ k <= 2 ^ 32 ->
  baligin x (2 ^ k) mod 2 ^ k = 0 /\ x <= baligin x (2 ^ k) < x + 2 ^ k.
Proof.
  intros Hk Hx Hb. assert (0 < 2 ^ k) by (apply Z.pow_pos_nonneg; lia).
  rewrite baligin_eq by lia. pose proof (Z.div_mod (x + 2 ^ k - 1) (2 ^ k)).
  pose proof (Z.mod_pos_bound (x + 2 ^ k - 1) (2 ^ k)). split; [|lia].
  rewrite Z.mul_comm. apply Z.mod_mul. lia.
Qed.

Lemma bits_to_long_range n : 0 <= n < 2 ^ 31 -> 1 <= bits_to_long n <= n / 32 + 1.
Proof.
  intros Hn. rewrite bits_to_long_eq by done. pose proof (Z.div_mod n 64).
  pose proof (Z.mod_pos_bound n 64). pose proof (Z.div_pos n 64).
  assert (2 * (n / 64) <= n / 32) by (apply Z.div_le_lower_bound; lia). lia.
Qed.

(** The tables lie after the kernel one after the other, and the pages counted cover
    everything up to their end. *)
Lemma kernel_pages_cover ks ke total :
  0 <= ks <= ke -> 0 <= total < 2 ^ 20 -> ke + 28 * total + 2 ^ 13 <= 2 ^ 32 ->
  let '(table, map, tmp) := page_table_layout ke total in
  ke <= table /\ table + 24 * total <= map /\ tmp = map + 4 * bits_to_long total /\
  0 < tmp - ks <= kernel_pages ks ke total * PAGE_SIZE /\
  (kernel_pages ks ke total - 1) * PAGE_SIZE < tmp - ks.
Proof.
  intros Hk Ht Hb. pose proof (bits_to_long_range total) as Hl.
  assert (total / 32 <= total) by (apply Z.div_le_upper_bound; lia).
  unfold kernel_pages, page_table_layout, SIZEOF_PAGE. cbn [snd].
  destruct (baligin_up ke 2) as [_ Ht1]; [lia|lia|lia|]. change (2 ^ 2) with 4 in Ht1.
  set (table := baligin ke 4) in *. rewrite (u32_small (24 * total)), (u32_small (table + _)) by lia.
  destruct (baligin_up (table + 24 * total) 2) as [_ Ht2]; [lia|lia|lia|]. change (2 ^ 2) with 4 in Ht2.
  set (map := baligin (table + 24 * total) 4) in *.
  rewrite (u32_small (4 * bits_to_long total)), (u32_small (map + _)), u32_small by lia.
  split; [lia|]. split; [lia|]. split; [done|].
  set (sz := map + 4 * bits_to_long total - ks) in *. unfold PAGE_SIZE, PAGE_SHIFT.
  destruct (baligin_up sz 12) as [Hm Ht3]; [lia|unfold sz; lia|unfold sz; lia|].
  change (2 ^ 12) with 4096 in *. rewrite Z.shiftr_div_pow2 by lia. change (2 ^ 12) with 4096.
  pose proof (Z.div_mod (baligin sz 4096) 4096). unfold sz in *. lia.
Qed.

Lemma baligin_mult x k :
  0 <= k < 32 -> baligin x (2 ^ k) = (baligin x (2 ^ k) >>u k) * 2 ^ k.
Proof.
  intros Hk. assert (0 < 2 ^ k) by (apply Z.pow_pos_nonneg; lia).
  assert (Hm : baligin x (2 ^ k) mod 2 ^ k = 0).
  { unfold baligin. rewrite u32_sub_l, land_lnot_mask by (try apply u32_range; lia).
    rewrite Z.mul_comm. apply Z.mod_mul. lia. }
  pose proof (Z.div_mod (baligin x (2 ^ k)) (2 ^ k)). rewrite Z.shiftr_div_pow2 by lia. lia.
Qed.

Lemma kernel_bytes ks ke total :
  baligin ((page_table_layout ke total).2 -u ks) PAGE_SIZE = kernel_pages ks ke total * PAGE_SIZE.
Proof. unfold kernel_pages. generalize ((page_table_layout ke total).2 -u ks). intros x.
  apply (baligin_mult x 12). lia.
Qed.

Lemma kernel_pages_end ks ke total :
  0 <= ks <= ke -> 0 <= total < 2 ^ 20 -> ke + 28 * total + 2 ^ 13 <= 2 ^ 32 ->
  0 < kernel_pages ks ke total /\
  (page_table_layout ke total).2 <= ks + kernel_pages ks ke total * PAGE_SIZE.
Proof.
  intros Hk Ht Hb. pose proof (kernel_pages_cover ks ke total Hk Ht Hb) as Hcov. revert Hcov.
  generalize (kernel_pages ks ke total). intros n.
  destruct (page_table_layout ke total) as [[table map] tmp]. cbn [snd]. unfold PAGE_SIZE in *. lia.
Qed.

Lemma get_zone_eq i s l : s.(bank).(zone) = l -> get_zone i s = aget l i.
Proof. intros E. unfold get_zone. by rewrite E. Qed.

Lemma upd_zone_eq i f s l z :
  s.(bank).(zone) = l -> aget l i = Some z ->
  upd_zone i f s = Some (with_bank (with_zone (<[Z.to_nat i := f z]> l) s.(bank)) s).
Proof.
  intros E Hz. unfold upd_zone, set_zone. rewrite (get_zone_eq i s l E), Hz. cbn [mbind option_bind].
  rewrite E, aset_Some by (by eapply aget_lt). done.
Qed.

(** The state [init_page_table_map] starts from: four zones, a page structure for
    each page, and a kernel section at [ks]. *)
Record boot_ready (ks ke off : Z) (z0 z1 z2 z3 : mm_zone) s : Prop := {
  br_zones : s.(bank).(zone) = [z0; z1; z2; z3];
  br_table : s.(bank).(total_page) = Z.of_nat (length s.(page_table));
  br_total : 0 <= s.(bank).(total_page) < 2 ^ 20;
  br_ks : 0 <= ks <= ke;
  br_fits : ke + 28 * s.(bank).(total_page) + 2 ^ 13 <= 2 ^ 32;
  br_off : kernel_pv_offset ks z0 = Some off;
  br_pages : kernel_pages ks ke s.(bank).(total_page) <= s.(bank).(total_page);
  br_words : kernel_pages ks ke s.(bank).(total_page) <= 32 * bits_to_long s.(bank).(total_page)
}.

(** The zones afterwards: consecutive ranges of page numbers, the kernel's pages
    deducted from the first. *)
Definition boot_zone0 (n : Z) (z : mm_zone) : mm_zone :=
  set_bounds 0 n z.(page_num)
    (with_z_free_pages (z.(z_free_pages) -u n)
      (with_z_free_size (z.(z_free_size) -u (n * PAGE_SIZE)) z)).

Lemma kernel_pv_offset_ext ks z z' :
  sections_of z' = sections_of z -> kernel_pv_offset ks z' = kernel_pv_offset ks z.
Proof.
  intros E. unfold kernel_pv_offset. rewrite (section_loop_ext _ _ _ _ _ E).
  injection E as _ ->. done.
Qed.

(** [init_page_table_map] reserves exactly the pages that hold the kernel image,
    the page structures and the page map itself: in the new page map bit [i] is set
    precisely for those pages, their structures get their physical address and a
    reference count of 1, no other structure changes, and the normal, DMA and
    reserved zones become consecutive ranges of page numbers with the search
    position of the first after the kernel and the reserved pages deducted from
    its free pages. *)
Theorem init_page_table_map_reserves ks ke off z0 z1 z2 z3 s :
  boot_ready ks ke off z0 z1 z2 z3 s ->
  let total := s.(bank).(total_page) in
  let n := kernel_pages ks ke total in
  exists s', init_page_table_map ks ke s = Some s' /\
    s'.(bank).(zone) =
      [boot_zone0 n z0;
       set_bounds z0.(page_num) z0.(page_num) (z0.(page_num) +u z1.(page_num)) z1;
       set_bounds (z0.(page_num) +u z1.(page_num)) (z0.(page_num) +u z1.(page_num))
         ((z0.(page_num) +u z1.(page_num)) +u z2.(page_num)) z2; z3] /\
    length s'.(page_map) = Z.to_nat (bits_to_long total) /\ Forall is_u32 s'.(page_map) /\
    (forall i, bit_at s'.(page_map) i = in_run 0 n i) /\
    length s'.(page_table) = length s.(page_table) /\
    (forall i, aget s'.(page_table) i =
       if in_run 0 n i then kernel_page ks off i <$> aget s.(page_table) i
       else aget s.(page_table) i) /\
    s'.(locks) = s.(locks) /\ s'.(bank).(total_page) = total /\
    (page_table_layout ke total).2 <= ks + n * PAGE_SIZE.
Proof.
  intros [Hz Htb Htot Hks Hfit Hoff Hpg Hwd] total n.
  fold total in Htb, Htot, Hfit, Hpg, Hwd. fold n in Hpg, Hwd.
  destruct (kernel_pages_end ks ke total Hks Htot Hfit) as [Hn Hend].
  pose proof (kernel_bytes ks ke total) as Hby. fold n in Hn, Hend, Hby. clearbody n.
  assert (Etot : s.(bank).(total_page) = total) by done. clearbody total.
  unfold init_page_table_map. rewrite Etot, Hby. generalize dependent (page_table_layout ke total).
  intros lay Hend _.
  replace (n * PAGE_SIZE >>u PAGE_SHIFT) with n
    by (unfold PAGE_SHIFT; rewrite Z.shiftr_div_pow2 by lia; symmetry; by apply Z.div_mul).
  set (zz := with_z_free_pages (z0.(z_free_pages) -u n)
      (with_z_free_size (z0.(z_free_size) -u (n * PAGE_SIZE)) z0)).
  pose proof (bits_to_long_range total ltac:(lia)) as Hl.
  assert (total / 32 <= total) by (apply Z.div_le_upper_bound; lia).
  set (s0 := with_page_map (replicate (Z.to_nat (bits_to_long total)) 0) s).
  rewrite (upd_zone_eq MM_ZONE_NORMAL _ s0 [z0; z1; z2; z3] z0 Hz) by done.
  rewrite bind_Some_eq. fold zz. change (<[Z.to_nat MM_ZONE_NORMAL := zz]> [z0; z1; z2; z3])
    with [zz; z1; z2; z3].
  set (s1 := with_bank _ s0).
  destruct (mark_pages_ok ks off n s1) as (s2 & E & [M1 M2 M3 M4 M5 M6 M7]).
  { cbn [page_map s1 s0 with_bank with_page_map]. split; [|rewrite length_replicate; lia].
    apply Forall_replicate. unfold is_u32. lia. }
  { cbn [page_table s1 s0 with_bank with_page_map]. lia. }
  rewrite (get_zone_eq MM_ZONE_NORMAL s1 [zz; z1; z2; z3]) by done.
  change (aget [zz; z1; z2; z3] MM_ZONE_NORMAL) with (Some zz). rewrite bind_Some_eq.
  assert (Ezz : kernel_pv_offset ks zz = Some off)
    by (rewrite <- Hoff; apply kernel_pv_offset_ext; reflexivity).
  rewrite Ezz, bind_Some_eq.
  rewrite E. rewrite bind_Some_eq.
  assert (Hz2 : s2.(bank).(zone) = [zz; z1; z2; z3]) by (by rewrite M1).
  rewrite (upd_zone_eq MM_ZONE_NORMAL _ s2 _ zz Hz2) by done. rewrite bind_Some_eq.
  change (<[Z.to_nat MM_ZONE_NORMAL := _]> [zz; z1; z2; z3]) with [boot_zone0 n z0; z1; z2; z3].
  set (s3 := with_bank _ s2).
  rewrite (get_zone_eq MM_ZONE_DMA s3 [boot_zone0 n z0; z1; z2; z3]) by done.
  change (aget [boot_zone0 n z0; z1; z2; z3] MM_ZONE_DMA) with (Some z1). rewrite bind_Some_eq.
  rewrite (upd_zone_eq MM_ZONE_DMA _ s3 [boot_zone0 n z0; z1; z2; z3] z1) by done. rewrite bind_Some_eq.
  set (s4 := with_bank _ s3).
  rewrite (get_zone_eq MM_ZONE_RES s4 (<[Z.to_nat MM_ZONE_DMA := _]> [boot_zone0 n z0; z1; z2; z3]) eq_refl).
  change (aget (<[Z.to_nat MM_ZONE_DMA := _]> [boot_zone0 n z0; z1; z2; z3]) MM_ZONE_RES) with (Some z2).
  rewrite bind_Some_eq.
  rewrite (upd_zone_eq MM_ZONE_RES _ s4 _ z2 eq_refl) by done.
  eexists. split; [done|].
  split; [done|]. split; [cbn; rewrite M3; cbn; by rewrite length_replicate|].
  split; [done|]. split.
  { intros i. cbn -[bit_at in_run]. rewrite M5. cbn -[bit_at in_run].
    by rewrite bit_at_zeros, orb_false_r. }
  split; [exact M6|]. split; [exact M7|]. split; [exact M2|].
  split; [cbn; rewrite M1; exact Etot|exact Hend].
Qed.
End page_map.

(** ** Where the code departs from its intent *)

(** When a section fits the DMA zone it is cleared in place and the count of sections
    reduced, so the last section of the normal zone is lost: here the 5M section, which
    the zone's total still includes. *)
Theorem carve_dma_loses_section :
  let z := with_nr_section 3 (with_z_total_size 0x2800000 (with_memory_section
    [Mk_section 0x30000000 0 0x2000000 0 0; Mk_section 0x40000000 0 0x300000 0 0;
     Mk_section 0x50000000 0 0x500000 0 0; init_memory_section]
    (Mk_zone [] 0 0 0 0 0 0 0 0))) in
  exists r z', carve_dma z 0 = Some (r, z') /\ r = Mk_region 0x40000000 0x300000 DMA_MEM /\
    z'.(nr_section) = 2 /\ aget z'.(memory_section) 1 = Some init_memory_section /\
    aget z'.(memory_section) 2 = Some (Mk_section 0x50000000 0 0x500000 0 0) /\
    (shrink_zone r.(r_size) z').(z_total_size) = 0x2500000.
Proof. eexists _, _. split; [vm_compute; reflexivity|]. repeat split. Qed.
