(* ===== verification/Tq2440.v ===== *)
(** * Booting on the tq2440 board

    [mm_init] on the regions that [tq2440_parse_memory_region] registers, from the
    zeroed memory bank of the program image: the layout of the zones, the address
    space that results and the state in which the page allocator starts. *)

From S2P Require Import Prelude ListHead TaskStruct Bitops Mem CString MmTypes Pages PagesInv Mmu.
From S2P Require Import MmuThms MmBoot MmBootThms KernelLocks.

(** ** The bank, the same for every kernel image *)

Definition bss_zone : mm_zone :=
  Mk_zone (replicate 4 init_memory_section) 0 0 0 0 0 0 0 0.
Definition bss_bank : mm_bank := Mk_bank 0 0 0 (replicate 4 bss_zone).

Definition tq_start : Z := 0x80000000.
Definition tq_phy : Z := 0x30000000.

Definition tq_regions : platform_info :=
  Mk_info ([Mk_region 0x30000000 0x4000000 NORMAL_MEM; Mk_region 0x48000000 0x13000000 IO_MEM] ++
           replicate 14 (Mk_region 0 0 UNKNOW_MEM)) 2.

Definition tq_zone (sections : list mm_section) (nr size : Z) : mm_zone :=
  Mk_zone (sections ++ replicate (4 - length sections) init_memory_section) nr size size
    (size / 4096) (size / 4096) 0 0 0.

(** 60M of normal memory with the kernel, 4M for DMA carved from its end, no
    reserved memory and 304M of device registers. *)
Definition normal_section : mm_section := Mk_section 0x30000000 0x80000000 0x3c00000 0x50000000 1.
Definition dma_section : mm_section := Mk_section 0x33c00000 0x83c00000 0x400000 0x50000000 1.
Definition io_section : mm_section := Mk_section 0x48000000 0x84000000 0x13000000 0x3c000000 1.
Definition tq_normal : mm_zone := tq_zone [normal_section] 1 0x3c00000.
Definition tq_dma : mm_zone := tq_zone [dma_section] 1 0x400000.
Definition tq_res : mm_zone := tq_zone [] 0 0.
Definition tq_io : mm_zone := tq_zone [io_section] 1 0x13000000.
Definition tq_zones : list mm_zone := [tq_normal; tq_dma; tq_res; tq_io].

Definition tq_bank : mm_bank := Mk_bank 0x4000000 0x4000 2 tq_zones.

Lemma tq_parse info : tq2440_parse_memory_region (init_platform_memory_region info) = Some tq_regions.
Proof. reflexivity. Qed.

Definition tq_handled : mm_bank := Mk_bank 0x4000000 0 0
  [tq_zone [Mk_section 0x30000000 0 0x3c00000 0 0] 1 0x3c00000;
   tq_zone [Mk_section 0x33c00000 0 0x400000 0 0] 1 0x400000;
   tq_zone [] 0 0;
   tq_zone [Mk_section 0x48000000 0 0x13000000 0 0] 1 0x13000000].

Lemma tq_handle :
  handle_platform_memory_region tq_regions (Mk_bank 0 0 0 (init_zone <$> bss_bank.(zone))) =
  Some (tq_regions, tq_handled).
Proof. vm_compute. reflexivity. Qed.

Lemma tq_map_zones :
  map_zone_memory tq_start tq_phy
    (with_total_page (tq_handled.(b_total_size) >>u PAGE_SHIFT)
      (with_total_section tq_regions.(region_nr) tq_handled)) = Some (0x97000000, tq_bank).
Proof. vm_compute. reflexivity. Qed.

(** ** The address space *)

(** The kernel's half of the address space: 64M of memory and the registers. *)
Definition tq_space (m : mem) : Prop :=
  (forall va, 0x80000000 <= va < 0x84000000 -> maps m va (va - 0x50000000)) /\
  (forall va, 0x84000000 <= va < 0x97000000 -> maps m va (va - 0x3c000000)).

(** The same, and every user address unmapped. *)
Definition tq_mapped (m : mem) : Prop :=
  tq_space m /\ forall va, 0 <= va < 0x80000000 -> load32 (get_tlb_base + 4 * (va / 2 ^ 20)) m = Some 0.

Lemma tq_mapped_walk m kva va : tq_mapped m ->
  (0x80000000 <= va < 0x84000000 -> mmu_walk kva m va = Some (va - 0x50000000)) /\
  (0x84000000 <= va < 0x97000000 -> mmu_walk kva m va = Some (va - 0x3c000000)) /\
  (0 <= va < 0x80000000 -> mmu_walk kva m va = None).
Proof.
  intros [[H1 H2] H3]. split; [|split]; intros Hva.
  - by apply maps_walk, H1.
  - by apply maps_walk, H2.
  - apply zero_entry_faults; [lia|by apply H3].
Qed.

Lemma tq_mapped_same m m' :
  (forall va, 0 <= va < 0xfff00000 -> same_entry m m' va) -> tq_mapped m -> tq_mapped m'.
Proof.
  intros Hs [[H1 H2] H3]. split; [split|]; intros va Hva.
  - apply (maps_same m); [apply Hs; lia|by apply H1].
  - apply (maps_same m); [apply Hs; lia|by apply H2].
  - rewrite Hs by lia. by apply H3.
Qed.

(** Mapping one section.  The section at [kernel_start] is first mapped once more,
    [already_map] bytes lower. *)
Lemma map_memory_section_ok ks a flag x n m :
  is_section_flag flag -> 0 <= x.(vir_start) -> x.(vir_start) mod 2 ^ 20 = 0 ->
  x.(vir_start) + n * 2 ^ 20 <= 2 ^ 32 -> 0 <= x.(phy_start) -> x.(phy_start) mod 2 ^ 20 = 0 ->
  x.(phy_start) + n * 2 ^ 20 <= 2 ^ 32 -> 0 < n < 2 ^ 11 -> x.(sec_size) = n * 2 ^ 20 ->
  (x.(vir_start) = ks -> exists k, a = k * 2 ^ 20 /\ 0 <= k < n /\ a <= x.(vir_start) /\
     a <= x.(phy_start)) ->
  room m get_tlb_base FIRST_LEVEL ->
  exists m', map_memory_section ks a flag x m = Some m' /\
    (forall va, x.(vir_start) <= va < x.(vir_start) + n * 2 ^ 20 ->
       maps m' va (x.(phy_start) + (va - x.(vir_start)))) /\
    (forall va, x.(vir_start) + n * 2 ^ 20 <= va < 2 ^ 32 -> same_entry m m' va) /\
    (forall va, 0 <= va < x.(vir_start) -> x.(vir_start) <> ks -> same_entry m m' va) /\
    tlb_frame m m'.
Proof.
  intros Hf Hv Hva Hvn Hp Hpa Hpn Hn Hsz Hk Hr.
  assert (H1 : exists m1, (if Z.eqb x.(vir_start) ks then
      build_tlb_table_entry (x.(vir_start) -u a) (x.(phy_start) -u a) (s32 (x.(sec_size) - a)) flag m
      else Some (0, m)) = Some (0, m1) /\ tlb_frame m m1 /\
      (forall va, x.(vir_start) + n * 2 ^ 20 <= va < 2 ^ 32 -> same_entry m m1 va) /\
      (forall va, 0 <= va < x.(vir_start) -> x.(vir_start) <> ks -> same_entry m m1 va)).
  { destruct (Z.eqb_spec x.(vir_start) ks) as [Eks|Eks]; [|by exists m].
    destruct (Hk Eks) as (k & -> & Hk1 & Hk2 & Hk3). rewrite Hsz.
    rewrite !u32_small, s32_small by lia.
    replace (n * 2 ^ 20 - k * 2 ^ 20) with ((n - k) * 2 ^ 20) by lia.
    destruct (build_sections_map (x.(vir_start) - k * 2 ^ 20) (x.(phy_start) - k * 2 ^ 20) (n - k) flag m)
      as (m1 & E & _ & Hs & Hro); try done; try lia.
    { rewrite Zminus_mod, Hva, Z.mod_mul by lia. done. }
    { rewrite Zminus_mod, Hpa, Z.mod_mul by lia. done. }
    exists m1. split; [done|]. split; [done|]. split; [|done].
    intros va Hva'. apply Hs; lia. }
  destruct H1 as (m1 & E1 & Hr1 & Hs1 & Hs2). unfold map_memory_section. rewrite E1, bind_Some_eq.
  rewrite Hsz, s32_small by lia.
  destruct (build_sections_map x.(vir_start) x.(phy_start) n flag m1) as (m2 & -> & Hm & Hs & Hro); try done.
  { by apply (proj1 Hr1). }
  rewrite bind_Some_eq. exists m2. split; [done|]. split; [done|]. split; [|split; [|by etrans]].
  - intros va Hva'. unfold same_entry. rewrite Hs by lia. by apply Hs1.
  - intros va Hva' Hne. unfold same_entry. rewrite Hs by lia. by apply Hs2.
Qed.

Lemma tq_already be :
  tq_start < be <= 0x80e00000 ->
  exists k, baligin (be -u tq_start) 0x100000 = k * 2 ^ 20 /\ 0 <= k < 60.
Proof.
  unfold tq_start. intros Hb. rewrite u32_small by lia.
  destruct (baligin_up (be - 0x80000000) 20) as [Hm Hu]; [lia|lia|lia|].
  change 0x100000 with (2 ^ 20). pose proof (Z.div_mod (baligin (be - 0x80000000) (2 ^ 20)) (2 ^ 20)).
  exists (baligin (be - 0x80000000) (2 ^ 20) / 2 ^ 20). lia.
Qed.

Lemma map_one_section ks a flag z x m m' :
  z.(nr_section) = 1 -> aget z.(memory_section) 0 = Some x ->
  map_memory_section ks a flag x m = Some m' ->
  for_range (Z.to_nat z.(nr_section)) 0 (fun j m =>
    x ← aget z.(memory_section) j; map_memory_section ks a flag x m) m = Some m'.
Proof.
  intros En Ex E. rewrite En. change (Z.to_nat 1) with 1%nat. cbn [for_range].
  by rewrite Ex, !bind_Some_eq, E, bind_Some_eq.
Qed.

Lemma tq_map_memory be m :
  tq_start < be <= 0x80e00000 -> room m get_tlb_base FIRST_LEVEL ->
  exists m', map_memory tq_start be tq_bank m = Some m' /\ tq_space m' /\ tlb_frame m m'.
Proof.
  intros Hb Hr. destruct (tq_already be Hb) as (k & Ek & Hk). unfold map_memory. rewrite Ek.
  destruct (map_memory_section_ok tq_start (k * 2 ^ 20) (zone_tlb_flag 0) normal_section 60 m)
    as (m1 & E1 & M1 & S1 & _ & R1);
    [by left|by cbn|done|by cbn|by cbn|done|by cbn|lia|done|by exists k; cbn; lia|done|].
  destruct (map_memory_section_ok tq_start (k * 2 ^ 20) (zone_tlb_flag 1) dma_section 4 m1)
    as (m2 & E2 & M2 & S2 & T2 & R2);
    [by right; left|by cbn|done|by cbn|by cbn|done|by cbn|lia|done|done|by apply (proj1 R1)|].
  destruct (map_memory_section_ok tq_start (k * 2 ^ 20) (zone_tlb_flag 3) io_section 304 m2)
    as (m3 & E3 & M3 & S3 & T3 & R3);
    [by right; right|by cbn|done|by cbn|by cbn|done|by cbn|lia|done|done|by apply (proj1 R2), (proj1 R1)|].
  cbn [vir_start phy_start normal_section dma_section io_section] in M1, S1, M2, S2, T2, M3, S3, T3.
  exists m3. split; [|split; [split|by do 2 (etrans; [done|])]].
  - change (Z.to_nat MM_ZONE_UNKNOW) with 4%nat. cbn [for_range].
    change (aget tq_bank.(zone) 0) with (Some tq_normal).
    rewrite bind_Some_eq, (map_one_section _ _ _ _ normal_section m m1), bind_Some_eq by done.
    change (aget tq_bank.(zone) (0 + 1)) with (Some tq_dma).
    rewrite bind_Some_eq, (map_one_section _ _ _ _ dma_section m1 m2), bind_Some_eq by done.
    change (aget tq_bank.(zone) (0 + 1 + 1)) with (Some tq_res).
    rewrite bind_Some_eq. change (Z.to_nat tq_res.(nr_section)) with 0%nat. cbn [for_range].
    rewrite bind_Some_eq. change (aget tq_bank.(zone) (0 + 1 + 1 + 1)) with (Some tq_io).
    by rewrite bind_Some_eq, (map_one_section _ _ _ _ io_section m2 m3), bind_Some_eq by done.
  - intros va Hva. apply (maps_same m2); [apply T3; [lia|done]|].
    destruct (Z_lt_le_dec va 0x83c00000).
    + apply (maps_same m1); [apply T2; [lia|done]|].
      replace (va - 0x50000000) with (0x30000000 + (va - 0x80000000)) by lia. apply M1. lia.
    + replace (va - 0x50000000) with (0x33c00000 + (va - 0x83c00000)) by lia. apply M2. lia.
  - intros va Hva. replace (va - 0x3c000000) with (0x48000000 + (va - 0x84000000)) by lia.
    apply M3. lia.
Qed.

(** ** The page allocator's initial state *)

Section boot.
Context {L : Type} {LC : LockCalls L} {LO : LockOps L} (init_lock : Z -> L -> L) (zone_mutex : Z -> Z).
Implicit Types (s : mm_state L).

Lemma tq_kernel_pages be :
  tq_start < be <= 0x80e00000 -> 0 < kernel_pages tq_start be 0x4000 < 0x3c00.
Proof.
  unfold tq_start. intros Hb.
  pose proof (kernel_pages_cover 0x80000000 be 0x4000 ltac:(lia) ltac:(lia) ltac:(lia)) as Hc.
  change (page_table_layout be 0x4000) with (baligin be 4,
    baligin (baligin be 4 +u 393216) 4, baligin (baligin be 4 +u 393216) 4 +u 2052) in Hc.
  destruct Hc as (H1 & H2 & H3 & H4 & H5).
  destruct (baligin_up be 2) as [_ Hu1]; [lia|lia|lia|]. change (2 ^ 2) with 4 in Hu1.
  rewrite (u32_small (baligin be 4 + 393216)) in H2, H3, H4, H5 by lia.
  destruct (baligin_up (baligin be 4 + 393216) 2) as [_ Hu2]; [lia|lia|lia|]. change (2 ^ 2) with 4 in Hu2.
  rewrite u32_small in H4, H5 by lia. revert H4 H5. unfold PAGE_SIZE.
  generalize (kernel_pages 0x80000000 be 0x4000). intros n H4 H5. lia.
Qed.

Lemma tq_boot_ready be s :
  tq_start < be <= 0x80e00000 -> s.(bank) = tq_bank -> length s.(page_table) = Z.to_nat 0x4000 ->
  boot_ready tq_start be 0x50000000 tq_normal tq_dma tq_res tq_io s.
Proof.
  intros Hb Hbk Hl. pose proof (tq_kernel_pages be Hb) as Hn.
  constructor; rewrite ?Hbk; cbn [bank total_page tq_bank zone].
  - done.
  - rewrite Hl. lia.
  - lia.
  - unfold tq_start in *. lia.
  - unfold tq_start in *. lia.
  - reflexivity.
  - lia.
  - change (bits_to_long 0x4000) with 513. lia.
Qed.

(** The run of [mm_init], with what it leaves to the rest of the start-up. *)
Lemma tq_mm_init be info s m :
  tq_start < be <= 0x80e00000 -> s.(bank) = bss_bank -> length s.(page_table) = Z.to_nat 0x4000 ->
  room m get_tlb_base FIRST_LEVEL ->
  exists s' m', mm_init init_lock zone_mutex tq2440_parse_memory_region tq_start tq_phy be info s m =
      Some (tq_regions, s', m') /\
    let n := kernel_pages tq_start be 0x4000 in
    (0 < n < 0x3c00 /\ (forall i, bit_at s'.(page_map) i = in_run 0 n i) /\
     get_zone MM_ZONE_NORMAL s' = Some (boot_zone0 n tq_normal) /\
     get_zone MM_ZONE_DMA s' = Some (set_bounds 0x3c00 0x3c00 0x4000 tq_dma)) /\
    (lk_free s'.(locks) (zone_mutex MM_ZONE_NORMAL) ->
     zone_ready zone_mutex MM_ZONE_NORMAL (boot_zone0 n tq_normal) s') /\
    tq_mapped m' /\
    s'.(locks) = (init_memory_bank init_lock zone_mutex s).(locks) /\ tlb_frame m m' /\
    length s'.(page_table) = length s.(page_table) /\ length s'.(page_map) = 513%nat /\
    s'.(bank).(zone) = [boot_zone0 (kernel_pages tq_start be 0x4000) tq_normal;
      set_bounds 0x3c00 0x3c00 0x4000 tq_dma; set_bounds 0x4000 0x4000 0x4000 tq_res; tq_io] /\
    Forall is_u32 s'.(page_map).
Proof.
  intros Hb Hbk Hl Hr. pose proof (tq_kernel_pages be Hb) as Hn.
  destruct (tq_map_memory be m Hb Hr) as (m1 & E1 & [Hs1 Hs2] & Hr1).
  destruct (clear_user_entries m1) as (m2 & E2 & Hc & Hk & Hr2).
  { by apply (proj1 Hr1). }
  set (s0 := init_memory_bank init_lock zone_mutex s).
  destruct (init_page_table_map_reserves tq_start be 0x50000000 tq_normal tq_dma tq_res tq_io
    (with_bank tq_bank s0)) as (s' & E3 & Hz & Hml & Hw & Hbits & Htl & Hpg & Hlk & Htp & _).
  { apply tq_boot_ready; done. }
  exists s', m2. split.
  { unfold mm_init. rewrite tq_parse, bind_Some_eq. cbv zeta. fold s0.
    assert (Hz0 : s0.(bank) = Mk_bank 0 0 0 (init_zone <$> bss_bank.(zone)))
      by (unfold s0, init_memory_bank; by rewrite Hbk).
    rewrite Hz0, tq_handle, bind_Some_eq. cbv beta iota. rewrite tq_map_zones, bind_Some_eq.
    cbv beta iota. rewrite E1, bind_Some_eq, E3, bind_Some_eq. unfold clear_user_tlb.
    by rewrite E2, bind_Some_eq. }
  cbn [bank with_bank total_page tq_bank] in *. set (n := kernel_pages tq_start be 0x4000) in *.
  assert (Hz0 : get_zone MM_ZONE_NORMAL s' = Some (boot_zone0 n tq_normal)) by (unfold get_zone; by rewrite Hz).
  assert (Hz1 : get_zone MM_ZONE_DMA s' = Some (set_bounds 0x3c00 0x3c00 0x4000 tq_dma))
    by (unfold get_zone; by rewrite Hz).
  split; [done|]. split.
  - intros Hf. constructor.
    + done.
    + unfold MM_ZONE_NORMAL, NORMAL_MEM, MM_ZONE_UNKNOW. lia.
    + change (bm_end (boot_zone0 n tq_normal)) with 0x3c00.
      change (bm_start (boot_zone0 n tq_normal)) with 0. change (bm_current (boot_zone0 n tq_normal)) with n. lia.
    + change (bm_end (boot_zone0 n tq_normal)) with 0x3c00. split; [done|]. rewrite Hml. change (bits_to_long 16384) with 513. lia.
    + change (bm_end (boot_zone0 n tq_normal)) with 0x3c00. rewrite Htl. cbn. rewrite Hl. lia.
    + split; [by rewrite Hz|]. intros i z Ez. unfold get_zone in Ez. rewrite Hz in Ez.
      pose proof (aget_lt _ _ _ Ez) as Hlt. cbn in Hlt.
      assert (Ei : i = 0 \/ i = 1 \/ i = 2 \/ i = 3) by lia.
      destruct Ei as [->|[->|[->| ->]]]; injection Ez as <-; cbn; lia.
    + done.
    + change (z_free_pages (boot_zone0 n tq_normal)) with (0x3c00 -u n). rewrite u32_small; lia.
  - split; [split; [split|]; intros va Hva|].
    + apply (maps_same m1); [apply Hk; lia|by apply Hs1].
    + apply (maps_same m1); [apply Hk; lia|by apply Hs2].
    + apply Hc. lia.
    + split; [done|]. split; [by etrans|]. split; [done|]. split; [by rewrite Hml|]. split; [|done].
      rewrite Hz. reflexivity.
Qed.

(** C19. On the tq2440, [mm_init] from the zeroed bank succeeds for every kernel image
    that ends within the first 14M of memory.  Afterwards (1) the pages marked used
    are exactly those of the image and the page tables, and the normal and DMA zones
    own the page numbers [0, 15360) and [15360, 16384); (2) the normal zone satisfies
    what the page allocator requires; (3) the architecture's walk translates the
    64M of memory and the 304M of registers linearly, and every user address
    faults. *)
Theorem tq2440_boots be info s m :
  tq_start < be <= 0x80e00000 -> s.(bank) = bss_bank -> length s.(page_table) = Z.to_nat 0x4000 ->
  room m get_tlb_base FIRST_LEVEL ->
  exists s' m', mm_init init_lock zone_mutex tq2440_parse_memory_region tq_start tq_phy be info s m =
      Some (tq_regions, s', m') /\
    let n := kernel_pages tq_start be 0x4000 in
    (0 < n < 0x3c00 /\ (forall i, bit_at s'.(page_map) i = in_run 0 n i) /\
     get_zone MM_ZONE_NORMAL s' = Some (boot_zone0 n tq_normal) /\
     get_zone MM_ZONE_DMA s' = Some (set_bounds 0x3c00 0x3c00 0x4000 tq_dma)) /\
    (lk_free s'.(locks) (zone_mutex MM_ZONE_NORMAL) ->
     zone_ready zone_mutex MM_ZONE_NORMAL (boot_zone0 n tq_normal) s') /\
    (forall kva va,
       (0x80000000 <= va < 0x84000000 -> mmu_walk kva m' va = Some (va - 0x50000000)) /\
       (0x84000000 <= va < 0x97000000 -> mmu_walk kva m' va = Some (va - 0x3c000000)) /\
       (0 <= va < 0x80000000 -> mmu_walk kva m' va = None)).
Proof.
  intros Hb Hbk Hl Hr. destruct (tq_mm_init be info s m Hb Hbk Hl Hr) as (s' & m' & E & H1 & H2 & H3 & _).
  exists s', m'. do 2 (split; [done|]). split; [done|]. intros kva va. by apply tq_mapped_walk.
Qed.
End boot.

Definition tq_memory : mm_state unit :=
  Mk_mm bss_bank (replicate (Z.to_nat 0x4000) (Mk_page 0 0 0 0 0 0)) [] ∅ tt.

Lemma tq2440_boots_witness :
  exists s' m', mm_init (fun _ l => l) id tq2440_parse_memory_region tq_start tq_phy 0x80040000
      (Mk_info [] 0) tq_memory table_mem = Some (tq_regions, s', m') /\
    let n := kernel_pages tq_start 0x80040000 0x4000 in
    (0 < n < 0x3c00 /\ (forall i, bit_at s'.(page_map) i = in_run 0 n i) /\
     get_zone MM_ZONE_NORMAL s' = Some (boot_zone0 n tq_normal) /\
     get_zone MM_ZONE_DMA s' = Some (set_bounds 0x3c00 0x3c00 0x4000 tq_dma)) /\
    (@lk_free unit _ _ s'.(locks) (id MM_ZONE_NORMAL) ->
     @zone_ready unit _ _ id MM_ZONE_NORMAL (boot_zone0 n tq_normal) s') /\
    (forall kva va,
       (0x80000000 <= va < 0x84000000 -> mmu_walk kva m' va = Some (va - 0x50000000)) /\
       (0x84000000 <= va < 0x97000000 -> mmu_walk kva m' va = Some (va - 0x3c000000)) /\
       (0 <= va < 0x80000000 -> mmu_walk kva m' va = None)).
Proof.
  apply (@tq2440_boots unit _ _ (fun _ l => l) id 0x80040000 (Mk_info [] 0) tq_memory table_mem).
  - unfold tq_start. lia.
  - reflexivity.
  - apply length_replicate.
  - exact table_room.
Defined.

(** ** Where the code departs from its intent *)

(** The bound of a section in [va_get_pv_offset] is inclusive: the first register
    address is taken for the end of the DMA section. *)
Theorem first_register_has_wrong_offset (s : mm_state unit) :
  s.(bank) = tq_bank ->
  va_get_pv_offset io_section.(vir_start) s = Some dma_section.(pv_offset) /\
  io_section.(pv_offset) <> dma_section.(pv_offset).
Proof.
  intros E. unfold va_get_pv_offset.
  assert (H : zone_loop 5 (in_va io_section.(vir_start)) 0 s =
    zone_loop 5 (in_va io_section.(vir_start)) 0 (Mk_mm tq_bank [] [] ∅ tt)).
  { apply zone_loop_ext. intros j. unfold get_zone. by rewrite E. }
  rewrite H. split; [vm_compute; reflexivity|done].
Qed.
