(* ===== verification/Slab.v ===== *)
(** * The slab allocator

    Models [mm/slab.c].  A slice of memory has a header, a [struct slab_header]
    identified by its address; [headers] holds its [base] and [size], and its list
    node is a node of the page heap, with the anchors of the size lists and of the
    header table.  Pages, page structures and locks belong to the page allocator
    ([Pages]), on which every operation is built.  Null pointers to pages are [None],
    null memory addresses are 0. *)

From S2P Require Import Prelude ListHead TaskStruct Bitops Mem CString MmTypes Pages.

(** ** Data *)

Record slab_header : Type := Mk_header {
  h_base : Z;
  h_size : Z
}.

Record slab_state (L : Type) : Type := Mk_slab {
  mm : mm_state L;
  slab_page_current : option Z;
  table_page_current : option Z;
  table_total_pages : Z;
  page_current : Z;
  header_in_page : Z;
  headers : gmap Z slab_header
}.

Arguments Mk_slab {L} _ _ _ _ _ _ _.
Arguments mm {L} _.
Arguments slab_page_current {L} _.
Arguments table_page_current {L} _.
Arguments table_total_pages {L} _.
Arguments page_current {L} _.
Arguments header_in_page {L} _.
Arguments headers {L} _.

Definition with_mm {L : Type} (v : mm_state L) (x : slab_state L) : slab_state L :=
  Mk_slab v x.(slab_page_current) x.(table_page_current) x.(table_total_pages)
    x.(page_current) x.(header_in_page) x.(headers).
Definition with_slab_page_current {L : Type} (v : option Z) (x : slab_state L) : slab_state L :=
  Mk_slab x.(mm) v x.(table_page_current) x.(table_total_pages)
    x.(page_current) x.(header_in_page) x.(headers).
Definition with_table {L : Type} (pg : option Z) (total cur inp : Z) (x : slab_state L) : slab_state L :=
  Mk_slab x.(mm) x.(slab_page_current) pg total cur inp x.(headers).
Definition with_header_in_page {L : Type} (v : Z) (x : slab_state L) : slab_state L :=
  Mk_slab x.(mm) x.(slab_page_current) x.(table_page_current) x.(table_total_pages)
    x.(page_current) v x.(headers).
Definition with_headers {L : Type} (v : gmap Z slab_header) (x : slab_state L) : slab_state L :=
  Mk_slab x.(mm) x.(slab_page_current) x.(table_page_current) x.(table_total_pages)
    x.(page_current) x.(header_in_page) v.

(** [sizeof(struct slab_header)]: two words and a list head. *)
Definition SLAB_HEADER_SIZE : Z := 16.
Definition SLAB_MIN : Z := 16.
Definition SLAB_STEP : Z := 16.
Definition SLAB_NODE : Z := (PAGE_SIZE - SLAB_HEADER_SIZE) / SLAB_MIN.

Definition list_id (size : Z) : Z := Z.shiftr size 4 - 1.

Definition get_new_alloc_size (size flag : Z) : Z :=
  if truth (flag &u GFP_DMA) || truth (flag &u GFP_RES) then s32 (baligin (u32 size) PAGE_SIZE)
  else s32 (baligin (u32 size) SLAB_STEP).

Section slab.
Context {L : Type} {LC : LockCalls L} {LO : LockOps L}.
Variable kernel_start : Z.
Variable zone_mutex : Z -> Z.
(** The address of [pslab->slab_mutex]. *)
Variable slab_mutex : Z.

Implicit Types (s : slab_state L) (pg h size flag addr : Z).

(** ** Access to the parts of the state *)

Definition lift_mm (f : mm_state L -> option (mm_state L)) s : option (slab_state L) :=
  t ← f s.(mm); Some (with_mm t s).

Definition lift_heap (f : lheap node -> option (lheap node)) s : option (slab_state L) :=
  h ← f s.(mm).(plists); Some (with_mm (with_plists h s.(mm)) s).

Definition page_of (pg : Z) s : option page := get_page_struct pg s.(mm).

Definition set_page (pg : Z) (f : page -> page) s : option (slab_state L) := lift_mm (upd_page pg f) s.

(** An element of [pslab->list]: the array has [SLAB_NODE] entries. *)
Definition slab_list (i : Z) : option node :=
  if Z.leb 0 i && Z.ltb i SLAB_NODE then Some (SlabList i) else None.

(** [list_first_entry]: the header that contains the first node of a list. *)
Definition first_header (hd : node) s : option Z :=
  n ← list_next s.(mm).(plists) hd;
  match n with SlabHeaderPlist h => Some h | _ => None end.

(** ** Headers *)

Definition add_slab_header_to_page (pg h : Z) s : option (slab_state L) :=
  lift_heap (list_add (PagePlist pg) (SlabHeaderPlist h)) s.

Definition add_slab_header_to_list (h : Z) s : option (slab_state L) :=
  x ← s.(headers) !! h;
  l ← slab_list (list_id x.(h_size));
  lift_heap (list_add l (SlabHeaderPlist h)) s.

(** With [dir = SLAB_TO_PAGE], the only use. *)
Definition header_list_switch (h pg : Z) s : option (slab_state L) :=
  s1 ← lift_heap (list_del (SlabHeaderPlist h)) s;
  lift_heap (list_add (PagePlist pg) (SlabHeaderPlist h)) s1.

Definition init_slab_header (h size base : Z) s : option (slab_state L) :=
  lift_heap (fun p => Some (init_list (SlabHeaderPlist h) p))
    (with_headers (<[h := Mk_header base size]> s.(headers)) s).

Definition get_slab_header_from_page (pg : Z) s : option (Z * slab_state L) :=
  k ← page_of pg s;
  s1 ← set_page pg (fun k =>
         with_pg_free_size (u16 (k.(pg_free_size) - SLAB_HEADER_SIZE))
           (with_free_base (k.(free_base) +u SLAB_HEADER_SIZE) k)) s;
  s2 ← lift_mm (page_get pg) s1;
  Some (k.(free_base), s2).

(** The last part of [get_new_slab_header]: a new page for headers. *)
Definition get_header_page s : option (option Z * slab_state L) :=
  '(base, t) ← get_free_page kernel_start zone_mutex GFP_SLAB_HEADER s.(mm);
  let s := with_mm t s in
  if Z.eqb base 0 then Some (None, s)
  else
    let pg := va_to_page kernel_start base in
    s1 ← set_page pg (fun k =>
           with_pg_free_size (u16 PAGE_SIZE) (with_free_base (page_to_va kernel_start pg) k)) s;
    s2 ← lift_heap (list_add SlabTableList (PagePlist pg)) s1;
    let total := s2.(table_total_pages) + 1 in
    let s3 := with_table (Some pg) total (total - 1) 1 s2 in
    '(h, s4) ← get_slab_header_from_page pg s3;
    Some (Some h, s4).

Definition get_new_slab_header s : option (option Z * slab_state L) :=
  e ← is_list_empty s.(mm).(plists) SlabFreeHeader;
  if negb e then
    h ← first_header SlabFreeHeader s;
    s1 ← lift_heap (list_del (SlabHeaderPlist h)) s;
    Some (Some h, s1)
  else
    match s.(table_page_current) with
    | Some pg =>
        if Z.ltb (u32 s.(header_in_page)) (PAGE_SIZE / SLAB_HEADER_SIZE) then
          '(h, s1) ← get_slab_header_from_page pg (with_header_in_page (s.(header_in_page) + 1) s);
          Some (Some h, s1)
        else get_header_page s
    | None => get_header_page s
    end.

(** ** Slices *)

(** Carves [size] bytes off the free part of a page, with header [h]. *)
Definition carve (h pg size : Z) s : option (slab_state L) :=
  k ← page_of pg s;
  s1 ← init_slab_header h size k.(free_base) s;
  s2 ← set_page pg (fun k =>
         with_free_base (k.(free_base) +u u32 size)
           (with_pg_free_size (u16 (k.(pg_free_size) - size)) k)) s1;
  s3 ← add_slab_header_to_page pg h s2;
  lift_mm (page_get pg) s3.

Definition get_slab_from_page (pg size : Z) s : option (option Z * slab_state L) :=
  '(r, s1) ← get_new_slab_header s;
  match r with
  | None => Some (None, s1)
  | Some h => s2 ← carve h pg size s1; Some (Some h, s2)
  end.

(** A null header from [get_slab_from_page] is dereferenced. *)
Definition update_slab_free_page (pg : Z) s : option (slab_state L) :=
  k ← page_of pg s;
  '(new, old) ← (match s.(slab_page_current) with
    | None => Some (pg, None)
    | Some cur =>
        c ← page_of cur s;
        Some (if Z.ltb c.(pg_free_size) k.(pg_free_size) then (pg, Some cur) else (cur, Some pg))
    end);
  let s1 := with_slab_page_current (Some new) s in
  match old with
  | None => Some s1
  | Some o =>
      ko ← page_of o s1;
      if Z.ltb 16 ko.(pg_free_size) then
        '(r, s2) ← get_slab_from_page o ko.(pg_free_size) s1;
        h ← r; add_slab_header_to_list h s2
      else Some s1
  end.

(** ** Release of headers and slices *)

(** [addr] is used as the address of a header. *)
Definition kfree_header_slab (pg addr : Z) s : option (slab_state L) :=
  s1 ← lift_heap (list_del (SlabHeaderPlist addr)) s;
  s2 ← lift_heap (list_add SlabFreeHeader (SlabHeaderPlist addr)) s1;
  lift_mm (page_put kernel_start zone_mutex pg) s2.

(** The search for the slice of a page that starts at [addr]. *)
Fixpoint find_slice (fuel : nat) (hd cur : node) addr s : option (option Z) :=
  match fuel with
  | O => None
  | S fuel' =>
      if bool_decide (cur = hd) then Some None
      else
        match cur with
        | SlabHeaderPlist h =>
            x ← s.(headers) !! h;
            if Z.eqb x.(h_base) addr then Some (Some h)
            else
              nx ← list_next s.(mm).(plists) cur;
              find_slice fuel' hd nx addr s
        | _ => None
        end
  end.

Definition kfree_slice_slab (pg addr : Z) s : option (slab_state L) :=
  first ← list_next s.(mm).(plists) (PagePlist pg);
  r ← find_slice (S (base.size s.(mm).(plists))) (PagePlist pg) first addr s;
  match r with
  | Some h =>
      s1 ← lift_heap (list_del (SlabHeaderPlist h)) s;
      s2 ← add_slab_header_to_list h s1;
      lift_mm (page_put kernel_start zone_mutex pg) s2
  | None => Some s
  end.

(** [free_pages(pg)]: the address of the page structure is passed, not the page's;
    [page_struct_va] is that address. *)
Variable page_struct_va : Z -> Z.

Definition kfree_page_slab (pg : Z) s : option (slab_state L) :=
  k ← page_of pg s;
  let last_page := pg + k.(pg_count) in
  s1 ← lift_mm (free_pages kernel_start zone_mutex (page_struct_va pg)) s;
  kfree_slice_slab last_page (page_to_va kernel_start last_page) s1.

(** ** Allocation *)

(** One round of [repet]: [inl] is the result, [inr] repeats. *)
Definition get_slab_in_list_body (hd : node) s : option ((Z + unit) * slab_state L) :=
  e ← is_list_empty s.(mm).(plists) hd;
  if e : bool then Some (inl 0, s)
  else
    h ← first_header hd s;
    x ← s.(headers) !! h;
    b ← page_state (va_to_page_id kernel_start x.(h_base)) s.(mm);
    if negb (truth b) then
      s1 ← kfree_header_slab (va_to_page kernel_start x.(h_base)) x.(h_base) s;
      Some (inr tt, s1)
    else
      s1 ← header_list_switch h (va_to_page kernel_start x.(h_base)) s;
      Some (inl x.(h_base), s1).

Fixpoint get_slab_in_list_loop (fuel : nat) (hd : node) s : option (Z * slab_state L) :=
  match fuel with
  | O => None
  | S fuel' =>
      '(r, s1) ← get_slab_in_list_body hd s;
      match r with
      | inl x => Some (x, s1)
      | inr _ => get_slab_in_list_loop fuel' hd s1
      end
  end.

Definition get_slab_in_list size flag s : option (Z * slab_state L) :=
  if negb (truth (flag &u GFP_KERNEL)) then Some (0, s)
  else
    hd ← slab_list (list_id size);
    get_slab_in_list_loop (S (base.size s.(mm).(plists))) hd s.

Definition get_slab_from_page_free size flag s : option (Z * slab_state L) :=
  match s.(slab_page_current) with
  | None => Some (0, s)
  | Some pg =>
      b ← page_state (page_to_page_id pg) s.(mm);
      if negb (truth b) then Some (0, with_slab_page_current None s)
      else
        k ← page_of pg s;
        if Z.ltb k.(pg_free_size) size then Some (0, s)
        else
          '(r, s1) ← get_new_slab_header s;
          match r with
          | None => Some (0, s1)
          | Some h =>
              k1 ← page_of pg s1;
              s2 ← carve h pg size s1; Some (k1.(free_base), s2)
          end
  end.

Definition get_kernel_slab size flag s : option (Z * slab_state L) :=
  if is_aligin (u32 size) PAGE_SIZE then
    '(r, t) ← get_free_pages kernel_start zone_mutex (s32 (page_nr (u32 size))) flag s.(mm);
    Some (r, with_mm t s)
  else
    let count := s32 (page_nr (u32 size)) in
    let leave_size := size - (count - 1) * PAGE_SIZE in
    '(base, t) ← get_free_pages kernel_start zone_mutex count flag s.(mm);
    let s := with_mm t s in
    if Z.eqb base 0 then Some (0, s)
    else
      let endp := base +u u32 ((count - 1) * PAGE_SIZE) in
      s1 ← (if Z.ltb 1 count then
              set_page (va_to_page kernel_start base) (fun k =>
                with_free_base (u32 leave_size) (with_pg_count (u8 (k.(pg_count) - 1)) k)) s
            else Some s);
      let pg := va_to_page kernel_start endp in
      s2 ← set_page pg (fun k =>
             with_pg_usage (u8 (k.(pg_usage) - 1)) (with_pg_flag (k.(pg_flag) |u F_GFP_SLAB) k)) s1;
      '(_, s3) ← get_slab_from_page pg leave_size s2;
      s4 ← update_slab_free_page pg s3;
      Some (base, s4).

Definition get_new_slab size flag s : option (Z * slab_state L) :=
  if Z.eqb flag GFP_DMA || Z.eqb flag GFP_RES then
    '(r, t) ← get_free_pages kernel_start zone_mutex (s32 (page_nr (u32 size))) flag s.(mm);
    Some (r, with_mm t s)
  else get_kernel_slab size flag s.

Definition lock_slab s : option (slab_state L) :=
  l ← lk_lock slab_mutex s.(mm).(locks); Some (with_mm (with_locks l s.(mm)) s).
Definition unlock_slab s : option (slab_state L) :=
  l ← lk_unlock slab_mutex s.(mm).(locks); Some (with_mm (with_locks l s.(mm)) s).

(** The body of [__kmalloc] between lock and unlock. *)
Definition kmalloc_locked size flag s : option (Z * slab_state L) :=
  let new_size := get_new_alloc_size size flag in
  if Z.eqb flag GFP_DMA || Z.eqb flag GFP_RES || Z.leb PAGE_SIZE size then
    get_new_slab new_size flag s
  else
    '(r, s1) ← get_slab_in_list new_size flag s;
    if truth r then Some (r, s1)
    else
      '(r, s2) ← get_slab_from_page_free new_size flag s1;
      if truth r then Some (r, s2) else get_new_slab new_size flag s2.

Definition do_kmalloc size flag s : option (Z * slab_state L) :=
  s1 ← lock_slab s;
  '(ret, s2) ← kmalloc_locked size flag s1;
  s3 ← unlock_slab s2;
  Some (ret, s3).

Definition kmalloc size flag s : option (Z * slab_state L) :=
  if Z.leb size 0 then Some (0, s)
  else if negb (Z.eqb flag GFP_KERNEL) && negb (Z.eqb flag GFP_DMA) && negb (Z.eqb flag GFP_RES)
  then Some (0, s)
  else do_kmalloc size flag s.

(** [kmalloc] followed by [memset], also when [kmalloc] failed. *)
Definition kzalloc size flag s (m : mem) : option (Z * slab_state L * mem) :=
  '(ret, s1) ← kmalloc size flag s;
  m1 ← memset ret 0 size m;
  Some (ret, s1, m1).

(** ** Release *)

Definition kfree_kernel_mem addr s : option (slab_state L) :=
  s1 ← lock_slab s;
  let pg := va_to_page kernel_start addr in
  k ← page_of pg s1;
  if truth (k.(pg_flag) &u F_GFP_SLAB) then
    s2 ← kfree_slice_slab pg addr s1; unlock_slab s2
  else if negb (is_aligin addr PAGE_SIZE) then Some s1
  else s2 ← kfree_page_slab pg s1; unlock_slab s2.

Definition kfree_user_mem (addr : Z) s : option (slab_state L) := Some s.

Definition kfree addr s : option (slab_state L) :=
  if negb (Z.eqb addr 0) then
    if Z.ltb addr SIZE_1G then kfree_kernel_mem addr s else kfree_user_mem addr s
  else Some s.

(** ** Initialisation *)

Definition slab_init (init_lock : Z -> L -> L) s : option (slab_state L) :=
  s1 ← for_range (Z.to_nat SLAB_NODE) 0
         (fun i s => lift_heap (fun p => Some (init_list (SlabList i) p)) s) s;
  let s2 := with_mm (with_locks (init_lock slab_mutex s1.(mm).(locks)) s1.(mm)) s1 in
  s3 ← lift_heap (fun p => Some (init_list SlabFreeHeader (init_list SlabTableList p))) s2;
  Some (with_table None 0 (-1) (-1) s3).
End slab.

(** The allocator implements the interface of its clients. *)
Definition slab_kmalloc {L : Type} {LC : LockCalls L} (kernel_start : Z) (zone_mutex : Z -> Z)
    (slab_mutex : Z) (page_struct_va : Z -> Z) : KmallocOps (slab_state L) := {|
  ka_kmalloc := kmalloc kernel_start zone_mutex slab_mutex;
  ka_kfree := kfree kernel_start zone_mutex slab_mutex page_struct_va;
  ka_free_null := fun s => eq_refl
|}.
