(* ===== verification/SlabThms.v ===== *)
(** * Properties of the slab allocator *)

From S2P Require Import Prelude ListHead TaskStruct Bitops Mem CString MmTypes Pages PagesInv Mmu.
From S2P Require Import MmuThms MmBoot MmBootThms KernelLocks Slab.

Section slab.
Context {L : Type} {LC : LockCalls L} {LO : LockOps L} (kernel_start : Z) (zone_mutex : Z -> Z) (slab_mutex : Z)
  (page_struct_va : Z -> Z).
Implicit Types (s : slab_state L) (pg h size flag addr : Z) (l : list Z).

(** ** The slices of a page

    [slab_page s pg l]: the headers [l] hang off the page [pg], their slices lie in the
    allocated part of the page and do not overlap, and the free part is the rest. *)

Definition slice_in (lo hi : Z) (x : slab_header) : Prop :=
  0 < x.(h_size) /\ lo <= x.(h_base) /\ x.(h_base) + x.(h_size) <= hi.

Definition apart (x y : slab_header) : Prop := disjoint x.(h_base) x.(h_size) y.(h_base) y.(h_size).

Record slab_page s pg l (k : page) : Prop := {
  sp_list : is_list s.(mm).(plists) (PagePlist pg) (SlabHeaderPlist <$> l);
  sp_page : page_of pg s = Some k;
  sp_free : 0 <= k.(pg_free_size) < 2 ^ 16 /\ 0 <= page_to_va kernel_start pg <= k.(free_base) /\
    k.(free_base) + k.(pg_free_size) = page_to_va kernel_start pg + PAGE_SIZE /\
    page_to_va kernel_start pg + PAGE_SIZE < 2 ^ 32;
  sp_slices : forall h, h ∈ l -> exists x, s.(headers) !! h = Some x /\
    slice_in (page_to_va kernel_start pg) k.(free_base) x;
  sp_apart : forall h1 h2 x1 x2, h1 ∈ l -> h2 ∈ l -> h1 <> h2 ->
    s.(headers) !! h1 = Some x1 -> s.(headers) !! h2 = Some x2 -> apart x1 x2
}.

Lemma set_page_ok pg f s k :
  page_of pg s = Some k ->
  set_page pg f s = Some (with_mm (with_page_table (<[Z.to_nat pg := f k]> s.(mm).(page_table)) s.(mm)) s).
Proof.
  intros E. unfold set_page, lift_mm, upd_page. unfold page_of, get_page_struct in E.
  by rewrite (aupd_Some _ _ _ _ E), !bind_Some_eq.
Qed.

Lemma page_of_set pg f s s' j k :
  page_of pg s = Some k -> set_page pg f s = Some s' ->
  page_of j s' = if Z.eqb j pg then Some (f k) else page_of j s.
Proof.
  intros E Es. rewrite (set_page_ok pg f s k E) in Es. injection Es as <-.
  unfold page_of, get_page_struct in *. cbn [mm with_mm page_table with_page_table].
  pose proof (aset_Some s.(mm).(page_table) pg (f k) (aget_lt _ _ _ E)) as Ea.
  destruct (Z.eqb_spec j pg) as [->|Hne]; [by apply (aget_aset_eq _ _ _ _ Ea)|].
  by apply (aget_aset_ne _ _ _ _ _ Ea).
Qed.

(** The page after [size] bytes are carved from it. *)
Definition carved (size : Z) (k : page) : page :=
  with_pg_usage (u8 (k.(pg_usage) + 1))
    (with_free_base (k.(free_base) +u u32 size) (with_pg_free_size (u16 (k.(pg_free_size) - size)) k)).

Record carves s s' pg h size (k : page) : Prop := {
  cv_pages : forall j, page_of j s' = if Z.eqb j pg then Some (carved size k) else page_of j s;
  cv_headers : s'.(headers) = <[h := Mk_header k.(free_base) size]> s.(headers);
  cv_map : s'.(mm).(page_map) = s.(mm).(page_map);
  cv_bank : s'.(mm).(bank) = s.(mm).(bank);
  cv_locks : s'.(mm).(locks) = s.(mm).(locks);
  cv_tablen : length s'.(mm).(page_table) = length s.(mm).(page_table);
  cv_current : s'.(slab_page_current) = s.(slab_page_current) /\
    s'.(table_page_current) = s.(table_page_current) /\ s'.(header_in_page) = s.(header_in_page);
  cv_lists : forall (n : node) (l : list node), is_list s.(mm).(plists) (PagePlist pg) l -> n <> SlabHeaderPlist h ->
    n ∉ PagePlist pg :: l -> s'.(mm).(plists) !! n = s.(mm).(plists) !! n
}.

Lemma is_list_det (h : lheap node) (hd : node) (l1 l2 : list node) : is_list h hd l1 -> is_list h hd l2 -> l1 = l2.
Proof.
  intros [Hn1 Hc1] [Hn2 Hc2].
  assert (G : forall x (l1 l2 : list node), chain h x l1 hd -> chain h x l2 hd -> hd ∉ l1 -> hd ∉ l2 -> l1 = l2).
  { clear. intros x l1. revert x. induction l1 as [|a l1 IH]; intros x [|b l2] H1 H2 N1 N2; try done.
    - destruct H1 as [E1 _], H2 as [[E2 _] _]. rewrite E1 in E2. injection E2 as ->. set_solver.
    - destruct H2 as [E2 _], H1 as [[E1 _] _]. rewrite E1 in E2. injection E2 as ->. set_solver.
    - destruct H1 as [[E1 _] H1], H2 as [[E2 _] H2]. rewrite E1 in E2. injection E2 as ->.
      f_equal. apply (IH b); [done|done|set_solver|set_solver]. }
  apply (G hd); [done|done| |].
  - by apply NoDup_cons in Hn1 as [? _].
  - by apply NoDup_cons in Hn2 as [? _].
Qed.

Lemma page_get_lift pg s :
  lift_mm (page_get pg) s = set_page pg (fun k => with_pg_usage (u8 (k.(pg_usage) + 1)) k) s.
Proof. done. Qed.

Lemma carve_run h pg size s l k :
  is_list s.(mm).(plists) (PagePlist pg) (SlabHeaderPlist <$> l) -> page_of pg s = Some k -> h ∉ l ->
  exists s', carve h pg size s = Some s' /\
    is_list s'.(mm).(plists) (PagePlist pg) (SlabHeaderPlist <$> h :: l) /\ carves s s' pg h size k.
Proof.
  intros Hl Hp Hh. unfold carve. rewrite Hp, bind_Some_eq.
  unfold init_slab_header, lift_heap. rewrite !bind_Some_eq.
  set (hp := init_list (SlabHeaderPlist h) s.(mm).(plists)).
  set (s1 := with_mm _ _).
  assert (Hp1 : page_of pg s1 = Some k) by done.
  destruct (set_page pg (fun k => with_free_base (k.(free_base) +u u32 size)
    (with_pg_free_size (u16 (k.(pg_free_size) - size)) k)) s1) as [s2|] eqn:E2;
    [|by rewrite (set_page_ok pg _ s1 k Hp1) in E2].
  pose proof (page_of_set pg _ s1 s2 pg k Hp1 E2) as Hp2. rewrite Z.eqb_refl in Hp2.
  pose proof (fun j => page_of_set pg _ s1 s2 j k Hp1 E2) as Hj2.
  rewrite (set_page_ok pg _ s1 k Hp1) in E2. injection E2 as E2. rewrite bind_Some_eq.
  assert (Hl2 : is_list s2.(mm).(plists) (PagePlist pg) (SlabHeaderPlist <$> l)).
  { rewrite <- E2. apply (is_list_frame s.(mm).(plists)); [|done]. intros n Hn.
    cbn [mm with_mm plists with_page_table s1 with_plists]. unfold hp, init_list.
    apply lookup_insert_ne. intros <-. apply elem_of_cons in Hn as [|Hn]; [done|].
    apply list_elem_of_fmap in Hn as (y & [= ->] & Hy). done. }
  unfold add_slab_header_to_page, lift_heap.
  destruct (list_add_spec _ _ _ (SlabHeaderPlist h) Hl2) as (hp3 & E3 & Hl3 & _ & Hfr3).
  { intros Hn. apply elem_of_cons in Hn as [|Hn]; [done|].
    apply list_elem_of_fmap in Hn as (y & [= ->] & Hy). done. }
  { rewrite <- E2. cbn [mm with_mm plists with_page_table s1 with_plists]. unfold hp, init_list.
    rewrite lookup_insert_eq. by eexists. }
  rewrite E3, !bind_Some_eq. set (s3 := with_mm _ s2). rewrite page_get_lift.
  assert (Hp3 : page_of pg s3 = page_of pg s2) by done. rewrite Hp2 in Hp3.
  destruct (set_page pg (fun k => with_pg_usage (u8 (k.(pg_usage) + 1)) k) s3) as [s4|] eqn:E4;
    [|by rewrite (set_page_ok pg _ s3 _ Hp3) in E4].
  pose proof (fun j => page_of_set pg _ s3 s4 j _ Hp3 E4) as Hj4.
  rewrite (set_page_ok pg _ s3 _ Hp3) in E4. injection E4 as E4. exists s4. split; [done|].
  split; [by rewrite <- E4|]. constructor; try (rewrite <- E4; unfold s3; by rewrite <- E2).
  2: { rewrite <- E4. unfold s3. rewrite <- E2. cbn [mm with_mm page_table with_page_table with_plists]. by rewrite !length_insert. }
  2: { intros n l' Hl' Hnh Hn. rewrite (is_list_det _ _ _ _ Hl' Hl) in Hn. rewrite <- E4.
    change (hp3 !! n = s.(mm).(plists) !! n). rewrite Hfr3 by set_solver. rewrite <- E2.
    cbn [mm with_mm plists with_page_table s1 with_plists]. unfold hp, init_list. by rewrite lookup_insert_ne. }
  intros j. rewrite Hj4. destruct (Z.eqb_spec j pg) as [->|Hne]; [done|].
  change (page_of j s3) with (page_of j s2). rewrite Hj2. by rewrite (proj2 (Z.eqb_neq j pg)).
Qed.

Lemma carve_ok h pg size s l k :
  slab_page s pg l k -> h ∉ l -> 0 < size <= k.(pg_free_size) ->
  exists s', carve h pg size s = Some s' /\ slab_page s' pg (h :: l) (carved size k) /\
    carves s s' pg h size k.
Proof.
  intros [Hl Hp Hf Hs Ha] Hh Hsz.
  destruct (carve_run h pg size s l k Hl Hp Hh) as (s' & E & Hl' & Hc). exists s'.
  split; [done|]. split; [|done]. destruct Hc as [Hpg Hhd _ _ _].
  unfold PAGE_SIZE in *.
  assert (Efb : (carved size k).(free_base) = k.(free_base) + size).
  { unfold carved. cbn [free_base with_pg_usage with_free_base].
    rewrite (u32_small size) by lia. apply u32_small. lia. }
  assert (Efs : (carved size k).(pg_free_size) = k.(pg_free_size) - size).
  { unfold carved. cbn [pg_free_size with_pg_usage with_free_base with_pg_free_size].
    apply u16_small. lia. }
  assert (Hne : forall h' x, h' ∈ l -> s.(headers) !! h' = Some x -> s'.(headers) !! h' = Some x).
  { intros h' x Hh' Hx. rewrite Hhd, lookup_insert_ne; [done|]. intros ->. done. }
  constructor.
  - done.
  - rewrite Hpg, Z.eqb_refl. done.
  - rewrite Efb, Efs. unfold PAGE_SIZE. lia.
  - intros h' Hh'. rewrite Efb. apply elem_of_cons in Hh' as [->|Hh'].
    + rewrite Hhd, lookup_insert_eq. eexists. split; [done|]. unfold slice_in. cbn [h_base h_size]. lia.
    + destruct (Hs h' Hh') as (x & Hx & Hin). exists x. split; [by apply Hne|].
      unfold slice_in in *. lia.
  - assert (Hnew : forall h' x y, h' ∈ l -> s'.(headers) !! h' = Some x -> s'.(headers) !! h = Some y ->
      apart x y).
    { intros h' x y Hh' Hx Hy. rewrite Hhd, lookup_insert_eq in Hy. injection Hy as <-.
      destruct (Hs h' Hh') as (x' & Hx' & Hin). pose proof (Hne _ _ Hh' Hx') as Hx2.
      rewrite Hx in Hx2. injection Hx2 as ->. unfold slice_in, apart, disjoint in *. cbn [h_base h_size]. lia. }
    intros h1 h2 x1 x2 H1 H2 Hne12 E1 E2.
    apply elem_of_cons in H1 as [->|H1], H2 as [->|H2].
    + done.
    + pose proof (Hnew _ _ _ H2 E2 E1). unfold apart, disjoint in *. lia.
    + by apply (Hnew _ _ _ H1 E1 E2).
    + destruct (Hs h1 H1) as (y1 & Hy1 & _), (Hs h2 H2) as (y2 & Hy2 & _).
      pose proof (Hne _ _ H1 Hy1) as Z1. pose proof (Hne _ _ H2 Hy2) as Z2.
      rewrite E1 in Z1. rewrite E2 in Z2. injection Z1 as ->. injection Z2 as ->.
      by apply (Ha h1 h2).
Qed.

(** ** Headers

    A header is at hand: one was freed, or the current header page has room. *)
Inductive header_ready s : Z -> Prop :=
  | ready_free h (fl : list Z) :
      is_list s.(mm).(plists) SlabFreeHeader (SlabHeaderPlist <$> h :: fl) -> header_ready s h
  | ready_page tp kt :
      is_list s.(mm).(plists) SlabFreeHeader [] -> s.(table_page_current) = Some tp ->
      0 <= s.(header_in_page) < PAGE_SIZE / SLAB_HEADER_SIZE -> page_of tp s = Some kt ->
      header_ready s kt.(free_base).

(** The nodes that are not the allocator's own. *)
Definition off_slab (n : node) : Prop := n <> SlabFreeHeader /\ forall a, n <> SlabHeaderPlist a.

(** What taking a header leaves alone: every list but the free list, and every page
    structure but that of the header page. *)
Record header_taken s s' : Prop := {
  ht_headers : s'.(headers) = s.(headers);
  ht_map : s'.(mm).(page_map) = s.(mm).(page_map);
  ht_bank : s'.(mm).(bank) = s.(mm).(bank);
  ht_locks : s'.(mm).(locks) = s.(mm).(locks);
  ht_tablen : length s'.(mm).(page_table) = length s.(mm).(page_table);
  ht_current : s'.(slab_page_current) = s.(slab_page_current);
  ht_pages : forall j, s.(table_page_current) <> Some j -> page_of j s' = page_of j s;
  ht_lists : forall hd (l fl : list node), is_list s.(mm).(plists) SlabFreeHeader fl ->
    is_list s.(mm).(plists) hd l -> hd <> SlabFreeHeader -> SlabFreeHeader ∉ l ->
    (forall n, n ∈ fl -> n ∉ hd :: l) -> is_list s'.(mm).(plists) hd l;
  ht_nodes : forall n, off_slab n -> s'.(mm).(plists) !! n = s.(mm).(plists) !! n
}.

Lemma get_new_slab_header_ok s h :
  header_ready s h ->
  exists s', get_new_slab_header kernel_start zone_mutex s = Some (Some h, s') /\ header_taken s s'.
Proof.
  intros [h' fl Hl|tp kt Hl Ht Hi Hp]; unfold get_new_slab_header;
    rewrite (is_list_empty_spec _ _ _ Hl), bind_Some_eq.
  - cbn [bool_decide decide negb fmap list_fmap]. unfold first_header.
    rewrite (is_list_first _ _ _ Hl), !bind_Some_eq. cbn [List.hd fmap list_fmap].
    destruct (list_del_spec _ _ [] _ _ Hl) as (p & E & Hl' & Hdom & Hfr).
    unfold lift_heap. rewrite bind_Some_eq, E, !bind_Some_eq. eexists. split; [done|].
    constructor; try done.
    + intros hd l fl' Hfl Hhd Hne Hnin Hd. pose proof (is_list_det _ _ _ _ Hl Hfl) as <-.
      apply (is_list_frame s.(mm).(plists)); [|done]. intros n Hn. apply Hfr. cbn [app].
      intros Hin. apply elem_of_cons in Hin as [->|Hin]; [set_solver|].
      apply (Hd n); [set_solver|done].
    + intros n [H1 H2]. apply Hfr. cbn [app]. intros Hin.
      apply elem_of_cons in Hin as [->|Hin]; [done|].
      change (n ∈ SlabHeaderPlist <$> fl) in Hin. apply list_elem_of_fmap in Hin as (y & -> & _). by apply (H2 y).
  - cbn [bool_decide decide negb]. rewrite Ht. unfold PAGE_SIZE, SLAB_HEADER_SIZE in Hi.
    rewrite u32_small by (change (4096 / 16) with 256 in Hi; lia).
    rewrite (proj2 (Z.ltb_lt _ _)) by (unfold PAGE_SIZE, SLAB_HEADER_SIZE; lia).
    unfold get_slab_header_from_page.
    set (s1 := with_header_in_page _ s). assert (Hp1 : page_of tp s1 = Some kt) by done.
    rewrite Hp1, bind_Some_eq.
    destruct (set_page tp (fun k => with_pg_free_size (u16 (k.(pg_free_size) - SLAB_HEADER_SIZE))
      (with_free_base (k.(free_base) +u SLAB_HEADER_SIZE) k)) s1) as [s2|] eqn:E2;
      [|by rewrite (set_page_ok tp _ s1 kt Hp1) in E2].
    pose proof (fun j => page_of_set tp _ s1 s2 j kt Hp1 E2) as Hj2.
    pose proof (Hj2 tp) as Hp2. rewrite Z.eqb_refl in Hp2. rewrite bind_Some_eq, page_get_lift.
    destruct (set_page tp (fun k => with_pg_usage (u8 (k.(pg_usage) + 1)) k) s2) as [s3|] eqn:E3;
      [|by rewrite (set_page_ok tp _ s2 _ Hp2) in E3].
    pose proof (fun j => page_of_set tp _ s2 s3 j _ Hp2 E3) as Hj3.
    rewrite (set_page_ok tp _ s1 kt Hp1) in E2. injection E2 as E2.
    rewrite (set_page_ok tp _ s2 _ Hp2) in E3. injection E3 as E3. rewrite !bind_Some_eq.
    exists s3. split; [done|]. constructor; try (by rewrite <- E3, <- E2).
    + rewrite <- E3, <- E2. cbn [mm with_mm page_table with_page_table]. by rewrite !length_insert.
    + intros j Hj. assert (j <> tp) by congruence.
      rewrite Hj3, Hj2, !(proj2 (Z.eqb_neq j tp)) by done. done.
Qed.

(** ** Allocation from the current page *)

(** The allocator and the locks of the page allocator are as before. *)
Record slab_frame s s' : Prop := {
  sf_map : s'.(mm).(page_map) = s.(mm).(page_map);
  sf_bank : s'.(mm).(bank) = s.(mm).(bank);
  sf_locks : s'.(mm).(locks) = s.(mm).(locks);
  sf_tablen : length s'.(mm).(page_table) = length s.(mm).(page_table)
}.

Lemma from_page_free_ok s pg l k h size flag :
  slab_page s pg l k -> s.(slab_page_current) = Some pg ->
  page_state (page_to_page_id pg) s.(mm) = Some 1 ->
  header_ready s h -> h ∉ l -> s.(table_page_current) <> Some pg ->
  (forall fl, is_list s.(mm).(plists) SlabFreeHeader fl -> forall x, x ∈ l -> SlabHeaderPlist x ∉ fl) ->
  (forall fl, is_list s.(mm).(plists) SlabFreeHeader fl -> PagePlist pg ∉ fl) ->
  0 < size <= k.(pg_free_size) ->
  exists s' k', get_slab_from_page_free kernel_start zone_mutex size flag s = Some (k.(free_base), s') /\
    slab_page s' pg (h :: l) k' /\
    s'.(headers) !! h = Some (Mk_header k.(free_base) size) /\
    (forall h' x, h' ∈ l -> s.(headers) !! h' = Some x ->
       s'.(headers) !! h' = Some x /\ apart x (Mk_header k.(free_base) size)) /\
    k'.(free_base) = k.(free_base) + size /\ k'.(pg_free_size) = k.(pg_free_size) - size /\
    slab_frame s s' /\
    (forall j, s.(table_page_current) <> Some j -> j <> pg -> page_of j s' = page_of j s) /\
    (forall n, off_slab n -> n <> PagePlist pg -> s'.(mm).(plists) !! n = s.(mm).(plists) !! n).
Proof.
  intros Hsp Hcur Hst Hh Hhl Htp Hfl1 Hfl2 Hsz. unfold get_slab_from_page_free.
  rewrite Hcur, Hst, bind_Some_eq. cbn [truth Z.eqb negb].
  pose proof Hsp as [Hl Hp Hf Hs Ha]. rewrite Hp, bind_Some_eq.
  rewrite (proj2 (Z.ltb_ge k.(pg_free_size) size)) by lia.
  destruct (get_new_slab_header_ok s h Hh) as (s1 & E1 & [T1 T2 Tb Tl Tt T3 T4 T5 T6]). rewrite E1, bind_Some_eq.
  rewrite (T4 pg Htp), Hp, bind_Some_eq.
  assert (Hfl : exists fl, is_list s.(mm).(plists) SlabFreeHeader fl) by (destruct Hh; by eexists).
  destruct Hfl as [fl Hfl].
  assert (Hsp1 : slab_page s1 pg l k).
  { constructor; [|by rewrite (T4 pg Htp)|done|by rewrite T1|by rewrite T1].
    apply (T5 _ _ fl); [done|done|done| |].
    - intros (y & Hy & _)%list_elem_of_fmap. done.
    - intros n Hn Hin. apply elem_of_cons in Hin as [->|(y & -> & Hy)%list_elem_of_fmap].
      + by apply (Hfl2 fl).
      + by apply (Hfl1 fl Hfl y). }
  destruct (carve_ok h pg size s1 l k Hsp1 Hhl Hsz) as (s2 & E2 & Hsp2 & [C1 C2 Cm Cb Cl Ct _ C10]).
  rewrite E2, bind_Some_eq. exists s2, (carved size k). split; [done|]. split; [done|].
  split; [by rewrite C2, lookup_insert_eq|]. unfold PAGE_SIZE in *. split_and!.
  - intros h' x Hh' Hx. split; [rewrite C2, T1, lookup_insert_ne; [done|by intros ->]|].
    destruct (Hs h' Hh') as (y & Hy & Hin). rewrite Hx in Hy. injection Hy as <-.
    unfold slice_in, apart, disjoint in *. cbn [h_base h_size]. lia.
  - unfold carved. cbn [free_base with_pg_usage with_free_base].
    rewrite (u32_small size) by lia. apply u32_small. lia.
  - unfold carved. cbn [pg_free_size with_pg_usage with_free_base with_pg_free_size].
    apply u16_small. lia.
  - constructor; congruence.
  - intros j Hj1 Hj2. rewrite C1, (proj2 (Z.eqb_neq j pg)) by done. by apply T4.
  - intros n Hn Hpg. destruct Hn as [Hn1 Hn2]. rewrite (C10 n _ (sp_list _ _ _ _ Hsp1)); [by apply T6|apply Hn2|].
    intros Hin. apply elem_of_cons in Hin as [->|Hin]; [done|].
    apply list_elem_of_fmap in Hin as (y & -> & _). by apply (Hn2 y).
Qed.

(** C17. With a header at hand, [get_slab_from_page_free] on a current page with enough
    room returns the start of its free part and cuts the slice off it: the slices of
    the page, the new one included, lie in the page and stay pairwise disjoint, no
    earlier slice moves, and the free part shrinks by exactly the size asked for. *)
Theorem slab_slices_disjoint s pg l k h size flag :
  slab_page s pg l k -> s.(slab_page_current) = Some pg ->
  page_state (page_to_page_id pg) s.(mm) = Some 1 ->
  header_ready s h -> h ∉ l -> s.(table_page_current) <> Some pg ->
  (forall fl, is_list s.(mm).(plists) SlabFreeHeader fl -> forall x, x ∈ l -> SlabHeaderPlist x ∉ fl) ->
  (forall fl, is_list s.(mm).(plists) SlabFreeHeader fl -> PagePlist pg ∉ fl) ->
  0 < size <= k.(pg_free_size) ->
  exists s' k', get_slab_from_page_free kernel_start zone_mutex size flag s = Some (k.(free_base), s') /\
    slab_page s' pg (h :: l) k' /\
    s'.(headers) !! h = Some (Mk_header k.(free_base) size) /\
    (forall h' x, h' ∈ l -> s.(headers) !! h' = Some x ->
       s'.(headers) !! h' = Some x /\ apart x (Mk_header k.(free_base) size)) /\
    k'.(free_base) = k.(free_base) + size /\ k'.(pg_free_size) = k.(pg_free_size) - size.
Proof.
  intros H1 H2 H3 H4 H5 H6 H7 H8 H9.
  destruct (from_page_free_ok s pg l k h size flag H1 H2 H3 H4 H5 H6 H7 H8 H9)
    as (s' & k' & E & A & B & C & D & F & _).
  by exists s', k'.
Qed.

(** ** Release and reuse *)

Lemma find_slice_ok s pg addr l1 h l2 x fuel :
  is_list s.(mm).(plists) (PagePlist pg) (SlabHeaderPlist <$> l1 ++ h :: l2) ->
  (forall y, y ∈ l1 -> exists z, s.(headers) !! y = Some z /\ z.(h_base) <> addr) ->
  s.(headers) !! h = Some x -> x.(h_base) = addr -> (length l1 < fuel)%nat ->
  find_slice fuel (PagePlist pg) (List.hd (PagePlist pg) (SlabHeaderPlist <$> l1 ++ h :: l2)) addr s =
  Some (Some h).
Proof.
  intros Hl Hne Hx Hb. 
  assert (G : forall done todo fuel, l1 = done ++ todo -> (length todo < fuel)%nat ->
    find_slice fuel (PagePlist pg) (List.hd (PagePlist pg) (SlabHeaderPlist <$> todo ++ h :: l2)) addr s
      = Some (Some h)).
  { intros dn todo. revert dn. induction todo as [|y todo IH]; intros dn [|f] El Hf;
      cbn [length] in Hf; try lia; cbn [find_slice app fmap list_fmap List.hd].
    - rewrite bool_decide_false by done. rewrite Hx, bind_Some_eq, Hb, Z.eqb_refl. done.
    - rewrite bool_decide_false by done. destruct (Hne y) as (z & Hz & Hzb); [set_solver|].
      rewrite Hz, bind_Some_eq, (proj2 (Z.eqb_neq _ _) Hzb).
      rewrite El, <- app_assoc, fmap_app in Hl. cbn [app fmap list_fmap] in Hl.
      rewrite (is_list_next _ _ _ _ _ Hl), bind_Some_eq. apply (IH (dn ++ [y])); [|lia].
      by rewrite <- app_assoc. }
  intros Hf. by apply (G []).
Qed.

(** The page with one reference less. *)
Definition dropped (k : page) : page := with_pg_usage (u8 (k.(pg_usage) - 1)) k.

(** What moving a slice between the lists of its page and of its size changes: the nodes
    of the two lists and, at most, the structure of the page, now [k']. *)
Record slice_moved pg id (lp fl : list node) (k' : page) s s' : Prop := {
  mv_pages : forall j, page_of j s' = if Z.eqb j pg then Some k' else page_of j s;
  mv_headers : s'.(headers) = s.(headers);
  mv_map : s'.(mm).(page_map) = s.(mm).(page_map);
  mv_bank : s'.(mm).(bank) = s.(mm).(bank);
  mv_locks : s'.(mm).(locks) = s.(mm).(locks);
  mv_current : s'.(slab_page_current) = s.(slab_page_current) /\
    s'.(table_page_current) = s.(table_page_current) /\ s'.(header_in_page) = s.(header_in_page);
  mv_nodes : forall n, n ∉ PagePlist pg :: lp -> n ∉ SlabList id :: fl ->
    s'.(mm).(plists) !! n = s.(mm).(plists) !! n
}.

(** Dropping a reference to a page that stays in use changes its count only. *)
Lemma page_put_keeps s pg k :
  page_of pg s = Some k -> u8 (k.(pg_usage) - 1) <> 0 ->
  exists t, lift_mm (page_put kernel_start zone_mutex pg) s = Some (with_mm (with_page_table t s.(mm)) s) /\
    forall j, page_of j (with_mm (with_page_table t s.(mm)) s) = if Z.eqb j pg then Some (dropped k) else page_of j s.
Proof.
  intros Hp Hu. exists (<[Z.to_nat pg := dropped k]> s.(mm).(page_table)).
  pose proof (fun j => page_of_set pg dropped s _ j k Hp (set_page_ok pg dropped s k Hp)) as Hj.
  split; [|exact Hj]. specialize (Hj pg). rewrite Z.eqb_refl in Hj. unfold page_of in Hj, Hp. cbn [mm with_mm] in Hj.
  assert (E : upd_page pg dropped s.(mm) =
    Some (with_page_table (<[Z.to_nat pg := dropped k]> s.(mm).(page_table)) s.(mm))).
  { unfold upd_page. unfold get_page_struct in Hp. by rewrite (aupd_Some _ _ _ _ Hp). }
  unfold lift_mm, page_put. change (fun k => with_pg_usage (u8 (k.(pg_usage) - 1)) k) with dropped.
  rewrite E, bind_Some_eq, Hj, bind_Some_eq. unfold dropped at 1. cbn [pg_usage with_pg_usage].
  by rewrite (proj2 (Z.eqb_neq _ 0) Hu).
Qed.

(** The lists a slice moves between. *)
Record slice_lists (p : lheap node) pg id (lp fl : list node) : Prop := {
  sl_page : is_list p (PagePlist pg) lp;
  sl_size : is_list p (SlabList id) fl;
  sl_apart : forall n, n ∈ PagePlist pg :: lp -> n ∉ SlabList id :: fl
}.

Lemma slab_list_some id : 0 <= id < SLAB_NODE -> slab_list id = Some (SlabList id).
Proof.
  intros Hid. unfold slab_list. by rewrite (proj2 (Z.leb_le 0 id)), (proj2 (Z.ltb_lt id _)) by lia.
Qed.

Lemma kfree_slice_ok s pg addr size l1 h l2 fl k :
  slice_lists s.(mm).(plists) pg (list_id size) (SlabHeaderPlist <$> l1 ++ h :: l2) fl ->
  (forall y, y ∈ l1 -> exists z, s.(headers) !! y = Some z /\ z.(h_base) <> addr) ->
  s.(headers) !! h = Some (Mk_header addr size) -> 0 <= list_id size < SLAB_NODE ->
  page_of pg s = Some k -> u8 (k.(pg_usage) - 1) <> 0 ->
  exists s', kfree_slice_slab kernel_start zone_mutex pg addr s = Some s' /\
    slice_lists s'.(mm).(plists) pg (list_id size) (SlabHeaderPlist <$> l1 ++ l2)
      (SlabHeaderPlist h :: fl) /\
    slice_moved pg (list_id size) (SlabHeaderPlist <$> l1 ++ h :: l2) fl (dropped k) s s'.
Proof.
  intros [Hl Hfl Hd] Hne Hx Hid Hp Hu.
  unfold kfree_slice_slab. rewrite (is_list_first _ _ _ Hl), bind_Some_eq.
  rewrite (find_slice_ok s pg addr l1 h l2 _ _ Hl Hne Hx eq_refl), bind_Some_eq.
  2:{ pose proof (is_list_size _ _ _ Hl) as Hsz. rewrite length_fmap, length_app in Hsz. simpl in Hsz. lia. }
  rewrite fmap_app in Hl, Hd. cbn [fmap list_fmap] in Hl, Hd.
  destruct (list_move_spec _ _ _ _ _ _ _ Hl Hfl Hd) as (p1 & p2 & E1 & E2 & _ & Hl2 & Hfl2 & Hfr).
  unfold lift_heap at 1. rewrite E1, !bind_Some_eq. set (s1 := with_mm _ s).
  unfold add_slab_header_to_list. change (s1.(headers)) with (s.(headers)). rewrite Hx, bind_Some_eq.
  cbn [h_size]. rewrite slab_list_some, bind_Some_eq by done. unfold lift_heap at 1.
  change (s1.(mm).(plists)) with p1. rewrite E2, !bind_Some_eq. set (s2 := with_mm _ s1).
  destruct (page_put_keeps s2 pg k Hp Hu) as (t & E3 & P3). eexists. split; [exact E3|].
  split; [|constructor; try done; rewrite fmap_app; cbn [fmap list_fmap]; exact Hfr].
  change (slice_lists p2 pg (list_id size) (SlabHeaderPlist <$> l1 ++ l2) (SlabHeaderPlist h :: fl)).
  rewrite fmap_app. constructor; [done|done|]. intros n Hn Hin.
  assert (Hh : SlabHeaderPlist h ∉ PagePlist pg :: (SlabHeaderPlist <$> l1) ++ (SlabHeaderPlist <$> l2)).
  { destruct Hl as [(H1 & (_ & H2 & [H3 _]%NoDup_cons)%NoDup_app)%NoDup_cons _].
    specialize (H2 (SlabHeaderPlist h)).
    rewrite elem_of_cons, elem_of_app, elem_of_cons in *. intros [E|[E|E]]; [|tauto|tauto].
    by rewrite E in *. }
  apply elem_of_cons in Hin as [->|[->|Hin]%elem_of_cons].
  - apply (Hd (SlabList (list_id size))); [|set_solver].
    rewrite elem_of_cons, elem_of_app, elem_of_cons in *. tauto.
  - done.
  - apply (Hd n); [|set_solver]. rewrite elem_of_cons, elem_of_app, elem_of_cons in *. tauto.
Qed.

(** A request for the size of the first free slice, whose page is in use. *)
Lemma get_slab_in_list_ok s pg addr size flag h lp fl k :
  slice_lists s.(mm).(plists) pg (list_id size) lp (SlabHeaderPlist h :: fl) ->
  s.(headers) !! h = Some (Mk_header addr size) -> 0 <= list_id size < SLAB_NODE ->
  page_of pg s = Some k ->
  va_to_page kernel_start addr = pg -> page_state pg s.(mm) = Some 1 ->
  truth (flag &u GFP_KERNEL) = true ->
  exists s', get_slab_in_list kernel_start zone_mutex size flag s = Some (addr, s') /\
    is_list s'.(mm).(plists) (PagePlist pg) (SlabHeaderPlist h :: lp) /\
    is_list s'.(mm).(plists) (SlabList (list_id size)) fl /\
    slice_moved pg (list_id size) lp (SlabHeaderPlist h :: fl) k s s'.
Proof.
  intros [Hl Hfl Hd] Hx Hid Hp Hva Hst Hflag.
  unfold get_slab_in_list. rewrite Hflag. cbn [negb]. rewrite slab_list_some, bind_Some_eq by done.
  cbn [get_slab_in_list_loop]. unfold get_slab_in_list_body.
  rewrite (is_list_empty_spec _ _ _ Hfl), bind_Some_eq, bool_decide_false by done.
  unfold first_header. rewrite (is_list_first _ _ _ Hfl), bind_Some_eq. cbn [List.hd].
  rewrite bind_Some_eq, Hx, bind_Some_eq. cbn [h_base].
  change (va_to_page_id kernel_start addr) with (va_to_page kernel_start addr).
  rewrite Hva, Hst, bind_Some_eq. cbn [truth Z.eqb negb]. unfold header_list_switch, lift_heap.
  destruct (list_move_spec _ _ [] _ _ _ _ Hfl Hl) as (p1 & p2 & E1 & E2 & _ & Hl2 & Hfl2 & Hfr).
  { intros n Hn Hin. by apply (Hd n). }
  rewrite E1, !bind_Some_eq. cbn [mm with_mm plists with_plists]. rewrite E2, !bind_Some_eq.
  eexists. split; [done|]. split; [done|]. split; [done|]. constructor; try done.
  - intros j. destruct (Z.eqb_spec j pg) as [->|]; done.
  - intros n H1 H2. by apply Hfr.
Qed.

(** C18. Freeing a slice whose page stays in use takes its header off the page and puts
    it in front of the list of its size; the next request for that size returns the
    same address and puts the header in front of the list of its page.  Besides the
    nodes of these two lists only the structure of the page changes: the release takes
    one reference from it, and the reuse does not give it back.  No header, no other page
    and no other list changes. *)
Theorem slice_free_then_reuse s pg addr size flag l1 h l2 fl k :
  slice_lists s.(mm).(plists) pg (list_id size) (SlabHeaderPlist <$> l1 ++ h :: l2) fl ->
  (forall y, y ∈ l1 -> exists z, s.(headers) !! y = Some z /\ z.(h_base) <> addr) ->
  s.(headers) !! h = Some (Mk_header addr size) -> 0 <= list_id size < SLAB_NODE ->
  page_of pg s = Some k -> u8 (k.(pg_usage) - 1) <> 0 -> va_to_page kernel_start addr = pg ->
  page_state pg s.(mm) = Some 1 -> truth (flag &u GFP_KERNEL) = true ->
  exists s1 s2, kfree_slice_slab kernel_start zone_mutex pg addr s = Some s1 /\
    is_list s1.(mm).(plists) (PagePlist pg) (SlabHeaderPlist <$> l1 ++ l2) /\
    is_list s1.(mm).(plists) (SlabList (list_id size)) (SlabHeaderPlist h :: fl) /\
    slice_moved pg (list_id size) (SlabHeaderPlist <$> l1 ++ h :: l2) fl (dropped k) s s1 /\
    get_slab_in_list kernel_start zone_mutex size flag s1 = Some (addr, s2) /\
    is_list s2.(mm).(plists) (PagePlist pg) (SlabHeaderPlist <$> h :: l1 ++ l2) /\
    is_list s2.(mm).(plists) (SlabList (list_id size)) fl /\
    slice_moved pg (list_id size) (SlabHeaderPlist <$> l1 ++ l2) (SlabHeaderPlist h :: fl) (dropped k) s1 s2.
Proof.
  intros Hsl Hne Hx Hid Hp Hu Hva Hst Hflag.
  destruct (kfree_slice_ok s pg addr size l1 h l2 fl k Hsl Hne Hx Hid Hp Hu)
    as (s1 & E1 & Hsl1 & Hm1).
  destruct (get_slab_in_list_ok s1 pg addr size flag h _ _ (dropped k) Hsl1) as (s2 & E2 & H2 & H3 & Hm2);
    [by rewrite (mv_headers _ _ _ _ _ _ _ Hm1)|done|by rewrite (mv_pages _ _ _ _ _ _ _ Hm1), Z.eqb_refl|done| |done|].
  { unfold page_state in *. by rewrite (mv_map _ _ _ _ _ _ _ Hm1). }
  exists s1, s2. destruct Hsl1. done.
Qed.

(** ** Where the code departs from its intent *)

(** Every address of the kernel is above 1 GB, where [kfree] does nothing. *)
Theorem kfree_ignores_kernel_addresses s addr :
  SIZE_1G <= addr -> kfree kernel_start zone_mutex slab_mutex page_struct_va addr s = Some s.
Proof.
  intros Ha. unfold kfree. rewrite (proj2 (Z.ltb_ge addr SIZE_1G) Ha). by destruct (negb _).
Qed.

(** A size that rounds up to a whole page without being one indexes [pslab->list] out
    of its bounds. *)
Theorem kmalloc_last_sizes_out_of_bounds s size :
  4080 < size < 4096 -> kmalloc kernel_start zone_mutex slab_mutex size GFP_KERNEL s = None.
Proof.
  intros Hs. unfold kmalloc. rewrite (proj2 (Z.leb_gt size 0)) by lia.
  change (negb (Z.eqb GFP_KERNEL GFP_KERNEL)) with false. cbn [andb].
  unfold do_kmalloc. destruct (lock_slab slab_mutex s) as [s1|]; [|done]. rewrite bind_Some_eq.
  unfold kmalloc_locked. change (Z.eqb GFP_KERNEL GFP_DMA || Z.eqb GFP_KERNEL GFP_RES) with false.
  rewrite (proj2 (Z.leb_gt PAGE_SIZE size)) by (unfold PAGE_SIZE; lia). cbn [orb].
  assert (E : get_new_alloc_size size GFP_KERNEL = 4096).
  { unfold get_new_alloc_size. change (truth (GFP_KERNEL &u GFP_DMA) || truth (GFP_KERNEL &u GFP_RES)) with false.
    cbn iota. rewrite u32_small by lia.
    assert (Ei : exists i, (i < 15)%nat /\ size = 4081 + Z.of_nat i) by (exists (Z.to_nat (size - 4081)); lia).
    destruct Ei as (i & Hi & ->). do 15 (destruct i as [|i]; [reflexivity|]). lia. }
  rewrite E. reflexivity.
Qed.

(** [kzalloc] clears exactly the memory that [kmalloc] gave. *)
Theorem kzalloc_clears s s1 m size flag ret :
  kmalloc kernel_start zone_mutex slab_mutex size flag s = Some (ret, s1) -> room m ret size ->
  kzalloc kernel_start zone_mutex slab_mutex size flag s m =
    Some (ret, s1, write ret (replicate (Z.to_nat size) 0) m).
Proof.
  intros E Hr. unfold kzalloc. rewrite E, bind_Some_eq, memset_ok by done. reflexivity.
Qed.
End slab.

(** ** A small slab

    Page 5 is the current slab page: one slice of 32 bytes at its start, whose header
    is the second of the header page 6. *)

Definition demo_slab_lists : lheap node :=
  list_to_map [
    (PagePlist 5, ListHead (SlabHeaderPlist 0x80006010) (SlabHeaderPlist 0x80006010));
    (SlabHeaderPlist 0x80006010, ListHead (PagePlist 5) (PagePlist 5));
    (SlabFreeHeader, ListHead SlabFreeHeader SlabFreeHeader);
    (SlabList 1, ListHead (SlabList 1) (SlabList 1)) ].

Definition demo_slab_page : page := Mk_page 0x30005000 F_GFP_SLAB 0x80005020 4064 1 2.

Definition demo_slab : slab_state unit :=
  Mk_slab
    (Mk_mm (Mk_bank 49152 12 2 [])
       (replicate 5 (Mk_page 0 0 0 0 0 0) ++
        [ demo_slab_page; Mk_page 0x30006000 F_GFP_SLAB 0x80006020 4064 1 2 ])
       [0x63; 0] demo_slab_lists tt)
    (Some 5) (Some 6) 1 0 2 {[ 0x80006010 := Mk_header 0x80005000 32 ]}.

Lemma demo_page_list : is_list demo_slab_lists (PagePlist 5) (SlabHeaderPlist <$> [0x80006010]).
Proof. split; [by apply (bool_decide_unpack _); vm_compute|]. by vm_compute. Qed.
Lemma demo_free_list : is_list demo_slab_lists SlabFreeHeader [].
Proof. split; [by apply (bool_decide_unpack _); vm_compute|]. by vm_compute. Qed.
Lemma demo_size_list : is_list demo_slab_lists (SlabList 1) [].
Proof. split; [by apply (bool_decide_unpack _); vm_compute|]. by vm_compute. Qed.

Lemma slab_slices_disjoint_witness :
  exists s', @get_slab_from_page_free unit _ 0x80000000 id 48 GFP_KERNEL demo_slab = Some (0x80005020, s') /\
    s'.(headers) !! 0x80006020 = Some (Mk_header 0x80005020 48).
Proof.
  destruct (@slab_slices_disjoint unit _ 0x80000000 id id demo_slab 5 [0x80006010]
    demo_slab_page 0x80006020 48 GFP_KERNEL) as (s' & k' & E & _ & Eh & _).
  - constructor; [exact demo_page_list|reflexivity|vm_compute; repeat split; congruence| |].
    + intros h ->%list_elem_of_singleton. eexists. split; [reflexivity|].
      vm_compute. repeat split; congruence.
    + intros h1 h2 x1 x2 ->%list_elem_of_singleton ->%list_elem_of_singleton []. done.
  - reflexivity.
  - reflexivity.
  - exact (ready_page demo_slab 6 _ demo_free_list eq_refl ltac:(vm_compute; split; congruence) eq_refl).
  - by apply (bool_decide_unpack _); vm_compute.
  - discriminate.
  - intros fl Hfl. rewrite (is_list_det _ _ _ _ Hfl demo_free_list). set_solver.
  - intros fl Hfl. rewrite (is_list_det _ _ _ _ Hfl demo_free_list). set_solver.
  - vm_compute. split; congruence.
  - by exists s'.
Defined.

Lemma slice_free_then_reuse_witness :
  exists s1 s2, @kfree_slice_slab unit _ 0x80000000 id 5 0x80005000 demo_slab = Some s1 /\
    @get_slab_in_list unit _ 0x80000000 id 32 GFP_KERNEL s1 = Some (0x80005000, s2) /\
    page_of 5 s2 = Some (dropped demo_slab_page).
Proof.
  destruct (@slice_free_then_reuse unit _ 0x80000000 id id demo_slab 5 0x80005000 32 GFP_KERNEL
    [] 0x80006010 [] [] demo_slab_page) as (s1 & s2 & E1 & _ & _ & _ & E2 & _ & _ & Hm).
  - constructor; [exact demo_page_list|exact demo_size_list|].
    intros n Hn ->%list_elem_of_singleton. revert Hn.
    by apply (bool_decide_unpack _); vm_compute.
  - intros y Hy%elem_of_nil. done.
  - reflexivity.
  - vm_compute. split; congruence.
  - reflexivity.
  - discriminate.
  - reflexivity.
  - reflexivity.
  - reflexivity.
  - exists s1, s2. split; [exact E1|]. split; [exact E2|]. by rewrite (mv_pages _ _ _ _ _ _ _ Hm).
Defined.

(** A page with two slices in use, and the zone it belongs to. *)
Definition shared_lists : lheap node :=
  list_to_map [
    (PagePlist 5, ListHead (SlabHeaderPlist 0x80006010) (SlabHeaderPlist 0x80006020));
    (SlabHeaderPlist 0x80006010, ListHead (SlabHeaderPlist 0x80006020) (PagePlist 5));
    (SlabHeaderPlist 0x80006020, ListHead (PagePlist 5) (SlabHeaderPlist 0x80006010));
    (SlabFreeHeader, ListHead SlabFreeHeader SlabFreeHeader);
    (SlabList 1, ListHead (SlabList 1) (SlabList 1)) ].

Definition shared_page : page := Mk_page 0x30005000 (Z.lor F_GFP_SLAB F_GFP_PAGE_HEADER) 0x80005040 4032 1 3.

Definition shared_slab : slab_state unit :=
  Mk_slab
    (Mk_mm (Mk_bank 49152 12 1 [Mk_zone [] 0 32768 24576 8 1 0 8 7])
       (replicate 5 (Mk_page 0 0 0 0 0 0) ++ [shared_page])
       [0x7f; 0] shared_lists tt)
    (Some 5) (Some 6) 1 0 2 {[ 0x80006010 := Mk_header 0x80005000 32; 0x80006020 := Mk_header 0x80005020 32 ]}.

(** Freeing the first slice and asking for it again. *)
Definition free_and_reuse (s : slab_state unit) : option (slab_state unit) :=
  s1 ← kfree_slice_slab 0x80000000 id 5 0x80005000 s;
  snd <$> get_slab_in_list 0x80000000 id 32 GFP_KERNEL s1.

(** After two rounds of it, which leave both slices in use, the page has one reference:
    releasing the second slice gives the page back to the zone with the first one still
    handed out. *)
Theorem reuse_releases_page_in_use :
  exists s1 s2, (s1 ← free_and_reuse shared_slab; free_and_reuse s1) = Some s1 /\
    (pg_usage <$> page_of 5 s1) = Some 1 /\ page_state 5 s1.(mm) = Some 1 /\
    kfree_slice_slab 0x80000000 id 5 0x80005020 s1 = Some s2 /\
    page_state 5 s2.(mm) = Some 0 /\
    is_list s2.(mm).(plists) (PagePlist 5) [SlabHeaderPlist 0x80006010] /\
    s2.(headers) !! 0x80006010 = Some (Mk_header 0x80005000 32).
Proof.
  assert (H : match s1 ← free_and_reuse shared_slab; free_and_reuse s1 with
    | Some s1 => match kfree_slice_slab 0x80000000 id 5 0x80005020 s1 with
      | Some s2 => bool_decide ((pg_usage <$> page_of 5 s1) = Some 1 /\ page_state 5 s1.(mm) = Some 1 /\
          page_state 5 s2.(mm) = Some 0 /\
          list_next s2.(mm).(plists) (PagePlist 5) = Some (SlabHeaderPlist 0x80006010) /\
          list_prve s2.(mm).(plists) (SlabHeaderPlist 0x80006010) = Some (PagePlist 5) /\
          list_next s2.(mm).(plists) (SlabHeaderPlist 0x80006010) = Some (PagePlist 5) /\
          list_prve s2.(mm).(plists) (PagePlist 5) = Some (SlabHeaderPlist 0x80006010)) &&
          match s2.(headers) !! 0x80006010 with
          | Some x => Z.eqb x.(h_base) 0x80005000 && Z.eqb x.(h_size) 32
          | None => false end
      | None => false end
    | None => false end = true) by (vm_compute; reflexivity).
  revert H. generalize (s1 ← free_and_reuse shared_slab; free_and_reuse s1). intros [s1|]; [|done].
  destruct (kfree_slice_slab 0x80000000 id 5 0x80005020 s1) as [s2|] eqn:E; [|done].
  intros [(H1 & H2 & H3 & H4 & H5 & H6 & H7)%bool_decide_eq_true Hh]%andb_true_iff.
  exists s1, s2. split_and!; try done.
  - split; [by apply (bool_decide_unpack _); vm_compute|]. split; [done|]. by split.
  - destruct (s2.(headers) !! 0x80006010) as [[b z]|]; [|done].
    cbn [h_base h_size] in Hh. by apply andb_true_iff in Hh as [->%Z.eqb_eq ->%Z.eqb_eq].
Qed.
