(* ===== verification/SlabAlloc.v ===== *)
(** * A slice from [kmalloc]

    The common path of [kmalloc]: no slice of the size is free, a header is at hand and
    the current slab page has room.  The slice is the start of the free part of the page;
    the page allocator is left as it was. *)

From S2P Require Import Prelude ListHead TaskStruct Bitops Mem CString MmTypes Pages PagesInv Mmu.
From S2P Require Import MmuThms MmBoot MmBootThms KernelLocks Slab SlabThms.

Section kmalloc.
Context {L : Type} {LC : LockCalls L} {LO : LockOps L} (kernel_start : Z) (zone_mutex : Z -> Z) (slab_mutex : Z).
Implicit Types (s : slab_state L) (pg h size : Z) (l : list Z) (k : page).

(** [slab_page_current] is page [pg] with room for [size] bytes, header [h] is next. *)
Record slab_ready s size pg l k h : Prop := {
  sr_size : 0 < size < PAGE_SIZE;
  sr_page : slab_page kernel_start s pg l k;
  sr_current : s.(slab_page_current) = Some pg;
  sr_state : page_state (page_to_page_id pg) s.(mm) = Some 1;
  sr_header : header_ready s h;
  sr_new : h ∉ l;
  sr_other : s.(table_page_current) <> Some pg;
  sr_free : forall fl, is_list s.(mm).(plists) SlabFreeHeader fl ->
    ~ (PagePlist pg ∈ fl) /\ forall x, x ∈ l -> SlabHeaderPlist x ∉ fl;
  sr_room : 0 < get_new_alloc_size size GFP_KERNEL <= k.(pg_free_size);
  sr_list : exists hd, slab_list (list_id (get_new_alloc_size size GFP_KERNEL)) = Some hd /\
    is_list s.(mm).(plists) hd [];
  sr_base : k.(free_base) <> 0
}.

Definition with_slab_locks (x : L) s : slab_state L := with_mm (with_locks x s.(mm)) s.

Lemma slab_ready_locks x s size pg l k h : slab_ready s size pg l k h -> slab_ready (with_slab_locks x s) size pg l k h.
Proof.
  intros [R1 [P1 P2 P3 P4 P5] R3 R4 R5 R6 R7 R8 R9 R10 R11]. constructor; try done.
  destruct R5 as [h' fl Hl|tp kt Hl Ht Hi Hp].
  - by apply (ready_free _ h' fl).
  - by apply (ready_page _ tp kt).
Qed.

Lemma kmalloc_ok s size pg l k h :
  slab_ready s size pg l k h -> lk_free s.(mm).(locks) slab_mutex ->
  exists s', kmalloc kernel_start zone_mutex slab_mutex size GFP_KERNEL s = Some (k.(free_base), s') /\
    s'.(mm).(page_map) = s.(mm).(page_map) /\ s'.(mm).(bank) = s.(mm).(bank) /\
    length s'.(mm).(page_table) = length s.(mm).(page_table) /\
    (forall m, lk_free s.(mm).(locks) m -> lk_free s'.(mm).(locks) m) /\
    (forall j, s.(table_page_current) <> Some j -> j <> pg -> page_of j s' = page_of j s) /\
    (forall n, off_slab n -> n <> PagePlist pg -> s'.(mm).(plists) !! n = s.(mm).(plists) !! n).
Proof.
  intros Hs Hlk. destruct (lk_ok s.(mm).(locks) slab_mutex Hlk) as (l1 & l2 & E1 & E2 & Hk).
  set (ns := get_new_alloc_size size GFP_KERNEL).
  destruct (slab_ready_locks l1 s size pg l k h Hs) as [R1 R2 R3 R4 R5 R6 R7 R8 R9 (hd & Ehd & Hhd) R11].
  set (s1 := with_slab_locks l1 s) in *.
  destruct (from_page_free_ok kernel_start zone_mutex (fun _ => 0) s1 pg l k h ns GFP_KERNEL R2 R3 R4 R5 R6 R7)
    as (s2 & k' & E & _ & _ & _ & _ & _ & [F1 F2 F3 F4] & F5 & F6); [intros fl Hfl; by apply R8|intros fl Hfl; by apply R8|done|].
  exists (with_slab_locks l2 s2). split; [|split_and!; try done].
  - unfold kmalloc. rewrite (proj2 (Z.leb_gt size 0)) by lia. change (Z.eqb GFP_KERNEL GFP_KERNEL) with true.
    cbn [negb andb]. unfold do_kmalloc, lock_slab. rewrite E1, !bind_Some_eq. fold (with_slab_locks l1 s). fold s1.
    unfold kmalloc_locked. fold ns. change (Z.eqb GFP_KERNEL GFP_DMA) with false.
    change (Z.eqb GFP_KERNEL GFP_RES) with false. cbn [orb]. rewrite (proj2 (Z.leb_gt PAGE_SIZE size)) by lia.
    unfold get_slab_in_list. change (truth (GFP_KERNEL &u GFP_KERNEL)) with true. cbn [negb].
    fold ns in Ehd. rewrite Ehd, bind_Some_eq. cbn [get_slab_in_list_loop]. unfold get_slab_in_list_body.
    rewrite (is_list_empty_spec _ _ _ Hhd), bind_Some_eq. rewrite bool_decide_true by done.
    rewrite !bind_Some_eq. change (truth 0) with false. cbn iota.
    rewrite E, bind_Some_eq. unfold truth at 1. rewrite (proj2 (Z.eqb_neq k.(free_base) 0)) by done. cbn [negb].
    rewrite bind_Some_eq. unfold unlock_slab. rewrite F3. cbn [mm s1 with_slab_locks with_mm with_locks locks].
    by rewrite E2, !bind_Some_eq.
Qed.
End kmalloc.
