(* ===== verification/Pid.v ===== *)
(** * Process identifiers

    Models the pid map of [kernel/sched.c]: [struct pid_map], a page with the address
    of the task of each pid, guarded by a mutex.  The page is the array [pid_tasks];
    it comes from the page allocator, whose state the operations thread. *)

From S2P Require Import Prelude ListHead TaskStruct Bitops MmTypes Pages.

Record pid_map : Type := Mk_pid_map {
  nr_free : Z;
  pid_current : Z;
  pid_nr : Z;
  pid_addr : Z;
  pid_tasks : list Z
}.

Definition PID_MAP_PAGE_NR : Z := 1.

Section pid.
Context {L : Type} {LC : LockCalls L} {LO : LockOps L}.
Variable kernel_start : Z.
Variable zone_mutex : Z -> Z.
(** The address of [pid_map.pid_map_mutex]. *)
Variable pid_mutex : Z.

Implicit Types (l : L) (p : pid_map) (task pid : Z).

(** [init_mutex] is given by the client of the lock interface. *)
Definition init_pid_allocater (init_lock : Z -> L -> L) (s : mm_state L)
  : option (Z * pid_map * mm_state L) :=
  let s0 := with_locks (init_lock pid_mutex s.(locks)) s in
  let nr := (PID_MAP_PAGE_NR * PAGE_SIZE) / 4 in
  '(a, s1) ← get_free_pages kernel_start zone_mutex PID_MAP_PAGE_NR GFP_KERNEL s0;
  if Z.eqb a 0 then Some (- ENOMEM, Mk_pid_map nr 0 nr 0 [], s1)
  else Some (0, Mk_pid_map nr 0 nr a (replicate (Z.to_nat nr) 0), s1).

Definition release_pid (pid : Z) p l : option (Z * pid_map * L) :=
  l1 ← lk_lock pid_mutex l;
  t ← aset p.(pid_tasks) pid 0;
  l2 ← lk_unlock pid_mutex l1;
  Some (0, Mk_pid_map p.(nr_free) p.(pid_current) p.(pid_nr) p.(pid_addr) t, l2).

(** The search from [map->current]. *)
Fixpoint find_pid (fuel : nat) (i nr : Z) (tasks : list Z) : option (option Z) :=
  match fuel with
  | O => None
  | S fuel' =>
      if Z.ltb i nr then
        w ← aget tasks i;
        if Z.eqb w 0 then Some (Some i) else find_pid fuel' (i + 1) nr tasks
      else Some None
  end.

Definition get_new_pid task p l : option (Z * pid_map * L) :=
  l1 ← lk_lock pid_mutex l;
  r ← (if Z.eqb p.(nr_free) 0 then Some None
       else find_pid (S (Z.to_nat (p.(pid_nr) - p.(pid_current)))) p.(pid_current) p.(pid_nr) p.(pid_tasks));
  match r with
  | Some i =>
      t ← aset p.(pid_tasks) i (u32 task);
      l2 ← lk_unlock pid_mutex l1;
      Some (i, Mk_pid_map (p.(nr_free) - 1) (p.(pid_current) + 1) p.(pid_nr) p.(pid_addr) t, l2)
  | None =>
      l2 ← lk_unlock pid_mutex l1;
      Some (-1, p, l2)
  end.

(** A negative pid reads before the table. *)
Definition pid_get_task pid p : option Z :=
  if Z.ltb pid p.(pid_nr) then aget p.(pid_tasks) pid else Some 0.

(** ** The life of the pid map *)

Inductive pid_op : Type :=
  | NewPid (task : Z)
  | ReleasePid (pid : Z).

Definition pid_step (o : pid_op) p l : option (Z * pid_map * L) :=
  match o with NewPid t => get_new_pid t p l | ReleasePid i => release_pid i p l end.

(** The results of a sequence of calls. *)
Fixpoint pid_run (os : list pid_op) p l : option (list Z * pid_map * L) :=
  match os with
  | [] => Some ([], p, l)
  | o :: os' =>
      '(r, p1, l1) ← pid_step o p l;
      '(rs, p2, l2) ← pid_run os' p1 l1;
      Some (r :: rs, p2, l2)
  end.

(** ** Invariant

    The pids below [pid_current] have been given out, the others are free. *)
Record pid_wf p : Prop := {
  pw_cur : 0 <= p.(pid_current) <= p.(pid_nr);
  pw_len : length p.(pid_tasks) = Z.to_nat p.(pid_nr);
  pw_free : p.(nr_free) = p.(pid_nr) - p.(pid_current);
  pw_zero : forall i, p.(pid_current) <= i < p.(pid_nr) -> aget p.(pid_tasks) i = Some 0
}.

Lemma find_pid_now f i nr t : i < nr -> aget t i = Some 0 -> find_pid (S f) i nr t = Some (Some i).
Proof. intros Hi E. cbn [find_pid]. by rewrite (proj2 (Z.ltb_lt i nr) Hi), E. Qed.

Lemma get_new_pid_ok task p l :
  pid_wf p -> lk_free l pid_mutex ->
  exists p' l', lk_free l' pid_mutex /\ pid_wf p' /\
    get_new_pid task p l =
      Some (if Z.ltb p.(pid_current) p.(pid_nr) then p.(pid_current) else -1, p', l') /\
    p'.(pid_nr) = p.(pid_nr) /\
    p'.(pid_current) = (if Z.ltb p.(pid_current) p.(pid_nr) then p.(pid_current) + 1 else p.(pid_current)) /\
    (p.(pid_current) < p.(pid_nr) -> p'.(pid_tasks) = <[Z.to_nat p.(pid_current) := u32 task]> p.(pid_tasks)) /\
    (p.(pid_current) = p.(pid_nr) -> p' = p).
Proof.
  intros [Hc Hl Hf Hz] Hfree. destruct (lk_ok l pid_mutex Hfree) as (l1 & l2 & E1 & E2 & Hk).
  unfold get_new_pid. rewrite E1, bind_Some_eq.
  destruct (Z.ltb_spec p.(pid_current) p.(pid_nr)) as [Hlt|Hge].
  - rewrite (proj2 (Z.eqb_neq _ 0)) by lia. rewrite find_pid_now by (auto with lia). rewrite bind_Some_eq.
    rewrite aset_Some by lia. rewrite bind_Some_eq, E2, bind_Some_eq. eexists _, l2.
    split; [by apply Hk|]. split; [|repeat split; lia].
    constructor; cbn [pid_current pid_nr pid_tasks nr_free].
    + lia.
    + by rewrite length_insert.
    + lia.
    + intros i Hi. specialize (Hz i ltac:(lia)). apply aget_Some in Hz as [H0 Hz].
      apply aget_Some. split; [done|]. rewrite list_lookup_insert_ne; [done|lia].
  - rewrite (proj2 (Z.eqb_eq _ 0)) by lia. rewrite bind_Some_eq, E2, bind_Some_eq. exists p, l2.
    split; [by apply Hk|]. split; [by constructor|]. repeat split; lia.
Qed.

Lemma release_pid_ok pid p l :
  pid_wf p -> lk_free l pid_mutex -> 0 <= pid < p.(pid_current) ->
  exists p' l', lk_free l' pid_mutex /\ pid_wf p' /\ release_pid pid p l = Some (0, p', l') /\
    p'.(pid_nr) = p.(pid_nr) /\ p'.(pid_current) = p.(pid_current) /\
    p'.(pid_tasks) = <[Z.to_nat pid := 0]> p.(pid_tasks).
Proof.
  intros [Hc Hl Hf Hz] Hfree Hp. destruct (lk_ok l pid_mutex Hfree) as (l1 & l2 & E1 & E2 & Hk).
  unfold release_pid. rewrite E1, bind_Some_eq, aset_Some, bind_Some_eq, E2, bind_Some_eq by lia.
  eexists _, l2. split; [by apply Hk|]. split; [|done].
  constructor; cbn [pid_current pid_nr pid_tasks nr_free]; [lia|by rewrite length_insert|lia|].
  intros i Hi. specialize (Hz i Hi). apply aget_Some in Hz as [H0 Hz].
  apply aget_Some. split; [done|]. rewrite list_lookup_insert_ne; [done|lia].
Qed.

(** ** What a run gives out *)

Fixpoint news (os : list pid_op) : Z :=
  match os with [] => 0 | NewPid _ :: os' => 1 + news os' | ReleasePid _ :: os' => news os' end.

(** The results the code promises from [cur] on: the next number while there is one. *)
Fixpoint pid_results (os : list pid_op) (cur nr : Z) : list Z :=
  match os with
  | [] => []
  | NewPid _ :: os' =>
      if Z.ltb cur nr then cur :: pid_results os' (cur + 1) nr else -1 :: pid_results os' cur nr
  | ReleasePid _ :: os' => 0 :: pid_results os' cur nr
  end.

(** Only pids that were given out are released. *)
Fixpoint releases_ok (os : list pid_op) (cur nr : Z) : Prop :=
  match os with
  | [] => True
  | NewPid _ :: os' => releases_ok os' (if Z.ltb cur nr then cur + 1 else cur) nr
  | ReleasePid i :: os' => 0 <= i < cur /\ releases_ok os' cur nr
  end.

Lemma news_nonneg os : 0 <= news os.
Proof. induction os as [|[] os IH]; cbn [news]; lia. Qed.

Lemma pid_run_ok os p l :
  pid_wf p -> lk_free l pid_mutex -> releases_ok os p.(pid_current) p.(pid_nr) ->
  exists p' l', pid_run os p l = Some (pid_results os p.(pid_current) p.(pid_nr), p', l') /\
    pid_wf p' /\ lk_free l' pid_mutex /\ p'.(pid_nr) = p.(pid_nr) /\
    p'.(pid_current) = Z.min p.(pid_nr) (p.(pid_current) + news os).
Proof.
  revert p l. induction os as [|o os IH]; intros p l Hw Hf Hr.
  - exists p, l. pose proof (pw_cur p Hw). cbn [news pid_run pid_results]. repeat split; try done; try lia.
    all: by destruct Hw.
  - destruct o as [t|i]; cbn [pid_run pid_step pid_results news releases_ok] in *.
    + destruct (get_new_pid_ok t p l Hw Hf) as (p1 & l1 & Hf1 & Hw1 & E1 & En & Ec & _ & _).
      rewrite E1, bind_Some_eq. rewrite <- Ec, <- En in Hr.
      destruct (IH p1 l1 Hw1 Hf1 Hr) as (p2 & l2 & E2 & Hw2 & Hf2 & En2 & Ec2).
      rewrite E2, bind_Some_eq. exists p2, l2.
      pose proof (pw_cur p Hw). pose proof (news_nonneg os).
      rewrite Ec2, En2, En, Ec. destruct (Z.ltb_spec p.(pid_current) p.(pid_nr));
        (split; [done|]; split; [exact Hw2|]; split; [exact Hf2|]; lia).
    + destruct Hr as [Hi Hr].
      destruct (release_pid_ok i p l Hw Hf Hi) as (p1 & l1 & Hf1 & Hw1 & E1 & En & Ec & _).
      rewrite E1, bind_Some_eq. rewrite <- Ec, <- En in Hr.
      destruct (IH p1 l1 Hw1 Hf1 Hr) as (p2 & l2 & E2 & Hw2 & Hf2 & En2 & Ec2).
      rewrite E2, bind_Some_eq. exists p2, l2. rewrite <- En, <- Ec.
      split; [done|]. split; [exact Hw2|]. split; [exact Hf2|]. split; congruence.
Qed.

(** ** Properties *)

(** C26. Pids are given out in order, each at most once: whatever tasks are created and
    released, the n-th request returns n as long as there are pids, and every later
    one returns -1, also when every earlier pid was released.  A pid looks up the task
    it was given to until it is released. *)
Theorem pids_in_order os p l :
  pid_wf p -> p.(pid_current) = 0 -> lk_free l pid_mutex -> releases_ok os 0 p.(pid_nr) ->
  exists p' l', pid_run os p l = Some (pid_results os 0 p.(pid_nr), p', l') /\
    p'.(pid_current) = Z.min p.(pid_nr) (news os) /\
    forall task, 0 < task < 2 ^ 32 ->
      exists p2 l2, get_new_pid task p' l' =
          Some (if Z.ltb (news os) p.(pid_nr) then news os else -1, p2, l2) /\
        (news os < p.(pid_nr) -> pid_get_task (news os) p2 = Some task).
Proof.
  intros Hw H0 Hf Hr. rewrite <- H0 in Hr.
  destruct (pid_run_ok os p l Hw Hf Hr) as (p' & l' & E & Hw' & Hf' & En & Ec).
  rewrite H0 in E, Ec. exists p', l'. split; [done|]. split; [done|]. intros task Ht.
  destruct (get_new_pid_ok task p' l' Hw' Hf') as (p2 & l2 & _ & Hw2 & E2 & En2 & Ec2 & Et & _).
  exists p2, l2. pose proof (news_nonneg os). pose proof (pw_cur p Hw). rewrite E2, Ec, En.
  destruct (Z.ltb_spec (news os) p.(pid_nr)).
  - rewrite Z.min_r by lia. split.
    + by rewrite (proj2 (Z.ltb_lt _ _)) by lia.
    + intros _. unfold pid_get_task. rewrite (proj2 (Z.ltb_lt _ _)) by lia.
      rewrite Et by lia. apply aget_Some. split; [lia|].
      rewrite Ec, Z.add_0_l, Z.min_r, list_lookup_insert_eq, u32_small by (rewrite ?(pw_len p' Hw'); lia).
      done.
  - rewrite Z.min_l by lia. split; [|lia]. by rewrite (proj2 (Z.ltb_ge _ _)) by lia.
Qed.
End pid.

Definition demo_pids : pid_map := Mk_pid_map 3 0 3 0x80100000 [0; 0; 0].

Lemma pids_in_order_witness :
  exists p' l', @pid_run unit _
    400 [NewPid 0x1000; ReleasePid 0; NewPid 0x2000; NewPid 0x3000; NewPid 0x4000] demo_pids tt =
      Some ([0; 0; 1; 2; -1], p', l').
Proof.
  edestruct (@pids_in_order unit _ _ 400 [NewPid 0x1000; ReleasePid 0; NewPid 0x2000; NewPid 0x3000; NewPid 0x4000]
    demo_pids tt) as (p' & l' & E & _).
  - constructor; [vm_compute; split; congruence|done|done|].
    intros i Hi. cbn in Hi. assert (Ei : i = 0 \/ i = 1 \/ i = 2) by lia.
    by destruct Ei as [->|[->| ->]].
  - done.
  - exact I.
  - vm_compute. repeat split; congruence.
  - exists p', l'. exact E.
Defined.
