(* ===== verification/Interrupt.v ===== *)
(** * Interrupts

    Models [kernel/interrupt.c], the interrupt part of [machine/arm920t_c.c] and
    [timer_tick_init] of [machine/s3c2440_c.c]: the table of handlers, registration and
    dispatch.  A handler is an address; what it does when called is a parameter,
    except that the timer handler is [os_tick_handler]. *)

From S2P Require Import Prelude ListHead TaskStruct Sched SchedInv SchedSpec SchedBoot SchedApi.
From S2P Require Import Bitops Mem CString MmTypes Pages S3c2440.

Record irq_des : Type := Mk_irq_des { fn : Z; arg : Z }.

Definition no_des : irq_des := Mk_irq_des 0 0.

Definition IRQ_NR : Z := 512.

(** [irq_table] is the array at [irq_table_base], empty while that is null. *)
Record irq_sys : Type := Mk_irq_sys {
  irq_table_base : Z;
  irq_table : list irq_des;
  plat : platform;
  sched_of : sched_state
}.

Definition with_irq_table (t : list irq_des) (x : irq_sys) : irq_sys :=
  Mk_irq_sys x.(irq_table_base) t x.(plat) x.(sched_of).
Definition with_plat (p : platform) (x : irq_sys) : irq_sys :=
  Mk_irq_sys x.(irq_table_base) x.(irq_table) p x.(sched_of).
Definition with_sched_of (s : sched_state) (x : irq_sys) : irq_sys :=
  Mk_irq_sys x.(irq_table_base) x.(irq_table) x.(plat) s.

Section interrupt.
Variable dev_read : list io_write -> Z -> Z.
Variable pa_to_va : Z -> Z.
(** A call of the function at an address, with its argument. *)
Variable call : Z -> Z -> irq_sys -> option (Z * irq_sys).
(** The address of [platform_timer_tick_handler]. *)
Variable tick_handler : Z.

Implicit Types (x : irq_sys) (nr f a : Z).

(** ** Masking in the processor *)

Definition disable_irqs (s : sched_state) : sched_state := with_cpsr_c (s.(cpsr_c) |u 0xc0) s.
Definition enable_irqs (s : sched_state) : sched_state := with_cpsr_c (Z.land s.(cpsr_c) (Z.lnot 0xc0)) s.

(** ** The table *)

(** [sizeof(struct irq_des)] is 8. *)
Definition arch_get_irq_description nr x : Z := x.(irq_table_base) +u u32 (8 * nr).

(** The entry a description points to. *)
Definition get_des nr x : option irq_des := aget x.(irq_table) nr.

Definition arch_register_irq nr f a x : option (Z * irq_sys) :=
  if truth (arch_get_irq_description nr x) then
    d ← get_des nr x;
    if Z.eqb d.(fn) 0 then
      t ← aset x.(irq_table) nr (Mk_irq_des f a);
      Some (0, with_plat (platform_enable_irq dev_read nr x.(plat)) (with_irq_table t x))
    else Some (1, x)
  else Some (1, x).

Definition register_irq nr f a x : option (Z * irq_sys) :=
  if Z.ltb (IRQ_NR - 1) nr || Z.eqb f 0 then Some (- EINVAL, x)
  else
    let '(flags, s) := enter_critical x.(sched_of) in
    '(err, x1) ← arch_register_irq nr f a (with_sched_of s x);
    Some (err, with_sched_of (exit_critical flags x1.(sched_of)) x1).

(** ** Dispatch *)

Definition do_irq_handler nr x : option (Z * irq_sys) :=
  let x := with_sched_of (with_in_interrupt 1 x.(sched_of)) x in
  if negb (truth (arch_get_irq_description nr x)) then Some (- EINVAL, x)
  else
    d ← get_des nr x;
    '(ret, x1) ← (if Z.eqb d.(fn) 0 then None else call d.(fn) d.(arg) x);
    Some (ret, with_sched_of (with_in_interrupt 0 x1.(sched_of)) x1).

Definition irq_handler x : option irq_sys :=
  let nr := platform_get_irq_id dev_read x.(plat) in
  let x := with_plat (platform_irq_clean_pending dev_read x.(plat)) x in
  '(_, x1) ← do_irq_handler nr x;
  Some x1.

(** ** Initialisation *)

Definition arch_irq_init {L : Type} {LC : LockCalls L} (kernel_start : Z) (zone_mutex : Z -> Z)
    (x : irq_sys) (s : mm_state L) : option (Z * irq_sys * mm_state L) :=
  let nr := s32 (page_nr (u32 (IRQ_NR * 8))) in
  '(base, s1) ← get_free_pages kernel_start zone_mutex nr GFP_KERNEL s;
  if Z.eqb base 0 then Some (- ENOMEM, Mk_irq_sys 0 [] x.(plat) x.(sched_of), s1)
  else
    let t := replicate (Z.to_nat (Z.shiftl nr PAGE_SHIFT / 8)) no_des in
    let '(_, p) := platform_irq_init pa_to_va x.(plat) in
    Some (0, Mk_irq_sys base t p x.(sched_of), s1).

Definition timer_tick_init x : option (Z * irq_sys) :=
  let '(err, p) := timer_setup pa_to_va x.(plat) in
  let x := with_plat p x in
  if truth err then Some (err, x)
  else
    '(_, x1) ← register_irq TIMER4 tick_handler 0 x;
    Some (0, x1).

(** [platform_timer_tick_handler]. *)
Definition platform_timer_tick_handler (a : Z) x : option (Z * irq_sys) :=
  s ← os_tick_handler x.(sched_of);
  Some (0, with_sched_of s x).
End interrupt.

(** ** Masks *)

Section masks.
Variable dev_read : list io_write -> Z -> Z.
Implicit Types (p : platform) (nr : Z).

(** The stores [platform_enable_irq] makes, in order. *)
Definition enable_writes nr p (msk sub : Z) : Prop :=
  (platform_enable_irq dev_read nr p).(io) =
    p.(io) ++ [W32 (p.(irq_base) + INTMSK) msk; W32 (p.(irq_base) + INTSUBMSK) sub].

Definition disable_writes nr p (msk sub : Z) : Prop :=
  (platform_disable_irq dev_read nr p).(io) =
    p.(io) ++ [W32 (p.(irq_base) + INTMSK) msk; W32 (p.(irq_base) + INTSUBMSK) sub].

Lemma u32_testbit v i : 0 <= i < 32 -> Z.testbit (u32 v) i = Z.testbit v i.
Proof. intros Hi. unfold u32, wrap. by rewrite Z.mod_pow2_bits_low by lia. Qed.

Lemma s32_testbit v i : 0 <= i < 32 -> Z.testbit (s32 v) i = Z.testbit v i.
Proof. intros Hi. by rewrite <- u32_testbit, u32_s32, u32_testbit. Qed.

(** [platform_enable_irq] clears the mask bit of its interrupt and the bits of its
    sub-sources, [platform_disable_irq] sets them; every other bit of the two mask
    registers is written back as it was read, and nothing else is written. *)
Theorem irq_masks_change_one_line nr p :
  0 <= nr < 32 ->
  (exists msk sub, enable_writes nr p msk sub /\ forall i, 0 <= i < 32 ->
     Z.testbit msk i = Z.testbit (ioread32 dev_read (p.(irq_base) + INTMSK) p) i && negb (Z.eqb i nr) /\
     Z.testbit sub i = Z.testbit (ioread32 dev_read (p.(irq_base) + INTSUBMSK) p) i &&
       negb (bool_decide (i ∈ sub_sources nr))) /\
  (exists msk sub, disable_writes nr p msk sub /\ forall i, 0 <= i < 32 ->
     Z.testbit msk i = Z.testbit (ioread32 dev_read (p.(irq_base) + INTMSK) p) i || Z.eqb i nr /\
     Z.testbit sub i = Z.testbit (ioread32 dev_read (p.(irq_base) + INTSUBMSK) p) i ||
       bool_decide (i ∈ sub_sources nr)).
Proof.
  intros Hn. split.
  - do 2 eexists. split.
    + unfold enable_writes, platform_enable_irq, iowrite32. cbn [io with_io irq_base].
      rewrite <- app_assoc. reflexivity.
    + intros i Hi. rewrite !u32_testbit, !Z.land_spec, !s32_testbit, land_bits by (done || apply sub_sources_range).
      by rewrite Z.lnot_spec, bit_testbit by lia.
  - do 2 eexists. split.
    + unfold disable_writes, platform_disable_irq, iowrite32. cbn [io with_io irq_base].
      rewrite <- app_assoc. reflexivity.
    + intros i Hi. rewrite !u32_testbit, !Z.lor_spec, lor_bits by (done || apply sub_sources_range).
      by rewrite bit_testbit by lia.
Qed.
End masks.

(** ** Registration and dispatch *)

Section dispatch.
Variable dev_read : list io_write -> Z -> Z.
Variable pa_to_va : Z -> Z.
Variable call : Z -> Z -> irq_sys -> option (Z * irq_sys).
Variable tick_handler : Z.
Implicit Types (x : irq_sys) (nr f a : Z).

(** The table has been allocated. *)
Record irq_wf x : Prop := {
  iw_base : 0 < x.(irq_table_base) /\ x.(irq_table_base) + 8 * IRQ_NR <= 2 ^ 32;
  iw_len : length x.(irq_table) = Z.to_nat IRQ_NR
}.

Lemma irq_description nr x :
  irq_wf x -> 0 <= nr < IRQ_NR -> truth (arch_get_irq_description nr x) = true.
Proof.
  intros [Hb _] Hn. unfold arch_get_irq_description, IRQ_NR in *.
  rewrite (u32_small (8 * nr)), u32_small by lia. unfold truth.
  by rewrite (proj2 (Z.eqb_neq _ 0)) by lia.
Qed.

(** The state in which the handler of an interrupt starts. *)
Definition irq_entry x : irq_sys :=
  with_sched_of (with_in_interrupt 1 x.(sched_of))
    (with_plat (platform_irq_clean_pending dev_read x.(plat)) x).

Definition irq_leave x : irq_sys := with_sched_of (with_in_interrupt 0 x.(sched_of)) x.

Lemma exit_enter (s : sched_state) (s' : sched_state) :
  s' = (enter_critical s).2 -> exit_critical (enter_critical s).1 s' = s.
Proof. intros ->. by destruct s. Qed.

Lemma register_irq_free nr f a x d :
  irq_wf x -> 0 <= nr < IRQ_NR -> f <> 0 -> get_des nr x = Some d -> d.(fn) = 0 ->
  register_irq dev_read nr f a x =
    Some (0, with_plat (platform_enable_irq dev_read nr x.(plat))
               (with_irq_table (<[Z.to_nat nr := Mk_irq_des f a]> x.(irq_table)) x)).
Proof.
  intros Hw Hn Hf Hd H0. unfold register_irq. rewrite (proj2 (Z.ltb_ge _ nr)) by lia.
  rewrite (proj2 (Z.eqb_neq f 0) Hf). cbn [orb]. unfold enter_critical.
  unfold arch_register_irq.
  assert (Hw' : irq_wf (with_sched_of (with_cpsr_c (x.(sched_of).(cpsr_c) |u 0xc0) x.(sched_of)) x))
    by (destruct Hw; by constructor).
  rewrite (irq_description nr _ Hw' Hn). change (get_des nr (with_sched_of _ x)) with (get_des nr x).
  rewrite Hd, bind_Some_eq, H0. cbn [Z.eqb]. cbn [irq_table with_sched_of].
  rewrite aset_Some, !bind_Some_eq by (rewrite (iw_len x Hw); lia).
  f_equal. f_equal. destruct x as [? ? ? []]. reflexivity.
Qed.

(** C27. [register_irq] on a free line accepts the handler: it enters the table at that
    line only and the line is unmasked; a second registration of the line is refused
    without a change.  From then on an interrupt whose number the controller reports
    as [nr] acknowledges the controller, runs that handler with that argument,
    with [in_interrupt] set, and clears [in_interrupt] afterwards. *)
Theorem registered_irq_runs_handler nr f a x d :
  irq_wf x -> 0 <= nr < IRQ_NR -> f <> 0 -> get_des nr x = Some d -> d.(fn) = 0 ->
  exists x', register_irq dev_read nr f a x = Some (0, x') /\
    x'.(plat) = platform_enable_irq dev_read nr x.(plat) /\ x'.(sched_of) = x.(sched_of) /\
    (forall i, get_des i x' = if Z.eqb i nr then Some (Mk_irq_des f a) else get_des i x) /\
    (forall f' a', register_irq dev_read nr f' a' x' = Some (if Z.eqb f' 0 then - EINVAL else 1, x')) /\
    (forall y r y', y.(irq_table) = x'.(irq_table) -> y.(irq_table_base) = x'.(irq_table_base) ->
       platform_get_irq_id dev_read y.(plat) = nr -> call f a (irq_entry y) = Some (r, y') ->
       irq_handler dev_read call y = Some (irq_leave y')).
Proof.
  intros Hw Hn Hf Hd H0. eexists. split; [by apply (register_irq_free nr f a x d)|].
  set (x' := with_plat _ _).
  assert (Hw' : irq_wf x').
  { destruct Hw as [? Hl]. constructor; [done|]. unfold x'. cbn [irq_table with_plat with_irq_table].
    by rewrite length_insert. }
  assert (Hg : forall i, get_des i x' = if Z.eqb i nr then Some (Mk_irq_des f a) else get_des i x).
  { intros i. unfold get_des, x'. cbn [irq_table with_plat with_irq_table].
    pose proof (aset_Some x.(irq_table) nr (Mk_irq_des f a) ltac:(rewrite (iw_len x Hw); lia)) as Ea.
    destruct (Z.eqb_spec i nr) as [->|Hne]; [by apply (aget_aset_eq _ _ _ _ Ea)|].
    by apply (aget_aset_ne _ _ _ _ _ Ea). }
  split; [done|]. split; [done|]. split; [exact Hg|]. split.
  - intros f' a'. unfold register_irq. rewrite (proj2 (Z.ltb_ge _ nr)) by lia. cbn [orb].
    destruct (Z.eqb_spec f' 0); [done|]. unfold enter_critical, arch_register_irq.
    assert (Hw2 : irq_wf (with_sched_of (with_cpsr_c (x'.(sched_of).(cpsr_c) |u 0xc0) x'.(sched_of)) x'))
      by (destruct Hw'; by constructor).
    rewrite (irq_description nr _ Hw2 Hn). change (get_des nr (with_sched_of _ x')) with (get_des nr x').
    rewrite Hg, Z.eqb_refl, bind_Some_eq. cbn [fn]. rewrite (proj2 (Z.eqb_neq f 0) Hf).
    cbn [mbind option_bind]. f_equal. f_equal. destruct x' as [? ? ? []]. reflexivity.
  - intros y r y' Et Eb Ei Ec. unfold irq_handler. rewrite Ei. unfold do_irq_handler.
    change (with_sched_of _ (with_plat _ y)) with (irq_entry y). cbv zeta.
    assert (Hy : truth (arch_get_irq_description nr (irq_entry y)) = true).
    { rewrite <- (irq_description nr x' Hw' Hn). unfold arch_get_irq_description.
      cbn [irq_table_base irq_entry with_sched_of with_plat]. by rewrite Eb. }
    rewrite Hy. cbn [negb].
    assert (Hgy : get_des nr (irq_entry y) = Some (Mk_irq_des f a)).
    { transitivity (get_des nr x'); [|by rewrite Hg, Z.eqb_refl]. unfold get_des.
      cbn [irq_table irq_entry with_sched_of with_plat]. by rewrite Et. }
    rewrite Hgy, bind_Some_eq. cbn [fn arg]. rewrite (proj2 (Z.eqb_neq f 0) Hf), Ec, !bind_Some_eq.
    done.
Qed.

(** After [timer_tick_init] on a free line, every interrupt of timer 4 is a tick of the
    scheduler: its effect on the scheduler is [os_tick_handler] run with [in_interrupt]
    set, and the handler table does not change. *)
Theorem timer_interrupt_ticks x d y s :
  irq_wf x -> get_des TIMER4 x = Some d -> d.(fn) = 0 -> pa_to_va TIMER_BASE <> 0 ->
  tick_handler <> 0 -> (forall a z, call tick_handler a z = platform_timer_tick_handler a z) ->
  exists x', timer_tick_init dev_read pa_to_va tick_handler x = Some (0, x') /\
    x'.(sched_of) = x.(sched_of) /\
    (y.(irq_table) = x'.(irq_table) -> y.(irq_table_base) = x'.(irq_table_base) ->
     platform_get_irq_id dev_read y.(plat) = TIMER4 ->
     os_tick_handler (with_in_interrupt 1 y.(sched_of)) = Some s ->
     exists y', irq_handler dev_read call y = Some y' /\
       y'.(sched_of) = with_in_interrupt 0 s /\ y'.(irq_table) = y.(irq_table)).
Proof.
  intros Hw Hd H0 Hpv Ht Hcall. unfold timer_tick_init, timer_setup, request_io_mem.
  cbn [timer_base with_timer_base]. rewrite (proj2 (Z.eqb_neq _ 0) Hpv). cbn iota beta.
  change (truth 0) with false. cbn iota. set (p := iowrite32 _ _ _). set (x1 := with_plat p x).
  assert (Hw1 : irq_wf x1) by (destruct Hw; by constructor).
  rewrite (register_irq_free TIMER4 tick_handler 0 x1 d Hw1) by (done || (unfold TIMER4, IRQ_NR; lia)).
  rewrite bind_Some_eq. eexists. split; [reflexivity|]. split; [done|].
  intros Et Eb Ei Es. unfold irq_handler, do_irq_handler. rewrite Ei.
  change (with_sched_of _ (with_plat _ y)) with (irq_entry y). cbv zeta.
  assert (Hy : truth (arch_get_irq_description TIMER4 (irq_entry y)) = true).
  { rewrite <- (irq_description TIMER4 x1 Hw1) by (unfold TIMER4, IRQ_NR; lia).
    unfold arch_get_irq_description. cbn [irq_table_base irq_entry with_sched_of with_plat].
    by rewrite Eb. }
  rewrite Hy. cbn [negb].
  assert (Hgy : get_des TIMER4 (irq_entry y) = Some (Mk_irq_des tick_handler 0)).
  { unfold get_des. cbn [irq_table irq_entry with_sched_of with_plat]. rewrite Et.
    cbn [irq_table with_plat with_irq_table x1].
    apply (aget_aset_eq x.(irq_table) _ _ _). apply aset_Some. rewrite (iw_len x Hw).
    unfold TIMER4, IRQ_NR. lia. }
  rewrite Hgy, bind_Some_eq. cbn [fn arg]. rewrite (proj2 (Z.eqb_neq _ 0) Ht), Hcall.
  unfold platform_timer_tick_handler. cbn [sched_of irq_entry with_sched_of].
  change (sched_of (with_plat _ y)) with (sched_of y).
  rewrite Es, !bind_Some_eq. eexists. split; [done|]. done.
Qed.

(** Before the table is allocated, an interrupt 0 is refused with [in_interrupt] left
    set, so [sched] and [mutex_lock_timeout] refuse to run from then on. *)
Theorem early_irq_leaves_in_interrupt x :
  x.(irq_table_base) = 0 ->
  exists x', do_irq_handler call 0 x = Some (- EINVAL, x') /\ x'.(sched_of).(in_interrupt) = 1.
Proof.
  intros Hb. unfold do_irq_handler, arch_get_irq_description. cbn [irq_table_base with_sched_of].
  rewrite Hb. change (truth (0 +u u32 (8 * 0))) with false. cbn [negb]. by eexists.
Qed.
End dispatch.

(** ** An example system *)

Definition demo_irq (s : sched_state) : irq_sys :=
  Mk_irq_sys 0x80200000 (replicate 512 no_des) (Mk_platform 0 0 0 0 0 0 0 0 []) s.

Lemma demo_irq_wf s : irq_wf (demo_irq s).
Proof. constructor; [vm_compute; split; congruence|reflexivity]. Qed.

(** One task runs with five ticks left, nobody sleeps. *)
Definition demo_ticking : sched_state :=
  Mk_sched {[ TaskSleep := ListHead TaskSleep TaskSleep ]} {[ 4096 := with_run_time 5 task0 ]} [] 0 0 0
    4096 4096 4096 1 0 0x13 ∅.

(** A handler at 0x1000 that does nothing, the timer handler at 0x2000; the controller
    always reports line [nr]. *)
Definition demo_call (f a : Z) (x : irq_sys) : option (Z * irq_sys) :=
  if Z.eqb f 0x2000 then platform_timer_tick_handler a x else Some (a, x).

Lemma irq_masks_change_one_line_witness :
  exists msk sub, enable_writes (fun _ _ => 0xffffffff) UART0 (Mk_platform 0 0 0 0 0 0 0 0 []) msk sub /\
    Z.testbit msk 28 = false /\ Z.testbit msk 27 = true /\ Z.testbit sub 0 = false /\ Z.testbit sub 3 = true.
Proof.
  destruct (irq_masks_change_one_line (fun _ _ => 0xffffffff) UART0 (Mk_platform 0 0 0 0 0 0 0 0 []))
    as [(msk & sub & E & H) _]; [unfold UART0; lia|].
  exists msk, sub. split; [done|].
  destruct (H 28 ltac:(lia)) as [-> _], (H 27 ltac:(lia)) as [-> _], (H 0 ltac:(lia)) as [_ ->],
    (H 3 ltac:(lia)) as [_ ->]. vm_compute. done.
Defined.

Lemma registered_irq_runs_handler_witness :
  exists x', register_irq (fun _ _ => 9) 9 0x1000 7 (demo_irq demo_ticking) = Some (0, x') /\
    irq_handler (fun _ _ => 9) demo_call x' = Some (irq_leave (irq_entry (fun _ _ => 9) x')).
Proof.
  destruct (registered_irq_runs_handler (fun _ _ => 9) demo_call 9 0x1000 7 (demo_irq demo_ticking) no_des)
    as (x' & E & _ & _ & _ & _ & H).
  - apply demo_irq_wf.
  - unfold IRQ_NR. lia.
  - lia.
  - reflexivity.
  - reflexivity.
  - exists x'. split; [exact E|]. by apply (H x' 7).
Defined.

Lemma timer_interrupt_ticks_witness :
  exists x' y', timer_tick_init (fun _ _ => 14) id 0x2000 (demo_irq demo_ticking) = Some (0, x') /\
    irq_handler (fun _ _ => 14) demo_call x' = Some y' /\
    run_time <$> y'.(sched_of).(tasks) !! 4096 = Some 4.
Proof.
  destruct (timer_interrupt_ticks (fun _ _ => 14) id demo_call 0x2000 (demo_irq demo_ticking) no_des
    (default (demo_irq demo_ticking) (snd <$> timer_tick_init (fun _ _ => 14) id 0x2000 (demo_irq demo_ticking)))
    (default demo_ticking (os_tick_handler (with_in_interrupt 1 demo_ticking))))
    as (x' & E & Es & H).
  - apply demo_irq_wf.
  - reflexivity.
  - reflexivity.
  - discriminate.
  - discriminate.
  - reflexivity.
  - rewrite E in H. destruct H as (y' & Ey & Ey' & _).
    + reflexivity.
    + reflexivity.
    + reflexivity.
    + cbn [default fmap option_fmap option_map from_option id snd]. rewrite Es. vm_compute. reflexivity.
    + exists x', y'. split; [exact E|]. split; [exact Ey|]. rewrite Ey'. vm_compute. reflexivity.
Defined.
