(* ===== verification/Regs.v ===== *)
(** * Register frames

    Models [pt_regs] ([asm_sched.h]), the frames [machine/arm920t_c.c] builds for new
    tasks, and the part of [arch_switch_task_sw] ([arm920t_s.S]) that loads a frame.
    Registers are words; a frame is 18 words, lowest register at the lowest address. *)

From S2P Require Import Prelude ListHead TaskStruct Bitops Mem CString.

Record pt_regs : Type := Mk_pt_regs {
  r0 : Z; r1 : Z; r2 : Z; r3 : Z; r4 : Z; r5 : Z; r6 : Z; r7 : Z; r8 : Z; r9 : Z;
  r10 : Z; r11 : Z; r12 : Z; spsr : Z; lr : Z; sp : Z; cpsr : Z; pc : Z
}.

Definition with_r0 (v : Z) (x : pt_regs) : pt_regs :=
  Mk_pt_regs v x.(r1) x.(r2) x.(r3) x.(r4) x.(r5) x.(r6) x.(r7) x.(r8) x.(r9) x.(r10) x.(r11)
    x.(r12) x.(spsr) x.(lr) x.(sp) x.(cpsr) x.(pc).

Definition MODE_MASK : Z := 0x1f.
Definition USER_MODE : Z := 0x10.
Definition SVC_MODE : Z := 0x13.
Definition PROCESS_USER_STACK_BASE : Z := 0x80000000.
Definition PROCESS_USER_EXEC_BASE : Z := 0x00401000.
Definition PROCESS_USER_BASE : Z := 0x00400000.
Definition KERNEL_STACK_SIZE : Z := 4 * 1024.
Definition EFAULT : Z := 14.

(** ** The registers of a new task *)

(** The loop that counts the arguments. *)
Fixpoint count_args (fuel : nat) (tmp n : Z) (m : mem) : option Z :=
  match fuel with
  | O => None
  | S fuel' =>
      w ← load32 tmp m;
      if truth w then count_args fuel' (tmp + 4) (n + 1) m else Some n
  end.

Definition arch_init_pt_regs (fn arg : Z) (m : mem) : option pt_regs :=
  if truth fn then
    Some (Mk_pt_regs (u32 arg) 1 2 3 4 5 6 7 8 9 10 11 12 15 14 13 SVC_MODE (u32 fn))
  else
    n ← (if truth arg then count_args (S (size m)) arg 0 m else Some 0);
    Some (Mk_pt_regs (u32 n) PROCESS_USER_BASE 2 3 4 5 6 7 8 9 10 11 12 15 14
            PROCESS_USER_STACK_BASE USER_MODE PROCESS_USER_EXEC_BASE).

(** ** Frames *)

(** [*(--stack_base) = v]. *)
Definition push (v : Z) (st : Z * mem) : option (Z * mem) :=
  let a := st.1 -u 4 in
  m ← store32 a v st.2; Some (a, m).

Fixpoint push_all (vs : list Z) (st : Z * mem) : option (Z * mem) :=
  match vs with [] => Some st | v :: vs' => st' ← push v st; push_all vs' st' end.

Definition arch_set_up_task_stack (k : task_struct) (r : pt_regs) (m : mem)
  : option (Z * task_struct * mem) :=
  if negb (truth k.(stack_base)) then Some (- EFAULT, k, m)
  else
    '(a, m1) ← push_all
      [r.(pc); r.(cpsr); r.(sp); r.(lr); r.(spsr); r.(r12); r.(r11); r.(r10); r.(r9); r.(r8);
       r.(r7); r.(r6); r.(r5); r.(r4); r.(r3); r.(r2); r.(r1); r.(r0)]
      (k.(stack_origin) +u KERNEL_STACK_SIZE, m);
    Some (0, with_stack_base a k, m1).

Definition arch_set_task_return_value (r : pt_regs) (k : task_struct) : pt_regs :=
  with_r0 (u32 k.(pid)) r.

(** The registers a task runs with, in the mode it runs in. *)
Record context : Type := Mk_context {
  gpr : list Z;      (* r0 to r12 *)
  c_sp : Z;
  c_lr : Z;
  c_pc : Z;
  c_cpsr : Z
}.

Fixpoint load_words (n : nat) (a : Z) (m : mem) : option (list Z) :=
  match n with
  | O => Some []
  | S n' => w ← load32 a m; ws ← load_words n' (a + 4) m; Some (w :: ws)
  end.

(** From [ldr sp, [r2]] to the end of [arch_switch_task_sw], for a frame in user or
    supervisor mode. *)
Definition switch_to_frame (a : Z) (m : mem) : option context :=
  psr ← load32 (a + 64) m;
  lr ← load32 (a + 56) m;
  usp ← load32 (a + 60) m;
  ws ← load_words 13 a m;
  pc ← load32 (a + 68) m;
  let mode := Z.land psr MODE_MASK in
  if Z.eqb mode USER_MODE then Some (Mk_context ws usp lr pc psr)
  else if Z.eqb mode SVC_MODE then Some (Mk_context ws (a +u 72) lr pc psr)
  else None.

(** ** Reading back a frame *)

Definition frame (r : pt_regs) : list Z :=
  [r.(r0); r.(r1); r.(r2); r.(r3); r.(r4); r.(r5); r.(r6); r.(r7); r.(r8); r.(r9); r.(r10);
   r.(r11); r.(r12); r.(spsr); r.(lr); r.(sp); r.(cpsr); r.(pc)].

Lemma push_all_ok vs a m :
  4 * Z.of_nat (length vs) <= a < 2 ^ 32 ->
  room m (a - 4 * Z.of_nat (length vs)) (4 * Z.of_nat (length vs)) ->
  push_all vs (a, m) = Some (a - 4 * Z.of_nat (length vs),
    write (a - 4 * Z.of_nat (length vs)) (words_bytes (reverse vs)) m).
Proof.
  revert a m. induction vs as [|v vs IH]; intros a m Ha Hr; cbn [push_all length].
  - cbn. f_equal. f_equal. lia.
  - cbn [length] in Ha, Hr. unfold push. cbn [fst snd]. rewrite u32_small by lia.
    assert (Hr4 : room m (a - 4) 4).
    { replace (a - 4) with (a - 4 * Z.of_nat (S (length vs)) + 4 * Z.of_nat (length vs)) by lia.
      apply (room_le _ _ _ _ _ Hr); lia. }
    rewrite store32_ok by done. rewrite !bind_Some_eq.
    rewrite IH.
    + f_equal. rewrite reverse_cons, words_app.
      rewrite (write_app _ (words_bytes (reverse vs))), length_words, length_reverse.
      replace (a - 4 - 4 * Z.of_nat (length vs)) with (a - 4 * Z.of_nat (S (length vs))) by lia.
      rewrite write_comm.
      * replace (a - 4 * Z.of_nat (S (length vs)) + Z.of_nat (4 * length vs)) with (a - 4) by lia.
        change (words_bytes [v]) with (word_list v ++ []). by rewrite app_nil_r.
      * rewrite length_words, length_reverse. cbn [length]. unfold word_list. cbn [length]. lia.
    + lia.
    + apply room_write. replace (a - 4 - 4 * Z.of_nat (length vs)) with (a - 4 * Z.of_nat (S (length vs)) + 0) by lia.
      apply (room_le _ _ _ _ _ Hr); lia.
Qed.

Lemma load_words_ok ws a m :
  bytes_at m a (words_bytes ws) -> Forall is_u32 ws -> load_words (length ws) a m = Some ws.
Proof.
  revert a. induction ws as [|w ws IH]; intros a Hb Hw; [done|].
  apply Forall_cons in Hw as [Hw Hws]. cbn [length load_words].
  pose proof (load32_word m a (w :: ws) 0 w Hb eq_refl Hw) as E.
  change (4 * Z.of_nat 0) with 0 in E. rewrite Z.add_0_r in E. rewrite E, bind_Some_eq.
  rewrite IH; [done| |done]. change (w :: ws) with ([w] ++ ws) in Hb. rewrite words_app in Hb.
  apply bytes_at_app in Hb as [_ Hb]. by rewrite length_words in Hb.
Qed.

Definition regs_ok (r : pt_regs) : Prop := Forall is_u32 (frame r).

(** What a task sees that starts from a frame with registers [r]. *)
Definition started (r : pt_regs) (top : Z) : context :=
  Mk_context (take 13 (frame r)) (if Z.eqb (Z.land r.(cpsr) MODE_MASK) USER_MODE then r.(sp) else top)
    r.(lr) r.(pc) r.(cpsr).

Lemma switch_to_frame_ok r a m :
  regs_ok r -> bytes_at m a (words_bytes (frame r)) -> 0 <= a < 2 ^ 32 - 72 ->
  Z.land r.(cpsr) MODE_MASK = USER_MODE \/ Z.land r.(cpsr) MODE_MASK = SVC_MODE ->
  switch_to_frame a m = Some (started r (a + 72)).
Proof.
  intros Hr Hb Ha Hm. unfold switch_to_frame.
  assert (Hw : forall (i : nat) w, frame r !! i = Some w -> load32 (a + 4 * Z.of_nat i) m = Some w).
  { intros i w Hi. apply (load32_word _ _ _ _ _ Hb Hi). by apply (Forall_lookup_1 _ _ _ _ Hr Hi). }
  pose proof (Hw 16%nat _ eq_refl) as E16. pose proof (Hw 14%nat _ eq_refl) as E14.
  pose proof (Hw 15%nat _ eq_refl) as E15. pose proof (Hw 17%nat _ eq_refl) as E17.
  change (4 * Z.of_nat 16) with 64 in E16. change (4 * Z.of_nat 14) with 56 in E14.
  change (4 * Z.of_nat 15) with 60 in E15. change (4 * Z.of_nat 17) with 68 in E17. cbv zeta.
  rewrite E16, E14, E15, E17, !bind_Some_eq.
  assert (Ews : load_words 13 a m = Some (take 13 (frame r))).
  { apply (load_words_ok (take 13 (frame r))).
    - rewrite <- (take_drop 13 (frame r)), words_app in Hb. by apply bytes_at_app in Hb as [? _].
    - by apply Forall_take. }
  rewrite Ews, !bind_Some_eq. unfold started.
  destruct Hm as [Em|Em]; rewrite Em; cbn; [done|]. rewrite u32_small by lia. done.
Qed.

(** The frame a new task starts with. *)
Lemma set_up_stack_ok k r m :
  k.(stack_base) <> 0 -> 0 <= k.(stack_origin) < 2 ^ 32 - KERNEL_STACK_SIZE -> regs_ok r ->
  room m k.(stack_origin) KERNEL_STACK_SIZE ->
  Z.land r.(cpsr) MODE_MASK = USER_MODE \/ Z.land r.(cpsr) MODE_MASK = SVC_MODE ->
  let top := k.(stack_origin) + KERNEL_STACK_SIZE in
  exists k' m', arch_set_up_task_stack k r m = Some (0, k', m') /\
    k' = with_stack_base (top - 72) k /\
    switch_to_frame k'.(stack_base) m' = Some (started r top) /\
    forall x, ~ (top - 72 <= x < top) -> m' !! x = m !! x.
Proof.
  intros Hb Ho Hr Hroom Hm top. unfold KERNEL_STACK_SIZE in *. unfold arch_set_up_task_stack.
  unfold truth. rewrite (proj2 (Z.eqb_neq _ 0) Hb). cbn [negb].
  rewrite u32_small by (unfold KERNEL_STACK_SIZE; lia).
  rewrite push_all_ok; cbn [length]; unfold KERNEL_STACK_SIZE.
  - rewrite bind_Some_eq. eexists _, _. split; [reflexivity|].
    change (4 * Z.of_nat 18) with 72. split; [done|]. cbn [stack_base with_stack_base].
    change (reverse _) with (frame r).
    split.
    + replace (started r top) with (started r (k.(stack_origin) + 4 * 1024 - 72 + 72)) by (f_equal; unfold top; lia).
      apply switch_to_frame_ok; [done| |lia|done]. apply write_bytes.
    + intros x Hx. apply lookup_write_out. rewrite length_words. change (length (frame r)) with 18%nat. lia.
  - lia.
  - change (4 * Z.of_nat 18) with 72.
    replace (k.(stack_origin) + 4 * 1024 - 72) with (k.(stack_origin) + (4 * 1024 - 72)) by lia.
    apply (room_le _ _ _ _ _ Hroom); lia.
Qed.

(** ** Properties *)

(** A new task starts with the registers prepared for it: [arch_set_up_task_stack]
    builds a frame of 18 words at the top of the kernel stack and touches nothing
    else; when the scheduler switches to the task, it runs with exactly those values in
    r0 to r12, lr, pc and cpsr, with the prepared stack pointer in user mode and with
    the whole kernel stack free in supervisor mode. *)
Theorem new_task_starts k r m :
  k.(stack_base) <> 0 -> 0 <= k.(stack_origin) < 2 ^ 32 - KERNEL_STACK_SIZE -> regs_ok r ->
  room m k.(stack_origin) KERNEL_STACK_SIZE ->
  Z.land r.(cpsr) MODE_MASK = USER_MODE \/ Z.land r.(cpsr) MODE_MASK = SVC_MODE ->
  let top := k.(stack_origin) + KERNEL_STACK_SIZE in
  exists k' m', arch_set_up_task_stack k r m = Some (0, k', m') /\
    k' = with_stack_base (top - 72) k /\
    switch_to_frame k'.(stack_base) m' = Some (started r top) /\
    forall x, ~ (top - 72 <= x < top) -> m' !! x = m !! x.
Proof. apply set_up_stack_ok. Qed.

(** The argument array [exec] counts: non-null pointers up to a null one. *)
Definition argv_at (m : mem) (a : Z) (ps : list Z) : Prop :=
  bytes_at m a (words_bytes (ps ++ [0])) /\ Forall (fun p => 0 < p < 2 ^ 32) ps.

Lemma argv_cons m a p ps :
  argv_at m a (p :: ps) -> load32 a m = Some p /\ 0 < p < 2 ^ 32 /\ argv_at m (a + 4) ps.
Proof.
  intros [Hb [Hp Hps]%Forall_cons]. split; [|split; [done|]].
  - rewrite <- (Z.add_0_r a). by apply (load32_word m a _ 0%nat _ Hb); [|lia].
  - split; [|done]. change ((p :: ps) ++ [0]) with ([p] ++ (ps ++ [0])) in Hb.
    rewrite words_app in Hb. by apply bytes_at_app in Hb as [_ Hb].
Qed.

Lemma count_args_ok ps fuel a n m :
  argv_at m a ps -> (length ps < fuel)%nat ->
  count_args fuel a n m = Some (n + Z.of_nat (length ps)).
Proof.
  revert fuel a n. induction ps as [|p ps IH]; intros [|fuel] a n Ha Hf; cbn [length] in Hf; try lia;
    cbn [count_args].
  - destruct Ha as [Hb _]. pose proof (load32_word m a _ 0%nat 0 Hb eq_refl ltac:(lia)) as E.
    change (4 * Z.of_nat 0) with 0 in E. rewrite Z.add_0_r in E. rewrite E, bind_Some_eq.
    cbn [truth Z.eqb negb length]. f_equal. lia.
  - destruct (argv_cons _ _ _ _ Ha) as (E & Hp & Ha'). rewrite E, bind_Some_eq.
    unfold truth. rewrite (proj2 (Z.eqb_neq p 0)) by lia. cbn [negb].
    rewrite IH by (done || lia). f_equal. cbn [length]. lia.
Qed.

Lemma argv_size m a ps : argv_at m a ps -> (length ps < size m)%nat.
Proof.
  intros [Hb _]. apply bytes_at_size in Hb. rewrite length_words, length_app in Hb. cbn in Hb. lia.
Qed.

(** The registers [exec] prepares: the number of arguments, the address of the argument
    table, the entry point and the top of the user stack, in user mode. *)
Theorem exec_regs_count_arguments ps arg m :
  arg <> 0 -> argv_at m arg ps -> Z.of_nat (length ps) < 2 ^ 32 ->
  exists r, arch_init_pt_regs 0 arg m = Some r /\ regs_ok r /\
    Z.land r.(cpsr) MODE_MASK = USER_MODE /\
    r.(r0) = Z.of_nat (length ps) /\ r.(r1) = PROCESS_USER_BASE /\
    r.(pc) = PROCESS_USER_EXEC_BASE /\ r.(sp) = PROCESS_USER_STACK_BASE.
Proof.
  intros Ha Hps Hn. unfold arch_init_pt_regs. change (truth 0) with false. cbn iota.
  unfold truth. rewrite (proj2 (Z.eqb_neq arg 0) Ha). cbn [negb].
  pose proof (argv_size _ _ _ Hps). rewrite (count_args_ok ps) by (done || lia).
  rewrite bind_Some_eq, Z.add_0_l. eexists. split; [reflexivity|]. cbn [r0 r1 pc sp cpsr].
  rewrite u32_small by lia. split; [|done].
  unfold regs_ok, frame. cbn [r0 r1 r2 r3 r4 r5 r6 r7 r8 r9 r10 r11 r12 spsr lr sp cpsr pc].
  repeat apply Forall_cons_2; try apply Forall_nil_2; unfold is_u32, PROCESS_USER_BASE,
    PROCESS_USER_EXEC_BASE, PROCESS_USER_STACK_BASE, USER_MODE; lia.
Qed.

(** A kernel thread at 0x80001000 with argument 7, stack page at 0x80300000. *)
Definition demo_thread_regs : pt_regs := default (Mk_pt_regs 0 0 0 0 0 0 0 0 0 0 0 0 0 0 0 0 0 0)
  (arch_init_pt_regs 0x80001000 7 ∅).

Definition demo_stack_mem : mem := write 0x80300000 (replicate (Z.to_nat KERNEL_STACK_SIZE) 0) ∅.

Definition demo_new_task : task_struct :=
  Mk_task 0x80300000 0x80300000 [] PROCESS_TYPE_KERNEL 2 0 PROCESS_STATE_PREPARE PROCESS_STATE_UNKNOWN 0 0
    (Mk_mm_struct 0 0 None None) 0 1 0 0 0 5 5 0.

Lemma new_task_starts_witness :
  exists k' m', arch_set_up_task_stack demo_new_task demo_thread_regs demo_stack_mem = Some (0, k', m') /\
    switch_to_frame k'.(stack_base) m' =
      Some (Mk_context [7; 1; 2; 3; 4; 5; 6; 7; 8; 9; 10; 11; 12] 0x80301000 14 0x80001000 SVC_MODE).
Proof.
  destruct (new_task_starts demo_new_task demo_thread_regs demo_stack_mem) as (k' & m' & E & _ & E2 & _).
  - discriminate.
  - vm_compute. split; congruence.
  - apply (bool_decide_unpack (Forall (fun x => 0 <= x < 2 ^ 32) _)). vm_compute. exact I.
  - apply room_zeros.
  - right. reflexivity.
  - exists k', m'. split; [exact E|]. rewrite E2. reflexivity.
Defined.
