(* ===== verification/Syscall.v ===== *)
(** * System calls

    Models [kernel/syscall.c] and the dispatch of [machine/syscall_entry.S].  The
    table is the array at [syscall_table_base], one word per call number; the entries
    that [DEFINE_SYSCALL] places in the section [.__syscall] are a list of pairs of a
    number and an address. *)

From S2P Require Import Prelude ListHead TaskStruct Bitops Mem CString MmTypes Pages Regs.

Definition SYSCALL_NR : Z := 1024.
Definition __NR_SYSCALL_BASE : Z := 0x900000.
Definition __NR_exit : Z := __NR_SYSCALL_BASE + 1.
Definition __NR_fork : Z := __NR_SYSCALL_BASE + 2.
Definition __NR_write : Z := __NR_SYSCALL_BASE + 4.
Definition __NR_execve : Z := __NR_SYSCALL_BASE + 11.
Definition __NR_getpid : Z := __NR_SYSCALL_BASE + 20.
Definition __NR_signal : Z := __NR_SYSCALL_BASE + 48.

Record syscall : Type := Mk_syscall { sys_nr : Z; sys_addr : Z }.

(** ** Installation *)

Definition install_syscall (nr addr : Z) (table : list Z) : option (Z * list Z) :=
  let real_nr := nr - __NR_SYSCALL_BASE in
  if Z.ltb (SYSCALL_NR - 1) real_nr || Z.ltb real_nr 0 || Z.eqb addr 0 then Some (- EINVAL, table)
  else
    w ← aget table real_nr;
    if Z.eqb w 0 then t ← aset table real_nr (u32 addr); Some (0, t)
    else Some (- EINVAL, table).

(** The loop over the section; a refused entry is only reported. *)
Fixpoint install_all (es : list syscall) (table : list Z) : option (list Z) :=
  match es with
  | [] => Some table
  | e :: es' => '(_, t) ← install_syscall e.(sys_nr) e.(sys_addr) table; install_all es' t
  end.

(** [panic] does not return: no table. *)
Definition syscall_init {L : Type} {LC : LockCalls L} (kernel_start : Z) (zone_mutex : Z -> Z)
    (es : list syscall) (s : mm_state L) : option (option (Z * list Z) * mm_state L) :=
  let pages := s32 (page_nr (u32 (SYSCALL_NR * 4))) in
  '(base, s1) ← get_free_pages kernel_start zone_mutex pages GFP_KERNEL s;
  if Z.eqb base 0 then Some (None, s1)
  else
    t ← install_all es (replicate (Z.to_nat (Z.shiftl pages PAGE_SHIFT / 4)) 0);
    Some (Some (base, t), s1).

(** ** Dispatch *)

Section dispatch.
Context {St : Type}.
(** A call of the function at an address with seven arguments. *)
Variable call : Z -> list Z -> St -> option (Z * St).
Variable default_syscall_handler : Z.

(** [_syscall_handler]: the number is in r7, the arguments are r0 to r6, the result goes
    to r0 of the saved registers.  The index is not checked; the table is read at the
    word [lsl #2] behind its base, so the two top bits of the number are lost. *)
Definition syscall_handler (table : list Z) (r : pt_regs) (s : St) : option (pt_regs * St) :=
  let nr := r.(r7) -u __NR_SYSCALL_BASE in
  w ← aget table ((nr <<u 2) >>u 2);
  let f := if Z.eqb w 0 then default_syscall_handler else w in
  '(ret, s1) ← call f [r.(r0); r.(r1); r.(r2); r.(r3); r.(r4); r.(r5); r.(r6)] s;
  Some (with_r0 (u32 ret) r, s1).
End dispatch.

(** ** The table as a map *)

Definition valid_entry (e : syscall) : bool :=
  Z.leb 0 (e.(sys_nr) - __NR_SYSCALL_BASE) && Z.ltb (e.(sys_nr) - __NR_SYSCALL_BASE) SYSCALL_NR &&
  negb (Z.eqb e.(sys_addr) 0).

(** The first valid entry for a number. *)
Fixpoint first_entry (es : list syscall) (nr : Z) : Z :=
  match es with
  | [] => 0
  | e :: es' => if valid_entry e && Z.eqb e.(sys_nr) nr then e.(sys_addr) else first_entry es' nr
  end.

Definition addrs_ok (es : list syscall) : Prop := Forall (fun e => is_u32 e.(sys_addr)) es.

Lemma install_syscall_ok e t :
  (SYSCALL_NR <= Z.of_nat (length t)) -> is_u32 e.(sys_addr) ->
  exists r t', install_syscall e.(sys_nr) e.(sys_addr) t = Some (r, t') /\ length t' = length t /\
    (forall i, 0 <= i < SYSCALL_NR -> aget t' i =
       if valid_entry e && Z.eqb (e.(sys_nr) - __NR_SYSCALL_BASE) i && bool_decide (aget t i = Some 0)
       then Some e.(sys_addr) else aget t i).
Proof.
  intros Hl Ha. unfold install_syscall, valid_entry.
  set (n := e.(sys_nr) - __NR_SYSCALL_BASE).
  destruct (Z.leb_spec 0 n) as [H0|H0], (Z.ltb_spec n SYSCALL_NR) as [H1|H1], (Z.eqb_spec e.(sys_addr) 0) as [E0|E0];
    cbn [andb negb];
    try (rewrite (proj2 (Z.ltb_lt n 0)) by lia; rewrite orb_true_r; cbn [orb]; by eexists _, _);
    try (rewrite (proj2 (Z.ltb_lt (SYSCALL_NR - 1) n)) by lia; cbn [orb]; by eexists _, _);
    try (rewrite orb_true_r; by eexists _, _).
  rewrite (proj2 (Z.ltb_ge (SYSCALL_NR - 1) n)), (proj2 (Z.ltb_ge n 0)) by lia. cbn [orb].
  destruct (aget_is_Some t n) as [w Hw]; [lia|]. rewrite Hw, bind_Some_eq.
  destruct (Z.eqb_spec w 0) as [->|Hne].
  - pose proof (aset_Some t n (u32 e.(sys_addr)) ltac:(lia)) as Es. rewrite Es, bind_Some_eq.
    eexists _, _. split; [reflexivity|]. split; [by apply (aset_length _ _ _ _ Es)|].
    intros i Hi. destruct (Z.eqb_spec n i) as [<-|Hn].
    + rewrite bool_decide_true by done. cbn [andb]. rewrite (aget_aset_eq _ _ _ _ Es).
      by rewrite u32_small.
    + cbn [andb]. by rewrite (aget_aset_ne _ _ _ _ _ Es).
  - eexists _, _. split; [reflexivity|]. split; [done|]. intros i Hi.
    destruct (Z.eqb_spec n i) as [<-|]; [|done]. by rewrite Hw, bool_decide_false by congruence.
Qed.

Lemma install_all_ok es t :
  (SYSCALL_NR <= Z.of_nat (length t)) -> addrs_ok es -> Forall (fun w => w = 0) t ->
  exists t', install_all es t = Some t' /\ length t' = length t /\
    forall i, 0 <= i < SYSCALL_NR -> aget t' i = Some (first_entry es (i + __NR_SYSCALL_BASE)).
Proof.
  intros Hl Hes Hz.
  assert (G : forall es t, SYSCALL_NR <= Z.of_nat (length t) -> addrs_ok es ->
    exists t', install_all es t = Some t' /\ length t' = length t /\
      forall i w, 0 <= i < SYSCALL_NR -> aget t i = Some w ->
        aget t' i = Some (if Z.eqb w 0 then first_entry es (i + __NR_SYSCALL_BASE) else w)).
  { clear. induction es as [|e es IH]; intros t Hl Hes.
    - exists t. do 2 (split; [done|]). intros i w Hi E. rewrite E. cbn [first_entry].
      destruct (Z.eqb_spec w 0); [by subst|done].
    - apply Forall_cons in Hes as [He Hes].
      destruct (install_syscall_ok e t Hl He) as (r & t1 & E1 & El1 & H1).
      destruct (IH t1) as (t' & E' & El' & H'); [lia|done|].
      exists t'. cbn [install_all]. rewrite E1, bind_Some_eq. split; [done|]. split; [lia|].
      intros i w Hi Ew. specialize (H1 i Hi). rewrite Ew in H1. cbn [first_entry].
      replace (Z.eqb e.(sys_nr) (i + __NR_SYSCALL_BASE)) with (Z.eqb (e.(sys_nr) - __NR_SYSCALL_BASE) i)
        by (destruct (Z.eqb_spec (e.(sys_nr) - __NR_SYSCALL_BASE) i), (Z.eqb_spec e.(sys_nr) (i + __NR_SYSCALL_BASE)); lia).
      destruct (valid_entry e) eqn:Ev, (Z.eqb_spec (e.(sys_nr) - __NR_SYSCALL_BASE) i); cbn [andb] in *;
        try (by apply (H' i w Hi)).
      destruct (Z.eqb_spec w 0) as [->|Hw].
      + rewrite bool_decide_true in H1 by done. rewrite (H' i _ Hi H1).
        unfold valid_entry in Ev. apply andb_true_iff in Ev as [_ Ev].
        by destruct (Z.eqb_spec e.(sys_addr) 0).
      + rewrite bool_decide_false in H1 by congruence. rewrite (H' i _ Hi H1).
        by rewrite (proj2 (Z.eqb_neq w 0)). }
  destruct (G es t Hl Hes) as (t' & E & El & H). exists t'. do 2 (split; [done|]).
  intros i Hi. destruct (aget_is_Some t i) as [w Hw]; [lia|].
  rewrite (H i w Hi Hw). apply aget_Some in Hw as [_ Hw].
  pose proof (Forall_lookup_1 _ _ _ _ Hz Hw) as E0. cbn in E0. by rewrite E0.
Qed.

(** ** Properties *)

(** The word of the table a number selects: the number less the base, modulo 2^30. *)
Definition syscall_index (nr : Z) : Z := (nr - __NR_SYSCALL_BASE) mod 2 ^ 30.

Lemma table_offset x : 0 <= x < 2 ^ 32 -> ((x -u __NR_SYSCALL_BASE) <<u 2) >>u 2 = syscall_index x.
Proof.
  intros _. unfold syscall_index. generalize (x - __NR_SYSCALL_BASE) as y. intros y. unfold u32, wrap.
  rewrite Z.shiftl_mul_pow2, Z.shiftr_div_pow2 by lia. change (2 ^ 2) with 4.
  change (2 ^ 32) with (2 ^ 30 * 4). rewrite (Z.mul_mod_distr_r _ (2 ^ 30) 4), Z.div_mul by lia.
  rewrite (Z.div_mod y (2 ^ 30 * 4)) at 2 by lia.
  replace (2 ^ 30 * 4 * (y / (2 ^ 30 * 4)) + y mod (2 ^ 30 * 4))
    with (y mod (2 ^ 30 * 4) + (4 * (y / (2 ^ 30 * 4))) * 2 ^ 30) by ring.
  by rewrite Z.mod_add by lia.
Qed.

(** C29. After the installation of the entries into the table of 1024 words, a system call
    with a number in the table (less the base, and without its two top bits) runs the
    function of the first valid entry with that number, or the default handler when
    there is none, on the seven argument registers; its result is the r0 the program sees and no
    other register changes.  Later entries for a number in use and entries outside
    the table are refused.  A call with any other number is undefined: the dispatcher
    reads and jumps through a word behind the table. *)
Theorem syscall_runs_first_entry {St : Type} (call : Z -> list Z -> St -> option (Z * St))
    (dflt : Z) es r s :
  addrs_ok es -> 0 <= r.(r7) < 2 ^ 32 ->
  let nr := syscall_index r.(r7) in
  let f := first_entry es (nr + __NR_SYSCALL_BASE) in
  exists t, install_all es (replicate 1024 0) = Some t /\
    (nr < SYSCALL_NR -> forall ret s1,
       call (if Z.eqb f 0 then dflt else f)
         [r.(r0); r.(r1); r.(r2); r.(r3); r.(r4); r.(r5); r.(r6)] s = Some (ret, s1) ->
       syscall_handler call dflt t r s = Some (with_r0 (u32 ret) r, s1)) /\
    (SYSCALL_NR <= nr -> syscall_handler call dflt t r s = None).
Proof.
  intros Hes Hr nr f.
  destruct (install_all_ok es (replicate 1024 0)) as (t & E & El & H).
  - rewrite length_replicate. unfold SYSCALL_NR. lia.
  - done.
  - by apply Forall_replicate.
  - rewrite length_replicate in El. exists t. split; [done|]. unfold syscall_handler. rewrite table_offset by done. fold nr.
    assert (H0 : 0 <= nr) by (apply Z.mod_pos_bound; lia). split.
    + intros Hnr ret s1 Hc. rewrite H, bind_Some_eq by done. fold f. by rewrite Hc, bind_Some_eq.
    + intros Hnr. rewrite aget_None by (unfold SYSCALL_NR in Hnr; lia). done.
Qed.

(** The entries the kernel defines, at example addresses. *)
Definition demo_entries : list syscall :=
  [Mk_syscall __NR_getpid 0x80001000; Mk_syscall __NR_write 0x80002000; Mk_syscall __NR_write 0x80003000].

Definition demo_regs : pt_regs := Mk_pt_regs 1 2 3 4 5 6 7 __NR_write 0 0 0 0 0 0 0 0 0 0.

Lemma syscall_runs_first_entry_witness :
  exists t, install_all demo_entries (replicate 1024 0) = Some t /\
    syscall_handler (fun f _ (_ : unit) => Some (f, tt)) 9 t demo_regs tt = Some (with_r0 0x80002000 demo_regs, tt).
Proof.
  destruct (syscall_runs_first_entry (fun f _ (_ : unit) => Some (f, tt)) 9 demo_entries demo_regs tt)
    as (t & E & H & _).
  - repeat constructor; vm_compute; congruence.
  - vm_compute. split; congruence.
  - exists t. split; [exact E|]. apply (H ltac:(vm_compute; reflexivity) 0x80002000 tt). reflexivity.
Defined.

(** The dispatcher does not compare the number with the size of the table: a number
    past it reads a word after the table and would jump to it. *)
Theorem syscall_number_unchecked {St : Type} (call : Z -> list Z -> St -> option (Z * St)) dflt t r s :
  length t = 1024%nat -> 0 <= r.(r7) < 2 ^ 32 -> SYSCALL_NR <= syscall_index r.(r7) ->
  syscall_handler call dflt t r s = None.
Proof.
  intros Hl Hr Hnr. unfold syscall_handler, SYSCALL_NR in *. rewrite table_offset by done.
  by rewrite aget_None by lia.
Qed.
