(* ===== verification/SysWrite.v ===== *)
(** * The write system call

    Models [sys_write] of [arch/arm/machine/syscall.c] and follows a call from the saved
    registers of the program to the serial port. *)

From S2P Require Import Prelude ListHead TaskStruct Bitops Mem CString MmTypes Pages Regs S3c2440.
From S2P Require Import Syscall.

Section write.
(** The address of [sys_write], and of [default_syscall_handler]. *)
Variable write_addr : Z.
Variable dflt : Z.
Implicit Types (m : mem) (p : platform) (r : pt_regs).

(** On other files the function ends without a value, and its caller uses the value. *)
Definition sys_write (fd buf count : Z) m p : option (Z * platform) :=
  if Z.eqb (s32 fd) 1 then uart_put_char buf (s32 count) m p else None.

(** [default_syscall_handler] only reports the call. *)
Definition default_syscall_handler : Z := 0.

(** The calls of this file; the memory is the one the program sees. *)
Definition write_call m (f : Z) (args : list Z) p : option (Z * platform) :=
  if Z.eqb f write_addr then
    match args with fd :: buf :: count :: _ => sys_write fd buf count m p | _ => None end
  else if Z.eqb f dflt then Some (default_syscall_handler, p) else None.

Lemma put_char_ok l buf m p :
  bytes_at m buf l -> Forall (fun c => 0 <= c < 256) l ->
  uart_put_char buf (Z.of_nat (length l)) m p =
    Some (Z.of_nat (length l), with_io (p.(io) ++ transmit p.(uart_base) l) p).
Proof.
  intros Hb Hl. unfold uart_put_char. rewrite Nat2Z.id.
  set (f := fun i p => c ← load8 (buf + i) m; Some (platform_uart0_send_byte c p)).
  assert (G : for_range (length l) 0 f p = Some (with_io (p.(io) ++ transmit p.(uart_base) l) p)); [|by rewrite G].
  assert (G : forall l2 l1 p, l = l1 ++ l2 ->
    for_range (length l2) (Z.of_nat (length l1)) f p = Some (with_io (p.(io) ++ transmit p.(uart_base) l2) p)).
  { intros l2. induction l2 as [|c l2 IH]; intros l1 q El.
    - cbn. unfold transmit. cbn. rewrite app_nil_r. by destruct q.
    - assert (Hc : l !! length l1 = Some c) by (rewrite El; by apply list_lookup_middle).
      assert (Ef : f (Z.of_nat (length l1)) q = Some (with_io (q.(io) ++ transmit q.(uart_base) [c]) q)).
      { unfold f, load8. rewrite (Hb _ _ Hc), bind_Some_eq.
        by rewrite uart_send_ok by (by apply (Forall_lookup_1 _ _ _ _ Hl Hc)). }
      cbn [length for_range]. rewrite Ef, bind_Some_eq.
      replace (Z.of_nat (length l1) + 1) with (Z.of_nat (length (l1 ++ [c]))) by (rewrite length_app; simpl; lia).
      rewrite (IH (l1 ++ [c])) by (by rewrite <- app_assoc). cbn [io with_io uart_base].
      rewrite with_io_io, (transmit_cons _ c l2), <- app_assoc. reflexivity. }
  apply (G l [] p). done.
Qed.

(** A program that writes [l] to file 1 gets the number of bytes back, and the serial port
    receives the bytes with a carriage return before each line feed. *)
Theorem write_call_prints es n r l m p :
  addrs_ok es -> 1024 <= Z.of_nat n -> r.(r7) = __NR_write -> first_entry es __NR_write = write_addr ->
  write_addr <> 0 -> r.(r0) = 1 -> r.(r2) = Z.of_nat (length l) -> r.(r2) < 2 ^ 31 ->
  bytes_at m r.(r1) l -> Forall (fun c => 0 <= c < 256) l ->
  exists t, install_all es (replicate n 0) = Some t /\
    syscall_handler (write_call m) dflt t r p =
      Some (with_r0 (Z.of_nat (length l)) r, with_io (p.(io) ++ transmit p.(uart_base) l) p).
Proof.
  intros Hes Hn H7 Hf Hne H0 H2 Hlt Hb Hl.
  destruct (install_all_ok es (replicate n 0)) as (t & E & _ & H);
    [rewrite length_replicate; unfold SYSCALL_NR; lia|done|by apply Forall_replicate|].
  exists t. split; [done|]. unfold syscall_handler. rewrite H7.
  change (((__NR_write -u __NR_SYSCALL_BASE) <<u 2) >>u 2) with 4. rewrite (H 4) by (unfold SYSCALL_NR; lia).
  change (4 + __NR_SYSCALL_BASE) with __NR_write. rewrite Hf, bind_Some_eq. cbv zeta.
  rewrite (proj2 (Z.eqb_neq _ 0) Hne). unfold write_call. rewrite Z.eqb_refl. unfold sys_write.
  rewrite H0. change (Z.eqb (s32 1) 1) with true. rewrite H2, s32_small, (put_char_ok l) by (done || lia).
  by rewrite bind_Some_eq, u32_small by lia.
Qed.

Lemma write_other_undefined fd buf count m p : s32 fd <> 1 -> sys_write fd buf count m p = None.
Proof. intros H. unfold sys_write. by rewrite (proj2 (Z.eqb_neq _ 1) H). Qed.
End write.
