(* ===== verification/Ramdisk.v ===== *)
(** * The ram disk

    Models [kernel/ramdisk.c] and [include/os/ramdisk.h].  The image is bytes of memory
    from [__ramdisk_start]; an open file, a [struct file] of the slab, is identified by
    its address.  Null pointers are 0. *)

From S2P Require Import Prelude ListHead TaskStruct Bitops Mem CString MmTypes.

Definition FILE_NAME_SIZE : Z := 32.

(** Offsets in [struct ramdisk_header] and its size. *)
Definition RD_TOTAL_SIZE : Z := 16.
Definition RD_FILE_COUNT : Z := 20.
Definition RD_HEADER_SIZE : Z := 32.

(** Offsets in [struct file_header] and its size. *)
Definition FH_BASE : Z := 32.
Definition FH_SIZE : Z := 36.
Definition FILE_HEADER_SIZE : Z := 40.

Definition ENOENT : Z := 2.

Record file : Type := Mk_file { f_base : Z; f_size : Z; f_curr : Z }.

Definition with_f_curr (v : Z) (x : file) : file := Mk_file x.(f_base) x.(f_size) v.

(** [sizeof(struct file)]. *)
Definition SIZEOF_FILE : Z := 12.

Record ramdisk (A : Type) : Type := Mk_ramdisk {
  ramdisk_header : Z;
  file_header : Z;
  files : gmap Z file;
  alloc : A
}.

Arguments Mk_ramdisk {A} _ _ _ _.
Arguments ramdisk_header {A} _.
Arguments file_header {A} _.
Arguments files {A} _.
Arguments alloc {A} _.

Definition with_files {A : Type} (v : gmap Z file) (x : ramdisk A) : ramdisk A :=
  Mk_ramdisk x.(ramdisk_header) x.(file_header) v x.(alloc).

Section ramdisk.
Context {A : Type} `{!KmallocOps A}.
Variable ramdisk_start : Z.
(** The address of the string literal ["ramdisk"]. *)
Variable ramdisk_literal : Z.

Implicit Types (d : ramdisk A) (f : file) (m : mem) (a size fp : Z).

Definition mount_ramdisk d m : option (Z * ramdisk A) :=
  if negb (truth ramdisk_start) then Some (ramdisk_start, d)
  else
    r ← strcmp ramdisk_start ramdisk_literal m;
    if truth r then Some (ramdisk_start, Mk_ramdisk 0 d.(file_header) d.(files) d.(alloc))
    else Some (ramdisk_start,
           Mk_ramdisk ramdisk_start (ramdisk_start +u RD_HEADER_SIZE) d.(files) d.(alloc)).

(** ** Reading *)

Definition read_size f size : Z :=
  let stop := f.(f_base) +u f.(f_size) in
  let copy_size := if Z.ltb stop (f.(f_curr) +u u32 size) then s32 (stop -u f.(f_curr)) else size in
  if Z.ltb copy_size 0 then 0 else copy_size.

(** The pointer is dereferenced before it is compared with null. *)
Definition ramdisk_read fp buf size d m : option (Z * ramdisk A * mem) :=
  f ← d.(files) !! fp;
  let copy_size := read_size f size in
  m1 ← memcpy buf f.(f_curr) copy_size m;
  Some (copy_size, with_files (<[fp := with_f_curr (f.(f_curr) +u u32 copy_size) f]> d.(files)) d, m1).

Definition ramdisk_seek fp offset d : option (Z * ramdisk A) :=
  if Z.eqb fp 0 then Some (- EINVAL, d)
  else
    f ← d.(files) !! fp;
    let curr := if Z.ltb f.(f_size) offset then f.(f_base) +u f.(f_size) else f.(f_base) +u offset in
    Some (0, with_files (<[fp := with_f_curr curr f]> d.(files)) d).

(** ** Opening and closing *)

(** The search of the file table: the header of the first file with the name. *)
Fixpoint find_file (fuel : nat) (i count name temp : Z) m : option (option Z) :=
  match fuel with
  | O => None
  | S fuel' =>
      if Z.ltb i count then
        r ← strcmp name temp m;
        if Z.eqb r 0 then Some (Some temp)
        else find_file fuel' (i + 1) count name (temp +u FILE_HEADER_SIZE) m
      else Some None
  end.

Definition ramdisk_open name d m : option (Z * ramdisk A) :=
  w ← load32 (d.(ramdisk_header) + RD_FILE_COUNT) m;
  let count := s32 w in
  r ← find_file (S (Z.to_nat count)) 0 count name d.(file_header) m;
  match r with
  | None => Some (0, d)
  | Some temp =>
      '(fp, t) ← ka_kmalloc SIZEOF_FILE GFP_KERNEL d.(alloc);
      let d := Mk_ramdisk d.(ramdisk_header) d.(file_header) d.(files) t in
      if Z.eqb fp 0 then Some (0, d)
      else
        b ← load32 (temp + FH_BASE) m;
        n ← load32 (temp + FH_SIZE) m;
        let base := ramdisk_start +u b in
        Some (fp, with_files (<[fp := Mk_file base n base]> d.(files)) d)
  end.

(** The test is inverted: only a null file is released. *)
Definition ramdisk_close fp d : option (ramdisk A) :=
  if Z.eqb fp 0 then
    t ← ka_kfree fp d.(alloc);
    Some (Mk_ramdisk d.(ramdisk_header) d.(file_header) d.(files) t)
  else Some d.

(** ** An open file on its contents *)

Record file_at m f (l : list Z) (pos : Z) : Prop := {
  fa_bytes : bytes_at m f.(f_base) l;
  fa_range : Forall (fun c => 0 <= c < 256) l;
  fa_size : f.(f_size) = Z.of_nat (length l);
  fa_base : 0 <= f.(f_base) /\ f.(f_base) + f.(f_size) < 2 ^ 32;
  fa_curr : f.(f_curr) = f.(f_base) + pos;
  fa_pos : 0 <= pos <= f.(f_size)
}.

(** The bytes of the file from [pos], at most [n]. *)
Definition chunk (l : list Z) (pos n : Z) : list Z := take (Z.to_nat n) (drop (Z.to_nat pos) l).

Lemma length_chunk l pos n :
  0 <= pos <= Z.of_nat (length l) -> 0 <= n ->
  Z.of_nat (length (chunk l pos n)) = Z.min n (Z.of_nat (length l) - pos).
Proof. intros Hp Hn. unfold chunk. rewrite length_take, length_drop. lia. Qed.

Lemma read_size_ok m f l pos size :
  file_at m f l pos -> 0 <= size -> f.(f_curr) + size < 2 ^ 32 -> size < 2 ^ 31 ->
  f.(f_size) < 2 ^ 31 -> read_size f size = Z.min size (Z.of_nat (length l) - pos).
Proof.
  intros [Hb Hr Hs Hba Hc Hp] H0 Ho H31 Hf31. unfold read_size.
  rewrite (u32_small (f.(f_base) + f.(f_size))), (u32_small size), (u32_small (f.(f_curr) + size)) by lia.
  destruct (Z.ltb_spec (f.(f_base) + f.(f_size)) (f.(f_curr) + size)).
  - rewrite u32_small, s32_small by lia. rewrite (proj2 (Z.ltb_ge _ 0)) by lia. lia.
  - rewrite (proj2 (Z.ltb_ge size 0)) by lia. lia.
Qed.

(** [ramdisk_read] at position [pos] of an open file copies the next bytes of the
    contents, as many as asked for or as are left, to the buffer and to nowhere else,
    returns their number and moves the position past them; so successive reads
    deliver the contents in order and end with 0. *)
Lemma ramdisk_read_ok fp buf size d m f l pos :
  d.(files) !! fp = Some f -> file_at m f l pos ->
  0 <= size < 2 ^ 31 -> f.(f_curr) + size < 2 ^ 32 -> f.(f_size) < 2 ^ 31 ->
  room m buf size -> disjoint buf size f.(f_base) f.(f_size) ->
  let part := chunk l pos size in
  copies buf f.(f_curr) (Z.of_nat (length part)) ->
  exists d', ramdisk_read fp buf size d m = Some (Z.of_nat (length part), d', write buf part m) /\
    Z.of_nat (length part) = Z.min size (Z.of_nat (length l) - pos) /\
    (exists f', d'.(files) = <[fp := f']> d.(files) /\ f'.(f_base) = f.(f_base) /\ f'.(f_size) = f.(f_size) /\
      file_at (write buf part m) f' l (pos + Z.of_nat (length part))) /\
    d'.(alloc) = d.(alloc).
Proof.
  intros Hf Ha H0 Ho Hf31 Hr Hd part Hcp. unfold ramdisk_read. rewrite Hf, bind_Some_eq.
  rewrite (read_size_ok m f l pos size Ha) by lia. pose proof Ha as [Hb Hrg Hs Hba Hc Hp].
  pose proof (length_chunk l pos size ltac:(lia) ltac:(lia)) as Hl. fold part in Hl. rewrite <- Hl.
  assert (Hpart : bytes_at m f.(f_curr) part).
  { rewrite Hc. unfold part, chunk. rewrite <- (take_drop (Z.to_nat pos) l) in Hb.
    apply bytes_at_app in Hb as [_ Hb]. rewrite length_take in Hb.
    replace (f.(f_base) + Z.of_nat (Z.to_nat pos `min` length l)) with (f.(f_base) + pos) in Hb by lia.
    rewrite <- (take_drop (Z.to_nat size) (drop (Z.to_nat pos) l)) in Hb.
    by apply bytes_at_app in Hb as [? _]. }
  rewrite memcpy_ok; [|done|by apply Forall_take, Forall_drop| | |done|lia].
  - rewrite bind_Some_eq. eexists. split; [reflexivity|]. split; [done|]. split; [|done].
    eexists. split; [reflexivity|]. do 2 (split; [done|]).
    constructor; cbn [f_base f_size f_curr with_f_curr]; try done.
    + eapply bytes_at_frame; [exact Hb|]. intros x Hx. apply lookup_write_out.
      unfold disjoint in Hd. lia.
    + rewrite (u32_small (Z.of_nat (length part))), u32_small by lia. lia.
    + lia.
  - intros i Hi. apply Hr. lia.
  - unfold disjoint in *. lia.
Qed.

(** A read of 17 bytes or more (19 past three) between places one or three past a word aborts in [memcpy]. *)
Lemma ramdisk_read_aborts fp buf size d m f l pos :
  d.(files) !! fp = Some f -> file_at m f l pos ->
  0 <= size < 2 ^ 31 -> f.(f_curr) + size < 2 ^ 32 -> f.(f_size) < 2 ^ 31 ->
  buf mod 4 = f.(f_curr) mod 4 -> buf mod 4 = 1 \/ buf mod 4 = 3 ->
  16 + buf mod 4 <= Z.min size (Z.of_nat (length l) - pos) -> ramdisk_read fp buf size d m = None.
Proof.
  intros Hf Ha H0 Ho Hf31 Heq Hodd Hn. unfold ramdisk_read. rewrite Hf, bind_Some_eq.
  rewrite (read_size_ok m f l pos size Ha) by lia. by rewrite memcpy_odd_aborts by lia.
Qed.

(** [ramdisk_seek] moves to an offset, or to the end when the offset is past it. *)
Lemma ramdisk_seek_ok fp offset d m f l pos :
  fp <> 0 -> d.(files) !! fp = Some f -> file_at m f l pos -> 0 <= offset < 2 ^ 32 ->
  exists d' f', ramdisk_seek fp offset d = Some (0, d') /\ d'.(files) = <[fp := f']> d.(files) /\
    file_at m f' l (Z.min offset f.(f_size)) /\ d'.(alloc) = d.(alloc).
Proof.
  intros Hn Hf [Hb Hrg Hs Hba Hc Hp] Ho. unfold ramdisk_seek.
  rewrite (proj2 (Z.eqb_neq fp 0) Hn), Hf, bind_Some_eq.
  eexists _, _. split; [reflexivity|]. split; [done|]. split; [|done].
  constructor; cbn [f_base f_size f_curr with_f_curr]; try done; [|lia].
  destruct (Z.ltb_spec f.(f_size) offset); rewrite u32_small by lia; lia.
Qed.

(** An open file is never released by [ramdisk_close]. *)
Theorem ramdisk_close_keeps fp d : fp <> 0 -> ramdisk_close fp d = Some d.
Proof. intros Hn. unfold ramdisk_close. by rewrite (proj2 (Z.eqb_neq fp 0) Hn). Qed.

Lemma chunk_app l pos n1 n2 :
  0 <= pos -> 0 <= n1 -> 0 <= n2 ->
  chunk l pos n1 ++ chunk l (pos + Z.of_nat (length (chunk l pos n1))) n2 = chunk l pos (n1 + n2).
Proof.
  intros Hp H1 H2. unfold chunk.
  replace (Z.to_nat (pos + _)) with (Z.to_nat pos + length (take (Z.to_nat n1) (drop (Z.to_nat pos) l)))%nat by lia.
  rewrite <- drop_drop. generalize (drop (Z.to_nat pos) l). intros k.
  rewrite Z2Nat.inj_add by lia. rewrite length_take.
  destruct (le_lt_dec (Z.to_nat n1) (length k)) as [Hle|Hlt].
  - rewrite Nat.min_l by done. by rewrite take_take_drop.
  - rewrite Nat.min_r, drop_ge, take_nil, app_nil_r by lia. by rewrite !take_ge by lia.
Qed.

(** C31. Seeking to an offset and reading in two steps, the second buffer following the
    first result.  When both copies are between places [memcpy] can copy between
    ([copies]), the reads deliver what one read of both sizes would: the bytes of the
    file from the offset, up to its end; the second read continues where the first
    stopped, and nothing but the two buffers changes.  When the first read leaves buffer
    and file equally one or three past a word and the second delivers 16 bytes more than that,
    the second read aborts. *)
Theorem seek_and_read_slice fp off n1 n2 buf d m f l pos :
  fp <> 0 -> d.(files) !! fp = Some f -> file_at m f l pos -> 0 <= off < 2 ^ 31 ->
  0 <= n1 < 2 ^ 31 -> 0 <= n2 < 2 ^ 31 ->
  f.(f_base) + f.(f_size) + n1 + n2 < 2 ^ 32 -> f.(f_size) < 2 ^ 31 ->
  room m buf (n1 + n2) -> disjoint buf (n1 + n2) f.(f_base) f.(f_size) ->
  let from := Z.min off f.(f_size) in
  let part := chunk l from (n1 + n2) in
  let got := Z.of_nat (length (chunk l from n1)) in
  let rest := Z.of_nat (length (chunk l (from + got) n2)) in
  copies buf (f.(f_base) + from) got ->
  exists d1 d2 m2, ramdisk_seek fp off d = Some (0, d1) /\
    ramdisk_read fp buf n1 d1 m = Some (got, d2, m2) /\
    (copies (buf + got) (f.(f_base) + (from + got)) rest ->
     exists d3, ramdisk_read fp (buf + got) n2 d2 m2 = Some (rest, d3, write buf part m) /\
       got + rest = Z.min (n1 + n2) (f.(f_size) - from)) /\
    ((buf + got) mod 4 = (f.(f_base) + (from + got)) mod 4 ->
     (buf + got) mod 4 = 1 \/ (buf + got) mod 4 = 3 -> 16 + (buf + got) mod 4 <= rest ->
     ramdisk_read fp (buf + got) n2 d2 m2 = None).
Proof.
  intros Hn Hf Ha Ho H1 H2 Hov Hf31 Hr Hdj from part got rest Hcp1.
  destruct (ramdisk_seek_ok fp off d m f l pos Hn Hf Ha ltac:(lia)) as (d1 & f1 & E1 & Ed1 & Ha1 & _).
  fold from in Ha1. assert (Hfp1 : d1.(files) !! fp = Some f1) by (by rewrite Ed1, lookup_insert_eq).
  pose proof Ha as [_ _ Hs [Hb0 Hb1] Hc Hp]. pose proof Ha1 as [Hbt1 _ Hs1 _ Hc1 Hp1].
  assert (Esz : f1.(f_size) = f.(f_size)) by lia.
  assert (Eb : f1.(f_base) = f.(f_base)).
  { unfold ramdisk_seek in E1. rewrite (proj2 (Z.eqb_neq fp 0) Hn), Hf, bind_Some_eq in E1.
    injection E1 as <-. cbn [files with_files] in Hfp1. rewrite lookup_insert_eq in Hfp1. by injection Hfp1 as <-. }
  destruct (ramdisk_read_ok fp buf n1 d1 m f1 l from Hfp1 Ha1) as (d2 & E2 & L1 & (f2 & Ef2 & Eb2 & Es2 & Ha2) & _);
    [lia|lia|lia|intros i Hi; apply Hr; lia|unfold disjoint in *; lia|by rewrite Hc1, Eb|].
  set (p1 := chunk l from n1) in *.
  assert (Hfp2 : d2.(files) !! fp = Some f2) by (by rewrite Ef2, lookup_insert_eq).
  pose proof (fa_curr _ _ _ _ Ha2) as Hc2. pose proof (fa_size _ _ _ _ Ha2) as Hs2. pose proof (fa_pos _ _ _ _ Ha2) as Hp2.
  exists d1, d2, (write buf p1 m). split; [done|]. split; [exact E2|]. split.
  - intros Hcp2. destruct (ramdisk_read_ok fp (buf + Z.of_nat (length p1)) n2 d2 (write buf p1 m) f2 l _ Hfp2 Ha2)
      as (d3 & E3 & L2 & _); [lia|lia|lia| | |by rewrite Hc2, Eb2, Eb|].
    + apply room_write. intros i Hi. rewrite <- Z.add_assoc. apply Hr. lia.
    + unfold disjoint in *. lia.
    + assert (Hparts : p1 ++ chunk l (from + Z.of_nat (length p1)) n2 = part) by (apply chunk_app; lia).
      exists d3. split; [rewrite <- Hparts, write_app; exact E3|]. unfold rest, got. rewrite L2. lia.
  - intros Heq Hodd Hlen. apply (ramdisk_read_aborts _ _ _ _ _ f2 l _ Hfp2 Ha2); try lia.
    + rewrite Hc2, Eb2, Eb. exact Heq.
    + unfold rest, got in Hlen. rewrite length_chunk in Hlen by lia. exact Hlen.
Qed.
End ramdisk.

(** A file of five bytes at 0x2000, open at its address 0x5000. *)
Definition demo_disk : ramdisk unit := Mk_ramdisk 0 0 {[ 0x5000 := Mk_file 0x2000 5 0x2000 ]} tt.
Definition demo_disk_mem : mem := write 0x2000 [1; 2; 3; 4; 5] (write 0x3000 (replicate (Z.to_nat 16) 0) ∅).

Lemma seek_and_read_slice_witness :
  exists d1 d2 d3 k1 k2 m2 m3, ramdisk_seek 0x5000 1 demo_disk = Some (0, d1) /\
    ramdisk_read 0x5000 0x3000 2 d1 demo_disk_mem = Some (k1, d2, m2) /\
    ramdisk_read 0x5000 (0x3000 + k1) 9 d2 m2 = Some (k2, d3, m3) /\ k1 + k2 = 4.
Proof.
  destruct (seek_and_read_slice 0x5000 1 2 9 0x3000 demo_disk demo_disk_mem (Mk_file 0x2000 5 0x2000)
    [1; 2; 3; 4; 5] 0) as (d1 & d2 & m2 & E1 & E2 & H3 & _).
  - lia.
  - reflexivity.
  - constructor; cbn [f_base f_size f_curr]; [apply write_bytes|repeat constructor; lia|done|lia|done|lia].
  - lia.
  - lia.
  - lia.
  - vm_compute. congruence.
  - vm_compute. congruence.
  - unfold demo_disk_mem. apply room_write. intros i Hi. apply (room_write_self 0x3000). rewrite length_replicate. lia.
  - right. vm_compute. congruence.
  - apply copies_aligned. reflexivity.
  - destruct H3 as (d3 & E3 & Ek); [intros H; vm_compute in H; discriminate|].
    exists d1, d2, d3, 2, 2, m2, (write 0x3000 (chunk [1; 2; 3; 4; 5] 1 11) demo_disk_mem).
    split; [exact E1|]. split; [exact E2|]. split; [exact E3|]. reflexivity.
Defined.
