(* ===== verification/Genramdisk.v ===== *)
(** * The ram disk generator

    Models [tools/genramdisk/genramdisk.c], the host program that builds the image the
    kernel mounts.  A directory is the sequence of entries [readdir] delivers, with the
    contents [open] and [read] give, or none when the file cannot be opened; [read]
    delivers 512 bytes, or what is left of the file.  The image buffer is a run of byte
    memory at [buf]; a write outside it is undefined. *)

From S2P Require Import Prelude ListHead TaskStruct Bitops Mem CString MmTypes Ramdisk.

Record dirent : Type := Mk_dirent { d_name : list Z; d_data : option (list Z) }.

Definition RAMDISK_MAX_SIZE : Z := 1024 * 1024.
Definition READ_SIZE : Z := 512.
(** [char temp[123]], where the path of a file is put together. *)
Definition TEMP_SIZE : Z := 123.

(** ["."], [".."], ["ramdisk"]. *)
Definition DOT : list Z := [46].
Definition DOTDOT : list Z := [46; 46].
Definition RAMDISK_NAME : list Z := [114; 97; 109; 100; 105; 115; 107].

Fixpoint store_bytes (a : Z) (l : list Z) (m : mem) : option mem :=
  match l with [] => Some m | c :: l' => m1 ← store8 a c m; store_bytes (a + 1) l' m1 end.

Fixpoint load_bytes (n : nat) (a : Z) (m : mem) : option (list Z) :=
  match n with
  | O => Some []
  | S n' => c ← load8 a m; l ← load_bytes n' (a + 1) m; Some (c :: l)
  end.

(** The [do ... while(read_size == 512)] loop: the new data position, or the error. *)
Fixpoint copy_file (fuel : nat) (buf hdr base : Z) (rest : list Z) (m : mem) : option ((Z + Z) * mem) :=
  match fuel with
  | O => None
  | S fuel' =>
      let part := take (Z.to_nat READ_SIZE) rest in
      m1 ← store_bytes base part m;
      let read_size := Z.of_nat (length part) in
      let base := base + read_size in
      if Z.ltb RAMDISK_MAX_SIZE (base - buf) then Some (inl (- ENOMEM), m1)
      else
        n ← load32 (hdr + FH_SIZE) m1;
        m2 ← store32 (hdr + FH_SIZE) (n + read_size) m1;
        if Z.eqb read_size READ_SIZE then copy_file fuel' buf hdr base (drop (Z.to_nat READ_SIZE) rest) m2
        else Some (inr base, m2)
  end.

(** One file: name, base, size and contents, then the alignment. *)
Definition add_file (buf hdr base : Z) (nm data : list Z) (m : mem) : option ((Z + Z) * mem) :=
  m1 ← store_bytes hdr (nm ++ [0]) m;
  m2 ← store32 (hdr + FH_BASE) (base - buf) m1;
  m3 ← store32 (hdr + FH_SIZE) 0 m2;
  '(r, m4) ← copy_file (S (length data)) buf hdr base data m3;
  match r with
  | inl e => Some (inl e, m4)
  | inr base1 =>
      n ← load32 (hdr + FH_SIZE) m4;
      Some (inr (if negb (Z.eqb (n mod 4) 0) then base1 + (4 - n mod 4) else base1), m4)
  end.

(** [strcpy(temp, path); strcat(temp, "/"); strcat(temp, name)] fits. *)
Definition path_fits (path nm : list Z) : bool :=
  Z.leb (Z.of_nat (length path) + 1 + Z.of_nat (length nm) + 1) TEMP_SIZE.

(** The second walk over the directory [path]; a path too long for [temp] is written past
    its end. *)
Fixpoint add_files (path : list Z) (es : list dirent) (buf hdr base : Z) (m : mem) : option ((Z + Z) * mem) :=
  match es with
  | [] => Some (inr base, m)
  | e :: es' =>
      if bool_decide (e.(d_name) = DOT) || bool_decide (e.(d_name) = DOTDOT) then
        add_files path es' buf hdr base m
      else if negb (path_fits path e.(d_name)) then None
      else
        match e.(d_data) with
        | None => add_files path es' buf hdr base m
        | Some data =>
            '(r, m1) ← add_file buf hdr base e.(d_name) data m;
            match r with
            | inl err => Some (inl err, m1)
            | inr base1 => add_files path es' buf (hdr + FILE_HEADER_SIZE) base1 m1
            end
        end
  end.

(** The image that is written, with the return value. *)
Definition __gen_ramdisk (path : list Z) (buf : Z) (es : list dirent) (m : mem) : option (Z * list Z) :=
  let count := Z.of_nat (length es) - 2 in
  let hdr := buf + RD_HEADER_SIZE in
  '(r, m1) ← add_files path es buf hdr (hdr + count * FILE_HEADER_SIZE) m;
  match r with
  | inl err => Some (err, [])
  | inr base =>
      m2 ← store_bytes buf (RAMDISK_NAME ++ [0]) m1;
      m3 ← store32 (buf + RD_FILE_COUNT) (u32 count) m2;
      m4 ← store32 (buf + RD_TOTAL_SIZE) (base - buf) m3;
      l ← load_bytes (Z.to_nat (base - buf)) buf m4;
      Some (0, l)
  end.

(** ** Bytes *)

Lemma store_bytes_ok l a m :
  Forall (fun c => 0 <= c < 256) l -> room m a (Z.of_nat (length l)) ->
  store_bytes a l m = Some (write a l m).
Proof.
  revert a m. induction l as [|c l IH]; intros a m Hf Hr; [done|].
  apply Forall_cons in Hf as [Hc Hf]. cbn [store_bytes length] in *.
  rewrite store8_ok by (rewrite <- (Z.add_0_r a); apply Hr; lia).
  rewrite bind_Some_eq, u8_small by lia. rewrite IH; [done|done|].
  intros i Hi. apply write_alloc. replace (a + 1 + i) with (a + (i + 1)) by lia. apply Hr. lia.
Qed.

Lemma load_bytes_ok n a m :
  room m a (Z.of_nat n) ->
  exists l, load_bytes n a m = Some l /\ length l = n /\
    forall i c, l !! i = Some c -> m !! (a + Z.of_nat i) = Some c.
Proof.
  revert a. induction n as [|n IH]; intros a Hr; [by exists []|]. cbn [load_bytes].
  destruct (Hr 0 ltac:(lia)) as [c Hc]. rewrite Z.add_0_r in Hc. unfold load8. rewrite Hc, bind_Some_eq.
  destruct (IH (a + 1)) as (l & E & El & Hl).
  { intros i Hi. replace (a + 1 + i) with (a + (i + 1)) by lia. apply Hr. lia. }
  rewrite E, bind_Some_eq. exists (c :: l). split; [done|]. split; [cbn; lia|].
  intros [|i] x Hx; [by injection Hx as <-; rewrite Z.add_0_r|].
  replace (a + Z.of_nat (S i)) with (a + 1 + Z.of_nat i) by lia. by apply Hl.
Qed.

(** ** The layout of an image

    [entry_at m buf k off f]: header [k] of the image at [buf] describes the file [f],
    whose contents are at offset [off]. *)

Abbreviation rfile := (list Z * list Z)%type.

Definition header_addr (buf : Z) (k : nat) : Z := buf + RD_HEADER_SIZE + Z.of_nat k * FILE_HEADER_SIZE.

Record entry_at (m : mem) (buf : Z) (k : nat) (off : Z) (f : rfile) : Prop := {
  ea_name : cstr m (header_addr buf k) f.1;
  ea_base : bytes_at m (header_addr buf k + FH_BASE) (word_list off);
  ea_size : bytes_at m (header_addr buf k + FH_SIZE) (word_list (Z.of_nat (length f.2)));
  ea_data : bytes_at m (buf + off) f.2
}.

(** The size of the contents up to the next multiple of four. *)
Definition padded (f : rfile) : Z :=
  let n := Z.of_nat (length f.2) in
  if negb (Z.eqb (n mod 4) 0) then n + (4 - n mod 4) else n.

Lemma padded_ge f : Z.of_nat (length f.2) <= padded f.
Proof.
  unfold padded. pose proof (Z.mod_pos_bound (Z.of_nat (length f.2)) 4). destruct (negb _); lia.
Qed.

Definition rfile_ok (f : rfile) : Prop :=
  Forall (fun c => 0 < c < 256) f.1 /\ Z.of_nat (length f.1) < FILE_NAME_SIZE /\
  Forall (fun c => 0 <= c < 256) f.2.

(** [m'] keeps what [m] allocates and agrees with it outside two ranges. *)
Record framed (m m' : mem) (a n b k : Z) : Prop := {
  fr_room : forall x y, room m x y -> room m' x y;
  fr_same : forall x, ~ (a <= x < a + n) -> ~ (b <= x < b + k) -> m' !! x = m !! x
}.

Lemma framed_bytes m m' a n b k x l :
  framed m m' a n b k -> bytes_at m x l ->
  disjoint x (Z.of_nat (length l)) a n -> disjoint x (Z.of_nat (length l)) b k -> bytes_at m' x l.
Proof.
  intros [_ Hs] Hb H1 H2. apply (bytes_at_frame m); [done|]. intros y Hy.
  apply Hs; unfold disjoint in *; lia.
Qed.

Lemma framed_write m a l b k : framed m (write a l m) a (Z.of_nat (length l)) b k.
Proof.
  constructor; [intros x y; apply room_write|]. intros x H1 _. by apply lookup_write_out.
Qed.

Lemma framed_trans m1 m2 m3 a n b k : framed m1 m2 a n b k -> framed m2 m3 a n b k -> framed m1 m3 a n b k.
Proof.
  intros [R1 S1] [R2 S2]. constructor; [by auto|]. intros x H1 H2. by rewrite S2, S1.
Qed.

Lemma framed_le m m' a n b k a' n' b' k' :
  framed m m' a n b k -> (n <= 0 \/ a' <= a /\ a + n <= a' + n') -> (k <= 0 \/ b' <= b /\ b + k <= b' + k') ->
  framed m m' a' n' b' k'.
Proof. intros [R S] H1 H2. constructor; [done|]. intros x Hx Hy. apply S; lia. Qed.

Lemma word_list_length v : length (word_list v) = 4%nat.
Proof. done. Qed.

Lemma copy_file_ok rest fuel buf hdr base n m :
  (length rest < fuel)%nat -> Forall (fun c => 0 <= c < 256) rest ->
  room m base (Z.of_nat (length rest)) -> room m (hdr + FH_SIZE) 4 -> hdr + FH_SIZE + 4 <= base ->
  base + Z.of_nat (length rest) - buf <= RAMDISK_MAX_SIZE -> bytes_at m (hdr + FH_SIZE) (word_list n) ->
  0 <= n -> n + Z.of_nat (length rest) < 2 ^ 32 ->
  exists m', copy_file fuel buf hdr base rest m = Some (inr (base + Z.of_nat (length rest)), m') /\
    bytes_at m' base rest /\ bytes_at m' (hdr + FH_SIZE) (word_list (n + Z.of_nat (length rest))) /\
    framed m m' (hdr + FH_SIZE) 4 base (Z.of_nat (length rest)).
Proof.
  revert rest base n m. induction fuel as [|fuel IH]; intros rest base n m Hf Hr Hb Hh Hd Hm Hn H0 Hmax; [lia|].
  cbn [copy_file]. set (part := take (Z.to_nat READ_SIZE) rest).
  assert (Hpl : (length part <= length rest)%nat) by (unfold part; rewrite length_take; lia).
  rewrite store_bytes_ok; [|by apply Forall_take|intros i Hi; apply Hb; lia].
  rewrite bind_Some_eq. rewrite (proj2 (Z.ltb_ge _ _)) by lia.
  set (m1 := write base part m).
  assert (Hn1 : bytes_at m1 (hdr + FH_SIZE) (word_list n)).
  { eapply bytes_at_frame; [exact Hn|]. intros x Hx. apply lookup_write_out.
    rewrite word_list_length in Hx. lia. }
  rewrite (load32_bytes _ n) by (done || lia). rewrite bind_Some_eq.
  rewrite store32_ok by (by apply room_write). rewrite bind_Some_eq.
  set (n1 := n + Z.of_nat (length part)). set (m2 := write (hdr + FH_SIZE) (word_list n1) m1).
  assert (Hpart : bytes_at m2 base part).
  { apply (bytes_at_frame m1); [apply write_bytes|]. intros x Hx. apply lookup_write_out.
    rewrite word_list_length. lia. }
  assert (Hfr : framed m m2 (hdr + FH_SIZE) 4 base (Z.of_nat (length rest))).
  { apply (framed_trans _ m1).
    - constructor; [intros x y; apply room_write|]. intros x _ Hx. apply lookup_write_out. lia.
    - apply framed_write. }
  destruct (Z.eqb_spec (Z.of_nat (length part)) READ_SIZE) as [E|E].
  - assert (El : length rest = (length part + length (drop (Z.to_nat READ_SIZE) rest))%nat).
    { unfold part. rewrite <- length_app. by rewrite take_drop. }
    destruct (IH (drop (Z.to_nat READ_SIZE) rest) (base + Z.of_nat (length part)) n1 m2) as (m' & E' & B1 & B2 & F).
    + unfold READ_SIZE in *. lia.
    + by apply Forall_drop.
    + apply (fr_room _ _ _ _ _ _ Hfr). apply (room_le _ _ _ _ _ Hb); lia.
    + by apply (fr_room _ _ _ _ _ _ Hfr).
    + lia.
    + lia.
    + apply write_bytes.
    + unfold n1. lia.
    + unfold n1. lia.
    + exists m'. rewrite E'. split; [do 3 f_equal; lia|]. split; [|split].
      * rewrite <- (take_drop (Z.to_nat READ_SIZE) rest). apply bytes_at_app. split; [|exact B1].
        apply (framed_bytes _ _ _ _ _ _ _ _ F Hpart); unfold disjoint; lia.
      * replace (n + Z.of_nat (length rest)) with (n1 + Z.of_nat (length (drop (Z.to_nat READ_SIZE) rest)))
          by (unfold n1; lia). exact B2.
      * apply (framed_trans _ m2); [done|]. apply (framed_le _ _ _ _ _ _ _ _ _ _ F); right; lia.
  - assert (Ep : part = rest).
    { unfold part in *. rewrite length_take in E. unfold READ_SIZE in *. apply take_ge. lia. }
    exists m2. split; [by rewrite Ep|]. rewrite Ep in Hpart. split; [done|]. split; [|done].
    unfold m2, n1. rewrite Ep. apply write_bytes.
Qed.

Lemma add_file_ok buf k off f m :
  rfile_ok f -> 0 <= off -> header_addr buf k + FILE_HEADER_SIZE <= buf + off ->
  off + padded f <= RAMDISK_MAX_SIZE -> room m buf RAMDISK_MAX_SIZE ->
  exists m', add_file buf (header_addr buf k) (buf + off) f.1 f.2 m = Some (inr (buf + off + padded f), m') /\
    entry_at m' buf k off f /\
    framed m m' (header_addr buf k) FILE_HEADER_SIZE (buf + off) (Z.of_nat (length f.2)).
Proof.
  intros (Hn & Hnl & Hd) Ho Hh Hmax Hr. pose proof (padded_ge f) as Hpad.
  assert (Hhdr : 0 <= header_addr buf k - buf) by (unfold header_addr, RD_HEADER_SIZE, FILE_HEADER_SIZE; lia).
  unfold FILE_NAME_SIZE, FILE_HEADER_SIZE, RAMDISK_MAX_SIZE in *.
  set (hdr := header_addr buf k) in *.
  assert (Hroom : forall m' o n, room m' buf (1024 * 1024) -> 0 <= o -> o + n <= off + Z.of_nat (length f.2) ->
    room m' (buf + o) n) by (intros m' o n Hr' H1 H2; apply (room_le _ _ _ _ _ Hr'); lia).
  unfold add_file. rewrite store_bytes_ok.
  2:{ apply Forall_app. split; [|repeat constructor; lia]. eapply Forall_impl; [exact Hn|]. cbn. lia. }
  2:{ rewrite length_app. cbn [length]. replace hdr with (buf + (hdr - buf)) by lia. apply Hroom; [done|lia|lia]. }
  rewrite bind_Some_eq. set (m1 := write hdr (f.1 ++ [0]) m).
  assert (R1 : room m1 buf (1024 * 1024)) by (by apply room_write).
  rewrite store32_ok by (replace (hdr + FH_BASE) with (buf + (hdr - buf + FH_BASE)) by lia; apply Hroom; [done|unfold FH_BASE; lia..]).
  rewrite bind_Some_eq. replace (buf + off - buf) with off by lia.
  set (m2 := write (hdr + FH_BASE) (word_list off) m1).
  assert (R2 : room m2 buf (1024 * 1024)) by (by apply room_write).
  rewrite store32_ok by (replace (hdr + FH_SIZE) with (buf + (hdr - buf + FH_SIZE)) by lia; apply Hroom; [done|unfold FH_SIZE; lia..]).
  rewrite bind_Some_eq. set (m3 := write (hdr + FH_SIZE) (word_list 0) m2).
  assert (R3 : room m3 buf (1024 * 1024)) by (by apply room_write).
  destruct (copy_file_ok f.2 (S (length f.2)) buf hdr (buf + off) 0 m3) as (m4 & E4 & B1 & B2 & F4).
  - lia.
  - done.
  - apply Hroom; [done|lia|lia].
  - replace (hdr + FH_SIZE) with (buf + (hdr - buf + FH_SIZE)) by lia; apply Hroom; [done|unfold FH_SIZE; lia..].
  - unfold FH_SIZE. lia.
  - unfold RAMDISK_MAX_SIZE. lia.
  - apply write_bytes.
  - lia.
  - lia.
  - rewrite E4, bind_Some_eq. rewrite Z.add_0_l in B2.
    rewrite (load32_bytes _ (Z.of_nat (length f.2))) by (done || lia). rewrite bind_Some_eq.
    exists m4. split; [unfold padded; destruct (negb _); do 3 f_equal; lia|].
    assert (F3 : framed m m3 hdr 40 (buf + off) (Z.of_nat (length f.2))).
    { apply (framed_trans _ m2); [apply (framed_trans _ m1)|].
      - apply (framed_le _ _ _ _ 0 0 _ _ _ _ (framed_write _ _ _ 0 0)); [right|left; lia]. rewrite length_app. cbn [length]. lia.
      - apply (framed_le _ _ _ _ 0 0 _ _ _ _ (framed_write _ _ _ 0 0)); [right|left; lia]. unfold FH_BASE. rewrite word_list_length. lia.
      - apply (framed_le _ _ _ _ 0 0 _ _ _ _ (framed_write _ _ _ 0 0)); [right|left; lia]. unfold FH_SIZE. rewrite word_list_length. lia. }
    split.
    + constructor; try done.
      * split; [|done]. apply (framed_bytes _ _ _ _ _ _ _ _ F4); rewrite ?length_app; cbn [length].
        -- apply (bytes_at_frame m1); [apply write_bytes|]. rewrite length_app. cbn [length]. intros x Hx.
           unfold m3. rewrite lookup_write_out by (rewrite word_list_length; unfold FH_SIZE; lia).
           unfold m2. apply lookup_write_out. rewrite word_list_length. unfold FH_BASE. lia.
        -- unfold disjoint, FH_SIZE. lia.
        -- unfold disjoint. lia.
      * apply (framed_bytes _ _ _ _ _ _ _ _ F4); rewrite ?word_list_length.
        -- apply (bytes_at_frame m2); [apply write_bytes|]. intros x Hx. rewrite word_list_length in Hx.
           apply lookup_write_out. rewrite word_list_length. unfold FH_BASE, FH_SIZE in *. lia.
        -- unfold disjoint, FH_BASE, FH_SIZE. lia.
        -- unfold disjoint, FH_BASE. lia.
    + apply (framed_trans _ m3); [done|]. apply (framed_le _ _ _ _ _ _ _ _ _ _ F4); right; unfold FH_SIZE; lia.
Qed.

(** ** The whole image *)

Fixpoint entries_at (m : mem) (buf : Z) (k : nat) (off : Z) (fs : list rfile) : Prop :=
  match fs with
  | [] => True
  | f :: fs' => entry_at m buf k off f /\ entries_at m buf (S k) (off + padded f) fs'
  end.

Definition total_padded (fs : list rfile) : Z := foldr (fun f n => padded f + n) 0 fs.

Lemma total_padded_nonneg fs : 0 <= total_padded fs.
Proof. induction fs as [|f fs IH]; cbn; [lia|]. pose proof (padded_ge f). fold (total_padded fs). lia. Qed.

(** The regular files of a directory, when all of them can be opened. *)
Fixpoint dir_files (es : list dirent) : option (list rfile) :=
  match es with
  | [] => Some []
  | e :: es' =>
      if bool_decide (e.(d_name) = DOT) || bool_decide (e.(d_name) = DOTDOT) then dir_files es'
      else data ← e.(d_data); fs ← dir_files es'; Some ((e.(d_name), data) :: fs)
  end.

Lemma entry_framed m m' buf k off f a n b l :
  framed m m' a n b l -> entry_at m buf k off f -> rfile_ok f ->
  header_addr buf k + FILE_HEADER_SIZE <= a ->
  header_addr buf k + FILE_HEADER_SIZE <= b -> a + n <= buf + off ->
  off + Z.of_nat (length f.2) <= b - buf -> entry_at m' buf k off f.
Proof.
  intros F [[N1 N2] B S D] (_ & Hl & _) H1 H2 H3 H4. unfold FILE_NAME_SIZE, FILE_HEADER_SIZE in *.
  constructor.
  - split; [|done]. apply (framed_bytes _ _ _ _ _ _ _ _ F N1); rewrite length_app; cbn [length]; unfold disjoint; lia.
  - apply (framed_bytes _ _ _ _ _ _ _ _ F B); rewrite word_list_length; unfold disjoint, FH_BASE; lia.
  - apply (framed_bytes _ _ _ _ _ _ _ _ F S); rewrite word_list_length; unfold disjoint, FH_SIZE; lia.
  - apply (framed_bytes _ _ _ _ _ _ _ _ F D); unfold disjoint; lia.
Qed.

Lemma add_files_ok path es fs buf k off m :
  Z.of_nat (length path) + FILE_NAME_SIZE < TEMP_SIZE ->
  dir_files es = Some fs -> Forall rfile_ok fs -> 0 <= off ->
  header_addr buf (k + length fs) <= buf + off -> off + total_padded fs <= RAMDISK_MAX_SIZE ->
  room m buf RAMDISK_MAX_SIZE ->
  exists m', add_files path es buf (header_addr buf k) (buf + off) m = Some (inr (buf + off + total_padded fs), m') /\
    entries_at m' buf k off fs /\
    framed m m' (header_addr buf k) (Z.of_nat (length fs) * FILE_HEADER_SIZE) (buf + off) (total_padded fs).
Proof.
  intros Hpath. revert fs k off m. induction es as [|e es IH]; intros fs k off m Hd Hok Ho Hh Hmax Hr; cbn [dir_files add_files] in *.
  - injection Hd as <-. exists m. split; [cbn; do 3 f_equal; lia|]. split; [done|]. by constructor.
  - destruct (bool_decide (e.(d_name) = DOT) || bool_decide (e.(d_name) = DOTDOT)); [by apply IH|].
    destruct e.(d_data) as [data|]; [|done]. rewrite bind_Some_eq in Hd.
    inv_bind Hd. injection Hd as <-. apply Forall_cons in Hok as [Hf Hok].
    assert (Hfits : path_fits path e.(d_name) = true).
    { apply Z.leb_le. destruct Hf as (_ & Hnl & _). cbn [fst] in Hnl. lia. }
    rewrite Hfits. cbn [negb].
    set (f := (e.(d_name), data)) in *. cbn [length foldr total_padded] in *.
    fold (total_padded v) in *. pose proof (padded_ge f) as Hp. pose proof (total_padded_nonneg v) as Ht.
    assert (Hnext : header_addr buf k + FILE_HEADER_SIZE = header_addr buf (S k))
      by (unfold header_addr; lia).
    assert (Hle : header_addr buf (S k) + Z.of_nat (length v) * FILE_HEADER_SIZE <= buf + off)
      by (unfold header_addr, FILE_HEADER_SIZE in *; lia).
    destruct (add_file_ok buf k off f m Hf Ho) as (m1 & E1 & He & F1);
      [unfold FILE_HEADER_SIZE in *; lia|lia|done|].
    cbn [fst snd f] in E1. rewrite E1, bind_Some_eq, Hnext.
    replace (buf + off + padded f) with (buf + (off + padded f)) by lia.
    destruct (IH v (S k) (off + padded f) m1 E Hok) as (m' & E' & Hes & F'); [lia| |lia|by apply (fr_room _ _ _ _ _ _ F1)|].
    { replace (S k + length v)%nat with (k + S (length v))%nat by lia. lia. }
    exists m'. split; [rewrite E'; do 3 f_equal; lia|]. split.
    + split; [|done]. apply (entry_framed _ _ _ _ _ _ _ _ _ _ F' He Hf);
        unfold FILE_HEADER_SIZE in *; lia.
    + apply (framed_trans _ m1).
      * apply (framed_le _ _ _ _ _ _ _ _ _ _ F1); right; unfold FILE_HEADER_SIZE; lia.
      * apply (framed_le _ _ _ _ _ _ _ _ _ _ F'); right; unfold header_addr, FILE_HEADER_SIZE in *; lia.
Qed.

(** ** Images in the memory of the kernel *)

Definition image_size (fs : list rfile) : Z :=
  RD_HEADER_SIZE + Z.of_nat (length fs) * FILE_HEADER_SIZE + total_padded fs.

Record is_image (m : mem) (a : Z) (fs : list rfile) : Prop := {
  ii_name : cstr m a RAMDISK_NAME;
  ii_total : load32 (a + RD_TOTAL_SIZE) m = Some (image_size fs);
  ii_count : load32 (a + RD_FILE_COUNT) m = Some (Z.of_nat (length fs));
  ii_files : entries_at m a 0 (RD_HEADER_SIZE + Z.of_nat (length fs) * FILE_HEADER_SIZE) fs
}.

(** [l] holds the bytes of [m] from [buf]. *)
Definition copy_of (l : list Z) (m : mem) (buf : Z) : Prop :=
  forall i c, l !! i = Some c -> m !! (buf + Z.of_nat i) = Some c.

Lemma copy_bytes image m buf mk a o l :
  copy_of image m buf -> bytes_at mk a image -> bytes_at m (buf + o) l -> 0 <= o ->
  o + Z.of_nat (length l) <= Z.of_nat (length image) -> bytes_at mk (a + o) l.
Proof.
  intros Hc Hb Hl Ho Hle i c Hi. pose proof (lookup_lt_Some _ _ _ Hi) as Hlt.
  destruct (lookup_lt_is_Some_2 image (Z.to_nat o + i)) as [c' Hc']; [lia|].
  pose proof (Hc _ _ Hc') as E1. pose proof (Hl _ _ Hi) as E2.
  replace (buf + Z.of_nat (Z.to_nat o + i)) with (buf + o + Z.of_nat i) in E1 by lia.
  rewrite E1 in E2. injection E2 as ->. rewrite <- (Hb _ _ Hc'). f_equal. lia.
Qed.

Lemma copy_entries image m buf mk a fs k off :
  copy_of image m buf -> bytes_at mk a image -> entries_at m buf k off fs -> Forall rfile_ok fs ->
  0 <= off -> header_addr buf (k + length fs) <= buf + off ->
  off + total_padded fs <= Z.of_nat (length image) -> entries_at mk a k off fs.
Proof.
  intros Hc Hb. revert k off. induction fs as [|f fs IH]; intros k off He Hok Ho Hh Hle; [done|].
  destruct He as [[[N1 N2] B S D] He]. apply Forall_cons in Hok as [(Hn & Hl & Hd) Hok].
  cbn [length] in Hh. cbn [total_padded foldr] in Hle. fold (total_padded fs) in Hle.
  pose proof (padded_ge f) as Hp. pose proof (total_padded_nonneg fs).
  unfold FILE_NAME_SIZE in Hl. unfold header_addr, RD_HEADER_SIZE, FILE_HEADER_SIZE in *.
  assert (T : forall o l, bytes_at m (buf + o) l -> 0 <= o -> o + Z.of_nat (length l) <= off + padded f -> bytes_at mk (a + o) l).
  { intros o l Hbl H1 H2. apply (copy_bytes image m buf); [done..|lia]. }
  assert (Hk : 32 + Z.of_nat k * 40 + 40 <= off) by lia.
  split.
  - constructor; unfold header_addr, RD_HEADER_SIZE, FILE_HEADER_SIZE, FH_BASE, FH_SIZE in *.
    + split; [|done]. rewrite <- Z.add_assoc in N1 |- *. apply T; [done|lia|rewrite length_app; cbn [length]; lia].
    + rewrite <- !Z.add_assoc in B |- *. apply T; [done|lia|rewrite word_list_length; lia].
    + rewrite <- !Z.add_assoc in S |- *. apply T; [done|lia|rewrite word_list_length; lia].
    + apply T; [done|lia|lia].
  - apply IH; [done|done|lia| |lia].
    replace (Z.of_nat (Datatypes.S k + length fs)) with (Z.of_nat (k + Datatypes.S (length fs))) by lia. lia.
Qed.

Lemma entries_ext m m' buf fs k off :
  (forall x, buf + RD_HEADER_SIZE <= x -> m' !! x = m !! x) -> RD_HEADER_SIZE <= off ->
  entries_at m buf k off fs -> entries_at m' buf k off fs.
Proof.
  intros Hs. revert k off. induction fs as [|f fs IH]; intros k off Ho He; [done|].
  destruct He as [[[N1 N2] B S D] He]. pose proof (padded_ge f).
  split; [|apply IH; [lia|done]].
  constructor; [split; [|done]|..]; eapply bytes_at_frame; try done; intros x Hx; apply Hs;
    unfold header_addr, RD_HEADER_SIZE, FILE_HEADER_SIZE, FH_BASE, FH_SIZE in *; lia.
Qed.

Lemma gen_ramdisk_ok path es fs buf m :
  Z.of_nat (length path) + FILE_NAME_SIZE < TEMP_SIZE ->
  dir_files es = Some fs -> Forall rfile_ok fs -> Z.of_nat (length es) = Z.of_nat (length fs) + 2 ->
  image_size fs <= RAMDISK_MAX_SIZE -> room m buf RAMDISK_MAX_SIZE ->
  exists image, __gen_ramdisk path buf es m = Some (0, image) /\ Z.of_nat (length image) = image_size fs /\
    forall mk a, bytes_at mk a image -> is_image mk a fs.
Proof.
  intros Hpath Hd Hok Hlen Hmax Hr. unfold __gen_ramdisk.
  replace (Z.of_nat (length es) - 2) with (Z.of_nat (length fs)) by lia.
  pose proof (total_padded_nonneg fs) as Ht.
  assert (Hsz : RD_HEADER_SIZE + Z.of_nat (length fs) * FILE_HEADER_SIZE <= image_size fs) by (unfold image_size; lia).
  destruct (add_files_ok path es fs buf 0 (RD_HEADER_SIZE + Z.of_nat (length fs) * FILE_HEADER_SIZE) m Hpath Hd Hok)
    as (m1 & E1 & He & F1);
    [unfold RD_HEADER_SIZE, FILE_HEADER_SIZE; lia|unfold header_addr; cbn [Nat.add]; lia|unfold image_size in Hmax; lia|done|].
  replace (buf + RD_HEADER_SIZE) with (header_addr buf 0) by (unfold header_addr; lia).
  replace (header_addr buf 0 + Z.of_nat (length fs) * FILE_HEADER_SIZE)
    with (buf + (RD_HEADER_SIZE + Z.of_nat (length fs) * FILE_HEADER_SIZE)) by (unfold header_addr; lia).
  rewrite E1, bind_Some_eq. replace (buf + _ + total_padded fs) with (buf + image_size fs) by (unfold image_size; lia).
  replace (buf + image_size fs - buf) with (image_size fs) by lia.
  assert (R1 : room m1 buf RAMDISK_MAX_SIZE) by (by apply (fr_room _ _ _ _ _ _ F1)).
  unfold RAMDISK_MAX_SIZE in *.
  rewrite store_bytes_ok; [|repeat constructor; lia|intros i Hi; apply R1; cbn in Hi; lia].
  rewrite bind_Some_eq. set (m2 := write buf (RAMDISK_NAME ++ [0]) m1).
  assert (R2 : room m2 buf (1024 * 1024)) by (by apply room_write).
  rewrite store32_ok by (apply (room_le _ _ _ _ _ R2); unfold RD_FILE_COUNT; lia). rewrite bind_Some_eq.
  assert (Hn32 : Z.of_nat (length fs) < 2 ^ 32) by (unfold RD_HEADER_SIZE, FILE_HEADER_SIZE in *; lia).
  rewrite (u32_small (Z.of_nat (length fs))) by lia.
  set (m3 := write (buf + RD_FILE_COUNT) _ m2).
  assert (R3 : room m3 buf (1024 * 1024)) by (by apply room_write).
  rewrite store32_ok by (apply (room_le _ _ _ _ _ R3); unfold RD_TOTAL_SIZE; lia). rewrite bind_Some_eq.
  set (m4 := write (buf + RD_TOTAL_SIZE) _ m3).
  assert (R4 : room m4 buf (1024 * 1024)) by (by apply room_write).
  destruct (load_bytes_ok (Z.to_nat (image_size fs)) buf m4) as (image & El & Hil & Hic).
  { intros i Hi. apply R4. lia. }
  rewrite El, bind_Some_eq. exists image. split; [done|].
  assert (Hil' : Z.of_nat (length image) = image_size fs) by (unfold RD_HEADER_SIZE, FILE_HEADER_SIZE in *; lia).
  split; [done|]. intros mk a Hb.
  assert (Hsame : forall x, buf + RD_HEADER_SIZE <= x -> m4 !! x = m1 !! x).
  { intros x Hx. unfold m4, m3, m2. unfold RD_HEADER_SIZE in Hx.
    rewrite !lookup_write_out; [done|..]; cbn; unfold RD_FILE_COUNT, RD_TOTAL_SIZE; lia. }
  assert (He4 : entries_at m4 buf 0 (RD_HEADER_SIZE + Z.of_nat (length fs) * FILE_HEADER_SIZE) fs).
  { apply (entries_ext m1); [done|unfold RD_HEADER_SIZE, FILE_HEADER_SIZE; lia|done]. }
  assert (T : forall o l, bytes_at m4 (buf + o) l -> 0 <= o -> o + Z.of_nat (length l) <= 32 -> bytes_at mk (a + o) l).
  { intros o l Hl H1 H2. apply (copy_bytes image m4 buf); try done.
    unfold RD_HEADER_SIZE, FILE_HEADER_SIZE in *. lia. }
  constructor.
  - split; [|repeat constructor; lia]. rewrite <- (Z.add_0_r a). apply T; [|lia|cbn; lia]. rewrite Z.add_0_r.
    apply (bytes_at_frame m2); [apply write_bytes|]. intros x Hx. cbn in Hx. unfold m4, m3.
    rewrite !lookup_write_out; [done|..]; cbn; unfold RD_FILE_COUNT, RD_TOTAL_SIZE; lia.
  - apply load32_bytes; [unfold image_size, RD_HEADER_SIZE, FILE_HEADER_SIZE in *; lia|].
    apply T; [apply write_bytes|unfold RD_TOTAL_SIZE; lia|cbn; unfold RD_TOTAL_SIZE; lia].
  - apply load32_bytes; [lia|]. apply T; [|unfold RD_FILE_COUNT; lia|cbn; unfold RD_FILE_COUNT; lia].
    apply (bytes_at_frame m3); [apply write_bytes|]. intros x Hx. rewrite word_list_length in Hx.
    apply lookup_write_out. cbn. unfold RD_FILE_COUNT, RD_TOTAL_SIZE in *. lia.
  - apply (copy_entries image m4 buf); try done.
    + unfold RD_HEADER_SIZE, FILE_HEADER_SIZE. lia.
    + unfold header_addr. cbn [Nat.add]. lia.
    + rewrite Hil'. unfold image_size. lia.
Qed.

(** ** Mounting and opening *)

Section open.
Context {A : Type} `{!KmallocOps A}.
Variable start : Z.
Variable literal : Z.
Implicit Types (d : ramdisk A) (mk : mem).

Lemma mount_ok d mk fs :
  is_image mk start fs -> cstr mk literal RAMDISK_NAME -> 0 < start -> start + RD_HEADER_SIZE < 2 ^ 32 ->
  mount_ramdisk start literal d mk =
    Some (start, Mk_ramdisk start (start + RD_HEADER_SIZE) d.(files) d.(alloc)).
Proof.
  intros [Hn _ _ _] Hl H0 Ho. unfold mount_ramdisk, truth.
  rewrite (proj2 (Z.eqb_neq start 0)) by lia. cbn [negb].
  rewrite (strcmp_ok RAMDISK_NAME RAMDISK_NAME), bind_Some_eq by done.
  rewrite (proj2 (lex_compare_eq _ _) eq_refl). cbn [sign_of Z.eqb negb].
  unfold RD_HEADER_SIZE in *. rewrite u32_small by lia. done.
Qed.

Lemma entries_lookup m a k off fs j f :
  entries_at m a k off fs -> fs !! j = Some f ->
  exists o, entry_at m a (k + j) o f /\ off <= o /\ o + padded f <= off + total_padded fs.
Proof.
  revert k off j. induction fs as [|g fs IH]; intros k off [|j] He Hj; cbn [total_padded foldr] in *; try done;
    destruct He as [Hg He]; pose proof (total_padded_nonneg fs); pose proof (padded_ge g);
    fold (total_padded fs) in *.
  - injection Hj as ->. exists off. rewrite Nat.add_0_r. split; [done|]. lia.
  - destruct (IH _ _ _ He Hj) as (o & Ho & H1 & H2). exists o.
    replace (k + S j)%nat with (S k + j)%nat by lia. split; [done|]. lia.
Qed.

Lemma find_file_ok mk fs k off nm name j data fuel count :
  entries_at mk start k off fs -> cstr mk nm name -> NoDup fs.*1 -> fs !! j = Some (name, data) ->
  count = Z.of_nat (k + length fs) -> (j < fuel)%nat -> 0 <= start ->
  header_addr start (k + length fs) < 2 ^ 32 ->
  find_file fuel (Z.of_nat k) count nm (header_addr start k) mk = Some (Some (header_addr start (k + j))).
Proof.
  intros He Hnm. revert k off j fuel He.
  induction fs as [|f fs IH]; intros k off j fuel He Hnd Hj Hc Hf H0 Ho; [done|].
  destruct fuel as [|fuel]; [lia|]. destruct He as [Hfe He]. cbn [find_file length] in *.
  rewrite (proj2 (Z.ltb_lt (Z.of_nat k) count)) by lia.
  rewrite (strcmp_ok name f.1 _ _ _ Hnm (ea_name _ _ _ _ _ Hfe)), bind_Some_eq.
  apply NoDup_cons in Hnd as [Hnin Hnd]. destruct j as [|j].
  - injection Hj as ->. cbn [fst]. rewrite (proj2 (lex_compare_eq _ _) eq_refl). cbn [sign_of Z.eqb].
    by rewrite Nat.add_0_r.
  - cbn [lookup list_lookup] in Hj.
    assert (Hne : name <> f.1).
    { intros ->. apply Hnin. apply list_elem_of_fmap. exists (f.1, data). split; [done|].
      by apply (list_elem_of_lookup_2 _ j). }
    assert (Es : Z.eqb (sign_of (lex_compare name f.1)) 0 = false).
    { destruct (lex_compare name f.1) eqn:E; [by apply lex_compare_eq in E|done|done]. }
    rewrite Es. unfold header_addr in Ho |- *.
    rewrite u32_small by (unfold FILE_HEADER_SIZE, RD_HEADER_SIZE in *; lia).
    replace (Z.of_nat k + 1) with (Z.of_nat (S k)) by lia.
    replace (start + RD_HEADER_SIZE + Z.of_nat k * FILE_HEADER_SIZE + FILE_HEADER_SIZE)
      with (header_addr start (S k)) by (unfold header_addr; lia).
    rewrite (IH (S k) (off + padded f) j fuel He Hnd Hj) by (unfold header_addr in *; lia).
    unfold header_addr. do 2 f_equal. lia.
Qed.

Lemma open_ok mk fs nm name data j d fp t :
  is_image mk start fs -> cstr mk nm name -> NoDup fs.*1 -> fs !! j = Some (name, data) ->
  Forall rfile_ok fs -> 0 < start -> start + image_size fs < 2 ^ 32 -> image_size fs < 2 ^ 31 ->
  d.(ramdisk_header) = start -> d.(file_header) = start + RD_HEADER_SIZE ->
  ka_kmalloc SIZEOF_FILE GFP_KERNEL d.(alloc) = Some (fp, t) -> fp <> 0 ->
  exists d' f, ramdisk_open start nm d mk = Some (fp, d') /\ d'.(files) = <[fp := f]> d.(files) /\
    file_at mk f data 0 /\ (start <= f.(f_base) /\ f.(f_base) + f.(f_size) <= start + image_size fs) /\
    d'.(alloc) = t.
Proof.
  intros [Hn Htot Hc He] Hnm Hnd Hj Hok H0 Ho H31 Hh Hfh Hk Hfp.
  pose proof (total_padded_nonneg fs) as Ht. pose proof (lookup_lt_Some _ _ _ Hj) as Hlt.
  unfold image_size in Ho, H31. unfold ramdisk_open. rewrite Hh, Hc, bind_Some_eq.
  assert (Hl : Z.of_nat (length fs) < 2 ^ 31) by (unfold RD_HEADER_SIZE, FILE_HEADER_SIZE in *; lia).
  rewrite s32_small by lia. rewrite Nat2Z.id, Hfh.
  replace (start + RD_HEADER_SIZE) with (header_addr start 0) by (unfold header_addr; lia).
  pose proof (find_file_ok mk fs 0 _ nm name j data (S (length fs)) (Z.of_nat (length fs)) He Hnm Hnd Hj eq_refl) as Hfind.
  change (Z.of_nat 0) with 0 in Hfind. rewrite Hfind by (unfold header_addr; cbn [Nat.add]; lia).
  rewrite bind_Some_eq, Hk, bind_Some_eq. cbv beta iota zeta. rewrite (proj2 (Z.eqb_neq fp 0) Hfp).
  destruct (entries_lookup _ _ _ _ _ _ _ He Hj) as (o & [_ Hb Hs Hd] & Hlo & Hhi).
  pose proof (padded_ge (name, data)) as Hp. cbn [fst snd Nat.add] in *.
  pose proof (Forall_lookup_1 _ _ _ _ Hok Hj) as (_ & _ & Hbytes). cbn [snd] in Hbytes.
  assert (Hr : 0 <= o /\ o + Z.of_nat (length data) <= RD_HEADER_SIZE + Z.of_nat (length fs) * FILE_HEADER_SIZE + total_padded fs)
    by (unfold RD_HEADER_SIZE, FILE_HEADER_SIZE in *; lia).
  rewrite (load32_bytes (header_addr start j + FH_BASE) o mk); [|lia|exact Hb]. rewrite bind_Some_eq.
  rewrite (load32_bytes (header_addr start j + FH_SIZE) (Z.of_nat (length data)) mk); [|lia|exact Hs]. rewrite bind_Some_eq.
  rewrite u32_small by lia. eexists _, _. split; [reflexivity|]. split; [done|].
  split; [constructor; cbn [f_base f_size f_curr]; try done; lia|].
  split; [cbn [f_base f_size]; unfold image_size, RD_HEADER_SIZE, FILE_HEADER_SIZE in *; lia|done].
Qed.
End open.

(** ** Property *)

(** C32. The image the host tool generates for a directory is one the kernel can mount: the
    generator succeeds on a directory of files with short names and a path that leaves room
    for them in its buffer, whose image fits in
    the megabyte it allows, and wherever the kernel finds these bytes, [mount_ramdisk] accepts
    them, [ramdisk_open] on the name of any of the files gives an open file at
    position 0 of exactly the contents of that file, and a [ramdisk_read] on it, into a buffer
    [memcpy] can copy to, puts the first [size] bytes of the contents there, or
    all of them if there are fewer, and returns their number. *)
Theorem ramdisk_image_roundtrip {A : Type} `{!KmallocOps A} path es fs buf m :
  Z.of_nat (length path) + FILE_NAME_SIZE < TEMP_SIZE ->
  dir_files es = Some fs -> Forall rfile_ok fs -> NoDup fs.*1 ->
  Z.of_nat (length es) = Z.of_nat (length fs) + 2 ->
  image_size fs <= RAMDISK_MAX_SIZE -> room m buf RAMDISK_MAX_SIZE ->
  exists image, __gen_ramdisk path buf es m = Some (0, image) /\ Z.of_nat (length image) = image_size fs /\
    forall start literal mk nm name data j (d : ramdisk A) fp t,
      bytes_at mk start image -> 0 < start -> start + image_size fs < 2 ^ 32 ->
      cstr mk literal RAMDISK_NAME -> cstr mk nm name -> fs !! j = Some (name, data) ->
      ka_kmalloc SIZEOF_FILE GFP_KERNEL d.(alloc) = Some (fp, t) -> fp <> 0 ->
      exists d1 d2 f, mount_ramdisk start literal d mk = Some (start, d1) /\
        ramdisk_open start nm d1 mk = Some (fp, d2) /\ d2.(files) = <[fp := f]> d.(files) /\
        file_at mk f data 0 /\
        forall rbuf size, 0 <= size < 2 ^ 31 -> start + image_size fs + size < 2 ^ 32 -> room mk rbuf size ->
          disjoint rbuf size start (image_size fs) ->
          copies rbuf f.(f_base) (Z.min size (Z.of_nat (length data))) ->
          exists d3, ramdisk_read fp rbuf size d2 mk =
            Some (Z.min size (Z.of_nat (length data)), d3, write rbuf (take (Z.to_nat size) data) mk).
Proof.
  intros Hpath Hd Hok Hnd Hlen Hmax Hr.
  destruct (gen_ramdisk_ok path es fs buf m Hpath Hd Hok Hlen Hmax Hr) as (image & Eg & El & Hi).
  exists image. do 2 (split; [done|]).
  intros start literal mk nm name data j d fp t Hb H0 Ho Hlit Hnm Hj Hk Hfp. specialize (Hi mk start Hb).
  pose proof (total_padded_nonneg fs) as Htp. unfold RAMDISK_MAX_SIZE in Hmax.
  assert (RD_HEADER_SIZE <= image_size fs) by (unfold image_size, FILE_HEADER_SIZE; lia).
  rewrite (mount_ok start literal d mk fs) by (done || lia).
  destruct (open_ok start mk fs nm name data j
    (Mk_ramdisk start (start + RD_HEADER_SIZE) d.(files) d.(alloc)) fp t) as (d2 & f & E2 & Ef & Hf & Hrg & _);
    try done; try lia.
  eexists _, d2, f. split; [reflexivity|]. split; [done|]. split; [done|]. split; [done|].
  intros rbuf size Hs Hov Hroom Hdis Hcp.
  pose proof (fa_curr _ _ _ _ Hf) as Hc. pose proof (fa_size _ _ _ _ Hf) as Hfs.
  assert (Hlt : f.(f_size) < 2 ^ 31) by lia.
  pose proof (length_chunk data 0 size ltac:(lia) ltac:(lia)) as Hlc. rewrite Z.sub_0_r in Hlc.
  destruct (ramdisk_read_ok fp rbuf size d2 mk f data 0) as (d3 & E3 & _); try done; try lia.
  - rewrite Ef. apply lookup_insert_eq.
  - unfold disjoint in *. lia.
  - rewrite Hlc, Hc, Z.add_0_r. exact Hcp.
  - exists d3. rewrite E3, Hlc. unfold chunk. by rewrite drop_0.
Qed.

(** A directory with two files, ["a"] and ["bc"]. *)
Definition demo_dir : list dirent :=
  [Mk_dirent DOT None; Mk_dirent [97] (Some [1; 2; 3]); Mk_dirent DOTDOT None; Mk_dirent [98; 99] (Some [7])].

(** The two strings, and the image at 0x2000. *)
Definition demo_strings : mem := write 0x1000 (RAMDISK_NAME ++ [0]) (write 0x1100 [98; 99; 0] ∅).

Lemma ramdisk_image_roundtrip_witness :
  exists image d1 d2 d3 m3, let mk := write 0x2000 image demo_strings in
    __gen_ramdisk [47; 114; 100] 0 demo_dir (write 0 (replicate (Z.to_nat RAMDISK_MAX_SIZE) 0) ∅) = Some (0, image) /\
    mount_ramdisk 0x2000 0x1000 (Mk_ramdisk 0 0 ∅ 0x5000) mk = Some (0x2000, d1) /\
    @ramdisk_open Z bump_alloc 0x2000 0x1100 d1 mk = Some (0x5000, d2) /\
    ramdisk_read 0x5000 0x1000 2 d2 mk = Some (1, d3, m3) /\ m3 !! 0x1000 = Some 7.
Proof.
  destruct (@ramdisk_image_roundtrip Z bump_alloc [47; 114; 100] demo_dir [([97], [1; 2; 3]); ([98; 99], [7])] 0
    (write 0 (replicate (Z.to_nat RAMDISK_MAX_SIZE) 0) ∅)) as (image & Eg & El & H).
  - vm_compute. reflexivity.
  - reflexivity.
  - repeat constructor; cbn; unfold FILE_NAME_SIZE; lia.
  - repeat constructor; set_solver.
  - reflexivity.
  - vm_compute. congruence.
  - apply room_zeros.
  - assert (Hs : forall a l, (a = 0x1000 /\ l = RAMDISK_NAME) \/ (a = 0x1100 /\ l = [98; 99]) ->
      cstr (write 0x2000 image demo_strings) a l).
    { intros a l Hal. split.
      - apply (bytes_at_frame demo_strings).
        + destruct Hal as [[-> ->]|[-> ->]]; [apply write_bytes|].
          apply (bytes_at_frame (write 0x1100 [98; 99; 0] ∅)); [apply write_bytes|].
          intros x Hx. apply lookup_write_out. cbn in *. lia.
        + intros x Hx. apply lookup_write_out. destruct Hal as [[-> ->]|[-> ->]]; cbn in Hx; lia.
      - destruct Hal as [[-> ->]|[-> ->]]; repeat constructor; lia. }
    destruct (H 0x2000 0x1000 (write 0x2000 image demo_strings) 0x1100 [98; 99] [7] 1%nat
      (Mk_ramdisk 0 0 ∅ 0x5000) 0x5000 (0x5000 + 12)) as (d1 & d2 & f & E1 & E2 & _ & _ & Hread).
    + apply write_bytes.
    + lia.
    + vm_compute. congruence.
    + apply Hs. left. split; reflexivity.
    + apply Hs. right. split; reflexivity.
    + reflexivity.
    + reflexivity.
    + lia.
    + destruct (Hread 0x1000 2) as (d3 & E3); [lia|vm_compute; congruence| |left; vm_compute; congruence| |].
      * apply room_write. intros i Hi. apply (room_write_self 0x1000 (RAMDISK_NAME ++ [0])). cbn. lia.
      * by apply copies_aligned.
      * exists image, d1, d2, d3. eexists. split; [exact Eg|]. split; [exact E1|]. split; [exact E2|].
        split; [exact E3|]. exact (write_bytes 0x1000 [7] (write 0x2000 image demo_strings) 0%nat 7 eq_refl).
Defined.

(** A file that cannot be opened is skipped but still counted: the image then announces
    one more file than it has headers. *)
Theorem unreadable_file_is_counted :
  exists image, __gen_ramdisk [] 0 [Mk_dirent DOT None; Mk_dirent DOTDOT None; Mk_dirent [97] None]
      (write 0 (replicate 100 0) ∅) = Some (0, image) /\ length image = 72%nat /\ image !! 20%nat = Some 1 /\
    drop 32 image = replicate 40 0.
Proof. eexists. vm_compute. repeat split; reflexivity. Qed.

(** The buffer for the path of a file is not guarded: a directory and a name of more than
    121 characters together are written past its end. *)
Theorem long_path_overflows path e es buf hdr base m :
  e.(d_name) <> DOT -> e.(d_name) <> DOTDOT -> 121 < Z.of_nat (length path + length e.(d_name)) ->
  add_files path (e :: es) buf hdr base m = None.
Proof.
  intros H1 H2 Hl. cbn [add_files]. rewrite !bool_decide_eq_false_2 by done. cbn [orb].
  assert (E : path_fits path e.(d_name) = false) by (apply Z.leb_gt; unfold TEMP_SIZE; lia). by rewrite E.
Qed.
