(* ===== verification/Elf.v ===== *)
(** * ELF files

    Models [kernel/elf.c] and [include/os/elf.h]: reading the section headers of a
    program and collecting the sections that occupy memory.  The structures the code
    builds, [struct elf_file] and [struct elf_section], are identified by their
    addresses; the raw headers it reads are bytes of memory. *)

From S2P Require Import Prelude ListHead TaskStruct Bitops Mem CString MmTypes Ramdisk.

Definition SHF_ALLOC : Z := 0x2.
Definition ELF_HEADER_SIZE : Z := 52.
Definition SECTION_HEADER_SIZE : Z := 40.
Definition STR_SIZE : Z := 4096.
Definition SECTION_NAME_SIZE : Z := 32.

(** [sizeof(struct elf_file)], [sizeof(struct elf_section)]. *)
Definition SIZEOF_ELF_FILE : Z := 8.
Definition SIZEOF_ELF_SECTION : Z := 48.

(** Offsets in [elf_header]. *)
Definition E_SHOFF : Z := 32.
Definition E_SHENTSIZE : Z := 46.
Definition E_SHNUM : Z := 48.
Definition E_SHSTRNDX : Z := 50.

(** Offsets in [elf_section_header]. *)
Definition SH_NAME : Z := 0.
Definition SH_FLAGS : Z := 8.
Definition SH_ADDR : Z := 12.
Definition SH_OFFSET : Z := 16.
Definition SH_SIZE : Z := 20.

Record elf_section : Type := Mk_section_t {
  s_name : list Z;
  s_offset : Z;
  s_size : Z;
  s_load_addr : Z;
  s_next : Z
}.

Record elf_file : Type := Mk_elf_file { alloc_size : Z; head : Z }.

Definition with_next (v : Z) (x : elf_section) : elf_section :=
  Mk_section_t x.(s_name) x.(s_offset) x.(s_size) x.(s_load_addr) v.

(** The ram disk with its allocator, memory, and the structures built so far. *)
Record elf_sys (A : Type) : Type := Mk_elf_sys {
  disk : ramdisk A;
  ram : mem;
  elf_files : gmap Z elf_file;
  sections : gmap Z elf_section
}.

Arguments Mk_elf_sys {A} _ _ _ _.
Arguments disk {A} _.
Arguments ram {A} _.
Arguments elf_files {A} _.
Arguments sections {A} _.

Section elf.
Context {A : Type} `{!KmallocOps A}.
(** The address of the literal [ELFMAG] and of the local [hdr] of [get_elf_info]. *)
Variable elfmag : Z.
Variable hdr : Z.

Implicit Types (s : elf_sys A) (m : mem) (a file : Z).

Definition with_disk (d : ramdisk A) s : elf_sys A := Mk_elf_sys d s.(ram) s.(elf_files) s.(sections).
Definition with_ram m s : elf_sys A := Mk_elf_sys s.(disk) m s.(elf_files) s.(sections).
Definition with_elf_files (v : gmap Z elf_file) s : elf_sys A := Mk_elf_sys s.(disk) s.(ram) v s.(sections).
Definition with_sections (v : gmap Z elf_section) s : elf_sys A := Mk_elf_sys s.(disk) s.(ram) s.(elf_files) v.

Definition with_alloc (t : A) (d : ramdisk A) : ramdisk A :=
  Mk_ramdisk d.(ramdisk_header) d.(file_header) d.(files) t.

Definition elf_kmalloc (size : Z) s : option (Z * elf_sys A) :=
  '(a, t) ← ka_kmalloc size GFP_KERNEL s.(disk).(alloc);
  Some (a, with_disk (with_alloc t s.(disk)) s).

Definition elf_kfree a s : option (elf_sys A) :=
  t ← ka_kfree a s.(disk).(alloc); Some (with_disk (with_alloc t s.(disk)) s).

(** [kzalloc] of a structure: on failure it clears memory through a null pointer. *)
Definition kzalloc_file s : option (Z * elf_sys A) :=
  '(a, s1) ← elf_kmalloc SIZEOF_ELF_FILE s;
  if Z.eqb a 0 then None else Some (a, with_elf_files (<[a := Mk_elf_file 0 0]> s1.(elf_files)) s1).

Definition kzalloc_section s : option (Z * elf_sys A) :=
  '(a, s1) ← elf_kmalloc SIZEOF_ELF_SECTION s;
  if Z.eqb a 0 then None else Some (a, with_sections (<[a := Mk_section_t [] 0 0 0 0]> s1.(sections)) s1).

(** ** Collecting sections *)

Fixpoint last_section (fuel : nat) (tmp : Z) (ss : gmap Z elf_section) : option Z :=
  match fuel with
  | O => None
  | S fuel' =>
      x ← ss !! tmp;
      if Z.eqb x.(s_next) 0 then Some tmp else last_section fuel' x.(s_next) ss
  end.

(** The bytes of a string, for [strcpy] into the 32 bytes of [section->name]. *)
Fixpoint string_at (fuel : nat) a m : option (list Z) :=
  match fuel with
  | O => None
  | S fuel' =>
      c ← load8 a m;
      if truth c then l ← string_at fuel' (a + 1) m; Some (c :: l) else Some []
  end.

(** [header] is the address of the section header. *)
Definition elf_file_add_section file header section name s : option (elf_sys A) :=
  x ← s.(elf_files) !! file;
  off ← load32 (header + SH_OFFSET) s.(ram);
  size ← load32 (header + SH_SIZE) s.(ram);
  addr ← load32 (header + SH_ADDR) s.(ram);
  nm ← string_at (Z.to_nat SECTION_NAME_SIZE) name s.(ram);
  _ ← s.(sections) !! section;
  let s1 := with_sections (<[section := Mk_section_t nm off size addr 0]> s.(sections)) s in
  let total := x.(alloc_size) +u size in
  if Z.eqb x.(head) 0 then Some (with_elf_files (<[file := Mk_elf_file total section]> s1.(elf_files)) s1)
  else
    t ← last_section (S (base.size s1.(sections))) x.(head) s1.(sections);
    l ← s1.(sections) !! t;
    Some (with_elf_files (<[file := Mk_elf_file total x.(head)]> s1.(elf_files))
      (with_sections (<[t := with_next section l]> s1.(sections)) s1)).

Fixpoint parse_loop (n : nat) (tmp str file : Z) s : option (elf_sys A) :=
  match n with
  | O => Some s
  | S n' =>
      flags ← load32 (tmp + SH_FLAGS) s.(ram);
      s1 ← (if truth (flags &u SHF_ALLOC) then
              '(section, s1) ← kzalloc_section s;
              nm ← load32 (tmp + SH_NAME) s1.(ram);
              elf_file_add_section file tmp section (str +u nm) s1
            else Some s);
      parse_loop n' (tmp + SECTION_HEADER_SIZE) str file s1
  end.

Definition parse_elf_info header (section_num : Z) str s : option (Z * elf_sys A) :=
  '(file, s1) ← kzalloc_file s;
  s2 ← parse_loop (Z.to_nat section_num) header str file s1;
  Some (file, s2).

(** ** Release *)

Fixpoint release_sections (fuel : nat) (tmp : Z) s : option (elf_sys A) :=
  match fuel with
  | O => None
  | S fuel' =>
      if Z.eqb tmp 0 then Some s
      else x ← s.(sections) !! tmp; s1 ← elf_kfree tmp s; release_sections fuel' x.(s_next) s1
  end.

Definition release_elf_file file s : option (elf_sys A) :=
  x ← s.(elf_files) !! file;
  s1 ← release_sections (S (base.size s.(sections))) x.(head) s;
  elf_kfree file s1.

(** ** Reading a file *)

Definition fs_read fp buf size s : option (Z * elf_sys A) :=
  '(n, d, m) ← ramdisk_read fp buf size s.(disk) s.(ram);
  Some (n, with_ram m (with_disk d s)).

Definition fs_seek fp offset s : option (Z * elf_sys A) :=
  '(r, d) ← ramdisk_seek fp offset s.(disk);
  Some (r, with_disk d s).

(** The part of [get_elf_info] after both buffers are allocated, up to [go_out]. *)
Definition read_sections fp header str shnum shentsize shstrndx s : option (Z * elf_sys A) :=
  '(r, s) ← fs_read fp header (s32 (shnum * shentsize)) s;
  if Z.ltb r 0 then Some (0, s)
  else
    off ← load32 (header + shstrndx * SECTION_HEADER_SIZE + SH_OFFSET) s.(ram);
    '(r, s) ← fs_seek fp off s;
    if Z.ltb r 0 then Some (0, s)
    else
      '(r, s) ← fs_read fp str STR_SIZE s;
      if Z.ltb r 0 then Some (0, s)
      else
        '(e, s) ← parse_elf_info header shnum str s;
        x ← s.(elf_files) !! e;
        if negb (Z.eqb e 0) && Z.eqb x.(alloc_size) 0 then s ← release_elf_file e s; Some (0, s)
        else Some (e, s).

Definition get_elf_info fp s : option (Z * elf_sys A) :=
  '(r, s) ← fs_read fp hdr ELF_HEADER_SIZE s;
  if Z.ltb r 0 then Some (0, s)
  else
    c ← strncmp elfmag hdr 4 s.(ram);
    if truth c then Some (0, s)
    else
      shoff ← load32 (hdr + E_SHOFF) s.(ram);
      shentsize ← load16 (hdr + E_SHENTSIZE) s.(ram);
      shnum ← load16 (hdr + E_SHNUM) s.(ram);
      shstrndx ← load16 (hdr + E_SHSTRNDX) s.(ram);
      '(header, s) ← elf_kmalloc (s32 (shnum * shentsize)) s;
      if Z.eqb header 0 then Some (0, s)
      else
        '(str, s) ← elf_kmalloc STR_SIZE s;
        if Z.eqb str 0 then None  (* [elf_file] is returned uninitialised *)
        else
          '(r, s) ← fs_seek fp shoff s;
          if Z.ltb r 0 then Some (0, s)
          else
            '(e, s) ← read_sections fp header str shnum shentsize shstrndx s;
            s ← elf_kfree str s;
            s ← elf_kfree header s;
            Some (e, s).

(** ** Section lists *)

(** What is known of a section: name, offset, size, load address. *)
Record sec : Type := Mk_sec { sc_name : list Z; sc_off : Z; sc_size : Z; sc_addr : Z }.

Definition sec_at (x : elf_section) (y : sec) : Prop :=
  x.(s_name) = y.(sc_name) /\ x.(s_offset) = y.(sc_off) /\ x.(s_size) = y.(sc_size) /\ x.(s_load_addr) = y.(sc_addr).

(** The list that starts at [a] holds the sections [l], each with its address. *)
Fixpoint seg (ss : gmap Z elf_section) (a : Z) (l : list (Z * sec)) : Prop :=
  match l with
  | [] => a = 0
  | p :: l' => a = p.1 /\ a <> 0 /\ exists x, ss !! a = Some x /\ sec_at x p.2 /\ seg ss x.(s_next) l'
  end.

Lemma seg_frame ss ss' a l :
  (forall p, p ∈ l -> ss' !! p.1 = ss !! p.1) -> seg ss a l -> seg ss' a l.
Proof.
  revert a. induction l as [|p l IH]; intros a Hf; [done|]. intros (-> & H0 & x & Hx & Hs & Hl).
  split; [done|]. split; [done|]. exists x. rewrite Hf by set_solver. do 2 (split; [done|]).
  apply IH; [|done]. intros q Hq. apply Hf. set_solver.
Qed.

Lemma last_section_ok l p ss a fuel :
  seg ss a (l ++ [p]) -> (length l < fuel)%nat -> last_section fuel a ss = Some p.1.
Proof.
  revert a fuel. induction l as [|q l IH]; intros a [|fuel] Hs Hf; cbn [length] in Hf; try lia;
    destruct Hs as (-> & H0 & x & Hx & _ & Hl); cbn [last_section app] in *; rewrite Hx, bind_Some_eq.
  - cbn in Hl. by rewrite Hl.
  - assert (x.(s_next) <> 0) by (destruct l; destruct Hl as (-> & ? & _); done).
    rewrite (proj2 (Z.eqb_neq _ 0)) by done. apply IH; [done|lia].
Qed.

Lemma seg_append ss a l p q x y :
  seg ss a (l ++ [p]) -> NoDup ((l ++ [p; q]).*1) -> ss !! p.1 = Some x -> ss !! q.1 = Some y ->
  q.1 <> 0 -> sec_at y q.2 -> y.(s_next) = 0 ->
  seg (<[p.1 := with_next q.1 x]> ss) a (l ++ [p; q]).
Proof.
  revert a. induction l as [|r l IH]; intros a Hs Hn Hx Hy H0 Hyq Hy0; cbn [app] in *.
  - destruct Hs as (-> & Hp0 & x' & Hx' & Hs & _). rewrite Hx in Hx'. injection Hx' as <-.
    split; [done|]. split; [done|]. exists (with_next q.1 x). rewrite lookup_insert_eq. split; [done|].
    split; [done|]. split; [done|]. split; [done|]. exists y.
    rewrite lookup_insert_ne; [by rewrite Hy0|]. intros E. cbn in Hn. apply NoDup_cons in Hn as [Hn _].
    rewrite E in Hn. set_solver.
  - destruct Hs as (-> & Hr0 & z & Hz & Hs & Hl). cbn in Hn. apply NoDup_cons in Hn as [Hn1 Hn].
    split; [done|]. split; [done|]. exists z.
    rewrite lookup_insert_ne.
    + do 2 (split; [done|]). by apply IH.
    + intros E. apply Hn1. rewrite <- E, fmap_app. set_solver.
Qed.

Lemma seg_size ss a l : seg ss a l -> NoDup l.*1 -> (length l <= base.size ss)%nat.
Proof.
  intros Hs Hn. rewrite <- (length_fmap fst), <- size_dom, <- (size_list_to_set (C:=gset Z) _ Hn).
  apply subseteq_size. intros z Hz. apply elem_of_list_to_set in Hz.
  apply list_elem_of_fmap in Hz as (p & -> & Hp). apply elem_of_dom. clear Hn.
  revert a Hs. induction l as [|q l IH]; intros a Hs; [by apply elem_of_nil in Hp|].
  destruct Hs as (-> & _ & x & Hx & _ & Hl). apply elem_of_cons in Hp as [->|Hp]; [by eexists|].
  by apply (IH Hp _ Hl).
Qed.

(** ** What parsing promises *)

(** A section header at [a] whose name is in the string table [str]. *)
Record shdr_at m str a (flags : Z) (y : sec) : Prop := {
  sh_flags : load32 (a + SH_FLAGS) m = Some flags;
  sh_off : load32 (a + SH_OFFSET) m = Some y.(sc_off);
  sh_size : load32 (a + SH_SIZE) m = Some y.(sc_size);
  sh_addr : load32 (a + SH_ADDR) m = Some y.(sc_addr);
  sh_name : exists n, load32 (a + SH_NAME) m = Some n /\ cstr m (str +u n) y.(sc_name);
  sh_short : Z.of_nat (length y.(sc_name)) < SECTION_NAME_SIZE
}.

Fixpoint shdrs_at m str a (hs : list (Z * sec)) : Prop :=
  match hs with
  | [] => True
  | h :: hs' => shdr_at m str a h.1 h.2 /\ shdrs_at m str (a + SECTION_HEADER_SIZE) hs'
  end.

(** The sections that occupy memory, in order. *)
Definition wanted (hs : list (Z * sec)) : list sec :=
  snd <$> filter (fun h => truth (h.1 &u SHF_ALLOC) = true) hs.

(** The addresses [n] allocations of sections give. *)
Fixpoint allocs (n : nat) (a : A) : option (list Z * A) :=
  match n with
  | O => Some ([], a)
  | S n' => '(x, a1) ← ka_kmalloc SIZEOF_ELF_SECTION GFP_KERNEL a; '(xs, a2) ← allocs n' a1; Some (x :: xs, a2)
  end.

Definition total_size (l : list sec) : Z := foldr (fun y n => y.(sc_size) + n) 0 l.

Lemma string_at_ok l fuel a m :
  cstr m a l -> (length l < fuel)%nat -> string_at fuel a m = Some l.
Proof.
  revert fuel a. induction l as [|c l IH]; intros [|fuel] a Hs Hf; cbn [string_at length] in *; try lia;
    rewrite (cstr_head _ _ _ Hs), bind_Some_eq; cbn [List.hd from_option id].
  - done.
  - apply cstr_tail in Hs as [Hs Hc]. unfold truth. cbn [option_map list.head].
    cbn. rewrite (proj2 (Z.eqb_neq c 0)) by lia. cbn [negb]. rewrite IH by (done || lia). done.
Qed.

Lemma add_section_ok f a q y flags str s x l n :
  s.(elf_files) !! f = Some x -> seg s.(sections) x.(head) l -> NoDup (l.*1 ++ [q]) ->
  is_Some (s.(sections) !! q) -> q <> 0 -> shdr_at s.(ram) str a flags y ->
  load32 (a + SH_NAME) s.(ram) = Some n -> cstr s.(ram) (str +u n) y.(sc_name) ->
  exists s' hd, elf_file_add_section f a q (str +u n) s = Some s' /\
    s'.(elf_files) = <[f := Mk_elf_file (x.(alloc_size) +u y.(sc_size)) hd]> s.(elf_files) /\
    seg s'.(sections) hd (l ++ [(q, y)]) /\ dom s'.(sections) = dom s.(sections) /\
    s'.(ram) = s.(ram) /\ s'.(disk) = s.(disk) /\
    (forall p, p <> q -> p ∉ l.*1 -> s'.(sections) !! p = s.(sections) !! p).
Proof.
  intros Hf Hs Hn [z Hz] H0 [Hfl Ho Hsz Had _ Hsh] En Hnm.
  unfold elf_file_add_section. rewrite Hf, bind_Some_eq, Ho, bind_Some_eq, Hsz, bind_Some_eq, Had, bind_Some_eq.
  rewrite (string_at_ok y.(sc_name)) by (done || lia). rewrite bind_Some_eq, Hz, bind_Some_eq.
  set (new := Mk_section_t _ _ _ _ 0). set (ss := <[q := new]> s.(sections)).
  assert (Hql : q ∉ l.*1) by (apply NoDup_app in Hn as (_ & Hn & _); intros Hq; apply (Hn q Hq); set_solver).
  assert (Hs1 : seg ss x.(head) l).
  { apply (seg_frame s.(sections)); [|done]. intros p Hp. apply lookup_insert_ne. intros ->.
    apply Hql. by apply list_elem_of_fmap_2. }
  assert (Hd1 : dom ss = dom s.(sections)).
  { unfold ss. rewrite dom_insert_L. assert (q ∈ dom s.(sections)) by (apply elem_of_dom; by eexists). set_solver. }
  destruct l as [|p0 l0] eqn:El using rev_ind.
  - cbn in Hs. rewrite Hs. cbn [Z.eqb]. eexists _, q. split; [reflexivity|]. split; [done|].
    cbn [sections with_elf_files with_sections]. split; [|do 3 (split; [done|])].
    + cbn. split; [done|]. split; [done|]. exists new. unfold ss. by rewrite lookup_insert_eq.
    + intros p Hp _. by apply lookup_insert_ne.
  - clear IHl0. set (p := p0) in *.
    assert (Hhd : x.(head) <> 0) by (destruct l0; destruct Hs as (-> & ? & _); done).
    rewrite (proj2 (Z.eqb_neq _ 0) Hhd).
    cbn [sections with_sections]. fold ss.
    assert (Hlen : (length l0 < S (base.size ss))%nat).
    { pose proof (seg_size _ _ _ Hs1) as Hsz1. rewrite length_app in Hsz1. cbn in Hsz1.
      apply NoDup_app in Hn as (Hn & _). specialize (Hsz1 Hn). lia. }
    rewrite (last_section_ok l0 p ss x.(head)) by done. rewrite bind_Some_eq.
    assert (Hpx : exists lx, ss !! p.1 = Some lx).
    { clear -Hs1. revert Hs1. generalize x.(head). induction l0 as [|r l0 IH]; intros b Hs; destruct Hs as (-> & _ & w & Hw & _ & Hl).
      - by exists w. - by apply (IH w.(s_next)). }
    destruct Hpx as [lx Hlx]. rewrite Hlx, bind_Some_eq.
    eexists _, x.(head). split; [reflexivity|]. split; [done|]. cbn [sections with_elf_files with_sections].
    split; [|split; [|do 2 (split; [done|])]].
    + rewrite <- app_assoc. change (with_next q lx) with (with_next (q, y).1 lx).
      apply (seg_append _ _ _ _ _ _ new); try done.
      * change [p; (q, y)] with ([p] ++ [(q, y)]). rewrite app_assoc, fmap_app. done.
      * unfold ss. by rewrite lookup_insert_eq.
    + rewrite dom_insert_L, Hd1. assert (p.1 ∈ dom ss) by (apply elem_of_dom; by eexists). rewrite Hd1 in *. set_solver.
    + intros r Hr Hrl. rewrite lookup_insert_ne; [by apply lookup_insert_ne|].
      intros <-. apply Hrl. rewrite fmap_app. set_solver.
Qed.

Lemma parse_loop_ok hs a str f s x l addrs t2 :
  s.(elf_files) !! f = Some x -> seg s.(sections) x.(head) l ->
  shdrs_at s.(ram) str a hs -> allocs (length (wanted hs)) s.(disk).(alloc) = Some (addrs, t2) ->
  NoDup (l.*1 ++ addrs) -> 0 ∉ addrs -> (forall p, p ∈ addrs -> s.(sections) !! p = None) ->
  0 <= x.(alloc_size) < 2 ^ 32 ->
  exists s' hd, parse_loop (length hs) a str f s = Some s' /\
    s'.(elf_files) !! f = Some (Mk_elf_file (u32 (x.(alloc_size) + total_size (wanted hs))) hd) /\
    seg s'.(sections) hd (l ++ zip addrs (wanted hs)) /\ s'.(ram) = s.(ram) /\
    s'.(disk) = with_alloc t2 s.(disk).
Proof.
  revert a s x l addrs. induction hs as [|[fl y] hs IH]; intros a s x l addrs Hf Hs Hh Ha Hn H0 Hfr Hx;
    cbn [length parse_loop].
  - cbn in Ha. injection Ha as <- <-. exists s, x.(head). split; [done|]. cbn [wanted]. cbn.
    rewrite Z.add_0_r, (u32_small x.(alloc_size)) by done. rewrite app_nil_r. destruct x. split; [done|]. split; [done|]. split; [done|].
    unfold with_alloc. by destruct s.(disk).
  - destruct Hh as [Hy Hh]. cbn [fst snd] in Hy. rewrite (sh_flags _ _ _ _ _ Hy), bind_Some_eq.
    unfold wanted in Ha |- *. cbn [filter list_filter] in Ha |- *.
    destruct (truth (fl &u SHF_ALLOC)) eqn:Efl.
    + rewrite decide_True in Ha |- * by done. cbn [fmap list_fmap snd] in Ha |- *. fold (wanted hs) in Ha |- *.
      cbn [length allocs] in Ha. apply bind_some in Ha as ([q t1] & Ek & Ha).
      apply bind_some in Ha as ([qs t2'] & Eqs & Ha). injection Ha as <- <-.
      unfold kzalloc_section, elf_kmalloc. rewrite Ek, !bind_Some_eq.
      assert (Hq0 : q <> 0) by set_solver. rewrite (proj2 (Z.eqb_neq q 0) Hq0), bind_Some_eq.
      set (s1 := with_sections _ _). destruct (sh_name _ _ _ _ _ Hy) as (n & En & Hnm).
      change s1.(ram) with s.(ram). rewrite En, bind_Some_eq.
      assert (Hnq : q ∉ l.*1) by (apply NoDup_app in Hn as (_ & Hn & _); intros Hin; apply (Hn q Hin); set_solver).
      assert (Hn1 : NoDup (l.*1 ++ [q])).
      { apply NoDup_app in Hn as (N1 & N2 & _). apply NoDup_app. split; [done|]. split; [|apply NoDup_singleton].
        intros z Hz ->%list_elem_of_singleton. done. }
      destruct (add_section_ok f a q y fl str s1 x l n) as (s2 & hd & E2 & Ef2 & Hs2 & Hd2 & Er2 & Ed2 & Ho2); try done.
      { apply (seg_frame s.(sections)); [|done]. intros p Hp. apply lookup_insert_ne. intros ->.
        apply Hnq. by apply list_elem_of_fmap_2. }
      { cbn [sections s1 with_sections]. rewrite lookup_insert_eq. by eexists. }
      rewrite E2, bind_Some_eq.
      destruct (IH (a + SECTION_HEADER_SIZE) s2 (Mk_elf_file (x.(alloc_size) +u y.(sc_size)) hd) (l ++ [(q, y)]) qs)
        as (s' & hd' & E' & Ef' & Hs' & Er' & Ed').
      * rewrite Ef2. apply lookup_insert_eq.
      * done.
      * by rewrite Er2.
      * by rewrite Ed2.
      * rewrite fmap_app, <- app_assoc. done.
      * set_solver.
      * intros p Hp. rewrite Ho2.
        -- cbn [sections s1 with_sections]. rewrite lookup_insert_ne; [apply Hfr; set_solver|].
           intros <-. apply NoDup_app in Hn as (_ & _ & Hn). apply NoDup_cons in Hn as [Hn _]. done.
        -- intros ->. apply NoDup_app in Hn as (_ & _ & Hn). apply NoDup_cons in Hn as [Hn _]. done.
        -- intros Hin. apply NoDup_app in Hn as (_ & Hn & _). apply (Hn p Hin). set_solver.
      * apply u32_range.
      * exists s', hd'. split; [done|]. split; [|split; [|split; [by rewrite Er', Er2|]]].
        -- rewrite Ef'. cbn [alloc_size total_size foldr]. fold (total_size (wanted hs)).
           rewrite u32_add_l, <- Z.add_assoc. done.
        -- rewrite <- app_assoc in Hs'. done.
        -- rewrite Ed', Ed2. done.
    + rewrite decide_False in Ha |- * by (cbn [fst]; congruence). fold (wanted hs) in Ha |- *. rewrite bind_Some_eq.
      by apply (IH _ _ x).
Qed.
End elf.
