(* ===== verification/ElfThms.v ===== *)
(** * Properties of the ELF reader *)

From S2P Require Import Prelude ListHead TaskStruct Bitops Mem CString MmTypes Ramdisk Elf.

(** ** Collecting the sections *)

Section parse.
Context {A : Type} `{!KmallocOps A}.
Implicit Types (s : elf_sys A).

Lemma parse_elf_info_ok hs a str s e t1 addrs t2 :
  ka_kmalloc SIZEOF_ELF_FILE GFP_KERNEL s.(disk).(alloc) = Some (e, t1) -> e <> 0 ->
  shdrs_at s.(ram) str a hs -> allocs (length (wanted hs)) t1 = Some (addrs, t2) ->
  NoDup addrs -> 0 ∉ addrs -> (forall p, p ∈ addrs -> s.(sections) !! p = None) ->
  exists s' hd, parse_elf_info a (Z.of_nat (length hs)) str s = Some (e, s') /\
    s'.(elf_files) !! e = Some (Mk_elf_file (u32 (total_size (wanted hs))) hd) /\
    seg s'.(sections) hd (zip addrs (wanted hs)) /\ s'.(ram) = s.(ram) /\
    s'.(disk) = with_alloc t2 s.(disk).
Proof.
  intros Ek He Hh Ha Hn H0 Hfr. unfold parse_elf_info, kzalloc_file, elf_kmalloc.
  rewrite Ek, !bind_Some_eq, (proj2 (Z.eqb_neq e 0) He), bind_Some_eq, Nat2Z.id.
  set (s1 := with_elf_files _ _).
  destruct (parse_loop_ok hs a str e s1 (Mk_elf_file 0 0) [] addrs t2) as (s' & hd & E & Ef & Hs & Er & Ed).
  - apply lookup_insert_eq.
  - done.
  - done.
  - done.
  - done.
  - done.
  - done.
  - cbn. lia.
  - exists s', hd. rewrite E, bind_Some_eq. do 3 (split; [done|]). split; [done|].
    rewrite Ed. done.
Qed.

(** The release of a section list ends after freeing each of its sections. *)
Lemma release_sections_ok l a s fuel :
  seg s.(sections) a l -> (length l < fuel)%nat -> (forall x t, is_Some (ka_kfree x t)) ->
  exists s', release_sections fuel a s = Some s' /\ s'.(sections) = s.(sections) /\ s'.(ram) = s.(ram).
Proof.
  revert a s fuel. induction l as [|p l IH]; intros a s [|fuel] Hs Hf Hk; cbn [length] in Hf; try lia;
    cbn [release_sections].
  - cbn in Hs. subst a. by exists s.
  - destruct Hs as (-> & H0 & x & Hx & _ & Hl). rewrite (proj2 (Z.eqb_neq _ 0) H0), Hx, bind_Some_eq.
    destruct (Hk p.1 s.(disk).(alloc)) as [t Et]. unfold elf_kfree. rewrite Et, !bind_Some_eq.
    destruct (IH x.(s_next) (with_disk (with_alloc t s.(disk)) s) fuel) as (s' & E' & E1 & E2); [done|lia|done|].
    by exists s'.
Qed.
End parse.

(** ** Reading through buffers *)

(** A file as memory at 0. *)
Definition fmem (l : list Z) : mem := write 0 l ∅.

Lemma fmem_lookup l x : 0 <= x < Z.of_nat (length l) -> fmem l !! x = l !! Z.to_nat x.
Proof.
  intros Hx. destruct (lookup_lt_is_Some_2 l (Z.to_nat x)) as [c Hc]; [lia|]. rewrite Hc.
  unfold fmem. rewrite <- (lookup_write_in 0 l ∅ _ _ Hc). f_equal. lia.
Qed.

(** A buffer filled by a read shows the file from the position read. *)
Lemma chunk_view m a l o n x :
  bytes_at m a (chunk l o n) -> 0 <= o <= x -> x < o + n -> x < Z.of_nat (length l) ->
  m !! (a + (x - o)) = fmem l !! x.
Proof.
  intros Hb Ho Hn Hl. rewrite fmem_lookup by lia.
  destruct (lookup_lt_is_Some_2 l (Z.to_nat x)) as [c Hc]; [lia|]. rewrite Hc.
  replace (a + (x - o)) with (a + Z.of_nat (Z.to_nat (x - o))) by lia. apply Hb.
  unfold chunk. apply lookup_take_Some. split; [|lia]. rewrite lookup_drop, <- Hc. f_equal. lia.
Qed.

Lemma load32_same a m b m' :
  (forall i, 0 <= i < 4 -> m !! (a + i) = m' !! (b + i)) -> load32 a m = load32 b m'.
Proof.
  intros H. unfold load32, load8. pose proof (H 0 ltac:(lia)) as H0. rewrite !Z.add_0_r in H0.
  by rewrite H0, !H by lia.
Qed.

Lemma load16_same a m b m' :
  (forall i, 0 <= i < 2 -> m !! (a + i) = m' !! (b + i)) -> load16 a m = load16 b m'.
Proof.
  intros H. unfold load16, load8. pose proof (H 0 ltac:(lia)) as H0. rewrite !Z.add_0_r in H0.
  by rewrite H0, !H by lia.
Qed.

Lemma view32 m a l o n x :
  bytes_at m a (chunk l o n) -> 0 <= o <= x -> x + 4 <= o + n -> x + 4 <= Z.of_nat (length l) ->
  load32 (a + (x - o)) m = load32 x (fmem l).
Proof.
  intros Hb H1 H2 H3. apply load32_same. intros i Hi.
  replace (a + (x - o) + i) with (a + ((x + i) - o)) by lia. apply (chunk_view m a l o n); [done|lia..].
Qed.

Lemma view16 m a l n x :
  bytes_at m a (chunk l 0 n) -> 0 <= x -> x + 2 <= n -> x + 2 <= Z.of_nat (length l) ->
  load16 (a + x) m = load16 x (fmem l).
Proof.
  intros Hb H1 H2 H3. apply load16_same. intros i Hi.
  replace (a + x + i) with (a + ((x + i) - 0)) by lia. apply (chunk_view m a l 0 n); [done|lia..].
Qed.

Lemma view_cstr m a l o n x k :
  bytes_at m a (chunk l o n) -> cstr (fmem l) x k -> 0 <= o <= x ->
  x + Z.of_nat (length k) + 1 <= o + n -> x + Z.of_nat (length k) + 1 <= Z.of_nat (length l) ->
  cstr m (a + (x - o)) k.
Proof.
  intros Hb [Hk1 Hk2] H1 H2 H3. split; [|done]. intros i c Hi.
  pose proof (lookup_lt_Some _ _ _ Hi) as Hlt. rewrite length_app in Hlt. cbn in Hlt.
  replace (a + (x - o) + Z.of_nat i) with (a + (x + Z.of_nat i - o)) by lia.
  rewrite (chunk_view m a l o n) by (done || lia). by apply Hk1.
Qed.

(** ** ELF images *)

Definition ELFMAG : list Z := [127; 69; 76; 70].

(** A section header at offset [a] of the file, its name in the string table at [stroff]. *)
Record fhdr_at (l : list Z) (stroff a flags : Z) (y : sec) : Prop := {
  fh_flags : load32 (a + SH_FLAGS) (fmem l) = Some flags;
  fh_off : load32 (a + SH_OFFSET) (fmem l) = Some y.(sc_off);
  fh_size : load32 (a + SH_SIZE) (fmem l) = Some y.(sc_size);
  fh_addr : load32 (a + SH_ADDR) (fmem l) = Some y.(sc_addr);
  fh_name : exists n, load32 (a + SH_NAME) (fmem l) = Some n /\ 0 <= n /\
    n + Z.of_nat (length y.(sc_name)) + 1 <= STR_SIZE /\
    stroff + n + Z.of_nat (length y.(sc_name)) + 1 <= Z.of_nat (length l) /\
    cstr (fmem l) (stroff + n) y.(sc_name);
  fh_short : Z.of_nat (length y.(sc_name)) < SECTION_NAME_SIZE
}.

Fixpoint fhdrs_at (l : list Z) (stroff a : Z) (hs : list (Z * sec)) : Prop :=
  match hs with
  | [] => True
  | h :: hs' => fhdr_at l stroff a h.1 h.2 /\ fhdrs_at l stroff (a + SECTION_HEADER_SIZE) hs'
  end.

Record elf_image (l : list Z) (shoff ndx stroff : Z) (hs : list (Z * sec)) : Prop := {
  ei_magic : take 4 l = ELFMAG;
  ei_len : ELF_HEADER_SIZE <= Z.of_nat (length l) < 2 ^ 31;
  ei_shoff : load32 E_SHOFF (fmem l) = Some shoff;
  ei_shentsize : load16 E_SHENTSIZE (fmem l) = Some SECTION_HEADER_SIZE;
  ei_shnum : load16 E_SHNUM (fmem l) = Some (Z.of_nat (length hs));
  ei_shstrndx : load16 E_SHSTRNDX (fmem l) = Some ndx;
  ei_table : 0 <= shoff /\ shoff + Z.of_nat (length hs) * SECTION_HEADER_SIZE <= Z.of_nat (length l);
  ei_ndx : 0 <= ndx < Z.of_nat (length hs);
  ei_stroff : load32 (shoff + ndx * SECTION_HEADER_SIZE + SH_OFFSET) (fmem l) = Some stroff;
  ei_str : 0 <= stroff <= Z.of_nat (length l);
  ei_hdrs : fhdrs_at l stroff shoff hs
}.

(** The headers seen through the two buffers. *)
Lemma view_headers m header str l shoff stroff o n hs :
  bytes_at m header (chunk l shoff n) -> bytes_at m str (chunk l stroff STR_SIZE) ->
  0 <= shoff <= o -> o + Z.of_nat (length hs) * SECTION_HEADER_SIZE <= shoff + n ->
  o + Z.of_nat (length hs) * SECTION_HEADER_SIZE <= Z.of_nat (length l) ->
  0 <= stroff -> 0 <= str -> str + STR_SIZE < 2 ^ 32 ->
  fhdrs_at l stroff o hs -> shdrs_at m str (header + (o - shoff)) hs.
Proof.
  intros Hb Hs. unfold SECTION_HEADER_SIZE. revert o.
  induction hs as [|[fl y] hs IH]; intros o Ho H1 H2 H3 H4 H5 Hh; [done|].
  destruct Hh as [[F1 F2 F3 F4 (k & F5 & Hk0 & Hk1 & Hk2 & Hk3) F6] Hh]. cbn [length fst snd] in *.
  assert (V : forall c v, 0 <= c <= 36 -> load32 (o + c) (fmem l) = Some v ->
    load32 (header + (o - shoff) + c) m = Some v).
  { intros c v Hc <-. replace (header + (o - shoff) + c) with (header + ((o + c) - shoff)) by lia.
    apply (view32 m header l shoff n); [done|lia..]. }
  split.
  - constructor; cbn [fst snd].
    + by apply V.
    + by apply V.
    + by apply V.
    + by apply V.
    + exists k. split; [by apply V|]. unfold STR_SIZE in *. rewrite u32_small by lia.
      replace (str + k) with (str + ((stroff + k) - stroff)) by lia.
      apply (view_cstr m str l stroff 4096); [done|done|lia..].
    + done.
  - unfold SECTION_HEADER_SIZE.
    replace (header + (o - shoff) + 40) with (header + ((o + 40) - shoff)) by lia.
    apply IH; try done; lia.
Qed.

(** ** The reader on the file system *)

Section read.
Context {A : Type} `{!KmallocOps A}.
Variable elfmag : Z.
Variable hdr : Z.
Implicit Types (s : elf_sys A).

(** The file [fp] is open at position [pos]; its contents [l] lie at [base]. *)
Definition open_at s (fp : Z) (l : list Z) (base pos : Z) : Prop :=
  exists f, s.(disk).(files) !! fp = Some f /\ f.(f_base) = base /\ file_at s.(ram) f l pos.

(** The structures and the allocator of two states are the same. *)
Definition same_objects s s' : Prop :=
  s'.(disk).(alloc) = s.(disk).(alloc) /\ s'.(elf_files) = s.(elf_files) /\ s'.(sections) = s.(sections).

Lemma elf_kmalloc_ok size s a t :
  ka_kmalloc size GFP_KERNEL s.(disk).(alloc) = Some (a, t) ->
  elf_kmalloc size s = Some (a, with_disk (with_alloc t s.(disk)) s).
Proof. intros E. unfold elf_kmalloc. by rewrite E. Qed.

Lemma fs_read_ok fp buf size s l base pos :
  open_at s fp l base pos -> 0 <= size < 2 ^ 31 -> base + Z.of_nat (length l) + size < 2 ^ 32 ->
  Z.of_nat (length l) < 2 ^ 31 -> room s.(ram) buf size ->
  disjoint buf size base (Z.of_nat (length l)) ->
  let part := chunk l pos size in
  copies buf (base + pos) (Z.of_nat (length part)) ->
  exists s', fs_read fp buf size s = Some (Z.of_nat (length part), s') /\
    s'.(ram) = write buf part s.(ram) /\ same_objects s s' /\
    open_at s' fp l base (pos + Z.of_nat (length part)) /\ bytes_at s'.(ram) buf part.
Proof.
  intros (f & Hf & Eb & Ha) H0 Ho H31 Hr Hd part Hcp. pose proof Ha as [_ _ Hs _ Hc Hp].
  destruct (ramdisk_read_ok fp buf size s.(disk) s.(ram) f l pos Hf Ha) as
    (d' & E & _ & (f' & Ef & Ebf & _ & Ha') & Eal); [lia|lia|lia|done|by rewrite Eb, Hs|by rewrite Hc, Eb|].
  fold part in E, Ha'. unfold fs_read. rewrite E, bind_Some_eq. eexists. split; [reflexivity|].
  cbn [ram with_ram with_disk]. split; [done|]. split; [done|]. split; [|apply write_bytes].
  exists f'. cbn [disk with_ram with_disk]. rewrite Ef, lookup_insert_eq. split; [done|]. by rewrite Ebf.
Qed.

Lemma fs_seek_ok fp off s l base pos :
  open_at s fp l base pos -> fp <> 0 -> 0 <= off <= Z.of_nat (length l) -> Z.of_nat (length l) < 2 ^ 31 ->
  exists s', fs_seek fp off s = Some (0, s') /\ s'.(ram) = s.(ram) /\ same_objects s s' /\
    open_at s' fp l base off.
Proof.
  intros (f & Hf & Eb & Ha) Hn Ho H31. pose proof Ha as [_ _ Hs Hb _ _].
  assert (Hseek : ramdisk_seek fp off s.(disk) = Some (0, with_files (<[fp := with_f_curr (f.(f_base) +u off) f]>
    s.(disk).(files)) s.(disk))).
  { unfold ramdisk_seek. rewrite (proj2 (Z.eqb_neq fp 0) Hn), Hf, bind_Some_eq.
    by rewrite (proj2 (Z.ltb_ge f.(f_size) off)) by lia. }
  destruct (ramdisk_seek_ok fp off s.(disk) s.(ram) f l pos Hn Hf Ha) as (d' & f' & E & Ef & Ha' & Eal); [lia|].
  unfold fs_seek. rewrite Hseek in E |- *. injection E as <-. rewrite bind_Some_eq. eexists. split; [reflexivity|].
  do 2 (split; [done|]). exists f'. cbn [disk with_disk ram]. rewrite Ef, lookup_insert_eq. split; [done|].
  rewrite Z.min_l in Ha' by lia. split; [|done].
  cbn [files with_files] in Ef. apply (f_equal (fun m => m !! fp)) in Ef. rewrite !lookup_insert_eq in Ef.
  by injection Ef as <-.
Qed.

Lemma strncmp_equal a b m l :
  bytes_at m a l -> bytes_at m b l -> strncmp a b (Z.of_nat (length l)) m = Some 0.
Proof.
  intros Ha Hb. unfold strncmp. rewrite Nat2Z.id.
  assert (G : forall l a b, bytes_at m a l -> bytes_at m b l -> strncmp_loop (length l) a b 0 m = Some 0).
  { clear. intros l. induction l as [|c l IH]; intros a b Ha Hb; [done|]. cbn [length strncmp_loop].
    pose proof (Ha 0%nat c eq_refl) as E1. pose proof (Hb 0%nat c eq_refl) as E2.
    rewrite Z.add_0_r in E1, E2. unfold load8. rewrite E1, E2, !bind_Some_eq, Z.sub_diag. cbn [Z.eqb].
    change (c :: l) with ([c] ++ l) in Ha, Hb.
    apply IH; [apply bytes_at_app in Ha as [_ ?]|apply bytes_at_app in Hb as [_ ?]]; done. }
  by rewrite (G l a b Ha Hb).
Qed.

Lemma read_sections_ok fp header str ndx shoff stroff l base s hs e t1 addrs t2 :
  elf_image l shoff ndx stroff hs -> open_at s fp l base shoff -> fp <> 0 ->
  let n := Z.of_nat (length hs) * SECTION_HEADER_SIZE in
  base + Z.of_nat (length l) + n < 2 ^ 32 -> base + Z.of_nat (length l) + STR_SIZE < 2 ^ 32 ->
  room s.(ram) header n -> room s.(ram) str STR_SIZE -> 0 <= str -> str + STR_SIZE < 2 ^ 32 ->
  disjoint header n base (Z.of_nat (length l)) -> disjoint str STR_SIZE base (Z.of_nat (length l)) ->
  disjoint header n str STR_SIZE -> header mod 4 = 0 -> str mod 4 = 0 ->
  ka_kmalloc SIZEOF_ELF_FILE GFP_KERNEL s.(disk).(alloc) = Some (e, t1) -> e <> 0 ->
  allocs (length (wanted hs)) t1 = Some (addrs, t2) ->
  NoDup addrs -> 0 ∉ addrs -> (forall p, p ∈ addrs -> s.(sections) !! p = None) ->
  u32 (total_size (wanted hs)) <> 0 ->
  exists s' hd, read_sections fp header str (Z.of_nat (length hs)) SECTION_HEADER_SIZE ndx s = Some (e, s') /\
    s'.(elf_files) !! e = Some (Mk_elf_file (u32 (total_size (wanted hs))) hd) /\
    seg s'.(sections) hd (zip addrs (wanted hs)) /\ s'.(disk).(alloc) = t2.
Proof.
  intros Hi Hop Hfp n Ho1 Ho2 Hr1 Hr2 Hs0 Hs1 D1 D2 D3 G1 G2 Ek He Hal Hnd H0 Hfr Htot.
  destruct Hi as [_ Hlen _ _ _ _ Htab Hndx Hstroff Hstr Hh]. fold n in Htab.
  assert (Hn : 0 <= n < 2 ^ 31) by (unfold n, SECTION_HEADER_SIZE in *; lia).
  unfold read_sections. fold n. rewrite s32_small by lia.
  destruct (fs_read_ok fp header n s l base shoff Hop) as (s1 & E1 & Er1 & (Ea1 & Ee1 & Es1) & Hop1 & B1);
    [lia|lia|lia|done|done|by apply copies_aligned|].
  rewrite E1, bind_Some_eq. rewrite (proj2 (Z.ltb_ge _ 0)) by lia.
  replace (header + ndx * SECTION_HEADER_SIZE + SH_OFFSET)
    with (header + ((shoff + ndx * SECTION_HEADER_SIZE + SH_OFFSET) - shoff)) by lia.
  rewrite (view32 _ header l shoff n) by (done || (unfold n, SECTION_HEADER_SIZE, SH_OFFSET in *; lia)).
  rewrite Hstroff, bind_Some_eq.
  destruct (fs_seek_ok fp stroff s1 l base _ Hop1 Hfp) as (s2 & E2 & Er2 & (Ea2 & Ee2 & Es2) & Hop2); [lia|lia|].
  rewrite E2, bind_Some_eq. cbn [Z.ltb Z.compare].
  destruct (fs_read_ok fp str STR_SIZE s2 l base stroff Hop2) as (s3 & E3 & Er3 & (Ea3 & Ee3 & Es3) & Hop3 & B3);
    [unfold STR_SIZE; lia|lia|lia|rewrite Er2, Er1; by apply room_write|done|by apply copies_aligned|].
  rewrite E3, bind_Some_eq, (proj2 (Z.ltb_ge _ 0)) by lia.
  assert (B1' : bytes_at s3.(ram) header (chunk l shoff n)).
  { apply (bytes_at_frame s1.(ram)); [exact B1|]. intros x Hx. rewrite Er3, <- Er2. apply lookup_write_out.
    pose proof (length_chunk l shoff n ltac:(lia) ltac:(lia)).
    pose proof (length_chunk l stroff STR_SIZE ltac:(lia) ltac:(unfold STR_SIZE; lia)). unfold disjoint in *. lia. }
  assert (Hsh : shdrs_at s3.(ram) str (header + (shoff - shoff)) hs).
  { apply (view_headers _ header str l shoff stroff shoff n); try done; try lia. }
  replace (header + (shoff - shoff)) with header in Hsh by lia.
  destruct (parse_elf_info_ok hs header str s3 e t1 addrs t2) as (s4 & hd & E4 & Ef4 & Hs4 & _ & Ed4); try done.
  { by rewrite Ea3, Ea2, Ea1. }
  { intros p Hp. rewrite Es3, Es2, Es1. by apply Hfr. }
  rewrite E4, bind_Some_eq, Ef4, bind_Some_eq. cbn [alloc_size]. rewrite (proj2 (Z.eqb_neq _ 0) Htot).
  rewrite andb_false_r. exists s4, hd. do 3 (split; [done|]). by rewrite Ed4.
Qed.

(** What the reader needs of memory: its three buffers are allocated, between words and
    apart from the file. *)
Record buffers_ok s (header str base n k : Z) : Prop := {
  bo_hdr : room s.(ram) hdr ELF_HEADER_SIZE /\ disjoint hdr ELF_HEADER_SIZE base k /\ disjoint hdr ELF_HEADER_SIZE elfmag 4;
  bo_header : room s.(ram) header n /\ disjoint header n base k;
  bo_str : room s.(ram) str STR_SIZE /\ 0 <= str /\ str + STR_SIZE < 2 ^ 32 /\
    disjoint str STR_SIZE base k /\ disjoint header n str STR_SIZE;
  bo_magic : bytes_at s.(ram) elfmag ELFMAG;
  bo_aligned : hdr mod 4 = 0 /\ header mod 4 = 0 /\ str mod 4 = 0;
  bo_far : base + k + n < 2 ^ 32 /\ base + k + STR_SIZE < 2 ^ 32
}.

(** C33. [get_elf_info] on an open ELF file returns a [struct elf_file] whose list holds
    exactly the sections of the file that are loaded into memory (those with
    [SHF_ALLOC]), in the order of the file, each with its name, offset, size and load
    address, and whose [alloc_size] is the sum of their sizes; the two temporary
    buffers are handed back to the allocator. *)
Theorem get_elf_info_collects_sections fp s l base shoff ndx stroff hs header str e addrs t1 t2 t3 t4 t5 t6 :
  elf_image l shoff ndx stroff hs -> open_at s fp l base 0 -> fp <> 0 ->
  buffers_ok s header str base (Z.of_nat (length hs) * SECTION_HEADER_SIZE) (Z.of_nat (length l)) ->
  ka_kmalloc (Z.of_nat (length hs) * SECTION_HEADER_SIZE) GFP_KERNEL s.(disk).(alloc) = Some (header, t1) ->
  ka_kmalloc STR_SIZE GFP_KERNEL t1 = Some (str, t2) ->
  ka_kmalloc SIZEOF_ELF_FILE GFP_KERNEL t2 = Some (e, t3) ->
  allocs (length (wanted hs)) t3 = Some (addrs, t4) ->
  ka_kfree str t4 = Some t5 -> ka_kfree header t5 = Some t6 ->
  header <> 0 -> str <> 0 -> e <> 0 -> NoDup addrs -> 0 ∉ addrs ->
  (forall p, p ∈ addrs -> s.(sections) !! p = None) -> u32 (total_size (wanted hs)) <> 0 ->
  exists s' hd, get_elf_info elfmag hdr fp s = Some (e, s') /\
    s'.(elf_files) !! e = Some (Mk_elf_file (u32 (total_size (wanted hs))) hd) /\
    seg s'.(sections) hd (zip addrs (wanted hs)) /\ s'.(disk).(alloc) = t6.
Proof.
  intros Hi Hop Hfp [(R1 & D1 & D1') (R2 & D2) (R3 & Hs0 & Hs1 & D3 & D4) Hmag (G1 & G2 & G3) [Ho1 Ho2]]
    K1 K2 K3 Hal F1 F2 Hh0 Hst0 He0 Hnd H0 Hfr Htot.
  pose proof Hi as [Hm Hlen I1 I2 I3 I4 Htab Hndx _ _ _]. unfold get_elf_info.
  set (n := Z.of_nat (length hs) * SECTION_HEADER_SIZE) in *.
  assert (Hn : 0 <= n < 2 ^ 31) by (unfold n, SECTION_HEADER_SIZE in *; lia).
  destruct (fs_read_ok fp hdr ELF_HEADER_SIZE s l base 0 Hop) as (s1 & E1 & Er1 & (Ea1 & Ee1 & Es1) & Hop1 & B1);
    [unfold ELF_HEADER_SIZE; lia|unfold ELF_HEADER_SIZE, STR_SIZE in *; lia|lia|done|done|by apply copies_aligned|].
  rewrite E1, bind_Some_eq, (proj2 (Z.ltb_ge _ 0)) by lia.
  pose proof (length_chunk l 0 ELF_HEADER_SIZE ltac:(lia) ltac:(unfold ELF_HEADER_SIZE; lia)) as Hcl.
  assert (Ec : strncmp elfmag hdr 4 s1.(ram) = Some 0).
  { apply (strncmp_equal elfmag hdr s1.(ram) ELFMAG).
    - rewrite Er1. eapply bytes_at_frame; [exact Hmag|]. intros x Hx. apply lookup_write_out.
      cbn in Hx. unfold disjoint in D1'. lia.
    - rewrite <- Hm. assert (Et : take 4 l = take 4 (chunk l 0 ELF_HEADER_SIZE)).
      { unfold chunk. rewrite drop_0, take_take. done. }
      rewrite Et. rewrite <- (take_drop 4 (chunk l 0 ELF_HEADER_SIZE)) in B1. by apply bytes_at_app in B1 as [? _]. }
  rewrite Ec, bind_Some_eq. change (truth 0) with false. cbn iota.
  assert (V32 : load32 (hdr + E_SHOFF) s1.(ram) = Some shoff).
  { rewrite <- I1. replace (hdr + E_SHOFF) with (hdr + (E_SHOFF - 0)) by lia.
    apply (view32 _ hdr l 0 ELF_HEADER_SIZE); unfold E_SHOFF, ELF_HEADER_SIZE in *; (done || lia). }
  assert (V16 : forall x v, 0 <= x <= 50 -> load16 x (fmem l) = Some v -> load16 (hdr + x) s1.(ram) = Some v).
  { intros x v Hx <-. apply (view16 _ hdr l ELF_HEADER_SIZE); unfold ELF_HEADER_SIZE in *; (done || lia). }
  rewrite V32, bind_Some_eq, (V16 E_SHENTSIZE _ ltac:(unfold E_SHENTSIZE; lia) I2), bind_Some_eq,
    (V16 E_SHNUM _ ltac:(unfold E_SHNUM; lia) I3), bind_Some_eq, (V16 E_SHSTRNDX _ ltac:(unfold E_SHSTRNDX; lia) I4), bind_Some_eq.
  fold n. rewrite s32_small by lia. rewrite <- Ea1 in K1. rewrite (elf_kmalloc_ok _ _ _ _ K1), bind_Some_eq.
  cbv beta iota zeta. rewrite (proj2 (Z.eqb_neq header 0) Hh0).
  set (s2 := with_disk (with_alloc t1 s1.(disk)) s1).
  rewrite (elf_kmalloc_ok _ s2 _ _ K2), bind_Some_eq. cbv beta iota zeta.
  rewrite (proj2 (Z.eqb_neq str 0) Hst0). set (s3 := with_disk (with_alloc t2 s2.(disk)) s2).
  assert (Hop3 : open_at s3 fp l base (0 + Z.of_nat (length (chunk l 0 ELF_HEADER_SIZE)))) by exact Hop1.
  destruct (fs_seek_ok fp shoff s3 l base _ Hop3 Hfp) as (s4 & E4 & Er4 & (Ea4 & Ee4 & Es4) & Hop4); [lia|lia|].
  rewrite E4, bind_Some_eq. cbn [Z.ltb Z.compare].
  assert (Er41 : s4.(ram) = s1.(ram)) by (by rewrite Er4).
  destruct (read_sections_ok fp header str ndx shoff stroff l base s4 hs e t3 addrs t4 Hi Hop4 Hfp)
    as (s5 & hd & E5 & Ef5 & Hs5 & Ea5); try done.
  - rewrite Er41, Er1. by apply room_write.
  - rewrite Er41, Er1. by apply room_write.
  - by rewrite Ea4.
  - intros p Hp. rewrite Es4. cbn [sections s3 with_disk s2]. rewrite Es1. by apply Hfr.
  - rewrite E5, bind_Some_eq. unfold elf_kfree. rewrite Ea5, F1, !bind_Some_eq.
    cbn [disk with_disk alloc with_alloc]. rewrite F2, !bind_Some_eq.
    eexists _, hd. split; [reflexivity|]. done.
Qed.
End read.

(** ** A program with a string table and one section in memory *)

Definition word (v : Z) : list Z := word_list v.
Definition half (v : Z) : list Z := [u8 v; u8 (v / 2 ^ 8)].

Definition demo_elf : list Z :=
  ELFMAG ++ replicate 12 0 ++ half 2 ++ half 40 ++ word 1 ++ word 0x401000 ++ word 0 ++ word 52 ++ word 0 ++
    half 52 ++ half 0 ++ half 0 ++ half 40 ++ half 2 ++ half 0 ++
  (* the string table *)
  word 0 ++ word 3 ++ word 0 ++ word 0 ++ word 132 ++ word 7 ++ replicate 16 0 ++
  (* .text *)
  word 1 ++ word 1 ++ word 2 ++ word 0x401000 ++ word 256 ++ word 16 ++ replicate 16 0 ++
  [0; 46; 116; 101; 120; 116; 0].

Definition demo_sections : list (Z * sec) :=
  [(0, Mk_sec [] 132 7 0); (2, Mk_sec [46; 116; 101; 120; 116] 256 16 0x401000)].

Lemma demo_elf_image : elf_image demo_elf 52 0 132 demo_sections.
Proof.
  constructor; try (vm_compute; reflexivity); try (vm_compute; repeat split; congruence).
  cbn [fhdrs_at demo_sections fst snd]. split; [|split; [|done]]; constructor;
    try (vm_compute; reflexivity); eexists; (split; [vm_compute; reflexivity|]);
    (split; [lia|]; split; [vm_compute; congruence|]; split; [vm_compute; congruence|]);
    (split; [|cbn; repeat constructor; lia]); intros i c Hi;
    repeat (destruct i as [|i]; [cbn in Hi; injection Hi as <-; vm_compute; reflexivity|]); done.
Qed.

Definition demo_elf_ram : mem :=
  write 0x3000 ELFMAG (write 0x2000 demo_elf (write 0x8000 (replicate (Z.to_nat 0x2000) 0)
    (write 0x10000 (replicate (Z.to_nat 52) 0) ∅))).

Definition demo_elf_sys : elf_sys Z :=
  Mk_elf_sys (Mk_ramdisk 0 0 {[ 0x5000 := Mk_file 0x2000 139 0x2000 ]} 0x8000) demo_elf_ram ∅ ∅.

Lemma get_elf_info_collects_sections_witness :
  exists s' hd, @get_elf_info Z bump_alloc 0x3000 0x10000 0x5000 demo_elf_sys = Some (0x9050, s') /\
    s'.(elf_files) !! 0x9050 = Some (Mk_elf_file 16 hd) /\
    seg s'.(sections) hd [(0x9058, Mk_sec [46; 116; 101; 120; 116] 256 16 0x401000)].
Proof.
  destruct (@get_elf_info_collects_sections Z bump_alloc 0x3000 0x10000 0x5000 demo_elf_sys demo_elf 0x2000 52 0 132
    demo_sections 0x8000 0x8050 0x9050 [0x9058] 0x8050 0x9050 0x9058 0x9088 0x9088 0x9088) as (s' & hd & E & Ef & Hs & _).
  - exact demo_elf_image.
  - exists (Mk_file 0x2000 139 0x2000). split; [reflexivity|]. split; [reflexivity|].
    constructor; cbn [f_base f_size f_curr].
    + apply (bytes_at_frame (write 0x2000 demo_elf (write 0x8000 (replicate (Z.to_nat 0x2000) 0)
        (write 0x10000 (replicate (Z.to_nat 52) 0) ∅)))); [apply write_bytes|].
      intros x Hx. apply lookup_write_out. change (Z.of_nat (length demo_elf)) with 139 in Hx. cbn. lia.
    + unfold demo_elf. repeat (apply Forall_app; split); repeat constructor; vm_compute; congruence.
    + reflexivity.
    + vm_compute. split; congruence.
    + reflexivity.
    + vm_compute. split; congruence.
  - lia.
  - assert (Hz : forall o n, 0 <= o -> o + n <= 0x2000 -> room demo_elf_ram (0x8000 + o) n).
    { intros o n H0 Hn. do 2 apply room_write. apply (room_le _ _ 0x2000); [|lia|lia].
      intros i Hi. apply (room_write_self 0x8000). rewrite length_replicate. lia. }
    constructor.
    + split; [|split].
      * do 3 apply room_write. intros i Hi. apply (room_write_self 0x10000). rewrite length_replicate.
        unfold ELF_HEADER_SIZE in Hi. lia.
      * right. vm_compute. congruence.
      * right. vm_compute. congruence.
    + split; [|right; vm_compute; congruence].
      apply (Hz 0 80); lia.
    + split; [apply (Hz 0x50 4096); lia|]. split; [lia|]. split; [vm_compute; congruence|].
      split; [right; vm_compute; congruence|left; vm_compute; congruence].
    + apply write_bytes.
    + done.
    + vm_compute. split; congruence.
  - reflexivity.
  - reflexivity.
  - reflexivity.
  - reflexivity.
  - reflexivity.
  - reflexivity.
  - lia.
  - lia.
  - lia.
  - apply NoDup_singleton.
  - set_solver.
  - reflexivity.
  - vm_compute. congruence.
  - exists s', hd. split; [exact E|]. split; [exact Ef|exact Hs].
Defined.
