(* ===== verification/TaskMem.v ===== *)
(** * The memory of a task

    Models the part of [kernel/task.c] that builds and releases the address space of
    a task: page tables, pages, kernel stack, copy on fork, the tables loaded at a
    task switch, and the argument page.  The four list heads of [struct mm_struct]
    are anchors of the page heap, the pages on them are [PagePlist] nodes (the
    members [plist] and [pgt_list] of [struct page] are one union).

    The functions take the address [t] of the task and the task structure [k] it
    points to, and return the structure they leave there. *)

From S2P Require Import Prelude ListHead TaskStruct Bitops Mem CString MmTypes Pages Mmu Regs.

Definition PROCESS_STACK_SIZE : Z := 4 * PAGE_SIZE.
Definition PROCESS_IMAGE_SIZE : Z := 256 * PAGE_SIZE.
Definition PROCESS_MAP_STACK : Z := 0.
Definition PROCESS_MAP_ELF : Z := 1.
Definition PROCESS_MAP_MASK : Z := 0x0f.
Definition MAX_ARGV : Z := 16.

(** The page allocator and the memory it hands out. *)
Record vm (L : Type) : Type := Mk_vm {
  vm_pages : mm_state L;
  vm_ram : mem
}.

Arguments Mk_vm {L} _ _.
Arguments vm_pages {L} _.
Arguments vm_ram {L} _.

Definition with_pages {L : Type} (s : mm_state L) (v : vm L) : vm L := Mk_vm s v.(vm_ram).
Definition with_vm_ram {L : Type} (m : mem) (v : vm L) : vm L := Mk_vm v.(vm_pages) m.

Section task_memory.
Context {L : Type} {LC : LockCalls L} {LO : LockOps L}.
Variable kernel_start : Z.
Variable zone_mutex : Z -> Z.

Implicit Types (s : mm_state L) (v : vm L) (k : task_struct) (t addr : Z) (m : mem).

Definition set_mm (f : mm_struct_t -> mm_struct_t) k : task_struct := with_mm_struct (f k.(mm_struct)) k.

(** ** Initialisation *)

(** [mmp] is the [mm_struct] of the parent. *)
Definition init_mm_struct t k (mmp : mm_struct_t) (user_sp : Z) s : task_struct * mm_state L :=
  if truth (k.(flag) &u PROCESS_TYPE_USER) then
    (with_mm_struct
       (Mk_mm_struct mmp.(elf_size) (s32 (PROCESS_USER_STACK_BASE -u user_sp)) None None) k,
     with_plists (init_list (ElfImageList t) (init_list (ElfStackList t) (init_list (ElfList t)
       (init_list (StackList t) s.(plists))))) s)
  else (k, s).

(** ** Release *)

Definition release_body (n : node) s : option (mm_state L) :=
  pg ← plist_entry n;
  h ← list_del n s.(plists);
  free_pages kernel_start zone_mutex (page_to_va kernel_start pg) (with_plists h s).

Definition _release_task_memory (hd : node) s : option (mm_state L) :=
  n ← list_next s.(plists) hd;
  list_for_each (S (size s.(plists))) plists release_body hd n s.

Definition release_task_page_table t s : option (mm_state L) :=
  s1 ← _release_task_memory (StackList t) s; _release_task_memory (ElfList t) s1.

Definition release_task_pages t s : option (mm_state L) :=
  s1 ← _release_task_memory (ElfStackList t) s; _release_task_memory (ElfImageList t) s1.

Definition release_kernel_stack k s : option (task_struct * mm_state L) :=
  s1 ← (if negb (Z.eqb k.(stack_origin) 0) then free_pages kernel_start zone_mutex k.(stack_origin) s
        else Some s);
  Some (with_stack_origin 0 (with_stack_base 0 k), s1).

Definition release_task_memory t k s : option (task_struct * mm_state L) :=
  s1 ← (if truth (k.(flag) &u PROCESS_TYPE_USER) then
          s1 ← release_task_pages t s; release_task_page_table t s1
        else Some s);
  release_kernel_stack k s1.

(** ** Page tables *)

(** One of the two loops of [alloc_page_table]: [false] is the jump to [error]. *)
Fixpoint alloc_pgts (n : nat) (hd : node) (adjust : page -> page) s : option (bool * mm_state L) :=
  match n with
  | O => Some (true, s)
  | S n' =>
      '(addr, s1) ← get_free_page kernel_start zone_mutex GFP_PGT s;
      if Z.eqb addr 0 then Some (false, s1)
      else
        let pg := va_to_page kernel_start addr in
        s2 ← upd_page pg adjust s1;
        h ← list_add_tail hd (PagePlist pg) s2.(plists);
        alloc_pgts n' hd adjust (with_plists h s2)
  end.

Definition stack_pgt_adjust (p : page) : page := with_free_base (p.(free_base) +u (PAGE_SIZE -u 4)) p.

Definition megabytes (size : Z) : Z := Z.shiftr (size + SIZE_1M - 1) 20.

Definition alloc_page_table t k s : option (Z * task_struct * mm_state L) :=
  '(ok, s1) ← alloc_pgts (Z.to_nat (megabytes PROCESS_STACK_SIZE)) (StackList t) stack_pgt_adjust s;
  if negb ok then s2 ← release_task_page_table t s1; Some (- ENOMEM, k, s2)
  else
    n ← list_next s1.(plists) (StackList t);
    let k := set_mm (with_stack_curr (Some n)) k in
    '(ok, s2) ← alloc_pgts (Z.to_nat (megabytes PROCESS_IMAGE_SIZE)) (ElfList t) (fun p => p) s1;
    if negb ok then s3 ← release_task_page_table t s2; Some (- ENOMEM, k, s3)
    else
      n ← list_next s2.(plists) (ElfList t);
      Some (0, set_mm (with_elf_curr (Some n)) k, s2).

(** ** Mapping a page *)

(** The loop at [repeat]: the first table from [list] on with a free entry, or the
    error.  The list is circular, so the null test never succeeds on its nodes. *)
Fixpoint find_pgt (fuel : nat) (list : option node) s : option (Z + Z) :=
  match fuel with
  | O => None
  | S fuel' =>
      match list with
      | None => Some (inl (- ENOMEM))
      | Some n =>
          pg ← plist_entry n;
          p ← get_page_struct pg s;
          if Z.eqb p.(pg_free_size) 0 then nx ← list_next s.(plists) n; find_pgt fuel' (Some nx) s
          else Some (inr pg)
      end
  end.

Definition take_entry (up : bool) (p : page) : page :=
  with_pg_free_size (u16 (p.(pg_free_size) - 4))
    (with_free_base (if up then p.(free_base) +u 4 else p.(free_base) -u 4) p).

Definition map_list (flag_new : Z) k : option (option node) :=
  if Z.eqb flag_new PROCESS_MAP_STACK then Some k.(mm_struct).(stack_curr)
  else if Z.eqb flag_new PROCESS_MAP_ELF then Some k.(mm_struct).(elf_curr)
  else None.

Definition task_map_memory addr k (flag : Z) v : option (Z * vm L) :=
  let flag_new := Z.land flag PROCESS_MAP_MASK in
  match map_list flag_new k with
  | None => Some (- EINVAL, v)
  | Some list =>
      r ← find_pgt (S (size v.(vm_pages).(plists))) list v.(vm_pages);
      match r with
      | inl err => Some (err, v)
      | inr pg =>
          p ← get_page_struct pg v.(vm_pages);
          pa ← va_to_pa kernel_start addr v.(vm_pages);
          '(_, m) ← build_page_table_entry p.(free_base) pa PAGE_SIZE 0 v.(vm_ram);
          s ← upd_page pg (take_entry (Z.eqb flag_new PROCESS_MAP_ELF)) v.(vm_pages);
          Some (0, Mk_vm s m)
      end
  end.

(** One of the two loops of [alloc_memory_and_map]: [false] is the jump to [out]. *)
Fixpoint alloc_and_map (n : nat) (hd : node) (flag : Z) k v : option (bool * vm L) :=
  match n with
  | O => Some (true, v)
  | S n' =>
      '(addr, s1) ← get_free_page kernel_start zone_mutex GFP_KERNEL v.(vm_pages);
      if Z.eqb addr 0 then Some (false, with_pages s1 v)
      else
        '(_, v1) ← task_map_memory addr k flag (with_pages s1 v);
        let pg := va_to_page kernel_start addr in
        h ← list_add_tail hd (PagePlist pg) v1.(vm_pages).(plists);
        alloc_and_map n' hd flag k (with_pages (with_plists h v1.(vm_pages)) v1)
  end.

Definition alloc_memory_and_map t k v : option (Z * task_struct * vm L) :=
  let n_stack := s32 (page_nr PROCESS_STACK_SIZE) in
  let n_elf := s32 (page_nr PROCESS_IMAGE_SIZE) in
  free ← mm_free_page MM_ZONE_NORMAL v.(vm_pages);
  if Z.ltb free (u32 (n_stack + n_elf)) then Some (- ENOMEM, k, v)
  else
    '(ok, v1) ← alloc_and_map (Z.to_nat n_stack) (ElfStackList t) PROCESS_MAP_STACK k v;
    '(ok, v2) ← (if negb ok then Some (false, v1)
                 else alloc_and_map (Z.to_nat n_elf) (ElfImageList t) PROCESS_MAP_ELF k v1);
    if negb ok then
      '(k1, s) ← release_task_memory t k v2.(vm_pages); Some (- ENOMEM, k1, with_pages s v2)
    else Some (0, k, v2).

(** ** Kernel stack *)

Definition alloc_kernel_stack k s : option (Z * task_struct * mm_state L) :=
  if negb (Z.eqb k.(stack_base) 0) then Some (- EINVAL, k, s)
  else
    '(a, s1) ← get_free_pages kernel_start zone_mutex (Z.shiftr KERNEL_STACK_SIZE PAGE_SHIFT) GFP_KERNEL s;
    let k := with_stack_origin a (with_stack_base a k) in
    Some (if Z.eqb a 0 then - ENOMEM else 0, k, s1).

(** The page tables are not released when the pages cannot be allocated. *)
Definition alloc_memory_for_task t k v : option (Z * task_struct * vm L) :=
  '(ret, k, s) ← alloc_kernel_stack k v.(vm_pages);
  let v := with_pages s v in
  let error k v := '(k, s) ← release_kernel_stack k v.(vm_pages); Some (- ENOMEM, k, with_pages s v) in
  if truth ret then Some (ret, k, v)
  else if truth (k.(flag) &u PROCESS_TYPE_USER) then
    '(ret, k, s) ← alloc_page_table t k v.(vm_pages);
    let v := with_pages s v in
    if truth ret then error k v
    else
      '(ret, k, v) ← alloc_memory_and_map t k v;
      if truth ret then error k v else Some (ret, k, v)
  else Some (ret, k, v).

(** ** Copy on fork *)

Definition copy_page_va (target source : Z) m : option mem := memcpy target source PAGE_SIZE m.

(** One of the two loops of [copy_process_memory]. *)
Fixpoint copy_pages (n : nat) (list_old list_new : node) s m : option mem :=
  match n with
  | O => Some m
  | S n' =>
      o ← list_next s.(plists) list_old;
      nw ← list_next s.(plists) list_new;
      page_old ← plist_entry o;
      page_new ← plist_entry nw;
      m1 ← copy_page_va (page_to_va kernel_start page_new) (page_to_va kernel_start page_old) m;
      copy_pages n' o nw s m1
  end.

Definition copy_process_memory (old new : Z) (knew : task_struct) v : option (vm L) :=
  let n_stack := s32 (page_nr (u32 knew.(mm_struct).(stack_size))) in
  let n_elf := s32 (page_nr (u32 (knew.(mm_struct).(elf_size) + PAGE_SIZE))) in
  m1 ← copy_pages (Z.to_nat n_stack) (ElfStackList old) (ElfStackList new) v.(vm_pages) v.(vm_ram);
  m2 ← copy_pages (Z.to_nat n_elf) (ElfImageList old) (ElfImageList new) v.(vm_pages) m1;
  Some (with_vm_ram m2 v).

(** ** Switching address spaces *)

Definition SIZE_4M : Z := 4 * SIZE_1M.

(** The bodies of the loops of [switch_task], with the running user address. *)
Definition load_stack_body s (n : node) (st : Z * mem) : option (Z * mem) :=
  let '(stack_base, m) := st in
  pg ← plist_entry n;
  pa ← page_to_pa pg s;
  '(_, m1) ← build_tlb_table_entry (stack_base -u SIZE_4M) pa SIZE_4M TLB_ATTR_USER_MEMORY m;
  Some (stack_base -u SIZE_4M, m1).

Definition load_elf_body s (n : node) (st : Z * mem) : option (Z * mem) :=
  let '(task_base, m) := st in
  pg ← plist_entry n;
  pa ← page_to_pa pg s;
  '(_, m1) ← build_tlb_table_entry task_base pa SIZE_4M TLB_ATTR_USER_MEMORY m;
  Some (task_base +u SIZE_4M, m1).

Definition load_tables s (hd : node) (body : node -> Z * mem -> option (Z * mem)) (base : Z) m
  : option mem :=
  n ← list_next s.(plists) hd;
  '(_, m1) ← list_for_each (S (size s.(plists))) (fun _ => s.(plists)) body hd n (base, m);
  Some m1.

(** [knext] is the structure [next] points to. *)
Definition switch_task (cur next : Z) (knext : task_struct) v : option (Z * vm L) :=
  if Z.eqb cur 0 || Z.eqb next 0 then Some (- EINVAL, v)
  else if truth (knext.(flag) &u PROCESS_TYPE_KERNEL) then Some (0, v)
  else
    let s := v.(vm_pages) in
    m1 ← load_tables s (StackList next) (load_stack_body s) PROCESS_USER_STACK_BASE v.(vm_ram);
    m2 ← load_tables s (ElfList next) (load_elf_body s) PROCESS_USER_BASE m1;
    Some (0, with_vm_ram m2 v).

(** ** Arguments *)

(** The loop of [setup_task_argv]; it ends at a null pointer or after [MAX_ARGV]
    strings, and does not terminate the table. *)
Fixpoint argv_loop (fuel : nat) (argv i argv_base load_base table_base : Z) m : option mem :=
  match fuel with
  | O => Some m
  | S fuel' =>
      a ← load32 (argv + 4 * i) m;
      if Z.eqb a 0 then Some m
      else
        length ← strlen a m;
        '(_, m1) ← strcpy load_base a m;
        m2 ← store32 table_base argv_base m1;
        let argv_base := argv_base +u u32 length in
        let load_base := load_base +u u32 length in
        argv_loop fuel' argv (i + 1) (baligin argv_base 4) (baligin load_base 4) (table_base + 4) m2
  end.

Definition setup_task_argv t (argv : Z) v : option (Z * vm L) :=
  let argv_base := PROCESS_USER_BASE + MAX_ARGV * 4 in
  if Z.eqb argv 0 then Some (- EINVAL, v)
  else
    n ← list_next v.(vm_pages).(plists) (ElfImageList t);
    pg ← plist_entry n;
    let load_base := page_to_va kernel_start pg in
    m ← argv_loop (Z.to_nat MAX_ARGV) argv 0 argv_base
          (load_base +u (argv_base -u PROCESS_USER_BASE)) load_base v.(vm_ram);
    Some (0, with_vm_ram m v).

End task_memory.
