(* ===== verification/TaskMemInv.v ===== *)
(** * The memory of a task: allocation of its pages

    The steps of [TaskMem] on a zone whose next pages are free: each allocation takes
    the page at the search position.  [run_from n] says that the next [n] pages are
    there, [took] is the effect of taking one, and the lemmas after them follow the
    loops that fill page tables and page lists. *)

From S2P Require Import Prelude ListHead TaskStruct Bitops Mem CString MmTypes Pages PagesInv.
From S2P Require Import PagesThms Mmu MmuThms Regs TaskMem.

(** The list nodes of the pages [l]. *)
Abbreviation plist l := (PagePlist <$> l).

(** Where a run of allocations started: the page map, the search position, and the sum
    of the position and the number of free pages. *)
Record origin : Type := Mk_origin { or_map : bitmap; or_cur : Z; or_sum : Z }.

Section runs.
Context {L : Type} {LC : LockCalls L} {LO : LockOps L} (ks : Z) (zone_mutex : Z -> Z) (off : Z).
Context (o : origin).
Hypothesis Hks : 0 < ks < 2 ^ 32.
Hypothesis Halign : ks mod 4096 = 0.

Implicit Types (s : mm_state L) (z : mm_zone) (k : task_struct) (m : mem) (i n c : Z).

(** The next [n] pages of the normal zone are free and mapped with offset [off]; since
    [o] only the pages before them were taken. *)
Record run_from (n : Z) z s : Prop := {
  rr_ready : zone_ready zone_mutex MM_ZONE_NORMAL z s;
  rr_count : 0 <= n;
  rr_cur : 0 < z.(bm_current) /\ z.(bm_current) + n < z.(bm_end);
  rr_free : n <= z.(z_free_pages);
  rr_bits : forall j, z.(bm_current) <= j < z.(bm_current) + n -> bit_at s.(page_map) j = false;
  rr_off : forall j, z.(bm_current) <= j < z.(bm_current) + n ->
    va_get_pv_offset (page_id_to_va ks j) s = Some off;
  rr_va : ks + 4096 * z.(bm_end) <= 2 ^ 32;
  rr_sum : z.(z_free_pages) + z.(bm_current) = o.(or_sum);
  rr_used : forall j, ~ (o.(or_cur) <= j < z.(bm_current)) -> bit_at s.(page_map) j = bit_at o.(or_map) j;
  rr_since : 0 < o.(or_cur) <= z.(bm_current)
}.

(** What the steps of this file leave alone. *)
Record same_map s s' : Prop := {
  sm_bank : s'.(bank) = s.(bank);
  sm_map : s'.(page_map) = s.(page_map);
  sm_table : length s'.(page_table) = length s.(page_table);
  sm_locks : s'.(locks) = s.(locks)
}.

Lemma va_offset_bank va s s' : s'.(bank) = s.(bank) -> va_get_pv_offset va s' = va_get_pv_offset va s.
Proof. intros E. apply va_offset_ext. intros j. unfold get_zone. by rewrite E. Qed.

Lemma run_from_same n z s s' : same_map s s' -> run_from n z s -> run_from n z s'.
Proof.
  intros [Hb Hm Ht Hl] [[H1 H2 H3 H4 H5 H6 H7 H8] Hn Hc Hf Hbits Hoff Hva Hsum Hused Hsince]. constructor; try done.
  - constructor; try done.
    + unfold get_zone. by rewrite Hb.
    + by rewrite Hm.
    + by rewrite Ht.
    + apply (sections_ok_ext s); [|rewrite Hb; apply H6|done].
      intros j. unfold get_zone. by rewrite Hb.
    + by rewrite Hl.
  - intros j Hj. rewrite Hm. by apply Hbits.
  - intros j Hj. rewrite (va_offset_bank _ s) by done. by apply Hoff.
  - intros j Hj. rewrite Hm. by apply Hused.
Qed.

Lemma run_va n z s i :
  run_from n z s -> 0 <= i < z.(bm_end) -> page_id_to_va ks i = ks + 4096 * i /\
  va_to_page ks (page_id_to_va ks i) = i /\ ks + 4096 * i + 4096 <= 2 ^ 32.
Proof.
  intros Hr Hi. pose proof (rr_va _ _ _ Hr) as Hv. pose proof (zr_bounds _ _ _ _ (rr_ready _ _ _ Hr)) as Hb.
  split; [|split; [|lia]].
  - unfold page_id_to_va, PAGE_SHIFT. rewrite u32_u32, Z.shiftl_mul_pow2, u32_add_r by lia.
    rewrite u32_small by lia. lia.
  - unfold va_to_page, get_page. apply page_id_roundtrip; lia.
Qed.

(** Taking page [i]. *)
Record took (i flag : Z) s s' : Prop := {
  tk_page : get_page_struct i s' = Some (init_page ks i 1 flag off i);
  tk_other : forall j, j <> i -> get_page_struct j s' = get_page_struct j s;
  tk_plists : forall x, s'.(plists) !! x = fresh_nodes i 1 s.(plists) x;
  tk_len : length s'.(page_table) = length s.(page_table)
}.

Lemma in_run_one i j : in_run i 1 j = Z.eqb j i.
Proof. unfold in_run. destruct (Z.leb_spec i j), (Z.ltb_spec j (i + 1)), (Z.eqb_spec j i); simpl; (done || lia). Qed.

(** A run of [cnt] pages; the single page is [take_page]. *)
Lemma take_pages cnt n z s flag :
  run_from (n + cnt) z s -> 1 <= cnt < 256 -> 0 <= n -> zone_id flag = MM_ZONE_NORMAL ->
  exists s', get_free_pages ks zone_mutex cnt flag s = Some (page_id_to_va ks z.(bm_current), s') /\
    run_from n (taken z.(bm_current) cnt z) s' /\
    pages_taken ks MM_ZONE_NORMAL z z.(bm_current) cnt flag s s' /\
    (taken z.(bm_current) cnt z).(bm_current) = z.(bm_current) + cnt.
Proof.
  intros [Hr Hn Hc Hf Hbits Hoff Hva Hsum Hused Hsince] Hcnt Hn0 Hid. pose proof Hr as [H1 H2 H3 H4 H5 H6 H7 H8].
  pose proof (get_free_pages_ok ks zone_mutex s z cnt flag) as H. rewrite Hid in H.
  specialize (H (zone_ready_usable _ _ _ _ Hr) ltac:(lia)). cbv zeta in H.
  assert (Es : search_result s.(page_map) z cnt = z.(bm_current)).
  { unfold search_result. rewrite (nth_free_run _ _ _ cnt); [lia|lia|]. intros j Hj. apply Hbits. lia. }
  rewrite Es in H. destruct (Z.ltb_spec z.(z_free_pages) cnt); [lia|].
  rewrite (proj2 (Z.eqb_neq z.(bm_current) 0)) in H by lia. cbn [orb] in H.
  destruct H as (s' & E & Ht). exists s'. split; [done|].
  assert (Ecur : (taken z.(bm_current) cnt z).(bm_current) = z.(bm_current) + cnt).
  { simpl. rewrite u32_small; lia. }
  assert (Hss : same_sections s s').
  { intros j. rewrite (pt_zones _ _ _ _ _ _ _ _ Ht). destruct (Z.eqb_spec j MM_ZONE_NORMAL) as [->|]; [|done].
    by rewrite H1. }
  assert (Hfr : (taken z.(bm_current) cnt z).(z_free_pages) = z.(z_free_pages) - cnt).
  { simpl. rewrite u32_small; lia. }
  split; [|done]. constructor; rewrite ?Ecur, ?Hfr; try (cbn [bm_end taken with_z_free_pages with_z_free_size with_bm_current]; lia).
  - constructor; rewrite ?Ecur, ?Hfr; try (cbn [bm_start bm_end taken with_z_free_pages with_z_free_size with_bm_current]; lia).
    + by rewrite (pt_zones _ _ _ _ _ _ _ _ Ht).
    + destruct H4 as [_ H4]. split; [apply (pt_words _ _ _ _ _ _ _ _ Ht)|].
      by rewrite (pt_maplen _ _ _ _ _ _ _ _ Ht).
    + by rewrite (pt_tablen _ _ _ _ _ _ _ _ Ht).
    + apply (sections_ok_ext s); [done|apply (pt_nzones _ _ _ _ _ _ _ _ Ht)|done].
    + by apply (pt_locks _ _ _ _ _ _ _ _ Ht).
  - intros j Hj. rewrite (pt_bits _ _ _ _ _ _ _ _ Ht), in_run_false by lia. apply Hbits. lia.
  - intros j Hj. rewrite (va_offset_ext _ s) by done. apply Hoff. lia.
  - intros j Hj. rewrite (pt_bits _ _ _ _ _ _ _ _ Ht), in_run_false by lia. apply Hused. lia.
Qed.

Lemma take_page n z s flag :
  run_from (n + 1) z s -> 0 <= n -> zone_id flag = MM_ZONE_NORMAL ->
  exists s' z', get_free_page ks zone_mutex flag s = Some (page_id_to_va ks z.(bm_current), s') /\
    run_from n z' s' /\ z'.(bm_current) = z.(bm_current) + 1 /\ z'.(bm_end) = z.(bm_end) /\
    took z.(bm_current) flag s s'.
Proof.
  intros Hr Hn Hid. destruct (take_pages 1 n z s flag) as (s' & E & Hr' & Ht & Ec); [done|lia|done|done|].
  exists s', (taken z.(bm_current) 1 z). split; [done|]. split; [done|]. split; [done|]. split; [done|].
  constructor.
  - unfold get_page_struct. rewrite (pt_pages _ _ _ _ _ _ _ _ Ht), in_run_one, Z.eqb_refl.
    unfold page_to_va, page_to_page_id. rewrite (rr_off _ _ _ Hr) by lia. done.
  - intros j Hj. unfold get_page_struct. rewrite (pt_pages _ _ _ _ _ _ _ _ Ht), in_run_one.
    by rewrite (proj2 (Z.eqb_neq j z.(bm_current))).
  - apply (pt_plists _ _ _ _ _ _ _ _ Ht).
  - apply (pt_tablen _ _ _ _ _ _ _ _ Ht).
Qed.

(** ** Linking a page that was just taken *)

Lemma fresh_other c h x : (forall i, x = PagePlist i -> i <> c) -> fresh_nodes c 1 h x = h !! x.
Proof.
  intros Hx. destruct x; try done. unfold fresh_nodes. rewrite in_run_one.
  specialize (Hx i eq_refl). by rewrite (proj2 (Z.eqb_neq i c)).
Qed.

Lemma link_page (hd : node) (l : list Z) c (h h1 : lheap node) :
  is_list h hd (plist l) -> (forall i, hd <> PagePlist i) -> c ∉ l ->
  (forall x, h1 !! x = fresh_nodes c 1 h x) ->
  exists h2, list_add_tail hd (PagePlist c) h1 = Some h2 /\
    is_list h2 hd (plist (l ++ [c])) /\
    (forall x, x ∉ hd :: plist (l ++ [c]) -> h2 !! x = h !! x).
Proof.
  intros Hl Hhd Hc Hh.
  assert (Hnot : PagePlist c ∉ hd :: plist l).
  { intros [Hin|(i & [= <-] & Hin)%list_elem_of_fmap]%elem_of_cons; [by apply (Hhd c)|done]. }
  assert (Hl1 : is_list h1 hd (plist l)).
  { apply (is_list_frame h); [|done]. intros x Hx. rewrite Hh. apply fresh_other. intros i -> ->. done. }
  destruct (list_add_tail_spec h1 hd (plist l) (PagePlist c) Hl1 Hnot) as (h2 & E & Hl2 & _ & Hf).
  { rewrite Hh. unfold fresh_nodes. rewrite in_run_one, Z.eqb_refl. by eexists. }
  exists h2. rewrite fmap_app. split; [done|]. split; [done|]. intros x Hx.
  rewrite Hf by set_solver. rewrite Hh. apply fresh_other. intros i -> ->. set_solver.
Qed.

(** One page table of [alloc_page_table]. *)
Lemma alloc_pgt_ok n z s (hd : node) (adjust : page -> page) :
  run_from (n + 1) z s -> 0 <= n -> is_list s.(plists) hd [] -> (forall i, hd <> PagePlist i) ->
  let c := z.(bm_current) in
  exists s' z', alloc_pgts ks zone_mutex 1 hd adjust s = Some (true, s') /\
    run_from n z' s' /\ z'.(bm_current) = c + 1 /\ z'.(bm_end) = z.(bm_end) /\
    is_list s'.(plists) hd [PagePlist c] /\
    (forall x, x <> hd -> x <> PagePlist c -> s'.(plists) !! x = s.(plists) !! x) /\
    get_page_struct c s' = Some (adjust (init_page ks c 1 GFP_PGT off c)) /\
    (forall j, j <> c -> get_page_struct j s' = get_page_struct j s) /\
    length s'.(page_table) = length s.(page_table).
Proof.
  intros Hr Hn Hl Hhd c. destruct (take_page n z s GFP_PGT Hr Hn eq_refl) as (s1 & z1 & E1 & Hr1 & Hc1 & He1 & [T1 T2 T3 T4]).
  fold c in E1, Hc1, T1, T2, T3.
  pose proof (zr_bounds _ _ _ _ (rr_ready _ _ _ Hr)) as Hb. pose proof (rr_cur _ _ _ Hr) as Hcur.
  destruct (run_va _ _ _ c Hr ltac:(lia)) as (Eva & Eid & Hva).
  unfold alloc_pgts. rewrite E1, bind_Some_eq. cbn beta iota zeta.
  rewrite (proj2 (Z.eqb_neq (page_id_to_va ks c) 0)) by lia. rewrite Eid.
  unfold upd_page. unfold get_page_struct in T1. rewrite (aupd_Some _ _ _ _ T1).
  rewrite !bind_Some_eq. set (s2 := with_page_table _ s1).
  destruct (link_page hd [] c s.(plists) s2.(plists)) as (h2 & E2 & Hl2 & Hf); [done|done|set_solver|done|].
  rewrite E2, bind_Some_eq. eexists _, z1. split; [done|].
  assert (Hset : aset s1.(page_table) c (adjust (init_page ks c 1 GFP_PGT off c)) =
      Some (page_table s2)).
  { apply aset_Some. by apply (aget_lt _ _ _ T1). }
  assert (Hlen : length (page_table s2) = length s1.(page_table)) by (simpl; apply length_insert).
  split; [|do 2 (split; [done|])].
  { apply (run_from_same n z1 s1); [|done]. constructor; [done|done|exact Hlen|done]. }
  split; [done|]. split; [|split; [|split]].
  - intros x H1 H2. apply Hf. set_solver.
  - apply (aget_aset_eq _ _ _ _ Hset).
  - intros j Hj. unfold get_page_struct. cbn [page_table with_plists].
    rewrite (aget_aset_ne _ _ _ _ _ Hset) by done. by apply T2.
  - cbn [page_table with_plists]. lia.
Qed.

(** ** Mapping one page *)

Definition page_des (pa : Z) : Z := 2 ^ 12 * (pa / 2 ^ 12) + PGT_DES_DEFAULT.

Definition map_flag (up : bool) : Z := if up then PROCESS_MAP_ELF else PROCESS_MAP_STACK.

(** The table a task fills: [elf_curr] upwards, [stack_curr] downwards. *)
Definition current_table (up : bool) k : option node :=
  if up then k.(mm_struct).(elf_curr) else k.(mm_struct).(stack_curr).

Lemma task_map_memory_ok (up : bool) c pt p pc k (v : vm L) :
  current_table up k = Some (PagePlist pt) ->
  get_page_struct pt v.(vm_pages) = Some p -> 4 <= p.(pg_free_size) < 2 ^ 16 ->
  va_to_page ks (page_id_to_va ks c) = c -> get_page_struct c v.(vm_pages) = Some pc ->
  0 <= pc.(phy_address) < 2 ^ 32 -> room v.(vm_ram) p.(free_base) 4 ->
  exists t m, aset v.(vm_pages).(page_table) pt (take_entry up p) = Some t /\
    task_map_memory ks (page_id_to_va ks c) k (map_flag up) v =
      Some (0, Mk_vm (with_page_table t v.(vm_pages)) m) /\
    load32 p.(free_base) m = Some (page_des pc.(phy_address)) /\
    (forall x, ~ (p.(free_base) <= x < p.(free_base) + 4) -> m !! x = v.(vm_ram) !! x) /\
    (forall b n, room v.(vm_ram) b n -> room m b n).
Proof.
  intros Hcur Hp Hfree Hid Hc Hpa Hr. pose proof Hp as Hp'. unfold get_page_struct in Hp'.
  destruct (build_pages_ok p.(free_base) pc.(phy_address) 1 0 v.(vm_ram)) as (m & Em & Hw & Hf & Hrm);
    [done|lia|done|].
  exists (<[Z.to_nat pt := take_entry up p]> v.(vm_pages).(page_table)), m.
  split; [apply aset_Some; by apply (aget_lt _ _ _ Hp')|]. split.
  - unfold task_map_memory.
    assert (Ef : Z.land (map_flag up) PROCESS_MAP_MASK = map_flag up) by (by destruct up).
    rewrite Ef. assert (El : map_list (map_flag up) k = Some (Some (PagePlist pt))).
    { unfold map_list. destruct up; cbn; unfold current_table in Hcur; by rewrite Hcur. }
    rewrite El. cbn [find_pgt plist_entry]. rewrite bind_Some_eq, Hp, bind_Some_eq.
    rewrite (proj2 (Z.eqb_neq p.(pg_free_size) 0)) by lia. rewrite bind_Some_eq. cbn beta iota.
    rewrite Hp, bind_Some_eq. unfold va_to_pa, page_to_pa. rewrite Hid, Hc. cbn [fmap option_fmap option_map].
    rewrite bind_Some_eq. change PAGE_SIZE with (1 * 2 ^ 12). rewrite Em, bind_Some_eq. cbn beta iota.
    assert (Eu : Z.eqb (map_flag up) PROCESS_MAP_ELF = up) by (by destruct up). rewrite Eu.
    unfold upd_page. by rewrite (aupd_Some _ _ _ _ Hp'), !bind_Some_eq.
  - split; [|done]. specialize (Hw 0 ltac:(lia)). rewrite Z.mul_0_r, Z.add_0_r in Hw. rewrite Hw.
    rewrite Z.mul_0_l, Z.add_0_r, u32_small by lia. done.
Qed.

(** The entry for the [j]-th page. *)
Definition entry (up : bool) (base j : Z) : Z := if up then base + 4 * j else base - 4 * j.

(** The page structure of a table after [n] entries were taken. *)
Definition table_page (up : bool) (n : Z) (p : page) : page :=
  with_pg_free_size (p.(pg_free_size) - 4 * n) (with_free_base (entry up p.(free_base) n) p).

Lemma take_entry_table up n p :
  0 <= n -> 4 * (n + 1) <= p.(pg_free_size) < 2 ^ 16 ->
  0 <= entry up p.(free_base) (n + 1) < 2 ^ 32 -> 0 <= p.(free_base) < 2 ^ 32 ->
  table_page up n (take_entry up p) = table_page up (n + 1) p.
Proof.
  intros Hn Hs H1 H2. unfold table_page, take_entry, with_pg_free_size, with_free_base, entry in *.
  cbn [free_base pg_free_size phy_address pg_flag pg_count pg_usage].
  f_equal; [destruct up; rewrite u32_small; lia|]. rewrite u16_small; lia.
Qed.

(** ** The loops of [alloc_memory_and_map] *)

(** The effect of allocating, mapping and linking the pages [c .. c+n-1]. *)
Record pages_mapped (up : bool) (n c : Z) (hd : node) (l : list Z) (pt : Z) (p : page) (v v' : vm L) : Prop := {
  pm_list : is_list v'.(vm_pages).(plists) hd (plist (l ++ seqZ c n));
  pm_frame : forall x, x ∉ hd :: plist (l ++ seqZ c n) ->
    v'.(vm_pages).(plists) !! x = v.(vm_pages).(plists) !! x;
  pm_table : get_page_struct pt v'.(vm_pages) = Some (table_page up n p);
  pm_pages : forall j, c <= j < c + n ->
    get_page_struct j v'.(vm_pages) = Some (init_page ks j 1 GFP_KERNEL off j);
  pm_other : forall j, j <> pt -> ~ (c <= j < c + n) ->
    get_page_struct j v'.(vm_pages) = get_page_struct j v.(vm_pages);
  pm_words : forall j, 0 <= j < n ->
    load32 (entry up p.(free_base) j) v'.(vm_ram) = Some (page_des (page_id_to_va ks (c + j) -u off));
  pm_ram : forall x, (forall j, 0 <= j < n ->
      ~ (entry up p.(free_base) j <= x < entry up p.(free_base) j + 4)) ->
    v'.(vm_ram) !! x = v.(vm_ram) !! x;
  pm_room : forall b q, room v.(vm_ram) b q -> room v'.(vm_ram) b q
}.

Lemma seqZ_S c n : 0 <= n -> seqZ c (n + 1) = c :: seqZ (c + 1) n.
Proof. intros Hn. rewrite seqZ_cons by lia. f_equal. f_equal; lia. Qed.

(** One round: allocate, map, link. *)
Lemma alloc_one_ok (up : bool) n z (v : vm L) (hd : node) (l : list Z) pt p k :
  run_from (n + 1) z v.(vm_pages) -> 0 <= n ->
  current_table up k = Some (PagePlist pt) -> pt <> z.(bm_current) ->
  get_page_struct pt v.(vm_pages) = Some p -> 4 <= p.(pg_free_size) < 2 ^ 16 ->
  is_list v.(vm_pages).(plists) hd (plist l) -> (forall i, hd <> PagePlist i) ->
  z.(bm_current) ∉ l -> room v.(vm_ram) p.(free_base) 4 ->
  exists v1 z1, (forall n' : nat, alloc_and_map ks zone_mutex (S n') hd (map_flag up) k v =
      alloc_and_map ks zone_mutex n' hd (map_flag up) k v1) /\
    run_from n z1 v1.(vm_pages) /\ z1.(bm_current) = z.(bm_current) + 1 /\ z1.(bm_end) = z.(bm_end) /\
    get_page_struct pt v1.(vm_pages) = Some (take_entry up p) /\
    get_page_struct z.(bm_current) v1.(vm_pages) =
      Some (init_page ks z.(bm_current) 1 GFP_KERNEL off z.(bm_current)) /\
    (forall j, j <> pt -> j <> z.(bm_current) ->
       get_page_struct j v1.(vm_pages) = get_page_struct j v.(vm_pages)) /\
    is_list v1.(vm_pages).(plists) hd (plist (l ++ [z.(bm_current)])) /\
    (forall x, x ∉ hd :: plist (l ++ [z.(bm_current)]) ->
       v1.(vm_pages).(plists) !! x = v.(vm_pages).(plists) !! x) /\
    load32 p.(free_base) v1.(vm_ram) = Some (page_des (page_id_to_va ks z.(bm_current) -u off)) /\
    (forall x, ~ (p.(free_base) <= x < p.(free_base) + 4) -> v1.(vm_ram) !! x = v.(vm_ram) !! x) /\
    (forall b q, room v.(vm_ram) b q -> room v1.(vm_ram) b q).
Proof.
  intros Hr Hn Hcur Hpt Hp Hfree Hl Hhd Hc Hroom. set (c := z.(bm_current)) in *.
  destruct (take_page n z v.(vm_pages) GFP_KERNEL Hr Hn eq_refl)
    as (s1 & z1 & E1 & Hr1 & Hc1 & He1 & [T1 T2 T3 T4]). fold c in E1, Hc1, T1, T2, T3.
  pose proof (zr_bounds _ _ _ _ (rr_ready _ _ _ Hr)) as Hb. pose proof (rr_cur _ _ _ Hr) as Hcu.
  destruct (run_va _ _ _ c Hr ltac:(lia)) as (Eva & Eid & Hva).
  destruct (task_map_memory_ok up c pt p (init_page ks c 1 GFP_KERNEL off c) k (with_pages s1 v))
    as (t & m & Et & Em & Hw & Hf & Hrm); [done|by rewrite T2|done|done|done|apply u32_range|done|].
  destruct (link_page hd l c v.(vm_pages).(plists) s1.(plists)) as (h2 & E2 & Hl2 & Hf2); [done|done|done|done|].
  pose proof (aset_length _ _ _ _ Et) as Hlen. cbn [vm_pages with_pages] in Et, Hlen.
  assert (Hg : forall j, get_page_struct j (with_plists h2 (with_page_table t s1)) = aget t j) by done.
  exists (Mk_vm (with_plists h2 (with_page_table t s1)) m), z1. split_and!; cbn [vm_pages vm_ram]; rewrite ?Hg.
  - intros n'. cbn [alloc_and_map]. rewrite E1, bind_Some_eq. cbn beta iota.
    rewrite (proj2 (Z.eqb_neq (page_id_to_va ks c) 0)) by lia. rewrite Em, bind_Some_eq. cbn beta iota zeta.
    rewrite Eid. cbn [vm_pages with_pages plists with_page_table]. by rewrite E2, bind_Some_eq.
  - apply (run_from_same n z1 s1); [|done]. by constructor.
  - done.
  - done.
  - apply (aget_aset_eq _ _ _ _ Et).
  - by rewrite (aget_aset_ne _ _ _ _ _ Et) by done.
  - intros j H1 H2. rewrite Hg, (aget_aset_ne _ _ _ _ _ Et) by done. by apply T2.
  - done.
  - done.
  - done.
  - done.
  - done.
Qed.

Lemma alloc_and_map_ok (up : bool) (hd : node) pt k r (n : nat) :
  0 <= r -> current_table up k = Some (PagePlist pt) -> (forall i, hd <> PagePlist i) ->
  forall z (v : vm L) (l : list Z) p,
  run_from (Z.of_nat n + r) z v.(vm_pages) ->
  get_page_struct pt v.(vm_pages) = Some p -> pt < z.(bm_current) ->
  4 * Z.of_nat n <= p.(pg_free_size) < 2 ^ 16 ->
  0 <= p.(free_base) < 2 ^ 32 -> 0 <= entry up p.(free_base) (Z.of_nat n) < 2 ^ 32 ->
  is_list v.(vm_pages).(plists) hd (plist l) -> (forall i, i ∈ l -> i < z.(bm_current)) ->
  (forall j, 0 <= j < Z.of_nat n -> room v.(vm_ram) (entry up p.(free_base) j) 4) ->
  exists v' z', alloc_and_map ks zone_mutex n hd (map_flag up) k v = Some (true, v') /\
    run_from r z' v'.(vm_pages) /\ z'.(bm_current) = z.(bm_current) + Z.of_nat n /\
    z'.(bm_end) = z.(bm_end) /\
    pages_mapped up (Z.of_nat n) z.(bm_current) hd l pt p v v'.
Proof.
  intros Hr0 Hcur Hhd. induction n as [|n IH]; intros z v l p Hr Hp Hpt Hfree Hfb He Hl Hlt Hroom.
  { exists v, z. split; [done|]. split; [done|]. split; [lia|]. split; [done|].
    constructor; rewrite ?app_nil_r; try done; try (intros j Hj; lia).
    rewrite Hp. f_equal. unfold table_page, entry. destruct p. simpl.
    rewrite Z.mul_0_r, Z.sub_0_r. unfold with_pg_free_size, with_free_base. simpl.
    f_equal; destruct up; lia. }
  set (c := z.(bm_current)) in *. rewrite Nat2Z.inj_succ in *.
  destruct (alloc_one_ok up (Z.of_nat n + r) z v hd l pt p k) as
    (v1 & z1 & E1 & Hr1 & Hc1 & He1 & P1 & P2 & P3 & L1 & L2 & W1 & W2 & W3); try done; try lia.
  { by replace (Z.of_nat n + r + 1) with (Z.succ (Z.of_nat n) + r) by lia. }
  { intros Hin. specialize (Hlt _ Hin). lia. }
  { specialize (Hroom 0 ltac:(lia)). unfold entry in Hroom. by destruct up; rewrite Z.mul_0_r, ?Z.add_0_r, ?Z.sub_0_r in Hroom. }
  fold c in Hc1, P2, P3, L1, L2, W1.
  assert (Hent : forall j, 0 <= j <= Z.of_nat n ->
    entry up (take_entry up p).(free_base) j = entry up p.(free_base) (j + 1)).
  { intros j Hj. unfold entry, take_entry, with_pg_free_size, with_free_base in *.
    cbn [free_base]. destruct up; rewrite u32_small; lia. }
  assert (Hfb1 : 0 <= (take_entry up p).(free_base) < 2 ^ 32) by (destruct up; apply u32_range).
  assert (Hfs1 : (take_entry up p).(pg_free_size) = p.(pg_free_size) - 4).
  { unfold take_entry. cbn [pg_free_size with_pg_free_size]. rewrite u16_small; lia. }
  destruct (IH z1 v1 (l ++ [c]) (take_entry up p)) as (v' & z' & E' & Hr' & Hc' & He' & [M1 M2 M3 M4 M5 M6 M7 M8]);
    try done; try lia.
  { rewrite Hent by lia. by replace (Z.of_nat n + 1) with (Z.succ (Z.of_nat n)) by lia. }
  { intros i [Hi|Hi]%elem_of_app; [specialize (Hlt _ Hi); lia|].
    apply list_elem_of_singleton in Hi. lia. }
  { intros j Hj. rewrite Hent by lia. apply W3, Hroom. lia. }
  exists v', z'. rewrite E1. split; [done|]. split; [done|]. split; [lia|]. split; [lia|].
  rewrite Hc1 in *. rewrite take_entry_table in M3; [|lia|lia| |done].
  2: { by replace (Z.of_nat n + 1) with (Z.succ (Z.of_nat n)) by lia. }
  assert (Eseq : (l ++ [c]) ++ seqZ (c + 1) (Z.of_nat n) = l ++ seqZ c (Z.succ (Z.of_nat n))).
  { rewrite <- app_assoc. f_equal. rewrite <- Z.add_1_r, seqZ_S by lia. done. }
  constructor.
  - by rewrite <- Eseq.
  - intros x Hx. rewrite <- Eseq in Hx. rewrite M2 by done. apply L2. set_solver.
  - by replace (Z.succ (Z.of_nat n)) with (Z.of_nat n + 1) by lia.
  - intros j Hj. destruct (decide (j = c)) as [->|Hne]; [|apply M4; lia].
    rewrite M5 by lia. done.
  - intros j H1 H2. rewrite M5 by lia. apply P3; lia.
  - intros j Hj. destruct (decide (j = 0)) as [->|Hne].
    + rewrite Z.add_0_r, (load32_frame _ v1.(vm_ram)); [|].
      * unfold entry. by destruct up; rewrite Z.mul_0_r, ?Z.add_0_r, ?Z.sub_0_r.
      * intros x Hx. apply M7. intros i Hi. rewrite Hent by lia. unfold entry in *. destruct up; lia.
    + specialize (M6 (j - 1) ltac:(lia)). rewrite Hent in M6 by lia.
      replace (j - 1 + 1) with j in M6 by lia. by replace (c + 1 + (j - 1)) with (c + j) in M6 by lia.
  - intros x Hx. rewrite M7.
    + apply W2. specialize (Hx 0 ltac:(lia)). unfold entry in Hx. destruct up; lia.
    + intros j Hj. rewrite Hent by lia. apply Hx. lia.
  - intros b q Hb. by apply M8, W3.
Qed.
End runs.

(** A run that starts here. *)
Definition run_ready {L : Type} {LC : LockCalls L} {LO : LockOps L} (ks : Z) (zone_mutex : Z -> Z) (off n : Z) (z : mm_zone)
    (s : mm_state L) : Prop :=
  run_from ks zone_mutex off (Mk_origin s.(page_map) z.(bm_current) (z.(z_free_pages) + z.(bm_current))) n z s.
