(* ===== verification/TaskMemThms.v ===== *)
(** * The memory of a task: properties

    A new user task gets exactly the next free pages: a kernel stack, two page tables,
    sixteen kilobytes of stack and a megabyte of image; after [switch_task] the walk
    of the architecture translates the user addresses of the task to those pages. *)

From S2P Require Import Prelude ListHead TaskStruct Bitops Mem CString MmTypes Pages PagesInv.
From S2P Require Import PagesThms Mmu MmuThms Regs TaskMem TaskMemInv Sched SchedBoot.

Section address_space.
Context {L : Type} {LC : LockCalls L} {LO : LockOps L} (ks : Z) (zone_mutex : Z -> Z) (off : Z) (o : origin).
Hypothesis Hks : 0 < ks < 2 ^ 32.
Hypothesis Halign : ks mod 4096 = 0.

Implicit Types (s : mm_state L) (v : vm L) (z : mm_zone) (k : task_struct) (m : mem) (t c i : Z).

(** The physical address of page [i]. *)
Definition pa i : Z := page_id_to_va ks i -u off.

(** Page [i] is allocated on its own, in the normal zone. *)
Definition single_page i s : Prop :=
  exists p, get_page_struct i s = Some p /\ p.(phy_address) = pa i /\ p.(pg_count) = 1 /\
    truth (p.(pg_flag) &u F_GFP_PAGE_HEADER) = true /\ zone_id p.(pg_flag) = MM_ZONE_NORMAL.

Lemma single_page_init i s p flag :
  get_page_struct i s = Some p -> flag = GFP_KERNEL \/ flag = GFP_PGT ->
  (p.(phy_address), p.(pg_count), p.(pg_flag)) =
    (let q := init_page ks i 1 flag off i in (q.(phy_address), q.(pg_count), q.(pg_flag))) ->
  single_page i s.
Proof.
  intros Hp Hf E. exists p. injection E as -> -> ->. rewrite Z.eqb_refl.
  destruct Hf as [-> | ->]; by repeat split.
Qed.

Lemma single_page_pa i s : single_page i s -> page_to_pa i s = Some (pa i).
Proof. intros (p & E & Hp & _). unfold page_to_pa. rewrite E. simpl. by rewrite Hp. Qed.

(** The structure of the task [k] once its memory starts at page [c]. *)
Definition with_memory c k : task_struct :=
  set_mm (with_elf_curr (Some (PagePlist (c + 2))))
    (set_mm (with_stack_curr (Some (PagePlist (c + 1))))
      (with_stack_origin (page_id_to_va ks c) (with_stack_base (page_id_to_va ks c) k))).

(** The address space of task [t] on the pages from [c]: [c] is the kernel stack,
    [c+1] and [c+2] the page tables of stack and image, then four pages of stack and
    256 of image. *)
Record address_space t c v : Prop := {
  as_stack_table : is_list v.(vm_pages).(plists) (StackList t) [PagePlist (c + 1)];
  as_elf_table : is_list v.(vm_pages).(plists) (ElfList t) [PagePlist (c + 2)];
  as_stack : is_list v.(vm_pages).(plists) (ElfStackList t) (plist (seqZ (c + 3) 4));
  as_image : is_list v.(vm_pages).(plists) (ElfImageList t) (plist (seqZ (c + 7) 256));
  as_pages : forall i, c <= i < c + 263 -> single_page i v.(vm_pages);
  as_stack_words : forall j, 0 <= j < 4 ->
    load32 (page_id_to_va ks (c + 1) + 4092 - 4 * j) v.(vm_ram) = Some (page_des (pa (c + 3 + j)));
  as_image_words : forall j, 0 <= j < 256 ->
    load32 (page_id_to_va ks (c + 2) + 4 * j) v.(vm_ram) = Some (page_des (pa (c + 7 + j)));
  as_base : forall j, 0 <= j < 256 ->
    exists p, get_page_struct (c + 7 + j) v.(vm_pages) = Some p /\ p.(free_base) = page_id_to_va ks (c + 7 + j)
}.

Lemma mm_free_page_normal z s :
  zone_ready zone_mutex MM_ZONE_NORMAL z s -> mm_free_page MM_ZONE_NORMAL s = Some z.(z_free_pages).
Proof.
  intros Hr. unfold mm_free_page. pose proof (zr_zone _ _ _ _ Hr) as Hz.
  change (Z.to_nat MM_ZONE_UNKNOW) with 4%nat. cbn [for_range].
  change (MM_ZONE_NORMAL &u MM_ZONE_MASK) with 0. change (Z.eqb (0 &u 0) 0) with true. cbn iota.
  change (get_zone 0 s) with (get_zone MM_ZONE_NORMAL s). rewrite Hz, !bind_Some_eq.
  pose proof (zr_free _ _ _ _ Hr). cbn. rewrite u32_small by lia. f_equal.
Qed.

Lemma stack_tables : Z.to_nat (megabytes PROCESS_STACK_SIZE) = 1%nat.
Proof. vm_compute. reflexivity. Qed.

Lemma image_tables : Z.to_nat (megabytes PROCESS_IMAGE_SIZE) = 1%nat.
Proof. vm_compute. reflexivity. Qed.

(** The tables of a new task. *)
Lemma alloc_page_table_ok n z s t k :
  run_from ks zone_mutex off o (n + 2) z s -> 0 <= n ->
  is_list s.(plists) (StackList t) [] -> is_list s.(plists) (ElfList t) [] ->
  let c := z.(bm_current) in
  exists s' z', alloc_page_table ks zone_mutex t k s =
      Some (0, set_mm (with_elf_curr (Some (PagePlist (c + 1))))
                 (set_mm (with_stack_curr (Some (PagePlist c))) k), s') /\
    run_from ks zone_mutex off o n z' s' /\ z'.(bm_current) = c + 2 /\ z'.(bm_end) = z.(bm_end) /\
    is_list s'.(plists) (StackList t) [PagePlist c] /\
    is_list s'.(plists) (ElfList t) [PagePlist (c + 1)] /\
    (forall x, x ∉ [StackList t; ElfList t; PagePlist c; PagePlist (c + 1)] ->
       s'.(plists) !! x = s.(plists) !! x) /\
    get_page_struct c s' = Some (stack_pgt_adjust (init_page ks c 1 GFP_PGT off c)) /\
    get_page_struct (c + 1) s' = Some (init_page ks (c + 1) 1 GFP_PGT off (c + 1)) /\
    (forall j, ~ (c <= j < c + 2) -> get_page_struct j s' = get_page_struct j s).
Proof.
  intros Hr Hn Hls Hle c. replace (n + 2) with (n + 1 + 1) in Hr by lia.
  destruct (alloc_pgt_ok ks zone_mutex off o Hks Halign (n + 1) z s (StackList t) stack_pgt_adjust Hr)
    as (s1 & z1 & E1 & Hr1 & Hc1 & He1 & L1 & F1 & P1 & O1 & N1); [lia|done|done|].
  fold c in Hc1, L1, F1, P1, O1. assert (Hle1 : is_list s1.(plists) (ElfList t) []).
  { apply (is_list_frame s.(plists)); [|done]. intros x ->%list_elem_of_singleton. by apply F1. }
  destruct (alloc_pgt_ok ks zone_mutex off o Hks Halign n z1 s1 (ElfList t) (fun p => p) Hr1)
    as (s2 & z2 & E2 & Hr2 & Hc2 & He2 & L2 & F2 & P2 & O2 & N2); [lia|done|done|].
  rewrite Hc1 in Hc2, L2, F2, P2, O2. exists s2, z2.
  assert (L1' : is_list s2.(plists) (StackList t) [PagePlist c]).
  { apply (is_list_frame s1.(plists)); [|done]. 
    intros x [->| ->%list_elem_of_singleton]%elem_of_cons; apply F2; try done. intros [=]. lia. }
  split; [|split_and!; try done; try lia].
  - unfold alloc_page_table. rewrite stack_tables, image_tables. rewrite E1, bind_Some_eq.
    cbn beta iota. cbn [negb]. rewrite (is_list_first _ _ _ L1), bind_Some_eq. cbn [List.hd]. cbv zeta. rewrite E2, bind_Some_eq. cbn beta iota. cbn [negb].
    by rewrite (is_list_first _ _ _ L2), bind_Some_eq.
  - intros x Hx. rewrite !not_elem_of_cons in Hx. rewrite F2 by tauto. apply F1; tauto.
  - rewrite O2 by lia. done.
  - intros j Hj. rewrite O2 by lia. apply O1. lia.
Qed.

Lemma stack_pages : Z.to_nat (s32 (page_nr PROCESS_STACK_SIZE)) = 4%nat.
Proof. vm_compute. reflexivity. Qed.

Lemma image_pages : Z.to_nat (s32 (page_nr PROCESS_IMAGE_SIZE)) = 256%nat.
Proof. vm_compute. reflexivity. Qed.

Lemma task_pages : u32 (s32 (page_nr PROCESS_STACK_SIZE) + s32 (page_nr PROCESS_IMAGE_SIZE)) = 260.
Proof. vm_compute. reflexivity. Qed.

Lemma node_not_page (hd : node) l x :
  (forall i, hd <> PagePlist i) -> x ∈ hd :: plist l -> x = hd \/ exists i, x = PagePlist i /\ i ∈ l.
Proof.
  intros Hh [->|(i & -> & Hi)%list_elem_of_fmap]%elem_of_cons; [by left|]. right. by exists i.
Qed.

(** The pages of stack and image, behind the tables [c+1] and [c+2]. *)
Lemma alloc_memory_and_map_ok z v t k c :
  run_from ks zone_mutex off o 260 z v.(vm_pages) -> z.(bm_current) = c + 3 -> 0 < c ->
  k.(mm_struct).(stack_curr) = Some (PagePlist (c + 1)) ->
  k.(mm_struct).(elf_curr) = Some (PagePlist (c + 2)) ->
  get_page_struct (c + 1) v.(vm_pages) = Some (stack_pgt_adjust (init_page ks (c + 1) 1 GFP_PGT off (c + 1))) ->
  get_page_struct (c + 2) v.(vm_pages) = Some (init_page ks (c + 2) 1 GFP_PGT off (c + 2)) ->
  is_list v.(vm_pages).(plists) (ElfStackList t) [] -> is_list v.(vm_pages).(plists) (ElfImageList t) [] ->
  room v.(vm_ram) (page_id_to_va ks (c + 1)) 8192 ->
  exists v1 v2 z2, alloc_memory_and_map ks zone_mutex t k v = Some (0, k, v2) /\
    run_from ks zone_mutex off o 0 z2 v2.(vm_pages) /\ z2.(bm_current) = c + 263 /\
    pages_mapped ks off false 4 (c + 3) (ElfStackList t) [] (c + 1)
      (stack_pgt_adjust (init_page ks (c + 1) 1 GFP_PGT off (c + 1))) v v1 /\
    pages_mapped ks off true 256 (c + 7) (ElfImageList t) [] (c + 2)
      (init_page ks (c + 2) 1 GFP_PGT off (c + 2)) v1 v2.
Proof.
  intros Hr Hc Hc0 Ks Ke P1 P2 Ls Li Hroom.
  pose proof (zr_bounds _ _ _ _ (rr_ready _ _ _ _ _ _ _ Hr)) as Hb. pose proof (rr_cur _ _ _ _ _ _ _ Hr) as Hcu.
  pose proof (rr_free _ _ _ _ _ _ _ Hr) as Hfree.
  destruct (run_va _ _ _ _ Hks _ _ _ (c + 1) Hr ltac:(lia)) as (Eva1 & _ & Hva1).
  destruct (run_va _ _ _ _ Hks _ _ _ (c + 2) Hr ltac:(lia)) as (Eva2 & _ & Hva2).
  assert (Efb : free_base (stack_pgt_adjust (init_page ks (c + 1) 1 GFP_PGT off (c + 1))) =
    page_id_to_va ks (c + 1) + 4092).
  { cbn. change (PAGE_SIZE -u 4) with 4092. unfold page_to_va, page_to_page_id. rewrite u32_small; lia. }
  destruct (alloc_and_map_ok ks zone_mutex off o Hks Halign false (ElfStackList t) (c + 1) k 256 4
    ltac:(lia) Ks ltac:(done) z v [] _ Hr P1) as (v1 & z1 & E1 & Hr1 & Hc1 & He1 & M1).
  { lia. } { cbn. unfold PAGE_SIZE. lia. } { rewrite Efb. lia. } { rewrite Efb. unfold entry. lia. } { done. }
  { intros i Hi. set_solver. }
  { intros j Hj. rewrite Efb. unfold entry. replace (page_id_to_va ks (c + 1) + 4092 - 4 * j)
      with (page_id_to_va ks (c + 1) + (4092 - 4 * j)) by lia. apply (room_le _ _ 8192); [done|lia|lia]. }
  rewrite Hc in Hc1, M1. change (Z.of_nat 4) with 4 in *.
  assert (P2' : get_page_struct (c + 2) v1.(vm_pages) = Some (init_page ks (c + 2) 1 GFP_PGT off (c + 2))).
  { rewrite (pm_other _ _ _ _ _ _ _ _ _ _ _ M1) by lia. done. }
  assert (Li' : is_list v1.(vm_pages).(plists) (ElfImageList t) []).
  { apply (is_list_frame v.(vm_pages).(plists)); [|done]. intros x ->%list_elem_of_singleton.
    apply (pm_frame _ _ _ _ _ _ _ _ _ _ _ M1). intros [?|(i & ? & _)]%node_not_page; done. }
  destruct (alloc_and_map_ok ks zone_mutex off o Hks Halign true (ElfImageList t) (c + 2) k 0 256
    ltac:(lia) Ke ltac:(done) z1 v1 [] _ Hr1 P2') as (v2 & z2 & E2 & Hr2 & Hc2 & He2 & M2).
  { lia. } { cbn. unfold PAGE_SIZE. lia. } { apply u32_range. }
  { cbn. unfold entry, page_to_va, page_to_page_id. lia. } { done. } { intros i Hi. set_solver. }
  { intros j Hj. apply (pm_room _ _ _ _ _ _ _ _ _ _ _ M1). cbn. unfold page_to_va, page_to_page_id.
    replace (page_id_to_va ks (c + 2) + 4 * j) with (page_id_to_va ks (c + 1) + (4096 + 4 * j)) by lia.
    apply (room_le _ _ 8192); [done|lia|lia]. }
  rewrite Hc1 in Hc2, M2. change (Z.of_nat 256) with 256 in *.
  replace (c + 3 + 4) with (c + 7) in M2 by lia. exists v1, v2, z2.
  split; [|split; [done|split; [lia|split; done]]]. unfold alloc_memory_and_map.
  rewrite (mm_free_page_normal z) by apply Hr. rewrite bind_Some_eq, task_pages.
  rewrite (proj2 (Z.ltb_ge _ 260)) by lia. rewrite stack_pages, image_pages.
  change PROCESS_MAP_STACK with (map_flag false). change PROCESS_MAP_ELF with (map_flag true).
  rewrite E1, bind_Some_eq. cbn beta iota. cbn [negb]. rewrite E2, bind_Some_eq. done.
Qed.

(** The list heads of a task. *)
Definition mm_anchors t : list node := [StackList t; ElfList t; ElfStackList t; ElfImageList t].

Record memory_frame t c v v' : Prop := {
  mf_lists : forall x, x ∉ mm_anchors t -> (forall i, c <= i < c + 263 -> x <> PagePlist i) ->
    v'.(vm_pages).(plists) !! x = v.(vm_pages).(plists) !! x;
  mf_pages : forall i, ~ (c <= i < c + 263) -> get_page_struct i v'.(vm_pages) = get_page_struct i v.(vm_pages);
  mf_ram : forall x, ~ (ks + 4096 * (c + 1) <= x < ks + 4096 * (c + 3)) -> v'.(vm_ram) !! x = v.(vm_ram) !! x;
  mf_room : forall b n, room v.(vm_ram) b n -> room v'.(vm_ram) b n
}.

(** The two mappings, read as an address space. *)
Lemma mapped_space z t c v0 v v1 v2 :
  run_from ks zone_mutex off o 0 z v2.(vm_pages) -> z.(bm_current) = c + 263 -> 0 < c ->
  (get_page_struct c v.(vm_pages) = Some (init_page ks c 1 GFP_KERNEL off c)) ->
  is_list v.(vm_pages).(plists) (StackList t) [PagePlist (c + 1)] ->
  is_list v.(vm_pages).(plists) (ElfList t) [PagePlist (c + 2)] ->
  pages_mapped ks off false 4 (c + 3) (ElfStackList t) [] (c + 1)
    (stack_pgt_adjust (init_page ks (c + 1) 1 GFP_PGT off (c + 1))) v v1 ->
  pages_mapped ks off true 256 (c + 7) (ElfImageList t) [] (c + 2)
    (init_page ks (c + 2) 1 GFP_PGT off (c + 2)) v1 v2 ->
  memory_frame t c v0 v -> address_space t c v2 /\ memory_frame t c v0 v2.
Proof.
  intros Hr Hz Hc Hpa Hs He M1 M2 [F1 F2 F3 F4].
  pose proof (zr_bounds _ _ _ _ (rr_ready _ _ _ _ _ _ _ Hr)) as Hb. pose proof (rr_cur _ _ _ _ _ _ _ Hr) as Hcu.
  destruct (run_va _ _ _ _ Hks _ _ _ (c + 1) Hr ltac:(lia)) as (Eva1 & _ & Hva1).
  destruct (run_va _ _ _ _ Hks _ _ _ (c + 2) Hr ltac:(lia)) as (Eva2 & _ & Hva2).
  assert (Efb : free_base (stack_pgt_adjust (init_page ks (c + 1) 1 GFP_PGT off (c + 1))) =
    page_id_to_va ks (c + 1) + 4092).
  { cbn. change (PAGE_SIZE -u 4) with 4092. unfold page_to_va, page_to_page_id. rewrite u32_small; lia. }
  assert (Efb2 : free_base (init_page ks (c + 2) 1 GFP_PGT off (c + 2)) = page_id_to_va ks (c + 2)) by done.
  assert (Hl12 : forall x, x <> ElfStackList t -> x <> ElfImageList t ->
    (forall i, c + 3 <= i < c + 263 -> x <> PagePlist i) ->
    v2.(vm_pages).(plists) !! x = v.(vm_pages).(plists) !! x).
  { intros x H1 H2 Hp. rewrite (pm_frame _ _ _ _ _ _ _ _ _ _ _ M2), (pm_frame _ _ _ _ _ _ _ _ _ _ _ M1); [done| |];
      (intros [?|(i & -> & Hi%elem_of_seqZ)]%node_not_page; [done|apply (Hp i); [lia|done]|done]). }
  assert (Hkeep : forall hd i, is_list v.(vm_pages).(plists) hd [PagePlist i] ->
    hd <> ElfStackList t -> hd <> ElfImageList t -> (forall j, hd <> PagePlist j) -> i < c + 3 ->
    is_list v2.(vm_pages).(plists) hd [PagePlist i]).
  { intros hd i Hl H1 H2 Hp Hi. apply (is_list_frame v.(vm_pages).(plists)); [|done].
    intros x [->| ->%list_elem_of_singleton]%elem_of_cons; apply Hl12; try done.
    intros j Hj [= ->]. lia. }
  split; constructor.
  - by apply Hkeep; try lia.
  - by apply Hkeep; try lia.
  - apply (is_list_frame v1.(vm_pages).(plists)); [|apply (pm_list _ _ _ _ _ _ _ _ _ _ _ M1)].
    intros x Hx. apply (pm_frame _ _ _ _ _ _ _ _ _ _ _ M2). intros Hx2.
    apply node_not_page in Hx as [->|(i & -> & Hi%elem_of_seqZ)]; [| |done];
      apply node_not_page in Hx2 as [?|(j & Ej & Hj%elem_of_seqZ)]; try done.
    injection Ej. lia.
  - apply (pm_list _ _ _ _ _ _ _ _ _ _ _ M2).
  - intros i Hi.
    assert (Hi' : i = c \/ i = c + 1 \/ i = c + 2 \/ c + 3 <= i < c + 7 \/ c + 7 <= i) by lia.
    destruct Hi' as [->|[->|[->|[Hi'|Hi']]]].
    + apply (single_page_init _ _ (init_page ks c 1 GFP_KERNEL off c) GFP_KERNEL); [|by left|done].
      by rewrite (pm_other _ _ _ _ _ _ _ _ _ _ _ M2), (pm_other _ _ _ _ _ _ _ _ _ _ _ M1) by lia.
    + eapply (single_page_init _ _ _ GFP_PGT); [|by right|].
      * rewrite (pm_other _ _ _ _ _ _ _ _ _ _ _ M2) by lia. apply (pm_table _ _ _ _ _ _ _ _ _ _ _ M1).
      * done.
    + eapply (single_page_init _ _ _ GFP_PGT); [|by right|].
      * apply (pm_table _ _ _ _ _ _ _ _ _ _ _ M2).
      * done.
    + eapply (single_page_init _ _ _ GFP_KERNEL); [|by left|].
      * rewrite (pm_other _ _ _ _ _ _ _ _ _ _ _ M2) by lia. apply (pm_pages _ _ _ _ _ _ _ _ _ _ _ M1). lia.
      * done.
    + eapply (single_page_init _ _ _ GFP_KERNEL); [|by left|].
      * apply (pm_pages _ _ _ _ _ _ _ _ _ _ _ M2). lia.
      * done.
  - intros j Hj. rewrite (load32_frame _ v1.(vm_ram)).
    + pose proof (pm_words _ _ _ _ _ _ _ _ _ _ _ M1 j Hj) as Hw. rewrite Efb in Hw. exact Hw.
    + intros x Hx. apply (pm_ram _ _ _ _ _ _ _ _ _ _ _ M2). intros q Hq. rewrite Efb2. unfold entry. lia.
  - intros j Hj. pose proof (pm_words _ _ _ _ _ _ _ _ _ _ _ M2 j Hj) as Hw. rewrite Efb2 in Hw. exact Hw.
  - intros j Hj. eexists. split; [apply (pm_pages _ _ _ _ _ _ _ _ _ _ _ M2); lia|done].
  - intros x Hx Hp. unfold mm_anchors in Hx. rewrite !not_elem_of_cons in Hx.
    rewrite Hl12; [apply F1|tauto|tauto|]; [unfold mm_anchors; rewrite !not_elem_of_cons; tauto|done|].
    intros i Hi. apply Hp. lia.
  - intros i Hi. rewrite (pm_other _ _ _ _ _ _ _ _ _ _ _ M2), (pm_other _ _ _ _ _ _ _ _ _ _ _ M1) by lia.
    by apply F2.
  - intros x Hx. rewrite (pm_ram _ _ _ _ _ _ _ _ _ _ _ M2), (pm_ram _ _ _ _ _ _ _ _ _ _ _ M1).
    + by apply F3.
    + intros j Hj. rewrite Efb. unfold entry. lia.
    + intros j Hj. rewrite Efb2. unfold entry. lia.
  - intros b n Hbn. apply (pm_room _ _ _ _ _ _ _ _ _ _ _ M2), (pm_room _ _ _ _ _ _ _ _ _ _ _ M1). by apply F4.
Qed.

Lemma alloc_memory_for_task_ok z v t k :
  run_from ks zone_mutex off o 263 z v.(vm_pages) -> k.(stack_base) = 0 ->
  truth (k.(flag) &u PROCESS_TYPE_USER) = true ->
  (forall hd, hd ∈ mm_anchors t -> is_list v.(vm_pages).(plists) hd []) ->
  let c := z.(bm_current) in
  room v.(vm_ram) (page_id_to_va ks (c + 1)) 8192 ->
  exists v' z', alloc_memory_for_task ks zone_mutex t k v = Some (0, with_memory c k, v') /\
    run_from ks zone_mutex off o 0 z' v'.(vm_pages) /\ z'.(bm_current) = c + 263 /\
    address_space t c v' /\ memory_frame t c v v'.
Proof.
  intros Hr Hk Hu Hl c Hroom. set (s := v.(vm_pages)) in *.
  pose proof (zr_bounds _ _ _ _ (rr_ready _ _ _ _ _ _ _ Hr)) as Hb. pose proof (rr_cur _ _ _ _ _ _ _ Hr) as Hcu.
  fold c in Hcu. destruct (run_va _ _ _ _ Hks _ _ _ c Hr ltac:(lia)) as (Eva & _ & Hva).
  destruct (take_page ks zone_mutex off o Hks 262 z s GFP_KERNEL Hr ltac:(lia) eq_refl)
    as (s1 & z1 & E1 & Hr1 & Hc1 & He1 & [T1 T2 T3 T4]). fold c in E1, Hc1, T1, T2, T3.
  assert (Hl1 : forall hd, hd ∈ mm_anchors t -> is_list s1.(plists) hd []).
  { intros hd Hin. apply (is_list_frame s.(plists)); [|by apply Hl]. intros x ->%list_elem_of_singleton.
    rewrite T3. apply fresh_other. intros i ->. unfold mm_anchors in Hin.
    rewrite !elem_of_cons, elem_of_nil in Hin. by destruct Hin as [?|[?|[?|[?|?]]]]. }
  assert (Ha : StackList t ∈ mm_anchors t /\ ElfList t ∈ mm_anchors t /\
    ElfStackList t ∈ mm_anchors t /\ ElfImageList t ∈ mm_anchors t).
  { unfold mm_anchors. rewrite !elem_of_cons. tauto. }
  destruct Ha as (A1 & A2 & A3 & A4).
  set (k1 := with_stack_origin (page_id_to_va ks c) (with_stack_base (page_id_to_va ks c) k)).
  replace 262 with (260 + 2) in Hr1 by lia.
  destruct (alloc_page_table_ok 260 z1 s1 t k1 Hr1 ltac:(lia) (Hl1 _ A1) (Hl1 _ A2))
    as (s2 & z2 & E2 & Hr2 & Hc2 & He2 & L1 & L2 & F2 & P1 & P2 & O2).
  rewrite Hc1 in E2, Hc2, L1, L2, F2, P1, P2, O2. replace (c + 1 + 1) with (c + 2) in * by lia.
  replace (c + 1 + 2) with (c + 3) in * by lia. set (k2 := set_mm _ _) in E2.
  assert (Hmm : forall hd, hd ∈ [ElfStackList t; ElfImageList t] -> is_list s2.(plists) hd []).
  { intros hd Hin. apply (is_list_frame s1.(plists)).
    - intros x ->%list_elem_of_singleton. apply F2. rewrite !not_elem_of_cons.
      rewrite !elem_of_cons, elem_of_nil in Hin. destruct Hin as [->|[->|?]]; split_and!; (done || apply not_elem_of_nil).
    - apply Hl1. rewrite !elem_of_cons, elem_of_nil in Hin. by destruct Hin as [->|[->|?]]. }
  destruct (alloc_memory_and_map_ok z2 (with_pages s2 v) t k2 c Hr2 Hc2 ltac:(lia) eq_refl eq_refl P1 P2)
    as (v1 & v2 & z3 & E3 & Hr3 & Hc3 & M1 & M2).
  { apply Hmm. rewrite !elem_of_cons. tauto. } { apply Hmm. rewrite !elem_of_cons. tauto. } { done. }
  exists v2, z3. split; [|split; [done|split; [done|]]].
  - unfold alloc_memory_for_task, alloc_kernel_stack. rewrite Hk. cbn [Z.eqb negb].
    change (Z.shiftr KERNEL_STACK_SIZE PAGE_SHIFT) with 1. unfold get_free_page in E1. fold s. rewrite E1.
    rewrite !bind_Some_eq. cbn beta iota zeta. rewrite (proj2 (Z.eqb_neq (page_id_to_va ks c) 0)) by lia.
    change (truth 0) with false. cbn iota.
    change (flag _) with k.(flag). rewrite Hu. cbn [vm_pages with_pages].
    fold k1. rewrite E2, bind_Some_eq. cbn beta iota. change (truth 0) with false. cbn iota.
    replace (with_pages s2 (with_pages s1 v)) with (with_pages s2 v) by done.
    rewrite E3, bind_Some_eq. done.
  - apply (mapped_space z3 t c v (with_pages s2 v) v1 v2); try done; try lia.
    + cbn [vm_pages with_pages]. rewrite O2 by lia. done.
    + constructor; cbn [vm_pages vm_ram with_pages]; try done.
      * intros x Hx Hp. unfold mm_anchors in Hx. rewrite !not_elem_of_cons in Hx. rewrite F2.
        -- rewrite T3. apply fresh_other. intros i -> ->. by apply (Hp c); [lia|].
        -- rewrite !not_elem_of_cons. repeat split; try tauto; apply Hp; lia.
      * intros i Hi. rewrite O2 by lia. apply T2. lia.
Qed.

(** ** Switching to the task *)

Definition coarse_des (p j : Z) : Z := 2 ^ 10 * (u32 (p + j * 2 ^ 10) / 2 ^ 10) + 1.

(** The loop over a list of one table. *)
Lemma load_one_table s hd pg (body : node -> Z * mem -> option (Z * mem)) base b' m m' :
  is_list s.(plists) hd [PagePlist pg] -> body (PagePlist pg) (base, m) = Some (b', m') ->
  load_tables s hd body base m = Some m'.
Proof.
  intros Hl Hb. unfold load_tables. rewrite (is_list_first _ _ _ Hl), bind_Some_eq.
  destruct (list_for_each_inv (fun _ => s.(plists)) body (fun dn tn st =>
      dn ++ tn = [PagePlist pg] /\ st = match dn with [] => (base, m) | _ => (b', m') end)
    hd [PagePlist pg] (S (size s.(plists))) (base, m)) as (st & E & _ & ->).
  - by apply (is_list_nodup _ _ _ Hl).
  - by apply (is_list_size _ _ _ Hl).
  - done.
  - intros dn x tn st [Eq ->]. destruct dn as [|y dn]; [|by destruct dn].
    injection Eq as -> ->. exists (b', m'). split; [done|]. split; [|done].
    by apply (is_list_next _ hd [] _ []).
  - by rewrite E, bind_Some_eq.
Qed.

Lemma switch_task_ok cur t k v a b qa qb :
  cur <> 0 -> t <> 0 -> truth (k.(flag) &u PROCESS_TYPE_KERNEL) = false ->
  is_list v.(vm_pages).(plists) (StackList t) [PagePlist a] ->
  is_list v.(vm_pages).(plists) (ElfList t) [PagePlist b] ->
  page_to_pa a v.(vm_pages) = Some qa -> page_to_pa b v.(vm_pages) = Some qb ->
  0 <= qa < 2 ^ 32 -> 0 <= qb < 2 ^ 32 -> room v.(vm_ram) get_tlb_base FIRST_LEVEL ->
  exists m, switch_task cur t k v = Some (0, with_vm_ram m v) /\
    words_at m (get_tlb_base + 4 * (0x7fc00000 / 2 ^ 20)) 4 (coarse_des qa) /\
    words_at m (get_tlb_base + 4 * (PROCESS_USER_BASE / 2 ^ 20)) 4 (coarse_des qb) /\
    (forall x, ~ (get_tlb_base <= x < get_tlb_base + FIRST_LEVEL) -> m !! x = v.(vm_ram) !! x).
Proof.
  intros Hc Ht Hf Ls Le Qa Qb Ha Hb Hr. unfold FIRST_LEVEL in *.
  destruct (build_coarse_ok 0x7fc00000 qa 4 v.(vm_ram)) as (m1 & E1 & W1 & F1 & R1); try done; try lia.
  { change (0x7fc00000 / 2 ^ 20) with 2044. apply (room_le _ _ (4 * 4096)); [done|lia|lia]. }
  destruct (build_coarse_ok PROCESS_USER_BASE qb 4 m1) as (m2 & E2 & W2 & F2 & R2); try done; try lia.
  { change (PROCESS_USER_BASE / 2 ^ 20) with 4. apply R1. apply (room_le _ _ (4 * 4096)); [done|lia|lia]. }
  change (0x7fc00000 / 2 ^ 20) with 2044 in *. change (PROCESS_USER_BASE / 2 ^ 20) with 4 in *.
  change (4 * 2 ^ 20) with SIZE_4M in E1, E2.
  exists m2. split; [|split; [|split; [done|]]].
  - unfold switch_task. rewrite (proj2 (Z.eqb_neq cur 0)), (proj2 (Z.eqb_neq t 0)) by done.
    cbn [orb]. rewrite Hf.
    rewrite (load_one_table _ _ a _ _ (PROCESS_USER_STACK_BASE -u SIZE_4M) _ m1 Ls), bind_Some_eq.
    2: { unfold load_stack_body. cbn [plist_entry]. rewrite bind_Some_eq, Qa, bind_Some_eq.
         change (PROCESS_USER_STACK_BASE -u SIZE_4M) with 0x7fc00000. by rewrite E1, bind_Some_eq. }
    rewrite (load_one_table _ _ b _ _ (PROCESS_USER_BASE +u SIZE_4M) _ m2 Le), bind_Some_eq; [done|].
    unfold load_elf_body. cbn [plist_entry]. by rewrite bind_Some_eq, Qb, bind_Some_eq, E2, bind_Some_eq.
  - intros j Hj. rewrite (load32_frame _ m1); [by apply W1|]. intros x Hx. apply F2. lia.
  - intros x Hx. rewrite F2, F1; [done|lia|lia].
Qed.

(** A walk through the four coarse tables of a page-table page at [pt]. *)
Lemma walk_tables kva m va (u : Z) pt ptva q :
  u mod 2 ^ 20 = 0 -> u <= va < u + 4 * 2 ^ 20 ->
  0 <= pt < 2 ^ 32 -> pt mod 2 ^ 12 = 0 ->
  words_at m (get_tlb_base + 4 * (u / 2 ^ 20)) 4 (coarse_des pt) ->
  (forall j, 0 <= j < 4 -> kva (pt + j * 2 ^ 10) = ptva + j * 2 ^ 10) ->
  load32 (ptva + 4 * ((va - u) / 2 ^ 12)) m = Some (page_des q) -> q mod 2 ^ 12 = 0 ->
  mmu_walk kva m va = Some (q + va mod 2 ^ 12).
Proof.
  intros Hv Hr Hpt Hpta Hw Hk Hl Hq. set (j := (va - u) / 2 ^ 20).
  assert (Hj : 0 <= j < 4) by (unfold j; Z.to_euclidean_division_equations; lia).
  assert (E20 : va / 2 ^ 20 = u / 2 ^ 20 + j) by (by apply section_split; [|lia]).
  assert (E12 : (va - u) / 2 ^ 12 = 256 * j + (va / 2 ^ 12) mod 2 ^ 8).
  { unfold j. clear - Hv Hr. Z.to_euclidean_division_equations. lia. }
  assert (Hb : pt + 4096 <= 2 ^ 32) by (clear - Hpt Hpta; Z.to_euclidean_division_equations; lia).
  pose proof (Z.div_mod q (2 ^ 12)) as Eq.
  rewrite (walk_page kva m va (pt + j * 2 ^ 10) (q / 2 ^ 12)).
  - f_equal. lia.
  - rewrite E20. replace (get_tlb_base + 4 * (u / 2 ^ 20 + j)) with (get_tlb_base + 4 * (u / 2 ^ 20) + 4 * j) by lia.
    rewrite Hw by done. unfold coarse_des. by rewrite u32_small by lia.
  - clear - Hpta. Z.to_euclidean_division_equations. lia.
  - rewrite Hk by done. rewrite E12 in Hl.
    replace (ptva + j * 2 ^ 10 + 4 * ((va / 2 ^ 12) mod 2 ^ 8))
      with (ptva + 4 * (256 * j + (va / 2 ^ 12) mod 2 ^ 8)) by lia. done.
Qed.

(** The virtual address the kernel uses for a physical one. *)
Definition kernel_va (p : Z) : Z := p +u off.

Lemma pa_aligned i : off mod 4096 = 0 -> pa i mod 2 ^ 12 = 0 /\ 0 <= pa i < 2 ^ 32.
Proof.
  intros Ho. split; [|apply u32_range]. unfold pa, page_id_to_va, PAGE_SHIFT.
  rewrite Z.shiftl_mul_pow2, !u32_u32, u32_add_r, u32_sub_l by lia. unfold u32, wrap.
  rewrite Z.mod_mod_divide by (by exists (2 ^ 20)).
  clear - Halign Ho. Z.to_euclidean_division_equations. lia.
Qed.

Lemma kernel_va_pa n z s i j :
  run_from ks zone_mutex off o n z s -> 0 <= i < z.(bm_end) -> 0 <= j < 4 ->
  kernel_va (pa i + j * 2 ^ 10) = page_id_to_va ks i + j * 2 ^ 10.
Proof.
  intros Hr Hi Hj. destruct (run_va _ _ _ _ Hks _ _ _ i Hr Hi) as (Eva & _ & Hva).
  unfold kernel_va, pa. replace (u32 (page_id_to_va ks i - off) + j * 2 ^ 10 + off)
    with (u32 (page_id_to_va ks i - off) + (j * 2 ^ 10 + off)) by lia.
  rewrite u32_add_l. replace (page_id_to_va ks i - off + (j * 2 ^ 10 + off))
    with (page_id_to_va ks i + j * 2 ^ 10) by lia. apply u32_small. lia.
Qed.

(** What the processor sees of the address space of a task whose tables are loaded. *)
Definition sees_pages c m : Prop :=
  (forall va, PROCESS_USER_BASE <= va < PROCESS_USER_BASE + PROCESS_IMAGE_SIZE ->
     mmu_walk kernel_va m va =
       Some (pa (c + 7 + (va - PROCESS_USER_BASE) / PAGE_SIZE) + va mod PAGE_SIZE)) /\
  (forall va, PROCESS_USER_STACK_BASE - PROCESS_STACK_SIZE <= va < PROCESS_USER_STACK_BASE ->
     mmu_walk kernel_va m va =
       Some (pa (c + 3 + (PROCESS_USER_STACK_BASE - 1 - va) / PAGE_SIZE) + va mod PAGE_SIZE)).

(** Switching to a task with an address space loads exactly that address space. *)
Lemma switch_to_space n z cur t k v c :
  run_from ks zone_mutex off o n z v.(vm_pages) -> 0 < c -> c + 263 <= z.(bm_end) -> off mod 4096 = 0 ->
  cur <> 0 -> t <> 0 -> truth (k.(flag) &u PROCESS_TYPE_KERNEL) = false ->
  address_space t c v -> room v.(vm_ram) get_tlb_base FIRST_LEVEL ->
  get_tlb_base + FIRST_LEVEL <= ks + 4096 * (c + 1) ->
  exists m, switch_task cur t k v = Some (0, with_vm_ram m v) /\ sees_pages c m.
Proof.
  intros Hr Hc Hend Ho Hcur Ht Hf [As Ae _ _ Ap Aws Awi] Hroom Htlb.
  destruct (pa_aligned (c + 1) Ho) as [P1 P1']. destruct (pa_aligned (c + 2) Ho) as [P2 P2'].
  destruct (run_va _ _ _ _ Hks _ _ _ (c + 1) Hr ltac:(lia)) as (Eva1 & _ & Hva1).
  destruct (run_va _ _ _ _ Hks _ _ _ (c + 2) Hr ltac:(lia)) as (Eva2 & _ & Hva2).
  destruct (switch_task_ok cur t k v (c + 1) (c + 2) (pa (c + 1)) (pa (c + 2)))
    as (m & E & Ws & We & Hm); try done; try (apply single_page_pa, Ap; lia).
  exists m. split; [done|]. split; intros va Hva.
  - change PROCESS_IMAGE_SIZE with (2 ^ 20) in Hva. change PAGE_SIZE with (2 ^ 12).
    set (j := (va - PROCESS_USER_BASE) / 2 ^ 12).
    assert (Hj : 0 <= j < 256) by (unfold j; Z.to_euclidean_division_equations; lia).
    destruct (pa_aligned (c + 7 + j) Ho) as [Pj _].
    apply (walk_tables _ m va PROCESS_USER_BASE (pa (c + 2)) (page_id_to_va ks (c + 2))); try done; try lia.
    + intros q Hq. apply (kernel_va_pa n z v.(vm_pages)); [done|lia|done].
    + fold j. rewrite (load32_frame _ v.(vm_ram)); [by apply Awi|]. intros x Hx. apply Hm. lia.
  - change PROCESS_STACK_SIZE with (4 * 2 ^ 12) in Hva. change PAGE_SIZE with (2 ^ 12).
    change PROCESS_USER_STACK_BASE with (0x7fc00000 + 4 * 2 ^ 20) in *.
    set (j := (0x7fc00000 + 4 * 2 ^ 20 - 1 - va) / 2 ^ 12).
    assert (Hj : 0 <= j < 4) by (unfold j; Z.to_euclidean_division_equations; lia).
    assert (Ej : 4 * ((va - 0x7fc00000) / 2 ^ 12) = 4092 - 4 * j).
    { unfold j. Z.to_euclidean_division_equations. lia. }
    destruct (pa_aligned (c + 3 + j) Ho) as [Pj _].
    apply (walk_tables _ m va 0x7fc00000 (pa (c + 1)) (page_id_to_va ks (c + 1))); try done; try lia.
    + intros q Hq. apply (kernel_va_pa n z v.(vm_pages)); [done|lia|done].
    + rewrite Ej, (load32_frame _ v.(vm_ram)).
      * rewrite Z.add_sub_assoc. by apply Aws.
      * intros x Hx. apply Hm. lia.
Qed.
End address_space.

(** C7. A new user task sees its own pages.  When the normal zone has 263 free pages
    at its search position, [alloc_memory_for_task] succeeds and takes exactly these
    pages (kernel stack, two page tables, four stack pages and 256 image pages), and
    after a [switch_task] to the task the walk of the architecture translates every
    address of the megabyte at [PROCESS_USER_BASE] and of the sixteen kilobytes below
    [PROCESS_USER_STACK_BASE] to its page: the image upwards, the stack downwards.
    The lists of other tasks, the other pages and all memory outside the two tables
    are left alone. *)
Theorem new_task_sees_its_pages {L : Type} {LC : LockCalls L} {LO : LockOps L} (ks : Z) (zone_mutex : Z -> Z) (off : Z)
    (z : mm_zone) (v : vm L) (t cur : Z) (k : task_struct) (c : Z)
    (Hks : 0 < ks < 2 ^ 32) (Halign : ks mod 4096 = 0) (Hoff : off mod 4096 = 0)
    (Hr : run_ready ks zone_mutex off 263 z v.(vm_pages)) (Hc : c = z.(bm_current))
    (Hk : k.(stack_base) = 0) (Hcur : cur <> 0) (Ht : t <> 0)
    (Hu : truth (k.(flag) &u PROCESS_TYPE_USER) = true)
    (Hn : truth (k.(flag) &u PROCESS_TYPE_KERNEL) = false)
    (Hl : forall hd, hd ∈ mm_anchors t -> is_list v.(vm_pages).(plists) hd [])
    (Hroom : room v.(vm_ram) (page_id_to_va ks (c + 1)) 8192)
    (Htlb : room v.(vm_ram) get_tlb_base FIRST_LEVEL)
    (Hdisj : get_tlb_base + FIRST_LEVEL <= ks + 4096 * (c + 1)) :
  exists v1 m, alloc_memory_for_task ks zone_mutex t k v = Some (0, with_memory ks c k, v1) /\
    address_space ks off t c v1 /\ memory_frame ks t c v v1 /\
    switch_task cur t (with_memory ks c k) v1 = Some (0, with_vm_ram m v1) /\
    sees_pages ks off c m.
Proof.
  subst c. pose proof (zr_bounds _ _ _ _ (rr_ready _ _ _ _ _ _ _ Hr)) as Hb.
  pose proof (rr_cur _ _ _ _ _ _ _ Hr) as Hcu.
  destruct (alloc_memory_for_task_ok ks zone_mutex off _ Hks Halign z v t k Hr Hk Hu Hl Hroom)
    as (v1 & z1 & E & Hr1 & Hz1 & Ha & Hf).
  pose proof (rr_cur _ _ _ _ _ _ _ Hr1) as Hcu1.
  destruct (switch_to_space ks zone_mutex off _ Hks Halign 0 z1 cur t (with_memory ks z.(bm_current) k) v1
    z.(bm_current) Hr1) as (m & Es & Hs); try done; try lia.
  { by apply (mf_room _ _ _ _ _ Hf). }
  exists v1, m. split; [done|]. split; [done|]. split; [done|]. by split.
Qed.

(** ** A machine with a megabyte of normal memory more than a task needs *)

Definition space_zone : mm_zone :=
  Mk_zone [Mk_section 0x30000000 0x80000000 0x200000 0x50000000 1] 1 0x200000 0x1f8000 512 504 0 511 8.

Definition bare_zone : mm_zone := Mk_zone [] 0 0 0 0 0 0 0 0.

Definition space_bank : mm_bank :=
  Mk_bank 0x200000 512 1 [space_zone; bare_zone; bare_zone; bare_zone].

Definition space_task : Z := 0x80001000.

Definition space_lists : lheap node :=
  init_list (ElfImageList space_task) (init_list (ElfStackList space_task)
    (init_list (ElfList space_task) (init_list (StackList space_task) ∅))).

Definition space_ram : mem :=
  write get_tlb_base (replicate (Z.to_nat FIRST_LEVEL) 0)
    (write 0x80009000 (replicate (Z.to_nat 8192) 0) ∅).

Definition space : vm unit :=
  Mk_vm (Mk_mm space_bank (replicate (Z.to_nat 520) blank_page) (replicate (Z.to_nat 17) 0)
           space_lists tt) space_ram.

Definition space_struct : task_struct :=
  Mk_task 0 0 [] PROCESS_TYPE_USER 5 0 PROCESS_STATE_UNKNOWN PROCESS_STATE_UNKNOWN 0 0
    (Mk_mm_struct 0 0 None None) 0 0 0 0 0 20 20 0.

Lemma one_section_offset {L : Type} (s : mm_state L) zn va :
  get_zone 0 s = Some zn -> zn.(memory_section) = space_zone.(memory_section) -> zn.(nr_section) = 1 ->
  0x80000000 <= va < 0x80200000 -> va_get_pv_offset va s = Some 0x50000000.
Proof.
  intros Hz Hm Hn Hva. unfold va_get_pv_offset. cbn [zone_loop]. change (Z.ltb 0 MM_ZONE_UNKNOW) with true.
  cbn iota. rewrite Hz, bind_Some_eq, Hn. change (S (Z.to_nat 1)) with 2%nat.
  cbn [section_loop]. rewrite Hn, Hm. change (Z.ltb 0 1) with true. cbn iota.
  change (aget (memory_section space_zone) 0) with
    (Some (Mk_section 0x30000000 0x80000000 0x200000 0x50000000 1)). rewrite bind_Some_eq.
  unfold in_va. cbn [vir_start sec_size]. change (0x80000000 +u 0x200000) with 0x80200000.
  rewrite (proj2 (Z.leb_le 0x80000000 va)), (proj2 (Z.leb_le va 0x80200000)) by lia. done.
Qed.

Lemma space_offset (s : mm_state unit) va :
  s.(bank) = space_bank -> 0x80000000 <= va < 0x80200000 -> va_get_pv_offset va s = Some 0x50000000.
Proof. intros Hb. apply (one_section_offset s space_zone); [|done|done]. unfold get_zone. by rewrite Hb. Qed.

Lemma space_ready : run_ready 0x80000000 (fun _ => 0) 0x50000000 263
  space_zone space.(vm_pages).
Proof.
  constructor; try (simpl; lia).
  - constructor; try done; try (simpl; lia).
    + change (page_map (vm_pages space)) with (replicate (Z.to_nat 17) 0).
      split; [apply Forall_replicate; unfold is_u32; lia|rewrite length_replicate; simpl; lia].
    + split; [done|]. intros i z Hz. unfold get_zone in Hz. pose proof (aget_lt _ _ _ Hz) as Hlt.
      simpl in Hlt. assert (Ei : i = 0 \/ i = 1 \/ i = 2 \/ i = 3) by lia.
      destruct Ei as [->|[->|[->| ->]]]; injection Hz as <-; simpl; lia.
  - intros j Hj. apply bit_at_zeros.
  - intros j Hj. simpl in Hj. apply space_offset; [done|]. unfold page_id_to_va, PAGE_SHIFT.
    rewrite Z.shiftl_mul_pow2, u32_u32, u32_add_r, u32_small by lia. lia.
  - done.
Qed.

Lemma space_anchors hd : hd ∈ mm_anchors space_task -> is_list space_lists hd [].
Proof.
  intros Hin. unfold mm_anchors in Hin. rewrite !elem_of_cons, elem_of_nil in Hin.
  unfold space_lists. destruct Hin as [->|[->|[->|[->|[]]]]]; apply linked_self_empty;
    repeat first [by (apply linked_self_init; right) | apply linked_self_init; left].
Qed.

Lemma space_room : room space_ram get_tlb_base FIRST_LEVEL /\ room space_ram 0x80009000 8192.
Proof.
  split.
  - intros i Hi. apply (room_write_self get_tlb_base (replicate (Z.to_nat FIRST_LEVEL) 0)).
    rewrite length_replicate. unfold FIRST_LEVEL in *. lia.
  - apply room_write. intros i Hi. apply (room_write_self 0x80009000 (replicate (Z.to_nat 8192) 0)).
    rewrite length_replicate. lia.
Qed.

Lemma new_task_sees_its_pages_witness :
  exists v1 m, alloc_memory_for_task 0x80000000 (fun _ => 0) space_task space_struct space =
      Some (0, with_memory 0x80000000 8 space_struct, v1) /\
    switch_task 1 space_task (with_memory 0x80000000 8 space_struct) v1 = Some (0, with_vm_ram m v1) /\
    sees_pages 0x80000000 0x50000000 8 m.
Proof.
  destruct (new_task_sees_its_pages 0x80000000 (fun _ => 0) 0x50000000 space_zone
    space space_task 1 space_struct 8 ltac:(lia) eq_refl eq_refl space_ready eq_refl eq_refl
    ltac:(lia) ltac:(unfold space_task; lia) eq_refl eq_refl space_anchors (proj2 space_room)
    (proj1 space_room) ltac:(unfold get_tlb_base, arch_get_tlb_base, KERNEL_BASE_ADDRESS, FIRST_LEVEL; lia))
    as (v1 & m & E & _ & _ & Es & Hs).
  exists v1, m. split; [exact E|]. split; [exact Es|exact Hs].
Defined.
