(* ===== verification/TaskLoad.v ===== *)
(** * Loading a program

    Models [load_elf_section] and [load_elf_image] of [kernel/task.c] on the state of
    [Elf], whose allocator is the slab allocator: the image pages of the task are on a
    list of the page heap, and the sections are read from the ram disk straight into
    them.  The theorem places every byte of a section at its load address. *)

From S2P Require Import Prelude ListHead TaskStruct Bitops Mem CString MmTypes Pages Slab Ramdisk.
From S2P Require Import Regs Elf ElfThms TaskMem TaskMemInv.

Definition EIO : Z := 5.

(** [".bss"]. *)
Definition BSS : list Z := [46; 98; 115; 115].

(** [strncmp(section->name, ".bss", 4)] finds no difference. *)
Definition is_bss (x : elf_section) : bool := bool_decide (take 4 (x.(s_name) ++ replicate 4 0) = BSS).

Section load.
Context {L : Type}.
Implicit Types (s : elf_sys (slab_state L)) (x : elf_section) (t fp k j : Z).

Definition image_pages_of s : mm_state L := s.(disk).(alloc).(mm).

(** The [do ... while (k > 0)] loop; the number of bytes read is only compared with 0. *)
Fixpoint load_chunks (fuel : nat) x fp (list : node) k j s : option (Z * elf_sys (slab_state L)) :=
  match fuel with
  | O => None
  | S fuel' =>
      pg ← plist_entry list;
      p ← get_page_struct pg (image_pages_of s);
      let base_addr := p.(free_base) +u j in
      let j := if Z.leb PAGE_SIZE k then PAGE_SIZE - j else k in
      '(i, s) ← (if negb (is_bss x) then fs_read fp base_addr j s
                 else m ← memset base_addr 0 j s.(ram); Some (0, with_ram m s));
      if Z.ltb i 0 then Some (- EIO, s)
      else
        list ← list_next (image_pages_of s).(plists) list;
        if Z.ltb 0 (k - j) then load_chunks fuel' x fp list (k - j) 0 s else Some (0, s)
  end.

Definition load_elf_section x fp t (ms : mm_struct_t) s
  : option (Z * mm_struct_t * elf_sys (slab_state L)) :=
  if Z.ltb x.(s_load_addr) 0x00401000 || Z.eqb x.(s_size) 0 then Some (- EINVAL, ms, s)
  else
    let base := x.(s_load_addr) - PROCESS_USER_BASE in
    let i := Z.shiftr base PAGE_SHIFT in
    let j := base mod PAGE_SIZE in
    list ← for_range (Z.to_nat (i + 1)) 0 (fun _ n => list_next (image_pages_of s).(plists) n) (ElfImageList t);
    let k := s32 x.(s_size) in
    let ms := with_elf_size (s32 (ms.(elf_size) + k)) ms in
    '(_, s) ← fs_seek fp x.(s_offset) s;
    '(r, s) ← load_chunks (S (Z.to_nat k)) x fp list k j s;
    Some (r, ms, s).

Fixpoint load_sections (fuel : nat) (section fp t : Z) (ms : mm_struct_t) s
  : option (Z * mm_struct_t * elf_sys (slab_state L)) :=
  match fuel with
  | O => None
  | S fuel' =>
      if Z.eqb section 0 then Some (0, ms, s)
      else
        x ← s.(sections) !! section;
        '(ret, ms, s) ← load_elf_section x fp t ms s;
        if truth ret then Some (ret, ms, s) else load_sections fuel' x.(s_next) fp t ms s
  end.

(** [elf] is dereferenced before it is compared with null. *)
Definition load_elf_image t fp elf (ms : mm_struct_t) s
  : option (Z * mm_struct_t * elf_sys (slab_state L)) :=
  e ← s.(elf_files) !! elf;
  if Z.eqb t 0 || Z.eqb fp 0 || Z.eqb elf 0 then Some (- ENOENT, ms, s)
  else load_sections (S (size s.(sections))) e.(head) fp t (with_elf_size 0 ms) s.
End load.

(** ** The image as an array *)

Section image.
Context {L : Type}.
Implicit Types (s : elf_sys (slab_state L)) (x : elf_section) (t fp k j : Z).

(** The pages [imgs] of an image start at the addresses [B 0], [B 1], ... *)
Variable imgs : list Z.
Variable B : Z -> Z.

(** The address of byte [o] of the image. *)
Definition image_at (o : Z) : Z := B (o / 4096) + o mod 4096.

Lemma image_at_page n q : 0 <= q < 4096 -> image_at (4096 * n + q) = B n + q.
Proof.
  intros Hq. unfold image_at. replace (4096 * n + q) with (q + n * 4096) by lia.
  rewrite Z.div_add, Z.mod_add by lia.
  by rewrite Z.div_small, Z.mod_small by lia.
Qed.

(** The pages are on the list of the task, their structures hold their addresses, they
    do not overlap each other or the [len] bytes of the file at [fbase]. *)
Record image_of t fbase len s : Prop := {
  io_list : is_list (image_pages_of s).(plists) (ElfImageList t) (plist imgs);
  io_base : forall n i, imgs !! n = Some i ->
    exists p, get_page_struct i (image_pages_of s) = Some p /\ p.(free_base) = B (Z.of_nat n);
  io_range : forall n, 0 <= n < Z.of_nat (length imgs) -> 0 <= B n /\ B n + 4096 <= 2 ^ 32;
  io_room : forall n, 0 <= n < Z.of_nat (length imgs) -> room s.(ram) (B n) 4096;
  io_apart : forall n n', 0 <= n < Z.of_nat (length imgs) -> 0 <= n' < Z.of_nat (length imgs) ->
    n <> n' -> disjoint (B n) 4096 (B n') 4096;
  io_file : forall n, 0 <= n < Z.of_nat (length imgs) -> disjoint (B n) 4096 fbase len;
  io_word : forall n, 0 <= n < Z.of_nat (length imgs) -> B n mod 4 = 0
}.

Lemma image_of_same t fbase len s s' :
  same_objects s s' -> (forall b n, room s.(ram) b n -> room s'.(ram) b n) ->
  image_of t fbase len s -> image_of t fbase len s'.
Proof.
  intros (Ea & _ & _) Hr [H1 H2 H3 H4 H5 H6].
  constructor; try done; unfold image_pages_of in *; try (by rewrite Ea). intros n Hn. by apply Hr, H4.
Qed.

(** The bytes of an image that a load of [data] at offset [o] leaves. *)
Record loaded (o : Z) (data : list Z) (m m' : mem) : Prop := {
  ld_bytes : forall q c, data !! q = Some c -> m' !! image_at (o + Z.of_nat q) = Some c;
  ld_frame : forall a, (forall q, 0 <= q < Z.of_nat (length data) -> a <> image_at (o + q)) ->
    m' !! a = m !! a
}.

Lemma image_at_inj t fbase len s o o' :
  image_of t fbase len s -> 0 <= o < 4096 * Z.of_nat (length imgs) ->
  0 <= o' < 4096 * Z.of_nat (length imgs) -> image_at o = image_at o' -> o = o'.
Proof.
  intros Hi Ho Ho' E. pose proof (Z.div_mod o 4096) as E1. pose proof (Z.div_mod o' 4096) as E2.
  pose proof (Z.mod_pos_bound o 4096). pose proof (Z.mod_pos_bound o' 4096). unfold image_at in E.
  assert (Hd : forall a, 0 <= a < 4096 * Z.of_nat (length imgs) -> 0 <= a / 4096 < Z.of_nat (length imgs)).
  { intros a Ha. split; [apply Z.div_pos; lia|]. apply Z.div_lt_upper_bound; lia. }
  pose proof (Hd o Ho) as D1. pose proof (Hd o' Ho') as D2.
  destruct (decide (o / 4096 = o' / 4096)) as [Eq|Hne]; [rewrite Eq in *; lia|].
  pose proof (io_apart _ _ _ _ Hi _ _ D1 D2 Hne) as Hap. unfold disjoint in Hap. lia.
Qed.

(** Two loads, one after the other. *)
Lemma loaded_app t fbase len s o d1 d2 m m1 m2 :
  image_of t fbase len s -> 0 <= o ->
  o + Z.of_nat (length d1) + Z.of_nat (length d2) <= 4096 * Z.of_nat (length imgs) ->
  loaded o d1 m m1 -> loaded (o + Z.of_nat (length d1)) d2 m1 m2 -> loaded o (d1 ++ d2) m m2.
Proof.
  intros Hi Ho Hlen [B1 F1] [B2 F2]. constructor.
  - intros q c Hq. apply lookup_app_Some in Hq as [Hq|[Hge Hq]].
    + pose proof (lookup_lt_Some _ _ _ Hq). rewrite F2; [by apply B1|]. intros q' Hq' E.
      apply (image_at_inj _ _ _ _ _ _ Hi) in E; lia.
    + rewrite <- (B2 _ _ Hq). f_equal. f_equal. lia.
  - intros a Ha. rewrite length_app in Ha. rewrite F2, F1; [done| |].
    + intros q Hq. apply Ha. lia.
    + intros q Hq. rewrite <- Z.add_assoc. apply Ha. lia.
Qed.

(** A write inside one page. *)
Lemma loaded_write n j data m :
  0 <= j -> j + Z.of_nat (length data) <= 4096 ->
  loaded (4096 * n + j) data m (write (B n + j) data m).
Proof.
  intros Hj Hl. constructor.
  - intros q c Hq. pose proof (lookup_lt_Some _ _ _ Hq) as Hlt. rewrite <- Z.add_assoc, image_at_page by lia.
    rewrite Z.add_assoc. by apply lookup_write_in.
  - intros a Ha. apply lookup_write_out. intros Hin. apply (Ha (a - B n - j)); [lia|].
    rewrite <- Z.add_assoc, image_at_page by lia. lia.
Qed.
End image.

(** ** Loading a section *)

(** The bytes a section of [k] bytes should have when the file is at [pos]. *)
Definition section_data (x : elf_section) (l : list Z) (pos k : Z) : list Z :=
  if is_bss x then replicate (Z.to_nat k) 0 else chunk l pos k.

Lemma section_data_split x l pos c k :
  0 <= pos -> 0 <= c <= k -> (is_bss x = false -> pos + k <= Z.of_nat (length l)) ->
  section_data x l pos k = section_data x l pos c ++ section_data x l (pos + c) (k - c) /\
  Z.of_nat (length (section_data x l pos k)) = k.
Proof.
  intros Hp Hc Hk. unfold section_data. destruct (is_bss x).
  - rewrite <- replicate_add, length_replicate. split; [f_equal; lia|lia].
  - specialize (Hk eq_refl). pose proof (length_chunk l pos c ltac:(lia) ltac:(lia)) as Hl.
    rewrite Z.min_l in Hl by lia. split; [|rewrite length_chunk; lia].
    rewrite <- Hl at 2. rewrite chunk_app by lia. f_equal. lia.
Qed.

Section load_thms.
Context {L : Type} (imgs : list Z) (B : Z -> Z) (t fp fbase : Z) (l : list Z).
Hypothesis Hfp : fp <> 0.
Hypothesis Hfile : 0 <= fbase /\ fbase + Z.of_nat (length l) + 4096 < 2 ^ 32 /\ Z.of_nat (length l) < 2 ^ 31.
Implicit Types (s : elf_sys (slab_state L)) (x : elf_section) (k j pos : Z).

Abbreviation image := (image_of imgs B t fbase (Z.of_nat (length l))).

Lemma next_image_page n i s :
  image s -> imgs !! n = Some i ->
  exists nx, list_next (image_pages_of s).(plists) (PagePlist i) = Some nx /\
    forall i', imgs !! S n = Some i' -> nx = PagePlist i'.
Proof.
  intros Hi Hn. pose proof (io_list _ _ _ _ _ _ Hi) as Hl. rewrite <- (take_drop_middle imgs n i Hn) in Hl.
  rewrite fmap_app, fmap_cons in Hl. apply is_list_next in Hl. eexists. split; [done|].
  intros i' Hi'. rewrite (drop_S _ _ _ Hi'). done.
Qed.

(** One round of the loop: the chunk goes to the page, or is cleared there. *)
Lemma load_chunk_ok x (b c pos : Z) s :
  open_at s fp l fbase pos -> 0 <= c <= 4096 -> (is_bss x = false -> pos + c <= Z.of_nat (length l)) ->
  room s.(ram) b c -> disjoint b c fbase (Z.of_nat (length l)) ->
  (is_bss x = false -> copies b (fbase + pos) c) ->
  exists s' i pos', (if negb (is_bss x) then fs_read fp b c s
      else m ← memset b 0 c s.(ram); Some (0, with_ram m s)) = Some (i, s') /\ 0 <= i /\
    same_objects s s' /\ s'.(ram) = write b (section_data x l pos c) s.(ram) /\
    open_at s' fp l fbase pos' /\ (is_bss x = false -> pos' = pos + c).
Proof.
  intros Hop Hc Hfit Hr Hd Hcp. unfold section_data. destruct (is_bss x) eqn:Ebss; cbn [negb].
  - rewrite memset_ok by done. rewrite bind_Some_eq. eexists _, 0, pos. split; [reflexivity|].
    split; [lia|]. split; [done|]. split; [done|]. split; [|done]. destruct Hop as (f & Hf & Eb & Ha).
    exists f. split; [done|]. split; [done|]. destruct Ha as [A1 A2 A3 A4 A5 A6]. constructor; try done.
    intros q y Hq. cbn [ram with_ram]. pose proof (lookup_lt_Some _ _ _ Hq). rewrite lookup_write_out; [by apply A1|].
    rewrite length_replicate, Eb. unfold disjoint in Hd. lia.
  - assert (Hlc : Z.of_nat (length (chunk l pos c)) = c).
    { destruct Hop as (f & _ & _ & Ha). destruct (fa_pos _ _ _ _ Ha) as [? ?].
      specialize (Hfit eq_refl). rewrite length_chunk by lia. lia. }
    destruct (fs_read_ok fp b c s l fbase pos Hop) as (s' & E & Er & Hs & Hop' & _); try done; try lia.
    { rewrite Hlc. by apply Hcp. }
    exists s', (Z.of_nat (length (chunk l pos c))), (pos + Z.of_nat (length (chunk l pos c))).
    split; [done|]. split; [lia|]. split; [done|]. split; [done|]. split; [done|]. intros _. by rewrite Hlc.
Qed.

Lemma load_chunks_ok x fuel : forall n i j k pos s,
  (Z.to_nat k <= fuel)%nat -> 0 < k -> 0 <= j < 4096 -> (k < 4096 -> j + k <= 4096) ->
  imgs !! n = Some i -> 4096 * Z.of_nat n + j + k <= 4096 * Z.of_nat (length imgs) ->
  image s -> open_at s fp l fbase pos -> (is_bss x = false -> pos + k <= Z.of_nat (length l)) ->
  (is_bss x = false -> j mod 4 = 0) ->
  exists s', load_chunks fuel x fp (PagePlist i) k j s = Some (0, s') /\ same_objects s s' /\
    (forall b q, room s.(ram) b q -> room s'.(ram) b q) /\ (exists pos', open_at s' fp l fbase pos') /\
    loaded B (4096 * Z.of_nat n + j) (section_data x l pos k) s.(ram) s'.(ram).
Proof.
  induction fuel as [|fuel IH]; intros n i j k pos s Hfuel Hk Hj Hjk Hn Hlen Hi Hop Hfit Hw; [lia|].
  set (c := if Z.leb 4096 k then 4096 - j else k).
  assert (Hc : 0 < c <= k /\ j + c <= 4096).
  { unfold c. destruct (Z.leb_spec 4096 k); lia. }
  assert (Hnlt : 0 <= Z.of_nat n < Z.of_nat (length imgs)) by (apply lookup_lt_Some in Hn; lia).
  destruct (io_base _ _ _ _ _ _ Hi n i Hn) as (p & Hp & Eb).
  pose proof (io_range _ _ _ _ _ _ Hi _ Hnlt) as Hrg. pose proof (io_file _ _ _ _ _ _ Hi _ Hnlt) as Hdj.
  pose proof Hop as (f & _ & _ & Ha). pose proof (fa_pos _ _ _ _ Ha) as Hpos.
  destruct (load_chunk_ok x (B (Z.of_nat n) + j) c pos s Hop) as (s1 & r & pos1 & E1 & Hr & Hs1 & Er1 & Hop1 & Ep1);
    [lia|intros Hb; specialize (Hfit Hb); lia| |unfold disjoint in *; lia| |].
  2: { intros Hb. apply copies_aligned. pose proof (io_word _ _ _ _ _ _ Hi _ Hnlt). specialize (Hw Hb).
       Z.to_euclidean_division_equations. lia. }
  { apply (room_le _ _ 4096); [by apply (io_room _ _ _ _ _ _ Hi)|lia|lia]. }
  destruct (section_data_split x l pos c k) as [Esplit Elen]; [lia|lia|done|].
  assert (Elenc : Z.of_nat (length (section_data x l pos c)) = c).
  { apply (section_data_split x l pos c c); [lia|lia|]. intros Hb. specialize (Hfit Hb). lia. }
  assert (Hroom1 : forall b q, room s.(ram) b q -> room s1.(ram) b q) by (intros; rewrite Er1; by apply room_write).
  pose proof (image_of_same _ _ _ _ _ _ _ Hs1 Hroom1 Hi) as Hi1.
  assert (Hl1 : loaded B (4096 * Z.of_nat n + j) (section_data x l pos c) s.(ram) s1.(ram)).
  { rewrite Er1. apply loaded_write; lia. }
  destruct (next_image_page n i s1 Hi1 Hn) as (nx & En & Hnx).
  cbn [load_chunks plist_entry]. rewrite bind_Some_eq, Hp, bind_Some_eq. cbv zeta.
  rewrite Eb, u32_small by lia. change PAGE_SIZE with 4096. fold c. rewrite E1, bind_Some_eq. cbn beta iota.
  rewrite (proj2 (Z.ltb_ge r 0)) by lia. rewrite En, bind_Some_eq.
  destruct (Z.ltb_spec 0 (k - c)) as [Hmore|Hdone].
  - assert (Ec : c = 4096 - j) by (unfold c in *; destruct (Z.leb_spec 4096 k); lia).
    destruct (lookup_lt_is_Some_2 imgs (S n)) as [i' Hi']; [lia|]. rewrite (Hnx i' Hi').
    destruct (IH (S n) i' 0 (k - c) pos1 s1) as (s2 & E2 & Hs2 & Hr2 & Hop2 & Hl2); try done; try lia.
    { intros Hb. rewrite (Ep1 Hb). specialize (Hfit Hb). lia. }
    exists s2. split; [done|]. split; [|split; [|split; [done|]]].
    + destruct Hs1 as (? & ? & ?), Hs2 as (? & ? & ?). repeat split; congruence.
    + intros b q Hb. by apply Hr2, Hroom1.
    + rewrite Esplit. apply (loaded_app imgs B t fbase (Z.of_nat (length l)) s _ _ _ _ s1.(ram)); try done; try lia.
      * assert (Z.of_nat (length (section_data x l (pos + c) (k - c))) = k - c); [|lia].
        rewrite Esplit, length_app in Elen. lia.
      * rewrite Elenc. replace (4096 * Z.of_nat n + j + c) with (4096 * Z.of_nat (S n) + 0) by lia.
        replace (section_data x l (pos + c) (k - c)) with (section_data x l pos1 (k - c)); [done|].
        unfold section_data. destruct (is_bss x) eqn:Eb'; [done|]. by rewrite Ep1.
  - exists s1. split; [done|]. split; [done|]. split; [done|]. split; [by exists pos1|].
    assert (Ek : c = k) by lia. by rewrite <- Ek.
Qed.

(** The node of page [n] of the image. *)
Lemma walk_image s n i :
  image s -> imgs !! n = Some i ->
  for_range (S n) 0 (fun _ nd => list_next (image_pages_of s).(plists) nd) (ElfImageList t) = Some (PagePlist i).
Proof.
  intros Hi Hn. pose proof (io_list _ _ _ _ _ _ Hi) as Hl.
  destruct (for_range_inv (fun q nd => 0 <= q /\ nd = match Z.to_nat q with
      | O => ElfImageList t
      | S q' => match imgs !! q' with Some i => PagePlist i | None => ElfImageList t end end)
    (S n) 0 (fun _ nd => list_next (image_pages_of s).(plists) nd) (ElfImageList t)) as (nd & E & _ & ->).
  - done.
  - intros q nd Hq [H0 ->].
    assert (Hnext : forall q', (q' < S n)%nat -> exists nx,
      list_next (image_pages_of s).(plists) (match q' with
        | O => ElfImageList t
        | S p => match imgs !! p with Some i => PagePlist i | None => ElfImageList t end end) = Some nx /\
      nx = match imgs !! q' with Some i => PagePlist i | None => ElfImageList t end).
    { intros q' Hq'. destruct q' as [|p].
      - rewrite (is_list_first _ _ _ Hl). eexists. split; [done|]. by destruct imgs.
      - destruct (lookup_lt_is_Some_2 imgs p) as [ip Hip]; [apply lookup_lt_Some in Hn; lia|].
        destruct (lookup_lt_is_Some_2 imgs (S p)) as [iq Hiq]; [apply lookup_lt_Some in Hn; lia|].
        rewrite Hip, Hiq. destruct (next_image_page p ip s Hi Hip) as (nx & En & Hnx).
        exists nx. split; [done|]. by apply Hnx. }
    destruct (Hnext (Z.to_nat q)) as (nx & En & ->); [lia|]. rewrite En. eexists. split; [done|].
    split; [lia|]. by rewrite Z2Nat.inj_add by lia; rewrite Nat.add_1_r.
  - rewrite E, Z.add_0_l, Nat2Z.id. by rewrite Hn.
Qed.

(** What [load_elf_section] needs of a section. *)
Record section_fits x : Prop := {
  sf_addr : 0x00401000 <= x.(s_load_addr);
  sf_size : 0 < x.(s_size) < 2 ^ 31;
  sf_end : x.(s_load_addr) - PROCESS_USER_BASE + x.(s_size) <= 4096 * Z.of_nat (length imgs);
  sf_page : x.(s_size) < 4096 -> (x.(s_load_addr) - PROCESS_USER_BASE) mod 4096 + x.(s_size) <= 4096;
  sf_word : is_bss x = false -> x.(s_load_addr) mod 4 = 0;
  sf_offset : 0 <= x.(s_offset) <= Z.of_nat (length l);
  sf_file : is_bss x = false -> x.(s_offset) + x.(s_size) <= Z.of_nat (length l)
}.

Lemma load_elf_section_ok x s ms pos :
  image s -> open_at s fp l fbase pos -> section_fits x ->
  exists s', load_elf_section x fp t ms s =
      Some (0, with_elf_size (s32 (ms.(elf_size) + x.(s_size))) ms, s') /\ same_objects s s' /\
    (forall b q, room s.(ram) b q -> room s'.(ram) b q) /\ (exists pos', open_at s' fp l fbase pos') /\
    loaded B (x.(s_load_addr) - PROCESS_USER_BASE) (section_data x l x.(s_offset) x.(s_size)) s.(ram) s'.(ram).
Proof.
  intros Hi Hop [Ha Hs He Hpg Hw Ho Hf]. unfold PROCESS_USER_BASE in *.
  set (o := x.(s_load_addr) - 0x00400000) in *.
  pose proof (Z.div_mod o 4096) as Ed. pose proof (Z.mod_pos_bound o 4096) as Hm.
  assert (Hd : 0 <= o / 4096 < Z.of_nat (length imgs)).
  { split; [apply Z.div_pos; lia|]. apply Z.div_lt_upper_bound; lia. }
  destruct (lookup_lt_is_Some_2 imgs (Z.to_nat (o / 4096))) as [i Hn]; [lia|].
  destruct (fs_seek_ok fp x.(s_offset) s l fbase pos Hop) as (s1 & E1 & Er1 & Hs1 & Hop1); [done|done|lia|].
  assert (Hi1 : image s1).
  { apply (image_of_same _ _ _ _ _ s); [done|by rewrite Er1|done]. }
  destruct (load_chunks_ok x (S (Z.to_nat x.(s_size))) (Z.to_nat (o / 4096)) i (o mod 4096) x.(s_size) x.(s_offset) s1)
    as (s2 & E2 & Hs2 & Hr2 & Hop2 & Hl2); try done; try lia.
  { intros Hb. specialize (Hw Hb). unfold o. Z.to_euclidean_division_equations. lia. }
  rewrite Z2Nat.id in Hl2 by lia. replace (4096 * (o / 4096) + o mod 4096) with o in Hl2 by lia.
  exists s2. split; [|split; [|split; [|split; [done|by rewrite Er1 in Hl2]]]].
  - unfold load_elf_section. rewrite (proj2 (Z.ltb_ge _ _) Ha), (proj2 (Z.eqb_neq x.(s_size) 0)) by lia.
    cbn [orb]. cbv zeta. unfold PROCESS_USER_BASE. fold o. change PAGE_SHIFT with 12.
    rewrite Z.shiftr_div_pow2 by lia. change (2 ^ 12) with 4096. change PAGE_SIZE with 4096.
    replace (Z.to_nat (o / 4096 + 1)) with (S (Z.to_nat (o / 4096))) by lia.
    rewrite (walk_image s _ i Hi Hn), bind_Some_eq, E1, bind_Some_eq. cbn beta iota.
    rewrite (s32_small x.(s_size)) by lia. by rewrite E2, bind_Some_eq.
  - destruct Hs1 as (? & ? & ?), Hs2 as (? & ? & ?). repeat split; congruence.
  - intros b q Hb. apply Hr2. by rewrite Er1.
Qed.

(** ** Loading an image *)

(** The sections [xs], with their addresses, linked from [a]. *)
Fixpoint sec_chain (ss : gmap Z elf_section) (a : Z) (xs : list (Z * elf_section)) : Prop :=
  match xs with
  | [] => a = 0
  | (b, x) :: xs' => a = b /\ a <> 0 /\ ss !! a = Some x /\ sec_chain ss x.(s_next) xs'
  end.

(** The image bytes of a section. *)
Definition sec_range x (o : Z) : Prop :=
  x.(s_load_addr) - PROCESS_USER_BASE <= o < x.(s_load_addr) - PROCESS_USER_BASE + x.(s_size).

Definition sections_apart (xs : list (Z * elf_section)) : Prop :=
  forall (i j : nat) (x y : Z * elf_section), i <> j -> xs !! i = Some x -> xs !! j = Some y -> forall o, ~ (sec_range x.2 o /\ sec_range y.2 o).

(** Section [x] is in memory [m]. *)
Definition in_image (m : mem) x : Prop :=
  forall q c, section_data x l x.(s_offset) x.(s_size) !! q = Some c ->
    m !! image_at B (x.(s_load_addr) - PROCESS_USER_BASE + Z.of_nat q) = Some c.

Definition total_sizes (xs : list (Z * elf_section)) (n : Z) : Z :=
  foldl (fun n y => s32 (n + y.2.(s_size))) n xs.

Lemma load_sections_ok xs : forall fuel a ms s pos,
  (length xs < fuel)%nat -> sec_chain s.(sections) a xs -> Forall (fun y => section_fits y.2) xs ->
  sections_apart xs -> image s -> open_at s fp l fbase pos ->
  exists s', load_sections fuel a fp t ms s = Some (0, with_elf_size (total_sizes xs ms.(elf_size)) ms, s') /\
    same_objects s s' /\ (exists pos', open_at s' fp l fbase pos') /\ image s' /\
    Forall (fun y => in_image s'.(ram) y.2) xs /\
    (forall a, (forall o y, y ∈ xs -> sec_range y.2 o -> a <> image_at B o) -> s'.(ram) !! a = s.(ram) !! a).
Proof.
  induction xs as [|[b x] xs IH]; intros fuel a ms s pos Hfuel Hc Hfit Hap Hi Hop; destruct fuel as [|fuel];
    simpl in Hfuel; try lia.
  - cbn in Hc. subst a. exists s. split; [by destruct ms|]. split; [done|]. split; [by exists pos|].
    split; [done|]. by split.
  - destruct Hc as (<- & Ha & Hx & Hc). inversion Hfit as [|? ? Hfx Hfxs]; subst. cbn [snd] in Hfx.
    destruct (load_elf_section_ok x s ms pos Hi Hop Hfx) as (s1 & E1 & Hs1 & Hr1 & (pos1 & Hop1) & Hl1).
    pose proof (image_of_same _ _ _ _ _ _ _ Hs1 Hr1 Hi) as Hi1.
    pose proof Hs1 as (Hal1 & Hef1 & Hse1).
    destruct (IH fuel x.(s_next) (with_elf_size (s32 (ms.(elf_size) + x.(s_size))) ms) s1 pos1)
      as (s2 & E2 & Hs2 & Hop2 & Hi2 & Hin & Hfr); try done; try lia.
    { by rewrite Hse1. }
    { intros i j y z Hne Hy Hz. apply (Hap (S i) (S j)); [lia|done|done]. }
    exists s2. split; [|split; [|split; [done|split; [done|split]]]].
    + cbn [load_sections]. rewrite (proj2 (Z.eqb_neq a 0) Ha), Hx, bind_Some_eq, E1, bind_Some_eq. done.
    + destruct Hs2 as (? & ? & ?). repeat split; congruence.
    + constructor; [|done]. cbn [snd]. intros q c Hq.
      assert (Hlen : Z.of_nat (length (section_data x l x.(s_offset) x.(s_size))) = x.(s_size)).
      { apply (section_data_split x l _ x.(s_size)); [apply Hfx|pose proof (sf_size _ Hfx); lia|apply Hfx]. }
      pose proof (lookup_lt_Some _ _ _ Hq) as Hlt. rewrite Hfr; [by apply (ld_bytes _ _ _ _ _ Hl1)|].
      intros o y Hy Ho E. apply list_elem_of_lookup in Hy as [j Hj].
      assert (Hrx : sec_range x (x.(s_load_addr) - PROCESS_USER_BASE + Z.of_nat q)) by (unfold sec_range; lia).
      assert (Hfy : section_fits y.2) by (rewrite Forall_forall in Hfxs; apply Hfxs, list_elem_of_lookup; by exists j).
      apply (image_at_inj _ _ _ _ _ _ _ _ Hi) in E.
      * apply (Hap 0%nat (S j) (a, x) y ltac:(lia) eq_refl Hj o). rewrite <- E. split; [done|]. by rewrite E.
      * pose proof (sf_addr _ Hfx). pose proof (sf_end _ Hfx). unfold PROCESS_USER_BASE in *. lia.
      * pose proof (sf_addr _ Hfy). pose proof (sf_end _ Hfy). unfold sec_range, PROCESS_USER_BASE in *. lia.
    + intros d Hd. rewrite Hfr; [|intros o y Hy Ho; apply (Hd o y); [set_solver|done]].
      apply (ld_frame _ _ _ _ _ Hl1). intros q Hq. apply (Hd _ (a, x)); [set_solver|].
      assert (Hlen : Z.of_nat (length (section_data x l x.(s_offset) x.(s_size))) = x.(s_size)).
      { apply (section_data_split x l _ x.(s_size)); [apply Hfx|pose proof (sf_size _ Hfx); lia|apply Hfx]. }
      unfold sec_range. cbn [snd]. lia.
Qed.

Lemma sec_chain_size ss a xs : sec_chain ss a xs -> NoDup xs.*1 -> (length xs <= base.size ss)%nat.
Proof.
  intros Hs Hn. rewrite <- (length_fmap fst), <- size_dom, <- (size_list_to_set (C:=gset Z) _ Hn).
  apply subseteq_size. intros z Hz. apply elem_of_list_to_set in Hz.
  apply list_elem_of_fmap in Hz as (y & -> & Hy). apply elem_of_dom. clear Hn.
  revert a Hs. induction xs as [|[b x] xs IH]; intros a Hs; [by apply elem_of_nil in Hy|].
  destruct Hs as (<- & _ & Hx & Hc). apply elem_of_cons in Hy as [->|Hy]; [by eexists|].
  by apply (IH Hy _ Hc).
Qed.

(** A section shorter than a page is written in one piece from its first byte, even
    when the page of that byte ends before it: the rest does not go to the next page
    of the image but to the addresses after the page. *)
Theorem short_section_overruns x n i s pos :
  image s -> open_at s fp l fbase pos -> imgs !! n = Some i ->
  x.(s_load_addr) - PROCESS_USER_BASE = 4096 * Z.of_nat n + (4096 - 1) ->
  0x00401000 <= x.(s_load_addr) -> 1 < x.(s_size) < 4096 -> is_bss x = false ->
  0 <= x.(s_offset) -> x.(s_offset) + x.(s_size) <= Z.of_nat (length l) ->
  B (Z.of_nat n) + 4095 + 4096 < 2 ^ 32 ->
  room s.(ram) (B (Z.of_nat n) + 4095) x.(s_size) ->
  disjoint (B (Z.of_nat n) + 4095) x.(s_size) fbase (Z.of_nat (length l)) ->
  copies (B (Z.of_nat n) + 4095) (fbase + x.(s_offset)) x.(s_size) ->
  exists ms s', load_elf_section x fp t (Mk_mm_struct 0 0 None None) s = Some (0, ms, s') /\
    s'.(ram) = write (B (Z.of_nat n) + 4095) (chunk l x.(s_offset) x.(s_size)) s.(ram).
Proof.
  intros Hi Hop Hn Ho Ha Hs Hb Hof Hfit Hend Hroom Hdis Hcp.
  pose proof (lookup_lt_Some _ _ _ Hn) as Hlt.
  destruct (fs_seek_ok fp x.(s_offset) s l fbase pos Hop) as (s1 & E1 & Er1 & Hs1 & Hop1); [done|lia|lia|].
  assert (Hi1 : image s1) by (apply (image_of_same _ _ _ _ _ s); [done|by rewrite Er1|done]).
  destruct (io_base _ _ _ _ _ _ Hi1 n i Hn) as (p & Hp & Eb).
  pose proof (io_range _ _ _ _ _ _ Hi (Z.of_nat n) ltac:(lia)) as Hrg.
  destruct (load_chunk_ok x (B (Z.of_nat n) + 4095) x.(s_size) x.(s_offset) s1 Hop1)
    as (s2 & r & pos2 & E2 & Hr2 & Hs2 & Er2 & _); [lia|intros _; lia|by rewrite Er1|done|done|].
  assert (Hrm2 : forall b q, room s1.(ram) b q -> room s2.(ram) b q) by (intros; rewrite Er2; by apply room_write).
  destruct (next_image_page n i s2 (image_of_same _ _ _ _ _ _ _ Hs2 Hrm2 Hi1) Hn) as (nx & En & _).
  eexists _, s2. split; [|rewrite Er2, Er1; unfold section_data; by rewrite Hb].
  unfold load_elf_section. rewrite (proj2 (Z.ltb_ge _ _) Ha), (proj2 (Z.eqb_neq x.(s_size) 0)) by lia.
  cbn [orb]. cbv zeta. rewrite Ho. change PAGE_SHIFT with 12. rewrite Z.shiftr_div_pow2 by lia.
  change (2 ^ 12) with 4096. change PAGE_SIZE with 4096.
  replace (4096 * Z.of_nat n + (4096 - 1)) with (4095 + Z.of_nat n * 4096) by lia.
  rewrite Z.div_add, Z.mod_add by lia. change (4095 / 4096) with 0. change (4095 mod 4096) with 4095.
  replace (Z.to_nat (0 + Z.of_nat n + 1)) with (S n) by lia.
  rewrite (walk_image s _ i Hi Hn), bind_Some_eq, E1, bind_Some_eq. cbn beta iota.
  rewrite (s32_small x.(s_size)) by lia. cbn [load_chunks plist_entry].
  rewrite bind_Some_eq, Hp, bind_Some_eq. cbv zeta. rewrite Eb, u32_small by lia. change PAGE_SIZE with 4096.
  rewrite (proj2 (Z.leb_gt 4096 x.(s_size))) by lia. rewrite E2, bind_Some_eq. cbn beta iota.
  rewrite (proj2 (Z.ltb_ge r 0)) by lia. rewrite En, bind_Some_eq.
  by rewrite (proj2 (Z.ltb_ge 0 (x.(s_size) - x.(s_size)))) by lia.
Qed.
End load_thms.

(** C38. A program is loaded to its addresses.  When every section starts at or after
    0x401000 and at a word, fits the image and the file, does not cross the end of its first page
    if it is shorter than a page, and no two sections overlap, [load_elf_image]
    returns 0, records the total size, and leaves in the image pages, at the load
    address of every section, its bytes of the file, or zeros for [.bss]; nothing
    outside the sections changes. *)
Theorem load_elf_image_places_sections {L : Type} (imgs : list Z) (B : Z -> Z) (t fp fbase elf : Z) (l : list Z)
    (e : elf_file) (xs : list (Z * elf_section)) (ms : mm_struct_t) (s : elf_sys (slab_state L)) (pos : Z)
    (Hnull : t <> 0 /\ fp <> 0 /\ elf <> 0)
    (Hfile : 0 <= fbase /\ fbase + Z.of_nat (length l) + 4096 < 2 ^ 32 /\ Z.of_nat (length l) < 2 ^ 31)
    (Helf : s.(elf_files) !! elf = Some e) (Hc : sec_chain s.(sections) e.(head) xs) (Hn : NoDup xs.*1)
    (Hfit : Forall (fun y => section_fits imgs l y.2) xs) (Hap : sections_apart xs)
    (Hi : image_of imgs B t fbase (Z.of_nat (length l)) s) (Hop : open_at s fp l fbase pos) :
  exists s', load_elf_image t fp elf ms s = Some (0, with_elf_size (total_sizes xs 0) ms, s') /\
    Forall (fun y => in_image B l s'.(ram) y.2) xs /\
    (forall a, (forall o y, y ∈ xs -> sec_range y.2 o -> a <> image_at B o) -> s'.(ram) !! a = s.(ram) !! a) /\
    same_objects s s'.
Proof.
  destruct Hnull as (H1 & H2 & H3).
  destruct (load_sections_ok imgs B t fp fbase l H2 Hfile xs (S (base.size s.(sections))) e.(head)
    (with_elf_size 0 ms) s pos) as (s' & E & Hs & _ & _ & Hin & Hfr); try done.
  { pose proof (sec_chain_size _ _ _ Hc Hn). lia. }
  exists s'. split; [|done]. unfold load_elf_image. rewrite Helf, bind_Some_eq.
  rewrite (proj2 (Z.eqb_neq t 0)), (proj2 (Z.eqb_neq fp 0)), (proj2 (Z.eqb_neq elf 0)) by done.
  cbn [orb]. rewrite E. by destruct ms.
Qed.

(** ** A program of two sections *)

Definition load_task : Z := 0x80300000.

Definition text_section : elf_section := Mk_section_t [46; 116; 101; 120; 116] 1 3 0x00401000 0x6040.
Definition bss_section : elf_section := Mk_section_t BSS 0 2 0x00401ffe 0.

Definition load_lists : lheap node :=
  {[ ElfImageList load_task := ListHead (PagePlist 4) (PagePlist 7);
     PagePlist 4 := ListHead (PagePlist 7) (ElfImageList load_task);
     PagePlist 7 := ListHead (ElfImageList load_task) (PagePlist 4) ]}.

Definition image_page (i : Z) : page := Mk_page 0 0 (0x80000000 + 4096 * i) 4096 1 1.

Definition load_state : elf_sys (slab_state unit) :=
  Mk_elf_sys
    (Mk_ramdisk 0 0 {[ 0x5000 := Mk_file 0x2000 4 0x2000 ]}
       (Mk_slab (Mk_mm (Mk_bank 0 0 0 []) (map image_page (seqZ 0 8)) [] load_lists tt)
          None None 0 0 0 ∅))
    (write 0x2000 [9; 10; 11; 12]
       (write 0x80004000 (replicate (Z.to_nat 4096) 7) (write 0x80007000 (replicate (Z.to_nat 4096) 7) ∅)))
    {[ 0x7000 := Mk_elf_file 5 0x6000 ]}
    {[ 0x6000 := text_section; 0x6040 := bss_section ]}.

Definition load_base (n : Z) : Z := if Z.eqb n 0 then 0x80004000 else 0x80007000.

Lemma load_state_image : image_of [4; 7] load_base load_task 0x2000 4 load_state.
Proof.
  assert (Hn : forall n, 0 <= n < Z.of_nat (length [4; 7]) -> n = 0 \/ n = 1) by (simpl; lia).
  constructor.
  - split; [|repeat split; vm_compute; reflexivity].
    apply (bool_decide_unpack _). vm_compute. exact I.
  - intros [|[|n]] i E; try done; injection E as <-; eexists; split; vm_compute; reflexivity.
  - intros n [-> | ->]%Hn; unfold load_base; simpl; lia.
  - intros n [-> | ->]%Hn; apply room_write; intros i Hi; unfold load_base; cbn [Z.eqb].
    + apply (room_write_self 0x80004000 (replicate (Z.to_nat 4096) 7)). rewrite length_replicate. lia.
    + apply write_alloc. apply (room_write_self 0x80007000 (replicate (Z.to_nat 4096) 7)).
      rewrite length_replicate. lia.
  - intros n n' [-> | ->]%Hn [-> | ->]%Hn Hne; unfold disjoint, load_base; simpl; lia.
  - intros n [-> | ->]%Hn; unfold disjoint, load_base; simpl; lia.
  - by intros n [-> | ->]%Hn.
Qed.

Lemma load_elf_image_places_sections_witness :
  exists s', load_elf_image load_task 0x5000 0x7000 (Mk_mm_struct 9 0 None None) load_state =
      Some (0, Mk_mm_struct 5 0 None None, s') /\
    s'.(ram) !! 0x80007000 = Some 10 /\ s'.(ram) !! 0x80007fff = Some 0 /\ s'.(ram) !! 0x80004000 = Some 7.
Proof.
  destruct (load_elf_image_places_sections [4; 7] load_base load_task 0x5000 0x2000 0x7000 [9; 10; 11; 12]
    (Mk_elf_file 5 0x6000) [(0x6000, text_section); (0x6040, bss_section)] (Mk_mm_struct 9 0 None None)
    load_state 0) as (s' & E & Hin & Hfr & _).
  - done.
  - simpl. lia.
  - reflexivity.
  - done.
  - apply (bool_decide_unpack _). vm_compute. exact I.
  - constructor; [|constructor; [|constructor]]; constructor; unfold PROCESS_USER_BASE; simpl; try lia.
    all: try (intros _; vm_compute; discriminate). all: try discriminate; intros _; vm_compute; reflexivity.
  - intros [|[|i]] [|[|j]] x y Hne Ex Ey; try done; injection Ex as <-; injection Ey as <-;
      unfold sec_range, PROCESS_USER_BASE; simpl; lia.
  - exact load_state_image.
  - exists (Mk_file 0x2000 4 0x2000). split; [reflexivity|]. split; [done|]. constructor.
    + exact (write_bytes 0x2000 [9; 10; 11; 12] _).
    + repeat constructor; lia.
    + reflexivity.
    + cbn [f_base f_size]. lia.
    + reflexivity.
    + cbn [f_size]. lia.
  - exists s'. split; [exact E|]. inversion Hin as [|? ? H1 H2]; subst. inversion H2 as [|? ? H3 _]; subst.
    split; [exact (H1 0%nat 10 eq_refl)|]. split; [exact (H3 1%nat 0 eq_refl)|].
    rewrite Hfr.
    + cbn [ram load_state]. rewrite lookup_write_out by (simpl; lia).
      exact (lookup_write_in 0x80004000 (replicate (Z.to_nat 4096) 7) _ 0%nat 7 eq_refl).
    + intros o y Hy Ho. rewrite !elem_of_cons, elem_of_nil in Hy. unfold sec_range, PROCESS_USER_BASE in Ho.
      unfold image_at, load_base.
      destruct Hy as [->|[->|[]]]; simpl in Ho; destruct (Z.eqb_spec (o / 4096) 0);
        Z.to_euclidean_division_equations; lia.
Defined.
