(* ===== verification/TaskCopy.v ===== *)
(** * Copying a process, and the arguments of a program

    [copy_process_memory] and [setup_task_argv] of [TaskMem] on the bytes of the pages
    they work on. *)

From S2P Require Import Prelude ListHead TaskStruct Bitops Mem CString MmTypes Pages Mmu Regs.
From S2P Require Import TaskMem TaskMemInv TaskLoad.

(** ** Copying pages *)

(** Every cell of a memory is a byte. *)
Definition mem_bytes (m : mem) : Prop := forall a c, m !! a = Some c -> 0 <= c < 256.

Lemma mem_bytes_write a l m : mem_bytes m -> Forall (fun c => 0 <= c < 256) l -> mem_bytes (write a l m).
Proof.
  intros Hm Hl x c Hx. destruct (decide (a <= x < a + Z.of_nat (length l))) as [Hin|Hout].
  - destruct (lookup_lt_is_Some_2 l (Z.to_nat (x - a))) as [d Hd]; [lia|].
    pose proof (lookup_write_in a l m _ _ Hd) as E. rewrite Z2Nat.id in E by lia.
    replace (a + (x - a)) with x in E by lia. rewrite Hx in E. injection E as ->.
    rewrite Forall_forall in Hl. apply Hl, list_elem_of_lookup. by eexists.
  - rewrite lookup_write_out in Hx by lia. by apply (Hm x).
Qed.

Lemma room_bytes m a (n : nat) :
  room m a (Z.of_nat n) -> exists l, length l = n /\ bytes_at m a l.
Proof.
  revert a. induction n as [|n IH]; intros a Hr; [by exists []|].
  destruct (IH (a + 1)) as (l & Hl & Hb).
  { intros i Hi. rewrite <- Z.add_assoc. apply Hr. lia. }
  destruct (Hr 0 ltac:(lia)) as [c Hc]. exists (c :: l). split; [simpl; lia|].
  intros [|i] x Hx; simpl in Hx.
  - injection Hx as <-. exact Hc.
  - replace (a + Z.of_nat (S i)) with (a + 1 + Z.of_nat i) by lia. by apply Hb.
Qed.

(** A copied page: every byte of the source is in the target. *)
Lemma copy_page_ok a b m :
  mem_bytes m -> room m a 4096 -> room m b 4096 -> disjoint a 4096 b 4096 -> a mod 4 = 0 ->
  exists m', copy_page_va a b m = Some m' /\ mem_bytes m' /\
    (forall q, 0 <= q < 4096 -> m' !! (a + q) = m !! (b + q)) /\
    (forall x, ~ (a <= x < a + 4096) -> m' !! x = m !! x) /\
    (forall c n, room m c n -> room m' c n).
Proof.
  intros Hm Ha Hb Hd Hw. destruct (room_bytes m b 4096 Hb) as (l & Hl & Hbl).
  assert (Hf : Forall (fun c => 0 <= c < 256) l).
  { apply Forall_forall. intros c Hc. apply list_elem_of_lookup in Hc as [i Hi]. by apply (Hm _ c (Hbl _ _ Hi)). }
  assert (El : PAGE_SIZE = Z.of_nat (length l)) by (rewrite Hl; reflexivity).
  exists (write a l m). unfold copy_page_va. rewrite El, memcpy_ok;
    [|done|done|rewrite Hl; exact Ha|rewrite Hl; exact Hd|by apply copies_aligned|rewrite Hl; lia].
  split; [done|]. split; [by apply mem_bytes_write|]. split; [|split].
  - intros q Hq. destruct (lookup_lt_is_Some_2 l (Z.to_nat q)) as [c Hc]; [rewrite Hl; lia|].
    pose proof (lookup_write_in a l m _ _ Hc) as E1. pose proof (Hbl _ _ Hc) as E2.
    rewrite Z2Nat.id in E1, E2 by lia. congruence.
  - intros x Hx. apply lookup_write_out. rewrite Hl. lia.
  - intros c n Hr. by apply room_write.
Qed.

Section copy.
Context {L : Type} (ks : Z).
Implicit Types (s : mm_state L) (v : vm L) (m : mem) (i n : Z).

Abbreviation va i := (page_id_to_va ks i).

(** The pages [l] are allocated and do not overlap the pages [l']. *)
Definition pages_room m (l : list Z) : Prop := forall i, i ∈ l -> room m (va i) 4096.

Definition pages_apart (l l' : list Z) : Prop :=
  forall i j, i ∈ l -> j ∈ l' -> i <> j -> disjoint (va i) 4096 (va j) 4096.

(** The first [n] pages of [news] hold what those of [olds] hold. *)
Record copied (olds news : list Z) (m m' : mem) : Prop := {
  cp_bytes : forall (k : nat) i j q, olds !! k = Some i -> news !! k = Some j -> 0 <= q < 4096 ->
    m' !! (va j + q) = m !! (va i + q);
  cp_frame : forall x, (forall j, j ∈ news -> ~ (va j <= x < va j + 4096)) -> m' !! x = m !! x;
  cp_room : forall c n, room m c n -> room m' c n;
  cp_mem : mem_bytes m'
}.

Lemma va_word i : ks mod 4096 = 0 -> va i mod 4 = 0.
Proof.
  intros Ha. unfold page_id_to_va, PAGE_SHIFT. rewrite Z.shiftl_mul_pow2, u32_u32, u32_add_r by lia.
  unfold u32, wrap. rewrite Z.mod_mod_divide by (by exists (2 ^ 30)).
  Z.to_euclidean_division_equations. lia.
Qed.

Lemma copy_pages_ok s hdo hdn : forall (n : nat) (pre_o pre_n olds news post_o post_n : list Z) m,
  length olds = n -> length news = n ->
  is_list s.(plists) hdo (plist (pre_o ++ olds ++ post_o)) ->
  is_list s.(plists) hdn (plist (pre_n ++ news ++ post_n)) ->
  mem_bytes m -> pages_room m olds -> pages_room m news ->
  pages_apart news (olds ++ news) -> (forall i, i ∈ news -> i ∉ olds) -> NoDup news -> ks mod 4096 = 0 ->
  exists m', copy_pages ks n (List.last (plist pre_o) hdo) (List.last (plist pre_n) hdn) s m = Some m' /\
    copied olds news m m'.
Proof.
  induction n as [|n IH]; intros pre_o pre_n olds news post_o post_n m Ho Hn Hlo Hln Hm Ro Rn Hap Hne Hnd Hal.
  { destruct olds, news; try done. exists m. split; [done|]. constructor; try done. }
  destruct olds as [|i olds]; [done|]. destruct news as [|j news]; [done|]. injection Ho as Ho. injection Hn as Hn.
  assert (Hnext : forall hd pre (x : Z) rest, is_list s.(plists) hd (plist (pre ++ (x :: rest))) ->
    list_next s.(plists) (List.last (plist pre) hd) = Some (PagePlist x)).
  { clear. intros hd pre x rest Hl. destruct pre as [|y p _] using rev_ind.
    - apply (is_list_first _ _ _ Hl).
    - rewrite fmap_app. cbn [fmap list_fmap]. rewrite List.last_last.
      rewrite <- app_assoc, fmap_app in Hl. by apply is_list_next in Hl. }
  cbn [app] in Hlo, Hln.
  pose proof (Hnext _ _ _ _ Hlo) as No. pose proof (Hnext _ _ _ _ Hln) as Nn.
  apply NoDup_cons in Hnd as [Hj Hnd].
  assert (Hij : j <> i) by (intros ->; apply (Hne i); set_solver).
  destruct (copy_page_ok (va j) (va i) m Hm) as (m1 & E1 & Hm1 & B1 & F1 & R1);
    [apply Rn; set_solver|apply Ro; set_solver|apply Hap; [set_solver|set_solver|done]|by apply va_word|].
  destruct (IH (pre_o ++ [i]) (pre_n ++ [j]) olds news post_o post_n m1) as (m2 & E2 & [B2 F2 R2 M2]); try done.
  { by rewrite <- app_assoc. } { by rewrite <- app_assoc. }
  { intros k Hk. apply R1, Ro. set_solver. } { intros k Hk. apply R1, Rn. set_solver. }
  { intros a b Ha Hb. apply Hap; set_solver. } { intros k Hk Hko. apply (Hne k); set_solver. }
  assert (Hother : forall k x, k ∈ olds ++ news -> k <> j -> 0 <= x < 4096 -> ~ (va j <= va k + x < va j + 4096)).
  { intros k x Hk Hkj Hx. pose proof (Hap j k ltac:(set_solver) ltac:(set_solver) ltac:(done)) as Hd.
    unfold disjoint in Hd. lia. }
  exists m2. split.
  - cbn [copy_pages]. rewrite No, bind_Some_eq, Nn, bind_Some_eq. cbn [plist_entry].
    rewrite !bind_Some_eq. unfold page_to_va, page_to_page_id. rewrite E1, bind_Some_eq.
    rewrite !fmap_app in E2. cbn [fmap list_fmap] in E2. by rewrite !List.last_last in E2.
  - constructor; [| | |done].
    + intros [|k] a b q Ha Hb Hq; simpl in Ha, Hb.
      * injection Ha as <-. injection Hb as <-. rewrite F2; [by apply B1|]. intros b Hb Hin.
        apply (Hother b (va j + q - va b)); [set_solver|intros ->; done|lia|lia].
      * rewrite (B2 k a b q Ha Hb Hq). apply F1.
        assert (a ∈ olds) by (apply list_elem_of_lookup; by exists k).
        apply Hother; [set_solver| |done]. intros ->. apply (Hne j); set_solver.
    + intros x Hx. rewrite F2, F1; [done|apply Hx; set_solver|]. intros b Hb. apply Hx. set_solver.
    + intros c q Hc. by apply R2, R1.
Qed.
End copy.

(** Page [k] of a list of pages reads in [m'] what page [k] of another read in [m]. *)
Definition same_page (ks : Z) (m m' : mem) (olds news : list Z) (k : nat) : Prop :=
  forall i j q, olds !! k = Some i -> news !! k = Some j -> 0 <= q < 4096 ->
    m' !! (page_id_to_va ks j + q) = m !! (page_id_to_va ks i + q).

(** The memory a forked task starts with.  For a child whose pages are allocated and
    different from the parent's, [copy_process_memory] copies the pages that hold
    [stack_size] bytes of stack, from the top, and the pages that hold [elf_size] bytes
    of image and the argument page; it changes nothing but these pages of the child. *)
Lemma copy_process_memory_ok {L : Type} (ks : Z) (v : vm L) (old new : Z) (k : task_struct)
    (so io sn ni : list Z)
    (Hs : 0 <= k.(mm_struct).(stack_size) < 2 ^ 30) (He : 0 <= k.(mm_struct).(elf_size) < 2 ^ 30)
    (Lso : is_list v.(vm_pages).(plists) (ElfStackList old) (plist so))
    (Lio : is_list v.(vm_pages).(plists) (ElfImageList old) (plist io))
    (Lsn : is_list v.(vm_pages).(plists) (ElfStackList new) (plist sn))
    (Lni : is_list v.(vm_pages).(plists) (ElfImageList new) (plist ni))
    (Hlen_s : (k.(mm_struct).(stack_size) + 4095) / 4096 <= Z.of_nat (length so `min` length sn))
    (Hlen_e : (k.(mm_struct).(elf_size) + 4096 + 4095) / 4096 <= Z.of_nat (length io `min` length ni))
    (Hm : mem_bytes v.(vm_ram)) (Hr : pages_room ks v.(vm_ram) (so ++ io ++ sn ++ ni))
    (Hap : pages_apart ks (sn ++ ni) (so ++ io ++ sn ++ ni))
    (Hal : ks mod 4096 = 0) (Hnd : NoDup (sn ++ ni)) (Hne : forall i, i ∈ sn ++ ni -> i ∉ so ++ io) :
  exists m', copy_process_memory ks old new k v = Some (with_vm_ram m' v) /\
    (forall q, Z.of_nat q < (k.(mm_struct).(stack_size) + 4095) / 4096 -> same_page ks v.(vm_ram) m' so sn q) /\
    (forall q, Z.of_nat q < (k.(mm_struct).(elf_size) + 4096 + 4095) / 4096 -> same_page ks v.(vm_ram) m' io ni q) /\
    (forall x, (forall j, j ∈ sn ++ ni -> ~ (page_id_to_va ks j <= x < page_id_to_va ks j + 4096)) ->
       m' !! x = v.(vm_ram) !! x) /\
    (forall c n, room v.(vm_ram) c n -> room m' c n).
Proof.
  set (ns := Z.to_nat ((k.(mm_struct).(stack_size) + 4095) / 4096)).
  set (ne := Z.to_nat ((k.(mm_struct).(elf_size) + 4096 + 4095) / 4096)).
  assert (Bs : 0 <= (k.(mm_struct).(stack_size) + 4095) / 4096 < 2 ^ 30).
  { split; [apply Z.div_pos; lia|]. apply Z.div_lt_upper_bound; lia. }
  assert (Be : 0 <= (k.(mm_struct).(elf_size) + 4096 + 4095) / 4096 < 2 ^ 30).
  { split; [apply Z.div_pos; lia|]. apply Z.div_lt_upper_bound; lia. }
  assert (Hin : forall (n : nat) (l : list Z) i, i ∈ take n l -> i ∈ l).
  { intros n l i Hi. rewrite <- (take_drop n l). apply elem_of_app. by left. }
  assert (Hlk : forall n (q : nat) (l : list Z) i, (q < n)%nat -> l !! q = Some i -> take n l !! q = Some i).
  { intros n q l i Hq Hi. by rewrite lookup_take_lt. }
  apply NoDup_app in Hnd as (Nd1 & Ndx & Nd2).
  destruct (copy_pages_ok ks v.(vm_pages) (ElfStackList old) (ElfStackList new) ns [] [] (take ns so) (take ns sn)
    (drop ns so) (drop ns sn) v.(vm_ram)) as (m1 & E1 & [B1 F1 R1 M1]).
  { rewrite length_take. lia. } { rewrite length_take. lia. }
  { cbn [app]. by rewrite take_drop. } { cbn [app]. by rewrite take_drop. } { done. }
  { intros i Hi%Hin. apply Hr. set_solver. } { intros i Hi%Hin. apply Hr. set_solver. }
  { intros i j Hi%Hin [Hj%Hin|Hj%Hin]%elem_of_app; apply Hap; set_solver. }
  { intros i Hi%Hin Ho%Hin. apply (Hne i); set_solver. }
  { rewrite <- (take_drop ns sn) in Nd1. by apply NoDup_app in Nd1 as [? _]. } { done. }
  destruct (copy_pages_ok ks v.(vm_pages) (ElfImageList old) (ElfImageList new) ne [] [] (take ne io) (take ne ni)
    (drop ne io) (drop ne ni) m1) as (m2 & E2 & [B2 F2 R2 M2]).
  { rewrite length_take. lia. } { rewrite length_take. lia. }
  { cbn [app]. by rewrite take_drop. } { cbn [app]. by rewrite take_drop. } { done. }
  { intros i Hi%Hin. apply R1, Hr. set_solver. } { intros i Hi%Hin. apply R1, Hr. set_solver. }
  { intros i j Hi%Hin [Hj%Hin|Hj%Hin]%elem_of_app; apply Hap; set_solver. }
  { intros i Hi%Hin Ho%Hin. apply (Hne i); set_solver. }
  { rewrite <- (take_drop ne ni) in Nd2. by apply NoDup_app in Nd2 as [? _]. } { done. }
  assert (Hout : forall i j q, i ∈ sn ++ ni -> j ∈ so ++ io ++ sn ++ ni -> i <> j -> 0 <= q < 4096 ->
    ~ (page_id_to_va ks i <= page_id_to_va ks j + q < page_id_to_va ks i + 4096)).
  { intros i j q Hi Hj Hij Hq. pose proof (Hap i j Hi Hj Hij) as Hd. unfold disjoint in Hd. lia. }
  exists m2. split; [|split; [|split; [|split]]].
  - unfold copy_process_memory. cbv zeta. change PAGE_SIZE with 4096. rewrite !page_nr_eq by (rewrite ?u32_small; lia).
    rewrite !u32_small, !s32_small by lia. fold ns ne. cbn [fmap list_fmap List.last] in E1, E2.
    by rewrite E1, bind_Some_eq, E2, bind_Some_eq.
  - intros q Hq i j o Hi Hj Ho. rewrite F2.
    + apply (B1 q); [apply Hlk; [lia|done]|apply Hlk; [lia|done]|done].
    + intros b Hb%Hin. assert (j ∈ sn) by (apply list_elem_of_lookup; by exists q).
      apply Hout; [set_solver|set_solver| |done]. intros ->. by apply (Ndx j).
  - intros q Hq i j o Hi Hj Ho. rewrite (B2 q i j o); [|apply Hlk; [lia|done]|apply Hlk; [lia|done]|done].
    apply F1. intros b Hb%Hin. assert (i ∈ io) by (apply list_elem_of_lookup; by exists q).
    apply Hout; [set_solver|set_solver| |done]. intros ->. apply (Hne i); set_solver.
  - intros x Hx. rewrite F2, F1; [done| |]; intros b Hb%Hin; apply Hx; set_solver.
  - intros c n Hc. by apply R2, R1.
Qed.
