(* ===== verification/TaskArgs.v ===== *)
(** * The arguments of a program

    [setup_task_argv] of [TaskMem]: the first page of the image receives a table of
    sixteen words and, behind it, the strings; the words are addresses in the space of
    the task. *)

From S2P Require Import Prelude ListHead TaskStruct Bitops Mem CString MmTypes Pages Mmu Regs.
From S2P Require Import TaskMem TaskMemInv.

(** The offset of the string behind one of [n] bytes at offset [o]. *)
Definition next_offset (o n : Z) : Z := 4 * ((o + n + 3) / 4).

(** The strings the program reads: one whose length is a multiple of four has lost its
    terminator to the next one, which it runs into. *)
Fixpoint read_back (ls : list (list Z)) : list (list Z) :=
  match ls with
  | [] => []
  | l :: ls' =>
      (if Z.eqb (Z.of_nat (length l) mod 4) 0 then l ++ List.hd [] (read_back ls') else l) :: read_back ls'
  end.

(** Only the last argument may be a number of whole words long. *)
Definition keeps_ends (ls : list (list Z)) : Prop :=
  forall i l, ls !! i = Some l -> (S i < length ls)%nat -> Z.of_nat (length l) mod 4 <> 0.

Lemma read_back_same ls : keeps_ends ls -> read_back ls = ls.
Proof.
  induction ls as [|l ls IH]; intros H; [done|]. cbn [read_back].
  rewrite IH by (intros i x Hi Hl; apply (H (S i) x Hi); simpl; lia).
  destruct (Z.eqb_spec (Z.of_nat (length l) mod 4) 0) as [E|E]; [|done].
  destruct ls as [|l2 ls]; [by rewrite app_nil_r|]. by destruct (H 0%nat l eq_refl ltac:(simpl; lia)).
Qed.

(** The table from entry [i] and the strings behind it: [ls] are the arguments, the first of
    them at offset [o], and [rs] the strings found at their addresses. *)
Fixpoint args_at (m : mem) (load i o : Z) (ls rs : list (list Z)) : Prop :=
  match ls, rs with
  | [], [] => True
  | l :: ls', r :: rs' =>
      load32 (load + 4 * i) m = Some (PROCESS_USER_BASE + o) /\ cstr m (load + o) r /\
      args_at m load (i + 1) (next_offset o (Z.of_nat (length l))) ls' rs'
  | _, _ => False
  end.

(** The strings fit the page. *)
Fixpoint args_fit (o : Z) (ls : list (list Z)) : Prop :=
  match ls with
  | [] => True
  | l :: ls' =>
      o + Z.of_nat (length l) + 1 <= 4096 /\ args_fit (next_offset o (Z.of_nat (length l))) ls'
  end.

Lemma next_offset_range o n : 0 <= n -> 0 <= o -> o + n <= next_offset o n < o + n + 4 /\ next_offset o n mod 4 = 0.
Proof. intros Hn Ho. unfold next_offset. split; Z.to_euclidean_division_equations; lia. Qed.

Lemma next_offset_page o n : o + n + 1 <= 4096 -> next_offset o n <= 4096.
Proof. unfold next_offset. intros H. Z.to_euclidean_division_equations. lia. Qed.

Lemma baligin_4 x : 0 <= x -> x + 4 < 2 ^ 32 -> baligin x 4 = 4 * ((x + 3) / 4).
Proof.
  intros H1 H2. change 4 with (2 ^ 2) at 1. rewrite baligin_eq by lia.
  change (2 ^ 2) with 4. by replace (x + 4 - 1) with (x + 3) by lia.
Qed.

Lemma next_offset_at base o n :
  base mod 4 = 0 -> 0 <= base -> 0 <= o -> 0 <= n -> base + o + n + 4 < 2 ^ 32 ->
  baligin (u32 (base + o + u32 n)) 4 = base + next_offset o n.
Proof.
  intros Hb H1 H2 H3 H4. rewrite (u32_small n), u32_small, baligin_4 by lia. unfold next_offset.
  Z.to_euclidean_division_equations. lia.
Qed.

Lemma cstr_app m a l r :
  bytes_at m a l -> Forall (fun c => 0 < c < 256) l -> cstr m (a + Z.of_nat (length l)) r -> cstr m a (l ++ r).
Proof.
  intros Hb Hf [Hr Hfr]. split; [|by apply Forall_app]. rewrite <- app_assoc. by apply bytes_at_app.
Qed.

(** The strings read lie in the page as well. *)
Lemma read_back_fit o l ls :
  o mod 4 = 0 -> args_fit o (l :: ls) -> o + Z.of_nat (length (List.hd [] (read_back (l :: ls)))) + 1 <= 4096.
Proof.
  revert o l. induction ls as [|l2 ls IH]; intros o l Ho [Hl Hfit].
  - cbn [read_back List.hd]. destruct (Z.eqb _ 0); cbn [List.hd]; rewrite ?app_nil_r; lia.
  - cbn [read_back List.hd]. destruct (Z.eqb_spec (Z.of_nat (length l) mod 4) 0) as [E|E]; [|lia].
    assert (En : next_offset o (Z.of_nat (length l)) = o + Z.of_nat (length l)).
    { unfold next_offset. Z.to_euclidean_division_equations. lia. }
    assert (Em : (o + Z.of_nat (length l)) mod 4 = 0) by (by rewrite Z.add_mod, Ho, E by lia).
    rewrite En in Hfit. pose proof (IH _ l2 Em Hfit) as H.
    cbn [read_back List.hd] in H. rewrite length_app. lia.
Qed.

Section args.
Implicit Types (m : mem) (o i : Z) (ps : list Z) (ls : list (list Z)).
Variable load : Z.
Hypothesis Hload : 0 < load /\ load mod 4 = 0 /\ load + 8192 < 2 ^ 32.

(** The strings [ls] at the pointers [ps], away from the page. *)
Definition strings_at m ps ls : Prop :=
  Forall2 (fun p l => cstr m p l /\ disjoint load 4096 p (Z.of_nat (length l) + 1)) ps ls.

(** Writing in the page only. *)
Definition page_only m m' : Prop := forall x, ~ (load <= x < load + 4096) -> m' !! x = m !! x.

Lemma strings_frame m m' ps ls : page_only m m' -> strings_at m ps ls -> strings_at m' ps ls.
Proof.
  intros Hp Hs. apply (Forall2_impl _ _ _ _ Hs). intros p l [[Hb Hf] Hd]. split; [|done].
  split; [|done]. apply (bytes_at_frame m); [done|]. intros x Hx. apply Hp. rewrite length_app in Hx.
  unfold disjoint in Hd. simpl in Hx. lia.
Qed.

(** What is before the entry [i] and the offset [o] is kept. *)
Definition keeps m m' i o : Prop :=
  page_only m m' /\ (forall x, load <= x < load + 4 * i \/ load + 64 <= x < load + o -> m' !! x = m !! x).

Lemma args_loop_ok argv ps ls : forall fuel i o m,
  fuel = Z.to_nat (MAX_ARGV - i) -> 0 <= i -> i + Z.of_nat (length ps) <= MAX_ARGV ->
  argv_at m (argv + 4 * i) ps -> disjoint load 4096 (argv + 4 * i) (4 * (Z.of_nat (length ps) + 1)) ->
  strings_at m ps ls -> args_fit o ls -> 64 <= o <= 4096 -> o mod 4 = 0 -> room m load 4096 ->
  exists m', argv_loop fuel argv i (PROCESS_USER_BASE + o) (load + o) (load + 4 * i) m = Some m' /\
    args_at m' load i o ls (read_back ls) /\ keeps m m' i o.
Proof.
  revert ls. induction ps as [|p ps IH]; intros [|l ls] fuel i o m Hfuel Hi Hn Ha Hdj Hs Hfit Ho Hoa Hr;
    try (by inversion Hs).
  - exists m. split; [|done]. destruct fuel as [|fuel]; [done|]. cbn [argv_loop].
    destruct Ha as [Hb _]. pose proof (load32_word m (argv + 4 * i) _ 0%nat 0 Hb eq_refl ltac:(lia)) as E.
    change (4 * Z.of_nat 0) with 0 in E. rewrite Z.add_0_r in E. by rewrite E, bind_Some_eq.
  - apply Forall2_cons in Hs as [[Hc Hd] Hs]. destruct Hfit as [Hl Hfit].
    cbn [length] in Hn, Hdj. unfold MAX_ARGV in Hn, Hfuel. destruct fuel as [|fuel]; [lia|].
    destruct (argv_cons _ _ _ _ Ha) as (Ep & Hp & Ha'). set (n := Z.of_nat (length l)) in *.
    destruct (next_offset_range o n ltac:(lia) ltac:(lia)) as [Hnx Hnxa].
    set (m1 := write (load + o) (l ++ [0]) m).
    set (m2 := write (load + 4 * i) (word_list (PROCESS_USER_BASE + o)) m1).
    assert (Hlen : Z.of_nat (length (l ++ [0])) = n + 1) by (rewrite length_app; simpl; lia).
    assert (Hp1 : page_only m m2).
    { intros x Hx. unfold m2, m1. rewrite !lookup_write_out; [done|lia|cbn [length word_list]; lia]. }
    assert (Hr2 : room m2 load 4096) by (by apply room_write, room_write).
    destruct (IH ls fuel (i + 1) (next_offset o n) m2) as (m' & E & Hargs & [Hk1 Hk2]).
    { unfold MAX_ARGV. lia. }
    { lia. }
    { unfold MAX_ARGV. lia. }
    { replace (argv + 4 * (i + 1)) with (argv + 4 * i + 4) by lia. destruct Ha' as [Hb Hf]. split; [|done].
      apply (bytes_at_frame m); [done|]. intros x Hx. apply Hp1.
      rewrite length_words, length_app in Hx. unfold disjoint in Hdj. simpl in Hx. lia. }
    { unfold disjoint in *. lia. } { by apply (strings_frame m). } { done. }
    { split; [lia|]. by apply next_offset_page. } { done. } { done. }
    exists m'. split; [|split].
    + cbn [argv_loop]. rewrite Ep, bind_Some_eq. rewrite (proj2 (Z.eqb_neq p 0)) by lia.
      rewrite (strlen_ok p l) by (done || lia). rewrite bind_Some_eq.
      rewrite (strcpy_ok l); [|done| |lia|lia|unfold disjoint in *; lia].
      2: { apply (room_le _ _ 4096); [done|lia|lia]. }
      rewrite bind_Some_eq. cbn beta iota. fold m1.
      rewrite store32_ok by (apply room_write, (room_le _ _ 4096); [done|lia|lia]). rewrite bind_Some_eq.
      cbv zeta. fold m2 n. rewrite !next_offset_at by (done || unfold PROCESS_USER_BASE; lia).
      by replace (load + 4 * i + 4) with (load + 4 * (i + 1)) by lia.
    + assert (B1 : bytes_at m' (load + o) l).
      { intros q c Hq. pose proof (lookup_lt_Some _ _ _ Hq) as Hlt. rewrite Hk2 by lia. unfold m2.
        rewrite lookup_write_out by (cbn [length word_list]; lia). unfold m1. rewrite write_app.
        rewrite lookup_write_out by lia. by apply lookup_write_in. }
      assert (Z1 : ls = [] \/ n mod 4 <> 0 -> m' !! (load + o + n) = Some 0).
      { intros Hlast. assert (Ez : m2 !! (load + o + n) = Some 0).
        { unfold m2. rewrite lookup_write_out by (cbn [length word_list]; lia). unfold m1. rewrite write_app.
          rewrite <- (Z.add_0_r (load + o + n)). by apply (lookup_write_in _ [0] _ 0%nat). }
        rewrite <- Ez. destruct Hlast as [->|Hmod].
        -- destruct (decide (n mod 4 = 0)) as [H0|H0]; [|apply Hk2; unfold next_offset; Z.to_euclidean_division_equations; lia].
           inversion Hs; subst. destruct fuel as [|fuel]; [by injection E as <-|]. cbn [argv_loop] in E.
           replace (argv + 4 * (i + 1)) with (argv + 4 * i + 4) in E by lia. rewrite (load32_frame _ m) in E.
           ++ destruct Ha' as [Hb _]. pose proof (load32_word m _ _ 0%nat 0 Hb eq_refl ltac:(lia)) as E0.
              change (4 * Z.of_nat 0) with 0 in E0. rewrite Z.add_0_r in E0. rewrite E0, bind_Some_eq in E.
              by injection E as <-.
           ++ intros x Hx. apply Hp1. unfold disjoint in Hdj. cbn [length] in Hdj. lia.
        -- apply Hk2. right. split; [lia|]. unfold next_offset. Z.to_euclidean_division_equations. lia. }
      cbn [read_back args_at]. fold n. split; [|split; [|done]].
      * rewrite (load32_frame _ m2).
        -- apply load32_bytes; [unfold PROCESS_USER_BASE; lia|apply write_bytes].
        -- intros x Hx. apply Hk2. lia.
      * destruct (Z.eqb_spec (n mod 4) 0) as [E0|E0]; [|split; [apply bytes_at_app; split; [done|]|apply Hc]].
        -- apply cstr_app; [done|apply Hc|]. fold n. destruct ls as [|l2 ls2].
           ++ cbn [read_back List.hd]. split; [|done]. intros [|q] c0 Hc0; [|done]. injection Hc0 as <-.
              rewrite Z.add_0_r. apply Z1. by left.
           ++ assert (En : next_offset o n = o + n) by (unfold next_offset; Z.to_euclidean_division_equations; lia).
              cbn [read_back args_at] in Hargs. rewrite En in Hargs. cbn [read_back List.hd].
              rewrite <- Z.add_assoc. apply Hargs.
        -- intros [|q] c0 Hc0; [|done]. injection Hc0 as <-. rewrite Z.add_0_r. apply Z1. by right.
    + split; [intros x Hx; rewrite Hk1 by done; by apply Hp1|]. intros x Hx. rewrite Hk2 by lia.
      unfold m2, m1. rewrite !lookup_write_out; [done|lia|cbn [length word_list]; lia].
Qed.
End args.

Lemma setup_args_ok {L : Type} (ks t argv i : Z) (rest ps : list Z) (ls : list (list Z)) (v : vm L) :
  let load := page_id_to_va ks i in
  0 < load /\ load mod 4 = 0 /\ load + 8192 < 2 ^ 32 -> argv <> 0 ->
  Z.of_nat (length ps) <= MAX_ARGV ->
  is_list v.(vm_pages).(plists) (ElfImageList t) (plist (i :: rest)) ->
  argv_at v.(vm_ram) argv ps -> disjoint load 4096 argv (4 * (Z.of_nat (length ps) + 1)) ->
  strings_at load v.(vm_ram) ps ls -> args_fit 64 ls -> room v.(vm_ram) load 4096 ->
  exists m', setup_task_argv ks t argv v = Some (0, with_vm_ram m' v) /\
    args_at m' load 0 64 ls (read_back ls) /\ page_only load v.(vm_ram) m'.
Proof.
  intros load Hload Ha Hn Hl Hv Hd Hs Hf Hr.
  destruct (args_loop_ok load Hload argv ps ls 16 0 64 v.(vm_ram)) as (m' & E & Hargs & [Hp _]);
    try done; try lia.
  { by rewrite Z.mul_0_r, Z.add_0_r. } { by rewrite Z.mul_0_r, Z.add_0_r. }
  exists m'. split; [|done]. unfold setup_task_argv. rewrite (proj2 (Z.eqb_neq argv 0)) by done.
  cbn [fmap list_fmap] in Hl. rewrite (is_list_first _ _ _ Hl), bind_Some_eq. cbn [List.hd plist_entry].
  rewrite bind_Some_eq. unfold page_to_va, page_to_page_id. fold load. change (Z.to_nat MAX_ARGV) with 16%nat.
  replace (load +u (PROCESS_USER_BASE + MAX_ARGV * 4 -u PROCESS_USER_BASE)) with (load + 64)
    by (change (PROCESS_USER_BASE + MAX_ARGV * 4 -u PROCESS_USER_BASE) with 64; rewrite u32_small; lia).
  rewrite Z.mul_0_r, Z.add_0_r in E. change (PROCESS_USER_BASE + MAX_ARGV * 4) with (PROCESS_USER_BASE + 64).
  by rewrite E, bind_Some_eq.
Qed.

(** What a new program finds in its argument page.  For the vector [ps] of at most
    sixteen pointers to the strings [ls], outside the page and together with the table
    no longer than it, [setup_task_argv] fills the table at the start of the page with
    the user addresses of the strings, which it copies behind it, each from a word
    boundary on; each is read back with its terminator, except that one whose length is a
    multiple of four runs into the next.  Nothing outside the page changes. *)
Theorem setup_task_argv_lays_out {L : Type} (ks t argv i : Z) (rest ps : list Z) (ls : list (list Z)) (v : vm L)
    (load := page_id_to_va ks i)
    (Hload : 0 < load /\ load mod 4 = 0 /\ load + 8192 < 2 ^ 32) (Ha : argv <> 0)
    (Hn : Z.of_nat (length ps) <= MAX_ARGV)
    (Hl : is_list v.(vm_pages).(plists) (ElfImageList t) (plist (i :: rest)))
    (Hv : argv_at v.(vm_ram) argv ps) (Hd : disjoint load 4096 argv (4 * (Z.of_nat (length ps) + 1)))
    (Hs : strings_at load v.(vm_ram) ps ls) (Hf : args_fit 64 ls) (Hr : room v.(vm_ram) load 4096) :
  exists m', setup_task_argv ks t argv v = Some (0, with_vm_ram m' v) /\
    args_at m' load 0 64 ls (read_back ls) /\ page_only load v.(vm_ram) m'.
Proof. by apply (setup_args_ok ks t argv i rest ps ls v). Qed.

(** The vector at 0x100 with the strings at 0x200, for a task whose image starts on
    page 2. *)
Definition args_ram (l1 l2 : list Z) : mem :=
  write 0x100 (words_bytes [0x200; 0x300; 0]) (write 0x200 (l1 ++ [0]) (write 0x300 (l2 ++ [0])
    (write 0x80002000 (replicate (Z.to_nat 4096) 9) ∅))).

Definition args_lists : lheap node :=
  {[ ElfImageList 1 := ListHead (PagePlist 2) (PagePlist 2);
     PagePlist 2 := ListHead (ElfImageList 1) (ElfImageList 1) ]}.

Definition args_vm (l1 l2 : list Z) : vm unit :=
  Mk_vm (Mk_mm (Mk_bank 0 0 0 []) [] [] args_lists tt) (args_ram l1 l2).

Lemma args_list : is_list args_lists (ElfImageList 1) (plist [2]).
Proof. split; [apply (bool_decide_unpack _); vm_compute; exact I|repeat split; vm_compute; reflexivity]. Qed.

Lemma args_page : page_id_to_va 0x80000000 2 = 0x80002000.
Proof. reflexivity. Qed.

Section example.
Variables l1 l2 : list Z.
Hypothesis Hb : Forall (fun c => 0 < c < 256) l1 /\ Forall (fun c => 0 < c < 256) l2.
Hypothesis Hlen : Z.of_nat (length l1) < 200 /\ Z.of_nat (length l2) < 200.

Lemma args_room : room (args_ram l1 l2) 0x80002000 4096.
Proof.
  unfold args_ram. do 3 apply room_write. intros q Hq.
  apply (room_write_self 0x80002000 (replicate (Z.to_nat 4096) 9)). rewrite length_replicate. lia.
Qed.

Lemma args_vector : argv_at (args_ram l1 l2) 0x100 [0x200; 0x300].
Proof. split; [apply write_bytes|]. repeat constructor; lia. Qed.

Lemma args_strings : strings_at 0x80002000 (args_ram l1 l2) [0x200; 0x300] [l1; l2].
Proof.
  destruct Hb as [H1 H2]. constructor; [|constructor; [|constructor]]; (split; [split; [|done]|unfold disjoint; lia]).
  - apply (bytes_at_frame (write 0x200 (l1 ++ [0]) (write 0x300 (l2 ++ [0])
      (write 0x80002000 (replicate (Z.to_nat 4096) 9) ∅)))); [apply write_bytes|].
    intros x Hx. apply lookup_write_out. rewrite length_words. cbn [length]. lia.
  - apply (bytes_at_frame (write 0x300 (l2 ++ [0]) (write 0x80002000 (replicate (Z.to_nat 4096) 9) ∅)));
      [apply write_bytes|].
    intros x Hx. rewrite length_app in Hx. cbn [length] in Hx. unfold args_ram.
    rewrite lookup_write_out by (rewrite length_words; cbn [length]; lia).
    by rewrite (lookup_write_out 0x200) by (rewrite length_app; cbn [length]; lia).
Qed.

Lemma args_small o n : o = 64 -> 0 <= n < 200 -> next_offset o n <= 300.
Proof. intros -> Hn. unfold next_offset. Z.to_euclidean_division_equations. lia. Qed.

Lemma args_ok_fit : args_fit 64 [l1; l2].
Proof. cbn [args_fit]. pose proof (args_small 64 (Z.of_nat (length l1)) eq_refl ltac:(lia)). lia. Qed.
End example.

Lemma setup_task_argv_lays_out_witness :
  exists m', setup_task_argv 0x80000000 1 0x100 (args_vm [97; 98] [99]) =
      Some (0, with_vm_ram m' (args_vm [97; 98] [99])) /\
    load32 (0x80002000 + 4 * 0) m' = Some (PROCESS_USER_BASE + 64) /\
    cstr m' (0x80002000 + 64) [97; 98] /\
    load32 (0x80002000 + 4 * 1) m' = Some (PROCESS_USER_BASE + 68).
Proof.
  destruct (setup_task_argv_lays_out 0x80000000 1 0x100 2 [] [0x200; 0x300] [[97; 98]; [99]] (args_vm [97; 98] [99]))
    as (m' & E & Hargs & _).
  - rewrite args_page. split; [lia|split; [reflexivity|lia]].
  - lia.
  - vm_compute. discriminate.
  - exact args_list.
  - apply args_vector.
  - rewrite args_page. unfold disjoint. cbn [length]. lia.
  - rewrite args_page. apply args_strings; repeat constructor; lia.
  - apply args_ok_fit; cbn [length]; lia.
  - rewrite args_page. apply args_room.
  - exists m'. split; [exact E|]. rewrite args_page in Hargs. destruct Hargs as (E1 & B1 & E2 & _).
    split; [exact E1|]. split; [exact B1|exact E2].
Defined.

(** ** A deviation *)

(** The next string starts where the last one ends, rounded up to a word, and so on
    its terminator when the length is a multiple of four: the program reads the two
    arguments as one. *)
Theorem word_sized_argument_runs_on :
  exists m', setup_task_argv 0x80000000 1 0x100 (args_vm [97; 98; 99; 100] [101]) =
      Some (0, with_vm_ram m' (args_vm [97; 98; 99; 100] [101])) /\
    strlen (0x80002000 + 64) m' = Some 5.
Proof.
  destruct (setup_args_ok 0x80000000 1 0x100 2 [] [0x200; 0x300] [[97; 98; 99; 100]; [101]]
    (args_vm [97; 98; 99; 100] [101])) as (m' & E & Hargs & _).
  - rewrite args_page. split; [lia|split; [reflexivity|lia]].
  - lia.
  - vm_compute. discriminate.
  - exact args_list.
  - apply args_vector.
  - rewrite args_page. unfold disjoint. cbn [length]. lia.
  - rewrite args_page. apply args_strings; repeat constructor; lia.
  - apply args_ok_fit; cbn [length]; lia.
  - rewrite args_page. apply args_room.
  - exists m'. split; [exact E|]. rewrite args_page in Hargs.
    destruct Hargs as (_ & B1 & _). by rewrite (strlen_ok _ _ _ B1) by (simpl; lia).
Qed.
