(* ===== verification/KernelCalm.v ===== *)
(** * What the allocators leave of the scheduler

    Locking and unlocking a free mutex changes nothing of the scheduler but the list
    node of that mutex.  A second instance of [LockOps], with the operations of
    [KernelLocks], carries this through the allocators: a mutex is free for it only in
    states that are [calm] with respect to the one the allocation started in. *)

From S2P Require Import Prelude ListHead TaskStruct Sched SchedInv SchedSpec SchedBoot SchedApi.
From S2P Require Import Mutex Bitops MmTypes KernelLocks.

(** A list determines the links of its nodes. *)
Lemma chain_links (h h' : lheap node) x l y k :
  chain h x l y -> chain h' x l y -> k ∈ l -> h' !! k = h !! k.
Proof.
  revert x. induction l as [|z l IH]; intros x Hc Hc' Hk; [by apply elem_of_nil in Hk|].
  cbn [chain] in Hc, Hc'. destruct Hc as [[_ P1] C1], Hc' as [[_ P2] C2].
  apply elem_of_cons in Hk as [->|Hk]; [|by apply (IH z)].
  pose proof (chain_first _ _ _ _ C1) as N1. pose proof (chain_first _ _ _ _ C2) as N2.
  unfold list_next, list_prve in *. destruct (h !! z) as [[a b]|], (h' !! z) as [[a' b']|]; simpl in *; congruence.
Qed.

Lemma is_list_links (h h' : lheap node) hd l k :
  is_list h hd l -> is_list h' hd l -> k ∈ hd :: l -> h' !! k = h !! k.
Proof.
  intros Hl Hl' Hk. apply elem_of_cons in Hk as [->|Hk].
  - pose proof (is_list_first _ _ _ Hl) as N1. pose proof (is_list_first _ _ _ Hl') as N2.
    pose proof (is_list_last_node _ _ _ Hl) as P1. pose proof (is_list_last_node _ _ _ Hl') as P2.
    unfold list_next, list_prve in *. destruct (h !! hd) as [[a b]|], (h' !! hd) as [[a' b']|]; simpl in *; congruence.
  - by apply (chain_links h h' hd l hd k); [apply Hl|apply Hl'|].
Qed.

(** Only nodes of free mutexes differ. *)
Record calm (s0 s : sched_state) : Prop := {
  ca_rest : s = with_heap s.(heap) s0;
  ca_dom : dom s.(heap) = dom s0.(heap);
  ca_heap : forall k, (forall m, k = MutexTask m -> s0.(mutex_count) !! m <> Some 0) ->
    s.(heap) !! k = s0.(heap) !! k
}.

#[global] Instance calm_preorder : PreOrder calm.
Proof.
  split.
  - intros s. constructor; [by destruct s|done|done].
  - intros a b c [A1 A2 A3] [B1 B2 B3]. constructor.
    + rewrite B1, A1. done.
    + by rewrite B2.
    + intros k Hk. rewrite B3, A3; [done|done|]. intros m Em. rewrite A1. by apply Hk.
Qed.

(** The current task and its list of mutexes are in order. *)
Record lock_wf (s0 : sched_state) : Prop := {
  lw_cur : truth s0.(current) = true;
  lw_held : exists l, is_list s0.(heap) (TMutexGet s0.(current)) (MutexTask <$> l) /\
    forall m, m ∈ l -> exists c, s0.(mutex_count) !! m = Some c /\ c <> 0
}.

(** Free, and nobody waits. *)
Record idle_mutex (s0 : sched_state) (m : Z) : Prop := {
  im_count : s0.(mutex_count) !! m = Some 0;
  im_wait : is_list s0.(heap) (MutexWait m) [];
  im_node : is_Some (s0.(heap) !! MutexTask m)
}.

Section calm_locks.
Variable s0 : sched_state.

Definition calm_free (s : sched_state) (m : Z) : Prop := lock_wf s0 /\ calm s0 s /\ idle_mutex s0 m.

(** Taking a free mutex. *)
Lemma lock_calm s m :
  calm_free s m ->
  exists h1 l, lock_now m s = Some (set_mutex_val m 1 (with_heap h1 s)) /\
    is_list s0.(heap) (TMutexGet s0.(current)) (MutexTask <$> l) /\ ~ (m ∈ l) /\
    is_list h1 (TMutexGet s0.(current)) (MutexTask <$> (l ++ [m])) /\ dom h1 = dom s0.(heap) /\
    (forall k, k ∉ MutexTask m :: TMutexGet s0.(current) :: (MutexTask <$> l) -> h1 !! k = s.(heap) !! k).
Proof.
  intros ([Hcur (l & Hl & Hh)] & [Hr Hd Hf] & [Hc Hw Hn]).
  assert (Hml : m ∉ l) by (intros Hin; destruct (Hh m Hin) as (c & Hc' & ?); congruence).
  assert (Hl1 : is_list s.(heap) (TMutexGet s0.(current)) (MutexTask <$> l)).
  { apply (is_list_frame s0.(heap)); [|done]. intros k Hk. apply Hf. intros m' ->.
    apply elem_of_cons in Hk as [|(x & [= ->] & Hx)%list_elem_of_fmap]; [done|].
    destruct (Hh _ Hx) as (c & Hc' & ?). congruence. }
  assert (Hnot : MutexTask m ∉ TMutexGet s0.(current) :: (MutexTask <$> l)).
  { intros [|(x & [= <-] & Hx)%list_elem_of_fmap]%elem_of_cons; done. }
  destruct (list_add_tail_spec s.(heap) _ _ (MutexTask m) Hl1 Hnot) as (h1 & E & Hl2 & Hd2 & Hf2).
  { apply elem_of_dom. rewrite Hd. by apply elem_of_dom. }
  exists h1, l. split; [|split_and!; try done].
  - unfold lock_now, mutex_lock, mutex_lock_timeout, lock_iter, enter_critical, mutex_val.
    assert (Ecur : s.(current) = s0.(current)) by (by rewrite Hr).
    assert (Ecnt : s.(mutex_count) !! m = Some 0) by (by rewrite Hr).
    cbn [mutex_count with_cpsr_c current]. rewrite Ecnt, bind_Some_eq, Ecur. change (truth 0) with false.
    cbn iota. rewrite Hcur. cbn [heap set_mutex_val with_mutex_count with_cpsr_c].
    by rewrite E, !bind_Some_eq.
  - by rewrite fmap_app.
  - by rewrite Hd2.
Qed.

Lemma unlock_calm s m h1 l :
  calm_free s m -> is_list s0.(heap) (TMutexGet s0.(current)) (MutexTask <$> l) -> m ∉ l ->
  is_list h1 (TMutexGet s0.(current)) (MutexTask <$> (l ++ [m])) -> dom h1 = dom s0.(heap) ->
  (forall k, k ∉ MutexTask m :: TMutexGet s0.(current) :: (MutexTask <$> l) -> h1 !! k = s.(heap) !! k) ->
  exists s2, mutex_unlock m (set_mutex_val m 1 (with_heap h1 s)) = Some s2 /\ calm s0 s2.
Proof.
  intros ([Hcur _] & [Hr Hd Hf] & [Hc Hw Hn]) Hl0 Hml Hl1 Hd1 Hf1.
  assert (Hw1 : is_list h1 (MutexWait m) []).
  { apply (is_list_frame s0.(heap)); [|done]. intros k ->%list_elem_of_singleton. rewrite Hf1, Hf; try done.
    rewrite !not_elem_of_cons. split_and!; try done. by intros (x & ? & _)%list_elem_of_fmap. }
  rewrite fmap_app in Hl1. cbn [fmap list_fmap] in Hl1.
  destruct (list_del_spec _ _ _ _ _ Hl1) as (h2 & E2 & Hl2 & Hd2 & Hf2). rewrite app_nil_r in Hl2, Hf2.
  exists (with_heap h2 s). split.
  - unfold mutex_unlock, mutex_val, enter_critical. cbn [mutex_count set_mutex_val with_mutex_count].
    rewrite lookup_insert_eq, bind_Some_eq. change (truth 1) with true. cbn [negb heap with_heap with_cpsr_c with_mutex_count set_mutex_val].
    rewrite (is_list_first _ _ _ Hw1), bind_Some_eq. cbn [List.hd list_for_each].
    rewrite bool_decide_true by done. rewrite bind_Some_eq. cbn [heap with_heap with_cpsr_c with_mutex_count set_mutex_val].
    unfold is_list_empty. rewrite (is_list_next _ _ _ _ _ Hl1), bind_Some_eq. cbn [List.hd].
    rewrite bind_Some_eq. rewrite bool_decide_false by done. cbn [negb]. rewrite E2, !bind_Some_eq.
    unfold exit_critical. do 2 f_equal. rewrite Hr. unfold with_heap, with_cpsr_c, with_mutex_count. simpl. f_equal.
    rewrite insert_insert_eq. by apply insert_id.
  - constructor; cbn [heap with_heap].
    + by rewrite Hr.
    + by rewrite Hd2.
    + intros k Hk. destruct (decide (k ∈ TMutexGet s0.(current) :: (MutexTask <$> l))) as [Hin|Hin].
      * by apply (is_list_links _ _ _ _ _ Hl0 Hl2).
      * rewrite Hf2 by done. rewrite Hf1; [by apply Hf|]. apply not_elem_of_cons. split; [|done].
        intros ->. by apply (Hk m).
Qed.

Lemma calm_lock_ok s m :
  calm_free s m ->
  exists s1 s2, lock_now m s = Some s1 /\ mutex_unlock m s1 = Some s2 /\
    forall m', calm_free s m' -> calm_free s2 m'.
Proof.
  intros Hm. destruct (lock_calm s m Hm) as (h1 & l & E & Hl0 & Hml & Hl1 & Hd1 & Hf1).
  destruct (unlock_calm s m h1 l Hm Hl0 Hml Hl1 Hd1 Hf1) as (s2 & E2 & Hc).
  exists (set_mutex_val m 1 (with_heap h1 s)), s2. split; [done|]. split; [done|]. intros m' (H1 & _ & H3). done.
Qed.

Definition calm_locks : LockOps sched_state := {|
  lk_free := calm_free;
  lk_ok := calm_lock_ok
|}.
End calm_locks.

(** ** What a calm state keeps *)

Lemma calm_list s0 s hd l :
  calm s0 s -> (forall m, MutexTask m ∈ hd :: l -> s0.(mutex_count) !! m <> Some 0) ->
  is_list s0.(heap) hd l -> is_list s.(heap) hd l.
Proof.
  intros [_ _ Hf] Hm Hl. apply (is_list_frame s0.(heap)); [|done]. intros k Hk. apply Hf.
  intros m ->. by apply Hm.
Qed.

Lemma calm_queue s0 s k : calm s0 s -> queue_node k = true -> s.(heap) !! k = s0.(heap) !! k.
Proof. intros Hc Hk. apply (ca_heap _ _ Hc). by intros m ->. Qed.

Lemma calm_good s0 s a : calm s0 s -> good s0 a -> good s a.
Proof.
  intros Hc [Hr Hcur Hn Hi Hrn Ho].
  assert (Hr' : refines (with_heap s.(heap) s0) a).
  { apply refines_heap; [done|apply (ca_dom _ _ Hc)|]. intros k. by apply calm_queue. }
  rewrite (ca_rest _ _ Hc). by constructor.
Qed.

Lemma calm_mwf s0 s w h : calm s0 s -> mwf s0 w h -> mwf s w h.
Proof.
  intros Hc [H1 H2 H3 H4 H5 H6 H7 H8 H9 H10].
  assert (Hal : forall k, is_Some (s0.(heap) !! k) -> is_Some (s.(heap) !! k)).
  { intros k. by rewrite <- !elem_of_dom, (ca_dom _ _ Hc). }
  pose proof (ca_rest _ _ Hc) as Er.
  assert (Em : s.(mutex_count) = s0.(mutex_count)) by (by rewrite Er).
  assert (Et : s.(tasks) = s0.(tasks)) by (by rewrite Er).
  constructor; rewrite ?Em, ?Et; try done.
  - intros m Hm. apply (calm_list _ _ _ _ Hc); [|by apply H1].
    intros m' [|(x & ? & _)%list_elem_of_fmap]%elem_of_cons; done.
  - intros t Ht. apply (calm_list _ _ _ _ Hc); [|by apply H2].
    intros m' [|(x & [= <-] & Hx)%list_elem_of_fmap]%elem_of_cons; [done|]. intros E0. by apply (H3 m' E0 t).
  - intros t Ht. by apply Hal, H9.
  - intros m Hm. by apply Hal, H10.
Qed.

Lemma mwf_lock_wf s w h :
  mwf s w h -> is_Some (s.(tasks) !! s.(current)) -> truth s.(current) = true -> lock_wf s.
Proof.
  intros Hm Hcur Ht. constructor; [done|].
  exists (h s.(current)). split; [by apply (mw_held _ _ _ Hm)|]. intros m Hin.
  destruct (mw_dom _ _ _ Hm m _ Hin) as [[c Ec] _]. exists c. split; [done|]. intros ->.
  by apply (mw_free _ _ _ Hm m Ec s.(current)).
Qed.

Lemma good_lock_wf s a w h : good s a -> mwf s w h -> lock_wf s.
Proof.
  intros Hg Hm. pose proof Hg as [[Hwf Ets] Hcur _ _ _ _]. rewrite <- Ets in Hcur.
  apply (mwf_lock_wf s w h); [done|done|].
  pose proof (wf_addr _ _ Hwf _ Hcur). unfold truth. by rewrite (proj2 (Z.eqb_neq s.(current) 0)) by lia.
Qed.

(** The current task and the free mutexes are in order in a calm state as well. *)
Lemma calm_lock_wf s0 s : calm s0 s -> lock_wf s0 -> lock_wf s.
Proof.
  intros Hc [Hcur (l & Hl & Hh)]. pose proof (ca_rest _ _ Hc) as Er.
  assert (Ec : s.(current) = s0.(current)) by (by rewrite Er).
  assert (Em : s.(mutex_count) = s0.(mutex_count)) by (by rewrite Er).
  constructor; rewrite Ec; [done|]. exists l. split; [|by rewrite Em].
  apply (calm_list _ _ _ _ Hc); [|done]. intros m [|(x & [= <-] & Hx)%list_elem_of_fmap]%elem_of_cons; [done|].
  destruct (Hh m Hx) as (c & E & Hne). congruence.
Qed.

Lemma calm_idle s0 s m : calm s0 s -> idle_mutex s0 m -> idle_mutex s m.
Proof.
  intros Hc [H1 H2 H3]. pose proof (ca_rest _ _ Hc) as Er. constructor.
  - by rewrite Er.
  - apply (calm_list _ _ _ _ Hc); [|done]. by intros m' ?%list_elem_of_singleton.
  - apply elem_of_dom. rewrite (ca_dom _ _ Hc). by apply elem_of_dom.
Qed.

(** They only read the nodes of the mutexes. *)
Lemma lock_wf_frame s0 s :
  lock_wf s0 -> s.(current) = s0.(current) -> s.(mutex_count) = s0.(mutex_count) ->
  (forall n, mutex_node n = true -> s.(heap) !! n = s0.(heap) !! n) -> lock_wf s.
Proof.
  intros [Hcur (l & Hl & Hh)] Ec Em Hn. constructor; rewrite Ec; [done|]. exists l. split; [|by rewrite Em].
  apply (is_list_frame s0.(heap)); [|done].
  intros n [->|(x & -> & _)%list_elem_of_fmap]%elem_of_cons; by apply Hn.
Qed.

Lemma idle_frame s0 s m :
  idle_mutex s0 m -> s.(mutex_count) = s0.(mutex_count) ->
  (forall n, mutex_node n = true -> s.(heap) !! n = s0.(heap) !! n) -> idle_mutex s m.
Proof.
  intros [H1 H2 H3] Em Hn. constructor.
  - by rewrite Em.
  - apply (is_list_frame s0.(heap)); [|done]. intros n ->%list_elem_of_singleton. by apply Hn.
  - by rewrite Hn.
Qed.
