(* ===== verification/TaskBuild.v ===== *)
(** * A task under construction

    While [fork_new_task] fills a structure in, the scheduler's invariant does not hold
    of it.  [building] says that the rest of the scheduler is as it was; it is enough
    for the allocators to work, and [init_sched_struct] makes the invariant hold of the
    new task as well. *)

From S2P Require Import Prelude ListHead TaskStruct Sched SchedInv SchedSpec SchedBoot SchedApi.
From S2P Require Import Mutex Bitops MmTypes KernelLocks KernelCalm.

Section building.
Variables t tm : Z.

Implicit Types (s : sched_state) (a : astate) (k : task_struct).

(** From [s0] to [s] only the task [t] and its mutex [tm] were worked on. *)
Record building s0 s : Prop := {
  bd_ctl : s = with_heap s.(heap) (with_mutex_count s.(mutex_count) (with_tasks s.(tasks) s0));
  bd_tasks : forall x, x <> t -> s.(tasks) !! x = s0.(tasks) !! x;
  bd_queue : forall n, queue_node n = true -> s.(heap) !! n = s0.(heap) !! n;
  bd_mutex : forall n, mutex_node n = true -> n <> MutexWait tm -> n <> MutexTask tm ->
    (forall m, n = MutexTask m -> s0.(mutex_count) !! m <> Some 0) -> s.(heap) !! n = s0.(heap) !! n;
  bd_count : forall m, m <> tm -> s.(mutex_count) !! m = s0.(mutex_count) !! m;
  bd_dom : forall n, is_Some (s0.(heap) !! n) -> is_Some (s.(heap) !! n)
}.

Lemma building_refl s : building s s.
Proof. constructor; try done. by destruct s. Qed.

Lemma building_calm s0 s s' : building s0 s -> calm s s' -> building s0 s'.
Proof.
  intros [B1 B2 B3 B4 B5 B6] Hc. pose proof (ca_rest _ _ Hc) as Er. constructor.
  - rewrite Er. rewrite B1. done.
  - intros x Hx. rewrite Er. by apply B2.
  - intros n Hn. rewrite (calm_queue s) by done. by apply B3.
  - intros n H1 H2 H3 H4. rewrite (ca_heap _ _ Hc); [by apply B4|]. intros m ->.
    rewrite B5 by congruence. by apply H4.
  - intros m Hm. rewrite Er. by apply B5.
  - intros n Hn. apply elem_of_dom. rewrite (ca_dom _ _ Hc). by apply elem_of_dom, B6.
Qed.

Lemma building_put s0 s k : building s0 s -> building s0 (with_tasks (<[t := k]> s.(tasks)) s).
Proof.
  intros [B1 B2 B3 B4 B5 B6]. constructor; try done.
  - rewrite B1. done.
  - intros x Hx. simpl. rewrite lookup_insert_ne by done. by apply B2.
Qed.

Lemma building_heap s0 s h' :
  building s0 s -> (forall n, queue_node n = true \/ mutex_node n = true -> h' !! n = s.(heap) !! n) ->
  (forall n, is_Some (s.(heap) !! n) -> is_Some (h' !! n)) -> building s0 (with_heap h' s).
Proof.
  intros [B1 B2 B3 B4 B5 B6] Hh Hd. constructor; try done.
  - rewrite B1. done.
  - intros n Hn. simpl. rewrite Hh by (by left). by apply B3.
  - intros n Hn. simpl. rewrite Hh by (by right). by apply B4.
  - intros n Hn. simpl. by apply Hd, B6.
Qed.

Lemma building_init_mutex s0 s : building s0 s -> building s0 (init_mutex tm s).
Proof.
  intros [B1 B2 B3 B4 B5 B6]. constructor; try done; simpl; unfold init_list.
  - rewrite B1. done.
  - intros n Hn. rewrite !lookup_insert_ne by (by intros <-). by apply B3.
  - intros n Hn H1 H2 H3. rewrite !lookup_insert_ne by (by intros <-). by apply B4.
  - intros m Hm. rewrite lookup_insert_ne by done. by apply B5.
  - intros n Hn. do 2 (apply lookup_insert_is_Some'; right). by apply B6.
Qed.

Lemma building_lock_wf s0 s :
  lock_wf s0 -> s0.(mutex_count) !! tm = None -> building s0 s -> lock_wf s.
Proof.
  intros [Hc (l & Hl & Hh)] Hn [B1 B2 B3 B4 B5 B6].
  assert (Ec : s.(current) = s0.(current)) by (by rewrite B1). constructor; rewrite Ec; [done|].
  assert (Hne : forall m, m ∈ l -> m <> tm /\ s0.(mutex_count) !! m <> Some 0).
  { intros m Hm. destruct (Hh m Hm) as (c & E & H0). split; [by intros ->; congruence|congruence]. }
  exists l. split.
  - apply (is_list_frame s0.(heap)); [|done].
    intros n [->|(m & -> & Hm)%list_elem_of_fmap]%elem_of_cons; [by apply B4|].
    destruct (Hne m Hm) as [H1 H2]. apply B4; try done; [congruence|]. by intros m' [= <-].
  - intros m Hm. rewrite B5 by (by apply Hne). by apply Hh.
Qed.

Lemma building_idle s0 s m : s0.(mutex_count) !! tm = None -> building s0 s -> idle_mutex s0 m -> idle_mutex s m.
Proof.
  intros Hn [B1 B2 B3 B4 B5 B6] [H1 H2 H3].
  assert (m <> tm) by (intros ->; congruence). constructor.
  - by rewrite B5.
  - apply (is_list_frame s0.(heap)); [|done]. intros n ->%list_elem_of_singleton. apply B4; [done|congruence|done|done].
  - by apply B6.
Qed.

Lemma building_free s0 s m :
  lock_wf s0 -> s0.(mutex_count) !! tm = None -> idle_mutex s0 m -> building s0 s -> calm_free s s m.
Proof.
  intros H1 H2 H3 H4. split; [by apply (building_lock_wf s0)|]. split; [done|]. by apply (building_idle s0).
Qed.

(** ** [init_sched_struct] completes the task *)

Definition add_task k a : astate := Abs (<[t := k]> a.(a_tasks)) a.(a_view).

Section complete.
Context (s0 s : sched_state) (a : astate) (w h : mview) (k : task_struct) (p : Z).
Hypothesis Hg : good s0 a.
Hypothesis Hm : mwf s0 w h.
Hypothesis Hb : building s0 s.
Hypothesis Hnew : s0.(tasks) !! t = None.
Hypothesis Hadr : 0 < t < 2 ^ 32.
Hypothesis Htm : s0.(mutex_count) !! tm = None.
Hypothesis Hcnt : s.(mutex_count) !! tm = Some 0.
Hypothesis Hwait : is_list s.(heap) (MutexWait tm) [].
Hypothesis Hnode : is_Some (s.(heap) !! MutexTask tm).
Hypothesis Hk : s.(tasks) !! t = Some k.
Hypothesis Hp : init_sched_prio k s = Some p.
Hypothesis Hprio : 0 <= p < MAX_PRIO.

Let s' : sched_state :=
  with_heap (init_task_nodes t s.(heap)) (with_tasks (<[t := fresh_sched p k]> s.(tasks)) s).

Lemma complete_tasks : <[t := fresh_sched p k]> s.(tasks) = <[t := fresh_sched p k]> s0.(tasks).
Proof.
  apply map_eq. intros x. destruct (decide (x = t)) as [->|Hne]; [by rewrite !lookup_insert_eq|].
  rewrite !lookup_insert_ne by done. by apply (bd_tasks _ _ Hb).
Qed.

Lemma complete_refines : refines s' (add_task (fresh_sched p k) a).
Proof.
  assert (Hr : refines (with_heap s.(heap) s0) a).
  { apply refines_nodes; [apply Hg|]. apply (bd_queue _ _ Hb). }
  pose proof (proj2 (good_refines _ _ Hg)) as Ets.
  pose proof (new_task_sim _ a t k p Hr ltac:(by rewrite <- Ets) Hadr Hprio) as Hr'.
  unfold s'. rewrite complete_tasks. rewrite (bd_ctl _ _ Hb). ctl Hr'.
Qed.

Lemma complete_good : good s' (add_task (fresh_sched p k) a).
Proof.
  pose proof Hg as [Hr Hc Hn Hi Hrn Ho]. pose proof (bd_ctl _ _ Hb) as E.
  constructor; [apply complete_refines| | | | |]; unfold s'; cbn [current next_run in_interrupt schedule_running with_heap with_tasks];
    try (rewrite E; done).
  - rewrite E. cbn. apply lookup_insert_is_Some'. by right.
  - intros x tk. cbn. destruct (decide (x = t)) as [->|Hne].
    + rewrite lookup_insert_eq. by intros [= <-].
    + rewrite lookup_insert_ne by done. rewrite E. apply Ho.
Qed.

Lemma new_waits_not : w tm = [] /\ h t = [].
Proof.
  split.
  - destruct (w tm) as [|x l] eqn:E; [done|]. destruct (mw_wdom _ _ _ Hm tm x) as [[c Ec] _]; [|congruence].
    rewrite E. set_solver.
  - destruct (h t) as [|m l] eqn:E; [done|]. destruct (mw_dom _ _ _ Hm m t) as [_ [c Ec]]; [|congruence].
    rewrite E. set_solver.
Qed.

(** An old node of the mutex lists. *)
Lemma complete_node n :
  mutex_node n = true -> n <> MutexWait tm -> n <> MutexTask tm -> n <> TWait t -> n <> TMutexGet t ->
  (forall m, n = MutexTask m -> s0.(mutex_count) !! m <> Some 0) -> s'.(heap) !! n = s0.(heap) !! n.
Proof.
  intros H1 H2 H3 H4 H5 H6. unfold s'. cbn [heap with_heap]. rewrite init_task_nodes_other; [|done|done|].
  - by apply (bd_mutex _ _ Hb).
  - intros q ->. pose proof (q_node_queue q t) as Hq. apply mutex_not_queue in H1. congruence.
Qed.

Lemma complete_mwf : mwf s' w h.
Proof.
  destruct new_waits_not as [Hw0 Hh0]. pose proof Hm as [H1 H2 H3 H4 H5 H6 H7 H8 H9 H10].
  assert (Hold : forall x, is_Some (s0.(tasks) !! x) -> x <> t) by (intros x [? Hx] ->; congruence).
  assert (Holdm : forall m, is_Some (s0.(mutex_count) !! m) -> m <> tm) by (intros m [? Hx] ->; congruence).
  assert (Ht' : forall x, is_Some (s'.(tasks) !! x) -> x = t \/ (x <> t /\ is_Some (s0.(tasks) !! x))).
  { intros x Hx. destruct (decide (x = t)) as [->|Hne]; [by left|]. right. split; [done|].
    unfold s' in Hx. simpl in Hx. rewrite lookup_insert_ne in Hx by done. by rewrite (bd_tasks _ _ Hb) in Hx. }
  assert (Hm' : forall m, s'.(mutex_count) !! m = if decide (m = tm) then Some 0 else s0.(mutex_count) !! m).
  { intros m. unfold s'. simpl. destruct (decide (m = tm)) as [->|Hne]; [done|]. by apply (bd_count _ _ Hb). }
  assert (Hal : forall n, is_Some (s0.(heap) !! n) -> is_Some (s'.(heap) !! n)).
  { intros n Hn. by apply init_task_nodes_alloc, (bd_dom _ _ Hb). }
  constructor.
  - intros m Hmm. rewrite Hm' in Hmm. destruct (decide (m = tm)) as [->|Hne].
    + rewrite Hw0. apply (is_list_frame s.(heap)); [|done]. intros n ->%list_elem_of_singleton.
      apply init_task_nodes_other; try done. by intros [?|[]].
    + apply (is_list_frame s0.(heap)); [|by apply H1].
      intros n [->|(x & -> & Hx)%list_elem_of_fmap]%elem_of_cons; apply complete_node; try done; try congruence.
      destruct (H8 m x Hx) as [_ Hxt]. intros [= ->]. by apply (Hold t).
  - intros x Hx%Ht'. destruct Hx as [->|[Hne Hx]].
    + rewrite Hh0. apply linked_self_empty. unfold s'. cbn [heap with_heap]. unfold init_task_nodes.
      apply linked_self_init. left. apply linked_self_init. by right.
    + apply (is_list_frame s0.(heap)); [|by apply H2].
      intros n [->|(m & -> & Hmx)%list_elem_of_fmap]%elem_of_cons; apply complete_node; try done; try congruence.
      * destruct (H7 m x Hmx) as [Hmc _]. intros [= ->]. by apply (Holdm tm).
      * intros m' [= <-] E. by apply (H3 m E x).
  - intros m. rewrite Hm'. destruct (decide (m = tm)) as [->|Hne]; [|apply H3].
    intros _ x Hin. destruct (H7 tm x Hin) as [Hmc _]. by apply (Holdm tm).
  - intros m c. rewrite Hm'. destruct (decide (m = tm)) as [->|Hne]; [|apply H4]. intros [= <-]. by left.
  - done.
  - done.
  - intros m x Hin. destruct (H7 m x Hin) as [A B]. rewrite Hm'. split; [by case_decide|].
    unfold s'. simpl. apply lookup_insert_is_Some'. right. rewrite (bd_tasks _ _ Hb); [done|by apply Hold].
  - intros m x Hin. destruct (H8 m x Hin) as [A B]. rewrite Hm'. split; [by case_decide|].
    unfold s'. simpl. apply lookup_insert_is_Some'. right. rewrite (bd_tasks _ _ Hb); [done|by apply Hold].
  - intros x Hx%Ht'. destruct Hx as [->|[Hne Hx]]; [|by apply Hal, H9].
    unfold s'. cbn [heap with_heap]. unfold init_task_nodes, init_list. apply lookup_insert_is_Some'. by left.
  - intros m Hmm. rewrite Hm' in Hmm. destruct (decide (m = tm)) as [->|Hne]; [|by apply Hal, H10].
    by apply init_task_nodes_alloc.
Qed.

Lemma complete_ok :
  exists s1, init_sched_struct t s = Some s1 /\ good s1 (add_task (fresh_sched p k) a) /\ mwf s1 w h /\
    s1.(tasks) !! t = Some (fresh_sched p k) /\ s1.(mutex_count) = s.(mutex_count) /\
    s1.(current) = s.(current) /\ s1.(idle) = s.(idle) /\
    (forall n, n <> TWait t -> n <> TMutexGet t -> (forall q, n <> q_node q t) -> s1.(heap) !! n = s.(heap) !! n) /\
    (forall x, x <> t -> s1.(tasks) !! x = s.(tasks) !! x).
Proof.
  exists s'. split; [by apply init_sched_struct_eq|]. split; [apply complete_good|].
  split; [apply complete_mwf|]. split; [apply lookup_insert_eq|]. do 3 (split; [done|]). split.
  - intros n. apply init_task_nodes_other.
  - intros x Hx. by apply lookup_insert_ne.
Qed.
End complete.
End building.
