(* ===== verification/Task.v ===== *)
(** * The life of a task

    Models the rest of [kernel/task.c]: creation ([fork_new_task], [do_fork],
    [kthread_run], [build_idle_task]), programs ([do_exec], [kernel_exec]) and death
    ([kill_task], [release_task]), with [sched_remove_task] and the system killer of
    [kernel/sched.c].  They work on the whole kernel: the scheduler state is the lock
    state of the page allocator, which is part of the slab allocator, which the files
    and program structures of [Elf] allocate from; the pid map is beside them.

    Names and argument vectors are addresses of kernel memory. *)

From S2P Require Import Prelude ListHead TaskStruct Bitops Mem CString MmTypes Pages Slab Ramdisk.
From S2P Require Import Sched Mutex KernelLocks Pid Regs Elf TaskMem TaskLoad.

Record kernel : Type := Mk_kernel {
  k_sys : elf_sys (slab_state sched_state);
  k_pids : pid_map
}.

Implicit Types (K : kernel) (t : Z) (k : task_struct).

(** ** The parts of the state *)

Definition with_sys (v : elf_sys (slab_state sched_state)) K : kernel := Mk_kernel v K.(k_pids).
Definition with_pids (v : pid_map) K : kernel := Mk_kernel K.(k_sys) v.

Definition slab_of K : slab_state sched_state := K.(k_sys).(disk).(alloc).
Definition with_slab (v : slab_state sched_state) K : kernel :=
  with_sys (with_disk (with_alloc v K.(k_sys).(disk)) K.(k_sys)) K.

Definition mm_of K : mm_state sched_state := (slab_of K).(mm).
Definition with_kernel_mm (v : mm_state sched_state) K : kernel := with_slab (with_mm v (slab_of K)) K.

Definition sched_of K : sched_state := (mm_of K).(locks).
Definition with_sched (v : sched_state) K : kernel := with_kernel_mm (with_locks v (mm_of K)) K.

Definition ram_of K : mem := K.(k_sys).(ram).
Definition with_kernel_ram (m : mem) K : kernel := with_sys (with_ram m K.(k_sys)) K.

Definition vm_of K : vm sched_state := Mk_vm (mm_of K) (ram_of K).
Definition with_vm (v : vm sched_state) K : kernel := with_kernel_ram v.(vm_ram) (with_kernel_mm v.(vm_pages) K).

Definition on_sched (f : sched_state -> option sched_state) K : option kernel :=
  s ← f (sched_of K); Some (with_sched s K).

Definition on_heap (f : lheap node -> option (lheap node)) K : option kernel :=
  on_sched (fun s => h ← f s.(heap); Some (with_heap h s)) K.

Definition task_at t K : option task_struct := get_task t (sched_of K).

Definition put_task t k K : kernel :=
  let s := sched_of K in with_sched (with_tasks (<[t := k]> s.(tasks)) s) K.

(** [sizeof(struct task_struct)]. *)
Definition SIZEOF_TASK : Z := 220.

(** [strncpy(task->name, name, PROCESS_NAME_SIZE)]: sixteen bytes, also behind the
    terminator; the array has one byte more. *)
Definition read_bytes (n : nat) (a : Z) (m : mem) : option (list Z) :=
  mapM (fun i => load8 (a + Z.of_nat i) m) (seq 0 n).

Definition set_name (bytes : list Z) k : task_struct := with_name (bytes ++ drop 16 k.(name)) k.

Section task.
Variable kernel_start : Z.
Variable zone_mutex : Z -> Z.
Variable slab_mutex : Z.
Variable page_struct_va : Z -> Z.
Variable pid_mutex : Z.
(** [&task->mutex]. *)
Variable task_mutex : Z -> Z.
(** What a slice of memory holds that becomes a task structure. *)
Variable stale : Z -> task_struct.

Let kernel_slab : KmallocOps (slab_state sched_state) :=
  slab_kmalloc kernel_start zone_mutex slab_mutex page_struct_va.

#[local] Existing Instance kernel_slab.

Definition kmalloc_task K : option (Z * kernel) :=
  '(a, s) ← ka_kmalloc SIZEOF_TASK GFP_KERNEL (slab_of K);
  let K := with_slab s K in
  Some (a, if Z.eqb a 0 then K else put_task a (stale a) K).

Definition kfree_task t K : option kernel :=
  s ← ka_kfree t (slab_of K); Some (with_slab s K).

(** ** Creation *)

Definition init_task_struct t (flag : Z) K : option (Z * kernel) :=
  let parent := if truth (flag &u PROCESS_TYPE_KERNEL) then (sched_of K).(idle) else (sched_of K).(current) in
  '(pid, p, s) ← get_new_pid pid_mutex t K.(k_pids) (sched_of K);
  let K := with_pids p (with_sched s K) in
  k ← task_at t K;
  let K := put_task t (with_pid pid k) K in
  if Z.ltb pid 0 then Some (- EINVAL, K)
  else
    pk ← task_at parent K;
    k ← task_at t K;
    let k := with_stack_base 0 (with_uid pk.(uid) k) in
    let k := set_name (take 16 pk.(name)) k in
    let k := with_parent parent (with_state PROCESS_STATE_PREPARE (with_flag flag k)) in
    let K := put_task t k K in
    K ← on_sched (fun s =>
          Some (init_mutex (task_mutex t) (with_heap (init_list (TChild t) (init_list (TP t) s.(heap))) s))) K;
    K ← on_sched (fun s =>
          let '(flags, s) := enter_critical s in
          h ← list_add (TChild parent) (TP t) s.(heap);
          Some (exit_critical flags (with_heap h s))) K;
    Some (0, K).

(** The structure [t] points to after [init_mm_struct]: its parent is read only for a
    user task. *)
Definition init_task_mm t (user_sp : Z) K : option kernel :=
  k ← task_at t K;
  mmp ← (if truth (k.(flag) &u PROCESS_TYPE_USER) then mm_struct <$> task_at k.(parent) K
         else Some k.(mm_struct));
  let '(k, s) := init_mm_struct t k mmp user_sp (mm_of K) in
  Some (put_task t k (with_kernel_mm s K)).

Definition alloc_task_memory t K : option (Z * kernel) :=
  k ← task_at t K;
  '(ret, k, v) ← alloc_memory_for_task kernel_start zone_mutex t k (vm_of K);
  Some (ret, put_task t k (with_vm v K)).

(** Null is 0. *)
Definition fork_new_task (name user_sp flag : Z) K : option (Z * kernel) :=
  '(new, K) ← kmalloc_task K;
  if Z.eqb new 0 then Some (0, K)
  else
    let exit K := K ← kfree_task new K; Some (0, K) in
    '(ret, K) ← init_task_struct new flag K;
    if truth ret then exit K
    else
      K ← init_task_mm new user_sp K;
      K ← on_sched (init_sched_struct new) K;
      K ← (if truth name then
             bytes ← read_bytes 16 name (ram_of K);
             on_sched (upd_task new (set_name bytes)) K
           else Some K);
      '(ret, K) ← alloc_task_memory new K;
      if truth ret then exit K else Some (new, K).

Definition copy_process (new : Z) K : option kernel :=
  k ← task_at new K;
  let old := k.(parent) in
  if truth old then
    v ← copy_process_memory kernel_start old new k (vm_of K); Some (with_vm v K)
  else Some K.

Definition set_up_task_stack t (regs : pt_regs) K : option (Z * kernel) :=
  k ← task_at t K;
  '(ret, k, m) ← arch_set_up_task_stack k regs (ram_of K);
  Some (ret, put_task t k (with_kernel_ram m K)).

(** The frame [regs] points to is returned. *)
Definition do_fork (name : Z) (regs : pt_regs) (user_sp flag : Z) K : option (Z * pt_regs * kernel) :=
  '(new, K) ← fork_new_task name user_sp flag K;
  if Z.eqb new 0 then Some (- ENOMEM, regs, K)
  else
    K ← (if truth (flag &u PROCESS_TYPE_USER) then copy_process new K else Some K);
    regs ← (if truth (flag &u PROCESS_FLAG_FORK)
            then k ← task_at new K; Some (arch_set_task_return_value regs k) else Some regs);
    '(_, K) ← set_up_task_stack new regs K;
    K ← on_sched (set_task_state new PROCESS_STATE_PREPARE) K;
    Some (0, regs, K).

Definition kthread_run (name fn arg : Z) K : option (Z * kernel) :=
  regs ← arch_init_pt_regs fn arg (ram_of K);
  '(ret, _, K) ← do_fork name regs 0 PROCESS_TYPE_KERNEL K;
  Some (ret, K).

(** [idle_name] is the address of the literal ["idle"]. *)
Definition build_idle_task (idle_name : Z) K : option (Z * kernel) :=
  '(t, K) ← kmalloc_task K;
  let K := with_sched (with_idle t (sched_of K)) K in
  if Z.eqb t 0 then Some (- ENOMEM, K)
  else
    k ← task_at t K;
    bytes ← read_bytes 16 idle_name (ram_of K);
    let k := set_name bytes (with_uid 0 (with_pid (-1) k)) in
    let K := put_task t (with_parent 0 (with_flag PROCESS_TYPE_KERNEL k)) K in
    K ← on_sched (fun s =>
          Some (init_mutex (task_mutex t) (with_heap (init_list (TP t) (init_list (TChild t) s.(heap))) s))) K;
    K ← on_sched (init_sched_struct t) K;
    K ← on_sched (build_idle_current t) K;
    Some (0, K).

(** ** Death *)

Definition release_task t K : option kernel :=
  if Z.eqb t 0 then Some K
  else
    k ← task_at t K;
    '(k, s) ← release_task_memory kernel_start zone_mutex t k (mm_of K);
    kfree_task t (put_task t k (with_kernel_mm s K)).

Definition sched_remove_task t K : option (Z * kernel) :=
  k ← task_at t K;
  if negb (bool_decide (k.(state) = PROCESS_STATE_IDLE)) then Some (- EINVAL, K)
  else if Z.eqb k.(pid) 1 || Z.eqb k.(pid) 0 then Some (- EINVAL, K)
  else
    K ← on_sched (fun s =>
          let '(flags, s) := enter_critical s in
          s ← sched_list_del_task L_idle t s;
          s ← sched_list_del_task L_system t s;
          Some (exit_critical flags s)) K;
    '(_, p, s) ← release_pid pid_mutex k.(pid) K.(k_pids) (sched_of K);
    Some (0, with_pids p (with_sched s K)).

(** The children go to the parent of [t]; the node is linked there while the loop
    stands on it. *)
Definition adopt_body t (n : node) (s : sched_state) : option sched_state :=
  child ← p_entry n;
  k ← get_task t s;
  s ← upd_task child (with_parent k.(parent)) s;
  h ← list_add_tail (TChild k.(parent)) n s.(heap);
  Some (with_heap h s).

Definition unlock_held_body (n : node) (s : sched_state) : option sched_state :=
  m ← mutex_task_entry n; mutex_unlock m s.

(** From [enter_critical] to [exit_critical]. *)
Definition detach_task t (s : sched_state) : option sched_state :=
  let '(flags, s) := enter_critical s in
  h ← list_del (TP t) s.(heap);
  let s := with_heap h s in
  n ← list_next s.(heap) (TChild t);
  s ← list_for_each (S (size s.(heap))) heap (adopt_body t) (TChild t) n s;
  e ← is_list_empty s.(heap) (TWait t);
  s ← (if negb e then h ← list_del (TWait t) s.(heap); Some (with_heap h s) else Some s);
  n ← list_next s.(heap) (TMutexGet t);
  s ← list_for_each (S (size s.(heap))) heap unlock_held_body (TMutexGet t) n s;
  Some (exit_critical flags s).

Definition kill_task t K : option (Z * kernel) :=
  if Z.eqb t 0 then Some (- EINVAL, K)
  else
    K ← on_sched (set_task_state t PROCESS_STATE_IDLE) K;
    '(ret, K) ← sched_remove_task t K;
    if truth ret then Some (ret, K)
    else
      K ← on_sched (detach_task t) K;
      K ← release_task t K;
      Some (0, K).

(** One round of the endless loop of [system_killer], up to the context switch. *)
Definition killer_body (n : node) K : option kernel :=
  t ← idle_entry n; '(_, K) ← kill_task t K; Some K.

Definition system_killer K : option ((Z + option Z) * kernel) :=
  n ← list_next (sched_of K).(heap) TaskIdle;
  K ← list_for_each (S (size (sched_of K).(heap))) (fun K => (sched_of K).(heap)) killer_body TaskIdle n K;
  '(r, s) ← suspend_task_timeout (sched_of K).(current) (-1) (sched_of K);
  Some (r, with_sched s K).

(** ** Programs *)

Variable elfmag : Z.
Variable hdr : Z.
Variable ramdisk_start : Z.

Definition fs_open (name : Z) K : option (Z * kernel) :=
  '(fp, d) ← ramdisk_open ramdisk_start name K.(k_sys).(disk) (ram_of K);
  Some (fp, with_sys (with_disk d K.(k_sys)) K).

Definition fs_close (fp : Z) K : option kernel :=
  d ← ramdisk_close fp K.(k_sys).(disk); Some (with_sys (with_disk d K.(k_sys)) K).

(** From the loading of the image to [release_elf_file]; [regs] is the frame it leaves. *)
Definition exec_image (new file elf argv : Z) (is_kernel : bool) (regs : pt_regs) K
  : option (Z * pt_regs * kernel) :=
  k ← task_at new K;
  '(err, ms, sys) ← load_elf_image new file elf k.(mm_struct) K.(k_sys);
  let K := put_task new (with_mm_struct ms k) (with_sys sys K) in
  if truth err then Some (err, regs, K)
  else
    regs ← arch_init_pt_regs 0 argv (ram_of K);
    '(_, v) ← setup_task_argv kernel_start new argv (vm_of K);
    let K := with_vm v K in
    K ← (if is_kernel then
           '(_, K) ← set_up_task_stack new regs K;
           on_sched (set_task_state new PROCESS_STATE_PREPARE) K
         else Some K);
    Some (0, regs, K).

(** From [fs_open] on. *)
Definition exec_file (new name argv : Z) (is_kernel : bool) (regs : pt_regs) K
  : option (Z * pt_regs * kernel) :=
  '(file, K) ← fs_open name K;
  if Z.eqb file 0 then Some (- ENOENT, regs, K)
  else
    '(elf, sys) ← get_elf_info elfmag hdr file K.(k_sys);
    let K := with_sys sys K in
    if Z.eqb elf 0 then K ← fs_close file K; Some (- EINVAL, regs, K)
    else
      '(err, regs, K) ← exec_image new file elf argv is_kernel regs K;
      sys ← release_elf_file elf K.(k_sys);
      K ← fs_close file (with_sys sys K);
      Some (err, regs, K).

(** The kind of the current task is read again at the end; nothing in between changes
    it.  [envp] is not used. *)
Definition do_exec (name argv : Z) (regs : pt_regs) K : option (Z * pt_regs * kernel) :=
  let cur := (sched_of K).(current) in
  ck ← task_at cur K;
  let is_kernel := truth (ck.(flag) &u PROCESS_TYPE_KERNEL) in
  '(new, K) ←
    (if is_kernel then fork_new_task name PROCESS_USER_STACK_BASE PROCESS_TYPE_USER K
     else
       K ← (if truth name then
              bytes ← read_bytes 16 name (ram_of K); on_sched (upd_task cur (set_name bytes)) K
            else Some K);
       Some (cur, K));
  if is_kernel && Z.eqb new 0 then Some (- ENOMEM, regs, K)
  else
    '(err, regs, K) ← exec_file new name argv is_kernel regs K;
    K ← (if truth err && is_kernel then release_task new K else Some K);
    Some (err, regs, K).

(** [init_argv] is the address of the static vector. *)
Definition kernel_exec (init_argv filename : Z) K : option (Z * kernel) :=
  let regs := Mk_pt_regs 0 0 0 0 0 0 0 0 0 0 0 0 0 0 0 0 0 0 in
  m ← store32 init_argv filename (ram_of K);
  m ← store32 (init_argv + 4) 0 m;
  '(ret, _, K) ← do_exec filename init_argv regs (with_kernel_ram m K);
  Some (ret, K).

(** [init/init_task.c]; [init_name] is the address of the literal ["init"]. *)
Definition init_task (init_argv init_name : Z) K : option (Z * kernel) :=
  '(_, K) ← kernel_exec init_argv init_name K; Some (0, K).

(** ** System calls of [machine/syscall.c]

    [regs] is the frame of the calling task. *)

Definition sys_execve (filename argv : Z) (regs : pt_regs) K : option (Z * pt_regs * kernel) :=
  '(ret, regs, K) ← do_exec filename argv regs K;
  Some (if Z.eqb ret 0 then s32 regs.(r0) else ret, regs, K).

Definition sys_fork (regs : pt_regs) K : option (Z * pt_regs * kernel) :=
  do_fork 0 regs regs.(sp) (PROCESS_TYPE_USER |u PROCESS_FLAG_FORK) K.

Definition sys_getpid K : option Z := k ← task_at (sched_of K).(current) K; Some k.(pid).

End task.
