(* ===== verification/Signal.v ===== *)
(** * Signals

    Models [kernel/signal.c] and [include/os/signal.h], and [sys_exit] of
    [machine/syscall.c].  A handler is a function on the kernel; the result of a call
    that gives the processor away is the outcome of [sched], and what follows the
    switch is in [_resume]. *)

From S2P Require Import Prelude ListHead TaskStruct Bitops Mem CString MmTypes Pages Slab Ramdisk.
From S2P Require Import Sched Mutex KernelLocks Pid Regs Elf TaskMem TaskLoad Task.

(** [signal_t]. *)
Definition PROCESS_SIGNAL_KILL : Z := 0.
Definition PROCESS_SIGNAL_WAIT : Z := 1.
Definition PROCESS_SIGNAL_SUSPEND : Z := 2.
Definition PROCESS_SIGNAL_RESUME : Z := 3.
Definition MAX_SIGNAL : Z := 4.

(** [struct signal]. *)
Record signal_msg : Type := Mk_signal {
  sg_from : Z;
  sg_to : Z;
  sg_sig : Z;
  sg_message : Z
}.

Inductive sig_result : Type :=
  | Done (r : Z)
  | Switched (o : option Z).

Definition handler : Type := signal_msg -> kernel -> option (sig_result * kernel).

Implicit Types (K : kernel) (t : Z) (x : signal_msg) (table : list (option handler)).

Section signal.
Variable kernel_start : Z.
Variable zone_mutex : Z -> Z.
Variable slab_mutex : Z.
Variable page_struct_va : Z -> Z.
Variable pid_mutex : Z.

(** Up to the context switch. *)
Definition task_kill_self t K : option (sig_result * kernel) :=
  killer ← pid_get_task 0 K.(k_pids);
  if Z.eqb killer 0 then Some (Done (- EINVAL), K)
  else
    K ← on_sched (set_task_state t PROCESS_STATE_IDLE) K;
    '(_, s) ← wakeup_task killer (sched_of K);
    '(o, s) ← sched s;
    Some (Switched o, with_sched s K).

Definition task_kill_self_resume (o : option Z) K : Z * kernel :=
  (0, with_sched (sched_resume o (sched_of K)) K).

Definition task_kill_other (killer t : Z) K : option (Z * kernel) :=
  kill_task kernel_start zone_mutex slab_mutex page_struct_va pid_mutex t K.

Definition signal_kill x K : option (sig_result * kernel) :=
  from ← pid_get_task x.(sg_from) K.(k_pids);
  to ← pid_get_task x.(sg_to) K.(k_pids);
  if Z.eqb x.(sg_from) x.(sg_to) then task_kill_self from K
  else
    kf ← task_at from K;
    kt ← task_at to K;
    if Z.ltb kf.(prio) kt.(prio) then '(r, K) ← task_kill_other from to K; Some (Done r, K)
    else Some (Done (- EINVAL), K).

(** [signal_t] has no negative enumerator and is an unsigned int: [sg_sig] is a [u32]. *)
Definition is_vaild_signal x K : option bool :=
  if Z.leb MAX_SIGNAL x.(sg_sig) then Some false
  else
    from ← pid_get_task x.(sg_from) K.(k_pids);
    if Z.eqb from 0 then Some false
    else to ← pid_get_task x.(sg_to) K.(k_pids); Some (negb (Z.eqb to 0)).

Definition __sys_signal table x K : option (sig_result * kernel) :=
  b ← is_vaild_signal x K;
  if b : bool then
    h ← aget table x.(sg_sig);
    match h with Some f => f x K | None => Some (Done (- EINVAL), K) end
  else Some (Done (- EINVAL), K).

(** The number of the program becomes a [signal_t]. *)
Definition sys_signal table (pid sig arg : Z) K : option (sig_result * kernel) :=
  k ← task_at (sched_of K).(current) K;
  __sys_signal table (Mk_signal k.(TaskStruct.pid) pid (u32 sig) arg) K.

Definition register_signal_handler (sig : Z) (h : option handler) table
  : option (Z * list (option handler)) :=
  match h with
  | None => Some (- EINVAL, table)
  | Some _ =>
      if Z.leb MAX_SIGNAL sig then Some (- EINVAL, table)
      else table ← aset table sig h; Some (0, table)
  end.

(** [signal_table] before any registration. *)
Definition signal_table : list (option handler) := replicate (Z.to_nat MAX_SIGNAL) None.

Definition init_signal_handler table : option (list (option handler)) :=
  '(_, table) ← register_signal_handler PROCESS_SIGNAL_KILL (Some signal_kill) table; Some table.

Definition sys_exit table K : option (sig_result * kernel) :=
  k ← task_at (sched_of K).(current) K;
  sys_signal table k.(pid) PROCESS_SIGNAL_KILL 0 K.

End signal.
