(* ===== verification/TaskRelease.v ===== *)
(** * Releasing the memory of a task

    [release_task_memory] of [TaskMem]: every page on the lists of a task goes back to
    the normal zone, and with them everything [alloc_memory_for_task] took. *)

From S2P Require Import Prelude ListHead TaskStruct Bitops Mem CString MmTypes Pages PagesInv.
From S2P Require Import PagesThms Mmu MmuThms Regs TaskMem TaskMemInv TaskMemThms.

Section release.
Context {L : Type} {LC : LockCalls L} {LO : LockOps L} (ks : Z) (zone_mutex : Z -> Z) (off : Z).
Hypothesis Hks : 0 < ks < 2 ^ 32.
Hypothesis Halign : ks mod 4096 = 0.

Implicit Types (s : mm_state L) (v : vm L) (z : mm_zone) (k : task_struct) (l : list Z) (t c i : Z).

(** The normal zone of [s] is [z], and its pages can be released. *)
Record zone_open z s : Prop := {
  zo_zone : get_zone MM_ZONE_NORMAL s = Some z;
  zo_map : bm_ok s.(page_map) (z.(bm_end) + 1);
  zo_end : z.(bm_end) < 2 ^ 20;
  zo_lock : lk_free s.(locks) (zone_mutex MM_ZONE_NORMAL);
  zo_free : 0 <= z.(z_free_pages)
}.

(** The pages [l] were given back between [z], [s] and [z'], [s']. *)
Record gave_back l z s z' s' : Prop := {
  gb_open : zone_open z' s';
  gb_zones : forall j, j <> MM_ZONE_NORMAL -> get_zone j s' = get_zone j s;
  gb_free : z'.(z_free_pages) = z.(z_free_pages) + Z.of_nat (length l);
  gb_end : z'.(bm_end) = z.(bm_end);
  gb_bits : forall n, bit_at s'.(page_map) n = if bool_decide (n ∈ l) then false else bit_at s.(page_map) n;
  gb_table : s'.(page_table) = s.(page_table);
  gb_locks : forall m, lk_free s.(locks) m -> lk_free s'.(locks) m
}.

Lemma gave_back_nil z s : zone_open z s -> gave_back [] z s z s.
Proof. intros Hz. constructor; try done. simpl. lia. Qed.

Lemma gave_back_app l1 l2 z1 s1 z2 s2 z3 s3 :
  gave_back l1 z1 s1 z2 s2 -> gave_back l2 z2 s2 z3 s3 -> gave_back (l1 ++ l2) z1 s1 z3 s3.
Proof.
  intros [A1 A2 A3 A4 A5 A6 A7] [B1 B2 B3 B4 B5 B6 B7]. constructor; try done.
  - intros j Hj. rewrite B2 by done. by apply A2.
  - rewrite length_app. lia.
  - lia.
  - intros n. rewrite B5, A5. repeat case_bool_decide; try done; set_solver.
  - congruence.
  - intros m Hm. by apply B7, A7.
Qed.

(** The list nodes may change in between. *)
Lemma zone_open_plists z s h : zone_open z (with_plists h s) <-> zone_open z s.
Proof. split; intros [H1 H2 H3 H4 H5]; by constructor. Qed.

Lemma gave_back_plists l z s z' s' h : gave_back l z (with_plists h s) z' s' -> gave_back l z s z' s'.
Proof. intros [A1 A2 A3 A4 A5 A6 A7]. by constructor. Qed.

Lemma free_single_ok i z s :
  zone_open z s -> single_page ks off i s -> 0 <= i <= z.(bm_end) -> z.(z_free_pages) + 1 < 2 ^ 32 ->
  exists s' z', free_pages ks zone_mutex (page_id_to_va ks i) s = Some s' /\
    gave_back [i] z s z' s' /\ s'.(plists) = s.(plists).
Proof.
  intros [Z1 Z2 Z3 Z4 Z5] (p & Hp & _ & Hc & Hf & Hid) Hi Hlt.
  destruct (free_pages_ok ks zone_mutex s MM_ZONE_NORMAL z i p) as (s' & E & G);
    try done; try lia; try (rewrite Hc; by apply (bm_ok_le _ (z.(bm_end) + 1)); [|lia]).
  rewrite Hc in G. destruct G as [G1 G2 G3 G4 G5 G6 G7 G8]. exists s', (given i 1 z).
  split; [done|]. split; [|done].
  assert (Ef : (given i 1 z).(z_free_pages) = z.(z_free_pages) + 1).
  { unfold given. destruct (Z.eqb _ _); simpl; rewrite u32_small; lia. }
  assert (Ee : (given i 1 z).(bm_end) = z.(bm_end)) by (unfold given; by destruct (Z.eqb _ _)).
  constructor; try done.
  - constructor; rewrite ?Ef, ?Ee; try lia.
    + by rewrite G1.
    + destruct Z2 as [_ Z2]. split; [done|]. by rewrite G3.
    + by apply G8.
  - intros j Hj. rewrite G1. by rewrite (proj2 (Z.eqb_neq j MM_ZONE_NORMAL)).
  - intros n. rewrite G5, in_run_one. destruct (Z.eqb_spec n i) as [->|Hne].
    + by rewrite bool_decide_true by set_solver.
    + by rewrite bool_decide_false by set_solver.
Qed.

Lemma single_page_table i s s' : s'.(page_table) = s.(page_table) -> single_page ks off i s -> single_page ks off i s'.
Proof. intros E (p & Hp & H). exists p. split; [|done]. unfold get_page_struct in *. by rewrite E. Qed.

(** The pages of one list. *)
Lemma release_list_ok hd l z s :
  is_list s.(plists) hd (plist l) -> zone_open z s ->
  (forall i, i ∈ l -> single_page ks off i s /\ 0 <= i <= z.(bm_end)) ->
  z.(z_free_pages) + Z.of_nat (length l) < 2 ^ 32 ->
  exists s' z', _release_task_memory ks zone_mutex hd s = Some s' /\ gave_back l z s z' s' /\
    is_list s'.(plists) hd [] /\
    (forall x, x ∉ hd :: plist l -> s'.(plists) !! x = s.(plists) !! x).
Proof.
  intros Hl Hz Hp Hlt. unfold _release_task_memory.
  rewrite (is_list_first _ _ _ Hl), bind_Some_eq.
  destruct (list_for_each_inv (@plists L) (release_body ks zone_mutex) (fun dn tn st => exists d todo zd,
      dn = plist d /\ tn = plist todo /\ d ++ todo = l /\ gave_back d z s zd st /\
      is_list st.(plists) hd (plist todo) /\
      forall x, x ∉ hd :: plist l -> st.(plists) !! x = s.(plists) !! x)
    hd (plist l) (S (size s.(plists))) s) as (s' & E & d & todo & zd & Ed & Et & Edl & G & Hl' & Hf).
  - by apply (is_list_nodup _ _ _ Hl).
  - by apply (is_list_size _ _ _ Hl).
  - exists [], l, z. split_and!; try done. by apply gave_back_nil.
  - intros dn x tn st (d & todo & zd & -> & Et & Edl & G & Hl' & Hf).
    destruct todo as [|i todo]; [done|]. injection Et as -> ->. cbn [fmap list_fmap] in Hl'.
    destruct (list_del_spec st.(plists) hd [] (PagePlist i) _ Hl') as (h & E1 & Hl1 & _ & Hf1).
    cbn [app] in Hl1, Hf1. destruct (Hp i) as [Hsi Hi]; [rewrite <- Edl; set_solver|].
    pose proof (gb_free _ _ _ _ _ G) as Ef. pose proof (gb_end _ _ _ _ _ G) as Ee.
    assert (Elen : (length d + S (length todo) = length l)%nat) by (by rewrite <- Edl, length_app).
    destruct (free_single_ok i zd (with_plists h st)) as (st' & z' & E2 & G2 & Ep).
    { apply zone_open_plists. apply (gb_open _ _ _ _ _ G). }
    { apply (single_page_table i s); [apply (gb_table _ _ _ _ _ G)|done]. }
    { lia. } { lia. }
    cbn [plists with_plists] in Ep. exists st'. split; [|split].
    + unfold release_body. cbn [plist_entry]. rewrite bind_Some_eq, E1, bind_Some_eq. exact E2.
    + rewrite Ep. unfold list_next. rewrite Hf1.
      * by apply (is_list_next _ _ []) in Hl'.
      * destruct (is_list_nodup _ _ _ Hl') as [Hnd Hhd]. apply NoDup_cons in Hnd as [Hnd _].
        apply not_elem_of_cons. split; [|done]. intros Eq. apply Hhd. rewrite <- Eq. set_solver.
    + exists (d ++ [i]), todo, z'. split; [by rewrite fmap_app|]. split; [done|].
      split; [by rewrite <- app_assoc|]. split; [|split].
      * apply (gave_back_app d [i] z s zd st); [done|]. by apply (gave_back_plists _ _ _ _ _ h).
      * by rewrite Ep.
      * intros x Hx. rewrite Ep, Hf1; [by apply Hf|]. rewrite <- Edl in Hx. set_solver.
  - assert (todo = []) as -> by (by apply eq_sym, fmap_nil_inv in Et). rewrite app_nil_r in Edl. subst d.
    exists s', zd. by split_and!.
Qed.
(** ** All lists of a task *)

(** The four lists of a task: stack pages, image pages, stack tables, image tables. *)
Record task_pages t (so im st el : list Z) s : Prop := {
  tp_so : is_list s.(plists) (ElfStackList t) (plist so);
  tp_im : is_list s.(plists) (ElfImageList t) (plist im);
  tp_st : is_list s.(plists) (StackList t) (plist st);
  tp_el : is_list s.(plists) (ElfList t) (plist el);
  tp_nodup : NoDup (so ++ im ++ st ++ el)
}.

Lemma is_list_away h h' hd hd' l l' :
  (forall x, x ∉ hd' :: plist l' -> h' !! x = h !! x) -> hd <> hd' ->
  (forall i, hd <> PagePlist i) -> (forall i, hd' <> PagePlist i) -> (forall i, i ∈ l -> i ∉ l') ->
  is_list h hd (plist l) -> is_list h' hd (plist l).
Proof.
  intros Hf Hne Hp Hp' Hd Hl. apply (is_list_frame h); [|done].
  intros x Hx. apply Hf. apply not_elem_of_cons. split.
  - intros ->. by apply node_not_page in Hx as [?|(i & ? & _)]; [| |done]; [congruence|apply (Hp' i)].
  - intros Hin. apply node_not_page in Hx as [->|(i & -> & Hi)]; [| |done].
    + apply list_elem_of_fmap in Hin as (i & E & _). by apply (Hp i).
    + apply list_elem_of_fmap in Hin as (j & [= <-] & Hj). by apply (Hd i).
Qed.

Lemma is_list_away_nil (h h' : lheap node) hd hd' l' :
  (forall x, x ∉ hd' :: plist l' -> h' !! x = h !! x) -> hd <> hd' -> (forall i, hd <> PagePlist i) ->
  is_list h hd [] -> is_list h' hd [].
Proof.
  intros Hf Hne Hp Hl. apply (is_list_frame h); [|done]. intros x ->%list_elem_of_singleton. apply Hf.
  apply not_elem_of_cons. split; [done|]. intros (i & E & _)%list_elem_of_fmap. by apply (Hp i).
Qed.

(** One list of the task after the others: [l] is given back, [r] lists stay. *)
Lemma release_step hd l z0 z s0 s done :
  gave_back done z0 s0 z s -> is_list s.(plists) hd (plist l) ->
  (forall i, i ∈ l -> single_page ks off i s0 /\ 0 <= i <= z0.(bm_end)) ->
  z0.(z_free_pages) + Z.of_nat (length (done ++ l)) < 2 ^ 32 ->
  exists s' z', _release_task_memory ks zone_mutex hd s = Some s' /\ gave_back (done ++ l) z0 s0 z' s' /\
    is_list s'.(plists) hd [] /\ (forall x, x ∉ hd :: plist l -> s'.(plists) !! x = s.(plists) !! x).
Proof.
  intros G Hl Hp Hlt. rewrite length_app in Hlt.
  pose proof (gb_free _ _ _ _ _ G) as Ef. pose proof (gb_end _ _ _ _ _ G) as Ee.
  destruct (release_list_ok hd l z s Hl (gb_open _ _ _ _ _ G)) as (s' & z' & E & G' & Hl' & Hf).
  - intros i Hi. destruct (Hp i Hi) as [H1 H2]. split; [|lia].
    by apply (single_page_table i s0); [apply (gb_table _ _ _ _ _ G)|].
  - lia.
  - exists s', z'. split_and!; try done. by apply (gave_back_app _ _ _ _ z s).
Qed.

Lemma release_task_memory_ok t k z s so im st el c :
  truth (k.(flag) &u PROCESS_TYPE_USER) = true -> k.(stack_origin) = page_id_to_va ks c ->
  page_id_to_va ks c <> 0 -> zone_open z s -> task_pages t so im st el s ->
  (forall i, i ∈ so ++ im ++ st ++ el ++ [c] -> single_page ks off i s /\ 0 <= i <= z.(bm_end)) ->
  z.(z_free_pages) + Z.of_nat (length (so ++ im ++ st ++ el ++ [c])) < 2 ^ 32 ->
  exists s' z', release_task_memory ks zone_mutex t k s =
      Some (with_stack_origin 0 (with_stack_base 0 k), s') /\
    gave_back (so ++ im ++ st ++ el ++ [c]) z s z' s' /\
    (forall hd, hd ∈ mm_anchors t -> is_list s'.(plists) hd []) /\
    (forall x, x ∉ mm_anchors t -> x ∉ plist (so ++ im ++ st ++ el) -> s'.(plists) !! x = s.(plists) !! x).
Proof.
  intros Hu Ho H0 Hz [L1 L2 L3 L4 Hnd] Hp Hlt. rewrite !length_app in Hlt.
  apply NoDup_app in Hnd as (_ & D1 & Hnd). apply NoDup_app in Hnd as (_ & D2 & Hnd).
  apply NoDup_app in Hnd as (_ & D3 & _).
  destruct (release_step (ElfStackList t) so z z s s [] (gave_back_nil _ _ Hz) L1)
    as (s1 & z1 & E1 & G1 & N1 & F1); [intros i Hi; apply Hp; set_solver|simpl; lia|].
  assert (L2' : is_list s1.(plists) (ElfImageList t) (plist im)).
  { apply (is_list_away _ _ _ _ _ _ F1); try done. intros i Hi Hs. apply (D1 i Hs). set_solver. }
  destruct (release_step (ElfImageList t) im z z1 s s1 _ G1 L2')
    as (s2 & z2 & E2 & G2 & N2 & F2); [intros i Hi; apply Hp; set_solver|rewrite !length_app; simpl; lia|].
  assert (L3' : is_list s2.(plists) (StackList t) (plist st)).
  { apply (is_list_away _ _ _ _ _ _ F2); try done; [intros i Hi Hs; apply (D2 i Hs); set_solver|].
    apply (is_list_away _ _ _ _ _ _ F1); try done. intros i Hi Hs. apply (D1 i Hs). set_solver. }
  destruct (release_step (StackList t) st z z2 s s2 _ G2 L3')
    as (s3 & z3 & E3 & G3 & N3 & F3); [intros i Hi; apply Hp; set_solver|rewrite !length_app; simpl; lia|].
  assert (L4' : is_list s3.(plists) (ElfList t) (plist el)).
  { apply (is_list_away _ _ _ _ _ _ F3); try done; [intros i Hi Hs; by apply (D3 i Hs)|].
    apply (is_list_away _ _ _ _ _ _ F2); try done; [intros i Hi Hs; apply (D2 i Hs); set_solver|].
    apply (is_list_away _ _ _ _ _ _ F1); try done. intros i Hi Hs. apply (D1 i Hs). set_solver. }
  destruct (release_step (ElfList t) el z z3 s s3 _ G3 L4')
    as (s4 & z4 & E4 & G4 & N4 & F4); [intros i Hi; apply Hp; set_solver|rewrite !length_app; simpl; lia|].
  pose proof (gb_free _ _ _ _ _ G4) as Ef. pose proof (gb_end _ _ _ _ _ G4) as Ee. rewrite !length_app in Ef.
  destruct (Hp c ltac:(set_solver)) as [Hc Hc'].
  destruct (free_single_ok c z4 s4 (gb_open _ _ _ _ _ G4)) as (s5 & z5 & E5 & G5 & P5);
    [by apply (single_page_table c s); [apply (gb_table _ _ _ _ _ G4)|]|lia|simpl in *; lia|].
  exists s5, z5. split; [|split; [|split]].
  - unfold release_task_memory. rewrite Hu. unfold release_task_pages, release_task_page_table.
    rewrite E1, bind_Some_eq, E2, bind_Some_eq, E3, bind_Some_eq, E4, bind_Some_eq.
    unfold release_kernel_stack. rewrite Ho, (proj2 (Z.eqb_neq _ 0) H0). cbn [negb]. by rewrite E5, bind_Some_eq.
  - pose proof (gave_back_app _ _ _ _ _ _ _ _ G4 G5) as G. cbn [app] in G. by rewrite <- !app_assoc in G.
  - intros hd Hin. rewrite P5. unfold mm_anchors in Hin. rewrite !elem_of_cons, elem_of_nil in Hin.
    destruct Hin as [->|[->|[->|[->|[]]]]].
    + by apply (is_list_away_nil _ _ _ _ _ F4).
    + done.
    + by apply (is_list_away_nil _ _ _ _ _ F4), (is_list_away_nil _ _ _ _ _ F3), (is_list_away_nil _ _ _ _ _ F2).
    + by apply (is_list_away_nil _ _ _ _ _ F4), (is_list_away_nil _ _ _ _ _ F3).
  - intros x Hx Hpx. unfold mm_anchors in Hx. rewrite !not_elem_of_cons in Hx.
    rewrite !fmap_app, !not_elem_of_app in Hpx.
    rewrite P5, F4, F3, F2, F1 by (apply not_elem_of_cons; tauto). done.
Qed.
End release.

(** The pages of a task whose memory starts at page [c], in the order of their release. *)
Definition space_pages (c : Z) : list Z :=
  seqZ (c + 3) 4 ++ seqZ (c + 7) 256 ++ [c + 1] ++ [c + 2] ++ [c].

Lemma space_pages_range c i : i ∈ space_pages c <-> c <= i < c + 263.
Proof.
  unfold space_pages. rewrite !elem_of_app, !elem_of_seqZ, !list_elem_of_singleton. lia.
Qed.

Lemma length_space_pages c : Z.of_nat (length (space_pages c)) = 263.
Proof. unfold space_pages. rewrite !length_app, !length_seqZ. reflexivity. Qed.

Lemma space_pages_nodup c : NoDup (seqZ (c + 3) 4 ++ seqZ (c + 7) 256 ++ [c + 1] ++ [c + 2]).
Proof.
  rewrite !NoDup_app. split_and!; try apply NoDup_seqZ; try apply NoDup_singleton.
  - intros i. rewrite !elem_of_app, !elem_of_seqZ, !list_elem_of_singleton. lia.
  - intros i. rewrite !elem_of_app, !elem_of_seqZ, !list_elem_of_singleton. lia.
  - intros i. rewrite !list_elem_of_singleton. lia.
Qed.

Lemma space_task_pages {L : Type} ks off t c (v : vm L) :
  address_space ks off t c v ->
  task_pages t (seqZ (c + 3) 4) (seqZ (c + 7) 256) [c + 1] [c + 2] v.(vm_pages).
Proof. intros [A1 A2 A3 A4 A5 A6 A7]. constructor; try done. apply space_pages_nodup. Qed.

(** C37. Ending a task gives back what starting it took.  When the memory of a new user
    task has been allocated, [release_task_memory] succeeds on it: the page map is as
    before the allocation, the zone has as many free pages, the four page lists of the
    task are empty and its kernel stack is gone from its structure. *)
Theorem task_memory_roundtrip {L : Type} {LC : LockCalls L} {LO : LockOps L} (ks : Z) (zone_mutex : Z -> Z) (off : Z)
    (z : mm_zone) (v : vm L) (t : Z) (k : task_struct) (c : Z)
    (Hks : 0 < ks < 2 ^ 32) (Halign : ks mod 4096 = 0)
    (Hr : run_ready ks zone_mutex off 263 z v.(vm_pages)) (Hc : c = z.(bm_current))
    (Hk : k.(stack_base) = 0) (Hu : truth (k.(flag) &u PROCESS_TYPE_USER) = true)
    (Hl : forall hd, hd ∈ mm_anchors t -> is_list v.(vm_pages).(plists) hd [])
    (Hroom : room v.(vm_ram) (page_id_to_va ks (c + 1)) 8192) :
  exists v1 s2 z2, alloc_memory_for_task ks zone_mutex t k v = Some (0, with_memory ks c k, v1) /\
    release_task_memory ks zone_mutex t (with_memory ks c k) v1.(vm_pages) =
      Some (with_stack_origin 0 (with_stack_base 0 (with_memory ks c k)), s2) /\
    get_zone MM_ZONE_NORMAL s2 = Some z2 /\ z2.(z_free_pages) = z.(z_free_pages) /\
    (forall n, bit_at s2.(page_map) n = bit_at v.(vm_pages).(page_map) n) /\
    (forall hd, hd ∈ mm_anchors t -> is_list s2.(plists) hd []).
Proof.
  subst c. pose proof (zr_bounds _ _ _ _ (rr_ready _ _ _ _ _ _ _ Hr)) as Hb.
  pose proof (zr_free _ _ _ _ (rr_ready _ _ _ _ _ _ _ Hr)) as Hfree.
  pose proof (rr_cur _ _ _ _ _ _ _ Hr) as Hcu.
  destruct (alloc_memory_for_task_ok ks zone_mutex off _ Hks Halign z v t k Hr Hk Hu Hl Hroom)
    as (v1 & z1 & E & Hr1 & Hz1 & Ha & _). set (c := z.(bm_current)) in *.
  pose proof (rr_sum _ _ _ _ _ _ _ Hr1) as Hsum. cbn [or_sum] in Hsum. fold c in Hsum.
  pose proof (rr_cur _ _ _ _ _ _ _ Hr1) as Hcu1.
  pose proof Hr1 as [[R1 R2 R3 R4 R5 R6 R7 R8] _ _ _ _ _ _ _ Hused _].
  destruct (run_va _ _ _ _ Hks _ _ _ c Hr1 ltac:(lia)) as (Eva & _ & Hva).
  destruct (release_task_memory_ok ks zone_mutex off Hks Halign t (with_memory ks c k) z1 v1.(vm_pages)
    (seqZ (c + 3) 4) (seqZ (c + 7) 256) [c + 1] [c + 2] c) as (s2 & z2 & Er & G & Hl2 & _).
  - exact Hu.
  - done.
  - lia.
  - constructor; try done; lia.
  - by apply (space_task_pages ks off).
  - intros i Hi%space_pages_range. split; [apply (as_pages _ _ _ _ _ Ha); lia|lia].
  - fold (space_pages c). rewrite length_space_pages. lia.
  - exists v1, s2, z2. split; [done|]. split; [done|]. fold (space_pages c) in G.
    pose proof (gb_free _ _ _ _ _ _ G) as Ef. rewrite length_space_pages in Ef.
    split; [apply (zo_zone _ _ _ (gb_open _ _ _ _ _ _ G))|]. split; [lia|]. split; [|done].
    intros n. rewrite (gb_bits _ _ _ _ _ _ G). case_bool_decide as Hin.
    + symmetry. apply (rr_bits _ _ _ _ _ _ _ Hr). by apply space_pages_range in Hin.
    + rewrite Hused; [done|]. cbn [or_cur]. rewrite space_pages_range in Hin. lia.
Qed.

Lemma task_memory_roundtrip_witness :
  exists v1 s2, alloc_memory_for_task 0x80000000 (fun _ => 0) space_task space_struct space =
      Some (0, with_memory 0x80000000 8 space_struct, v1) /\
    release_task_memory 0x80000000 (fun _ => 0) space_task (with_memory 0x80000000 8 space_struct) v1.(vm_pages) =
      Some (with_stack_origin 0 (with_stack_base 0 (with_memory 0x80000000 8 space_struct)), s2) /\
    bit_at s2.(page_map) 100 = false.
Proof.
  destruct (task_memory_roundtrip 0x80000000 (fun _ => 0) 0x50000000 space_zone
    space space_task space_struct 8 ltac:(lia) eq_refl space_ready eq_refl eq_refl eq_refl space_anchors
    (proj2 space_room)) as (v1 & s2 & z2 & E & Er & _ & _ & Hb & _).
  exists v1, s2. split; [exact E|]. split; [exact Er|]. rewrite Hb. apply bit_at_zeros.
Defined.
