(* ===== verification/TaskThms.v ===== *)
(** * Starting a kernel thread

    [kthread_run] from the allocation of the task structure to the ready queue.  The
    lemmas follow the steps of [fork_new_task]; [growing] is what they keep of the
    kernel while the structure is being filled in. *)

From S2P Require Import Prelude ListHead TaskStruct Sched SchedInv SchedSpec SchedBoot SchedApi.
From S2P Require Import Mutex Bitops Mem CString MmTypes Pages PagesInv PagesThms KernelLocks.
From S2P Require Import KernelCalm Slab SlabThms SlabAlloc Pid Regs Ramdisk Elf TaskMem.
From S2P Require Import TaskMemInv TaskBuild Task.

Implicit Types (K : kernel) (k : task_struct).

(** A run of pages survives a change of everything but the zone and its map. *)
Lemma run_from_keep {L} {LC : LockCalls L} {LO1 LO2 : LockOps L} ks zone_mutex off o n z (s s' : mm_state L) :
  @run_from L LC LO1 ks zone_mutex off o n z s ->
  s'.(bank) = s.(bank) -> s'.(page_map) = s.(page_map) -> length s'.(page_table) = length s.(page_table) ->
  @lk_free L LC LO2 s'.(locks) (zone_mutex MM_ZONE_NORMAL) ->
  @run_from L LC LO2 ks zone_mutex off o n z s'.
Proof.
  intros [[H1 H2 H3 H4 H5 H6 H7 H8] Hn Hc Hf Hbits Hoff Hva Hsum Hused Hsince] Hb Hm Ht Hl.
  constructor; try done.
  - constructor; try done.
    + unfold get_zone. by rewrite Hb.
    + by rewrite Hm.
    + by rewrite Ht.
    + apply (sections_ok_ext s); [|rewrite Hb; apply H6|done]. intros j. unfold get_zone. by rewrite Hb.
  - intros j Hj. rewrite Hm. by apply Hbits.
  - intros j Hj. rewrite (va_offset_bank _ s) by done. by apply Hoff.
  - intros j Hj. rewrite Hm. by apply Hused.
Qed.

Section thread.
Variable ks : Z.
Variable zone_mutex : Z -> Z.
Variable slab_mutex : Z.
Variable page_struct_va : Z -> Z.
Variable pid_mutex : Z.
Variable task_mutex : Z -> Z.
Variable stale : Z -> task_struct.
Variable t : Z.

Abbreviation tm := (task_mutex t).

(** The kernel while task [t] is being built. *)
Record growing K0 K : Prop := {
  gr_sched : building t tm (sched_of K0) (sched_of K);
  gr_bank : (mm_of K).(bank) = (mm_of K0).(bank);
  gr_map : (mm_of K).(page_map) = (mm_of K0).(page_map);
  gr_tablen : length (mm_of K).(page_table) = length (mm_of K0).(page_table);
  gr_ram : ram_of K = ram_of K0
}.

Lemma growing_sched K0 K s : growing K0 K -> building t tm (sched_of K0) s -> growing K0 (with_sched s K).
Proof. intros [G1 G2 G3 G4 G5] Hb. by constructor. Qed.

Lemma growing_put K0 K k : growing K0 K -> growing K0 (put_task t k K).
Proof. intros G. apply growing_sched; [done|]. apply building_put, G. Qed.

Lemma growing_pids K0 K p : growing K0 K -> growing K0 (with_pids p K).
Proof. intros [G1 G2 G3 G4 G5]. by constructor. Qed.

Lemma task_at_put k K : task_at t (put_task t k K) = Some k.
Proof. apply lookup_insert_eq. Qed.

(** ** The kernel a thread is started in *)

Record thread_ready K a w (h : mview) pg l kp hdr z off : Prop := {
  tr_good : good (sched_of K) a;
  tr_mwf : mwf (sched_of K) w h;
  tr_slab : slab_ready ks (slab_of K) SIZEOF_TASK pg l kp hdr;
  tr_addr : kp.(free_base) = t /\ 0 < t < 2 ^ 32;
  tr_new : (sched_of K).(tasks) !! t = None;
  tr_mutex : (sched_of K).(mutex_count) !! tm = None;
  tr_locks : idle_mutex (sched_of K) slab_mutex /\ idle_mutex (sched_of K) pid_mutex;
  tr_pids : pid_wf K.(k_pids) /\ K.(k_pids).(pid_current) < K.(k_pids).(pid_nr);
  tr_start : 0 < ks < 2 ^ 32 /\ ks mod 4096 = 0;
  tr_zone : @run_ready _ _ (calm_locks (sched_of K)) ks zone_mutex off 1 z (mm_of K)
}.

Section start.
Context (K0 : kernel) (a : astate) (w h : mview) (pg : Z) (l : list Z) (kp : page) (hdr : Z) (z : mm_zone) (off : Z).
Hypothesis Hr : thread_ready K0 a w h pg l kp hdr z off.

Let s0 := sched_of K0.

Lemma start_lock_wf : lock_wf s0.
Proof. apply (good_lock_wf s0 a w h); [apply (tr_good _ _ _ _ _ _ _ _ _ _ Hr)|apply (tr_mwf _ _ _ _ _ _ _ _ _ _ Hr)]. Qed.

Lemma growing_free K m : growing K0 K -> idle_mutex s0 m -> calm_free (sched_of K) (sched_of K) m.
Proof.
  intros G Hm. apply (building_free t tm s0); [apply start_lock_wf|apply (tr_mutex _ _ _ _ _ _ _ _ _ _ Hr)|done|apply G].
Qed.

Lemma kmalloc_task_ok :
  exists K1, kmalloc_task ks zone_mutex slab_mutex page_struct_va stale K0 = Some (t, K1) /\ growing K0 K1 /\
    task_at t K1 = Some (stale t) /\ K1.(k_pids) = K0.(k_pids) /\
    (forall n, (forall m, n <> MutexTask m) -> (sched_of K1).(heap) !! n = s0.(heap) !! n) /\
    (forall n, off_slab n -> n <> PagePlist pg -> (mm_of K1).(plists) !! n = (mm_of K0).(plists) !! n).
Proof.
  destruct (tr_addr _ _ _ _ _ _ _ _ _ _ Hr) as [Ht Hlt].
  assert (Hfree : calm_free s0 s0 slab_mutex).
  { split; [apply start_lock_wf|]. split; [done|]. apply (tr_locks _ _ _ _ _ _ _ _ _ _ Hr). }
  destruct (kmalloc_ok (LO := calm_locks s0) ks zone_mutex slab_mutex (slab_of K0) SIZEOF_TASK pg l kp hdr
    (tr_slab _ _ _ _ _ _ _ _ _ _ Hr) Hfree) as (s' & E & Em & Eb & Et & Hl & _ & Hpl).
  rewrite Ht in E. destruct (Hl _ Hfree) as (_ & Hc & _).
  exists (put_task t (stale t) (with_slab s' K0)). split; [|split; [|split; [|split; [|split]]]].
  - unfold kmalloc_task. cbv zeta. cbn [ka_kmalloc slab_kmalloc]. rewrite E, bind_Some_eq.
    by rewrite (proj2 (Z.eqb_neq t 0)) by lia.
  - apply growing_put. constructor; try done. apply (building_calm _ _ s0 s0); [apply building_refl|done].
  - apply task_at_put.
  - done.
  - intros n Hn. apply (ca_heap _ _ Hc). intros m ->. by destruct (Hn m).
  - exact Hpl.
Qed.

(** The pid the new task gets. *)
Let pid0 := K0.(k_pids).(pid_current).

(** [init_task_struct] on a child of [par]. *)
Definition initial_struct (par : Z) (pk : task_struct) (flag : Z) : task_struct :=
  with_parent par (with_state PROCESS_STATE_PREPARE (with_flag flag
    (set_name (take 16 pk.(name)) (with_stack_base 0 (with_uid pk.(uid) (with_pid pid0 (stale t))))))).

Lemma get_pid_ok K :
  growing K0 K -> K.(k_pids) = K0.(k_pids) ->
  exists p s, get_new_pid pid_mutex t K.(k_pids) (sched_of K) = Some (pid0, p, s) /\
    calm (sched_of K) s /\ aget p.(pid_tasks) pid0 = Some t /\ pid_wf p.
Proof.
  intros G Ep. destruct (tr_pids _ _ _ _ _ _ _ _ _ _ Hr) as [Hp Hlt].
  assert (Hf : calm_free (sched_of K) (sched_of K) pid_mutex).
  { apply growing_free; [done|]. apply (tr_locks _ _ _ _ _ _ _ _ _ _ Hr). }
  destruct (get_new_pid_ok (LO := calm_locks (sched_of K)) pid_mutex t K0.(k_pids) (sched_of K) Hp Hf)
    as (p' & s' & (_ & Hc & _) & Hp' & E & _ & _ & Ht & _).
  rewrite (proj2 (Z.ltb_lt _ _) Hlt) in E. exists p', s'. rewrite Ep. split; [done|]. split; [done|].
  split; [|done]. rewrite (Ht Hlt). destruct Hp as [Hc1 Hc2 _ _].
  destruct (tr_addr _ _ _ _ _ _ _ _ _ _ Hr) as [_ Hadr]. rewrite (u32_small t) by lia.
  apply aget_Some. split; [unfold pid0; lia|]. apply list_lookup_insert_eq. unfold pid0. lia.
Qed.

(** [list_add] of the new task below [par]. *)
Lemma link_child s par (cs : list Z) :
  building t tm s0 s -> is_list s.(heap) (TChild par) (TP <$> cs) -> t ∉ cs -> par <> t ->
  let s1 := init_mutex tm (with_heap (init_list (TChild t) (init_list (TP t) s.(heap))) s) in
  exists h2, list_add (TChild par) (TP t) s1.(heap) = Some h2 /\
    building t tm s0 (with_heap h2 s1) /\ is_list h2 (TChild par) (TP <$> (t :: cs)) /\
    is_list h2 (TChild t) [] /\ is_list h2 (MutexWait tm) [] /\ is_Some (h2 !! MutexTask tm).
Proof.
  intros Hb Hl Hn Hne s1.
  assert (Hb1 : building t tm s0 s1).
  { apply building_init_mutex, building_heap; [done| |].
    - intros n Hq. unfold init_list. rewrite !lookup_insert_ne by (intros <-; by destruct Hq). done.
    - intros n Hx. unfold init_list. do 2 (apply lookup_insert_is_Some'; right). done. }
  assert (Hs1 : forall n, n <> TChild t -> n <> TP t -> n <> MutexWait tm -> n <> MutexTask tm ->
    s1.(heap) !! n = s.(heap) !! n).
  { intros n H1 H2 H3 H4. unfold s1. simpl. unfold init_list. by rewrite !lookup_insert_ne by congruence. }
  assert (Hl1 : is_list s1.(heap) (TChild par) (TP <$> cs)).
  { apply (is_list_frame s.(heap)); [|done].
    intros n [->|(c & -> & Hc)%list_elem_of_fmap]%elem_of_cons; apply Hs1; try done; congruence. }
  destruct (list_add_spec s1.(heap) (TChild par) _ (TP t) Hl1) as (h2 & E & Hl2 & Hd & Hf).
  { intros [?|(c & [= <-] & Hc)%list_elem_of_fmap]%elem_of_cons; done. }
  { unfold s1. simpl. unfold init_list. rewrite !lookup_insert_ne by done. rewrite lookup_insert_eq. by eexists. }
  assert (Hother : forall n, (forall x, n <> TP x) -> n <> TChild par -> h2 !! n = s1.(heap) !! n).
  { intros n H1 H2. apply Hf.
    intros [?|[?|(c & ? & _)%list_elem_of_fmap]%elem_of_cons]%elem_of_cons; (done || by eapply H1). }
  assert (Hself : forall n, (forall x, n <> TP x) -> n <> TChild par -> linked_self s1.(heap) n -> is_list h2 n []).
  { intros n H1 H2 H3. apply linked_self_empty. unfold linked_self. by rewrite Hother. }
  exists h2. split; [done|]. split; [|split; [done|split; [|split]]].
  - apply building_heap; [done| |].
    + intros n Hq. apply Hother; [by intros x -> ; destruct Hq|by intros ->; destruct Hq].
    + intros n Hx. apply elem_of_dom. rewrite Hd. by apply elem_of_dom.
  - apply Hself; [done|congruence|]. unfold s1. simpl. do 2 (apply linked_self_init; left). apply linked_self_init. by right.
  - apply Hself; [done|done|]. unfold s1. simpl. apply linked_self_init. left. apply linked_self_init. by right.
  - rewrite Hother by done. unfold s1. simpl. unfold init_list. rewrite lookup_insert_eq. by eexists.
Qed.

Lemma critical_heap (s : sched_state) (h1 : lheap node) x :
  exit_critical s.(cpsr_c) (with_heap h1 (with_cpsr_c x s)) = with_heap h1 s.
Proof. by destruct s. Qed.

Lemma init_task_struct_ok K par pk (cs : list Z) flag :
  growing K0 K -> K.(k_pids) = K0.(k_pids) -> task_at t K = Some (stale t) ->
  (forall n, (forall m, n <> MutexTask m) -> (sched_of K).(heap) !! n = s0.(heap) !! n) ->
  (if truth (flag &u PROCESS_TYPE_KERNEL) then s0.(idle) else s0.(current)) = par ->
  s0.(tasks) !! par = Some pk -> is_list s0.(heap) (TChild par) (TP <$> cs) -> t ∉ cs ->
  exists K', init_task_struct pid_mutex task_mutex t flag K = Some (0, K') /\ growing K0 K' /\
    task_at t K' = Some (initial_struct par pk flag) /\
    aget K'.(k_pids).(pid_tasks) pid0 = Some t /\ pid_wf K'.(k_pids) /\
    is_list (sched_of K').(heap) (TChild par) (TP <$> (t :: cs)) /\
    is_list (sched_of K').(heap) (TChild t) [] /\ is_list (sched_of K').(heap) (MutexWait tm) [] /\
    is_Some ((sched_of K').(heap) !! MutexTask tm) /\ (sched_of K').(mutex_count) !! tm = Some 0 /\
    (mm_of K').(plists) = (mm_of K).(plists).
Proof.
  intros G Ep Ht Hh Epar Hpk Hl Hcs. pose proof (bd_ctl _ _ _ _ (gr_sched _ _ G)) as Ectl.
  destruct (get_pid_ok K G Ep) as (p & s & E & Hc & Hp & Hpw).
  assert (Hne : par <> t) by (intros ->; pose proof (tr_new _ _ _ _ _ _ _ _ _ _ Hr) as Hn; fold s0 in Hn; congruence).
  set (K1 := with_pids p (with_sched s K)).
  assert (G1 : growing K0 K1).
  { apply growing_pids, growing_sched; [done|]. by apply (building_calm _ _ _ (sched_of K)); [apply G|]. }
  assert (Et1 : task_at t K1 = Some (stale t)).
  { unfold task_at, get_task. change (sched_of K1) with s. by rewrite (ca_rest _ _ Hc). }
  set (K2 := put_task t (with_pid pid0 (stale t)) K1).
  assert (Ep2 : task_at par K2 = Some pk).
  { unfold task_at, get_task. rewrite (bd_tasks _ _ _ _ (gr_sched _ _ (growing_put _ _ (with_pid pid0 (stale t)) G1))) by done. done. }
  set (K3 := put_task t (initial_struct par pk flag) K2).
  assert (G3 : growing K0 K3) by (by apply growing_put, growing_put).
  assert (Hl3 : is_list (sched_of K3).(heap) (TChild par) (TP <$> cs)).
  { change (heap (sched_of K3)) with (heap s). apply (is_list_frame s0.(heap)); [|done].
    intros n Hn. assert (Hm : forall m, n <> MutexTask m).
    { intros m ->. by apply elem_of_cons in Hn as [?|(c & ? & _)%list_elem_of_fmap]. }
    rewrite (ca_heap _ _ Hc); [by apply Hh|]. intros m ->. by destruct (Hm m). }
  destruct (link_child (sched_of K3) par cs (gr_sched _ _ G3) Hl3 Hcs Hne) as (h2 & E2 & Hb & L1 & L2 & L3 & L4).
  set (s1 := init_mutex tm _) in *.
  exists (with_sched (with_heap h2 s1) K3). split; [|split; [by apply growing_sched|]].
  - unfold init_task_struct. fold s0 in Ectl.
    assert (Epar' : (if truth (flag &u PROCESS_TYPE_KERNEL) then (sched_of K).(idle) else (sched_of K).(current)) = par).
    { by rewrite Ectl. }
    cbv zeta. rewrite E, bind_Some_eq. cbn beta iota. fold K1. rewrite Et1, bind_Some_eq. fold K2.
    destruct (tr_pids _ _ _ _ _ _ _ _ _ _ Hr) as [[Hp0 _ _ _] _].
    rewrite (proj2 (Z.ltb_ge pid0 0)) by (unfold pid0; lia). rewrite Epar'. rewrite Ep2, bind_Some_eq.
    change (task_at t K2) with (task_at t (put_task t (with_pid pid0 (stale t)) K1)). rewrite task_at_put, bind_Some_eq.
    fold (initial_struct par pk flag). fold K3. unfold on_sched at 2. rewrite !bind_Some_eq. fold s1.
    unfold on_sched. change (sched_of (with_sched s1 K3)) with s1. unfold enter_critical.
    cbn [heap with_cpsr_c]. rewrite E2, !bind_Some_eq. rewrite critical_heap. done.
  - split; [apply task_at_put|]. split; [done|]. split; [done|]. split_and!; try done.
    change (mutex_count (sched_of _)) with (<[tm := 0]> (mutex_count (sched_of K3))). apply lookup_insert_eq.
Qed.

(** ** The scheduler takes the task over *)

Lemma good_put s b k0 k :
  good s (add_task t k0 b) -> k.(state) = PROCESS_STATE_UNKNOWN -> k0.(state) = PROCESS_STATE_UNKNOWN ->
  0 <= k.(prio) < MAX_PRIO ->
  good (with_tasks (<[t := k]> s.(tasks)) s) (add_task t k b).
Proof.
  intros Hg Hk Hk0 Hp.
  destruct (step_upd s _ Hg t (fun _ => k) k0) as (s' & E & Hg').
  - apply lookup_insert_eq.
  - unfold mild, home. by rewrite Hk, Hk0.
  - by rewrite Hk, Hk0.
  - revert E. unfold upd_task, get_task. rewrite (proj2 (good_refines _ _ Hg)). cbn [add_task a_tasks].
    rewrite lookup_insert_eq. cbn. intros [= <-].
    unfold a_upd, add_task in Hg'. cbn [a_tasks a_view] in Hg'. by rewrite alter_insert_eq in Hg'.
Qed.

Lemma mwf_put s k0 k : s.(tasks) !! t = Some k0 -> mwf s w h -> mwf (with_tasks (<[t := k]> s.(tasks)) s) w h.
Proof.
  intros Ht Hm. apply (mwf_frame s); try done. intros x. cbn [tasks with_tasks].
  destruct (decide (x = t)) as [->|Hne]; [|by rewrite lookup_insert_ne].
  rewrite lookup_insert_eq, Ht. split; by eexists.
Qed.

(** The kernel with the new task [k] in the scheduler, but not queued yet; the parent's
    children are [cs]. *)
Record added K k (par : Z) (cs : list Z) : Prop := {
  ad_good : good (sched_of K) (add_task t k a);
  ad_mwf : mwf (sched_of K) w h;
  ad_child : is_list (sched_of K).(heap) (TChild par) (TP <$> cs);
  ad_none : is_list (sched_of K).(heap) (TChild t) [];
  ad_state : k.(state) = PROCESS_STATE_UNKNOWN;
  ad_prio : 0 <= k.(prio) < MAX_PRIO;
  ad_idle : forall m, idle_mutex s0 m -> idle_mutex (sched_of K) m;
  ad_current : (sched_of K).(current) = s0.(current);
  ad_idle_task : (sched_of K).(idle) = s0.(idle)
}.

Lemma added_at K k par cs : added K k par cs -> task_at t K = Some k.
Proof. intros [Hg _ _ _ _ _]. unfold task_at, get_task. rewrite (proj2 (good_refines _ _ Hg)). apply lookup_insert_eq. Qed.

Lemma added_put K k k' par cs :
  added K k par cs -> k'.(state) = PROCESS_STATE_UNKNOWN -> k'.(prio) = k.(prio) -> added (put_task t k' K) k' par cs.
Proof.
  intros Ha Hs Hp. pose proof (added_at _ _ _ _ Ha) as Et. destruct Ha as [A1 A2 A3 A4 A5 A6 A7 A8 A9].
  constructor; try done.
  - apply (good_put _ _ k); try done. by rewrite Hp.
  - by apply (mwf_put _ k).
  - by rewrite Hp.
  - intros m Hm. by destruct (A7 m Hm).
Qed.

(** The allocators' locks are calm, so that they leave this as it is. *)
Lemma added_calm K s k par cs : added K k par cs -> calm (sched_of K) s -> added (with_sched s K) k par cs.
Proof.
  intros [A1 A2 A3 A4 A5 A6 A7 A8 A9] Hc. pose proof (ca_rest _ _ Hc) as Er.
  assert (Hno : forall m hd (cs : list Z), hd <> MutexTask m -> MutexTask m ∉ hd :: (TP <$> cs)).
  { intros m hd l0 Hne [?|(c & ? & _)%list_elem_of_fmap]%elem_of_cons; congruence. }
  constructor; try done.
  - by apply (calm_good (sched_of K)).
  - by apply (calm_mwf (sched_of K)).
  - apply (calm_list _ _ _ _ Hc); [|done]. intros m Hin. by apply Hno in Hin.
  - apply (calm_list _ _ _ _ Hc); [|done]. intros m Hin. by apply (Hno m _ []) in Hin.
  - intros m Hm%A7. by apply (calm_idle (sched_of K)).
  - change (sched_of (with_sched s K)) with s. by rewrite Er.
  - change (sched_of (with_sched s K)) with s. by rewrite Er.
Qed.

(** What a scheduler operation keeps of the memory. *)
Record kept K K' : Prop := {
  kp_bank : (mm_of K').(bank) = (mm_of K).(bank);
  kp_map : (mm_of K').(page_map) = (mm_of K).(page_map);
  kp_tablen : length (mm_of K').(page_table) = length (mm_of K).(page_table);
  kp_ram : ram_of K' = ram_of K
}.

Lemma growing_kept K : growing K0 K -> kept K0 K.
Proof. intros [_ G2 G3 G4 G5]. by constructor. Qed.

Lemma kept_sched K s : kept K0 K -> kept K0 (with_sched s K).
Proof. intros [G2 G3 G4 G5]. by constructor. Qed.

(** The priority [init_sched_struct] gives a kernel thread; the first, whose pid is 0, gets
    that of the idle task. *)
Definition thread_prio (p : Z) : Z := if Z.ltb 0 p then KERNEL_THREAD_PRIO else KERNEL_THREAD_PRIO - 1.

Lemma thread_prio_range p : 0 <= thread_prio p < MAX_PRIO.
Proof. unfold thread_prio, KERNEL_THREAD_PRIO, MAX_PRIO. destruct (Z.ltb 0 p); lia. Qed.

Definition kernel_thread k : Prop :=
  truth (k.(flag) &u PROCESS_TYPE_KERNEL) = true /\ truth (k.(flag) &u PROCESS_TYPE_USER) = false.

Lemma init_sched_prio_ok K k p par (cs : list Z) :
  growing K0 K -> task_at t K = Some k -> init_sched_prio k (sched_of K) = Some p -> 0 <= p < MAX_PRIO ->
  is_list (sched_of K).(heap) (TChild par) (TP <$> cs) -> is_list (sched_of K).(heap) (TChild t) [] ->
  is_list (sched_of K).(heap) (MutexWait tm) [] -> is_Some ((sched_of K).(heap) !! MutexTask tm) ->
  (sched_of K).(mutex_count) !! tm = Some 0 ->
  exists s1, on_sched (init_sched_struct t) K = Some (with_sched s1 K) /\
    added (with_sched s1 K) (fresh_sched p k) par cs.
Proof.
  intros G Et Hp Hpr Hl Hn Hw Hx Hc. pose proof (gr_sched _ _ G) as Hb.
  pose proof Hr as [Hg Hm _ [_ Hadr] Hnew Htm _ _ _ _].
  destruct (complete_ok t tm s0 (sched_of K) a w h k p Hg Hm Hb Hnew Hadr Htm Hc Hw Hx Et Hp)
    as (s1 & E & Hg1 & Hm1 & Et1 & Ec1 & Ecur & Eidle & Hh1 & _).
  { done. }
  assert (Hsame : forall hd (l0 : list Z), hd <> TWait t -> hd <> TMutexGet t -> (forall q, hd <> q_node q t) ->
    is_list (sched_of K).(heap) hd (TP <$> l0) -> is_list s1.(heap) hd (TP <$> l0)).
  { intros hd l0 H1 H2 H3 H. apply (is_list_frame (sched_of K).(heap)); [|done].
    intros n [->|(c & -> & _)%list_elem_of_fmap]%elem_of_cons; apply Hh1; try done. by intros [?|[]]. }
  exists s1. split; [unfold on_sched; by rewrite E|]. constructor; try done.
  - apply Hsame; try done. by intros [?|[]].
  - apply (Hsame (TChild t) []); try done. by intros [?|[]].
  - intros m Hi. destruct (building_idle t tm _ _ m Htm Hb Hi) as [I1 I2 I3].
    assert (Hne : forall n, mutex_node n = true -> n <> TWait t -> n <> TMutexGet t ->
      s1.(heap) !! n = (sched_of K).(heap) !! n).
    { intros n H1 H2 H3. apply Hh1; [done|done|]. intros q ->.
      pose proof (q_node_queue q t) as Hq. apply mutex_not_queue in H1. congruence. }
    constructor; change (sched_of (with_sched s1 K)) with s1.
    + by rewrite Ec1.
    + apply (is_list_frame (sched_of K).(heap)); [|done]. intros n ->%list_elem_of_singleton. by apply Hne.
    + by rewrite Hne.
  - change (sched_of (with_sched s1 K)) with s1. rewrite Ecur. by rewrite (bd_ctl _ _ _ _ Hb).
  - change (sched_of (with_sched s1 K)) with s1. rewrite Eidle. by rewrite (bd_ctl _ _ _ _ Hb).
Qed.

Lemma init_sched_ok K k par (cs : list Z) :
  growing K0 K -> task_at t K = Some k -> kernel_thread k ->
  is_list (sched_of K).(heap) (TChild par) (TP <$> cs) -> is_list (sched_of K).(heap) (TChild t) [] ->
  is_list (sched_of K).(heap) (MutexWait tm) [] -> is_Some ((sched_of K).(heap) !! MutexTask tm) ->
  (sched_of K).(mutex_count) !! tm = Some 0 ->
  exists s1, on_sched (init_sched_struct t) K = Some (with_sched s1 K) /\
    added (with_sched s1 K) (fresh_sched (thread_prio k.(pid)) k) par cs.
Proof.
  intros G Et (Hkern & Huser). apply init_sched_prio_ok; [done|done| |apply thread_prio_range].
  unfold init_sched_prio, thread_prio. rewrite Hkern, Huser. by destruct (Z.ltb 0 k.(pid)).
Qed.

(** The kernel stack: the next page of the zone. *)
Lemma kernel_stack_ok K k par (cs : list Z) :
  kept K0 K -> added K k par cs -> kernel_thread k -> k.(stack_base) = 0 ->
  let va := ks + 4096 * z.(bm_current) in
  exists K', alloc_task_memory ks zone_mutex t K = Some (0, K') /\
    added K' (with_stack_origin va (with_stack_base va k)) par cs /\
    ram_of K' = ram_of K0 /\ K'.(k_pids) = K.(k_pids) /\ 0 < va < 2 ^ 32 - KERNEL_STACK_SIZE.
Proof.
  intros [P1 P2 P3 P4] Ha (_ & Hu) Hsb va. pose proof Hr as [_ _ _ _ _ _ _ _ [Hks Hal] Hz].
  assert (Hlw : lock_wf (sched_of K)) by (apply (good_lock_wf _ _ _ _ (ad_good _ _ _ _ Ha) (ad_mwf _ _ _ _ Ha))).
  assert (Hz' : @run_from _ _ (calm_locks (sched_of K)) ks zone_mutex off
    (Mk_origin (mm_of K0).(page_map) z.(bm_current) (z.(z_free_pages) + z.(bm_current))) (0 + 1) z (mm_of K)).
  { apply (run_from_keep (LO1 := calm_locks s0) _ _ _ _ _ _ (mm_of K0)); try done.
    split; [done|]. split; [done|]. apply (ad_idle _ _ _ _ Ha).
    pose proof (zr_lock _ _ _ _ (rr_ready _ _ _ _ _ _ _ Hz)) as Hf. apply Hf. }
  destruct (take_page (LO := calm_locks (sched_of K)) ks zone_mutex off _ Hks 0 z (mm_of K) GFP_KERNEL Hz' ltac:(lia) eq_refl)
    as (m' & z' & E & Hr' & _ & _ & _).
  destruct (run_va _ _ _ _ Hks _ _ _ z.(bm_current) Hz') as (Eva & _ & Hlt).
  { pose proof (rr_cur _ _ _ _ _ _ _ Hz'). lia. }
  fold va in Eva. rewrite Eva in E.
  assert (Hc : calm (sched_of K) m'.(locks)).
  { pose proof (zr_lock _ _ _ _ (rr_ready _ _ _ _ _ _ _ Hr')) as Hf. apply Hf. }
  pose proof (rr_cur _ _ _ _ _ _ _ Hz').
  set (k' := with_stack_origin va (with_stack_base va k)).
  exists (put_task t k' (with_vm (with_pages m' (vm_of K)) K)). split_and!; try done; try lia.
  - unfold alloc_task_memory. rewrite (added_at _ _ _ _ Ha), bind_Some_eq.
    unfold alloc_memory_for_task, alloc_kernel_stack. rewrite Hsb. cbn [Z.eqb negb].
    change (Z.shiftr KERNEL_STACK_SIZE PAGE_SHIFT) with 1. unfold get_free_page in E.
    cbn [vm_pages vm_of]. rewrite E, !bind_Some_eq. cbn beta iota zeta.
    rewrite (proj2 (Z.eqb_neq va 0)) by lia. change (truth 0) with false. cbn iota.
    change (flag _) with k.(flag). rewrite Hu. by rewrite bind_Some_eq.
  - apply (added_put _ k); [|apply (ad_state _ _ _ _ Ha)|done].
    apply (added_calm K m'.(locks)) in Ha; [|done]. by destruct Ha; constructor.
  - pose proof (rr_va _ _ _ _ _ _ _ Hz'). unfold KERNEL_STACK_SIZE, va. lia.
Qed.

(** The frame of a thread that runs [fn] with the argument [arg]. *)
Definition thread_regs (fn arg : Z) : pt_regs := Mk_pt_regs arg 1 2 3 4 5 6 7 8 9 10 11 12 15 14 13 SVC_MODE fn.

Lemma frame_ok K k par (cs : list Z) (r : pt_regs) :
  added K k par cs -> k.(stack_base) <> 0 -> 0 <= k.(stack_origin) < 2 ^ 32 - KERNEL_STACK_SIZE -> regs_ok r ->
  Z.land r.(cpsr) MODE_MASK = USER_MODE \/ Z.land r.(cpsr) MODE_MASK = SVC_MODE ->
  room (ram_of K) k.(stack_origin) KERNEL_STACK_SIZE ->
  let top := k.(stack_origin) + KERNEL_STACK_SIZE in
  exists m, let K' := put_task t (with_stack_base (top - 72) k) (with_kernel_ram m K) in
    set_up_task_stack t r K = Some (0, K') /\ added K' (with_stack_base (top - 72) k) par cs /\
    switch_to_frame (top - 72) m = Some (started r top) /\
    forall x, ~ (top - 72 <= x < top) -> m !! x = ram_of K !! x.
Proof.
  intros Ha Hb Ho Hr' Hmode Hroom top.
  destruct (set_up_stack_ok k r (ram_of K) Hb Ho Hr' Hroom Hmode) as (k' & m' & E & -> & Hf & Hm).
  exists m'. split; [|split; [|done]].
  - unfold set_up_task_stack. rewrite (added_at _ _ _ _ Ha), bind_Some_eq. by rewrite E, bind_Some_eq.
  - apply (added_put _ k); [|apply (ad_state _ _ _ _ Ha)|done]. by destruct Ha; constructor.
Qed.

Lemma thread_regs_ok fn arg : is_u32 fn -> is_u32 arg -> regs_ok (thread_regs fn arg).
Proof. intros Hfn Harg. unfold regs_ok, frame, thread_regs. cbn. repeat constructor; (done || apply Hfn || apply Harg). Qed.

(** The new task becomes ready. *)
Lemma ready_ok K k par (cs : list Z) :
  added K k par cs ->
  exists s, set_task_state t PROCESS_STATE_PREPARE (sched_of K) = Some s /\
    good s (a_set_state t PROCESS_STATE_PREPARE (add_task t k a)) /\ mwf s w h /\
    is_list s.(heap) (TChild par) (TP <$> cs) /\ s.(current) = s0.(current) /\ s.(idle) = s0.(idle).
Proof.
  intros Ha. pose proof (ad_good _ _ _ _ Ha) as Hg.
  destruct (set_task_state_sim (sched_of K) (add_task t k a) t k PROCESS_STATE_PREPARE) as (s3 & E3 & _ & He & _).
  { apply (good_refines _ _ Hg). } { apply lookup_insert_eq. } { by rewrite (ad_state _ _ _ _ Ha). }
  destruct (step_set (sched_of K) _ Hg t k PROCESS_STATE_PREPARE) as (s3' & E3' & Hg3).
  { apply lookup_insert_eq. } { by rewrite (ad_state _ _ _ _ Ha). } { done. }
  rewrite E3 in E3'. injection E3' as <-.
  exists s3. split; [done|]. split; [done|]. split; [|split; [|split]].
  - apply (mwf_env (sched_of K)); [apply (ad_mwf _ _ _ _ Ha)|done|]. intros x.
    rewrite (proj2 (good_refines _ _ Hg3)), (proj2 (good_refines _ _ Hg)). by rewrite set_state_dom.
  - apply (is_list_frame (sched_of K).(heap)); [|apply (ad_child _ _ _ _ Ha)].
    intros n [->|(c & -> & _)%list_elem_of_fmap]%elem_of_cons; by apply (se_heap _ _ He).
  - rewrite (se_current _ _ He). apply (ad_current _ _ _ _ Ha).
  - rewrite (se_idle _ _ He). apply (ad_idle_task _ _ _ _ Ha).
Qed.

(** ** [fork_new_task] *)

Lemma with_kernel_mm_id K : with_kernel_mm (mm_of K) K = K.
Proof. by destruct K as [[[? ? ? []] ? ? ?] ?]. Qed.

Lemma with_sched_id K : with_sched (sched_of K) K = K.
Proof.
  unfold with_sched. assert (E : with_locks (sched_of K) (mm_of K) = mm_of K) by (unfold sched_of; by destruct (mm_of K)).
  by rewrite E, with_kernel_mm_id.
Qed.

Lemma put_task_id K k : task_at t K = Some k -> put_task t k K = K.
Proof.
  intros E. unfold put_task. rewrite insert_id by done. transitivity (with_sched (sched_of K) K); [|apply with_sched_id].
  f_equal. by destruct (sched_of K).
Qed.

(** For a kernel thread [init_mm_struct] has nothing to do. *)
Lemma init_task_mm_thread K k sp : task_at t K = Some k -> kernel_thread k -> init_task_mm t sp K = Some K.
Proof.
  intros E (_ & Hu). unfold init_task_mm, init_mm_struct. rewrite E, bind_Some_eq, Hu, bind_Some_eq.
  rewrite with_kernel_mm_id. by rewrite put_task_id.
Qed.

(** The structure of the thread once it has its stack. *)
Definition thread_struct (par : Z) (pk : task_struct) (bytes : list Z) : task_struct :=
  let va := ks + 4096 * z.(bm_current) in
  with_stack_origin va (with_stack_base va (set_name bytes
    (fresh_sched (thread_prio pid0) (initial_struct par pk PROCESS_TYPE_KERNEL)))).

Lemma fork_thread_ok nm bytes pk (cs : list Z) :
  nm <> 0 -> read_bytes 16 nm (ram_of K0) = Some bytes ->
  s0.(tasks) !! s0.(idle) = Some pk -> is_list s0.(heap) (TChild s0.(idle)) (TP <$> cs) -> t ∉ cs ->
  exists K', fork_new_task ks zone_mutex slab_mutex page_struct_va pid_mutex task_mutex stale nm 0 PROCESS_TYPE_KERNEL K0
      = Some (t, K') /\
    added K' (thread_struct s0.(idle) pk bytes) s0.(idle) (t :: cs) /\ ram_of K' = ram_of K0 /\
    aget K'.(k_pids).(pid_tasks) pid0 = Some t /\ pid_wf K'.(k_pids) /\ 0 < ks + 4096 * z.(bm_current) < 2 ^ 32 - KERNEL_STACK_SIZE.
Proof.
  intros Hnm Hby Hpk Hl Hcs. destruct (tr_addr _ _ _ _ _ _ _ _ _ _ Hr) as [_ Hadr].
  destruct kmalloc_task_ok as (K1 & E1 & G1 & Et1 & Ep1 & Hh1 & _).
  destruct (init_task_struct_ok K1 _ pk cs PROCESS_TYPE_KERNEL G1 Ep1 Et1 Hh1 eq_refl Hpk Hl Hcs)
    as (K2 & E2 & G2 & Et2 & Ep2 & Hpw & L1 & L2 & L3 & L4 & L5 & _). cbn in L1.
  set (k2 := initial_struct _ _ _) in *.
  assert (Hk2 : kernel_thread k2) by done.
  destruct (init_sched_ok K2 k2 _ (t :: cs) G2 Et2 Hk2 L1 L2 L3 L4 L5) as (s3 & E3 & A3).
  set (K3 := with_sched s3 K2) in *. set (k3 := fresh_sched _ k2) in *.
  pose proof (added_put _ _ (set_name bytes k3) _ _ A3 eq_refl eq_refl) as A4.
  set (K4 := put_task t _ K3) in A4.
  assert (P4 : kept K0 K4) by apply kept_sched, kept_sched, growing_kept, G2.
  destruct (kernel_stack_ok K4 _ _ _ P4 A4) as (K5 & E5 & A5 & Er5 & Ep5 & Hva); [done|done|].
  exists K5. split; [|split; [done|split; [done|split; [by rewrite Ep5|split; [by rewrite Ep5|done]]]]].
  unfold fork_new_task. rewrite E1, bind_Some_eq. cbn beta iota. rewrite (proj2 (Z.eqb_neq t 0)) by lia.
  rewrite E2, bind_Some_eq. cbn beta iota. change (truth 0) with false. cbn iota.
  rewrite (init_task_mm_thread _ _ _ Et2 Hk2), bind_Some_eq, E3, bind_Some_eq.
  replace (truth nm) with true by (unfold truth; by rewrite (proj2 (Z.eqb_neq nm 0))).
  change (ram_of K3) with (ram_of K2). rewrite (gr_ram _ _ G2), Hby, bind_Some_eq.
  pose proof (added_at _ _ _ _ A3) as Et3. unfold task_at in Et3.
  unfold on_sched, upd_task. rewrite Et3, !bind_Some_eq. fold (put_task t (set_name bytes k3) K3). fold K4.
  by rewrite E5, bind_Some_eq.
Qed.

Lemma kthread_run_ok nm fn arg bytes pk (cs : list Z) :
  nm <> 0 -> read_bytes 16 nm (ram_of K0) = Some bytes ->
  s0.(tasks) !! s0.(idle) = Some pk -> is_list s0.(heap) (TChild s0.(idle)) (TP <$> cs) -> t ∉ cs ->
  0 < fn < 2 ^ 32 -> is_u32 arg -> room (ram_of K0) (ks + 4096 * z.(bm_current)) KERNEL_STACK_SIZE ->
  let top := ks + 4096 * z.(bm_current) + KERNEL_STACK_SIZE in
  let k := with_stack_base (top - 72) (thread_struct s0.(idle) pk bytes) in
  exists K', kthread_run ks zone_mutex slab_mutex page_struct_va pid_mutex task_mutex stale nm fn arg K0 = Some (0, K') /\
    good (sched_of K') (a_set_state t PROCESS_STATE_PREPARE (add_task t k a)) /\ mwf (sched_of K') w h /\
    is_list (sched_of K').(heap) (TChild s0.(idle)) (TP <$> (t :: cs)) /\
    aget K'.(k_pids).(pid_tasks) pid0 = Some t /\ pid_wf K'.(k_pids) /\
    switch_to_frame (top - 72) (ram_of K') = Some (started (thread_regs fn arg) top) /\
    (sched_of K').(current) = s0.(current) /\ (sched_of K').(idle) = s0.(idle).
Proof.
  intros Hnm Hby Hpk Hl Hcs Hfn Harg Hroom top k.
  destruct (fork_thread_ok nm bytes pk cs Hnm Hby Hpk Hl Hcs) as (K1 & E1 & A1 & Er1 & Ep1 & Hpw1 & Hva).
  assert (Efn : u32 fn = fn /\ u32 arg = arg) by (unfold is_u32 in Harg; rewrite !u32_small by lia; done).
  destruct (frame_ok K1 _ _ _ (thread_regs fn arg) A1) as (m & E2 & A2 & Hf & _).
  { cbn. lia. } { cbn. lia. } { apply thread_regs_ok; [unfold is_u32; lia|done]. } { by right. } { by rewrite Er1. }
  cbn [stack_origin thread_struct with_stack_origin] in E2, A2, Hf. fold top in E2, A2, Hf. fold k in E2, A2.
  set (K2 := put_task t k _) in *.
  destruct (ready_ok K2 _ _ _ A2) as (s3 & E3 & Hg3 & Hm3 & Hl3 & Hc3 & Hi3).
  exists (with_sched s3 K2). split; [|split_and!; try done].
  unfold kthread_run, arch_init_pt_regs. unfold truth at 1. rewrite (proj2 (Z.eqb_neq fn 0)) by lia. cbn [negb].
  destruct Efn as [-> ->]. rewrite bind_Some_eq. unfold do_fork. rewrite E1, bind_Some_eq. cbn beta iota.
  destruct (tr_addr _ _ _ _ _ _ _ _ _ _ Hr) as [_ Hadr]. rewrite (proj2 (Z.eqb_neq t 0)) by lia.
  change (truth (PROCESS_TYPE_KERNEL &u PROCESS_TYPE_USER)) with false.
  change (truth (PROCESS_TYPE_KERNEL &u PROCESS_FLAG_FORK)) with false. cbn iota. rewrite !bind_Some_eq.
  fold (thread_regs fn arg). rewrite E2, bind_Some_eq. cbn beta iota. unfold on_sched. by rewrite E3, !bind_Some_eq.
Qed.
End start.
End thread.
