(* ===== verification/Exec.v ===== *)
(** * A program is started

    [exec_image] of [Task] on a new task of a kernel thread: the sections go to the image
    pages ([TaskLoad]), the arguments to the first of them ([TaskArgs]), the first frame to
    the kernel stack ([Regs]), and the task to the ready queue ([TaskThms]). *)

From S2P Require Import Prelude ListHead TaskStruct Sched SchedInv SchedSpec SchedBoot SchedApi.
From S2P Require Import Mutex Bitops Mem CString MmTypes Pages PagesInv PagesThms Mmu KernelLocks.
From S2P Require Import KernelCalm Slab SlabThms SlabAlloc Pid Regs Ramdisk Elf ElfThms TaskMem.
From S2P Require Import TaskMemInv TaskMemThms TaskLoad TaskArgs TaskBuild Task TaskThms.

Implicit Types (K : kernel) (k : task_struct) (m : mem) (s : elf_sys (slab_state sched_state)).

(** The registers a program starts with: [n] arguments in the table at the user base. *)
Definition program_regs (n : Z) : pt_regs :=
  Mk_pt_regs n PROCESS_USER_BASE 2 3 4 5 6 7 8 9 10 11 12 15 14 PROCESS_USER_STACK_BASE USER_MODE PROCESS_USER_EXEC_BASE.

Lemma program_regs_ok n : is_u32 n -> regs_ok (program_regs n).
Proof. intros Hn. unfold regs_ok, frame, program_regs. cbn. repeat constructor; (done || apply Hn). Qed.

Lemma program_regs_eq arg ps m :
  arg <> 0 -> argv_at m arg ps -> Z.of_nat (length ps) < 2 ^ 32 ->
  arch_init_pt_regs 0 arg m = Some (program_regs (Z.of_nat (length ps))).
Proof.
  intros Ha Hps Hn. unfold arch_init_pt_regs. change (truth 0) with false. cbn iota.
  unfold truth. rewrite (proj2 (Z.eqb_neq arg 0) Ha). cbn [negb].
  pose proof (argv_size _ _ _ Hps). rewrite (count_args_ok ps) by (done || lia).
  by rewrite bind_Some_eq, Z.add_0_l, u32_small by lia.
Qed.

Section exec.
Context (ks : Z).
Context (t : Z) (K0 : kernel) (a : astate) (w h : mview) (off c : Z).

Abbreviation added := (added t K0 a w h).

(** Only the scheduler of a kernel matters to [added]. *)
Lemma added_sched K K' k par (cs : list Z) : added K k par cs -> sched_of K' = sched_of K -> added K' k par cs.
Proof. intros [H1 H2 H3 H4 H5 H6 H7 H8 H9] E. constructor; by rewrite ?E. Qed.

(** The pages of the task: the kernel stack is page [c], the image starts at [c + 7]. *)
Definition page_at (n : Z) : Z := ks + 4096 * (c + 7 + n).
Definition image_pages : list Z := seqZ (c + 7) 256.

(** An address outside all pages of the task. *)
Definition off_task (x : Z) : Prop := ~ (ks + 4096 * c <= x < ks + 4096 * (c + 263)).

(** Where the pages are. *)
Record pages_placed m : Prop := {
  pl_start : 0 < ks < 2 ^ 32 /\ ks mod 4096 = 0 /\ 0 < c;
  pl_end : ks + 4096 * (c + 264) <= 2 ^ 32;
  pl_room : forall i, c <= i < c + 263 -> room m (ks + 4096 * i) 4096
}.

Lemma placed_va m i : pages_placed m -> c <= i < c + 263 -> page_id_to_va ks i = ks + 4096 * i.
Proof.
  intros [(H1 & _ & H2) H3 _] Hi. unfold page_id_to_va, PAGE_SHIFT.
  rewrite u32_u32, Z.shiftl_mul_pow2, u32_add_r by lia. rewrite u32_small; lia.
Qed.

(** A block of other memory is apart from every page of the task. *)
Lemma off_disjoint i (b n : Z) :
  (forall x, b <= x < b + n -> off_task x) -> 0 < n -> c <= i < c + 263 -> disjoint (ks + 4096 * i) 4096 b n.
Proof.
  intros Hf Hn Hi. unfold disjoint, off_task in *.
  destruct (Z_le_gt_dec (ks + 4096 * i + 4096) b); [by left|right].
  destruct (Z_le_gt_dec (b + n) (ks + 4096 * i)); [done|exfalso].
  destruct (Z_le_gt_dec (ks + 4096 * i) b); [apply (Hf b); lia|apply (Hf (ks + 4096 * i)); lia].
Qed.

Lemma placed_image K s (fbase len : Z) :
  address_space ks off t c (vm_of K) -> pages_placed s.(ram) -> s.(disk).(alloc) = slab_of K ->
  (forall x, fbase <= x < fbase + len -> off_task x) -> 0 < len ->
  image_of image_pages page_at t fbase len s.
Proof.
  intros Ha Hp Es Hf Hl. pose proof Hp as [(H1 & H2 & H3) H4 H5].
  assert (Hlen : Z.of_nat (length image_pages) = 256) by reflexivity.
  constructor; rewrite ?Hlen; unfold page_at.
  - unfold image_pages_of. rewrite Es. apply (as_image _ _ _ _ _ Ha).
  - intros n i Hn. apply lookup_seqZ in Hn as [-> Hn].
    destruct (as_base _ _ _ _ _ Ha (Z.of_nat n) ltac:(lia)) as (p & Ep & Eb).
    exists p. unfold image_pages_of. rewrite Es. split; [exact Ep|]. by rewrite Eb, (placed_va s.(ram)) by (done || lia).
  - lia.
  - intros n Hn. apply H5. lia.
  - intros n n' Hn Hn' Hne. unfold disjoint. lia.
  - intros n Hn. apply off_disjoint; [done|done|lia].
  - intros n Hn. Z.to_euclidean_division_equations. lia.
Qed.

(** The address space depends on the page lists, the page structures and the tables. *)
Lemma space_same K K' :
  address_space ks off t c (vm_of K) -> plists (mm_of K') = plists (mm_of K) -> page_table (mm_of K') = page_table (mm_of K) ->
  (forall x, page_id_to_va ks (c + 1) <= x < page_id_to_va ks (c + 1) + 4096 \/
     page_id_to_va ks (c + 2) <= x < page_id_to_va ks (c + 2) + 4096 -> ram_of K' !! x = ram_of K !! x) ->
  address_space ks off t c (vm_of K').
Proof.
  intros [S1 S2 S3 S4 S5 S6 S7 S8] El Et Hx.
  assert (Eg : forall i, get_page_struct i (mm_of K') = get_page_struct i (mm_of K)) by (intros; unfold get_page_struct; by rewrite Et).
  constructor; cbn [vm_pages vm_ram vm_of] in *; rewrite ?El; try done.
  - intros i Hi. destruct (S5 i Hi) as (p & Ep & H). exists p. by rewrite Eg.
  - intros j Hj. rewrite <- S6 by done. apply load32_frame. intros x Hx'. apply Hx. lia.
  - intros j Hj. rewrite <- S7 by done. apply load32_frame. intros x Hx'. apply Hx. lia.
  - intros j Hj. rewrite Eg. by apply S8.
Qed.

(** The byte [o] of the image, from the second page on, is in a page behind the arguments. *)
Lemma image_byte o : 4096 <= o < 4096 * 256 -> ks + 4096 * (c + 8) <= image_at page_at o < ks + 4096 * (c + 263).
Proof. intros Ho. unfold image_at, page_at. Z.to_euclidean_division_equations. lia. Qed.

(** The arguments depend on their page only. *)
Lemma args_frame load m m' ls : forall i o,
  (forall x, load <= x < load + 4096 -> m' !! x = m !! x) -> 0 <= i -> i + Z.of_nat (length ls) <= MAX_ARGV ->
  0 <= o -> o mod 4 = 0 -> args_fit o ls -> args_at m load i o ls (read_back ls) ->
  args_at m' load i o ls (read_back ls).
Proof.
  induction ls as [|l ls IH]; intros i o Hf Hi Hn Ho Ho4 Hfit Hargs; [done|].
  pose proof (read_back_fit o l ls Ho4 Hfit) as Hrb.
  cbn [length args_fit args_at read_back List.hd] in *. unfold MAX_ARGV in *. destruct Hfit as [Hl Hfit], Hargs as (E & [Hb Hz] & Hargs).
  destruct (next_offset_range o (Z.of_nat (length l)) ltac:(lia) Ho) as [Hnx Hnx4].
  split; [|split].
  - rewrite <- E. apply load32_frame. intros x Hx. apply Hf. lia.
  - split; [|done]. apply (bytes_at_frame m); [done|]. intros x Hx. apply Hf. rewrite length_app in Hx. cbn [length] in Hx. lia.
  - apply (IH (i + 1)); (done || lia).
Qed.

(** The strings [ls] at the pointers [ps], away from the task. *)
Definition args_off m (ps : list Z) (ls : list (list Z)) : Prop :=
  Forall2 (fun p l => cstr m p l /\ forall x, p <= x < p + (Z.of_nat (length l) + 1) -> off_task x) ps ls.

Lemma args_off_page m m' ps ls i :
  (forall x, off_task x -> m' !! x = m !! x) -> c <= i < c + 263 -> args_off m ps ls ->
  strings_at (ks + 4096 * i) m' ps ls.
Proof.
  intros Hf Hi H. apply (Forall2_impl _ _ _ _ H). intros p l [[Hb Hc] Hp]. split; [|apply off_disjoint; (done || lia)].
  split; [|done]. apply (bytes_at_frame m); [done|]. intros x Hx. apply Hf, Hp. rewrite length_app in Hx. simpl in Hx. lia.
Qed.

(** ** [exec_image] *)

Context (K : kernel) (k : task_struct) (par : Z) (cs : list Z) (fp fbase pos elf argv : Z).
Context (l : list Z) (e : elf_file) (xs : list (Z * elf_section)) (ps : list Z) (ls : list (list Z)).

(** A new task with its address space, an open program file and its sections, and arguments. *)
Record exec_ready : Prop := {
  er_task : added K k par cs;
  er_space : address_space ks off t c (vm_of K);
  er_placed : pages_placed (ram_of K);
  er_stack : k.(stack_origin) = ks + 4096 * c /\ k.(stack_base) <> 0;
  er_null : t <> 0 /\ fp <> 0 /\ elf <> 0 /\ argv <> 0;
  er_file : 0 <= fbase /\ fbase + Z.of_nat (length l) + 4096 < 2 ^ 32 /\ Z.of_nat (length l) < 2 ^ 31;
  er_file_off : l <> [] /\ forall x, fbase <= x < fbase + Z.of_nat (length l) -> off_task x;
  er_open : open_at K.(k_sys) fp l fbase pos;
  er_elf : K.(k_sys).(elf_files) !! elf = Some e;
  er_chain : sec_chain K.(k_sys).(sections) e.(head) xs /\ NoDup xs.*1;
  er_fits : Forall (fun y => section_fits image_pages l y.2) xs;
  er_apart : sections_apart xs;
  er_argv : argv_at (ram_of K) argv ps /\ Z.of_nat (length ps) <= MAX_ARGV;
  er_argv_off : forall x, argv <= x < argv + 4 * (Z.of_nat (length ps) + 1) -> off_task x;
  er_args : args_off (ram_of K) ps ls;
  er_args_fit : args_fit 64 ls
}.

Hypothesis Hr : exec_ready.

Lemma section_bytes y o : y ∈ xs -> sec_range y.2 o -> 4096 <= o < 4096 * 256.
Proof.
  intros Hy Ho. pose proof (er_fits Hr) as Hf. rewrite Forall_forall in Hf. destruct (Hf y Hy) as [H1 _ H3 _ _ _ _].
  change (Z.of_nat (length image_pages)) with 256 in H3. unfold sec_range, PROCESS_USER_BASE in *. lia.
Qed.

(** The image is loaded; the kernel stack, the tables and the argument page are as before. *)
Lemma load_program ms :
  exists s', load_elf_image t fp elf ms K.(k_sys) = Some (0, with_elf_size (total_sizes xs 0) ms, s') /\
    same_objects K.(k_sys) s' /\ Forall (fun y => in_image page_at l s'.(ram) y.2) xs /\
    (forall x, ~ (ks + 4096 * (c + 8) <= x < ks + 4096 * (c + 263)) -> s'.(ram) !! x = ram_of K !! x) /\
    pages_placed s'.(ram).
Proof.
  pose proof Hr as [_ Hspace Hpl _ (H1 & H2 & H3 & _) Hfile (Hne & Hoff) Hop Helf (Hc & Hn) Hfit Hap _ _ _ _].
  destruct (load_sections_ok image_pages page_at t fp fbase l H2 Hfile xs (S (base.size K.(k_sys).(sections))) e.(head)
    (with_elf_size 0 ms) K.(k_sys) pos) as (s' & E & Hs & _ & Hi & Hin & Hfr); try done.
  { pose proof (sec_chain_size _ _ _ Hc Hn). lia. }
  { apply (placed_image K); try done. destruct l; [done|]. simpl. lia. }
  assert (Hkeep : forall x, ~ (ks + 4096 * (c + 8) <= x < ks + 4096 * (c + 263)) -> s'.(ram) !! x = ram_of K !! x).
  { intros x Hx. apply Hfr. intros o y Hy Ho ->. apply Hx, image_byte. by apply (section_bytes y). }
  exists s'. split; [|split; [done|split; [done|split; [done|]]]].
  - unfold load_elf_image. rewrite Helf, bind_Some_eq.
    rewrite (proj2 (Z.eqb_neq t 0)), (proj2 (Z.eqb_neq fp 0)), (proj2 (Z.eqb_neq elf 0)) by done.
    cbn [orb]. rewrite E. by destruct ms.
  - destruct Hpl as [P1 P2 P3]. constructor; try done. intros i Hi'.
    destruct (decide (c + 8 <= i)) as [Hge|Hlt].
    + replace (ks + 4096 * i) with (page_at (i - c - 7)) by (unfold page_at; lia). apply (io_room _ _ _ _ _ _ Hi).
      change (Z.of_nat (length image_pages)) with 256. lia.
    + intros q Hq. rewrite Hkeep by lia. by apply P3.
Qed.

Let top := ks + 4096 * c + KERNEL_STACK_SIZE.
Let load := ks + 4096 * (c + 7).
Let argc := Z.of_nat (length ps).

(** The structure of the task when its program is loaded, and when its frame is built. *)
Definition loaded_struct : task_struct := with_mm_struct (with_elf_size (total_sizes xs 0) k.(mm_struct)) k.
Definition program_struct : task_struct := with_stack_base (top - 72) loaded_struct.

(** From the loaded image to the frame: the argument page and the kernel stack change. *)
Lemma program_frame K1 :
  added K1 loaded_struct par cs -> plists (mm_of K1) = plists (mm_of K) -> pages_placed (ram_of K1) ->
  (forall x, off_task x -> ram_of K1 !! x = ram_of K !! x) ->
  exists v m, setup_task_argv ks t argv (vm_of K1) = Some (0, v) /\
    (let K2 := with_vm v K1 in let K3 := put_task t program_struct (with_kernel_ram m K2) in
     set_up_task_stack t (program_regs argc) K2 = Some (0, K3) /\ added K3 program_struct par cs) /\
    v.(vm_pages) = mm_of K1 /\ switch_to_frame (top - 72) m = Some (started (program_regs argc) top) /\
    args_at m load 0 64 ls (read_back ls) /\
    (forall x, ~ (load <= x < load + 4096) -> ~ (ks + 4096 * c <= x < ks + 4096 * (c + 1)) -> m !! x = ram_of K1 !! x).
Proof.
  intros Ha1 Epl Hp1 Hoff. pose proof Hp1 as [(P1 & P2 & P3) P4 P5].
  pose proof Hr as [_ Hspace _ (Eo & Hb) (_ & _ & _ & Hav) _ _ _ _ _ _ _ (Hargv & Hn) Haoff Hargs Hfit].
  assert (Eva : page_id_to_va ks (c + 7) = load) by (apply (placed_va (ram_of K1)); [done|lia]).
  assert (Hload : 0 < load /\ load mod 4 = 0 /\ load + 8192 < 2 ^ 32).
  { unfold load. split; [lia|]. split; [Z.to_euclidean_division_equations; lia|lia]. }
  destruct (setup_args_ok ks t argv (c + 7) (seqZ (c + 8) 255) ps ls (vm_of K1)) as (m2 & E2 & Hat & Hpg).
  { by rewrite Eva. } { done. } { done. }
  { cbn [vm_pages vm_of]. rewrite Epl. pose proof (as_image _ _ _ _ _ Hspace) as Hl. cbn [vm_pages vm_of] in Hl.
    replace (c + 7 :: seqZ (c + 8) 255) with (seqZ (c + 7) 256); [done|]. rewrite seqZ_cons by lia. do 2 f_equal; lia. }
  { destruct Hargv as [B F]. split; [|done]. apply (bytes_at_frame (ram_of K)); [done|]. intros x Hx. apply Hoff, Haoff.
    rewrite length_words, length_app in Hx. simpl in Hx. lia. }
  { rewrite Eva. apply off_disjoint; [done|lia|lia]. }
  { rewrite Eva. apply (args_off_page (ram_of K)); [done|lia|done]. }
  { done. }
  { rewrite Eva. apply P5. lia. }
  rewrite Eva in Hat, Hpg. set (v := with_vm_ram m2 (vm_of K1)) in *. set (K2 := with_vm v K1).
  assert (A2 : added K2 loaded_struct par cs) by (by apply (added_sched K1)).
  destruct (frame_ok t K0 a w h K2 loaded_struct par cs (program_regs argc) A2) as (m3 & E3 & A3 & Hf & Hx3).
  { done. } { change (stack_origin loaded_struct) with k.(stack_origin). rewrite Eo. unfold KERNEL_STACK_SIZE. lia. }
  { apply program_regs_ok. unfold argc, MAX_ARGV, is_u32 in *. lia. } { by left. }
  { change (stack_origin loaded_struct) with k.(stack_origin). rewrite Eo. intros q Hq.
    change (ram_of K2) with m2. unfold KERNEL_STACK_SIZE in Hq. rewrite Hpg by (unfold load; lia). apply P5; lia. }
  change (stack_origin loaded_struct) with k.(stack_origin) in E3, A3, Hf, Hx3. rewrite Eo in E3, A3, Hf, Hx3.
  fold top in E3, A3, Hf, Hx3. change (with_stack_base (top - 72) loaded_struct) with program_struct in *.
  change (ram_of K2) with m2 in Hx3.
  exists v, m3. split; [done|]. split; [by split|]. split; [done|]. split; [done|]. split.
  - apply (args_frame load m2); try done; try lia.
    + intros x Hx. apply Hx3. unfold top, load, KERNEL_STACK_SIZE in *. lia.
    + pose proof (Forall2_length _ _ _ Hargs). lia.
  - intros x H1 H2. rewrite Hx3 by (unfold top, KERNEL_STACK_SIZE; lia). by apply Hpg.
Qed.

Lemma exec_image_ok regs :
  exists K', exec_image ks t fp elf argv true regs K = Some (0, program_regs argc, K') /\
    good (sched_of K') (a_set_state t PROCESS_STATE_PREPARE (add_task t program_struct a)) /\ mwf (sched_of K') w h /\
    address_space ks off t c (vm_of K') /\
    Forall (fun y => in_image page_at l (ram_of K') y.2) xs /\ args_at (ram_of K') load 0 64 ls (read_back ls) /\
    switch_to_frame (top - 72) (ram_of K') = Some (started (program_regs argc) top) /\
    (forall x, off_task x -> ram_of K' !! x = ram_of K !! x).
Proof.
  pose proof (added_at _ _ _ _ _ _ _ _ _ (er_task Hr)) as Ek.
  destruct (load_program k.(mm_struct)) as (s' & E1 & (Eal & _ & _) & Hin & Hkeep & Hp1).
  set (K1 := put_task t loaded_struct (with_sys s' K)).
  assert (Esl : slab_of (with_sys s' K) = slab_of K) by exact Eal.
  assert (A1 : added K1 loaded_struct par cs).
  { apply (added_put _ _ _ _ _ _ k); [|apply (ad_state _ _ _ _ _ _ _ _ _ (er_task Hr))|done].
    apply (added_sched K); [apply (er_task Hr)|]. unfold sched_of, mm_of. by rewrite Esl. }
  assert (Emm : plists (mm_of K1) = plists (mm_of K) /\ page_table (mm_of K1) = page_table (mm_of K) /\ bank (mm_of K1) = bank (mm_of K)).
  { change (plists (mm_of (with_sys s' K)) = plists (mm_of K) /\ page_table (mm_of (with_sys s' K)) = page_table (mm_of K) /\
      bank (mm_of (with_sys s' K)) = bank (mm_of K)). unfold mm_of. by rewrite Esl. }
  destruct Emm as (Epl & Ept & Ebk). pose proof (pl_start _ Hp1) as (P1 & P2 & P3).
  destruct (program_frame K1 A1 Epl Hp1) as (v & m & E2 & [E3 A3] & Ev & Hf & Hargs & Hx).
  { intros x Hx. apply Hkeep. unfold off_task in Hx. lia. }
  set (K2 := with_vm v K1) in *. set (K3 := put_task t program_struct (with_kernel_ram m K2)) in *.
  destruct (ready_ok t K0 a w h K3 program_struct par cs A3) as (s4 & E4 & Hg & Hm & _).
  exists (with_sched s4 K3). split.
  { unfold exec_image. rewrite Ek, bind_Some_eq, E1, bind_Some_eq. cbv beta iota zeta. change (truth 0) with false. cbn iota.
    fold loaded_struct. fold K1.
    assert (Eregs : arch_init_pt_regs 0 argv (ram_of K1) = Some (program_regs argc)).
    { apply program_regs_eq; [apply (er_null Hr)| |pose proof (proj2 (er_argv Hr)); unfold MAX_ARGV in *; lia].
      destruct (er_argv Hr) as [[B F] _]. split; [|done]. apply (bytes_at_frame (ram_of K)); [done|]. intros x Hx'.
      apply Hkeep. pose proof (er_argv_off Hr x) as Ho. unfold off_task in Ho.
      rewrite length_words, length_app in Hx'. simpl in Hx'. lia. }
    rewrite Eregs, bind_Some_eq, E2, bind_Some_eq. cbv beta iota zeta. fold K2.
    rewrite E3, bind_Some_eq. cbv beta iota zeta. unfold on_sched. by rewrite E4, !bind_Some_eq. }
  change (ram_of (with_sched s4 K3)) with m. split; [exact Hg|]. split; [exact Hm|].
  assert (Hx8 : forall x, ks + 4096 * (c + 1) <= x < load \/ load + 4096 <= x -> m !! x = s'.(ram) !! x).
  { intros x Hx'. apply Hx; unfold load in *; lia. }
  split; [|split; [|split; [exact Hargs|split; [exact Hf|]]]].
  - apply (space_same K); [apply (er_space Hr)|..].
    + change (plists v.(vm_pages) = plists (mm_of K)). by rewrite Ev.
    + change (page_table v.(vm_pages) = page_table (mm_of K)). by rewrite Ev.
    + intros x Hx'. change (m !! x = ram_of K !! x). rewrite !(placed_va _ _ Hp1) in Hx' by lia.
      rewrite Hx8 by (unfold load; lia). apply Hkeep. lia.
  - rewrite Forall_forall in Hin |- *. intros y Hy q b Hq. pose proof (Hin y Hy q b Hq) as E.
    pose proof (er_fits Hr) as Hfit. rewrite Forall_forall in Hfit. pose proof (Hfit y Hy) as Hfy.
    assert (Hlen : Z.of_nat (length (section_data y.2 l y.2.(s_offset) y.2.(s_size))) = y.2.(s_size)).
    { apply (section_data_split y.2 l _ y.2.(s_size)); [apply Hfy|pose proof (sf_size _ _ _ Hfy); lia|apply Hfy]. }
    pose proof (lookup_lt_Some _ _ _ Hq) as Hlt. rewrite Hx8; [exact E|right].
    pose proof (image_byte (y.2.(s_load_addr) - PROCESS_USER_BASE + Z.of_nat q)) as Hb.
    assert (Hy' : sec_range y.2 (y.2.(s_load_addr) - PROCESS_USER_BASE + Z.of_nat q)) by (unfold sec_range; lia).
    specialize (Hb (section_bytes y _ Hy Hy')). unfold load. lia.
  - intros x Hx'. unfold off_task in Hx'. rewrite Hx by (unfold load; lia). apply Hkeep. lia.
Qed.
End exec.
