(* ===== verification/Kthread.v ===== *)
(** * A kernel thread starts

    [kthread_run] from the call to the first instruction of the thread, and a small
    kernel in which it does. *)

From S2P Require Import Prelude ListHead TaskStruct Sched SchedInv SchedSpec SchedBoot SchedApi.
From S2P Require Import Mutex MutexThms Bitops Mem CString MmTypes Pages PagesInv PagesThms.
From S2P Require Import KernelLocks KernelCalm Slab SlabThms SlabAlloc Pid Regs Ramdisk Elf.
From S2P Require Import TaskMem TaskMemInv TaskMemThms TaskBuild Task TaskThms.

Implicit Types (K : kernel) (k : task_struct).

(** The queues once a new task of priority [i] is ready. *)
Lemma ready_view t k i (v : view) q :
  k.(state) = PROCESS_STATE_UNKNOWN -> k.(prio) = i ->
  abs_set_state t k PROCESS_STATE_PREPARE v q =
  if decide (q = Q_ready i) then v q ++ [t] else if decide (q = Q_system) then v q ++ [t] else v q.
Proof.
  intros Hs Hp. unfold abs_set_state, enter, register, leave, home. simpl. rewrite Hs, Hp. simpl.
  unfold vset. repeat case_decide; subst; congruence.
Qed.

(** Making a new task ready. *)
Lemma add_ready t k a :
  k.(state) = PROCESS_STATE_UNKNOWN ->
  a_set_state t PROCESS_STATE_PREPARE (add_task t k a) =
    Abs (<[t := with_state PROCESS_STATE_PREPARE k]> a.(a_tasks)) (abs_set_state t k PROCESS_STATE_PREPARE a.(a_view)).
Proof.
  intros Hs. unfold a_set_state, add_task. cbn [a_tasks a_view]. rewrite lookup_insert_eq, Hs. cbn [legal].
  by rewrite insert_insert_eq.
Qed.

(** C34. [kthread_run] on a kernel that is ready for it returns 0.  The new task has the next
    pid, is the first child of the idle task and the last of the ready queue of its
    priority; every other queue and task is as before, the scheduler's and the
    mutexes' invariants hold again, and the context switch to it starts [fn] with [arg]
    on the new stack in supervisor mode. *)
Theorem kthread_run_starts ks zone_mutex slab_mutex page_struct_va pid_mutex task_mutex stale t
    K a w h pg l kp hdr z off nm fn arg bytes pk (cs : list Z)
    (Hr : thread_ready ks zone_mutex slab_mutex pid_mutex task_mutex t K a w h pg l kp hdr z off)
    (Hnm : nm <> 0)
    (Hbytes : read_bytes 16 nm (ram_of K) = Some bytes)
    (Hidle : (sched_of K).(tasks) !! (sched_of K).(idle) = Some pk)
    (Hchild : is_list (sched_of K).(heap) (TChild (sched_of K).(idle)) (TP <$> cs)) (Hcs : t ∉ cs)
    (Hfn : 0 < fn < 2 ^ 32) (Harg : is_u32 arg)
    (Hroom : room (ram_of K) (ks + 4096 * z.(bm_current)) KERNEL_STACK_SIZE) :
  let top := ks + 4096 * z.(bm_current) + KERNEL_STACK_SIZE in
  exists K' k a',
    kthread_run ks zone_mutex slab_mutex page_struct_va pid_mutex task_mutex stale nm fn arg K = Some (0, K') /\
    good (sched_of K') a' /\ mwf (sched_of K') w h /\
    a'.(a_tasks) = <[t := k]> a.(a_tasks) /\
    (forall q, a'.(a_view) q =
       if decide (q = Q_ready (thread_prio k.(pid))) then a.(a_view) q ++ [t]
       else if decide (q = Q_system) then a.(a_view) q ++ [t] else a.(a_view) q) /\
    k.(pid) = K.(k_pids).(pid_current) /\ aget K'.(k_pids).(pid_tasks) k.(pid) = Some t /\ pid_wf K'.(k_pids) /\
    k.(parent) = (sched_of K).(idle) /\ k.(uid) = pk.(uid) /\ take 16 k.(name) = bytes /\
    k.(state) = PROCESS_STATE_PREPARE /\ k.(prio) = thread_prio k.(pid) /\
    is_list (sched_of K').(heap) (TChild (sched_of K).(idle)) (TP <$> (t :: cs)) /\
    switch_to_frame k.(stack_base) (ram_of K') =
      Some (Mk_context [arg; 1; 2; 3; 4; 5; 6; 7; 8; 9; 10; 11; 12] top 14 fn SVC_MODE).
Proof.
  intros top.
  destruct (kthread_run_ok ks zone_mutex slab_mutex page_struct_va pid_mutex task_mutex stale t K a w h pg l kp hdr
    z off Hr nm fn arg bytes pk cs Hnm Hbytes Hidle Hchild Hcs Hfn Harg Hroom)
    as (K' & E & Hg & Hm & Hl & Hp & Hpw & Hf & _). fold top in E, Hg, Hf.
  set (k := with_stack_base (top - 72) _) in Hg.
  rewrite (add_ready t k a) in Hg by done. eexists K', _, _. split; [done|]. split; [exact Hg|]. split; [done|]. split; [done|].
  split; [intros q; by apply ready_view|]. split_and!; try done.
  cbn. apply take_app_length'. by apply length_mapM in Hbytes as <-.
Qed.

(** ** A kernel with room for a thread

    The scheduler of [demo_ready] with three free mutexes; page 5 is the current slab
    page, empty, page 6 holds slab headers and the next free page is page 8. *)

Definition NEW : Z := 0x80005000.

Definition demo_sched (s : sched_state) : sched_state :=
  init_mutex 102 (init_mutex 101 (init_mutex 100 (with_heap (init_list (TChild 4096) s.(heap)) s))).

Definition demo_sched_ok (s : sched_state) : bool :=
  mutex_nodes_ok s && bool_decide (s.(mutex_count) = ∅) && Z.eqb s.(idle) 4096 &&
  bool_decide (is_Some (s.(tasks) !! 4096)) && bool_decide (s.(tasks) !! NEW = None).

(** What the demonstration needs of its scheduler. *)
Record demo_sched_facts (s : sched_state) (a : astate) (ik : task_struct) : Prop := {
  df_good : good s a;
  df_mwf : mwf s (fun _ => []) (fun _ => []);
  df_mutex : forall m, m ∈ [100; 101; 102] -> idle_mutex s m;
  df_new : s.(tasks) !! NEW = None;
  df_tm : s.(mutex_count) !! (NEW + 4) = None;
  df_idle : s.(idle) = 4096 /\ s.(tasks) !! 4096 = Some ik;
  df_child : is_list s.(heap) (TChild 4096) []
}.

Lemma demo_sched_ready s a :
  good s a -> demo_sched_ok s = true -> exists ik, demo_sched_facts (demo_sched s) a ik.
Proof.
  intros Hg H. unfold demo_sched_ok in H. rewrite !andb_true_iff, !bool_decide_eq_true, Z.eqb_eq in H.
  destruct H as [[[[Hn He] Hi] [ik Hik]] Hnew]. apply mutex_nodes_mwf in Hn. exists ik.
  set (s1 := with_heap (init_list (TChild 4096) s.(heap)) s).
  assert (Hk : forall n, n <> TChild 4096 -> s1.(heap) !! n = s.(heap) !! n).
  { intros n Hne. unfold s1, init_list. simpl. by rewrite lookup_insert_ne. }
  assert (Hm1 : mwf s1 (fun _ => []) (fun _ => [])).
  { apply (mwf_frame s); try done. intros n Hm. apply Hk. by intros ->. }
  assert (Hg1 : good s1 a).
  { destruct Hg as [Hr H1 H2 H3 H4 H5]. constructor; try done. apply refines_nodes; [done|].
    intros n Hq. apply Hk. by intros ->. }
  assert (E1 : s1.(mutex_count) = ∅) by done.
  assert (Hfresh : forall m n, linked_self (init_list n (init_mutex m s1).(heap)) n) by (intros; apply linked_self_init; by right).
  unfold demo_sched. fold s1. constructor.
  - by do 3 apply good_init_mutex.
  - do 3 (apply mwf_init_mutex; [|simpl; rewrite ?lookup_insert_ne by done; by rewrite He|done]). done.
  - intros m Hm. assert (Hne : m = 100 \/ m = 101 \/ m = 102) by (rewrite !elem_of_cons, elem_of_nil in Hm; tauto).
    destruct Hne as [->|[->| ->]]; constructor;
      try (apply linked_self_empty); unfold linked_self; simpl; unfold init_list; repeat first [rewrite lookup_insert_eq | rewrite lookup_insert_ne by done]; try done; by eexists.
  - done.
  - simpl. rewrite !lookup_insert_ne by (unfold NEW; lia). by rewrite He.
  - done.
  - apply linked_self_empty. unfold linked_self. simpl. unfold init_list. rewrite !lookup_insert_ne by done. by rewrite lookup_insert_eq.
Qed.

Lemma demo_sched_exists : exists s a ik, demo_sched_facts s a ik.
Proof.
  pose proof demo_ready_facts as (a & _ & Hg & _). exists (demo_sched demo_ready), a.
  assert (H : demo_sched_ok demo_ready = true) by (vm_compute; reflexivity).
  by apply demo_sched_ready.
Qed.

Definition thread_page : page := Mk_page 0x30005000 F_GFP_SLAB NEW 4096 1 0.

Definition thread_lists : lheap node :=
  init_list (PagePlist 5) (init_list SlabFreeHeader (init_list (SlabList 13) ∅)).

Definition thread_mm (s : sched_state) : mm_state sched_state :=
  Mk_mm space_bank
    (replicate 5 blank_page ++ [thread_page; Mk_page 0x30006000 F_GFP_SLAB 0x80006000 4096 1 1] ++
     replicate (Z.to_nat 513) blank_page)
    (0x63 :: replicate (Z.to_nat 16) 0) thread_lists s.

(** The name of the thread is at 0x80008100. *)
Definition thread_name : list Z := [107; 105; 108; 108; 101; 114] ++ replicate 10 0.

Definition thread_ram : mem :=
  write 0x80008000 (replicate (Z.to_nat 4096) 0) (write 0x80007000 thread_name ∅).

Lemma thread_stack_room : room thread_ram 0x80008000 4096.
Proof.
  intros i Hi. apply (room_write_self 0x80008000 (replicate (Z.to_nat 4096) 0)). rewrite length_replicate. lia.
Qed.

Definition thread_kernel (s : sched_state) : kernel :=
  Mk_kernel
    (Mk_elf_sys (Mk_ramdisk 0 0 ∅ (Mk_slab (thread_mm s) (Some 5) (Some 6) 1 0 0 ∅)) thread_ram ∅ ∅)
    (Mk_pid_map 2 1 3 0x80100000 [4096; 0; 0]).

Lemma thread_slab_ready s : slab_ready 0x80000000 (slab_of (thread_kernel s)) SIZEOF_TASK 5 [] thread_page 0x80006000.
Proof.
  assert (Hl : forall n, n ∈ [PagePlist 5; SlabFreeHeader; SlabList 13] -> is_list thread_lists n []).
  { intros n Hn. apply linked_self_empty. rewrite !elem_of_cons, elem_of_nil in Hn.
    destruct Hn as [->|[->|[->|[]]]]; unfold thread_lists;
      repeat first [by (apply linked_self_init; right) | apply linked_self_init; left]. }
  assert (H1 : is_list thread_lists (PagePlist 5) []) by (apply Hl; set_solver).
  assert (H2 : is_list thread_lists SlabFreeHeader []) by (apply Hl; set_solver).
  assert (H3 : is_list thread_lists (SlabList 13) []) by (apply Hl; set_solver).
  constructor; try done; try (vm_compute; split; congruence).
  - constructor; [exact H1|reflexivity|vm_compute; repeat split; congruence| |];
      [by intros ? ?%elem_of_nil|by intros ? ? ? ? ?%elem_of_nil].
  - exact (ready_page (slab_of (thread_kernel s)) 6 _ H2 eq_refl ltac:(vm_compute; split; congruence) eq_refl).
  - by apply not_elem_of_nil.
  - intros fl Hfl. rewrite (is_list_det _ _ _ _ Hfl H2). set_solver.
  - exists (SlabList 13). split; [reflexivity|exact H3].
Qed.

Lemma thread_zone_ready s a ik :
  demo_sched_facts s a ik ->
  @run_ready _ _ (calm_locks s) 0x80000000 (fun _ => 100) 0x50000000 1 space_zone (mm_of (thread_kernel s)).
Proof.
  intros Hd. constructor; try (simpl; lia).
  - constructor; try done; try (simpl; lia).
    + split; [repeat constructor; unfold is_u32; lia|vm_compute; split; congruence].
    + split; [done|]. intros i z Hz. unfold get_zone in Hz. pose proof (aget_lt _ _ _ Hz) as Hlt.
      simpl in Hlt. assert (Ei : i = 0 \/ i = 1 \/ i = 2 \/ i = 3) by lia.
      destruct Ei as [->|[->|[->| ->]]]; injection Hz as <-; simpl; lia.
    + split; [|split; [done|apply (df_mutex _ _ _ Hd); set_solver]].
      apply (good_lock_wf s a _ _ (df_good _ _ _ Hd) (df_mwf _ _ _ Hd)).
  - intros j Hj. simpl in Hj. replace j with 8 by lia. reflexivity.
  - intros j Hj. simpl in Hj. replace j with 8 by lia. reflexivity.
  - done.
Qed.

Lemma thread_kernel_ready s a ik :
  demo_sched_facts s a ik ->
  thread_ready 0x80000000 (fun _ => 100) 101 102 (fun t => t + 4) NEW (thread_kernel s) a
    (fun _ => []) (fun _ => []) 5 [] thread_page 0x80006000 space_zone 0x50000000.
Proof.
  intros Hd. constructor; try apply Hd; try done.
  - apply thread_slab_ready.
  - split; apply (df_mutex _ _ _ Hd); set_solver.
  - split; [|done]. constructor; [simpl; lia|reflexivity|reflexivity|].
    intros i Hi. simpl in Hi. assert (Ei : i = 1 \/ i = 2) by lia. by destruct Ei as [->| ->].
  - by apply (thread_zone_ready s a ik).
Qed.

Lemma kthread_run_starts_witness :
  exists s K' k, demo_sched_ok demo_ready = true /\
    kthread_run 0x80000000 (fun _ => 100) 101 (fun _ => 0) 102 (fun t => t + 4)
      (fun _ => space_struct) 0x80007000 0x80010000 7 (thread_kernel s) = Some (0, K') /\
    k.(pid) = 1 /\ k.(state) = PROCESS_STATE_PREPARE /\
    switch_to_frame k.(stack_base) (ram_of K') =
      Some (Mk_context [7; 1; 2; 3; 4; 5; 6; 7; 8; 9; 10; 11; 12] 0x80009000 14 0x80010000 SVC_MODE).
Proof.
  destruct demo_sched_exists as (s & a & ik & Hd).
  destruct (kthread_run_starts 0x80000000 (fun _ => 100) 101 (fun _ => 0) 102 (fun t => t + 4) (fun _ => space_struct)
    NEW (thread_kernel s) a (fun _ => []) (fun _ => []) 5 [] thread_page 0x80006000 space_zone 0x50000000
    0x80007000 0x80010000 7 thread_name ik [] (thread_kernel_ready s a ik Hd))
    as (K' & k & a' & E & _ & _ & _ & _ & Hp & _ & _ & _ & _ & _ & Hs & _ & _ & Hf).
  - discriminate.
  - vm_compute. reflexivity.
  - change (sched_of (thread_kernel s)) with s. rewrite (proj1 (df_idle _ _ _ Hd)). apply (df_idle _ _ _ Hd).
  - change (sched_of (thread_kernel s)) with s. rewrite (proj1 (df_idle _ _ _ Hd)). apply (df_child _ _ _ Hd).
  - apply not_elem_of_nil.
  - lia.
  - unfold is_u32. lia.
  - exact thread_stack_room.
  - exists s, K', k. split; [vm_compute; reflexivity|]. split; [exact E|]. split; [exact Hp|]. split; [exact Hs|exact Hf].
Defined.
