(* ===== verification/ForkUser.v ===== *)
(** * Forking a user task

    [sys_fork] from the allocation of the child to its first frame: the lemmas follow
    [fork_new_task] as those of [TaskThms] do for kernel threads, with the address space
    of [TaskMemThms] and the copy of [TaskCopy]. *)

From S2P Require Import Prelude ListHead TaskStruct Sched SchedInv SchedSpec SchedBoot SchedApi.
From S2P Require Import Mutex Bitops Mem CString MmTypes Pages PagesInv PagesThms Mmu KernelLocks.
From S2P Require Import KernelCalm Slab SlabThms SlabAlloc Pid Regs Ramdisk Elf TaskMem.
From S2P Require Import TaskMemInv TaskMemThms TaskCopy TaskBuild Task TaskThms Kthread.

Implicit Types (K : kernel) (k : task_struct) (m : mem).

(** ** Stores keep a memory of bytes *)

Lemma store8_bytes a v m m' : store8 a v m = Some m' -> mem_bytes m -> mem_bytes m'.
Proof.
  unfold store8. intros (d & _ & [= <-])%bind_Some Hm x c Hx.
  apply lookup_insert_Some in Hx as [[_ <-]|[_ Hx]]; [|by apply (Hm x)].
  unfold u8, wrap. apply Z.mod_pos_bound. lia.
Qed.

Lemma store32_bytes a v m m' : store32 a v m = Some m' -> mem_bytes m -> mem_bytes m'.
Proof.
  unfold store32. intros (m1 & E1 & (m2 & E2 & (m3 & E3 & E4)%bind_Some)%bind_Some)%bind_Some Hm.
  by eapply store8_bytes, store8_bytes, store8_bytes, store8_bytes.
Qed.

Lemma for_range_keeps {S : Type} (P : S -> Prop) n i (f : Z -> S -> option S) s s' :
  (forall j x y, f j x = Some y -> P x -> P y) -> for_range n i f s = Some s' -> P s -> P s'.
Proof.
  intros Hf. revert i s. induction n as [|n IH]; intros i s; cbn [for_range].
  - by intros [= <-].
  - intros (x & E & H)%bind_Some Hs. by apply (IH _ _ H), (Hf _ _ _ E).
Qed.

Lemma page_entry_bytes base pa size flag m r m' :
  build_page_table_entry base pa size flag m = Some (r, m') -> mem_bytes m -> mem_bytes m'.
Proof.
  unfold build_page_table_entry. destruct (_ || _); [by intros [= _ <-]|].
  intros (st & E & H)%bind_Some Hm.
  assert (Hb : mem_bytes st.2).
  { refine (for_range_keeps (fun q : Z * Z * mem => mem_bytes q.2) _ _ _ _ _ _ E Hm).
    intros j [[p b] m2] q. unfold pgt_body. intros (m3 & E3 & [= <-])%bind_Some. intros Hq. by apply (store32_bytes _ _ _ _ E3 Hq). }
  destruct st as [[p b] m1]. by injection H as _ <-.
Qed.

Section bytes.
Context {L : Type} {LC : LockCalls L} (ks : Z) (zone_mutex : Z -> Z).
Implicit Types (v : vm L) (s : mm_state L).

Lemma map_memory_bytes addr k flag v r v' :
  task_map_memory ks addr k flag v = Some (r, v') -> mem_bytes v.(vm_ram) -> mem_bytes v'.(vm_ram).
Proof.
  unfold task_map_memory. destruct (map_list _ _) as [lst|]; [|by intros [= _ <-]].
  intros ([err|pg] & _ & H)%bind_Some Hm; [by injection H as _ <-|].
  apply bind_Some in H as (p & _ & H). apply bind_Some in H as (pa & _ & H).
  apply bind_Some in H as ([x m] & E & H). apply bind_Some in H as (s & _ & [= _ <-]).
  exact (page_entry_bytes _ _ _ _ _ _ _ E Hm).
Qed.

Lemma alloc_and_map_bytes n hd flag k v b v' :
  alloc_and_map ks zone_mutex n hd flag k v = Some (b, v') -> mem_bytes v.(vm_ram) -> mem_bytes v'.(vm_ram).
Proof.
  revert v. induction n as [|n IH]; intros v; cbn [alloc_and_map]; [by intros [= _ <-]|].
  intros ([a s1] & _ & H)%bind_Some Hm. destruct (Z.eqb a 0); [by injection H as _ <-|].
  apply bind_Some in H as ([x v1] & E & H). apply bind_Some in H as (h & _ & H).
  apply (IH _ H). exact (map_memory_bytes _ _ _ _ _ _ E Hm).
Qed.

Lemma alloc_memory_bytes t k v r k' v' :
  alloc_memory_for_task ks zone_mutex t k v = Some (r, k', v') -> mem_bytes v.(vm_ram) -> mem_bytes v'.(vm_ram).
Proof.
  unfold alloc_memory_for_task. intros ([[ret k1] s1] & _ & H)%bind_Some Hm.
  destruct (truth ret); [by injection H as _ _ <-|]. destruct (truth _); [|by injection H as _ _ <-].
  apply bind_Some in H as ([[r2 k2] s2] & _ & H).
  destruct (truth r2); [by apply bind_Some in H as ([k3 s3] & _ & [= _ _ <-])|].
  apply bind_Some in H as ([[r3 k3] v3] & E & H).
  assert (H3 : mem_bytes v3.(vm_ram)).
  { unfold alloc_memory_and_map in E. apply bind_Some in E as (fr & _ & E). destruct (Z.ltb _ _); [by injection E as _ _ <-|].
    apply bind_Some in E as ([b1 v1] & E1 & E). apply bind_Some in E as ([b2 v2] & E2 & E).
    assert (H1 : mem_bytes v1.(vm_ram)) by exact (alloc_and_map_bytes _ _ _ _ _ _ _ E1 Hm).
    assert (H2 : mem_bytes v2.(vm_ram)).
    { destruct b1; cbn [negb] in E2; [exact (alloc_and_map_bytes _ _ _ _ _ _ _ E2 H1)|by injection E2 as _ <-]. }
    destruct b2; cbn [negb] in E; [by injection E as _ _ <-|]. by apply bind_Some in E as ([k4 s4] & _ & [= _ _ <-]). }
  destruct (truth r3); [by apply bind_Some in H as ([k4 s4] & _ & [= _ _ <-])|by injection H as _ _ <-].
Qed.
End bytes.

(** ** Fewer pages than there are *)

Lemma run_from_le {L} {LC : LockCalls L} {LO : LockOps L} ks zone_mutex off o n n' z (s : mm_state L) :
  run_from ks zone_mutex off o n z s -> 0 <= n' <= n -> run_from ks zone_mutex off o n' z s.
Proof.
  intros [H1 H2 H3 H4 H5 H6 H7 H8 H9 H10] Hn. constructor; try done; try lia.
  - intros j Hj. apply H5. lia.
  - intros j Hj. apply H6. lia.
Qed.

Lemma le_length_min x (n m : nat) : x <= Z.of_nat n -> x <= Z.of_nat m -> x <= Z.of_nat (n `min` m).
Proof. lia. Qed.

Section fork.
Context (ks : Z) (zone_mutex : Z -> Z) (slab_mutex : Z) (page_struct_va : Z -> Z) (pid_mutex : Z).
Context (task_mutex : Z -> Z) (stale : Z -> task_struct) (t : Z).
Context (K0 : kernel) (a : astate) (w h : mview) (pg : Z) (l : list Z) (kp : page) (hdr : Z) (z : mm_zone) (off : Z).
Hypothesis Hr : thread_ready ks zone_mutex slab_mutex pid_mutex task_mutex t K0 a w h pg l kp hdr z off.
(** Enough pages for a user task. *)
Hypothesis Hz : @run_ready _ _ (calm_locks (sched_of K0)) ks zone_mutex off 263 z (mm_of K0).

Let s0 := sched_of K0.
Let c := z.(bm_current).
Let pid0 := K0.(k_pids).(pid_current).

Abbreviation added := (added t K0 a w h).
Abbreviation growing := (growing task_mutex t K0).

(** [init_mm_struct] of a user task. *)
Definition user_mm (mmp : mm_struct_t) (user_sp : Z) : mm_struct_t :=
  Mk_mm_struct mmp.(elf_size) (s32 (PROCESS_USER_STACK_BASE -u user_sp)) None None.

Lemma init_task_mm_user K k pk sp :
  growing K -> task_at t K = Some k -> truth (k.(flag) &u PROCESS_TYPE_USER) = true ->
  task_at k.(parent) K = Some pk ->
  exists K', init_task_mm t sp K = Some K' /\ growing K' /\
    task_at t K' = Some (with_mm_struct (user_mm pk.(mm_struct) sp) k) /\
    (sched_of K').(heap) = (sched_of K).(heap) /\ (sched_of K').(mutex_count) = (sched_of K).(mutex_count) /\
    K'.(k_pids) = K.(k_pids) /\
    (forall n, n ∉ mm_anchors t -> (mm_of K').(plists) !! n = (mm_of K).(plists) !! n) /\
    (forall hd, hd ∈ mm_anchors t -> is_list (mm_of K').(plists) hd []) /\
    (forall x, x <> t -> task_at x K' = task_at x K).
Proof.
  intros G Et Hu Ep. unfold init_task_mm, init_mm_struct. rewrite Et, bind_Some_eq, Hu, Ep. cbn [fmap option_fmap option_map].
  rewrite bind_Some_eq. cbv zeta.
  set (P := init_list (ElfImageList t) _). set (K1 := with_kernel_mm (with_plists P (mm_of K)) K).
  assert (G1 : growing K1) by (destruct G as [G1 G2 G3 G4 G5]; by constructor).
  eexists. split; [done|]. split; [by apply growing_put|]. split; [apply task_at_put|].
  do 3 (split; [done|]). split; [|split].
  - intros n Hn. unfold mm_anchors in Hn. rewrite !not_elem_of_cons in Hn. destruct Hn as (H1 & H2 & H3 & H4 & _).
    change (plists (mm_of (put_task t _ K1))) with P. unfold P, init_list. by rewrite !lookup_insert_ne by congruence.
  - intros hd Hin. change (plists (mm_of (put_task t _ K1))) with P.
    unfold mm_anchors in Hin. rewrite !elem_of_cons, elem_of_nil in Hin.
    unfold P. destruct Hin as [->|[->|[->|[->|[]]]]]; apply linked_self_empty;
      repeat first [by (apply linked_self_init; right) | apply linked_self_init; left].
  - intros x Hx. unfold task_at, get_task. by apply lookup_insert_ne.
Qed.

(** The pages of a user task. *)
Lemma user_memory_ok K k par (cs : list Z) :
  kept K0 K -> added K k par cs -> truth (k.(flag) &u PROCESS_TYPE_USER) = true -> k.(stack_base) = 0 ->
  (forall hd, hd ∈ mm_anchors t -> is_list (mm_of K).(plists) hd []) ->
  room (ram_of K) (page_id_to_va ks (c + 1)) 8192 ->
  exists K', alloc_task_memory ks zone_mutex t K = Some (0, K') /\ added K' (with_memory ks c k) par cs /\
    address_space ks off t c (vm_of K') /\ memory_frame ks t c (vm_of K) (vm_of K') /\
    K'.(k_pids) = K.(k_pids) /\ (mem_bytes (ram_of K) -> mem_bytes (ram_of K')).
Proof.
  intros [P1 P2 P3 P4] Ha Hu Hsb Hl Hroom. pose proof Hr as [_ _ _ _ _ _ _ _ [Hks Hal] _].
  assert (Hlw : lock_wf (sched_of K)) by (apply (good_lock_wf _ _ _ _ (ad_good _ _ _ _ _ _ _ _ _ Ha) (ad_mwf _ _ _ _ _ _ _ _ _ Ha))).
  assert (Hz' : @run_from _ _ (calm_locks (sched_of K)) ks zone_mutex off
    (Mk_origin (mm_of K0).(page_map) z.(bm_current) (z.(z_free_pages) + z.(bm_current))) 263 z (mm_of K)).
  { apply (run_from_keep (LO1 := calm_locks s0) _ _ _ _ _ _ (mm_of K0)); try done.
    split; [done|]. split; [done|]. apply (ad_idle _ _ _ _ _ _ _ _ _ Ha).
    pose proof (zr_lock _ _ _ _ (rr_ready _ _ _ _ _ _ _ Hz)) as Hf. apply Hf. }
  destruct (alloc_memory_for_task_ok (LO := calm_locks (sched_of K)) ks zone_mutex off _ Hks Hal z (vm_of K) t k Hz' Hsb Hu Hl Hroom)
    as (v & z' & E & Hr' & _ & Has & Hf). fold c in E, Has, Hf.
  assert (Hc : calm (sched_of K) v.(vm_pages).(locks)).
  { pose proof (zr_lock _ _ _ _ (rr_ready _ _ _ _ _ _ _ Hr')) as Hq. apply Hq. }
  pose proof (alloc_memory_bytes ks zone_mutex t k (vm_of K) _ _ _ E) as Hb.
  exists (put_task t (with_memory ks c k) (with_vm v K)). split_and!.
  - unfold alloc_task_memory. by rewrite (added_at _ _ _ _ _ _ _ _ _ Ha), bind_Some_eq, E, bind_Some_eq.
  - apply (added_put _ _ _ _ _ _ k); [|apply (ad_state _ _ _ _ _ _ _ _ _ Ha)|done].
    apply (added_calm _ _ _ _ _ _ v.(vm_pages).(locks)) in Ha; [|done]. by destruct Ha; constructor.
  - destruct Has; by constructor.
  - destruct Hf; by constructor.
  - done.
  - exact Hb.
Qed.
(** ** [fork_new_task] for [sys_fork] *)

Definition fork_flag : Z := PROCESS_TYPE_USER |u PROCESS_FLAG_FORK.

(** The structure of the child of [par], with its priority, before its first frame. *)
Definition child_struct (par : Z) (pk : task_struct) (user_sp : Z) : task_struct :=
  with_memory ks c (fresh_sched pk.(prio) (with_mm_struct (user_mm pk.(mm_struct) user_sp)
    (initial_struct stale t K0 par pk fork_flag))).

Context (pk : task_struct) (cs so io : list Z).
Abbreviation par := (current (sched_of K0)).
Hypothesis Hpid : 1 < pid0.
Hypothesis Hpk : (sched_of K0).(tasks) !! par = Some pk.
Hypothesis Hchild : is_list (sched_of K0).(heap) (TChild par) (TP <$> cs).
Hypothesis Hcs : t ∉ cs.
Hypothesis Hbytes : mem_bytes (ram_of K0).
(** The pages of the parent, and those the child will get. *)
Hypothesis Hold : forall i, i ∈ so ++ io ->
  0 <= i /\ ks + 4096 * i + 4096 <= 2 ^ 32 /\ i <> pg /\ ~ (c <= i < c + 263).
Hypothesis Hpages : pages_room ks (ram_of K0) (so ++ io ++ seqZ c 263).

(** A node of a page list that creating the task does not touch. *)
Definition old_node (n : node) : Prop :=
  off_slab n /\ n <> PagePlist pg /\ (n ∉ mm_anchors t) /\ forall i, c <= i < c + 263 -> n <> PagePlist i.

Lemma new_va i : c <= i < c + 263 -> page_id_to_va ks i = ks + 4096 * i /\ 0 < i /\ ks + 4096 * i + 4096 <= 2 ^ 32.
Proof.
  intros Hi. pose proof (tr_start _ _ _ _ _ _ _ _ _ _ _ _ _ _ _ _ Hr) as [Hks _].
  pose proof (rr_cur _ _ _ _ _ _ _ Hz) as Hcu. fold c in Hcu.
  destruct (run_va (LO := calm_locks (sched_of K0)) ks zone_mutex off _ Hks _ _ _ i Hz) as (E & _ & H); [lia|].
  split; [done|]. lia.
Qed.

Lemma page_va i : i ∈ so ++ io ++ seqZ c 263 -> page_id_to_va ks i = ks + 4096 * i.
Proof.
  intros Hi. rewrite app_assoc in Hi. apply elem_of_app in Hi as [Hi|Hi%elem_of_seqZ]; [|by apply new_va].
  destruct (Hold i Hi) as (H1 & H2 & _). pose proof (tr_start _ _ _ _ _ _ _ _ _ _ _ _ _ _ _ _ Hr) as [Hks _].
  unfold page_id_to_va, PAGE_SHIFT. rewrite u32_u32, Z.shiftl_mul_pow2, u32_add_r by lia.
  rewrite u32_small by lia. lia.
Qed.

Lemma new_room i : c <= i < c + 263 -> room (ram_of K0) (ks + 4096 * i) 4096.
Proof.
  intros Hi. rewrite <- (proj1 (new_va i Hi)). apply Hpages. rewrite !elem_of_app, elem_of_seqZ. auto.
Qed.

Lemma tables_room : room (ram_of K0) (page_id_to_va ks (c + 1)) 8192.
Proof.
  rewrite (proj1 (new_va (c + 1) ltac:(lia))). intros q Hq. destruct (decide (q < 4096)).
  - apply (new_room (c + 1)); lia.
  - replace (ks + 4096 * (c + 1) + q) with (ks + 4096 * (c + 2) + (q - 4096)) by lia.
    apply (new_room (c + 2)); lia.
Qed.

Lemma parent_prio : 0 <= pk.(prio) < MAX_PRIO.
Proof.
  pose proof (tr_good _ _ _ _ _ _ _ _ _ _ _ _ _ _ _ _ Hr) as Hg.
  by apply (wf_prio _ _ (proj1 (good_refines _ _ Hg)) par).
Qed.

Lemma fork_user_ok user_sp :
  exists K', fork_new_task ks zone_mutex slab_mutex page_struct_va pid_mutex task_mutex stale 0 user_sp fork_flag K0
      = Some (t, K') /\
    added K' (child_struct par pk user_sp) par (t :: cs) /\
    address_space ks off t c (vm_of K') /\
    (forall n, old_node n -> (mm_of K').(plists) !! n = (mm_of K0).(plists) !! n) /\
    (forall x, ~ (ks + 4096 * (c + 1) <= x < ks + 4096 * (c + 3)) -> ram_of K' !! x = ram_of K0 !! x) /\
    (forall b n, room (ram_of K0) b n -> room (ram_of K') b n) /\ mem_bytes (ram_of K') /\
    aget K'.(k_pids).(pid_tasks) pid0 = Some t /\ pid_wf K'.(k_pids).
Proof.
  destruct (tr_addr _ _ _ _ _ _ _ _ _ _ _ _ _ _ _ _ Hr) as [_ Hadr].
  destruct (kmalloc_task_ok _ _ _ page_struct_va _ _ stale _ _ _ _ _ _ _ _ _ _ _ Hr) as (K1 & E1 & G1 & Et1 & Ep1 & Hh1 & Hq1).
  destruct (init_task_struct_ok _ _ _ _ _ stale _ _ _ _ _ _ _ _ _ _ _ Hr K1 par pk cs fork_flag G1 Ep1 Et1 Hh1 eq_refl Hpk Hchild Hcs)
    as (K2 & E2 & G2 & Et2 & Ep2 & Hpw & L1 & L2 & L3 & L4 & L5 & Hq2).
  set (k2 := initial_struct _ _ _ _ _ _) in *.
  assert (Hne : par <> t).
  { intros E. pose proof (tr_new _ _ _ _ _ _ _ _ _ _ _ _ _ _ _ _ Hr) as Hn. rewrite E in Hpk. congruence. }
  assert (Epk2 : task_at par K2 = Some pk).
  { unfold task_at, get_task. by rewrite (bd_tasks _ _ _ _ (gr_sched _ _ _ _ G2)). }
  destruct (init_task_mm_user K2 k2 pk user_sp G2 Et2 eq_refl Epk2)
    as (K3 & E3 & G3 & Et3 & Hh3 & Hc3 & Ep3 & Hq3 & Ha3 & Ho3).
  set (k3 := with_mm_struct _ k2) in *.
  assert (Eprio : init_sched_prio k3 (sched_of K3) = Some pk.(prio)).
  { unfold init_sched_prio. change (truth (k3.(flag) &u PROCESS_TYPE_KERNEL)) with false.
    change (truth (k3.(flag) &u PROCESS_TYPE_USER)) with true. change (pid k3) with pid0.
    cbn [andb]. rewrite (proj2 (Z.eqb_neq pid0 1)), (proj2 (Z.ltb_lt 1 pid0)) by lia.
    change (get_task (parent k3) (sched_of K3)) with (task_at par K3). by rewrite Ho3, Epk2, bind_Some_eq. }
  rewrite <- Hh3 in L1, L2, L3, L4. rewrite <- Hc3 in L5.
  destruct (init_sched_prio_ok _ _ _ _ _ _ _ _ _ _ _ _ _ _ _ _ Hr K3 k3 _ par (t :: cs) G3 Et3 Eprio parent_prio L1 L2 L3 L4 L5)
    as (s4 & E4 & A4).
  set (K4 := with_sched s4 K3) in *.
  assert (Eram : ram_of K4 = ram_of K0) by exact (gr_ram _ _ _ _ G3).
  destruct (user_memory_ok K4 (fresh_sched pk.(prio) k3) par (t :: cs)) as (K5 & E5 & A5 & Has & Hf & Ep5 & Hb5);
    [apply kept_sched, (growing_kept _ _ _ _ G3)|done|done|done|done|rewrite Eram; exact tables_room|].
  exists K5. split; [|split; [done|split; [done|]]].
  - unfold fork_new_task. rewrite E1, bind_Some_eq. cbn beta iota. rewrite (proj2 (Z.eqb_neq t 0)) by lia.
    rewrite E2, bind_Some_eq. cbn beta iota. change (truth 0) with false. cbn iota.
    by rewrite E3, bind_Some_eq, E4, !bind_Some_eq, E5, bind_Some_eq.
  - destruct Hf as [F1 _ F3 F4]. rewrite <- Eram. split_and!.
    + intros n (H1 & H2 & H3 & H4). etransitivity; [exact (F1 n H3 H4)|].
      etransitivity; [exact (Hq3 n H3)|]. rewrite Hq2. by apply Hq1.
    + exact F3.
    + exact F4.
    + apply Hb5. by rewrite Eram.
    + rewrite Ep5. change (k_pids K4) with (k_pids K3). by rewrite Ep3.
    + rewrite Ep5. change (k_pids K4) with (k_pids K3). by rewrite Ep3.
Qed.
(** ** [copy_process] *)

Context (regs : pt_regs).
Hypothesis Hlso : is_list (mm_of K0).(plists) (ElfStackList par) (plist so).
Hypothesis Hlio : is_list (mm_of K0).(plists) (ElfImageList par) (plist io).
Hypothesis Hsp : PROCESS_USER_STACK_BASE - PROCESS_STACK_SIZE <= regs.(sp) <= PROCESS_USER_STACK_BASE.
Hypothesis Helf : 0 <= pk.(mm_struct).(elf_size) <= 255 * PAGE_SIZE.
Hypothesis Hlen_s : (PROCESS_USER_STACK_BASE - regs.(sp) + 4095) / 4096 <= Z.of_nat (length so).
Hypothesis Hlen_e : (pk.(mm_struct).(elf_size) + 4096 + 4095) / 4096 <= Z.of_nat (length io).

(** What the child's memory holds in [m'], given the memory [m] of the call. *)
Record child_memory (m m' : mem) : Prop := {
  cm_stack : forall q, Z.of_nat q < (PROCESS_USER_STACK_BASE - regs.(sp) + 4095) / 4096 ->
    same_page ks m m' so (seqZ (c + 3) 4) q;
  cm_image : forall q, Z.of_nat q < (pk.(mm_struct).(elf_size) + 4096 + 4095) / 4096 ->
    same_page ks m m' io (seqZ (c + 7) 256) q;
  cm_frame : forall x, ~ (ks + 4096 * c <= x < ks + 4096 * (c + 263)) -> m' !! x = m !! x
}.

Lemma current_nonzero : par <> 0 /\ par <> t.
Proof.
  pose proof (tr_good _ _ _ _ _ _ _ _ _ _ _ _ _ _ _ _ Hr) as Hg.
  pose proof (wf_addr _ _ (proj1 (good_refines _ _ Hg)) par ltac:(by eexists)) as H. split; [lia|].
  intros E. pose proof (tr_new _ _ _ _ _ _ _ _ _ _ _ _ _ _ _ _ Hr) as Hn. rewrite E in Hpk. congruence.
Qed.

Lemma parent_list K (hd : node) (ps : list Z) :
  (forall n, old_node n -> (mm_of K).(plists) !! n = (mm_of K0).(plists) !! n) ->
  hd = ElfStackList par \/ hd = ElfImageList par -> (forall i, i ∈ ps -> i ∈ so ++ io) ->
  is_list (mm_of K0).(plists) hd (plist ps) -> is_list (mm_of K).(plists) hd (plist ps).
Proof.
  intros Hn Hhd Hps. destruct current_nonzero as [_ Hne]. apply is_list_frame.
  intros n [->|(i & -> & Hi)%list_elem_of_fmap]%elem_of_cons; apply Hn.
  - unfold old_node, off_slab, mm_anchors. rewrite !not_elem_of_cons.
    destruct Hhd as [->| ->]; split_and!; try (done || congruence || apply not_elem_of_nil).
  - destruct (Hold i (Hps i Hi)) as (_ & _ & H1 & H2). unfold old_node, off_slab, mm_anchors.
    rewrite !not_elem_of_cons. split_and!; try done; try congruence. apply not_elem_of_nil.
Qed.

Lemma child_pages i : i ∈ seqZ (c + 3) 4 ++ seqZ (c + 7) 256 <-> c + 3 <= i < c + 263.
Proof. rewrite elem_of_app, !elem_of_seqZ. lia. Qed.

Lemma copy_child_ok K k :
  added K k par (t :: cs) -> k.(parent) = par -> k.(mm_struct).(stack_size) = PROCESS_USER_STACK_BASE - regs.(sp) ->
  k.(mm_struct).(elf_size) = pk.(mm_struct).(elf_size) ->
  address_space ks off t c (vm_of K) ->
  (forall n, old_node n -> (mm_of K).(plists) !! n = (mm_of K0).(plists) !! n) ->
  (forall x, ~ (ks + 4096 * (c + 1) <= x < ks + 4096 * (c + 3)) -> ram_of K !! x = ram_of K0 !! x) ->
  (forall b n, room (ram_of K0) b n -> room (ram_of K) b n) -> mem_bytes (ram_of K) ->
  exists m, copy_process ks t K = Some (with_vm (with_vm_ram m (vm_of K)) K) /\
    child_memory (ram_of K0) m /\ (forall b n, room (ram_of K0) b n -> room m b n) /\
    (forall x, ks + 4096 * (c + 1) <= x < ks + 4096 * (c + 3) -> m !! x = ram_of K !! x).
Proof.
  intros Ha Hpar Ess Ees Has Hn Hx Hrm Hb. destruct current_nonzero as [Hp0 _].
  assert (Hva : forall i, i ∈ so ++ io ++ seqZ (c + 3) 4 ++ seqZ (c + 7) 256 -> page_id_to_va ks i = ks + 4096 * i).
  { intros i Hi. apply page_va. rewrite app_assoc in Hi |- *. apply elem_of_app in Hi as [Hi|Hi%child_pages]; [set_solver|].
    apply elem_of_app. right. apply elem_of_seqZ. lia. }
  destruct (copy_process_memory_ok ks (vm_of K) par t k so io (seqZ (c + 3) 4) (seqZ (c + 7) 256))
    as (m & E & Hs & He & Hf & Hm).
  { rewrite Ess. unfold PROCESS_STACK_SIZE, PAGE_SIZE in Hsp. lia. }
  { rewrite Ees. unfold PAGE_SIZE in Helf. lia. }
  { apply (parent_list K _ so Hn); [by left|intros i Hi; apply elem_of_app; by left|done]. }
  { apply (parent_list K _ io Hn); [by right|intros i Hi; apply elem_of_app; by right|done]. }
  { apply (as_stack _ _ _ _ _ Has). } { apply (as_image _ _ _ _ _ Has). }
  { rewrite Ess, length_seqZ. apply le_length_min; [done|]. apply Z.lt_succ_r, Z.div_lt_upper_bound; [lia|].
    unfold PROCESS_STACK_SIZE, PAGE_SIZE in Hsp. lia. }
  { rewrite Ees, length_seqZ. apply le_length_min; [done|]. apply Z.lt_succ_r, Z.div_lt_upper_bound; [lia|].
    unfold PAGE_SIZE in Helf. lia. }
  { done. }
  { intros i Hi. apply Hrm, Hpages. rewrite app_assoc in Hi |- *. apply elem_of_app in Hi as [Hi|Hi%child_pages]; [set_solver|].
    apply elem_of_app. right. apply elem_of_seqZ. lia. }
  { intros i j Hi Hj Hij. rewrite !Hva; [|done|set_solver]. unfold disjoint. lia. }
  { apply (tr_start _ _ _ _ _ _ _ _ _ _ _ _ _ _ _ _ Hr). }
  { apply NoDup_app. split; [apply NoDup_seqZ|]. split; [|apply NoDup_seqZ]. intros i. rewrite !elem_of_seqZ. lia. }
  { intros i Hi%child_pages Ho. destruct (Hold i Ho) as (_ & _ & _ & H). lia. }
  assert (Hout : forall i q, i ∈ so ++ io -> 0 <= q < 4096 -> ram_of K !! (page_id_to_va ks i + q) = ram_of K0 !! (page_id_to_va ks i + q)).
  { intros i q Hi Hq. apply Hx. destruct (Hold i Hi) as (_ & _ & _ & H). rewrite Hva by set_solver. lia. }
  assert (Hsame : forall olds news q, (forall i, i ∈ olds -> i ∈ so ++ io) ->
    same_page ks (ram_of K) m olds news q -> same_page ks (ram_of K0) m olds news q).
  { intros olds news q Ho H i j b Hi Hj Hq. rewrite (H i j b Hi Hj Hq). apply Hout; [|done].
    apply Ho, list_elem_of_lookup. by exists q. }
  assert (Hf' : forall x, ~ (ks + 4096 * (c + 3) <= x < ks + 4096 * (c + 263)) -> m !! x = ram_of K !! x).
  { intros x Hxx. apply Hf. intros j Hj. rewrite Hva by set_solver. apply child_pages in Hj. lia. }
  exists m. split; [|split; [constructor|split]].
  - unfold copy_process. rewrite (added_at _ _ _ _ _ _ _ _ _ Ha), bind_Some_eq, Hpar. cbv zeta.
    unfold truth. rewrite (proj2 (Z.eqb_neq _ 0) Hp0). cbn [negb]. by rewrite E, bind_Some_eq.
  - intros q Hq. apply Hsame; [set_solver|]. apply Hs. by rewrite Ess.
  - intros q Hq. apply Hsame; [set_solver|]. apply He. by rewrite Ees.
  - intros x Hxx. rewrite Hf', Hx by lia. done.
  - intros b n Hbn. by apply Hm, Hrm.
  - intros x Hxx. apply Hf'. lia.
Qed.
(** ** [sys_fork] *)

Hypothesis Hregs : regs_ok regs.
Hypothesis Hmode : Z.land regs.(cpsr) MODE_MASK = USER_MODE.

(** The registers the child starts with. *)
Definition child_regs : pt_regs := with_r0 (u32 pid0) regs.

Lemma child_regs_ok : regs_ok child_regs.
Proof.
  unfold regs_ok, child_regs, frame, with_r0 in *.
  cbn [r0 r1 r2 r3 r4 r5 r6 r7 r8 r9 r10 r11 r12 spsr lr sp cpsr pc] in *.
  apply Forall_cons in Hregs as [_ H]. apply Forall_cons. split; [apply u32_range|exact H].
Qed.

Lemma child_stack_size : (child_struct par pk regs.(sp)).(mm_struct).(stack_size) = PROCESS_USER_STACK_BASE - regs.(sp).
Proof.
  change (s32 (PROCESS_USER_STACK_BASE -u regs.(sp)) = PROCESS_USER_STACK_BASE - regs.(sp)).
  unfold PROCESS_STACK_SIZE, PAGE_SIZE in Hsp. by rewrite u32_small, s32_small by lia.
Qed.

Let top := ks + 4096 * c + KERNEL_STACK_SIZE.

(** The child's structure once its frame is built. *)
Definition child_ready : task_struct := with_stack_base (top - 72) (child_struct par pk regs.(sp)).

Lemma sys_fork_ok :
  exists K', sys_fork ks zone_mutex slab_mutex page_struct_va pid_mutex task_mutex stale regs K0 = Some (0, child_regs, K') /\
    good (sched_of K') (a_set_state t PROCESS_STATE_PREPARE (add_task t child_ready a)) /\ mwf (sched_of K') w h /\
    is_list (sched_of K').(heap) (TChild par) (TP <$> (t :: cs)) /\
    aget K'.(k_pids).(pid_tasks) pid0 = Some t /\ pid_wf K'.(k_pids) /\
    address_space ks off t c (vm_of K') /\ child_memory (ram_of K0) (ram_of K') /\
    switch_to_frame (top - 72) (ram_of K') = Some (started child_regs top) /\
    (sched_of K').(current) = par.
Proof.
  destruct (fork_user_ok regs.(sp)) as (K1 & E1 & A1 & Has1 & Hn1 & Hx1 & Hr1 & Hb1 & Ep1 & Hpw1).
  set (k1 := child_struct par pk regs.(sp)) in *.
  destruct (copy_child_ok K1 k1 A1 eq_refl child_stack_size eq_refl Has1 Hn1 Hx1 Hr1 Hb1) as (m2 & E2 & [Cs Ce Cf] & Hr2 & Hx2).
  set (K2 := with_vm (with_vm_ram m2 (vm_of K1)) K1) in *.
  assert (A2 : added K2 k1 par (t :: cs)) by (by destruct A1; constructor).
  destruct (new_va c ltac:(lia)) as (Eva & Hc0 & Hc1).
  assert (Eo : k1.(stack_origin) = ks + 4096 * c) by exact Eva.
  assert (Eb : k1.(stack_base) = ks + 4096 * c) by exact Eva.
  destruct (new_va (c + 262) ltac:(lia)) as (_ & _ & Hc2).
  destruct (tr_start _ _ _ _ _ _ _ _ _ _ _ _ _ _ _ _ Hr) as [Hks _].
  destruct (frame_ok t K0 a w h K2 k1 par (t :: cs) child_regs A2) as (m3 & E3 & A3 & Hf & Hx3).
  { rewrite Eb. lia. } { rewrite Eo. unfold KERNEL_STACK_SIZE. lia. } { apply child_regs_ok. } { by left. }
  { rewrite Eo. apply Hr2. apply (new_room c). lia. }
  rewrite Eo in E3, A3, Hf, Hx3. fold top in E3, A3, Hf, Hx3. change (with_stack_base (top - 72) k1) with child_ready in *.
  assert (Hx4 : forall x, ~ (ks + 4096 * c <= x < ks + 4096 * (c + 1)) -> m3 !! x = m2 !! x).
  { intros x Hx. apply Hx3. unfold top, KERNEL_STACK_SIZE. lia. }
  destruct (ready_ok t K0 a w h _ _ _ _ A3) as (s4 & E4 & Hg4 & Hm4 & Hl4 & Hc4 & _).
  set (K3 := put_task t child_ready (with_kernel_ram m3 K2)) in *.
  assert (Eram : ram_of (with_sched s4 K3) = m3) by done.
  assert (Emm : page_table (mm_of (with_sched s4 K3)) = page_table (mm_of K1) /\ bank (mm_of (with_sched s4 K3)) = bank (mm_of K1) /\
    plists (mm_of (with_sched s4 K3)) = plists (mm_of K1)) by done.
  exists (with_sched s4 K3). rewrite Eram. split; [|split; [exact Hg4|split; [exact Hm4|split; [exact Hl4|]]]].
  - unfold sys_fork, do_fork. fold fork_flag. rewrite E1, bind_Some_eq. cbn beta iota.
    destruct (tr_addr _ _ _ _ _ _ _ _ _ _ _ _ _ _ _ _ Hr) as [_ Hadr]. rewrite (proj2 (Z.eqb_neq t 0)) by lia.
    change (truth (fork_flag &u PROCESS_TYPE_USER)) with true. change (truth (fork_flag &u PROCESS_FLAG_FORK)) with true.
    cbn iota. rewrite E2, bind_Some_eq, (added_at _ _ _ _ _ _ _ _ _ A2), !bind_Some_eq.
    change (arch_set_task_return_value regs k1) with child_regs.
    rewrite E3, bind_Some_eq. cbn beta iota. unfold on_sched. by rewrite E4, !bind_Some_eq.
  - split; [exact Ep1|]. split; [exact Hpw1|]. split; [|split; [|split; [exact Hf|exact Hc4]]].
    + destruct Has1 as [P1 P2 P3 P4 P5 P6 P7]. constructor; try done.
      * intros j Hj. rewrite <- P6 by done. apply load32_frame. intros x Hx.
        change (m3 !! x = ram_of K1 !! x). destruct (new_va (c + 1) ltac:(lia)) as (E & _). rewrite E in Hx.
        rewrite Hx4, Hx2 by lia. done.
      * intros j Hj. rewrite <- P7 by done. apply load32_frame. intros x Hx.
        change (m3 !! x = ram_of K1 !! x). destruct (new_va (c + 2) ltac:(lia)) as (E & _). rewrite E in Hx.
        rewrite Hx4, Hx2 by lia. done.
    + assert (Hsame : forall olds b n q, c + 3 <= b -> b + n <= c + 263 -> same_page ks (ram_of K0) m2 olds (seqZ b n) q ->
        same_page ks (ram_of K0) m3 olds (seqZ b n) q).
      { intros olds b n q H1 H2 H i j x Hi Hj Hx. rewrite <- (H i j x Hi Hj Hx). apply Hx4.
        assert (Hin : j ∈ seqZ b n) by (apply list_elem_of_lookup; by exists q). apply elem_of_seqZ in Hin.
        destruct (new_va j ltac:(lia)) as (E & _). rewrite E. lia. }
      constructor.
      * intros q Hq. apply Hsame; [lia|lia|by apply Cs].
      * intros q Hq. apply Hsame; [lia|lia|by apply Ce].
      * intros x Hx. rewrite Hx4 by lia. by apply Cf.
Qed.
End fork.
