(* ===== verification/ForkThms.v ===== *)
(** * A process forks

    [sys_fork] from the call to the first instruction of the child, and a small kernel
    in which a process does. *)

From S2P Require Import Prelude ListHead TaskStruct Sched SchedInv SchedSpec SchedBoot SchedApi.
From S2P Require Import Mutex MutexThms Bitops Mem CString MmTypes Pages PagesInv PagesThms.
From S2P Require Import KernelLocks KernelCalm Slab SlabThms SlabAlloc Pid Regs Ramdisk Elf.
From S2P Require Import TaskMem TaskMemInv TaskMemThms TaskCopy TaskBuild Task TaskThms Kthread.
From S2P Require Import ForkUser.

Implicit Types (K : kernel) (k : task_struct).

(** C39. [sys_fork] in a process whose stack and image pages are [so] and [io], on a kernel
    with a page slice for the task structure and 263 free pages, returns 0.  The child
    has the next pid, the caller as parent, the caller's priority and the last place in
    the ready queue of that priority; every other task and queue is as before and the
    invariants hold again.  It has an address space of its own on the new pages; they hold
    what the pages of the caller's stack (from the top) and image held, and nothing else
    in memory changes.  The context switch to the child starts it behind the call, in
    user mode on the caller's stack pointer, with all registers of the caller but r0,
    which is the child's own pid. *)
Theorem sys_fork_child ks zone_mutex slab_mutex page_struct_va pid_mutex task_mutex stale t
    K a w h pg l kp hdr z off pk (cs so io : list Z) regs
    (Hr : thread_ready ks zone_mutex slab_mutex pid_mutex task_mutex t K a w h pg l kp hdr z off)
    (Hz : @run_ready _ _ (calm_locks (sched_of K)) ks zone_mutex off 263 z (mm_of K))
    (Hpid : 1 < K.(k_pids).(pid_current))
    (Hpk : (sched_of K).(tasks) !! (sched_of K).(current) = Some pk)
    (Hchild : is_list (sched_of K).(heap) (TChild (sched_of K).(current)) (TP <$> cs)) (Hcs : t ∉ cs)
    (Hbytes : mem_bytes (ram_of K))
    (Hold : forall i, i ∈ so ++ io -> 0 <= i /\ ks + 4096 * i + 4096 <= 2 ^ 32 /\ i <> pg /\
       ~ (z.(bm_current) <= i < z.(bm_current) + 263))
    (Hpages : pages_room ks (ram_of K) (so ++ io ++ seqZ z.(bm_current) 263))
    (Hso : is_list (mm_of K).(plists) (ElfStackList (sched_of K).(current)) (plist so))
    (Hio : is_list (mm_of K).(plists) (ElfImageList (sched_of K).(current)) (plist io))
    (Hsp : PROCESS_USER_STACK_BASE - PROCESS_STACK_SIZE <= regs.(sp) <= PROCESS_USER_STACK_BASE)
    (Helf : 0 <= pk.(mm_struct).(elf_size) <= 255 * PAGE_SIZE)
    (Hlen_s : (PROCESS_USER_STACK_BASE - regs.(sp) + 4095) / 4096 <= Z.of_nat (length so))
    (Hlen_e : (pk.(mm_struct).(elf_size) + 4096 + 4095) / 4096 <= Z.of_nat (length io))
    (Hregs : regs_ok regs) (Hmode : Z.land regs.(cpsr) MODE_MASK = USER_MODE) :
  exists K' k a',
    sys_fork ks zone_mutex slab_mutex page_struct_va pid_mutex task_mutex stale regs K =
      Some (0, with_r0 (u32 k.(pid)) regs, K') /\
    good (sched_of K') a' /\ mwf (sched_of K') w h /\
    a'.(a_tasks) = <[t := k]> a.(a_tasks) /\
    (forall q, a'.(a_view) q =
       if decide (q = Q_ready pk.(prio)) then a.(a_view) q ++ [t]
       else if decide (q = Q_system) then a.(a_view) q ++ [t] else a.(a_view) q) /\
    k.(pid) = K.(k_pids).(pid_current) /\ aget K'.(k_pids).(pid_tasks) k.(pid) = Some t /\ pid_wf K'.(k_pids) /\
    k.(parent) = (sched_of K).(current) /\ k.(prio) = pk.(prio) /\ k.(state) = PROCESS_STATE_PREPARE /\
    is_list (sched_of K').(heap) (TChild (sched_of K).(current)) (TP <$> (t :: cs)) /\
    address_space ks off t z.(bm_current) (vm_of K') /\
    child_memory ks z pk so io regs (ram_of K) (ram_of K') /\
    (exists c, switch_to_frame k.(stack_base) (ram_of K') = Some c /\
       c.(gpr) = u32 k.(pid) :: drop 1 (take 13 (frame regs)) /\ c.(c_sp) = regs.(sp) /\
       c.(c_lr) = regs.(lr) /\ c.(c_pc) = regs.(pc) /\ c.(c_cpsr) = regs.(cpsr)).
Proof.
  destruct (sys_fork_ok ks zone_mutex slab_mutex page_struct_va pid_mutex task_mutex stale t K a w h pg l kp hdr z off
    Hr Hz pk cs so io Hpid Hpk Hchild Hcs Hbytes Hold Hpages regs Hso Hio Hsp Helf Hlen_s Hlen_e Hregs Hmode)
    as (K' & E & Hg & Hm & Hl & Hp & Hpw & Has & Hmem & Hf & _).
  set (k := child_ready _ _ _ _ _ _ _) in Hg.
  rewrite (add_ready t k a) in Hg by done. exists K', (with_state PROCESS_STATE_PREPARE k).
  eexists. split; [exact E|]. split; [exact Hg|]. split; [done|]. split; [done|].
  split; [intros q; by apply ready_view|]. split_and!; try done.
  eexists. split; [exact Hf|]. unfold started. cbn [gpr c_sp c_lr c_pc c_cpsr].
  change (cpsr (child_regs K regs)) with regs.(cpsr). by rewrite Hmode.
Qed.

(** ** A kernel in which a process forks

    The scheduler of [Kthread] with task 12288 running; its stack is page 2 and its
    image page 3, the slab pages are those of [Kthread], and the pages from 32 on are
    free. *)

Definition CALLER : Z := 12288.

Definition caller_sched (s : sched_state) : sched_state := with_heap (init_list (TChild CALLER) s.(heap)) s.

Definition caller_ok (s : sched_state) : bool :=
  demo_sched_ok s && Z.eqb s.(current) CALLER &&
  match s.(tasks) !! CALLER with Some k => Z.eqb k.(mm_struct).(elf_size) 0 | None => false end.

(** What the demonstration needs of its scheduler. *)
Record fork_sched_facts (s : sched_state) (a : astate) (ik ck : task_struct) : Prop := {
  ff_demo : demo_sched_facts s a ik;
  ff_current : s.(current) = CALLER;
  ff_caller : s.(tasks) !! CALLER = Some ck;
  ff_size : ck.(mm_struct).(elf_size) = 0;
  ff_child : is_list s.(heap) (TChild CALLER) []
}.

Lemma fork_sched_ready s a :
  good s a -> caller_ok (caller_sched s) = true ->
  exists ik ck, fork_sched_facts (demo_sched (caller_sched s)) a ik ck.
Proof.
  intros Hg H. unfold caller_ok in H. rewrite !andb_true_iff, Z.eqb_eq in H. destruct H as [[H1 H2] H3].
  assert (Hg1 : good (caller_sched s) a).
  { destruct Hg as [Hr H4 H5 H6 H7 H8]. constructor; try done. apply refines_nodes; [done|].
    intros n Hq. unfold caller_sched, init_list. simpl. by rewrite lookup_insert_ne by (by intros <-). }
  destruct (demo_sched_ready _ a Hg1 H1) as [ik Hd]. exists ik.
  destruct ((caller_sched s).(tasks) !! CALLER) as [ck|] eqn:Ec; [|done]. apply Z.eqb_eq in H3. exists ck.
  constructor; [done|exact H2|exact Ec|exact H3|].
  apply linked_self_empty. unfold linked_self, demo_sched, caller_sched. simpl. unfold init_list.
  rewrite !lookup_insert_ne by done. by rewrite lookup_insert_eq.
Qed.

Lemma fork_sched_exists : exists s a ik ck, fork_sched_facts s a ik ck.
Proof.
  pose proof demo_ready_facts as (a & _ & Hg & _). exists (demo_sched (caller_sched demo_ready)), a.
  assert (H : caller_ok (caller_sched demo_ready) = true) by (vm_compute; reflexivity).
  by apply fork_sched_ready.
Qed.

Definition fork_zone : mm_zone :=
  Mk_zone [Mk_section 0x30000000 0x80000000 0x200000 0x50000000 1] 1 0x200000 0x1e0000 512 480 0 511 32.

Definition fork_bank : mm_bank := Mk_bank 0x200000 512 1 [fork_zone; bare_zone; bare_zone; bare_zone].

Definition fork_lists : lheap node :=
  {[ ElfStackList CALLER := ListHead (PagePlist 2) (PagePlist 2); PagePlist 2 := ListHead (ElfStackList CALLER) (ElfStackList CALLER);
     ElfImageList CALLER := ListHead (PagePlist 3) (PagePlist 3); PagePlist 3 := ListHead (ElfImageList CALLER) (ElfImageList CALLER);
     PagePlist 5 := ListHead (PagePlist 5) (PagePlist 5); SlabFreeHeader := ListHead SlabFreeHeader SlabFreeHeader;
     SlabList 13 := ListHead (SlabList 13) (SlabList 13) ]}.

Definition fork_mm (s : sched_state) : mm_state sched_state :=
  Mk_mm fork_bank
    (replicate 5 blank_page ++ [thread_page; Mk_page 0x30006000 F_GFP_SLAB 0x80006000 4096 1 1] ++
     replicate (Z.to_nat 513) blank_page)
    (0x6f :: replicate (Z.to_nat 16) 0) fork_lists s.

(** The caller's pages hold sevens. *)
Definition fork_ram : mem :=
  write 0x80020000 (replicate (Z.to_nat 1077248) 0) (write 0x80002000 (replicate (Z.to_nat 8192) 7) ∅).

Definition fork_kernel (s : sched_state) : kernel :=
  Mk_kernel
    (Mk_elf_sys (Mk_ramdisk 0 0 ∅ (Mk_slab (fork_mm s) (Some 5) (Some 6) 1 0 0 ∅)) fork_ram ∅ ∅)
    (Mk_pid_map 1 2 3 0x80100000 [4096; CALLER; 0]).

Definition fork_regs : pt_regs :=
  Mk_pt_regs 0x400000 1 2 3 4 5 6 0x900002 8 9 10 11 12 0 0x401010 0x7ffffff0 USER_MODE 0x401020.

Lemma fork_list hd (ps : list Z) :
  (hd, ps) ∈ [(ElfStackList CALLER, [2]); (ElfImageList CALLER, [3]); (PagePlist 5, []); (SlabFreeHeader, []); (SlabList 13, [])] ->
  is_list fork_lists hd (plist ps).
Proof.
  intros Hin. rewrite !elem_of_cons, elem_of_nil in Hin.
  destruct Hin as [[= -> ->]|[[= -> ->]|[[= -> ->]|[[= -> ->]|[[= -> ->]|[]]]]]];
    (split; [apply (bool_decide_unpack _); vm_compute; exact I|repeat split; vm_compute; reflexivity]).
Qed.

Lemma fork_va i : 0 <= i < 512 -> page_id_to_va 0x80000000 i = 0x80000000 + 4096 * i.
Proof.
  intros Hi. unfold page_id_to_va, PAGE_SHIFT.
  rewrite Z.shiftl_mul_pow2, u32_u32, u32_add_r, u32_small by lia. lia.
Qed.

Lemma fork_ram_bytes : mem_bytes fork_ram.
Proof.
  apply mem_bytes_write; [apply mem_bytes_write|]; try (apply Forall_replicate; lia).
  intros x b Hx. by rewrite lookup_empty in Hx.
Qed.

Lemma fork_ram_pages i : i ∈ [2] ++ [3] ++ seqZ 32 263 -> room fork_ram (page_id_to_va 0x80000000 i) 4096.
Proof.
  intros Hi. rewrite !elem_of_app, !list_elem_of_singleton, elem_of_seqZ in Hi.
  assert (Hi' : (2 <= i <= 3) \/ (32 <= i < 295)) by lia. rewrite fork_va by lia.
  intros q Hq. unfold fork_ram. destruct Hi' as [Hi'|Hi'].
  - apply write_alloc. replace (0x80000000 + 4096 * i + q) with (0x80002000 + (4096 * (i - 2) + q)) by lia.
    apply (room_write_self 0x80002000 (replicate (Z.to_nat 8192) 7)). rewrite length_replicate. lia.
  - replace (0x80000000 + 4096 * i + q) with (0x80020000 + (4096 * (i - 32) + q)) by lia.
    apply (room_write_self 0x80020000 (replicate (Z.to_nat 1077248) 0)). rewrite length_replicate. lia.
Qed.

Lemma fork_slab_ready s : slab_ready 0x80000000 (slab_of (fork_kernel s)) SIZEOF_TASK 5 [] thread_page 0x80006000.
Proof.
  assert (H1 : is_list fork_lists (PagePlist 5) []) by (apply (fork_list _ []); set_solver).
  assert (H2 : is_list fork_lists SlabFreeHeader []) by (apply (fork_list _ []); set_solver).
  assert (H3 : is_list fork_lists (SlabList 13) []) by (apply (fork_list _ []); set_solver).
  constructor; try done; try (vm_compute; split; congruence).
  - constructor; [exact H1|reflexivity|vm_compute; repeat split; congruence| |];
      [by intros ? ?%elem_of_nil|by intros ? ? ? ? ?%elem_of_nil].
  - exact (ready_page (slab_of (fork_kernel s)) 6 _ H2 eq_refl ltac:(vm_compute; split; congruence) eq_refl).
  - by apply not_elem_of_nil.
  - intros fl Hfl. rewrite (is_list_det _ _ _ _ Hfl H2). set_solver.
  - exists (SlabList 13). split; [reflexivity|exact H3].
Qed.

Lemma fork_bits j : 32 <= j < 295 -> bit_at (0x6f :: replicate (Z.to_nat 16) 0) j = false.
Proof.
  intros Hj. assert (H : forallb (fun i => negb (bit_at (0x6f :: replicate (Z.to_nat 16) 0) (Z.of_nat i))) (seq 32 263) = true)
    by (vm_compute; reflexivity).
  rewrite List.forallb_forall in H. specialize (H (Z.to_nat j)). rewrite Z2Nat.id in H by lia.
  apply negb_true_iff, H, in_seq. lia.
Qed.

Lemma fork_zone_ready s a ik n :
  demo_sched_facts s a ik -> 0 <= n <= 263 ->
  @run_ready _ _ (calm_locks s) 0x80000000 (fun _ => 100) 0x50000000 n fork_zone (mm_of (fork_kernel s)).
Proof.
  intros Hd Hn. constructor; try (simpl; lia).
  - constructor; try done; try (simpl; lia).
    + split; [repeat constructor; unfold is_u32; lia|vm_compute; split; congruence].
    + split; [done|]. intros i z Hz. unfold get_zone in Hz. pose proof (aget_lt _ _ _ Hz) as Hlt.
      simpl in Hlt. assert (Ei : i = 0 \/ i = 1 \/ i = 2 \/ i = 3) by lia.
      destruct Ei as [->|[->|[->| ->]]]; injection Hz as <-; simpl; lia.
    + split; [|split; [done|apply (df_mutex _ _ _ Hd); set_solver]].
      apply (good_lock_wf s a _ _ (df_good _ _ _ Hd) (df_mwf _ _ _ Hd)).
  - intros j Hj. simpl in Hj. apply fork_bits. lia.
  - intros j Hj. simpl in Hj. rewrite fork_va by lia. by apply (one_section_offset _ fork_zone); [| | |lia].
  - done.
Qed.

Lemma fork_kernel_ready s a ik :
  demo_sched_facts s a ik ->
  thread_ready 0x80000000 (fun _ => 100) 101 102 (fun t => t + 4) NEW (fork_kernel s) a
    (fun _ => []) (fun _ => []) 5 [] thread_page 0x80006000 fork_zone 0x50000000.
Proof.
  intros Hd. constructor; try apply Hd; try done.
  - apply fork_slab_ready.
  - split; apply (df_mutex _ _ _ Hd); set_solver.
  - split; [|done]. constructor; [simpl; lia|reflexivity|reflexivity|].
    intros i Hi. simpl in Hi. by replace i with 2 by lia.
  - apply (fork_zone_ready s a ik); [done|lia].
Qed.

Lemma fork_regs_ok : regs_ok fork_regs.
Proof. apply (bool_decide_unpack (Forall (fun x => 0 <= x < 2 ^ 32) _)). vm_compute. exact I. Qed.

Lemma sys_fork_child_witness :
  exists s K' k, caller_ok (caller_sched demo_ready) = true /\
    sys_fork 0x80000000 (fun _ => 100) 101 (fun _ => 0) 102 (fun t => t + 4) (fun _ => space_struct)
      fork_regs (fork_kernel s) = Some (0, with_r0 2 fork_regs, K') /\
    k.(pid) = 2 /\ k.(parent) = CALLER /\
    exists c, switch_to_frame k.(stack_base) (ram_of K') = Some c /\
      c.(gpr) = [2; 1; 2; 3; 4; 5; 6; 0x900002; 8; 9; 10; 11; 12] /\ c.(c_pc) = 0x401020.
Proof.
  destruct fork_sched_exists as (s & a & ik & ck & [Hd Hcur Hck Hsz Hch]).
  destruct (sys_fork_child 0x80000000 (fun _ => 100) 101 (fun _ => 0) 102 (fun t => t + 4) (fun _ => space_struct)
    NEW (fork_kernel s) a (fun _ => []) (fun _ => []) 5 [] thread_page 0x80006000 fork_zone 0x50000000
    ck [] [2] [3] fork_regs (fork_kernel_ready s a ik Hd) (fork_zone_ready s a ik 263 Hd ltac:(lia)))
    as (K' & k & a' & E & _ & _ & _ & _ & Hp & _ & _ & Hpar & _ & _ & _ & _ & _ & c & Hf & Hg & _ & _ & Hpc & _).
  - reflexivity.
  - change (sched_of (fork_kernel s)) with s. rewrite Hcur. exact Hck.
  - change (sched_of (fork_kernel s)) with s. rewrite Hcur. exact Hch.
  - apply not_elem_of_nil.
  - exact fork_ram_bytes.
  - intros i Hi. cbn [app] in Hi. rewrite !elem_of_cons, elem_of_nil in Hi. simpl. lia.
  - exact fork_ram_pages.
  - change (sched_of (fork_kernel s)) with s. rewrite Hcur. apply (fork_list _ [2]). set_solver.
  - change (sched_of (fork_kernel s)) with s. rewrite Hcur. apply (fork_list _ [3]). set_solver.
  - vm_compute. split; congruence.
  - rewrite Hsz. vm_compute. split; congruence.
  - vm_compute. congruence.
  - rewrite Hsz. vm_compute. congruence.
  - exact fork_regs_ok.
  - reflexivity.
  - change (pid_current (k_pids (fork_kernel s))) with 2 in Hp. rewrite Hp in E, Hg.
    exists s, K', k. split; [vm_compute; reflexivity|]. split; [exact E|]. split; [exact Hp|].
    split; [rewrite Hpar; exact Hcur|]. exists c. split; [exact Hf|]. split; [exact Hg|exact Hpc].
Defined.
