(* ===== verification/ExecThms.v ===== *)
(** * A program starts

    What a new task finds when the kernel thread that executed the file leaves it, and a
    small kernel in which that happens. *)

From S2P Require Import Prelude ListHead TaskStruct Sched SchedInv SchedSpec SchedBoot SchedApi.
From S2P Require Import Mutex MutexThms Bitops Mem CString MmTypes Pages PagesInv PagesThms.
From S2P Require Import KernelLocks KernelCalm Slab SlabThms SlabAlloc Pid Regs Ramdisk Elf.
From S2P Require Import ElfThms TaskMem TaskMemInv TaskMemThms TaskLoad TaskArgs TaskBuild Task.
From S2P Require Import TaskThms Kthread ForkUser ForkThms Exec.

Implicit Types (K : kernel) (k : task_struct).

(** C40. [exec_image], the part of [do_exec] behind the reading of the ELF headers, for a new task [t]
    of a kernel thread, from an open program file with the
    sections [xs] and the arguments [ls], returns 0.  The sections start at words at or after
    0x401000, fit image and file, do not overlap, and do not cross the end of their first page if
    they are shorter than a page.  The task is ready, with the
    invariants of scheduler and mutexes kept; its address space is the one it had; every
    section is in the image at its load address, or zeros for [.bss]; the argument page
    holds the table and the strings: an argument is read back as it was given, followed by the next one if
    its length is a multiple of four, so that all are read as given if only the last has such a
    length; the context switch to the task starts it in user mode at
    0x401000 with the stack at its top, the number of arguments in r0 and the address
    of the table in r1; no memory but the pages of the task changes. *)
Theorem exec_starts_program ks t K0 a w h off c K k par cs fp fbase pos elf argv l e xs ps ls regs
    (Hr : exec_ready ks t K0 a w h off c K k par cs fp fbase pos elf argv l e xs ps ls) :
  exists K' k', exec_image ks t fp elf argv true regs K = Some (0, program_regs (Z.of_nat (length ps)), K') /\
    good (sched_of K') (a_set_state t PROCESS_STATE_PREPARE (add_task t k' a)) /\ mwf (sched_of K') w h /\
    k'.(prio) = k.(prio) /\ address_space ks off t c (vm_of K') /\
    Forall (fun y => in_image (page_at ks c) l (ram_of K') y.2) xs /\
    args_at (ram_of K') (ks + 4096 * (c + 7)) 0 64 ls (read_back ls) /\
    (keeps_ends ls -> args_at (ram_of K') (ks + 4096 * (c + 7)) 0 64 ls ls) /\
    switch_to_frame k'.(stack_base) (ram_of K') =
      Some (Mk_context (Z.of_nat (length ps) :: PROCESS_USER_BASE :: seqZ 2 11) PROCESS_USER_STACK_BASE 14
        PROCESS_USER_EXEC_BASE USER_MODE) /\
    (forall x, off_task ks c x -> ram_of K' !! x = ram_of K !! x).
Proof.
  destruct (exec_image_ok ks t K0 a w h off c K k par cs fp fbase pos elf argv l e xs ps ls Hr regs)
    as (K' & E & Hg & Hm & Hs & Hi & Ha & Hf & Hx).
  exists K', (program_struct ks c k xs). split_and!; try done.
  intros Hk. by rewrite <- (read_back_same ls Hk) at 2.
Qed.

(** ** The child of [ForkThms] executes a file

    The file has the text and the empty data of [TaskLoad]; the arguments are those of
    [TaskArgs]. *)

Definition program_ram (m : mem) : mem :=
  write 0x2000 [9; 10; 11; 12]
    (write 0x100 (words_bytes [0x200; 0x300; 0]) (write 0x200 [97; 98; 0] (write 0x300 [99; 0] m))).

Definition program_kernel K : kernel :=
  with_sys (Mk_elf_sys (Mk_ramdisk 0 0 {[ 0x5000 := Mk_file 0x2000 4 0x2000 ]} (slab_of K)) (program_ram (ram_of K))
    {[ 0x7000 := Mk_elf_file 5 0x6000 ]} {[ 0x6000 := text_section; 0x6040 := bss_section ]}) K.

Lemma program_ram_out m x : 0x2004 <= x -> program_ram m !! x = m !! x.
Proof. intros Hx. unfold program_ram. by rewrite !lookup_write_out by (rewrite ?length_words; cbn [length]; lia). Qed.

Lemma program_args m : argv_at (program_ram m) 0x100 [0x200; 0x300] /\
  args_off 0x80000000 32 (program_ram m) [0x200; 0x300] [[97; 98]; [99]].
Proof.
  unfold program_ram. split; [split; [|repeat constructor; lia]|].
  - apply (bytes_at_frame (write 0x100 (words_bytes [0x200; 0x300; 0]) (write 0x200 [97; 98; 0] (write 0x300 [99; 0] m))));
      [apply write_bytes|].
    intros x Hx. apply lookup_write_out. rewrite length_words in Hx. cbn [app length] in *. lia.
  - constructor; [|constructor; [|constructor]]; (split; [split; [|repeat constructor; lia]|intros x Hx; unfold off_task; cbn in Hx; lia]).
    + apply (bytes_at_frame (write 0x200 [97; 98; 0] (write 0x300 [99; 0] m))); [apply write_bytes|].
      intros x Hx. cbn [app length] in Hx. by rewrite 2!lookup_write_out by (rewrite ?length_words; cbn [length]; lia).
    + apply (bytes_at_frame (write 0x300 [99; 0] m)); [apply write_bytes|].
      intros x Hx. cbn [app length] in Hx. by rewrite 3!lookup_write_out by (rewrite ?length_words; cbn [length]; lia).
Qed.

Lemma program_ready t K0 a w h K k par (cs : list Z) :
  TaskThms.added t K0 a w h K k par cs -> address_space 0x80000000 0x50000000 t 32 (vm_of K) ->
  (forall i, 32 <= i < 295 -> room (ram_of K) (0x80000000 + 4096 * i) 4096) ->
  k.(stack_origin) = 0x80020000 -> k.(stack_base) <> 0 -> t <> 0 ->
  exec_ready 0x80000000 t K0 a w h 0x50000000 32 (program_kernel K) k par cs 0x5000 0x2000 0 0x7000 0x100 [9; 10; 11; 12]
    (Mk_elf_file 5 0x6000) [(0x6000, text_section); (0x6040, bss_section)] [0x200; 0x300] [[97; 98]; [99]].
Proof.
  intros Ha Hs Hroom Ho Hb Ht. constructor.
  - by apply (added_sched t K0 a w h K).
  - apply (space_same 0x80000000 t 0x50000000 32 K); try done. intros x Hx. apply program_ram_out.
    rewrite !fork_va in Hx by lia. lia.
  - constructor; [split; [lia|done]|lia|]. intros i Hi. do 4 apply room_write. apply Hroom. lia.
  - split; [by rewrite Ho|done].
  - split_and!; done.
  - simpl. lia.
  - split; [done|]. intros x Hx. unfold off_task. simpl in Hx. lia.
  - exists (Mk_file 0x2000 4 0x2000). split; [reflexivity|]. split; [done|]. constructor.
    + exact (write_bytes 0x2000 [9; 10; 11; 12] _).
    + repeat constructor; lia.
    + reflexivity.
    + cbn [f_base f_size]. lia.
    + reflexivity.
    + cbn [f_size]. lia.
  - reflexivity.
  - split; [done|]. apply (bool_decide_unpack _). vm_compute. exact I.
  - constructor; [|constructor; [|constructor]]; constructor; unfold PROCESS_USER_BASE; change (Z.of_nat (length (image_pages 32))) with 256; simpl; try lia.
    all: try (intros _; vm_compute; discriminate). all: try discriminate; intros _; vm_compute; reflexivity.
  - intros [|[|i]] [|[|j]] x y Hne Ex Ey; try done; injection Ex as <-; injection Ey as <-;
      unfold sec_range, PROCESS_USER_BASE; simpl; lia.
  - split; [apply program_args|vm_compute; discriminate].
  - intros x Hx. unfold off_task. simpl in Hx. lia.
  - apply program_args.
  - vm_compute. split; [discriminate|]. split; [discriminate|done].
Qed.

Lemma exec_starts_program_witness :
  exists s K K' k', fork_new_task 0x80000000 (fun _ => 100) 101 (fun _ => 0) 102 (fun t => t + 4) (fun _ => space_struct)
      0 0x7ffffff0 fork_flag (fork_kernel s) = Some (NEW, K) /\
    exec_image 0x80000000 NEW 0x5000 0x7000 0x100 true fork_regs (program_kernel K) = Some (0, program_regs 2, K') /\
    switch_to_frame k'.(stack_base) (ram_of K') =
      Some (Mk_context [2; 0x400000; 2; 3; 4; 5; 6; 7; 8; 9; 10; 11; 12] 0x80000000 14 0x401000 USER_MODE) /\
    ram_of K' !! 0x80028000 = Some 10 /\ load32 0x80027000 (ram_of K') = Some 0x400040 /\
    cstr (ram_of K') 0x80027040 [97; 98].
Proof.
  destruct fork_sched_exists as (s & a & ik & ck & [Hd Hcur Hck Hsz Hch]).
  pose proof (fork_kernel_ready s a ik Hd) as Hready.
  destruct (fork_user_ok 0x80000000 (fun _ => 100) 101 (fun _ => 0) 102 (fun t => t + 4) (fun _ => space_struct)
    NEW (fork_kernel s) a (fun _ => []) (fun _ => []) 5 [] thread_page 0x80006000 fork_zone 0x50000000
    Hready (fork_zone_ready s a ik 263 Hd ltac:(lia)) ck [] [2] [3]) with (user_sp := 0x7ffffff0)
    as (K & E & Ha & Hs & _ & _ & Hroom & _).
  - reflexivity.
  - change (sched_of (fork_kernel s)) with s. rewrite Hcur. exact Hck.
  - change (sched_of (fork_kernel s)) with s. rewrite Hcur. exact Hch.
  - apply not_elem_of_nil.
  - exact fork_ram_bytes.
  - exact fork_ram_pages.
  - pose proof (program_ready NEW (fork_kernel s) a _ _ K _ _ _ Ha Hs) as Hp.
    assert (Eva : page_id_to_va 0x80000000 32 = 0x80020000) by exact (fork_va 32 ltac:(lia)).
    assert (H1 : forall i, 32 <= i < 295 -> room (ram_of K) (0x80000000 + 4096 * i) 4096).
    { intros i Hi. apply Hroom. rewrite <- fork_va by lia. apply fork_ram_pages. rewrite !elem_of_app, elem_of_seqZ. lia. }
    assert (H2 : page_id_to_va 0x80000000 32 <> 0) by (rewrite Eva; lia).
    pose proof (Hp H1 Eva H2 ltac:(done)) as Hx.
    destruct (exec_starts_program _ _ _ _ _ _ _ _ _ _ _ _ _ _ _ _ _ _ _ _ _ _ fork_regs Hx) as
      (K' & k' & E' & _ & _ & _ & _ & Hin & Hargs & _ & Hf & _).
    exists s, K, K', k'. split; [exact E|]. split; [exact E'|]. split; [exact Hf|].
    apply Forall_cons in Hin as [Hin _]. destruct Hargs as (A1 & A2 & _).
    split; [exact (Hin 0%nat 10 eq_refl)|]. split; [exact A1|exact A2].
Defined.
