(* ===== verification/SignalThms.v ===== *)
(** * Signals: properties

    The checks of [sys_signal], the exit of a task, and the deviations. *)

From S2P Require Import Prelude ListHead TaskStruct Sched SchedInv SchedSpec SchedBoot SchedApi.
From S2P Require Import Mutex MutexThms Bitops Mem CString MmTypes Pages PagesInv PagesThms.
From S2P Require Import KernelLocks KernelCalm Slab Pid Regs Ramdisk Elf TaskMem TaskMemThms Task.
From S2P Require Import Signal Kthread.

Implicit Types (K : kernel) (k : task_struct) (x : signal_msg).

(** ** Scheduler steps *)

Lemma step_wakeup s a t k :
  good s a -> a.(a_tasks) !! t = Some k -> k.(state) = PROCESS_STATE_SLEEP ->
  exists s', wakeup_task t s = Some (0, s') /\ good s' (a_wakeup t a) /\ env s s'.
Proof.
  intros Hg Ht Hs. destruct (wakeup_task_sim s a t k (good_refines _ _ Hg) Ht) as (r & s' & E & He & H).
  rewrite decide_True in H by done. destruct H as [-> H]. exists s'. split; [done|]. split; [|done].
  apply (good_env s a Hg); try done.
  - intros y. unfold a_wakeup. by rewrite set_state_dom, upd_tasks_dom.
  - apply only_running_set; [done|]. apply only_running_keeps; [keep|apply Hg].
Qed.

Lemma park_view t k v q :
  k.(state) = PROCESS_STATE_RUNNING ->
  abs_set_state t k PROCESS_STATE_IDLE v q = if decide (q = Q_list L_idle) then v q ++ [t] else v q.
Proof.
  intros Hs. unfold abs_set_state, enter, register, leave, home. simpl. rewrite Hs. simpl.
  unfold vset. by case_decide; subst.
Qed.

Lemma wake_view t k v q :
  k.(state) = PROCESS_STATE_SLEEP -> q <> Q_list L_sleep ->
  abs_set_state t k PROCESS_STATE_PREPARE v q = if decide (q = Q_ready k.(prio)) then v q ++ [t] else v q.
Proof.
  intros Hs Hq. unfold abs_set_state, enter, register, leave, home. simpl. rewrite Hs. simpl.
  unfold vset. case_decide as E; subst; case_decide; congruence.
Qed.

(** Switching from a task that does not run any more. *)
Lemma a_switch_parked cur next a ck nk :
  cur <> next -> a.(a_tasks) !! cur = Some ck -> ck.(state) <> PROCESS_STATE_RUNNING ->
  a.(a_tasks) !! next = Some nk -> nk.(state) = PROCESS_STATE_PREPARE ->
  a_switch cur next a =
  Abs (<[next := SchedSpec.started (with_state PROCESS_STATE_RUNNING (awaited nk))]> a.(a_tasks))
    (abs_set_state next (awaited nk) PROCESS_STATE_RUNNING a.(a_view)).
Proof.
  intros Hne Hc Hcs Hn Hns. unfold a_switch. rewrite decide_False by done. rewrite Hc. simpl.
  rewrite decide_False by congruence. unfold a_set_state, a_upd. simpl. rewrite lookup_alter_eq, Hn.
  cbn [fmap option_fmap option_map].
  assert (Ha : (awaited nk).(state) = PROCESS_STATE_PREPARE) by (unfold awaited; by destruct (Z.eqb _ 0)).
  rewrite Ha. cbn [legal a_tasks a_view]. f_equal. apply map_eq. intros y.
  destruct (decide (y = next)) as [->|Hy].
  - by rewrite lookup_alter_eq, !lookup_insert_eq.
  - by rewrite lookup_alter_ne, !lookup_insert_ne, lookup_alter_ne by done.
Qed.

Lemma ready_first v (t : Z) i :
  0 <= i < MAX_PRIO - 1 -> t ∈ v (Q_ready i) -> exists n, hd_error (ready_order v) = Some n.
Proof.
  intros Hi Ht. assert (Hin : t ∈ ready_order v) by (apply elem_of_ready_order; by exists i).
  destruct (ready_order v) as [|n l]; [by apply elem_of_nil in Hin|]. by exists n.
Qed.

(** ** The current task goes away *)

Section leave.
Context (s : sched_state) (a : astate) (w h : mview) (c kl : Z) (ck kk : task_struct).
Hypothesis Hg : good s a.
Hypothesis Hm : mwf s w h.
Hypothesis Hcur : s.(current) = c.
Hypothesis Hc : s.(tasks) !! c = Some ck.
Hypothesis Hrun : ck.(state) = PROCESS_STATE_RUNNING.
Hypothesis Hk : s.(tasks) !! kl = Some kk.
Hypothesis Hsl : kk.(state) = PROCESS_STATE_SLEEP.
Hypothesis Hprio : kk.(prio) < MAX_PRIO - 1.

(** The queues with [c] parked and [kl] awake. *)
Definition parked_view : view :=
  fun q => a.(a_view) q ++ (if decide (q = Q_list L_idle) then [c] else []) ++
           (if decide (q = Q_ready kk.(prio)) then [kl] else []).

Lemma leave_ok :
  exists s1 s2 s3 a3 o n nk, set_task_state c PROCESS_STATE_IDLE s = Some s1 /\ wakeup_task kl s1 = Some (0, s2) /\
    sched s2 = Some (Some o, s3) /\ good s3 a3 /\ mwf s3 w h /\
    s3.(current) = n /\ hd_error (ready_order parked_view) = Some n /\ n <> c /\
    s3.(tasks) !! c = Some (with_state PROCESS_STATE_IDLE ck) /\
    s3.(tasks) !! n = Some nk /\ nk.(state) = PROCESS_STATE_RUNNING /\
    c ∈ a3.(a_view) (Q_list L_idle).
Proof.
  pose proof (proj2 (good_refines _ _ Hg)) as Ets. pose proof Hg as [Hr _ _ _ _ _]. pose proof Hr as [Hwf _].
  assert (Hne : kl <> c) by congruence.
  rewrite Ets in Hc, Hk. pose proof (wf_prio _ _ Hwf kl kk ltac:(by rewrite Ets)) as Hp0.
  destruct (set_task_state_sim s a c ck PROCESS_STATE_IDLE Hr Hc) as (s1 & E1 & _ & He1 & _); [by rewrite Hrun|].
  destruct (step_set s a Hg c ck PROCESS_STATE_IDLE Hc) as (s1' & E1' & Hg1); [by rewrite Hrun|done|].
  rewrite E1 in E1'. injection E1' as <-.
  assert (Ea1 : a_set_state c PROCESS_STATE_IDLE a =
    Abs (<[c := with_state PROCESS_STATE_IDLE ck]> a.(a_tasks)) (abs_set_state c ck PROCESS_STATE_IDLE a.(a_view))).
  { unfold a_set_state. rewrite Hc. by rewrite Hrun. }
  rewrite Ea1 in Hg1. set (a1 := Abs _ _) in Hg1.
  assert (Hk1 : a1.(a_tasks) !! kl = Some kk) by (simpl; by rewrite lookup_insert_ne).
  destruct (step_wakeup s1 a1 kl kk Hg1 Hk1 Hsl) as (s2 & E2 & Hg2 & He2).
  set (kk2 := with_state PROCESS_STATE_PREPARE (with_run_time 1 kk)).
  assert (Ea2 : a_wakeup kl a1 = Abs (<[kl := kk2]> (alter (with_run_time 1) kl a1.(a_tasks)))
    (abs_set_state kl (with_run_time 1 kk) PROCESS_STATE_PREPARE a1.(a_view))).
  { unfold a_wakeup, a_set_state. simpl a_tasks. rewrite lookup_alter_eq, lookup_insert_ne by done. rewrite Hk. simpl. by rewrite Hsl. }
  rewrite Ea2 in Hg2. set (a2 := Abs _ _) in Hg2.
  assert (Hv2 : forall q, q <> Q_list L_sleep -> a2.(a_view) q = parked_view q).
  { intros q Hq. simpl. rewrite wake_view by done. rewrite park_view by done. unfold parked_view.
    change (prio (with_run_time 1 kk)) with kk.(prio).
    repeat case_decide; try congruence; by rewrite ?app_nil_r. }
  assert (Hro : ready_order a2.(a_view) = ready_order parked_view).
  { unfold ready_order. f_equal. apply list_fmap_ext. intros i y _. apply Hv2. intros [=]. }
  destruct (ready_first a2.(a_view) kl kk.(prio)) as [n En]; [lia| |].
  { rewrite Hv2 by done. unfold parked_view. rewrite (decide_True (P := Q_ready kk.(prio) = Q_ready kk.(prio))) by done. set_solver. }
  assert (Hn2 : exists nk, a2.(a_tasks) !! n = Some nk /\ nk.(state) = PROCESS_STATE_PREPARE).
  { pose proof (good_refines _ _ Hg2) as Hr2.
    assert (Hin : n ∈ ready_order a2.(a_view)) by (destruct (ready_order _); [done|injection En as ->; set_solver]).
    apply elem_of_ready_order in Hin as (i & Hi & Hin). pose proof Hr2 as [Hwf2 Ets2].
    destruct (wf_queued s2 _ Hwf2 (Q_ready i) n) as (nk & Enk & Hh); [simpl; lia|done|done|].
    exists nk. rewrite <- Ets2. split; [done|]. unfold home in Hh. by destruct nk.(state). }
  destruct Hn2 as (nk & Enk & Hns).
  assert (Hcur2 : s2.(current) = c) by (rewrite (se_current _ _ He2); simpl; rewrite (se_current _ _ He1); done).
  assert (Ec2 : a2.(a_tasks) !! c = Some (with_state PROCESS_STATE_IDLE ck)).
  { simpl. rewrite lookup_insert_ne, lookup_alter_ne, lookup_insert_eq by done. done. }
  assert (Hnc : n <> c) by (intros ->; rewrite Ec2 in Enk; by injection Enk as <-).
  destruct (sched_sim s2 a2 (good_refines _ _ Hg2)) as (s3 & E3 & _ & E31 & _ & _ & _ & _ & _ & Em3 & Ef3).
  { rewrite Hcur2. by eexists. } { apply Hg2. } { rewrite (good_run _ _ Hg2). lia. }
  destruct (step_sched s2 a2 Hg2) as (o & s3' & E3' & Hg3). rewrite E3 in E3'. injection E3' as <- <-.
  assert (Enext : next_task a2.(a_view) s2.(current) = n) by (unfold next_task; by rewrite En).
  rewrite Enext, Hcur2 in *. rewrite (a_switch_parked c n a2 _ nk) in Hg3 by done.
  pose proof (proj2 (good_refines _ _ Hg3)) as Ets3. simpl a_tasks in Ets3.
  eexists s1, s2, s3, _, _, n, _. split; [done|]. split; [done|]. split; [exact E3|]. split; [exact Hg3|].
  split; [|split; [done|split; [by rewrite <- Hro|split; [done|split; [|split; [|split]]]]]].
  - apply (mwf_frame s); [done| | |].
    + intros q Hq. pose proof (mutex_not_queue q Hq) as Hnq. rewrite Ef3 by done.
      rewrite (se_heap _ _ He2) by done. by rewrite (se_heap _ _ He1).
    + rewrite Em3, (se_mutex _ _ He2). simpl. by rewrite (se_mutex _ _ He1).
    + intros y. rewrite Ets3, Ets, lookup_insert_is_Some'. simpl a_tasks.
      rewrite lookup_insert_is_Some', <- !elem_of_dom, dom_alter, dom_insert, elem_of_union, elem_of_singleton, !elem_of_dom.
      split; [|tauto]. intros [<-|[<-|[->|?]]]; try done; try (by eexists).
      simpl in Enk. destruct (decide (n = kl)) as [->|Hnk]; [by eexists|]. 
      rewrite lookup_insert_ne, lookup_alter_ne, lookup_insert_ne in Enk by done. by eexists.
  - rewrite Ets3. by rewrite lookup_insert_ne.
  - rewrite Ets3. apply lookup_insert_eq.
  - done.
  - apply (wf_home _ _ (proj1 (good_refines _ _ Hg3)) c (with_state PROCESS_STATE_IDLE ck)); [|done|done|done].
    rewrite Ets3. by rewrite lookup_insert_ne.
Qed.
End leave.

(** ** The handlers *)

Section handlers.
Variable kernel_start : Z.
Variable zone_mutex : Z -> Z.
Variable slab_mutex : Z.
Variable page_struct_va : Z -> Z.
Variable pid_mutex : Z.

Abbreviation KILL := (signal_kill kernel_start zone_mutex slab_mutex page_struct_va pid_mutex).

(** The table after [init_signal_handler]. *)
Definition handlers : list (option handler) := [Some KILL; None; None; None].

Lemma init_handlers :
  init_signal_handler kernel_start zone_mutex slab_mutex page_struct_va pid_mutex signal_table = Some handlers.
Proof. reflexivity. Qed.

Lemma valid_signal x K from to :
  pid_get_task x.(sg_from) K.(k_pids) = Some from -> pid_get_task x.(sg_to) K.(k_pids) = Some to ->
  is_vaild_signal x K = Some (Z.ltb x.(sg_sig) MAX_SIGNAL && negb (Z.eqb from 0) && negb (Z.eqb to 0)).
Proof.
  intros Hf Ht. unfold is_vaild_signal. destruct (Z.leb_spec MAX_SIGNAL x.(sg_sig)).
  - by rewrite (proj2 (Z.ltb_ge _ _)).
  - rewrite (proj2 (Z.ltb_lt _ _)) by done. rewrite Hf, bind_Some_eq. destruct (Z.eqb_spec from 0); [done|].
    by rewrite Ht.
Qed.

(** C30. What [sys_signal] of the current task [fk] does in each case.  It is refused with
    [-EINVAL] and no effect for a signal number of [MAX_SIGNAL] or more (the number is
    unsigned, so a negative one is among them), for a caller or a
    target with no task, for a signal without a handler, and for another task whose
    priority is the caller's or a better one.  The kill signal to another task of a worse
    priority calls [kill_task] on it and returns what that returns.  The pid is not
    tested from below: with a negative pid and a known number the call reads before the
    table of tasks and is undefined. *)
Theorem sys_signal_checks K fk pid sig arg from
    (Hcur : task_at (sched_of K).(current) K = Some fk)
    (Hfrom : pid_get_task fk.(TaskStruct.pid) K.(k_pids) = Some from) (Hnr : 0 <= K.(k_pids).(pid_nr)) :
  let refused := sys_signal handlers pid sig arg K = Some (Done (- EINVAL), K) in
  (MAX_SIGNAL <= u32 sig -> refused) /\
  (from = 0 -> refused) /\
  (pid < 0 -> u32 sig < MAX_SIGNAL -> from <> 0 -> sys_signal handlers pid sig arg K = None) /\
  (forall to, pid_get_task pid K.(k_pids) = Some to ->
     (to = 0 -> refused) /\
     (PROCESS_SIGNAL_KILL < u32 sig -> refused) /\
     (forall kf kt, from <> 0 -> to <> 0 -> fk.(TaskStruct.pid) <> pid ->
        task_at from K = Some kf -> task_at to K = Some kt -> u32 sig = PROCESS_SIGNAL_KILL ->
        if Z.ltb kf.(prio) kt.(prio)
        then sys_signal handlers pid sig arg K =
             ('(r, K') ← kill_task kernel_start zone_mutex slab_mutex page_struct_va pid_mutex to K; Some (Done r, K'))
        else refused)).
Proof.
  intros refused. set (x := Mk_signal fk.(TaskStruct.pid) pid (u32 sig) arg).
  assert (E : sys_signal handlers pid sig arg K = __sys_signal handlers x K) by (unfold sys_signal; by rewrite Hcur).
  unfold refused. rewrite E. unfold __sys_signal. clear refused E. revert x. generalize (u32 sig) as n. intros n x.
  split; [intros Hge; unfold is_vaild_signal; change (sg_sig x) with n; by rewrite (proj2 (Z.leb_le _ _) Hge)|].
  split; [intros ->; unfold is_vaild_signal; cbn [sg_from x]; rewrite Hfrom; by destruct (Z.leb _ _)|].
  split.
  { intros Hpid Hsig Hf0. unfold is_vaild_signal. cbn [sg_sig sg_from sg_to x].
    rewrite (proj2 (Z.leb_gt _ _) Hsig), Hfrom, bind_Some_eq, (proj2 (Z.eqb_neq from 0)) by done.
    unfold pid_get_task. rewrite (proj2 (Z.ltb_lt _ _)) by lia.
    unfold aget. by rewrite (proj2 (Z.leb_gt 0 pid)) by lia. }
  intros to Hto. rewrite (valid_signal x K from to) by done. rewrite bind_Some_eq.
  change (sg_sig x) with n. split; [|split].
  - intros ->. by rewrite andb_false_r.
  - intros Hlt. destruct (_ && _) eqn:Eb; [|done].
    apply andb_true_iff in Eb as [[Eb%Z.ltb_lt _]%andb_true_iff _].
    assert (Es : n = 1 \/ n = 2 \/ n = 3) by (unfold MAX_SIGNAL, PROCESS_SIGNAL_KILL in *; lia).
    by destruct Es as [->|[->| ->]].
  - intros kf kt Hf0 Ht0 Hne Hf Ht ->. rewrite !(proj2 (Z.eqb_neq _ 0)) by done. cbn [Z.ltb Z.compare MAX_SIGNAL PROCESS_SIGNAL_KILL andb negb].
    change (aget handlers PROCESS_SIGNAL_KILL) with (Some (Some KILL)). rewrite bind_Some_eq. unfold signal_kill.
    cbn [sg_from sg_to x]. rewrite Hfrom, Hto, !bind_Some_eq. rewrite (proj2 (Z.eqb_neq _ pid)) by done.
    rewrite Hf, Ht, !bind_Some_eq. destruct (Z.ltb kf.(prio) kt.(prio)); done.
Qed.

(** C35. [sys_exit] of the running task [c], while the system killer [kl], of a priority above
    the lowest, is asleep: [c] is parked in the idle queue, the killer is made ready, the
    processor goes to the first task of the highest ready queue, which is not [c], and
    the invariants of scheduler and mutexes hold. *)
Theorem exit_gives_up_processor K a w h c kl ck kk
    (Hg : good (sched_of K) a) (Hm : mwf (sched_of K) w h) (Hcur : (sched_of K).(current) = c)
    (Hc : (sched_of K).(tasks) !! c = Some ck) (Hrun : ck.(state) = PROCESS_STATE_RUNNING)
    (Hk : (sched_of K).(tasks) !! kl = Some kk) (Hsl : kk.(state) = PROCESS_STATE_SLEEP)
    (Hprio : kk.(prio) < MAX_PRIO - 1)
    (Hpid : pid_get_task ck.(TaskStruct.pid) K.(k_pids) = Some c) (Hkiller : pid_get_task 0 K.(k_pids) = Some kl) :
  exists o s' a' n nk,
    sys_exit handlers K = Some (Switched (Some o), with_sched s' K) /\ good s' a' /\ mwf s' w h /\
    s'.(current) = n /\ hd_error (ready_order (parked_view a c kl kk)) = Some n /\ n <> c /\
    s'.(tasks) !! c = Some (with_state PROCESS_STATE_IDLE ck) /\ c ∈ a'.(a_view) (Q_list L_idle) /\
    s'.(tasks) !! n = Some nk /\ nk.(state) = PROCESS_STATE_RUNNING.
Proof.
  destruct (leave_ok _ a w h c kl ck kk Hg Hm Hcur Hc Hrun Hk Hsl Hprio)
    as (s1 & s2 & s3 & a3 & o & n & nk & E1 & E2 & E3 & Hg3 & Hm3 & Hn & Hf & Hne & Ec & En & Hnr & Hi).
  assert (H0 : c <> 0 /\ kl <> 0).
  { pose proof (wf_addr _ _ (proj1 (good_refines _ _ Hg))) as Hadr.
    pose proof (Hadr c ltac:(by rewrite Hc)). pose proof (Hadr kl ltac:(by rewrite Hk)). lia. }
  exists o, s3, a3, n, nk. split; [|by split_and!].
  unfold sys_exit, sys_signal, task_at, get_task. rewrite Hcur, Hc, !bind_Some_eq. unfold __sys_signal.
  change (u32 PROCESS_SIGNAL_KILL) with PROCESS_SIGNAL_KILL.
  rewrite (valid_signal (Mk_signal ck.(TaskStruct.pid) ck.(TaskStruct.pid) PROCESS_SIGNAL_KILL 0) K c c Hpid Hpid), bind_Some_eq. rewrite !(proj2 (Z.eqb_neq c 0)) by apply H0.
  cbn [sg_sig Z.ltb Z.compare MAX_SIGNAL PROCESS_SIGNAL_KILL andb negb].
  change (aget handlers _) with (Some (Some KILL)). rewrite bind_Some_eq. unfold signal_kill. cbn [sg_from sg_to].
  rewrite Hpid, !bind_Some_eq, Z.eqb_refl. unfold task_kill_self. rewrite Hkiller, bind_Some_eq.
  rewrite (proj2 (Z.eqb_neq kl 0)) by apply H0. unfold on_sched at 1. rewrite E1, !bind_Some_eq.
  change (sched_of (with_sched s1 K)) with s1. rewrite E2, !bind_Some_eq. cbn beta iota. rewrite E3, bind_Some_eq. done.
Qed.

(** ** Deviations *)

(** A pid below zero passes the test of [pid_get_task] and reads before the table: the
    signal calls, whose pid comes from the user program, are undefined on it. *)
Theorem negative_pid_reads_before_table K fk from pid arg
    (Hcur : task_at (sched_of K).(current) K = Some fk) (Hpid : pid < 0) (Hnr : 0 <= K.(k_pids).(pid_nr))
    (Hfrom : pid_get_task fk.(TaskStruct.pid) K.(k_pids) = Some from) (H0 : from <> 0) :
  sys_signal handlers pid PROCESS_SIGNAL_KILL arg K = None.
Proof.
  unfold sys_signal. rewrite Hcur, bind_Some_eq. unfold __sys_signal, is_vaild_signal. cbn [sg_sig].
  change (Z.leb MAX_SIGNAL (u32 PROCESS_SIGNAL_KILL)) with false. cbn iota. cbn [sg_from sg_to].
  rewrite Hfrom, bind_Some_eq, (proj2 (Z.eqb_neq from 0)) by done.
  unfold pid_get_task. rewrite (proj2 (Z.ltb_lt _ _)) by lia.
  unfold aget. by rewrite (proj2 (Z.leb_gt 0 pid)) by lia.
Qed.
End handlers.

(** ** A system with a killer

    The killer 8192 has pid 0 and sleeps, the first program 12288 has pid 1 and runs. *)

Definition sig_trace : list sched_event :=
  [EvSpawn 8192 (with_pid 0 task0); EvReady 8192;
   EvSpawn 12288 (with_flag PROCESS_TYPE_USER (with_pid 1 task0)); EvReady 12288;
   EvPrio 4096 63; EvSched; EvResume 0x13; EvSuspend 8192 (-1); EvResume 0x13].

Definition sig_sched : sched_state := default sched_bss (play sig_trace demo_boot).

Definition sig_sched_ok (s : sched_state) : bool :=
  match s.(tasks) !! 8192, s.(tasks) !! 12288 with
  | Some k, Some c =>
      bool_decide (k.(state) = PROCESS_STATE_SLEEP) && Z.eqb k.(prio) 4 && Z.eqb c.(prio) 20 &&
      bool_decide (c.(state) = PROCESS_STATE_RUNNING) && Z.eqb c.(TaskStruct.pid) 1 &&
      Z.eqb s.(current) 12288 && mutex_nodes_ok s
  | _, _ => false
  end.

Lemma sig_sched_facts : exists s a k c, good s a /\ mwf s (fun _ => []) (fun _ => []) /\
  s.(tasks) !! 8192 = Some k /\ k.(state) = PROCESS_STATE_SLEEP /\ k.(prio) = 4 /\
  s.(tasks) !! 12288 = Some c /\ c.(state) = PROCESS_STATE_RUNNING /\ c.(prio) = 20 /\
  c.(TaskStruct.pid) = 1 /\ s.(current) = 12288.
Proof.
  assert (Hg : exists a, good sig_sched a).
  { destruct demo_boot_good as [a Ha]. apply (run_good demo_boot a sig_trace); [done|].
    apply (play_run demo_boot [] demo_boot sig_trace); [constructor|].
    assert (H : (if play sig_trace demo_boot is Some _ then true else false) = true) by (vm_compute; reflexivity).
    unfold sig_sched. by destruct (play sig_trace demo_boot). }
  assert (H : sig_sched_ok sig_sched = true) by (vm_compute; reflexivity).
  revert Hg H. generalize sig_sched. intros s [a Ha] H. unfold sig_sched_ok in H.
  destruct (s.(tasks) !! 8192) as [k|] eqn:Ek; [|done]. destruct (s.(tasks) !! 12288) as [c|] eqn:Ec; [|done].
  rewrite !andb_true_iff, !bool_decide_eq_true, !Z.eqb_eq in H. destruct_and!.
  exists s, a, k, c. split_and!; try done. by apply mutex_nodes_mwf.
Qed.

Definition sig_kernel (s : sched_state) : kernel :=
  with_pids (Mk_pid_map 1 2 3 0x80100000 [8192; 12288; 0]) (thread_kernel s).

Lemma sys_signal_checks_witness :
  exists s, s.(current) = 12288 /\
    sys_signal (handlers 0 (fun _ => 0) 0 (fun _ => 0) 0) 0 PROCESS_SIGNAL_KILL 7 (sig_kernel s) =
      Some (Done (- EINVAL), sig_kernel s).
Proof.
  destruct sig_sched_facts as (s & a & k & c & Hg & Hm & Hk & Hks & Hkp & Hc & Hcs & Hcp & Hpid & Hcur).
  destruct (sys_signal_checks 0 (fun _ => 0) 0 (fun _ => 0) 0 (sig_kernel s) c 0 PROCESS_SIGNAL_KILL 7 12288)
    as (_ & _ & _ & H).
  - unfold task_at, get_task. change (sched_of (sig_kernel s)) with s. rewrite Hcur. exact Hc.
  - rewrite Hpid. reflexivity.
  - discriminate.
  - exists s. split; [exact Hcur|]. destruct (H 8192 eq_refl) as (_ & _ & H').
    specialize (H' c k ltac:(done) ltac:(done)). rename H into H0, H' into H.
    rewrite Hpid, Hcp, Hkp in H. exact (H ltac:(done) Hc Hk eq_refl).
Defined.

Lemma exit_gives_up_processor_witness :
  exists s o s' n, s.(current) = 12288 /\
    sys_exit (handlers 0 (fun _ => 0) 0 (fun _ => 0) 0) (sig_kernel s) =
      Some (Switched (Some o), with_sched s' (sig_kernel s)) /\ s'.(current) = n /\ n <> 12288.
Proof.
  destruct sig_sched_facts as (s & a & k & c & Hg & Hm & Hk & Hks & Hkp & Hc & Hcs & Hcp & Hpid & Hcur).
  destruct (exit_gives_up_processor 0 (fun _ => 0) 0 (fun _ => 0) 0 (sig_kernel s) a (fun _ => []) (fun _ => [])
    12288 8192 c k Hg Hm Hcur Hc Hcs Hk Hks) as (o & s' & a' & n & nk & E & _ & _ & Hn & _ & Hne & _).
  - rewrite Hkp. unfold MAX_PRIO. lia.
  - rewrite Hpid. reflexivity.
  - reflexivity.
  - exists s, o, s', n. split; [exact Hcur|]. split; [exact E|]. split; [exact Hn|exact Hne].
Defined.
