(* ===== verification/TaskKill.v ===== *)
(** * The death of a task

    [kill_task] on a task without children that holds and awaits no mutex: it leaves
    every queue, the pid map, its parent's list of children, and its memory goes back to
    the page allocator. *)

From S2P Require Import Prelude ListHead TaskStruct Sched SchedInv SchedSpec SchedBoot SchedApi.
From S2P Require Import Mutex Bitops Mem CString MmTypes Pages PagesInv PagesThms KernelLocks.
From S2P Require Import KernelCalm Slab SlabThms Pid Regs Ramdisk Elf TaskMem TaskMemInv.
From S2P Require Import TaskMemThms TaskRelease Task.

Implicit Types (K : kernel) (k : task_struct) (s : sched_state).

(** ** The scheduler forgets a task *)

Definition forget t s : sched_state := with_tasks (delete t s.(tasks)) s.

(** Every queue without [t]. *)
Definition without_view t (v : view) : view := fun q => without t (v q).

Lemma lists_ok_view s v v' :
  lists_ok s v -> (forall q, q_valid q -> v' q = v q) -> lists_ok s v'.
Proof.
  intros [L1 L2 L3 L4] Hv. constructor; [..|done|].
  - intros q Hq. rewrite Hv by done. by apply L1.
  - intros q Hq. rewrite Hv by done. by apply L2.
  - intros q q' t Hq Hq' E. rewrite !Hv by done. by apply L4.
Qed.

Lemma without_idem t (l : list Z) : without t (without t l) = without t l.
Proof. apply without_notin. rewrite elem_of_without. tauto. Qed.

Lemma without_snoc t (l : list Z) : without t (l ++ [t]) = without t l.
Proof.
  rewrite without_app. unfold without at 2. rewrite filter_cons_False by tauto. by rewrite app_nil_r.
Qed.

(** Parking a task that does not run, or is parked already. *)
Lemma park_any a t k :
  a.(a_tasks) !! t = Some k -> k.(state) <> PROCESS_STATE_RUNNING -> k.(state) <> PROCESS_STATE_UNKNOWN ->
  k.(state) <> PROCESS_STATE_STOP ->
  let a1 := a_set_state t PROCESS_STATE_IDLE a in
  a1.(a_tasks) = <[t := with_state PROCESS_STATE_IDLE k]> a.(a_tasks) /\
  (forall q, without t (a1.(a_view) q) = without t (a.(a_view) q)) /\
  (a1.(a_view) Q_system = a.(a_view) Q_system).
Proof.
  intros Ht Hr Hu Hst a1. unfold a1, a_set_state. rewrite Ht.
  destruct k.(state) eqn:Es; try done; cbn [legal a_tasks a_view].
  - split; [done|]. split; [|unfold abs_set_state, enter, register, leave, home; simpl; rewrite Es; simpl; by rewrite !vset_ne by done].
    intros q. unfold abs_set_state, enter, register, leave, home. simpl. rewrite Es. simpl. unfold vset.
    repeat case_decide; subst; try congruence; by rewrite ?without_snoc, ?without_idem.
  - split; [done|]. split; [|unfold abs_set_state, enter, register, leave, home; simpl; rewrite Es; simpl; by rewrite !vset_ne by done].
    intros q. unfold abs_set_state, enter, register, leave, home. simpl. rewrite Es. simpl. unfold vset.
    repeat case_decide; subst; try congruence; by rewrite ?without_snoc, ?without_idem.
  - split; [|done]. assert (Ek : with_state PROCESS_STATE_IDLE k = k) by (destruct k; simpl in *; by subst).
    rewrite Ek. by rewrite insert_id.
Qed.

(** From [s] to [s'] only queue nodes, the queue counts and the task table changed. *)
Section unlist.
Context (s : sched_state) (a : astate) (t : Z) (k : task_struct).
Hypothesis Hg : good s a.
Hypothesis Ht : s.(tasks) !! t = Some k.
Hypothesis Hcur : t <> s.(current).
Hypothesis Hstate : k.(state) <> PROCESS_STATE_UNKNOWN /\ k.(state) <> PROCESS_STATE_STOP.
Hypothesis Hsys : t ∈ a.(a_view) Q_system.

Lemma unlist_ok :
  exists s1 s2 s3, set_task_state t PROCESS_STATE_IDLE s = Some s1 /\
    s1.(tasks) !! t = Some (with_state PROCESS_STATE_IDLE k) /\
    sched_list_del_task L_idle t (with_cpsr_c (s1.(cpsr_c) |u 0xc0) s1) = Some s2 /\
    sched_list_del_task L_system t s2 = Some s3 /\
    s1.(cpsr_c) = s.(cpsr_c) /\
    same_env (with_cpsr_c (s.(cpsr_c) |u 0xc0) (with_tasks (<[t := with_state PROCESS_STATE_IDLE k]> s.(tasks)) s)) s3 /\
    refines (forget t s3) (Abs (delete t a.(a_tasks)) (without_view t a.(a_view))).
Proof.
  pose proof Hg as [Hr Hc Hn Hi Hrn Ho]. pose proof Hr as [Hwf Ets]. rewrite Ets in Ht.
  assert (Hnr : k.(state) <> PROCESS_STATE_RUNNING) by (intros E; pose proof (Ho t k Ht E); congruence).
  destruct Hstate as [Hun Hst].
  destruct (park_any a t k Ht Hnr Hun Hst) as (Ea & Hv & Hvs).
  destruct (set_task_state_sim s a t k PROCESS_STATE_IDLE Hr Ht) as (s1 & E1 & H1 & He1 & _); [by apply irregular_target|].
  set (a1 := a_set_state t PROCESS_STATE_IDLE a) in *. pose proof H1 as [Hwf1 Ets1].
  assert (Et1 : s1.(tasks) !! t = Some (with_state PROCESS_STATE_IDLE k)) by (rewrite Ets1, Ea; apply lookup_insert_eq).
  assert (Hin1 : t ∈ a1.(a_view) (Q_list L_idle)) by (by apply (wf_home _ _ Hwf1 t _ (Q_list L_idle) Et1)).
  assert (Hin2 : t ∈ a1.(a_view) Q_system) by (by rewrite Hvs).
  set (s1' := with_cpsr_c (s1.(cpsr_c) |u 0xc0) s1).
  pose proof (proj2 (lists_ok_cpsr s1 _ (s1.(cpsr_c) |u 0xc0)) (wf_lists _ _ Hwf1)) as L1. fold s1' in L1.
  destruct (q_remove_ok s1' _ (Q_list L_idle) t L1 I Hin1) as (s2 & E2 & L2 & He2 & _).
  destruct (q_remove_ok s2 _ Q_system t L2 I) as (s3 & E3 & L3 & He3 & _); [by rewrite vset_ne|].
  rewrite (vset_ne _ _ _ _ (ltac:(done) : Q_system <> Q_list L_idle)) in L3.
  assert (Hv3 : forall q, q_valid q -> without_view t a.(a_view) q =
    vset Q_system (without t (a1.(a_view) Q_system)) (vset (Q_list L_idle) (without t (a1.(a_view) (Q_list L_idle))) a1.(a_view)) q).
  { intros q Hq. unfold without_view. rewrite <- Hv. unfold vset. repeat case_decide; subst; try done.
    apply without_notin. intros Hin. apply (wf_home _ _ Hwf1 t _ q Et1 Hq) in Hin; [|done]. injection Hin as <-. done. }
  assert (Et3 : s3.(tasks) = s1.(tasks)) by (rewrite (se_tasks _ _ He3); apply (se_tasks _ _ He2)).
  assert (Ed3 : dom s3.(heap) = dom s1.(heap)) by (rewrite (se_dom _ _ He3); apply (se_dom _ _ He2)).
  exists s1, s2, s3. split; [done|]. split; [done|]. split; [by rewrite sched_list_del_task_q|].
  split; [by rewrite sched_list_del_task_q|]. split; [apply (se_cpsr _ _ He1)|]. split.
  - etrans; [|exact He3]. etrans; [|exact He2]. pose proof (se_cpsr _ _ He1) as Ecp. cbn in Ecp.
    destruct He1. constructor; try done; unfold s1'; cbn; [by rewrite Ets1, Ea, Ets|by rewrite Ecp].
  - assert (Hdel : delete t s3.(tasks) = delete t a.(a_tasks)) by (rewrite Et3, Ets1, Ea; apply delete_insert_eq).
    split; [|exact Hdel]. constructor; cbn [tasks forget with_tasks a_view].
    + apply (lists_ok_ext s3); [done|done|by intros []|]. by apply (lists_ok_view _ _ _ L3).
    + rewrite Hdel, <- Ets. intros x tk q Hx Hq Hs. apply lookup_delete_Some in Hx as [Hne Hx].
      unfold without_view. rewrite elem_of_without. rewrite (wf_home _ _ Hwf x tk q Hx Hq Hs). split; [tauto|done].
    + rewrite Hdel, <- Ets. intros x tk Hx. apply lookup_delete_Some in Hx as [_ Hx]. by apply (wf_prio _ _ Hwf x).
    + rewrite Hdel, <- Ets. intros x q Hq [Hx Hne]%elem_of_without. apply (wf_dom _ _ Hwf x q Hq) in Hx.
      by rewrite lookup_delete_ne by done.
    + rewrite Hdel, <- Ets. intros x tk Hx Hsu. apply lookup_delete_Some in Hx as [Hne Hx].
      unfold without_view. rewrite elem_of_without. pose proof (wf_unknown _ _ Hwf x tk Hx Hsu). tauto.
    + intros x q [tk Hx]. apply lookup_delete_Some in Hx as [Hne Hx].
      change (is_Some (s3.(heap) !! q_node q x)). apply elem_of_dom. rewrite Ed3. apply elem_of_dom.
      apply (wf_alloc _ _ Hwf1). rewrite <- Et3. by eexists.
    + rewrite Hdel, <- Ets. intros x [tk Hx]. apply lookup_delete_Some in Hx as [_ Hx]. apply (wf_addr _ _ Hwf). by eexists.
Qed.
End unlist.

(** ** The steps of [kill_task] *)

(** ** The mutex a task waits for *)

Definition quit (t : Z) (w : mview) : mview := fun m => without t (w m).

(** The [wait] node of [t] is linked to itself, or in one of the queues. *)
Definition wait_linked (s : sched_state) (w : mview) (t : Z) : Prop :=
  (is_list s.(heap) (TWait t) [] /\ forall m, ~ (t ∈ w m)) \/ exists m, t ∈ w m.

Lemma mwf_quit_none s w h t : mwf s w h -> (forall m, ~ (t ∈ w m)) -> mwf s (quit t w) h.
Proof.
  intros [H1 H2 H3 H4 H5 H6 H7 H8 H9 H10] Hn.
  assert (E : forall m, quit t w m = w m) by (intros m; by apply without_notin).
  constructor; try done.
  - intros m Hm. rewrite E. by apply H1.
  - intros m m' x. rewrite !E. apply H6.
  - intros m x. rewrite E. apply H8.
Qed.

(** Leaving the queue: [list_del] of the node. *)
Lemma mwf_quit s w h t m :
  mwf s w h -> t ∈ w m ->
  exists h', list_del (TWait t) s.(heap) = Some h' /\ mwf (with_heap h' s) (quit t w) h /\ dom h' = dom s.(heap) /\
    (forall n, n ∉ MutexWait m :: (TWait <$> w m) -> h' !! n = s.(heap) !! n).
Proof.
  intros [H1 H2 H3 H4 H5 H6 H7 H8 H9 H10] Hin. destruct (H8 m t Hin) as [Hm Ht].
  pose proof (H1 m Hm) as Hl. destruct (list_elem_of_split _ _ Hin) as (l1 & l2 & El).
  assert (Hnd : NoDup (w m)) by (apply (NoDup_fmap_1 TWait); by apply (is_list_nodup _ _ _ Hl)).
  assert (Hi : is_list s.(heap) (MutexWait m) ((TWait <$> l1) ++ TWait t :: (TWait <$> l2))) by (by rewrite El, fmap_app in Hl).
  destruct (list_del_spec _ _ _ _ _ Hi) as (h' & E & Hl' & Hd & Hf).
  assert (Hfr : forall n, n ∉ MutexWait m :: (TWait <$> w m) -> h' !! n = s.(heap) !! n).
  { intros n Hn. apply Hf. rewrite El, fmap_app in Hn. cbn [fmap list_fmap] in Hn.
    rewrite !elem_of_cons, !elem_of_app, ?elem_of_cons in *. tauto. }
  assert (Hal : forall n, is_Some (s.(heap) !! n) -> is_Some (h' !! n)) by (intros n; by rewrite <- !elem_of_dom, Hd).
  exists h'. split; [done|]. split; [|done]. constructor; try done.
  - intros m' Hm'. unfold quit. cbn [heap with_heap]. destruct (decide (m' = m)) as [->|Hne].
    + rewrite El, without_middle by (by rewrite <- El). by rewrite fmap_app.
    + assert (Hno : ~ (t ∈ w m')) by (intros Hx; by apply Hne, (H6 m' m t)).
      rewrite without_notin by done. apply (is_list_frame s.(heap)); [|by apply H1].
      intros n Hn. apply Hfr. intros [->|(y & -> & Hy)%list_elem_of_fmap]%elem_of_cons.
      * apply elem_of_cons in Hn as [[= ->]|(z & ? & _)%list_elem_of_fmap]; done.
      * apply elem_of_cons in Hn as [|(z & [= <-] & Hz)%list_elem_of_fmap]; [done|]. by apply Hne, (H6 m' m y).
  - intros x Hx. cbn [heap with_heap]. apply (is_list_frame s.(heap)); [|by apply H2].
    intros n Hn. apply Hfr. intros [->|(y & -> & Hy)%list_elem_of_fmap]%elem_of_cons;
      apply elem_of_cons in Hn as [?|(z & ? & _)%list_elem_of_fmap]; done.
  - intros m1 m2 x [Hx1 _]%elem_of_without [Hx2 _]%elem_of_without. by apply (H6 m1 m2 x).
  - intros m1 x [Hx1 _]%elem_of_without. by apply H8.
  - intros x Hx. by apply Hal, H9.
  - intros x Hx. by apply Hal, H10.
Qed.

Section kill.
Variable ks : Z.
Variable zone_mutex : Z -> Z.
Variable slab_mutex : Z.
Variable page_struct_va : Z -> Z.
Variable pid_mutex : Z.
Variable off : Z.
Hypothesis Hks : 0 < ks < 2 ^ 32.
Hypothesis Halign : ks mod 4096 = 0.

(** A user task that can be killed: it is not the current one and not one of the two
    system tasks, it has no children and holds no mutex, its [wait] node is linked to
    itself (it never waited) or in the queue of the mutex it waits for, and its pages are on
    its lists. *)
Record mortal K a w h t k (l1 l2 : list Z) z (so im st el : list Z) c : Prop := {
  mo_good : good (sched_of K) a;
  mo_mwf : mwf (sched_of K) w h;
  mo_task : (sched_of K).(tasks) !! t = Some k;
  mo_other : t <> (sched_of K).(current);
  mo_state : k.(state) <> PROCESS_STATE_UNKNOWN /\ k.(state) <> PROCESS_STATE_STOP;
  mo_system : t ∈ a.(a_view) Q_system;
  mo_pid : k.(pid) <> 0 /\ k.(pid) <> 1 /\ 0 <= k.(pid) < K.(k_pids).(pid_current);
  mo_pids : pid_wf K.(k_pids);
  mo_parent : is_list (sched_of K).(heap) (TChild k.(parent)) (TP <$> (l1 ++ t :: l2));
  mo_child : is_list (sched_of K).(heap) (TChild t) [];
  mo_wait : wait_linked (sched_of K) w t;
  mo_held : h t = [];
  mo_locks : idle_mutex (sched_of K) pid_mutex /\ idle_mutex (sched_of K) (zone_mutex MM_ZONE_NORMAL);
  mo_user : truth (k.(flag) &u PROCESS_TYPE_USER) = true;
  mo_addr : SIZE_1G <= t;
  mo_zone : @zone_open _ _ (calm_locks (sched_of K)) zone_mutex z (mm_of K);
  mo_pages : task_pages t so im st el (mm_of K);
  mo_stack : k.(stack_origin) = page_id_to_va ks c /\ page_id_to_va ks c <> 0;
  mo_single : forall i, i ∈ so ++ im ++ st ++ el ++ [c] -> single_page ks off i (mm_of K) /\ 0 <= i <= z.(bm_end);
  mo_room : z.(z_free_pages) + Z.of_nat (length (so ++ im ++ st ++ el ++ [c])) < 2 ^ 32
}.

Lemma zone_open_rebase {L} {LC : LockCalls L} {LO1 LO2 : LockOps L} z (s s' : mm_state L) :
  @zone_open L LC LO1 zone_mutex z s -> s'.(bank) = s.(bank) -> s'.(page_map) = s.(page_map) ->
  @lk_free L LC LO2 s'.(locks) (zone_mutex MM_ZONE_NORMAL) -> @zone_open L LC LO2 zone_mutex z s'.
Proof.
  intros [H1 H2 H3 _ H5] Hb Hm Hl. constructor; try done.
  - unfold get_zone. by rewrite Hb.
  - by rewrite Hm.
Qed.

(** The nodes [detach_task] leaves alone. *)
Definition off_detach (n : node) : Prop :=
  match n with TP _ | TWait _ | MutexWait _ => False | _ => True end.

(** [detach_task] on a task without children and mutexes unlinks it from its parent and
    from the mutex it waits for. *)
Lemma detach_task_ok s t par (l1 l2 : list Z) w h :
  mwf s w h -> is_Some (s.(tasks) !! t) -> h t = [] -> wait_linked s w t ->
  is_list s.(heap) (TChild par) (TP <$> (l1 ++ t :: l2)) -> is_list s.(heap) (TChild t) [] ->
  exists h1, detach_task t s = Some (with_heap h1 s) /\ is_list h1 (TChild par) (TP <$> (l1 ++ l2)) /\
    dom h1 = dom s.(heap) /\ mwf (with_heap h1 s) (quit t w) h /\
    (forall n, off_detach n -> n <> TChild par -> h1 !! n = s.(heap) !! n) /\
    (forall m, idle_mutex s m -> idle_mutex (with_heap h1 s) m).
Proof.
  intros Hmw Htk Hh Hwt Hl Hc. pose proof (mw_held _ _ _ Hmw t Htk) as Hm. rewrite Hh in Hm.
  rewrite fmap_app in Hl. cbn [fmap list_fmap] in Hl, Hm.
  destruct (list_del_spec _ _ _ _ _ Hl) as (h1 & E & Hl1 & Hd & Hf). rewrite <- fmap_app in Hl1, Hf.
  assert (Hother : forall n, (forall x, n <> TP x) -> n <> TChild par -> h1 !! n = s.(heap) !! n).
  { intros n H1 H2. apply Hf. intros [?|(y & ? & _)%list_elem_of_fmap]%elem_of_cons; [done|by apply (H1 y)]. }
  assert (Hne : par <> t).
  { intros ->. pose proof (is_list_first _ _ _ Hl) as N1. rewrite (is_list_first _ _ _ Hc) in N1.
    cbn [List.hd] in N1. destruct (TP <$> l1) as [|n l0] eqn:El; simpl in N1; [done|].
    destruct l1; [done|]. injection El as <- _. done. }
  assert (Hkeep : forall n, (forall x, n <> TP x) -> n <> TChild par -> is_list s.(heap) n [] -> is_list h1 n []).
  { intros n H1 H2 H3. apply (is_list_frame s.(heap)); [|done]. intros x ->%list_elem_of_singleton. by apply Hother. }
  assert (C1 : is_list h1 (TChild t) []) by (apply Hkeep; [done|congruence|done]).
  assert (C3 : is_list h1 (TMutexGet t) []) by (by apply Hkeep).
  assert (M1 : mwf (with_heap h1 s) w h).
  { apply (mwf_frame s); try done. intros n Hn. apply Hother; [by intros x ->|by intros ->]. }
  assert (Hrun : forall h2, (match is_list_empty h1 (TWait t) with
      | Some e => if negb e then list_del (TWait t) h1 = Some h2 else h2 = h1 | None => False end) ->
    is_list h2 (TMutexGet t) [] -> dom h2 = dom h1 -> detach_task t s = Some (with_heap h2 s)).
  { intros h2 Hx C4 Hd2. unfold detach_task, enter_critical. cbn [heap with_cpsr_c]. rewrite E, bind_Some_eq.
    cbn [heap with_heap with_cpsr_c]. rewrite (is_list_first _ _ _ C1), bind_Some_eq. cbn [List.hd list_for_each].
    rewrite bool_decide_eq_true_2 by done. rewrite bind_Some_eq. cbn [heap with_heap with_cpsr_c].
    destruct (is_list_empty h1 (TWait t)) as [e|]; [|done]. rewrite bind_Some_eq.
    assert (Hs : (if negb e then h ← list_del (TWait t) h1; Some (with_heap h (with_heap h1 (with_cpsr_c (s.(cpsr_c) |u 0xc0) s)))
      else Some (with_heap h1 (with_cpsr_c (s.(cpsr_c) |u 0xc0) s))) = Some (with_heap h2 (with_cpsr_c (s.(cpsr_c) |u 0xc0) s))).
    { destruct e; cbn [negb] in *; [by subst|]. by rewrite Hx. }
    cbn [heap with_heap with_cpsr_c] in Hs |- *. rewrite Hs, bind_Some_eq. cbn [heap with_heap with_cpsr_c].
    rewrite (is_list_first _ _ _ C4), bind_Some_eq. cbn [List.hd list_for_each].
    rewrite bool_decide_eq_true_2 by done. rewrite bind_Some_eq. by destruct s. }
  destruct Hwt as [[Hw Hno]|[m Hin]].
  - exists h1. assert (C2 : is_list h1 (TWait t) []) by (by apply Hkeep).
    split; [apply Hrun; [by rewrite (is_list_empty_spec _ _ _ C2)|done|done]|].
    split; [done|]. split; [done|]. split; [by apply mwf_quit_none|]. split.
    + intros n Hn. apply Hother. by intros x ->.
    + intros m Hi. apply (idle_frame s); try done. intros n Hn. apply Hother; [by intros x ->|by intros ->].
  - destruct (mwf_quit _ w h t m M1 Hin) as (h2 & E2 & M2 & Hd2 & Hf2). cbn [heap with_heap] in E2, Hd2, Hf2.
    pose proof (mw_wait _ _ _ M1 m (proj1 (mw_wdom _ _ _ M1 m t Hin))) as Hlm. cbn [heap with_heap] in Hlm.
    assert (Hoff : forall n, off_detach n -> h2 !! n = h1 !! n).
    { intros n Hn. apply Hf2. intros [->|(y & -> & _)%list_elem_of_fmap]%elem_of_cons; done. }
    exists h2. split; [|split; [|split; [by rewrite Hd2|split; [done|split]]]].
    + apply Hrun; [|apply (is_list_frame h1); [|done]; by intros n ->%list_elem_of_singleton; apply Hoff|done].
      destruct (list_elem_of_split _ _ Hin) as (w1 & w2 & Ew).
      assert (Hnx : exists x, list_next h1 (TWait t) = Some x /\ x <> TWait t).
      { rewrite Ew, fmap_app in Hlm. cbn [fmap list_fmap] in Hlm. eexists. split; [by apply (is_list_next _ _ _ _ _ Hlm)|].
        destruct Hlm as [Hnd _]. destruct w2 as [|y w2]; [done|]. cbn [fmap list_fmap List.hd].
        intros Ey. apply NoDup_cons in Hnd as [_ (_ & _ & [Hni _]%NoDup_cons)%NoDup_app]. apply Hni. injection Ey as ->. set_solver. }
      destruct Hnx as (x & Ex & Hx). unfold is_list_empty. rewrite Ex. cbn. by rewrite bool_decide_eq_false_2.
    + apply (is_list_frame h1); [|done]. intros n Hn. apply Hf2.
      intros [->|(y & -> & _)%list_elem_of_fmap]%elem_of_cons; apply elem_of_cons in Hn as [?|(z & ? & _)%list_elem_of_fmap]; done.
    + intros n Hn Hp. rewrite Hoff by done. apply Hother; [by intros x ->|done].
    + intros m' [I1 I2 I3]. constructor; [done| |].
      * cbn [heap with_heap]. apply (is_list_frame s.(heap)); [|done]. intros n ->%list_elem_of_singleton.
        rewrite Hf2; [by apply Hother|]. intros [[= ->]|(y & ? & _)%list_elem_of_fmap]%elem_of_cons; [|done].
        assert (I4 : is_list h1 (MutexWait m) []) by (by apply Hkeep).
        pose proof (is_list_first _ _ _ I4) as N1. rewrite (is_list_first _ _ _ Hlm) in N1. cbn [List.hd] in N1.
        destruct (w m); [by apply elem_of_nil in Hin|done].
      * cbn [heap with_heap]. apply elem_of_dom. rewrite Hd2, Hd. by apply elem_of_dom.
Qed.

(** What a lock call leaves: the state of [calm_free]. *)
Lemma mwf_forget s w h t k :
  mwf s w h -> h t = [] -> (forall m, ~ (t ∈ w m)) -> s.(tasks) !! t = Some k -> mwf (forget t s) w h.
Proof.
  intros [H1 H2 H3 H4 H5 H6 H7 H8 H9 H10] Hh Hw Ht.
  assert (Hd : forall x, is_Some ((forget t s).(tasks) !! x) -> x <> t /\ is_Some (s.(tasks) !! x)).
  { intros x [kx Hx]. unfold forget in Hx. cbn in Hx. apply lookup_delete_Some in Hx as [? Hx].
    split; [done|by eexists]. }
  constructor; try done.
  - intros x [_ Hx]%Hd. by apply H2.
  - intros m x Hin. destruct (H7 m x Hin) as [A B]. split; [done|]. cbn. rewrite lookup_delete_ne; [done|].
    intros <-. rewrite Hh in Hin. by apply elem_of_nil in Hin.
  - intros m x Hin. destruct (H8 m x Hin) as [A B]. split; [done|]. cbn. rewrite lookup_delete_ne; [done|].
    intros <-. by apply (Hw m).
  - intros x [_ Hx]%Hd. by apply H9.
Qed.

(** The scheduler and the pid map after [sched_remove_task]. *)
Lemma remove_ok K a w h t k l1 l2 z so im st el c :
  mortal K a w h t k l1 l2 z so im st el c ->
  exists K1 K3 s4 p, on_sched (set_task_state t PROCESS_STATE_IDLE) K = Some K1 /\
    sched_remove_task pid_mutex t K1 = Some (0, K3) /\
    K3 = with_pids p (with_sched (sched_of K3) K) /\ calm s4 (sched_of K3) /\
    same_env (with_tasks (<[t := with_state PROCESS_STATE_IDLE k]> (sched_of K).(tasks)) (sched_of K)) s4 /\
    refines (forget t s4) (Abs (delete t a.(a_tasks)) (without_view t a.(a_view))) /\
    pid_wf p /\ p.(pid_tasks) = <[Z.to_nat k.(pid) := 0]> K.(k_pids).(pid_tasks).
Proof.
  intros [Hg Hm Ht Hcur Hst Hsys Hpid Hpw _ _ _ _ [Hlp _] _ _ _ _ _ _ _]. set (s := sched_of K) in *.
  destruct (unlist_ok s a t k Hg Ht Hcur Hst Hsys) as (s1 & s2 & s3 & E1 & Et1 & E2 & E3 & Ec1 & He & Hr).
  set (s4 := with_cpsr_c s1.(cpsr_c) s3).
  assert (He4 : same_env (with_tasks (<[t := with_state PROCESS_STATE_IDLE k]> s.(tasks)) s) s4).
  { destruct He. by constructor. }
  assert (Hr4 : refines (forget t s4) (Abs (delete t a.(a_tasks)) (without_view t a.(a_view)))) by ctl Hr.
  assert (Hmn : forall n, mutex_node n = true -> s4.(heap) !! n = s.(heap) !! n).
  { intros n Hn. by rewrite (se_heap _ _ He4) by (by apply mutex_not_queue). }
  assert (Hf : calm_free s4 s4 pid_mutex).
  { split; [|split; [done|]].
    - apply (lock_wf_frame s); [by apply (good_lock_wf s a w h)|apply (se_current _ _ He4)|apply (se_mutex _ _ He4)|done].
    - apply (idle_frame s); [done|apply (se_mutex _ _ He4)|done]. }
  destruct (release_pid_ok (LO := calm_locks s4) pid_mutex k.(pid) K.(k_pids) s4 Hpw Hf ltac:(lia))
    as (p & s5 & (_ & Hc5 & _) & Hpw' & Er & _ & _ & Ep).
  exists (with_sched s1 K), (with_pids p (with_sched s5 K)), s4, p.
  split; [unfold on_sched; fold s; by rewrite E1, bind_Some_eq|]. split; [|by split_and!].
  unfold sched_remove_task, task_at, get_task.
  change (sched_of (with_sched s1 K)) with s1. rewrite Et1, bind_Some_eq. cbn [state with_state].
  rewrite bool_decide_eq_true_2 by done. cbn [negb]. change (pid (with_state PROCESS_STATE_IDLE k)) with k.(pid).
  rewrite (proj2 (Z.eqb_neq k.(pid) 1)), (proj2 (Z.eqb_neq k.(pid) 0)) by lia. cbn [orb].
  unfold on_sched, enter_critical. change (sched_of (with_sched s1 K)) with s1. rewrite E2, bind_Some_eq, E3, !bind_Some_eq.
  change (exit_critical (cpsr_c s1) s3) with s4. change (sched_of (with_sched s4 _)) with s4.
  change (k_pids (with_sched s4 _)) with K.(k_pids). by rewrite Er, bind_Some_eq.
Qed.

(** The mutexes after the removal from the queues and the release of the pid. *)
Lemma mid_mwf s w h t k s4 s5 :
  mwf s w h -> s.(tasks) !! t = Some k ->
  same_env (with_tasks (<[t := with_state PROCESS_STATE_IDLE k]> s.(tasks)) s) s4 -> calm s4 s5 -> mwf s5 w h.
Proof.
  intros Hm Ht He Hc5. apply (calm_mwf s4); [done|].
  apply (mwf_frame s); [done| |apply (se_mutex _ _ He)|].
  - intros n Hn. by rewrite (se_heap _ _ He) by (by apply mutex_not_queue).
  - intros x. rewrite (se_tasks _ _ He). cbn. destruct (decide (x = t)) as [->|Hne]; [|by rewrite lookup_insert_ne].
    rewrite lookup_insert_eq, Ht. split; by eexists.
Qed.

(** The invariants after the death, from the states in between: [s4] after the removal from
    the queues, [s5] after the pid, [s6] without the parent's link, [s7] without memory. *)
Lemma end_ok s a w h t k par k' s4 s5 h6 s7 :
  good s a -> s.(tasks) !! t = Some k -> t <> s.(current) -> h t = [] ->
  same_env (with_tasks (<[t := with_state PROCESS_STATE_IDLE k]> s.(tasks)) s) s4 ->
  refines (forget t s4) (Abs (delete t a.(a_tasks)) (without_view t a.(a_view))) ->
  calm s4 s5 -> (forall n, off_detach n -> n <> TChild par -> h6 !! n = s5.(heap) !! n) ->
  mwf (with_heap h6 s5) w h -> (forall m, ~ (t ∈ w m)) -> calm (with_heap h6 s5) s7 ->
  let s8 := forget t (with_tasks (<[t := k']> s7.(tasks)) s7) in
  good s8 (Abs (delete t a.(a_tasks)) (without_view t a.(a_view))) /\ mwf s8 w h.
Proof.
  intros Hg Ht Hcur Hh He Hr Hc5 Hf6 M6 Hw Hc7 s8. pose proof (proj2 (good_refines _ _ Hg)) as Ets.
  assert (E5 : s5 = with_heap s5.(heap) s4) by apply Hc5.
  assert (E7 : s7 = with_heap s7.(heap) s4) by (rewrite (ca_rest _ _ Hc7), E5; done).
  assert (E8 : s8 = with_heap s7.(heap) (forget t s4)).
  { unfold s8, forget. cbn [tasks with_tasks]. rewrite delete_insert_eq. rewrite E7. done. }
  assert (Hq : forall n, queue_node n = true -> s7.(heap) !! n = s4.(heap) !! n).
  { intros n Hn. rewrite (calm_queue _ _ _ Hc7 Hn). cbn [heap with_heap].
    rewrite Hf6, (calm_queue _ _ _ Hc5 Hn); [done|by destruct n|by intros ->]. }
  assert (Hr8 : refines s8 (Abs (delete t a.(a_tasks)) (without_view t a.(a_view)))).
  { rewrite E8. by apply refines_nodes. }
  split.
  - destruct Hg as [_ Hc Hn Hi Hrn Ho]. pose proof (se_current _ _ He) as Ec. cbn in Ec.
    constructor; [done|..]; rewrite E8; cbn [current next_run in_interrupt schedule_running with_heap forget with_tasks a_tasks].
    + rewrite Ec. by rewrite lookup_delete_ne.
    + rewrite Ec. rewrite (se_next_run _ _ He). apply Hn.
    + rewrite (se_in_interrupt _ _ He). apply Hi.
    + rewrite (se_running _ _ He). apply Hrn.
    + rewrite Ec. intros x tk Hx Hs. cbn in Hx. apply lookup_delete_Some in Hx as [_ Hx]. by apply (Ho x tk).
  - pose proof (calm_mwf _ _ _ _ Hc7 M6) as M7.
    assert (Et7 : s7.(tasks) !! t = Some (with_state PROCESS_STATE_IDLE k)).
    { rewrite E7. cbn. rewrite (se_tasks _ _ He). apply lookup_insert_eq. }
    unfold s8. apply (mwf_forget _ _ _ _ k'); [|done|done|apply lookup_insert_eq].
    apply (mwf_frame s7); try done. intros x. cbn [tasks with_tasks].
    destruct (decide (x = t)) as [->|Hne]; [|by rewrite lookup_insert_ne]. rewrite lookup_insert_eq, Et7. split; by eexists.
Qed.

Lemma kill_task_ok K a w h t k l1 l2 z so im st el c :
  mortal K a w h t k l1 l2 z so im st el c ->
  exists K' z', kill_task ks zone_mutex slab_mutex page_struct_va pid_mutex t K = Some (0, K') /\
    good (forget t (sched_of K')) (Abs (delete t a.(a_tasks)) (without_view t a.(a_view))) /\
    mwf (forget t (sched_of K')) (quit t w) h /\
    is_list (sched_of K').(heap) (TChild k.(parent)) (TP <$> (l1 ++ l2)) /\
    pid_wf K'.(k_pids) /\ K'.(k_pids).(pid_tasks) = <[Z.to_nat k.(pid) := 0]> K.(k_pids).(pid_tasks) /\
    get_zone MM_ZONE_NORMAL (mm_of K') = Some z' /\
    z'.(z_free_pages) = z.(z_free_pages) + Z.of_nat (length (so ++ im ++ st ++ el ++ [c])) /\
    (forall n, bit_at (mm_of K').(page_map) n =
       if bool_decide (n ∈ so ++ im ++ st ++ el ++ [c]) then false else bit_at (mm_of K).(page_map) n).
Proof.
  intros Hmo. destruct (remove_ok _ _ _ _ _ _ _ _ _ _ _ _ _ _ Hmo)
    as (K1 & K3 & s4 & p & E1 & E3 & EK3 & Hc5 & He & Hr & Hpw & Hpt).
  pose proof Hmo as [Hg Hm Ht Hcur Hst Hsys Hpid _ Hpar Hch Hwt Hh [_ Hlz] Hu Hadr Hz Hpg [Ho H0] Hsg Hroom].
  set (s := sched_of K) in *. set (s5 := sched_of K3) in *.
  assert (Hfr : forall hd l, (forall n, n ∈ hd :: l -> queue_node n = false /\ forall m, n <> MutexTask m) ->
    is_list s.(heap) hd l -> is_list s5.(heap) hd l).
  { intros hd l Hn Hl. apply (calm_list s4); [done| |].
    - intros m Hin. destruct (Hn _ Hin) as [_ H]. by destruct (H m).
    - apply (is_list_frame s.(heap)); [|done]. intros n Hin. by apply (se_heap _ _ He), Hn. }
  assert (Et5 : s5.(tasks) !! t = Some (with_state PROCESS_STATE_IDLE k)).
  { rewrite (ca_rest _ _ Hc5). cbn. rewrite (se_tasks _ _ He). apply lookup_insert_eq. }
  destruct (detach_task_ok s5 t k.(parent) l1 l2 w h) as (h6 & E6 & Hl6 & Hd6 & M6 & Hf6 & Hi6).
  { by apply (mid_mwf s w h t k s4). } { by eexists. } { done. }
  { destruct Hwt as [[Hwt Hww]|Hwt]; [left; split; [|done]|by right].
    apply Hfr; [|done]. by intros n ->%list_elem_of_singleton. }
  { apply Hfr; [|done]. intros n [->|(x & -> & _)%list_elem_of_fmap]%elem_of_cons; done. }
  { apply Hfr; [|done]. by intros n ->%list_elem_of_singleton. }
  set (s6 := with_heap h6 s5) in *. set (K4 := with_sched s6 K3).
  assert (Hmn : forall n, mutex_node n = true -> s4.(heap) !! n = s.(heap) !! n).
  { intros n Hn. by rewrite (se_heap _ _ He) by (by apply mutex_not_queue). }
  assert (Hlw6 : lock_wf s6).
  { assert (Ec6 : s6.(current) = s.(current)).
    { change (s6.(current)) with (s5.(current)). rewrite (ca_rest _ _ Hc5). apply (se_current _ _ He). }
    apply (mwf_lock_wf s6 (quit t w) h); [done| |]; rewrite Ec6.
    - change (s6.(tasks)) with (s5.(tasks)). rewrite (ca_rest _ _ Hc5). cbn. rewrite (se_tasks _ _ He). cbn.
      rewrite lookup_insert_ne by done. rewrite (proj2 (good_refines _ _ Hg)). apply Hg.
    - apply (lw_cur _ (good_lock_wf s a w h Hg Hm)). }
  assert (Hiz6 : idle_mutex s6 (zone_mutex MM_ZONE_NORMAL)).
  { apply Hi6, (calm_idle s4); [done|]. by apply (idle_frame s); [|apply (se_mutex _ _ He)|]. }
  set (k1 := with_state PROCESS_STATE_IDLE k).
  assert (Et4 : task_at t K4 = Some k1).
  { unfold task_at, get_task. change (sched_of K4) with s6. cbn [tasks s6 with_heap].
    rewrite (ca_rest _ _ Hc5). cbn. rewrite (se_tasks _ _ He). apply lookup_insert_eq. }
  assert (Emm : mm_of K4 = with_locks s6 (mm_of K)) by (unfold K4; rewrite EK3; done).
  destruct (release_task_memory_ok (LO := calm_locks s6) ks zone_mutex off Hks Halign t k1 z (mm_of K4) so im st el c)
    as (m7 & z7 & E7 & G & _ & _).
  { exact Hu. } { exact Ho. } { exact H0. }
  { apply (zone_open_rebase (LO1 := calm_locks s) z (mm_of K)); [done|by rewrite Emm|by rewrite Emm|].
    rewrite Emm. by split. }
  { rewrite Emm. destruct Hpg. by constructor. }
  { rewrite Emm. exact Hsg. } { exact Hroom. }
  assert (Hc7 : calm s6 m7.(locks)).
  { pose proof (zo_lock _ _ _ (gb_open _ _ _ _ _ _ G)) as Hf. apply Hf. }
  set (k7 := with_stack_origin 0 (with_stack_base 0 k1)) in *.
  set (K5 := put_task t k7 (with_kernel_mm m7 K4)).
  assert (Hno : forall m, ~ (t ∈ quit t w m)) by (intros m [_ ?]%elem_of_without; done).
  destruct (end_ok s a (quit t w) h t k k.(parent) k7 s4 s5 h6 m7.(locks) Hg Ht Hcur Hh He Hr Hc5 Hf6 M6 Hno Hc7) as [Hg8 Hm8].
  exists K5, z7. split; [|split; [exact Hg8|split; [exact Hm8|]]].
  - unfold kill_task. assert (Ht0 : t <> 0) by (unfold SIZE_1G in *; lia). rewrite (proj2 (Z.eqb_neq t 0)) by done.
    rewrite E1, bind_Some_eq, E3, bind_Some_eq. change (truth 0) with false. cbn beta iota.
    unfold on_sched. fold s5. rewrite E6, !bind_Some_eq. fold s6 K4. unfold release_task.
    rewrite (proj2 (Z.eqb_neq t 0)) by done. rewrite Et4, bind_Some_eq, E7, bind_Some_eq. cbn beta iota.
    fold K5. unfold kfree_task. cbn [ka_kfree slab_kmalloc].
    rewrite kfree_ignores_kernel_addresses by done. rewrite !bind_Some_eq. done.
  - change (k_pids K5) with (k_pids K3). assert (Epids : k_pids K3 = p) by (by rewrite EK3). rewrite Epids.
    split; [|split; [done|split; [done|]]].
    + change (heap (sched_of K5)) with (heap m7.(locks)). apply (calm_list s6); [done| |done].
      intros m [?|(x & ? & _)%list_elem_of_fmap]%elem_of_cons; done.
    + split; [apply (zo_zone _ _ _ (gb_open _ _ _ _ _ _ G))|]. split; [apply (gb_free _ _ _ _ _ _ G)|].
      intros n. change (page_map (mm_of K5)) with (page_map m7). rewrite (gb_bits _ _ _ _ _ _ G). by rewrite Emm.
Qed.
End kill.
