(* ===== verification/TaskKillThms.v ===== *)
(** * The death of a task: properties *)

From S2P Require Import Prelude ListHead TaskStruct Sched SchedInv SchedSpec SchedBoot SchedApi.
From S2P Require Import Mutex MutexThms Bitops Mem CString MmTypes Pages PagesInv PagesThms.
From S2P Require Import KernelLocks KernelCalm Slab SlabThms Pid Regs Ramdisk Elf TaskMem.
From S2P Require Import TaskMemInv TaskMemThms TaskRelease Task TaskKill Kthread.

Implicit Types (K : kernel) (k : task_struct) (s : sched_state).

(** C36. [kill_task] on a user task that is not the current one, not one of the two system
    tasks, has no children and holds no mutex, in whatever queue it is, and whose wait node
    is linked to itself (it never waited for a mutex) or in the queue of the mutex it waits
    for: it returns 0; the scheduler is in order
    without the task, every queue being what it was less the task; it waits for no mutex any
    more, the other waiters keep their places, and the mutex invariant holds; its pid is free, it is
    no child of its parent any more, and all its pages are free again.  (With a node left over from an
    earlier wait the call breaks the queue of that mutex, as
    [stale_wait_drops_queue] shows.) *)
Theorem kill_task_ends ks zone_mutex slab_mutex page_struct_va pid_mutex off
    K a w h t k l1 l2 z so im st el c
    (Hks : 0 < ks < 2 ^ 32) (Halign : ks mod 4096 = 0)
    (Hmo : mortal ks zone_mutex pid_mutex off K a w h t k l1 l2 z so im st el c) :
  exists K' z', kill_task ks zone_mutex slab_mutex page_struct_va pid_mutex t K = Some (0, K') /\
    good (forget t (sched_of K')) (Abs (delete t a.(a_tasks)) (without_view t a.(a_view))) /\
    mwf (forget t (sched_of K')) (quit t w) h /\
    is_list (sched_of K').(heap) (TChild k.(parent)) (TP <$> (l1 ++ l2)) /\
    pid_wf K'.(k_pids) /\ K'.(k_pids).(pid_tasks) = <[Z.to_nat k.(pid) := 0]> K.(k_pids).(pid_tasks) /\
    get_zone MM_ZONE_NORMAL (mm_of K') = Some z' /\
    z'.(z_free_pages) = z.(z_free_pages) + Z.of_nat (length (so ++ im ++ st ++ el ++ [c])) /\
    (forall n, bit_at (mm_of K').(page_map) n =
       if bool_decide (n ∈ so ++ im ++ st ++ el ++ [c]) then false else bit_at (mm_of K).(page_map) n).
Proof. by apply (kill_task_ok _ _ _ _ _ off). Qed.

(** ** Deviations *)

(** Killing one of the two system tasks is refused, but only after the task was parked:
    it stays in the idle queue for good. *)
Theorem refused_kill_parks ks zone_mutex slab_mutex page_struct_va pid_mutex K a t k
    (Hg : good (sched_of K) a) (Ht : (sched_of K).(tasks) !! t = Some k) (Hcur : t <> (sched_of K).(current))
    (Hstate : k.(state) <> PROCESS_STATE_UNKNOWN /\ k.(state) <> PROCESS_STATE_STOP)
    (Hpid : k.(pid) = 0 \/ k.(pid) = 1) :
  exists s' a', kill_task ks zone_mutex slab_mutex page_struct_va pid_mutex t K = Some (- EINVAL, with_sched s' K) /\
    good s' a' /\ s'.(tasks) !! t = Some (with_state PROCESS_STATE_IDLE k) /\ t ∈ a'.(a_view) (Q_list L_idle).
Proof.
  pose proof Hg as [Hr _ _ _ _ Ho]. pose proof Hr as [Hwf Ets]. pose proof (wf_addr _ _ Hwf t ltac:(by rewrite Ht)) as Hadr.
  rewrite Ets in Ht. destruct Hstate as [Hun Hst].
  assert (Hnr : k.(state) <> PROCESS_STATE_RUNNING) by (intros E; pose proof (Ho t k Ht E); congruence).
  destruct (park_any a t k Ht Hnr Hun Hst) as (Ea & _ & _).
  destruct (step_set _ a Hg t k PROCESS_STATE_IDLE Ht) as (s1 & E1 & Hg1); [by apply irregular_target|done|].
  assert (Et1 : s1.(tasks) !! t = Some (with_state PROCESS_STATE_IDLE k)).
  { rewrite (proj2 (good_refines _ _ Hg1)), Ea. apply lookup_insert_eq. }
  eexists s1, _. split; [|split; [exact Hg1|split; [done|]]].
  - unfold kill_task. rewrite (proj2 (Z.eqb_neq t 0)) by lia.
    assert (EK : on_sched (set_task_state t PROCESS_STATE_IDLE) K = Some (with_sched s1 K)) by (unfold on_sched; by rewrite E1).
    rewrite EK, bind_Some_eq.
    unfold sched_remove_task, task_at, get_task. change (sched_of (with_sched s1 K)) with s1. rewrite Et1, bind_Some_eq.
    cbn [state with_state]. rewrite bool_decide_eq_true_2 by done. cbn [negb].
    change (TaskStruct.pid (with_state PROCESS_STATE_IDLE k)) with k.(TaskStruct.pid).
    by destruct Hpid as [->| ->].
  - by apply (wf_home _ _ (proj1 (good_refines _ _ Hg1)) t _ (Q_list L_idle) Et1).
Qed.

(** The loop that hands the children over links each child below the new parent while it
    stands on it: after the first one it walks into the parent's list and takes the head
    of that list for a child. *)
Theorem orphans_break_the_loop s t k (c : Z) (cs l1 l2 : list Z)
    (Ht : s.(tasks) !! t = Some k) (Hne : k.(parent) <> t)
    (Hl : is_list s.(heap) (TChild k.(parent)) (TP <$> (l1 ++ t :: l2)))
    (Hc : is_list s.(heap) (TChild t) (TP <$> (c :: cs))) (Hct : c <> t) (Hcl : ~ (c ∈ l1 ++ l2)) :
  detach_task t s = None.
Proof.
  rewrite fmap_app in Hl. cbn [fmap list_fmap] in Hl.
  destruct (list_del_spec _ _ _ _ _ Hl) as (h1 & E & Hl1 & Hd & Hf). rewrite <- fmap_app in Hl1, Hf.
  assert (Hn1 : list_next h1 (TChild t) = Some (TP c)).
  { unfold list_next. rewrite Hf; [apply (is_list_first _ _ _ Hc)|].
    intros [?|(y & ? & _)%list_elem_of_fmap]%elem_of_cons; congruence. }
  unfold detach_task, enter_critical. cbn [heap with_cpsr_c]. rewrite E, bind_Some_eq. cbn [heap with_heap with_cpsr_c].
  rewrite Hn1, bind_Some_eq. cbn [list_for_each]. rewrite bool_decide_eq_false_2 by done.
  assert (Hin : TP c ∉ TChild k.(parent) :: (TP <$> l1 ++ l2)).
  { intros [?|(y & [= <-] & Hy)%list_elem_of_fmap]%elem_of_cons; done. }
  destruct (list_add_tail_spec h1 _ _ (TP c) Hl1 Hin) as (h2 & E2 & Hl2 & _ & _).
  { apply elem_of_dom. rewrite Hd. apply elem_of_dom. pose proof Hc as Hx.
    rewrite fmap_cons in Hx. apply (is_list_next _ _ []) in Hx.
    unfold list_next in Hx. destruct (s.(heap) !! TP c); [by eexists|done]. }
  set (s1 := with_heap h1 _).
  assert (Hbody : adopt_body t (TP c) s1 = None \/ exists s2, adopt_body t (TP c) s1 = Some s2 /\ s2.(heap) = h2).
  { unfold adopt_body, upd_task, get_task. cbn [p_entry]. rewrite bind_Some_eq.
    change (tasks s1) with s.(tasks). rewrite Ht, bind_Some_eq.
    destruct (s.(tasks) !! c) as [ck|]; [right|by left]. rewrite !bind_Some_eq. cbn [heap with_tasks].
    change (heap s1) with h1. rewrite E2, bind_Some_eq. by eexists. }
  destruct Hbody as [Hb|(s2 & Hb & Eh)]; rewrite Hb; [done|]. rewrite bind_Some_eq, Eh.
  assert (Hn2 : list_next h2 (TP c) = Some (TChild k.(parent))).
  { rewrite fmap_app in Hl2. cbn [fmap list_fmap] in Hl2. by apply (is_list_next h2 _ _ _ []) in Hl2. }
  rewrite Hn2, bind_Some_eq. destruct (size _) as [|n]; [done|]. cbn [list_for_each].
  rewrite bool_decide_eq_false_2 by congruence. done.
Qed.

(** [list_del] leaves the links of the node it takes out, and [mutex_unlock] takes the
    waiting tasks out with it: a task that was the only one to wait for a mutex keeps a
    wait node that points to the queue of that mutex. *)
Theorem woken_task_keeps_its_links :
  exists o s1 s2, demo_mutex.(current) = 12288 /\
    mutex_lock_timeout 200 5 demo_mutex = Some (Blocked (inr o), s1) /\ mutex_unlock 200 s1 = Some s2 /\
    s2.(mutex_count) !! 200 = Some 0 /\
    s2.(heap) !! TWait 12288 = Some (ListHead (MutexWait 200) (MutexWait 200)).
Proof.
  assert (H : match mutex_lock_timeout 200 5 demo_mutex with
    | Some (Blocked (inr o), s1) => match mutex_unlock 200 s1 with
      | Some s2 => bool_decide (demo_mutex.(current) = 12288 /\ s2.(mutex_count) !! 200 = Some 0 /\
          s2.(heap) !! TWait 12288 = Some (ListHead (MutexWait 200) (MutexWait 200)))
      | None => false end
    | _ => false end = true) by (vm_compute; reflexivity).
  revert H. generalize demo_mutex as s0. intros s0.
  destruct (mutex_lock_timeout 200 5 s0) as [[[?|[?|o]] s1]|] eqn:E1; try done.
  destruct (mutex_unlock 200 s1) as [s2|] eqn:E2; [|done]. intros (H1 & H2 & H3)%bool_decide_eq_true.
  by exists o, s1, s2.
Qed.

(** When such a task is killed the node is taken for a linked one and deleted again: the tasks
    that wait for the mutex by then fall out of its queue and are never woken. *)
Theorem stale_wait_drops_queue s t par (l1 l2 : list Z) m (ws : list Z)
    (Hl : is_list s.(heap) (TChild par) (TP <$> (l1 ++ t :: l2)))
    (Hc : is_list s.(heap) (TChild t) []) (Hh : is_list s.(heap) (TMutexGet t) [])
    (Hw : is_list s.(heap) (MutexWait m) (TWait <$> ws)) (Ht : ~ (t ∈ ws))
    (Hstale : s.(heap) !! TWait t = Some (ListHead (MutexWait m) (MutexWait m))) :
  exists h1, detach_task t s = Some (with_heap h1 s) /\ is_list h1 (MutexWait m) [].
Proof.
  rewrite fmap_app in Hl. cbn [fmap list_fmap] in Hl.
  destruct (list_del_spec _ _ _ _ _ Hl) as (h1 & E & Hl1 & Hd & Hf). rewrite <- fmap_app in Hl1, Hf.
  assert (Hother : forall n, (forall x, n <> TP x) -> n <> TChild par -> h1 !! n = s.(heap) !! n).
  { intros n H1 H2. apply Hf. intros [?|(y & ? & _)%list_elem_of_fmap]%elem_of_cons; [done|by apply (H1 y)]. }
  assert (Hne : par <> t).
  { intros ->. pose proof (is_list_first _ _ _ Hl) as N1. rewrite (is_list_first _ _ _ Hc) in N1.
    cbn [List.hd] in N1. destruct (TP <$> l1) as [|n l0] eqn:El; simpl in N1; [done|].
    destruct l1; [done|]. injection El as <- _. done. }
  assert (Hkeep : forall n, (forall x, n <> TP x) -> n <> TChild par -> is_list s.(heap) n [] -> is_list h1 n []).
  { intros n H1 H2 H3. apply (is_list_frame s.(heap)); [|done]. intros x ->%list_elem_of_singleton. by apply Hother. }
  assert (C1 : is_list h1 (TChild t) []) by (apply Hkeep; [done|congruence|done]).
  assert (C3 : is_list h1 (TMutexGet t) []) by (by apply Hkeep).
  assert (Es : h1 !! TWait t = Some (ListHead (MutexWait m) (MutexWait m))) by (by rewrite Hother).
  assert (Hm1 : exists x, h1 !! MutexWait m = Some x).
  { rewrite Hother by done. pose proof (is_list_first _ _ _ Hw) as Hx. unfold list_next in Hx.
    destruct (s.(heap) !! MutexWait m); [by eexists|done]. }
  destruct Hm1 as [x Hx].
  assert (E2 : exists h2, list_del (TWait t) h1 = Some h2 /\ h2 !! MutexWait m = Some (ListHead (MutexWait m) (MutexWait m)) /\
    h2 !! TMutexGet t = h1 !! TMutexGet t).
  { unfold list_del, list_next, list_prve, set_next, set_pre. rewrite Es. cbn. rewrite Hx. cbn.
    rewrite lookup_insert_ne, Es by done. cbn. rewrite lookup_insert_eq. cbn.
    eexists. split; [done|]. rewrite lookup_insert_eq. split; [done|]. by rewrite !lookup_insert_ne. }
  destruct E2 as (h2 & E2 & Em & Eg).
  assert (C4 : is_list h2 (TMutexGet t) []).
  { apply (is_list_frame h1); [|done]. by intros n ->%list_elem_of_singleton. }
  exists h2. split; [|by apply linked_self_empty].
  unfold detach_task, enter_critical. cbn [heap with_cpsr_c]. rewrite E, bind_Some_eq.
  cbn [heap with_heap with_cpsr_c]. rewrite (is_list_first _ _ _ C1), bind_Some_eq. cbn [List.hd list_for_each].
  rewrite bool_decide_eq_true_2 by done. rewrite bind_Some_eq. cbn [heap with_heap with_cpsr_c].
  assert (Ee : is_list_empty h1 (TWait t) = Some false).
  { unfold is_list_empty, list_next. rewrite Es. cbn. by rewrite bool_decide_eq_false_2. }
  rewrite Ee, bind_Some_eq. cbn [negb]. rewrite E2, !bind_Some_eq. cbn [heap with_heap with_cpsr_c].
  rewrite (is_list_first _ _ _ C4), bind_Some_eq. cbn [List.hd list_for_each].
  rewrite bool_decide_eq_true_2 by done. rewrite bind_Some_eq. by destruct s.
Qed.

(** ** A task to kill

    The user task [space_task], ready, child of the idle task; only its kernel stack, page
    8, is allocated. *)

Definition kill_trace : list sched_event :=
  [EvSpawn space_task (with_stack_origin 0x80008000 (with_parent 4096 (with_flag PROCESS_TYPE_USER (with_pid 2 task0))));
   EvReady space_task].

Definition kill_start : sched_state := default sched_bss (play kill_trace demo_boot).

Definition kill_heap (h : lheap node) : lheap node :=
  <[TChild 4096 := ListHead (TP space_task) (TP space_task)]>
    (<[TP space_task := ListHead (TChild 4096) (TChild 4096)]> (init_list (TChild space_task) h)).

Definition kill_sched s : sched_state := init_mutex 102 (init_mutex 100 (with_heap (kill_heap s.(heap)) s)).

Definition kill_start_ok s : bool :=
  match s.(tasks) !! space_task with
  | Some k =>
      mutex_nodes_ok s && bool_decide (s.(mutex_count) = ∅) && Z.eqb s.(current) 4096 &&
      bool_decide (k.(state) = PROCESS_STATE_PREPARE) && Z.eqb k.(TaskStruct.pid) 2 && Z.eqb k.(parent) 4096 &&
      Z.eqb k.(flag) PROCESS_TYPE_USER && Z.eqb k.(stack_origin) 0x80008000 &&
      bool_decide (list_prve s.(heap) TaskSystem = Some (TSystem space_task)) &&
      bool_decide (s.(heap) !! TWait space_task = Some (ListHead (TWait space_task) (TWait space_task)))
  | None => false
  end.

Lemma kill_start_good : exists a, good kill_start a.
Proof.
  destruct demo_boot_good as [a Ha]. apply (run_good demo_boot a kill_trace); [done|].
  apply (play_run demo_boot [] demo_boot kill_trace); [constructor|].
  assert (H : (if play kill_trace demo_boot is Some _ then true else false) = true) by (vm_compute; reflexivity).
  unfold kill_start. by destruct (play kill_trace demo_boot).
Qed.

(** The last task of a queue, read off the heap. *)
Lemma last_queued s a q t :
  good s a -> q_valid q -> list_prve s.(heap) (q_head q) = Some (q_node q t) -> t ∈ a.(a_view) q.
Proof.
  intros Hg Hq Hp. pose proof (wf_lists _ _ (proj1 (good_refines _ _ Hg))) as Hl.
  pose proof (is_list_last_node _ _ _ (lo_list _ _ Hl q Hq)) as Hn. rewrite Hp in Hn. injection Hn as Hn.
  destruct (a.(a_view) q) as [|x l _] using rev_ind.
  - simpl in Hn. symmetry in Hn. by apply q_head_node in Hn.
  - rewrite fmap_app in Hn. cbn [fmap list_fmap] in Hn. rewrite List.last_last in Hn.
    apply q_node_inj in Hn as [-> _]. set_solver.
Qed.

Definition kill_mm s : mm_state sched_state :=
  Mk_mm space_bank
    (replicate 8 blank_page ++ [Mk_page 0x30008000 F_GFP_PAGE_HEADER 0x80008000 4096 1 1] ++
     replicate (Z.to_nat 511) blank_page)
    (0x1ff :: replicate (Z.to_nat 16) 0) space_lists s.

Definition kill_kernel s : kernel :=
  Mk_kernel
    (Mk_elf_sys (Mk_ramdisk 0 0 ∅ (Mk_slab (kill_mm s) None None 1 0 0 ∅)) ∅ ∅ ∅)
    (Mk_pid_map 1 3 4 0x80100000 [8192; 12288; space_task; 0]).

Lemma kill_kernel_mortal s a :
  good s a -> kill_start_ok s = true ->
  exists k, k.(TaskStruct.pid) = 2 /\ mortal 0x80000000 (fun _ => 100) 102 0x50000000 (kill_kernel (kill_sched s)) a
    (fun _ => []) (fun _ => []) space_task k [] [] space_zone [] [] [] [] 8.
Proof.
  intros Hg H. unfold kill_start_ok in H. destruct (s.(tasks) !! space_task) as [k|] eqn:Ek; [|done].
  rewrite !andb_true_iff, !bool_decide_eq_true, !Z.eqb_eq in H.
  destruct H as [[[[[[[[[Hn He] Hcur] Hs] Hp] Hpar] Hfl] Hso] Hsys] Hw]. apply mutex_nodes_mwf in Hn. exists k. split; [done|].
  set (s1 := with_heap (kill_heap s.(heap)) s).
  assert (Hk : forall n, n <> TChild 4096 -> n <> TP space_task -> n <> TChild space_task -> s1.(heap) !! n = s.(heap) !! n).
  { intros n H1 H2 H3. unfold s1, kill_heap, init_list. simpl. by rewrite !lookup_insert_ne by congruence. }
  assert (Hm1 : mwf s1 (fun _ => []) (fun _ => [])).
  { apply (mwf_frame s); try done. intros n Hmn. apply Hk; by intros ->. }
  assert (Hg1 : good s1 a).
  { destruct Hg as [Hr H1 H2 H3 H4 H5]. constructor; try done. apply refines_nodes; [done|].
    intros n Hq. apply Hk; by intros ->. }
  assert (Hm2 : mwf (kill_sched s) (fun _ => []) (fun _ => [])).
  { unfold kill_sched. fold s1. do 2 (apply mwf_init_mutex; [|simpl; rewrite ?lookup_insert_ne by done; by rewrite He|done]). done. }
  assert (Hg2 : good (kill_sched s) a) by (by do 2 apply good_init_mutex).
  assert (Hi : forall m, m = 100 \/ m = 102 -> idle_mutex (kill_sched s) m).
  { intros m Hm. destruct Hm as [->| ->]; constructor;
      try (apply linked_self_empty); unfold linked_self; simpl; unfold init_list;
      repeat first [rewrite lookup_insert_eq | rewrite lookup_insert_ne by done]; try done; by eexists. }
  assert (Hh : forall n, (forall m, n <> MutexWait m) -> (forall m, n <> MutexTask m) -> (kill_sched s).(heap) !! n = s1.(heap) !! n).
  { intros n H1 H2. unfold kill_sched. simpl. unfold init_list. by rewrite !lookup_insert_ne by congruence. }
  assert (HP : s1.(heap) !! TChild 4096 = Some (ListHead (TP space_task) (TP space_task)) /\
    s1.(heap) !! TP space_task = Some (ListHead (TChild 4096) (TChild 4096)) /\
    s1.(heap) !! TChild space_task = Some (ListHead (TChild space_task) (TChild space_task))).
  { unfold s1, kill_heap, init_list. simpl. split_and!;
      repeat first [rewrite lookup_insert_eq | rewrite lookup_insert_ne by done]; done. }
  destruct HP as (P1 & P2 & P3).
  constructor; try (change (sched_of (kill_kernel (kill_sched s))) with (kill_sched s)); try done.
  - intros E. change (current (kill_sched s)) with s.(current) in E. rewrite Hcur in E. done.
  - rewrite Hs. done.
  - by apply (last_queued s).
  - rewrite Hp. simpl. lia.
  - constructor; [simpl; lia|reflexivity|reflexivity|].
    intros i Hi'. simpl in Hi'. assert (i = 3) as -> by lia. done.
  - rewrite Hpar. split.
    + simpl. repeat constructor; set_solver.
    + change (heap (sched_of (kill_kernel (kill_sched s)))) with (heap (kill_sched s)).
      cbn [chain app fmap list_fmap]. unfold link, list_next, list_prve. rewrite !Hh by done. rewrite P1, P2. done.
  - apply linked_self_empty. unfold linked_self. by rewrite Hh.
  - left. split; [|by intros m ?%elem_of_nil]. apply linked_self_empty. unfold linked_self. rewrite Hh, Hk by done. exact Hw.
  - split; apply Hi; tauto.
  - by rewrite Hfl.
  - constructor; try done; try (simpl; lia).
    + split; [repeat constructor; unfold is_u32; lia|vm_compute; split; congruence].
    + split; [by apply (good_lock_wf _ a (fun _ => []) (fun _ => []) Hg2)|]. split; [done|]. apply Hi. tauto.
  - constructor; try (apply space_anchors; unfold mm_anchors; set_solver). apply NoDup_nil_2.
  - intros i ->%list_elem_of_singleton. split; [|simpl; lia]. eexists. split; [reflexivity|]. by vm_compute.
Qed.

Lemma kill_task_ends_witness :
  exists s K', s.(current) = 4096 /\
    kill_task 0x80000000 (fun _ => 100) 101 (fun _ => 0) 102 space_task (kill_kernel s) = Some (0, K') /\
    K'.(k_pids).(pid_tasks) = [8192; 12288; 0; 0] /\ bit_at (mm_of K').(page_map) 8 = false.
Proof.
  destruct kill_start_good as [a Ha].
  assert (H : kill_start_ok kill_start = true) by (vm_compute; reflexivity).
  destruct (kill_kernel_mortal kill_start a Ha H) as (k & Hpid & Hk).
  destruct (kill_task_ends 0x80000000 (fun _ => 100) 101 (fun _ => 0) 102 0x50000000 _ a _ _ space_task k [] []
    space_zone [] [] [] [] 8 ltac:(lia) eq_refl Hk) as (K' & z' & E & _ & _ & _ & _ & Hp & _ & _ & Hb).
  exists (kill_sched kill_start), K'. split; [vm_compute; reflexivity|]. split; [exact E|]. split.
  - rewrite Hp, Hpid. reflexivity.
  - rewrite Hb. reflexivity.
Defined.
