(* ===== verification/Trap.v ===== *)
(** * Exception vectors and stacks

    Models [trap_init], [arch_init_exception_stack] and [arch_set_mode_stack] of
    [machine/arm920t_c.c].  The banked stack pointers and the vector bit of the
    processor are a record; [raise], the abort handlers and the cache operations have
    no state of the model to change. *)

From S2P Require Import Prelude ListHead TaskStruct Bitops Mem CString MmTypes Pages PagesInv Mmu.
From S2P Require Import MmuThms.

(** ** The processor *)

Definition IRQ_MODE : Z := 0x12.
Definition ABORT_MODE : Z := 0x17.
Definition UNDEF_MODE : Z := 0x1b.

(** Bit 13 of the control register and the stack pointers of the exception modes. *)
Record cpu : Type := Mk_cpu {
  high_vectors : bool;
  mode_sp : gmap Z Z
}.

Definition arch_remap_vector (c : cpu) : cpu := Mk_cpu true c.(mode_sp).

Definition arch_set_mode_stack (base mode : Z) (c : cpu) : cpu :=
  Mk_cpu c.(high_vectors) (<[mode := base]> c.(mode_sp)).

Section trap.
Context {L : Type} {LC : LockCalls L} (kernel_start : Z) (zone_mutex : Z -> Z).
(** The addresses of the linker symbols around the vector code. *)
Variable vector_start : Z.
Variable vector_end : Z.

Implicit Types (c : cpu) (s : mm_state L) (m : mem).

(** ** The vectors *)

Definition trap_init c s m : option (Z * cpu * mm_state L * mem) :=
  '(vector_page, s) ← get_free_page_aligin kernel_start zone_mutex 0xffff0000 GFP_KERNEL s;
  if Z.eqb vector_page 0 then Some (- ENOMEM, c, s, m)
  else
    m ← memcpy vector_page vector_start (vector_end - vector_start) m;
    pa ← va_to_pa kernel_start vector_page s;
    '(_, m) ← build_tlb_table_entry 0xfff00000 (pa &u 0xfff00000) SIZE_1M TLB_ATTR_KERNEL_MEMORY m;
    Some (0, arch_remap_vector c, s, m).

(** ** The stacks *)

Definition MODE_STACK_SIZE : Z := 4 * 1024.

Definition arch_init_exception_stack c s : option (Z * cpu * mm_state L) :=
  '(stack_base, s) ← get_free_pages kernel_start zone_mutex (s32 (3 * page_nr MODE_STACK_SIZE)) GFP_KERNEL s;
  if Z.eqb stack_base 0 then Some (- ENOMEM, c, s)
  else
    let stack_base := stack_base +u MODE_STACK_SIZE in
    let c := arch_set_mode_stack stack_base IRQ_MODE c in
    let stack_base := stack_base +u MODE_STACK_SIZE in
    let c := arch_set_mode_stack stack_base ABORT_MODE c in
    let stack_base := stack_base +u MODE_STACK_SIZE in
    let c := arch_set_mode_stack stack_base UNDEF_MODE c in
    Some (0, c, s).
End trap.

(** ** An aligned page

    [get_free_page_aligin] on a zone whose first section begins at [kernel_start]: the
    page found is the first free one at the wanted place of a megabyte.  Unlike
    [get_free_pages] it does not move the search position. *)

Section aligned.
Context {L : Type} {LC : LockCalls L} {LO : LockOps L} (ks : Z) (zone_mutex : Z -> Z).
Implicit Types (s : mm_state L) (z : mm_zone) (x : mm_section) (i n b o : Z).

(** The zone after one page was charged. *)
Definition charged z : mm_zone :=
  with_z_free_pages (z.(z_free_pages) -u 1) (with_z_free_size (z.(z_free_size) -u PAGE_SIZE) z).

Record aligned_taken (id : Z) z i (flag : Z) s s' : Prop := {
  at_zones : forall j, get_zone j s' = if Z.eqb j id then Some (charged z) else get_zone j s;
  at_nzones : length s'.(bank).(zone) = 4%nat;
  at_maplen : length s'.(page_map) = length s.(page_map);
  at_words : Forall is_u32 s'.(page_map);
  at_bits : forall n, bit_at s'.(page_map) n = if Z.eqb n i then true else bit_at s.(page_map) n;
  at_tablen : length s'.(page_table) = length s.(page_table);
  at_pages : forall j, aget s'.(page_table) j =
    if Z.eqb j i then (fun off => init_page ks i 1 flag off i) <$> va_get_pv_offset (page_to_va ks i) s
    else aget s.(page_table) j;
  at_plists : forall n : node, s'.(plists) !! n = fresh_nodes i 1 s.(plists) n;
  at_locks : forall m, lk_free s.(locks) m -> lk_free s'.(locks) m
}.

Lemma page_state_ok n s :
  bm_ok s.(page_map) (n + 1) -> 0 <= n -> page_state n s = Some (c_bool (bit_at s.(page_map) n)).
Proof. apply read_bit_some. Qed.

(** The megabytes from [b] on; [v] is the first free place. *)
Lemma aligin_loop_ok (nmb o v : Z) (fuel : nat) b s :
  0 <= ks -> ks + nmb * 2 ^ 20 < 2 ^ 32 -> 0 <= o < 256 -> 0 <= b <= v -> v < nmb ->
  bm_ok s.(page_map) (256 * nmb) -> (Z.to_nat (v - b) < fuel)%nat ->
  bit_at s.(page_map) (256 * v + o) = false ->
  (forall c, b <= c < v -> bit_at s.(page_map) (256 * c + o) = true) ->
  aligin_loop ks fuel o (ks + nmb * 2 ^ 20) (ks + b * 2 ^ 20) s = Some (Some (256 * v + o)).
Proof.
  intros Hk Hn Ho Hb Hv Hm. revert b Hb. induction fuel as [|fuel IH]; intros b Hb Hf H0 H1; [lia|].
  cbn [aligin_loop]. rewrite (proj2 (Z.ltb_lt _ _)) by lia.
  assert (Eid : va_to_page_id ks (ks + b * 2 ^ 20) = 256 * b).
  { unfold va_to_page_id, PAGE_SHIFT. replace (ks + b * 2 ^ 20 - ks) with (b * 2 ^ 20) by lia.
    rewrite u32_small, Z.shiftr_div_pow2 by lia. change (2 ^ 20) with (256 * 2 ^ 12).
    rewrite Z.mul_assoc, Z.div_mul, s32_small by lia. lia. }
  rewrite Eid, s32_small, page_state_ok, bind_Some_eq by (lia || (apply (bm_ok_le _ (256 * nmb)); [done|lia])).
  rewrite truth_c_bool. destruct (Z.eq_dec b v) as [->|Hne].
  - by rewrite H0.
  - rewrite H1 by lia. cbn [negb].
    replace (ks + b * 2 ^ 20 +u SIZE_1M) with (ks + (b + 1) * 2 ^ 20)
      by (unfold SIZE_1M; rewrite u32_small; lia).
    apply IH; [lia|lia|done|]. intros c Hc. apply H1. lia.
Qed.

Lemma get_free_page_aligin_ok s z x aligin flag nmb v :
  zone_ready zone_mutex (zone_id flag) z s -> 0 < z.(nr_section) -> aget z.(memory_section) 0 = Some x ->
  x.(vir_start) = ks -> x.(sec_size) = nmb * 2 ^ 20 -> 0 <= ks -> ks + nmb * 2 ^ 20 < 2 ^ 32 ->
  256 * nmb <= z.(bm_end) + 1 -> 0 <= v < nmb ->
  let o := (aligin &u 0x000fffff) >>u PAGE_SHIFT in
  let i := 256 * v + o in
  0 < o < 256 -> bit_at s.(page_map) i = false ->
  (forall c, 0 <= c < v -> bit_at s.(page_map) (256 * c + o) = true) ->
  exists s', get_free_page_aligin ks zone_mutex aligin flag s = Some (page_id_to_va ks i, s') /\
    aligned_taken (zone_id flag) z i flag s s'.
Proof.
  intros [Hz Hid Hb Hm Ht Hs Hlk Hf] Hns Hx Hvs Hsz Hk Hn Hend Hv o i Ho H0 H1. set (id := zone_id flag) in *.
  unfold get_free_page_aligin. fold o id. rewrite (proj2 (Z.leb_gt MM_ZONE_UNKNOW id)) by lia.
  destruct (lk_ok s.(locks) (zone_mutex id) Hlk) as (l1 & l2 & E1 & E2 & Hl).
  unfold mutex_lock_zone. rewrite E1, !bind_Some_eq. set (s1 := with_locks l1 s).
  change (get_zone id s1) with (get_zone id s). rewrite Hz, bind_Some_eq.
  cbn [aligin_sections]. rewrite (proj2 (Z.ltb_lt 0 _) Hns), Hx, bind_Some_eq.
  rewrite Hvs, Hsz, (u32_small (ks + _)) by lia.
  pose proof (aligin_loop_ok nmb o v (S (Z.to_nat (nmb * 2 ^ 20 / SIZE_1M + 1))) 0 s1) as El.
  rewrite Z.mul_0_l, Z.add_0_r in El. rewrite El; try done; try lia; clear El.
  2: { by apply (bm_ok_le _ (z.(bm_end) + 1)); [|lia]. }
  2: { unfold SIZE_1M. rewrite Z.div_mul by lia. lia. }
  rewrite !bind_Some_eq. cbv zeta. fold i. unfold truth. rewrite (proj2 (Z.eqb_neq i 0)) by lia. cbn [negb].
  assert (Hmi : bm_ok s1.(page_map) (i + 1)) by (apply (bm_ok_le _ (z.(bm_end) + 1)); [done|lia]).
  destruct (update_memory_bitmap_ok s1 i 1 true Hmi ltac:(lia) ltac:(lia)) as (m & Em & Hlm & Hwm & Hbm).
  rewrite Em, bind_Some_eq. set (s2 := with_page_map m s1).
  destruct (set_zone_ok id (charged z) s2) as (zs & Ez & Hlz & Hzs); [by exists z|].
  assert (Eu : upd_zone id charged s2 = Some (with_bank (with_zone zs s2.(bank)) s2)).
  { unfold upd_zone. change (get_zone id s2) with (get_zone id s). by rewrite Hz. }
  change (upd_zone id _ s2) with (upd_zone id charged s2). rewrite Eu, bind_Some_eq.
  unfold mutex_unlock_zone. cbn [with_bank locks s2 with_page_map s1 with_locks]. rewrite E2, !bind_Some_eq.
  set (s4 := with_locks l2 _).
  assert (Hss : same_sections s s4).
  { intros j. unfold get_zone. simpl. rewrite Hzs. destruct (Z.eqb_spec j id) as [->|]; [|done].
    unfold get_zone in Hz. by rewrite Hz. }
  assert (Hl4 : length s4.(bank).(zone) = 4%nat) by (simpl; rewrite Hlz; apply Hs).
  destruct (init_pages_ok ks s4 i 1 flag (sections_ok_ext s s4 Hss Hl4 Hs) ltac:(lia) ltac:(lia))
    as (t & pl & Et & Hlt & Hpl & Htb); [simpl; lia|]. rewrite Et, bind_Some_eq.
  assert (Hone : forall j, in_run i 1 j = Z.eqb j i).
  { intros j. unfold in_run. destruct (Z.leb_spec i j), (Z.ltb_spec j (i + 1)), (Z.eqb_spec j i); simpl; (done || lia). }
  eexists. split; [done|]. constructor; try done.
  - intros n. simpl. by rewrite Hbm, Hone.
  - intros j. simpl. rewrite Htb, Hone. destruct (Z.eqb_spec j i) as [->|]; [|done]. by rewrite (va_offset_ext _ s s4).
Qed.
End aligned.
