(* ===== verification/TrapThms.v ===== *)
(** * Exception vectors and stacks: properties

    After [trap_init] the vector code is where the processor looks for it; the stacks of
    the exception modes are pages of their own when the search position is not close to
    the vector page. *)

From S2P Require Import Prelude ListHead TaskStruct Bitops Mem CString MmTypes Pages PagesInv Mmu.
From S2P Require Import MmuThms MmBoot MmBootThms PagesThms Regs TaskMem TaskMemInv Trap.

Section traps.
Context {L : Type} {LC : LockCalls L} {LO : LockOps L} (ks : Z) (zone_mutex : Z -> Z) (off : Z).
Hypothesis Hks : 0 < ks < 2 ^ 32.
Implicit Types (s : mm_state L) (z : mm_zone) (x : mm_section) (c : cpu) (m : mem).

Abbreviation ready := (run_ready ks zone_mutex off).

Lemma page_va_eq i : 0 <= ks -> 0 <= i -> ks + 4096 * i < 2 ^ 32 -> page_id_to_va ks i = ks + 4096 * i.
Proof.
  intros. unfold page_id_to_va, PAGE_SHIFT. rewrite u32_u32, Z.shiftl_mul_pow2, u32_add_r by lia.
  rewrite u32_small by lia. lia.
Qed.

(** ** Runs of free pages *)

Lemma run_reset o (n : Z) z s : run_from ks zone_mutex off o n z s -> ready n z s.
Proof. intros [H1 H2 H3 H4 H5 H6 H7 H8 H9 H10]. constructor; try done; simpl; lia. Qed.

Lemma ready_take (cnt n : Z) z s flag :
  ready (n + cnt) z s -> 1 <= cnt < 256 -> 0 <= n -> zone_id flag = MM_ZONE_NORMAL ->
  exists s', get_free_pages ks zone_mutex cnt flag s = Some (page_id_to_va ks z.(bm_current), s') /\
    ready n (taken z.(bm_current) cnt z) s' /\
    pages_taken ks MM_ZONE_NORMAL z z.(bm_current) cnt flag s s' /\
    (taken z.(bm_current) cnt z).(bm_current) = z.(bm_current) + cnt.
Proof.
  intros Hr Hc Hn Hid. destruct (take_pages ks zone_mutex off _ Hks cnt n z s flag Hr Hc Hn Hid)
    as (s' & E & Hr' & Ht & Ec).
  exists s'. split; [done|]. split; [by apply run_reset in Hr'|]. done.
Qed.

Lemma ready_va n z s : ready n z s -> page_id_to_va ks z.(bm_current) = ks + 4096 * z.(bm_current) /\
  page_id_to_va ks z.(bm_current) <> 0 /\ ks + 4096 * z.(bm_end) <= 2 ^ 32.
Proof.
  intros Hr. pose proof (zr_bounds _ _ _ _ (rr_ready _ _ _ _ _ _ _ Hr)).
  pose proof (rr_cur _ _ _ _ _ _ _ Hr). pose proof (rr_count _ _ _ _ _ _ _ Hr).
  destruct (run_va ks zone_mutex off _ Hks n z s z.(bm_current) Hr ltac:(lia)) as (E & _ & ?).
  split; [done|]. rewrite E. split; [lia|]. apply (rr_va _ _ _ _ _ _ _ Hr).
Qed.

(** A page elsewhere was taken. *)
Lemma aligned_run n z i flag s s' :
  ready n z s -> aligned_taken ks MM_ZONE_NORMAL z i flag s s' ->
  ~ (z.(bm_current) <= i < z.(bm_current) + n) -> n + 1 <= z.(z_free_pages) -> ready n (charged z) s'.
Proof.
  intros [[H1 H2 H3 H4 H5 H6 H7 H8] Hn Hc Hf Hbits Hoff Hva Hsum Hused Hsince]
    [A1 A2 A3 A4 A5 A6 A7 A8 A9] Hi Hfree.
  assert (Hss : same_sections s s').
  { intros j. rewrite A1. destruct (Z.eqb_spec j MM_ZONE_NORMAL) as [->|]; [|done]. by rewrite H1. }
  assert (Efr : (charged z).(z_free_pages) = z.(z_free_pages) - 1) by (simpl; rewrite u32_small; lia).
  constructor; rewrite ?Efr; try done; try (simpl; lia).
  - constructor; rewrite ?Efr; try done; try lia.
    + split; [done|]. rewrite A3. apply H4.
    + by rewrite A6.
    + apply (sections_ok_ext s); done.
    + by apply A9.
  - simpl. intros j Hj. rewrite A5, (proj2 (Z.eqb_neq j i)) by lia. by apply Hbits.
  - simpl. intros j Hj. rewrite (va_offset_ext _ s s') by done. by apply Hoff.
Qed.

(** ** The vectors *)

Section vectors.
Context (vector_start vector_end : Z) (code : list Z).

(** What [trap_init] needs: the first free place for the vectors is page [i] of the
    first section, and the code is in memory. *)
Record vectors_ready z x (i v nmb : Z) s m : Prop := {
  vr_zone : zone_ready zone_mutex MM_ZONE_NORMAL z s;
  vr_section : 0 < z.(nr_section) /\ aget z.(memory_section) 0 = Some x;
  vr_start : x.(vir_start) = ks /\ x.(sec_size) = nmb * 2 ^ 20 /\ 256 * nmb <= z.(bm_end) + 1;
  vr_fits : ks + nmb * 2 ^ 20 < 2 ^ 32 /\ 0 <= ks - off /\ (ks - off) mod 2 ^ 20 = 0 /\
    ks - off + nmb * 2 ^ 20 < 2 ^ 32;
  vr_page : i = 256 * v + 0xf0 /\ 0 <= v < nmb;
  vr_first : bit_at s.(page_map) i = false /\
    forall b, 0 <= b < v -> bit_at s.(page_map) (256 * b + 0xf0) = true;
  vr_offset : va_get_pv_offset (page_to_va ks i) s = Some off;
  vr_word : ks mod 4 = 0;
  vr_code : bytes_at m vector_start code /\ Forall (fun b => 0 <= b < 256) code /\
    Z.of_nat (length code) = vector_end - vector_start /\ vector_end - vector_start <= 4096;
  vr_room : room m get_tlb_base FIRST_LEVEL /\ room m (page_id_to_va ks i) 4096;
  vr_apart : disjoint (page_id_to_va ks i) 4096 vector_start (vector_end - vector_start) /\
    disjoint (page_id_to_va ks i) 4096 get_tlb_base FIRST_LEVEL
}.

Lemma trap_init_ok c s m z x i v nmb :
  vectors_ready z x i v nmb s m ->
  exists s' m', trap_init ks zone_mutex vector_start vector_end c s m =
      Some (0, Mk_cpu true c.(mode_sp), s', m') /\
    aligned_taken ks MM_ZONE_NORMAL z i GFP_KERNEL s s' /\
    (forall va, 0xfff00000 <= va < 2 ^ 32 ->
       maps m' va (ks - off + v * 2 ^ 20 + (va - 0xfff00000))) /\
    (forall va, 0 <= va < 0xfff00000 -> same_entry m m' va) /\
    bytes_at m' (page_id_to_va ks i) code /\ tlb_frame (write (page_id_to_va ks i) code m) m'.
Proof.
  intros [Hz [Hns Hx] (Hv & Hsz & Hend) (F1 & F2 & F3 & F4) [Hi Hvr] [H0 H1] Hoff Hw (C1 & C2 & C3 & C4) [R1 R2] [D1 D2]].
  assert (Ho : (0xffff0000 &u 0x000fffff) >>u PAGE_SHIFT = 0xf0) by reflexivity.
  pose proof (get_free_page_aligin_ok ks zone_mutex s z x 0xffff0000 GFP_KERNEL nmb v Hz Hns Hx Hv Hsz) as Ha.
  cbv zeta in Ha. rewrite Ho, <- Hi in Ha.
  destruct Ha as (s1 & E1 & Ht); [lia|lia|lia|done|lia|done|done|].
  assert (Eva : page_id_to_va ks i = ks + 4096 * i).
  { apply page_va_eq; lia. }
  pose proof (zr_bounds _ _ _ _ Hz) as Hb.
  assert (Eid : va_to_page ks (page_id_to_va ks i) = i)
    by (unfold va_to_page, get_page; apply page_id_roundtrip; lia).
  unfold trap_init. rewrite E1, bind_Some_eq. cbv beta iota. rewrite (proj2 (Z.eqb_neq _ 0)) by lia.
  rewrite <- C3, (memcpy_ok code); try done.
  2: { intros j Hj. apply R2. lia. }
  2: { unfold disjoint in *. lia. }
  2: { apply copies_aligned. rewrite Eva. clear - Hw. Z.to_euclidean_division_equations. lia. }
  2: { lia. }
  set (m1 := write (page_id_to_va ks i) code m). rewrite bind_Some_eq.
  assert (Epa : va_to_pa ks (page_id_to_va ks i) s1 = Some (ks - off + 4096 * i)).
  { unfold va_to_pa, page_to_pa. rewrite Eid. unfold get_page_struct.
    rewrite (at_pages _ _ _ _ _ _ _ Ht), Z.eqb_refl, Hoff. simpl. f_equal.
    change (page_to_va ks i) with (page_id_to_va ks i). rewrite Eva, u32_small; lia. }
  rewrite Epa, bind_Some_eq.
  assert (Eb : (ks - off + 4096 * i) &u 0xfff00000 = ks - off + v * 2 ^ 20).
  { change 0xfff00000 with (u32 (Z.lnot (2 ^ 20 - 1))). rewrite land_lnot_mask by lia.
    pose proof (Z.div_mod (ks - off) (2 ^ 20)).
    replace (ks - off + 4096 * i) with (0xf0000 + ((ks - off) / 2 ^ 20 + v) * 2 ^ 20) by lia.
    rewrite Z.div_add by lia. change (0xf0000 / 2 ^ 20) with 0. lia. }
  rewrite Eb. change SIZE_1M with (1 * 2 ^ 20).
  destruct (build_sections_map 0xfff00000 (ks - off + v * 2 ^ 20) 1 TLB_ATTR_KERNEL_MEMORY m1)
    as (m2 & E2 & Hmap & Hsame & Hfr); try done; try lia.
  { by left. } { rewrite Zplus_mod, F3, Z.mod_mul by lia. done. } { by apply room_write. }
  rewrite E2, bind_Some_eq. cbv beta iota. exists s1, m2. split; [done|]. split; [done|].
  split; [|split; [|split; [|done]]].
  - intros va Hva. apply Hmap. lia.
  - intros va Hva. unfold same_entry. rewrite Hsame by lia. apply load32_write_out.
    unfold disjoint, FIRST_LEVEL in D2. assert (va / 2 ^ 20 < 4096) by (apply Z.div_lt_upper_bound; lia).
    assert (0 <= va / 2 ^ 20) by (apply Z.div_pos; lia). lia.
  - intros j b Hj. rewrite (proj2 Hfr); [by apply write_bytes|].
    apply lookup_lt_Some in Hj. unfold disjoint in D2. lia.
Qed.

(** C20. [trap_init] with a free place for the vectors in the first section of the normal
    zone: it succeeds and sets the vector bit, and the architecture's walk then takes
    every address of the vector area at 0xffff0000 to the physical page whose kernel
    image holds the byte of the vector code at that offset.  The page is taken from the
    zone, no other address of the kernel or of a user changes its translation, and no
    memory outside the page and the first-level table is written. *)
Theorem trap_init_places_vectors c s m z x i v nmb (Hr : vectors_ready z x i v nmb s m) :
  exists s' m', trap_init ks zone_mutex vector_start vector_end c s m =
      Some (0, Mk_cpu true c.(mode_sp), s', m') /\
    (forall kva j b, code !! j = Some b ->
       mmu_walk kva m' (0xffff0000 + Z.of_nat j) = Some (page_id_to_va ks i - off + Z.of_nat j) /\
       m' !! (page_id_to_va ks i + Z.of_nat j) = Some b) /\
    (bit_at s.(page_map) i = false /\ forall n, bit_at s'.(page_map) n = Z.eqb n i || bit_at s.(page_map) n) /\
    (forall va, 0 <= va < 0xfff00000 ->
       load32 (get_tlb_base + 4 * (va / 2 ^ 20)) m' = load32 (get_tlb_base + 4 * (va / 2 ^ 20)) m) /\
    (forall a, ~ (page_id_to_va ks i <= a < page_id_to_va ks i + 4096) ->
       ~ (get_tlb_base <= a < get_tlb_base + FIRST_LEVEL) -> m' !! a = m !! a).
Proof.
  destruct (trap_init_ok c s m z x i v nmb Hr) as (s' & m' & E & Ht & Hm & Hs & Hc & [_ Hf]).
  destruct Hr as [_ _ _ (F1 & _) [Hi Hv] [H0 _] _ _ (_ & _ & C3 & C4) _ _].
  exists s', m'. split; [done|]. split; [|split; [|split]].
  - intros kva j b Hj. pose proof (lookup_lt_Some _ _ _ Hj). split; [|by apply Hc].
    rewrite (maps_walk kva m' _ _ (Hm (0xffff0000 + Z.of_nat j) ltac:(lia))). f_equal.
    rewrite page_va_eq by lia. lia.
  - split; [done|]. intros n. rewrite (at_bits _ _ _ _ _ _ _ Ht). by destruct (Z.eqb n i).
  - done.
  - intros a Ha Ht'. rewrite Hf by done. apply lookup_write_out. lia.
Qed.
End vectors.

(** ** The stacks *)

(** The processor with a full-descending stack in each of three pages from [i]. *)
Definition with_stacks i c : cpu :=
  Mk_cpu c.(high_vectors) (<[UNDEF_MODE := page_id_to_va ks i + 3 * 4096]>
    (<[ABORT_MODE := page_id_to_va ks i + 2 * 4096]> (<[IRQ_MODE := page_id_to_va ks i + 4096]> c.(mode_sp)))).

Lemma exception_stacks_eq c i s s' :
  get_free_pages ks zone_mutex 3 GFP_KERNEL s = Some (page_id_to_va ks i, s') ->
  page_id_to_va ks i = ks + 4096 * i -> 0 < ks + 4096 * i -> ks + 4096 * (i + 3) < 2 ^ 32 ->
  arch_init_exception_stack ks zone_mutex c s = Some (0, with_stacks i c, s').
Proof.
  intros E Eva H0 Hend. unfold arch_init_exception_stack.
  change (s32 (3 * page_nr MODE_STACK_SIZE)) with 3. rewrite E, bind_Some_eq. cbv beta iota zeta.
  rewrite (proj2 (Z.eqb_neq _ 0)) by lia. unfold MODE_STACK_SIZE, with_stacks, arch_set_mode_stack.
  cbn [high_vectors mode_sp]. rewrite Eva. change (4 * 1024) with 4096.
  rewrite (u32_small (ks + 4096 * i + 4096)) by lia.
  rewrite (u32_small (_ + 4096 + 4096)) by lia. rewrite u32_small by lia.
  by replace (ks + 4096 * i + 4096 + 4096) with (ks + 4096 * i + 2 * 4096) by lia;
    replace (ks + 4096 * i + 2 * 4096 + 4096) with (ks + 4096 * i + 3 * 4096) by lia.
Qed.
End traps.

(** ** A small machine

    One megabyte from 0x80000000, two pages of it used, vector code at 0x80002000. *)

Definition trap_section : mm_section := Mk_section 0x30000000 0x80000000 0x100000 0x50000000 1.

Definition trap_zone (cur free : Z) : mm_zone :=
  Mk_zone [trap_section; no_section; no_section; no_section] 1 0x100000 (free * 4096) 256 free 0 256 cur.

Definition trap_mm {L : Type} (cur : Z) (map : bitmap) (l : L) : mm_state L :=
  Mk_mm (Mk_bank 0x100000 256 1 [trap_zone cur (256 - cur); Mk_zone [no_section; no_section; no_section; no_section] 0 0 0 0 0 0 0 0;
      Mk_zone [no_section; no_section; no_section; no_section] 0 0 0 0 0 0 0 0;
      Mk_zone [no_section; no_section; no_section; no_section] 0 0 0 0 0 0 0 0])
    (replicate (Z.to_nat 300) blank_page) map ∅ l.

Definition trap_map : bitmap := 3 :: replicate (Z.to_nat 9) 0.

Definition trap_code : list Z := [4; 240; 31; 229].

Definition trap_ram : mem :=
  write 0x800f0000 (replicate (Z.to_nat 4096) 0) (write 0x80008000 trap_code table_mem).

Lemma trap_vectors_ready :
  @vectors_ready unit _ _ 0x80000000 (fun i => i) 0x50000000 0x80008000 0x80008004 trap_code
    (trap_zone 2 254) trap_section 240 0 1 (trap_mm 2 trap_map tt) trap_ram.
Proof.
  constructor.
  - constructor; try done; simpl; try lia.
    + split; [repeat constructor; lia|simpl; lia].
    + split; [done|]. intros i z Hz. unfold get_zone in Hz. pose proof (aget_lt _ _ _ Hz) as Hlt.
      simpl in Hlt. assert (Ei : i = 0 \/ i = 1 \/ i = 2 \/ i = 3) by lia.
      destruct Ei as [->|[->|[->| ->]]]; injection Hz as <-; simpl; lia.
  - done.
  - done.
  - done.
  - done.
  - split; [reflexivity|lia].
  - reflexivity.
  - reflexivity.
  - split; [|split; [repeat constructor; lia|done]]. intros j b Hj. unfold trap_ram.
    rewrite lookup_write_out; [by apply write_bytes|]. apply lookup_lt_Some in Hj. simpl in Hj.
    rewrite length_replicate. lia.
  - split; [by do 2 apply room_write; apply table_room|]. intros i Hi.
    apply (room_write_self 0x800f0000 (replicate (Z.to_nat 4096) 0)). rewrite length_replicate. lia.
  - split; unfold disjoint; unfold get_tlb_base, arch_get_tlb_base, KERNEL_BASE_ADDRESS, FIRST_LEVEL;
      change (page_id_to_va 0x80000000 240) with 0x800f0000; lia.
Qed.

Lemma trap_init_places_vectors_witness :
  exists s' m', trap_init 0x80000000 (fun i => i) 0x80008000 0x80008004 (Mk_cpu false ∅)
      (trap_mm 2 trap_map tt) trap_ram = Some (0, Mk_cpu true ∅, s', m') /\
    (forall kva j b, trap_code !! j = Some b ->
       mmu_walk kva m' (0xffff0000 + Z.of_nat j) =
         Some (page_id_to_va 0x80000000 240 - 0x50000000 + Z.of_nat j) /\
       m' !! (page_id_to_va 0x80000000 240 + Z.of_nat j) = Some b).
Proof.
  destruct (trap_init_places_vectors 0x80000000 (fun i => i) 0x50000000 ltac:(lia) 0x80008000 0x80008004
    trap_code (Mk_cpu false ∅) (trap_mm 2 trap_map tt) trap_ram (trap_zone 2 254) trap_section 240 0 1
    trap_vectors_ready) as (s' & m' & E & H & _).
  exists s', m'. split; [exact E|exact H].
Defined.

(** ** Where the code departs from its intent *)

(** When the search position is just before the vector page, the run of three pages for
    the exception stacks includes it: the search counts free pages without asking that
    they follow each other.  Here the image ends at page 0xef; the vectors are at page
    0xf0 and the IRQ stack is the same page, so the first interrupt overwrites them. *)
Theorem irq_stack_overwrites_vectors :
  let ram := write 0x80003ffc [0; 0; 0; 0] (write 0x800f0000 [0; 0; 0; 0] (write 0x80008000 trap_code ∅)) in
  ('(_, c, s1, m1) ← trap_init 0x80000000 (fun i => i) 0x80008000 0x80008004 (Mk_cpu false ∅)
     (trap_mm 0xef (replicate 7 0xffffffff ++ 0x7fff :: replicate (Z.to_nat 2) 0) tt) ram;
   '(_, c, _) ← arch_init_exception_stack 0x80000000 (fun i => i) c s1;
   Some (c.(mode_sp) !! IRQ_MODE, load32 0x800f0000 m1)) =
  Some (Some (0x800f0000 + 4096), Some 0xe51ff004) /\
  page_id_to_va 0x80000000 0xf0 = 0x800f0000.
Proof. split; vm_compute; reflexivity. Qed.
