(* ===== verification/Arm.v ===== *)
(** * The processor below the C code

    The registers, modes and instructions that [machine/entry.S], [machine/arm920t_s.S]
    use.  An instruction is a step of the machine, [None] where it has no defined
    result; a routine is the list of its instructions.  A jump inside a routine is the
    list in its place, a conditional call [when_bl].  The flags a comparison leaves in
    the status register are not modelled: the routines overwrite them before they
    return. *)

From S2P Require Import Prelude ListHead TaskStruct Bitops Mem CString Regs Trap.

(** ** Registers and modes *)

Definition SYSTEM_MODE : Z := 0x1f.
Definition NO_INT : Z := 0xc0.

(** The user and the system mode share their registers. *)
Inductive bank_mode : Type := Usr | Svc | Irq.

(** Registers 13 and 14 of a mode and its saved status; the user mode has none. *)
Record banked : Type := Mk_banked { b_sp : Z; b_lr : Z; b_spsr : Z }.

Record arm : Type := Mk_arm {
  a_gpr : list Z;
  a_usr : banked;
  a_svc : banked;
  a_irq : banked;
  a_cpsr : Z;
  a_pc : Z;
  a_mem : mem
}.

Inductive reg : Type := R (i : nat) | SP | LR.

Implicit Types (s : arm) (d b r : reg) (v a c k : Z).

Definition mode_of c : option bank_mode :=
  let m := Z.land c MODE_MASK in
  if Z.eqb m USER_MODE || Z.eqb m SYSTEM_MODE then Some Usr
  else if Z.eqb m SVC_MODE then Some Svc
  else if Z.eqb m IRQ_MODE then Some Irq
  else None.

Definition with_gpr (l : list Z) s : arm := Mk_arm l s.(a_usr) s.(a_svc) s.(a_irq) s.(a_cpsr) s.(a_pc) s.(a_mem).
Definition with_cpsr c s : arm := Mk_arm s.(a_gpr) s.(a_usr) s.(a_svc) s.(a_irq) c s.(a_pc) s.(a_mem).
Definition with_pc v s : arm := Mk_arm s.(a_gpr) s.(a_usr) s.(a_svc) s.(a_irq) s.(a_cpsr) v s.(a_mem).
Definition with_mem (m : mem) s : arm := Mk_arm s.(a_gpr) s.(a_usr) s.(a_svc) s.(a_irq) s.(a_cpsr) s.(a_pc) m.

Definition get_bank (m : bank_mode) s : banked :=
  match m with Usr => s.(a_usr) | Svc => s.(a_svc) | Irq => s.(a_irq) end.

Definition set_bank (m : bank_mode) (x : banked) s : arm :=
  match m with
  | Usr => Mk_arm s.(a_gpr) x s.(a_svc) s.(a_irq) s.(a_cpsr) s.(a_pc) s.(a_mem)
  | Svc => Mk_arm s.(a_gpr) s.(a_usr) x s.(a_irq) s.(a_cpsr) s.(a_pc) s.(a_mem)
  | Irq => Mk_arm s.(a_gpr) s.(a_usr) s.(a_svc) x s.(a_cpsr) s.(a_pc) s.(a_mem)
  end.

Definition get r s : option Z :=
  match r with
  | R i => s.(a_gpr) !! i
  | SP => m ← mode_of s.(a_cpsr); Some (get_bank m s).(b_sp)
  | LR => m ← mode_of s.(a_cpsr); Some (get_bank m s).(b_lr)
  end.

Definition put d v s : option arm :=
  match d with
  | R i => if Nat.ltb i (length s.(a_gpr)) then Some (with_gpr (<[i := v]> s.(a_gpr)) s) else None
  | SP => m ← mode_of s.(a_cpsr); let x := get_bank m s in Some (set_bank m (Mk_banked v x.(b_lr) x.(b_spsr)) s)
  | LR => m ← mode_of s.(a_cpsr); let x := get_bank m s in Some (set_bank m (Mk_banked x.(b_sp) v x.(b_spsr)) s)
  end.

(** ** Instructions *)

Definition instr : Type := arm -> option arm.

Fixpoint exec (l : list instr) s : option arm :=
  match l with [] => Some s | i :: l' => s ← i s; exec l' s end.

Definition mov d r : instr := fun s => v ← get r s; put d v s.
Definition mov_i d v : instr := put d v.
Definition add d r v : instr := fun s => x ← get r s; put d (x +u v) s.
Definition sub d r v : instr := fun s => x ← get r s; put d (x -u v) s.
Definition and_i d r v : instr := fun s => x ← get r s; put d (Z.land x v) s.
Definition bic d r v : instr := fun s => x ← get r s; put d (Z.ldiff x v) s.
Definition orr d r v : instr := fun s => x ← get r s; put d (Z.lor x v) s.

Definition ldr d b v : instr := fun s =>
  a ← get b s; w ← load32 (a +u v) s.(a_mem); put d w s.
Definition str d b v : instr := fun s =>
  x ← get d s; a ← get b s; m ← store32 (a +u v) x s.(a_mem); Some (with_mem m s).

(** [push {...}]: the first register at the lowest address. *)
Fixpoint store_regs (l : list reg) a s : option arm :=
  match l with
  | [] => Some s
  | r :: l' => x ← get r s; m ← store32 a x s.(a_mem); store_regs l' (a +u 4) (with_mem m s)
  end.
Definition push_regs (l : list reg) : instr := fun s =>
  x ← get SP s; let a := x -u 4 * Z.of_nat (length l) in
  s ← store_regs l a s; put SP a s.

(** [ldmfd b!, {r0-r12}]. *)
Definition load_all b : instr := fun s =>
  a ← get b s; ws ← load_words 13 a s.(a_mem); put b (a +u 52) (with_gpr ws s).

Definition mrs_cpsr d : instr := fun s => put d s.(a_cpsr) s.
(** Writing both fields writes all bits the status registers of the ARM920T have. *)
Definition msr_cpsr r : instr := fun s => v ← get r s; Some (with_cpsr v s).
Definition msr_cpsr_i v : instr := fun s => Some (with_cpsr v s).

(** The control field. *)
Definition set_c c v : Z := Z.lor (Z.ldiff c 0xff) (Z.land v 0xff).
Definition msr_cpsr_c r : instr := fun s => v ← get r s; Some (with_cpsr (set_c s.(a_cpsr) v) s).
Definition set_mode v : instr := fun s => Some (with_cpsr (set_c s.(a_cpsr) v) s).

Definition mrs_spsr d : instr := fun s =>
  m ← mode_of s.(a_cpsr);
  match m with Usr => None | _ => put d (get_bank m s).(b_spsr) s end.
Definition msr_spsr r : instr := fun s =>
  m ← mode_of s.(a_cpsr); v ← get r s;
  match m with
  | Usr => None
  | _ => let x := get_bank m s in Some (set_bank m (Mk_banked x.(b_sp) x.(b_lr) v) s)
  end.

(** [ldmfd b!, {pc}^]: the exception return. *)
Definition ldm_pc b : instr := fun s =>
  m ← mode_of s.(a_cpsr);
  match m with
  | Usr => None
  | _ =>
      a ← get b s; w ← load32 a s.(a_mem); s ← put b (a +u 4) s;
      Some (with_cpsr (get_bank m s).(b_spsr) (with_pc w s))
  end.

(** [cmp r, #v; bleq]: the call leaves its return address in lr. *)
Definition when_bl (ret : Z) r v (body : list instr) : instr := fun s =>
  x ← get r s;
  if Z.eqb x v then s ← put LR ret s; exec body s else Some s.

(** ** Exceptions

    What the processor does before the first instruction of a vector; [a_pc] is the
    next instruction of the interrupted program. *)

Definition exc_cpsr c v : Z := Z.lor (Z.ldiff c 0x3f) (Z.lor v 0x80).

Definition take_irq s : arm :=
  let x := s.(a_irq) in
  with_cpsr (exc_cpsr s.(a_cpsr) IRQ_MODE)
    (set_bank Irq (Mk_banked x.(b_sp) (s.(a_pc) +u 4) s.(a_cpsr)) s).

Definition take_swi s : arm :=
  let x := s.(a_svc) in
  with_cpsr (exc_cpsr s.(a_cpsr) SVC_MODE)
    (set_bank Svc (Mk_banked x.(b_sp) s.(a_pc) s.(a_cpsr)) s).

(** What a program sees of the machine. *)
Definition view_of s : option context :=
  m ← mode_of s.(a_cpsr);
  let x := get_bank m s in Some (Mk_context s.(a_gpr) x.(b_sp) x.(b_lr) s.(a_pc) s.(a_cpsr)).

(** ** Modes after a change of the status register *)

Lemma land_low_bits x y : (forall n, 0 <= n < 5 -> Z.testbit x n = Z.testbit y n) -> Z.land x MODE_MASK = Z.land y MODE_MASK.
Proof.
  intros H. change MODE_MASK with (Z.ones 5). apply Z.bits_inj'. intros n Hn. rewrite !Z.land_spec.
  destruct (Z.ltb_spec n 5); [by rewrite H by lia|]. by rewrite Z.ones_spec_high, !andb_false_r by lia.
Qed.

Lemma mode_of_low x y : (forall n, 0 <= n < 5 -> Z.testbit x n = Z.testbit y n) -> mode_of x = mode_of y.
Proof. intros H. unfold mode_of. by rewrite (land_low_bits x y H). Qed.

Lemma low_ones n k : 0 <= n < k -> Z.testbit (Z.ones k) n = true.
Proof. intros. apply Z.ones_spec_low. lia. Qed.

Lemma mode_set_c c v : mode_of (set_c c v) = mode_of v.
Proof.
  apply mode_of_low. intros n Hn. unfold set_c. change 0xff with (Z.ones 8).
  by rewrite Z.lor_spec, Z.ldiff_spec, Z.land_spec, low_ones, andb_false_r, andb_true_r by lia.
Qed.

Lemma mode_exc c v : mode_of (exc_cpsr c v) = mode_of v.
Proof.
  apply mode_of_low. intros n Hn. unfold exc_cpsr. change 0x3f with (Z.ones 6). change 0x80 with (2 ^ 7).
  rewrite Z.lor_spec, Z.ldiff_spec, Z.lor_spec, low_ones, andb_false_r by lia.
  by rewrite Z.pow2_bits_false, orb_false_r by lia.
Qed.

Lemma mode_bic c : mode_of (Z.ldiff c 0xc0) = mode_of c.
Proof.
  apply mode_of_low. intros n Hn. rewrite Z.ldiff_spec.
  assert (E : Z.testbit 0xc0 n = false) by (assert (n = 0 \/ n = 1 \/ n = 2 \/ n = 3 \/ n = 4) as [->|[->|[->|[->| ->]]]] by lia; reflexivity).
  by rewrite E, andb_true_r.
Qed.

Lemma mode_orr c : mode_of (Z.lor c 0xc0) = mode_of c.
Proof.
  apply mode_of_low. intros n Hn. rewrite Z.lor_spec.
  assert (E : Z.testbit 0xc0 n = false) by (assert (n = 0 \/ n = 1 \/ n = 2 \/ n = 3 \/ n = 4) as [->|[->|[->|[->| ->]]]] by lia; reflexivity).
  by rewrite E, orb_false_r.
Qed.
