(* ===== verification/Entry.v ===== *)
(** * Into the kernel and out of it

    The entry and exit code of interrupts and system calls ([machine/entry.S]) and the
    context switch ([arch_switch_task_sw] of [machine/arm920t_s.S]) on the machine of
    [Arm].  All of them agree on one frame of eighteen words, [switch_to_frame] of [Regs]
    is what it means.  The lemmas run each routine; the tactics execute one instruction
    and keep every address in the form of a base and a constant. *)

From S2P Require Import Prelude ListHead TaskStruct Bitops Mem CString Regs Trap Arm.

Section entry.
(** The address behind a conditional call. *)
Variable ret : Z.
Implicit Types (s : arm) (a : Z) (c : context).

(** ** Interrupts *)

Definition gprs : list reg := [R 0; R 1; R 2; R 3; R 4; R 5; R 6; R 7; R 8; R 9; R 10; R 11; R 12].

Definition user_to_irq : list instr :=
  [ mrs_cpsr (R 1); msr_cpsr_i (Z.lor SYSTEM_MODE NO_INT);
    mov_i (R 2) 0; mov (R 3) LR; mov (R 4) SP;
    msr_cpsr (R 1) ].

Definition svc_to_irq : list instr :=
  [ mrs_cpsr (R 1); msr_cpsr_i (Z.lor SVC_MODE NO_INT);
    mrs_spsr (R 2); mov (R 3) LR; mov (R 4) SP;
    msr_cpsr (R 1) ].

(** Into the stack of the interrupt mode, and what the interrupted mode keeps for itself. *)
Definition irq_to_stack : list instr :=
  [ sub LR LR 4; str LR SP (-4);
    mrs_spsr LR; str LR SP (-8);
    str (R 0) SP (-12); str (R 1) SP (-16); str (R 2) SP (-20); str (R 3) SP (-24); str (R 4) SP (-28);
    and_i (R 0) LR MODE_MASK;
    when_bl ret (R 0) USER_MODE user_to_irq;
    when_bl ret (R 0) SVC_MODE svc_to_irq ].

(** The frame on the stack of the supervisor mode. *)
Definition irq_frame : list instr :=
  [ mov (R 1) SP; msr_cpsr_i (Z.lor SVC_MODE NO_INT);
    sub SP SP 20; push_regs [R 5; R 6; R 7; R 8; R 9; R 10; R 11; R 12];
    ldr (R 5) (R 1) (-12); ldr (R 6) (R 1) (-16); ldr (R 7) (R 1) (-20); ldr (R 8) (R 1) (-24); ldr (R 9) (R 1) (-28);
    push_regs [R 5; R 6; R 7; R 8; R 9];
    ldr (R 5) (R 1) (-4); str (R 5) SP 68;
    ldr (R 5) (R 1) (-8); str (R 5) SP 64;
    str (R 4) SP 60; str (R 3) SP 56; str (R 2) SP 52;
    set_mode (Z.lor IRQ_MODE NO_INT) ].

(** From the vector to the call of [irq_handler]. *)
Definition irq_save : list instr := irq_to_stack ++ irq_frame.

Definition exit_irq_from_user : list instr :=
  [ set_mode (Z.lor SYSTEM_MODE NO_INT);
    ldr (R 2) (R 0) 60; mov SP (R 2); ldr (R 2) (R 0) 56; mov LR (R 2);
    set_mode (Z.lor SVC_MODE NO_INT); add SP (R 0) 72;
    set_mode (Z.lor IRQ_MODE NO_INT) ].

Definition exit_irq_from_svc : list instr :=
  [ set_mode (Z.lor SVC_MODE NO_INT); add SP (R 0) 72;
    ldr (R 2) (R 0) 56; mov LR (R 2); ldr (R 2) (R 0) 52; msr_spsr (R 2);
    set_mode (Z.lor IRQ_MODE NO_INT) ].

(** Behind [os_exit_irq]: r0 is the frame of the task that runs next. *)
Definition irq_restore : list instr :=
  [ ldr (R 1) (R 0) 64; and_i (R 1) (R 1) MODE_MASK;
    when_bl ret (R 1) USER_MODE exit_irq_from_user;
    when_bl ret (R 1) SVC_MODE exit_irq_from_svc;
    ldr (R 1) (R 0) 64; msr_spsr (R 1);
    mov LR (R 0); load_all LR; add LR LR 16; ldm_pc LR ].

(** ** System calls *)

(** From the vector to the call of [_syscall_handler]. *)
Definition swi_save : list instr :=
  [ push_regs [LR]; mrs_spsr LR; push_regs [LR];
    sub SP SP 12; push_regs gprs;
    mrs_cpsr (R 0); set_mode (Z.lor SYSTEM_MODE NO_INT); mov (R 1) SP; mov (R 2) LR; msr_cpsr (R 0);
    str (R 1) SP 60; str (R 2) SP 56;
    mov (R 8) SP;
    mrs_cpsr (R 1); bic (R 1) (R 1) 0xc0; msr_cpsr_c (R 1) ].

(** Behind it. *)
Definition swi_restore : list instr :=
  [ mrs_cpsr (R 1); orr (R 1) (R 1) 0xc0; msr_cpsr_c (R 1);
    mov (R 0) SP; set_mode (Z.lor SYSTEM_MODE NO_INT);
    ldr (R 2) (R 0) 60; mov SP (R 2); ldr (R 2) (R 0) 56; mov LR (R 2);
    set_mode (Z.lor SVC_MODE NO_INT);
    ldr (R 1) SP 64; msr_spsr (R 1);
    load_all SP; add SP SP 16; ldm_pc SP ].

(** ** The context switch *)

(** To the call of [switch_task]. *)
Definition switch_save : list instr :=
  [ push_regs [LR]; sub SP SP 16; push_regs gprs;
    mrs_cpsr (R 0); str (R 0) SP 64;
    mrs_spsr (R 0); str (R 0) SP 52;
    str LR SP 56;
    sub (R 0) SP 72; str (R 0) SP 60 ].

Definition sw_switch_to_user : list instr :=
  [ set_mode (Z.lor SYSTEM_MODE NO_INT);
    ldr (R 2) (R 0) 60; mov SP (R 2); ldr (R 2) (R 0) 56; mov LR (R 2);
    set_mode (Z.lor SVC_MODE NO_INT) ].

Definition sw_switch_to_svc : list instr :=
  [ mov (R 3) LR; ldr (R 2) (R 0) 56; mov LR (R 2); ldr (R 2) (R 0) 52; msr_spsr (R 2) ].

(** From the load of the stack pointer of [next_run] on. *)
Definition switch_restore : list instr :=
  [ ldr (R 1) SP 64; and_i (R 1) (R 1) MODE_MASK; mov (R 0) SP;
    when_bl ret (R 1) USER_MODE sw_switch_to_user;
    when_bl ret (R 1) SVC_MODE sw_switch_to_svc;
    ldr (R 1) SP 64; msr_spsr (R 1);
    load_all SP; add SP SP 16; ldm_pc SP ].

(** Words of a frame. *)
Record frame_words (m : mem) a (ws : list Z) (psr lr usp pc : Z) : Prop := {
  fw_gpr : load_words 13 a m = Some ws;
  fw_lr : load32 (a + 56) m = Some lr;
  fw_sp : load32 (a + 60) m = Some usp;
  fw_psr : load32 (a + 64) m = Some psr;
  fw_pc : load32 (a + 68) m = Some pc
}.

Lemma frame_parts a m c :
  switch_to_frame a m = Some c ->
  exists usp, frame_words m a c.(gpr) c.(c_cpsr) c.(c_lr) usp c.(c_pc) /\
    (Z.land c.(c_cpsr) MODE_MASK = USER_MODE /\ c.(c_sp) = usp \/
     Z.land c.(c_cpsr) MODE_MASK = SVC_MODE /\ c.(c_sp) = a +u 72).
Proof.
  unfold switch_to_frame. intros (psr & E1 & (lr & E2 & (usp & E3 & (ws & E4 & (pc & E5 & H)%bind_Some)%bind_Some)%bind_Some)%bind_Some)%bind_Some.
  exists usp. destruct (Z.eqb_spec (Z.land psr MODE_MASK) USER_MODE) as [Eu|_].
  - injection H as <-. split; [by constructor|]. by left.
  - destruct (Z.eqb_spec (Z.land psr MODE_MASK) SVC_MODE) as [Es|_]; [|done].
    injection H as <-. split; [by constructor|]. by right.
Qed.

Lemma to_frame a m ws psr lr usp pc :
  frame_words m a ws psr lr usp pc ->
  (Z.land psr MODE_MASK = USER_MODE -> switch_to_frame a m = Some (Mk_context ws usp lr pc psr)) /\
  (Z.land psr MODE_MASK = SVC_MODE -> switch_to_frame a m = Some (Mk_context ws (a +u 72) lr pc psr)).
Proof.
  intros [E1 E2 E3 E4 E5]. unfold switch_to_frame. rewrite E4, E2, E3, E1, E5, !bind_Some_eq.
  split; intros H; by rewrite H.
Qed.
(** ** Running the lists *)

Lemma exec_cons (i : instr) l s s' : i s = Some s' -> exec (i :: l) s = exec l s'.
Proof. intros E. cbn [exec]. by rewrite E, bind_Some_eq. Qed.

Lemma mode_user p : Z.land p MODE_MASK = USER_MODE -> mode_of p = Some Usr.
Proof. intros E. unfold mode_of. by rewrite E. Qed.

Lemma mode_svc p : Z.land p MODE_MASK = SVC_MODE -> mode_of p = Some Svc.
Proof. intros E. unfold mode_of. by rewrite E. Qed.

Lemma gpr_list (l : list Z) :
  length l = 13%nat -> exists x0 x1 x2 x3 x4 x5 x6 x7 x8 x9 x10 x11 x12, l = [x0; x1; x2; x3; x4; x5; x6; x7; x8; x9; x10; x11; x12].
Proof. intros H. do 13 (destruct l as [|? l]; [done|]). destruct l; [|done]. repeat eexists. Qed.


Lemma mode_consts :
  mode_of (Z.lor SVC_MODE NO_INT) = Some Svc /\ mode_of (Z.lor IRQ_MODE NO_INT) = Some Irq /\
  mode_of (Z.lor SYSTEM_MODE NO_INT) = Some Usr /\ mode_of SVC_MODE = Some Svc /\ mode_of IRQ_MODE = Some Irq.
Proof. repeat split. Qed.


Lemma exec_app l1 l2 s : exec (l1 ++ l2) s = s1 ← exec l1 s; exec l2 s1.
Proof. revert s. induction l1 as [|i l1 IH]; intros s; [done|]. cbn [app exec]. destruct (i s); [apply IH|done]. Qed.

Lemma exec_call r v body l s s1 :
  get r s = Some v -> put LR ret s = Some s1 -> exec (when_bl ret r v body :: l) s = exec (body ++ l) s1.
Proof. intros E1 E2. cbn [exec]. unfold when_bl. rewrite E1, bind_Some_eq, Z.eqb_refl, E2, bind_Some_eq. by rewrite exec_app. Qed.

Lemma exec_no_call r v x body l s :
  get r s = Some x -> x <> v -> exec (when_bl ret r v body :: l) s = exec l s.
Proof. intros E1 Hn. cbn [exec]. unfold when_bl. by rewrite E1, bind_Some_eq, (proj2 (Z.eqb_neq _ _) Hn), bind_Some_eq. Qed.

(** One instruction: its registers are read off the record, its mode is a fact of the context
    or a constant. *)
Ltac arm_mode :=
  rewrite ?mode_set_c, ?mode_exc, ?(proj1 mode_consts), ?(proj1 (proj2 mode_consts)), ?(proj1 (proj2 (proj2 mode_consts))),
    ?(proj1 (proj2 (proj2 (proj2 mode_consts)))), ?(proj2 (proj2 (proj2 (proj2 mode_consts))));
  repeat match goal with H : mode_of ?x = Some _ |- context [mode_of ?x] => rewrite H end.
Ltac arm_cbn :=
  cbv beta iota zeta delta [mov mov_i add sub and_i bic orr ldr str mrs_cpsr msr_cpsr msr_cpsr_i msr_cpsr_c set_mode mrs_spsr msr_spsr ldm_pc load_all push_regs store_regs
       get put lookup list_lookup insert list_insert length Nat.ltb Nat.leb with_gpr with_cpsr with_pc with_mem get_bank set_bank
       a_gpr a_usr a_svc a_irq a_cpsr a_pc a_mem b_sp b_lr b_spsr mbind option_bind].

(** Addresses are kept in the form [a + k]. *)
Lemma addr_add (a j k l : Z) : j + k = l -> 0 <= a + l < 2 ^ 32 -> u32 (a + j + k) = a + l.
Proof. intros <- H. rewrite u32_small; lia. Qed.

Lemma addr_sub (a j k l : Z) : j - k = l -> 0 <= a + l < 2 ^ 32 -> u32 (a + j - k) = a + l.
Proof. intros <- H. rewrite u32_small; lia. Qed.

Lemma addr_base (a k : Z) : 0 <= a + k < 2 ^ 32 -> u32 (a + k) = a + k.
Proof. apply u32_small. Qed.

Lemma load_self (a v : Z) (m : mem) : is_u32 v -> load32 a (write a (word_list v) m) = Some v.
Proof. intros Hv. apply load32_bytes; [done|]. apply write_bytes. Qed.

Lemma room_at (m : mem) (a k l n : Z) : room m (a + k) n -> k <= l -> l + 4 <= k + n -> room m (a + l) 4.
Proof. intros Hr H1 H2. replace (a + l) with (a + k + (l - k)) by lia. apply (room_le _ _ _ _ _ Hr); lia. Qed.

Ltac addr :=
  match goal with
  | |- context [u32 (?a + ?j + ?k)] => let l := eval cbv in (j + k) in rewrite (addr_add a j k l) by (reflexivity || lia)
  | |- context [u32 (?a + ?j - ?k)] => let l := eval cbv in (j - k) in rewrite (addr_sub a j k l) by (reflexivity || lia)
  | |- context [u32 (?a + ?k)] => rewrite (addr_base a k) by lia
  end.
Ltac room_tac := repeat apply room_write; match goal with H : room ?m (?a + ?k) ?n |- room ?m (?a + ?l) 4 => apply (room_at m a k l n H); lia end.
Ltac arm_mem :=
  first [ progress arm_mode | addr | rewrite store32_ok by room_tac | rewrite load_self by assumption
        | rewrite load32_write_out by (cbn [length word_list]; lia)
        | match goal with H : load32 ?a ?m = Some _ |- context [load32 ?a ?m] => rewrite H end
        | match goal with H : load_words 13 ?a ?m = Some _ |- context [load_words 13 ?a ?m] => rewrite H end ].
Ltac arm_step := erewrite exec_cons; [|solve [repeat (arm_cbn; first [reflexivity | arm_mem])]].
Ltac arm_call := erewrite exec_call; [|reflexivity|solve [repeat (arm_cbn; first [reflexivity | arm_mem])]]; cbn [app].
Ltac arm_no_call := erewrite exec_no_call; [|reflexivity|vm_compute; discriminate].


(** ** Loading a frame *)

Lemma irq_restore_ok s a c w :
  mode_of s.(a_cpsr) = Some Irq -> length s.(a_gpr) = 13%nat -> get (R 0) s = Some (a + 0) -> 0 <= a < 2 ^ 32 - 72 ->
  switch_to_frame a s.(a_mem) = Some c -> length c.(gpr) = 13%nat -> load32 (a + 52) s.(a_mem) = Some w ->
  exists s', exec irq_restore s = Some s' /\ view_of s' = Some c /\ s'.(a_svc).(b_sp) = a + 72 /\
    s'.(a_mem) = s.(a_mem) /\ s'.(a_irq).(b_sp) = s.(a_irq).(b_sp) /\
    (mode_of c.(c_cpsr) = Some Svc -> s'.(a_usr) = s.(a_usr) /\ s'.(a_svc).(b_spsr) = w).
Proof.
  destruct s as [g [us ul uq] [ss sl sq] [iqs iql iqp] cp pc0 m]. cbn [a_cpsr a_gpr a_mem a_usr a_irq b_sp].
  intros Hm Hg Ha Hr Hf Hc Hw.
  destruct (gpr_list g Hg) as (x0 & x1 & x2 & x3 & x4 & x5 & x6 & x7 & x8 & x9 & x10 & x11 & x12 & ->).
  cbn in Ha. injection Ha as ->. destruct (frame_parts _ _ _ Hf) as (usp & [E1 E2 E3 E4 E5] & Hmode).
  destruct c as [ws csp clr cpc cpsr]. cbn [gpr c_sp c_lr c_pc c_cpsr] in *.
  destruct (gpr_list ws Hc) as (y0 & y1 & y2 & y3 & y4 & y5 & y6 & y7 & y8 & y9 & y10 & y11 & y12 & ->).
  rewrite <- (Z.add_0_r a) in E1.
  unfold irq_restore. do 2 arm_step.
  destruct Hmode as [[Hu ->]|[Hs ->]].
  - rewrite Hu. arm_call. unfold exit_irq_from_user. cbn [app]. do 8 arm_step. arm_no_call. do 6 arm_step.
    pose proof (mode_user _ Hu) as Mu. eexists. split; [reflexivity|]. unfold view_of. cbn. rewrite Mu. cbn.
    split; [reflexivity|]. split_and!; try reflexivity. intros H. congruence.
  - rewrite Hs. arm_no_call. arm_call. unfold exit_irq_from_svc. cbn [app]. do 7 arm_step. do 6 arm_step.
    pose proof (mode_svc _ Hs) as Ms. eexists. split; [reflexivity|]. unfold view_of. cbn. rewrite Ms. cbn.
    split; [by rewrite u32_small by lia|by split_and!].
Qed.

(** The same through the context switch, where the supervisor stack pointer is at the frame. *)
Lemma switch_restore_ok s a c w :
  mode_of s.(a_cpsr) = Some Svc -> length s.(a_gpr) = 13%nat -> s.(a_svc).(b_sp) = a + 0 -> 0 <= a < 2 ^ 32 - 72 ->
  switch_to_frame a s.(a_mem) = Some c -> length c.(gpr) = 13%nat -> load32 (a + 52) s.(a_mem) = Some w ->
  exists s', exec switch_restore s = Some s' /\ view_of s' = Some c /\ s'.(a_svc).(b_sp) = a + 72 /\
    s'.(a_mem) = s.(a_mem) /\ s'.(a_irq) = s.(a_irq) /\
    (mode_of c.(c_cpsr) = Some Svc -> s'.(a_usr) = s.(a_usr)) /\ s'.(a_svc).(b_spsr) = c.(c_cpsr).
Proof.
  destruct s as [g [us ul uq] [ss sl sq] irq cp pc0 m]. cbn [a_cpsr a_gpr a_mem a_usr a_irq a_svc b_sp].
  intros Hm Hg -> Hr Hf Hc Hw.
  destruct (gpr_list g Hg) as (x0 & x1 & x2 & x3 & x4 & x5 & x6 & x7 & x8 & x9 & x10 & x11 & x12 & ->).
  destruct (frame_parts _ _ _ Hf) as (usp & [E1 E2 E3 E4 E5] & Hmode).
  destruct c as [ws csp clr cpc cpsr]. cbn [gpr c_sp c_lr c_pc c_cpsr] in *.
  destruct (gpr_list ws Hc) as (y0 & y1 & y2 & y3 & y4 & y5 & y6 & y7 & y8 & y9 & y10 & y11 & y12 & ->).
  rewrite <- (Z.add_0_r a) in E1.
  unfold switch_restore. do 3 arm_step.
  destruct Hmode as [[Hu ->]|[Hs ->]].
  - rewrite Hu. arm_call. unfold sw_switch_to_user. cbn [app]. do 6 arm_step. arm_no_call. do 5 arm_step.
    pose proof (mode_user _ Hu) as Mu. eexists. split; [reflexivity|]. unfold view_of. cbn. rewrite Mu. cbn.
    split; [reflexivity|]. split_and!; try reflexivity. intros H. congruence.
  - rewrite Hs. arm_no_call. arm_call. unfold sw_switch_to_svc. cbn [app]. do 5 arm_step. do 5 arm_step.
    pose proof (mode_svc _ Hs) as Ms. eexists. split; [reflexivity|]. unfold view_of. cbn. rewrite Ms. cbn.
    split; [by rewrite u32_small by lia|by split_and!].
Qed.

(** The return of a system call, to a program in user mode. *)
Lemma swi_restore_ok s a c :
  mode_of s.(a_cpsr) = Some Svc -> length s.(a_gpr) = 13%nat -> s.(a_svc).(b_sp) = a + 0 -> 0 <= a < 2 ^ 32 - 72 ->
  switch_to_frame a s.(a_mem) = Some c -> length c.(gpr) = 13%nat -> mode_of c.(c_cpsr) = Some Usr ->
  exists s', exec swi_restore s = Some s' /\ view_of s' = Some c /\ s'.(a_svc).(b_sp) = a + 72 /\
    s'.(a_mem) = s.(a_mem).
Proof.
  destruct s as [g [us ul uq] [ss sl sq] irq cp pc0 m]. cbn [a_cpsr a_gpr a_mem a_usr a_irq a_svc b_sp].
  intros Hm Hg -> Hr Hf Hc Hu.
  destruct (gpr_list g Hg) as (x0 & x1 & x2 & x3 & x4 & x5 & x6 & x7 & x8 & x9 & x10 & x11 & x12 & ->).
  destruct (frame_parts _ _ _ Hf) as (usp & [E1 E2 E3 E4 E5] & Hmode).
  destruct c as [ws csp clr cpc cpsr]. cbn [gpr c_sp c_lr c_pc c_cpsr] in *.
  destruct (gpr_list ws Hc) as (y0 & y1 & y2 & y3 & y4 & y5 & y6 & y7 & y8 & y9 & y10 & y11 & y12 & ->).
  rewrite <- (Z.add_0_r a) in E1.
  assert (M : mode_of (Z.lor cp 0xc0) = Some Svc) by (by rewrite mode_orr).
  unfold swi_restore. do 15 arm_step.
  eexists. split; [reflexivity|]. unfold view_of. cbn. rewrite Hu. cbn.
  destruct Hmode as [[_ ->]|[Hs%mode_svc _]]; [by split_and!|congruence].
Qed.

(** ** Building a frame *)

(** The registers of a machine hold words. *)
Definition bank_words (x : banked) : Prop := is_u32 x.(b_sp) /\ is_u32 x.(b_lr) /\ is_u32 x.(b_spsr).

Definition arm_words s : Prop :=
  length s.(a_gpr) = 13%nat /\ Forall is_u32 s.(a_gpr) /\ bank_words s.(a_usr) /\ bank_words s.(a_svc) /\
  bank_words s.(a_irq) /\ is_u32 s.(a_cpsr) /\ is_u32 s.(a_pc).

Lemma back_four (p : Z) : is_u32 p -> u32 (u32 (p + 4) - 4) = p.
Proof.
  intros H. unfold u32, wrap. rewrite Zminus_mod_idemp_l. replace (p + 4 - 4) with p by lia. by apply Z.mod_small.
Qed.

Ltac arm_push :=
  match goal with |- context [4 * Z.of_nat ?n] => let v := eval cbv in (4 * Z.of_nat n) in change (4 * Z.of_nat n) with v end.
Ltac arm_save :=
  erewrite exec_cons; [|solve [repeat (cbn [store_regs]; arm_cbn; first [reflexivity | arm_push | rewrite back_four by assumption | arm_mem])]].

Lemma load_words_next n a (k : Z) (m : mem) :
  load_words (S n) (a + k) m = w ← load32 (a + k) m; ws ← load_words n (a + (k + 4)) m; Some (w :: ws).
Proof. cbn [load_words]. by rewrite Z.add_assoc. Qed.

Ltac frame_read :=
  repeat first
    [ reflexivity | arm_mem | rewrite bind_Some_eq
    | rewrite load_words_next; match goal with |- context [load_words _ (_ + (?j + ?k))] => let v := eval cbv in (j + k) in change (j + k) with v end ].

(** A frame with its saved status, written into [m] only. *)
Record frame_built (m m' : mem) a (ws : list Z) (psr lr usp pc spsr : Z) : Prop := {
  fb_words : frame_words m' a ws psr lr usp pc;
  fb_spsr : load32 (a + 52) m' = Some spsr;
  fb_out : forall x, ~ (a <= x < a + 72) -> m' !! x = m !! x
}.

Lemma irq_frame_ok a b (x0 x1 x2 x3 x4 x5 x6 x7 x8 x9 x10 x11 x12 v0 v1 v2 v3 v4 psr pc : Z) us iq sl sq cp pc0 lr0 (m : mem) :
  Forall is_u32 [x0; x1; x2; x3; x4; x5; x6; x7; x8; x9; x10; x11; x12; v2; v3; v4; psr; pc] ->
  mode_of cp = Some Irq ->
  load32 (b + 24) m = Some pc -> load32 (b + 20) m = Some psr -> load32 (b + 16) m = Some x0 -> load32 (b + 12) m = Some x1 ->
  load32 (b + 8) m = Some x2 -> load32 (b + 4) m = Some x3 -> load32 (b + 0) m = Some x4 ->
  0 <= a -> 0 <= b -> a + 72 < 2 ^ 32 -> b + 28 < 2 ^ 32 -> disjoint a 72 b 28 -> room m (a + 0) 72 ->
  exists l m',
    exec irq_frame (Mk_arm [v0; v1; v2; v3; v4; x5; x6; x7; x8; x9; x10; x11; x12] us (Mk_banked (a + 72) sl sq)
      (Mk_banked (b + 28) lr0 iq) cp pc0 m) =
    Some (Mk_arm l us (Mk_banked (a + 0) sl sq) (Mk_banked (b + 28) lr0 iq)
      (set_c (Z.lor SVC_MODE NO_INT) (Z.lor IRQ_MODE NO_INT)) pc0 m') /\
    length l = 13%nat /\
    frame_built m m' a [x0; x1; x2; x3; x4; x5; x6; x7; x8; x9; x10; x11; x12] psr v3 v4 pc v2.
Proof.
  unfold disjoint. intros Hw Hmo E1 E2 E3 E4 E5 E6 E7 Ha Hb Ha2 Hb2 Hd Hra.
  repeat match goal with H : Forall _ (_ :: _) |- _ => apply Forall_cons in H; destruct H end.
  unfold irq_frame. do 18 arm_save. eexists _, _. split; [reflexivity|]. split; [reflexivity|]. constructor.
  - constructor; [rewrite <- (Z.add_0_r a) at 1|..]; frame_read.
  - frame_read.
  - intros x Hx. by rewrite !lookup_write_out by (cbn [length word_list]; lia).
Qed.

(** The modes the kernel and its programs run in. *)
Definition interruptible s : Prop :=
  Z.land s.(a_cpsr) MODE_MASK = USER_MODE \/ Z.land s.(a_cpsr) MODE_MASK = SVC_MODE.

(** What the interrupted mode keeps for itself: saved status (none in user mode), lr and sp. *)
Definition own_words s : Z * Z * Z :=
  if Z.eqb (Z.land s.(a_cpsr) MODE_MASK) USER_MODE then (0, s.(a_usr).(b_lr), s.(a_usr).(b_sp))
  else (s.(a_svc).(b_spsr), s.(a_svc).(b_lr), s.(a_svc).(b_sp)).

Record irq_stacked (m m' : mem) (b x0 x1 x2 x3 x4 psr pc : Z) : Prop := {
  is_pc : load32 (b + 24) m' = Some pc;
  is_psr : load32 (b + 20) m' = Some psr;
  is_0 : load32 (b + 16) m' = Some x0;
  is_1 : load32 (b + 12) m' = Some x1;
  is_2 : load32 (b + 8) m' = Some x2;
  is_3 : load32 (b + 4) m' = Some x3;
  is_4 : load32 (b + 0) m' = Some x4;
  is_room : forall x n, room m x n -> room m' x n;
  is_out : forall x, ~ (b <= x < b + 28) -> m' !! x = m !! x
}.

Lemma irq_to_stack_ok s b (x0 x1 x2 x3 x4 x5 x6 x7 x8 x9 x10 x11 x12 : Z) :
  arm_words s -> s.(a_gpr) = [x0; x1; x2; x3; x4; x5; x6; x7; x8; x9; x10; x11; x12] ->
  interruptible s ->
  s.(a_irq).(b_sp) = b + 28 -> 0 <= b -> b + 28 < 2 ^ 32 -> room s.(a_mem) (b + 0) 28 ->
  exists v0 v1 lr0 cp m', let '(v2, v3, v4) := own_words s in
    exec irq_to_stack (take_irq s) =
      Some (Mk_arm [v0; v1; v2; v3; v4; x5; x6; x7; x8; x9; x10; x11; x12] s.(a_usr) s.(a_svc)
        (Mk_banked (b + 28) lr0 s.(a_cpsr)) cp s.(a_pc) m') /\
    mode_of cp = Some Irq /\ irq_stacked s.(a_mem) m' b x0 x1 x2 x3 x4 s.(a_cpsr) s.(a_pc).
Proof.
  destruct s as [g [us ul uq] [ss sl sq] [iqs iql iqp] cp pc0 m]. unfold arm_words, bank_words, own_words.
  cbn [a_cpsr a_gpr a_mem a_usr a_irq a_svc a_pc b_sp b_lr b_spsr].
  unfold interruptible. cbn [a_cpsr].
  intros (_ & Hgw & (? & ? & ?) & (? & ? & ?) & (? & ? & ?) & ? & ?) -> C -> Hb Hb2 Hrb.
  repeat match goal with H : Forall _ (_ :: _) |- _ => apply Forall_cons in H; destruct H end.
  unfold take_irq. cbn [a_cpsr a_irq b_sp a_pc set_bank with_cpsr a_gpr a_usr a_svc a_mem].
  unfold irq_to_stack. do 10 arm_save. destruct C as [C|C]; rewrite C.
  - arm_call. unfold user_to_irq. cbn [app]. do 6 arm_save. arm_no_call.
    rewrite Z.eqb_refl. eexists _, _, _, _, _. split; [reflexivity|]. split; [by rewrite mode_exc|].
    constructor; try solve [frame_read].
    + intros x n Hx. by repeat apply room_write.
    + intros x Hx. by rewrite !lookup_write_out by (cbn [length word_list]; lia).
  - arm_no_call. arm_call. unfold svc_to_irq. cbn [app]. do 6 arm_save.
    eexists _, _, _, _, _. split; [reflexivity|]. split; [by rewrite mode_exc|].
    constructor; try solve [frame_read].
    + intros x n Hx. by repeat apply room_write.
    + intros x Hx. by rewrite !lookup_write_out by (cbn [length word_list]; lia).
Qed.

(** The stack pointers of both modes have room for what the interrupt code stores. *)
Record stacks_ready s a b : Prop := {
  sr_words : arm_words s;
  sr_svc : s.(a_svc).(b_sp) = a + 72;
  sr_irq : s.(a_irq).(b_sp) = b + 28;
  sr_a : 0 <= a < 2 ^ 32 - 72;
  sr_b : 0 <= b < 2 ^ 32 - 28;
  sr_apart : disjoint a 72 b 28;
  sr_room_a : room s.(a_mem) (a + 0) 72;
  sr_room_b : room s.(a_mem) (b + 0) 28
}.

Lemma own_view s a lr usp (m : mem) :
  interruptible s -> s.(a_svc).(b_sp) = a + 72 -> 0 <= a < 2 ^ 32 - 72 ->
  frame_words m a s.(a_gpr) s.(a_cpsr) lr usp s.(a_pc) ->
  snd (fst (own_words s)) = lr -> snd (own_words s) = usp ->
  exists c, view_of s = Some c /\ switch_to_frame a m = Some c /\ c.(gpr) = s.(a_gpr) /\ c.(c_cpsr) = s.(a_cpsr).
Proof.
  intros C Hs Ha Hf Hl Hu. apply to_frame in Hf as [F1 F2]. unfold own_words, view_of in *.
  destruct C as [C|C].
  - rewrite (mode_user _ C), bind_Some_eq. rewrite C in Hl, Hu. cbn in Hl, Hu. subst.
    eexists. split; [reflexivity|]. by rewrite F1.
  - rewrite (mode_svc _ C), bind_Some_eq. rewrite C in Hl. cbn in Hl. subst.
    eexists. split; [reflexivity|]. rewrite F2 by done. cbn [get_bank]. by rewrite Hs, u32_small by lia.
Qed.

Lemma irq_save_ok s a b :
  stacks_ready s a b -> interruptible s ->
  exists s' c, exec irq_save (take_irq s) = Some s' /\ view_of s = Some c /\ switch_to_frame a s'.(a_mem) = Some c /\
    c.(gpr) = s.(a_gpr) /\ c.(c_cpsr) = s.(a_cpsr) /\
    load32 (a + 52) s'.(a_mem) = Some (fst (fst (own_words s))) /\
    s'.(a_svc).(b_sp) = a + 0 /\ s'.(a_irq).(b_sp) = b + 28 /\ s'.(a_usr) = s.(a_usr) /\
    mode_of s'.(a_cpsr) = Some Irq /\ length s'.(a_gpr) = 13%nat /\
    (forall x, ~ (a <= x < a + 72) -> ~ (b <= x < b + 28) -> s'.(a_mem) !! x = s.(a_mem) !! x).
Proof.
  intros [Hw Hs Hi Ha Hb Hd Hra Hrb] C.
  pose proof Hw as (Hg & Hgw & Hu & Hv & _ & Hc & Hp).
  destruct (gpr_list _ Hg) as (x0 & x1 & x2 & x3 & x4 & x5 & x6 & x7 & x8 & x9 & x10 & x11 & x12 & Eg).
  pose proof (irq_to_stack_ok s b _ _ _ _ _ _ _ _ _ _ _ _ _ Hw Eg C Hi ltac:(lia) ltac:(lia) Hrb)
    as (v0 & v1 & lr0 & cp & m1 & H).
  destruct (own_words s) as [[v2 v3] v4] eqn:Eo. destruct H as (E1 & Hmode & [? ? ? ? ? ? ? R O]).
  assert (Wo : is_u32 v2 /\ is_u32 v3 /\ is_u32 v4).
  { unfold own_words in Eo. destruct Hu as (? & ? & ?), Hv as (? & ? & ?).
    destruct (Z.eqb _ _); injection Eo as <- <- <-; [split; [unfold is_u32; lia|]|]; done. }
  destruct (irq_frame_ok a b x0 x1 x2 x3 x4 x5 x6 x7 x8 x9 x10 x11 x12 v0 v1 v2 v3 v4 s.(a_cpsr) s.(a_pc)
    s.(a_usr) s.(a_cpsr) s.(a_svc).(b_lr) s.(a_svc).(b_spsr) cp s.(a_pc) lr0 m1) as (l & m2 & E2 & Hl & [Fw Fs Fo]);
    try done; try lia; [|by apply R|].
  { rewrite Eg in Hgw. change (Forall is_u32 ([x0; x1; x2; x3; x4; x5; x6; x7; x8; x9; x10; x11; x12] ++ [v2; v3; v4; s.(a_cpsr); s.(a_pc)])).
    apply Forall_app. split; [done|]. repeat (apply Forall_cons_2; [tauto|]); by apply Forall_nil_2. }
  rewrite <- Eg in Fw.
  destruct (own_view s a v3 v4 m2 C Hs Ha Fw) as (c & Hv1 & Hv2 & Hv3 & Hv4); [by rewrite Eo..|].
  eexists _, c. unfold irq_save. rewrite exec_app, E1, bind_Some_eq.
  assert (Esvc : s.(a_svc) = Mk_banked (a + 72) s.(a_svc).(b_lr) s.(a_svc).(b_spsr)) by (rewrite <- Hs; by destruct (a_svc s)).
  rewrite Esvc, E2. split; [reflexivity|]. cbn [a_mem a_svc a_irq a_usr a_cpsr a_gpr b_sp].
  split_and!; try done. intros x Hx Hy. by rewrite Fo, O.
Qed.

(** The stack of the supervisor mode has room for a frame. *)
Record svc_ready s a : Prop := {
  vr_words : arm_words s;
  vr_sp : s.(a_svc).(b_sp) = a + 72;
  vr_a : 0 <= a < 2 ^ 32 - 72;
  vr_room : room s.(a_mem) (a + 0) 72
}.

Lemma svc_view s a lr pc (m : mem) :
  s.(a_svc).(b_sp) = a + 72 -> Z.land s.(a_cpsr) MODE_MASK = SVC_MODE -> s.(a_svc).(b_lr) = lr -> s.(a_pc) = pc ->
  view_of s = Some (Mk_context s.(a_gpr) (a + 72) lr pc s.(a_cpsr)).
Proof. intros Hs Hm <- <-. unfold view_of. rewrite (mode_svc _ Hm), bind_Some_eq. by rewrite <- Hs. Qed.

(** A task that gives up the processor itself: its frame resumes it behind the call. *)
Lemma switch_save_ok s a :
  svc_ready s a -> Z.land s.(a_cpsr) MODE_MASK = SVC_MODE ->
  exists s', exec switch_save s = Some s' /\
    switch_to_frame a s'.(a_mem) = Some (Mk_context s.(a_gpr) (a + 72) s.(a_svc).(b_lr) s.(a_svc).(b_lr) s.(a_cpsr)) /\
    load32 (a + 52) s'.(a_mem) = Some s.(a_svc).(b_spsr) /\ s'.(a_svc).(b_sp) = a + 0 /\ s'.(a_usr) = s.(a_usr) /\
    s'.(a_cpsr) = s.(a_cpsr) /\ length s'.(a_gpr) = 13%nat /\
    (forall x, ~ (a <= x < a + 72) -> s'.(a_mem) !! x = s.(a_mem) !! x).
Proof.
  destruct s as [g us [ss sl sq] iq cp pc0 m]. intros [(Hg & Hgw & _ & Hv & _ & Hc & Hp) Hs Ha Hr] Hm.
  cbn [a_cpsr a_gpr a_mem a_usr a_irq a_svc a_pc b_sp b_lr b_spsr] in *. subst ss.
  destruct (gpr_list _ Hg) as (x0 & x1 & x2 & x3 & x4 & x5 & x6 & x7 & x8 & x9 & x10 & x11 & x12 & ->).
  destruct Hv as (? & ? & ?). cbn [b_sp b_lr b_spsr] in *.
  repeat match goal with H : Forall _ (_ :: _) |- _ => apply Forall_cons in H; destruct H end.
  pose proof (mode_svc _ Hm) as Ms. unfold switch_save, gprs. do 10 arm_save.
  eexists. split; [reflexivity|]. cbn [a_cpsr a_gpr a_mem a_usr a_svc b_sp].
  split; [|split_and!; try done; [frame_read|intros x Hx; by rewrite !lookup_write_out by (cbn [length word_list]; lia)]].
  assert (Hx : is_u32 (a + 0 -u 72)) by apply u32_range.
  rewrite <- (u32_small (a + 72)) by lia. eapply (proj2 (to_frame a _ _ cp sl (a + 0 -u 72) sl _) Hm).
Unshelve. constructor; [rewrite <- (Z.add_0_r a) at 1|..]; frame_read.
Qed.

(** The interrupts are open while a call is served. *)
Lemma bic_open (c : Z) : Z.land (set_c c (Z.ldiff c 0xc0)) 0xc0 = 0.
Proof.
  unfold set_c. apply Z.bits_inj'. intros n Hn. rewrite Z.bits_0, Z.land_spec, Z.lor_spec, Z.ldiff_spec, Z.land_spec, Z.ldiff_spec.
  change 0xc0 with (Z.lor (2 ^ 6) (2 ^ 7)). rewrite Z.lor_spec, !Z.pow2_bits_eqb by lia.
  destruct (Z.eqb_spec 6 n) as [<-|]; [by cbn; rewrite !andb_false_r|].
  destruct (Z.eqb_spec 7 n) as [<-|]; [by cbn; rewrite !andb_false_r|]. by rewrite andb_false_r.
Qed.

Lemma swi_save_ok s a :
  svc_ready s a -> Z.land s.(a_cpsr) MODE_MASK = USER_MODE ->
  exists s', exec swi_save (take_swi s) = Some s' /\
    switch_to_frame a s'.(a_mem) = Some (Mk_context s.(a_gpr) s.(a_usr).(b_sp) s.(a_usr).(b_lr) s.(a_pc) s.(a_cpsr)) /\
    get (R 8) s' = Some (a + 0) /\ s'.(a_svc).(b_sp) = a + 0 /\ s'.(a_usr) = s.(a_usr) /\
    mode_of s'.(a_cpsr) = Some Svc /\ Z.land s'.(a_cpsr) 0xc0 = 0 /\ length s'.(a_gpr) = 13%nat /\
    (forall x, ~ (a <= x < a + 72) -> s'.(a_mem) !! x = s.(a_mem) !! x).
Proof.
  destruct s as [g [us ul uq] [ss sl sq] iq cp pc0 m]. intros [(Hg & Hgw & Hu & Hv & _ & Hc & Hp) Hs Ha Hr] Hm.
  cbn [a_cpsr a_gpr a_mem a_usr a_irq a_svc a_pc b_sp b_lr b_spsr] in *. subst ss.
  destruct (gpr_list _ Hg) as (x0 & x1 & x2 & x3 & x4 & x5 & x6 & x7 & x8 & x9 & x10 & x11 & x12 & ->).
  destruct Hu as (? & ? & ?). cbn [b_sp b_lr b_spsr] in *.
  repeat match goal with H : Forall _ (_ :: _) |- _ => apply Forall_cons in H; destruct H end.
  unfold take_swi. cbn [a_cpsr a_svc b_sp a_pc set_bank with_cpsr a_gpr a_usr a_irq a_mem].
  unfold swi_save, gprs. do 16 arm_save.
  eexists. split; [reflexivity|]. cbn [a_cpsr a_gpr a_mem a_usr a_svc b_sp].
  split; [|split_and!; try done; [by rewrite mode_set_c, mode_bic, mode_exc|apply bic_open|
    intros x Hx; by rewrite !lookup_write_out by (cbn [length word_list]; lia)]].
  eapply (proj1 (to_frame a _ _ cp ul us pc0 _) Hm).
Unshelve. constructor; [rewrite <- (Z.add_0_r a) at 1|..]; frame_read.
Qed.

End entry.
