(* ===== verification/EntryThms.v ===== *)
(** * An interrupt or a call goes unnoticed

    What the routines of [Entry] do together: a task that enters the kernel leaves it with its
    registers.  Between entry and exit anything may happen that keeps the frame. *)

From S2P Require Import Prelude ListHead TaskStruct Bitops Mem CString Regs Trap Arm Entry.

Section resume.
(** The address behind a conditional call. *)
Variable ret : Z.
Implicit Types (s : arm) (a k : Z) (c : context).

(** The bytes of the frame but the first [k]. *)
Definition kept (k a : Z) (m m' : mem) : Prop := forall x, a + k <= x < a + 72 -> m' !! x = m !! x.

Lemma kept_le k k' a m m' : k <= k' -> kept k a m m' -> kept k' a m m'.
Proof. intros Hk H x Hx. apply H. lia. Qed.

Lemma load_kept k a j m m' : kept k a m m' -> k <= j -> j + 4 <= 72 -> load32 (a + j) m' = load32 (a + j) m.
Proof. intros H H1 H2. apply load32_frame. intros x Hx. apply H. lia. Qed.

Lemma words_kept n a j m m' : kept 4 a m m' -> 4 <= j -> j + 4 * Z.of_nat n <= 72 -> load_words n (a + j) m' = load_words n (a + j) m.
Proof.
  intros H. revert j. induction n as [|n IH]; intros j H1 H2; [done|].
  rewrite !load_words_next, (load_kept 4 _ _ _ _ H), IH by lia. done.
Qed.

(** A frame with another first word is the same context with another r0. *)
Definition with_first v c : context := Mk_context (v :: tail c.(gpr)) c.(c_sp) c.(c_lr) c.(c_pc) c.(c_cpsr).

Lemma frame_kept a m m' c v :
  switch_to_frame a m = Some c -> kept 4 a m m' -> load32 a m' = Some v -> switch_to_frame a m' = Some (with_first v c).
Proof.
  intros Hf Hk Hv. destruct (frame_parts _ _ _ Hf) as (usp & [E1 E2 E3 E4 E5] & Hm).
  assert (E : exists w ws, c.(gpr) = w :: ws /\ load_words 12 (a + 4) m = Some ws).
  { rewrite <- (Z.add_0_r a), load_words_next in E1.
    apply bind_Some in E1 as (w & _ & (ws & E & [= <-])%bind_Some). by exists w, ws. }
  destruct E as (w & ws & Eg & Ew).
  assert (F : frame_words m' a (v :: ws) c.(c_cpsr) c.(c_lr) usp c.(c_pc)).
  { constructor; [|by rewrite (load_kept 4 a _ m) by done..].
    rewrite <- (Z.add_0_r a), load_words_next, Z.add_0_r, Hv, bind_Some_eq.
    change (0 + 4) with 4. by rewrite (words_kept 12 a 4 m), Ew by done. }
  apply to_frame in F as [F1 F2]. unfold with_first. rewrite Eg. cbn [tail].
  destruct Hm as [[Hm ->]|[Hm ->]]; [by apply F1|by apply F2].
Qed.

Lemma load_words_length n b m l : load_words n b m = Some l -> length l = n.
Proof.
  revert b l. induction n as [|n IH]; intros b l H; [by injection H as <-|].
  cbn in H. apply bind_Some in H as (x & _ & (xs & H & [= <-])%bind_Some). cbn. by rewrite (IH _ _ H).
Qed.

Lemma frame_first a m c :
  switch_to_frame a m = Some c -> exists w, load32 a m = Some w /\ with_first w c = c /\ length c.(gpr) = 13%nat.
Proof.
  intros Hf. destruct (frame_parts _ _ _ Hf) as (usp & [E1 _ _ _ _] & _).
  destruct c as [ws csp clr cpc cpsr]. cbn [gpr] in *. pose proof (load_words_length _ _ _ _ E1) as L.
  rewrite <- (Z.add_0_r a), load_words_next, Z.add_0_r in E1.
  apply bind_Some in E1 as (w & Ew & (ws' & _ & [= <-])%bind_Some). by exists w.
Qed.

Lemma frame_kept_all a m m' c : switch_to_frame a m = Some c -> kept 0 a m m' -> switch_to_frame a m' = Some c.
Proof.
  intros Hf Hk. destruct (frame_first _ _ _ Hf) as (w & Ew & Ec & _).
  rewrite <- Ec. apply (frame_kept a m); [done|by apply (kept_le 0); [lia|]|].
  rewrite <- (Z.add_0_r a), (load_kept 0 a 0 m) by (done || lia). by rewrite Z.add_0_r.
Qed.

(** The routine [l] run on [s] gives the processor to [c] with the kernel stack at [top]. *)
Definition resumes (l : list instr) s c (top : Z) : Prop :=
  exists s', exec l s = Some s' /\ view_of s' = Some c /\ s'.(a_svc).(b_sp) = top /\ s'.(a_mem) = s.(a_mem).

(** Both exits of the kernel, on a frame at [a]. *)
Lemma frame_resumes s a c w :
  length s.(a_gpr) = 13%nat -> 0 <= a < 2 ^ 32 - 72 -> switch_to_frame a s.(a_mem) = Some c ->
  load32 (a + 52) s.(a_mem) = Some w ->
  (mode_of s.(a_cpsr) = Some Irq -> get (R 0) s = Some a -> resumes (irq_restore ret) s c (a + 72)) /\
  (mode_of s.(a_cpsr) = Some Svc -> s.(a_svc).(b_sp) = a -> resumes (switch_restore ret) s c (a + 72)).
Proof.
  intros Hl Ha Hf Hw. destruct (frame_first _ _ _ Hf) as (_ & _ & _ & Hc). split; intros Hm Hr.
  - destruct (irq_restore_ok ret s a c w) as (s' & E & Hv & Hs & Hk & _); rewrite ?Z.add_0_r; try done. by exists s'.
  - destruct (switch_restore_ok ret s a c w) as (s' & E & Hv & Hs & Hk & _); rewrite ?Z.add_0_r; try done. by exists s'.
Qed.

(** C22. An interrupt in user or supervisor mode leaves a frame below the kernel stack pointer of
    the task and nothing else in memory but its seven words on the interrupt stack.
    Whatever runs in between, as long as the frame is kept, both ways out of the kernel
    (the end of an interrupt and the context switch) give the task back all its
    registers, its mode, its status and its next instruction, with the kernel stack
    where it was. *)
Theorem interrupted_task_resumes s a b (Hs : stacks_ready s a b) (Hi : interruptible s) :
  exists s1 c, exec (irq_save ret) (take_irq s) = Some s1 /\ view_of s = Some c /\
    s1.(a_svc).(b_sp) = a /\ s1.(a_irq).(b_sp) = b + 28 /\ mode_of s1.(a_cpsr) = Some Irq /\
    (forall x, ~ (a <= x < a + 72) -> ~ (b <= x < b + 28) -> s1.(a_mem) !! x = s.(a_mem) !! x) /\
    forall s2, length s2.(a_gpr) = 13%nat -> kept 0 a s1.(a_mem) s2.(a_mem) ->
      (mode_of s2.(a_cpsr) = Some Irq -> get (R 0) s2 = Some a -> resumes (irq_restore ret) s2 c s.(a_svc).(b_sp)) /\
      (mode_of s2.(a_cpsr) = Some Svc -> s2.(a_svc).(b_sp) = a -> resumes (switch_restore ret) s2 c s.(a_svc).(b_sp)).
Proof.
  destruct (irq_save_ok ret s a b Hs Hi) as (s1 & c & E & Hv & Hf & _ & _ & Hw & Hsp & Hirq & _ & Hm & _ & Ho).
  exists s1, c. rewrite (sr_svc _ _ _ Hs). split_and!; try done; [by rewrite Hsp, Z.add_0_r|].
  intros s2 Hl Hk. apply (frame_resumes s2 a c (fst (fst (own_words s)))); [done|apply Hs|by apply (frame_kept_all a s1.(a_mem))|].
  by rewrite (load_kept 0 a 52 s1.(a_mem)) by (done || lia).
Qed.

(** C28. A system call leaves a frame with the registers of the program, hands its address to
    [_syscall_handler] with interrupts on, and when the handler has stored a result in its first
    word and kept the rest, the program continues behind the call with the result in r0 and every other
    register as before. *)
Theorem syscall_returns s a (Hs : svc_ready s a) (Hu : Z.land s.(a_cpsr) MODE_MASK = USER_MODE) :
  exists s1 c, exec swi_save (take_swi s) = Some s1 /\ view_of s = Some c /\
    get (R 8) s1 = Some a /\ mode_of s1.(a_cpsr) = Some Svc /\ Z.land s1.(a_cpsr) 0xc0 = 0 /\
    switch_to_frame a s1.(a_mem) = Some c /\
    (forall x, ~ (a <= x < a + 72) -> s1.(a_mem) !! x = s.(a_mem) !! x) /\
    forall s2 v, length s2.(a_gpr) = 13%nat -> kept 4 a s1.(a_mem) s2.(a_mem) -> load32 a s2.(a_mem) = Some v ->
      mode_of s2.(a_cpsr) = Some Svc -> s2.(a_svc).(b_sp) = a ->
      resumes swi_restore s2 (with_first v c) s.(a_svc).(b_sp).
Proof.
  destruct (swi_save_ok s a Hs Hu) as (s1 & E & Hf & H8 & Hsp & _ & Hm & Hi & _ & Ho).
  exists s1. eexists. split; [exact E|]. unfold view_of. rewrite (mode_user _ Hu), bind_Some_eq.
  split; [reflexivity|]. rewrite Z.add_0_r in H8. split_and!; try done.
  intros s2 v Hl Hk Hv Hm2 Hsp2. pose proof (frame_kept _ _ _ _ v Hf Hk Hv) as Hf2.
  destruct (frame_first _ _ _ Hf2) as (_ & _ & _ & Hc). rewrite (vr_sp _ _ Hs).
  destruct (swi_restore_ok s2 a _ Hm2 Hl ltac:(by rewrite Hsp2, Z.add_0_r) (vr_a _ _ Hs) Hf2 Hc) as (s3 & E3 & Hv3 & Hs3 & Hk3);
    [by apply mode_user|]. by exists s3.
Qed.

(** A task that gives up the processor comes back behind the call of the switch. *)
Lemma switched_task_resumes s a :
  svc_ready s a -> Z.land s.(a_cpsr) MODE_MASK = SVC_MODE ->
  exists s1, exec switch_save s = Some s1 /\ s1.(a_svc).(b_sp) = a /\
    forall s2, length s2.(a_gpr) = 13%nat -> kept 0 a s1.(a_mem) s2.(a_mem) ->
      let c := Mk_context s.(a_gpr) s.(a_svc).(b_sp) s.(a_svc).(b_lr) s.(a_svc).(b_lr) s.(a_cpsr) in
      (mode_of s2.(a_cpsr) = Some Irq -> get (R 0) s2 = Some a -> resumes (irq_restore ret) s2 c s.(a_svc).(b_sp)) /\
      (mode_of s2.(a_cpsr) = Some Svc -> s2.(a_svc).(b_sp) = a -> resumes (switch_restore ret) s2 c s.(a_svc).(b_sp)).
Proof.
  intros Hs Hm. destruct (switch_save_ok s a Hs Hm) as (s1 & E & Hf & Hw & Hsp & _).
  exists s1. split; [done|]. split; [by rewrite Hsp, Z.add_0_r|]. intros s2 Hl Hk c. unfold c. rewrite (vr_sp _ _ Hs).
  apply (frame_resumes s2 a _ s.(a_svc).(b_spsr)); [done|apply Hs|by apply (frame_kept_all a s1.(a_mem))|].
  by rewrite (load_kept 0 a 52 s1.(a_mem)) by (done || lia).
Qed.

(** The saved status that [sw_switch_to_svc] loads does not survive: the status of the task is
    written over it before the return. *)
Lemma switch_drops_spsr s a c w :
  mode_of s.(a_cpsr) = Some Svc -> length s.(a_gpr) = 13%nat -> s.(a_svc).(b_sp) = a -> 0 <= a < 2 ^ 32 - 72 ->
  switch_to_frame a s.(a_mem) = Some c -> load32 (a + 52) s.(a_mem) = Some w ->
  exists s', exec (switch_restore ret) s = Some s' /\ s'.(a_svc).(b_spsr) = c.(c_cpsr).
Proof.
  intros Hm Hl Hs Ha Hf Hw. destruct (frame_first _ _ _ Hf) as (_ & _ & _ & Hc).
  destruct (switch_restore_ok ret s a c w) as (s' & E & H); rewrite ?Z.add_0_r; try done.
  exists s'. split; [done|apply H].
Qed.
End resume.

(** ** A machine with stacks

    The kernel stack of the task ends at 4168, the interrupt stack at 8220. *)

Definition demo_stacks : mem := write 4096 (replicate 72 0) (write 8192 (replicate 28 0) ∅).

Definition demo_arm c : arm :=
  Mk_arm (seqZ 100 13) (Mk_banked 0x7ffffff0 0x401234 0) (Mk_banked 4168 0x80008000 0x10) (Mk_banked 8220 0 0)
    c 0x401000 demo_stacks.

Lemma stacks_room : room demo_stacks (4096 + 0) 72 /\ room demo_stacks (8192 + 0) 28.
Proof. split; [apply (room_write_self 4096 (replicate 72 0))|apply room_write, (room_write_self 8192 (replicate 28 0))]. Qed.

Lemma demo_arm_words c : is_u32 c -> arm_words (demo_arm c).
Proof.
  intros Hc. unfold arm_words, bank_words. cbn [demo_arm a_gpr a_usr a_svc a_irq a_cpsr a_pc b_sp b_lr b_spsr].
  split; [done|]. split; [cbn; repeat (apply Forall_cons_2; [done|]); by apply Forall_nil_2|].
  split_and!; done.
Qed.

Lemma demo_stacks_ready c : is_u32 c -> stacks_ready (demo_arm c) 4096 8192.
Proof.
  intros Hc. constructor; [by apply demo_arm_words|done..|by left|apply stacks_room|apply stacks_room].
Qed.

(** In user mode with the zero flag set, and in supervisor mode. *)
Lemma interrupted_task_resumes_witness :
  exists s1 s2,
    exec (irq_save 0) (take_irq (demo_arm 0x40000010)) = Some s1 /\
    exec (irq_save 0) (take_irq (demo_arm 0x13)) = Some s2 /\
    switch_to_frame 4096 s1.(a_mem) = Some (Mk_context (seqZ 100 13) 0x7ffffff0 0x401234 0x401000 0x40000010) /\
    switch_to_frame 4096 s2.(a_mem) = Some (Mk_context (seqZ 100 13) 4168 0x80008000 0x401000 0x13).
Proof.
  destruct (interrupted_task_resumes 0 (demo_arm 0x40000010) 4096 8192) as (s1 & c1 & E1 & _);
    [apply demo_stacks_ready; unfold is_u32; lia|left; vm_compute; reflexivity|].
  destruct (interrupted_task_resumes 0 (demo_arm 0x13) 4096 8192) as (s2 & c2 & E2 & _);
    [apply demo_stacks_ready; unfold is_u32; lia|right; vm_compute; reflexivity|].
  exists s1, s2. split; [exact E1|]. split; [exact E2|].
  assert (F1 : (s ← exec (irq_save 0) (take_irq (demo_arm 0x40000010)); switch_to_frame 4096 s.(a_mem)) =
    Some (Mk_context (seqZ 100 13) 0x7ffffff0 0x401234 0x401000 0x40000010)) by (vm_compute; reflexivity).
  assert (F2 : (s ← exec (irq_save 0) (take_irq (demo_arm 0x13)); switch_to_frame 4096 s.(a_mem)) =
    Some (Mk_context (seqZ 100 13) 4168 0x80008000 0x401000 0x13)) by (vm_compute; reflexivity).
  rewrite E1 in F1. rewrite E2 in F2. split; [exact F1|exact F2].
Defined.

Lemma syscall_returns_witness :
  exists s1, exec swi_save (take_swi (demo_arm 0x10)) = Some s1 /\ get (R 8) s1 = Some 4096 /\
    exists s3, exec swi_restore s1 = Some s3 /\ view_of s3 = view_of (demo_arm 0x10).
Proof.
  destruct (syscall_returns (demo_arm 0x10) 4096) as (s1 & c & E & Hv & H8 & Hm & _ & Hf & _ & H);
    [constructor; [apply demo_arm_words; unfold is_u32; lia|reflexivity|cbn; lia|apply stacks_room]|vm_compute; reflexivity|].
  exists s1. split; [exact E|]. split; [exact H8|].
  assert (L : load32 4096 s1.(a_mem) = Some 100 /\ length s1.(a_gpr) = 13%nat /\ s1.(a_svc).(b_sp) = 4096).
  { assert (B : (s ← exec swi_save (take_swi (demo_arm 0x10)); Some (load32 4096 s.(a_mem), length s.(a_gpr), s.(a_svc).(b_sp))) = Some (Some 100, 13%nat, 4096)) by (vm_compute; reflexivity).
    rewrite E in B. cbn [mbind option_bind] in B. apply (inj Some), pair_eq in B as [[B1 B2]%pair_eq B3]. split; [exact B1|split; [exact B2|exact B3]]. }
  destruct L as (L1 & L2 & L3).
  destruct (H s1 100 L2 ltac:(intros x Hx; reflexivity) L1 Hm L3) as (s3 & E3 & Hv3 & _).
  exists s3. split; [exact E3|]. rewrite Hv3, Hv. f_equal.
  vm_compute in Hv. injection Hv as <-. reflexivity.
Defined.
