(* ===== verification/Boot.v ===== *)
(** * Before [main]

    The parts of [machine/boot.S] that compute and store: where the kernel was loaded, the
    clearing of the bss, the first translation table.  The processor runs on physical
    addresses here, and so does the memory.  The symbols of the linker script are arguments. *)

From S2P Require Import Prelude Bitops Mem CString Mmu MmuThms.

Definition KERNEL_LOAD_ADDRESS_MASK : Z := 0x000fffff.
Definition KERNEL_LOAD_ADDRESS_ALIGIN : Z := 0x06000.
Definition MST_NCNB_AP_SRW_URW : Z :=
  MST |u Z.shiftl NCNB 2 |u Z.shiftl AP_SRW_URW 10 |u C2_BIT4.

(** The words the C code reads as [kernel_phy_start], [kernel_start] and [page_offset]. *)
Record load_place : Type := Mk_place { kernel_phy_start : Z; kernel_start : Z; page_offset : Z }.

(** [_start] is linked at [start] and runs at [here]; [None] is [boot_error]. *)
Definition find_place (start here : Z) : option load_place :=
  let phy := here -u KERNEL_LOAD_ADDRESS_ALIGIN in
  if negb (Z.eqb (here &u KERNEL_LOAD_ADDRESS_MASK) KERNEL_LOAD_ADDRESS_ALIGIN) then None
  else Some (Mk_place phy (start -u KERNEL_LOAD_ADDRESS_ALIGIN) (start -u here)).

(** The macro [va_to_pa] of the file. *)
Definition boot_pa (po va : Z) : Z := va -u po.

(** [look_up_proc] compares the first word behind [__platform_start] with the machine id. *)
Definition look_up_proc (platform_start po : Z) (m : mem) : option Z :=
  w ← load32 (boot_pa po platform_start) m; Some (if Z.eqb w 0x88 then 0 else 1).

(** [clear_bss], from the comparison on. *)
Fixpoint clear_words (fuel : nat) (r2 r1 : Z) (m : mem) : option mem :=
  match fuel with
  | O => None
  | S fuel' => if Z.ltb r2 r1 then m ← store32 r2 0 m; clear_words fuel' (r2 +u 4) r1 m else Some m
  end.

Definition clear_bss (bss_start bss_end po : Z) (m : mem) : option mem :=
  let r2 := boot_pa po bss_start in
  let r1 := boot_pa po bss_end in
  clear_words (S (Z.to_nat (r1 - r2))) r2 r1 m.

(** [set_mmu_table]: the loop at label 6, which tests at its end. *)
Fixpoint fill_table (fuel : nat) (r1 r2 r3 r4 r5 : Z) (m : mem) : option mem :=
  match fuel with
  | O => None
  | S fuel' =>
      let r6 := u32 (Z.shiftl ((r1 >>u 20) +u r5) 20) |u r3 in
      m ← store32 r4 r6 m;
      let r4 := r4 +u 4 in
      let r5 := r5 +u 1 in
      if Z.leb r5 r2 then fill_table fuel' r1 r2 r3 r4 r5 m else Some m
  end.

Definition set_mmu_table (po r0 r1 r2 r3 : Z) (m : mem) : option mem :=
  let r4 := boot_pa po KERNEL_BASE_ADDRESS in
  let r0 := u32 (Z.shiftl (r0 >>u 20) 2) in
  fill_table (S (Z.to_nat r2)) r1 r2 r3 (r4 +u r0) 0 m.

(** The megabytes of the kernel, as the code counts them. *)
Definition boot_megabytes (bss_end : Z) : Z :=
  let r5 := bss_end -u KERNEL_BASE_ADDRESS in
  let r5 := r5 +u 0x100000 in
  let r5 := r5 -u 1 in
  (r5 &u 0xfffff) >>u 20.

(** The table when the MMU is turned on: the kernel, the kernel where it is, the registers. *)
Definition boot_tables (bss_end po : Z) (m : mem) : option mem :=
  let r2 := boot_megabytes bss_end in
  let pa := boot_pa po KERNEL_BASE_ADDRESS in
  m ← set_mmu_table po KERNEL_BASE_ADDRESS pa r2 (MST_WB_AP_SRW_UN |u DOMAIN0) m;
  m ← set_mmu_table po pa pa r2 (MST_WB_AP_SRW_UN |u DOMAIN0) m;
  set_mmu_table po 0x48000000 0x48000000 0x200 (MST_NCNB_AP_SRW_URW |u DOMAIN0) m.

(** From [reset] to the jump to [main], with what is left: the place, the table base, the
    stack pointer, the memory. *)
Definition boot (start here platform_start bss_start bss_end : Z) (m : mem) : option (load_place * Z * Z * mem) :=
  p ← find_place start here;
  e ← look_up_proc platform_start p.(page_offset) m;
  if negb (Z.eqb e 0) then None else
  m ← clear_bss bss_start bss_end p.(page_offset) m;
  m ← boot_tables bss_end p.(page_offset) m;
  Some (p, boot_pa p.(page_offset) KERNEL_BASE_ADDRESS, u32 (KERNEL_BASE_ADDRESS + KERNEL_LOAD_ADDRESS_ALIGIN), m).

(** ** The walk *)

(** A first-level section found through the table at [ttb]. *)
Definition section_walk (ttb : Z) (m : mem) (va : Z) : option Z :=
  d ← load32 (ttb + 4 * (va >>u 20)) m;
  if Z.eqb (d mod 4) 2 then Some (2 ^ 20 * (d / 2 ^ 20) + va mod 2 ^ 20) else None.

Section boot.
Implicit Types (m : mem) (a n po q : Z).

Lemma lor_low q attr : 0 <= attr < 2 ^ 20 -> Z.lor (q * 2 ^ 20) attr = q * 2 ^ 20 + attr.
Proof.
  intros Ha. rewrite <- Z.add_lor_land.
  replace (Z.land (q * 2 ^ 20) attr) with 0; [lia|].
  apply Z.bits_inj'. intros i Hi. rewrite Z.bits_0, Z.land_spec.
  destruct (Z.ltb_spec i 20); [by rewrite Z.mul_pow2_bits_low|].
  rewrite <- (Z.mod_small attr (2 ^ 20)) by done. by rewrite Z.mod_pow2_bits_high, andb_false_r by lia.
Qed.

(** What one turn of the loop stores. *)
Lemma des_word r1 r3 j :
  0 <= r1 < 2 ^ 32 -> 0 <= r3 < 2 ^ 20 -> 0 <= j -> r1 / 2 ^ 20 + j < 2 ^ 12 ->
  u32 (Z.shiftl ((r1 >>u 20) +u j) 20) |u r3 = (r1 / 2 ^ 20 + j) * 2 ^ 20 + r3.
Proof.
  intros H1 H3 Hj H. assert (0 <= r1 / 2 ^ 20) by (apply Z.div_pos; lia).
  rewrite Z.shiftr_div_pow2, Z.shiftl_mul_pow2, (u32_small (r1 / 2 ^ 20 + j)), u32_small by lia.
  by apply lor_low.
Qed.

(** [n + 1] descriptors from [a] on. *)
Lemma fill_table_ok (k : nat) r1 r2 r3 a j m :
  0 <= r1 < 2 ^ 32 -> r1 / 2 ^ 20 + r2 < 2 ^ 12 -> 0 <= r3 < 2 ^ 20 -> 0 <= j -> j + Z.of_nat k = r2 ->
  0 <= a -> a + 4 * (Z.of_nat k + 1) < 2 ^ 32 -> room m a (4 * (Z.of_nat k + 1)) ->
  exists m', fill_table (S k) r1 r2 r3 a j m = Some m' /\
    words_at m' a (Z.of_nat k + 1) (fun i => (r1 / 2 ^ 20 + j + i) * 2 ^ 20 + r3) /\
    (forall x, ~ (a <= x < a + 4 * (Z.of_nat k + 1)) -> m' !! x = m !! x) /\
    (forall b l, room m b l -> room m' b l).
Proof.
  intros H1 H2 H3. assert (Hq : 0 <= r1 / 2 ^ 20) by (apply Z.div_pos; lia).
  assert (Turn : forall k a j m, 0 <= j -> j <= r2 -> room m a 4 ->
    let w := (r1 / 2 ^ 20 + j) * 2 ^ 20 + r3 in
    0 <= w < 2 ^ 32 /\ fill_table (S k) r1 r2 r3 a j m =
      (if Z.leb (j +u 1) r2 then fill_table k r1 r2 r3 (a +u 4) (j +u 1) (write a (word_list w) m)
       else Some (write a (word_list w) m))).
  { clear k a j m. intros k a j m Hj Hle Hr w. split; [unfold w; nia|]. cbn [fill_table].
    by rewrite des_word, store32_ok, bind_Some_eq by (done || lia). }
  revert a j m. induction k as [|k IH]; intros a j m Hj Hk Ha Hl Hr.
  - destruct (Turn 0%nat a j m) as [Hw E]; [lia|lia|by apply (room_le _ _ _ 0 4) in Hr; [rewrite Z.add_0_r in Hr|lia..]|].
    rewrite E, (proj2 (Z.leb_gt (j +u 1) r2)) by (rewrite u32_small by lia; lia).
    eexists. split; [reflexivity|]. split_and!.
    + intros i Hi. replace i with 0 by lia. rewrite Z.mul_0_r, Z.add_0_r, !Z.add_0_r.
      apply load32_bytes; [done|apply write_bytes].
    + intros x Hx. apply lookup_write_out. cbn. lia.
    + intros b l Hb. by apply room_write.
  - destruct (Turn (S k) a j m) as [Hw E]; [lia|lia|by apply (room_le _ _ _ 0 4) in Hr; [rewrite Z.add_0_r in Hr|lia..]|].
    rewrite E, (u32_small (j + 1)), (u32_small (a + 4)), (proj2 (Z.leb_le (j + 1) r2)) by lia.
    set (m1 := write a _ m).
    destruct (IH (a + 4) (j + 1) m1) as (m' & E1 & Hws & Hf & Hrm); [lia..|by apply room_write, (room_le _ _ _ 4 _ Hr); lia|].
    exists m'. split; [exact E1|]. split_and!.
    + intros i Hi. destruct (Z.eq_dec i 0) as [->|Hne].
      * rewrite Z.mul_0_r, Z.add_0_r, Z.add_0_r, (load32_frame a m1) by (intros x Hx; apply Hf; lia).
        apply load32_bytes; [done|apply write_bytes].
      * replace (a + 4 * i) with (a + 4 + 4 * (i - 1)) by lia. rewrite Hws by lia. f_equal. lia.
    + intros x Hx. rewrite Hf by lia. apply lookup_write_out. cbn. lia.
    + intros b l Hb. by apply Hrm, room_write.
Qed.

(** Two tables walk an address alike. *)
Definition same_walk ttb m m' va : Prop := section_walk ttb m' va = section_walk ttb m va.

Lemma set_mmu_table_ok po v p (n : Z) attr m :
  let ttb := boot_pa po KERNEL_BASE_ADDRESS in
  0 <= v < 2 ^ 32 -> v mod 2 ^ 20 = 0 -> 0 <= p < 2 ^ 32 -> p mod 2 ^ 20 = 0 -> 0 <= n ->
  v / 2 ^ 20 + n < 2 ^ 12 -> p / 2 ^ 20 + n < 2 ^ 12 -> 0 <= attr < 2 ^ 20 -> attr mod 4 = 2 ->
  ttb + FIRST_LEVEL < 2 ^ 32 -> room m ttb FIRST_LEVEL ->
  exists m', set_mmu_table po v p n attr m = Some m' /\
    (forall va, v <= va < v + (n + 1) * 2 ^ 20 -> section_walk ttb m' va = Some (p + (va - v))) /\
    (forall va, 0 <= va < 2 ^ 32 -> ~ (v <= va < v + (n + 1) * 2 ^ 20) -> same_walk ttb m m' va) /\
    (forall x, ~ (ttb <= x < ttb + FIRST_LEVEL) -> m' !! x = m !! x) /\
    (forall b l, room m b l -> room m' b l).
Proof.
  intros ttb Hv Hva Hp Hpa Hn Hvn Hpn Hat H4 Ht Hr.
  assert (Ht0 : 0 <= ttb) by apply u32_range. assert (0 <= v / 2 ^ 20) by (apply Z.div_pos; lia).
  unfold FIRST_LEVEL in Ht, Hr |- *.
  destruct (fill_table_ok (Z.to_nat n) p n attr (ttb + 4 * (v / 2 ^ 20)) 0 m) as (m' & E & Hw & Hf & Hk); try lia.
  { apply (room_le _ _ _ _ _ Hr); lia. }
  exists m'. unfold set_mmu_table. fold ttb.
  rewrite Z.shiftr_div_pow2, Z.shiftl_mul_pow2, (u32_small (v / 2 ^ 20 * 2 ^ 2)), u32_small by lia.
  replace (v / 2 ^ 20 * 2 ^ 2) with (4 * (v / 2 ^ 20)) by lia.
  split; [exact E|]. rewrite Z2Nat.id in Hw, Hf by lia.
  split_and!; [..|intros x Hx; apply Hf; lia|done].
  - intros va Hr1. destruct (section_split va v) as [E1 E2]; [done|lia|].
    assert (Hj : 0 <= (va - v) / 2 ^ 20 < n + 1) by (split; [apply Z.div_pos; lia|apply Z.div_lt_upper_bound; lia]).
    pose proof (Hw _ Hj) as Hl. pose proof (Z.div_mod (va - v) (2 ^ 20)) as Ed. pose proof (Z.div_mod p (2 ^ 20)) as Ep.
    unfold section_walk. rewrite Z.shiftr_div_pow2, E1 by lia.
    replace (ttb + 4 * (v / 2 ^ 20 + (va - v) / 2 ^ 20)) with (ttb + 4 * (v / 2 ^ 20) + 4 * ((va - v) / 2 ^ 20)) by lia.
    rewrite Hl, bind_Some_eq. rewrite (Z.mul_comm _ (2 ^ 20)).
    destruct (section_des_fields (p / 2 ^ 20 + 0 + (va - v) / 2 ^ 20) attr Hat H4) as [-> ->].
    rewrite E2. cbn [Z.eqb Pos.eqb]. f_equal. lia.
  - intros va Hr1 Hout. unfold same_walk, section_walk. rewrite Z.shiftr_div_pow2 by lia.
    rewrite (load32_frame _ m); [done|]. intros x Hx. apply Hf.
    pose proof (Z.div_mod va (2 ^ 20)) as Evv. pose proof (Z.mod_pos_bound va (2 ^ 20)). pose proof (Z.div_mod v (2 ^ 20)) as Ev.
    destruct (Z_lt_le_dec va v).
    + assert (va / 2 ^ 20 < v / 2 ^ 20) by (apply Z.div_lt_upper_bound; lia). lia.
    + assert (v / 2 ^ 20 + (n + 1) <= va / 2 ^ 20) by (apply Z.div_le_lower_bound; lia). lia.
Qed.

(** The count keeps what the rounding was to cut off. *)
Lemma boot_megabytes_zero bss_end : boot_megabytes bss_end = 0.
Proof.
  unfold boot_megabytes. change 0xfffff with (Z.ones 20). rewrite Z.land_ones, Z.shiftr_div_pow2 by lia.
  apply Z.div_small, Z.mod_pos_bound. lia.
Qed.

(** Clearing [n] words. *)
Lemma clear_words_ok (n k : nat) a m :
  0 <= a -> a + 4 * Z.of_nat n < 2 ^ 32 -> (n < k)%nat -> room m a (4 * Z.of_nat n) ->
  exists m', clear_words k a (a + 4 * Z.of_nat n) m = Some m' /\
    (forall x, a <= x < a + 4 * Z.of_nat n -> m' !! x = Some 0) /\
    (forall x, ~ (a <= x < a + 4 * Z.of_nat n) -> m' !! x = m !! x) /\
    (forall b l, room m b l -> room m' b l).
Proof.
  revert k a m. induction n as [|n IH]; intros [|k] a m Ha Hl Hk Hr; [lia| |lia|]; cbn [clear_words].
  { rewrite Z.add_0_r, Z.ltb_irrefl. exists m. split; [done|]. split; [lia|done]. }
  rewrite (proj2 (Z.ltb_lt _ _)) by lia. rewrite store32_ok, bind_Some_eq by (intros i Hi; apply Hr; lia).
  rewrite u32_small by lia. set (m1 := write a _ m).
  destruct (IH k (a + 4) m1) as (m' & E & Hz & Hf & Hrm); [lia..|by apply room_write, (room_le _ _ _ 4 _ Hr); lia|].
  replace (a + 4 * Z.of_nat (S n)) with (a + 4 + 4 * Z.of_nat n) by lia.
  exists m'. split; [exact E|]. split_and!.
  - intros x Hx. destruct (Z_lt_le_dec x (a + 4)); [|apply Hz; lia]. rewrite Hf by lia.
    replace x with (a + Z.of_nat (Z.to_nat (x - a))) by lia. apply lookup_write_in.
    change (word_list 0) with (replicate 4 0). apply lookup_replicate_2. lia.
  - intros x Hx. rewrite Hf by lia. apply lookup_write_out. cbn. lia.
  - intros b l Hb. by apply Hrm, room_write.
Qed.

(** The three ranges of the first table, for a kernel below the registers. *)
Lemma boot_tables_ok phy po bss_end m :
  boot_pa po KERNEL_BASE_ADDRESS = phy -> 0 <= phy -> phy mod 2 ^ 20 = 0 -> phy + 2 ^ 20 <= 0x48000000 ->
  room m phy FIRST_LEVEL ->
  exists m', boot_tables bss_end po m = Some m' /\
    (forall va, 0x80000000 <= va < 0x80100000 -> section_walk phy m' va = Some (phy + (va - 0x80000000))) /\
    (forall pa, phy <= pa < phy + 0x100000 -> section_walk phy m' pa = Some pa) /\
    (forall io, 0x48000000 <= io < 0x68000000 -> section_walk phy m' io = Some io) /\
    (forall x, ~ (phy <= x < phy + FIRST_LEVEL) -> m' !! x = m !! x).
Proof.
  intros Et Hphy Hmb Hlow Hr. unfold boot_tables. rewrite boot_megabytes_zero, Et.
  assert (Q : phy / 2 ^ 20 < 2 ^ 11) by (apply Z.div_lt_upper_bound; lia).
  assert (T : forall v p n attr m, room m phy FIRST_LEVEL -> 0 <= v < 2 ^ 32 -> v mod 2 ^ 20 = 0 -> 0 <= p < 2 ^ 32 ->
    p mod 2 ^ 20 = 0 -> 0 <= n -> v / 2 ^ 20 + n < 2 ^ 12 -> p / 2 ^ 20 + n < 2 ^ 12 -> 0 <= attr < 2 ^ 20 -> attr mod 4 = 2 ->
    exists m', set_mmu_table po v p n attr m = Some m' /\
      (forall va, v <= va < v + (n + 1) * 2 ^ 20 -> section_walk phy m' va = Some (p + (va - v))) /\
      (forall va, 0 <= va < 2 ^ 32 -> ~ (v <= va < v + (n + 1) * 2 ^ 20) -> same_walk phy m m' va) /\
      (forall x, ~ (phy <= x < phy + FIRST_LEVEL) -> m' !! x = m !! x) /\ room m' phy FIRST_LEVEL).
  { intros v p n attr m1 Hr1 H1 H2 H3 H4 H5 H6 H7 H8 H9. pose proof (set_mmu_table_ok po v p n attr m1) as H. cbv zeta in H.
    rewrite Et in H. destruct H as (m' & H); try done; [unfold FIRST_LEVEL; lia|]. exists m'. naive_solver. }
  destruct (T KERNEL_BASE_ADDRESS phy 0 (MST_WB_AP_SRW_UN |u DOMAIN0) m) as (m2 & E2 & Hm2 & Hs2 & Hf2 & Hr2); try done; try lia.
  rewrite E2, bind_Some_eq.
  destruct (T phy phy 0 (MST_WB_AP_SRW_UN |u DOMAIN0) m2) as (m3 & E3 & Hm3 & Hs3 & Hf3 & Hr3); try done; try lia.
  rewrite E3, bind_Some_eq.
  destruct (T 0x48000000 0x48000000 0x200 (MST_NCNB_AP_SRW_URW |u DOMAIN0) m3) as (m4 & E4 & Hm4 & Hs4 & Hf4 & _); try done; try lia.
  exists m4. split; [exact E4|]. unfold same_walk, KERNEL_BASE_ADDRESS in *. split_and!.
  - intros va Hva. rewrite Hs4, Hs3, Hm2 by lia. done.
  - intros pa Hpa. rewrite Hs4, Hm3 by lia. f_equal. lia.
  - intros io Hio. rewrite Hm4 by lia. f_equal. lia.
  - intros x Hx. by rewrite Hf4, Hf3, Hf2.
Qed.

(** C8. From [_start] at the physical address [phy + 0x6000], with the kernel linked at
    0x80006000, on a board the image was built for, in memory below the registers: the
    code reaches [main] with the place of the kernel recorded, its bss cleared, and a table at
    [phy] through which the walk finds the first megabyte of the kernel, the same megabyte
    at its own address, where the processor is when the table is turned on, and the
    registers; no other byte of memory is changed. *)
Theorem boot_reaches_main phy platform_start bss_start (n : nat) m
    (Hphy : 0 <= phy) (Hmb : phy mod 2 ^ 20 = 0) (Hlow : phy + 2 ^ 20 <= 0x48000000)
    (Hid : load32 (platform_start - (0x80000000 - phy)) m = Some 0x88)
    (Hps : 0x80000000 <= platform_start < 2 ^ 32)
    (Hbss : 0x80006000 <= bss_start) (Hend : bss_start + 4 * Z.of_nat n < 2 ^ 32)
    (Htable : room m phy FIRST_LEVEL)
    (Hroom : room m (bss_start - (0x80000000 - phy)) (4 * Z.of_nat n)) :
  exists m', boot 0x80006000 (phy + 0x6000) platform_start bss_start (bss_start + 4 * Z.of_nat n) m =
      Some (Mk_place phy 0x80000000 (0x80000000 - phy), phy, 0x80006000, m') /\
    (forall va, 0x80000000 <= va < 0x80100000 -> section_walk phy m' va = Some (va - (0x80000000 - phy))) /\
    (forall pa, phy <= pa < phy + 0x100000 -> section_walk phy m' pa = Some pa) /\
    (forall io, 0x48000000 <= io < 0x68000000 -> section_walk phy m' io = Some io) /\
    (forall va, bss_start <= va < bss_start + 4 * Z.of_nat n -> m' !! (va - (0x80000000 - phy)) = Some 0) /\
    (forall x, ~ (phy <= x < phy + FIRST_LEVEL) ->
       ~ (bss_start <= x + (0x80000000 - phy) < bss_start + 4 * Z.of_nat n) -> m' !! x = m !! x).
Proof.
  set (po := 0x80000000 - phy) in *. assert (Hpo : 0 <= po <= 0x80000000) by (unfold po; lia).
  unfold boot, find_place. change KERNEL_LOAD_ADDRESS_MASK with (Z.ones 20). rewrite Z.land_ones by lia.
  assert (Eal : (phy + 0x6000) mod 2 ^ 20 = KERNEL_LOAD_ADDRESS_ALIGIN).
  { rewrite Z.add_mod, Hmb by lia. reflexivity. }
  rewrite Eal, Z.eqb_refl. cbn [negb]. rewrite bind_Some_eq. cbn [page_offset].
  replace (0x80006000 -u (phy + 0x6000)) with po by (rewrite u32_small; unfold po; lia).
  replace (phy + 0x6000 -u KERNEL_LOAD_ADDRESS_ALIGIN) with phy by (unfold KERNEL_LOAD_ADDRESS_ALIGIN; rewrite u32_small; lia).
  assert (Epa : forall va, 0x80000000 <= va < 2 ^ 32 -> boot_pa po va = va - po) by (intros; apply u32_small; lia).
  unfold look_up_proc. rewrite (Epa platform_start), Hid, !bind_Some_eq by done. cbn [Z.eqb negb].
  unfold clear_bss. rewrite (Epa bss_start), (Epa (bss_start + _)) by lia.
  replace (bss_start + 4 * Z.of_nat n - po) with (bss_start - po + 4 * Z.of_nat n) by lia.
  destruct (clear_words_ok n (S (Z.to_nat (bss_start - po + 4 * Z.of_nat n - (bss_start - po)))) (bss_start - po) m)
    as (m1 & E1 & Hz1 & Hf1 & Hr1); [lia..|done|]. rewrite E1, bind_Some_eq.
  assert (Et : boot_pa po KERNEL_BASE_ADDRESS = phy) by (rewrite Epa by (unfold KERNEL_BASE_ADDRESS; lia); unfold po, KERNEL_BASE_ADDRESS; lia).
  destruct (boot_tables_ok phy po (bss_start + 4 * Z.of_nat n) m1) as (m2 & E2 & Hk & Hi & Hio & Hf); try done; [by apply Hr1|].
  rewrite E2, bind_Some_eq. exists m2. split; [by rewrite Et|]. unfold FIRST_LEVEL in *. split_and!; try done.
  - intros va Hva. rewrite Hk by done. f_equal. unfold po. lia.
  - intros va Hva. rewrite Hf, Hz1 by (unfold po; lia). done.
  - intros x Hx Hy. rewrite Hf, Hf1 by lia. done.
Qed.
End boot.

(** ** The board

    The image of the tq2440 at 0x30000000: the platform word at 0x80010000, sixteen words of
    bss behind it. *)

Definition demo_ram : mem :=
  write 0x30010000 (word_list 0x88) (write 0x30010004 (replicate 64 0xff) (write 0x30000000 (replicate (Z.to_nat FIRST_LEVEL) 0xff) ∅)).

Lemma boot_reaches_main_witness :
  exists m', boot 0x80006000 0x30006000 0x80010000 0x80010004 0x80010044 demo_ram =
      Some (Mk_place 0x30000000 0x80000000 0x50000000, 0x30000000, 0x80006000, m') /\
    section_walk 0x30000000 m' 0x80012345 = Some 0x30012345 /\ m' !! 0x30010020 = Some 0.
Proof.
  destruct (boot_reaches_main 0x30000000 0x80010000 0x80010004 16 demo_ram) as (m' & E & Hk & _ & _ & Hz & _);
    [lia|reflexivity|lia| |lia|lia|lia| | |].
  - apply load32_bytes; [lia|]. apply write_bytes.
  - do 2 apply room_write. intros i Hi.
    apply (room_write_self 0x30000000 (replicate (Z.to_nat FIRST_LEVEL) 0xff)). rewrite length_replicate. lia.
  - apply room_write. apply (room_write_self 0x30010004 (replicate 64 0xff)).
  - exists m'. split; [exact E|]. split; [exact (Hk 0x80012345 ltac:(lia))|exact (Hz 0x80010020 ltac:(lia))].
Defined.
