(* ===== verification/SlabFirst.v ===== *)
(** * The first slice from [kmalloc]

    [slab_init], and the [kmalloc] after it: there is no slab page and no header page yet,
    so two pages are taken, the slice is the start of the first and the header comes from
    the second.  Afterwards the common path of [SlabAlloc] is open. *)

From S2P Require Import Prelude ListHead TaskStruct SchedBoot Bitops Mem CString MmTypes Pages.
From S2P Require Import PagesInv Mmu MmuThms MmBoot MmBootThms KernelLocks TaskMem TaskMemInv.
From S2P Require Import Trap TrapThms Slab SlabThms SlabAlloc.

Section first.
Context {L : Type} {LC : LockCalls L} {LO : LockOps L} (ks : Z) (zone_mutex : Z -> Z) (slab_mutex off : Z).
Hypothesis Hks : 0 < ks < 2 ^ 32.
Implicit Types (s : slab_state L) (pg size : Z) (k : page) (z : mm_zone).

Abbreviation ready := (run_ready ks zone_mutex off).

(** The lists of the allocator. *)
Inductive slab_head : node -> Prop :=
  | sh_free : slab_head SlabFreeHeader
  | sh_table : slab_head SlabTableList
  | sh_size i : 0 <= i < SLAB_NODE -> slab_head (SlabList i).

Record slab_fresh s : Prop := {
  fr_page : s.(slab_page_current) = None;
  fr_table : s.(table_page_current) = None;
  fr_total : s.(table_total_pages) = 0;
  fr_lists : forall n, slab_head n -> is_list s.(mm).(plists) n []
}.

(** ** Initialisation *)

Lemma slab_init_ok (init_lock : Z -> L -> L) s :
  s.(slab_page_current) = None ->
  exists s', slab_init slab_mutex init_lock s = Some s' /\ slab_fresh s' /\ s'.(headers) = s.(headers) /\
    s'.(mm).(locks) = init_lock slab_mutex s.(mm).(locks) /\
    s'.(mm).(bank) = s.(mm).(bank) /\ s'.(mm).(page_map) = s.(mm).(page_map) /\
    s'.(mm).(page_table) = s.(mm).(page_table) /\
    (forall n, ~ slab_head n -> s'.(mm).(plists) !! n = s.(mm).(plists) !! n).
Proof.
  intros Hcur. unfold slab_init.
  destruct (for_range_inv (fun i x => (exists p, x = with_mm (with_plists p s.(mm)) s) /\
      (forall j, 0 <= j < i -> linked_self x.(mm).(plists) (SlabList j)) /\
      (forall n, ~ slab_head n -> x.(mm).(plists) !! n = s.(mm).(plists) !! n)) (Z.to_nat SLAB_NODE) 0
    (fun i s => lift_heap (fun p => Some (init_list (SlabList i) p)) s) s) as (s1 & E1 & [p ->] & Hl & Hf).
  - split; [exists s.(mm).(plists); by destruct s as [[]]|]. split; [lia|done].
  - intros j x Hj [[p ->] [Hl Hf]]. unfold lift_heap. rewrite bind_Some_eq. eexists. split; [done|].
    split; [by eexists|]. cbn [mm with_mm plists with_plists] in *. split.
    + intros i Hi. apply linked_self_init. destruct (decide (i = j)) as [->|]; [by right|left; apply Hl; lia].
    + intros n Hn. unfold init_list. rewrite lookup_insert_ne; [exact (Hf n Hn)|]. intros <-. apply Hn. constructor.
      rewrite Z2Nat.id in Hj by done. lia.
  - rewrite E1, bind_Some_eq. unfold lift_heap. rewrite !bind_Some_eq. eexists. split; [done|].
    cbn [mm with_mm plists with_plists] in Hl, Hf. rewrite Z2Nat.id in Hl by done.
    split; [|split_and!; try reflexivity].
    + constructor; [exact Hcur|reflexivity|reflexivity|]. cbn [mm with_mm plists with_plists with_locks with_table]. intros n Hn.
      apply linked_self_empty. destruct Hn as [| |i Hi]; apply linked_self_init; [by right|left; apply linked_self_init; by right|].
      left. apply linked_self_init. left. apply Hl. lia.
    + intros n Hn. cbn [mm with_mm plists with_plists with_locks with_table]. unfold init_list.
      rewrite !lookup_insert_ne by (intros <-; apply Hn; constructor). exact (Hf n Hn).
Qed.

(** ** A page for the allocator *)

(** Taking one page, seen from the slab allocator. *)
Lemma take_slab_page n z s flag :
  ready (n + 1) z s.(mm) -> 0 <= n -> zone_id flag = MM_ZONE_NORMAL ->
  let c := z.(bm_current) in
  exists t z', get_free_page ks zone_mutex flag s.(mm) = Some (page_id_to_va ks c, t) /\
    ready n z' t /\ z'.(bm_current) = c + 1 /\ z'.(bm_end) = z.(bm_end) /\
    page_of c (with_mm t s) = Some (init_page ks c 1 flag off c) /\
    (forall j, j <> c -> page_of j (with_mm t s) = page_of j s) /\
    (forall x, t.(plists) !! x = fresh_nodes c 1 s.(mm).(plists) x) /\
    (forall j, bit_at t.(page_map) j = Z.eqb j c || bit_at s.(mm).(page_map) j) /\ (forall m, lk_free s.(mm).(locks) m -> lk_free t.(locks) m).
Proof.
  intros Hr Hn Hid c. subst c. set (c := z.(bm_current)). destruct (ready_take ks zone_mutex off Hks 1 n z s.(mm) flag Hr ltac:(lia) Hn Hid)
    as (t & E & Hr' & Ht & Ec). fold c in E, Hr', Ht, Ec.
  exists t, (taken c 1 z). split; [exact E|]. split; [done|]. split; [done|]. split; [done|].
  unfold page_of, get_page_struct. cbn [mm with_mm]. split; [|split; [|split; [|split]]].
  - rewrite (pt_pages _ _ _ _ _ _ _ _ Ht), in_run_one, Z.eqb_refl.
    unfold page_to_va, page_to_page_id. rewrite (rr_off _ _ _ _ _ _ _ Hr) by lia. done.
  - intros j Hj. by rewrite (pt_pages _ _ _ _ _ _ _ _ Ht), in_run_one, (proj2 (Z.eqb_neq j c)).
  - apply (pt_plists _ _ _ _ _ _ _ _ Ht).
  - intros j. rewrite (pt_bits _ _ _ _ _ _ _ _ Ht), in_run_one. by destruct (Z.eqb j c).
  - apply (pt_locks _ _ _ _ _ _ _ _ Ht).
Qed.

(** Page structures and list nodes do not matter to a run. *)
Lemma ready_slab n z (t t' : mm_state L) :
  ready n z t -> t'.(bank) = t.(bank) -> t'.(page_map) = t.(page_map) ->
  length t'.(page_table) = length t.(page_table) -> t'.(locks) = t.(locks) -> ready n z t'.
Proof.
  intros Hr H1 H2 H3 H4. apply (run_reset ks zone_mutex off (Mk_origin t.(page_map) z.(bm_current) (z.(z_free_pages) + z.(bm_current)))).
  by apply (run_from_same ks zone_mutex off _ n z t); [constructor|].
Qed.

(** Only the structure of page [pg] changed. *)
Lemma set_page_at pg f s k :
  page_of pg s = Some k ->
  exists t, set_page pg f s = Some (with_mm (with_page_table t s.(mm)) s) /\
    length t = length s.(mm).(page_table) /\
    forall j, page_of j (with_mm (with_page_table t s.(mm)) s) = if Z.eqb j pg then Some (f k) else page_of j s.
Proof.
  intros Hp. pose proof (set_page_ok pg f s k Hp) as E. eexists. split; [exact E|].
  split; [apply length_insert|]. intros j. by apply (page_of_set pg f s).
Qed.

(** The first page for headers. *)
Lemma get_header_page_ok n z s :
  ready (n + 1) z s.(mm) -> 0 <= n -> s.(table_total_pages) = 0 ->
  is_list s.(mm).(plists) SlabTableList [] ->
  let c := z.(bm_current) in
  exists s' z' kt, get_header_page ks zone_mutex s = Some (Some (page_id_to_va ks c), s') /\
    ready n z' s'.(mm) /\ z'.(bm_current) = c + 1 /\
    page_of c s' = Some kt /\ kt.(free_base) = page_id_to_va ks c + SLAB_HEADER_SIZE /\
    (forall j, j <> c -> page_of j s' = page_of j s) /\
    s'.(table_page_current) = Some c /\ s'.(header_in_page) = 1 /\
    s'.(slab_page_current) = s.(slab_page_current) /\ s'.(headers) = s.(headers) /\
    (forall x, x <> SlabTableList -> x <> PagePlist c -> s'.(mm).(plists) !! x = s.(mm).(plists) !! x) /\
    (forall m, lk_free s.(mm).(locks) m -> lk_free s'.(mm).(locks) m) /\
    (forall j, bit_at s.(mm).(page_map) j = true -> bit_at s'.(mm).(page_map) j = true).
Proof.
  intros Hr Hn Htot Hl c. subst c. set (c := z.(bm_current)).
  destruct (take_slab_page n z s GFP_SLAB_HEADER Hr Hn eq_refl) as (t & z' & E & Hr' & Ec & _ & Hp & Hpo & Hpl & Hbit & Hlk).
  fold c in E, Hr', Ec, Hp, Hpo, Hpl.
  destruct (ready_va ks zone_mutex off Hks (n + 1) z s.(mm) Hr) as (Eva & Hne & Hend). fold c in Eva, Hne.
  pose proof (rr_cur _ _ _ _ _ _ _ Hr) as [Hc1 Hc2]. fold c in Hc1, Hc2.
  pose proof (zr_bounds _ _ _ _ (rr_ready _ _ _ _ _ _ _ Hr)) as Hb.
  assert (Eid : va_to_page ks (page_id_to_va ks c) = c) by (unfold va_to_page, get_page; apply page_id_roundtrip; lia).
  unfold get_header_page. rewrite E, bind_Some_eq. cbv beta iota zeta. rewrite (proj2 (Z.eqb_neq _ 0)) by done.
  rewrite Eid. set (s0 := with_mm t s) in *.
  destruct (set_page_at c (fun k => with_pg_free_size (u16 PAGE_SIZE) (with_free_base (page_to_va ks c) k)) s0 _ Hp)
    as (t1 & E1 & Hl1 & Hp1). rewrite E1, bind_Some_eq. set (s1 := with_mm _ s0) in *.
  assert (Hl' : is_list t.(plists) SlabTableList []).
  { apply (is_list_frame s.(mm).(plists)); [|done]. intros x ->%list_elem_of_singleton. by rewrite Hpl. }
  destruct (list_add_spec t.(plists) _ _ (PagePlist c) Hl') as (h2 & E2 & _ & _ & Hf2); [set_solver| |].
  { rewrite Hpl. unfold fresh_nodes. rewrite in_run_one, Z.eqb_refl. by eexists. }
  unfold lift_heap at 1. change (plists (mm s1)) with t.(plists). rewrite E2, !bind_Some_eq.
  set (s3 := with_table _ _ _ _ _). unfold get_slab_header_from_page.
  assert (Hp3 : forall j, page_of j s3 = page_of j s1) by done.
  pose proof (Hp1 c) as Hp1c. rewrite Z.eqb_refl, <- Hp3 in Hp1c. rewrite Hp1c, !bind_Some_eq.
  destruct (set_page_at c (fun k => with_pg_free_size (u16 (k.(pg_free_size) - SLAB_HEADER_SIZE))
    (with_free_base (k.(free_base) +u SLAB_HEADER_SIZE) k)) s3 _ Hp1c) as (t4 & E4 & Hl4 & Hp4).
  rewrite E4, bind_Some_eq. set (s4 := with_mm _ s3) in *. rewrite page_get_lift.
  pose proof (Hp4 c) as Hp4c. rewrite Z.eqb_refl in Hp4c.
  destruct (set_page_at c (fun k => with_pg_usage (u8 (k.(pg_usage) + 1)) k) s4 _ Hp4c) as (t5 & E5 & Hl5 & Hp5).
  rewrite E5, !bind_Some_eq. set (s5 := with_mm _ s4) in *.
  pose proof (Hp5 c) as Hp5c. rewrite Z.eqb_refl in Hp5c.
  exists s5, z'. eexists. split; [done|]. split_and!; try done.
  - apply (ready_slab n z' t); try done. change (length t5 = length t.(page_table)). rewrite Hl5.
    change (length t4 = length t.(page_table)). rewrite Hl4. exact Hl1.
  - cbn [free_base with_pg_usage with_free_base with_pg_free_size]. apply u32_small. unfold SLAB_HEADER_SIZE.
    change (page_to_va ks c) with (page_id_to_va ks c). lia.
  - intros j Hj. rewrite Hp5, Hp4, Hp3, Hp1, !(proj2 (Z.eqb_neq j c)) by done. by apply Hpo.
  - intros x Hx1 Hx2. change (h2 !! x = s.(mm).(plists) !! x). rewrite Hf2 by set_solver. rewrite Hpl.
    apply fresh_other. by intros i -> ->.
  - intros j Hj. change (bit_at t.(page_map) j = true). by rewrite Hbit, Hj, orb_true_r.
Qed.

(** ** The first slice *)

(** A size with room for two slices in a page. *)
Record small_size size ns : Prop := {
  ss_size : 0 < size < PAGE_SIZE;
  ss_new : get_new_alloc_size size GFP_KERNEL = ns;
  ss_room : 0 < ns /\ 2 * ns <= PAGE_SIZE;
  ss_page : is_aligin (u32 ns) PAGE_SIZE = false /\ s32 (page_nr (u32 ns)) = 1;
  ss_list : exists i, slab_list (list_id ns) = Some (SlabList i) /\ 0 <= i < SLAB_NODE
}.

(** [get_new_slab] when the allocator has no page. *)
Lemma first_slab_ok n z s size ns :
  ready (n + 2) z s.(mm) -> 0 <= n -> slab_fresh s -> small_size size ns ->
  let c := z.(bm_current) in
  exists s' z' k, get_new_slab ks zone_mutex ns GFP_KERNEL s = Some (page_id_to_va ks c, s') /\
    ready n z' s'.(mm) /\ z'.(bm_current) = c + 2 /\
    slab_ready ks s' size c [page_id_to_va ks (c + 1)] k (page_id_to_va ks (c + 1) + SLAB_HEADER_SIZE) /\
    k.(free_base) = page_id_to_va ks c + ns /\
    (forall m, lk_free s.(mm).(locks) m -> lk_free s'.(mm).(locks) m).
Proof.
  intros Hr Hn [F1 F2 F3 F4] [Hsz Hnew Hroom [Hal Hnr] (li & Hli & Hlr)] c. subst c. set (c := z.(bm_current)).
  replace (n + 2) with (n + 1 + 1) in Hr by lia.
  destruct (take_slab_page (n + 1) z s GFP_KERNEL Hr ltac:(lia) eq_refl)
    as (t & z1 & E & Hr1 & Ec1 & _ & Hp & Hpo & Hpl & Hbit & Hlk). fold c in E, Ec1, Hp, Hpo, Hpl, Hbit.
  destruct (ready_va ks zone_mutex off Hks _ z s.(mm) Hr) as (Eva & Hne & Hend). fold c in Eva, Hne.
  pose proof (rr_cur _ _ _ _ _ _ _ Hr) as [Hc1 Hc2]. fold c in Hc1, Hc2.
  pose proof (zr_bounds _ _ _ _ (rr_ready _ _ _ _ _ _ _ Hr)) as Hb.
  assert (Eid : va_to_page ks (page_id_to_va ks c) = c) by (unfold va_to_page, get_page; apply page_id_roundtrip; lia).
  assert (Eva1 : page_id_to_va ks (c + 1) = ks + 4096 * (c + 1)) by (apply page_va_eq; lia).
  unfold get_new_slab. change (Z.eqb GFP_KERNEL GFP_DMA) with false. change (Z.eqb GFP_KERNEL GFP_RES) with false.
  cbn [orb]. unfold get_kernel_slab. rewrite Hal, Hnr. unfold get_free_page in E. rewrite E, bind_Some_eq.
  cbv beta iota zeta. rewrite (proj2 (Z.eqb_neq _ 0) Hne). change (Z.ltb 1 1) with false. cbv beta iota.
  rewrite bind_Some_eq. replace (page_id_to_va ks c +u u32 ((1 - 1) * PAGE_SIZE)) with (page_id_to_va ks c)
    by (change (u32 ((1 - 1) * PAGE_SIZE)) with 0; rewrite Z.add_0_r, u32_small; lia).
  rewrite Eid. set (s0 := with_mm t s) in *.
  destruct (set_page_at c (fun k => with_pg_usage (u8 (k.(pg_usage) - 1)) (with_pg_flag (k.(pg_flag) |u F_GFP_SLAB) k))
    s0 _ Hp) as (t1 & E1 & Hl1 & Hp1). rewrite E1, bind_Some_eq. set (s1 := with_mm _ s0) in *.
  replace (ns - (1 - 1) * PAGE_SIZE) with ns by lia.
  assert (Hkeep : forall hd, slab_head hd -> is_list s1.(mm).(plists) hd []).
  { intros hd Hhd. apply (is_list_frame s.(mm).(plists)); [|by apply F4]. intros x ->%list_elem_of_singleton.
    change (t.(plists) !! hd = s.(mm).(plists) !! hd). rewrite Hpl. by destruct Hhd. }
  unfold get_slab_from_page, get_new_slab_header. rewrite (is_list_empty_spec _ _ _ (Hkeep _ sh_free)), bind_Some_eq.
  rewrite bool_decide_true by done. cbn [negb]. change (table_page_current s1) with s.(table_page_current). rewrite F2.
  assert (Hr1' : ready (n + 1) z1 s1.(mm)) by (by apply (ready_slab (n + 1) z1 t)).
  destruct (get_header_page_ok n z1 s1 Hr1' Hn F3 (Hkeep _ sh_table))
    as (s2 & z2 & kt & E2 & Hr2 & Ec2 & Hpt & Hkt & Hp2 & Htp & Hip & Hcur2 & Hh2 & Hpl2 & Hlk2 & Hbit2).
  rewrite Ec1 in *. rewrite E2, !bind_Some_eq. cbv beta iota.
  set (k1 := with_pg_usage _ _) in Hp1. set (h0 := page_id_to_va ks (c + 1)) in *.
  assert (Hpc : page_of c s2 = Some k1) by (rewrite Hp2, Hp1, Z.eqb_refl by lia; done).
  assert (Hsp : slab_page ks s2 c [] k1).
  { constructor; [|done| |by intros x Hx%elem_of_nil|by intros h1 h2 x1 x2 Hx%elem_of_nil].
    - apply linked_self_empty. unfold linked_self. rewrite Hpl2 by (congruence || intros [=]; lia).
      change (t.(plists) !! PagePlist c = Some (ListHead (PagePlist c) (PagePlist c))). rewrite Hpl.
      unfold fresh_nodes. by rewrite in_run_one, Z.eqb_refl.
    - change (page_to_va ks c) with (page_id_to_va ks c).
      change (free_base k1) with (page_id_to_va ks c). change (pg_free_size k1) with 4096. rewrite Eva. unfold PAGE_SIZE. lia. }
  destruct (carve_ok ks zone_mutex (fun _ => 0) h0 c ns s2 [] k1 Hsp) as (s3 & E3 & Hsp3 & [C1 C2 C3 C4 C5 C6 (C7 & C8 & C9) C10]);
    [set_solver|change (pg_free_size k1) with 4096; unfold PAGE_SIZE in Hroom; lia|].
  rewrite E3, !bind_Some_eq. cbv beta iota. unfold update_slab_free_page.
  pose proof (C1 c) as Hpc3. rewrite Z.eqb_refl in Hpc3. rewrite Hpc3, bind_Some_eq, C7, Hcur2.
  change (slab_page_current s1) with s.(slab_page_current). rewrite F1, !bind_Some_eq. cbv beta iota zeta.
  set (s4 := with_slab_page_current (Some c) s3).
  assert (Hkeep4 : forall hd, slab_head hd -> hd <> SlabTableList -> is_list s4.(mm).(plists) hd []).
  { intros hd Hhd Hne'. apply (is_list_frame s1.(mm).(plists)); [|by apply Hkeep]. intros x ->%list_elem_of_singleton.
    change (s3.(mm).(plists) !! hd = s1.(mm).(plists) !! hd).
    rewrite (C10 hd [] (sp_list _ _ _ _ _ Hsp)) by (destruct Hhd; set_solver). apply Hpl2; [done|by destruct Hhd]. }
  assert (Ek : free_base (carved ns k1) = page_id_to_va ks c + ns /\ pg_free_size (carved ns k1) = 4096 - ns).
  { unfold carved. cbn [free_base pg_free_size with_pg_usage with_free_base with_pg_free_size].
    change (free_base k1) with (page_id_to_va ks c). change (pg_free_size k1) with 4096. unfold PAGE_SIZE in Hroom.
    rewrite (u32_small ns), u32_small, u16_small by lia. done. }
  destruct Ek as [Ek1 Ek2].
  assert (Hr4 : ready n z2 s4.(mm)) by (by apply (ready_slab n z2 s2.(mm))).
  exists s4, z2, (carved ns k1). split; [done|]. split; [done|]. split; [lia|]. split; [|split; [done|]].
  - constructor; rewrite ?Hnew, ?Ek1, ?Ek2; try done.
    + destruct Hsp3 as [P1 P2 P3 P4 P5]. by constructor.
    + change (page_to_page_id c) with c. pose proof (rr_ready _ _ _ _ _ _ _ Hr4) as Hz4.
      pose proof (rr_cur _ _ _ _ _ _ _ Hr4). pose proof (rr_count _ _ _ _ _ _ _ Hr4).
      rewrite page_state_ok; [|apply (bm_ok_le _ (z2.(bm_end) + 1)); [apply (zr_map _ _ _ _ Hz4)|lia]|lia].
      change (page_map (mm s4)) with (page_map (mm s3)). rewrite C3, Hbit2; [done|].
      change (bit_at t.(page_map) c = true). by rewrite Hbit, Z.eqb_refl.
    + rewrite <- Hkt. apply (ready_page _ (c + 1)).
      * apply Hkeep4; [constructor|done].
      * change (s3.(table_page_current) = Some (c + 1)). by rewrite C8.
      * change (0 <= s3.(header_in_page) < PAGE_SIZE / SLAB_HEADER_SIZE). rewrite C9, Hip. done.
      * change (page_of (c + 1) s3 = Some kt). rewrite C1, (proj2 (Z.eqb_neq (c + 1) c)) by lia. done.
    + intros Hin%list_elem_of_singleton. unfold SLAB_HEADER_SIZE in Hin. lia.
    + change (s3.(table_page_current) <> Some c). rewrite C8, Htp. intros [= ?]. lia.
    + intros fl Hfl. rewrite (is_list_det _ _ _ _ Hfl (Hkeep4 _ sh_free ltac:(done))). set_solver.
    + unfold PAGE_SIZE in Hroom. lia.
    + exists (SlabList li). split; [done|]. apply Hkeep4; [by constructor|done].
    + lia.
  - intros m Hm. change (lk_free s3.(mm).(locks) m). rewrite C5. by apply Hlk2, Hlk.
Qed.
End first.
