(* ===== verification/StartLocks.v ===== *)
(** * Mutexes before the first task

    While [current] is null, locking a free mutex only sets its count and unlocking it
    with nobody waiting only clears it, so that a pair of calls leaves the scheduler as
    it was.  A third instance of [LockOps], in which a mutex is free only in the state
    [l0] itself, carries this through the allocators; it composes under a mutex that is
    held, by taking the state after the lock for [l0]. *)

From S2P Require Import Prelude ListHead TaskStruct Sched SchedInv SchedSpec SchedBoot SchedApi.
From S2P Require Import Mutex Bitops Mem CString MmTypes Pages PagesInv PagesThms Mmu MmuThms.
From S2P Require Import MmBoot MmBootThms KernelLocks Regs TaskMem TaskMemInv KernelCalm Trap.
From S2P Require Import TrapThms Slab SlabThms SlabAlloc SlabFirst TaskBuild TaskThms.

Implicit Types (l : sched_state) (m : Z).

(** Nobody holds the mutex or waits for it. *)
Record quiet l m : Prop := {
  qu_count : l.(mutex_count) !! m = Some 0;
  qu_wait : is_list l.(heap) (MutexWait m) [];
  qu_task : is_list l.(heap) (MutexTask m) []
}.

Lemma quiet_lock l m :
  l.(current) = 0 -> quiet l m ->
  lock_now m l = Some (set_mutex_val m 1 l) /\ mutex_unlock m (set_mutex_val m 1 l) = Some l.
Proof.
  intros Hc [H1 H2 H3]. split.
  - unfold lock_now, mutex_lock, mutex_lock_timeout, lock_iter, enter_critical, mutex_val.
    cbn [mutex_count with_cpsr_c current]. rewrite H1, !bind_Some_eq, Hc. change (truth 0) with false. cbn iota.
    by rewrite !bind_Some_eq.
  - unfold mutex_unlock, mutex_val, enter_critical. cbn [mutex_count set_mutex_val with_mutex_count].
    rewrite lookup_insert_eq, bind_Some_eq. change (truth 1) with true. cbn [negb heap with_cpsr_c with_mutex_count set_mutex_val].
    rewrite (is_list_first _ _ _ H2), bind_Some_eq. cbn [List.hd list_for_each].
    rewrite bool_decide_true by done. rewrite bind_Some_eq. cbn [heap with_cpsr_c with_mutex_count set_mutex_val].
    rewrite (is_list_empty_spec _ _ _ H3), bind_Some_eq. rewrite bool_decide_true by done. cbn [negb].
    rewrite !bind_Some_eq. unfold exit_critical, with_cpsr_c, set_mutex_val, with_mutex_count.
    cbn. do 2 f_equal. destruct l as [h tk pc sc ic slc cu id nr sr ii cp mc]. cbn. f_equal.
    rewrite insert_insert_eq. by apply insert_id.
Qed.

(** A mutex that is held does not disturb the others. *)
Lemma quiet_other l m m' : quiet l m' -> m' <> m -> quiet (set_mutex_val m 1 l) m'.
Proof. intros [H1 H2 H3] Hne. constructor; try done. cbn. by rewrite lookup_insert_ne. Qed.

Section start_locks.
Variable l0 : sched_state.

Definition start_free l m : Prop := l = l0 /\ l0.(current) = 0 /\ quiet l0 m.

Lemma start_lock_ok l m :
  start_free l m ->
  exists l1 l2, lock_now m l = Some l1 /\ mutex_unlock m l1 = Some l2 /\
    forall m', start_free l m' -> start_free l2 m'.
Proof.
  intros (-> & Hc & Hq). destruct (quiet_lock l0 m Hc Hq) as [E1 E2].
  by exists (set_mutex_val m 1 l0), l0.
Qed.

Definition start_locks : LockOps sched_state := {|
  lk_free := start_free;
  lk_ok := start_lock_ok
|}.
End start_locks.

(** ** Runs of pages under these locks *)

Section runs.
Context (ks : Z) (zone_mutex : Z -> Z) (slab_mutex off : Z).
Hypothesis Hks : 0 < ks < 2 ^ 32.

(** The next [n] pages are free, and the scheduler is [l]. *)
Definition pages_ahead l (n : Z) (z : mm_zone) (s : mm_state sched_state) : Prop :=
  s.(locks) = l /\ l.(current) = 0 /\ quiet l (zone_mutex MM_ZONE_NORMAL) /\
  @run_ready _ _ (start_locks l) ks zone_mutex off n z s.

Lemma pages_ahead_keep l l' n z (s s' : mm_state sched_state) :
  pages_ahead l n z s -> s'.(bank) = s.(bank) -> s'.(page_map) = s.(page_map) ->
  length s'.(page_table) = length s.(page_table) -> s'.(locks) = l' -> l'.(current) = 0 ->
  quiet l' (zone_mutex MM_ZONE_NORMAL) -> pages_ahead l' n z s'.
Proof.
  intros (H1 & H2 & H3 & Hr) Hb Hm Ht Hl Hc Hq. split; [done|]. split; [done|]. split; [done|].
  unfold run_ready. rewrite Hm. apply (run_from_keep (LO1 := start_locks l) (LO2 := start_locks l') _ _ _ _ _ _ s); try done.
Qed.

(** [get_free_pages] takes the next pages and leaves the scheduler alone. *)
Lemma pages_ahead_take l cnt n z (s : mm_state sched_state) flag :
  pages_ahead l (n + cnt) z s -> 1 <= cnt < 256 -> 0 <= n -> zone_id flag = MM_ZONE_NORMAL ->
  exists s' z', get_free_pages ks zone_mutex cnt flag s = Some (page_id_to_va ks z.(bm_current), s') /\
    pages_ahead l n z' s' /\ z'.(bm_current) = z.(bm_current) + cnt /\
    (forall x, s'.(plists) !! x = fresh_nodes z.(bm_current) cnt s.(plists) x) /\ same_sections s s'.
Proof.
  intros (H1 & H2 & H3 & Hr) Hc Hn Hf.
  destruct (ready_take (LO := start_locks l) ks zone_mutex off Hks cnt n z s flag Hr Hc Hn Hf)
    as (s' & E & Hr' & Ht & Ec).
  exists s', (taken z.(bm_current) cnt z). split; [done|]. split; [|split; [done|split; [apply (pt_plists _ _ _ _ _ _ _ _ Ht)|]]].
  - split; [|done]. by destruct (pt_locks (LO := start_locks l) _ _ _ _ _ _ _ _ Ht (zone_mutex MM_ZONE_NORMAL)).
  - intros j. rewrite (pt_zones _ _ _ _ _ _ _ _ Ht). destruct (Z.eqb_spec j MM_ZONE_NORMAL) as [->|]; [|done].
    by rewrite (zr_zone _ _ _ _ (rr_ready _ _ _ _ _ _ _ Hr)).
Qed.

Lemma pages_ahead_va l n z (s : mm_state sched_state) :
  pages_ahead l n z s -> page_id_to_va ks z.(bm_current) = ks + 4096 * z.(bm_current) /\
  page_id_to_va ks z.(bm_current) <> 0 /\ ks + 4096 * (z.(bm_current) + n) < 2 ^ 32 /\ 0 < z.(bm_current).
Proof.
  intros (_ & _ & _ & Hr). destruct (ready_va (LO := start_locks l) ks zone_mutex off Hks n z s Hr) as (H1 & H2 & H3).
  pose proof (rr_cur (LO := start_locks l) _ _ _ _ _ _ _ Hr). split; [done|]. split; [done|]. lia.
Qed.

(** The first [kmalloc]. *)
Lemma kmalloc_first_ok l n z (s : slab_state sched_state) size ns :
  pages_ahead l (n + 2) z s.(mm) -> 0 <= n -> slab_fresh s -> small_size size ns -> quiet l slab_mutex ->
  slab_mutex <> zone_mutex MM_ZONE_NORMAL ->
  let c := z.(bm_current) in
  exists s' z' k, kmalloc ks zone_mutex slab_mutex size GFP_KERNEL s = Some (page_id_to_va ks c, s') /\
    pages_ahead l n z' s'.(mm) /\ z'.(bm_current) = c + 2 /\
    slab_ready ks s' size c [page_id_to_va ks (c + 1)] k (page_id_to_va ks (c + 1) + SLAB_HEADER_SIZE) /\
    k.(free_base) = page_id_to_va ks c + ns.
Proof.
  intros Hp Hn [F1 F2 F3 F4] Hsz Hq Hne. cbv zeta. set (l1 := set_mutex_val slab_mutex 1 l).
  pose proof (pages_ahead_va _ _ _ _ Hp) as (_ & Hva & _).
  pose proof Hp as (Hl & Hcur & Hqz & _). destruct (quiet_lock l slab_mutex Hcur Hq) as [E1 E2]. fold l1 in E1, E2.
  set (s1 := with_slab_locks l1 s).
  assert (Hp1 : pages_ahead l1 (n + 2) z s1.(mm)).
  { apply (pages_ahead_keep l l1 _ _ s.(mm)); try done. by apply quiet_other. }
  destruct (first_slab_ok (LO := start_locks l1) ks zone_mutex off Hks n z s1 size ns)
    as (s2 & z' & k & E & Hr2 & Ec & Hs2 & Hk & Hlk2); [apply Hp1|done|by constructor|done|].
  assert (El2 : s2.(mm).(locks) = l1).
  { destruct (Hlk2 (zone_mutex MM_ZONE_NORMAL)) as [? _]; [|done]. split; [done|]. split; [done|]. by apply quiet_other. }
  exists (with_slab_locks l s2), z', k. split; [|split; [|split; [done|split; [by apply slab_ready_locks|done]]]].
  - destruct Hsz as [S1 S2 S3 S4 (li & S5 & S6)].
    unfold kmalloc. rewrite (proj2 (Z.leb_gt size 0)) by lia. change (Z.eqb GFP_KERNEL GFP_KERNEL) with true.
    cbn [negb andb]. unfold do_kmalloc, lock_slab. cbn [lk_lock lk_unlock kernel_calls]. rewrite Hl, E1, !bind_Some_eq.
    fold (with_slab_locks l1 s). fold s1.
    unfold kmalloc_locked. rewrite S2. change (Z.eqb GFP_KERNEL GFP_DMA) with false.
    change (Z.eqb GFP_KERNEL GFP_RES) with false. cbn [orb]. rewrite (proj2 (Z.leb_gt PAGE_SIZE size)) by lia.
    unfold get_slab_in_list. change (truth (GFP_KERNEL &u GFP_KERNEL)) with true. cbn [negb].
    rewrite S5, bind_Some_eq. cbn [get_slab_in_list_loop]. unfold get_slab_in_list_body.
    rewrite (is_list_empty_spec s1.(mm).(plists) (SlabList li) []) by (apply F4; by constructor).
    rewrite bind_Some_eq, bool_decide_true by done. rewrite !bind_Some_eq. change (truth 0) with false. cbn iota.
    unfold get_slab_from_page_free. change (slab_page_current s1) with s.(slab_page_current). rewrite F1, bind_Some_eq.
    change (truth 0) with false. cbn iota. rewrite E, bind_Some_eq. unfold unlock_slab. cbn [lk_lock lk_unlock kernel_calls].
    by rewrite El2, E2, !bind_Some_eq.
  - apply (pages_ahead_keep l1 l n z' s2.(mm)); try done. split; [done|]. split; [done|]. split; [by apply quiet_other|done].
Qed.
End runs.
