(* ===== verification/StartSched.v ===== *)
(** * The scheduler during start-up

    From the zeroed scheduler of the program image to the idle task: initialising mutexes,
    [sched_init] and the scheduler's part of [build_idle_task]. *)

From S2P Require Import Prelude ListHead TaskStruct Sched SchedInv SchedSpec SchedBoot SchedApi.
From S2P Require Import Mutex MutexThms Bitops Mem CString MmTypes Pages KernelLocks KernelCalm.
From S2P Require Import StartLocks TaskThms.

Implicit Types (l : sched_state) (m : Z) (ms : list Z).

(** No task yet; the mutexes [ms] have been initialised and are free. *)
Record booting ms l : Prop := {
  bo_tasks : l.(tasks) = ∅;
  bo_current : l.(current) = 0;
  bo_prio : length l.(prio_count) = 64%nat;
  bo_int : l.(in_interrupt) = 0;
  bo_count : forall m, l.(mutex_count) !! m = if decide (m ∈ ms) then Some 0 else None;
  bo_quiet : forall m, m ∈ ms -> quiet l m
}.

(** ** Mutexes *)

Lemma init_mutex_quiet m l : quiet (init_mutex m l) m.
Proof.
  constructor.
  - apply lookup_insert_eq.
  - apply linked_self_empty, linked_self_init. left. apply linked_self_init. by right.
  - apply linked_self_empty, linked_self_init. by right.
Qed.

Lemma init_mutex_other m n l : n <> MutexWait m -> n <> MutexTask m -> (init_mutex m l).(heap) !! n = l.(heap) !! n.
Proof. intros H1 H2. simpl. unfold init_list. by rewrite !lookup_insert_ne. Qed.

Lemma quiet_init_mutex m x l : quiet l x -> x <> m -> quiet (init_mutex m l) x.
Proof.
  intros [Q1 Q2 Q3] Hne. constructor.
  - simpl. by rewrite lookup_insert_ne.
  - apply (is_list_frame l.(heap)); [|done]. intros k ->%list_elem_of_singleton. by apply init_mutex_other; congruence.
  - apply (is_list_frame l.(heap)); [|done]. intros k ->%list_elem_of_singleton. by apply init_mutex_other; congruence.
Qed.

Lemma booting_init_mutex m ms l : booting ms l -> booting (m :: ms) (init_mutex m l).
Proof.
  intros [H1 H2 H3 H4 H5 H6]. constructor; try done.
  - intros x. simpl. destruct (decide (x = m)) as [->|Hne].
    + rewrite lookup_insert_eq, decide_True by set_solver. done.
    + rewrite lookup_insert_ne, H5 by done. do 2 case_decide; set_solver.
  - intros x Hx. destruct (decide (x = m)) as [->|Hne]; [apply init_mutex_quiet|].
    apply quiet_init_mutex; [apply H6; set_solver|done].
Qed.

Lemma booting_mutexes xs ms l : booting ms l -> booting (rev xs ++ ms) (foldl (fun l m => init_mutex m l) l xs).
Proof.
  revert ms l. induction xs as [|x xs IH]; intros ms l Hb; [done|]. cbn [foldl rev].
  rewrite <- app_assoc. apply IH. by apply booting_init_mutex.
Qed.

(** Nothing but list nodes of other kinds and flags changed. *)
Lemma booting_frame ms l l' :
  booting ms l -> l'.(tasks) = l.(tasks) -> l'.(current) = 0 -> length l'.(prio_count) = length l.(prio_count) ->
  l'.(in_interrupt) = l.(in_interrupt) -> l'.(mutex_count) = l.(mutex_count) ->
  (forall n, mutex_node n = true -> l'.(heap) !! n = l.(heap) !! n) -> booting ms l'.
Proof.
  intros [H1 H2 H3 H4 H5 H6] E1 E2 E3 E4 E5 Hn. constructor; rewrite ?E1, ?E2, ?E3, ?E4, ?E5; try done.
  intros m Hm. destruct (H6 m Hm) as [Q1 Q2 Q3]. constructor; [by rewrite E5|..];
    (apply (is_list_frame l.(heap)); [|done]); intros k ->%list_elem_of_singleton; by apply Hn.
Qed.

(** ** [sched_init] *)

Lemma sched_init_lists_booting ms l :
  booting ms l -> exists l', sched_init_lists l = Some l' /\ booting ms l' /\ refines l' (Abs ∅ empty_view).
Proof.
  intros Hb. destruct (sched_init_lists_ok l (bo_prio _ _ Hb) (bo_tasks _ _ Hb))
    as (l' & E & Hr & _ & Hi & Hc & Hm & Ht & Hp & Hh).
  exists l'. split; [done|]. split; [|done]. apply (booting_frame ms l); try done.
  - by rewrite Ht, (bo_tasks _ _ Hb).
  - by rewrite Hc, (bo_current _ _ Hb).
  - by rewrite Hp, (bo_prio _ _ Hb).
  - intros n Hn. by apply Hh, mutex_not_queue.
Qed.

Lemma refines_init_mutex l a m : refines l a -> refines (init_mutex m l) a.
Proof.
  intros Hr. assert (H : refines (with_heap (init_mutex m l).(heap) l) a).
  { apply refines_nodes; [done|]. intros n Hn. apply init_mutex_other; by intros ->. }
  ctl H.
Qed.

(** ** The idle task *)

Section idle.
Context (ms : list Z) (l : sched_state) (t tm : Z) (k : task_struct).
Hypothesis Hb : booting ms l.
Hypothesis Hr : refines l (Abs ∅ empty_view).
Hypothesis Hrun : l.(schedule_running) = 1.
Hypothesis Ht : 0 < t < 2 ^ 32.
Hypothesis Htm : tm ∉ ms.
Hypothesis Hk : k.(flag) = PROCESS_TYPE_KERNEL /\ k.(pid) = -1.

(** The scheduler with the structure [k] at [t], before [init_sched_struct]. *)
Definition idle_made : sched_state :=
  init_mutex tm (with_heap (init_list (TP t) (init_list (TChild t) l.(heap)))
    (with_tasks (<[t := k]> l.(tasks)) (with_idle t l))).

(** The idle task when it runs. *)
Definition idle_task : task_struct := with_state PROCESS_STATE_RUNNING (fresh_sched (thread_prio (-1)) k).

Lemma idle_made_refines : refines (with_tasks l.(tasks) idle_made) (Abs ∅ empty_view).
Proof.
  unfold idle_made.
  set (h := init_list (TP t) (init_list (TChild t) l.(heap))).
  assert (H1 : refines (with_heap h l) (Abs ∅ empty_view)).
  { apply refines_nodes; [done|]. intros n Hn. unfold h, init_list. rewrite !lookup_insert_ne; [done|..]; by intros <-. }
  apply (refines_init_mutex _ _ tm) in H1. ctl H1.
Qed.

Lemma idle_made_quiet m : m ∈ tm :: ms -> quiet idle_made m.
Proof.
  intros Hm. destruct (decide (m = tm)) as [->|Hne]; [apply init_mutex_quiet|].
  apply quiet_init_mutex; [|done]. destruct (bo_quiet _ _ Hb m) as [Q1 Q2 Q3]; [set_solver|].
  constructor; [done|..]; (apply (is_list_frame l.(heap)); [|done]); intros n ->%list_elem_of_singleton;
    simpl; unfold init_list; by rewrite !lookup_insert_ne.
Qed.

(** The mutexes once the idle task is current: nobody holds one or waits for one. *)
Lemma idle_mutexes s :
  s.(mutex_count) = <[tm := 0]> l.(mutex_count) -> s.(heap) = init_task_nodes t idle_made.(heap) ->
  (forall x, is_Some (s.(tasks) !! x) -> x = t) ->
  mwf s (fun _ => []) (fun _ => []) /\ (forall m, m ∈ tm :: ms -> quiet s m) /\ is_list s.(heap) (TChild t) [].
Proof.
  intros Ec Eh Et.
  assert (Hq : forall m, m ∈ tm :: ms -> quiet s m).
  { intros m Hm. destruct (idle_made_quiet m Hm) as [Q1 Q2 Q3]. constructor; [by rewrite Ec|..];
      (apply (is_list_frame idle_made.(heap)); [|done]); intros n ->%list_elem_of_singleton;
      rewrite Eh; unfold init_task_nodes, init_list; by rewrite !lookup_insert_ne. }
  assert (Hin : forall m, is_Some (s.(mutex_count) !! m) -> m ∈ tm :: ms).
  { intros m [c Hc]. rewrite Ec in Hc. destruct (decide (m = tm)) as [->|Hne]; [set_solver|].
    rewrite lookup_insert_ne, (bo_count _ _ Hb) in Hc by done. case_decide; [set_solver|done]. }
  assert (Hnode : forall n, n = TWait t \/ n = TMutexGet t -> linked_self s.(heap) n).
  { intros n Hn. rewrite Eh. unfold init_task_nodes. apply linked_self_init.
    destruct Hn as [->| ->]; [by right|left]. apply linked_self_init. by right. }
  split; [|split; [done|]].
  - constructor.
    + intros m Hm. apply (qu_wait _ _ (Hq m (Hin m Hm))).
    + intros x Hx. rewrite (Et x Hx). apply linked_self_empty, Hnode. by right.
    + intros m _ x. apply not_elem_of_nil.
    + intros m c Hc. destruct (Hq m) as [Q1 _ _]; [apply Hin; by eexists|]. left. congruence.
    + intros m x x' []%not_elem_of_nil.
    + intros m m' x []%not_elem_of_nil.
    + intros m x []%not_elem_of_nil.
    + intros m x []%not_elem_of_nil.
    + intros x Hx. rewrite (Et x Hx). rewrite (Hnode (TWait t)) by (by left). by eexists.
    + intros m Hm. apply (is_list_alloc _ (MutexTask m) [] _ (qu_task _ _ (Hq m (Hin m Hm)))). set_solver.
  - apply linked_self_empty. rewrite Eh. unfold linked_self, init_task_nodes, init_list.
    rewrite !lookup_insert_ne by done. simpl. unfold init_list. rewrite !lookup_insert_ne by done. apply lookup_insert_eq.
Qed.

Lemma idle_start :
  exists s, (s1 ← init_sched_struct t idle_made; build_idle_current t s1) = Some s /\
    good s (Abs {[t := idle_task]} empty_view) /\
    s.(idle) = t /\ s.(current) = t /\ s.(mutex_count) = <[tm := 0]> l.(mutex_count) /\
    s.(heap) = init_task_nodes t idle_made.(heap).
Proof.
  destruct Hk as [Hf Hp]. pose proof (bo_tasks _ _ Hb) as Et.
  assert (Ht1 : get_task t idle_made = Some k) by apply lookup_insert_eq.
  assert (Ep : init_sched_prio k idle_made = Some (thread_prio (-1))).
  { unfold init_sched_prio. by rewrite Hf, Hp. }
  rewrite (init_sched_struct_eq t k _ idle_made Ht1 Ep), bind_Some_eq.
  pose proof (new_task_sim _ _ t k (thread_prio (-1)) idle_made_refines (lookup_empty t) Ht ltac:(done)) as H2.
  set (s2 := with_heap _ _) in H2. set (s1 := with_heap _ _).
  assert (E12 : s1 = s2).
  { unfold s1, s2, idle_made. simpl. unfold with_tasks, with_heap. simpl. f_equal. by rewrite insert_insert_eq. }
  rewrite E12. cbn [a_tasks a_view] in H2. rewrite insert_empty in H2.
  destruct (upd_task_mild_sim s2 _ t (with_state PROCESS_STATE_RUNNING) (fresh_sched (thread_prio (-1)) k) H2)
    as (s3 & E3 & H3 & He & Hh); [apply lookup_insert_eq|by cbn|].
  unfold build_idle_current. rewrite E3, bind_Some_eq. eexists. split; [done|].
  assert (Ea : a_upd t (with_state PROCESS_STATE_RUNNING) (Abs {[t := fresh_sched (thread_prio (-1)) k]} empty_view) =
    Abs {[t := idle_task]} empty_view).
  { unfold a_upd. cbn [a_tasks a_view]. f_equal. unfold idle_task. by rewrite alter_singleton_eq. }
  rewrite Ea in H3. split; [|split; [done|split; [done|split]]].
  - constructor; simpl.
    + ctl H3.
    + by rewrite lookup_singleton_eq.
    + done.
    + rewrite (se_in_interrupt _ _ He). apply (bo_int _ _ Hb).
    + by rewrite (se_running _ _ He).
    + intros x tk Hx _. cbn [a_tasks] in Hx. by apply lookup_singleton_Some in Hx as [-> _].
  - simpl. by rewrite (se_mutex _ _ He).
  - simpl. by rewrite Hh.
Qed.
End idle.
