(* ===== verification/Start.v ===== *)
(** * Start-up

    Models [main] of [init/main.c], which runs the initialisers of the components in
    order, and the two parts of [sched_init].  The machine is the kernel with the
    tables and registers that live beside it; errors of the initialisers are ignored,
    as the code ignores them.  Interrupts are off until [enable_irqs]; what runs after
    it is taken without an interrupt in between. *)

From S2P Require Import Prelude ListHead TaskStruct Bitops Mem CString MmTypes Pages Mmu S3c2440.
From S2P Require Import MmBoot Slab Ramdisk Sched Mutex KernelLocks Pid Interrupt Syscall Regs.
From S2P Require Import Elf TaskMem TaskLoad Task Signal Trap.

(** ** The machine *)

Record machine : Type := Mk_machine {
  ma_kernel : kernel;
  ma_info : platform_info;
  ma_plat : platform;
  ma_cpu : cpu;
  ma_irq_base : Z;
  ma_irq_table : list irq_des;
  ma_syscalls : option (Z * list Z);
  ma_signals : list (option handler)
}.

Implicit Types (M : machine) (K : kernel).

Definition with_ma_kernel K M : machine :=
  Mk_machine K M.(ma_info) M.(ma_plat) M.(ma_cpu) M.(ma_irq_base) M.(ma_irq_table) M.(ma_syscalls) M.(ma_signals).
Definition with_ma_plat (p : platform) M : machine :=
  Mk_machine M.(ma_kernel) M.(ma_info) p M.(ma_cpu) M.(ma_irq_base) M.(ma_irq_table) M.(ma_syscalls) M.(ma_signals).
Definition with_ma_cpu (c : cpu) M : machine :=
  Mk_machine M.(ma_kernel) M.(ma_info) M.(ma_plat) c M.(ma_irq_base) M.(ma_irq_table) M.(ma_syscalls) M.(ma_signals).
Definition with_ma_info (i : platform_info) M : machine :=
  Mk_machine M.(ma_kernel) i M.(ma_plat) M.(ma_cpu) M.(ma_irq_base) M.(ma_irq_table) M.(ma_syscalls) M.(ma_signals).
Definition with_ma_syscalls (t : option (Z * list Z)) M : machine :=
  Mk_machine M.(ma_kernel) M.(ma_info) M.(ma_plat) M.(ma_cpu) M.(ma_irq_base) M.(ma_irq_table) t M.(ma_signals).
Definition with_ma_signals (t : list (option handler)) M : machine :=
  Mk_machine M.(ma_kernel) M.(ma_info) M.(ma_plat) M.(ma_cpu) M.(ma_irq_base) M.(ma_irq_table) M.(ma_syscalls) t.

(** The part the interrupt code works on. *)
Definition irq_part M : irq_sys :=
  Mk_irq_sys M.(ma_irq_base) M.(ma_irq_table) M.(ma_plat) (Task.sched_of M.(ma_kernel)).
Definition with_irq_part (x : irq_sys) M : machine :=
  Mk_machine (with_sched x.(Interrupt.sched_of) M.(ma_kernel)) M.(ma_info) x.(plat) M.(ma_cpu)
    x.(irq_table_base) x.(irq_table) M.(ma_syscalls) M.(ma_signals).

(** [panic] stops the machine. *)
Inductive outcome : Type := Goes (M : machine) | Panics (M : machine).

Definition step (o : outcome) (f : machine -> option outcome) : option outcome :=
  match o with Goes M => f M | Panics M => Some (Panics M) end.

(** The address of a device, 0 where no section holds it. *)
Definition io_va {L : Type} (s : mm_state L) (pa : Z) : Z := default 0 (pa_to_va pa s).

Section start.
(** What the devices return, and the code and data of the kernel image. *)
Variable dev_read : list io_write -> Z -> Z.
Variable parse : platform_info -> option platform_info.
Variables kernel_start kernel_phy_start bss_end vector_start vector_end : Z.
Variable zone_mutex : Z -> Z.
Variables slab_mutex pid_mutex : Z.
Variable page_struct_va : Z -> Z.
Variable task_mutex : Z -> Z.
Variable stale : Z -> task_struct.
Variable tick_handler : Z.
Variable syscalls : list syscall.
Variables ramdisk_start ramdisk_literal idle_name killer_name killer_entry : Z.
Variables elfmag hdr init_argv init_name : Z.

(** ** [sched_init] *)

Definition init_mm_lock (m : Z) (s : sched_state) : sched_state := init_mutex m s.

Definition sched_init K : option (Z * kernel) :=
  K ← on_sched sched_init_lists K;
  '(_, p, s) ← init_pid_allocater kernel_start zone_mutex pid_mutex init_mm_lock (mm_of K);
  K ← on_sched sched_start (with_pids p (with_kernel_mm s K));
  Some (0, K).

(** ** The initialisers on the machine *)

Definition start_mm M : option machine :=
  '(info, s, m) ← mm_init init_mm_lock zone_mutex parse kernel_start kernel_phy_start bss_end M.(ma_info)
                    (mm_of M.(ma_kernel)) (ram_of M.(ma_kernel));
  Some (with_ma_info info (with_ma_kernel (with_kernel_ram m (with_kernel_mm s M.(ma_kernel))) M)).

Definition start_slab M : option machine :=
  s ← slab_init slab_mutex init_mm_lock (slab_of M.(ma_kernel));
  Some (with_ma_kernel (with_slab s M.(ma_kernel)) M).

Definition start_trap M : option machine :=
  let K := M.(ma_kernel) in
  '(_, c, s, m) ← trap_init kernel_start zone_mutex vector_start vector_end M.(ma_cpu) (mm_of K) (ram_of K);
  Some (with_ma_cpu c (with_ma_kernel (with_kernel_ram m (with_kernel_mm s K)) M)).

Definition start_stacks M : option machine :=
  let K := M.(ma_kernel) in
  '(_, c, s) ← arch_init_exception_stack kernel_start zone_mutex M.(ma_cpu) (mm_of K);
  Some (with_ma_cpu c (with_ma_kernel (with_kernel_mm s K) M)).

Definition start_irq M : option machine :=
  let K := M.(ma_kernel) in
  '(_, x, s) ← arch_irq_init (io_va (mm_of K)) kernel_start zone_mutex (irq_part M) (mm_of K);
  Some (with_ma_kernel (with_kernel_mm s K) (with_irq_part x M)).

Definition start_syscalls M : option outcome :=
  let K := M.(ma_kernel) in
  '(t, s) ← syscall_init kernel_start zone_mutex syscalls (mm_of K);
  let M := with_ma_kernel (with_kernel_mm s K) M in
  Some (match t with Some _ => Goes (with_ma_syscalls t M) | None => Panics M end).

Definition start_timer M : option machine :=
  '(_, x) ← timer_tick_init dev_read (io_va (mm_of M.(ma_kernel))) tick_handler (irq_part M);
  Some (with_irq_part x M).

Definition start_ramdisk M : option machine :=
  let K := M.(ma_kernel) in
  '(_, d) ← mount_ramdisk ramdisk_start ramdisk_literal K.(k_sys).(disk) (ram_of K);
  Some (with_ma_kernel (with_sys (with_disk d K.(k_sys)) K) M).

Definition on_kernel (f : kernel -> option (Z * kernel)) M : option machine :=
  '(_, K) ← f M.(ma_kernel); Some (with_ma_kernel K M).

(** ** [main] *)

(** Up to [syscall_init]. *)
Definition main_early M : option machine :=
  K ← on_sched (fun s => Some (disable_irqs s)) M.(ma_kernel);
  let M := with_ma_kernel K M in
  let '(_, p) := console_early_init dev_read M.(ma_plat) in
  M ← start_mm (with_ma_plat p M);
  let '(_, p) := console_late_init (io_va (mm_of M.(ma_kernel))) M.(ma_plat) in
  M ← start_slab (with_ma_plat p M);
  M ← start_trap M;
  M ← start_stacks M;
  start_irq M.

(** From [init_signal_handler] to the first kernel thread. *)
Definition main_late M : option machine :=
  t ← init_signal_handler kernel_start zone_mutex slab_mutex page_struct_va pid_mutex M.(ma_signals);
  M ← start_timer (with_ma_signals t M);
  M ← on_kernel sched_init M;
  M ← start_ramdisk M;
  M ← on_kernel (build_idle_task kernel_start zone_mutex slab_mutex page_struct_va task_mutex stale idle_name) M;
  M ← on_kernel (fun K => K ← on_sched (fun s => Some (enable_irqs s)) K; Some (0, K)) M;
  on_kernel (kthread_run kernel_start zone_mutex slab_mutex page_struct_va pid_mutex task_mutex stale
    killer_name killer_entry 0) M.

(** The start of the first program, and the priority of the idle task. *)
Definition main_init M : option machine :=
  M ← on_kernel (init_task kernel_start zone_mutex slab_mutex page_struct_va pid_mutex task_mutex stale
        elfmag hdr ramdisk_start init_argv init_name) M;
  on_kernel (fun K =>
    '(ret, s) ← set_task_prio (Task.sched_of K).(idle) (MAX_PRIO - 1) (Task.sched_of K);
    Some (ret, with_sched s K)) M.

(** Everything before the endless loop of calls of [sched]. *)
Definition main M : option outcome :=
  M ← main_early M;
  o ← start_syscalls M;
  step o (fun M => M ← main_late M; M ← main_init M; Some (Goes M)).
End start.
