(* ===== verification/StartMem.v ===== *)
(** * Memory during start-up

    The page allocator between [mm_init] and the first task on the tq2440: the pages
    after the image are free and taken in order, the slab allocator is empty, and the
    image in memory is intact. *)

From S2P Require Import Prelude ListHead TaskStruct Sched SchedInv SchedSpec SchedBoot SchedApi.
From S2P Require Import Mutex Bitops Mem CString MmTypes Pages PagesInv PagesThms Mmu MmuThms.
From S2P Require Import MmBoot MmBootThms Tq2440 KernelLocks Regs TaskMem TaskMemInv KernelCalm.
From S2P Require Import Trap TrapThms Slab SlabThms SlabAlloc SlabFirst TaskBuild Task TaskThms.
From S2P Require Import StartLocks StartSched Start.

Implicit Types (l : sched_state) (K : kernel) (z : mm_zone).

(** The difference between the kernel's address of memory and the physical one. *)
Definition tq_offset : Z := 0x50000000.

(** The sections of the zones, which stay as [mm_init] registers them. *)
Definition tq_layout (s : mm_state sched_state) : Prop :=
  forall j, sections_of <$> get_zone j s = sections_of <$> aget tq_bank.(zone) j.

Lemma tq_layout_offset s p : tq_layout s ->
  zone_loop 5 p 0 s = zone_loop 5 p 0 (Mk_mm tq_bank [] [] ∅ tt).
Proof.
  intros H. assert (G : forall n i, zone_loop n p i s = zone_loop n p i (Mk_mm tq_bank [] [] ∅ tt)); [|apply G].
  intros n. induction n as [|n IH]; intros i; [done|]. cbn [zone_loop]. destruct (Z.ltb i MM_ZONE_UNKNOW); [|done].
  specialize (H i). change (get_zone i (Mk_mm tq_bank [] [] ∅ tt)) with (aget tq_bank.(zone) i).
  destruct (get_zone i s) as [z'|], (aget tq_bank.(zone) i) as [z|]; try done. simpl in H.
  injection H as Hs Hn. assert (E : sections_of z' = sections_of z) by (unfold sections_of; congruence).
  rewrite !bind_Some_eq, Hn, (section_loop_ext _ _ _ _ _ E), IH. done.
Qed.

Lemma tq_page_offset s i : tq_layout s -> 0 <= i < 0x3c00 ->
  va_get_pv_offset (page_id_to_va tq_start i) s = Some tq_offset.
Proof.
  intros H Hi. unfold va_get_pv_offset. rewrite tq_layout_offset by done.
  unfold tq_start. rewrite page_va_eq by lia. cbn [zone_loop Z.ltb]. change (Z.ltb 0 MM_ZONE_UNKNOW) with true. cbn iota.
  change (get_zone 0 _) with (Some tq_normal). rewrite bind_Some_eq.
  change (S (Z.to_nat tq_normal.(nr_section))) with 2%nat. cbn [section_loop]. change (Z.ltb 0 tq_normal.(nr_section)) with true.
  cbn iota. change (aget tq_normal.(memory_section) 0) with (Some normal_section). rewrite bind_Some_eq.
  replace (in_va _ normal_section) with true; [done|]. unfold in_va. cbn [vir_start sec_size normal_section].
  rewrite u32_small by lia. symmetry. apply andb_true_iff. rewrite !Z.leb_le. lia.
Qed.

Section memory.
Context (zone_mutex : Z -> Z) (ram0 : mem) (be : Z).

(** The kernel image and what follows it is readable, and the image is that of [ram0]. *)
Record image_kept (m : mem) : Prop := {
  ik_room : room m tq_start 0x4000000;
  ik_image : forall a, tq_start + FIRST_LEVEL <= a < be -> m !! a = ram0 !! a
}.

(** The kernel once its memory is up: the mutexes are those of [l], and the next [n]
    pages are free. *)
Record up l (n : Z) z K : Prop := {
  up_pages : pages_ahead tq_start zone_mutex tq_offset l n z (mm_of K);
  up_slab : slab_fresh (slab_of K);
  up_layout : tq_layout (mm_of K);
  up_ram : image_kept (ram_of K)
}.

Lemma tq_start_range : 0 < tq_start < 2 ^ 32.
Proof. unfold tq_start. lia. Qed.

Lemma up_sched l l' n z K :
  up l n z K -> l'.(current) = 0 -> quiet l' (zone_mutex MM_ZONE_NORMAL) -> up l' n z (with_sched l' K).
Proof.
  intros [H1 [F1 F2 F3 F4] H3 H4] Hc Hq. constructor; [|by constructor|done|done].
  by apply (pages_ahead_keep tq_start zone_mutex tq_offset l l' n z (mm_of K)).
Qed.

Lemma slab_fresh_pages (s : slab_state sched_state) c cnt (t : mm_state sched_state) :
  slab_fresh s -> (forall x, t.(plists) !! x = fresh_nodes c cnt s.(mm).(plists) x) -> slab_fresh (with_mm t s).
Proof.
  intros [F1 F2 F3 F4] Hf. constructor; try done. intros n Hn. cbn [mm with_mm].
  apply (is_list_frame s.(mm).(plists)); [|by apply F4]. intros x ->%list_elem_of_singleton. rewrite Hf. by destruct Hn.
Qed.

(** [get_free_pages] takes the next pages. *)
Lemma up_take cnt l n z K flag :
  up l (n + cnt) z K -> 1 <= cnt < 256 -> 0 <= n -> zone_id flag = MM_ZONE_NORMAL ->
  exists s z', get_free_pages tq_start zone_mutex cnt flag (mm_of K) = Some (page_id_to_va tq_start z.(bm_current), s) /\
    up l n z' (with_kernel_mm s K) /\ z'.(bm_current) = z.(bm_current) + cnt.
Proof.
  intros [H1 H2 H3 H4] Hc Hn Hf.
  destruct (pages_ahead_take tq_start zone_mutex tq_offset tq_start_range l cnt n z (mm_of K) flag H1 Hc Hn Hf)
    as (s & z' & E & Hp & Ec & Hl & Hs).
  exists s, z'. split; [done|]. split; [|done]. constructor; [exact Hp| | |exact H4].
  - by apply (slab_fresh_pages _ z.(bm_current) cnt).
  - intros j. transitivity (sections_of <$> get_zone j (mm_of K)); [apply Hs|apply H3].
Qed.

Lemma up_va l n z K : up l n z K ->
  page_id_to_va tq_start z.(bm_current) = tq_start + 4096 * z.(bm_current) /\
  page_id_to_va tq_start z.(bm_current) <> 0 /\ tq_start + 4096 * (z.(bm_current) + n) < 2 ^ 32 /\ 0 < z.(bm_current).
Proof. intros [H1 _ _ _]. apply (pages_ahead_va tq_start zone_mutex tq_offset tq_start_range l n z (mm_of K) H1). Qed.

(** ** From the program image to the vectors *)

Context (Hbe : tq_start < be <= 0x80e00000).

(** The pages of the image and of the page tables behind it. *)
Definition used_pages : Z := kernel_pages tq_start be 0x4000.

Lemma used_pages_range : 0 < used_pages < 0x3c00 /\ be <= tq_start + 4096 * used_pages.
Proof.
  split; [by apply tq_kernel_pages|]. unfold used_pages, tq_start in *.
  pose proof (kernel_pages_cover 0x80000000 be 0x4000 ltac:(lia) ltac:(lia) ltac:(lia)) as Hc.
  change (page_table_layout be 0x4000) with (baligin be 4,
    baligin (baligin be 4 +u 393216) 4, baligin (baligin be 4 +u 393216) 4 +u 2052) in Hc.
  destruct Hc as (H1 & H2 & H3 & H4 & H5). change (bits_to_long 16384) with 513 in H3.
  revert H4. unfold PAGE_SIZE. generalize (kernel_pages 0x80000000 be 0x4000). intros k Hk. lia.
Qed.

(** What the start-up finds in the zeroed data of the image. *)
Record bss K : Prop := {
  bs_bank : (mm_of K).(bank) = bss_bank;
  bs_table : length (mm_of K).(page_table) = Z.to_nat 0x4000;
  bs_slab : (slab_of K).(slab_page_current) = None;
  bs_sched : booting [] (sched_of K);
  bs_room : room (ram_of K) tq_start 0x4000000;
  bs_image : forall a, tq_start + FIRST_LEVEL <= a < be -> ram_of K !! a = ram0 !! a
}.

(** After [mm_init]: every page of the normal zone after the image is free. *)
Record mm_up l K : Prop := {
  mu_pages : pages_ahead tq_start zone_mutex tq_offset l (0x3bff - used_pages) (boot_zone0 used_pages tq_normal) (mm_of K);
  mu_bits : forall i, bit_at (mm_of K).(page_map) i = in_run 0 used_pages i;
  mu_layout : tq_layout (mm_of K);
  mu_ram : image_kept (ram_of K) /\ tq_mapped (ram_of K)
}.

(** The mutexes of the zones. *)
Definition zone_mutexes : list Z := zone_mutex <$> seqZ 0 MM_ZONE_UNKNOW.

Lemma zone_mutex_in : zone_mutex MM_ZONE_NORMAL ∈ rev zone_mutexes.
Proof. change (rev zone_mutexes) with [zone_mutex 3; zone_mutex 2; zone_mutex 1; zone_mutex 0]. set_solver. Qed.

Lemma tlb_frame_image m m' : tlb_frame m m' -> image_kept m -> image_kept m'.
Proof.
  intros [H1 H2] [I1 I2]. constructor; [by apply H1|]. intros a Ha. rewrite H2; [by apply I2|].
  unfold get_tlb_base, arch_get_tlb_base, KERNEL_BASE_ADDRESS, tq_start in *. lia.
Qed.

Lemma boot_layout (s : mm_state sched_state) :
  s.(bank).(zone) = [boot_zone0 used_pages tq_normal; set_bounds 0x3c00 0x3c00 0x4000 tq_dma;
    set_bounds 0x4000 0x4000 0x4000 tq_res; tq_io] -> tq_layout s.
Proof.
  intros E j. unfold get_zone. rewrite E. destruct (decide (0 <= j < 4)) as [Hj|Hj]; [|by rewrite !aget_None by (simpl; lia)].
  assert (Ej : j = 0 \/ j = 1 \/ j = 2 \/ j = 3) by lia. by destruct Ej as [->|[->|[->| ->]]].
Qed.

Lemma boot_run l (n : Z) (s : mm_state sched_state) :
  0 < n < 0x3c00 ->
  @zone_ready _ _ (start_locks l) zone_mutex MM_ZONE_NORMAL (boot_zone0 n tq_normal) s ->
  (forall i, bit_at s.(page_map) i = in_run 0 n i) -> tq_layout s ->
  @run_ready _ _ (start_locks l) tq_start zone_mutex tq_offset (0x3bff - n) (boot_zone0 n tq_normal) s.
Proof.
  intros Hn Hz Hb Hl.
  assert (Ef : z_free_pages (boot_zone0 n tq_normal) = 0x3c00 - n).
  { change (0x3c00 -u n = 0x3c00 - n). apply u32_small. lia. }
  assert (Ec : bm_current (boot_zone0 n tq_normal) = n) by reflexivity.
  assert (Ee : bm_end (boot_zone0 n tq_normal) = 0x3c00) by reflexivity.
  constructor; rewrite ?Ef, ?Ec, ?Ee.
  - exact Hz.
  - lia.
  - lia.
  - lia.
  - intros j Hj. rewrite Hb. unfold in_run. apply andb_false_iff. right. apply Z.ltb_ge. lia.
  - intros j Hj. apply tq_page_offset; [exact Hl|lia].
  - unfold tq_start. lia.
  - cbn [or_sum]. lia.
  - intros j _. reflexivity.
  - cbn [or_cur]. lia.
Qed.

Lemma start_mm_ok M :
  bss M.(ma_kernel) ->
  exists K l, start_mm tq2440_parse_memory_region tq_start tq_phy be zone_mutex M =
      Some (with_ma_info tq_regions (with_ma_kernel K M)) /\
    mm_up l K /\ booting (rev zone_mutexes) l /\ (slab_of K).(slab_page_current) = None.
Proof.
  intros [B1 B2 B3 B4 B5 B6]. set (K0 := M.(ma_kernel)) in *.
  set (l := (init_memory_bank init_mm_lock zone_mutex (mm_of K0)).(locks)).
  assert (Hb : booting (rev zone_mutexes) l).
  { pose proof (booting_mutexes zone_mutexes [] _ B4) as Hb. rewrite app_nil_r in Hb. exact Hb. }
  assert (Hq : quiet l (zone_mutex MM_ZONE_NORMAL)) by (apply (bo_quiet _ _ Hb), zone_mutex_in).
  destruct (tq_mm_init (LO := start_locks l) init_mm_lock zone_mutex be M.(ma_info) (mm_of K0) (ram_of K0) Hbe B1 B2)
    as (s & m & E & (_ & H1 & _ & _) & Hz & H2 & H3 & H4 & H5 & H6 & H7 & H8).
  { apply (room_le _ tq_start 0x4000000 0); [done|lia|]. unfold FIRST_LEVEL. lia. }
  pose proof (bo_current _ _ Hb) as Hc. apply boot_layout in H7.
  exists (with_kernel_ram m (with_kernel_mm s K0)), l. split; [|split; [|split; [done|exact B3]]].
  - unfold start_mm. fold K0. by rewrite E, bind_Some_eq.
  - constructor; [|exact H1|exact H7|split; [|exact H2]].
    + split; [exact H3|]. split; [exact Hc|]. split; [exact Hq|]. apply boot_run; [apply used_pages_range| |exact H1|exact H7].
      apply Hz. rewrite H3. split; [reflexivity|]. split; [exact Hc|exact Hq].
    + apply (tlb_frame_image (ram_of K0)); [exact H4|by constructor].
Qed.

Lemma start_slab_ok slab_mutex l M :
  mm_up l M.(ma_kernel) -> booting (rev zone_mutexes) l -> (slab_of M.(ma_kernel)).(slab_page_current) = None ->
  exists K, start_slab slab_mutex M = Some (with_ma_kernel K M) /\
    mm_up (init_mutex slab_mutex l) K /\ booting (slab_mutex :: rev zone_mutexes) (init_mutex slab_mutex l) /\
    slab_fresh (slab_of K).
Proof.
  intros [H1 H2 H3 H4] Hb Hs. pose proof (booting_init_mutex slab_mutex _ _ Hb) as Hb'. set (K0 := M.(ma_kernel)) in *.
  destruct (slab_init_ok slab_mutex init_mm_lock (slab_of K0) Hs) as (s & E & Hf & _ & S1 & S2 & S3 & S4 & _).
  exists (with_slab s K0). split; [|split; [|split; [done|exact Hf]]].
  - unfold start_slab. fold K0. by rewrite E, bind_Some_eq.
  - constructor; [|intros i; transitivity (bit_at (mm_of K0).(page_map) i); [|exact (H2 i)]; exact (f_equal (fun m => bit_at m i) S3)| |exact H4].
    + apply (pages_ahead_keep tq_start zone_mutex tq_offset l _ _ _ (mm_of K0)).
      * exact H1.
      * exact S2.
      * exact S3.
      * exact (f_equal length S4).
      * etransitivity; [exact S1|]. exact (f_equal (init_mutex slab_mutex) (proj1 H1)).
      * apply (bo_current _ _ Hb').
      * apply (bo_quiet _ _ Hb'), elem_of_cons. right. apply zone_mutex_in.
    + intros j. transitivity (sections_of <$> get_zone j (mm_of K0)); [|exact (H3 j)]. unfold get_zone. exact (f_equal (fun b => sections_of <$> aget b.(zone) j) S2).
Qed.
(** ** The vectors *)

(** The place of the vector code in the image, and the page it goes to: the first free
    one at 0xf0000 of a megabyte, which the next nine allocations do not reach. *)
Context (vector_start vector_end : Z) (code : list Z) (mb : Z).

Definition vector_page : Z := 256 * mb + 0xf0.

Record vectors_fit : Prop := {
  vf_page : 0 <= mb < 60 /\ used_pages + 9 <= vector_page;
  vf_first : 256 * (mb - 1) + 0xf0 < used_pages;
  vf_code : bytes_at ram0 vector_start code /\ Forall (fun b => 0 <= b < 256) code;
  vf_length : Z.of_nat (length code) = vector_end - vector_start /\ vector_end - vector_start <= 4096;
  vf_image : tq_start + FIRST_LEVEL <= vector_start /\ vector_end <= be
}.

(** The processor finds the code at the high vectors. *)
Definition vectors_at (m : mem) : Prop :=
  forall kva j b, code !! j = Some b ->
    mmu_walk kva m (0xffff0000 + Z.of_nat j) = Some (page_id_to_va tq_start vector_page - tq_offset + Z.of_nat j) /\
    m !! (page_id_to_va tq_start vector_page + Z.of_nat j) = Some b.

Lemma pages_ahead_le l (n k : Z) z (s : mm_state sched_state) :
  pages_ahead tq_start zone_mutex tq_offset l n z s -> 0 <= k <= n -> pages_ahead tq_start zone_mutex tq_offset l k z s.
Proof.
  intros (H1 & H2 & H3 & [R1 R2 R3 R4 R5 R6 R7 R8 R9 R10]) Hk.
  split; [exact H1|]. split; [exact H2|]. split; [exact H3|]. constructor; try assumption; try lia.
  - intros j Hj. apply R5. lia.
  - intros j Hj. apply R6. lia.
Qed.

Lemma vectors_ready_boot l K :
  vectors_fit -> mm_up l K ->
  @vectors_ready _ _ (start_locks l) tq_start zone_mutex tq_offset vector_start vector_end code
    (boot_zone0 used_pages tq_normal) normal_section vector_page mb 60 (mm_of K) (ram_of K).
Proof.
  intros [[F1 F2] F3 [F4 F5] [F6 F7] [F8 F9]] [(_ & _ & _ & H1) H2 H3 [[H4 H5] _]].
  destruct used_pages_range as [Hn Hu].
  assert (Ei : page_id_to_va tq_start vector_page = tq_start + 4096 * vector_page).
  { unfold vector_page, tq_start. apply page_va_eq; lia. }
  constructor.
  - exact (rr_ready _ _ _ _ _ _ _ H1).
  - split; reflexivity.
  - split; [reflexivity|]. split; [reflexivity|]. change (bm_end (boot_zone0 used_pages tq_normal)) with 0x3c00. lia.
  - unfold tq_start, tq_offset. split; [lia|]. split; [lia|]. split; [reflexivity|lia].
  - split; [reflexivity|exact F1].
  - split.
    + rewrite H2. unfold in_run. apply andb_false_iff. right. apply Z.ltb_ge. lia.
    + intros b Hb. rewrite H2. unfold in_run. apply andb_true_iff. rewrite Z.leb_le, Z.ltb_lt. lia.
  - apply tq_page_offset; [exact H3|unfold vector_page; lia].
  - reflexivity.
  - split; [|split; [exact F5|split; [exact F6|exact F7]]]. intros j b Hj. rewrite H5; [by apply F4|].
    apply lookup_lt_Some in Hj. unfold FIRST_LEVEL, tq_start in *. lia.
  - rewrite Ei. split.
    + apply (room_le _ tq_start 0x4000000 0); [exact H4|lia|]. unfold FIRST_LEVEL. lia.
    + apply (room_le _ tq_start 0x4000000); [exact H4|unfold vector_page; lia|unfold vector_page; lia].
  - rewrite Ei. unfold disjoint, get_tlb_base, arch_get_tlb_base, KERNEL_BASE_ADDRESS, FIRST_LEVEL, tq_start in *. lia.
Qed.

Lemma charged_sections z : sections_of (charged z) = sections_of z.
Proof. by destruct z. Qed.

Lemma start_trap_ok l M :
  vectors_fit -> mm_up l M.(ma_kernel) -> slab_fresh (slab_of M.(ma_kernel)) ->
  exists K z, start_trap tq_start vector_start vector_end zone_mutex M =
      Some (with_ma_cpu (Mk_cpu true M.(ma_cpu).(mode_sp)) (with_ma_kernel K M)) /\
    up l 9 z K /\ z.(bm_current) = used_pages /\ tq_mapped (ram_of K) /\ vectors_at (ram_of K).
Proof.
  intros Hv Hm Hs. set (K0 := M.(ma_kernel)) in *. pose proof (vectors_ready_boot l K0 Hv Hm) as Hvr.
  destruct (trap_init_ok (LO := start_locks l) tq_start zone_mutex tq_offset tq_start_range vector_start vector_end code
    M.(ma_cpu) (mm_of K0) (ram_of K0) _ _ _ _ _ Hvr) as (s & m & E & Ht & Hmap & Hsame & Hc & Hf).
  destruct Hm as [Hp H2 H3 [Hram Hmapped]]. destruct Hv as [[F1 F2] F3 [F4 F5] [F6 F7] [F8 F9]].
  destruct used_pages_range as [Hn Hu].
  assert (Ei : page_id_to_va tq_start vector_page = tq_start + 4096 * vector_page).
  { unfold vector_page, tq_start. apply page_va_eq; lia. }
  pose proof (pages_ahead_le _ _ 9 _ _ Hp ltac:(unfold vector_page in *; lia)) as (P1 & P2 & P3 & P4).
  exists (with_kernel_ram m (with_kernel_mm s K0)), (charged (boot_zone0 used_pages tq_normal)).
  split; [|split; [|split; [reflexivity|split]]].
  - unfold start_trap. fold K0. by rewrite E, bind_Some_eq.
  - constructor.
    + split; [|split; [exact P2|split; [exact P3|]]].
      * destruct (at_locks (LO := start_locks l) _ _ _ _ _ _ _ Ht (zone_mutex MM_ZONE_NORMAL)) as [El _]; [by split|exact El].
      * apply (aligned_run (LO := start_locks l) tq_start zone_mutex tq_offset 9 _ vector_page GFP_KERNEL (mm_of K0)); [exact P4|exact Ht| |].
        -- change (bm_current (boot_zone0 used_pages tq_normal)) with used_pages. unfold vector_page in *. lia.
        -- pose proof (rr_free (LO := start_locks l) _ _ _ _ _ _ _ (proj2 (proj2 (proj2 Hp)))). unfold vector_page in *. lia.
    + apply (slab_fresh_pages (slab_of K0) vector_page 1); [exact Hs|]. apply (at_plists (LO := start_locks l) _ _ _ _ _ _ _ Ht).
    + intros j. transitivity (sections_of <$> get_zone j (mm_of K0)); [|exact (H3 j)].
      change (get_zone j (mm_of (with_kernel_ram m (with_kernel_mm s K0)))) with (get_zone j s). rewrite (at_zones (LO := start_locks l) _ _ _ _ _ _ _ Ht).
      destruct (Z.eqb_spec j MM_ZONE_NORMAL) as [->|]; [|reflexivity].
      pose proof (zr_zone (LO := start_locks l) _ _ _ _ (rr_ready (LO := start_locks l) _ _ _ _ _ _ _ P4)) as Ez.
      rewrite Ez. exact (f_equal Some (charged_sections _)).
    + apply (tlb_frame_image (write (page_id_to_va tq_start vector_page) code (ram_of K0))); [exact Hf|].
      destruct Hram as [I1 I2]. constructor; [by apply room_write|]. intros a Ha.
      rewrite lookup_write_out; [by apply I2|]. rewrite Ei. unfold vector_page in *. lia.
  - by apply (tq_mapped_same (ram_of K0)).
  - intros kva j b Hj. pose proof (lookup_lt_Some _ _ _ Hj). split; [|exact (Hc j b Hj)].
    etransitivity; [exact (maps_walk kva m _ _ (Hmap (0xffff0000 + Z.of_nat j) ltac:(lia)))|]. f_equal. rewrite Ei. unfold vector_page. lia.
Qed.
End memory.
