(* ===== verification/StartThms.v ===== *)
(** * Start-up: properties

    Each step of [main] on the tq2440 from the state the one before leaves, and the whole
    run from the program image to the first kernel thread. *)

From S2P Require Import Prelude ListHead TaskStruct Sched SchedInv SchedSpec SchedBoot SchedApi.
From S2P Require Import Mutex Bitops Mem CString MmTypes Pages PagesInv PagesThms S3c2440 Mmu.
From S2P Require Import MmuThms MmBoot MmBootThms Tq2440 KernelLocks Pid Interrupt Syscall Regs.
From S2P Require Import TaskMem TaskMemInv KernelCalm Trap TrapThms Slab SlabThms SlabAlloc.
From S2P Require Import SlabFirst Ramdisk Elf TaskBuild Task TaskThms Kthread Signal StartLocks.
From S2P Require Import StartSched Start StartMem.

Implicit Types (l : sched_state) (M : machine) (K : kernel) (z : mm_zone).

Section steps.
Context (dev_read : list io_write -> Z -> Z) (zone_mutex : Z -> Z) (slab_mutex pid_mutex : Z).
Context (ram0 : mem) (be : Z).

Abbreviation up := (up zone_mutex ram0 be).

(** ** Stacks, interrupts, system calls *)

Lemma start_stacks_ok l n z M :
  up l (n + 3) z M.(ma_kernel) -> 0 <= n ->
  exists s z', start_stacks tq_start zone_mutex M =
      Some (with_ma_cpu (with_stacks tq_start z.(bm_current) M.(ma_cpu)) (with_ma_kernel (with_kernel_mm s M.(ma_kernel)) M)) /\
    up l n z' (with_kernel_mm s M.(ma_kernel)) /\ z'.(bm_current) = z.(bm_current) + 3.
Proof.
  intros Hu Hn. destruct (up_take zone_mutex ram0 be 3 l n z _ GFP_KERNEL Hu ltac:(lia) Hn eq_refl) as (s & z' & E & Hu' & Ec).
  destruct (up_va zone_mutex ram0 be _ _ _ _ Hu) as (Eva & _ & Hend & H0).
  exists s, z'. split; [|done]. unfold start_stacks.
  rewrite (exception_stacks_eq tq_start zone_mutex _ _ _ _ E Eva) by (unfold tq_start in *; lia). by rewrite bind_Some_eq.
Qed.

Lemma start_irq_ok l n z M :
  up l (n + 1) z M.(ma_kernel) -> 0 <= n ->
  exists s z', start_irq tq_start zone_mutex M =
      Some (with_ma_kernel (with_kernel_mm s M.(ma_kernel)) (with_irq_part
        (Mk_irq_sys (page_id_to_va tq_start z.(bm_current)) (replicate 512 no_des)
          (platform_irq_init (io_va (mm_of M.(ma_kernel))) M.(ma_plat)).2 (Task.sched_of M.(ma_kernel))) M)) /\
    up l n z' (with_kernel_mm s M.(ma_kernel)) /\ z'.(bm_current) = z.(bm_current) + 1.
Proof.
  intros Hu Hn. destruct (up_take zone_mutex ram0 be 1 l n z _ GFP_KERNEL Hu ltac:(lia) Hn eq_refl) as (s & z' & E & Hu' & Ec).
  destruct (up_va zone_mutex ram0 be _ _ _ _ Hu) as (_ & Hne & _).
  exists s, z'. split; [|done]. unfold start_irq, arch_irq_init.
  change (s32 (page_nr (u32 (IRQ_NR * 8)))) with 1. rewrite E, bind_Some_eq. cbv beta iota zeta.
  rewrite (proj2 (Z.eqb_neq _ 0) Hne). change (Z.to_nat (Z.shiftl 1 PAGE_SHIFT / 8)) with 512%nat.
  cbn [plat Interrupt.sched_of irq_part]. by destruct (platform_irq_init _ _).
Qed.

Lemma start_syscalls_ok l n z M es :
  up l (n + 1) z M.(ma_kernel) -> 0 <= n -> addrs_ok es ->
  exists s z' t, start_syscalls tq_start zone_mutex es M =
      Some (Goes (with_ma_syscalls (Some (page_id_to_va tq_start z.(bm_current), t))
        (with_ma_kernel (with_kernel_mm s M.(ma_kernel)) M))) /\
    up l n z' (with_kernel_mm s M.(ma_kernel)) /\ z'.(bm_current) = z.(bm_current) + 1 /\
    forall i, 0 <= i < SYSCALL_NR -> aget t i = Some (first_entry es (i + __NR_SYSCALL_BASE)).
Proof.
  intros Hu Hn Hes. destruct (up_take zone_mutex ram0 be 1 l n z _ GFP_KERNEL Hu ltac:(lia) Hn eq_refl) as (s & z' & E & Hu' & Ec).
  destruct (up_va zone_mutex ram0 be _ _ _ _ Hu) as (_ & Hne & _).
  destruct (install_all_ok es (replicate 1024 0)) as (t & Et & _ & Ht); [done|done|by apply Forall_replicate|].
  exists s, z', t. split; [|done]. unfold start_syscalls, syscall_init.
  change (s32 (page_nr (u32 (SYSCALL_NR * 4)))) with 1. rewrite E, bind_Some_eq. cbv beta iota zeta.
  rewrite (proj2 (Z.eqb_neq _ 0) Hne). change (Z.to_nat (Z.shiftl 1 PAGE_SHIFT / 4)) with 1024%nat.
  by rewrite Et, !bind_Some_eq.
Qed.

(** ** The timer *)

Lemma tq_timer_va (s : mm_state sched_state) : tq_layout s -> io_va s TIMER_BASE = 0x8d000000.
Proof. intros Hl. unfold io_va, pa_to_va, pa_get_pv_offset. rewrite tq_layout_offset by done. vm_compute. reflexivity. Qed.

(** The machine with the timer's handler in the table. *)
Definition with_tick (tick : Z) (p : platform) M : machine :=
  with_irq_part (Mk_irq_sys M.(ma_irq_base) (<[Z.to_nat TIMER4 := Mk_irq_des tick 0]> M.(ma_irq_table)) p
    (Task.sched_of M.(ma_kernel))) M.

Lemma start_timer_ok tick M :
  irq_wf (irq_part M) -> get_des TIMER4 (irq_part M) = Some no_des -> tq_layout (mm_of M.(ma_kernel)) -> tick <> 0 ->
  exists p, start_timer dev_read tick M = Some (with_tick tick p M).
Proof.
  intros Hw Hd Hl Ht. unfold start_timer, timer_tick_init, timer_setup, request_io_mem.
  rewrite tq_timer_va by done. cbn [timer_base with_timer_base]. change (Z.eqb 0x8d000000 0) with false. cbn iota beta.
  change (truth 0) with false. cbn iota. set (p := iowrite32 _ _ _).
  rewrite (register_irq_free dev_read TIMER4 tick 0 (with_plat p (irq_part M)) no_des).
  - rewrite !bind_Some_eq. by eexists.
  - destruct Hw. by constructor.
  - unfold TIMER4, IRQ_NR. lia.
  - done.
  - exact Hd.
  - done.
Qed.

(** ** The scheduler *)

Lemma up_pids p l n z K : up l n z K -> up l n z (with_pids p K).
Proof. intros [H1 H2 H3 H4]. by constructor. Qed.

Lemma up_locks l n z K : up l n z K -> Task.sched_of K = l.
Proof. intros [H1 _ _ _]. apply H1. Qed.

Lemma up_booting ms l' l n z K :
  up l n z K -> booting ms l' -> zone_mutex MM_ZONE_NORMAL ∈ ms -> up l' n z (with_sched l' K).
Proof. intros Hu Hb Hz. apply (up_sched _ _ _ l); [done|apply (bo_current _ _ Hb)|by apply (bo_quiet _ _ Hb)]. Qed.

Lemma sched_init_start_ok ms l n z K :
  up l (n + 1) z K -> 0 <= n -> booting ms l -> zone_mutex MM_ZONE_NORMAL ∈ ms ->
  exists l' z' K', sched_init tq_start zone_mutex pid_mutex K = Some (0, K') /\
    up l' n z' K' /\ z'.(bm_current) = z.(bm_current) + 1 /\ ram_of K' = ram_of K /\
    booting (pid_mutex :: ms) l' /\ refines l' (Abs ∅ empty_view) /\ l'.(schedule_running) = 1 /\
    pid_wf K'.(k_pids) /\ K'.(k_pids).(pid_current) = 0 /\ K'.(k_pids).(pid_nr) = 1024.
Proof.
  intros Hu Hn Hb Hz. pose proof (proj1 (up_pages _ _ _ _ _ _ _ Hu)) as El.
  destruct (sched_init_lists_booting ms l Hb) as (l1 & E1 & Hb1 & Hr1).
  pose proof (booting_init_mutex pid_mutex _ _ Hb1) as Hb2. set (l2 := init_mutex pid_mutex l1) in *.
  assert (Hz2 : zone_mutex MM_ZONE_NORMAL ∈ pid_mutex :: ms) by (apply elem_of_cons; by right).
  pose proof (up_booting _ _ _ _ _ _ (up_booting _ _ _ _ _ _ Hu Hb1 Hz) Hb2 Hz2) as Hu2.
  destruct (up_take zone_mutex ram0 be 1 l2 n z _ GFP_KERNEL Hu2 ltac:(lia) Hn eq_refl) as (s & z' & E2 & Hu3 & Ec).
  destruct (up_va zone_mutex ram0 be _ _ _ _ Hu) as (_ & Hne & _).
  set (l3 := with_schedule_running 1 (with_next_run 0 (with_current 0 l2))).
  assert (Hb3 : booting (pid_mutex :: ms) l3) by (by apply (booting_frame _ l2)).
  set (p := Mk_pid_map 1024 0 1024 (page_id_to_va tq_start z.(bm_current)) (replicate (Z.to_nat 1024) 0)).
  exists l3, z', (with_sched l3 (with_pids p (with_kernel_mm s (with_sched l1 K)))).
  split; [|split; [apply (up_booting (pid_mutex :: ms) _ l2); [by apply up_pids|done|done]|split_and!; try done]].
  - unfold sched_init, on_sched. change (Task.sched_of K) with (locks (mm_of K)). rewrite El, E1, !bind_Some_eq.
    unfold init_pid_allocater. change (PID_MAP_PAGE_NR) with 1.
    change (with_locks _ _) with (mm_of (with_sched l2 (with_sched l1 K))). rewrite E2, bind_Some_eq. cbv beta iota zeta.
    rewrite (proj2 (Z.eqb_neq _ 0) Hne), bind_Some_eq. change (1 * PAGE_SIZE / 4) with 1024. fold p.
    unfold sched_start. rewrite !bind_Some_eq. pose proof (up_locks _ _ _ _ Hu3) as Els.
    change (Task.sched_of (with_kernel_mm s (with_sched l2 (with_sched l1 K)))) with s.(locks) in Els.
    change (Task.sched_of (with_pids _ _)) with s.(locks). rewrite Els. reflexivity.
  - assert (H2 : refines l2 (Abs ∅ empty_view)) by (by apply refines_init_mutex). ctl H2.
  - constructor; change (k_pids _) with p; unfold p; cbn [pid_current pid_nr pid_tasks nr_free].
    + lia.
    + apply length_replicate.
    + lia.
    + intros i Hi. apply aget_Some. split; [lia|]. apply lookup_replicate. split; [reflexivity|lia].
Qed.

(** ** The image *)

(** [n] bytes at [a] belong to the image. *)
Definition in_image (a n : Z) : Prop := tq_start + FIRST_LEVEL <= a /\ a + n <= be.

Lemma bytes_image m a (bs : list Z) :
  image_kept ram0 be m -> bytes_at ram0 a bs -> in_image a (Z.of_nat (length bs)) -> bytes_at m a bs.
Proof.
  intros [_ Hi] Hb [H1 H2] j b Hj. rewrite Hi; [by apply Hb|]. apply lookup_lt_Some in Hj. lia.
Qed.

Lemma read_bytes_image m n a :
  image_kept ram0 be m -> in_image a (Z.of_nat n) -> read_bytes n a m = read_bytes n a ram0.
Proof.
  intros [_ Hi] [H1 H2]. unfold read_bytes. apply Forall_mapM_ext, Forall_forall. intros i [Hi1 Hi2]%elem_of_seq.
  unfold load8. rewrite Hi by lia. done.
Qed.

Lemma start_ramdisk_ok rs rl s1 s2 M :
  image_kept ram0 be (ram_of M.(ma_kernel)) -> cstr ram0 rs s1 -> cstr ram0 rl s2 ->
  in_image rs (Z.of_nat (length s1) + 1) -> in_image rl (Z.of_nat (length s2) + 1) ->
  exists d, start_ramdisk rs rl M = Some (with_ma_kernel (with_sys (with_disk d M.(ma_kernel).(k_sys)) M.(ma_kernel)) M) /\
    d.(alloc) = M.(ma_kernel).(k_sys).(disk).(alloc).
Proof.
  intros Hk [C1 C2] [C3 C4] H1 H2.
  assert (Hs : cstr (ram_of M.(ma_kernel)) rs s1 /\ cstr (ram_of M.(ma_kernel)) rl s2).
  { split; split; try done; apply bytes_image; try done; rewrite length_app, Nat2Z.inj_add; done. }
  unfold start_ramdisk, mount_ramdisk. rewrite (strcmp_ok s1 s2) by apply Hs.
  unfold truth at 1. destruct H1 as [H1 _]. rewrite (proj2 (Z.eqb_neq rs 0)) by (unfold tq_start, FIRST_LEVEL in H1; lia).
  cbn [negb]. rewrite bind_Some_eq. destruct (truth _); rewrite bind_Some_eq; by eexists.
Qed.

Lemma up_disk d l n z K :
  up l n z K -> d.(alloc) = K.(k_sys).(disk).(alloc) -> up l n z (with_sys (with_disk d K.(k_sys)) K).
Proof.
  intros [H1 H2 H3 H4] E.
  assert (Es : slab_of (with_sys (with_disk d K.(k_sys)) K) = slab_of K) by exact E.
  constructor; unfold mm_of; rewrite ?Es; done.
Qed.

(** ** The idle task *)

Context (page_struct_va : Z -> Z) (task_mutex : Z -> Z) (stale : Z -> task_struct).

Lemma small_task : small_size SIZEOF_TASK 224.
Proof. constructor; [done|reflexivity|done|done|]. eexists. split; [reflexivity|done]. Qed.

(** What [build_idle_task] writes into the structure at [t]. *)
Definition idle_struct (t : Z) (bytes : list Z) : task_struct :=
  with_parent 0 (with_flag PROCESS_TYPE_KERNEL (set_name bytes (with_uid 0 (with_pid (-1) (stale t))))).

(** The kernel in which the idle task, at the start of page [c], is the current one. *)
Record idling (c : Z) (bytes : list Z) (ms : list Z) K z kp : Prop := {
  id_good : good (Task.sched_of K) (Abs {[page_id_to_va tq_start c := idle_task (idle_struct (page_id_to_va tq_start c) bytes)]} empty_view);
  id_mwf : mwf (Task.sched_of K) (fun _ => []) (fun _ => []);
  id_quiet : forall m, m ∈ task_mutex (page_id_to_va tq_start c) :: ms -> quiet (Task.sched_of K) m;
  id_count : forall m, is_Some ((Task.sched_of K).(mutex_count) !! m) -> m ∈ task_mutex (page_id_to_va tq_start c) :: ms;
  id_idle : (Task.sched_of K).(idle) = page_id_to_va tq_start c /\ (Task.sched_of K).(current) = page_id_to_va tq_start c;
  id_child : is_list (Task.sched_of K).(heap) (TChild (page_id_to_va tq_start c)) [];
  id_slab : slab_ready tq_start (slab_of K) SIZEOF_TASK c [page_id_to_va tq_start (c + 1)] kp
    (page_id_to_va tq_start (c + 1) + SLAB_HEADER_SIZE);
  id_next : kp.(free_base) = page_id_to_va tq_start c + 224;
  id_run : @run_ready _ _ (calm_locks (Task.sched_of K)) tq_start zone_mutex tq_offset 1 z (mm_of K) /\ z.(bm_current) = c + 2
}.

Lemma quiet_idle_mutex l m : quiet l m -> idle_mutex l m.
Proof.
  intros [Q1 Q2 Q3]. constructor; [done|done|]. apply (is_list_alloc _ (MutexTask m) [] _ Q3). by apply elem_of_cons; left.
Qed.

Lemma build_idle_ok ms l z K nm bytes :
  up l (1 + 2) z K -> booting ms l -> refines l (Abs ∅ empty_view) -> l.(schedule_running) = 1 ->
  zone_mutex MM_ZONE_NORMAL ∈ ms -> slab_mutex ∈ ms -> slab_mutex <> zone_mutex MM_ZONE_NORMAL ->
  task_mutex (page_id_to_va tq_start z.(bm_current)) ∉ ms -> read_bytes 16 nm (ram_of K) = Some bytes ->
  exists K' z' kp, build_idle_task tq_start zone_mutex slab_mutex page_struct_va task_mutex stale nm K = Some (0, K') /\
    idling z.(bm_current) bytes ms K' z' kp /\ ram_of K' = ram_of K /\ K'.(k_pids) = K.(k_pids).
Proof.
  intros Hu Hb Hr Hrun Hz Hsl Hne Htm Hby. set (c := z.(bm_current)). set (t := page_id_to_va tq_start c).
  destruct (up_va zone_mutex ram0 be _ _ _ _ Hu) as (Eva & Hnz & Hend & H0). fold c in Eva, Hnz, Hend, H0. fold t in Eva, Hnz.
  destruct Hu as [Hp Hf _ _].
  destruct (kmalloc_first_ok tq_start zone_mutex slab_mutex tq_offset tq_start_range l 1 z (slab_of K) SIZEOF_TASK 224
    Hp ltac:(lia) Hf small_task (bo_quiet _ _ Hb _ Hsl) Hne) as (s & z' & kp & E & Hp' & Ec & Hs & Hk).
  fold c in E, Ec, Hs, Hk. fold t in E, Hk.
  assert (Els : s.(mm).(locks) = l) by apply Hp'.
  set (k := idle_struct t bytes).
  assert (Ht : 0 < t < 2 ^ 32) by (unfold tq_start in *; lia).
  assert (Hkk : k.(flag) = PROCESS_TYPE_KERNEL /\ k.(pid) = -1) by done.
  destruct (idle_start ms l t (task_mutex t) k Hb Hr Hrun Ht Hkk) as (s1 & E1 & Hg & Hi & Hc & Hm & Hh).
  destruct (idle_mutexes ms l t (task_mutex t) k Hb Hr Hrun Ht Htm Hkk s1 Hm Hh) as (Hmw & Hq & Hch).
  { intros x [k0 Hx]. rewrite (proj2 (good_refines _ _ Hg)) in Hx. cbn [a_tasks] in Hx.
    by apply lookup_singleton_Some in Hx as [-> _]. }
  apply bind_Some in E1 as (s0 & E0 & E1).
  exists (with_sched s1 (with_slab s K)), z', kp. split; [|split; [|split; done]].
  - unfold build_idle_task, kmalloc_task. cbv zeta. cbn [ka_kmalloc slab_kmalloc]. rewrite E, !bind_Some_eq. cbv beta iota zeta.
    rewrite (proj2 (Z.eqb_neq t 0)) by lia.
    set (K2 := with_sched (with_idle t _) _).
    assert (Et2 : task_at t K2 = Some (stale t)) by apply lookup_insert_eq.
    rewrite Et2, bind_Some_eq. change (ram_of K2) with (ram_of K). rewrite Hby, bind_Some_eq.
    fold (idle_struct t bytes). fold k. unfold on_sched. cbv beta. rewrite !bind_Some_eq.
    set (sm := init_mutex _ _).
    assert (Esm : sm = idle_made l t (task_mutex t) k).
    { unfold sm, idle_made. change (Task.sched_of (put_task t k K2)) with (with_tasks (<[t := k]> (<[t := stale t]> s.(mm).(locks).(tasks)))
        (with_idle t s.(mm).(locks))). rewrite Els. cbn [heap with_tasks]. by rewrite insert_insert_eq. }
    rewrite Esm. change (Task.sched_of (with_sched (idle_made l t (task_mutex t) k) (put_task t k K2)))
      with (idle_made l t (task_mutex t) k). rewrite E0, !bind_Some_eq.
    change (Task.sched_of (with_sched s0 (with_sched (idle_made l t (task_mutex t) k) (put_task t k K2)))) with s0.
    by rewrite E1, !bind_Some_eq.
  - constructor; change (Task.sched_of (with_sched s1 (with_slab s K))) with s1; try done.
    + intros m [cm Em]. rewrite Hm in Em. apply elem_of_cons. destruct (decide (m = task_mutex t)) as [->|Hnm]; [by left|right].
      rewrite lookup_insert_ne, (bo_count _ _ Hb) in Em by done. by case_decide.
    + change (slab_of (with_sched s1 (with_slab s K))) with (with_slab_locks s1 s). by apply slab_ready_locks.
    + split; [|exact Ec]. destruct Hp' as (_ & _ & _ & Hrr).
      apply (run_reset (LO := calm_locks s1) _ _ _ (Mk_origin s.(mm).(page_map) z'.(bm_current) (z'.(z_free_pages) + z'.(bm_current)))).
      apply (run_from_keep (LO1 := start_locks l) (LO2 := calm_locks s1) _ _ _ _ _ _ s.(mm)); try done.
      split; [by apply (good_lock_wf _ _ _ _ Hg Hmw)|]. split; [reflexivity|].
      apply quiet_idle_mutex, Hq, elem_of_cons. by right.
Qed.

(** ** [main] up to the interrupt table *)

Context (Hbe : tq_start < be <= 0x80e00000).
Context (vector_start vector_end : Z) (code : list Z) (mb : Z).

Abbreviation used := (used_pages be).
Abbreviation early_mutexes := (slab_mutex :: rev (zone_mutexes zone_mutex)).

Lemma bss_disable K : bss ram0 be K -> bss ram0 be (with_sched (disable_irqs (Task.sched_of K)) K).
Proof.
  intros [B1 B2 B3 B4 B5 B6]. constructor; try done. apply (booting_frame [] (Task.sched_of K)); try done. apply (bo_current _ _ B4).
Qed.

Lemma main_early_ok M :
  bss ram0 be M.(ma_kernel) -> vectors_fit ram0 be vector_start vector_end code mb ->
  exists M' l z, main_early dev_read tq2440_parse_memory_region tq_start tq_phy be vector_start vector_end zone_mutex slab_mutex M = Some M' /\
    up l 5 z M'.(ma_kernel) /\ z.(bm_current) = used + 4 /\ booting early_mutexes l /\
    M'.(ma_cpu) = with_stacks tq_start used (Mk_cpu true M.(ma_cpu).(mode_sp)) /\
    tq_mapped (ram_of M'.(ma_kernel)) /\ vectors_at code mb (ram_of M'.(ma_kernel)) /\
    irq_wf (irq_part M') /\ get_des TIMER4 (irq_part M') = Some no_des /\ M'.(ma_signals) = M.(ma_signals).
Proof.
  intros Hbss Hfit. unfold main_early, on_sched. rewrite !bind_Some_eq. cbv zeta.
  destruct (console_early_init _ _) as [? p1].
  set (M1 := with_ma_plat p1 _).
  destruct (start_mm_ok zone_mutex ram0 be Hbe M1 (bss_disable _ Hbss)) as (K2 & l & E2 & H2 & Hb2 & Hs2).
  rewrite E2, bind_Some_eq. destruct (console_late_init _ _) as [? p2]. set (M2 := with_ma_plat p2 _).
  destruct (start_slab_ok zone_mutex ram0 be Hbe slab_mutex l M2 H2 Hb2 Hs2) as (K3 & E3 & H3 & Hb3 & Hs3).
  rewrite E3, bind_Some_eq. set (M3 := with_ma_kernel K3 M2). set (l3 := init_mutex slab_mutex l) in *.
  destruct (start_trap_ok zone_mutex ram0 be Hbe vector_start vector_end code mb l3 M3 Hfit H3 Hs3) as (K4 & z4 & E4 & H4 & Ec4 & Hm4 & Hv4).
  rewrite E4, bind_Some_eq. set (M4 := with_ma_cpu _ _).
  destruct (start_stacks_ok l3 6 _ M4 H4 ltac:(lia)) as (s5 & z5 & E5 & H5 & Ec5).
  rewrite E5, bind_Some_eq. set (M5 := with_ma_cpu _ (with_ma_kernel (with_kernel_mm s5 _) M4)).
  destruct (start_irq_ok l3 5 z5 M5 H5 ltac:(lia)) as (s6 & z6 & E6 & H6 & Ec6).
  destruct (up_va zone_mutex ram0 be _ _ _ _ H5) as (Ev5 & _ & Hend & H05).
  eexists _, l3, z6. split; [exact E6|]. split; [exact H6|]. split; [lia|]. split; [exact Hb3|]. split; [by rewrite <- Ec4|].
  split; [exact Hm4|]. split; [exact Hv4|]. split; [|split; [reflexivity|reflexivity]].
  constructor; [|reflexivity]. change (irq_table_base _) with (page_id_to_va tq_start z5.(bm_current)). rewrite Ev5.
  unfold tq_start, IRQ_NR in *. lia.
Qed.

(** ** The first kernel thread *)

Lemma idling_range c bytes ms K z kp :
  idling c bytes ms K z kp -> 0 < c -> page_id_to_va tq_start c = tq_start + 4096 * c /\ tq_start + 4096 * (c + 3) < 2 ^ 32.
Proof.
  intros [_ _ _ _ _ _ _ _ [Hr Ec]] H0.
  pose proof (rr_va (LO := calm_locks (Task.sched_of K)) _ _ _ _ _ _ _ Hr) as Hv.
  pose proof (rr_cur (LO := calm_locks (Task.sched_of K)) _ _ _ _ _ _ _ Hr) as Hc.
  unfold tq_start in *. split; [apply page_va_eq; lia|lia].
Qed.

(** The next slice of the slab is where the first thread's structure goes. *)
Definition killer_addr (c : Z) : Z := page_id_to_va tq_start c + 224.

Lemma idling_ready c bytes ms K z kp x :
  idling c bytes ms K z kp -> 0 < c -> pid_wf K.(k_pids) -> K.(k_pids).(pid_current) < K.(k_pids).(pid_nr) ->
  slab_mutex ∈ ms -> pid_mutex ∈ ms -> zone_mutex MM_ZONE_NORMAL ∈ ms ->
  task_mutex (killer_addr c) ∉ task_mutex (page_id_to_va tq_start c) :: ms ->
  thread_ready tq_start zone_mutex slab_mutex pid_mutex task_mutex (killer_addr c)
    (with_sched (with_cpsr_c x (Task.sched_of K)) K)
    (Abs {[page_id_to_va tq_start c := idle_task (idle_struct (page_id_to_va tq_start c) bytes)]} empty_view)
    (fun _ => []) (fun _ => []) c [page_id_to_va tq_start (c + 1)] kp
    (page_id_to_va tq_start (c + 1) + SLAB_HEADER_SIZE) z tq_offset.
Proof.
  intros Hi H0 Hp Hlt Hsl Hpm Hz Htm. destruct (idling_range _ _ _ _ _ _ Hi H0) as [Eva Hend].
  destruct Hi as [Hg Hm Hq Hc [Hi1 Hi2] Hch Hs Hk [Hr Ec]]. unfold killer_addr in *.
  set (s := Task.sched_of K) in *. set (s1 := with_cpsr_c x s).
  assert (Hg1 : good s1 (Abs {[page_id_to_va tq_start c := idle_task (idle_struct (page_id_to_va tq_start c) bytes)]} empty_view)).
  { destruct Hg as [G1 G2 G3 G4 G5 G6]. constructor; try done. ctl G1. }
  assert (Hm1 : mwf s1 (fun _ => []) (fun _ => [])) by (by apply (mwf_frame s)).
  assert (Hq1 : forall m, m ∈ ms -> idle_mutex s1 m).
  { intros m Hin. destruct (quiet_idle_mutex s m) as [I1 I2 I3]; [by apply Hq, elem_of_cons; right|]. by constructor. }
  assert (Hnz : page_id_to_va tq_start c <> page_id_to_va tq_start c + 224) by lia.
  constructor; change (Task.sched_of (with_sched s1 K)) with s1.
  - exact Hg1.
  - exact Hm1.
  - change (slab_of (with_sched s1 K)) with (with_slab_locks s1 (slab_of K)). by apply slab_ready_locks.
  - split; [exact Hk|]. unfold tq_start in *. lia.
  - rewrite (proj2 (good_refines _ _ Hg1)). cbn [a_tasks]. by apply lookup_singleton_ne.
  - destruct (mutex_count s1 !! _) eqn:E; [|reflexivity]. exfalso. apply Htm, Hc. by eexists.
  - split; by apply Hq1.
  - done.
  - split; [apply tq_start_range|reflexivity].
  - apply (run_reset (LO := calm_locks s1) _ _ _ (Mk_origin (mm_of K).(page_map) z.(bm_current) (z.(z_free_pages) + z.(bm_current)))).
    apply (run_from_keep (LO1 := calm_locks s) (LO2 := calm_locks s1) _ _ _ _ _ _ (mm_of K)); try done.
    split; [by apply (good_lock_wf _ _ _ _ Hg1 Hm1)|]. split; [reflexivity|by apply Hq1].
Qed.

(** Two tasks: the idle task [t] runs, the thread [u] that runs [fn] is ready. *)
Record two_tasks (t u fn : Z) (ibytes kbytes : list Z) (K : kernel) : Prop := {
  tt_tasks : exists a ki ku, good (Task.sched_of K) a /\ a.(a_tasks) = <[u := ku]> {[t := ki]} /\
    (forall q, a.(a_view) q = if decide (q = Q_ready (KERNEL_THREAD_PRIO - 1)) then [u]
       else if decide (q = Q_system) then [u] else []) /\
    (ki.(pid) = -1 /\ ki.(state) = PROCESS_STATE_RUNNING /\ take 16 ki.(name) = ibytes) /\
    (ku.(pid) = 0 /\ ku.(state) = PROCESS_STATE_PREPARE /\ ku.(parent) = t /\ take 16 ku.(name) = kbytes) /\
    (switch_to_frame ku.(stack_base) (ram_of K) =
       Some (Mk_context [0; 1; 2; 3; 4; 5; 6; 7; 8; 9; 10; 11; 12] (ku.(stack_origin) + KERNEL_STACK_SIZE) 14 fn SVC_MODE));
  tt_current : (Task.sched_of K).(current) = t /\ (Task.sched_of K).(idle) = t;
  tt_mutexes : mwf (Task.sched_of K) (fun _ => []) (fun _ => []);
  tt_child : is_list (Task.sched_of K).(heap) (TChild t) [TP u];
  tt_pids : aget K.(k_pids).(pid_tasks) 0 = Some u /\ pid_wf K.(k_pids)
}.

Lemma start_killer_ok c ibytes kbytes ms K z kp x nm fn :
  idling c ibytes ms K z kp -> 0 < c -> pid_wf K.(k_pids) -> K.(k_pids).(pid_current) = 0 -> K.(k_pids).(pid_nr) = 1024 ->
  slab_mutex ∈ ms -> pid_mutex ∈ ms -> zone_mutex MM_ZONE_NORMAL ∈ ms ->
  task_mutex (killer_addr c) ∉ task_mutex (page_id_to_va tq_start c) :: ms ->
  length ibytes = 16%nat -> nm <> 0 -> read_bytes 16 nm (ram_of K) = Some kbytes -> 0 < fn < 2 ^ 32 ->
  room (ram_of K) (tq_start + 4096 * z.(bm_current)) KERNEL_STACK_SIZE ->
  exists K', kthread_run tq_start zone_mutex slab_mutex page_struct_va pid_mutex task_mutex stale nm fn 0
      (with_sched (with_cpsr_c x (Task.sched_of K)) K) = Some (0, K') /\
    two_tasks (page_id_to_va tq_start c) (killer_addr c) fn ibytes kbytes K'.
Proof.
  intros Hi H0 Hpw Hp0 Hpn Hsl Hpm Hz Htm Hlen Hnm Hby Hfn Hroom.
  pose proof (idling_ready _ _ _ _ _ _ x Hi H0 Hpw ltac:(lia) Hsl Hpm Hz Htm) as Hr.
  destruct (idling_range _ _ _ _ _ _ Hi H0) as [Eva Hend].
  set (t := page_id_to_va tq_start c) in *. set (K1 := with_sched _ K) in *.
  pose proof (id_good _ _ _ _ _ _ Hi) as Hg. destruct (id_idle _ _ _ _ _ _ Hi) as [Hi1 Hi2].
  set (k := idle_task (idle_struct t ibytes)) in *.
  destruct (kthread_run_ok tq_start zone_mutex slab_mutex page_struct_va pid_mutex task_mutex stale (killer_addr c) K1 _ _ _ _ _ _ _ _ _ Hr
    nm fn 0 kbytes k []) as (K' & E & Hg' & Hm' & Hl & Hp' & Hpw' & Hf & Hc' & Hi').
  { done. } { exact Hby. }
  { change (tasks (Task.sched_of K1) !! idle (Task.sched_of K1)) with (tasks (Task.sched_of K) !! idle (Task.sched_of K)).
    rewrite Hi1, (proj2 (good_refines _ _ Hg)). apply lookup_singleton_eq. }
  { change (idle (Task.sched_of K1)) with (idle (Task.sched_of K)). rewrite Hi1. apply (id_child _ _ _ _ _ _ Hi). }
  { apply not_elem_of_nil. } { exact Hfn. } { done. } { exact Hroom. }
  change (idle (Task.sched_of K1)) with (idle (Task.sched_of K)) in *. rewrite Hi1 in *.
  change (pid_current (k_pids K1)) with (pid_current (k_pids K)) in Hp'. rewrite Hp0 in Hp'.
  set (top := tq_start + 4096 * z.(bm_current) + KERNEL_STACK_SIZE) in *.
  set (ku := with_stack_base (top - 72) _) in *. rewrite (add_ready _ ku) in Hg' by reflexivity.
  assert (Epid : ku.(pid) = 0) by exact Hp0.
  assert (Eprio : ku.(prio) = KERNEL_THREAD_PRIO - 1).
  { change (prio ku) with (thread_prio ku.(pid)). by rewrite Epid. }
  assert (Ews : forall k0, pid (with_state PROCESS_STATE_PREPARE k0) = pid k0) by done.
  exists K'. split; [exact E|]. constructor.
  - eexists _, k, (with_state PROCESS_STATE_PREPARE ku). split; [exact Hg'|]. cbn [a_tasks a_view]. split; [reflexivity|]. split.
    { intros q. rewrite (ready_view _ ku (KERNEL_THREAD_PRIO - 1)); [reflexivity|reflexivity|exact Eprio]. }
    split; [split; [reflexivity|split; [reflexivity|]]|split; [split; [by rewrite Ews|split; [reflexivity|split; [reflexivity|]]]|]].
    + change (name k) with (ibytes ++ drop 16 (stale t).(name)). by apply take_app_length'.
    + change (take 16 (kbytes ++ drop 16 (take 16 k.(name) ++ drop 16 (stale (killer_addr c)).(name))) = kbytes).
      apply take_app_length'. by apply length_mapM in Hby as <-.
    + change (stack_base (with_state PROCESS_STATE_PREPARE ku)) with (top - 72). rewrite Hf. reflexivity.
  - rewrite Hc', Hi'. change (current (Task.sched_of K1)) with (current (Task.sched_of K)). split; [exact Hi2|reflexivity].
  - exact Hm'.
  - exact Hl.
  - done.
Qed.

(** ** The image, and the run *)

Context (tick_handler : Z) (syscalls : list syscall) (ramdisk_start ramdisk_literal : Z) (disk_bytes literal_bytes : list Z).
Context (idle_name killer_name killer_entry : Z) (ibytes kbytes : list Z).

(** What the start-up relies on in the image, with the addresses the linker and the
    allocators give: [c] is the page of the first task structures. *)
Record boot_image (c : Z) : Prop := {
  bi_mutex : slab_mutex <> zone_mutex MM_ZONE_NORMAL;
  bi_task_mutex : (task_mutex (killer_addr c) ∉ task_mutex (page_id_to_va tq_start c) :: pid_mutex :: early_mutexes) /\
    (task_mutex (page_id_to_va tq_start c) ∉ pid_mutex :: early_mutexes);
  bi_calls : addrs_ok syscalls /\ tick_handler <> 0 /\ 0 < killer_entry < 2 ^ 32;
  bi_disk : cstr ram0 ramdisk_start disk_bytes /\ in_image ramdisk_start (Z.of_nat (length disk_bytes) + 1);
  bi_literal : cstr ram0 ramdisk_literal literal_bytes /\ in_image ramdisk_literal (Z.of_nat (length literal_bytes) + 1);
  bi_idle : in_image idle_name 16 /\ read_bytes 16 idle_name ram0 = Some ibytes;
  bi_killer : in_image killer_name 16 /\ read_bytes 16 killer_name ram0 = Some kbytes
}.

Lemma with_tick_kernel tick p M : (with_tick tick p M).(ma_kernel) = M.(ma_kernel).
Proof. apply with_sched_id. Qed.

Lemma on_kernel_ok f r M K : f M.(ma_kernel) = Some (r, K) -> on_kernel f M = Some (with_ma_kernel K M).
Proof. intros E. unfold on_kernel. by rewrite E, bind_Some_eq. Qed.

Lemma main_late_ok l z M :
  let c := z.(bm_current) + 1 in
  boot_image c -> up l 4 z M.(ma_kernel) -> booting early_mutexes l -> c + 2 < 0x3c00 ->
  irq_wf (irq_part M) -> get_des TIMER4 (irq_part M) = Some no_des -> M.(ma_signals) = signal_table ->
  exists M', main_late dev_read tq_start zone_mutex slab_mutex pid_mutex page_struct_va task_mutex stale
      tick_handler ramdisk_start ramdisk_literal idle_name killer_name killer_entry M = Some M' /\
    two_tasks (page_id_to_va tq_start c) (killer_addr c) killer_entry ibytes kbytes M'.(ma_kernel) /\
    get_des TIMER4 (irq_part M') = Some (Mk_irq_des tick_handler 0) /\ M'.(ma_syscalls) = M.(ma_syscalls).
Proof.
  intros c [B1 [B2 B3] (B4 & B5 & B6) [D1 D2] [L1 L2] [I1 I2] [N1 N2]] Hu Hb Hc Hw Hd Hs.
  unfold main_late. rewrite Hs. set (sigs := init_signal_handler _ _ _ _ _ _).
  destruct sigs as [tbl|] eqn:Esig; [|discriminate]. rewrite bind_Some_eq. set (M1 := with_ma_signals tbl M).
  destruct (start_timer_ok tick_handler M1 Hw Hd (up_layout _ _ _ _ _ _ _ Hu) B5) as (p & E1). rewrite E1, bind_Some_eq.
  set (M2 := with_tick tick_handler p M1).
  assert (Ek2 : M2.(ma_kernel) = M.(ma_kernel)) by exact (with_tick_kernel tick_handler p M1).
  assert (Hzm : zone_mutex MM_ZONE_NORMAL ∈ early_mutexes) by (apply elem_of_cons; right; by apply (zone_mutex_in zone_mutex be)).
  destruct (sched_init_start_ok early_mutexes l 3 z M2.(ma_kernel)) as (l3 & z3 & K3 & E3 & H3 & Ec3 & Er3 & Hb3 & Hr3 & Hrun & Hpw & Hp0 & Hpn);
    [by rewrite Ek2|lia|exact Hb|exact Hzm|].
  rewrite (on_kernel_ok _ _ _ _ E3), bind_Some_eq. set (M3 := with_ma_kernel K3 M2).
  destruct (start_ramdisk_ok ramdisk_start ramdisk_literal disk_bytes literal_bytes M3 (up_ram _ _ _ _ _ _ _ H3) D1 L1 D2 L2) as (d & E4 & Ed).
  rewrite E4, bind_Some_eq. set (K4 := with_sys _ _). set (M4 := with_ma_kernel K4 M3).
  assert (H4 : up l3 (1 + 2) z3 K4) by exact (up_disk d l3 3 z3 K3 H3 Ed).
  assert (Hin : forall m, m ∈ early_mutexes -> m ∈ pid_mutex :: early_mutexes) by (intros; apply elem_of_cons; by right).
  pose proof (up_ram _ _ _ _ _ _ _ H4) as Hi4.
  destruct (build_idle_ok (pid_mutex :: early_mutexes) l3 z3 K4 idle_name ibytes H4 Hb3 Hr3 Hrun) as (K5 & z5 & kp & E5 & H5 & Er5 & Ep5);
    [by apply Hin|apply Hin, elem_of_cons; by left|exact B1|by rewrite Ec3|by rewrite (read_bytes_image (ram_of K4) 16 idle_name Hi4 I1)|].
  rewrite Ec3 in H5. fold c in H5.
  rewrite (on_kernel_ok _ _ M4 _ E5), bind_Some_eq. set (M5 := with_ma_kernel K5 M4).
  set (s6 := enable_irqs (Task.sched_of K5)).
  rewrite (on_kernel_ok _ 0 M5 (with_sched s6 K5)) by reflexivity. rewrite bind_Some_eq.
  set (M6 := with_ma_kernel _ M5). destruct (id_run _ _ _ _ _ _ H5) as [_ Ec5].
  destruct (up_va zone_mutex ram0 be _ _ _ _ Hu) as (_ & _ & _ & H0).
  destruct (start_killer_ok c ibytes kbytes (pid_mutex :: early_mutexes) K5 z5 kp (Z.land (cpsr_c (Task.sched_of K5)) (Z.lnot 0xc0))
    killer_name killer_entry H5) as (K7 & E7 & Ht).
  { unfold c. lia. } { by rewrite Ep5. } { by rewrite Ep5. } { by rewrite Ep5. }
  { apply Hin, elem_of_cons. by left. } { apply elem_of_cons. by left. } { by apply Hin. } { exact B2. }
  { by apply length_mapM in I2 as <-. } { destruct N1. unfold tq_start, FIRST_LEVEL in *. lia. }
  { by rewrite Er5, (read_bytes_image _ 16 killer_name Hi4 N1). } { exact B6. }
  { rewrite Er5, Ec5. apply (room_le _ tq_start 0x4000000); [apply Hi4|lia|unfold KERNEL_STACK_SIZE; lia]. }
  rewrite (on_kernel_ok _ 0 M6 K7 E7). eexists. split; [reflexivity|]. split; [exact Ht|]. split; [|reflexivity].
  unfold get_des. cbn [irq_table irq_part]. change (ma_irq_table (with_ma_kernel K7 M6)) with (<[Z.to_nat TIMER4 := Mk_irq_des tick_handler 0]> M.(ma_irq_table)).
  apply aget_Some. split; [done|]. apply list_lookup_insert_eq. destruct Hw as [_ Hl]. cbn [irq_table irq_part] in Hl. rewrite Hl.
  unfold TIMER4, IRQ_NR. lia.
Qed.

(** C2. The start-up of the tq2440 from the zeroed data of the image succeeds up to the
    first kernel thread.  Then (1) memory is mapped linearly for the kernel, no user
    address is, and the high vectors hold the vector code; (2) the stacks of the
    exception modes are the three pages after the page tables, before the vectors; (3)
    the timer's line runs its handler and the call table holds the first entry of each
    number; (4) the scheduler is consistent: the idle task runs, the system killer, its
    child with pid 0, waits alone in its ready queue with its stack set up to run its
    function, and nobody holds or waits for a mutex. *)
Theorem main_starts_kernel M
    (Hram : bss ram0 be M.(ma_kernel))
    (Hsig : M.(ma_signals) = signal_table)
    (Hvec : vectors_fit ram0 be vector_start vector_end code mb)
    (Himg : boot_image (used + 6)) :
  let t := page_id_to_va tq_start (used + 6) in
  exists M1 M2 M3 base table,
    main_early dev_read tq2440_parse_memory_region tq_start tq_phy be vector_start vector_end zone_mutex slab_mutex M = Some M1 /\
    start_syscalls tq_start zone_mutex syscalls M1 = Some (Goes M2) /\
    main_late dev_read tq_start zone_mutex slab_mutex pid_mutex page_struct_va task_mutex stale tick_handler
      ramdisk_start ramdisk_literal idle_name killer_name killer_entry M2 = Some M3 /\
    (forall kva va, (0x80000000 <= va < 0x84000000 -> mmu_walk kva (ram_of M1.(ma_kernel)) va = Some (va - 0x50000000)) /\
       (0x84000000 <= va < 0x97000000 -> mmu_walk kva (ram_of M1.(ma_kernel)) va = Some (va - 0x3c000000)) /\
       (0 <= va < 0x80000000 -> mmu_walk kva (ram_of M1.(ma_kernel)) va = None)) /\
    vectors_at code mb (ram_of M1.(ma_kernel)) /\
    M1.(ma_cpu) = with_stacks tq_start used (Mk_cpu true M.(ma_cpu).(mode_sp)) /\ used + 3 <= vector_page mb /\
    M3.(ma_syscalls) = Some (base, table) /\
    (forall i, 0 <= i < SYSCALL_NR -> aget table i = Some (first_entry syscalls (i + __NR_SYSCALL_BASE))) /\
    get_des TIMER4 (irq_part M3) = Some (Mk_irq_des tick_handler 0) /\
    two_tasks t (killer_addr (used + 6)) killer_entry ibytes kbytes M3.(ma_kernel).
Proof.
  destruct (main_early_ok M Hram Hvec) as (M1 & l & z & E1 & H1 & Ec & Hb & Hcpu & Hmap & Hv & Hw & Hd & Hs).
  destruct (start_syscalls_ok l 4 z M1 syscalls H1 ltac:(lia) ltac:(apply (bi_calls _ Himg))) as (s & z2 & tbl & E2 & H2 & Ec2 & Ht).
  set (M2 := with_ma_syscalls _ _) in E2.
  destruct (main_late_ok l z2 M2) as (M3 & E3 & Htt & Htm & Hsys).
  - rewrite Ec2, Ec. by replace (used + 4 + 1 + 1) with (used + 6) by lia.
  - exact H2.
  - exact Hb.
  - destruct (vf_page _ _ _ _ _ _ Hvec). unfold vector_page in *. lia.
  - destruct Hw as [W1 W2]. constructor; [exact W1|exact W2].
  - exact Hd.
  - exact (eq_trans Hs Hsig).
  - rewrite Ec2, Ec in Htt. replace (used + 4 + 1 + 1) with (used + 6) in Htt by lia.
    exists M1, M2, M3, (page_id_to_va tq_start z.(bm_current)), tbl.
    split; [exact E1|]. split; [exact E2|]. split; [exact E3|]. split; [intros kva va; by apply tq_mapped_walk|].
    split; [exact Hv|]. split; [exact Hcpu|]. split; [|split; [exact Hsys|split; [exact Ht|split; [exact Htm|exact Htt]]]].
    destruct (vf_page _ _ _ _ _ _ Hvec). lia.
Qed.
End steps.

(** ** A small image

    The image ends at 0x80040000; it holds vector code, the two names, and a ram disk
    whose magic is the literal. *)

Definition demo_end : Z := 0x80040000.

Lemma demo_used : used_pages demo_end = 161.
Proof. vm_compute. reflexivity. Qed.

Definition demo_magic : list Z := [114; 100].
Definition demo_idle : list Z := [105; 100; 108; 101; 0; 0; 0; 0; 0; 0; 0; 0; 0; 0; 0; 0].
Definition demo_killer : list Z := [107; 105; 108; 108; 101; 114; 0; 0; 0; 0; 0; 0; 0; 0; 0; 0].

Definition demo_image (m : mem) : mem :=
  write 0x80008000 trap_code (write 0x80009000 (demo_magic ++ [0]) (write 0x8000a000 (demo_magic ++ [0])
    (write 0x8000b000 demo_idle (write 0x8000c000 demo_killer m)))).

Lemma bytes_at_under m a b (l k : list Z) :
  bytes_at m a l -> a + Z.of_nat (length l) <= b \/ b + Z.of_nat (length k) <= a -> bytes_at (write b k m) a l.
Proof. intros Hb Hd j c Hj. rewrite lookup_write_out; [by apply Hb|]. apply lookup_lt_Some in Hj. lia. Qed.

Lemma read_bytes_at m a (l : list Z) : bytes_at m a l -> read_bytes (length l) a m = Some l.
Proof.
  intros Hb. unfold read_bytes. apply mapM_Some, Forall2_same_length_lookup. split; [apply length_seq|].
  intros i x y Hx Hy. apply lookup_seq in Hx as [-> _]. by apply Hb.
Qed.

Ltac under := repeat first [apply write_bytes | apply bytes_at_under; [|simpl; lia]].

Section demo.
Context (m : mem) (Hm : room m tq_start 0x4000000).

Definition demo_start_sched : sched_state := Mk_sched ∅ ∅ (replicate 64 0) 0 0 0 0 0 0 0 0 0x13 ∅.
Definition demo_start_mm : mm_state sched_state :=
  Mk_mm bss_bank (replicate (Z.to_nat 0x4000) blank_page) [] ∅ demo_start_sched.
Definition demo_machine : machine := Mk_machine
  (Mk_kernel (Mk_elf_sys (Mk_ramdisk 0 0 ∅ (Mk_slab demo_start_mm None None 0 0 0 ∅)) (demo_image m) ∅ ∅) (Mk_pid_map 0 0 0 0 []))
  (Mk_info (replicate 16 null_region) 0) (Mk_platform 0 0 0 0 0 0 0 0 []) (Mk_cpu false ∅) 0 [] None signal_table.

Lemma demo_bss : bss (demo_image m) demo_end demo_machine.(ma_kernel).
Proof.
  constructor.
  - reflexivity.
  - apply length_replicate.
  - reflexivity.
  - constructor; try reflexivity. intros x Hx. by apply elem_of_nil in Hx.
  - unfold demo_image. do 5 apply room_write. exact Hm.
  - reflexivity.
Qed.

Lemma demo_vectors : vectors_fit (demo_image m) demo_end 0x80008000 0x80008004 trap_code 0.
Proof.
  constructor; rewrite ?demo_used; unfold vector_page, tq_start, FIRST_LEVEL, demo_end; try lia.
  - split; [unfold demo_image; under|repeat constructor; lia].
  - split; [reflexivity|lia].
Qed.

Lemma demo_boot_image :
  boot_image (fun i => 0x80020000 + 32 * i) 0x80030000 0x80030100 (demo_image m) demo_end (fun t => t + 100)
    0x80001000 demo_entries 0x80009000 0x8000a000 demo_magic demo_magic 0x8000b000 0x8000c000 0x80002000
    demo_idle demo_killer (161 + 6).
Proof.
  constructor; unfold in_image, tq_start, FIRST_LEVEL, demo_end.
  - done.
  - split; apply (bool_decide_unpack _); vm_compute; exact I.
  - split; [repeat constructor; vm_compute; congruence|]. split; [done|lia].
  - split; [split; [unfold demo_image; under|repeat constructor; lia]|simpl; lia].
  - split; [split; [unfold demo_image; under|repeat constructor; lia]|simpl; lia].
  - split; [lia|]. apply (read_bytes_at _ _ demo_idle). unfold demo_image. under.
  - split; [lia|]. apply (read_bytes_at _ _ demo_killer). unfold demo_image. under.
Qed.
End demo.

(** 64M of zeros. *)
Definition demo_zeros : mem := write tq_start (replicate (Z.to_nat 0x4000000) 0) ∅.

Lemma main_starts_kernel_witness :
  exists M1 M2 M3,
    main_early (fun _ _ => 0) tq2440_parse_memory_region tq_start tq_phy demo_end 0x80008000 0x80008004
      (fun i => 0x80020000 + 32 * i) 0x80030000 (demo_machine demo_zeros) = Some M1 /\
    start_syscalls tq_start (fun i => 0x80020000 + 32 * i) demo_entries M1 = Some (Goes M2) /\
    main_late (fun _ _ => 0) tq_start (fun i => 0x80020000 + 32 * i) 0x80030000 0x80030100 (fun i => 0x80050000 + 24 * i)
      (fun t => t + 100) (fun _ => task0) 0x80001000 0x80009000 0x8000a000 0x8000b000 0x8000c000 0x80002000 M2 = Some M3 /\
    two_tasks (page_id_to_va tq_start 167) (killer_addr 167) 0x80002000 demo_idle demo_killer M3.(ma_kernel).
Proof.
  destruct (main_starts_kernel (fun _ _ => 0) (fun i => 0x80020000 + 32 * i) 0x80030000 0x80030100 (demo_image demo_zeros)
    demo_end (fun i => 0x80050000 + 24 * i) (fun t => t + 100) (fun _ => task0) ltac:(unfold tq_start, demo_end; lia)
    0x80008000 0x80008004 trap_code 0 0x80001000 demo_entries 0x80009000 0x8000a000 demo_magic demo_magic
    0x8000b000 0x8000c000 0x80002000 demo_idle demo_killer (demo_machine demo_zeros)
    (demo_bss demo_zeros (room_zeros tq_start 0x4000000)) eq_refl (demo_vectors demo_zeros))
    as (M1 & M2 & M3 & base & table & E1 & E2 & E3 & _ & _ & _ & _ & _ & _ & _ & Ht).
  - rewrite demo_used. apply demo_boot_image.
  - rewrite demo_used in Ht. exists M1, M2, M3. split; [exact E1|]. split; [exact E2|]. split; [exact E3|exact Ht].
Defined.
